(* ===== verification/_CoqProject ===== *)
-Q . S2P
Prelude.v
GoStd.v
Util.v
Validation.v
CoreV1.v
Storage.v
Http.v
OpenId.v
OpenIdProps.v
Rbac.v
CortexHttp.v
CortexHttpProps.v
Etcd.v
Base64.v
Tokens.v
RefJSON.v
EtcdStore.v
EtcdStoreProps.v
Crypto.v
Pkp.v
Keyring.v
EtcdKV.v
K8s.v
CrdStore.v
CrdStoreProps.v
Nats.v
JetStore.v
JetStoreProps.v
ClusterAuth.v
Trust.v
Task.v
TaskProps.v
Health.v
HealthProps.v
Monitor.v
Bootstrap.v
Management.v
ManagementProps.v
BootstrapProps.v
OsFs.v
Patch.v
PatchProps.v
PatchCache.v
PatchSync.v
Gateway.v
AlertingV1.v
AmConfig.v
AlertRouting.v
AlertRouter.v
AlertRouterProps.v
AlertBuild.v
AlertDelivery.v
AlertValid.v
AlertStorage.v
AlertSync.v
AlertSyncValid.v
AlertIncidents.v
SloV1.v
SloRules.v
SloStore.v
SloRulesProps.v
SloProps.v
MetricsBackend.v
MetricsAgent.v
MetricsProps.v
LogAdmin.v
LogAdminProps.v
OsReconciler.v
OsReconcilerProps.v
Logging.v
LogAdminApi.v
LoggingProps.v
LoggingRef.v
OsOperator.v
AlertClient.v
AlertEval.v
AlertEvalProps.v
AlertRules.v
AlertPlugin.v
AlertPluginProps.v
