(* ===== verification/Prelude.v ===== *)
(** * Opni: a verification of the gateway's core

    Opni is a multi-cluster observability platform written in Go.  Agents, one per
    downstream cluster, join a central gateway with a bootstrap token, authenticate
    every later connection with the keys agreed on at that time, and report their
    health; users act on clusters through roles; long operations run as resumable
    tasks; agents keep their plugins equal to the gateway's through binary patches;
    alarms are routed to the endpoints users attach to them through a configuration
    of Prometheus Alertmanager; service level objectives are turned into recording and
    alerting rules; the metrics of a cluster are collected while its metrics capability
    is installed; all state lives in a storage backend.  This library
    models that core and proves what makes it correct.  Paths below are relative to
    src/.

    ** The parts and the files that model them

    - [Prelude] (this file): Go errors, outcomes of calls (value, error, panic), the
      state-and-error monad [M W A] the stateful code is written in, int64 wrap-around,
      the hint database [go] and the tactics and list lemmas the other files share.
    - [GoStd], [Base64]: what the code uses of Go's standard library (strings, path,
      strconv, unicode/utf8, encoding/hex, encoding/base64), as functions, with their
      round trips and injectivity.
    - [Util]: pkg/util (status codes, slices, the lock map).
    - [Validation], [CoreV1]: pkg/validation and pkg/apis/core/v1: the messages, their
      accessors, comparators, labels and validation.
    - [Storage]: pkg/storage: cluster selection, mutators, options, role-binding taints,
      the key-value adapters, and [LinearKV], the contract of a key-value store that
      is shared with other clients.
    - [Http], [OpenId], [OpenIdProps]: requests, responses and handler chains
      with the forwarder of pkg/util/fwd, then pkg/auth/openid, noauth, test and
      machinery: the middleware that finds out which user a request comes from, and a
      reference provider.
    - [Rbac]: pkg/storage/rbac_provider.go and pkg/rbac: which clusters a subject may
      access and the middleware that enforces it.
    - [CortexHttp], [CortexHttpProps]: plugins/metrics/pkg/cortex: the HTTP routes of the
      metrics API with their middlewares, the aggregation of rules over tenants, and the
      requests to Cortex for remote write, rule synchronisation and deletion of tenants;
      the administration server with its queries, rules, series and flushes (admin.go)
      and the validation and filters of its messages (pkg/apis/cortexadmin).
    - [Tokens]: pkg/tokens: bootstrap tokens and detached JWS signatures.
    - [Etcd], [RefJSON]: the etcd server and client, protojson and the retry helper as
      classes with their documented laws, and reference instances.
    - [EtcdStore], [EtcdStoreProps], [EtcdKV]: pkg/storage/etcd: clusters, tokens, roles
      and role bindings, then the key-value and keyring stores.
    - [Nats], [JetStore], [JetStoreProps]: the client of NATS JetStream as a class with
      a reference instance, then pkg/storage/jetstream: the same stores on buckets, and
      the watch of the clusters.
    - [K8s], [CrdStore], [CrdStoreProps]: the client of the Kubernetes API on the objects
      of one kind as a class with a reference instance, then pkg/storage/crds: tokens,
      roles, role bindings and keyrings as custom resources.
    - [Crypto], [Pkp], [Keyring], [ClusterAuth]: the cryptographic libraries as classes,
      then pkg/pkp, pkg/keyring, pkg/b2mac, pkg/ecdh and pkg/auth/cluster.
    - [Trust]: pkg/trust.
    - [Bootstrap], [BootstrapProps]: pkg/bootstrap (both server versions and the
      clients) and pkg/capabilities.
    - [Task], [TaskProps]: pkg/task.
    - [Health], [HealthProps], [Monitor]: pkg/health.
    - [Management], [ManagementProps]: pkg/management (the handlers of clusters,
      capabilities, tokens, roles and role bindings) and pkg/apis/management/v1.
    - [OsFs], [Patch], [PatchProps], [PatchCache], [PatchSync]: the file
      system as programs of operations on a disk that may fail, then pkg/patch: plugin
      manifests, the difference of two manifests, the patch cache of the gateway and its
      garbage collection, and the file system client of the agent.
    - [Gateway]: pkg/gateway: the sync requester, the delegate server with its mutex and
      the interceptor that records connection details.
    - [AlertingV1], [AmConfig]: pkg/alerting/shared and pkg/apis/alerting/v1 (messages,
      validation, labels, incidents, secrets), then the configuration of Alertmanager
      with its text forms, what is read back of them and the checks of decoding
      (pkg/alerting/drivers/config/api_types.go).
    - [AlertRouting], [AlertRouter]: receivers and routing trees
      (pkg/alerting/drivers/config/receiver.go, pkg/alerting/drivers/routing).
    - [AlertRouterProps], [AlertBuild], [AlertDelivery], [AlertValid]: the documented
      routing of Alertmanager as a class, the closed form of the built configuration,
      what it delivers, that its text is read back and accepted, and when it is not.
    - [AlertStorage], [AlertSync], [AlertSyncValid], [AlertIncidents]:
      pkg/alerting/storage (JetStream stores, client set, hash ring), the composition of
      a sync with the router, incidents and the life of a router, and the reference
      instances.
    - [SloV1], [SloRules], [SloStore], [SloRulesProps], [SloProps]:
      plugins/slo and pkg/slo: messages and validation, the recording,
      metadata and alerting rules of an objective with their multi-window multi-burn-rate
      conditions, the store of rules in Cortex, the detection of active windows, the
      handlers of objectives, and reference instances.
    - [MetricsBackend], [MetricsAgent], [MetricsProps]: plugins/metrics:
      the capability backend of the gateway with its uninstall task, then the node of the
      agent, the target runner that imports metrics and the rule streamer, and reference
      instances.
    - [LogAdmin], [LogAdminProps], [LogAdminApi]:
      plugins/logging/pkg/gateway/admin_v2.go: the node pools of an OpenSearch cluster
      from the request of an administrator and its description from the node pools, then
      the handlers.
    - [Logging], [LoggingProps], [LoggingRef]: plugins/logging: the capability backend, the
      Kubernetes driver, the deletion of log data, the uninstall task and the node of the
      agent, and runs of both logging parts on a gateway in memory.
    - [OsReconciler], [OsReconcilerProps], [OsOperator]: pkg/opensearch/reconciler: roles,
      users, role mappings, policies, pipelines, templates and indices of an OpenSearch
      server brought to what is wanted, then the controllers of the operator that use it
      for logging clusters, their users and bindings (controllers/, pkg/resources/).
    - [AlertClient], [AlertEval], [AlertEvalProps]: the interface of the alerting stores
      and the broker that builds them (pkg/alerting/storage), then the evaluator of an
      internal condition (plugins/alerting/pkg/alerting/impl.go and messaging): its two
      loops as turns that interleave at every access to what they share.
    - [AlertRules], [AlertPlugin], [AlertPluginProps]: the rules on
      metrics and their groups (pkg/alerting/metrics, pkg/alerting/drivers/cortex), the
      client of Alertmanager (pkg/alerting/drivers/backend), then the handlers of the
      alerting plugin (plugins/alerting/pkg/alerting), and reference instances.

    ** How components meet

    A component is proved against the interface of the one it calls.  The etcd stores
    are proved for every client that keeps the laws of [EtcdClient], under which other
    clients act between any two calls; [EtcdKV] discharges [LinearKV], the contract of
    the key-value interface, and where the number of writes matters ([SharedEtcd],
    [ApiFrame]) what others do in between is any given relation, so that a write of the
    code cannot pass as one of theirs.  The bootstrap servers are proved for every storage in
    the class [BootstrapStorage]; the cluster middleware for every keyring broker; the
    task controller for every store in [ReliableKV], for every runner (any sequence of
    uses of its context and of its task, with cancellations by other goroutines in
    between) and for every state machine library with the documented run.  The agent's
    patch client is proved for every disk, and its convergence for every disk that does
    not fail; the router's theorems hold for every matcher in the class [Alertmanager], and those on
    the configuration that is loaded for every package in [AmTextLaws], the text forms of
    matchers, hosts, durations and URLs; YAML itself is taken to keep plain values.
    Every class of third-party behaviour has a reference instance, and the witnesses of the
    theorems run on those instances.

    ** What the theorems show

    - Access control: [SubjectAccess] returns exactly the clusters the bindings of a
      subject select, taints of bindings do not change that, and the middleware lets
      no other cluster through.
    - Users: a request passes the OpenID middleware only as the user its token was issued
      to by the provider, the cache holds the latest token of each user, and every route of
      the metrics API that reads tenant data sees only tenants its user may access; metrics
      are written under the tenant of the agent that sent them.
    - Joining: an identity that is registered cannot be taken over by AuthV2, which touches
      only the id it registers, a new agent that bootstraps can authenticate afterwards, a failure between the two
      writes of the registration leaves the identity locked, and AuthV1 adds
      capabilities only with a token that allows it.
    - Authentication: [VerifyKeyring] accepts only a message authenticated under the
      agent's key for this challenge, accepts an honest agent, and answers each failure with
      the error that belongs to it; tokens, pins, MAC
      headers and keyrings survive their textual forms; merging keyrings does not
      depend on the order of keys; a pinned TLS connection has a pinned key in its
      chain.
    - Storage: UpdateCluster loses no update whatever others write in between, objects
      of different kinds have different keys, creation is exclusive; the key-value
      store is linearizable per path, though a key can lead out of its directory.
    - Tasks: the life cycle of a task ends in the state its runner's result asks for,
      with its history saved and its observers told once; a launch follows the
      restart table of the source; a new controller resumes what was left; an error
      of OnTaskPending leaves the task pending.
    - Health: the updates of a connection are ordered and strictly newer, nothing is
      sent on a closed channel in any interleaving, watchers follow the monitor in any
      interleaving, the monitor can deadlock, the aggregated report is ready exactly
      when every client is and carries the oldest time, and a condition keeps its
      first status until it is cleared.
    - Management: a reference means the cluster with that id or the only one of that
      name, and an ambiguous name crashes the server; an edit keeps the labels the
      server manages; a cluster with capabilities is not deleted.
    - Plugins: a synchronisation makes the agent's plugins those of the gateway, unless an
      update renames a plugin or two share a digest; an update of a plugin is atomic on any disk, applying patches terminates and its
      result does not depend on their order; the cache is collected exactly.
    - Gateway: the active agents are the open connections while those of an agent do
      not overlap; a broadcast returns the replies of all matching agents; a failed
      lookup leaves the delegate server blocked, and a request for all agents reaches
      one.
    - Alerting: a sync of valid data succeeds and its configuration is built; when the
      data are complete Alertmanager reads and accepts it, with its routing tree and the
      destinations of its receivers kept; on the configuration it has read an alarm is
      delivered to the endpoints attached to it and to the hook, and the tree implements
      the router's table; the router keeps its invariant; the incidents that are kept are
      those that reach into the window; redacted secrets are restored.  One incomplete
      email endpoint, or one condition whose namespace has a dash (kube-state,
      monitoring-backend), makes Alertmanager refuse the whole configuration, and a sync
      that failed is not tried again.
    - Alarms: an internal condition raises an alert only when an unhealthy report is
      older than its duration, in every interleaving; a recovery that comes soon after
      the alert is lost; the alert is posted by one request and reaches the endpoints
      attached to the condition; a condition on metrics installs one rule group with its
      routing labels, if the ruler accepts it, and takes it away again; a deleted endpoint
      is taken off every condition that is stored under its own id.
    - JetStream: a watch of the clusters replays the bucket and then follows it, an
      update of a token keeps its expiry, and a cluster deleted twice crashes the watch.
    - Kubernetes: a token is reported for its time to live and no longer, only expired
      tokens are collected, and an update loses nothing that others wrote.
    - Objectives: creating one installs all its rules or asks for the removal of those it
      installed, and leaves what was not removed; the alerts read only
      series that the recording rules write; good events are among the total ones; the
      detected windows are the maximal runs above the threshold.
    - Metrics: an uninstall disables the node, and its task removes the capability, after
      the data where that was asked for; node and gateway converge; an
      import reads the whole range, in windows that do not overlap; a target runs once;
      at most one rule streamer runs.
    - Logging: an uninstall that deletes the logs removes the capability only after
      OpenSearch reported their deletion and the objects of the cluster that could be
      listed are gone; the node pools of a request have the nodes that
      were asked for and an odd number of masters between three and five; a request is
      stored by one write and described as what was asked for, but for its tolerations and
      missing CPU quantities.  A bucket that cannot be read once makes an
      uninstall skip the deletion, and an update without a retention makes the
      description panic.
    - OpenSearch: bootstrapping an index loses no document whatever request fails, but a
      bootstrap that failed is not resumed; granting a role adds one user and changes
      nothing else, while taking it away keeps that user and drops the others.

    Where the code differs from what it means to do, the theorem states what it does
    and its comment says so.

    ** Bounds and fuel

    Loops over data are structural.  [Stateless.ActivateCtx] is bounded by the number
    of triggers it handles: two are enough for a task, one to leave Pending and one to
    leave Running.  The retry loops of the task controller take a fuel; with a store
    that answers one attempt is enough, and the theorems hold for every positive fuel.
    The retry helper of the etcd store is a class that runs a function a bounded number
    of times (20 in the source).  Trimming and rune counting use the length of the
    string as fuel, of which each turn uses at least one.  Programs of file operations
    are well-founded trees, so their runs end.  Counters and revisions that
    can overflow are wrapped with [wrap64]; times are nanoseconds as integers.  The
    burn-rate factors are IEEE double computations carried out exactly with SpecFloat and
    are checked for every period from 1 to 123 days.  The turns of an evaluator are
    well-founded trees, and its runs are schedules of any length.  The import of metrics takes as fuel
    the number of windows of the range and three turns more; the number of attempts of a
    backoff policy and the number of polls of an uninstall are arguments.

    ** What is not modelled

    Logging, metrics and tracing calls; network transport; the wiring of the servers;
    the command line; the rest of the Kubernetes operator and its custom resources;
    generated code; the plugins of topology and AIOps; the drivers that deploy Cortex;
    the OpenTelemetry forwarder and the drivers of the logging agent; the choices
    offered for a new alarm and the embedded server of Alertmanager. Mutexes are
    modelled where their order matters ([Monitor], [Health]); elsewhere a section that
    holds a lock is one step. *)

From stdpp Require Export base gmap strings list sorting option.
From Stdlib Require Export ZArith Lia.

(** ** Scope *)

Declare Scope go_scope.
Delimit Scope go_scope with go.
Open Scope go_scope.

(** ** Go errors

    A Go [error] is either a sentinel, a formatted message, an error built by
    [fmt.Errorf] with a [%w] verb (which keeps the wrapped error reachable for
    [errors.Is]), an error carrying a gRPC status code, or an error produced by
    a third-party client, identified by a tag. *)

Inductive code : Set :=
| codes_OK | codes_Canceled | codes_Unknown | codes_InvalidArgument
| codes_DeadlineExceeded | codes_NotFound | codes_AlreadyExists
| codes_PermissionDenied | codes_ResourceExhausted | codes_FailedPrecondition
| codes_Aborted | codes_OutOfRange | codes_Unimplemented | codes_Internal
| codes_Unavailable | codes_DataLoss | codes_Unauthenticated.

Inductive error : Set :=
| ErrNotFound
| ErrAlreadyExists
| ValidationError (message : string)
| StatusError (c : code) (message : string)
| ErrorString (message : string)
| Wrapped (message : string) (inner : error)
| External (tag : string).

#[export] Instance code_eq_dec : EqDecision code.
Proof. solve_decision. Defined.

#[export] Instance error_eq_dec : EqDecision error.
Proof. solve_decision. Defined.

(** [errors.Is]: the chain of wrapped errors is searched for the target. *)
Fixpoint errors_Is (e target : error) : bool :=
  bool_decide (e = target) ||
  match e with
  | Wrapped _ inner => errors_Is inner target
  | _ => false
  end.

Lemma errors_Is_refl e : errors_Is e e = true.
Proof. destruct e; cbn [errors_Is]; by rewrite bool_decide_eq_true_2. Qed.

Lemma errors_Is_wrapped m e t :
  errors_Is e t = true -> errors_Is (Wrapped m e) t = true.
Proof. intros H. cbn. by rewrite H, orb_true_r. Qed.

(** ** Outcomes and the state-and-error monad

    A Go call returns a value, returns a non-nil error, or panics. *)

Inductive outcome (A : Type) : Type :=
| Ok (a : A)
| Err (e : error)
| Panic (msg : string).
Arguments Ok {_} _.
Arguments Err {_} _.
Arguments Panic {_} _.

#[export] Instance outcome_eq_dec `{EqDecision A} : EqDecision (outcome A).
Proof. solve_decision. Defined.

Definition obind {A B} (m : outcome A) (k : A -> outcome B) : outcome B :=
  match m with
  | Ok a => k a
  | Err e => Err e
  | Panic p => Panic p
  end.

Definition omap_err {A} (f : error -> error) (m : outcome A) : outcome A :=
  match m with
  | Ok a => Ok a
  | Err e => Err (f e)
  | Panic p => Panic p
  end.

Definition is_Ok {A} (m : outcome A) : bool :=
  match m with Ok _ => true | _ => false end.

Definition no_panic {A} (m : outcome A) : bool :=
  match m with Panic _ => false | _ => true end.

(** [guard b e]: the early return [if b { return e }]. *)
Definition fail_if (b : bool) (e : error) : outcome unit :=
  if b then Err e else Ok tt.

Notation "'let?' x ':=' m 'in' k" := (obind m (fun x => k))
  (at level 10, x pattern, m at level 100, k at level 200) : go_scope.
Notation "m ';?' k" := (obind m (fun _ => k))
  (at level 100, right associativity) : go_scope.

(** Stateful calls thread the state of the world they act on. *)
Definition M (W A : Type) : Type := W -> W * outcome A.

Definition wret {W A} (a : A) : M W A := fun w => (w, Ok a).
Definition wfail {W A} (e : error) : M W A := fun w => (w, Err e).
Definition wlift {W A} (o : outcome A) : M W A := fun w => (w, o).
Definition wbind {W A B} (m : M W A) (k : A -> M W B) : M W B :=
  fun w => match m w with
           | (w', Ok a) => k a w'
           | (w', Err e) => (w', Err e)
           | (w', Panic p) => (w', Panic p)
           end.

(** [wcatch m k]: [k] decides what a failed call turns into. *)
Definition wcatch {W A} (m : M W A) (k : error -> M W A) : M W A :=
  fun w => match m w with
           | (w', Err e) => k e w'
           | r => r
           end.

Definition wrapf {W A} (msg : string) (m : M W A) : M W A :=
  wcatch m (fun e => wfail (Wrapped msg e)).

Notation "'let!' x ':=' m 'in' k" := (wbind m (fun x => k))
  (at level 10, x pattern, m at level 100, k at level 200) : go_scope.
Notation "m ';!' k" := (wbind m (fun _ => k))
  (at level 100, right associativity) : go_scope.

(** A loop that collects one result per element and stops at the first failure. *)
Fixpoint wmap {W A B} (f : A -> M W B) (l : list A) : M W (list B) :=
  match l with
  | [] => wret []
  | x :: l => let! y := f x in let! ys := wmap f l in wret (y :: ys)
  end.

Fixpoint omapM {A B} (f : A -> outcome B) (l : list A) : outcome (list B) :=
  match l with
  | [] => Ok []
  | x :: l => let? y := f x in let? ys := omapM f l in Ok (y :: ys)
  end.

(** ** Tactics *)

(** Case split on every match of a hypothesis until it is closed. *)
Ltac split_matches H :=
  repeat match type of H with
         | context [match ?x with _ => _ end] => destruct x eqn:?; simplify_eq/=
         end.

Ltac mcase H :=
  match type of H with
  | wbind ?m ?k ?w = _ =>
      unfold wbind at 1 in H;
      let w' := fresh "w" in
      let o := fresh "o" in
      destruct (m w) as [w' o] eqn:?;
      destruct o; simplify_eq/=
  end.

(** ** Inversion lemmas of the monads *)

Create HintDb go discriminated.

Section Monads.
Context {W A B : Type}.

Lemma obind_Ok (m : outcome A) (k : A -> outcome B) b :
  obind m k = Ok b <-> exists a, m = Ok a /\ k a = Ok b.
Proof. destruct m; cbn; naive_solver. Qed.

Lemma obind_Err (m : outcome A) (k : A -> outcome B) e :
  obind m k = Err e <-> m = Err e \/ exists a, m = Ok a /\ k a = Err e.
Proof. destruct m; cbn; naive_solver. Qed.

Lemma wbind_Ok (m : M W A) (k : A -> M W B) w w' b :
  wbind m k w = (w', Ok b) <-> exists a w1, m w = (w1, Ok a) /\ k a w1 = (w', Ok b).
Proof. unfold wbind. destruct (m w) as [? []]; naive_solver. Qed.

Lemma wbind_inv (m : M W A) (k : A -> M W B) w w' o :
  wbind m k w = (w', o) ->
  (exists a w1, m w = (w1, Ok a) /\ k a w1 = (w', o)) \/
  (exists e, m w = (w', Err e) /\ o = Err e) \/
  (exists p, m w = (w', Panic p) /\ o = Panic p).
Proof. unfold wbind. destruct (m w) as [? []]; intros H; simplify_eq; eauto 6. Qed.

Lemma wbind_eq_Ok (m : M W A) (k : A -> M W B) w w1 a :
  m w = (w1, Ok a) -> wbind m k w = k a w1.
Proof. unfold wbind. by intros ->. Qed.

Lemma wbind_eq_Err (m : M W A) (k : A -> M W B) w w1 e :
  m w = (w1, Err e) -> wbind m k w = (w1, Err e).
Proof. unfold wbind. by intros ->. Qed.

Lemma wrapf_Ok msg (m : M W A) w w' a :
  wrapf msg m w = (w', Ok a) <-> m w = (w', Ok a).
Proof. unfold wrapf, wcatch, wfail. destruct (m w) as [? []]; naive_solver. Qed.

Lemma wrapf_Err msg (m : M W A) w w' e :
  wrapf msg m w = (w', Err e) <-> exists e', e = Wrapped msg e' /\ m w = (w', Err e').
Proof. unfold wrapf, wcatch, wfail. destruct (m w) as [? []]; naive_solver. Qed.

Lemma fail_if_Ok b e u : fail_if b e = Ok u <-> b = false.
Proof. destruct b, u; cbn; naive_solver. Qed.
End Monads.

(** ** Machine integers *)

Definition int64_min : Z := -9223372036854775808.
Definition int64_max : Z := 9223372036854775807.
Definition uint64_max : Z := 18446744073709551615.

(** Two's complement wrap-around of Go's int64 arithmetic. *)
Definition wrap64 (z : Z) : Z :=
  (z - int64_min) `mod` 18446744073709551616 + int64_min.

Definition in_int64 (z : Z) : Prop := (int64_min <= z <= int64_max)%Z.

Lemma wrap64_id z : in_int64 z -> wrap64 z = z.
Proof.
  unfold in_int64, wrap64, int64_min, int64_max. intros H.
  rewrite Z.mod_small; lia.
Qed.

Lemma wrap64_range z : in_int64 (wrap64 z).
Proof.
  unfold in_int64, wrap64, int64_min, int64_max.
  pose proof (Z.mod_pos_bound (z - -9223372036854775808) 18446744073709551616). lia.
Qed.

(** ** Generic list lemmas *)

Lemma filter_Permutation_all {A} (P : A -> bool) (l1 l2 : list A) :
  l1 ≡ₚ l2 -> forallb P l1 = forallb P l2.
Proof.
  induction 1; cbn; try congruence.
  by rewrite !andb_assoc, (andb_comm (P y)).
Qed.

Lemma forallb_elem {A} (P : A -> bool) (l : list A) :
  forallb P l = true <-> forall x, x ∈ l -> P x = true.
Proof.
  rewrite forallb_forall. by setoid_rewrite list_elem_of_In.
Qed.

Lemma existsb_elem {A} (P : A -> bool) (l : list A) :
  existsb P l = true <-> exists x, x ∈ l /\ P x = true.
Proof.
  rewrite existsb_exists. by setoid_rewrite list_elem_of_In.
Qed.

(** The first failing element of a validation loop. *)
Fixpoint foreach {A} (f : A -> outcome unit) (l : list A) : outcome unit :=
  match l with
  | [] => Ok tt
  | x :: l => f x ;? foreach f l
  end.

Lemma foreach_Ok {A} (f : A -> outcome unit) l :
  foreach f l = Ok tt <-> forall x, x ∈ l -> f x = Ok tt.
Proof.
  induction l as [|x l IH]; cbn.
  - split; [|done]. intros _ x Hx. by apply not_elem_of_nil in Hx.
  - rewrite obind_Ok. setoid_rewrite elem_of_cons. split.
    + intros ([] & Hx & Hl). rewrite IH in Hl. naive_solver.
    + intros H. exists tt. split; [by apply H; left|]. rewrite IH. naive_solver.
Qed.

Lemma foreach_Err {A} (f : A -> outcome unit) l e :
  foreach f l = Err e -> exists x, x ∈ l /\ f x = Err e.
Proof.
  induction l as [|x l IH]; cbn; [done|].
  rewrite obind_Err. intros [Hx | ([] & _ & Hl)].
  - exists x. split; [by left | done].
  - destruct (IH Hl) as (y & Hy & He). exists y. split; [by right | done].
Qed.

(** Opens a successful sequence of checks: the first one into [Hx], the rest
    stays in [H]. *)
Ltac open_ok H Hx :=
  rewrite obind_Ok in H;
  let u := fresh "u" in destruct H as (u & Hx & H);
  try match type of u with unit => destruct u end; cbn beta in H.

Lemma omapM_Ok {A B} (f : A -> outcome B) l ys :
  omapM f l = Ok ys <-> Forall2 (fun x y => f x = Ok y) l ys.
Proof.
  revert ys. induction l as [|x l IH]; intros ys; cbn.
  - split; [intros [= <-]; constructor | by inversion 1].
  - split.
    + intros (y & Hy & (ys' & Hys & [= <-])%obind_Ok)%obind_Ok. constructor; [done|]. by apply IH.
    + inversion 1 as [|? y ? ys' Hy Hys]; subst. rewrite Hy. cbn. apply IH in Hys as ->. done.
Qed.

#[export] Hint Rewrite @obind_Ok @obind_Err @wbind_Ok @wrapf_Ok @fail_if_Ok : go.
#[export] Hint Resolve errors_Is_refl errors_Is_wrapped wrap64_id wrap64_range : go.
