(* ===== verification/GoStd.v ===== *)
(** The parts of Go's standard library the modelled code calls: byte and string
    tests ([strings]), lexical path cleaning ([path.Join]), decimal conversion
    ([strconv], [fmt.Sprint]), UTF-8 rune counting and hexadecimal coding
    ([encoding/hex]).  Strings are byte strings, as in Go. *)

From S2P Require Import Prelude.
From Stdlib Require Import Ascii DecimalString DecimalZ.
From Stdlib Require String.

Local Open Scope string_scope.

(** ** strings *)

Definition chr (n : nat) : ascii := ascii_of_nat n.
Definition ord (c : ascii) : nat := nat_of_ascii c.

Fixpoint str_all (P : ascii -> bool) (s : string) : bool :=
  match s with
  | EmptyString => true
  | String c s => P c && str_all P s
  end.

(** [strings.HasPrefix(s, p)]. *)
Fixpoint HasPrefix (s p : string) : bool :=
  match p, s with
  | EmptyString, _ => true
  | String c p, String d s => bool_decide (c = d) && HasPrefix s p
  | String _ _, EmptyString => false
  end.

Fixpoint drop_str (n : nat) (s : string) : string :=
  match n, s with
  | S n, String _ s => drop_str n s
  | _, _ => s
  end.

(** [strings.TrimPrefix(s, p)]. *)
Definition TrimPrefix (s p : string) : string :=
  if HasPrefix s p then drop_str (String.length p) s else s.

(** [strings.Repeat]. *)
Fixpoint Repeat (s : string) (n : nat) : string :=
  match n with
  | O => ""
  | S n => s +:+ Repeat s n
  end.

(** [strings.Split] with a one-byte separator. *)
Fixpoint Split (c : ascii) (s : string) : list string :=
  match s with
  | EmptyString => [""]
  | String d s =>
      if decide (c = d) then "" :: Split c s
      else match Split c s with
           | [] => [String d ""]
           | w :: ws => String d w :: ws
           end
  end.

(** [strings.Join]. *)
Fixpoint Join (sep : string) (l : list string) : string :=
  match l with
  | [] => ""
  | [w] => w
  | w :: ws => w +:+ sep +:+ Join sep ws
  end.

(** [strings.TrimSpace]: the leading and trailing runes that [unicode.IsSpace]
    accepts, each listed by its UTF-8 encoding. *)
Definition white_space : list string :=
  ([String (chr 9) ""; String (chr 10) ""; String (chr 11) ""; String (chr 12) "";
   String (chr 13) ""; " ";
   String (chr 194) (String (chr 133) ""); String (chr 194) (String (chr 160) "");
   String (chr 225) (String (chr 154) (String (chr 128) ""))] ++
  ((fun n => String (chr 226) (String (chr 128) (String (chr n) ""))) <$>
     [128; 129; 130; 131; 132; 133; 134; 135; 136; 137; 138; 168; 169; 175]) ++
  [String (chr 226) (String (chr 129) (String (chr 159) ""));
   String (chr 227) (String (chr 128) (String (chr 128) ""))])%list.

Definition HasSuffix (s p : string) : bool :=
  (String.length p <=? String.length s)%nat &&
  bool_decide (drop_str (String.length s - String.length p) s = p).

Fixpoint take_str (n : nat) (s : string) : string :=
  match n, s with
  | S n, String c s => String c (take_str n s)
  | _, _ => ""
  end.

Fixpoint trim_left (fuel : nat) (s : string) : string :=
  match fuel, find (HasPrefix s) white_space with
  | S fuel, Some w => trim_left fuel (TrimPrefix s w)
  | _, _ => s
  end.

Fixpoint trim_right (fuel : nat) (s : string) : string :=
  match fuel, find (HasSuffix s) white_space with
  | S fuel, Some w => trim_right fuel (take_str (String.length s - String.length w) s)
  | _, _ => s
  end.

(** Every step removes at least one byte, so the length is enough fuel. *)
Definition TrimSpace (s : string) : string :=
  trim_right (String.length s) (trim_left (String.length s) s).

(** ** path *)

Definition slash : ascii := "/".

(** One path component of the lexical cleaning of [path.Clean]; the stack holds
    the components kept so far, innermost first. *)
Definition clean_step (rooted : bool) (stack : list string) (c : string) : list string :=
  if decide (c = "") then stack
  else if decide (c = ".") then stack
  else if decide (c = "..") then
    match stack with
    | top :: rest => if decide (top = "..") then ".." :: stack else rest
    | [] => if rooted then [] else [".."]
    end
  else c :: stack.

Definition is_rooted (p : string) : bool := HasPrefix p "/".

Definition clean_stack (p : string) : list string :=
  fold_left (clean_step (is_rooted p)) (Split slash p) [].

Definition path_Clean (p : string) : string :=
  let out := (if is_rooted p then "/" else "") +:+ Join "/" (rev (clean_stack p)) in
  if decide (out = "") then "." else out.

(** [path.Join]: empty elements are dropped, the rest is joined and cleaned. *)
Definition path_Join (elems : list string) : string :=
  match filter (fun e => e <> "") elems with
  | [] => ""
  | l => path_Clean (Join "/" l)
  end.

(** [path.Base]: what follows the last slash, trailing slashes left out. *)
Definition path_Base (p : string) : string :=
  if decide (p = "") then "."
  else match rev (filter (fun c : string => c <> "") (Split slash p)) with
       | c :: _ => c
       | [] => "/"
       end.

(** ** strconv and fmt *)

(** [fmt.Sprint] of an integer. *)
Definition Sprint (z : Z) : string := NilZero.string_of_int (Z.to_int z).

(** [strconv.ParseInt(s, 10, 64)] and [strconv.Atoi]: an optional sign, decimal
    digits, and a value that fits an int64. *)
Definition ParseInt (s : string) : outcome Z :=
  let body := match s with
              | String "+" (String d rest) =>
                  if decide (d = "-"%char) then None else NilZero.int_of_string (String d rest)
              | _ => NilZero.int_of_string s
              end in
  match body with
  | None => Err (ErrorString "invalid syntax")
  | Some d =>
      let z := Z.of_int d in
      if bool_decide (in_int64 z) then Ok z else Err (ErrorString "value out of range")
  end.

(** [strconv.ParseUint(s, 10, 64)]: digits only, value fits a uint64. *)
Definition ParseUint (s : string) : outcome Z :=
  match NilZero.uint_of_string s with
  | None => Err (ErrorString "invalid syntax")
  | Some d =>
      let z := Z.of_uint d in
      if bool_decide (z <= uint64_max)%Z then Ok z else Err (ErrorString "value out of range")
  end.

(** ** unicode/utf8 *)

Definition in_range (lo hi : nat) (c : ascii) : bool :=
  (lo <=? ord c)%nat && (ord c <=? hi)%nat.
Definition is_cont (c : ascii) : bool := in_range 128 191 c.

(** The width of the first rune of a non-empty string; an invalid or truncated
    sequence is one rune of one byte. *)
Definition rune_width (s : string) : nat :=
  match s with
  | String a (String b t) =>
      if in_range 194 223 a && is_cont b then 2
      else
        let lo := if decide (ord a = 224) then 160 else if decide (ord a = 240) then 144 else 128 in
        let hi := if decide (ord a = 237) then 159 else if decide (ord a = 244) then 143 else 191 in
        match t with
        | String c t =>
            if in_range 224 239 a && in_range lo hi b && is_cont c then 3
            else match t with
                 | String d _ =>
                     if in_range 240 244 a && in_range lo hi b && is_cont c && is_cont d then 4 else 1
                 | EmptyString => 1
                 end
        | EmptyString => 1
        end
  | _ => 1
  end.

(** The fuel is the byte length: every rune takes at least one byte. *)
Fixpoint rune_count_fuel (fuel : nat) (s : string) : nat :=
  match fuel, s with
  | _, EmptyString => 0
  | O, _ => 0
  | S fuel, _ => S (rune_count_fuel fuel (drop_str (rune_width s) s))
  end.

Definition rune_count (s : string) : nat := rune_count_fuel (String.length s) s.

(** ** encoding/hex *)

Definition byte := Z.

Definition hex_digit (n : Z) : ascii :=
  chr (Z.to_nat (if (n <? 10)%Z then 48 + n else 87 + n)).

Definition hex_value (c : ascii) : option Z :=
  let n := Z.of_nat (ord c) in
  if ((48 <=? n) && (n <=? 57))%Z then Some (n - 48)%Z
  else if ((97 <=? n) && (n <=? 102))%Z then Some (n - 87)%Z
  else if ((65 <=? n) && (n <=? 70))%Z then Some (n - 55)%Z
  else None.

(** [hex.EncodeToString]. *)
Fixpoint hex_Encode (bs : list byte) : string :=
  match bs with
  | [] => ""
  | b :: bs => String (hex_digit (b `div` 16)) (String (hex_digit (b `mod` 16)) (hex_Encode bs))
  end.

(** [hex.DecodeString]: an odd length or a non-hexadecimal byte is an error. *)
Fixpoint hex_Decode (s : string) : outcome (list byte) :=
  match s with
  | EmptyString => Ok []
  | String _ EmptyString => Err (ErrorString "encoding/hex: odd length hex string")
  | String a (String b s) =>
      match hex_value a, hex_value b with
      | Some x, Some y => let? bs := hex_Decode s in Ok ((16 * x + y)%Z :: bs)
      | _, _ => Err (ErrorString "encoding/hex: invalid byte")
      end
  end.

Definition is_byte (b : byte) : Prop := (0 <= b < 256)%Z.

(** ** Lemmas: strings *)

Lemma str_app_cons c (a b : string) : String c a +:+ b = String c (a +:+ b).
Proof. done. Qed.

Lemma str_app_nil (b : string) : "" +:+ b = b.
Proof. done. Qed.

Ltac str_simpl := rewrite ?str_app_cons, ?str_app_nil; cbn.

Lemma str_app_assoc (a b c : string) : (a +:+ b) +:+ c = a +:+ b +:+ c.
Proof. induction a as [|x a IH]; str_simpl; [done | by rewrite ?str_app_cons, IH]. Qed.

Lemma str_app_nil_r (a : string) : a +:+ "" = a.
Proof. induction a as [|x a IH]; str_simpl; [done | by rewrite ?str_app_cons, IH]. Qed.

Lemma str_app_inj_l (a b c : string) : a +:+ b = a +:+ c -> b = c.
Proof. induction a as [|x a IH]; str_simpl; [done|]. intros [= H]. by apply IH. Qed.

Lemma str_length_app (a b : string) :
  String.length (a +:+ b) = String.length a + String.length b.
Proof. induction a as [|x a IH]; str_simpl; [done | by rewrite ?str_app_cons, IH]. Qed.

Lemma HasPrefix_app (p s : string) : HasPrefix (p +:+ s) p = true.
Proof.
  induction p as [|c p IH]; str_simpl; [by destruct s|].
  by rewrite bool_decide_eq_true_2, IH.
Qed.

Lemma HasPrefix_spec (s p : string) : HasPrefix s p = true <-> exists t, s = p +:+ t.
Proof.
  split; [|intros [t ->]; apply HasPrefix_app].
  revert s. induction p as [|c p IH]; intros s; cbn; [by exists s|].
  destruct s as [|d s]; [done|]. intros [Hd H]%andb_true_iff.
  apply bool_decide_eq_true in Hd as ->. destruct (IH _ H) as [t ->]. by exists t.
Qed.

Lemma drop_str_app (p s : string) : drop_str (String.length p) (p +:+ s) = s.
Proof. induction p as [|c p IH]; str_simpl; [by destruct s | done]. Qed.

Lemma TrimPrefix_app (p s : string) : TrimPrefix (p +:+ s) p = s.
Proof. unfold TrimPrefix. by rewrite HasPrefix_app, drop_str_app. Qed.

Lemma str_all_app P (a b : string) : str_all P (a +:+ b) = str_all P a && str_all P b.
Proof. induction a as [|x a IH]; str_simpl; [done | by rewrite IH, andb_assoc]. Qed.

Lemma str_all_impl (P Q : ascii -> bool) s :
  (forall c, P c = true -> Q c = true) -> str_all P s = true -> str_all Q s = true.
Proof.
  intros HPQ. induction s as [|c s IH]; cbn; [done|].
  rewrite !andb_true_iff. intros [Hc Hs]. eauto.
Qed.

Lemma Split_neq_nil c s : Split c s <> [].
Proof.
  destruct s as [|d s]; cbn; [done|]. case_decide; [done|]. by destruct (Split c s).
Qed.

Lemma Split_app (c : ascii) (s1 s2 : string) :
  Split c (s1 +:+ String c s2) = (Split c s1 ++ Split c s2)%list.
Proof.
  induction s1 as [|d s1 IH]; cbn.
  - rewrite str_app_nil. cbn. by rewrite decide_True by done.
  - rewrite str_app_cons. cbn. rewrite IH. case_decide; [done|].
    destruct (Split c s1) as [|w ws] eqn:E; [by apply Split_neq_nil in E|done].
Qed.

Definition no_char (c : ascii) (s : string) : bool := str_all (fun d => negb (bool_decide (c = d))) s.

Lemma Split_no_char c s : no_char c s = true -> Split c s = [s].
Proof.
  unfold no_char. induction s as [|d s IH]; cbn; [done|].
  rewrite andb_true_iff, negb_true_iff, bool_decide_eq_false. intros [Hd Hs].
  rewrite decide_False by done. by rewrite IH.
Qed.

(** ** Lemmas: decimal conversion *)

Lemma Z_to_int_not_nil z : Z.to_int z <> Decimal.Pos Decimal.Nil /\ Z.to_int z <> Decimal.Neg Decimal.Nil.
Proof.
  split; intros H.
  - pose proof (DecimalZ.of_to z) as Hz. rewrite H in Hz. cbn in Hz. subst z. vm_compute in H. discriminate H.
  - pose proof (DecimalZ.of_to z) as Hz. rewrite H in Hz. cbn in Hz. subst z. vm_compute in H. discriminate H.
Qed.

Lemma int_of_string_Sprint z : NilZero.int_of_string (Sprint z) = Some (Z.to_int z).
Proof. unfold Sprint. destruct (Z_to_int_not_nil z). by apply NilZero.isi. Qed.

Lemma Sprint_no_plus z t : Sprint z <> String "+" t.
Proof.
  intros H. pose proof (int_of_string_Sprint z) as Hs. rewrite H in Hs. cbn in Hs. by destruct (NilEmpty.uint_of_string t).
Qed.

Lemma ParseInt_Sprint_eq z :
  ParseInt (Sprint z) =
  if bool_decide (in_int64 z) then Ok z else Err (ErrorString "value out of range").
Proof.
  unfold ParseInt.
  assert (match Sprint z with
          | String "+" (String d rest) =>
              if decide (d = "-"%char) then None else NilZero.int_of_string (String d rest)
          | _ => NilZero.int_of_string (Sprint z)
          end = Some (Z.to_int z)) as ->.
  { rewrite <- int_of_string_Sprint. pose proof (Sprint_no_plus z) as Hp.
    destruct (Sprint z) as [|[[] [] [] [] [] [] [] []] [|d t]]; try done.
    by destruct (Hp (String d t)). }
  by rewrite DecimalZ.of_to.
Qed.

Lemma ParseInt_Sprint z : in_int64 z -> ParseInt (Sprint z) = Ok z.
Proof. intros Hz. rewrite ParseInt_Sprint_eq. by rewrite bool_decide_eq_true_2. Qed.

Lemma ParseInt_Sprint_Ok z r : ParseInt (Sprint z) = Ok r -> r = z.
Proof. rewrite ParseInt_Sprint_eq. case_bool_decide; congruence. Qed.

Lemma ParseUint_Sprint z : (0 <= z <= uint64_max)%Z -> ParseUint (Sprint z) = Ok z.
Proof.
  intros Hz. unfold ParseUint.
  assert (exists d, Z.to_int z = Decimal.Pos d /\ d <> Decimal.Nil) as (d & Hd & Hn).
  { destruct z as [|p|p]; [by exists (Decimal.D0 Decimal.Nil)| |lia].
    exists (Pos.to_uint p). split; [done|]. intros Hp.
    pose proof (proj1 (Z_to_int_not_nil (Z.pos p))) as Hc. cbn in Hc. by rewrite Hp in Hc. }
  unfold Sprint. rewrite Hd. cbn [NilZero.string_of_int].
  rewrite NilZero.usu by done.
  pose proof (DecimalZ.of_to z) as Hz'. rewrite Hd in Hz'. cbn in Hz'.
  rewrite Hz'. rewrite bool_decide_eq_true_2; [done | lia].
Qed.

Lemma Sprint_inj z1 z2 : Sprint z1 = Sprint z2 -> z1 = z2.
Proof.
  intros H. pose proof (int_of_string_Sprint z1) as H1. rewrite H, int_of_string_Sprint in H1.
  rewrite <- (DecimalZ.of_to z1), <- (DecimalZ.of_to z2). congruence.
Qed.

(** ** Lemmas: hexadecimal coding *)

Lemma hex_value_digit n : (0 <= n < 16)%Z -> hex_value (hex_digit n) = Some n.
Proof.
  intros Hn.
  assert (forallb (fun n => bool_decide (hex_value (hex_digit n) = Some n))
            (Z.of_nat <$> seq 0 16) = true) as H by (vm_compute; reflexivity).
  rewrite forallb_elem in H. eapply bool_decide_eq_true_1, H.
  apply list_elem_of_fmap. exists (Z.to_nat n). rewrite elem_of_seq. lia.
Qed.

Lemma hex_roundtrip bs : Forall is_byte bs -> hex_Decode (hex_Encode bs) = Ok bs.
Proof.
  induction 1 as [|b bs Hb _ IH]; cbn; [done|]. unfold is_byte in Hb.
  rewrite !hex_value_digit by (split; [apply Z.div_pos || apply Z.mod_pos_bound; lia|
    apply Z.div_lt_upper_bound || apply Z.mod_pos_bound; lia]).
  rewrite IH. cbn. do 2 f_equal. pose proof (Z.div_mod b 16). lia.
Qed.

Lemma hex_Encode_length bs : String.length (hex_Encode bs) = 2 * length bs.
Proof. induction bs as [|b bs IH]; cbn; [done|]. rewrite IH. lia. Qed.

Lemma hex_Encode_inj b1 b2 :
  Forall is_byte b1 -> Forall is_byte b2 -> hex_Encode b1 = hex_Encode b2 -> b1 = b2.
Proof.
  intros H1 H2 H. pose proof (hex_roundtrip b1 H1) as E. rewrite H, hex_roundtrip in E by done.
  by simplify_eq.
Qed.

(** ** Lemmas: path.Join

    A component that is not empty, [.] or [..] and has no slash is kept as it is
    by [path.Clean], whatever precedes it. *)

Definition plain_component (c : string) : bool :=
  no_char slash c && negb (bool_decide (c = "")) && negb (bool_decide (c = "."))
  && negb (bool_decide (c = "..")).

Lemma plain_component_spec c :
  plain_component c = true <-> no_char slash c = true /\ c <> "" /\ c <> "." /\ c <> "..".
Proof.
  unfold plain_component.
  rewrite !andb_true_iff, !negb_true_iff, !bool_decide_eq_false. tauto.
Qed.

Lemma clean_step_plain r st c : plain_component c = true -> clean_step r st c = c :: st.
Proof.
  rewrite plain_component_spec. intros (_ & H1 & H2 & H3). unfold clean_step.
  by rewrite !decide_False.
Qed.

Lemma Join_app sep (l : list string) c :
  l <> [] -> Join sep (l ++ [c])%list = Join sep l +:+ sep +:+ c.
Proof.
  induction l as [|w l IH]; [done|]. intros _. destruct l as [|w' l]; [done|].
  change ((w :: w' :: l) ++ [c])%list with (w :: (w' :: l) ++ [c])%list.
  assert (forall x y, y <> [] -> Join sep (x :: y) = x +:+ sep +:+ Join sep y) as E
    by (intros x [|]; done).
  rewrite !E by done. rewrite IH by done. by rewrite !str_app_assoc.
Qed.

Lemma Join_cons_ne sep w (ws : list string) :
  ws <> [] -> Join sep (w :: ws) = w +:+ sep +:+ Join sep ws.
Proof. by destruct ws. Qed.

Lemma is_rooted_app p q : p <> "" -> is_rooted (p +:+ q) = is_rooted p.
Proof. destruct p; [done|]. intros _. unfold is_rooted. str_simpl. by destruct q, p. Qed.

Lemma str_slash_app (p c : string) : p +:+ "/" +:+ c = p +:+ String slash c.
Proof. done. Qed.

(** The stack of a path extended by one plain component. *)
Lemma clean_stack_snoc p c :
  p <> "" -> plain_component c = true ->
  clean_stack (p +:+ "/" +:+ c) = c :: clean_stack p.
Proof.
  intros Hp Hc. unfold clean_stack.
  rewrite is_rooted_app by done. rewrite str_slash_app, Split_app.
  pose proof Hc as Hc'. apply plain_component_spec in Hc' as (Hs & _).
  rewrite (Split_no_char _ _ Hs), fold_left_app. cbn. by apply clean_step_plain.
Qed.

Lemma str_app_eq_nil (a b : string) : a +:+ b = "" -> a = "" /\ b = "".
Proof. destruct a; [done|]. by rewrite str_app_cons. Qed.

Lemma Join_rev_ne d (st : list string) : d <> "" -> Join "/" (rev (d :: st)) <> "".
Proof.
  intros Hd. cbn. destruct (decide (rev st = [])) as [->|E]; [done|].
  rewrite Join_app by done. by intros [_ [_ ?]%str_app_eq_nil]%str_app_eq_nil.
Qed.

Lemma path_Clean_stack p d st :
  clean_stack p = d :: st -> d <> "" ->
  path_Clean p = (if is_rooted p then "/" else "") +:+ Join "/" (rev (d :: st)).
Proof.
  intros E Hd. unfold path_Clean. rewrite E.
  rewrite decide_False; [done|]. by intros [_ ?%Join_rev_ne]%str_app_eq_nil.
Qed.

Lemma path_Clean_snoc p c d st :
  p <> "" -> plain_component c = true -> clean_stack p = d :: st -> d <> "" ->
  path_Clean (p +:+ "/" +:+ c) = path_Clean p +:+ "/" +:+ c.
Proof.
  intros Hp Hc E Hd. pose proof (clean_stack_snoc p c Hp Hc) as E2. rewrite E in E2.
  apply plain_component_spec in Hc as (_ & Hne & _).
  rewrite (path_Clean_stack _ _ _ E Hd), (path_Clean_stack _ _ _ E2 Hne).
  rewrite is_rooted_app by done.
  change (rev (c :: d :: st)) with (rev (d :: st) ++ [c])%list.
  rewrite Join_app by (cbn; destruct (rev st); done). by rewrite !str_app_assoc.
Qed.

(** The keys of one kind of object: [path.Join(prefix, dir)] is the directory and
    [path.Join(prefix, dir, id)] a direct child of it. *)
Definition key_root (prefix : string) : string :=
  if decide (prefix = "") then "" else
  match clean_stack prefix with
  | [] => if is_rooted prefix then "/" else ""
  | st => (if is_rooted prefix then "/" else "") +:+ Join "/" (rev st) +:+ "/"
  end.

Lemma path_Join_skip l : path_Join ("" :: l) = path_Join l.
Proof. unfold path_Join. by rewrite filter_cons_False by auto. Qed.

Lemma filter_keeps_all (l : list string) :
  Forall (fun e => e <> "") l -> filter (fun e => e <> "") l = l.
Proof. induction 1; [done|]. rewrite filter_cons_True by done. by f_equal. Qed.

Lemma path_Join_clean l :
  l <> [] -> Forall (fun e => e <> "") l -> path_Join l = path_Clean (Join "/" l).
Proof.
  intros Hl Hf. unfold path_Join. rewrite filter_keeps_all by done. by destruct l.
Qed.

Lemma clean_stack_plain c : plain_component c = true -> clean_stack c = [c].
Proof.
  intros Hc. pose proof Hc as (Hs & _)%plain_component_spec. unfold clean_stack.
  rewrite (Split_no_char _ _ Hs). cbn. by apply clean_step_plain.
Qed.

Lemma is_rooted_plain c : plain_component c = true -> is_rooted c = false.
Proof.
  intros (Hs & _)%plain_component_spec. destruct c as [|a c]; [done|].
  unfold is_rooted, no_char in *. cbn in *.
  rewrite andb_true_iff, negb_true_iff in Hs. destruct Hs as [Hs _].
  apply bool_decide_eq_false in Hs. by rewrite bool_decide_eq_false_2.
Qed.

Lemma path_Join_dir prefix dir :
  plain_component dir = true -> path_Join [prefix; dir] = key_root prefix +:+ dir.
Proof.
  intros Hd. pose proof Hd as (Hs & Hne & _)%plain_component_spec.
  unfold key_root. case_decide as Hp.
  - subst. rewrite path_Join_skip, path_Join_clean by auto. cbn [Join].
    rewrite (path_Clean_stack _ _ _ (clean_stack_plain _ Hd) Hne).
    by rewrite is_rooted_plain.
  - rewrite path_Join_clean by auto. cbn [Join].
    pose proof (clean_stack_snoc prefix dir Hp Hd) as E.
    rewrite (path_Clean_stack _ _ _ E Hne). rewrite is_rooted_app by done.
    destruct (clean_stack prefix) as [|d st] eqn:Est; [done|].
    change (rev (dir :: d :: st)) with (rev (d :: st) ++ [dir])%list.
    rewrite Join_app by (cbn; destruct (rev st); done). by rewrite !str_app_assoc.
Qed.

Lemma path_Join_child prefix dir c :
  plain_component dir = true -> plain_component c = true ->
  path_Join [prefix; dir; c] = path_Join [prefix; dir] +:+ "/" +:+ c.
Proof.
  intros Hd Hc. pose proof Hd as (_ & Hdne & _)%plain_component_spec.
  pose proof Hc as (_ & Hcne & _)%plain_component_spec.
  destruct (decide (prefix = "")) as [->|Hp].
  - rewrite !path_Join_skip, !path_Join_clean by auto. cbn [Join].
    eapply path_Clean_snoc; [done..|by apply clean_stack_plain|done].
  - rewrite !path_Join_clean by auto. cbn [Join].
    replace (prefix +:+ "/" +:+ dir +:+ "/" +:+ c) with ((prefix +:+ "/" +:+ dir) +:+ "/" +:+ c)
      by (by rewrite !str_app_assoc).
    eapply path_Clean_snoc; [|done|by apply clean_stack_snoc|done].
    by intros [? _]%str_app_eq_nil.
Qed.

Lemma path_Join_child_inj prefix dir c1 c2 :
  plain_component dir = true -> plain_component c1 = true -> plain_component c2 = true ->
  path_Join [prefix; dir; c1] = path_Join [prefix; dir; c2] -> c1 = c2.
Proof.
  intros Hd H1 H2. rewrite !path_Join_child by done. by intros ?%str_app_inj_l%str_app_inj_l.
Qed.

(** ** Lemmas: TrimSpace *)

Definition is_graph (c : ascii) : bool := in_range 33 126 c.

Lemma HasPrefix_graph c s w :
  w ∈ white_space -> is_graph c = true -> HasPrefix (String c s) w = false.
Proof.
  intros Hw Hc. assert (exists d t, w = String d t /\ is_graph d = false) as (d & t & -> & Hd).
  { assert (forallb (fun w => match w with String d _ => negb (is_graph d) | _ => false end)
              white_space = true) as H by (vm_compute; reflexivity).
    rewrite forallb_elem in H. specialize (H w Hw). destruct w as [|d t]; [done|].
    exists d, t. by apply negb_true_iff in H. }
  cbn. rewrite bool_decide_eq_false_2; [done|]. congruence.
Qed.

Lemma str_all_drop P n s : str_all P s = true -> str_all P (drop_str n s) = true.
Proof.
  revert s. induction n as [|n IH]; intros [|c s]; cbn; auto. intros [_ H]%andb_true_iff. auto.
Qed.

Lemma HasSuffix_graph s w :
  w ∈ white_space -> str_all is_graph s = true -> HasSuffix s w = false.
Proof.
  intros Hw Hs. unfold HasSuffix. apply andb_false_iff. right.
  apply bool_decide_eq_false. intros E.
  assert (str_all is_graph w = false) as Hf.
  { assert (forallb (fun w => negb (str_all is_graph w)) white_space = true) as H
      by (vm_compute; reflexivity).
    rewrite forallb_elem in H. specialize (H w Hw). by apply negb_true_iff in H. }
  rewrite <- E, str_all_drop in Hf; done.
Qed.

Lemma find_none_all {A} (P : A -> bool) l : (forall x, x ∈ l -> P x = false) -> find P l = None.
Proof.
  induction l as [|x l IH]; cbn; [done|]. intros H. rewrite (H x) by (by left).
  apply IH. intros y Hy. apply H. by right.
Qed.

Lemma TrimSpace_graph s : str_all is_graph s = true -> TrimSpace s = s.
Proof.
  intros Hs. unfold TrimSpace. destruct s as [|c s]; [done|].
  assert (trim_left (String.length (String c s)) (String c s) = String c s) as ->.
  { cbn [trim_left String.length]. rewrite find_none_all; [done|].
    intros w Hw. apply HasPrefix_graph; [done|]. cbn in Hs. by destruct (is_graph c). }
  cbn [trim_right String.length]. rewrite find_none_all; [done|].
  intros w Hw. by apply HasSuffix_graph.
Qed.

Lemma TrimSpace_space_graph s :
  s <> "" -> str_all is_graph s = true -> TrimSpace (String " " s) = s.
Proof.
  intros Hne Hs. unfold TrimSpace. destruct s as [|c s]; [done|].
  assert (forall w, w ∈ white_space -> HasPrefix (String c s) w = false) as Hw.
  { intros w Hw. apply HasPrefix_graph; [done|]. cbn in Hs. by destruct (is_graph c). }
  assert (find (HasPrefix (String " " (String c s))) white_space = Some " ") as Hf by reflexivity.
  cbn [trim_left String.length]. rewrite Hf.
  change (TrimPrefix (String " " (String c s)) " ") with (String c s).
  rewrite find_none_all by done. cbn [trim_right]. rewrite find_none_all; [done|].
  intros w Hin. by apply HasSuffix_graph.
Qed.

Fixpoint last_char (s : string) : option ascii :=
  match s with
  | EmptyString => None
  | String c EmptyString => Some c
  | String _ s => last_char s
  end.

Lemma last_char_drop n s : drop_str n s <> "" -> last_char (drop_str n s) = last_char s.
Proof.
  revert s. induction n as [|n IH]; intros [|c s]; cbn; try done. intros Hn. rewrite IH by done.
  by destruct s; [destruct n|].
Qed.

Lemma last_char_app a b : b <> "" -> last_char (a +:+ b) = last_char b.
Proof.
  intros Hb. induction a as [|c a IH]; [done|]. rewrite str_app_cons. cbn [last_char].
  destruct (a +:+ b) eqn:E; [|exact IH].
  by apply str_app_eq_nil in E as [_ ->].
Qed.

Lemma last_char_all P s c : str_all P s = true -> last_char s = Some c -> P c = true.
Proof.
  induction s as [|d s IH]; [done|]. cbn [str_all]. intros [Hd Hs]%andb_true_iff.
  destruct s; cbn [last_char]; [by intros [= <-]|]. by apply IH.
Qed.

(** A string that begins and ends with visible characters is not trimmed. *)
Lemma TrimSpace_ends c s d :
  is_graph c = true -> last_char (String c s) = Some d -> is_graph d = true ->
  TrimSpace (String c s) = String c s.
Proof.
  intros Hc Hl Hd. unfold TrimSpace. cbn [trim_left String.length].
  rewrite find_none_all by (intros w Hw; by apply HasPrefix_graph). cbn [trim_right].
  rewrite find_none_all; [done|]. intros w Hw. unfold HasSuffix. apply andb_false_iff. right.
  apply bool_decide_eq_false. intros E.
  assert (forallb (fun w => match last_char w with Some d => negb (is_graph d) | None => false end)
            white_space = true) as Hws by (vm_compute; reflexivity).
  rewrite forallb_elem in Hws. specialize (Hws w Hw). rewrite <- E in Hws.
  rewrite last_char_drop in Hws.
  - rewrite Hl in Hws. by rewrite Hd in Hws.
  - intros E0. by rewrite E0 in Hws.
Qed.

Lemma Split_Join c (l : list string) :
  l <> [] -> Forall (fun w => no_char c w = true) l -> Split c (Join (String c "") l) = l.
Proof.
  induction l as [|w l IH]; [done|]. intros _ Hf. apply Forall_cons_1 in Hf as [Hw Hf].
  destruct l as [|w' l]; [by apply Split_no_char|].
  rewrite Join_cons_ne by done.
  change (w +:+ String c "" +:+ Join (String c "") (w' :: l))
    with (w +:+ String c (Join (String c "") (w' :: l))).
  rewrite Split_app, (Split_no_char _ _ Hw), IH by done. done.
Qed.
