(* ===== verification/Util.v ===== *)
(** pkg/util: the small helpers other components call. *)

From S2P Require Import Prelude GoStd.

Local Open Scope string_scope.

(** ** grpc.go *)

(** [codes.Code.String]. *)
Definition code_String (c : code) : string :=
  match c with
  | codes_OK => "OK"
  | codes_Canceled => "Canceled"
  | codes_Unknown => "Unknown"
  | codes_InvalidArgument => "InvalidArgument"
  | codes_DeadlineExceeded => "DeadlineExceeded"
  | codes_NotFound => "NotFound"
  | codes_AlreadyExists => "AlreadyExists"
  | codes_PermissionDenied => "PermissionDenied"
  | codes_ResourceExhausted => "ResourceExhausted"
  | codes_FailedPrecondition => "FailedPrecondition"
  | codes_Aborted => "Aborted"
  | codes_OutOfRange => "OutOfRange"
  | codes_Unimplemented => "Unimplemented"
  | codes_Internal => "Internal"
  | codes_Unavailable => "Unavailable"
  | codes_DataLoss => "DataLoss"
  | codes_Unauthenticated => "Unauthenticated"
  end.

Definition util_StatusError (c : code) : error := StatusError c (code_String c).

(** The first error of the chain that carries a gRPC status: a status error, or one
    of the error types of the repository that define [GRPCStatus]. *)
Fixpoint StatusCode (err : error) : code :=
  match err with
  | StatusError c _ => c
  | ErrNotFound => codes_NotFound
  | ErrAlreadyExists => codes_AlreadyExists
  | ValidationError _ => codes_InvalidArgument
  | Wrapped _ inner => StatusCode inner
  | ErrorString _ | External _ => codes_Unknown
  end.

(** ** generic.go *)

Fixpoint slices_Index {T} `{EqDecision T} (items : list T) (x : T) : option nat :=
  match items with
  | [] => None
  | y :: items => if decide (y = x) then Some 0 else S <$> slices_Index items x
  end.

Definition ReplaceFirstOccurrence {T} `{EqDecision T} (items : list T) (old new : T) : list T :=
  match slices_Index items old with
  | None => items
  | Some index => (take index items ++ [new] ++ drop (index + 1) items)%list
  end.

Definition RemoveFirstOccurence {T} `{EqDecision T} (items : list T) (remove : T) : list T :=
  match slices_Index items remove with
  | None => items
  | Some index => (take index items ++ drop (index + 1) items)%list
  end.

(** [LockMap]: the lock of a key is allocated on first use and is then always the
    same one.  A lock is named by a number. *)
Record LockMap := mkLockMap { lm_locks : gmap string nat; lm_next : nat }.

Definition NewLockMap : LockMap := mkLockMap ∅ 0.

Definition LockMap_Get (lm : LockMap) (key : string) : LockMap * nat :=
  match lm_locks lm !! key with
  | Some l => (lm, l)
  | None => (mkLockMap (<[key := lm_next lm]> (lm_locks lm)) (S (lm_next lm)), lm_next lm)
  end.

Definition LockMap_Delete (lm : LockMap) (key : string) : LockMap :=
  mkLockMap (delete key (lm_locks lm)) (lm_next lm).

(** ** Properties *)

Lemma slices_Index_split {T} `{EqDecision T} (items : list T) x i :
  slices_Index items x = Some i ->
  exists pre post, items = (pre ++ x :: post)%list /\ x ∉ pre /\ i = length pre.
Proof.
  revert i. induction items as [|y items IH]; intros i; cbn; [done|]. case_decide as E.
  - intros [= <-]. subst. exists [], items. split; [done|]. split; [apply not_elem_of_nil|done].
  - destruct (slices_Index items x) as [j|]; [|done]. intros [= <-].
    destruct (IH j eq_refl) as (pre & post & -> & Hn & ->).
    exists (y :: pre), post. split; [done|]. split; [|done]. rewrite not_elem_of_cons. by split.
Qed.

Lemma slices_Index_None {T} `{EqDecision T} (items : list T) x :
  slices_Index items x = None <-> x ∉ items.
Proof.
  induction items as [|y items IH]; cbn; [by split; [intros _; apply not_elem_of_nil|]|].
  rewrite not_elem_of_cons. case_decide; [naive_solver|].
  destruct (slices_Index items x); naive_solver.
Qed.

(** The slice helpers touch exactly the first occurrence: what precedes it and
    what follows it stay in place, and a slice without the element is unchanged. *)
Theorem first_occurrence {T} `{EqDecision T} (items : list T) (x y : T) :
  (x ∉ items -> ReplaceFirstOccurrence items x y = items /\ RemoveFirstOccurence items x = items) /\
  (x ∈ items -> exists pre post, items = (pre ++ x :: post)%list /\ x ∉ pre /\
     ReplaceFirstOccurrence items x y = (pre ++ y :: post)%list /\
     RemoveFirstOccurence items x = (pre ++ post)%list).
Proof.
  unfold ReplaceFirstOccurrence, RemoveFirstOccurence. split.
  - intros Hn%slices_Index_None. by rewrite Hn.
  - intros Hin. destruct (slices_Index items x) as [i|] eqn:E.
    + destruct (slices_Index_split _ _ _ E) as (pre & post & -> & Hn & ->).
      exists pre, post. split; [done|]. split; [done|].
      by rewrite take_app_length, <- drop_drop, drop_app_length.
    + by apply slices_Index_None in E.
Qed.

(** The same key gives the same lock until it is deleted, and different keys never
    share one. *)
Definition lockmap_ok (lm : LockMap) : Prop :=
  (forall k l, lm_locks lm !! k = Some l -> l < lm_next lm) /\
  (forall k1 k2 l, lm_locks lm !! k1 = Some l -> lm_locks lm !! k2 = Some l -> k1 = k2).

Lemma LockMap_Get_ok lm key lm' l :
  lockmap_ok lm -> LockMap_Get lm key = (lm', l) ->
  lockmap_ok lm' /\ lm_locks lm' !! key = Some l /\
  (forall k l', lm_locks lm !! k = Some l' -> lm_locks lm' !! k = Some l') /\
  LockMap_Get lm' key = (lm', l).
Proof.
  intros [Hb Hi]. unfold LockMap_Get. destruct (lm_locks lm !! key) as [l0|] eqn:E; intros [= <- <-]; cbn.
  - rewrite E. done.
  - rewrite lookup_insert_eq. split; [|split; [done|split; [|done]]].
    + split; cbn.
      * intros k l. rewrite lookup_insert. case_decide; [intros [= <-]; lia|]. intros ?%Hb. lia.
      * intros k1 k2 l. rewrite !lookup_insert. repeat case_decide; subst; try done.
        -- intros [= <-] ?%Hb. lia.
        -- intros ?%Hb [= <-]. lia.
        -- apply Hi.
    + intros k l' Hk. rewrite lookup_insert_ne; [done|]. congruence.
Qed.
