(* ===== verification/Validation.v ===== *)
(** pkg/validation: the field validators every API object is checked with. *)

From S2P Require Import Prelude GoStd.
From Stdlib Require Import Ascii.

Local Open Scope string_scope.

(** ** Errors *)

Definition nameConstraint : string :=
  "can only contain alphanumeric characters, '-', '_', and '.', must start with an alphanumeric character".
Definition annoyingCharactersConstraint : string :=
  "cannot contain '\', '*', '" +:+ String (chr 34) "', ''', or ' '".
Definition lengthConstraint (i : Z) : string :=
  "must be between 1-" +:+ Sprint i +:+ " characters in length".

Definition ErrMissingRequiredField : error := ValidationError "missing required field".
Definition ErrInvalidValue : error := ValidationError "invalid value".
Definition ErrDuplicate : error := ValidationError "duplicate value in list".
Definition ErrReadOnlyField : error := ValidationError "field is read-only".
Definition ErrInvalidLabelName : error :=
  ValidationError ("label names " +:+ nameConstraint +:+ ", and " +:+ lengthConstraint 64).
Definition ErrInvalidLabelValue : error :=
  ValidationError ("label values " +:+ nameConstraint +:+ ", and " +:+ lengthConstraint 64).
Definition ErrInvalidName : error :=
  ValidationError ("names " +:+ nameConstraint +:+ ", and " +:+ lengthConstraint 64).
Definition ErrInvalidRoleName : error :=
  ValidationError ("role names " +:+ nameConstraint +:+ ", and " +:+ lengthConstraint 64).
Definition ErrInvalidSubjectName : error :=
  ValidationError ("subject names " +:+ lengthConstraint 256 +:+ " and " +:+ annoyingCharactersConstraint).
Definition ErrInvalidID : error :=
  ValidationError ("ids " +:+ nameConstraint +:+ ", and " +:+ lengthConstraint 128).

(** ** Regular expressions

    Each expression is anchored, so matching is a test of every character and of
    the length.  The classes of the first three are ASCII, so one character is one
    byte; the class of the last is negated, so its repetition counts runes. *)

Definition is_alnum (c : ascii) : bool :=
  in_range 97 122 c || in_range 65 90 c || in_range 48 57 c.

Definition one_of (l : list ascii) (c : ascii) : bool := bool_decide (c ∈ l).

(** [^[a-zA-Z0-9][a-zA-Z0-9-_./]{0,63}$] *)
Definition labelNameRegex (s : string) : bool :=
  match s with
  | EmptyString => false
  | String c t =>
      is_alnum c && str_all (fun d => is_alnum d || one_of ["-"; "_"; "."; "/"]%char d) t
      && (String.length t <=? 63)%nat
  end.

(** [^[a-zA-Z0-9][a-zA-Z0-9-_.]{0,63}$] *)
Definition labelValueRegex (s : string) : bool :=
  match s with
  | EmptyString => false
  | String c t =>
      is_alnum c && str_all (fun d => is_alnum d || one_of ["-"; "_"; "."]%char d) t
      && (String.length t <=? 63)%nat
  end.

(** [^[a-zA-Z0-9-_.\(\)]{1,128}$] *)
Definition idRegex (s : string) : bool :=
  str_all (fun d => is_alnum d || one_of ["-"; "_"; "."; "("; ")"]%char d) s
  && (1 <=? String.length s)%nat && (String.length s <=? 128)%nat.

(** Backslash, star, both quotes and [\s] (tab, newline, form feed, carriage
    return, space). *)
Definition subject_excluded (c : ascii) : bool :=
  bool_decide (ord c ∈ [92; 42; 34; 39; 9; 10; 12; 13; 32]).

Definition subjectNameRegex (s : string) : bool :=
  str_all (fun d => negb (subject_excluded d)) s
  && (1 <=? rune_count s)%nat && (rune_count s <=? 256)%nat.

(** ** Validators *)

Definition ValidateLabelName (name : string) : outcome unit :=
  if negb (labelNameRegex name) then Err ErrInvalidLabelName else Ok tt.

Definition ValidateLabelValue (value : string) : outcome unit :=
  if negb (labelValueRegex value) then Err ErrInvalidLabelValue else Ok tt.

(** The loop over the label map, in the order the runtime iterates. *)
Definition ValidateLabels_in (order : list (string * string)) : outcome unit :=
  foreach (fun kv => ValidateLabelName kv.1 ;? ValidateLabelValue kv.2) order.

Definition ValidateLabels (labels : gmap string string) : outcome unit :=
  ValidateLabels_in (map_to_list labels).

Definition ValidateID (id : string) : outcome unit :=
  if negb (idRegex id) then Err ErrInvalidID
  else if decide (Repeat "." (String.length id) = id) then Err ErrInvalidID
  else Ok tt.

Definition ValidateSubject (subject : string) : outcome unit :=
  if negb (subjectNameRegex subject) then Err ErrInvalidSubjectName else Ok tt.

(** The [Validator] interface and the [Validate] helper. *)
Class Validator (A : Type) := Validate_method : A -> outcome unit.

Definition Validate `{Validator A} (v : A) : outcome unit := Validate_method v.

(** ** Properties *)

Lemma Repeat_dot_all s :
  str_all (fun d => bool_decide (d = "."%char)) s = true -> Repeat "." (String.length s) = s.
Proof.
  induction s as [|c s IH]; cbn; [done|].
  rewrite andb_true_iff, bool_decide_eq_true. intros [-> Hs]. by rewrite str_app_cons, str_app_nil, IH.
Qed.

(** An accepted id is a path component that [path.Clean] leaves alone: it has no
    separator and is neither empty nor a run of dots. *)
Lemma ValidateID_plain id : ValidateID id = Ok tt -> plain_component id = true.
Proof.
  unfold ValidateID, idRegex. destruct (str_all _ id) eqn:Hc; [|done].
  destruct (1 <=? String.length id)%nat eqn:Hl; [|done]. cbn.
  destruct (_ <=? 128)%nat; [|done]. cbn. case_decide as Hd; [done|]. intros _.
  apply plain_component_spec. split; [|split; [|split]].
  - unfold no_char. eapply str_all_impl; [|exact Hc]. cbn. intros c H.
    apply negb_true_iff, bool_decide_eq_false. intros <-. by vm_compute in H.
  - by intros ->.
  - intros ->. by apply Hd.
  - intros ->. by apply Hd.
Qed.

Lemma ValidateID_bounds id : ValidateID id = Ok tt -> (1 <= String.length id <= 128)%nat.
Proof.
  unfold ValidateID, idRegex. destruct (str_all _ id); [|done].
  destruct (Nat.leb_spec 1 (String.length id)); [|done]. cbn.
  destruct (Nat.leb_spec (String.length id) 128); [|done]. lia.
Qed.

Lemma ValidateLabels_in_Ok order :
  ValidateLabels_in order = Ok tt <->
  forall k v, (k, v) ∈ order -> labelNameRegex k = true /\ labelValueRegex v = true.
Proof.
  unfold ValidateLabels_in. rewrite foreach_Ok. split.
  - intros H k v Hkv. specialize (H _ Hkv). cbn in H.
    unfold ValidateLabelName, ValidateLabelValue in H.
    destruct (labelNameRegex k); [|done]. by destruct (labelValueRegex v).
  - intros H [k v] Hkv. destruct (H _ _ Hkv) as [H1 H2]. cbn.
    unfold ValidateLabelName, ValidateLabelValue. by rewrite H1, H2.
Qed.

(** The verdict on a label map does not depend on the iteration order (the error
    reported may: a name error or a value error, whichever is met first). *)
Lemma ValidateLabels_in_order labels order :
  order ≡ₚ map_to_list labels ->
  ValidateLabels_in order = Ok tt <-> ValidateLabels labels = Ok tt.
Proof.
  intros Hp. unfold ValidateLabels. rewrite !ValidateLabels_in_Ok.
  split; intros H k v Hkv; apply H; [by rewrite Hp | by rewrite <- Hp].
Qed.

Lemma ValidateLabels_Ok labels :
  ValidateLabels labels = Ok tt <->
  forall k v, labels !! k = Some v -> labelNameRegex k = true /\ labelValueRegex v = true.
Proof.
  unfold ValidateLabels. rewrite ValidateLabels_in_Ok. by setoid_rewrite elem_of_map_to_list.
Qed.

#[export] Hint Resolve ValidateID_plain : go.
