(* ===== verification/CoreV1.v ===== *)
(** pkg/apis/core/v1: the core API objects (core.proto), their accessors
    (metadata.go, reference.go), label helpers (labels.go), equality
    (comparator.go), health summary (extensions.go) and validation
    (validation.go).  A message pointer is an [option]; a nil map or slice is the
    empty one. *)

From S2P Require Import Prelude GoStd Validation.
From Stdlib Require Import Ascii.

Local Open Scope string_scope.

(** ** Messages *)

(** Times are nanoseconds since the Unix epoch. *)
Definition Time := Z.

Record Reference := mkReference { ref_Id : string }.

Record TokenCapability := mkTokenCapability {
  tc_Type : string;
  tc_Reference : option Reference }.

Record BootstrapTokenMetadata := mkBootstrapTokenMetadata {
  btm_LeaseID : Z;
  btm_Ttl : Z;
  btm_UsageCount : Z;
  btm_Labels : gmap string string;
  btm_Capabilities : list TokenCapability;
  btm_ResourceVersion : string }.

Record BootstrapToken := mkBootstrapToken {
  bt_TokenID : string;
  bt_Secret : string;
  bt_Metadata : option BootstrapTokenMetadata }.

Record ClusterCapability := mkClusterCapability {
  cc_Name : string;
  cc_DeletionTimestamp : option Time }.

Inductive Module_ := mkModule {
  mod_Path : string;
  mod_Version : string;
  mod_Sum : string;
  mod_Replace : option Module_ }.

Record BuildInfo := mkBuildInfo {
  bi_GoVersion : string;
  bi_Path : string;
  bi_Main : option Module_;
  bi_Deps : list Module_;
  bi_Settings : list (string * string) }.

Record LastKnownConnectionDetails := mkLastKnownConnectionDetails {
  lk_Time : option Time;
  lk_Address : string;
  lk_AgentBuildInfo : option BuildInfo;
  lk_PluginVersions : gmap string string }.

Record ClusterMetadata := mkClusterMetadata {
  cm_Labels : gmap string string;
  cm_Capabilities : list ClusterCapability;
  cm_ResourceVersion : string;
  cm_LastKnownConnectionDetails : option LastKnownConnectionDetails;
  cm_CreationTimestamp : option Time }.

Record Cluster := mkCluster {
  cl_Id : string;
  cl_Metadata : option ClusterMetadata }.

Record LabelSelectorRequirement := mkLabelSelectorRequirement {
  lsr_Key : string;
  lsr_Operator : string;
  lsr_Values : list string }.

Record LabelSelector := mkLabelSelector {
  ls_MatchLabels : gmap string string;
  ls_MatchExpressions : list LabelSelectorRequirement }.

(** The enum [MatchOptions]; [Default] and [EmptySelectorMatchesAll] are both 0. *)
Definition MatchOptions := Z.
Definition MatchOptions_Default : MatchOptions := 0%Z.
Definition MatchOptions_EmptySelectorMatchesAll : MatchOptions := 0%Z.
Definition MatchOptions_EmptySelectorMatchesNone : MatchOptions := 1%Z.
Definition MatchOptions_name (o : MatchOptions) : option string :=
  if decide (o = 0%Z) then Some "Default"
  else if decide (o = 1%Z) then Some "EmptySelectorMatchesNone"
  else None.

Record ClusterSelector := mkClusterSelector {
  cs_ClusterIDs : list string;
  cs_LabelSelector : option LabelSelector;
  cs_MatchOptions : MatchOptions }.

Record Role := mkRole {
  role_Id : string;
  role_ClusterIDs : list string;
  role_MatchLabels : option LabelSelector }.

Record RoleBinding := mkRoleBinding {
  rb_Id : string;
  rb_RoleId : string;
  rb_Subjects : list string;
  rb_Taints : list string }.

Record SubjectAccessRequest := mkSubjectAccessRequest { sar_Subject : string }.

Record Health := mkHealth {
  h_Timestamp : option Time;
  h_Ready : bool;
  h_Conditions : list string;
  h_Annotations : gmap string string }.

Record Status := mkStatus {
  st_Timestamp : option Time;
  st_Connected : bool }.

Record HealthStatus := mkHealthStatus {
  hs_Health : option Health;
  hs_Status : option Status }.

#[export] Instance Reference_eq_dec : EqDecision Reference.
Proof. solve_decision. Defined.
#[export] Instance TokenCapability_eq_dec : EqDecision TokenCapability.
Proof. solve_decision. Defined.
#[export] Instance BootstrapTokenMetadata_eq_dec : EqDecision BootstrapTokenMetadata.
Proof. solve_decision. Defined.
#[export] Instance BootstrapToken_eq_dec : EqDecision BootstrapToken.
Proof. solve_decision. Defined.
#[export] Instance ClusterCapability_eq_dec : EqDecision ClusterCapability.
Proof. solve_decision. Defined.
#[export] Instance LabelSelectorRequirement_eq_dec : EqDecision LabelSelectorRequirement.
Proof. solve_decision. Defined.
#[export] Instance LabelSelector_eq_dec : EqDecision LabelSelector.
Proof. solve_decision. Defined.
#[export] Instance Role_eq_dec : EqDecision Role.
Proof. solve_decision. Defined.
#[export] Instance RoleBinding_eq_dec : EqDecision RoleBinding.
Proof. solve_decision. Defined.
#[export] Instance Health_eq_dec : EqDecision Health.
Proof. solve_decision. Defined.
#[export] Instance Status_eq_dec : EqDecision Status.
Proof. solve_decision. Defined.
#[export] Instance HealthStatus_eq_dec : EqDecision HealthStatus.
Proof. solve_decision. Defined.

(** ** metadata.go *)

Definition zeroTokenMetadata : BootstrapTokenMetadata :=
  mkBootstrapTokenMetadata 0%Z 0%Z 0%Z ∅ [] "".
Definition zeroClusterMetadata : ClusterMetadata :=
  mkClusterMetadata ∅ [] "" None None.

(** A getter on a nil message returns the zero value of the field; a setter
    allocates the metadata first. *)
Definition token_meta (t : BootstrapToken) : BootstrapTokenMetadata :=
  default zeroTokenMetadata (bt_Metadata t).
Definition cluster_meta (c : Cluster) : ClusterMetadata :=
  default zeroClusterMetadata (cl_Metadata c).

Definition with_token_meta (t : BootstrapToken) (m : BootstrapTokenMetadata) : BootstrapToken :=
  mkBootstrapToken (bt_TokenID t) (bt_Secret t) (Some m).
Definition with_cluster_meta (c : Cluster) (m : ClusterMetadata) : Cluster :=
  mkCluster (cl_Id c) (Some m).

Module Token.
Definition GetCapabilities (t : BootstrapToken) := btm_Capabilities (token_meta t).
Definition SetCapabilities (caps : list TokenCapability) (t : BootstrapToken) :=
  let m := token_meta t in
  with_token_meta t (mkBootstrapTokenMetadata (btm_LeaseID m) (btm_Ttl m) (btm_UsageCount m)
                       (btm_Labels m) caps (btm_ResourceVersion m)).
Definition GetLabels (t : BootstrapToken) := btm_Labels (token_meta t).
Definition SetLabels (labels : gmap string string) (t : BootstrapToken) :=
  let m := token_meta t in
  with_token_meta t (mkBootstrapTokenMetadata (btm_LeaseID m) (btm_Ttl m) (btm_UsageCount m)
                       labels (btm_Capabilities m) (btm_ResourceVersion m)).
Definition GetResourceVersion (t : BootstrapToken) := btm_ResourceVersion (token_meta t).
Definition SetResourceVersion (v : string) (t : BootstrapToken) :=
  let m := token_meta t in
  with_token_meta t (mkBootstrapTokenMetadata (btm_LeaseID m) (btm_Ttl m) (btm_UsageCount m)
                       (btm_Labels m) (btm_Capabilities m) v).
Definition GetReference (t : BootstrapToken) := mkReference (bt_TokenID t).
End Token.

Module Clus.
Definition GetCapabilities (c : Cluster) := cm_Capabilities (cluster_meta c).
Definition SetCapabilities (caps : list ClusterCapability) (c : Cluster) :=
  let m := cluster_meta c in
  with_cluster_meta c (mkClusterMetadata (cm_Labels m) caps (cm_ResourceVersion m)
                         (cm_LastKnownConnectionDetails m) (cm_CreationTimestamp m)).
Definition GetLabels (c : Cluster) := cm_Labels (cluster_meta c).
Definition SetLabels (labels : gmap string string) (c : Cluster) :=
  let m := cluster_meta c in
  with_cluster_meta c (mkClusterMetadata labels (cm_Capabilities m) (cm_ResourceVersion m)
                         (cm_LastKnownConnectionDetails m) (cm_CreationTimestamp m)).
Definition GetResourceVersion (c : Cluster) := cm_ResourceVersion (cluster_meta c).
Definition SetResourceVersion (v : string) (c : Cluster) :=
  let m := cluster_meta c in
  with_cluster_meta c (mkClusterMetadata (cm_Labels m) (cm_Capabilities m) v
                         (cm_LastKnownConnectionDetails m) (cm_CreationTimestamp m)).
Definition SetCreationTimestamp (ts : Time) (c : Cluster) :=
  let m := cluster_meta c in
  with_cluster_meta c (mkClusterMetadata (cm_Labels m) (cm_Capabilities m) (cm_ResourceVersion m)
                         (cm_LastKnownConnectionDetails m) (Some ts)).
(** [AsTime] of a nil timestamp is the Unix epoch. *)
Definition GetCreationTimestamp (c : Cluster) : Time :=
  default 0%Z (cm_CreationTimestamp (cluster_meta c)).
Definition GetReference (c : Cluster) := mkReference (cl_Id c).
End Clus.

(** The interface [MetadataAccessor] over an object type and its capability type,
    with the laws its clients rely on. *)
Class MetadataAccessor (O T : Type) := {
  ma_GetCapabilities : O -> list T;
  ma_SetCapabilities : list T -> O -> O;
  ma_GetLabels : O -> gmap string string;
  ma_GetResourceVersion : O -> string;
  ma_get_set_caps o l : ma_GetCapabilities (ma_SetCapabilities l o) = l;
  ma_set_set_caps o l l' :
    ma_SetCapabilities l' (ma_SetCapabilities l o) = ma_SetCapabilities l' o;
  ma_set_caps_labels o l : ma_GetLabels (ma_SetCapabilities l o) = ma_GetLabels o;
  ma_set_caps_version o l :
    ma_GetResourceVersion (ma_SetCapabilities l o) = ma_GetResourceVersion o;
}.

#[export] Instance BootstrapToken_accessor : MetadataAccessor BootstrapToken TokenCapability.
Proof.
  refine {| ma_GetCapabilities := Token.GetCapabilities; ma_SetCapabilities := Token.SetCapabilities;
            ma_GetLabels := Token.GetLabels; ma_GetResourceVersion := Token.GetResourceVersion |};
    done.
Defined.

#[export] Instance Cluster_accessor : MetadataAccessor Cluster ClusterCapability.
Proof.
  refine {| ma_GetCapabilities := Clus.GetCapabilities; ma_SetCapabilities := Clus.SetCapabilities;
            ma_GetLabels := Clus.GetLabels; ma_GetResourceVersion := Clus.GetResourceVersion |};
    done.
Defined.

(** ** reference.go *)

Definition Role_Reference (r : Role) : Reference := mkReference (role_Id r).
Definition RoleBinding_Reference (rb : RoleBinding) : Reference := mkReference (rb_Id rb).
Definition RoleReference (rb : RoleBinding) : Reference := mkReference (rb_RoleId rb).

(** ** comparator.go *)

(** The interface [Comparator]. *)
Class Comparator (T : Type) := Equal : T -> T -> bool.

Definition equalNonzeroOperator (a b : string) : bool :=
  if bool_decide (a = "") || bool_decide (b = "") then false else bool_decide (a = b).

(** Receiver and argument may be nil. *)
Definition Reference_Equal (r other : option Reference) : bool :=
  match r, other with
  | Some r, Some other => equalNonzeroOperator (ref_Id r) (ref_Id other)
  | None, None => true
  | _, _ => false
  end.

Definition equalNonzeroFunc {T} (eq : option T -> option T -> bool) (a b : option T) : bool :=
  if eq a None || eq b None then false else eq a b.

#[export] Instance TokenCapability_Equal : Comparator TokenCapability := fun c other =>
  equalNonzeroOperator (tc_Type c) (tc_Type other) &&
  equalNonzeroFunc Reference_Equal (tc_Reference c) (tc_Reference other).

#[export] Instance ClusterCapability_Equal : Comparator ClusterCapability := fun c other =>
  equalNonzeroOperator (cc_Name c) (cc_Name other).

Definition Health_Equal (r other : option Health) : bool :=
  match r, other with
  | Some r, Some other =>
      Bool.eqb (h_Ready r) (h_Ready other) &&
      bool_decide (h_Conditions r = h_Conditions other) &&
      bool_decide (h_Annotations r = h_Annotations other)
  | None, None => true
  | _, _ => false
  end.

Definition health_time (r : option Health) : Time :=
  default 0%Z (r ≫= h_Timestamp).

Definition NewerThan (r other : option Health) : bool :=
  (health_time other <? health_time r)%Z.

(** ** labels.go *)

Definition LabelSelectorOpIn : string := "In".
Definition LabelSelectorOpNotIn : string := "NotIn".
Definition LabelSelectorOpExists : string := "Exists".
Definition LabelSelectorOpDoesNotExist : string := "DoesNotExist".
Definition NameLabel : string := "opni.io/name".
Definition LegacyNameLabel : string := "kubernetes.io/metadata.name".

Definition ErrInternalLabelInSelector : error :=
  ValidationError "cannot use internal label in label selector".

Definition IsLabelInternal (key : string) : bool := HasPrefix key "opni.io/".

Definition IsLabelMutable (key : string) : bool :=
  if decide (key = NameLabel) then true else negb (IsLabelInternal key).

Definition keyWithOperatorSymbol (key operator : string) : string :=
  if decide (operator = LabelSelectorOpIn) then key +:+ " ∈"
  else if decide (operator = LabelSelectorOpNotIn) then key +:+ " ∉"
  else if decide (operator = LabelSelectorOpExists) then "∃ " +:+ key
  else if decide (operator = LabelSelectorOpDoesNotExist) then "∄ " +:+ key
  else key +:+ " ?".

Definition Requirement_ExpressionString (lsr : LabelSelectorRequirement) : string :=
  if decide (lsr_Operator lsr = LabelSelectorOpExists \/
             lsr_Operator lsr = LabelSelectorOpDoesNotExist)
  then keyWithOperatorSymbol (lsr_Key lsr) (lsr_Operator lsr)
  else keyWithOperatorSymbol (lsr_Key lsr) (lsr_Operator lsr)
         +:+ " {" +:+ Join "," (lsr_Values lsr) +:+ "}".

(** The match labels are visited in the order of the runtime's map iteration. *)
Definition ExpressionString_in (order : list (string * string)) (ls : option LabelSelector) : string :=
  match ls with
  | None => ""
  | Some ls =>
      Join " && "
        (((fun kv : string * string =>
            Requirement_ExpressionString (mkLabelSelectorRequirement kv.1 LabelSelectorOpIn [kv.2]))
           <$> order) ++
         (Requirement_ExpressionString <$> ls_MatchExpressions ls))%list
  end.

Definition IsEmpty (ls : option LabelSelector) : bool :=
  match ls with
  | None => true
  | Some ls => bool_decide (ls_MatchLabels ls = ∅) && bool_decide (ls_MatchExpressions ls = [])
  end.

(** ** extensions.go *)

Definition Summary (s : HealthStatus) : string :=
  match hs_Status s, hs_Health s with
  | Some st, Some h =>
      if negb (st_Connected st) then "Disconnected"
      else if (0 <? length (h_Conditions h))%nat then "Unhealthy: " +:+ Join ", " (h_Conditions h)
      else if negb (h_Ready h) then "Not ready (unknown reason)"
      else "Healthy"
  | _, _ => "Unknown"
  end.

(** ** validation.go *)

(** [lo.Uniq] of github.com/samber/lo: the duplicate-free version of a list. *)
Class LoLib := {
  lo_Uniq : list string -> list string;
  lo_Uniq_NoDup l : NoDup (lo_Uniq l);
  lo_Uniq_elem l x : x ∈ lo_Uniq l <-> x ∈ l;
}.

Definition missing (field : string) : error := Wrapped field ErrMissingRequiredField.

Definition Cluster_Validate (c : Cluster) : outcome unit :=
  fail_if (bool_decide (cl_Id c = "")) (missing "id") ;?
  ValidateID (cl_Id c) ;?
  ValidateLabels (Clus.GetLabels c).

Definition Requirement_Validate (r : LabelSelectorRequirement) : outcome unit :=
  fail_if (bool_decide (lsr_Key r = "")) (missing "key") ;?
  fail_if (bool_decide (lsr_Operator r = "")) (missing "operator") ;?
  ValidateLabelName (lsr_Key r) ;?
  fail_if (negb (bool_decide (lsr_Operator r ∈
     [LabelSelectorOpIn; LabelSelectorOpNotIn; LabelSelectorOpExists; LabelSelectorOpDoesNotExist])))
    (Wrapped "unknown operator (values are case-sensitive)" ErrInvalidValue) ;?
  foreach ValidateLabelValue (lsr_Values r).

Definition LabelSelector_Validate (ls : LabelSelector) : outcome unit :=
  ValidateLabels (ls_MatchLabels ls) ;?
  foreach Requirement_Validate (ls_MatchExpressions ls).

(** [restrictedLabelSelector.Validate], reached through
    [WithRestrictInternalLabels]. *)
Definition restrictedLabelSelector_Validate (ls : LabelSelector) : outcome unit :=
  ValidateLabels (ls_MatchLabels ls) ;?
  foreach (fun kv : string * string =>
             fail_if (IsLabelInternal kv.1) (Wrapped kv.1 ErrInternalLabelInSelector))
    (map_to_list (ls_MatchLabels ls)) ;?
  foreach (fun l =>
             Requirement_Validate l ;?
             fail_if (IsLabelInternal (lsr_Key l)) (Wrapped (lsr_Key l) ErrInternalLabelInSelector))
    (ls_MatchExpressions ls).

Section Validate.
Context `{LoLib}.

Definition ClusterSelector_Validate (s : ClusterSelector) : outcome unit :=
  foreach ValidateID (cs_ClusterIDs s) ;?
  fail_if (negb (length (lo_Uniq (cs_ClusterIDs s)) =? length (cs_ClusterIDs s))%nat)
    (Wrapped "clusterIDs" ErrDuplicate) ;?
  match cs_LabelSelector s with
  | Some ls => LabelSelector_Validate ls
  | None => Ok tt
  end.

Definition Role_Validate (r : Role) : outcome unit :=
  fail_if (bool_decide (role_Id r = "")) (missing "id") ;?
  omap_err (Wrapped (role_Id r)) (ValidateID (role_Id r)) ;?
  foreach (fun id => omap_err (Wrapped id) (ValidateID id)) (role_ClusterIDs r) ;?
  fail_if (negb (length (lo_Uniq (role_ClusterIDs r)) =? length (role_ClusterIDs r))%nat)
    (Wrapped "clusterIDs" ErrDuplicate) ;?
  match role_MatchLabels r with
  | Some ls => restrictedLabelSelector_Validate ls
  | None => Ok tt
  end.
End Validate.

Definition RoleBinding_Validate (rb : RoleBinding) : outcome unit :=
  fail_if (bool_decide (rb_Id rb = "")) (missing "id") ;?
  fail_if (bool_decide (rb_RoleId rb = "")) (missing "roleId") ;?
  omap_err (Wrapped (rb_Id rb)) (ValidateID (rb_Id rb)) ;?
  omap_err (Wrapped (rb_RoleId rb)) (ValidateID (rb_RoleId rb)) ;?
  foreach ValidateSubject (rb_Subjects rb).

Definition Reference_Validate (ref : Reference) : outcome unit :=
  fail_if (bool_decide (ref_Id ref = "")) (missing "id") ;?
  ValidateID (ref_Id ref).

Definition SubjectAccessRequest_Validate (sar : SubjectAccessRequest) : outcome unit :=
  fail_if (bool_decide (sar_Subject sar = "")) (missing "subject") ;?
  ValidateSubject (sar_Subject sar).

Definition MatchOptions_Validate (o : MatchOptions) : outcome unit :=
  match MatchOptions_name o with
  | Some _ => Ok tt
  | None => Err (Wrapped ("MatchOptions(" +:+ Sprint o +:+ ")") ErrInvalidValue)
  end.

Definition TokenCapability_Validate (tc : TokenCapability) : outcome unit :=
  fail_if (bool_decide (tc_Type tc = "")) (missing "type") ;?
  match tc_Reference tc with
  | Some ref => Reference_Validate ref
  | None => Ok tt
  end.

Definition ClusterCapability_Validate (cc : ClusterCapability) : outcome unit :=
  fail_if (bool_decide (cc_Name cc = "")) (missing "name").

(** ** Properties: validation *)

#[export] Instance LoLib_ref : LoLib.
Proof.
  refine {| lo_Uniq := remove_dups |}.
  - intros l. apply NoDup_remove_dups.
  - intros l x. apply elem_of_remove_dups.
Defined.

Lemma lo_Uniq_length `{LoLib} l : length (lo_Uniq l) = length l <-> NoDup l.
Proof.
  pose proof (lo_Uniq_NoDup l) as Hn. pose proof (lo_Uniq_elem l) as He. split.
  - intros Hl. rewrite <- (submseteq_length_Permutation (lo_Uniq l) l); [done| |lia].
    apply NoDup_submseteq; [done|]. intros x. apply He.
  - intros Hl. apply Permutation_length, NoDup_Permutation; done.
Qed.

Lemma omap_err_Ok {A} f (m : outcome A) a : omap_err f m = Ok a <-> m = Ok a.
Proof. destruct m; cbn; naive_solver. Qed.

#[export] Hint Rewrite @omap_err_Ok @foreach_Ok : go.

Lemma restricted_no_internal ls :
  restrictedLabelSelector_Validate ls = Ok tt ->
  (forall k v, ls_MatchLabels ls !! k = Some v -> IsLabelInternal k = false) /\
  (forall r, r ∈ ls_MatchExpressions ls -> IsLabelInternal (lsr_Key r) = false).
Proof.
  unfold restrictedLabelSelector_Validate. intros H.
  open_ok H H0. open_ok H H1. rename H into H2. rewrite foreach_Ok in H1. rewrite foreach_Ok in H2. split.
  - intros k v Hk. specialize (H1 (k, v)). rewrite elem_of_map_to_list in H1.
    apply H1 in Hk. by apply fail_if_Ok in Hk.
  - intros r Hr. specialize (H2 r Hr). cbn beta in H2. open_ok H2 Hv. by apply fail_if_Ok in H2.
Qed.

Lemma restricted_is_valid ls :
  restrictedLabelSelector_Validate ls = Ok tt -> LabelSelector_Validate ls = Ok tt.
Proof.
  unfold restrictedLabelSelector_Validate, LabelSelector_Validate. intros H.
  open_ok H H0. rewrite H0. cbn. open_ok H H1.
  rewrite foreach_Ok in *. intros r Hr. specialize (H r Hr). cbn beta in H. by open_ok H Hv.
Qed.

Lemma Role_Validate_inv `{LoLib} r :
  Role_Validate r = Ok tt ->
  ValidateID (role_Id r) = Ok tt /\
  (forall id, id ∈ role_ClusterIDs r -> ValidateID id = Ok tt) /\
  NoDup (role_ClusterIDs r) /\
  (forall ls, role_MatchLabels r = Some ls -> restrictedLabelSelector_Validate ls = Ok tt).
Proof.
  unfold Role_Validate. intros Hv.
  open_ok Hv Hne. open_ok Hv Hid. apply omap_err_Ok in Hid.
  open_ok Hv Hids. rewrite foreach_Ok in Hids. open_ok Hv Hu.
  rewrite fail_if_Ok, negb_false_iff, Nat.eqb_eq, lo_Uniq_length in Hu.
  repeat split; try done.
  - intros id Hin. specialize (Hids id Hin). by apply omap_err_Ok in Hids.
  - intros ls Hls. by rewrite Hls in Hv.
Qed.

(** ** Properties: equality *)

Lemma equalNonzeroOperator_spec a b : equalNonzeroOperator a b = true <-> a = b /\ a <> "".
Proof.
  unfold equalNonzeroOperator.
  repeat case_bool_decide; subst; cbn; naive_solver.
Qed.

(** Capability equality is a partial equivalence: a zero name, type or reference
    is equal to nothing, not even itself. *)
Class PartialEquality (T : Type) `{Comparator T} := {
  Equal_sym a b : Equal a b = true -> Equal b a = true;
  Equal_trans a b c : Equal a b = true -> Equal b c = true -> Equal a c = true;
}.

Lemma TokenCapability_Equal_spec c d :
  Equal c d = true <->
  tc_Type c = tc_Type d /\ tc_Type c <> "" /\
  exists r, tc_Reference c = Some r /\ tc_Reference d = Some r /\ ref_Id r <> "".
Proof.
  unfold Equal, TokenCapability_Equal, equalNonzeroFunc.
  rewrite andb_true_iff, equalNonzeroOperator_spec.
  destruct (tc_Reference c) as [[r]|], (tc_Reference d) as [[s]|]; cbn;
    rewrite ?equalNonzeroOperator_spec; cbn; naive_solver.
Qed.

Lemma ClusterCapability_Equal_spec c d :
  Equal c d = true <-> cc_Name c = cc_Name d /\ cc_Name c <> "".
Proof. apply equalNonzeroOperator_spec. Qed.

#[export] Instance TokenCapability_PE : PartialEquality TokenCapability.
Proof.
  split; intros *; rewrite !TokenCapability_Equal_spec; naive_solver congruence.
Qed.

#[export] Instance ClusterCapability_PE : PartialEquality ClusterCapability.
Proof.
  split; intros *; rewrite !ClusterCapability_Equal_spec; naive_solver congruence.
Qed.

Lemma IsEmpty_spec ls :
  IsEmpty (Some ls) = true <-> ls_MatchLabels ls = ∅ /\ ls_MatchExpressions ls = [].
Proof. cbn. by rewrite andb_true_iff, !bool_decide_eq_true. Qed.
