(* ===== verification/Storage.v ===== *)
(** pkg/storage: watch events (stores.go), mutators (mutators.go), cluster
    selection (selection.go), token options (options.go), key-value adapters
    (kvutil.go) and the interface of the role store with its taints (taints.go). *)

From S2P Require Import Prelude GoStd Validation CoreV1.

Local Open Scope string_scope.

(** ** stores.go *)

(** The type is a string in the source; [WatchEventUnset] is its zero value. *)
Inductive WatchEventType := WatchEventUnset | WatchEventCreate | WatchEventUpdate | WatchEventDelete.

#[export] Instance WatchEventType_eq_dec : EqDecision WatchEventType.
Proof. solve_decision. Defined.

Record WatchEvent (T : Type) := mkWatchEvent {
  we_EventType : WatchEventType;
  we_Current : option T;
  we_Previous : option T }.
Arguments mkWatchEvent {_} _ _ _.
Arguments we_EventType {_} _.
Arguments we_Current {_} _.
Arguments we_Previous {_} _.

(** A mutator updates the object it is given in place; it can panic. *)
Definition MutatorFunc (T : Type) : Type := T -> outcome T.

(** ** mutators.go *)

Fixpoint NewCompositeMutator {T} (mutators : list (MutatorFunc T)) : MutatorFunc T :=
  fun t => match mutators with
           | [] => Ok t
           | m :: ms => let? t' := m t in NewCompositeMutator ms t'
           end.

(** [obj.Metadata.UsageCount++] dereferences the metadata pointer. *)
Definition NewIncrementUsageCountMutator : MutatorFunc BootstrapToken := fun obj =>
  match bt_Metadata obj with
  | None => Panic "nil pointer dereference"
  | Some m =>
      Ok (with_token_meta obj
            (mkBootstrapTokenMetadata (btm_LeaseID m) (btm_Ttl m) (wrap64 (btm_UsageCount m + 1))
               (btm_Labels m) (btm_Capabilities m) (btm_ResourceVersion m)))
  end.

Section CapabilityMutators.
Context {O T : Type} `{MetadataAccessor O T} `{Comparator T}.

Definition NewAddCapabilityMutator (capability : T) : MutatorFunc O := fun obj =>
  let exists_ := existsb (fun c => Equal c capability) (ma_GetCapabilities obj) in
  if negb exists_
  then Ok (ma_SetCapabilities (ma_GetCapabilities obj ++ [capability])%list obj)
  else Ok obj.

Definition NewRemoveCapabilityMutator (capability : T) : MutatorFunc O := fun obj =>
  let capabilities := filter (fun c => Equal c capability = false) (ma_GetCapabilities obj) in
  Ok (ma_SetCapabilities capabilities obj).
End CapabilityMutators.

(** ** options.go *)

Record TokenCreateOptions := mkTokenCreateOptions {
  tco_Labels : gmap string string;
  tco_Capabilities : list TokenCapability }.

Definition NewTokenCreateOptions : TokenCreateOptions := mkTokenCreateOptions ∅ [].

Definition TokenCreateOption : Type := TokenCreateOptions -> TokenCreateOptions.

Definition Apply (o : TokenCreateOptions) (opts : list TokenCreateOption) : TokenCreateOptions :=
  fold_left (fun o op => op o) opts o.

Definition WithLabels (labels : gmap string string) : TokenCreateOption := fun o =>
  mkTokenCreateOptions labels (tco_Capabilities o).

Definition WithCapabilities (caps : list TokenCapability) : TokenCreateOption := fun o =>
  mkTokenCreateOptions (tco_Labels o) caps.

(** ** selection.go *)

(** [labels[key]] reads the empty string for a missing key. *)
Definition map_index (labels : gmap string string) (key : string) : string :=
  default "" (labels !! key).

(** One iteration of the loop over the match expressions: [Some b] is the
    statement [return b], [None] goes on to the next expression. *)
Definition match_expression (labels : gmap string string) (req : LabelSelectorRequirement)
  : option bool :=
  if decide (lsr_Operator req = LabelSelectorOpIn) then
    if existsb (fun value => bool_decide (map_index labels (lsr_Key req) = value)) (lsr_Values req)
    then None else Some false
  else if decide (lsr_Operator req = LabelSelectorOpNotIn) then
    match labels !! lsr_Key req with
    | None => Some false
    | Some v =>
        if existsb (fun value => bool_decide (v = value)) (lsr_Values req)
        then Some false else Some true
    end
  else if decide (lsr_Operator req = LabelSelectorOpExists) then
    match labels !! lsr_Key req with None => Some false | Some _ => None end
  else if decide (lsr_Operator req = LabelSelectorOpDoesNotExist) then
    match labels !! lsr_Key req with Some _ => Some false | None => None end
  else None.

Fixpoint match_expressions (labels : gmap string string) (reqs : list LabelSelectorRequirement)
  : bool :=
  match reqs with
  | [] => true
  | req :: reqs =>
      match match_expression labels req with
      | Some b => b
      | None => match_expressions labels reqs
      end
  end.

Definition labelSelectorMatches (selector : LabelSelector) (labels : gmap string string) : bool :=
  forallb (fun kv : string * string => bool_decide (map_index labels kv.1 = kv.2))
    (map_to_list (ls_MatchLabels selector)) &&
  match_expressions labels (ls_MatchExpressions selector).

(** The interface [IdLabelReader]. *)
Class IdLabelReader (T : Type) := {
  ilr_GetId : T -> string;
  ilr_GetLabels : T -> gmap string string }.

#[export] Instance Cluster_IdLabelReader : IdLabelReader Cluster :=
  {| ilr_GetId := cl_Id; ilr_GetLabels := Clus.GetLabels |}.

Definition NewSelectorPredicate `{IdLabelReader T} (s : ClusterSelector) : T -> bool :=
  let emptyLabelSelector := IsEmpty (cs_LabelSelector s) in
  if emptyLabelSelector && bool_decide (cs_ClusterIDs s = []) then
    if negb (Z.land (cs_MatchOptions s) MatchOptions_EmptySelectorMatchesNone =? 0)%Z
    then fun _ => false
    else fun _ => true
  else
    let idSet : gset string := list_to_set (cs_ClusterIDs s) in
    fun c =>
      if bool_decide (ilr_GetId c ∈ idSet) then true
      else if emptyLabelSelector then false
      else match cs_LabelSelector s with
           | Some ls => labelSelectorMatches ls (ilr_GetLabels c)
           | None => false
           end.

(** ** kvutil.go *)

(** The interface [KeyValueStoreT]. *)
Record KeyValueStoreT (W T : Type) := mkKeyValueStoreT {
  kv_Put : string -> T -> M W unit;
  kv_Get : string -> M W T;
  kv_Delete : string -> M W unit;
  kv_ListKeys : string -> M W (list string) }.
Arguments mkKeyValueStoreT {_ _} _ _ _ _.
Arguments kv_Put {_ _} _ _ _ _.
Arguments kv_Get {_ _} _ _ _.
Arguments kv_Delete {_ _} _ _ _.
Arguments kv_ListKeys {_ _} _ _ _.

Definition NewKeyValueStoreWithPrefix {W T} (base : KeyValueStoreT W T) (prefix : string)
  : KeyValueStoreT W T :=
  {| kv_Put key value := kv_Put base (prefix +:+ key) value;
     kv_Get key := kv_Get base (prefix +:+ key);
     kv_Delete key := kv_Delete base (prefix +:+ key);
     kv_ListKeys p := kv_ListKeys base (prefix +:+ p) |}.

(** The interface [ValueStoreT]. *)
Record ValueStoreT (W T : Type) := mkValueStoreT {
  v_Put : T -> M W unit;
  v_Get : M W T;
  v_Delete : M W unit }.
Arguments mkValueStoreT {_ _} _ _ _.
Arguments v_Put {_ _} _ _ _.
Arguments v_Get {_ _} _ _.
Arguments v_Delete {_ _} _ _.

Definition NewValueStore {W T} (base : KeyValueStoreT W T) (key : string) : ValueStoreT W T :=
  {| v_Put value := kv_Put base key value;
     v_Get := kv_Get base key;
     v_Delete := kv_Delete base key |}.

(** ** taints.go *)

(** [GetRole] is the only method of the [RBACStore] the function calls. *)
Definition ApplyRoleBindingTaints {W} (GetRole : Reference -> M W Role) (rb : RoleBinding)
  : M W RoleBinding := fun w =>
  let add t (rb : RoleBinding) :=
    mkRoleBinding (rb_Id rb) (rb_RoleId rb) (rb_Subjects rb) (rb_Taints rb ++ [t])%list in
  let no_subjects (rb : RoleBinding) :=
    if decide (rb_Subjects rb = []) then add "no subjects" rb else rb in
  match GetRole (RoleReference rb) w with
  | (w', Ok _) => (w', Ok (no_subjects rb))
  | (w', Err e) =>
      if errors_Is e ErrNotFound then (w', Ok (no_subjects (add "role not found" rb)))
      else (w', Err e)
  | (w', Panic p) => (w', Panic p)
  end.

(** ** Properties: selection *)

(** What one requirement asks of a label map, on its own. *)
Definition requirement_holds (labels : gmap string string) (req : LabelSelectorRequirement) : bool :=
  if decide (lsr_Operator req = LabelSelectorOpIn) then
    bool_decide (map_index labels (lsr_Key req) ∈ lsr_Values req)
  else if decide (lsr_Operator req = LabelSelectorOpNotIn) then
    match labels !! lsr_Key req with
    | Some v => bool_decide (v ∉ lsr_Values req)
    | None => false
    end
  else if decide (lsr_Operator req = LabelSelectorOpExists) then
    bool_decide (is_Some (labels !! lsr_Key req))
  else if decide (lsr_Operator req = LabelSelectorOpDoesNotExist) then
    bool_decide (labels !! lsr_Key req = None)
  else true.

(** The conjunctive reading of a selector: every label and every requirement. *)
Definition selector_holds (selector : LabelSelector) (labels : gmap string string) : bool :=
  forallb (fun kv : string * string => bool_decide (map_index labels kv.1 = kv.2))
    (map_to_list (ls_MatchLabels selector)) &&
  forallb (requirement_holds labels) (ls_MatchExpressions selector).

Definition is_NotIn (req : LabelSelectorRequirement) : bool :=
  bool_decide (lsr_Operator req = LabelSelectorOpNotIn).

Lemma existsb_bool_decide_elem (v : string) l :
  existsb (fun value => bool_decide (v = value)) l = bool_decide (v ∈ l).
Proof.
  apply Bool.eq_iff_eq_true. rewrite existsb_elem, bool_decide_eq_true.
  setoid_rewrite bool_decide_eq_true. naive_solver.
Qed.

(** One iteration decides exactly the requirement; only a satisfied [NotIn]
    leaves the loop with success. *)
Lemma match_expression_cases labels req :
  match_expression labels req =
  if requirement_holds labels req
  then (if is_NotIn req then Some true else None)
  else Some false.
Proof.
  unfold match_expression, requirement_holds, is_NotIn.
  rewrite existsb_bool_decide_elem. case_decide as H1.
  { rewrite H1. by case_bool_decide. }
  case_decide as H2.
  { rewrite H2. rewrite bool_decide_eq_true_2 by done.
    destruct (labels !! lsr_Key req) as [v|]; [|done].
    rewrite existsb_bool_decide_elem. by repeat case_bool_decide. }
  rewrite (bool_decide_eq_false_2 (_ = LabelSelectorOpNotIn)) by done.
  case_decide; [destruct (labels !! lsr_Key req); case_bool_decide; naive_solver|].
  case_decide; [destruct (labels !! lsr_Key req); case_bool_decide; naive_solver|done].
Qed.

Lemma match_expressions_holds labels reqs :
  forallb (requirement_holds labels) reqs = true -> match_expressions labels reqs = true.
Proof.
  induction reqs as [|r reqs IH]; cbn; [done|]. intros [Hr Hrs]%andb_true_iff.
  rewrite match_expression_cases, Hr. destruct (is_NotIn r); auto.
Qed.

Lemma match_expressions_exact labels reqs last :
  forallb (fun r => negb (is_NotIn r)) reqs = true ->
  match_expressions labels (reqs ++ last)%list =
  forallb (requirement_holds labels) reqs && match_expressions labels last.
Proof.
  induction reqs as [|r reqs IH]; cbn; [done|].
  intros [Hr%negb_true_iff Hrs]%andb_true_iff. rewrite match_expression_cases, Hr.
  destruct (requirement_holds labels r); cbn; auto.
Qed.

Lemma match_expressions_single labels r :
  match_expressions labels [r] = requirement_holds labels r.
Proof. cbn. rewrite match_expression_cases. by destruct (requirement_holds _ _), (is_NotIn r). Qed.

(** ** Properties: mutators *)

Section CapabilityMutatorProps.
Context {O T : Type} `{MetadataAccessor O T} `{PartialEquality T}.
Implicit Types (o : O) (c : T).

Lemma add_capability_caps c o :
  exists o', NewAddCapabilityMutator c o = Ok o' /\
    ma_GetCapabilities o' =
      (if existsb (fun d => Equal d c) (ma_GetCapabilities o) then ma_GetCapabilities o
       else ma_GetCapabilities o ++ [c])%list.
Proof.
  unfold NewAddCapabilityMutator. destruct (existsb _ _); cbn; eexists; split; try done.
  by rewrite ma_get_set_caps.
Qed.

Lemma remove_capability_caps c o :
  exists o', NewRemoveCapabilityMutator c o = Ok o' /\
    ma_GetCapabilities o' = filter (fun d => Equal d c = false) (ma_GetCapabilities o).
Proof. unfold NewRemoveCapabilityMutator. eexists; split; [done|]. by rewrite ma_get_set_caps. Qed.

Lemma existsb_equal_false c (l : list T) :
  existsb (fun d => Equal d c) l = false -> filter (fun d => Equal d c = false) l = l.
Proof.
  induction l as [|d l IH]; cbn [existsb]; [done|]. intros [Hd Hl]%orb_false_iff.
  rewrite filter_cons_True by done. by rewrite IH.
Qed.
End CapabilityMutatorProps.

Lemma NewCompositeMutator_app {T} (ms1 ms2 : list (MutatorFunc T)) t :
  NewCompositeMutator (ms1 ++ ms2)%list t =
  (let? t' := NewCompositeMutator ms1 t in NewCompositeMutator ms2 t').
Proof. revert t. induction ms1 as [|m ms1 IH]; intros t; cbn; [done|]. destruct (m t); cbn; auto. Qed.

(** ** Properties: key-value adapters *)

(** The contract of a key-value store that other clients use too: each call takes
    effect at one point of time [d], what others did before it is some history
    [steps] of the database, and it touches the key it names alone.  [view] is the
    content of the database, [ok] the values that can be stored. *)
Record LinearKV {W D T} (s : KeyValueStoreT W T) (db : W -> D) (steps : D -> D -> Prop)
    (path : string -> string) (view : D -> string -> option T) (ok : T -> Prop) : Prop := {
  lin_put w w' k v : ok v -> kv_Put s k v w = (w', Ok tt) ->
    exists d, steps (db w) d /\ view (db w') (path k) = Some v /\
      forall j, j <> path k -> view (db w') j = view d j;
  lin_get w w' k v : kv_Get s k w = (w', Ok v) ->
    steps (db w) (db w') /\ view (db w') (path k) = Some v;
  lin_get_missing w w' k : kv_Get s k w = (w', Err ErrNotFound) ->
    steps (db w) (db w') /\ view (db w') (path k) = None;
  lin_delete w w' k : kv_Delete s k w = (w', Ok tt) ->
    exists d, steps (db w) d /\ view (db w') (path k) = None /\
      forall j, j <> path k -> view (db w') j = view d j;
  lin_delete_missing w w' k : kv_Delete s k w = (w', Err ErrNotFound) ->
    exists d, steps (db w) d /\ view d (path k) = None /\ db w' = d }.

(** A store with a prefix is the store with other paths. *)
Lemma LinearKV_prefix {W D T} (s : KeyValueStoreT W T) (db : W -> D) steps path view ok prefix :
  LinearKV s db steps path view ok ->
  LinearKV (NewKeyValueStoreWithPrefix s prefix) db steps (fun k => path (prefix +:+ k)) view ok.
Proof. intros [? ? ? ? ?]. split; cbn; eauto. Qed.

(** ** Properties: taints *)

Lemma ApplyRoleBindingTaints_inv {W} (GetRole : Reference -> M W Role) rb w w' rb' :
  ApplyRoleBindingTaints GetRole rb w = (w', Ok rb') ->
  rb_Id rb' = rb_Id rb /\ rb_RoleId rb' = rb_RoleId rb /\ rb_Subjects rb' = rb_Subjects rb /\
  (rb_Taints rb' = [] ->
     rb' = rb /\ rb_Subjects rb <> [] /\
     exists role, GetRole (RoleReference rb) w = (w', Ok role)) /\
  ((exists role, GetRole (RoleReference rb) w = (w', Ok role)) -> rb_Subjects rb <> [] -> rb' = rb).
Proof.
  unfold ApplyRoleBindingTaints. destruct (GetRole _ w) as [w1 [role|e|p]] eqn:E; [| |done].
  - intros [= -> <-]. case_decide as Hs; cbn; repeat split; try done; try naive_solver.
    all: discriminate_list.
  - destruct (errors_Is e ErrNotFound); [|done]. intros [= -> <-]. cbn.
    case_decide as Hs; cbn; repeat split; try done; try naive_solver.
    all: discriminate_list.
Qed.

(** ** Claims *)

(** A label selector matches every label map that satisfies all its labels and
    all its requirements, and when NotIn is used by the last requirement only it
    matches no other map: matching is then exactly the conjunction. *)
Lemma labelSelectorMatches_conjunction (selector : LabelSelector) (labels : gmap string string) :
  (selector_holds selector labels = true -> labelSelectorMatches selector labels = true) /\
  (forallb (fun r => negb (is_NotIn r)) (removelast (ls_MatchExpressions selector)) = true ->
   labelSelectorMatches selector labels = selector_holds selector labels).
Proof.
  unfold labelSelectorMatches, selector_holds.
  set (lbl := forallb _ (map_to_list _)). split.
  - intros [-> H]%andb_true_iff. cbn. by apply match_expressions_holds.
  - intros H. f_equal. destruct (ls_MatchExpressions selector) as [|r rs]; [done|].
    rewrite (app_removelast_last (l := r :: rs) r) by done.
    rewrite match_expressions_exact by done. rewrite forallb_app, match_expressions_single.
    cbn. by rewrite andb_true_r.
Qed.

(** Once a NotIn requirement is satisfied the requirements after it are not
    looked at: the selector matches whatever they ask. *)
Lemma NotIn_ignores_later_requirements (selector : LabelSelector) (labels : gmap string string)
    (before after : list LabelSelectorRequirement) (req : LabelSelectorRequirement) :
  forallb (fun kv : string * string => bool_decide (map_index labels kv.1 = kv.2))
    (map_to_list (ls_MatchLabels selector)) = true ->
  forallb (requirement_holds labels) (before ++ [req])%list = true ->
  lsr_Operator req = LabelSelectorOpNotIn ->
  ls_MatchExpressions selector = (before ++ req :: after)%list ->
  labelSelectorMatches selector labels = true.
Proof.
  intros Hl Hb Hop He. unfold labelSelectorMatches. rewrite Hl, He. cbn [andb]. clear He Hl.
  induction before as [|r rs IH]; cbn in Hb |- *.
  - rewrite andb_true_r in Hb. rewrite match_expression_cases, Hb. unfold is_NotIn.
    by rewrite bool_decide_eq_true_2.
  - apply andb_true_iff in Hb as [Hr Hb]. rewrite match_expression_cases, Hr.
    destruct (is_NotIn r); [done|]. by apply IH.
Qed.

(** A cluster outside [prod] is matched by "tier not in {db}, env in {prod}". *)
Definition notin_selector : LabelSelector :=
  mkLabelSelector ∅ [mkLabelSelectorRequirement "tier" LabelSelectorOpNotIn ["db"];
                     mkLabelSelectorRequirement "env" LabelSelectorOpIn ["prod"]].

(** Adding a capability and removing it again restores the capability list of
    an object that did not have it, and adding twice is adding once, for every
    capability that equals itself; labels and resource version are untouched. *)
Lemma add_remove_capability {O T : Type} `{MetadataAccessor O T} `{PartialEquality T}
    (c : T) (o : O) :
  Equal c c = true ->
  exists o1, NewAddCapabilityMutator c o = Ok o1 /\
    existsb (fun d => Equal d c) (ma_GetCapabilities o1) = true /\
    NewAddCapabilityMutator c o1 = Ok o1 /\
    ma_GetLabels o1 = ma_GetLabels o /\ ma_GetResourceVersion o1 = ma_GetResourceVersion o /\
    (existsb (fun d => Equal d c) (ma_GetCapabilities o) = false ->
     exists o2, NewRemoveCapabilityMutator c o1 = Ok o2 /\
       ma_GetCapabilities o2 = ma_GetCapabilities o).
Proof.
  intros Hc. unfold NewAddCapabilityMutator, NewRemoveCapabilityMutator.
  destruct (existsb _ (ma_GetCapabilities o)) eqn:E; cbn [negb].
  - exists o. rewrite E. done.
  - eexists. split; [done|]. rewrite !ma_get_set_caps, existsb_app, E. cbn. rewrite Hc. cbn.
    split; [done|]. split; [done|]. rewrite ma_set_caps_labels, ma_set_caps_version.
    split; [done|]. split; [done|]. intros _. eexists. split; [done|].
    rewrite ma_get_set_caps, list.filter_app, existsb_equal_false by done.
    rewrite filter_cons_False by congruence. by rewrite app_nil_r.
Qed.

Definition metrics_capability : ClusterCapability := mkClusterCapability "metrics" None.

