(* ===== verification/Http.v ===== *)
(** The HTTP layer the handlers are written against: header maps with canonical
    keys, requests and responses, the outgoing client, the request context and
    the handler chain of the web framework, and pkg/util/fwd, the forwarder that
    relays a request to a backend. *)

From S2P Require Import Prelude GoStd.
From Stdlib Require Import Ascii.

Local Open Scope string_scope.

(** ** net/http headers *)

(** The bytes a header field name may have (RFC 7230 token characters). *)
Definition is_token_char (c : ascii) : bool :=
  in_range 48 57 c || in_range 65 90 c || in_range 97 122 c ||
  existsb (fun n => bool_decide (ord c = n)) [33; 35; 36; 37; 38; 39; 42; 43; 45; 46; 94; 95; 96; 124; 126].

Definition to_upper (c : ascii) : ascii := if in_range 97 122 c then chr (ord c - 32) else c.
Definition to_lower (c : ascii) : ascii := if in_range 65 90 c then chr (ord c + 32) else c.

Fixpoint canonical_from (upper : bool) (s : string) : string :=
  match s with
  | EmptyString => ""
  | String c s =>
      String (if upper then to_upper c else to_lower c) (canonical_from (bool_decide (c = "-"%char)) s)
  end.

(** [textproto.CanonicalMIMEHeaderKey]: a name with a byte that is no token
    character is left as it is. *)
Definition CanonicalHeaderKey (s : string) : string :=
  if str_all is_token_char s then canonical_from true s else s.

Abbreviation http_Header := (gmap string (list string)).

Definition Header_Get (k : string) (h : http_Header) : string :=
  match h !! CanonicalHeaderKey k with Some (v :: _) => v | _ => "" end.
Definition Header_Set (k v : string) (h : http_Header) : http_Header :=
  <[CanonicalHeaderKey k := [v]]> h.
Definition Header_Add (k v : string) (h : http_Header) : http_Header :=
  <[CanonicalHeaderKey k := (default [] (h !! CanonicalHeaderKey k) ++ [v])%list]> h.
Definition Header_Del (k : string) (h : http_Header) : http_Header :=
  delete (CanonicalHeaderKey k) h.

(** ** Requests, responses and clients *)

(** [url.URL]; [u_Rest] stands for the fields the code does not look at. *)
Record URL := mkURL { u_Scheme : string; u_Host : string; u_Path : string; u_Rest : string }.

(** [rq_RequestURI] is what the client sent as the request target; it is set on the
    requests a server receives and empty on those [http.NewRequest] builds. *)
Record Request := mkRequest {
  rq_Method : string; rq_URL : URL; rq_Proto : string; rq_Header : http_Header;
  rq_Host : string; rq_RemoteIP : string; rq_RequestURI : string; rq_Body : string }.

(** Reading the body yields its bytes, and an error when the connection breaks. *)
Record Response := mkResponse {
  rs_StatusCode : Z; rs_Status : string; rs_Header : http_Header;
  rs_Body : string; rs_BodyErr : option error }.

(** [io.ReadAll]. *)
Definition ReadAll (r : Response) : outcome string :=
  match rs_BodyErr r with None => Ok (rs_Body r) | Some e => Err e end.

Record http_Client := mkClient { hc_RootCAs : option string; hc_FollowRedirects : bool }.
Definition DefaultClient : http_Client := mkClient None true.

(** The network as the code sees it. *)
Class HttpEnv (W : Type) := {
  url_Parse : string -> outcome URL;
  url_String : URL -> string;
  http_NewRequest : string -> string -> string -> outcome Request;
  http_Do : http_Client -> Request -> M W Response }.

Definition rq_set_Header (f : http_Header -> http_Header) (r : Request) : Request :=
  mkRequest (rq_Method r) (rq_URL r) (rq_Proto r) (f (rq_Header r)) (rq_Host r) (rq_RemoteIP r) (rq_RequestURI r) (rq_Body r).

(** ** The request context and the handler chain *)

(** What the handlers read and write of a gin request context. *)
Record gin_Context := mkGinContext {
  gc_Request : Request;
  gc_UserID : option string;
  gc_AuthorizedClusterIDs : option (list string);
  gc_Aborted : bool;
  gc_Status : Z;
  gc_ResponseHeader : http_Header;
  gc_Written : string;
  gc_Errors : list error }.

(** A context as the engine creates it for a request. *)
Definition fresh_Context (r : Request) : gin_Context := mkGinContext r None None false 200 ∅ "" [].

Definition gc_Header (c : gin_Context) : http_Header := rq_Header (gc_Request c).
Definition GetHeader (k : string) (c : gin_Context) : string := Header_Get k (gc_Header c).

Definition with_Request (f : Request -> Request) (c : gin_Context) : gin_Context :=
  mkGinContext (f (gc_Request c)) (gc_UserID c) (gc_AuthorizedClusterIDs c) (gc_Aborted c)
    (gc_Status c) (gc_ResponseHeader c) (gc_Written c) (gc_Errors c).
Definition set_UserID (u : string) (c : gin_Context) : gin_Context :=
  mkGinContext (gc_Request c) (Some u) (gc_AuthorizedClusterIDs c) (gc_Aborted c)
    (gc_Status c) (gc_ResponseHeader c) (gc_Written c) (gc_Errors c).
Definition set_AuthorizedClusterIDs (ids : list string) (c : gin_Context) : gin_Context :=
  mkGinContext (gc_Request c) (gc_UserID c) (Some ids) (gc_Aborted c)
    (gc_Status c) (gc_ResponseHeader c) (gc_Written c) (gc_Errors c).
Definition with_ResponseHeader (f : http_Header -> http_Header) (c : gin_Context) : gin_Context :=
  mkGinContext (gc_Request c) (gc_UserID c) (gc_AuthorizedClusterIDs c) (gc_Aborted c)
    (gc_Status c) (f (gc_ResponseHeader c)) (gc_Written c) (gc_Errors c).
(** [c.Status]: a code of zero or less is ignored. *)
Definition gin_Status (code : Z) (c : gin_Context) : gin_Context :=
  mkGinContext (gc_Request c) (gc_UserID c) (gc_AuthorizedClusterIDs c) (gc_Aborted c)
    (if (0 <? code)%Z then code else gc_Status c) (gc_ResponseHeader c) (gc_Written c) (gc_Errors c).
Definition gin_Abort (c : gin_Context) : gin_Context :=
  mkGinContext (gc_Request c) (gc_UserID c) (gc_AuthorizedClusterIDs c) true
    (gc_Status c) (gc_ResponseHeader c) (gc_Written c) (gc_Errors c).
Definition gin_Write (s : string) (c : gin_Context) : gin_Context :=
  mkGinContext (gc_Request c) (gc_UserID c) (gc_AuthorizedClusterIDs c) (gc_Aborted c)
    (gc_Status c) (gc_ResponseHeader c) (gc_Written c +:+ s) (gc_Errors c).
Definition gin_Error (e : error) (c : gin_Context) : gin_Context :=
  mkGinContext (gc_Request c) (gc_UserID c) (gc_AuthorizedClusterIDs c) (gc_Aborted c)
    (gc_Status c) (gc_ResponseHeader c) (gc_Written c) (gc_Errors c ++ [e])%list.

Definition AbortWithStatus (status : Z) (c : gin_Context) : gin_Context :=
  gin_Abort (gin_Status status c).
Definition AbortWithError (status : Z) (e : error) (c : gin_Context) : gin_Context :=
  gin_Error e (AbortWithStatus status c).
(** [c.Header] writes the header of the response; an empty value removes it. *)
Definition gin_Header (k v : string) (c : gin_Context) : gin_Context :=
  with_ResponseHeader (if decide (v = "") then Header_Del k else Header_Set k v) c.

(** [c.Render] of a body with a content type, which does not replace one that a
    handler has set; the statuses used here allow a body. *)
Definition gin_Data (status : Z) (contentType body : string) (c : gin_Context) : gin_Context :=
  gin_Write body
    (with_ResponseHeader
       (fun h => if decide (default [] (h !! "Content-Type") = []) then <["Content-Type" := [contentType]]> h else h)
       (gin_Status status c)).
Definition gin_String (status : Z) (s : string) (c : gin_Context) : gin_Context :=
  gin_Data status "text/plain; charset=utf-8" s c.

Definition StatusOK : Z := 200.
Definition StatusBadRequest : Z := 400.
Definition StatusUnauthorized : Z := 401.
Definition StatusNotFound : Z := 404.
Definition StatusInternalServerError : Z := 500.
Definition StatusServiceUnavailable : Z := 503.

Definition Handler (W : Type) : Type := gin_Context -> M W gin_Context.

(** [c.Next]: the handlers run in order until one of them aborts. *)
Fixpoint run_chain {W} (hs : list (Handler W)) (c : gin_Context) : M W gin_Context :=
  match hs with
  | [] => wret c
  | h :: hs => let! c := h c in if gc_Aborted c then wret c else run_chain hs c
  end.

(** ** pkg/util/fwd *)

Section Forwarder.
Context {W : Type}.
(** The transport built from the TLS configuration. *)
Variable RoundTrip : Request -> M W Response.

(** The headers of the backend's response, copied one value at a time. *)
Definition copy_header (h : http_Header) (c : gin_Context) : gin_Context :=
  fold_left (fun c (kv : string * list string) =>
               fold_left (fun c v => gin_Header kv.1 v c) kv.2 c)
    (map_to_list h) c.

Definition forward_URL (tlsEnabled : bool) (addr : string) (r : Request) : Request :=
  mkRequest (rq_Method r)
    (mkURL (if tlsEnabled then "https" else "http") addr (u_Path (rq_URL r)) (u_Rest (rq_URL r)))
    (rq_Proto r) (rq_Header r) (rq_Host r) (rq_RemoteIP r) (rq_RequestURI r) (rq_Body r).

Definition forwarded_headers (tlsEnabled : bool) (c : gin_Context) : gin_Context :=
  let c := gin_Header "X-Forwarded-For" (rq_RemoteIP (gc_Request c)) c in
  let c := gin_Header "X-Forwarded-Host" (rq_Host (gc_Request c)) c in
  let c := gin_Header "X-Forwarded-Proto" (rq_Proto (gc_Request c)) c in
  if tlsEnabled then gin_Header "X-Forwarded-Ssl" "on" c else c.

Definition relay (resp : Response) (c : gin_Context) : gin_Context :=
  let c := copy_header (rs_Header resp) (gin_Status (rs_StatusCode resp) c) in
  if (4 <=? Z.quot (rs_StatusCode resp) 100)%Z then
    gin_String (rs_StatusCode resp) (rs_Body resp) (gin_Error (ErrorString (rs_Body resp)) c)
  else gin_Write (rs_Body resp) c.

(** [err.Error()] of a transport error is the parameter. *)
Variable err_Error : error -> string.

Definition To (addr : string) (tlsEnabled : bool) : Handler W := fun c w =>
  let c := forwarded_headers tlsEnabled (with_Request (forward_URL tlsEnabled addr) c) in
  match RoundTrip (gc_Request c) w with
  | (w', Err err) => (w', Ok (gin_String StatusInternalServerError (err_Error err) c))
  | (w', Panic p) => (w', Panic p)
  | (w', Ok resp) => (w', Ok (relay resp c))
  end.
End Forwarder.

(** ** Lemmas *)

Lemma Header_Get_Set (k v : string) (h : http_Header) : Header_Get k (Header_Set k v h) = v.
Proof. unfold Header_Get, Header_Set. by rewrite lookup_insert_eq. Qed.

(** Adding a value does not change the first one. *)
Lemma Header_Get_Add (k k' v : string) (h : http_Header) :
  Header_Get k h <> "" -> Header_Get k (Header_Add k' v h) = Header_Get k h.
Proof.
  unfold Header_Get, Header_Add. intros Hne.
  destruct (decide (CanonicalHeaderKey k' = CanonicalHeaderKey k)) as [E|E].
  - rewrite E, lookup_insert_eq. by destruct (h !! CanonicalHeaderKey k) as [[|x l]|].
  - by rewrite lookup_insert_ne.
Qed.

Lemma gin_Header_request k v c : gc_Request (gin_Header k v c) = gc_Request c.
Proof. done. Qed.

Lemma run_chain_cons {W} (h : Handler W) hs c w w' c' :
  h c w = (w', Ok c') -> gc_Aborted c' = false -> run_chain (h :: hs) c w = run_chain hs c' w'.
Proof. intros E Ha. cbn. by rewrite (wbind_eq_Ok _ _ _ _ _ E), Ha. Qed.

(** A chain stops at the handler that aborts: the handlers after it do not run. *)
Lemma run_chain_abort {W} (h : Handler W) hs c w w' c' :
  h c w = (w', Ok c') -> gc_Aborted c' = true -> run_chain (h :: hs) c w = (w', Ok c').
Proof. intros E Ha. cbn. by rewrite (wbind_eq_Ok _ _ _ _ _ E), Ha. Qed.

(** The request the backend receives is the one the handlers left in the context,
    with its method, headers and body, but for the scheme and the host. *)
Lemma To_sends {W} (RoundTrip : Request -> M W Response) err_Error addr tls c w :
  exists k, To RoundTrip err_Error addr tls c w =
            (let '(w', o) := RoundTrip (forward_URL tls addr (gc_Request c)) w in (w', k o)) /\
            rq_Header (forward_URL tls addr (gc_Request c)) = gc_Header c.
Proof.
  exists (fun o => match o with
    | Err err => Ok (gin_String StatusInternalServerError (err_Error err)
                       (forwarded_headers tls (with_Request (forward_URL tls addr) c)))
    | Panic p => Panic p
    | Ok resp => Ok (relay resp (forwarded_headers tls (with_Request (forward_URL tls addr) c)))
    end).
  split; [|done]. unfold To.
  replace (gc_Request (forwarded_headers tls (with_Request (forward_URL tls addr) c)))
    with (forward_URL tls addr (gc_Request c)) by (by destruct tls).
  by destruct (RoundTrip _ w) as [w' []].
Qed.

(** Of a header with several values the forwarder relays the last one. *)
Lemma copied_header_keeps_last k vs v c :
  v <> "" -> Header_Get k (gc_ResponseHeader (copy_header {[ k := (vs ++ [v])%list ]} c)) = v /\
             gc_ResponseHeader (copy_header {[ k := (vs ++ [v])%list ]} c) !! CanonicalHeaderKey k = Some [v].
Proof.
  intros Hv. unfold copy_header. rewrite map_to_list_singleton. cbn. rewrite fold_left_app. cbn.
  generalize (fold_left (fun c v => gin_Header k v c) vs c) as c'. intros c'.
  unfold gin_Header. rewrite decide_False by done. cbn. split; [apply Header_Get_Set|].
  unfold Header_Set. by rewrite lookup_insert_eq.
Qed.
