(* ===== verification/OpenId.v ===== *)
(** pkg/auth/openid, the middleware that authenticates a request by its bearer
    token, with the cache of user information, the discovery of the provider's
    configuration and the goroutine that installs it; pkg/auth/noauth, which
    wraps it; and the choice of providers in pkg/machinery. *)

From S2P Require Import Prelude GoStd Http.

Local Open Scope string_scope.

(** ** Configuration *)

Record WellKnownConfiguration := mkWellKnown {
  wk_Issuer : string; wk_AuthEndpoint : string; wk_TokenEndpoint : string;
  wk_UserinfoEndpoint : string; wk_RevocationEndpoint : string; wk_JwksUri : string;
  wk_ScopesSupported : list string; wk_ResponseTypesSupported : list string;
  wk_ResponseModesSupported : list string; wk_IDTokenSigningAlgValuesSupported : list string;
  wk_TokenEndpointAuthMethodsSupported : list string; wk_ClaimsSupported : list string;
  wk_RequestURIParameterSupported : bool; wk_EndSessionEndpoint : string }.

Record DiscoverySpec := mkDiscovery {
  ds_Path : option string; ds_Issuer : string; ds_CACert : option string }.

Record OpenidConfig := mkOpenidConfig {
  oc_Discovery : option DiscoverySpec;
  oc_WellKnownConfiguration : option WellKnownConfiguration;
  oc_IdentifyingClaim : string }.

Definition ErrMissingRequiredField : error := ErrorString "openid configuration missing required field".
Definition ErrIssuerMismatch : error := ErrorString "issuer mismatch".
Definition ErrMissingDiscoveryConfig : error :=
  ErrorString "at least one of 'discovery' or 'wellKnownConfiguration' fields must be set".

Definition CheckRequiredFields (w : WellKnownConfiguration) : outcome unit :=
  if decide (wk_Issuer w = "") then Err (Wrapped "issuer" ErrMissingRequiredField)
  else if decide (wk_AuthEndpoint w = "") then Err (Wrapped "authorization_endpoint" ErrMissingRequiredField)
  else if decide (wk_TokenEndpoint w = "") then Err (Wrapped "token_endpoint" ErrMissingRequiredField)
  else if decide (wk_UserinfoEndpoint w = "") then Err (Wrapped "userinfo_endpoint" ErrMissingRequiredField)
  else if decide (wk_JwksUri w = "") then Err (Wrapped "jwks_uri" ErrMissingRequiredField)
  else Ok tt.

Definition isDiscoveryErrFatal (err : error) : bool :=
  errors_Is err ErrIssuerMismatch || errors_Is err ErrMissingDiscoveryConfig.

(** ** The environment *)

(** The JWT and JWK libraries, the file system, JSON decoding and the formatting
    of a claim's value.  [jwt_Parse] is [jwt.ParseString] with validation of the
    token's times, with or without a key set to verify the signature against;
    [json_WellKnown] and [json_object] decode the first value of a response body. *)
Class OpenidEnv (W any jwk_Set : Type) := {
  oe_http :: HttpEnv W;
  fmt_Sprint : any -> string;
  jwt_Parse : option jwk_Set -> string -> M W (gmap string any);
  jwk_Configure : string -> http_Client -> W -> W;
  jwk_Fetch : string -> M W jwk_Set;
  os_ReadFile : string -> M W string;
  AppendCertsFromPEM : string -> bool;
  json_WellKnown : Response -> outcome WellKnownConfiguration;
  json_object : Response -> outcome (gmap string any) }.

Inductive TokenType := Opaque | IDToken.

(** Claims required for valid ID tokens. *)
Definition requiredClaims : list string := ["iss"; "sub"; "aud"; "exp"; "iat"].

Record UserInfo (any : Type) := mkUserInfo { ui_raw : gmap string any; ui_identifyingClaim : string }.
Arguments mkUserInfo {_} _ _.
Arguments ui_raw {_} _.
Arguments ui_identifyingClaim {_} _.

Record UserInfoCache (any : Type) := mkUserInfoCache {
  uc_client : http_Client;
  uc_cache : gmap string (UserInfo any);     (* key=access token *)
  uc_knownUsers : gmap string string;        (* key=user id, value=access token *)
  uc_config : OpenidConfig;
  uc_wellKnown : WellKnownConfiguration }.
Arguments mkUserInfoCache {_} _ _ _ _ _.
Arguments uc_client {_} _.
Arguments uc_cache {_} _.
Arguments uc_knownUsers {_} _.
Arguments uc_config {_} _.
Arguments uc_wellKnown {_} _.

Record OpenidMiddleware (any : Type) := mkOpenidMiddleware {
  om_conf : OpenidConfig;
  om_wellKnownConfig : option WellKnownConfiguration;
  om_cache : option (UserInfoCache any) }.
Arguments mkOpenidMiddleware {_} _ _ _.
Arguments om_conf {_} _.
Arguments om_wellKnownConfig {_} _.
Arguments om_cache {_} _.

Section OpenId.
Context {W any jwk_Set : Type} `{OpenidEnv W any jwk_Set}.

(** ** Discovery *)

Definition wellknown_path : string := "/.well-known/openid-configuration".

(** The client used for discovery, which does not follow redirects.  The result of
    [AppendCertsFromPEM] is not looked at here. *)
Definition discovery_client (dc : DiscoverySpec) : M W http_Client :=
  match ds_CACert dc with
  | None => wret (mkClient None false)
  | Some file =>
      let! cacert := wrapf "failed to read CA certificate" (os_ReadFile file) in
      wret (mkClient (Some cacert) false)
  end.

Definition fetchWellKnownConfig (dc : DiscoverySpec) : M W WellKnownConfiguration :=
  let! client := discovery_client dc in
  let! u := wlift (url_Parse (ds_Issuer dc)) in
  let rel := default wellknown_path (ds_Path dc) in
  let u := mkURL (u_Scheme u) (u_Host u) (path_Join [u_Path u; rel]) (u_Rest u) in
  let! req := wlift (http_NewRequest "GET" (url_String u) "") in
  let req := rq_set_Header (Header_Add "Accept" "application/json") req in
  let! resp := http_Do client req in
  if negb (rs_StatusCode resp =? 200)%Z then wfail (ErrorString (rs_Status resp))
  else
    let! cfg := wlift (json_WellKnown resp) in
    if decide (wk_Issuer cfg = ds_Issuer dc) then
      wrapf "(you may need to manually set the well-known configuration)" (wlift (CheckRequiredFields cfg)) ;!
      wret cfg
    else wfail (Wrapped ("expected " +:+ ds_Issuer dc +:+ ", got " +:+ wk_Issuer cfg) ErrIssuerMismatch).

(** The configuration is kept in the receiver once it has been fetched. *)
Definition GetWellKnownConfiguration (oc : OpenidConfig) : M W (OpenidConfig * WellKnownConfiguration) :=
  match oc_WellKnownConfiguration oc, oc_Discovery oc with
  | None, None => wfail ErrMissingDiscoveryConfig
  | Some wkc, _ => wret (oc, wkc)
  | None, Some dc =>
      let! wkc := wrapf "failed to fetch configuration from discovery endpoint" (fetchWellKnownConfig dc) in
      wret (mkOpenidConfig (oc_Discovery oc) (Some wkc) (oc_IdentifyingClaim oc), wkc)
  end.

(** ** Tokens *)

(** A token whose claims cannot be read at all is no ID token. *)
Definition isIDToken (token : string) : M W bool := fun w =>
  match jwt_Parse None token w with
  | (w', Ok j) => (w', Ok (forallb (fun claim => bool_decide (is_Some (j !! claim))) requiredClaims))
  | (w', Err _) => (w', Ok false)
  | (w', Panic p) => (w', Panic p)
  end.

Definition GetTokenType (token : string) : M W TokenType :=
  let! id := isIDToken token in wret (if id : bool then IDToken else Opaque).

Definition ValidateIDToken (token : string) (keySet : jwk_Set) : M W (gmap string any) :=
  jwt_Parse (Some keySet) token.

Definition FetchUserInfo (endpoint token : string) (client : http_Client) : M W (gmap string any) :=
  let! req := wlift (http_NewRequest "POST" endpoint "") in
  let req := rq_set_Header (Header_Set "Authorization" ("Bearer " +:+ token)) req in
  let! resp := http_Do client req in
  if negb (rs_StatusCode resp =? 200)%Z then wfail (ErrorString (rs_Status resp))
  else wlift (json_object resp).

(** ** The cache of user information *)

Definition UserID (uid : UserInfo any) : outcome string :=
  match ui_raw uid !! ui_identifyingClaim uid with
  | Some v => Ok (fmt_Sprint v)
  | None => Err (ErrorString ("identifying claim " +:+ ui_identifyingClaim uid +:+ " not found in user info"))
  end.

Definition NewUserInfoCache (config : OpenidConfig) (client : http_Client)
  : M W (OpenidConfig * UserInfoCache any) :=
  let! (config, wellKnown) := GetWellKnownConfiguration config in
  if decide (oc_IdentifyingClaim config = "") then wfail (ErrorString "no identifying claim set")
  else wret (config, mkUserInfoCache client ∅ ∅ config wellKnown).

(** What [Get] stores for a token that answered with [info]. *)
Definition remember (accessToken id : string) (info : UserInfo any) (c : UserInfoCache any)
  : UserInfoCache any :=
  let put known cache :=
    mkUserInfoCache (uc_client c) (<[accessToken := info]> cache) known (uc_config c) (uc_wellKnown c) in
  match uc_knownUsers c !! id with
  | Some previousAccessToken =>
      if decide (previousAccessToken = accessToken) then put (uc_knownUsers c) (uc_cache c)
      else put (<[id := accessToken]> (uc_knownUsers c)) (delete previousAccessToken (uc_cache c))
  | None => put (<[id := accessToken]> (uc_knownUsers c)) (uc_cache c)
  end.

Definition Get (accessToken : string) (c : UserInfoCache any) : M W (UserInfoCache any * UserInfo any) :=
  match uc_cache c !! accessToken with
  | Some info => wret (c, info)
  | None =>
      let! rawUserInfo := FetchUserInfo (wk_UserinfoEndpoint (uc_wellKnown c)) accessToken (uc_client c) in
      let info := mkUserInfo rawUserInfo (oc_IdentifyingClaim (uc_config c)) in
      let! id := wlift (UserID info) in
      wret (remember accessToken id info c, info)
  end.

(** ** The middleware *)

Definition set_cache (m : OpenidMiddleware any) (c : UserInfoCache any) : OpenidMiddleware any :=
  mkOpenidMiddleware (om_conf m) (om_wellKnownConfig m) (Some c).

(** The state a request acts on: the middleware and the world. *)
Definition OState : Type := OpenidMiddleware any * W.

Definition reject (status : Z) (c : gin_Context) : OState -> OState * outcome gin_Context :=
  fun s => (s, Ok (AbortWithStatus status c)).

Definition bearer (authHeader : string) : string := TrimSpace (TrimPrefix authHeader "Bearer").

(** A call of the environment from a handler, with what a failure answers. *)
Definition call {A} (status : Z) (c : gin_Context) (op : M W A) (k : A -> M OState gin_Context) : M OState gin_Context :=
  fun s => match op s.2 with
           | (w', Ok a) => k a (s.1, w')
           | (w', Err _) => reject status c (s.1, w')
           | (w', Panic p) => ((s.1, w'), Panic p)
           end.

(** [m.cache.Get]; the cache of a middleware that is not configured is nil. *)
Definition cache_Get (token : string) (c : gin_Context) (k : UserInfo any -> M OState gin_Context)
  : M OState gin_Context := fun s =>
  match om_cache s.1 with
  | None => (s, Panic "nil pointer dereference")
  | Some cache =>
      match Get token cache s.2 with
      | (w', Ok (cache', info)) => k info (set_cache s.1 cache', w')
      | (w', Err _) => reject StatusUnauthorized c (s.1, w')
      | (w', Panic p) => ((s.1, w'), Panic p)
      end
  end.

(** The last two statements: [c.Header] and [c.Set]. *)
Definition accept (userID : string) (c : gin_Context) : M OState gin_Context :=
  wret (set_UserID userID (gin_Header "Authorization" "" c)).

Definition Handle_IDToken (set : jwk_Set) (bearerToken : string) (c : gin_Context) : M OState gin_Context := fun s =>
  call StatusUnauthorized c (ValidateIDToken bearerToken set) (fun idt =>
    match idt !! oc_IdentifyingClaim (om_conf s.1) with
    | None => reject StatusUnauthorized c
    | Some claim => accept (fmt_Sprint claim) c
    end) s.

Definition Handle_Opaque (bearerToken : string) (c : gin_Context) : M OState gin_Context :=
  cache_Get bearerToken c (fun userInfo =>
    match UserID userInfo with
    | Ok uid => accept uid c
    | _ => reject StatusUnauthorized c
    end).

Definition openid_Handle : Handler OState := fun c s =>
  match om_wellKnownConfig s.1 with
  | None => reject StatusServiceUnavailable c s
  | Some wk =>
      call StatusServiceUnavailable c (jwk_Fetch (wk_JwksUri wk)) (fun set =>
        let authHeader := GetHeader "Authorization" c in
        if decide (authHeader = "") then reject StatusUnauthorized c
        else
          let bearerToken := bearer authHeader in
          call StatusUnauthorized c (GetTokenType bearerToken) (fun ty =>
            match ty with
            | IDToken => Handle_IDToken set bearerToken c
            | Opaque => Handle_Opaque bearerToken c
            end)) s
  end.

(** ** Configuration *)

(** [New]: the decoded options with the default claim.  The goroutine it starts is
    [tryConfigureKeyRefresher]. *)
Definition openid_New (conf : outcome OpenidConfig) : outcome (OpenidMiddleware any) :=
  let? conf := conf in
  Ok (mkOpenidMiddleware
        (if decide (oc_IdentifyingClaim conf = "")
         then mkOpenidConfig (oc_Discovery conf) (oc_WellKnownConfiguration conf) "sub" else conf)
        None None).

(** The retry loop: [tries] is how often [backoff.Continue] answers true before the
    context ends. *)
Fixpoint configure_loop (tries : nat) (conf : OpenidConfig) : M W (OpenidConfig * WellKnownConfiguration) :=
  match tries with
  | O => fun w => (w, Panic "unreachable")
  | S tries => fun w =>
      match GetWellKnownConfiguration conf w with
      | (w', Err err) =>
          if isDiscoveryErrFatal err then (w', Panic "fatal error fetching openid configuration")
          else configure_loop tries conf w'
      | r => r
      end
  end.

(** The client that verifies the provider against the configured certificate. *)
Definition configured_client (conf : OpenidConfig) : M W http_Client :=
  match oc_Discovery conf ≫= ds_CACert with
  | None => wret DefaultClient
  | Some file => fun w =>
      match os_ReadFile file w with
      | (w', Ok data) =>
          if AppendCertsFromPEM data then (w', Ok (mkClient (Some data) true))
          else (w', Panic "openid discovery: invalid ca cert")
      | (w', Err _) => (w', Panic "openid discovery: failed to read CA cert")
      | (w', Panic p) => (w', Panic p)
      end
  end.

(** What runs under the lock: the configuration is stored, the keys are registered
    and the cache is created. *)
Definition install_configuration (conf : OpenidConfig) (wk : WellKnownConfiguration)
  : M W (OpenidMiddleware any) :=
  let! httpClient := configured_client conf in
  let! _ := (fun w => (jwk_Configure (wk_JwksUri wk) httpClient w, Ok tt)) in
  fun w =>
    match NewUserInfoCache conf httpClient w with
    | (w', Ok (conf', cache)) => (w', Ok (mkOpenidMiddleware conf' (Some wk) (Some cache)))
    | (w', Err _) => (w', Panic "failed to create user info cache")
    | (w', Panic p) => (w', Panic p)
    end.

(** [flight] is the configuration that another middleware with the same options is
    just fetching, when this call joins it instead of running the loop itself. *)
Definition tryConfigureKeyRefresher (flight : option WellKnownConfiguration) (tries : nat)
    (m : OpenidMiddleware any) : M W (OpenidMiddleware any) :=
  let! (conf, wk) := match flight with
                     | Some wk => wret (om_conf m, wk)
                     | None => configure_loop tries (om_conf m)
                     end in
  install_configuration conf wk.
End OpenId.
Arguments OState : clear implicits.

(** ** pkg/auth, pkg/auth/noauth, pkg/auth/test, pkg/machinery *)

(** The interfaces a middleware value implements. *)
Record MiddlewareKind := mkMiddlewareKind {
  mk_HTTP : bool; mk_UnaryGRPC : bool; mk_StreamGRPC : bool }.

Definition ProtocolHTTP : Z := 1.
Definition ProtocolUnaryGRPC : Z := 2.
Definition ProtocolStreamGRPC : Z := 4.

Definition SupportedProtocols (mw : MiddlewareKind) : Z :=
  let p := 0%Z in
  let p := if mk_HTTP mw then Z.lor p ProtocolHTTP else p in
  let p := if mk_UnaryGRPC mw then Z.lor p ProtocolUnaryGRPC else p in
  if mk_StreamGRPC mw then Z.lor p ProtocolStreamGRPC else p.

Inductive AuthStrategy := AuthStrategyDenyAll | AuthStrategyUserIDInAuthHeader | AuthStrategyOther (s : string).

Section Providers.
Context {W any : Type}.

(** [TestAuthMiddleware.Handle]. *)
Definition Test_Handle (strategy : AuthStrategy) : Handler W := fun c =>
  match strategy with
  | AuthStrategyDenyAll => wret (gin_Status StatusUnauthorized c)
  | AuthStrategyUserIDInAuthHeader =>
      let userId := GetHeader "Authorization" c in
      if decide (userId = "") then wret (AbortWithStatus StatusUnauthorized c)
      else wret (set_UserID userId (gin_Header "Authorization" "" c))
  | AuthStrategyOther _ => fun w => (w, Panic "unknown auth strategy")
  end.

(** An entry of the configuration file, with what decoding its options gives. *)
Record AuthProvider := mkAuthProvider {
  ap_Name : string; ap_Type : string;
  ap_Openid : outcome OpenidConfig;       (* options of an openid provider *)
  ap_Noauth : outcome (outcome (outcome OpenidConfig)) }.
(* noauth: decoding the server configuration, then its OpenID section, then the
   OpenID configuration in it *)

Inductive auth_Middleware :=
| MwOpenid (m : OpenidMiddleware any)
| MwNoauth (openidMiddleware : OpenidMiddleware any)
| MwTest (strategy : AuthStrategy).

(** [noauth.New]. *)
Definition noauth_New (conf : outcome (outcome (outcome OpenidConfig))) : outcome auth_Middleware :=
  let? openid := conf in
  let? openidConf := openid in
  let? openidMw := openid_New openidConf in
  Ok (MwNoauth openidMw).

(** A constructor's error becomes a panic. *)
Definition must_create (msg : string) (o : outcome auth_Middleware) : outcome auth_Middleware :=
  match o with Err _ => Panic msg | r => r end.

Definition load_provider (ap : AuthProvider) (providers : gmap string auth_Middleware)
  : outcome (gmap string auth_Middleware) :=
  if decide (ap_Type ap = "openid") then
    let? mw := must_create "failed to create OpenID auth provider"
                 (let? m := openid_New (ap_Openid ap) in Ok (MwOpenid m)) in
    Ok (<[ap_Name ap := mw]> providers)
  else if decide (ap_Type ap = "noauth") then
    let? mw := must_create "failed to create noauth auth provider" (noauth_New (ap_Noauth ap)) in
    Ok (<[ap_Name ap := mw]> providers)
  else if decide (ap_Type ap = "test") then
    Ok (<["test" := MwTest AuthStrategyUserIDInAuthHeader]> providers)
  else Panic ("unsupported auth provider type: " +:+ ap_Type ap).

Fixpoint load_providers (aps : list AuthProvider) (providers : gmap string auth_Middleware)
  : outcome (gmap string auth_Middleware) :=
  match aps with
  | [] => Ok providers
  | ap :: aps => let? providers := load_provider ap providers in load_providers aps providers
  end.

Definition LoadAuthProviders (objects : list AuthProvider) : outcome (gmap string auth_Middleware) :=
  load_providers objects ∅.
End Providers.

(** ** Lemmas *)

Section Cache.
Context {W any jwk_Set : Type} `{OpenidEnv W any jwk_Set}.

(** The two maps of the cache describe one bijection between the users and the
    tokens: a user is known by the one token whose answer names it. *)
Definition cache_inv (c : UserInfoCache any) : Prop :=
  forall id tok, uc_knownUsers c !! id = Some tok <->
                 exists info, uc_cache c !! tok = Some info /\ UserID info = Ok id.

(** Every cached answer names a user. *)
Definition cache_named (c : UserInfoCache any) : Prop :=
  forall tok info, uc_cache c !! tok = Some info -> exists id, UserID info = Ok id.

Lemma remember_lookup tok id info (c : UserInfoCache any) t :
  uc_cache (remember tok id info c) !! t =
  if decide (t = tok) then Some info
  else if decide (uc_knownUsers c !! id = Some t) then None else uc_cache c !! t.
Proof.
  unfold remember. destruct (uc_knownUsers c !! id) as [prev|] eqn:Hk; [destruct (decide (prev = tok)) as [->|Hp]|]; cbn.
  - destruct (decide (t = tok)) as [->|Ht]; [by rewrite lookup_insert_eq|].
    rewrite lookup_insert_ne by done. by rewrite decide_False by congruence.
  - destruct (decide (t = tok)) as [->|Ht]; [by rewrite lookup_insert_eq|].
    rewrite lookup_insert_ne by done. destruct (decide (Some prev = Some t)) as [[= ->]|Hn].
    + by rewrite lookup_delete_eq.
    + by rewrite lookup_delete_ne by congruence.
  - destruct (decide (t = tok)) as [->|Ht]; [by rewrite lookup_insert_eq|].
    by rewrite lookup_insert_ne.
Qed.

Lemma remember_known tok id info (c : UserInfoCache any) :
  uc_knownUsers (remember tok id info c) = <[id := tok]> (uc_knownUsers c).
Proof.
  unfold remember. destruct (uc_knownUsers c !! id) as [prev|] eqn:Hk; [|done].
  destruct (decide (prev = tok)) as [->|Hp]; [|done]. cbn. by rewrite insert_id.
Qed.

Lemma remember_inv tok id info (c : UserInfoCache any) :
  cache_inv c -> uc_cache c !! tok = None -> UserID info = Ok id -> cache_inv (remember tok id info c).
Proof.
  intros Hc Hnone Hid id' t. rewrite remember_known, remember_lookup.
  destruct (decide (id' = id)) as [->|Hne].
  - rewrite lookup_insert_eq. destruct (decide (t = tok)) as [->|Ht]; [naive_solver|].
    destruct (decide (uc_knownUsers c !! id = Some t)) as [Hk|Hk].
    + split; [congruence|]. by intros (? & ? & _).
    + split; [congruence|]. by intros Hex%Hc.
  - rewrite lookup_insert_ne by done. rewrite (Hc id' t).
    destruct (decide (t = tok)) as [->|Ht].
    + split; [intros (? & ? & _); congruence|]. intros (? & [= <-] & ?). congruence.
    + destruct (decide (uc_knownUsers c !! id = Some t)) as [Hk|Hk]; [|done].
      apply Hc in Hk as (i & Hi & Ei). split; [|by intros (? & ? & _)].
      intros (? & ? & ?). congruence.
Qed.

Lemma remember_named tok id info (c : UserInfoCache any) :
  cache_named c -> UserID info = Ok id -> cache_named (remember tok id info c).
Proof.
  intros Hc Hid t i. rewrite remember_lookup. destruct (decide (t = tok)); [intros [= <-]; by exists id|].
  destruct (decide _); [done|]. apply Hc.
Qed.

(** [Get] answers from the cache without a request, or asks the endpoint and
    remembers the answer; nothing is kept of a call that fails. *)
Lemma Get_inv tok (c c' : UserInfoCache any) info (w w' : W) :
  Get tok c w = (w', Ok (c', info)) ->
  (uc_cache c !! tok = Some info /\ c' = c /\ w' = w) \/
  (uc_cache c !! tok = None /\ exists raw id,
     FetchUserInfo (wk_UserinfoEndpoint (uc_wellKnown c)) tok (uc_client c) w = (w', Ok raw) /\
     info = mkUserInfo raw (oc_IdentifyingClaim (uc_config c)) /\ UserID info = Ok id /\
     c' = remember tok id info c).
Proof.
  unfold Get. destruct (uc_cache c !! tok) as [i|] eqn:Hc; [intros [= <- <- <-]; auto|].
  intros (raw & w1 & E1 & E2)%wbind_Ok. apply wbind_Ok in E2 as (id & w2 & E2 & E3).
  unfold wlift in E2. injection E2 as <- Eid. injection E3 as <- <- <-.
  right. split; [done|]. by exists raw, id.
Qed.

Lemma Get_static tok (c c' : UserInfoCache any) info (w w' : W) :
  Get tok c w = (w', Ok (c', info)) ->
  uc_client c' = uc_client c /\ uc_config c' = uc_config c /\ uc_wellKnown c' = uc_wellKnown c.
Proof.
  intros [(_ & -> & _)|(_ & raw & id & _ & _ & _ & ->)]%Get_inv; [done|].
  unfold remember. destruct (uc_knownUsers c !! id); [|done]. by destruct (decide _).
Qed.

Lemma Get_keeps_inv tok (c c' : UserInfoCache any) info (w w' : W) :
  Get tok c w = (w', Ok (c', info)) -> cache_inv c -> cache_named c ->
  cache_inv c' /\ cache_named c' /\ uc_cache c' !! tok = Some info.
Proof.
  intros [(Hc & -> & _)|(Hn & raw & id & _ & -> & Hid & ->)]%Get_inv Hi Hm; [done|].
  split; [by apply remember_inv|]. split; [by apply remember_named|].
  rewrite remember_lookup. by rewrite decide_True.
Qed.
End Cache.
