(* ===== verification/OpenIdProps.v ===== *)
(** What the OpenID middleware guarantees: over every run of a middleware
    (configuration, requests, and a world that changes in between), who a request
    is taken to come from, the state of the user cache, and the configuration that
    discovery accepts. *)

From S2P Require Import Prelude GoStd Http OpenId.

Local Open Scope string_scope.

Section Handle.
Context {W any jwk_Set : Type} `{OpenidEnv W any jwk_Set}.
Implicit Types (m : OpenidMiddleware any) (w : W) (c : gin_Context).

Definition token_of c : string := bearer (GetHeader "Authorization" c).

(** The signature of the token verifies under the keys published at the
    configured address, and the token's claim names the user. *)
Definition verified m c w (user : string) : Prop :=
  exists wk set claims v w1 w2 w3,
    om_wellKnownConfig m = Some wk /\ jwk_Fetch (wk_JwksUri wk) w = (w1, Ok set) /\
    GetTokenType (token_of c) w1 = (w2, Ok IDToken) /\
    ValidateIDToken (token_of c) set w2 = (w3, Ok claims) /\
    claims !! oc_IdentifyingClaim (om_conf m) = Some v /\ user = fmt_Sprint v.

(** While request [c] was handled from [w], the user info endpoint was asked about
    the token of [c] and answered [raw]. *)
Definition endpoint_answers m c w (raw : gmap string any) : Prop :=
  exists wk cache set w1 w2 w3,
    om_wellKnownConfig m = Some wk /\ om_cache m = Some cache /\
    jwk_Fetch (wk_JwksUri wk) w = (w1, Ok set) /\
    GetTokenType (token_of c) w1 = (w2, Ok Opaque) /\
    FetchUserInfo (wk_UserinfoEndpoint (uc_wellKnown cache)) (token_of c) (uc_client cache) w2 = (w3, Ok raw).

(** The keys could be fetched and the token of [c] is taken for an access token. *)
Definition opaque_token m c w : bool :=
  match om_wellKnownConfig m with
  | None => false
  | Some wk =>
      match jwk_Fetch (wk_JwksUri wk) w with
      | (w1, Ok _) => match GetTokenType (token_of c) w1 with (_, Ok Opaque) => true | _ => false end
      | _ => false
      end
  end.

(** The outcomes of a request that the handler decides. *)
Inductive handled m c w : OpenidMiddleware any -> gin_Context -> Prop :=
| handled_reject status :
    status = StatusUnauthorized \/ status = StatusServiceUnavailable ->
    handled m c w m (AbortWithStatus status c)
| handled_verified user :
    GetHeader "Authorization" c <> "" -> verified m c w user ->
    handled m c w m (set_UserID user (gin_Header "Authorization" "" c))
| handled_cached cache info user :
    GetHeader "Authorization" c <> "" -> om_wellKnownConfig m <> None ->
    om_cache m = Some cache -> uc_cache cache !! token_of c = Some info -> UserID info = Ok user ->
    opaque_token m c w = true ->
    handled m c w m (set_UserID user (gin_Header "Authorization" "" c))
| handled_fetched cache raw user :
    GetHeader "Authorization" c <> "" -> om_cache m = Some cache -> uc_cache cache !! token_of c = None ->
    endpoint_answers m c w raw ->
    UserID (mkUserInfo raw (oc_IdentifyingClaim (uc_config cache))) = Ok user ->
    handled m c w
      (set_cache m (remember (token_of c) user (mkUserInfo raw (oc_IdentifyingClaim (uc_config cache))) cache))
      (set_UserID user (gin_Header "Authorization" "" c)).

Lemma call_inv {A} status c (op : M W A) (k : A -> M (OState W any) gin_Context) (s s' : OState W any) c' :
  call status c op k s = (s', Ok c') ->
  (exists a w1, op s.2 = (w1, Ok a) /\ k a (s.1, w1) = (s', Ok c')) \/
  (s'.1 = s.1 /\ c' = AbortWithStatus status c).
Proof.
  unfold call. destruct (op s.2) as [w1 [a|e|p]]; [|intros [= <- <-]; by right|done].
  intros E. left. eauto.
Qed.

Lemma set_cache_id m cache : om_cache m = Some cache -> set_cache m cache = m.
Proof. destruct m as [conf wk oc]; cbn. intros ->. done. Qed.

Lemma Handle_Opaque_inv tok c (s s' : OState W any) c' :
  Handle_Opaque tok c s = (s', Ok c') ->
  (s'.1 = s.1 /\ c' = AbortWithStatus StatusUnauthorized c) \/
  exists cache cache' info user, om_cache s.1 = Some cache /\
    Get tok cache s.2 = (s'.2, Ok (cache', info)) /\ UserID info = Ok user /\
    s'.1 = set_cache s.1 cache' /\ c' = set_UserID user (gin_Header "Authorization" "" c).
Proof.
  unfold Handle_Opaque, cache_Get. destruct s as [m w]; cbn. destruct (om_cache m) as [cache|] eqn:Hc; [|done].
  destruct (Get tok cache w) as [w1 [[cache' info]|e|p]] eqn:Eg; [|intros [= <- <-]; by left|done].
  destruct (UserID info) as [user|e|p] eqn:Eu.
  - intros [= <- <-]. right. by exists cache, cache', info, user.
  - intros [= <- <-]. left. split; [|done]. cbn.
    destruct (Get_inv _ _ _ _ _ _ Eg) as [(_ & -> & _)|(_ & raw & id & _ & _ & Hid & _)]; [by apply set_cache_id|congruence].
  - intros [= <- <-]. left. split; [|done]. cbn.
    destruct (Get_inv _ _ _ _ _ _ Eg) as [(_ & -> & _)|(_ & raw & id & _ & _ & Hid & _)]; [by apply set_cache_id|congruence].
Qed.

Lemma openid_Handle_inv m w m' w' c c' :
  openid_Handle c (m, w) = ((m', w'), Ok c') -> handled m c w m' c'.
Proof.
  unfold openid_Handle. cbn. destruct (om_wellKnownConfig m) as [wk|] eqn:Hwk.
  2: { intros [= <- <- <-]. apply handled_reject. by right. }
  intros [(set & w1 & Ef & E)|[E1 ->]]%call_inv; cbn in *.
  2: { subst. apply handled_reject. by right. }
  destruct (decide (GetHeader "Authorization" c = "")) as [He|He].
  { injection E as <- <- <-. apply handled_reject. by left. }
  apply call_inv in E as [(ty & w2 & Et & E)|[E1 ->]]; cbn in *.
  2: { subst. apply handled_reject. by left. }
  destruct ty.
  - apply Handle_Opaque_inv in E as [[E1 ->]|(cache & cache' & info & user & Hc & Eg & Hu & E1 & ->)]; cbn in *.
    { subst. apply handled_reject. by left. }
    subst m'. apply Get_inv in Eg as [(Hin & -> & _)|(Hn & raw & id & Efu & -> & Hid & ->)].
    + rewrite set_cache_id by done. eapply handled_cached; eauto; [by rewrite Hwk|].
      unfold opaque_token, token_of. by rewrite Hwk, Ef, Et.
    + rewrite Hid in Hu. injection Hu as ->. eapply handled_fetched; eauto.
      exists wk, cache, set, w1, w2, w'. done.
  - unfold Handle_IDToken in E. apply call_inv in E as [(claims & w3 & Ev & E)|[E1 ->]]; cbn in *.
    2: { subst. apply handled_reject. by left. }
    destruct (claims !! oc_IdentifyingClaim (om_conf m)) as [v|] eqn:Hv.
    + injection E as <- <- <-. apply handled_verified; [done|]. exists wk, set, claims, v, w1, w2, w3. done.
    + injection E as <- <- <-. apply handled_reject. by left.
Qed.
End Handle.

(** ** Discovery and configuration *)

Section Configuration.
Context {W any jwk_Set : Type} `{OpenidEnv W any jwk_Set}.
Implicit Types (m : OpenidMiddleware any) (w : W).

Definition complete (wk : WellKnownConfiguration) : Prop :=
  wk_Issuer wk <> "" /\ wk_AuthEndpoint wk <> "" /\ wk_TokenEndpoint wk <> "" /\
  wk_UserinfoEndpoint wk <> "" /\ wk_JwksUri wk <> "".

Lemma CheckRequiredFields_complete wk : CheckRequiredFields wk = Ok tt <-> complete wk.
Proof. unfold CheckRequiredFields, complete. repeat case_decide; naive_solver. Qed.

Lemma fetchWellKnownConfig_checked dc w w' wk :
  fetchWellKnownConfig dc w = (w', Ok wk) -> wk_Issuer wk = ds_Issuer dc /\ complete wk.
Proof.
  unfold fetchWellKnownConfig. intros (cl & w1 & _ & E)%wbind_Ok.
  apply wbind_Ok in E as (u & w2 & _ & E). apply wbind_Ok in E as (rq & w3 & _ & E).
  apply wbind_Ok in E as (rs & w4 & _ & E). destruct (negb _); [done|].
  apply wbind_Ok in E as (cfg & w5 & _ & E). case_decide as Hi; [|done].
  apply wbind_Ok in E as ([] & w6 & E1 & [= _ <-]). split; [done|].
  apply CheckRequiredFields_complete. unfold wrapf, wcatch, wlift in E1.
  destruct (CheckRequiredFields cfg) as [[]|e|p]; [done|done|done].
Qed.

Lemma GetWellKnownConfiguration_inv oc oc' w w' wk :
  GetWellKnownConfiguration oc w = (w', Ok (oc', wk)) ->
  oc_IdentifyingClaim oc' = oc_IdentifyingClaim oc /\ oc_Discovery oc' = oc_Discovery oc /\
  oc_WellKnownConfiguration oc' = Some wk /\
  (oc_WellKnownConfiguration oc = Some wk \/
   exists dc, oc_Discovery oc = Some dc /\ wk_Issuer wk = ds_Issuer dc /\ complete wk).
Proof.
  unfold GetWellKnownConfiguration.
  destruct (oc_WellKnownConfiguration oc) as [k|] eqn:Hk; [intros [= _ <- <-]; auto|].
  destruct (oc_Discovery oc) as [dc|] eqn:Hd; [|done].
  intros (wkc & w1 & E & [= _ <- <-])%wbind_Ok. cbn. do 3 (split; [done|]). right.
  exists dc. split; [done|]. unfold wrapf, wcatch in E.
  destruct (fetchWellKnownConfig dc w) as [w2 []] eqn:Ef; [|done..]. injection E as <- <-.
  by eapply fetchWellKnownConfig_checked.
Qed.

Lemma configure_loop_inv tries oc oc' w w' wk :
  configure_loop tries oc w = (w', Ok (oc', wk)) ->
  exists w1, GetWellKnownConfiguration oc w1 = (w', Ok (oc', wk)).
Proof.
  revert w. induction tries as [|tries IH]; intros w; [done|]. cbn.
  destruct (GetWellKnownConfiguration oc w) as [w1 [[k1 k2]|e|p]] eqn:E.
  - intros [= -> -> ->]. eauto.
  - destruct (isDiscoveryErrFatal e); [done|]. apply IH.
  - done.
Qed.

Lemma NewUserInfoCache_inv oc oc' w w' client (cache : UserInfoCache any) :
  NewUserInfoCache oc client w = (w', Ok (oc', cache)) ->
  cache = mkUserInfoCache client ∅ ∅ oc' (uc_wellKnown cache) /\
  oc_IdentifyingClaim oc' = oc_IdentifyingClaim oc /\ oc_IdentifyingClaim oc <> "" /\
  oc_WellKnownConfiguration oc' = Some (uc_wellKnown cache).
Proof.
  unfold NewUserInfoCache. intros ([k1 k2] & w1 & E1 & E2)%wbind_Ok.
  apply GetWellKnownConfiguration_inv in E1 as (Hc & _ & Hk & _).
  case_decide as Hn; [done|]. injection E2 as <- <- <-. cbn. by rewrite <- Hc.
Qed.

(** A middleware is configured at once: with a configuration and an empty cache
    for the claim it was created with. *)
Lemma tryConfigure_inv flight tries m m' w w' :
  tryConfigureKeyRefresher flight tries m w = (w', Ok m') ->
  oc_IdentifyingClaim (om_conf m') = oc_IdentifyingClaim (om_conf m) /\
  om_wellKnownConfig m' <> None /\
  exists cache, om_cache m' = Some cache /\ uc_cache cache = ∅ /\ uc_knownUsers cache = ∅ /\
    oc_IdentifyingClaim (uc_config cache) = oc_IdentifyingClaim (om_conf m').
Proof.
  unfold tryConfigureKeyRefresher. intros ([k1 k2] & w1 & E1 & E2)%wbind_Ok.
  assert (oc_IdentifyingClaim k1 = oc_IdentifyingClaim (om_conf m)) as Hk.
  { destruct flight as [wk|]; [by injection E1 as _ <- _|].
    apply configure_loop_inv in E1 as (w2 & E1). by apply GetWellKnownConfiguration_inv in E1 as [? _]. }
  unfold install_configuration in E2. apply wbind_Ok in E2 as (cl & w2 & _ & E2).
  apply wbind_Ok in E2 as ([] & w3 & _ & E2).
  destruct (NewUserInfoCache k1 cl w3) as [w4 [[k3 cache]|e|p]] eqn:En; [|done..].
  injection E2 as <- <-. apply NewUserInfoCache_inv in En as (-> & Hc & _ & _). cbn.
  split; [congruence|]. split; [done|]. by eexists.
Qed.

(** What the middleware that fetched the configuration itself ends up with. *)
Lemma tryConfigure_wellKnown tries m m' w w' :
  tryConfigureKeyRefresher None tries m w = (w', Ok m') ->
  oc_WellKnownConfiguration (om_conf m) = None ->
  exists dc wk cache, oc_Discovery (om_conf m) = Some dc /\ om_wellKnownConfig m' = Some wk /\
    om_cache m' = Some cache /\ uc_wellKnown cache = wk /\ wk_Issuer wk = ds_Issuer dc /\ complete wk.
Proof.
  unfold tryConfigureKeyRefresher. intros ([k1 k2] & w1 & E1 & E2)%wbind_Ok Hn.
  apply configure_loop_inv in E1 as (w2 & E1).
  apply GetWellKnownConfiguration_inv in E1 as (_ & _ & Hk1 & [?|(dc & Hd & Hi & Hc)]); [congruence|].
  unfold install_configuration in E2. apply wbind_Ok in E2 as (cl & w3 & _ & E2).
  apply wbind_Ok in E2 as ([] & w4 & _ & E2). cbn in E2. unfold NewUserInfoCache in E2.
  unfold GetWellKnownConfiguration in E2. rewrite Hk1 in E2.
  rewrite (wbind_eq_Ok _ _ _ w4 (k1, k2)) in E2 by done. cbn in E2.
  case_decide; [done|]. injection E2 as _ <-. exists dc, k2. by eexists.
Qed.

(** [n] attempts that fail without a fatal error. *)
Inductive failing (oc : OpenidConfig) : nat -> W -> W -> Prop :=
| failing_O w : failing oc 0 w w
| failing_S n w w1 w2 e :
    GetWellKnownConfiguration oc w = (w1, Err e) -> isDiscoveryErrFatal e = false ->
    failing oc n w1 w2 -> failing oc (S n) w w2.

(** The loop keeps trying through failures that are not fatal, and ends with the
    first answer that is accepted. *)
Lemma configure_loop_retries oc n k w w1 w2 r :
  failing oc n w w1 -> GetWellKnownConfiguration oc w1 = (w2, Ok r) ->
  configure_loop (n + S k) oc w = (w2, Ok r).
Proof.
  intros Hf E. induction Hf as [w|n w wa wb e Ea Hfa _ IH]; cbn.
  - by rewrite E.
  - rewrite Ea, Hfa. by apply IH.
Qed.

(** When the context ends before that, the goroutine panics. *)
Lemma configure_loop_exhausted oc n w w1 :
  failing oc n w w1 -> configure_loop n oc w = (w1, Panic "unreachable").
Proof. induction 1 as [w|n w wa wb e Ea Hfa _ IH]; cbn; [done|]. by rewrite Ea, Hfa. Qed.
End Configuration.

(** ** Runs *)

Section Runs.
Context {W any jwk_Set : Type} `{OpenidEnv W any jwk_Set}.
Implicit Types (m : OpenidMiddleware any) (w : W) (c : gin_Context).

(** The runs of a middleware created with [conf]: it is configured at some point,
    requests are handled, and the world changes at any time.  The history lists the
    handled requests, each with the world it met. *)
Inductive om_run (conf : OpenidConfig) : list (gin_Context * W) -> OpenidMiddleware any -> W -> Prop :=
| run_New m w : openid_New (Ok conf) = Ok m -> om_run conf [] m w
| run_world h m w w' : om_run conf h m w -> om_run conf h m w'
| run_configure h m w flight tries m' w' :
    om_run conf h m w -> om_wellKnownConfig m = None ->
    tryConfigureKeyRefresher flight tries m w = (w', Ok m') -> om_run conf h m' w'
| run_Handle h m w c m' w' c' :
    om_run conf h m w -> openid_Handle c (m, w) = ((m', w'), Ok c') ->
    om_run conf ((c, w) :: h) m' w'.

(** Where a cached answer comes from: some handled request with the same token. *)
Definition provenance (h : list (gin_Context * W)) m tok (raw : gmap string any) : Prop :=
  exists c0 w0, (c0, w0) ∈ h /\ token_of c0 = tok /\ endpoint_answers m c0 w0 raw.

Definition om_inv (h : list (gin_Context * W)) m : Prop :=
  match om_wellKnownConfig m, om_cache m with
  | None, None => True
  | Some _, Some cache =>
      cache_inv cache /\ cache_named cache /\
      oc_IdentifyingClaim (uc_config cache) = oc_IdentifyingClaim (om_conf m) /\
      forall tok info, uc_cache cache !! tok = Some info ->
        ui_identifyingClaim info = oc_IdentifyingClaim (om_conf m) /\ provenance h m tok (ui_raw info)
  | _, _ => False
  end.

Lemma endpoint_answers_static m cache cache' c w raw :
  om_cache m = Some cache -> uc_client cache' = uc_client cache -> uc_wellKnown cache' = uc_wellKnown cache ->
  endpoint_answers m c w raw -> endpoint_answers (set_cache m cache') c w raw.
Proof.
  intros Hc Hcl Hwk (wk & ca & set & w1 & w2 & w3 & E1 & E2 & E3 & E4 & E5).
  assert (ca = cache) as -> by congruence.
  exists wk, cache', set, w1, w2, w3. rewrite Hcl, Hwk. done.
Qed.

Lemma remember_static tok id info (c : UserInfoCache any) :
  uc_client (remember tok id info c) = uc_client c /\ uc_config (remember tok id info c) = uc_config c /\
  uc_wellKnown (remember tok id info c) = uc_wellKnown c.
Proof. unfold remember. destruct (uc_knownUsers c !! id); [|done]. by destruct (decide _). Qed.

Lemma om_inv_weaken h x m : om_inv h m -> om_inv (x :: h) m.
Proof.
  unfold om_inv. destruct (om_wellKnownConfig m), (om_cache m); [|done..].
  intros (? & ? & ? & Hp). do 3 (split; [done|]). intros tok info Hin.
  destruct (Hp tok info Hin) as [? (c0 & w0 & ? & ? & ?)]. split; [done|].
  exists c0, w0. split; [by apply list_elem_of_further|done].
Qed.

Lemma om_inv_fetched h m c w cache raw user :
  om_inv h m -> om_cache m = Some cache -> uc_cache cache !! token_of c = None ->
  endpoint_answers m c w raw ->
  UserID (mkUserInfo raw (oc_IdentifyingClaim (uc_config cache))) = Ok user ->
  om_inv ((c, w) :: h)
    (set_cache m (remember (token_of c) user (mkUserInfo raw (oc_IdentifyingClaim (uc_config cache))) cache)).
Proof.
  unfold om_inv. intros Hi Hc Hn Ha Hu. cbn. rewrite Hc in Hi.
  destruct (om_wellKnownConfig m) as [wk|]; [|done]. destruct Hi as (H1 & H2 & H3 & H4).
  destruct (remember_static (token_of c) user (mkUserInfo raw (oc_IdentifyingClaim (uc_config cache))) cache)
    as (Scl & Sco & Swk).
  split; [by apply remember_inv|]. split; [by apply remember_named|]. split; [by rewrite Sco|].
  intros tok info. rewrite remember_lookup. destruct (decide (tok = token_of c)) as [->|Ht].
  - intros [= <-]. cbn. split; [done|]. exists c, w. split; [by apply list_elem_of_here|]. split; [done|].
    by eapply endpoint_answers_static.
  - destruct (decide _); [done|]. intros Hin. destruct (H4 tok info Hin) as [? (c0 & w0 & ? & ? & ?)].
    split; [done|]. exists c0, w0. split; [by apply list_elem_of_further|]. split; [done|].
    by eapply endpoint_answers_static.
Qed.

Lemma om_run_inv conf h m w : om_run conf h m w -> om_inv h m.
Proof.
  induction 1 as [m w [= <-]|h m w w' _ IH|h m w flight tries m' w' _ IH Hn E|h m w c m' w' c' _ IH E].
  - done.
  - done.
  - destruct (tryConfigure_inv _ _ _ _ _ _ E) as (_ & Hwk & cache & Hc & He & Hk & Hid).
    unfold om_inv. rewrite Hc. destruct (om_wellKnownConfig m'); [|done].
    split; [|split; [|split; [done|]]].
    + intros id tok. rewrite He, Hk, !lookup_empty. split; [done|]. by intros (? & ? & _).
    + intros tok info. by rewrite He, lookup_empty.
    + intros tok info. by rewrite He, lookup_empty.
  - destruct (openid_Handle_inv _ _ _ _ _ _ E) as [st _|user _ _|cache info user _ _ _ _ _|cache raw user _ Hc Hn Ha Hu].
    1-3: by apply om_inv_weaken. by apply om_inv_fetched.
Qed.

(** The token of request [c] authenticates [user]: its signature verifies under the
    provider's keys, or the user info endpoint answered for this very token, to this
    request or to an earlier one. *)
Definition authenticated (h : list (gin_Context * W)) m c w (user : string) : Prop :=
  verified m c w user \/
  exists c0 w0 raw v, (c0, w0) ∈ (c, w) :: h /\ token_of c0 = token_of c /\
    endpoint_answers m c0 w0 raw /\
    raw !! oc_IdentifyingClaim (om_conf m) = Some v /\ user = fmt_Sprint v.

Lemma openid_Handle_outcome h m w c m' w' c' :
  om_inv h m -> openid_Handle c (m, w) = ((m', w'), Ok c') ->
  (exists status, c' = AbortWithStatus status c /\
     (status = StatusUnauthorized \/ status = StatusServiceUnavailable)) \/
  exists user, c' = set_UserID user (gin_Header "Authorization" "" c) /\
    GetHeader "Authorization" c <> "" /\ authenticated h m c w user.
Proof.
  intros Hr E. unfold om_inv in Hr.
  destruct (openid_Handle_inv _ _ _ _ _ _ E) as [st Hst|user Hh Hv|cache info user Hh Hwk Hc Hin Hid|cache raw user Hh Hc Hn Han Hid].
  - left. by exists st.
  - right. exists user. split; [done|]. split; [done|]. by left.
  - right. exists user. split; [done|]. split; [done|]. right. rewrite Hc in Hr.
    destruct (om_wellKnownConfig m) as [wk|]; [|done]. destruct Hr as (_ & _ & _ & Hp).
    destruct (Hp _ _ Hin) as [Hcl (c0 & w0 & Hin0 & Ht & Han)]. unfold UserID in Hid. rewrite Hcl in Hid.
    destruct (ui_raw info !! _) as [v|] eqn:Hv; [|done]. injection Hid as <-.
    exists c0, w0, (ui_raw info), v. split; [by apply list_elem_of_further|done].
  - right. exists user. split; [done|]. split; [done|]. right. rewrite Hc in Hr.
    destruct (om_wellKnownConfig m) as [wk|]; [|done]. destruct Hr as (_ & _ & Hcl & _).
    unfold UserID in Hid. cbn in Hid. rewrite Hcl in Hid. destruct (raw !! _) as [v|] eqn:Hv; [|done].
    injection Hid as <-. exists c, w, raw, v. split; [by apply list_elem_of_here|done].
Qed.

(** The calls of the environment return a value or an error. *)
Record env_total : Prop := {
  et_Fetch uri w : no_panic (jwk_Fetch uri w).2 = true;
  et_Parse set tok w : no_panic (jwt_Parse set tok w).2 = true;
  et_NewRequest method url body : no_panic (http_NewRequest method url body) = true;
  et_Do client r w : no_panic (http_Do client r w).2 = true;
  et_object r : no_panic (json_object r) = true }.

Lemma FetchUserInfo_total endpoint tok client w :
  env_total -> no_panic (FetchUserInfo endpoint tok client w).2 = true.
Proof.
  intros He. unfold FetchUserInfo, wbind, wlift.
  pose proof (et_NewRequest He "POST" endpoint "") as Hn. destruct (http_NewRequest _ _ _) as [rq|e|p]; [|done|done].
  match goal with |- context [http_Do client ?r w] => pose proof (et_Do He client r w) as Hd; destruct (http_Do client r w) as [w1 [rs|e|p]] end;
    [|done|done].
  destruct (negb _); [done|]. apply (et_object He).
Qed.

Lemma Get_total tok (cache : UserInfoCache any) w : env_total -> no_panic (Get tok cache w).2 = true.
Proof.
  intros He. unfold Get. destruct (uc_cache cache !! tok); [done|]. unfold wbind.
  match goal with |- context [FetchUserInfo ?e ?t ?cl w] => pose proof (FetchUserInfo_total e t cl w He) as Hf;
    destruct (FetchUserInfo e t cl w) as [w1 [raw|e'|p]] end; [|done|done].
  unfold wlift, UserID. by destruct (_ !! _).
Qed.

Lemma call_total {A} status c (op : M W A) (k : A -> M (OState W any) gin_Context) (s : OState W any) :
  no_panic (op s.2).2 = true -> (forall a s', s'.1 = s.1 -> exists s2 c2, k a s' = (s2, Ok c2)) ->
  exists s2 c2, call status c op k s = (s2, Ok c2).
Proof.
  intros Hp Hk. unfold call. destruct (op s.2) as [w1 [a|e|p]]; [by apply Hk|by eauto|done].
Qed.

(** In a state a run can reach, a request is always decided: the cache is there when
    it is needed. *)
Lemma openid_Handle_total h m w c :
  env_total -> om_inv h m -> exists m' w' c', openid_Handle c (m, w) = ((m', w'), Ok c').
Proof.
  intros He Hi. enough (exists s c', openid_Handle c (m, w) = (s, Ok c')) as ([m' w'] & c' & E) by eauto.
  unfold openid_Handle. unfold om_inv in Hi. cbn [fst].
  destruct (om_wellKnownConfig m) as [wk|]; [|unfold reject; eauto].
  destruct (om_cache m) as [cache|] eqn:Hc; [|done].
  apply call_total; [apply (et_Fetch He)|]. intros set s1 Hs1.
  destruct (decide _); [unfold reject; eauto|]. apply call_total.
  { unfold GetTokenType, isIDToken, wbind. match goal with |- context [jwt_Parse None ?t ?w] =>
      pose proof (et_Parse He None t w) as Hp; destruct (jwt_Parse None t w) as [w1 [j|e|p]] end; done. }
  intros ty s2 Hs2. destruct ty.
  - unfold Handle_Opaque, cache_Get. rewrite Hs2, Hs1. cbn [fst]. rewrite Hc.
    pose proof (Get_total (bearer (GetHeader "Authorization" c)) cache s2.2 He) as Hg.
    destruct (Get _ cache s2.2) as [w1 [[cache' info]|e|p]]; [|unfold reject; eauto|done].
    destruct (UserID info); unfold accept, reject, wret; eauto.
  - unfold Handle_IDToken. apply call_total; [apply (et_Parse He)|]. intros claims s3 _.
    destruct (claims !! _); unfold accept, reject, wret; eauto.
Qed.

(** C8: in every run of the OpenID middleware, a request is either rejected with
    401 or 503 and no user, or passed with exactly one user; the user is then named
    by the identifying claim of a token whose signature verifies under the provider's
    keys, or of the answer that the provider's user info endpoint gave for this very
    token, to this request or to an earlier one. *)
Theorem openid_user_is_authenticated conf h m w c m' w' c' :
  om_run conf h m w -> gc_UserID c = None -> gc_Aborted c = false ->
  openid_Handle c (m, w) = ((m', w'), Ok c') ->
  (gc_Aborted c' = true /\ gc_UserID c' = None /\
   (gc_Status c' = StatusUnauthorized \/ gc_Status c' = StatusServiceUnavailable)) \/
  exists user, gc_Aborted c' = false /\ gc_UserID c' = Some user /\
    GetHeader "Authorization" c <> "" /\
    authenticated h m c w user.
Proof.
  intros Hr%om_run_inv Hu Ha E. destruct (openid_Handle_outcome _ _ _ _ _ _ _ Hr E) as [(st & -> & Hst)|(user & -> & Hh & Hau)].
  - left. split; [done|]. split; [done|]. by destruct Hst as [->| ->]; [left|right].
  - right. by exists user.
Qed.

(** The user and the token of a request that is accepted with an access token. *)
Definition log_entry m c w c' : list (string * string) :=
  if opaque_token m c w && negb (gc_Aborted c') then option_list ((fun user => (user, token_of c)) <$> gc_UserID c') else [].

(** The runs of a middleware with the log of the accesses, the latest first. *)
Inductive om_log (conf : OpenidConfig) : list (string * string) -> OpenidMiddleware any -> W -> Prop :=
| log_New m w : openid_New (Ok conf) = Ok m -> om_log conf [] m w
| log_world l m w w' : om_log conf l m w -> om_log conf l m w'
| log_configure l m w flight tries m' w' :
    om_log conf l m w -> om_wellKnownConfig m = None ->
    tryConfigureKeyRefresher flight tries m w = (w', Ok m') -> om_log conf l m' w'
| log_Handle l m w c m' w' c' :
    om_log conf l m w -> gc_Aborted c = false -> openid_Handle c (m, w) = ((m', w'), Ok c') ->
    om_log conf (log_entry m c w c' ++ l) m' w'.

Lemma om_log_run conf l m w : om_log conf l m w -> exists h, om_run conf h m w.
Proof.
  induction 1 as [m w E|l m w w' _ [h IH]|l m w f t m' w' _ [h IH] Hn E|l m w c m' w' c' _ [h IH] _ E].
  - exists []. by constructor.
  - exists h. by econstructor.
  - exists h. by econstructor.
  - exists ((c, w) :: h). by econstructor.
Qed.

Lemma om_log_inv conf l m w : om_log conf l m w ->
  match om_cache m with Some cache => uc_knownUsers cache = list_to_map l | None => l = [] end.
Proof.
  induction 1 as [m w [= <-]|l m w w' _ IH|l m w f t m' w' Hl IH Hn E|l m w c m' w' c' Hl IH Ha E]; [done|done| |].
  - destruct (tryConfigure_inv _ _ _ _ _ _ E) as (_ & _ & cache & Hc & _ & Hk & _). rewrite Hc, Hk.
    destruct (om_log_run _ _ _ _ Hl) as [h Hi%om_run_inv]. unfold om_inv in Hi. rewrite Hn in Hi.
    destruct (om_cache m); [done|]. by subst l.
  - destruct (om_log_run _ _ _ _ Hl) as [h Hi%om_run_inv]. unfold log_entry.
    destruct (openid_Handle_inv _ _ _ _ _ _ E) as
      [st _|user _ Hv|cache info user _ Hwk Hc Hin Hu Ho|cache raw user _ Hc _ He _]; cbn [gc_Aborted AbortWithStatus negb].
    + by rewrite andb_false_r.
    + destruct Hv as (wk & set & claims & v & w1 & w2 & w3 & Hwk & Ef & Et & _).
      assert (opaque_token m c w = false) as -> by (unfold opaque_token; by rewrite Hwk, Ef, Et). done.
    + rewrite Ho. cbn. rewrite Ha. cbn. rewrite Hc in IH |- *. rewrite <- IH, insert_id; [done|].
      unfold om_inv in Hi. rewrite Hc in Hi. destruct (om_wellKnownConfig m); [|done]. apply (proj1 Hi). by exists info.
    + assert (opaque_token m c w = true) as ->.
      { destruct He as (wk & ca & set & w1 & w2 & w3 & Hwk & _ & Ef & Et & _). unfold opaque_token. by rewrite Hwk, Ef, Et. }
      cbn. rewrite Ha. cbn. rewrite Hc in IH. by rewrite remember_known, IH.
Qed.

(** C35: in every run, the user cache knows every user who was accepted with an access
    token by the token of the latest such request of the user, knows nobody else, and
    holds an answer for exactly these tokens: there is one live token per user. *)
Theorem openid_one_token_per_user conf (log : list (string * string)) m w cache :
  om_log conf log m w -> om_cache m = Some cache ->
  uc_knownUsers cache = list_to_map log /\
  (forall tok user, (exists info, uc_cache cache !! tok = Some info /\ UserID info = Ok user) <->
     (list_to_map log : gmap string string) !! user = Some tok) /\
  (forall tok info, uc_cache cache !! tok = Some info -> exists user, UserID info = Ok user).
Proof.
  intros Hl Hc. pose proof (om_log_inv _ _ _ _ Hl) as Hk. rewrite Hc in Hk.
  destruct (om_log_run _ _ _ _ Hl) as [h Hi%om_run_inv]. unfold om_inv in Hi. rewrite Hc in Hi.
  destruct (om_wellKnownConfig m) as [wk|]; [|done]. destruct Hi as (Hi & Hn & _).
  split; [done|]. split; [|exact Hn]. intros tok user. rewrite <- Hk. symmetry. apply Hi.
Qed.

(** A token that was accepted once is accepted for as long as it stays cached, with
    no further request to the provider, whatever the world has become. *)
Lemma cached_token_is_not_rechecked m w w1 w2 c wk cache info user set :
  om_wellKnownConfig m = Some wk -> om_cache m = Some cache ->
  uc_cache cache !! token_of c = Some info -> UserID info = Ok user ->
  GetHeader "Authorization" c <> "" ->
  jwk_Fetch (wk_JwksUri wk) w = (w1, Ok set) -> GetTokenType (token_of c) w1 = (w2, Ok Opaque) ->
  openid_Handle c (m, w) = ((m, w2), Ok (set_UserID user (gin_Header "Authorization" "" c))).
Proof.
  intros Hwk Hc Hin Hu Hh Ef Et. unfold openid_Handle, call. cbn [fst snd]. rewrite Hwk, Ef. cbn [fst snd].
  cbv zeta. rewrite decide_False by done. change (bearer _) with (token_of c). cbn [fst snd]. rewrite Et. cbn [fst snd].
  unfold Handle_Opaque, cache_Get. cbn [fst snd]. rewrite Hc. unfold Get. rewrite Hin. cbn. rewrite Hu.
  by rewrite set_cache_id.
Qed.

(** The token stays in the request: [c.Header] acts on the response. *)
Lemma openid_keeps_authorization m w m' w' c c' :
  openid_Handle c (m, w) = ((m', w'), Ok c') -> gc_Request c' = gc_Request c.
Proof. intros E. by destruct (openid_Handle_inv _ _ _ _ _ _ E). Qed.
End Runs.

(** ** A concrete OpenID provider, and runs of the middleware against it. *)

(** The signed tokens with their claims, the subject of each access token, and the
    number of requests the provider has answered. *)
Record RefIdp := mkRefIdp {
  ri_jwts : gmap string (gmap string string);
  ri_subjects : gmap string string;
  ri_up : bool;
  ri_requests : nat }.

Definition ref_wk : WellKnownConfiguration :=
  mkWellKnown "https://idp" "https://idp/auth" "https://idp/token" "https://idp/userinfo" "" "https://idp/keys"
    [] [] [] [] [] [] false "".

Definition ref_request (method url body : string) : Request :=
  mkRequest method (mkURL "" "" url "") "HTTP/1.1" ∅ "" "" "" body.

Definition ref_response (code : Z) (status body : string) : Response := mkResponse code status ∅ body None.

Definition ref_answer (r : Request) (w : RefIdp) : Response :=
  if negb (ri_up w) then ref_response 503 "503 Service Unavailable" ""
  else if decide (rq_Method r = "GET") then ref_response 200 "200 OK" "configuration"
  else match ri_subjects w !! TrimPrefix (Header_Get "Authorization" (rq_Header r)) "Bearer " with
       | Some sub => ref_response 200 "200 OK" sub
       | None => ref_response 401 "401 Unauthorized" ""
       end.

#[export] Instance ref_http : HttpEnv RefIdp := {|
  url_Parse s := Ok (mkURL "" s "" "");
  url_String u := u_Host u +:+ u_Path u;
  http_NewRequest method url body := Ok (ref_request method url body);
  http_Do _ r := fun w =>
    (mkRefIdp (ri_jwts w) (ri_subjects w) (ri_up w) (S (ri_requests w)), Ok (ref_answer r w)) |}.

#[export] Instance ref_idp : OpenidEnv RefIdp string string := {|
  oe_http := ref_http;
  fmt_Sprint v := v;
  jwt_Parse _ token := fun w =>
    (w, match ri_jwts w !! token with Some claims => Ok claims | None => Err (ErrorString "invalid JWT") end);
  jwk_Configure _ _ w := w;
  jwk_Fetch _ := fun w => (w, Ok "keys");
  os_ReadFile _ := fun w => (w, Err ErrNotFound);
  AppendCertsFromPEM _ := true;
  json_WellKnown r := if decide (rs_Body r = "configuration") then Ok ref_wk else Err (ErrorString "invalid JSON");
  json_object r := Ok {[ "sub" := rs_Body r ]} |}.

Definition ref_conf : OpenidConfig := mkOpenidConfig (Some (mkDiscovery None "https://idp" None)) None "".

Definition ref_world : RefIdp := mkRefIdp ∅ {[ "t1" := "alice" ]} true 0.
Definition ref_revoked (w : RefIdp) : RefIdp := mkRefIdp (ri_jwts w) ∅ (ri_up w) (ri_requests w).

Definition ref_query (auth : string) : gin_Context :=
  fresh_Context (mkRequest "GET" (mkURL "" "" "/api/prom/api/v1/query" "") "HTTP/1.1"
                   {[ "Authorization" := [auth] ]} "opni" "10.0.0.1" "/api/prom/api/v1/query" "").

(** The middleware as [New] leaves it and as the goroutine configures it. *)
Definition ref_new : OpenidMiddleware string :=
  mkOpenidMiddleware (mkOpenidConfig (Some (mkDiscovery None "https://idp" None)) None "sub") None None.
Definition ref_configured : OpenidMiddleware string :=
  let conf := mkOpenidConfig (Some (mkDiscovery None "https://idp" None)) (Some ref_wk) "sub" in
  mkOpenidMiddleware conf (Some ref_wk) (Some (mkUserInfoCache DefaultClient ∅ ∅ conf ref_wk)).
Definition ref_alice : UserInfo string := mkUserInfo {[ "sub" := "alice" ]} "sub".
Definition ref_known : OpenidMiddleware string :=
  let conf := mkOpenidConfig (Some (mkDiscovery None "https://idp" None)) (Some ref_wk) "sub" in
  mkOpenidMiddleware conf (Some ref_wk)
    (Some (mkUserInfoCache DefaultClient {[ "t1" := ref_alice ]} {[ "alice" := "t1" ]} conf ref_wk)).

Example ref_configures :
  tryConfigureKeyRefresher None 1 ref_new ref_world =
  (mkRefIdp ∅ {[ "t1" := "alice" ]} true 1, Ok ref_configured).
Proof. vm_compute. reflexivity. Qed.

(** The second answer comes from the cache, although the provider has revoked the
    token in between. *)
Lemma ref_handles (w : RefIdp) :
  ri_jwts w = ∅ -> ri_subjects w = {[ "t1" := "alice" ]} -> ri_up w = true ->
  openid_Handle (ref_query "Bearer t1") (ref_configured, w) =
  ((ref_known, mkRefIdp ∅ {[ "t1" := "alice" ]} true (S (ri_requests w))),
   Ok (set_UserID "alice" (ref_query "Bearer t1"))).
Proof. destruct w as [j s u n]; cbn. intros -> -> ->. vm_compute. reflexivity. Qed.

Definition ref_history : list (gin_Context * RefIdp) :=
  [(ref_query "Bearer t1", mkRefIdp ∅ {[ "t1" := "alice" ]} true 1)].

Lemma ref_run :
  om_run ref_conf ref_history ref_known
    (ref_revoked (mkRefIdp ∅ {[ "t1" := "alice" ]} true 2)).
Proof.
  eapply run_world. eapply run_Handle; [|apply ref_handles; reflexivity].
  eapply (run_configure _ _ ref_new); [by apply (run_New _ ref_new)|reflexivity|apply ref_configures].
Qed.

Definition ref_again : RefIdp := ref_revoked (mkRefIdp ∅ {[ "t1" := "alice" ]} true 2).

Example ref_revoked_token_passes :
  openid_Handle (ref_query "Bearer t1") (ref_known, ref_again) =
  ((ref_known, ref_again), Ok (set_UserID "alice" (ref_query "Bearer t1"))).
Proof. vm_compute. reflexivity. Qed.

Lemma openid_user_is_authenticated_witness :
  exists c0 w0 raw v,
    (c0, w0) ∈ [(ref_query "Bearer t1", ref_again); (ref_query "Bearer t1", mkRefIdp ∅ {[ "t1" := "alice" ]} true 1)] /\
    token_of c0 = "t1" /\ endpoint_answers ref_known c0 w0 raw /\
    raw !! "sub" = Some v /\ "alice" = fmt_Sprint v.
Proof.
  destruct (openid_user_is_authenticated ref_conf _ ref_known ref_again (ref_query "Bearer t1") ref_known
              ref_again (set_UserID "alice" (ref_query "Bearer t1")) ref_run eq_refl eq_refl
              ref_revoked_token_passes)
    as [(Ha & _)|(user & _ & Hu & _ & [Hv|(c0 & w0 & raw & v & Hin & Ht & He & Hr & Hv)])].
  - discriminate Ha.
  - destruct Hv as (wk & set & claims & v & w1 & w2 & w3 & _ & [= <- <-] & Hty & _). discriminate Hty.
  - injection Hu as <-. exists c0, w0, raw, v. split; [exact Hin|]. split; [exact Ht|].
    split; [exact He|]. split; [exact Hr|exact Hv].
Defined.

(** Alice is accepted with a second token of hers, which replaces the first. *)
Definition ref_two_tokens (n : nat) : RefIdp := mkRefIdp ∅ {[ "t1" := "alice"; "t2" := "alice" ]} true n.
Definition ref_renewed : OpenidMiddleware string :=
  (openid_Handle (ref_query "Bearer t2") (ref_known, ref_two_tokens 2)).1.1.

Lemma ref_log : om_log ref_conf [("alice", "t2"); ("alice", "t1")] ref_renewed (ref_two_tokens 3).
Proof.
  change [("alice", "t2"); ("alice", "t1")] with
    (log_entry ref_known (ref_query "Bearer t2") (ref_two_tokens 2) (set_UserID "alice" (ref_query "Bearer t2")) ++
     log_entry ref_configured (ref_query "Bearer t1") (mkRefIdp ∅ {[ "t1" := "alice" ]} true 1)
       (set_UserID "alice" (ref_query "Bearer t1")) ++ [])%list.
  eapply log_Handle; [|reflexivity|vm_compute; reflexivity]. eapply log_world.
  eapply log_Handle; [|reflexivity|apply ref_handles; reflexivity].
  eapply (log_configure _ _ ref_new); [by apply (log_New _ ref_new)|reflexivity|apply ref_configures].
Qed.

Lemma openid_one_token_per_user_witness :
  exists cache, om_cache ref_renewed = Some cache /\ uc_knownUsers cache !! "alice" = Some "t2" /\
    forall info, uc_cache cache !! "t1" = Some info -> UserID info <> Ok "alice".
Proof.
  destruct (om_cache ref_renewed) as [cache|] eqn:E; [|vm_compute in E; discriminate E].
  exists cache. split; [reflexivity|].
  destruct (openid_one_token_per_user ref_conf _ ref_renewed _ cache ref_log E) as (Hk & Hc & _).
  split; [rewrite Hk; vm_compute; reflexivity|]. intros info Hi Hu.
  assert (Hl : (list_to_map [("alice", "t2"); ("alice", "t1")] : gmap string string) !! "alice" = Some "t1")
    by (apply Hc; eauto).
  vm_compute in Hl. discriminate Hl.
Defined.

(** The same two middlewares share one discovery; the one that joined the flight asks
    the provider again to build its cache, and panics when that fails. *)
Example joined_flight_panics :
  tryConfigureKeyRefresher (Some ref_wk) 1 ref_new (mkRefIdp ∅ ∅ false 0) =
  (mkRefIdp ∅ ∅ false 1, Panic "failed to create user info cache").
Proof. vm_compute. reflexivity. Qed.

(** An ID token that has expired is taken for an access token and sent to the
    provider. *)
Example expired_id_token_is_forwarded (w : RefIdp) :
  ri_jwts w = ∅ -> ri_up w = true -> ri_subjects w = ∅ ->
  (openid_Handle (ref_query "Bearer eyJ") (ref_configured, w)).1.2 =
  mkRefIdp ∅ ∅ true (S (ri_requests w)).
Proof. destruct w as [j s u n]; cbn. intros -> -> ->. vm_compute. reflexivity. Qed.

(** A request is answered 503 before the configuration has been found. *)
Example not_ready :
  openid_Handle (ref_query "Bearer t1") (ref_new, ref_world) =
  ((ref_new, ref_world), Ok (AbortWithStatus StatusServiceUnavailable (ref_query "Bearer t1"))).
Proof. reflexivity. Qed.

(** The strategy that denies everything sets a status but does not stop the chain. *)
Example deny_all_does_not_abort (c : gin_Context) :
  gc_Aborted c = false ->
  exists c', Test_Handle AuthStrategyDenyAll c ref_world = (ref_world, Ok c') /\ gc_Aborted c' = false.
Proof. intros Hc. by eexists. Qed.
