(* ===== verification/Rbac.v ===== *)
(** pkg/storage/rbac_provider.go (which clusters a subject may access) and
    pkg/rbac (the HTTP middleware that enforces it). *)

From S2P Require Import Prelude GoStd Validation CoreV1 Storage Http.
From Stdlib Require Import Ascii.

Local Open Scope string_scope.

(** ** The provider *)

(** The interface [SubjectAccessCapableStore]. *)
Class SubjectAccessCapableStore (W : Type) := {
  sas_ListClusters : option LabelSelector -> MatchOptions -> M W (list Cluster);
  sas_GetRole : Reference -> M W Role;
  sas_ListRoleBindings : M W (list RoleBinding) }.

Section Provider.
Context {W : Type} `{SubjectAccessCapableStore W}.

(** One iteration of the loop over the role bindings; a binding that does not
    name the subject, is tainted, or whose role cannot be read is skipped. *)
Definition binding_access (subject : string) (rb : RoleBinding) (allowed : gset string)
  : M W (gset string) :=
  let appliesToUser := existsb (fun s => bool_decide (s = subject)) (rb_Subjects rb) in
  if negb appliesToUser then wret allowed
  else if (0 <? length (rb_Taints rb))%nat then wret allowed
  else fun w =>
    match sas_GetRole (RoleReference rb) w with
    | (w', Err _) => (w', Ok allowed)
    | (w', Panic p) => (w', Panic p)
    | (w', Ok role) =>
        (let! filteredList :=
           wrapf "failed to list clusters"
             (sas_ListClusters (role_MatchLabels role) MatchOptions_EmptySelectorMatchesNone) in
         wret (list_to_set (cl_Id <$> filteredList) ∪
               (list_to_set (role_ClusterIDs role) ∪ allowed))) w'
    end.

Fixpoint bindings_access (subject : string) (rbs : list RoleBinding) (allowed : gset string)
  : M W (gset string) :=
  match rbs with
  | [] => wret allowed
  | rb :: rbs =>
      let! allowed := binding_access subject rb allowed in
      bindings_access subject rbs allowed
  end.

(** The keys of the set are distinct, so sorting them by id does not depend on
    the order in which the map yields them. *)
Definition SubjectAccess (req : SubjectAccessRequest) : M W (list Reference) :=
  let! rbs := wrapf "failed to list role bindings" sas_ListRoleBindings in
  let! allowedClusters := bindings_access (sar_Subject req) rbs ∅ in
  wret (mkReference <$> merge_sort String.le (elements allowedClusters)).
End Provider.

(** ** The middleware *)

(** The interface [HeaderCodec]. *)
Class HeaderCodec := {
  codec_Key : string;
  codec_Encode : list string -> string;
  codec_Decode : string -> list string }.

(** pkg/util/codecs.go: the codec used for the tenant header, for a delimiter of
    one byte. *)
Record DelimiterCodec := mkDelimiterCodec { dc_key : string; dc_delimiter : ascii }.

Definition DelimiterCodec_Encode (d : DelimiterCodec) (ids : list string) : string :=
  Join (String (dc_delimiter d) "") (TrimSpace <$> filter (fun id => id <> "") ids).

Definition DelimiterCodec_Decode (d : DelimiterCodec) (s : string) : list string :=
  TrimSpace <$> Split (dc_delimiter d) s.

#[export] Instance NewDelimiterCodec (d : DelimiterCodec) : HeaderCodec := {|
  codec_Key := dc_key d;
  codec_Encode := DelimiterCodec_Encode d;
  codec_Decode := DelimiterCodec_Decode d |}.

Section Middleware.
Context {W : Type} `{HeaderCodec}.
(** The interface [Provider]. *)
Variable provider : SubjectAccessRequest -> M W (list Reference).

Definition Handle : Handler W := fun c w =>
  match gc_UserID c with
  | None => (w, Ok (AbortWithStatus StatusUnauthorized c))
  | Some userID =>
      match provider (mkSubjectAccessRequest userID) w with
      | (w', Err _) => (w', Ok (AbortWithStatus StatusUnauthorized c))
      | (w', Panic p) => (w', Panic p)
      | (w', Ok clusters) =>
          if decide (clusters = []) then (w', Ok (AbortWithStatus StatusUnauthorized c))
          else
            let ids := ref_Id <$> clusters in
            (w', Ok (set_AuthorizedClusterIDs ids
                       (with_Request (rq_set_Header (Header_Set codec_Key (codec_Encode ids))) c)))
      end
  end.

Definition AuthorizedClusterIDs (c : gin_Context) : list string :=
  default [] (gc_AuthorizedClusterIDs c).
End Middleware.

(** ** Properties *)

Section AccessSpec.
Context {W : Type} `{SubjectAccessCapableStore W}.

(** A store that answers the three queries from a fixed snapshot. *)
Record Snapshot := mkSnapshot {
  sn_bindings : list RoleBinding;
  sn_role : Reference -> outcome Role;
  sn_clusters : option LabelSelector -> MatchOptions -> list Cluster }.

Definition answers (w : W) (sn : Snapshot) : Prop :=
  sas_ListRoleBindings w = (w, Ok (sn_bindings sn)) /\
  (forall r, sas_GetRole r w = (w, sn_role sn r) /\ no_panic (sn_role sn r) = true) /\
  (forall ls o, sas_ListClusters ls o w = (w, Ok (sn_clusters sn ls o))).

(** What a role grants: the clusters it names and those its selector matches. *)
Definition role_grants (sn : Snapshot) (role : Role) (id : string) : Prop :=
  id ∈ role_ClusterIDs role \/
  exists c, c ∈ sn_clusters sn (role_MatchLabels role) MatchOptions_EmptySelectorMatchesNone /\
            cl_Id c = id.

(** The access rule: some untainted binding names the subject, and its role
    exists and grants the cluster. *)
Definition may_access (sn : Snapshot) (subject id : string) : Prop :=
  exists rb role, rb ∈ sn_bindings sn /\ subject ∈ rb_Subjects rb /\ rb_Taints rb = [] /\
    sn_role sn (RoleReference rb) = Ok role /\ role_grants sn role id.

Definition binding_grants (sn : Snapshot) (subject : string) (rb : RoleBinding) (id : string) : Prop :=
  subject ∈ rb_Subjects rb /\ rb_Taints rb = [] /\
  exists role, sn_role sn (RoleReference rb) = Ok role /\ role_grants sn role id.

Lemma binding_access_spec w sn subject rb allowed :
  answers w sn ->
  exists allowed', binding_access subject rb allowed w = (w, Ok allowed') /\
    forall id, id ∈ allowed' <-> id ∈ allowed \/ binding_grants sn subject rb id.
Proof.
  intros (_ & Hrole & Hcl). unfold binding_access, binding_grants.
  destruct (existsb _ _) eqn:Hs; cbn.
  2: { exists allowed. split; [done|]. intros id. split; [auto|]. intros [?|(Hin & _)]; [done|].
       assert (existsb (fun s => bool_decide (s = subject)) (rb_Subjects rb) = true); [|congruence].
       apply existsb_elem. exists subject. split; [done|]. by apply bool_decide_eq_true. }
  apply existsb_elem in Hs as (s & Hs & ->%bool_decide_eq_true).
  destruct (rb_Taints rb) as [|t ts]; cbn.
  2: { exists allowed. split; [done|]. naive_solver. }
  destruct (Hrole (RoleReference rb)) as [-> Hnp].
  destruct (sn_role sn (RoleReference rb)) as [role|e|p] eqn:Er; [| |done].
  - unfold wrapf, wcatch, wbind, wret. rewrite Hcl.
    eexists. split; [done|]. intros id. unfold role_grants.
    rewrite !elem_of_union, !elem_of_list_to_set, list_elem_of_fmap. naive_solver.
  - exists allowed. split; [done|]. naive_solver.
Qed.

Lemma bindings_access_spec w sn subject rbs : forall allowed,
  answers w sn ->
  exists allowed', bindings_access subject rbs allowed w = (w, Ok allowed') /\
    forall id, id ∈ allowed' <->
      id ∈ allowed \/ exists rb, rb ∈ rbs /\ binding_grants sn subject rb id.
Proof.
  induction rbs as [|rb rbs IH]; intros allowed Hw; cbn.
  - exists allowed. split; [done|]. set_solver.
  - destruct (binding_access_spec w sn subject rb allowed Hw) as (a1 & E1 & H1).
    destruct (IH a1 Hw) as (a2 & E2 & H2).
    exists a2. split; [by rewrite (wbind_eq_Ok _ _ _ _ _ E1)|].
    intros id. rewrite H2, H1. set_solver.
Qed.

Lemma mkReference_sorted (a : gset string) id :
  mkReference id ∈ mkReference <$> merge_sort String.le (elements a) <-> id ∈ a.
Proof.
  rewrite list_elem_of_fmap, <- elem_of_elements. setoid_rewrite merge_sort_Permutation.
  naive_solver.
Qed.

Lemma ref_Id_mkReference (l : list string) : ref_Id <$> (mkReference <$> l) = l.
Proof. rewrite <- list_fmap_compose. apply list_fmap_id. Qed.

Lemma SubjectAccess_total (w : W) (sn : Snapshot) (subject : string) :
  answers w sn ->
  exists refs, SubjectAccess (mkSubjectAccessRequest subject) w = (w, Ok refs) /\
    (forall id, mkReference id ∈ refs <-> may_access sn subject id) /\
    NoDup refs /\ StronglySorted String.le (ref_Id <$> refs).
Proof.
  intros Hw. pose proof Hw as (Hrb & _).
  destruct (bindings_access_spec w sn subject (sn_bindings sn) ∅ Hw) as (a & E & Ha).
  exists (mkReference <$> merge_sort String.le (elements a)). split; [|split; [|split]].
  - unfold SubjectAccess. rewrite (wbind_eq_Ok _ _ _ w (sn_bindings sn)) by (by apply wrapf_Ok).
    cbn [sar_Subject]. by rewrite (wbind_eq_Ok _ _ _ _ _ E).
  - intros id. rewrite mkReference_sorted, Ha. unfold may_access, binding_grants. set_solver.
  - apply NoDup_fmap_2; [intros ?? [=]; done|].
    rewrite merge_sort_Permutation. apply NoDup_elements.
  - rewrite ref_Id_mkReference. apply StronglySorted_merge_sort; apply _.
Qed.

(** C1: on any snapshot of the store, SubjectAccess succeeds and returns exactly
    the clusters the access rule grants (untainted bindings naming the subject,
    through existing roles, by id or by label selector), each once and in
    ascending order of id. *)
Theorem SubjectAccess_correct (w : W) (sn : Snapshot) (subject : string) :
  answers w sn ->
  exists refs, SubjectAccess (mkSubjectAccessRequest subject) w = (w, Ok refs) /\
    (forall id, mkReference id ∈ refs <-> may_access sn subject id) /\
    NoDup refs /\ StronglySorted String.le (ref_Id <$> refs).
Proof. apply SubjectAccess_total. Qed.
End AccessSpec.

(** A concrete store: role bindings, roles by id, and clusters selected with
    [NewSelectorPredicate], as the backends do. *)
Record MemStore := mkMemStore {
  ms_bindings : list RoleBinding;
  ms_roles : gmap string Role;
  ms_clusters : list Cluster }.

Definition mem_select (m : MemStore) (ls : option LabelSelector) (o : MatchOptions) : list Cluster :=
  filter (fun c => NewSelectorPredicate (mkClusterSelector [] ls o) c = true) (ms_clusters m).

Definition mem_role (m : MemStore) (r : Reference) : outcome Role :=
  match ms_roles m !! ref_Id r with Some role => Ok role | None => Err ErrNotFound end.

#[export] Instance MemStore_sas : SubjectAccessCapableStore MemStore := {|
  sas_ListClusters ls o := fun m => (m, Ok (mem_select m ls o));
  sas_GetRole r := fun m => (m, mem_role m r);
  sas_ListRoleBindings := fun m => (m, Ok (ms_bindings m)) |}.

Definition mem_snapshot (m : MemStore) : Snapshot :=
  mkSnapshot (ms_bindings m) (mem_role m) (mem_select m).

Lemma mem_answers (m : MemStore) : answers m (mem_snapshot m).
Proof.
  split; [done|]. split; [|done]. intros r. split; [done|]. cbn. unfold mem_role.
  by destruct (_ !! _).
Qed.

Definition demo_store : MemStore :=
  mkMemStore
    [mkRoleBinding "rb" "r" ["alice"] []; mkRoleBinding "rb2" "r2" ["alice"] ["role not found"]]
    {[ "r" := mkRole "r" ["c2"] (Some (mkLabelSelector {[ "env" := "prod" ]} [])) ]}
    [mkCluster "c1" (Some (mkClusterMetadata {[ "env" := "prod" ]} [] "" None None));
     mkCluster "c3" None].

Lemma SubjectAccess_correct_witness :
  exists refs, SubjectAccess (mkSubjectAccessRequest "alice") demo_store = (demo_store, Ok refs) /\
    (forall id, mkReference id ∈ refs <-> may_access (mem_snapshot demo_store) "alice" id) /\
    NoDup refs /\ StronglySorted String.le (ref_Id <$> refs).
Proof. apply SubjectAccess_correct. apply mem_answers. Defined.

Example SubjectAccess_demo :
  SubjectAccess (mkSubjectAccessRequest "alice") demo_store =
  (demo_store, Ok [mkReference "c1"; mkReference "c2"]).
Proof. vm_compute. reflexivity. Qed.

(** A role without a selector grants exactly the clusters it names. *)
Lemma empty_selector_grants (m : MemStore) (role : Role) (id : string) :
  IsEmpty (role_MatchLabels role) = true ->
  role_grants (mem_snapshot m) role id <-> id ∈ role_ClusterIDs role.
Proof.
  intros He. unfold role_grants. split; [|auto]. intros [?|(c & Hc & _)]; [done|].
  cbn in Hc. unfold mem_select, NewSelectorPredicate in Hc. cbn in Hc. rewrite He in Hc. cbn in Hc.
  by apply list_elem_of_filter in Hc as [? _].
Qed.

Section Taints.
Context {W : Type} `{SubjectAccessCapableStore W}.

Lemma binding_access_tainted (w : W) subject rb rb' allowed :
  ApplyRoleBindingTaints sas_GetRole rb w = (w, Ok rb') ->
  binding_access subject rb allowed w = binding_access subject rb' allowed w.
Proof.
  intros Ht. destruct (ApplyRoleBindingTaints_inv _ _ _ _ _ Ht) as (_ & Hid & Hs & Hnt & Hok).
  unfold binding_access. rewrite Hs. destruct (existsb _ _) eqn:Hin; cbn; [|done].
  assert (rb_Subjects rb <> []) as Hne by (intros E; by rewrite E in Hin).
  assert (RoleReference rb' = RoleReference rb) as Href by (unfold RoleReference; by rewrite Hid).
  unfold ApplyRoleBindingTaints in Ht. rewrite Href.
  destruct (sas_GetRole (RoleReference rb) w) as [w1 [role|e|p]] eqn:Eg; [| |done].
  - rewrite decide_False in Ht by done. by simplify_eq.
  - destruct (errors_Is e ErrNotFound); [|done]. cbn in Ht.
    rewrite decide_False in Ht by done. simplify_eq. cbn.
    rewrite length_app, Nat.add_1_r. destruct (length (rb_Taints rb)); cbn; [by rewrite Eg|done].
Qed.

(** Tainting bindings does not change what a subject may access. The backend
    that stores no taints and the ones that add them when bindings are listed
    grant the same clusters, because a tainted binding would be skipped anyway. *)
Lemma taints_do_not_change_access (w : W) (subject : string) (rbs rbs' : list RoleBinding) :
  Forall2 (fun rb rb' => ApplyRoleBindingTaints sas_GetRole rb w = (w, Ok rb')) rbs rbs' ->
  forall (sn : Snapshot), answers w sn ->
  forall allowed, bindings_access subject rbs allowed w = bindings_access subject rbs' allowed w.
Proof.
  induction 1 as [|rb rb' rbs rbs' Ht _ IH]; intros sn Hw allowed; [done|]. cbn.
  pose proof (binding_access_tainted w subject rb rb' allowed Ht) as E.
  destruct (binding_access_spec w sn subject rb allowed Hw) as (a & Ea & _).
  rewrite (wbind_eq_Ok _ _ _ _ _ Ea). rewrite E in Ea. rewrite (wbind_eq_Ok _ _ _ _ _ Ea).
  by eapply IH.
Qed.
End Taints.

(** The middleware lets a request through only for an authenticated user with
    access to at least one cluster, and then attaches exactly that user's clusters;
    every other request is answered 401 with its context otherwise unchanged. *)
Lemma Handle_enforces_access {W : Type} `{SubjectAccessCapableStore W} `{HeaderCodec}
    (w : W) (sn : Snapshot) (c : gin_Context) :
  answers w sn -> gc_Aborted c = false ->
  exists c', Handle SubjectAccess c w = (w, Ok c') /\
    match gc_UserID c with
    | Some user =>
        (gc_Aborted c' = false /\
         gc_Header c' = Header_Set codec_Key (codec_Encode (AuthorizedClusterIDs c')) (gc_Header c) /\
         AuthorizedClusterIDs c' <> [] /\
         (forall id, id ∈ AuthorizedClusterIDs c' <-> may_access sn user id)) \/
        (c' = AbortWithStatus StatusUnauthorized c /\ forall id, ~ may_access sn user id)
    | None => c' = AbortWithStatus StatusUnauthorized c
    end.
Proof.
  intros Hw Hna. unfold Handle. destruct (gc_UserID c) as [user|]; [|by eexists].
  destruct (SubjectAccess_total w sn user Hw) as (refs & E & Hin & _). rewrite E.
  case_decide as Hr.
  - eexists. split; [done|]. right. split; [done|]. intros id. rewrite <- Hin, Hr. set_solver.
  - eexists. split; [done|]. left. unfold AuthorizedClusterIDs. cbn. split; [done|]. split; [done|].
    split; [by destruct refs|]. intros id. rewrite <- Hin, list_elem_of_fmap. split.
    + by intros ([?] & -> & ?).
    + intros ?. by exists (mkReference id).
Qed.

Definition demo_request : Request := mkRequest "GET" (mkURL "" "" "/api/prom/api/v1/query" "") "HTTP/1.1" ∅ "opni" "10.0.0.1" "/api/prom/api/v1/query" "".

Definition orgIDCodec : DelimiterCodec := mkDelimiterCodec "X-Scope-OrgID" "|"%char.

Lemma valid_id_graph id : ValidateID id = Ok tt -> str_all is_graph id = true.
Proof.
  unfold ValidateID, idRegex. destruct (str_all _ id) eqn:Hc; [|done]. intros _.
  eapply str_all_impl; [|exact Hc]. clear. intros [[] [] [] [] [] [] [] []]; vm_compute; done.
Qed.

Lemma valid_id_no_pipe id : ValidateID id = Ok tt -> no_char "|"%char id = true.
Proof.
  unfold ValidateID, idRegex. destruct (str_all _ id) eqn:Hc; [|done]. intros _.
  eapply str_all_impl; [|exact Hc]. clear. intros [[] [] [] [] [] [] [] []]; vm_compute; done.
Qed.

Lemma valid_ids_fixed ids :
  Forall (fun id => ValidateID id = Ok tt) ids ->
  filter (fun id => id <> "") ids = ids /\ TrimSpace <$> ids = ids.
Proof.
  induction 1 as [|id ids Hid _ [IH1 IH2]]; [done|]. split.
  - rewrite filter_cons_True; [by rewrite IH1|]. intros ->. by vm_compute in Hid.
  - rewrite fmap_cons, IH2. by rewrite TrimSpace_graph by (by apply valid_id_graph).
Qed.

(** The tenant header the middleware writes decodes to the very list of cluster
    ids it was built from, for any non-empty list of valid ids. *)
Lemma orgIDCodec_roundtrip (ids : list string) :
  ids <> [] -> Forall (fun id => ValidateID id = Ok tt) ids ->
  DelimiterCodec_Decode orgIDCodec (DelimiterCodec_Encode orgIDCodec ids) = ids.
Proof.
  intros Hne Hids. destruct (valid_ids_fixed ids Hids) as [Hf Ht].
  unfold DelimiterCodec_Decode, DelimiterCodec_Encode. rewrite Hf, Ht. cbn [orgIDCodec dc_delimiter].
  rewrite Split_Join; [done|done|]. eapply Forall_impl; [apply valid_id_no_pipe | exact Hids].
Qed.
