(* ===== verification/CortexHttp.v ===== *)
(** plugins/metrics/pkg/cortex: the HTTP API of the metrics plugin (its routes, the
    tenant limiter, the rule aggregator), the remote-write forwarder, the requests to
    the purger that delete a tenant, and the administration server with the messages
    of plugins/metrics/pkg/apis/cortexadmin. *)

From S2P Require Import Prelude GoStd CoreV1 Storage Http Rbac OpenId.
From Stdlib Require Import Ascii.

Local Open Scope string_scope.

(** codec.go: the tenant header is [Rbac.orgIDCodec]. *)
#[local] Instance orgID : HeaderCodec := NewDelimiterCodec orgIDCodec.

(** ** api.go *)

(** [orgIdLimiter]. *)
Definition orgIdLimiter {W} : Handler W := fun c =>
  let ids := AuthorizedClusterIDs c in
  if (1 <? length ids)%nat then wret (gin_Header codec_Key (codec_Encode (take 1 ids)) c) else wret c.

(** The handlers a route may list. *)
Inductive HandlerName :=
| HAuth | HRBAC | HLimiter | HQueryFrontend | HAlertmanager | HRuler | HJsonAggregator | HYamlAggregator.

#[export] Instance HandlerName_eq_dec : EqDecision HandlerName.
Proof. solve_decision. Defined.

(** A registered route; no method stands for [router.Any]. *)
Record HttpRoute := mkRoute { rt_Method : option string; rt_Path : string; rt_Handlers : list HandlerName }.

Definition router_GET p hs := mkRoute (Some "GET") p hs.
Definition router_POST p hs := mkRoute (Some "POST") p hs.
Definition router_DELETE p hs := mkRoute (Some "DELETE") p hs.
Definition router_Any p hs := mkRoute None p hs.

Definition configureAlertmanager : list HttpRoute :=
  [router_Any "/api/prom/alertmanager" [HAuth; HRBAC; HLimiter; HAlertmanager];
   router_Any "/api/v1/alerts" [HAuth; HRBAC; HLimiter; HAlertmanager];
   router_Any "/multitenant_alertmanager" [HAuth; HRBAC; HLimiter; HAlertmanager]].

Definition configureRuler : list HttpRoute :=
  [router_GET "/prometheus/api/v1/rules" [HAuth; HRBAC; HJsonAggregator];
   router_GET "/api/prom/api/v1/rules" [HAuth; HRBAC; HJsonAggregator];
   router_GET "/prometheus/api/v1/alerts" [HAuth; HRBAC; HRuler];
   router_GET "/api/prom/api/v1/alerts" [HAuth; HRBAC; HRuler];
   router_Any "/api/v1/rules" [HAuth; HRBAC; HYamlAggregator];
   router_Any "/api/prom/rules" [HAuth; HRBAC; HYamlAggregator]].

(** A route of a group has the group's prefix and its handlers. *)
Definition in_group (prefix : string) (hs : list HandlerName) (r : HttpRoute) : HttpRoute :=
  mkRoute (rt_Method r) (prefix +:+ rt_Path r) (hs ++ rt_Handlers r)%list.

Definition query_routes : list HttpRoute :=
  [router_POST "/read" [HQueryFrontend];
   router_GET "/query" [HQueryFrontend]; router_POST "/query" [HQueryFrontend];
   router_GET "/query_range" [HQueryFrontend]; router_POST "/query_range" [HQueryFrontend];
   router_GET "/query_exemplars" [HQueryFrontend]; router_POST "/query_exemplars" [HQueryFrontend];
   router_GET "/labels" [HQueryFrontend]; router_POST "/labels" [HQueryFrontend];
   router_GET "/label/:name/values" [HQueryFrontend];
   router_GET "/series" [HQueryFrontend]; router_POST "/series" [HQueryFrontend];
   router_DELETE "/series" [HQueryFrontend];
   router_GET "/metadata" [HQueryFrontend]].

Definition configureQueryFrontend : list HttpRoute :=
  ((in_group "/prometheus/api/v1" [HAuth; HRBAC] <$> query_routes) ++
   (in_group "/api/prom/api/v1" [HAuth; HRBAC] <$> query_routes))%list.

(** [ConfigureRoutes] but for the logger, the recovery handler and the profiling
    endpoints, which do not lead to a backend. *)
Definition ConfigureRoutes : list HttpRoute :=
  (router_GET "/ready" [HQueryFrontend] :: configureAlertmanager ++ configureRuler ++ configureQueryFrontend)%list.

(** ** aggregation.go *)

Inductive DataFormat := NamespaceKeyedYAML | PrometheusRuleGroupsJSON.

Record rawPromJSONData := mkRawPromJSONData { rp_Status : string; rp_Groups : list string }.

Section Aggregator.
Context {W : Type} `{HttpEnv W}.
(** The client for Cortex, the decoders of a body for each content encoding (the
    gzip reader of a body that is not gzip is a nil pointer), and the JSON decoder. *)
Variable cortexClient : http_Client.
Variables gunzip unbrotli inflate : Response -> outcome string.
Variable json_groups : string -> outcome rawPromJSONData.

(** Where one iteration of the loop leaves the handler. *)
Inductive agg_step := agg_continue (c : gin_Context) (buf : string) (groupCount : nat) | agg_return (c : gin_Context).

Definition buf_header (format : DataFormat) : string :=
  match format with
  | NamespaceKeyedYAML => "---" +:+ String (chr 10) ""
  | PrometheusRuleGroupsJSON => "{" +:+ String (chr 34) "status" +:+ String (chr 34) ":" +:+ String (chr 34) "success" +:+
      String (chr 34) "," +:+ String (chr 34) "data" +:+ String (chr 34) ":{" +:+ String (chr 34) "groups" +:+ String (chr 34) ":["
  end.

Definition buf_footer : string :=
  "]}," +:+ String (chr 34) "errorType" +:+ String (chr 34) ":" +:+ String (chr 34) (String (chr 34) ",") +:+
  String (chr 34) "error" +:+ String (chr 34) ":" +:+ String (chr 34) (String (chr 34) "}").

Fixpoint write_groups (groups : list string) (buf : string) (groupCount : nat) : string * nat :=
  match groups with
  | [] => (buf, groupCount)
  | group :: groups =>
      let buf := if (0 <? groupCount)%nat then buf +:+ "," else buf in
      write_groups groups (buf +:+ group) (S groupCount)
  end.

(** The copy of the context shares the request, so the header is set on the request
    of [c] itself, and its body has been read once the request was sent. *)
Definition tenant_request (id : string) (c : gin_Context) : gin_Context :=
  with_Request (rq_set_Header (Header_Set codec_Key (codec_Encode [id]))) c.
Definition drained (c : gin_Context) : gin_Context :=
  with_Request (fun r => mkRequest (rq_Method r) (rq_URL r) (rq_Proto r) (rq_Header r) (rq_Host r)
                           (rq_RemoteIP r) (rq_RequestURI r) "") c.

(** The body reader; the encoding is looked up in the headers of the request. *)
Definition read_body (c : gin_Context) (resp : Response) : outcome (option string) :=
  let encoding := Header_Get "Content-Encoding" (gc_Header c) in
  if decide (encoding = "gzip") then let? b := gunzip resp in Ok (Some b)
  else if decide (encoding = "brotli") then let? b := unbrotli resp in Ok (Some b)
  else if decide (encoding = "deflate") then let? b := inflate resp in Ok (Some b)
  else if decide (encoding = "") then let? b := ReadAll resp in Ok (Some b)
  else Ok None.

Definition append_body (format : DataFormat) (body : string) (c : gin_Context) (buf : string) (groupCount : nat)
  : outcome agg_step :=
  match format with
  | NamespaceKeyedYAML => Ok (agg_continue c (buf +:+ body) groupCount)
  | PrometheusRuleGroupsJSON =>
      match json_groups body with
      | Ok rawData =>
          if decide (rp_Status rawData = "success") then
            let (buf, groupCount) := write_groups (rp_Groups rawData) buf groupCount in
            Ok (agg_continue c buf groupCount)
          else Ok (agg_continue c buf groupCount)
      | Err err =>
          Ok (agg_return (AbortWithError StatusInternalServerError (Wrapped "error parsing cortex response" err) c))
      | Panic p => Panic p
      end
  end.

Definition aggregate_one (format : DataFormat) (id : string) (c : gin_Context) (buf : string) (groupCount : nat)
  : M W agg_step := fun w =>
  let c := tenant_request id c in
  match http_Do cortexClient (gc_Request c) w with
  | (w', Err err) => (w', Ok (agg_return (AbortWithError StatusInternalServerError err (drained c))))
  | (w', Panic p) => (w', Panic p)
  | (w', Ok resp) =>
      let c := drained c in
      if negb (rs_StatusCode resp =? StatusOK)%Z then
        if (rs_StatusCode resp =? StatusNotFound)%Z then (w', Ok (agg_continue c buf groupCount))
        else (w', Ok (agg_return c))
      else
        match read_body c resp with
        | Ok (Some body) => (w', append_body format body c buf groupCount)
        | Ok None => (w', Ok (agg_return (AbortWithError StatusBadRequest (ErrorString "unsupported Content-Encoding") c)))
        | Err err => (w', Ok (agg_return (AbortWithError StatusInternalServerError err c)))
        | Panic p => (w', Panic p)
        end
  end.

Fixpoint aggregate_all (format : DataFormat) (ids : list string) (c : gin_Context) (buf : string) (groupCount : nat)
  : M W agg_step :=
  match ids with
  | [] => wret (agg_continue c buf groupCount)
  | id :: ids =>
      let! r := aggregate_one format id c buf groupCount in
      match r with
      | agg_continue c buf groupCount => aggregate_all format ids c buf groupCount
      | agg_return c => wret (agg_return c)
      end
  end.

Definition Aggregator_Handle (format : DataFormat) : Handler W := fun c =>
  let! r := aggregate_all format (AuthorizedClusterIDs c) c (buf_header format) 0 in
  match r with
  | agg_return c => wret c
  | agg_continue c buf _ =>
      match format with
      | NamespaceKeyedYAML => wret (gin_Data StatusOK "application/yaml" buf c)
      | PrometheusRuleGroupsJSON => wret (gin_Data StatusOK "application/json" (buf +:+ buf_footer) c)
      end
  end.
End Aggregator.

(** ** remotewrite.go *)

Record Payload := mkPayload { pl_Contents : string; pl_Headers : gmap string string }.

(** [codes.Code(n)] for a number that is no gRPC code. *)
Definition http_status_error (code : Z) (msg : string) : error :=
  External ("status " +:+ Sprint code +:+ ": " +:+ msg).

Section RemoteWrite.
Context {W : Type} `{HttpEnv W}.
Variable cortexClient : http_Client.
(** The addresses of the distributor, the ruler and the purger. *)
Variables distributor ruler purger : string.
(** [user.InjectOrgIDIntoHTTPRequest]. *)
Variable InjectOrgID : string -> Request -> outcome Request.

Definition add_headers (h : gmap string string) (r : Request) : Request :=
  fold_left (fun r (kv : string * string) => rq_set_Header (Header_Add kv.1 kv.2) r) (map_to_list h) r.

(** The request both calls build for the cluster. *)
Definition tenant_post (url clusterId : string) (payload : Payload) : outcome Request :=
  let? req := http_NewRequest "POST" url (pl_Contents payload) in
  let? req := InjectOrgID clusterId req in
  Ok (add_headers (pl_Headers payload) req).

(** [clusterId] is what [cluster.AuthorizedIDFromIncomingContext] finds. *)
Definition Push (initialized : bool) (clusterId : option string) (payload : Payload) : M W unit :=
  if negb initialized then wfail (StatusError codes_Unavailable "")
  else match clusterId with
  | None => wfail (StatusError codes_Unauthenticated "no cluster ID found in context")
  | Some clusterId =>
      let! req := wlift (tenant_post ("https://" +:+ distributor +:+ "/api/v1/push") clusterId payload) in
      let! resp := wcatch (http_Do cortexClient req)
                     (fun _ => wfail (StatusError codes_Internal "error pushing metrics to cortex")) in
      if negb (rs_StatusCode resp =? StatusOK)%Z
      then wfail (http_status_error (rs_StatusCode resp) (rs_Body resp))
      else wret tt
  end.

Definition SyncRules (initialized : bool) (clusterId : option string) (payload : Payload) : M W unit :=
  if negb initialized then wfail (StatusError codes_Unavailable "")
  else match clusterId with
  | None => wfail (StatusError codes_Unauthenticated "no cluster ID found in context")
  | Some clusterId =>
      let! req := wlift (tenant_post ("https://" +:+ ruler +:+ "/api/v1/rules/synced") clusterId payload) in
      let! resp := http_Do cortexClient req in
      if negb (Z.quot (rs_StatusCode resp) 100 =? 2)%Z
      then wfail (StatusError codes_Internal ("failed to sync rules: " +:+ rs_Status resp))
      else wret tt
  end.

(** ** uninstall.go *)

Definition purger_request (method path clusterId : string) : outcome Request :=
  let? req := http_NewRequest method ("https://" +:+ purger +:+ path) "" in
  Ok (rq_set_Header (Header_Set codec_Key (codec_Encode [clusterId])) req).

Definition purger_deleteTenant (clusterId : string) : M W unit :=
  let! deleteReq := wlift (purger_request "POST" "/purger/delete_tenant" clusterId) in
  let! resp := http_Do cortexClient deleteReq in
  if (rs_StatusCode resp =? StatusOK)%Z then wret tt
  else if (rs_StatusCode resp =? StatusInternalServerError)%Z
  then wfail (StatusError codes_Internal ("cortex internal server error: " +:+ rs_Body resp))
  else wfail (StatusError codes_Internal ("unexpected response from cortex: " +:+ rs_Body resp)).

(** Decoding [purger.DeleteTenantStatusResponse]; only [BlocksDeleted] is used. *)
Variable json_BlocksDeleted : Response -> outcome bool.

Definition purger_tenantDeleteStatus (clusterId : string) : M W bool :=
  let! statusReq := wlift (purger_request "GET" "/purger/delete_tenant_status" clusterId) in
  let! resp := http_Do cortexClient statusReq in
  if (rs_StatusCode resp =? StatusOK)%Z then wlift (json_BlocksDeleted resp)
  else wfail (StatusError codes_Internal ("cortex internal server error: " +:+ rs_Body resp)).
End RemoteWrite.

(** ** apis/cortexadmin/extensions.go *)

Record cxRule := mkCxRule { cxr_Name : string; cxr_Type : string; cxr_State : string; cxr_Health : string }.
Record cxRuleGroup := mkCxRuleGroup {
  cg_Name : string; cg_File : string; cg_ClusterId : string; cg_Rules : list cxRule }.

(** A rule group to load, or the name of one. *)
Record LoadRuleRequest := mkLoadRuleRequest { lrr_ClusterId : string; lrr_YamlContent : string; lrr_Namespace : string }.
Record RuleRequest := mkRuleRequest { rrq_ClusterId : string; rrq_Namespace : string; rrq_GroupName : string }.
Record ListRulesRequest := mkListRulesRequest {
  lsr_ClusterId : list string; lsr_RuleType : list string; lsr_HealthFilter : list string; lsr_StateFilter : list string;
  lsr_RuleNameRegexp : string; lsr_GroupNameRegexp : string; lsr_NamespaceRegexp : string;
  lsr_ListInvalid : option bool; lsr_RequestAll : option bool }.

(** Validation fills in the defaults of the request. *)
Definition LoadRuleRequest_Validate (r : LoadRuleRequest) : outcome LoadRuleRequest :=
  if decide (lrr_ClusterId r = "") then Err (ValidationError "clusterId is required")
  else if decide (lrr_YamlContent r = "") then Err (ValidationError "yamlContent is required")
  else Ok (mkLoadRuleRequest (lrr_ClusterId r) (lrr_YamlContent r)
             (if decide (lrr_Namespace r = "") then "default" else lrr_Namespace r)).

(** The methods of the get and delete requests, which no handler calls. *)
Definition RuleRequest_Validate (r : RuleRequest) : outcome RuleRequest :=
  if decide (rrq_ClusterId r = "") then Err (ValidationError "clusterId is required")
  else
    let r := mkRuleRequest (rrq_ClusterId r) (if decide (rrq_Namespace r = "") then "default" else rrq_Namespace r)
               (rrq_GroupName r) in
    if decide (rrq_GroupName r = "") then Err (ValidationError "groupName is required") else Ok r.

Section Filters.
Variable regexp_Compile : string -> bool.
Variable regexp_MatchString : string -> string -> bool.

Definition valid_regexp (what r : string) : outcome string :=
  if decide (r = "") then Ok ".*"
  else if regexp_Compile r then Ok r
  else Err (ValidationError ("invalid regex for " +:+ what +:+ " filter " +:+ r)).

(** Each value of a filter is set and one of the known ones. *)
Fixpoint valid_values (name : string) (known : list string) (unsupported : string -> string) (l : list string) : outcome unit :=
  match l with
  | [] => Ok tt
  | x :: l =>
      if decide (x = "") then Err (ValidationError (name +:+ " must be set"))
      else if bool_decide (x ∈ known) then valid_values name known unsupported l
      else Err (ValidationError (unsupported x))
  end.

(** The second message has one verb for its four arguments. *)
Definition unsupported_ruleType (x : string) : string :=
  "unsupported ruleType " +:+ x +:+ ", should be one of alerting, recording".
Definition unsupported_health (x : string) : string :=
  "unsupported healthFilter, should be one of : " +:+ x +:+ "%!(EXTRA string=ok, string=err, string=unknown)".
Definition unsupported_state (x : string) : string :=
  "unsupported stateFilter " +:+ x +:+ ", should be one of firing, pending, inactive".

Definition ListRulesRequest_Validate (l : ListRulesRequest) : outcome ListRulesRequest :=
  if (length (lsr_ClusterId l) =? 0)%nat then Err (ValidationError "at least one cluster id must be provided")
  else if bool_decide ("" ∈ lsr_ClusterId l) then Err (ValidationError "clusterId must be set")
  else
    let? group := valid_regexp "group" (lsr_GroupNameRegexp l) in
    let? name := valid_regexp "name" (lsr_RuleNameRegexp l) in
    let? namespace := valid_regexp "namespace" (lsr_NamespaceRegexp l) in
    valid_values "ruleType" ["alerting"; "recording"] unsupported_ruleType (lsr_RuleType l) ;?
    valid_values "healthFilter" ["ok"; "err"; "unknown"] unsupported_health (lsr_HealthFilter l) ;?
    valid_values "stateFilter" ["firing"; "pending"; "inactive"] unsupported_state (lsr_StateFilter l) ;?
    Ok (mkListRulesRequest (lsr_ClusterId l) (lsr_RuleType l) (lsr_HealthFilter l) (lsr_StateFilter l)
          name group namespace (lsr_ListInvalid l) (lsr_RequestAll l)).

Definition All (l : ListRulesRequest) : bool := default false (lsr_RequestAll l).
Definition Invalid (l : ListRulesRequest) : bool := default false (lsr_ListInvalid l).
Definition MatchesCluster (l : ListRulesRequest) (clusterId : string) : bool :=
  All l || xorb (Invalid l) (bool_decide (clusterId ∈ lsr_ClusterId l)).
Definition MatchesRegexp (l : ListRulesRequest) (expr s : string) : bool := All l || regexp_MatchString expr s.
Definition MatchesOneOf (l : ListRulesRequest) (values : list string) (x : string) : bool :=
  All l || (length values =? 0)%nat || bool_decide (x ∈ values).

Definition matches_rule (l : ListRulesRequest) (r : cxRule) : bool :=
  MatchesOneOf l (lsr_RuleType l) (cxr_Type r) &&
  (negb (bool_decide (cxr_Type r = "alerting")) || MatchesOneOf l (lsr_StateFilter l) (cxr_State r)) &&
  MatchesOneOf l (lsr_HealthFilter l) (cxr_Health r) &&
  MatchesRegexp l (lsr_RuleNameRegexp l) (cxr_Name r).

(** The groups of one cluster that have a rule left. *)
Definition rules_Filter (l : ListRulesRequest) (groups : list cxRuleGroup) (clusterId : string) : list cxRuleGroup :=
  flat_map (fun g =>
    if MatchesCluster l clusterId && MatchesRegexp l (lsr_GroupNameRegexp l) (cg_Name g) &&
       MatchesRegexp l (lsr_NamespaceRegexp l) (cg_File g)
    then match filter (fun r => matches_rule l r = true) (cg_Rules g) with
         | [] => []
         | rules => [mkCxRuleGroup (cg_Name g) (cg_File g) clusterId rules]
         end
    else []) groups.
End Filters.

(** ** admin.go *)

(** github.com/tidwall/gjson. *)
Class GJson (R : Type) := {
  gj_Valid : string -> bool;
  gj_Get : string -> string -> R;
  gr_Exists : R -> bool;
  gr_Array : R -> list R;
  gr_Map : R -> gmap string R;
  gr_String : R -> string }.

Record SeriesMetadata := mkSeriesMetadata { sm_Description : string; sm_Type : string; sm_Unit : string }.
Record ingesterDesc := mkIngesterDesc { in_ID : string; in_State : string; in_Address : string }.

Section CortexAdmin.
Context {W R : Type} `{HttpEnv W} `{GJson R}.
Variable cortexClient : http_Client.
(** The client that expects a name in the certificate of the server. *)
Variable client_for : string -> http_Client.
Variables distributor queryFrontend ruler : string.
(** [url.Values.Encode], the time as decimal seconds, [net.SplitHostPort], and the
    decoders of the two JSON bodies. *)
Variable url_Encode : list (string * string) -> string.
Variable formatTime : Time -> string.
Variable SplitHostPort : string -> outcome (string * string).
Variable json_rules : string -> outcome (option (list cxRuleGroup)).
Variable json_ring : string -> outcome (list ingesterDesc).
Variables (regexp_Compile : string -> bool) (regexp_MatchString : string -> string -> bool).
Variable initialized : bool.

Definition when_initialized {A} (op : M W A) : M W A :=
  if negb initialized then wfail (StatusError codes_Unavailable "") else op.

Definition set_header (k v : string) : Request -> Request := rq_set_Header (Header_Set k v).
Definition for_tenants (ids : list string) : Request -> Request := set_header codec_Key (codec_Encode ids).
Definition with_body (body : string) (r : Request) : Request :=
  mkRequest (rq_Method r) (rq_URL r) (rq_Proto r) (rq_Header r) (rq_Host r) (rq_RemoteIP r) (rq_RequestURI r) body.
(** [req.URL.RawQuery = q]. *)
Definition with_RawQuery (q : string) (r : Request) : Request :=
  let u := rq_URL r in
  mkRequest (rq_Method r) (mkURL (u_Scheme u) (u_Host u) (u_Path u) q) (rq_Proto r) (rq_Header r) (rq_Host r)
    (rq_RemoteIP r) (rq_RequestURI r) (rq_Body r).

Definition StatusAccepted : Z := 202.

Definition form_type : string := "application/x-www-form-urlencoded".

(** A request whose answer must have one status; the body is read. *)
Definition fetch (req : Request) (accept : Z) (bad : Response -> error) : M W string :=
  let! resp := http_Do cortexClient req in
  if negb (rs_StatusCode resp =? accept)%Z then wfail (bad resp) else wlift (ReadAll resp).

Definition query_failed (resp : Response) : error := ErrorString ("query failed: " +:+ rs_Status resp).

Definition cx_Query (tenants : list string) (query : string) : M W string :=
  when_initialized (
    let! req := wlift (http_NewRequest "POST" ("https://" +:+ queryFrontend +:+ "/prometheus/api/v1/query") "") in
    fetch (for_tenants tenants (set_header "Accept" "application/json"
             (set_header "Content-Type" form_type (with_body (url_Encode [("query", query)]) req)))) StatusOK query_failed).

Definition cx_QueryRange (tenants : list string) (query : string) (start end_ : Time) (step : string) : M W string :=
  when_initialized (
    let! req := wlift (http_NewRequest "POST" ("https://" +:+ queryFrontend +:+ "/prometheus/api/v1/query_range")
                  (url_Encode [("query", query); ("start", formatTime start); ("end", formatTime end_); ("step", step)])) in
    fetch (for_tenants tenants (set_header "Accept" "application/json" (set_header "Content-Type" form_type req)))
      StatusOK query_failed).

Definition rule_url (namespace group : string) : string :=
  "https://" +:+ ruler +:+ "/api/v1/rules/" +:+ namespace +:+ "/" +:+ group.

Definition cx_GetRule (r : RuleRequest) : M W string :=
  when_initialized (
    let! req := wlift (http_NewRequest "GET" (rule_url (rrq_Namespace r) (rrq_GroupName r)) "") in
    fetch (for_tenants [rrq_ClusterId r] (set_header "Accept" "application/json" req)) StatusOK
      (fun resp => if (rs_StatusCode resp =? StatusNotFound)%Z then StatusError codes_NotFound "fetch failed : 404 not found"
                   else ErrorString ("fetch failed: " +:+ rs_Status resp))).

Definition cx_LoadRules (r : LoadRuleRequest) : M W unit :=
  when_initialized (
    let! r := wlift (LoadRuleRequest_Validate r) in
    let! req := wlift (http_NewRequest "POST" ("https://" +:+ ruler +:+ "/api/v1/rules/" +:+ lrr_Namespace r) "") in
    let! resp := http_Do cortexClient (for_tenants [lrr_ClusterId r]
                   (set_header "Content-Type" "application/yaml" (with_body (lrr_YamlContent r) req))) in
    if (rs_StatusCode resp =? StatusAccepted)%Z then wret tt
    else wfail (ErrorString ("loading rules failed: " +:+ Sprint (rs_StatusCode resp)))).

(** The messages print the error of the call, which is nil. *)
Definition cx_DeleteRule (r : RuleRequest) : M W unit :=
  when_initialized (
    let! req := wlift (http_NewRequest "DELETE" (rule_url (rrq_Namespace r) (rrq_GroupName r)) "") in
    let! resp := http_Do cortexClient (for_tenants [rrq_ClusterId r] req) in
    if (rs_StatusCode resp =? StatusAccepted)%Z then wret tt
    else if (rs_StatusCode resp =? StatusNotFound)%Z
    then wfail (StatusError codes_NotFound "delete rule group failed %!s(<nil>)")
    else wfail (ErrorString ("delete rule group failed, unexpected status code: `%!s(<nil>)` - " +:+ rs_Status resp))).

(** The request is used before its error is looked at. *)
Definition proxyCortexToPrometheus (tenant method url : string) (values : option (list (string * string))) : M W Response :=
  let! req := match http_NewRequest method url "", values with
              | Err _, Some _ => wlift (Panic "nil pointer dereference")
              | Ok req, Some v => wret (with_RawQuery (url_Encode v) req)
              | o, None => wlift o
              | Panic p, _ => wlift (Panic p)
              end in
  let! resp := http_Do cortexClient (for_tenants [tenant] (set_header "Content-Type" form_type
                                       (set_header "Accept" "application/json" req))) in
  if negb (rs_StatusCode resp =? StatusOK)%Z then wfail (ErrorString ("request failed with: " +:+ rs_Status resp))
  else wret resp.

Definition frontend (path : string) : string := "https://" +:+ queryFrontend +:+ path.
Definition quote_s (s : string) : string := String (chr 34) s +:+ String (chr 34) "".

Definition enumerateCortexSeries (tenant jobId : string) : M W Response :=
  proxyCortexToPrometheus tenant "GET" (frontend "/prometheus/api/v1/series?")
    (Some [("match[]", "{job=" +:+ quote_s jobId +:+ "}")]).
Definition fetchCortexSeriesMetadata (tenant metricName : string) : M W Response :=
  proxyCortexToPrometheus tenant "GET" (frontend "/prometheus/api/v1/metadata?") (Some [("metric", metricName)]).
Definition listCortexRules (clusterId : string) : M W Response :=
  proxyCortexToPrometheus clusterId "GET" ("https://" +:+ ruler +:+ "/prometheus/api/v1/rules") None.

Definition read_json (resp : Response) : outcome string :=
  match ReadAll resp with
  | Ok b => if gj_Valid b then Ok b else Err (ErrorString "invalid json in response")
  | Err e => Err (Wrapped "failed to read response body" e)
  | Panic p => Panic p
  end.

Definition parseCortexEnumerateSeries (resp : Response) : outcome (gset string) :=
  let? b := read_json resp in
  let result := gj_Get b "data.#.__name__" in
  if gr_Exists result then Ok (list_to_set (gr_String <$> gr_Array result))
  else Err (ErrorString "Empty series response from cortex").

(** The path ends in a parenthesis. *)
Definition parseCortexSeriesMetadata (resp : Response) (metricName : string) : outcome (gmap string R) :=
  let? b := read_json resp in
  let result := gj_Get b ("data." +:+ metricName +:+ ")") in
  if gr_Exists result then
    match gr_Array result with
    | [] => Panic "index out of range"
    | r :: _ => Ok (gr_Map r)
    end
  else Err (ErrorString "no metadata in cortex response").

(** The unit is taken over when it is empty. *)
Definition metadata_of (m : gmap string R) : SeriesMetadata :=
  mkSeriesMetadata (default "" (gr_String <$> m !! "help")) (default "" (gr_String <$> m !! "type"))
    (match m !! "unit" with Some u => if decide (gr_String u = "") then gr_String u else "" | None => "" end).

Definition series_metadata (tenant metricName : string) : M W SeriesMetadata := fun w =>
  match fetchCortexSeriesMetadata tenant metricName w with
  | (w, Ok resp) => (w, match parseCortexSeriesMetadata resp metricName with
                        | Ok m => Ok (metadata_of m)
                        | Err _ => Ok (mkSeriesMetadata "" "" "")
                        | Panic p => Panic p
                        end)
  | (w, Err _) => (w, Ok (mkSeriesMetadata "" "" ""))
  | (w, Panic p) => (w, Panic p)
  end.

(** The names come in any order; [elements] is one. *)
Fixpoint series_infos (tenant : string) (names : list string) : M W (list (string * SeriesMetadata)) :=
  match names with
  | [] => wret []
  | n :: names =>
      let! m := series_metadata tenant n in
      let! rest := series_infos tenant names in
      wret ((n, m) :: rest)
  end.

Definition cx_GetSeriesMetrics (tenant jobId : string) : M W (list (string * SeriesMetadata)) :=
  when_initialized (
    let! resp := enumerateCortexSeries tenant jobId in
    let! names := wlift (parseCortexEnumerateSeries resp) in
    series_infos tenant (elements names)).

Definition cx_ExtractRawSeries (tenant matchExpr : string) : M W string :=
  cx_Query [tenant] ("{__name__=~" +:+ quote_s matchExpr +:+ "}").

(** The labels of the series of the metric and the job, but for these two. *)
Definition add_labels (metricName jobName : string) (series : gmap string R) (labelSets : gmap string (gset string))
  : gmap string (gset string) :=
  let get k := default "" (gr_String <$> series !! k) in
  if negb (bool_decide (get "__name__" = metricName)) || negb (bool_decide (get "job" = jobName)) then labelSets
  else map_fold (fun k v sets =>
         if (bool_decide (k = "__name__") && bool_decide (gr_String v = metricName)) ||
            (bool_decide (k = "job") && bool_decide (gr_String v = jobName)) then sets
         else <[k := default ∅ (sets !! k) ∪ {[ gr_String v ]}]> sets) labelSets series.

Definition parseCortexLabelsOnSeriesJob (resp : Response) (metricName jobName : string) : outcome (gmap string (gset string)) :=
  let? b := read_json resp in
  let result := gj_Get b "data" in
  if gr_Exists result
  then Ok (fold_left (fun sets r => add_labels metricName jobName (gr_Map r) sets) (gr_Array result) ∅)
  else Err (ErrorString "no data in cortex response").

Definition cx_GetMetricLabelSets (tenant jobId metricName : string) : M W (gmap string (gset string)) :=
  when_initialized (
    let! resp := enumerateCortexSeries tenant jobId in
    wlift (parseCortexLabelsOnSeriesJob resp metricName jobId)).

(** The rules of one cluster; every error leaves the slot of the cluster empty. *)
Definition list_rules_of (l : ListRulesRequest) (clusterId : string) : M W (list cxRuleGroup) := fun w =>
  match listCortexRules clusterId w with
  | (w, Ok resp) =>
      (w, match ReadAll resp with
          | Ok body =>
              match json_rules body with
              | Ok (Some groups) => Ok (rules_Filter regexp_MatchString l groups clusterId)
              | Ok None => Panic "nil pointer dereference"
              | Err _ => Ok []
              | Panic p => Panic p
              end
          | Err _ => Ok []
          | Panic p => Panic p
          end)
  | (w, Err _) => (w, Ok [])
  | (w, Panic p) => (w, Panic p)
  end.

Fixpoint list_rules_all (l : ListRulesRequest) (ids : list string) : M W (list cxRuleGroup) :=
  match ids with
  | [] => wret []
  | id :: ids =>
      let! groups := list_rules_of l id in
      let! rest := list_rules_all l ids in
      wret (groups ++ rest)%list
  end.

Definition cx_ListRules (l : ListRulesRequest) : M W (list cxRuleGroup) :=
  when_initialized (
    let! l := wlift (ListRulesRequest_Validate regexp_Compile l) in
    list_rules_all l (lsr_ClusterId l)).

(** A flush that is refused is only logged. *)
Definition flush_ingester (hostSan address : string) : M W unit :=
  let! req := wlift (http_NewRequest "POST" ("https://" +:+ address +:+ "/ingester/flush") (url_Encode [("wait", "true")])) in
  http_Do (client_for hostSan) req ;! wret tt.

(** The flushes run at the same time; the first error is returned once all are done,
    an address that does not parse at once. *)
Fixpoint flush_all (l : list ingesterDesc) (failed : option error) : M W unit :=
  match l with
  | [] => match failed with Some e => wfail e | None => wret tt end
  | i :: l =>
      if negb (bool_decide (in_State i = "ACTIVE")) then flush_all l failed
      else
        let! (host, _) := wlift (SplitHostPort (in_Address i)) in
        let! (hostSan, port) := wlift (SplitHostPort distributor) in
        fun w => match flush_ingester hostSan (host +:+ ":" +:+ port) w with
                 | (w, Ok _) => flush_all l failed w
                 | (w, Err e) => flush_all l (match failed with Some e' => Some e' | None => Some e end) w
                 | (w, Panic p) => (w, Panic p)
                 end
  end.

Definition cx_FlushBlocks : M W unit :=
  when_initialized (
    let! req := wlift (http_NewRequest "GET" ("https://" +:+ distributor +:+ "/ingester/ring") "") in
    let! resp := http_Do cortexClient (rq_set_Header (Header_Add "Accept" "application/json") req) in
    if negb (rs_StatusCode resp =? StatusOK)%Z
    then wfail (ErrorString ("failed to get ingester ring: " +:+ rs_Status resp))
    else let! ring := wlift (json_ring (rs_Body resp)) in flush_all ring None).
End CortexAdmin.

(** ** The API as a whole *)

Section Api.
Context {W any jwk_Set : Type} `{OpenidEnv W any jwk_Set} `{SubjectAccessCapableStore W}.

Definition on_world {A} (op : M W A) : M (OState W any) A :=
  fun s => let '(w', o) := op s.2 in ((s.1, w'), o).
Definition world_handler (h : Handler W) : Handler (OState W any) := fun c => on_world (h c).

(** The handlers behind the names: the authentication middleware is the OpenID one,
    the forwarders are any handlers. *)
Record Backends := mkBackends {
  be_QueryFrontend : Handler W; be_Alertmanager : Handler W; be_Ruler : Handler W;
  be_JsonAggregator : Handler W; be_YamlAggregator : Handler W }.

Definition handler_of (be : Backends) (n : HandlerName) : Handler (OState W any) :=
  match n with
  | HAuth => openid_Handle
  | HRBAC => Handle (fun req => on_world (SubjectAccess req))
  | HLimiter => orgIdLimiter
  | HQueryFrontend => world_handler (be_QueryFrontend be)
  | HAlertmanager => world_handler (be_Alertmanager be)
  | HRuler => world_handler (be_Ruler be)
  | HJsonAggregator => world_handler (be_JsonAggregator be)
  | HYamlAggregator => world_handler (be_YamlAggregator be)
  end.

(** Serving a request on a route. *)
Definition serve (be : Backends) (r : HttpRoute) (c : gin_Context) : M (OState W any) gin_Context :=
  run_chain (handler_of be <$> rt_Handlers r) c.
End Api.
Arguments Backends : clear implicits.
Arguments mkBackends {_} _ _ _ _ _.
