(* ===== verification/CortexHttpProps.v ===== *)
(** The tenants a request of the metrics HTTP API can reach: authentication, the
    access rule, the tenant header and the forwarder composed; what the rule
    aggregator writes; the tenant of the data an agent pushes; and the tenants and
    the lists of the administration server. *)

From S2P Require Import Prelude GoStd Util Validation CoreV1 Storage Http OpenId OpenIdProps Rbac CortexHttp.
From Stdlib Require Import Ascii.

Local Open Scope string_scope.

#[local] Existing Instance orgID.

(** ** Routes *)

Definition is_backend (n : HandlerName) : bool :=
  match n with HAuth | HRBAC | HLimiter => false | _ => true end.

Definition guarded (r : HttpRoute) (n : HandlerName) : Prop :=
  rt_Handlers r = [HAuth; HRBAC; n] \/ rt_Handlers r = [HAuth; HRBAC; HLimiter; n].

(** Every route but the readiness probe authenticates and authorises the request
    before its one backend. *)
Lemma routes_are_guarded (r : HttpRoute) :
  r ∈ ConfigureRoutes -> rt_Path r <> "/ready" -> exists n, is_backend n = true /\ guarded r n.
Proof.
  assert (Forall (fun r => rt_Path r <> "/ready" -> exists n, is_backend n = true /\ guarded r n) ConfigureRoutes) as Ha.
  { unfold ConfigureRoutes. constructor; [done|]. unfold guarded.
    repeat (constructor; [intros _; eexists; cbn; (split; [|by (left + right)]); reflexivity|]). constructor. }
  rewrite list.Forall_forall in Ha. apply Ha.
Qed.

(** ** The limiter *)

Lemma orgIdLimiter_inv {W} c (w : W) :
  exists h, orgIdLimiter c w = (w, Ok (with_ResponseHeader h c)).
Proof.
  unfold orgIdLimiter. destruct (1 <? _)%nat; [by eexists|]. exists (fun h => h). by destruct c.
Qed.

(** The limiter leaves the request alone, so the backend still receives every tenant. *)
Lemma limiter_does_not_limit {W} c c' (w w' : W) :
  orgIdLimiter c w = (w', Ok c') -> gc_Request c' = gc_Request c.
Proof. destruct (orgIdLimiter_inv c w) as [h ->]. by intros [= _ <-]. Qed.

(** ** The composed chain *)

Section Chain.
Context {W any jwk_Set : Type} `{OpenidEnv W any jwk_Set} `{SubjectAccessCapableStore W}.
(** The store answers every query from a snapshot of the world it is asked in. *)
Variable sn : W -> Snapshot.
Hypothesis store_answers : forall w, answers w (sn w).
Hypothesis env_ok : env_total.

Abbreviation rbac_handler := (Handle (fun req => on_world (any := any) (SubjectAccess req))).

Lemma on_world_eq {A} (op : M W A) (m : OpenidMiddleware any) w w' o :
  op w = (w', o) -> on_world op (m, w) = ((m, w'), o).
Proof. intros E. unfold on_world. cbn. by rewrite E. Qed.

Lemma elem_of_ref_Ids (refs : list Reference) id : id ∈ (ref_Id <$> refs) <-> mkReference id ∈ refs.
Proof. rewrite list_elem_of_fmap. split; [by intros ([?] & -> & ?)|]. intros ?. by exists (mkReference id). Qed.

Lemma rbac_outcome c user (m : OpenidMiddleware any) w :
  gc_UserID c = Some user ->
  (rbac_handler c (m, w) = ((m, w), Ok (AbortWithStatus StatusUnauthorized c)) /\
   forall id, ~ may_access (sn w) user id) \/
  exists ids, ids <> [] /\ (forall id, id ∈ ids <-> may_access (sn w) user id) /\
    rbac_handler c (m, w) =
    ((m, w), Ok (set_AuthorizedClusterIDs ids
                   (with_Request (rq_set_Header (Header_Set codec_Key (codec_Encode ids))) c))).
Proof.
  intros Hu. unfold Handle. rewrite Hu.
  destruct (SubjectAccess_total w (sn w) user (store_answers w)) as (refs & E & Hin & _).
  rewrite (on_world_eq _ m _ _ _ E). case_decide as Hr.
  - left. split; [done|]. intros id. rewrite <- Hin, Hr. set_solver.
  - right. exists (ref_Id <$> refs). split; [by destruct refs|]. split; [|done].
    intros id. by rewrite elem_of_ref_Ids.
Qed.

Variables (conf : OpenidConfig) (h : list (gin_Context * W)) (m : OpenidMiddleware any) (w : W).
Hypothesis Hrun : om_run conf h m w.

(** What a backend is called with: the request as it came, with the tenant header
    set to the clusters of the authenticated user, in the context [c1]. *)
Definition admitted (c : gin_Context) (user : string) (w1 : W) (c1 : gin_Context) : Prop :=
  authenticated h m c w user /\ gc_UserID c1 = Some user /\
  AuthorizedClusterIDs c1 <> [] /\
  (forall id, id ∈ AuthorizedClusterIDs c1 <-> may_access (sn w1) user id) /\
  gc_Request c1 =
    rq_set_Header (Header_Set "X-Scope-OrgID" (DelimiterCodec_Encode orgIDCodec (AuthorizedClusterIDs c1))) (gc_Request c).

(** The chain up to the backend, for any list of handlers that follows. *)
Lemma auth_rbac_chain (hs : list HandlerName) c :
  gc_Aborted c = false ->
  (exists s' c', gc_Aborted c' = true /\
     forall be, run_chain (handler_of be <$> (HAuth :: HRBAC :: hs)) c (m, w) = (s', Ok c')) \/
  exists user m1 w1 c1, gc_Aborted c1 = false /\ admitted c user w1 c1 /\
    forall be, run_chain (handler_of be <$> (HAuth :: HRBAC :: hs)) c (m, w) = run_chain (handler_of be <$> hs) c1 (m1, w1).
Proof.
  intros Ha. pose proof (om_run_inv _ _ _ _ Hrun) as Hinv.
  destruct (openid_Handle_total h m w c env_ok Hinv) as (m1 & w1 & c1 & E1).
  cbn [fmap list_fmap handler_of].
  destruct (openid_Handle_outcome _ _ _ _ _ _ _ Hinv E1) as [(st & -> & _)|(user & -> & Hh & Hau)].
  { left. exists (m1, w1), (AbortWithStatus st c). split; [done|]. intros be. by apply (run_chain_abort _ _ _ _ _ _ E1). }
  destruct (rbac_outcome (set_UserID user (gin_Header "Authorization" "" c)) user m1 w1 eq_refl)
    as [[E2 _]|(ids & Hne & Hids & E2)].
  - left. do 2 eexists. split; [|intros be; rewrite (run_chain_cons _ _ _ _ _ _ E1) by done;
      by apply (run_chain_abort _ _ _ _ _ _ E2)]. done.
  - right. exists user, m1, w1. eexists. split; [|split; [|intros be; rewrite (run_chain_cons _ _ _ _ _ _ E1) by done;
      rewrite (run_chain_cons _ _ _ _ _ _ E2) by done; reflexivity]]; [done|].
    by repeat (split; [done|]).
Qed.
End Chain.


(** ** A concrete API *)

#[local] Instance ref_sas : SubjectAccessCapableStore RefIdp := {|
  sas_ListClusters ls o := fun w => (w, Ok (mem_select demo_store ls o));
  sas_GetRole r := fun w => (w, mem_role demo_store r);
  sas_ListRoleBindings := fun w => (w, Ok (ms_bindings demo_store)) |}.

Lemma ref_sas_answers (w : RefIdp) : answers w (mem_snapshot demo_store).
Proof. split; [done|]. split; [|done]. intros r. split; [done|]. cbn. unfold mem_role. by destruct (_ !! _). Qed.

Lemma ref_env_total : env_total (W := RefIdp) (any := string) (jwk_Set := string).
Proof. split; intros; cbn; try done. by destruct (ri_jwts w !! tok). Qed.

(** A backend that answers with the tenant header it received. *)
Definition echo_tenant : Handler RefIdp := fun c => wret (gin_Write (GetHeader "X-Scope-OrgID" c) c).
Definition ref_backends : Backends RefIdp := mkBackends echo_tenant echo_tenant echo_tenant echo_tenant echo_tenant.

Definition query_route : HttpRoute := mkRoute (Some "GET") "/api/prom/api/v1/query" [HAuth; HRBAC; HQueryFrontend].

Lemma query_route_configured : query_route ∈ ConfigureRoutes.
Proof. apply list_elem_of_In. vm_compute. tauto. Qed.

(** Alice reaches her two clusters. *)
Example ref_serve :
  gc_Written <$> (match (serve ref_backends query_route (ref_query "Bearer t1") (ref_known, ref_again)).2 with
                  | Ok c => Some c | _ => None end) = Some "c1|c2".
Proof. vm_compute. reflexivity. Qed.


(** On the Alertmanager routes a user of two clusters is not limited to the first:
    the request still names both. *)
Definition alerts_route : HttpRoute := mkRoute None "/api/v1/alerts" [HAuth; HRBAC; HLimiter; HAlertmanager].

Example limiter_forwards_all_tenants :
  gc_Written <$> (match (serve ref_backends alerts_route (ref_query "Bearer t1") (ref_known, ref_again)).2 with
                  | Ok c => Some c | _ => None end) = Some "c1|c2".
Proof. vm_compute. reflexivity. Qed.

(** ** The rule aggregator *)

(** The text of a list of groups, after [n] groups have been written. *)
Definition groups_text (n : nat) (groups : list string) : string :=
  match n, groups with S _, _ :: _ => "," +:+ Join "," groups | _, _ => Join "," groups end.

Lemma write_groups_spec groups : forall buf n,
  write_groups groups buf n = (buf +:+ groups_text n groups, n + length groups).
Proof.
  induction groups as [|g gs IH]; intros buf n; cbn.
  - destruct n; cbn; by rewrite str_app_nil_r, ?Nat.add_0_r.
  - rewrite IH. destruct n as [|n]; cbn; f_equal; try lia.
    + destruct gs; cbn; by rewrite ?str_app_nil_r, ?str_app_assoc.
    + destruct gs; cbn; by rewrite ?str_app_nil_r, ?str_app_assoc.
Qed.

Lemma Join_cons sep x (l : list string) : l <> [] -> Join sep (x :: l) = x +:+ sep +:+ Join sep l.
Proof. by destruct l. Qed.

Lemma Join_lists sep (l1 l2 : list string) :
  l1 <> [] -> l2 <> [] -> Join sep (l1 ++ l2)%list = Join sep l1 +:+ sep +:+ Join sep l2.
Proof.
  intros H1 H2. induction l1 as [|x l1 IH]; [done|]. destruct l1 as [|y l1].
  - cbn [app]. by rewrite Join_cons.
  - change ((x :: y :: l1) ++ l2)%list with (x :: ((y :: l1) ++ l2))%list.
    rewrite (Join_cons _ x (y :: l1)) by done. rewrite Join_cons by done. rewrite IH by done.
    by rewrite !str_app_assoc.
Qed.

Lemma groups_text_app n l1 l2 :
  groups_text n (l1 ++ l2)%list = groups_text n l1 +:+ groups_text (n + length l1) l2.
Proof.
  destruct l1 as [|x l1]; [rewrite Nat.add_0_r; by destruct n|].
  destruct l2 as [|y l2].
  { rewrite app_nil_r. cbn [length]. rewrite Nat.add_succ_r. by rewrite str_app_nil_r. }
  cbn [length]. rewrite Nat.add_succ_r.
  change (groups_text (S (n + length l1)) (y :: l2)) with ("," +:+ Join "," (y :: l2)).
  pose proof (Join_lists "," (x :: l1) (y :: l2)) as E.
  destruct n; unfold groups_text; rewrite E by done; by rewrite ?str_app_assoc.
Qed.

Section Aggregator.
Context {W : Type} `{HttpEnv W}.
Variable cortexClient : http_Client.
Variables gunzip unbrotli inflate : Response -> outcome string.
Variable json_groups : string -> outcome rawPromJSONData.

Abbreviation agg_one := (aggregate_one cortexClient gunzip unbrotli inflate json_groups).
Abbreviation agg := (aggregate_all cortexClient gunzip unbrotli inflate json_groups).
Abbreviation agg_Handle := (Aggregator_Handle cortexClient gunzip unbrotli inflate json_groups).

(** Cortex answers a request for the one tenant [id] with [resp id]: not found, or a
    readable list of groups. *)
Variable resp : string -> Response.
Hypothesis cortex_answers : forall r w id,
  Header_Get "X-Scope-OrgID" (rq_Header r) = codec_Encode [id] -> exists w', http_Do cortexClient r w = (w', Ok (resp id)).

(** The groups a tenant contributes. *)
Definition tenant_groups (id : string) : option (list string) :=
  if (rs_StatusCode (resp id) =? StatusNotFound)%Z then Some []
  else if (rs_StatusCode (resp id) =? StatusOK)%Z then
    match rs_BodyErr (resp id), json_groups (rs_Body (resp id)) with
    | None, Ok rawData => Some (if decide (rp_Status rawData = "success") then rp_Groups rawData else [])
    | _, _ => None
    end
  else None.

Lemma aggregate_one_json id groups c buf n w :
  tenant_groups id = Some groups -> Header_Get "Content-Encoding" (gc_Header c) = "" ->
  exists w' c', agg_one PrometheusRuleGroupsJSON id c buf n w =
      (w', Ok (agg_continue c' (buf +:+ groups_text n groups) (n + length groups))) /\
    Header_Get "Content-Encoding" (gc_Header c') = "" /\
    gc_Aborted c' = gc_Aborted c /\ gc_Written c' = gc_Written c /\ gc_ResponseHeader c' = gc_ResponseHeader c.
Proof.
  intros Hg Hce. unfold aggregate_one.
  destruct (cortex_answers (gc_Request (tenant_request id c)) w id) as [w1 E]; [apply Header_Get_Set|].
  rewrite E. unfold tenant_groups in Hg.
  assert (Header_Get "Content-Encoding" (gc_Header (drained (tenant_request id c))) = "") as Hce1.
  { change (gc_Header (drained (tenant_request id c))) with (Header_Set codec_Key (codec_Encode [id]) (gc_Header c)).
    unfold Header_Set. unfold Header_Get in *. by rewrite lookup_insert_ne. }
  exists w1, (drained (tenant_request id c)). split; [|by repeat (split; [done|])].
  assert (groups = [] -> (w1, Ok (agg_continue (drained (tenant_request id c)) buf n)) =
            (w1, Ok (agg_continue (drained (tenant_request id c)) (buf +:+ groups_text n groups) (n + length groups)))) as Hnil.
  { intros ->. replace (groups_text n []) with "" by (by destruct n). by rewrite str_app_nil_r, Nat.add_0_r. }
  destruct (rs_StatusCode (resp id) =? StatusNotFound)%Z eqn:E4.
  { injection Hg as <-. apply Z.eqb_eq in E4. rewrite E4. cbn. by apply Hnil. }
  destruct (rs_StatusCode (resp id) =? StatusOK)%Z; [|done]. cbn [negb].
  destruct (rs_BodyErr (resp id)) eqn:Eb; [done|].
  destruct (json_groups (rs_Body (resp id))) as [raw|e|p] eqn:Ej; [|done|done]. injection Hg as Hg.
  assert (read_body gunzip unbrotli inflate (drained (tenant_request id c)) (resp id) = Ok (Some (rs_Body (resp id)))) as ->.
  { unfold read_body. rewrite Hce1. rewrite !decide_False by done. rewrite decide_True by done.
    unfold ReadAll. by rewrite Eb. }
  unfold append_body. rewrite Ej.
  case_decide; [|by apply Hnil]. by rewrite write_groups_spec, Hg.
Qed.

Lemma aggregate_json ids : forall gss c buf n w,
  Forall2 (fun id groups => tenant_groups id = Some groups) ids gss ->
  Header_Get "Content-Encoding" (gc_Header c) = "" ->
  exists w' c' n', agg PrometheusRuleGroupsJSON ids c buf n w =
      (w', Ok (agg_continue c' (buf +:+ groups_text n (concat gss)) n')) /\
    gc_Aborted c' = gc_Aborted c /\ gc_Written c' = gc_Written c /\ gc_ResponseHeader c' = gc_ResponseHeader c.
Proof.
  induction ids as [|id ids IH]; intros gss c buf n w Hf Hce; inversion Hf as [|? groups ? gss' Hg Hf']; subst; cbn.
  - exists w, c, n. replace (groups_text n []) with "" by (by destruct n). by rewrite str_app_nil_r.
  - destruct (aggregate_one_json id groups c buf n w Hg Hce) as (w1 & c1 & E & Hce1 & Ha & Hw & Hh).
    rewrite (wbind_eq_Ok _ _ _ _ _ E).
    destruct (IH gss' c1 (buf +:+ groups_text n groups) (n + length groups) w1 Hf' Hce1)
      as (w2 & c2 & n2 & E2 & Ha2 & Hw2 & Hh2).
    exists w2, c2, n2. rewrite E2, groups_text_app, str_app_assoc. split; [done|]. by split_and!; congruence.
Qed.

(** When Cortex answers for every tenant of the user, the aggregator writes one
    document with the groups of all the tenants, in the order of the tenants, and each
    tenant is asked with a header of its own. *)
Lemma aggregator_output gss c w :
  Forall2 (fun id groups => tenant_groups id = Some groups) (AuthorizedClusterIDs c) gss ->
  Header_Get "Content-Encoding" (gc_Header c) = "" ->
  exists w' c', agg_Handle PrometheusRuleGroupsJSON c w = (w', Ok c') /\
    gc_Status c' = StatusOK /\
    gc_Written c' = gc_Written c +:+ buf_header PrometheusRuleGroupsJSON +:+ Join "," (concat gss) +:+ buf_footer.
Proof.
  intros Hf Hce. unfold Aggregator_Handle.
  destruct (aggregate_json _ gss c (buf_header PrometheusRuleGroupsJSON) 0 w Hf Hce) as (w1 & c1 & n1 & E & _ & Hw & _).
  rewrite (wbind_eq_Ok _ _ _ _ _ E). do 2 eexists. split; [reflexivity|]. split; [done|].
  cbn -[buf_header buf_footer]. rewrite Hw, !str_app_assoc. do 2 f_equal.
Qed.
End Aggregator.

Section RequestURI.
Context {W : Type} `{HttpEnv W}.
Variable cortexClient : http_Client.
(** [http.Client] refuses to send a request that has its [RequestURI] set. *)
Hypothesis Do_RequestURI : forall r (w : W), rq_RequestURI r <> "" ->
  exists w' e, http_Do cortexClient r w = (w', Err e).

(** The aggregator sends on the request the server received, so it answers 500 to
    every user with a cluster. *)
Lemma aggregator_always_fails gunzip unbrotli inflate json_groups format c (w : W) :
  rq_RequestURI (gc_Request c) <> "" -> AuthorizedClusterIDs c <> [] ->
  exists w' c', Aggregator_Handle cortexClient gunzip unbrotli inflate json_groups format c w = (w', Ok c') /\
    gc_Aborted c' = true /\ gc_Status c' = StatusInternalServerError /\ gc_Written c' = gc_Written c.
Proof.
  intros Hu Hids. unfold Aggregator_Handle. destruct (AuthorizedClusterIDs c) as [|id ids] eqn:E; [done|].
  destruct (Do_RequestURI (gc_Request (tenant_request id c)) w Hu) as (w1 & e & Ed).
  eexists w1, _. split; [|split; [|split]].
  - cbn [aggregate_all]. unfold wbind at 1. unfold wbind at 1. unfold aggregate_one. rewrite Ed. reflexivity.
  - done.
  - done.
  - done.
Qed.
End RequestURI.

(** ** Remote write *)

Section Tenant.
Context {W : Type} `{HttpEnv W}.
Variable cortexClient : http_Client.
Variable InjectOrgID : string -> Request -> outcome Request.

(** What [user.InjectOrgIDIntoHTTPRequest] promises: it returns an error, or the
    request with the tenant header set. *)
Definition injects_tenant : Prop := forall id r r',
  InjectOrgID id r = Ok r' -> Header_Get "X-Scope-OrgID" (rq_Header r') = id.

Lemma add_headers_keeps_first (h : gmap string string) k r :
  Header_Get k (rq_Header r) <> "" ->
  Header_Get k (rq_Header (add_headers h r)) = Header_Get k (rq_Header r) /\
  rq_Body (add_headers h r) = rq_Body r.
Proof.
  unfold add_headers. generalize (map_to_list h) as l. intros l. revert r.
  induction l as [|[k' v'] l IH]; intros r Hr; [done|]. cbn.
  assert (Header_Get k (rq_Header (rq_set_Header (Header_Add k' v') r)) = Header_Get k (rq_Header r)) as E
    by (by apply Header_Get_Add).
  destruct (IH (rq_set_Header (Header_Add k' v') r)) as [E1 E2]; [by rewrite E|]. by rewrite E1, E2, E.
Qed.

Lemma tenant_post_tenant url id payload req :
  injects_tenant -> id <> "" -> tenant_post InjectOrgID url id payload = Ok req ->
  Header_Get "X-Scope-OrgID" (rq_Header req) = id.
Proof.
  intros Hinj Hid. unfold tenant_post. destruct (http_NewRequest _ _ _) as [r|e|p]; [|done|done]. cbn.
  destruct (InjectOrgID id r) as [r'|e|p] eqn:E; [|done|done]. cbn. intros [= <-].
  pose proof (Hinj _ _ _ E) as Ht. by rewrite (proj1 (add_headers_keeps_first _ _ r' ltac:(by rewrite Ht))).
Qed.

(** A call sends at most the request [req]: it stops before, with the world
    unchanged, or its result depends on the answer to [req] alone. *)
Definition sends_only {A} (call : M W A) (w : W) (P : Request -> Prop) : Prop :=
  (exists o, call w = (w, o) /\ is_Ok o = false) \/
  exists req k, P req /\ call w = (let '(w', o) := http_Do cortexClient req w in (w', k o)).

(** C25: remote write and rule synchronisation act for the authenticated cluster
    alone. Without one nothing is sent; with one, the single request that is sent
    carries that cluster as its tenant whatever headers the agent put in its payload. *)
Theorem remote_write_tenant distributor ruler initialized (cluster : option string) payload (w : W) :
  injects_tenant -> cluster <> Some "" ->
  match cluster with
  | None => exists e, Push cortexClient distributor InjectOrgID initialized None payload w = (w, Err e) /\
                      SyncRules cortexClient ruler InjectOrgID initialized None payload w = (w, Err e)
  | Some id =>
      sends_only (Push cortexClient distributor InjectOrgID initialized (Some id) payload) w
        (fun req => Header_Get "X-Scope-OrgID" (rq_Header req) = id) /\
      sends_only (SyncRules cortexClient ruler InjectOrgID initialized (Some id) payload) w
        (fun req => Header_Get "X-Scope-OrgID" (rq_Header req) = id)
  end.
Proof.
  intros Hinj Hid. destruct cluster as [id|].
  2: { unfold Push, SyncRules. destruct initialized; cbn; by eexists. }
  assert (id <> "") as Hne by congruence. unfold Push, SyncRules, sends_only.
  destruct initialized; cbn [negb]; [|split; left; by eexists]. split.
  - destruct (tenant_post InjectOrgID ("https://" +:+ distributor +:+ "/api/v1/push") id payload) as [req|e|p] eqn:E;
      [|left; by eexists..].
    right. exists req, (fun o => match o with
      | Ok resp => if negb (rs_StatusCode resp =? StatusOK)%Z then Err (http_status_error (rs_StatusCode resp) (rs_Body resp)) else Ok tt
      | Err _ => Err (StatusError codes_Internal "error pushing metrics to cortex")
      | Panic p => Panic p end).
    split; [by eapply tenant_post_tenant|]. unfold wbind, wlift, wcatch.
    destruct (http_Do cortexClient req w) as [w' [resp|e|p]]; [|done|done]. by destruct (negb _).
  - destruct (tenant_post InjectOrgID ("https://" +:+ ruler +:+ "/api/v1/rules/synced") id payload) as [req|e|p] eqn:E;
      [|left; by eexists..].
    right. exists req, (fun o => match o with
      | Ok resp => if negb (Z.quot (rs_StatusCode resp) 100 =? 2)%Z
                   then Err (StatusError codes_Internal ("failed to sync rules: " +:+ rs_Status resp)) else Ok tt
      | Err e => Err e
      | Panic p => Panic p end).
    split; [by eapply tenant_post_tenant|]. unfold wbind, wlift.
    destruct (http_Do cortexClient req w) as [w' [resp|e|p]]; [|done|done]. by destruct (negb _).
Qed.

(** The purger is asked about the one tenant. *)
Lemma purger_request_tenant purger method path id req :
  purger_request purger method path id = Ok req ->
  Header_Get "X-Scope-OrgID" (rq_Header req) = DelimiterCodec_Encode orgIDCodec [id].
Proof.
  unfold purger_request. destruct (http_NewRequest _ _ _) as [r|e|p]; [|done|done]. cbn -[DelimiterCodec_Encode].
  intros [= <-]. apply Header_Get_Set.
Qed.
End Tenant.

Definition ref_inject (id : string) (r : Request) : outcome Request :=
  Ok (rq_set_Header (Header_Set "X-Scope-OrgID" id) r).

Definition forged : Payload := mkPayload "samples" {[ "x-scope-orgid" := "other" ]}.

Lemma remote_write_tenant_witness :
  sends_only DefaultClient (Push DefaultClient "cortex:8080" ref_inject true (Some "c1") forged) ref_world
    (fun req => Header_Get "X-Scope-OrgID" (rq_Header req) = "c1").
Proof.
  apply (remote_write_tenant DefaultClient ref_inject "cortex:8080" "ruler:8080" true (Some "c1") forged ref_world).
  - intros id r r' [= <-]. apply Header_Get_Set.
  - discriminate.
Defined.

(** ** The administration server *)

Section AdminTenant.
Context {W : Type} `{HttpEnv W}.
Variable cortexClient : http_Client.
Variable url_Encode : list (string * string) -> string.
Variables queryFrontend ruler : string.

Definition tenant_is (ids : list string) (req : Request) : Prop :=
  Header_Get "X-Scope-OrgID" (rq_Header req) = DelimiterCodec_Encode orgIDCodec ids.

(** A call that builds a request, sends it for the tenants and looks at the answer sends
    nothing else. *)
Lemma one_request_sent {A} (o : outcome Request) (ids : list string) (f : Request -> Request)
    (rest : Request -> M W A) (k : Response -> outcome A) (w : W) :
  (forall req, rest req w = (let! resp := http_Do cortexClient (for_tenants ids (f req)) in wlift (k resp)) w) ->
  sends_only cortexClient (let! req := wlift o in rest req) w (tenant_is ids).
Proof.
  intros Hrest. unfold sends_only, wbind at 1, wlift at 1. destruct o as [req|e|p]; [|left; by eexists..].
  right. exists (for_tenants ids (f req)), (fun o => match o with Ok resp => k resp | Err e => Err e | Panic p => Panic p end).
  split; [apply Header_Get_Set|]. unfold wbind at 1, wlift at 1. rewrite Hrest. unfold wbind.
  by destruct (http_Do cortexClient _ w) as [w' [resp|e|p]].
Qed.

(** Both sides send the same request and decide on the answer in the same order. *)
Ltac same_answer :=
  intros ?; unfold wbind, wlift, fetch, wbind; destruct (http_Do _ _ _) as [? [? | ? | ?]]; [|reflexivity..];
  repeat match goal with |- context [if ?b then _ else _] => destruct b end; reflexivity.

Lemma not_initialized_sends_nothing {A} (call : M W A) (w : W) P : sends_only cortexClient (when_initialized false call) w P.
Proof. left. by eexists. Qed.

(** A query asks for the tenants of the request, and a rule is read, stored and deleted
    for its cluster. *)
Lemma admin_requests_carry_the_tenants initialized (tenants : list string) (query : string) (r : RuleRequest) (w : W) :
  sends_only cortexClient (cx_Query cortexClient queryFrontend url_Encode initialized tenants query) w (tenant_is tenants) /\
  sends_only cortexClient (cx_GetRule cortexClient ruler initialized r) w (tenant_is [rrq_ClusterId r]) /\
  sends_only cortexClient (cx_DeleteRule cortexClient ruler initialized r) w (tenant_is [rrq_ClusterId r]).
Proof.
  unfold cx_Query, cx_GetRule, cx_DeleteRule.
  destruct initialized; [|split; [|split]; apply not_initialized_sends_nothing].
  split; [|split]; unfold when_initialized; cbn [negb].
  - eapply one_request_sent with
      (f := fun req => set_header "Accept" "application/json"
             (set_header "Content-Type" form_type (with_body (url_Encode [("query", query)]) req)))
      (k := fun resp => if negb (rs_StatusCode resp =? StatusOK)%Z then Err (query_failed resp) else ReadAll resp); same_answer.
  - eapply one_request_sent with (f := set_header "Accept" "application/json")
      (k := fun resp => if negb (rs_StatusCode resp =? StatusOK)%Z
      then Err (if (rs_StatusCode resp =? StatusNotFound)%Z then StatusError codes_NotFound "fetch failed : 404 not found"
                else ErrorString ("fetch failed: " +:+ rs_Status resp)) else ReadAll resp); same_answer.
  - eapply one_request_sent with (f := fun req => req) (k := fun resp => if (rs_StatusCode resp =? StatusAccepted)%Z then Ok tt
      else if (rs_StatusCode resp =? StatusNotFound)%Z
      then Err (StatusError codes_NotFound "delete rule group failed %!s(<nil>)")
      else Err (ErrorString ("delete rule group failed, unexpected status code: `%!s(<nil>)` - " +:+ rs_Status resp))); same_answer.
Qed.

(** Rules are stored for the cluster of the request. *)
Lemma load_rules_carries_the_cluster initialized (r : LoadRuleRequest) (w : W) :
  sends_only cortexClient (cx_LoadRules cortexClient ruler initialized r) w (tenant_is [lrr_ClusterId r]).
Proof.
  unfold cx_LoadRules. destruct initialized; [|apply not_initialized_sends_nothing].
  unfold when_initialized, LoadRuleRequest_Validate; cbn [negb].
  destruct (decide (lrr_ClusterId r = "")); [left; by eexists|].
  destruct (decide (lrr_YamlContent r = "")); [left; by eexists|].
  eapply one_request_sent with
    (f := fun req => set_header "Content-Type" "application/yaml" (with_body (lrr_YamlContent r) req))
    (k := fun resp => if (rs_StatusCode resp =? StatusAccepted)%Z then Ok tt
                      else Err (ErrorString ("loading rules failed: " +:+ Sprint (rs_StatusCode resp)))).
  same_answer.
Qed.
End AdminTenant.

(** *** Listing rules *)

Section ListRules.
Variable regexp_MatchString : string -> string -> bool.

(** Every group that is listed was stored for the cluster, has a rule, and has only rules
    that the filters accept. *)
Lemma listed_groups_match (l : ListRulesRequest) groups id g :
  g ∈ rules_Filter regexp_MatchString l groups id ->
  MatchesCluster l id = true /\ cg_ClusterId g = id /\ cg_Rules g <> [] /\
  (forall r, r ∈ cg_Rules g -> matches_rule regexp_MatchString l r = true) /\
  exists g0, g0 ∈ groups /\ cg_Name g0 = cg_Name g /\ cg_File g0 = cg_File g /\ cg_Rules g ⊆ cg_Rules g0.
Proof.
  unfold rules_Filter. rewrite list_elem_of_In, in_flat_map. intros (g0 & Hg0 & Hg). apply list_elem_of_In in Hg0.
  destruct (MatchesCluster l id) eqn:Ec; cbn in Hg; [|done].
  destruct (MatchesRegexp _ l _ (cg_Name g0) && _); [|done].
  destruct (filter _ (cg_Rules g0)) as [|r rs] eqn:Ef; [done|]. destruct Hg as [<-|[]]; cbn.
  assert (forall x, x ∈ r :: rs -> matches_rule regexp_MatchString l x = true /\ x ∈ cg_Rules g0) as Hr
    by (intros x; rewrite <- Ef, list_elem_of_filter; done).
  split; [done|]. split; [done|]. split; [done|]. split; [by intros x Hx; apply Hr|].
  exists g0. split; [done|]. split; [done|]. split; [done|]. intros x Hx. by apply Hr.
Qed.

(** Listing the groups that belong to no known cluster asks only for the clusters of the
    request and keeps only other clusters: it finds nothing. *)
Lemma list_invalid_finds_nothing (l : ListRulesRequest) groups id :
  Invalid l = true -> All l = false -> id ∈ lsr_ClusterId l -> rules_Filter regexp_MatchString l groups id = [].
Proof.
  intros Hi Ha Hid. destruct (rules_Filter _ l groups id) as [|g gs] eqn:E; [done|].
  destruct (listed_groups_match l groups id g) as [Hm _]; [rewrite E; left|].
  unfold MatchesCluster in Hm. by rewrite Hi, Ha, bool_decide_eq_true_2 in Hm.
Qed.

(** All groups that still have a rule are listed when all are requested. *)
Lemma request_all_lists_all (l : ListRulesRequest) groups id :
  All l = true ->
  rules_Filter regexp_MatchString l groups id =
  (fun g => mkCxRuleGroup (cg_Name g) (cg_File g) id (cg_Rules g)) <$> filter (fun g => cg_Rules g <> []) groups.
Proof.
  intros Ha. induction groups as [|g gs IH]; [done|]. rewrite filter_cons. unfold rules_Filter in *. cbn [flat_map]. rewrite IH.
  clear IH. unfold MatchesCluster at 1, MatchesRegexp at 1 2. rewrite Ha. cbn [orb andb].
  assert (filter (fun r => matches_rule regexp_MatchString l r = true) (cg_Rules g) = cg_Rules g) as ->.
  { generalize (cg_Rules g) as rs. intros rs. induction rs as [|r rs IH]; [done|]. rewrite filter_cons_True, IH; [done|].
    unfold matches_rule, MatchesOneOf, MatchesRegexp. rewrite Ha. cbn. by destruct (negb _). }
  destruct (cg_Rules g) eqn:Er; [rewrite decide_False by (by intros []) | rewrite decide_True by done]; [done|].
  cbn. by rewrite Er.
Qed.
End ListRules.

(** The namespace rules are stored in when none is given is not the one they are read from. *)
Lemma default_namespace_is_not_read (ruler cluster yaml group : string) :
  yaml <> "" -> cluster <> "" ->
  (exists r, LoadRuleRequest_Validate (mkLoadRuleRequest cluster yaml "") = Ok r /\ lrr_Namespace r = "default") /\
  rule_url ruler "" group <> rule_url ruler "default" group.
Proof.
  intros Hy Hc. split.
  - unfold LoadRuleRequest_Validate. cbn. rewrite !decide_False by done. by eexists.
  - unfold rule_url. intros E. do 3 apply (inj (String.append _)) in E. discriminate.
Qed.

(** The unit of a metric is never reported. *)
Lemma metadata_has_no_unit {R} `{GJson R} (m : gmap string R) : sm_Unit (metadata_of m) = "".
Proof. unfold metadata_of. cbn. destruct (m !! "unit") as [u|]; [|done]. by destruct (decide _). Qed.
