(* ===== verification/Etcd.v ===== *)
(** The third-party services the etcd backend stands on, as interfaces: the etcd
    client (go.etcd.io/etcd/client/v3), JSON coding of messages (protojson) and the
    retry helper of k8s.io/client-go.  Each is a class whose laws state documented
    behaviour; a reference instance of each shows that the laws can hold. *)

From S2P Require Import Prelude GoStd.
From stdpp Require Import relations.

Local Open Scope string_scope.

(** ** protojson *)

Class ProtoJSON (T : Type) := {
  Marshal : T -> outcome string;
  Unmarshal : string -> outcome T;
  Marshal_no_panic t : no_panic (Marshal t) = true;
  Unmarshal_no_panic s : no_panic (Unmarshal s) = true;
  Unmarshal_Marshal t s : Marshal t = Ok s -> Unmarshal s = Ok t }.

(** ** retry.OnError *)

(** [retried retriable fn n w r]: [fn] ran at most [n] times starting at [w], every
    run but the last failed with a retriable error, and [r] is the last result. *)
Inductive retried {W A} (retriable : error -> bool) (fn : M W A) : nat -> W -> W * outcome A -> Prop :=
| retried_last n w r : fn w = r -> retried retriable fn (S n) w r
| retried_again n w w' e r :
    fn w = (w', Err e) -> retriable e = true ->
    retried retriable fn n w' r -> retried retriable fn (S n) w r.

Class RetryLib := {
  OnError : forall {W A : Type}, nat -> (error -> bool) -> M W A -> M W A;
  OnError_retried {W A} steps retriable (fn : M W A) w :
    0 < steps -> retried retriable fn steps w (OnError steps retriable fn w);
  (** only retriable errors are retried *)
  OnError_stops {W A} steps retriable (fn : M W A) w w' o :
    0 < steps -> fn w = (w', o) ->
    (forall e, o = Err e -> retriable e = false) -> OnError steps retriable fn w = (w', o) }.

(** ** etcd data model *)

Record KeyValue := mkKeyValue {
  kv_Key : string;
  kv_Value : string;
  kv_CreateRevision : Z;
  kv_ModRevision : Z;
  kv_Version : Z;
  kv_Lease : Z }.

#[export] Instance KeyValue_eq_dec : EqDecision KeyValue.
Proof. solve_decision. Defined.

Record EtcdDb := mkEtcdDb {
  db_rev : Z;
  db_kvs : gmap string KeyValue;
  db_leases : gmap Z Z }.

(** A put advances the revision of the store by one; the key keeps its creation
    revision and counts its versions from 1 since its creation.  [lease] is the
    lease of the key, [None] keeps the one it has (IgnoreLease). *)
Definition new_kv (db : EtcdDb) (k v : string) (lease : option Z) : KeyValue :=
  match db_kvs db !! k with
  | Some old =>
      mkKeyValue k v (kv_CreateRevision old) (db_rev db + 1) (kv_Version old + 1)
        (default (kv_Lease old) lease)
  | None => mkKeyValue k v (db_rev db + 1) (db_rev db + 1) 1 (default 0%Z lease)
  end.

Definition db_put (db : EtcdDb) (k v : string) (lease : option Z) : EtcdDb :=
  mkEtcdDb (db_rev db + 1) (<[k := new_kv db k v lease]> (db_kvs db)) (db_leases db).

(** Deleting a missing key is not a modification. *)
Definition db_delete (db : EtcdDb) (k : string) : EtcdDb :=
  match db_kvs db !! k with
  | Some _ => mkEtcdDb (db_rev db + 1) (delete k (db_kvs db)) (db_leases db)
  | None => db
  end.

Definition db_set_leases (db : EtcdDb) (l : gmap Z Z) : EtcdDb :=
  mkEtcdDb (db_rev db) (db_kvs db) l.

Inductive db_step : EtcdDb -> EtcdDb -> Prop :=
| step_put db k v lease : db_step db (db_put db k v lease)
| step_delete db k : db_step db (db_delete db k)
| step_leases db l : db_step db (db_set_leases db l).

Notation db_steps := (rtc db_step).

(** The keys of a range request with a prefix, in ascending order. *)
Definition key_le (a b : KeyValue) : Prop := String.le (kv_Key a) (kv_Key b).
#[export] Instance key_le_dec a b : Decision (key_le a b).
Proof. unfold key_le. apply _. Defined.

Definition db_range (db : EtcdDb) (prefix : string) : list KeyValue :=
  merge_sort key_le
    (snd <$> filter (fun kv => HasPrefix kv.1 prefix = true) (map_to_list (db_kvs db))).

(** Watch events; the previous value is delivered when the key had one. *)
Inductive EventType := PUT | DELETE.

#[export] Instance EventType_eq_dec : EqDecision EventType.
Proof. solve_decision. Defined.

Record Event := mkEvent {
  ev_Type : EventType;
  ev_Kv : KeyValue;
  ev_PrevKv : option KeyValue }.

Definition put_event (db : EtcdDb) (k v : string) (lease : option Z) : Event :=
  mkEvent PUT (new_kv db k v lease) (db_kvs db !! k).

Definition delete_event (db : EtcdDb) (k : string) : option Event :=
  match db_kvs db !! k with
  | Some old => Some (mkEvent DELETE (mkKeyValue k "" 0 (db_rev db + 1) 0 0) (Some old))
  | None => None
  end.

(** A response of a watch channel: a batch of events or a failure. *)
Inductive WatchResponse := WatchFailed (e : error) | WatchEvents (evs : list Event).

Inductive Cmp := CmpVersion (v : Z) | CmpModRevision (v : Z).

(** A missing key compares as version 0 and modification revision 0. *)
Definition cmp_holds (db : EtcdDb) (k : string) (c : Cmp) : bool :=
  match c with
  | CmpVersion v => (match db_kvs db !! k with Some kv => kv_Version kv | None => 0 end =? v)%Z
  | CmpModRevision v => (match db_kvs db !! k with Some kv => kv_ModRevision kv | None => 0 end =? v)%Z
  end.

(** ** The client

    Every call takes effect at one point; other clients may have acted before it.
    A failed call may or may not have acted, which is the same as somebody having
    acted. *)

Record TxnResponse := mkTxnResponse { txn_Succeeded : bool; txn_Revision : Z }.

Class EtcdClient (W : Type) := {
  db : W -> EtcdDb;
  etcd_Get : string -> M W (list KeyValue);
  etcd_GetPrefix : string -> M W (Z * list KeyValue);
  etcd_Put : string -> string -> Z -> M W unit;
  etcd_Delete : string -> M W Z;
  etcd_TxnPut : string -> Cmp -> string -> option Z -> M W TxnResponse;
  etcd_Grant : Z -> M W Z;
  etcd_Revoke : Z -> M W unit;
  etcd_TimeToLive : Z -> M W Z;
  (** the methods of a watch event *)
  ev_IsCreate : Event -> bool;
  ev_IsModify : Event -> bool;

  etcd_Get_law k w w' o : etcd_Get k w = (w', o) ->
    db_steps (db w) (db w') /\
    match o with
    | Ok kvs => kvs = option_list (db_kvs (db w') !! k)
    | Err _ => True | Panic _ => False end;
  etcd_GetPrefix_law p w w' o : etcd_GetPrefix p w = (w', o) ->
    db_steps (db w) (db w') /\
    match o with
    | Ok (rev, kvs) => rev = db_rev (db w') /\ kvs = db_range (db w') p
    | Err _ => True | Panic _ => False end;
  etcd_Put_law k v l w w' o : etcd_Put k v l w = (w', o) ->
    match o with
    | Ok _ => exists d, db_steps (db w) d /\ db w' = db_put d k v (Some l)
    | Err _ => db_steps (db w) (db w') | Panic _ => False end;
  etcd_Delete_law k w w' o : etcd_Delete k w = (w', o) ->
    match o with
    | Ok n => exists d, db_steps (db w) d /\ db w' = db_delete d k /\
                n = (if db_kvs d !! k then 1 else 0)%Z
    | Err _ => db_steps (db w) (db w') | Panic _ => False end;
  etcd_TxnPut_law k c v l w w' o : etcd_TxnPut k c v l w = (w', o) ->
    match o with
    | Ok resp => exists d, db_steps (db w) d /\
        txn_Succeeded resp = cmp_holds d k c /\
        db w' = (if txn_Succeeded resp then db_put d k v l else d) /\
        txn_Revision resp = db_rev (db w')
    | Err _ => db_steps (db w) (db w') | Panic _ => False end;
  etcd_Grant_law ttl w w' o : etcd_Grant ttl w = (w', o) ->
    match o with
    | Ok id => db_steps (db w) (db w') /\ db_leases (db w') !! id = Some ttl /\ id <> 0%Z
    | Err _ => db_steps (db w) (db w') | Panic _ => False end;
  etcd_Revoke_law id w w' o : etcd_Revoke id w = (w', o) ->
    db_steps (db w) (db w') /\ no_panic o = true;
  etcd_TimeToLive_law id w w' o : etcd_TimeToLive id w = (w', o) ->
    db_steps (db w) (db w') /\
    match o with
    | Ok ttl => ttl = default (-1)%Z (db_leases (db w') !! id)
    | Err _ => True | Panic _ => False end;
  ev_IsCreate_law e : ev_IsCreate e = true <->
    ev_Type e = PUT /\ kv_CreateRevision (ev_Kv e) = kv_ModRevision (ev_Kv e);
  ev_IsModify_law e : ev_IsModify e = true <->
    ev_Type e = PUT /\ kv_CreateRevision (ev_Kv e) <> kv_ModRevision (ev_Kv e) }.

(** ** Revisions identify values *)

(** Every key was written at a revision of the past. *)
Definition db_wf (db : EtcdDb) : Prop :=
  forall k kv, db_kvs db !! k = Some kv ->
    (0 < kv_ModRevision kv <= db_rev db)%Z /\ (0 < kv_Version kv)%Z /\ kv_Key kv = k.

Lemma db_put_wf d k v l : (0 <= db_rev d)%Z -> db_wf d -> db_wf (db_put d k v l).
Proof.
  intros Hr Hd k' kv. cbn. rewrite lookup_insert. case_decide as E.
  - intros [= <-]. unfold new_kv. destruct (db_kvs d !! k) as [old|] eqn:Eo; cbn.
    + destruct (Hd _ _ Eo) as (? & ? & ?). split; [lia|]. split; [lia|done].
    + split; [lia|]. split; [lia|done].
  - intros H. destruct (Hd _ _ H) as (? & ? & ?). split; [lia|]. done.
Qed.

Lemma db_step_wf d d' : db_step d d' -> (0 <= db_rev d)%Z -> db_wf d ->
  (0 <= db_rev d')%Z /\ db_wf d'.
Proof.
  intros Hs Hr Hd. destruct Hs as [d k v l|d k|d l]; cbn.
  - split; [lia|]. by apply db_put_wf.
  - unfold db_delete. destruct (db_kvs d !! k); [|done]. cbn. split; [lia|].
    intros k' kv. cbn. rewrite lookup_delete_Some. intros [_ H].
    destruct (Hd _ _ H) as (? & ? & ?). split; [lia|]. done.
  - done.
Qed.

Lemma db_steps_wf d d' : db_steps d d' -> (0 <= db_rev d)%Z -> db_wf d ->
  (0 <= db_rev d')%Z /\ db_wf d'.
Proof.
  induction 1 as [|d d1 d2 Hs _ IH]; [done|]. intros Hr Hd.
  destruct (db_step_wf _ _ Hs Hr Hd). auto.
Qed.

Lemma db_step_key d d' k :
  db_step d d' ->
  (db_rev d <= db_rev d')%Z /\
  (db_kvs d' !! k = db_kvs d !! k \/
   forall kv, db_kvs d' !! k = Some kv -> (db_rev d < kv_ModRevision kv)%Z).
Proof.
  destruct 1 as [d k' v l|d k'|d l]; cbn.
  - split; [lia|]. rewrite lookup_insert. case_decide as E; [right|by left].
    intros kv [= <-]. unfold new_kv. destruct (db_kvs d !! k'); cbn; lia.
  - unfold db_delete. destruct (db_kvs d !! k') eqn:Ek; [|split; [lia|by left]]. cbn.
    split; [lia|]. rewrite lookup_delete. case_decide; [by right|by left].
  - split; [lia|by left].
Qed.

(** Along any history a key is either untouched, or carries a revision newer than
    the start of the history. *)
Lemma db_steps_key d d' k :
  db_steps d d' ->
  (db_rev d <= db_rev d')%Z /\
  (db_kvs d' !! k = db_kvs d !! k \/
   forall kv, db_kvs d' !! k = Some kv -> (db_rev d < kv_ModRevision kv)%Z).
Proof.
  induction 1 as [d|d d1 d2 Hs _ [IHr IH]]; [split; [lia|by left]|].
  destruct (db_step_key _ _ k Hs) as [Hr Hk]. split; [lia|].
  destruct IH as [->|IH]; [done|]. right. intros kv E. specialize (IH kv E). lia.
Qed.

(** A modification revision names one value of the key: no history can bring it
    back with another. *)
Lemma mod_revision_unique d d' k kv kv' :
  db_wf d -> db_steps d d' ->
  db_kvs d !! k = Some kv -> db_kvs d' !! k = Some kv' ->
  kv_ModRevision kv' = kv_ModRevision kv -> kv' = kv.
Proof.
  intros Hw Hs E E' Hm. destruct (db_steps_key _ _ k Hs) as [_ [H|H]]; [congruence|].
  specialize (H _ E'). destruct (Hw _ _ E) as (? & _). lia.
Qed.

(** ** Reference instances *)

Fixpoint retry_ref {W A} (steps : nat) (retriable : error -> bool) (fn : M W A) : M W A := fun w =>
  match steps, fn w with
  | S (S _ as n), (w', Err e) => if retriable e then retry_ref n retriable fn w' else (w', Err e)
  | _, r => r
  end.

Lemma retry_ref_retried {W A} steps retriable (fn : M W A) : forall w,
  0 < steps -> retried retriable fn steps w (retry_ref steps retriable fn w).
Proof.
  induction steps as [|n IH]; intros w Hs; [lia|]. destruct n as [|n].
  - apply retried_last. cbn. by destruct (fn w) as [? []].
  - change (retried retriable fn (S (S n)) w
      (match fn w with
       | (w', Err e) => if retriable e then retry_ref (S n) retriable fn w' else (w', Err e)
       | r => r end)).
    destruct (fn w) as [w' [a|e|p]] eqn:E; [by apply retried_last| |by apply retried_last].
    destruct (retriable e) eqn:Er; [|by apply retried_last].
    eapply retried_again; [done|done|]. apply IH. lia.
Qed.

#[export] Instance RetryLib_ref : RetryLib.
Proof.
  refine {| OnError W A := retry_ref |}.
  - intros W A steps retriable fn w. apply retry_ref_retried.
  - intros W A [|[|n]] retriable fn w w' o Hs E Hr; [lia|cbn; by rewrite E; destruct o|].
    cbn. rewrite E. destruct o as [a|e|p]; [done| |done]. by rewrite (Hr e eq_refl).
Defined.

(** A store shared with other clients whose writes are scheduled: one batch of them
    is applied before each call; after the schedule the store is quiet. *)
Inductive EnvOp := EnvPut (k v : string) | EnvDelete (k : string).

Definition env_op (d : EtcdDb) (o : EnvOp) : EtcdDb :=
  match o with EnvPut k v => db_put d k v None | EnvDelete k => db_delete d k end.

Record RefWorld := mkRefWorld { rw_db : EtcdDb; rw_sched : list (list EnvOp) }.

Definition interfere (w : RefWorld) : RefWorld :=
  match rw_sched w with
  | [] => w
  | ops :: sched => mkRefWorld (fold_left env_op ops (rw_db w)) sched
  end.

Definition on_db {A} (f : EtcdDb -> EtcdDb * A) : M RefWorld A := fun w =>
  let w := interfere w in
  let (d, a) := f (rw_db w) in (mkRefWorld d (rw_sched w), Ok a).

Lemma env_ops_steps ops d : db_steps d (fold_left env_op ops d).
Proof.
  revert d. induction ops as [|o ops IH]; intros d; [done|]. cbn.
  eapply rtc_l; [|apply IH]. destruct o; constructor.
Qed.

Lemma interfere_steps w : db_steps (rw_db w) (rw_db (interfere w)).
Proof. unfold interfere. destruct (rw_sched w); [done|]. apply env_ops_steps. Qed.

Definition fresh_lease (d : EtcdDb) : Z := Z.of_nat (S (set_fold (fun z n => Z.to_nat z + n) 0 (dom (db_leases d)))).

#[export] Instance RefWorld_etcd : EtcdClient RefWorld.
Proof.
  refine {|
    db := rw_db;
    etcd_Get k := on_db (fun d => (d, option_list (db_kvs d !! k)));
    etcd_GetPrefix p := on_db (fun d => (d, (db_rev d, db_range d p)));
    etcd_Put k v l := on_db (fun d => (db_put d k v (Some l), tt));
    etcd_Delete k := on_db (fun d => (db_delete d k, if db_kvs d !! k then 1 else 0)%Z);
    etcd_TxnPut k c v l := on_db (fun d =>
      let d' := if cmp_holds d k c then db_put d k v l else d in
      (d', mkTxnResponse (cmp_holds d k c) (db_rev d')));
    etcd_Grant ttl := on_db (fun d =>
      (db_set_leases d (<[fresh_lease d := ttl]> (db_leases d)), fresh_lease d));
    etcd_Revoke id := on_db (fun d => (db_set_leases d (delete id (db_leases d)), tt));
    etcd_TimeToLive id := on_db (fun d => (d, default (-1)%Z (db_leases d !! id)));
    ev_IsCreate e := bool_decide (ev_Type e = PUT) &&
      (kv_CreateRevision (ev_Kv e) =? kv_ModRevision (ev_Kv e))%Z;
    ev_IsModify e := bool_decide (ev_Type e = PUT) &&
      negb (kv_CreateRevision (ev_Kv e) =? kv_ModRevision (ev_Kv e))%Z |}.
  9: intros e; rewrite andb_true_iff, bool_decide_eq_true, Z.eqb_eq; done.
  9: intros e; rewrite andb_true_iff, negb_true_iff, bool_decide_eq_true, Z.eqb_neq; done.
  all: intros *; unfold on_db; intros H; simplify_eq/=; pose proof interfere_steps.
  - eauto.
  - eauto.
  - eauto.
  - eauto.
  - eexists. split; [by eauto|]. done.
  - split; [|split; [apply lookup_insert_eq | done]].
    eapply rtc_r; [by eauto|constructor].
  - split; [|done]. eapply rtc_r; [by eauto|constructor].
  - eauto.
Defined.
