(* ===== verification/Base64.v ===== *)
(** encoding/base64 of Go's standard library: the padded standard alphabet
    ([StdEncoding]) and the unpadded URL alphabet ([RawURLEncoding]). *)

From S2P Require Import Prelude GoStd.
From Stdlib Require Import Ascii.

Local Open Scope string_scope.

Record Encoding := mkEncoding { enc_62 : ascii; enc_63 : ascii; enc_pad : bool }.

Definition StdEncoding : Encoding := mkEncoding "+" "/" true.
Definition RawURLEncoding : Encoding := mkEncoding "-" "_" false.

Definition pad_char : ascii := "=".

(** The character of a 6-bit digit. *)
Definition b64_char (e : Encoding) (n : Z) : ascii :=
  if (n <? 26)%Z then chr (Z.to_nat (65 + n))
  else if (n <? 52)%Z then chr (Z.to_nat (71 + n))
  else if (n <? 62)%Z then chr (Z.to_nat (n - 4))
  else if (n =? 62)%Z then enc_62 e
  else enc_63 e.

Definition b64_value (e : Encoding) (c : ascii) : option Z :=
  let n := Z.of_nat (ord c) in
  if ((65 <=? n) && (n <=? 90))%Z then Some (n - 65)%Z
  else if ((97 <=? n) && (n <=? 122))%Z then Some (n - 71)%Z
  else if ((48 <=? n) && (n <=? 57))%Z then Some (n + 4)%Z
  else if decide (c = enc_62 e) then Some 62%Z
  else if decide (c = enc_63 e) then Some 63%Z
  else None.

Definition padding (e : Encoding) (n : nat) : string :=
  if enc_pad e then Repeat (String pad_char "") n else "".

(** [EncodeToString]: three bytes are four digits; the rest is padded. *)
Fixpoint EncodeToString (e : Encoding) (bs : list byte) : string :=
  match bs with
  | [] => ""
  | [a] =>
      String (b64_char e (a `div` 4)) (String (b64_char e (a `mod` 4 * 16)) (padding e 2))
  | [a; b] =>
      String (b64_char e (a `div` 4)) (String (b64_char e (a `mod` 4 * 16 + b `div` 16))
        (String (b64_char e (b `mod` 16 * 4)) (padding e 1)))
  | a :: b :: c :: bs =>
      String (b64_char e (a `div` 4)) (String (b64_char e (a `mod` 4 * 16 + b `div` 16))
        (String (b64_char e (b `mod` 16 * 4 + c `div` 64)) (String (b64_char e (c `mod` 64))
          (EncodeToString e bs))))
  end.

Definition CorruptInputError : error := ErrorString "illegal base64 data".

(** The two or three digits a final group may have, given how it ends. *)
Definition decode_tail (e : Encoding) (s : string) : outcome (list byte) :=
  let finish (ds : string) (pads : nat) :=
    match ds with
    | String p (String q "") =>
        match b64_value e p, b64_value e q with
        | Some x, Some y =>
            if negb (enc_pad e) || (pads =? 2)%nat then Ok [(x * 4 + y `div` 16)%Z]
            else Err CorruptInputError
        | _, _ => Err CorruptInputError
        end
    | String p (String q (String r "")) =>
        match b64_value e p, b64_value e q, b64_value e r with
        | Some x, Some y, Some z =>
            if negb (enc_pad e) || (pads =? 1)%nat
            then Ok [(x * 4 + y `div` 16)%Z; (y `mod` 16 * 16 + z `div` 4)%Z]
            else Err CorruptInputError
        | _, _, _ => Err CorruptInputError
        end
    | _ => Err CorruptInputError
    end in
  match s with
  | "" => Ok []
  | String p (String q (String r (String t ""))) =>
      if enc_pad e && bool_decide (t = pad_char) then
        if decide (r = pad_char) then finish (String p (String q "")) 2
        else finish (String p (String q (String r ""))) 1
      else Err CorruptInputError
  | _ => finish s 0
  end.

(** [DecodeString].  Groups of four digits are decoded as long as none of the four
    is padding; what is left is the tail.  The newlines the decoder skips are not
    modelled: the input is always an encoder's output. *)
Fixpoint DecodeString (e : Encoding) (s : string) : outcome (list byte) :=
  match s with
  | String p (String q (String r (String t rest))) =>
      match b64_value e p, b64_value e q, b64_value e r, b64_value e t with
      | Some x, Some y, Some z, Some u =>
          let? bs := DecodeString e rest in
          Ok ((x * 4 + y `div` 16) :: (y `mod` 16 * 16 + z `div` 4) :: (z `mod` 4 * 64 + u) :: bs)%Z
      | _, _, _, _ => decode_tail e s
      end
  | _ => decode_tail e s
  end.

(** ** Round trip *)

(** An alphabet whose two variable characters are not letters, digits or padding
    and differ. *)
Definition enc_ok (e : Encoding) : bool :=
  forallb (fun n => bool_decide (b64_value e (b64_char e n) = Some n)) (Z.of_nat <$> seq 0 64) &&
  bool_decide (b64_value e pad_char = None).

Lemma b64_value_char e n :
  enc_ok e = true -> (0 <= n < 64)%Z -> b64_value e (b64_char e n) = Some n.
Proof.
  intros [H _]%andb_true_iff Hn. rewrite forallb_elem in H. eapply bool_decide_eq_true_1, H.
  apply list_elem_of_fmap. exists (Z.to_nat n). rewrite elem_of_seq. lia.
Qed.

Lemma b64_value_pad e : enc_ok e = true -> b64_value e pad_char = None.
Proof. intros [_ H]%andb_true_iff. by apply bool_decide_eq_true in H. Qed.

Lemma b64_char_pad e n : enc_ok e = true -> (0 <= n < 64)%Z -> b64_char e n <> pad_char.
Proof. intros He Hn E. pose proof (b64_value_char e n He Hn) as H. by rewrite E, b64_value_pad in H. Qed.

Lemma b64_digits a : is_byte a ->
  (0 <= a `div` 4 < 64)%Z /\ (0 <= a `mod` 4 < 4)%Z /\ (0 <= a `div` 16 < 16)%Z /\
  (0 <= a `mod` 16 < 16)%Z /\ (0 <= a `div` 64 < 4)%Z /\ (0 <= a `mod` 64 < 64)%Z.
Proof.
  unfold is_byte. intros H.
  repeat split; try apply Z.mod_pos_bound; try apply Z.div_pos; try apply Z.div_lt_upper_bound; lia.
Qed.

Lemma b64_byte1 a q : (0 <= q < 16)%Z -> (a `div` 4 * 4 + (a `mod` 4 * 16 + q) `div` 16 = a)%Z.
Proof.
  intros H. rewrite Z.div_add_l, (Z.div_small q 16) by lia. pose proof (Z.div_mod a 4). lia.
Qed.

Lemma b64_byte2 a b q : (0 <= q < 4)%Z -> (0 <= b `div` 16 < 16)%Z ->
  ((a * 16 + b `div` 16) `mod` 16 * 16 + (b `mod` 16 * 4 + q) `div` 4 = b)%Z.
Proof.
  intros H Hb. rewrite (Z.add_comm (a * 16)), Z.mod_add, Z.mod_small by lia.
  rewrite Z.div_add_l, (Z.div_small q 4) by lia. pose proof (Z.div_mod b 16). lia.
Qed.

Lemma b64_byte3 b c : (0 <= c `div` 64 < 4)%Z ->
  ((b * 4 + c `div` 64) `mod` 4 * 64 + c `mod` 64 = c)%Z.
Proof.
  intros H. rewrite (Z.add_comm (b * 4)), Z.mod_add, Z.mod_small by lia.
  pose proof (Z.div_mod c 64). lia.
Qed.

Lemma list_ind3 {A} (P : list A -> Prop) :
  P [] -> (forall a, P [a]) -> (forall a b, P [a; b]) ->
  (forall a b c l, P l -> P (a :: b :: c :: l)) -> forall l, P l.
Proof.
  intros H0 H1 H2 H3. fix IH 1. intros [|a [|b [|c l]]]; [apply H0|apply H1|apply H2|]. apply H3, IH.
Qed.

(** Decoding of one full group, and of the two tails. *)
Lemma decode_group e x y z u s :
  enc_ok e = true -> (0 <= x < 64)%Z -> (0 <= y < 64)%Z -> (0 <= z < 64)%Z -> (0 <= u < 64)%Z ->
  DecodeString e (String (b64_char e x) (String (b64_char e y)
                   (String (b64_char e z) (String (b64_char e u) s)))) =
  (let? bs := DecodeString e s in
   Ok ((x * 4 + y `div` 16) :: (y `mod` 16 * 16 + z `div` 4) :: (z `mod` 4 * 64 + u) :: bs)%Z).
Proof. intros He Hx Hy Hz Hu. cbn [DecodeString]. by rewrite !b64_value_char. Qed.

Lemma decode_tail2 e x y :
  enc_ok e = true -> (0 <= x < 64)%Z -> (0 <= y < 64)%Z ->
  DecodeString e (String (b64_char e x) (String (b64_char e y) (padding e 2))) =
  Ok [(x * 4 + y `div` 16)%Z].
Proof.
  intros He Hx Hy. unfold padding. destruct (enc_pad e) eqn:Ep.
  - change (Repeat (String pad_char "") 2) with (String pad_char (String pad_char "")).
    cbn [DecodeString]. rewrite (b64_value_pad e He), !b64_value_char by done.
    unfold decode_tail. rewrite Ep, bool_decide_eq_true_2 by done. cbn [andb].
    rewrite decide_True by done. by rewrite !b64_value_char.
  - cbn [DecodeString decode_tail]. unfold decode_tail. by rewrite !b64_value_char, Ep.
Qed.

Lemma decode_tail3 e x y z :
  enc_ok e = true -> (0 <= x < 64)%Z -> (0 <= y < 64)%Z -> (0 <= z < 64)%Z ->
  DecodeString e (String (b64_char e x) (String (b64_char e y) (String (b64_char e z) (padding e 1)))) =
  Ok [(x * 4 + y `div` 16)%Z; (y `mod` 16 * 16 + z `div` 4)%Z].
Proof.
  intros He Hx Hy Hz. unfold padding. destruct (enc_pad e) eqn:Ep.
  - change (Repeat (String pad_char "") 1) with (String pad_char "").
    cbn [DecodeString]. rewrite (b64_value_pad e He), !b64_value_char by done.
    unfold decode_tail. rewrite Ep, bool_decide_eq_true_2 by done. cbn [andb].
    rewrite decide_False by (by apply b64_char_pad). by rewrite !b64_value_char.
  - cbn [DecodeString]. unfold decode_tail. by rewrite !b64_value_char, Ep.
Qed.

Lemma base64_roundtrip e bs :
  enc_ok e = true -> Forall is_byte bs -> DecodeString e (EncodeToString e bs) = Ok bs.
Proof.
  intros He. induction bs as [|a|a b|a b c bs IH] using list_ind3; intros Hb; [done| | |].
  - apply Forall_cons_1 in Hb as [Ha _]. pose proof (b64_digits a Ha).
    cbn [EncodeToString]. rewrite decode_tail2 by (assumption || lia).
    do 2 f_equal. rewrite <- (b64_byte1 a 0) at 3 by lia. by rewrite Z.add_0_r.
  - apply Forall_cons_1 in Hb as [Ha [Hb _]%Forall_cons_1].
    pose proof (b64_digits a Ha). pose proof (b64_digits b Hb).
    cbn [EncodeToString]. rewrite decode_tail3 by (assumption || lia).
    rewrite b64_byte1 by lia. rewrite <- (Z.add_0_r (b `mod` 16 * 4)), b64_byte2 by lia. done.
  - apply Forall_cons_1 in Hb as [Ha [Hb [Hc Hbs]%Forall_cons_1]%Forall_cons_1].
    pose proof (b64_digits a Ha). pose proof (b64_digits b Hb). pose proof (b64_digits c Hc).
    cbn [EncodeToString]. rewrite decode_group by (assumption || lia). rewrite IH by done. cbn [obind].
    rewrite b64_byte1, b64_byte2, b64_byte3 by lia. done.
Qed.

Lemma StdEncoding_ok : enc_ok StdEncoding = true.
Proof. vm_compute. reflexivity. Qed.
Lemma RawURLEncoding_ok : enc_ok RawURLEncoding = true.
Proof. vm_compute. reflexivity. Qed.

(** The URL alphabet has neither dots, colons, quotes nor spaces. *)
Definition url_char (c : ascii) : bool :=
  in_range 48 57 c || in_range 65 90 c || in_range 97 122 c ||
  bool_decide (c = "-"%char) || bool_decide (c = "_"%char).

Lemma b64_char_url n : (0 <= n < 64)%Z -> url_char (b64_char RawURLEncoding n) = true.
Proof.
  intros Hn. assert (n ∈ seqZ 0 64) as Hin by (apply elem_of_seqZ; lia).
  assert (forallb (fun n => url_char (b64_char RawURLEncoding n)) (seqZ 0 64) = true) as Hall
    by (vm_compute; reflexivity).
  rewrite forallb_elem in Hall. by apply Hall.
Qed.

Lemma EncodeToString_url bs :
  Forall is_byte bs -> str_all url_char (EncodeToString RawURLEncoding bs) = true.
Proof.
  induction bs as [|a|a b|a b c bs IH] using list_ind3; intros Hb; [done| | |];
    repeat match goal with H : Forall _ (_ :: _) |- _ => apply Forall_cons_1 in H as [? H] end;
    repeat match goal with H : is_byte ?x |- _ => pose proof (b64_digits x H); clear H end;
    cbn [EncodeToString str_all]; rewrite !b64_char_url by lia; [done|done|].
  cbn [andb]. by apply IH.
Qed.

(** A character outside the alphabet does not occur. *)
Lemma EncodeToString_no_char c bs :
  url_char c = false -> Forall is_byte bs -> no_char c (EncodeToString RawURLEncoding bs) = true.
Proof.
  intros Hc Hb. unfold no_char. eapply str_all_impl; [|by apply EncodeToString_url].
  intros d Hd. rewrite negb_true_iff, bool_decide_eq_false. intros ->. congruence.
Qed.

(** The standard alphabet, padding included. *)
Definition std_char (c : ascii) : bool :=
  in_range 48 57 c || in_range 65 90 c || in_range 97 122 c ||
  bool_decide (c = "+"%char) || bool_decide (c = "/"%char) || bool_decide (c = pad_char).

Lemma b64_char_std n : (0 <= n < 64)%Z -> std_char (b64_char StdEncoding n) = true.
Proof.
  intros Hn. assert (n ∈ seqZ 0 64) as Hin by (apply elem_of_seqZ; lia).
  assert (forallb (fun n => std_char (b64_char StdEncoding n)) (seqZ 0 64) = true) as Hall
    by (vm_compute; reflexivity).
  rewrite forallb_elem in Hall. by apply Hall.
Qed.

Lemma EncodeToString_std bs :
  Forall is_byte bs -> str_all std_char (EncodeToString StdEncoding bs) = true.
Proof.
  induction bs as [|a|a b|a b c bs IH] using list_ind3; intros Hb; [done| | |];
    repeat match goal with H : Forall _ (_ :: _) |- _ => apply Forall_cons_1 in H as [? H] end;
    repeat match goal with H : is_byte ?x |- _ => pose proof (b64_digits x H); clear H end;
    cbn [EncodeToString str_all]; rewrite !b64_char_std by lia; [done|done|].
  cbn [andb]. by apply IH.
Qed.
