(* ===== verification/Tokens.v ===== *)
(** pkg/tokens: bootstrap tokens, their textual forms and their detached
    signatures. *)

From S2P Require Import Prelude GoStd Base64 Validation CoreV1.
From Stdlib Require Import Ascii.

Local Open Scope string_scope.

Definition ErrMalformedToken : error := ErrorString "malformed token".

Record Token := mkToken { tok_ID : list byte; tok_Secret : list byte }.

#[export] Instance Token_eq_dec : EqDecision Token.
Proof. solve_decision. Defined.

Definition EncodeHex (t : Token) : string := hex_Encode (tok_ID t) +:+ "." +:+ hex_Encode (tok_Secret t).
Definition HexID (t : Token) : string := hex_Encode (tok_ID t).
Definition HexSecret (t : Token) : string := hex_Encode (tok_Secret t).
Definition Token_Reference (t : Token) : Reference := mkReference (HexID t).

(** crypto/sha256: 32 bytes. *)
Class Sha256 := {
  Sum256 : list byte -> list byte;
  Sum256_length buf : length (Sum256 buf) = 32;
  Sum256_bytes buf : Forall is_byte (Sum256 buf) }.

(** [NewToken] on what the entropy source yields for a 256-byte buffer; a source
    that fails makes it panic. *)
Definition NewToken `{Sha256} (entropy : outcome (list byte)) : outcome Token :=
  match entropy with
  | Ok buf => let sum := Sum256 buf in Ok (mkToken (take 6 sum) (drop 6 sum))
  | Err _ => Panic "failed to read entropy"
  | Panic p => Panic p
  end.

Definition hex_EncodedLen (n : nat) : nat := n * 2.

Definition malformed {A} (o : outcome A) : outcome A := omap_err (fun _ => ErrMalformedToken) o.

Definition ParseHex (str : string) : outcome Token :=
  match Split "."%char str with
  | [p0; p1] =>
      if negb (String.length p0 =? hex_EncodedLen 6)%nat || negb (String.length p1 =? hex_EncodedLen 26)%nat
      then Err ErrMalformedToken
      else
        let? id := malformed (hex_Decode p0) in
        fail_if (negb (length id =? 6)%nat) ErrMalformedToken ;?
        let? secret := malformed (hex_Decode p1) in
        fail_if (negb (length secret =? 26)%nat) ErrMalformedToken ;?
        Ok (mkToken id secret)
  | _ => Err ErrMalformedToken
  end.

(** ** conversion.go *)

Definition FromBootstrapToken (t : BootstrapToken) : outcome Token :=
  let? decodedID := hex_Decode (bt_TokenID t) in
  let? decodedSecret := hex_Decode (bt_Secret t) in
  Ok (mkToken decodedID decodedSecret).

Definition ToBootstrapToken (t : Token) : BootstrapToken :=
  mkBootstrapToken (HexID t) (HexSecret t) (Some zeroTokenMetadata).

(** ** Detached signatures *)

(** [json.Marshal] of a token: byte slices are base64 strings, an empty secret is
    omitted. *)
Definition quote (s : string) : string := String (chr 34) (s +:+ String (chr 34) "").

Definition token_json (t : Token) : string :=
  "{" +:+ quote "id" +:+ ":" +:+ quote (EncodeToString StdEncoding (tok_ID t)) +:+
  (if decide (tok_Secret t = []) then ""
   else "," +:+ quote "secret" +:+ ":" +:+ quote (EncodeToString StdEncoding (tok_Secret t))) +:+ "}".

Definition str_bytes (s : string) : list byte :=
  (fun c => Z.of_nat (ord c)) <$> String.list_ascii_of_string s.

Definition payload_of (t : Token) : string := EncodeToString RawURLEncoding (str_bytes (token_json t)).

(** Key types as [SignDetached] distinguishes them. *)
Inductive Key := Ed25519PrivateKey (seed : list byte) | Ed25519PublicKey (pub : list byte) | OtherKey.

(** github.com/lestrrat-go/jwx/jws with EdDSA: [Sign] produces the compact form
    header.payload.signature, and [Verify] accepts it under the public key of the
    signer. *)
Class JWS := {
  jws_Sign : string -> Key -> outcome string;
  jws_Verify : string -> Key -> outcome string;
  public_of : Key -> Key;
  jws_Sign_compact payload k m : jws_Sign payload k = Ok m ->
    exists h s, m = h +:+ "." +:+ EncodeToString RawURLEncoding (str_bytes payload) +:+ "." +:+ s /\
      str_all url_char h = true /\ str_all url_char s = true;
  jws_Sign_Ok payload seed : is_Ok (jws_Sign payload (Ed25519PrivateKey seed)) = true;
  jws_Verify_Sign payload k m : jws_Sign payload k = Ok m ->
    jws_Verify m (public_of k) = Ok payload }.

(** [bytes.IndexByte] and [bytes.LastIndexByte], [None] for -1. *)
Fixpoint IndexByte (c : ascii) (s : string) : option nat :=
  match s with
  | EmptyString => None
  | String d s => if decide (c = d) then Some 0 else S <$> IndexByte c s
  end.

Fixpoint LastIndexByte (c : ascii) (s : string) : option nat :=
  match s with
  | EmptyString => None
  | String d s =>
      match LastIndexByte c s with
      | Some i => Some (S i)
      | None => if decide (c = d) then Some 0 else None
      end
  end.

Section Detached.
Context `{JWS}.

(** Slicing a JWS that lacks a dot: [sig[:0]] is empty and [sig[-1:]] panics. *)
Definition SignDetached (t : Token) (key : Key) : outcome string :=
  match key with
  | Ed25519PrivateKey _ =>
      let? sig := jws_Sign (token_json t) key in
      match IndexByte "."%char sig, LastIndexByte "."%char sig with
      | Some first, Some last => Ok (take_str (first + 1) sig +:+ drop_str last sig)
      | _, _ => Panic "slice bounds out of range"
      end
  | _ => Err (ErrorString "invalid key type, expected ed25519.PrivateKey")
  end.

Definition VerifyDetached (t : Token) (sig : string) (key : Key) : outcome string :=
  match IndexByte "."%char sig, LastIndexByte "."%char sig with
  | Some first, Some last =>
      let fullToken := take_str (first + 1) sig +:+ payload_of t +:+ drop_str last sig in
      let? _ := jws_Verify fullToken key in
      Ok fullToken
  | _, _ => Err ErrMalformedToken
  end.
End Detached.

(** ** Properties *)

Definition token_wf (t : Token) : Prop :=
  length (tok_ID t) = 6 /\ length (tok_Secret t) = 26 /\
  Forall is_byte (tok_ID t) /\ Forall is_byte (tok_Secret t).

Definition is_hex (c : ascii) : bool := in_range 48 57 c || in_range 97 102 c.

Lemma hex_digit_is_hex n : (0 <= n < 16)%Z -> is_hex (hex_digit n) = true.
Proof.
  intros Hn.
  assert (forallb (fun n => is_hex (hex_digit n)) (Z.of_nat <$> seq 0 16) = true) as H
    by (vm_compute; reflexivity).
  rewrite forallb_elem in H. apply H. apply list_elem_of_fmap. exists (Z.to_nat n).
  rewrite elem_of_seq. lia.
Qed.

Lemma hex_Encode_hex bs : Forall is_byte bs -> str_all is_hex (hex_Encode bs) = true.
Proof.
  induction 1 as [|b bs Hb _ IH]; cbn; [done|]. unfold is_byte in Hb.
  rewrite !hex_digit_is_hex, IH; [done|apply Z.mod_pos_bound; lia|].
  split; [apply Z.div_pos|apply Z.div_lt_upper_bound]; lia.
Qed.

Lemma hex_no_char c s : is_hex c = false -> str_all is_hex s = true -> no_char c s = true.
Proof.
  intros Hc. unfold no_char. apply str_all_impl. intros d Hd.
  apply negb_true_iff, bool_decide_eq_false. congruence.
Qed.

Lemma hex_value_byte a b x y : hex_value a = Some x -> hex_value b = Some y -> is_byte (16 * x + y)%Z.
Proof.
  assert (forall c z, hex_value c = Some z -> (0 <= z < 16)%Z) as Hv.
  { intros c z. unfold hex_value.
    destruct ((48 <=? _) && _)%Z eqn:E1; [intros [= <-]; lia|].
    destruct ((97 <=? _) && _)%Z eqn:E2; [intros [= <-]; lia|].
    destruct ((65 <=? _) && _)%Z eqn:E3; [intros [= <-]; lia|done]. }
  intros Ha%Hv Hb%Hv. unfold is_byte. lia.
Qed.

Lemma hex_Decode_bytes s : forall bs, hex_Decode s = Ok bs -> Forall is_byte bs.
Proof.
  enough (forall n s, String.length s <= n -> forall bs, hex_Decode s = Ok bs -> Forall is_byte bs)
    by (intros; eauto).
  clear s. induction n as [|n IH]; intros [|a [|b s]] Hl bs; cbn in *; try lia; try (by intros [= <-]).
  destruct (hex_value a) eqn:Ea; [|done]. destruct (hex_value b) eqn:Eb; [|done].
  destruct (hex_Decode s) eqn:Es; cbn; [|done|done]. intros [= <-].
  constructor; [by eapply hex_value_byte|]. eapply IH; [|done]. lia.
Qed.

Lemma split_encoded t : token_wf t ->
  Split "."%char (EncodeHex t) = [hex_Encode (tok_ID t); hex_Encode (tok_Secret t)].
Proof.
  intros (_ & _ & Hi & Hs). unfold EncodeHex.
  change (hex_Encode (tok_ID t) +:+ "." +:+ hex_Encode (tok_Secret t))
    with (hex_Encode (tok_ID t) +:+ String "." (hex_Encode (tok_Secret t))).
  rewrite Split_app, !Split_no_char; [done| |]; apply hex_no_char; try done; by apply hex_Encode_hex.
Qed.

Lemma ParseHex_EncodeHex t : token_wf t -> ParseHex (EncodeHex t) = Ok t.
Proof.
  intros Hw. unfold ParseHex. rewrite split_encoded by done.
  destruct Hw as (Hi & Hs & Hbi & Hbs).
  rewrite !hex_Encode_length, Hi, Hs. cbn.
  rewrite !hex_roundtrip by done. cbn. rewrite Hi. cbn. rewrite Hs. cbn. by destruct t.
Qed.

Lemma ParseHex_wf s t : ParseHex s = Ok t -> token_wf t.
Proof.
  unfold ParseHex. destruct (Split _ s) as [|p0 [|p1 [|]]]; try done.
  destruct (_ || _); [done|]. intros H.
  destruct (hex_Decode p0) as [id|e|p] eqn:E0; cbn in H; [|done|done].
  destruct (length id =? 6)%nat eqn:L0; cbn in H; [|done].
  destruct (hex_Decode p1) as [sec|e|p] eqn:E1; cbn in H; [|done|done].
  destruct (length sec =? 26)%nat eqn:L1; cbn in H; [|done]. simplify_eq.
  apply Nat.eqb_eq in L0, L1. repeat split; cbn; eauto using hex_Decode_bytes.
Qed.

Lemma NewToken_wf `{Sha256} buf : exists t, NewToken (Ok buf) = Ok t /\ token_wf t.
Proof.
  eexists. split; [done|]. unfold token_wf. cbn.
  rewrite length_take, length_drop, Sum256_length. pose proof (Sum256_bytes buf).
  repeat split; [by apply Forall_take|by apply Forall_drop].
Qed.

(** *** Detached signatures *)

Lemma no_char_cons c d s :
  no_char c (String d s) = true <-> c <> d /\ no_char c s = true.
Proof.
  unfold no_char. cbn. by rewrite andb_true_iff, negb_true_iff, bool_decide_eq_false.
Qed.

Lemma IndexByte_app c h x : no_char c h = true -> IndexByte c (h +:+ String c x) = Some (String.length h).
Proof.
  induction h as [|d h IH]; intros Hh.
  - rewrite str_app_nil. cbn. by rewrite decide_True.
  - apply no_char_cons in Hh as [Hd Hh]. rewrite str_app_cons. cbn.
    rewrite decide_False by done. by rewrite IH.
Qed.

Lemma LastIndexByte_none c s : no_char c s = true -> LastIndexByte c s = None.
Proof.
  induction s as [|d s IH]; [done|]. intros [Hd Hs]%no_char_cons. cbn.
  rewrite IH by done. by rewrite decide_False.
Qed.

Lemma LastIndexByte_app c x s :
  no_char c s = true -> LastIndexByte c (x +:+ String c s) = Some (String.length x).
Proof.
  intros Hs. induction x as [|d x IH].
  - rewrite str_app_nil. cbn. rewrite LastIndexByte_none by done. by rewrite decide_True.
  - rewrite str_app_cons. cbn. by rewrite IH.
Qed.

Lemma take_str_app h x : take_str (String.length h) (h +:+ x) = h.
Proof. induction h as [|d h IH]; [by destruct x|]. rewrite str_app_cons. cbn. by rewrite IH. Qed.

Definition dotted (h p s : string) : string := h +:+ String "." (p +:+ String "." s).

Lemma dotted_eq h p s : h +:+ "." +:+ p +:+ "." +:+ s = dotted h p s.
Proof. done. Qed.

(** Cutting around the dots and putting a payload between them. *)
Lemma dotted_cut h p s :
  no_char "."%char h = true -> no_char "."%char s = true ->
  IndexByte "."%char (dotted h p s) = Some (String.length h) /\
  LastIndexByte "."%char (dotted h p s) = Some (String.length h + 1 + String.length p) /\
  take_str (String.length h + 1) (dotted h p s) = h +:+ "." /\
  drop_str (String.length h + 1 + String.length p) (dotted h p s) = String "." s.
Proof.
  intros Hh Hs.
  assert (dotted h p s = ((h +:+ ".") +:+ p) +:+ String "." s) as E
    by (unfold dotted; by rewrite !str_app_assoc).
  assert (String.length h + 1 + String.length p = String.length ((h +:+ ".") +:+ p)) as L
    by (rewrite !str_length_app; cbn; lia).
  split; [by apply IndexByte_app|]. split; [by rewrite E, L, LastIndexByte_app|].
  split; [|by rewrite E, L, drop_str_app].
  replace (String.length h + 1) with (String.length (h +:+ ".")) by (rewrite str_length_app; cbn; lia).
  rewrite E, str_app_assoc. apply take_str_app.
Qed.

Lemma url_no_dot s : str_all url_char s = true -> no_char "."%char s = true.
Proof.
  intros Hs. unfold no_char. eapply str_all_impl; [|exact Hs]. intros d Hd.
  rewrite negb_true_iff, bool_decide_eq_false. by intros <-.
Qed.

Lemma detached_message `{JWS} t k m :
  jws_Sign (token_json t) k = Ok m ->
  exists h s, m = dotted h (payload_of t) s /\
    no_char "."%char h = true /\ no_char "."%char s = true.
Proof.
  intros Hm. destruct (jws_Sign_compact _ _ _ Hm) as (h & s & -> & ? & ?). exists h, s.
  split; [done|]. by split; apply url_no_dot.
Qed.

Lemma detached_roundtrip `{JWS} (t : Token) (seed : list byte) (m : string) :
  jws_Sign (token_json t) (Ed25519PrivateKey seed) = Ok m ->
  exists sig h s, SignDetached t (Ed25519PrivateKey seed) = Ok sig /\
    sig = dotted h "" s /\ m = dotted h (payload_of t) s /\
    VerifyDetached t sig (public_of (Ed25519PrivateKey seed)) = Ok m.
Proof.
  intros Hm. destruct (detached_message _ _ _ Hm) as (h & s & E & Hh & Hs).
  exists (dotted h "" s), h, s. unfold SignDetached, VerifyDetached. rewrite Hm. cbn [obind].
  destruct (dotted_cut h (payload_of t) s Hh Hs) as (I1 & I2 & I3 & I4).
  destruct (dotted_cut h "" s Hh Hs) as (J1 & J2 & J3 & J4).
  rewrite E, I1, I2, I3, I4, J1, J2, J3, J4. split; [|split; [done|split; [done|]]].
  - unfold dotted. by rewrite str_app_assoc.
  - rewrite str_app_assoc.
    replace (h +:+ "." +:+ payload_of t +:+ String "." s) with m by (rewrite E; done).
    rewrite (jws_Verify_Sign _ _ _ Hm). cbn. by rewrite E.
Qed.

(** A detached signature carries the JWS without its payload, and verifying it
    with the token it was made for rebuilds the original JWS bit for bit and
    accepts it. *)
Lemma VerifyDetached_SignDetached `{JWS} (t : Token) (seed : list byte) (m : string) :
  jws_Sign (token_json t) (Ed25519PrivateKey seed) = Ok m ->
  exists sig h s, SignDetached t (Ed25519PrivateKey seed) = Ok sig /\
    sig = dotted h "" s /\ m = dotted h (payload_of t) s /\
    VerifyDetached t sig (public_of (Ed25519PrivateKey seed)) = Ok m.
Proof. apply detached_roundtrip. Qed.

(** A signature scheme with the documented shape: the signature is the seed in
    hexadecimal and the public key names the seed. *)
Definition bytes_str (bs : list byte) : string :=
  String.string_of_list_ascii ((fun b => chr (Z.to_nat b)) <$> bs).

Lemma bytes_str_bytes s : bytes_str (str_bytes s) = s.
Proof.
  unfold bytes_str, str_bytes. rewrite <- list_fmap_compose.
  rewrite <- (String.string_of_list_ascii_of_string s) at 2. f_equal.
  rewrite <- list_fmap_id. apply list_fmap_ext. intros i c _. cbn.
  by rewrite Nat2Z.id, ascii_nat_embedding.
Qed.

Lemma str_bytes_bytes s : Forall is_byte (str_bytes s).
Proof.
  unfold str_bytes. apply Forall_fmap, Forall_true. intros c. cbn. unfold is_byte, ord.
  pose proof (nat_ascii_bounded c). lia.
Qed.

Definition toy_seal (seed : list byte) : string :=
  hex_Encode ((fun b => b `mod` 256)%Z <$> seed).

Lemma toy_seal_url seed : str_all url_char (toy_seal seed) = true.
Proof.
  eapply str_all_impl; [|apply hex_Encode_hex, Forall_fmap, Forall_true].
  - intros [[] [] [] [] [] [] [] []]; vm_compute; done.
  - intros b. cbn. unfold is_byte. pose proof (Z.mod_pos_bound b 256). lia.
Qed.

Definition toy_Verify (m : string) (k : Key) : outcome string :=
  match Split "."%char m, k with
  | [h; p; s], Ed25519PublicKey seed =>
      if decide (s = toy_seal seed) then
        let? bs := DecodeString RawURLEncoding p in Ok (bytes_str bs)
      else Err (ErrorString "failed to verify")
  | _, _ => Err (ErrorString "failed to verify")
  end.

#[export] Instance JWS_ref : JWS.
Proof.
  refine {|
    jws_Sign payload k :=
      match k with
      | Ed25519PrivateKey seed =>
          Ok (dotted "hdr" (EncodeToString RawURLEncoding (str_bytes payload)) (toy_seal seed))
      | _ => Err (ErrorString "invalid key")
      end;
    jws_Verify := toy_Verify;
    public_of k := match k with Ed25519PrivateKey seed => Ed25519PublicKey seed | k => k end |}.
  - intros payload [seed| |] m [= <-]. exists "hdr", (toy_seal seed).
    split; [done|]. split; [done|]. apply toy_seal_url.
  - done.
  - intros payload [seed| |] m [= <-]. unfold toy_Verify, dotted.
    rewrite !Split_app, (Split_no_char _ _ (url_no_dot _ (toy_seal_url seed))).
    rewrite (Split_no_char _ _ (EncodeToString_no_char "."%char _ eq_refl (str_bytes_bytes payload))).
    change (Split "."%char "hdr") with ["hdr"]. cbn [app]. rewrite decide_True by done.
    rewrite base64_roundtrip by (apply RawURLEncoding_ok || apply str_bytes_bytes).
    cbn. by rewrite bytes_str_bytes.
Defined.

(** Every generated token prints to a 65-character string that parses back to
    it and only strings of a well-formed token parse; the conversion to a stored
    bootstrap token is reversible; and its id is a valid object id. *)
Lemma token_roundtrips `{Sha256} (buf : list byte) :
  exists t, NewToken (Ok buf) = Ok t /\ token_wf t /\
    ParseHex (EncodeHex t) = Ok t /\ String.length (EncodeHex t) = 65 /\
    FromBootstrapToken (ToBootstrapToken t) = Ok t /\
    ValidateID (HexID t) = Ok tt /\
    (forall s t', ParseHex s = Ok t' -> token_wf t').
Proof.
  destruct (NewToken_wf buf) as (t & Ht & Hw). exists t. split; [done|]. split; [done|].
  split; [by apply ParseHex_EncodeHex|]. pose proof Hw as (Hi & Hs & Hbi & Hbs).
  split. { unfold EncodeHex. rewrite !str_length_app, !hex_Encode_length, Hi, Hs. done. }
  split. { unfold FromBootstrapToken. cbn. unfold HexID, HexSecret.
           rewrite !hex_roundtrip by done. cbn. by destruct t. }
  split; [|by intros s t' ?%ParseHex_wf].
  pose proof (hex_Encode_hex _ Hbi) as Hh. pose proof (hex_Encode_length (tok_ID t)) as Hl.
  unfold HexID. rewrite Hi in Hl. change (2 * 6) with 12 in Hl. unfold ValidateID, idRegex. rewrite Hl.
  assert (str_all (fun d => is_alnum d || one_of ["-"; "_"; "."; "("; ")"]%char d)
            (hex_Encode (tok_ID t)) = true) as ->.
  { eapply str_all_impl; [|exact Hh]. intros [[] [] [] [] [] [] [] []]; vm_compute; done. }
  cbn [andb Nat.leb negb]. rewrite decide_False; [done|]. intros E. rewrite <- E in Hh.
  by vm_compute in Hh.
Qed.

(** A stand-in digest: the first 32 bytes of the padded input. *)
#[export] Instance Sha256_ref : Sha256.
Proof.
  refine {| Sum256 buf := take 32 (((fun b => b `mod` 256)%Z <$> buf) ++ replicate 32 0%Z)%list |}.
  - intros buf. rewrite length_take, length_app, length_replicate. lia.
  - intros buf. apply Forall_take, Forall_app. split.
    + apply Forall_fmap, Forall_true. intros b. cbn. unfold is_byte.
      pose proof (Z.mod_pos_bound b 256). lia.
    + apply Forall_replicate. unfold is_byte. lia.
Defined.

