(* ===== verification/RefJSON.v ===== *)
(** Reference instances of the JSON coding interface for the core messages: a
    message is encoded as a number of its countable contents.  They show that the
    interface of [Etcd] can be implemented; nothing in the development depends on
    the particular encoding. *)

From S2P Require Import Prelude GoStd CoreV1 Etcd.
From stdpp Require Import countable.
From Stdlib Require Import DecimalString DecimalZ.

Local Open Scope string_scope.

Section Codec.
Context {T R : Type} `{Countable R}.
Variables (proj : T -> option R) (inj : R -> T).
Hypothesis inj_proj : forall t r, proj t = Some r -> inj r = t.

Definition ref_Marshal (t : T) : outcome string :=
  match proj t with
  | Some r => Ok (Sprint (Z.pos (encode r)))
  | None => Err (ErrorString "unsupported")
  end.

Definition ref_Unmarshal (s : string) : outcome T :=
  match NilZero.int_of_string s with
  | Some d =>
      match Z.of_int d with
      | Z.pos p => match decode p with Some r => Ok (inj r) | None => Err (ErrorString "syntax error") end
      | _ => Err (ErrorString "syntax error")
      end
  | None => Err (ErrorString "syntax error")
  end.

Definition ref_ProtoJSON : ProtoJSON T.
Proof.
  refine {| Marshal := ref_Marshal; Unmarshal := ref_Unmarshal |}.
  - intros t. unfold ref_Marshal. by destruct (proj t).
  - intros s. unfold ref_Unmarshal. destruct (NilZero.int_of_string s) as [d|]; [|done].
    destruct (Z.of_int d); [done| |done]. by destruct (decode p).
  - intros t s. unfold ref_Marshal, ref_Unmarshal. destruct (proj t) as [r|] eqn:E; [|done].
    intros [= <-]. rewrite int_of_string_Sprint, DecimalZ.of_to, decode_encode.
    by rewrite (inj_proj t r E).
Defined.
End Codec.

(** Clusters without connection details. *)
Definition cluster_rep : Type :=
  string * option (gmap string string * list (string * option Z) * string * option Z).

Definition cluster_proj (c : Cluster) : option cluster_rep :=
  match cl_Metadata c with
  | None => Some (cl_Id c, None)
  | Some m =>
      match cm_LastKnownConnectionDetails m with
      | Some _ => None
      | None =>
          Some (cl_Id c, Some (cm_Labels m, (fun cc => (cc_Name cc, cc_DeletionTimestamp cc)) <$> cm_Capabilities m,
                               cm_ResourceVersion m, cm_CreationTimestamp m))
      end
  end.

Definition cluster_inj (r : cluster_rep) : Cluster :=
  mkCluster r.1 ((fun m : gmap string string * list (string * option Z) * string * option Z =>
    mkClusterMetadata m.1.1.1 ((fun p => mkClusterCapability p.1 p.2) <$> m.1.1.2) m.1.2 None m.2) <$> r.2).

Lemma cluster_inj_proj c r : cluster_proj c = Some r -> cluster_inj r = c.
Proof.
  destruct c as [id [[labels caps rv [lk|] ct]|]]; cbn; intros [= <-]; [|done].
  unfold cluster_inj. cbn. do 3 f_equal. rewrite <- list_fmap_compose.
  rewrite <- (list_fmap_id caps) at 2. apply list_fmap_ext. by intros ? [] _.
Qed.

#[export] Instance Cluster_JSON : ProtoJSON Cluster := ref_ProtoJSON cluster_proj cluster_inj cluster_inj_proj.

Definition cap_rep : Type := string * option string.
Definition cap_to (c : TokenCapability) : cap_rep := (tc_Type c, ref_Id <$> tc_Reference c).
Definition cap_of (r : cap_rep) : TokenCapability := mkTokenCapability r.1 (mkReference <$> r.2).

Definition token_rep : Type :=
  string * string * option (Z * Z * Z * gmap string string * list cap_rep * string).

Definition token_proj (t : BootstrapToken) : option token_rep :=
  Some (bt_TokenID t, bt_Secret t,
        (fun m => (btm_LeaseID m, btm_Ttl m, btm_UsageCount m, btm_Labels m,
                   cap_to <$> btm_Capabilities m, btm_ResourceVersion m)) <$> bt_Metadata t).

Definition token_inj (r : token_rep) : BootstrapToken :=
  mkBootstrapToken r.1.1 r.1.2
    ((fun m : Z * Z * Z * gmap string string * list cap_rep * string =>
        mkBootstrapTokenMetadata m.1.1.1.1.1 m.1.1.1.1.2 m.1.1.1.2 m.1.1.2 (cap_of <$> m.1.2) m.2) <$> r.2).

Lemma token_inj_proj t r : token_proj t = Some r -> token_inj r = t.
Proof.
  destruct t as [id sec [[? ? ? ? caps ?]|]]; cbn; intros [= <-]; [|done].
  unfold token_inj. cbn. do 2 f_equal. f_equal. rewrite <- list_fmap_compose.
  rewrite <- (list_fmap_id caps) at 2. apply list_fmap_ext. by intros ? [? [[]|]] _.
Qed.

#[export] Instance BootstrapToken_JSON : ProtoJSON BootstrapToken :=
  ref_ProtoJSON token_proj token_inj token_inj_proj.

Definition role_rep : Type :=
  string * list string * option (gmap string string * list (string * string * list string)).

Definition role_proj (r : Role) : option role_rep :=
  Some (role_Id r, role_ClusterIDs r,
        (fun ls => (ls_MatchLabels ls,
                    (fun q => (lsr_Key q, lsr_Operator q, lsr_Values q)) <$> ls_MatchExpressions ls))
          <$> role_MatchLabels r).

Definition role_inj (r : role_rep) : Role :=
  mkRole r.1.1 r.1.2
    ((fun ls : gmap string string * list (string * string * list string) =>
        mkLabelSelector ls.1 ((fun q : string * string * list string =>
           mkLabelSelectorRequirement q.1.1 q.1.2 q.2) <$> ls.2)) <$> r.2).

Lemma role_inj_proj t r : role_proj t = Some r -> role_inj r = t.
Proof.
  destruct t as [id ids [[labels exprs]|]]; cbn; intros [= <-]; [|done].
  unfold role_inj. cbn. do 3 f_equal. rewrite <- list_fmap_compose.
  rewrite <- (list_fmap_id exprs) at 2. apply list_fmap_ext. by intros ? [] _.
Qed.

#[export] Instance Role_JSON : ProtoJSON Role := ref_ProtoJSON role_proj role_inj role_inj_proj.

Definition rb_proj (rb : RoleBinding) : option (string * string * list string * list string) :=
  Some (rb_Id rb, rb_RoleId rb, rb_Subjects rb, rb_Taints rb).
Definition rb_inj (r : string * string * list string * list string) : RoleBinding :=
  mkRoleBinding r.1.1.1 r.1.1.2 r.1.2 r.2.

Lemma rb_inj_proj t r : rb_proj t = Some r -> rb_inj r = t.
Proof. destruct t; by intros [= <-]. Qed.

#[export] Instance RoleBinding_JSON : ProtoJSON RoleBinding := ref_ProtoJSON rb_proj rb_inj rb_inj_proj.
