(* ===== verification/EtcdStore.v ===== *)
(** pkg/storage/etcd: the etcd storage backend.  The world [W] is whatever the etcd
    client acts on; see [Etcd] for the contract of the client. *)

From S2P Require Import Prelude GoStd Base64 Validation CoreV1 Storage Rbac Etcd Tokens.
From stdpp Require Import relations.

Local Open Scope string_scope.

(** ** etcd.go *)

Definition errRetry : error := ErrorString "the object has been modified, retrying".
Definition isRetryErr (err : error) : bool := errors_Is err errRetry.
Definition defaultBackoff_Steps : nat := 20.

Definition tokensKey : string := "tokens".
Definition clusterKey : string := "clusters".
Definition keyringKey : string := "keyrings".
Definition roleKey : string := "roles".
Definition roleBindingKey : string := "rolebindings".

(** A keyring or key-value store overrides the prefix of the store when it is given
    one of its own. *)
Definition store_prefix (Prefix prefix : string) : string :=
  if decide (prefix = "") then Prefix else prefix.

(** [Truncate(time.Second)] and the conversion of a duration to whole seconds. *)
Definition second : Z := 1000000000.
Definition Truncate_second (t : Time) : Time := (t - t `mod` second)%Z.
Definition int64_Seconds (ttl : Z) : Z := Z.quot ttl second.

Section EtcdStore.
Context {W : Type} `{EtcdClient W} `{RetryLib} `{Sha256}.
Context `{!ProtoJSON Cluster} `{!ProtoJSON BootstrapToken} `{!ProtoJSON Role} `{!ProtoJSON RoleBinding}.
Variable Prefix : string.

(** *** cluster_store.go *)

(** The cluster passed in is updated in place, on failure too: the result carries
    the caller's cluster after the call. *)
Definition CreateCluster (now : Time) (cluster : Cluster) : W -> W * (Cluster * outcome unit) := fun w =>
  let cluster := Clus.SetResourceVersion "" cluster in
  let cluster := Clus.SetCreationTimestamp (Truncate_second now) cluster in
  match Marshal cluster with
  | Err e => (w, (cluster, Err (Wrapped "failed to marshal cluster" e)))
  | Panic p => (w, (cluster, Panic p))
  | Ok data =>
      let key := path_Join [Prefix; clusterKey; cl_Id cluster] in
      match etcd_TxnPut key (CmpVersion 0) data (Some 0%Z) w with
      | (w', Err e) => (w', (cluster, Err (Wrapped "failed to create cluster" e)))
      | (w', Panic p) => (w', (cluster, Panic p))
      | (w', Ok resp) =>
          if negb (txn_Succeeded resp) then (w', (cluster, Err ErrAlreadyExists))
          else (w', (Clus.SetResourceVersion (Sprint (txn_Revision resp)) cluster, Ok tt))
      end
  end.

Definition DeleteCluster (ref : Reference) : M W unit :=
  let! deleted := wrapf "failed to delete cluster"
                    (etcd_Delete (path_Join [Prefix; clusterKey; ref_Id ref])) in
  if (deleted =? 0)%Z then wfail ErrNotFound else wret tt.

Definition ListClusters (matchLabels : option LabelSelector) (matchOptions : MatchOptions)
  : M W (list Cluster) :=
  let! resp := wrapf "failed to list clusters" (etcd_GetPrefix (path_Join [Prefix; clusterKey])) in
  let selectorPredicate := NewSelectorPredicate (mkClusterSelector [] matchLabels matchOptions) in
  wlift
    ((fix loop (kvs : list KeyValue) : outcome (list Cluster) :=
        match kvs with
        | [] => Ok []
        | kv :: kvs =>
            let? cluster := omap_err (Wrapped "failed to unmarshal cluster") (Unmarshal (kv_Value kv)) in
            let? items := loop kvs in
            if selectorPredicate cluster
            then Ok (Clus.SetResourceVersion (Sprint (kv_ModRevision kv)) cluster :: items)
            else Ok items
        end) resp.2).

Definition GetCluster (ref : Reference) : M W Cluster :=
  let! kvs := wrapf "failed to get cluster" (etcd_Get (path_Join [Prefix; clusterKey; ref_Id ref])) in
  match kvs with
  | [] => wfail ErrNotFound
  | kv :: _ =>
      let! cluster := wrapf "failed to unmarshal cluster" (wlift (Unmarshal (kv_Value kv))) in
      wret (Clus.SetResourceVersion (Sprint (kv_ModRevision kv)) cluster)
  end.

(** One attempt of the optimistic update. *)
Definition update_cluster_once (ref : Reference) (mutator : MutatorFunc Cluster) : M W Cluster :=
  let key := path_Join [Prefix; clusterKey; ref_Id ref] in
  let! cluster := wrapf "failed to get cluster" (GetCluster ref) in
  let! revision := wrapf "internal error: cluster has invalid resource version"
                     (wlift (ParseInt (Clus.GetResourceVersion cluster))) in
  let! cluster := wlift (mutator cluster) in
  let cluster := Clus.SetResourceVersion "" cluster in
  let! data := wrapf "failed to marshal cluster" (wlift (Marshal cluster)) in
  let! txnResp := etcd_TxnPut key (CmpModRevision revision) data (Some 0%Z) in
  if negb (txn_Succeeded txnResp) then wfail errRetry
  else wret (Clus.SetResourceVersion (Sprint (txn_Revision txnResp)) cluster).

Definition UpdateCluster (ref : Reference) (mutator : MutatorFunc Cluster) : M W Cluster :=
  OnError defaultBackoff_Steps isRetryErr (update_cluster_once ref mutator).

(** What the goroutine of WatchCluster does with one event: forward a translated
    event, skip it ([None]), or crash on a missing previous value. *)
Definition with_previous (eventType : WatchEventType) (current : option Cluster) (ev : Event)
  : outcome (option (WatchEvent Cluster)) :=
  match ev_PrevKv ev with
  | None => Panic "nil pointer dereference"
  | Some prev =>
      match Unmarshal (kv_Value prev) with
      | Ok previous =>
          Ok (Some (mkWatchEvent eventType current
                      (Some (Clus.SetResourceVersion (Sprint (kv_ModRevision prev)) previous))))
      | Err _ => Ok None
      | Panic p => Panic p
      end
  end.

Definition watch_cluster_event (ev : Event) : outcome (option (WatchEvent Cluster)) :=
  let eventType := match ev_Type ev with DELETE => WatchEventDelete | PUT => WatchEventUpdate end in
  if decide (kv_Version (ev_Kv ev) = 0%Z) then with_previous eventType None ev
  else
    match Unmarshal (kv_Value (ev_Kv ev)) with
    | Ok current =>
        with_previous eventType
          (Some (Clus.SetResourceVersion (Sprint (kv_ModRevision (ev_Kv ev))) current)) ev
    | Err _ => Ok None
    | Panic p => Panic p
    end.

Definition watch_clusters_event (ev : Event) : outcome (option (WatchEvent Cluster)) :=
  let eventType := match ev_Type ev with DELETE => WatchEventDelete | PUT => WatchEventUnset end in
  if ev_IsCreate ev then
    match Unmarshal (kv_Value (ev_Kv ev)) with
    | Ok current =>
        Ok (Some (mkWatchEvent WatchEventCreate
                    (Some (Clus.SetResourceVersion (Sprint (kv_CreateRevision (ev_Kv ev))) current)) None))
    | Err _ => Ok None
    | Panic p => Panic p
    end
  else if ev_IsModify ev then
    match Unmarshal (kv_Value (ev_Kv ev)) with
    | Ok current =>
        with_previous WatchEventUpdate
          (Some (Clus.SetResourceVersion (Sprint (kv_ModRevision (ev_Kv ev))) current)) ev
    | Err _ => Ok None
    | Panic p => Panic p
    end
  else with_previous eventType None ev.

(** The loop of the goroutine over the responses of the watch channel: it ends at
    a failed response, when the channel is closed, or in a crash. *)
Fixpoint watch_loop (translate : Event -> outcome (option (WatchEvent Cluster)))
    (responses : list WatchResponse) : outcome (list (WatchEvent Cluster)) :=
  match responses with
  | [] => Ok []
  | WatchFailed _ :: _ => Ok []
  | WatchEvents evs :: responses =>
      let? out := omapM translate evs in
      let? rest := watch_loop translate responses in
      Ok (omap id out ++ rest)%list
  end.

(** The watch starts after the version of the cluster the caller holds. *)
Definition WatchCluster_start (cluster : Cluster) : outcome (string * Z) :=
  let? version := omap_err (Wrapped "failed to parse resource version")
                    (ParseInt (Clus.GetResourceVersion cluster)) in
  Ok (path_Join [Prefix; clusterKey; cl_Id cluster], wrap64 (version + 1)).

(** The events WatchClusters sends before it starts watching, and the revision it
    watches from. *)
Fixpoint initial_events (known : gmap string Cluster) (kvs : list KeyValue)
  : outcome (list (WatchEvent Cluster)) :=
  match kvs with
  | [] => Ok []
  | kv :: kvs =>
      let? cluster := omap_err (Wrapped "failed to unmarshal cluster") (Unmarshal (kv_Value kv)) in
      let cluster := Clus.SetResourceVersion (Sprint (kv_ModRevision kv)) cluster in
      let? rest := initial_events known kvs in
      match known !! cl_Id cluster with
      | None => Ok (mkWatchEvent WatchEventCreate (Some cluster) None :: rest)
      | Some knownCluster =>
          if decide (Clus.GetResourceVersion knownCluster = Clus.GetResourceVersion cluster) then Ok rest
          else Ok (mkWatchEvent WatchEventUpdate (Some cluster) (Some knownCluster) :: rest)
      end
  end.

Definition known_map (knownClusters : list Cluster) : gmap string Cluster :=
  fold_left (fun m c => <[cl_Id c := c]> m) knownClusters ∅.

(** The size of the event buffer: doubled until the initial events fit. *)
Fixpoint buffer_size (fuel : nat) (n bufSize : nat) : nat :=
  match fuel with
  | O => bufSize
  | S fuel => if (bufSize <? n)%nat then buffer_size fuel n (bufSize * 2) else bufSize
  end.

Definition WatchClusters_start (knownClusters : list Cluster)
  : M W (list (WatchEvent Cluster) * nat * Z) :=
  let! resp := wrapf "failed to list clusters" (etcd_GetPrefix (path_Join [Prefix; clusterKey])) in
  let! initialEvents := wlift (initial_events (known_map knownClusters) resp.2) in
  wret (initialEvents, buffer_size (length initialEvents) (length initialEvents) 100,
        wrap64 (resp.1 + 1)).

(** *** token_store.go *)

Definition set_lease (lease ttl : Z) (token : BootstrapToken) : outcome BootstrapToken :=
  match bt_Metadata token with
  | None => Panic "nil pointer dereference"
  | Some m =>
      Ok (with_token_meta token
            (mkBootstrapTokenMetadata lease ttl (btm_UsageCount m) (btm_Labels m)
               (btm_Capabilities m) (btm_ResourceVersion m)))
  end.

Definition addLeaseMetadata (token : BootstrapToken) (lease : Z) : M W BootstrapToken :=
  if decide (lease = 0%Z) then wret token
  else
    match bt_Metadata token with
    | None => wlift (Panic "nil pointer dereference")
    | Some _ =>
        let! ttl := wrapf "failed to get lease" (etcd_TimeToLive lease) in
        wlift (set_lease lease ttl token)
    end.

Definition CreateToken (entropy : outcome (list byte)) (ttl : Z) (opts : list TokenCreateOption)
  : M W BootstrapToken :=
  let options := Apply NewTokenCreateOptions opts in
  let! lease := wrapf "failed to create lease" (etcd_Grant (int64_Seconds ttl)) in
  let! tok := wlift (NewToken entropy) in
  let token := with_token_meta (ToBootstrapToken tok)
    (mkBootstrapTokenMetadata lease 0 0 (tco_Labels options) (tco_Capabilities options) "") in
  let! data := wrapf "failed to marshal token" (wlift (Marshal token)) in
  wrapf "failed to create token" (etcd_Put (path_Join [Prefix; tokensKey; bt_TokenID token]) data lease) ;!
  let! token := wlift (set_lease lease (int64_Seconds ttl) token) in
  wret (Token.SetResourceVersion "1" token).

Definition getToken (ref : Reference) : M W (BootstrapToken * Z) :=
  let! kvs := wrapf "failed to get token" (etcd_Get (path_Join [Prefix; tokensKey; ref_Id ref])) in
  match kvs with
  | [] => wfail ErrNotFound
  | kv :: _ =>
      let! token := wrapf "failed to unmarshal token" (wlift (Unmarshal (kv_Value kv))) in
      let! token := addLeaseMetadata token (kv_Lease kv) in
      wret (token, kv_Version kv)
  end.

Definition GetToken (ref : Reference) : M W BootstrapToken :=
  let! r := getToken ref in wret r.1.

(** The lease is revoked when the function returns, whatever the deletion did; a
    failed revocation is only logged. *)
Definition DeleteToken (ref : Reference) : M W unit :=
  let! t := GetToken ref in
  match bt_Metadata t with
  | None => wlift (Panic "nil pointer dereference")
  | Some m =>
      let delete_ : M W unit :=
        let! deleted := wrapf "failed to delete token"
                          (etcd_Delete (path_Join [Prefix; tokensKey; ref_Id ref])) in
        if (deleted =? 0)%Z then wfail ErrNotFound else wret tt in
      if decide (btm_LeaseID m = 0%Z) then delete_
      else fun w =>
        let (w1, r) := delete_ w in
        let (w2, _) := etcd_Revoke (btm_LeaseID m) w1 in
        (w2, r)
  end.

Definition ListTokens : M W (list BootstrapToken) :=
  let! resp := wrapf "failed to list tokens" (etcd_GetPrefix (path_Join [Prefix; tokensKey])) in
  wmap (fun kv =>
          let! token := wrapf "failed to unmarshal token" (wlift (Unmarshal (kv_Value kv))) in
          addLeaseMetadata token (kv_Lease kv)) resp.2.

Definition update_token_once (ref : Reference) (mutator : MutatorFunc BootstrapToken)
  : M W BootstrapToken :=
  let key := path_Join [Prefix; tokensKey; ref_Id ref] in
  let! r := getToken ref in
  let! token := wlift (mutator r.1) in
  let! data := wrapf "failed to marshal token" (wlift (Marshal token)) in
  let! txnResp := etcd_TxnPut key (CmpVersion r.2) data None in
  if negb (txn_Succeeded txnResp) then wfail errRetry else wret token.

Definition UpdateToken (ref : Reference) (mutator : MutatorFunc BootstrapToken) : M W BootstrapToken :=
  OnError defaultBackoff_Steps isRetryErr (update_token_once ref mutator).

(** *** rbac_store.go *)

Definition CreateRole (role : Role) : M W unit :=
  let! data := wrapf "failed to marshal role" (wlift (Marshal role)) in
  let key := path_Join [Prefix; roleKey; role_Id role] in
  let! resp := wrapf "failed to create role" (etcd_TxnPut key (CmpVersion 0) data (Some 0%Z)) in
  if negb (txn_Succeeded resp) then wfail ErrAlreadyExists else wret tt.

Definition DeleteRole (ref : Reference) : M W unit :=
  let! deleted := wrapf "failed to delete role"
                    (etcd_Delete (path_Join [Prefix; roleKey; ref_Id ref])) in
  if (deleted =? 0)%Z then wfail ErrNotFound else wret tt.

Definition GetRole (ref : Reference) : M W Role :=
  let! kvs := wrapf "failed to get role" (etcd_Get (path_Join [Prefix; roleKey; ref_Id ref])) in
  match kvs with
  | [] => wfail ErrNotFound
  | kv :: _ => wrapf "failed to unmarshal role" (wlift (Unmarshal (kv_Value kv)))
  end.

Definition CreateRoleBinding (roleBinding : RoleBinding) : M W unit :=
  let! data := wrapf "failed to marshal role binding" (wlift (Marshal roleBinding)) in
  let key := path_Join [Prefix; roleBindingKey; rb_Id roleBinding] in
  let! resp := wrapf "failed to create role binding" (etcd_TxnPut key (CmpVersion 0) data (Some 0%Z)) in
  if negb (txn_Succeeded resp) then wfail ErrAlreadyExists else wret tt.

Definition DeleteRoleBinding (ref : Reference) : M W unit :=
  let! deleted := wrapf "failed to delete role binding"
                    (etcd_Delete (path_Join [Prefix; roleBindingKey; ref_Id ref])) in
  if (deleted =? 0)%Z then wfail ErrNotFound else wret tt.

Definition GetRoleBinding (ref : Reference) : M W RoleBinding :=
  let! kvs := wrapf "failed to get role binding"
                (etcd_Get (path_Join [Prefix; roleBindingKey; ref_Id ref])) in
  match kvs with
  | [] => wfail ErrNotFound
  | kv :: _ =>
      let! rb := wrapf "failed to unmarshal role binding" (wlift (Unmarshal (kv_Value kv))) in
      ApplyRoleBindingTaints GetRole rb
  end.

Definition ListRoles : M W (list Role) :=
  let! resp := wrapf "failed to list roles" (etcd_GetPrefix (path_Join [Prefix; roleKey])) in
  wmap (fun kv => wrapf "failed to unmarshal role" (wlift (Unmarshal (kv_Value kv)))) resp.2.

Definition ListRoleBindings : M W (list RoleBinding) :=
  let! resp := wrapf "failed to list role bindings" (etcd_GetPrefix (path_Join [Prefix; roleBindingKey])) in
  wmap (fun kv =>
          let! rb := wrapf "failed to decode role binding" (wlift (Unmarshal (kv_Value kv))) in
          ApplyRoleBindingTaints GetRole rb) resp.2.
End EtcdStore.
