(* ===== verification/EtcdStoreProps.v ===== *)
(** Properties of the etcd storage backend [EtcdStore], for every client that obeys
    the contract of [Etcd]: whatever other clients do between its calls. *)

From S2P Require Import Prelude GoStd Base64 Validation CoreV1 Storage Rbac Etcd Tokens RefJSON EtcdStore.
From stdpp Require Import relations.

Local Open Scope string_scope.

(** ** Keys *)

Definition object_dirs : list string := [tokensKey; clusterKey; keyringKey; roleKey; roleBindingKey].

Lemma object_dirs_plain d : d ∈ object_dirs -> plain_component d = true.
Proof.
  intros Hd. assert (forallb plain_component object_dirs = true) as H by (vm_compute; reflexivity).
  rewrite forallb_elem in H. by apply H.
Qed.

(** No directory name is a prefix of another one. *)
Lemma object_dirs_prefix d1 d2 t1 t2 :
  d1 ∈ object_dirs -> d2 ∈ object_dirs -> d1 +:+ t1 = d2 +:+ t2 -> d1 = d2.
Proof.
  intros H1 H2 E.
  assert (HasPrefix d2 d1 || HasPrefix d1 d2 = true) as Hp.
  { clear H1 H2. revert d2 E. induction d1 as [|c d1 IH]; intros [|c' d2] E; cbn; try done.
    rewrite !str_app_cons in E. injection E as -> E.
    rewrite !(bool_decide_eq_true_2 (c' = c')) by done. cbn. eauto. }
  assert (forallb (fun d1 => forallb (fun d2 =>
            implb (HasPrefix d2 d1 || HasPrefix d1 d2) (bool_decide (d1 = d2))) object_dirs)
            object_dirs = true) as H by (vm_compute; reflexivity).
  rewrite forallb_elem in H. specialize (H d1 H1). rewrite forallb_elem in H. specialize (H d2 H2).
  rewrite Hp in H. by apply bool_decide_eq_true in H.
Qed.

(** Valid ids and the five kinds of objects never collide in the key space:
    the key of an object determines its kind and its id, it lies in the directory
    of its kind, and listing a kind by prefix sees no object of another kind. *)
Lemma object_keys_disjoint (Prefix d1 d2 id1 id2 : string) :
  d1 ∈ object_dirs -> d2 ∈ object_dirs ->
  ValidateID id1 = Ok tt -> ValidateID id2 = Ok tt ->
  HasPrefix (path_Join [Prefix; d1; id1]) (path_Join [Prefix; d1]) = true /\
  (path_Join [Prefix; d1; id1] = path_Join [Prefix; d2; id2] -> d1 = d2 /\ id1 = id2) /\
  (HasPrefix (path_Join [Prefix; d2; id2]) (path_Join [Prefix; d1]) = true -> d1 = d2).
Proof.
  intros Hd1 Hd2 H1%ValidateID_plain H2%ValidateID_plain.
  pose proof (object_dirs_plain _ Hd1) as P1. pose proof (object_dirs_plain _ Hd2) as P2.
  rewrite !path_Join_child by done. split; [apply HasPrefix_app|].
  rewrite !path_Join_dir by done. split.
  - intros E. rewrite !str_app_assoc in E. apply str_app_inj_l in E.
    pose proof (object_dirs_prefix _ _ _ _ Hd1 Hd2 E) as ->.
    by apply str_app_inj_l, str_app_inj_l in E.
  - intros [t E]%HasPrefix_spec. rewrite !str_app_assoc in E. apply str_app_inj_l in E.
    symmetry. by eapply object_dirs_prefix.
Qed.

(** ** Clusters *)

Section ClusterProps.
Context {W : Type} `{EtcdClient W} `{RetryLib} `{!ProtoJSON Cluster}.
Variable Prefix : string.

Definition cluster_path (id : string) : string := path_Join [Prefix; clusterKey; id].

(** The cluster a stored value stands for. *)
Definition decoded (kv : KeyValue) (c : Cluster) : Prop :=
  exists c0, Unmarshal (kv_Value kv) = Ok c0 /\
    c = Clus.SetResourceVersion (Sprint (kv_ModRevision kv)) c0.

Lemma GetCluster_inv ref w w' o :
  GetCluster Prefix ref w = (w', o) ->
  db_steps (db w) (db w') /\
  match o with
  | Ok c => exists kv, db_kvs (db w') !! cluster_path (ref_Id ref) = Some kv /\ decoded kv c
  | Err _ => True
  | Panic _ => False
  end.
Proof.
  unfold GetCluster, cluster_path, wbind, wrapf, wcatch, wlift, wfail, wret.
  destruct (etcd_Get _ w) as [w1 o1] eqn:E. apply etcd_Get_law in E as [Hs Ho].
  destruct o1 as [kvs|e|p]; [|by intros [= <- <-]|done]. subst kvs.
  destruct (db_kvs (db w1) !! _) as [kv|] eqn:Ek; cbn; [|by intros [= <- <-]].
  pose proof (Unmarshal_no_panic (kv_Value kv)) as Hnp. unfold decoded.
  destruct (Unmarshal (kv_Value kv)) as [c0|e|p] eqn:Eu; [| |done];
    intros [= <- <-]; rewrite ?Ek; naive_solver.
Qed.

(** A missing cluster is reported as such. *)
Lemma GetCluster_missing ref w w' o :
  GetCluster Prefix ref w = (w', o) -> db_kvs (db w') !! cluster_path (ref_Id ref) = None ->
  exists e, o = Err e /\ (e = ErrNotFound \/ exists e', e = Wrapped "failed to get cluster" e').
Proof.
  unfold GetCluster, cluster_path, wbind, wrapf, wcatch, wlift, wfail, wret.
  destruct (etcd_Get _ w) as [w1 o1] eqn:E. apply etcd_Get_law in E as [Hs Ho].
  destruct o1 as [kvs|e|p]; [|intros [= <- <-]; eauto|done]. subst kvs.
  destruct (db_kvs (db w1) !! _) as [kv|] eqn:Ek; cbn; [|intros [= <- <-]; eauto].
  destruct (Unmarshal (kv_Value kv)) as [c0|e|p]; intros [= <- <-]; congruence.
Qed.

(** The commit of an update: at [d], the state just before the write, the stored
    cluster is the one the mutator was applied to. *)
Definition committed (ref : Reference) (mutator : MutatorFunc Cluster) (d d' : EtcdDb) (c : Cluster)
  : Prop :=
  exists kv c0 c1 data,
    db_kvs d !! cluster_path (ref_Id ref) = Some kv /\ decoded kv c0 /\
    mutator c0 = Ok c1 /\ Marshal (Clus.SetResourceVersion "" c1) = Ok data /\
    d' = db_put d (cluster_path (ref_Id ref)) data (Some 0%Z) /\
    c = Clus.SetResourceVersion (Sprint (db_rev d')) (Clus.SetResourceVersion "" c1).

Lemma update_cluster_once_inv ref mutator w w' o :
  (0 <= db_rev (db w))%Z -> db_wf (db w) ->
  update_cluster_once Prefix ref mutator w = (w', o) ->
  match o with
  | Ok c => exists d, db_steps (db w) d /\ committed ref mutator d (db w') c
  | _ => db_steps (db w) (db w')
  end.
Proof.
  intros Hr Hw. unfold update_cluster_once, wbind at 1, wrapf at 1, wcatch.
  destruct (GetCluster Prefix ref w) as [w1 o1] eqn:Eg.
  apply GetCluster_inv in Eg as [Hs1 Ho]. destruct o1 as [c0|e|p]; [|by intros [= <- <-]|done].
  destruct Ho as (kv & Ek & Hdec). pose proof Hdec as (c00 & Hu & Hc0).
  unfold wbind, wrapf, wcatch, wlift, wfail, wret.
  assert (Clus.GetResourceVersion c0 = Sprint (kv_ModRevision kv)) as -> by (by subst).
  destruct (ParseInt _) as [rev|e|p] eqn:Ep; [|by intros [= <- <-]|by intros [= <- <-]].
  apply ParseInt_Sprint_Ok in Ep as ->.
  destruct (mutator c0) as [c1|e|p] eqn:Em; [|by intros [= <- <-]|by intros [= <- <-]].
  destruct (Marshal _) as [data|e|p] eqn:Ed; [|by intros [= <- <-]|by intros [= <- <-]].
  destruct (etcd_TxnPut _ _ _ _ w1) as [w2 o2] eqn:Et. apply etcd_TxnPut_law in Et.
  destruct o2 as [resp|e|p]; [|intros [= <- <-]; by etrans|done].
  destruct Et as (d & Hs2 & Hsucc & Hdb & Hrev).
  destruct (txn_Succeeded resp); cbn; intros [= <- <-].
  - exists d. split; [by etrans|]. symmetry in Hsucc. apply Z.eqb_eq in Hsucc.
    destruct (db_kvs d !! _) as [kv'|] eqn:Ek'.
    + destruct (db_steps_wf _ _ Hs1 Hr Hw) as [_ Hw1].
      pose proof (mod_revision_unique _ _ _ _ _ Hw1 Hs2 Ek Ek' Hsucc) as ->.
      exists kv, c0, c1, data. rewrite Hrev. done.
    + destruct (db_steps_wf _ _ Hs1 Hr Hw) as [_ Hw1].
      destruct (Hw1 _ _ Ek) as (? & _). lia.
  - rewrite Hdb. by etrans.
Qed.

Lemma UpdateCluster_inv ref mutator w w' c :
  (0 <= db_rev (db w))%Z -> db_wf (db w) ->
  UpdateCluster Prefix ref mutator w = (w', Ok c) ->
  exists d, db_steps (db w) d /\ committed ref mutator d (db w') c.
Proof.
  intros Hr Hw E. unfold UpdateCluster in E.
  pose proof (OnError_retried defaultBackoff_Steps isRetryErr (update_cluster_once Prefix ref mutator) w)
    as Hret. rewrite E in Hret. specialize (Hret ltac:(unfold defaultBackoff_Steps; lia)). clear E.
  remember (w', Ok c) as r eqn:Er. revert Hr Hw Er.
  induction Hret as [n w r E|n w w1 e r E _ _ IH]; intros Hr Hw ->.
  - by apply update_cluster_once_inv in E.
  - apply update_cluster_once_inv in E; [|done|done].
    destruct (db_steps_wf _ _ E Hr Hw) as [Hr1 Hw1].
    destruct (IH Hr1 Hw1 eq_refl) as (d & Hd & Hc). exists d. split; [by etrans|done].
Qed.

(** C4: UpdateCluster loses no update. However other clients write between its
    read and its transaction, when it succeeds the value it stores is its mutator
    applied to the cluster stored just before the write, and the returned cluster
    carries the revision of that write. *)
Theorem UpdateCluster_no_lost_update (ref : Reference) (mutator : MutatorFunc Cluster)
    (w w' : W) (c : Cluster) :
  (0 <= db_rev (db w))%Z -> db_wf (db w) ->
  UpdateCluster Prefix ref mutator w = (w', Ok c) ->
  exists d, db_steps (db w) d /\ committed ref mutator d (db w') c.
Proof. apply UpdateCluster_inv. Qed.

(** The clusters a listing goes through: one per key of the range, decoded. *)
Lemma ListClusters_inv ls o w w' cs :
  ListClusters Prefix ls o w = (w', Ok cs) ->
  exists all, Forall2 decoded (db_range (db w') (path_Join [Prefix; clusterKey])) all /\
    cs = filter (fun c => NewSelectorPredicate (mkClusterSelector [] ls o) c = true) all /\
    db_steps (db w) (db w').
Proof.
  unfold ListClusters. intros (resp & w1 & Hg & Hl)%wbind_Ok. apply wrapf_Ok in Hg.
  apply etcd_GetPrefix_law in Hg as [Hs Ho]. destruct resp as [rev kvs]. destruct Ho as [_ ->].
  injection Hl as <- Hl. cbn [snd] in Hl. revert cs Hl.
  set (P := NewSelectorPredicate (mkClusterSelector [] ls o)).
  assert (forall v (c : Cluster), P (Clus.SetResourceVersion v c) = P c) as HP.
  { intros v c. unfold P, NewSelectorPredicate. destruct (_ && _); [by destruct (negb _)|done]. }
  induction (db_range _ _) as [|kv kvs IH]; intros cs Hl.
  - simplify_eq/=. by exists [].
  - open_ok Hl Hu. apply omap_err_Ok in Hu. open_ok Hl Hrest.
    destruct (IH _ Hrest) as (all & Hall & -> & _).
    exists (Clus.SetResourceVersion (Sprint (kv_ModRevision kv)) u :: all).
    split; [constructor; [by exists u|done]|]. split; [|done].
    destruct (P u) eqn:Ep; simplify_eq.
    + rewrite filter_cons_True; [done|]. by rewrite HP.
    + rewrite filter_cons_False; [done|]. rewrite HP. congruence.
Qed.

Lemma wf_version_zero d k :
  db_wf d -> cmp_holds d k (CmpVersion 0) = bool_decide (db_kvs d !! k = None).
Proof.
  intros Hw. cbn. destruct (db_kvs d !! k) as [kv|] eqn:E; [|done].
  destruct (Hw _ _ E) as (_ & ? & _). by rewrite (proj2 (Z.eqb_neq _ _)) by lia.
Qed.

Lemma new_kv_absent d k v l :
  db_kvs d !! k = None -> new_kv d k v l = mkKeyValue k v (db_rev d + 1) (db_rev d + 1) 1 (default 0%Z l).
Proof. unfold new_kv. by intros ->. Qed.

(** CreateCluster stores the cluster exactly when its key is free. On success
    the caller's cluster carries the creation time in whole seconds and the
    revision of the write, and every later read that still finds that write returns
    the very same cluster; when the key is taken nothing is written. *)
Lemma CreateCluster_functional (now : Time) (cluster cluster' : Cluster) (w w' : W) (o : outcome unit) :
  (0 <= db_rev (db w))%Z -> db_wf (db w) ->
  CreateCluster Prefix now cluster w = (w', (cluster', o)) ->
  let key := cluster_path (cl_Id cluster) in
  cl_Id cluster' = cl_Id cluster /\ Clus.GetLabels cluster' = Clus.GetLabels cluster /\
  Clus.GetCapabilities cluster' = Clus.GetCapabilities cluster /\
  Clus.GetCreationTimestamp cluster' = Truncate_second now /\
  match o with
  | Ok _ => exists d data, db_steps (db w) d /\ db_kvs d !! key = None /\
      db w' = db_put d key data (Some 0%Z) /\
      Clus.GetResourceVersion cluster' = Sprint (db_rev (db w')) /\
      forall w1 w2 c, GetCluster Prefix (Clus.GetReference cluster) w1 = (w2, Ok c) ->
        db_kvs (db w2) !! key = db_kvs (db w') !! key -> c = cluster'
  | Err e => e = ErrAlreadyExists ->
      db_steps (db w) (db w') /\ is_Some (db_kvs (db w') !! key)
  | Panic _ => False
  end.
Proof.
  intros Hr Hw E key. unfold CreateCluster in E.
  set (c1 := Clus.SetCreationTimestamp _ _) in E.
  pose proof (Marshal_no_panic c1) as Hnp.
  destruct (Marshal c1) as [data|e|p] eqn:Em; [| |done].
  2: { injection E as <- <- <-. repeat split; done. }
  destruct (etcd_TxnPut _ _ _ _ w) as [w2 o2] eqn:Et. apply etcd_TxnPut_law in Et.
  destruct o2 as [resp|e|p]; [|injection E as <- <- <-; repeat split; done|done].
  destruct Et as (d & Hs & Hsucc & Hdb & Hrev). change (cl_Id c1) with (cl_Id cluster) in Hsucc, Hdb.
  destruct (db_steps_wf _ _ Hs Hr Hw) as [_ Hwd]. rewrite wf_version_zero in Hsucc by done.
  destruct (txn_Succeeded resp); cbn in E; injection E as <- <- <-; repeat split; try done.
  - symmetry in Hsucc. apply bool_decide_eq_true in Hsucc.
    exists d, data. split; [done|]. split; [done|]. split; [done|]. split; [by rewrite <- Hrev|].
    intros w1 w3 c Hg Hsame. apply GetCluster_inv in Hg as (_ & kv & Hkv & c0 & Hu & ->).
    change (ref_Id _) with (cl_Id cluster) in Hkv. fold key in Hkv. rewrite Hsame in Hkv.
    rewrite Hdb in Hkv. cbn in Hkv. rewrite lookup_insert_eq in Hkv. injection Hkv as <-.
    rewrite new_kv_absent in Hu |- * by done. cbn in Hu |- *.
    rewrite (Unmarshal_Marshal _ _ Em) in Hu. injection Hu as <-.
    rewrite Hrev, Hdb. done.
  - rewrite Hdb. done.
  - symmetry in Hsucc. apply bool_decide_eq_false in Hsucc. rewrite Hdb.
    by apply not_eq_None_Some in Hsucc.
Qed.

(** Deleting a cluster removes its key, or reports that there was none. *)
Lemma DeleteCluster_inv ref w w' o :
  DeleteCluster Prefix ref w = (w', o) ->
  match o with
  | Ok _ => exists d, db_steps (db w) d /\ is_Some (db_kvs d !! cluster_path (ref_Id ref)) /\
      db w' = db_delete d (cluster_path (ref_Id ref)) /\
      db_kvs (db w') !! cluster_path (ref_Id ref) = None
  | Err e => e = ErrNotFound ->
      db_steps (db w) (db w') /\ db_kvs (db w') !! cluster_path (ref_Id ref) = None
  | Panic _ => False
  end.
Proof.
  unfold DeleteCluster, wbind, wrapf, wcatch, wfail, wret.
  destruct (etcd_Delete _ w) as [w1 o1] eqn:E. apply etcd_Delete_law in E.
  destruct o1 as [n|e|p]; [|by intros [= <- <-]|done].
  destruct E as (d & Hs & Hd & Hn). unfold cluster_path.
  destruct (db_kvs d !! _) as [kv|] eqn:Ek; subst n; cbn; intros [= <- <-].
  - exists d. rewrite Ek. split; [done|]. split; [done|]. split; [done|].
    rewrite Hd. unfold db_delete. rewrite Ek. apply lookup_delete_eq.
  - intros _. rewrite Hd. unfold db_delete. by rewrite Ek.
Qed.
End ClusterProps.

(** ** Witnesses on the reference store *)

Definition db_wf_check (d : EtcdDb) : bool :=
  forallb (fun p : string * KeyValue =>
             ((0 <? kv_ModRevision p.2) && (kv_ModRevision p.2 <=? db_rev d) && (0 <? kv_Version p.2))%Z &&
             bool_decide (kv_Key p.2 = p.1)) (map_to_list (db_kvs d)).

Lemma db_wf_check_sound d : db_wf_check d = true -> db_wf d.
Proof.
  unfold db_wf_check. rewrite forallb_elem. intros Hc k kv Hk%elem_of_map_to_list.
  specialize (Hc _ Hk). cbn in Hc. rewrite !andb_true_iff, !Z.ltb_lt, Z.leb_le, bool_decide_eq_true in Hc.
  destruct Hc as [[[? ?] ?] ?]. split; [lia|]. done.
Qed.

Definition empty_db : EtcdDb := mkEtcdDb 1 ∅ ∅.
Definition quiet (d : EtcdDb) : RefWorld := mkRefWorld d [].

Definition demo_cluster : Cluster :=
  mkCluster "c1" (Some (mkClusterMetadata {[ "env" := "prod" ]} [] "" None None)).

(** The store after creating [demo_cluster]. *)
Definition demo_db : EtcdDb :=
  rw_db (CreateCluster "opni" 1500000000%Z demo_cluster (quiet empty_db)).1.

(** Another client labels the cluster between the read and the transaction of the
    first attempt. *)
Definition contended : RefWorld :=
  mkRefWorld demo_db
    [[]; match Marshal (Clus.SetLabels {[ "team" := "a" ]} demo_cluster) with
         | Ok s => [EnvPut "opni/clusters/c1" s]
         | _ => []
         end].

Definition demo_created : RefWorld * (Cluster * outcome unit) :=
  CreateCluster "opni" 1500000000%Z demo_cluster (quiet empty_db).

Lemma UpdateCluster_no_lost_update_witness :
  exists w' c d,
    UpdateCluster "opni" (mkReference "c1") (NewAddCapabilityMutator metrics_capability) contended = (w', Ok c) /\
    db_steps (db contended) d /\
    committed "opni" (mkReference "c1") (NewAddCapabilityMutator metrics_capability) d (db w') c.
Proof.
  edestruct (UpdateCluster_no_lost_update "opni" (mkReference "c1")
               (NewAddCapabilityMutator metrics_capability) contended) as (d & Hs & Hc);
    [by vm_compute|by apply db_wf_check_sound; vm_compute|vm_compute; reflexivity|].
  eexists _, _, d. split; [vm_compute; reflexivity|]. by split.
Defined.

Example UpdateCluster_demo :
  match UpdateCluster "opni" (mkReference "c1") (NewAddCapabilityMutator metrics_capability) contended with
  | (_, Ok c) =>
      (Clus.GetLabels c !! "team", cc_Name <$> Clus.GetCapabilities c, Clus.GetResourceVersion c)
      = (Some "a", ["metrics"], "4")
  | _ => False
  end.
Proof. vm_compute. reflexivity. Qed.
