(* ===== verification/Crypto.v ===== *)
(** The cryptographic libraries the security code stands on, as interfaces: X25519
    and BLAKE2b (golang.org/x/crypto), Ed25519 keys and X.509 certificates (crypto),
    UUIDs (github.com/google/uuid).  Each is a class whose laws state documented
    behaviour; a reference instance of each shows that the laws can hold. *)

From S2P Require Import Prelude GoStd.
From Stdlib Require Import Ascii.

Local Open Scope string_scope.

(** ** golang.org/x/crypto/curve25519 *)

(** [X25519(scalar, point)] fails on inputs of the wrong length and on low-order
    points; on public keys derived from the base point the function is the
    Diffie-Hellman function, so both sides reach the same value. *)
Class Curve25519 := {
  Basepoint : list byte;
  X25519 : list byte -> list byte -> outcome (list byte);
  X25519_no_panic s p : no_panic (X25519 s p) = true;
  X25519_length s p q : X25519 s p = Ok q -> length q = 32;
  X25519_base s : length s = 32 -> is_Ok (X25519 s Basepoint) = true;
  X25519_public a b pb : length a = 32 -> X25519 b Basepoint = Ok pb -> is_Ok (X25519 a pb) = true;
  X25519_agree a b pa pb :
    X25519 a Basepoint = Ok pa -> X25519 b Basepoint = Ok pb -> X25519 a pb = X25519 b pa }.

(** ** golang.org/x/crypto/blake2b *)

(** [blake2b.New512(key)] fails when the key is longer than 64 bytes; the digest of
    what was written is then 64 bytes long. *)
Class Blake2b := {
  b2b_Sum512 : list byte -> list byte -> list byte;
  b2b_Sum256 : list byte -> list byte;
  b2b_Sum512_length key msg : length (b2b_Sum512 key msg) = 64;
  b2b_Sum512_bytes key msg : Forall is_byte (b2b_Sum512 key msg);
  b2b_Sum256_length msg : length (b2b_Sum256 msg) = 32;
  b2b_Sum256_bytes msg : Forall is_byte (b2b_Sum256 msg) }.

Definition blake2b_errKeySize : error := External "blake2b: invalid key size".

(** [blake2b.New512(key)], the writes and [Sum(nil)] in one. *)
Definition blake2b_512 `{Blake2b} (key : list byte) (writes : list (list byte)) : outcome (list byte) :=
  fail_if (64 <? length key)%nat blake2b_errKeySize ;?
  Ok (b2b_Sum512 key (concat writes)).

(** ** crypto/ed25519 *)

(** [NewKeyFromSeed] panics unless the seed has 32 bytes; a private key has 64. *)
Class Ed25519 := {
  NewKeyFromSeed : list byte -> outcome (list byte);
  NewKeyFromSeed_Ok seed : length seed = 32 -> exists k, NewKeyFromSeed seed = Ok k /\ length k = 64 }.

(** ** github.com/google/uuid *)

Definition UUID : Type := list byte.
Definition uuid_Nil : UUID := replicate 16 0%Z.

(** [uuid.Parse] inverts [String], the canonical form of hexadecimal digits and
    dashes; [uuid.New] makes version 4 UUIDs of the RFC 4122 variant, and those
    are never the nil UUID. *)
Class UUIDLib := {
  uuid_String : UUID -> string;
  uuid_Parse : string -> outcome UUID;
  uuid_is_v4 : UUID -> bool;
  uuid_Parse_no_panic s : no_panic (uuid_Parse s) = true;
  uuid_Parse_length s u : uuid_Parse s = Ok u -> length u = 16;
  uuid_Parse_String u : length u = 16 -> Forall is_byte u -> uuid_Parse (uuid_String u) = Ok u;
  uuid_String_chars u :
    str_all (fun c => in_range 48 57 c || in_range 97 102 c || bool_decide (c = "-"%char)) (uuid_String u) = true;
  uuid_v4_not_nil u : uuid_is_v4 u = true -> u <> uuid_Nil }.

(** ** crypto/x509 *)

Class X509 := {
  Certificate : Type;
  RawSubjectPublicKeyInfo : Certificate -> list byte;
  cert_Raw : Certificate -> list byte;
  CheckSignatureFrom : Certificate -> Certificate -> outcome unit;
  ParseCertificate : list byte -> outcome Certificate;
  ParseCertificate_Raw c : ParseCertificate (cert_Raw c) = Ok c;
  ParseCertificate_no_panic d : no_panic (ParseCertificate d) = true;
  CheckSignatureFrom_no_panic c p : no_panic (CheckSignatureFrom c p) = true }.

(** crypto/subtle: [ConstantTimeCompare(x, y) == 1]. *)
Definition ConstantTimeCompare (x y : list byte) : bool := bool_decide (x = y).

(** ** Reference instances *)

Definition pad_to (n : nat) (bs : list byte) : list byte :=
  take n (((fun b => b `mod` 256)%Z <$> bs) ++ replicate n 0%Z)%list.

Lemma pad_to_length n bs : length (pad_to n bs) = n.
Proof. unfold pad_to. rewrite length_take, length_app, length_replicate. lia. Qed.

Lemma pad_to_bytes n bs : Forall is_byte (pad_to n bs).
Proof.
  apply Forall_take, Forall_app. split.
  - apply Forall_fmap, Forall_true. intros b. cbn. unfold is_byte.
    pose proof (Z.mod_pos_bound b 256). lia.
  - apply Forall_replicate. unfold is_byte. lia.
Qed.

(** A commutative stand-in for scalar multiplication. *)
Definition toy_X25519 (s p : list byte) : outcome (list byte) :=
  if ((length s =? 32) && (length p =? 32))%nat
  then Ok (zip_with (fun a b => (a + b) `mod` 256)%Z s p)
  else Err (External "bad input point").

Lemma zip_add_comm (a b r : list Z) :
  zip_with (fun a b => (a + b) `mod` 256)%Z a (zip_with (fun a b => (a + b) `mod` 256)%Z b r) =
  zip_with (fun a b => (a + b) `mod` 256)%Z b (zip_with (fun a b => (a + b) `mod` 256)%Z a r).
Proof.
  apply list_eq. intros i. rewrite !lookup_zip_with.
  destruct (a !! i), (b !! i), (r !! i); cbn; try done. f_equal.
  rewrite !Zplus_mod_idemp_r. f_equal. lia.
Qed.

#[export] Instance Curve25519_ref : Curve25519.
Proof.
  refine {| Basepoint := replicate 32 9%Z; X25519 := toy_X25519 |}; unfold toy_X25519.
  - intros s p. by destruct (_ && _).
  - intros s p q. destruct (_ && _) eqn:E; [|done]. intros [= <-].
    apply andb_true_iff in E as [E1%Nat.eqb_eq E2%Nat.eqb_eq].
    unfold byte in *. rewrite length_zip_with. lia.
  - intros s Hs. by rewrite Hs, length_replicate.
  - intros a b pb Ha. rewrite length_replicate. destruct (length b =? 32)%nat eqn:Eb; [|done].
    apply Nat.eqb_eq in Eb. cbn [andb Nat.eqb]. intros [= <-]. unfold byte in *.
    rewrite length_zip_with, Ha, Eb. done.
  - intros a b pa pb. unfold byte in *. rewrite !length_replicate.
    destruct (length a =? 32)%nat eqn:Ea; [|done]. destruct (length b =? 32)%nat eqn:Eb; [|done].
    apply Nat.eqb_eq in Ea, Eb. cbn. intros [= <-] [= <-].
    rewrite !length_zip_with, !Ea, !Eb. cbn. f_equal. apply zip_add_comm.
Defined.

#[export] Instance Blake2b_ref : Blake2b.
Proof.
  refine {| b2b_Sum512 key msg := pad_to 64 (key ++ msg)%list; b2b_Sum256 := pad_to 32 |};
    intros; first [apply pad_to_length | apply pad_to_bytes].
Defined.

#[export] Instance Ed25519_ref : Ed25519.
Proof.
  refine {| NewKeyFromSeed seed :=
    if (length seed =? 32)%nat then Ok (seed ++ seed)%list else Panic "ed25519: bad seed length" |}.
  intros seed Hs. rewrite Hs. cbn. eexists. split; [done|]. rewrite length_app. lia.
Defined.

Definition hexdash (u : UUID) : string := hex_Encode (pad_to 16 u).

#[export] Instance UUIDLib_ref : UUIDLib.
Proof.
  refine {|
    uuid_String u := hexdash u;
    uuid_Parse s := let? u := hex_Decode s in
                    fail_if (negb (length u =? 16)%nat) (External "invalid UUID length") ;? Ok u;
    uuid_is_v4 u := bool_decide (u !! 6 = Some 64%Z) && bool_decide (u !! 8 = Some 128%Z) |}.
  - intros s. assert (no_panic (hex_Decode s) = true) as Hs.
    { cut (forall n s, String.length s <= n -> no_panic (hex_Decode s) = true); [eauto|].
      clear s. induction n as [|n IH]; intros [|c [|d s]] Hl; cbn in *; try done; try lia.
      destruct (hex_value c), (hex_value d); cbn; try done.
      specialize (IH s ltac:(lia)). by destruct (hex_Decode s). }
    destruct (hex_Decode s) as [u| |]; cbn; [|done|done]. by destruct (_ =? _)%nat.
  - intros s u (u0 & _ & ([] & Hu & Hk)%obind_Ok)%obind_Ok. injection Hk as <-.
    rewrite fail_if_Ok, negb_false_iff, Nat.eqb_eq in Hu. done.
  - intros u Hu Hb. unfold hexdash. unfold UUID, byte in *. rewrite hex_roundtrip by apply pad_to_bytes. cbn.
    rewrite pad_to_length. cbn. f_equal. unfold pad_to. rewrite take_app_le.
    2: { rewrite length_fmap. lia. }
    rewrite take_ge by (rewrite length_fmap; lia).
    rewrite <- (list_fmap_id u) at 2. apply list_fmap_ext. intros i b Hi. cbn.
    apply Z.mod_small. eapply Forall_lookup_1 in Hb; [|done]. done.
  - intros u. unfold hexdash. pose proof (pad_to_bytes 16 u) as Hb. induction Hb as [|b l Hb _ IH]; [done|].
    cbn [hex_Encode str_all]. rewrite IH, andb_true_r.
    assert (forall n, (0 <= n < 16)%Z ->
      (in_range 48 57 (hex_digit n) || in_range 97 102 (hex_digit n) ||
       bool_decide (hex_digit n = "-"%char)) = true) as Hd.
    { intros n Hn. assert (n ∈ seqZ 0 16) as Hin by (apply elem_of_seqZ; lia).
      assert (forallb (fun n => in_range 48 57 (hex_digit n) || in_range 97 102 (hex_digit n) ||
        bool_decide (hex_digit n = "-"%char)) (seqZ 0 16) = true) as Hall by (vm_compute; reflexivity).
      rewrite forallb_elem in Hall. by apply Hall. }
    unfold is_byte in Hb. rewrite !Hd; [done| |].
    + pose proof (Z.mod_pos_bound b 16). lia.
    + split; [apply Z.div_pos; lia|apply Z.div_lt_upper_bound; lia].
  - intros u Hu ->. by vm_compute in Hu.
Defined.

(** Certificates as key, issuer key and raw form. *)
#[export] Instance X509_ref : X509.
Proof.
  refine {|
    Certificate := (list byte * list byte);
    RawSubjectPublicKeyInfo := fst;
    cert_Raw c := (Z.of_nat (length c.1) :: c.1 ++ c.2)%list;
    CheckSignatureFrom c p := fail_if (negb (bool_decide (c.2 = p.1))) (External "x509: bad signature");
    ParseCertificate d :=
      match d with
      | n :: d => Ok (take (Z.to_nat n) d, drop (Z.to_nat n) d)
      | [] => Err (External "x509: malformed certificate")
      end |}.
  - intros [a b]. cbn. rewrite Nat2Z.id. by rewrite take_app_length, drop_app_length.
  - by intros [].
  - intros [] []. cbn. by destruct (bool_decide _).
Defined.
