(* ===== verification/Pkp.v ===== *)
(** pkg/pkp: public key pins, and the TLS configuration that trusts a server whose
    certificate chain contains a pinned key. *)

From S2P Require Import Prelude GoStd Base64 CoreV1 Tokens Crypto.
From Stdlib Require Import Ascii.

Local Open Scope string_scope.

(** ** pin.go *)

Definition ErrMissingAlgorithm : error := ErrorString "missing algorithm".
Definition ErrUnsupportedAlgorithm : error := ErrorString "unsupported algorithm".
Definition ErrMalformedPin : error := ErrorString "malformed pin".

Definition Alg : Type := string.
Definition AlgSHA256 : Alg := "sha256".
Definition AlgB2B256 : Alg := "b2b256".

Record PublicKeyPin := mkPublicKeyPin { pin_Algorithm : Alg; pin_Fingerprint : list byte }.

#[export] Instance PublicKeyPin_eq_dec : EqDecision PublicKeyPin.
Proof. unfold Alg. solve_decision. Defined.

(** The copy has the same contents. *)
Definition pin_DeepCopy (p : PublicKeyPin) : PublicKeyPin :=
  mkPublicKeyPin (pin_Algorithm p) ([] ++ pin_Fingerprint p).

Definition pin_Validate (p : PublicKeyPin) : outcome unit :=
  if decide (pin_Algorithm p = AlgSHA256 \/ pin_Algorithm p = AlgB2B256) then
    fail_if (negb (length (pin_Fingerprint p) =? 32)%nat) ErrMalformedPin
  else Err ErrUnsupportedAlgorithm.

Definition pin_Encode (p : PublicKeyPin) : string :=
  pin_Algorithm p +:+ ":" +:+ EncodeToString RawURLEncoding (pin_Fingerprint p).

Definition pin_Equal (p other : PublicKeyPin) : bool :=
  bool_decide (pin_Algorithm p = pin_Algorithm other) &&
  ConstantTimeCompare (pin_Fingerprint p) (pin_Fingerprint other).

Definition DecodePin (pin : string) : outcome PublicKeyPin :=
  match Split ":"%char pin with
  | [] | [_] => Err ErrMissingAlgorithm
  | [alg; data] =>
      let? fp := omap_err (fun _ => Wrapped "illegal base64 data" ErrMalformedPin)
                   (DecodeString RawURLEncoding data) in
      if decide (alg = AlgSHA256) then Ok (mkPublicKeyPin AlgSHA256 fp)
      else if decide (alg = AlgB2B256) then Ok (mkPublicKeyPin AlgB2B256 fp)
      else Err (Wrapped alg ErrUnsupportedAlgorithm)
  | _ => Err ErrMalformedPin
  end.

Section Certificates.
Context `{X509} `{Sha256} `{Blake2b}.

Definition NewBlake2b256 (cert : Certificate) : PublicKeyPin :=
  mkPublicKeyPin AlgB2B256 (b2b_Sum256 (RawSubjectPublicKeyInfo cert)).

Definition NewSha256 (cert : Certificate) : PublicKeyPin :=
  mkPublicKeyPin AlgSHA256 (Sum256 (RawSubjectPublicKeyInfo cert)).

Definition NewPin (cert : Certificate) (alg : Alg) : outcome PublicKeyPin :=
  if decide (alg = AlgSHA256) then Ok (NewSha256 cert)
  else if decide (alg = AlgB2B256) then Ok (NewBlake2b256 cert)
  else Err ErrUnsupportedAlgorithm.

(** ** tls.go *)

Definition ErrNoPins : error := ErrorString "no pins provided".
Definition ErrCertValidationFailed : error := ErrorString "peer certificate validation failed".

(** crypto/tls, as far as the repository configures it. *)
Record tls_Config := mkTlsConfig {
  tls_MinVersion : Z;
  tls_InsecureSkipVerify : bool;
  tls_VerifyConnection : option (list Certificate -> outcome unit);
  tls_RootCAs : option (list Certificate) }.

Definition VersionTLS12 : Z := 771.

(** Each certificate must be signed by the next one. *)
Fixpoint check_chain (peerCerts : list Certificate) : outcome unit :=
  match peerCerts with
  | c :: ((p :: _) as rest) =>
      omap_err (fun _ => Wrapped "bad signature" ErrCertValidationFailed) (CheckSignatureFrom c p) ;?
      check_chain rest
  | _ => Ok tt
  end.

(** The inner loop over the pins: a nil pin (unsupported algorithm) would be
    dereferenced by [Equal]. *)
Fixpoint match_pins (cert : Certificate) (pins : list PublicKeyPin) : outcome bool :=
  match pins with
  | [] => Ok false
  | pin :: pins =>
      match NewPin cert (pin_Algorithm pin) with
      | Ok peerCertPin => if pin_Equal pin peerCertPin then Ok true else match_pins cert pins
      | _ => Panic "nil pointer dereference"
      end
  end.

(** The index of the first certificate with a matching pin. *)
Fixpoint find_pinned (i : nat) (certs : list Certificate) (pins : list PublicKeyPin)
  : outcome (option nat) :=
  match certs with
  | [] => Ok None
  | c :: certs =>
      let? found := match_pins c pins in
      if found then Ok (Some i) else find_pinned (S i) certs pins
  end.

Definition VerifyConnection (copiedPins : list PublicKeyPin) (peerCerts : list Certificate)
  : outcome unit :=
  check_chain peerCerts ;?
  let? pinnedCert := find_pinned 0 peerCerts copiedPins in
  match pinnedCert with
  | None => Err ErrCertValidationFailed
  | Some _ => Ok tt
  end.

Definition pkp_TLSConfig (pins : list PublicKeyPin) : outcome tls_Config :=
  fail_if (bool_decide (pins = [])) ErrNoPins ;?
  let? copiedPins := omapM (fun pin => pin_Validate pin ;? Ok (pin_DeepCopy pin)) pins in
  Ok (mkTlsConfig VersionTLS12 true (Some (VerifyConnection copiedPins)) None).

(** ** Properties *)

(** A chain of signatures from one certificate to another. *)
Inductive signed_path : list Certificate -> Prop :=
| signed_one c : signed_path [c]
| signed_cons c p rest : CheckSignatureFrom c p = Ok tt -> signed_path (p :: rest) ->
    signed_path (c :: p :: rest).

Lemma signed_path_prefix pre c post :
  signed_path (pre ++ c :: post)%list -> signed_path (pre ++ [c])%list.
Proof.
  revert c post. induction pre as [|d pre IH]; intros c post Hp; [constructor|].
  destruct pre as [|e pre]; cbn in *; inversion Hp; subst; constructor; try done.
  - constructor.
  - by eapply IH.
Qed.

Definition pins_cert (pins : list PublicKeyPin) (cert : Certificate) : Prop :=
  exists pin, pin ∈ pins /\ NewPin cert (pin_Algorithm pin) = Ok pin.

Lemma check_chain_Ok certs : certs <> [] -> (check_chain certs = Ok tt <-> signed_path certs).
Proof.
  intros Hne. induction certs as [|c [|p rest] IH]; [done| |].
  - split; [intros _; constructor|done].
  - cbn [check_chain]. rewrite obind_Ok. split.
    + intros (u & Hc & Hr). destruct (CheckSignatureFrom c p) as [[]| |] eqn:E; [|done|done].
      constructor; [done|]. by apply IH.
    + inversion 1 as [|? ? ? Hsig Hp]; subst. exists tt. split; [|by apply IH]. by rewrite Hsig.
Qed.

Lemma pin_Equal_eq p q : pin_Equal p q = true <-> p = q.
Proof.
  unfold pin_Equal, ConstantTimeCompare. rewrite andb_true_iff, !bool_decide_eq_true.
  destruct p, q; cbn. split; [intros [-> ->]|intros [= -> ->]]; done.
Qed.

Definition supported (pin : PublicKeyPin) : Prop :=
  pin_Algorithm pin = AlgSHA256 \/ pin_Algorithm pin = AlgB2B256.

Lemma NewPin_supported cert pin : supported pin -> exists q, NewPin cert (pin_Algorithm pin) = Ok q.
Proof. unfold NewPin. intros [-> | ->]; eexists; done. Qed.

Lemma match_pins_spec cert pins :
  Forall supported pins ->
  exists b, match_pins cert pins = Ok b /\ (b = true <-> pins_cert pins cert).
Proof.
  unfold pins_cert. induction 1 as [|pin pins Hs _ IH]; cbn.
  - exists false. split; [done|]. split; [done|]. intros (? & []%not_elem_of_nil & _).
  - destruct (NewPin_supported cert pin Hs) as (q & Hq). rewrite Hq.
    destruct (pin_Equal pin q) eqn:E.
    + apply pin_Equal_eq in E as <-. exists true. split; [done|]. split; [|done].
      intros _. exists pin. split; [left|done].
    + destruct IH as (b & -> & Hb). exists b. split; [done|]. rewrite Hb. split.
      * intros (p & Hp & ?). exists p. split; [by right|done].
      * intros (p & [->|Hp]%elem_of_cons & Hn); [|by exists p].
        rewrite Hn in Hq. injection Hq as <-. by rewrite (proj2 (pin_Equal_eq pin pin) eq_refl) in E.
Qed.

Lemma find_pinned_spec pins : Forall supported pins ->
  forall certs i, exists r, find_pinned i certs pins = Ok r /\
    (is_Some r <-> exists c, c ∈ certs /\ pins_cert pins c).
Proof.
  intros Hs. induction certs as [|c certs IH]; intros i; cbn.
  - exists None. split; [done|]. split; [by intros []|]. intros (? & []%not_elem_of_nil & _).
  - destruct (match_pins_spec c pins Hs) as (b & -> & Hb). cbn. destruct b.
    + exists (Some i). split; [done|]. split; [|done]. intros _. exists c. split; [left|]. by apply Hb.
    + destruct (IH (S i)) as (r & -> & Hr). exists r. split; [done|]. rewrite Hr. split.
      * intros (d & Hd & ?). exists d. split; [by right|done].
      * intros (d & [->|Hd]%elem_of_cons & Hp); [|by exists d]. by apply Hb in Hp.
Qed.

Lemma pin_Validate_Ok p :
  pin_Validate p = Ok tt <-> supported p /\ length (pin_Fingerprint p) = 32.
Proof.
  unfold pin_Validate, supported. case_decide.
  - rewrite fail_if_Ok, negb_false_iff, Nat.eqb_eq. naive_solver.
  - naive_solver.
Qed.

Lemma pkp_TLSConfig_Ok pins conf :
  pkp_TLSConfig pins = Ok conf ->
  pins <> [] /\ Forall (fun p => pin_Validate p = Ok tt) pins /\
  conf = mkTlsConfig VersionTLS12 true (Some (VerifyConnection pins)) None.
Proof.
  unfold pkp_TLSConfig. intros Hc. open_ok Hc Hne. rewrite fail_if_Ok, bool_decide_eq_false in Hne.
  open_ok Hc Hp. apply omapM_Ok in Hp.
  assert (u = pins /\ Forall (fun p => pin_Validate p = Ok tt) pins) as [-> Hv].
  { clear Hne Hc. induction Hp as [|p q ps qs Hpq _ [IH1 IH2]]; [done|].
    open_ok Hpq Hv. injection Hpq as <-. subst. split; [|by constructor]. by destruct p. }
  injection Hc as <-. done.
Qed.
End Certificates.

(** ** Claims *)

(** C26: a connection set up with pinned keys is accepted exactly when the peer
    presents a chain in which every certificate is signed by the next one and some
    certificate's key has a pinned fingerprint; in particular the leaf is then
    linked by signatures to a pinned certificate.  No peer can make the check
    crash, and the configuration only exists for valid pins. *)
Theorem pinned_connection `{X509} `{Sha256} `{Blake2b} (pins : list PublicKeyPin) (conf : tls_Config)
    (verify : list Certificate -> outcome unit) (peerCerts : list Certificate) :
  pkp_TLSConfig pins = Ok conf -> tls_VerifyConnection conf = Some verify ->
  (verify peerCerts = Ok tt <->
     signed_path peerCerts /\ exists c, c ∈ peerCerts /\ pins_cert pins c) /\
  (verify peerCerts = Ok tt ->
     exists pre c post, peerCerts = (pre ++ c :: post)%list /\ pins_cert pins c /\
       signed_path (pre ++ [c])%list) /\
  no_panic (verify peerCerts) = true.
Proof.
  intros (Hne & Hv & ->)%pkp_TLSConfig_Ok [= <-].
  assert (Forall supported pins) as Hs.
  { revert Hv. apply Forall_impl. intros p Hp. by apply pin_Validate_Ok in Hp as [? _]. }
  destruct (find_pinned_spec pins Hs peerCerts 0) as (r & Hr & Hsome).
  assert (VerifyConnection pins peerCerts = Ok tt <->
     signed_path peerCerts /\ exists c, c ∈ peerCerts /\ pins_cert pins c) as Hiff.
  { unfold VerifyConnection. destruct peerCerts as [|c0 rest].
    - cbn. split; [done|]. intros [Hp _]. inversion Hp.
    - rewrite <- check_chain_Ok by done. rewrite <- Hsome, Hr.
      destruct (check_chain (c0 :: rest)) as [[]| |]; cbn; [|naive_solver..].
      destruct r; [naive_solver|]. split; [done|]. intros [_ [? [=]]]. }
  split; [done|]. split.
  - intros Hok. apply Hiff in Hok as [Hp (c & Hc & Hpin)].
    apply list_elem_of_split in Hc as (pre & post & ->). exists pre, c, post.
    split; [done|]. split; [done|]. by eapply signed_path_prefix.
  - unfold VerifyConnection.
    assert (forall cs, no_panic (check_chain cs) = true) as Hnp.
    { induction cs as [|c [|p rest] IH]; [done|done|]. cbn [check_chain].
      pose proof (CheckSignatureFrom_no_panic c p) as Hc.
      destruct (CheckSignatureFrom c p); cbn; [exact IH|done|done]. }
    specialize (Hnp peerCerts). destruct (check_chain peerCerts); cbn; [|done|done].
    rewrite Hr. cbn. by destruct r.
Qed.

(** A leaf signed by a root whose key is pinned. *)
Definition demo_root : Certificate := ([1; 2; 3]%Z, [1; 2; 3]%Z).
Definition demo_leaf : Certificate := ([7]%Z, [1; 2; 3]%Z).
Definition demo_pin : PublicKeyPin := NewSha256 demo_root.

Lemma pinned_connection_witness :
  exists conf verify, pkp_TLSConfig [demo_pin] = Ok conf /\ tls_VerifyConnection conf = Some verify /\
    verify [demo_leaf; demo_root] = Ok tt /\ no_panic (verify [demo_leaf]) = true.
Proof.
  exists (mkTlsConfig VersionTLS12 true (Some (VerifyConnection [demo_pin])) None), (VerifyConnection [demo_pin]).
  split; [reflexivity|]. split; [reflexivity|]. split; [vm_compute; reflexivity|].
  eapply (pinned_connection [demo_pin]); reflexivity.
Defined.

Lemma no_colon_alg p : supported p -> no_char ":"%char (pin_Algorithm p) = true.
Proof. by intros [-> | ->]. Qed.

(** The textual form of a pin decodes to the pin, and only the two supported
    algorithms decode. *)
Lemma pin_roundtrip (p : PublicKeyPin) :
  supported p -> Forall is_byte (pin_Fingerprint p) ->
  DecodePin (pin_Encode p) = Ok p /\ (forall s q, DecodePin s = Ok q -> supported q).
Proof.
  intros Hs Hb. split.
  - unfold DecodePin, pin_Encode.
    change (":" +:+ EncodeToString RawURLEncoding (pin_Fingerprint p))
      with (String ":" (EncodeToString RawURLEncoding (pin_Fingerprint p))).
    rewrite Split_app, (Split_no_char _ _ (no_colon_alg _ Hs)),
      (Split_no_char _ _ (EncodeToString_no_char ":"%char _ eq_refl Hb)). cbn [app].
    rewrite base64_roundtrip by (apply RawURLEncoding_ok || done). cbn.
    destruct p as [alg fp], Hs as [E|E]; cbn in E; subst alg; done.
  - intros s q. unfold DecodePin, supported.
    destruct (Split _ s) as [|x [|y [|]]]; try done.
    intros (fp & _ & Hq)%obind_Ok. repeat case_decide; simplify_eq/=; auto.
Qed.

