(* ===== verification/Keyring.v ===== *)
(** pkg/keyring: sets of typed keys, their merging and their serialized form. *)

From S2P Require Import Prelude GoStd CoreV1 Etcd RefJSON Tokens Crypto Pkp.
From Stdlib Require Import DecimalZ.

Local Open Scope string_scope.

(** ** keys.go, ephemeral.go *)

Record SharedKeys := mkSharedKeys { sk_ClientKey : list byte; sk_ServerKey : list byte }.
Record PKPKey := mkPKPKey { PinnedKeys : list PublicKeyPin }.
Record CACertsKey := mkCACertsKey { CACerts : list (list byte) }.
Record EphemeralKey := mkEphemeralKey {
  ek_Usage : string;
  ek_Secret : list byte;
  ek_Labels : gmap string string }.

Definition Encryption : string := "encryption".
Definition Signing : string := "signing".

#[export] Instance SharedKeys_eq_dec : EqDecision SharedKeys.
Proof. solve_decision. Defined.
#[export] Instance PKPKey_eq_dec : EqDecision PKPKey.
Proof. solve_decision. Defined.
#[export] Instance CACertsKey_eq_dec : EqDecision CACertsKey.
Proof. solve_decision. Defined.
#[export] Instance EphemeralKey_eq_dec : EqDecision EphemeralKey.
Proof. solve_decision. Defined.

(** The validator tags of [EphemeralKey]: the usage is one of two values, the secret
    has 32 bytes, label keys and values are printable ASCII. *)
Definition printascii (s : string) : bool := str_all (in_range 32 126) s.

Definition EphemeralKey_Validate (e : EphemeralKey) : outcome unit :=
  fail_if (negb (bool_decide (ek_Usage e ∈ [Encryption; Signing]))) (External "validation: oneof") ;?
  fail_if (negb (length (ek_Secret e) =? 32)%nat) (External "validation: len") ;?
  fail_if (negb (forallb (fun kv : string * string => printascii kv.1 && printascii kv.2)
                   (map_to_list (ek_Labels e)))) (External "validation: printascii").

Definition NewSharedKeys `{Ed25519} (secret : list byte) : outcome SharedKeys :=
  if negb (length secret =? 64)%nat then Panic "shared secret must be 64 bytes"
  else
    let? client := NewKeyFromSeed (take 32 secret) in
    let? server := NewKeyFromSeed (drop 32 secret) in
    Ok (mkSharedKeys client server).

Definition NewPKPKey (pinnedKeys : list PublicKeyPin) : PKPKey := mkPKPKey (map pin_DeepCopy pinnedKeys).

Definition NewCACertsKey `{X509} (certs : list Certificate) : CACertsKey := mkCACertsKey (map cert_Raw certs).

(** ** keyring.go *)

(** A value of type [any]: a key of one of the four types, a value of another type,
    or nil. *)
Inductive AnyKey :=
| KShared (k : SharedKeys)
| KPKP (k : PKPKey)
| KCACerts (k : CACertsKey)
| KEphemeral (k : EphemeralKey)
| KOther (type : string)
| KNil.

#[export] Instance AnyKey_eq_dec : EqDecision AnyKey.
Proof. solve_decision. Defined.

(** A [reflect.Type], by its name; the type of nil is nil. *)
Notation Type_ := string (only parsing).
Definition TSharedKeys : Type_ := "*keyring.SharedKeys".
Definition TPKPKey : Type_ := "*keyring.PKPKey".
Definition TCACertsKey : Type_ := "*keyring.CACertsKey".
Definition TEphemeralKey : Type_ := "*keyring.EphemeralKey".

Definition TypeOf (k : AnyKey) : Type_ :=
  match k with
  | KShared _ => TSharedKeys
  | KPKP _ => TPKPKey
  | KCACerts _ => TCACertsKey
  | KEphemeral _ => TEphemeralKey
  | KOther t => "other:" +:+ t
  | KNil => ""
  end.

(** The fields of [completeKeyring], in order. *)
Definition complete_fields : list Type_ := [TSharedKeys; TPKPKey; TCACertsKey; TEphemeralKey].

Definition allowedKeyTypes (t : Type_) : bool := bool_decide (t ∈ complete_fields).

Record completeKeyring := mkCompleteKeyring {
  ck_SharedKeys : list SharedKeys;
  ck_PKPKey : list PKPKey;
  ck_CACertsKey : list CACertsKey;
  ck_EphemeralKey : list EphemeralKey }.

Notation Keyring := (gmap string (list AnyKey)).

Definition add_key (m : Keyring) (key : AnyKey) : Keyring :=
  <[TypeOf key := (default [] (m !! TypeOf key) ++ [key])%list]> m.

Fixpoint new_from (m : Keyring) (keys : list AnyKey) : outcome Keyring :=
  match keys with
  | [] => Ok m
  | key :: keys =>
      if negb (allowedKeyTypes (TypeOf key)) then Panic "invalid key type"
      else new_from (add_key m key) keys
  end.

Definition keyring_New (keys : list AnyKey) : outcome Keyring := new_from ∅ keys.

(** [ForEach] visits the types in the order the map is iterated in. *)
Definition ForEach_in (order : list Type_) (kr : Keyring) : list AnyKey :=
  mjoin ((fun t => default [] (kr !! t)) <$> order).

Definition ForEach (kr : Keyring) : list AnyKey := ForEach_in (map_to_list kr).*1 kr.

Definition Merge_in (order1 order2 : list Type_) (kr other : Keyring) : outcome Keyring :=
  keyring_New (ForEach_in order1 kr ++ ForEach_in order2 other).

Definition Merge (kr other : Keyring) : outcome Keyring :=
  Merge_in (map_to_list kr).*1 (map_to_list other).*1 kr other.

(** A function passed to [Try]: one argument of some type, or a value that is not
    such a function.  [S] is the state its closure captures. *)
Inductive UseKeyFn (S : Type) :=
| UseKey (argType : Type_) (call : AnyKey -> S -> S)
| NotAFunc
| WrongArity.
Arguments UseKey {_} _ _.
Arguments NotAFunc {_}.
Arguments WrongArity {_}.

Fixpoint Try {S} (kr : Keyring) (fns : list (UseKeyFn S)) (found : bool) (s : S) : outcome (bool * S) :=
  match fns with
  | [] => Ok (found, s)
  | NotAFunc :: _ => Panic "invalid UseKeyFn"
  | WrongArity :: _ => Panic "invalid UseKeyFn (requires one parameter)"
  | UseKey argType call :: fns =>
      match kr !! argType with
      | Some f => Try kr fns true (fold_left (fun s k => call k s) f s)
      | None => Try kr fns found s
      end
  end.

Definition as_shared (k : AnyKey) : option SharedKeys := match k with KShared s => Some s | _ => None end.
Definition as_pkp (k : AnyKey) : option PKPKey := match k with KPKP s => Some s | _ => None end.
Definition as_cacerts (k : AnyKey) : option CACertsKey := match k with KCACerts s => Some s | _ => None end.
Definition as_ephemeral (k : AnyKey) : option EphemeralKey := match k with KEphemeral s => Some s | _ => None end.

(** The struct [Marshal] fills by reflection: for each field the keys of its type. *)
Definition complete_of (kr : Keyring) : completeKeyring :=
  mkCompleteKeyring
    (omap as_shared (default [] (kr !! TSharedKeys)))
    (omap as_pkp (default [] (kr !! TPKPKey)))
    (omap as_cacerts (default [] (kr !! TCACertsKey)))
    (omap as_ephemeral (default [] (kr !! TEphemeralKey))).

(** The values [Unmarshal] collects from the decoded struct, field by field. *)
Definition complete_values (c : completeKeyring) : list AnyKey :=
  (map KShared (ck_SharedKeys c) ++ map KPKP (ck_PKPKey c) ++ map KCACerts (ck_CACertsKey c) ++
   map KEphemeral (ck_EphemeralKey c))%list.

(** What the JSON tags of the struct keep: ephemeral keys have the tag "-". *)
Definition persisted (c : completeKeyring) : completeKeyring :=
  mkCompleteKeyring (ck_SharedKeys c) (ck_PKPKey c) (ck_CACertsKey c) [].

(** encoding/json on [completeKeyring]. *)
Class KeyringJSON := {
  json_Marshal : completeKeyring -> outcome string;
  json_Unmarshal : string -> outcome completeKeyring;
  json_Marshal_Ok c : exists s, json_Marshal c = Ok s;
  json_Marshal_persisted c : json_Marshal (persisted c) = json_Marshal c;
  json_Unmarshal_no_panic s : no_panic (json_Unmarshal s) = true;
  json_Unmarshal_Marshal c s : json_Marshal c = Ok s -> json_Unmarshal s = Ok (persisted c) }.

Definition keyring_Marshal `{KeyringJSON} (kr : Keyring) : outcome string := json_Marshal (complete_of kr).

Definition keyring_Unmarshal `{KeyringJSON} (data : string) : outcome Keyring :=
  let? complete := json_Unmarshal data in keyring_New (complete_values complete).

(** ** Properties *)

(** The invariant of a keyring: under a type there are keys of that type only, and
    at least one of them; only the four allowed types occur. *)
Definition keyring_ok (kr : Keyring) : Prop :=
  forall t l, kr !! t = Some l ->
    allowedKeyTypes t = true /\ l <> [] /\ Forall (fun k => TypeOf k = t) l.

Definition keys_of_type (t : Type_) (keys : list AnyKey) : list AnyKey :=
  filter (fun k => TypeOf k = t) keys.

Arguments keys_of_type : simpl never.

Lemma new_from_spec keys : forall m kr,
  new_from m keys = Ok kr ->
  Forall (fun k => allowedKeyTypes (TypeOf k) = true) keys /\
  forall t, kr !! t = match m !! t, keys_of_type t keys with
                      | None, [] => None
                      | o, l => Some (default [] o ++ l)%list
                      end.
Proof.
  induction keys as [|k keys IH]; intros m kr; cbn [new_from].
  - intros [= <-]. split; [constructor|]. intros t. cbn. destruct (m !! t) eqn:E; [|done]. cbn. by rewrite app_nil_r.
  - destruct (allowedKeyTypes (TypeOf k)) eqn:Ea; [|done]. cbn [negb]. intros Hn.
    destruct (IH _ _ Hn) as [Hall Ht]. split; [by constructor|]. intros t. rewrite Ht.
    unfold add_key, keys_of_type. rewrite filter_cons. destruct (decide (TypeOf k = t)) as [<-|Hne].
    + rewrite lookup_insert_eq. cbn. destruct (m !! TypeOf k); cbn; by rewrite <- ?app_assoc.
    + rewrite lookup_insert_ne by done. done.
Qed.

Lemma keyring_New_lookup keys kr t :
  keyring_New keys = Ok kr ->
  kr !! t = match keys_of_type t keys with [] => None | l => Some l end.
Proof. intros [_ Ht]%new_from_spec. rewrite Ht, lookup_empty. by destruct (keys_of_type t keys). Qed.

Lemma keyring_New_Ok keys :
  Forall (fun k => allowedKeyTypes (TypeOf k) = true) keys -> exists kr, keyring_New keys = Ok kr.
Proof.
  unfold keyring_New. generalize (∅ : Keyring). intros m Hf. revert m.
  induction Hf as [|k keys Hk _ IH]; intros m; cbn [new_from]; [eauto|]. rewrite Hk. cbn. apply IH.
Qed.

Lemma keyring_New_ok keys kr : keyring_New keys = Ok kr -> keyring_ok kr.
Proof.
  intros Hn t l Hl. pose proof Hn as [Hall _]%new_from_spec.
  rewrite (keyring_New_lookup _ _ t Hn) in Hl. unfold keys_of_type in Hl.
  assert (Forall (fun k => TypeOf k = t /\ allowedKeyTypes (TypeOf k) = true)
            (filter (fun k => TypeOf k = t) keys)) as Hf.
  { apply list.Forall_forall. intros k [Ht Hk]%list_elem_of_filter.
    rewrite list.Forall_forall in Hall. split; [done|]. by apply Hall. }
  destruct (filter _ keys) as [|k l'] eqn:E; [done|]. injection Hl as <-.
  split; [|split; [done|]].
  - apply Forall_cons_1 in Hf as [[<- ?] _]. done.
  - revert Hf. apply Forall_impl. by intros ? [].
Qed.

Lemma keys_of_type_app t l1 l2 : keys_of_type t (l1 ++ l2) = (keys_of_type t l1 ++ keys_of_type t l2)%list.
Proof. apply list.filter_app. Qed.

Lemma filter_all_type t t' l :
  Forall (fun k => TypeOf k = t') l -> keys_of_type t l = if decide (t' = t) then l else [].
Proof.
  unfold keys_of_type. induction 1 as [|k l Hk _ IH]; [by case_decide|].
  rewrite filter_cons, IH, Hk. by case_decide.
Qed.

(** Whatever the iteration order, the keys of one type come out in their order. *)
Lemma ForEach_in_type kr order t :
  keyring_ok kr -> NoDup order -> (forall u, u ∈ order <-> is_Some (kr !! u)) ->
  keys_of_type t (ForEach_in order kr) = default [] (kr !! t).
Proof.
  intros Hok Hnd Hdom.
  assert (forall o, NoDup o -> keys_of_type t (ForEach_in o kr) =
            if decide (t ∈ o) then default [] (kr !! t) else []) as Haux.
  { clear Hnd Hdom. induction 1 as [|u o Hu _ IH]; [done|].
    unfold ForEach_in in *. rewrite fmap_cons. change (mjoin (?a :: ?b)) with (a ++ mjoin b)%list.
    rewrite keys_of_type_app, IH.
    assert (keys_of_type t (default [] (kr !! u)) = if decide (u = t) then default [] (kr !! u) else []) as ->.
    { destruct (kr !! u) as [l|] eqn:E; [|by destruct (decide (u = t))].
      cbn. apply filter_all_type. by destruct (Hok _ _ E) as (_ & _ & ?). }
    destruct (decide (u = t)) as [->|Hne].
    - rewrite decide_False by done. rewrite decide_True by left. by rewrite app_nil_r.
    - cbn. destruct (decide (t ∈ o)) as [Hi|Hi].
      + by rewrite decide_True by by right.
      + rewrite decide_False; [done|]. rewrite elem_of_cons. naive_solver. }
  rewrite (Haux order Hnd). case_decide as Hin; [done|].
  rewrite Hdom in Hin. by destruct (kr !! t); [destruct Hin|].
Qed.

Lemma ForEach_in_allowed kr order :
  keyring_ok kr -> Forall (fun k => allowedKeyTypes (TypeOf k) = true) (ForEach_in order kr).
Proof.
  intros Hok. unfold ForEach_in. apply Forall_join, Forall_fmap, Forall_true. intros t. cbn.
  destruct (kr !! t) as [l|] eqn:E; [|constructor]. destruct (Hok _ _ E) as (Ha & _ & Hl).
  revert Hl. apply Forall_impl. intros k ->. done.
Qed.

(** An order in which a map may be iterated: its keys, each once. *)
Definition iteration_order (kr : Keyring) (order : list Type_) : Prop :=
  NoDup order /\ forall u, u ∈ order <-> is_Some (kr !! u).

Lemma map_to_list_order kr : iteration_order kr (map_to_list kr).*1.
Proof.
  split; [apply NoDup_fst_map_to_list|]. intros u. rewrite list_elem_of_fmap. split.
  - intros ([t l] & -> & Hi%elem_of_map_to_list). by exists l.
  - intros [l Hl]. exists (u, l). split; [done|]. by apply elem_of_map_to_list.
Qed.

Lemma Merge_in_lookup kr other o1 o2 m t :
  keyring_ok kr -> keyring_ok other -> iteration_order kr o1 -> iteration_order other o2 ->
  Merge_in o1 o2 kr other = Ok m ->
  m !! t = match (default [] (kr !! t) ++ default [] (other !! t))%list with [] => None | l => Some l end.
Proof.
  intros Hk Ho [Hn1 Hd1] [Hn2 Hd2] Hm. unfold Merge_in in Hm.
  rewrite (keyring_New_lookup _ _ t Hm), keys_of_type_app.
  by rewrite !ForEach_in_type by done.
Qed.

Lemma Merge_in_Ok kr other o1 o2 :
  keyring_ok kr -> keyring_ok other -> exists m, Merge_in o1 o2 kr other = Ok m.
Proof.
  intros Hk Ho. apply keyring_New_Ok, Forall_app. split; by apply ForEach_in_allowed.
Qed.

(** The keys of the struct fields, as lists of keys. *)
Lemma complete_of_lookup kr t :
  keyring_ok kr ->
  keys_of_type t (complete_values (persisted (complete_of kr))) =
  if decide (t = TEphemeralKey) then [] else default [] (kr !! t).
Proof.
  intros Hok. unfold complete_values, persisted. cbn [ck_SharedKeys ck_PKPKey ck_CACertsKey ck_EphemeralKey complete_of map]. rewrite !keys_of_type_app, app_nil_r.
  assert (forall (A : Type) (inj : A -> AnyKey) (proj : AnyKey -> option A) u,
    (forall a, TypeOf (inj a) = u) ->
    (forall k, TypeOf k = u -> exists a, proj k = Some a /\ inj a = k) ->
    keys_of_type t (map inj (omap proj (default [] (kr !! u)))) =
    if decide (u = t) then default [] (kr !! t) else []) as Haux.
  { intros A inj proj u Hinj Hproj.
    assert (map inj (omap proj (default [] (kr !! u))) = default [] (kr !! u)) as ->.
    { destruct (kr !! u) as [l|] eqn:E; [|done]. cbn. destruct (Hok _ _ E) as (_ & _ & Hl). clear E.
      induction Hl as [|k l Hk _ IH]; [done|]. destruct (Hproj k Hk) as (a & Ha & Hia).
      cbn. rewrite Ha. cbn. by rewrite Hia, IH. }
    destruct (kr !! u) as [l|] eqn:E; cbn.
    - destruct (Hok _ _ E) as (_ & _ & Hl). rewrite (filter_all_type t u l Hl).
      case_decide as Hu; [|done]. subst. by rewrite E.
    - case_decide as Hu; [|done]. subst. by rewrite E. }
  rewrite (Haux _ KShared as_shared TSharedKeys), (Haux _ KPKP as_pkp TPKPKey),
    (Haux _ KCACerts as_cacerts TCACertsKey); [|done| |done| |done|].
  2-4: intros [] Hk; try discriminate Hk; try (by eexists); by destruct type.
  destruct (decide (TSharedKeys = t)) as [<-|H1]; [by rewrite !decide_False, !app_nil_r by done|].
  destruct (decide (TPKPKey = t)) as [<-|H2]; [by rewrite !decide_False, !app_nil_r by done|].
  destruct (decide (TCACertsKey = t)) as [<-|H3]; [by rewrite !decide_False by done|]. cbn.
  case_decide as H4; [done|]. destruct (kr !! t) as [l|] eqn:E; [|done].
  destruct (Hok _ _ E) as (Ha & _ & _). unfold allowedKeyTypes in Ha. apply bool_decide_eq_true in Ha.
  unfold complete_fields in Ha. rewrite !elem_of_cons in Ha. by destruct Ha as [->|[->|[->|[->|[]%not_elem_of_nil]]]].
Qed.

Lemma complete_values_allowed c :
  Forall (fun k => allowedKeyTypes (TypeOf k) = true) (complete_values c).
Proof.
  unfold complete_values. rewrite !Forall_app.
  repeat split; apply Forall_fmap, Forall_true; done.
Qed.

(** What a merge holds: under each type the keys of the first keyring followed by
    those of the second. *)
Definition merged (kr other m : Keyring) : Prop :=
  forall t, m !! t = match (default [] (kr !! t) ++ default [] (other !! t))%list with [] => None | l => Some l end.

(** The iteration order of Go maps does not matter to Merge: every order gives
    the same keyring, which holds under each type the keys of the first keyring
    followed by those of the second, and is well formed again. *)
Lemma Merge_order_independent (kr other : Keyring) (o1 o2 : list Type_) :
  keyring_ok kr -> keyring_ok other -> iteration_order kr o1 -> iteration_order other o2 ->
  exists m, Merge_in o1 o2 kr other = Ok m /\ Merge kr other = Ok m /\ keyring_ok m /\ merged kr other m.
Proof.
  intros Hk Ho H1 H2. destruct (Merge_in_Ok kr other o1 o2 Hk Ho) as (m & Hm).
  assert (merged kr other m) as Hl by (intros t; by eapply Merge_in_lookup).
  exists m. split; [done|]. split; [|split; [by eapply keyring_New_ok|done]].
  unfold Merge. destruct (Merge_in_Ok kr other (map_to_list kr).*1 (map_to_list other).*1 Hk Ho) as (m' & Hm').
  rewrite Hm'. f_equal. apply map_eq. intros t. rewrite Hl.
  by eapply Merge_in_lookup; [..|exact Hm']; auto using map_to_list_order.
Qed.

(** What survives storing a keyring: everything but the ephemeral keys. *)
Definition without_ephemeral (kr : Keyring) : Keyring := delete TEphemeralKey kr.

Lemma keyring_roundtrip_full `{KeyringJSON} (kr : Keyring) :
  keyring_ok kr ->
  exists s, keyring_Marshal kr = Ok s /\ keyring_Unmarshal s = Ok (without_ephemeral kr) /\
    keyring_Marshal (without_ephemeral kr) = Ok s.
Proof.
  intros Hok. destruct (json_Marshal_Ok (complete_of kr)) as (s & Hs).
  exists s. split; [done|]. split.
  - unfold keyring_Unmarshal. rewrite (json_Unmarshal_Marshal _ _ Hs). cbn [obind].
    destruct (keyring_New_Ok (complete_values (persisted (complete_of kr)))) as (m & Hm).
    { apply complete_values_allowed. }
    rewrite Hm. f_equal. apply map_eq. intros t. unfold without_ephemeral.
    rewrite (keyring_New_lookup _ _ t Hm), complete_of_lookup by done. rewrite lookup_delete.
    destruct (decide (t = TEphemeralKey)) as [->|Hne]; [by rewrite decide_True by done|].
    rewrite decide_False by done. destruct (kr !! t) as [l|] eqn:E; [|done].
    destruct (Hok _ _ E) as (_ & Hl & _). by destruct l.
  - unfold keyring_Marshal. rewrite <- Hs, <- (json_Marshal_persisted (complete_of kr)),
      <- json_Marshal_persisted. f_equal. unfold without_ephemeral, persisted, complete_of. cbn.
    by rewrite !lookup_delete_ne by done.
Qed.

Lemma keyring_roundtrip_aux `{KeyringJSON} (kr : Keyring) :
  keyring_ok kr ->
  exists s, keyring_Marshal kr = Ok s /\ keyring_Unmarshal s = Ok (without_ephemeral kr).
Proof. intros Hk. destruct (keyring_roundtrip_full kr Hk) as (s & ? & ? & _). eauto. Qed.

(** C40: a stored keyring is read back as it was, ephemeral keys excepted: those are
    never written. *)
Theorem keyring_roundtrip `{KeyringJSON} (kr : Keyring) :
  keyring_ok kr ->
  exists s, keyring_Marshal kr = Ok s /\ keyring_Unmarshal s = Ok (without_ephemeral kr) /\
    keyring_Marshal (without_ephemeral kr) = Ok s.
Proof. apply keyring_roundtrip_full. Qed.

(** ** Witnesses *)

(** A reference JSON coding of keyrings through the numeric codes of their parts. *)
Definition ck_rep : Type :=
  list (list byte * list byte) * list (list (string * list byte)) * list (list (list byte)).

Definition ck_to (c : completeKeyring) : ck_rep :=
  (map (fun k => (sk_ClientKey k, sk_ServerKey k)) (ck_SharedKeys c),
   map (fun k => map (fun p => (pin_Algorithm p, pin_Fingerprint p)) (PinnedKeys k)) (ck_PKPKey c),
   map CACerts (ck_CACertsKey c)).

Definition ck_of (r : ck_rep) : completeKeyring :=
  mkCompleteKeyring (map (fun k => mkSharedKeys k.1 k.2) r.1.1)
    (map (fun k => mkPKPKey (map (fun p => mkPublicKeyPin p.1 p.2) k)) r.1.2)
    (map mkCACertsKey r.2) [].

Lemma map_id_ext {A} (f : A -> A) l : (forall a, f a = a) -> map f l = l.
Proof. intros Hf. induction l as [|a l IH]; cbn; [done|]. by rewrite Hf, IH. Qed.

Lemma ck_of_to c : ck_of (ck_to c) = persisted c.
Proof.
  unfold ck_of, ck_to, persisted. cbn. rewrite !map_map. f_equal.
  - apply map_id_ext. by intros [].
  - apply map_id_ext. intros [l]. rewrite map_map. f_equal. apply map_id_ext. by intros [].
  - apply map_id_ext. by intros [].
Qed.

#[export] Instance KeyringJSON_ref : KeyringJSON.
Proof.
  refine {| json_Marshal := ref_Marshal (fun c => Some (ck_to c)); json_Unmarshal := ref_Unmarshal ck_of |}.
  - eauto.
  - done.
  - intros s. unfold ref_Unmarshal. by repeat case_match.
  - intros c s [= <-]. unfold ref_Unmarshal.
    rewrite int_of_string_Sprint, DecimalZ.of_to, decode_encode. by rewrite ck_of_to.
Defined.

Definition demo_shared : SharedKeys := mkSharedKeys [1; 2]%Z [3; 4]%Z.
Definition demo_keyring : Keyring :=
  list_to_map [(TSharedKeys, [KShared demo_shared]); (TPKPKey, [KPKP (NewPKPKey [demo_pin])]);
               (TEphemeralKey, [KEphemeral (mkEphemeralKey Signing [] ∅)])].

Definition keyring_check (kr : Keyring) : bool :=
  forallb (fun e : string * list AnyKey =>
             allowedKeyTypes e.1 && negb (bool_decide (e.2 = [])) &&
             forallb (fun k => bool_decide (TypeOf k = e.1)) e.2) (map_to_list kr).

Lemma keyring_check_sound kr : keyring_check kr = true -> keyring_ok kr.
Proof.
  unfold keyring_check. rewrite forallb_elem. intros Hc t l Hl%elem_of_map_to_list.
  specialize (Hc _ Hl). cbn in Hc. rewrite !andb_true_iff, negb_true_iff, bool_decide_eq_false in Hc.
  destruct Hc as [[? ?] Hf]. split; [done|]. split; [done|]. apply list.Forall_forall. intros k Hk.
  rewrite forallb_elem in Hf. apply Hf in Hk. by apply bool_decide_eq_true in Hk.
Qed.

Lemma keyring_roundtrip_witness :
  exists s, keyring_Marshal demo_keyring = Ok s /\
    keyring_Unmarshal s = Ok (without_ephemeral demo_keyring).
Proof.
  destruct (keyring_roundtrip demo_keyring) as (s & H1 & H2 & _);
    [apply keyring_check_sound; vm_compute; reflexivity|]. exists s. by split.
Defined.
