(* ===== verification/EtcdKV.v ===== *)
(** pkg/storage/etcd: the generic key-value store (kv_store.go) and the keyring store
    (keyring_store.go), on the etcd client of [Etcd]. *)

From S2P Require Import Prelude GoStd Base64 CoreV1 Storage Etcd EtcdStore Keyring Tokens.
From stdpp Require Import relations.

Local Open Scope string_scope.

(** The client returns errors of its own, never the ones of pkg/storage. *)
Class EtcdErrors (W : Type) `{EtcdClient W} : Prop := {
  etcd_Get_foreign k w w' : etcd_Get k w <> (w', Err ErrNotFound);
  etcd_Delete_foreign k w w' : etcd_Delete k w <> (w', Err ErrNotFound) }.

Section Stores.
Context {W : Type} `{EtcdClient W} `{KeyringJSON}.
Variable Prefix : string.

(** ** kv_store.go *)

Definition validateKey (key : string) : outcome unit :=
  fail_if (bool_decide (key = "")) (ErrorString "key cannot be empty").

(** The prefix of the store that [KeyValueStore] makes, and the path of a key. *)
Definition kv_prefix (prefix : string) : string := path_Join [store_prefix Prefix prefix; "kv"].
Definition kv_path (prefix key : string) : string := path_Join [kv_prefix prefix; key].

Definition kvs_Put (prefix key : string) (value : list byte) : M W unit :=
  wlift (validateKey key) ;!
  etcd_Put (kv_path prefix key) (EncodeToString StdEncoding value) 0%Z.

Definition kvs_Get (prefix key : string) : M W (list byte) :=
  wlift (validateKey key) ;!
  let! kvs := etcd_Get (kv_path prefix key) in
  match kvs with
  | [] => wfail ErrNotFound
  | kv :: _ => wlift (DecodeString StdEncoding (kv_Value kv))
  end.

Definition kvs_Delete (prefix key : string) : M W unit :=
  wlift (validateKey key) ;!
  let! deleted := etcd_Delete (kv_path prefix key) in
  if (deleted =? 0)%Z then wfail ErrNotFound else wret tt.

Definition kvs_ListKeys (prefix p : string) : M W (list string) :=
  let! resp := etcd_GetPrefix (path_Join [kv_prefix prefix; p]) in
  wret (map (fun kv => TrimPrefix (kv_Key kv) (kv_prefix prefix +:+ "/")) resp.2).

Definition KeyValueStore (prefix : string) : KeyValueStoreT W (list byte) :=
  {| kv_Put := kvs_Put prefix; kv_Get := kvs_Get prefix;
     kv_Delete := kvs_Delete prefix; kv_ListKeys := kvs_ListKeys prefix |}.

(** ** keyring_store.go *)

Definition keyring_path (prefix : string) (ref : Reference) : string :=
  path_Join [store_prefix Prefix prefix; keyringKey; ref_Id ref].

Definition krs_Put (prefix : string) (ref : Reference) (keyring : Keyring) : M W unit :=
  let! k := wrapf "failed to marshal keyring" (wlift (keyring_Marshal keyring)) in
  wrapf "failed to put keyring" (etcd_Put (keyring_path prefix ref) k 0%Z).

Definition krs_Get (prefix : string) (ref : Reference) : M W Keyring :=
  let! kvs := wrapf "failed to get keyring" (etcd_Get (keyring_path prefix ref)) in
  match kvs with
  | [] => wfail ErrNotFound
  | kv :: _ => wrapf "failed to unmarshal keyring" (wlift (keyring_Unmarshal (kv_Value kv)))
  end.

Definition krs_Delete (prefix : string) (ref : Reference) : M W unit :=
  let! deleted := wrapf "failed to delete keyring" (etcd_Delete (keyring_path prefix ref)) in
  if (deleted =? 0)%Z then wfail ErrNotFound else wret tt.

Definition KeyringStore (prefix : string) (ref : Reference) : ValueStoreT W Keyring :=
  {| v_Put := krs_Put prefix ref; v_Get := krs_Get prefix ref; v_Delete := krs_Delete prefix ref |}.
End Stores.

(** ** Properties *)

Definition kv_view (d : EtcdDb) (p : string) : option (list byte) :=
  db_kvs d !! p ≫= fun kv =>
    match DecodeString StdEncoding (kv_Value kv) with Ok v => Some v | _ => None end.

Section Props.
Context {W : Type} `{EtcdClient W} `{!EtcdErrors W}.
Variable Prefix : string.

Lemma kv_view_put_ne d k v l j : j <> k -> kv_view (db_put d k v l) j = kv_view d j.
Proof. intros Hj. unfold kv_view. cbn. by rewrite lookup_insert_ne. Qed.

Lemma kv_view_put d k v l :
  Forall is_byte v -> kv_view (db_put d k (EncodeToString StdEncoding v) l) k = Some v.
Proof.
  intros Hv. unfold kv_view. cbn. rewrite lookup_insert_eq. cbn.
  assert (E : kv_Value (new_kv d k (EncodeToString StdEncoding v) l) = EncodeToString StdEncoding v)
    by (unfold new_kv; by destruct (db_kvs d !! k)).
  by rewrite E, base64_roundtrip.
Qed.

Lemma kv_view_delete d k j :
  kv_view (db_delete d k) j = if decide (j = k) then None else kv_view d j.
Proof.
  unfold kv_view, db_delete. destruct (db_kvs d !! k) eqn:E; cbn.
  - case_decide; subst; [by rewrite lookup_delete_eq|by rewrite lookup_delete_ne].
  - case_decide; subst; [by rewrite E|done].
Qed.

Lemma validated {A} key (m : M W A) w w' o :
  (wlift (validateKey key) ;! m) w = (w', o) ->
  (key = "" /\ w' = w /\ o = Err (ErrorString "key cannot be empty")) \/ (key <> "" /\ m w = (w', o)).
Proof.
  unfold validateKey, fail_if. case_bool_decide; cbn; [|by right].
  unfold wbind. cbn. intros [= <- <-]. by left.
Qed.

(** The store keeps the contract that the stores of all backends share. *)
Lemma etcd_kv_LinearKV (prefix : string) :
  LinearKV (KeyValueStore (W := W) Prefix prefix) db db_steps (kv_path Prefix prefix) kv_view
    (Forall is_byte).
Proof using EtcdErrors0.
  split; cbn.
  - intros w w' k v Hv [(_ & _ & ?)|[_ Hp]]%validated; [done|].
    apply etcd_Put_law in Hp as (d & Hd & ->). exists d. split; [done|].
    split; [by apply kv_view_put|]. intros j Hj. by apply kv_view_put_ne.
  - intros w w' k v [(_ & _ & ?)|[_ Hg]]%validated; [done|].
    apply wbind_Ok in Hg as (kvs & w1 & Hg & Hr). apply etcd_Get_law in Hg as [Hs ->].
    unfold kv_view. destruct (db_kvs (db w1) !! _) as [kv|] eqn:E; [|done].
    cbn in Hr. injection Hr as <- Hdec. rewrite E. cbn. by rewrite Hdec.
  - intros w w' k [(_ & _ & ?)|[_ Hg]]%validated; [done|].
    apply wbind_inv in Hg as [(kvs & w1 & Hg & Hr)|[(e & Hg & [= <-])|(p & _ & ?)]]; [| |done].
    + apply etcd_Get_law in Hg as [Hs ->]. unfold kv_view.
      destruct (db_kvs (db w1) !! _) as [kv|] eqn:E; cbn in Hr; injection Hr as <-.
      * split; [done|]. rewrite E. cbn. by rewrite H0.
      * split; [done|]. by rewrite E.
    + by apply etcd_Get_foreign in Hg.
  - intros w w' k [(_ & _ & ?)|[_ Hg]]%validated; [done|].
    apply wbind_Ok in Hg as (n & w1 & Hd & Hr). apply etcd_Delete_law in Hd as (d & Hs & Hdb & ->).
    assert (w1 = w') as <- by (destruct (_ =? 0)%Z; by injection Hr).
    exists d. rewrite Hdb, kv_view_delete, decide_True by done. split; [done|]. split; [done|].
    intros j Hj. by rewrite kv_view_delete, decide_False.
  - intros w w' k [(_ & _ & ?)|[_ Hg]]%validated; [done|].
    apply wbind_inv in Hg as [(n & w1 & Hd & Hr)|[(e & Hg & [= <-])|(p & _ & ?)]]; [| |done].
    + apply etcd_Delete_law in Hd as (d & Hs & Hdb & ->). exists d. split; [done|].
      unfold db_delete in Hdb. unfold kv_view. destruct (db_kvs d !! _) as [kv|] eqn:E; [done|].
      cbn in Hr. injection Hr as <-. done.
    + by apply etcd_Delete_foreign in Hg.
Qed.

(** *** What each call does, exactly *)

Definition kv_present (d : EtcdDb) (p : string) : bool := bool_decide (is_Some (db_kvs d !! p)).

(** [d'] is [d] with [x] at the path [p], and nothing else changed. *)
Definition kv_written (d d' : EtcdDb) (p : string) (x : option (list byte)) : Prop :=
  kv_view d' p = x /\ kv_present d' p = bool_decide (is_Some x) /\
  forall j, j <> p -> db_kvs d' !! j = db_kvs d !! j.

Lemma db_put_written d p v :
  Forall is_byte v -> kv_written d (db_put d p (EncodeToString StdEncoding v) (Some 0%Z)) p (Some v).
Proof.
  intros Hv. split; [by apply kv_view_put|]. split.
  - unfold kv_present. cbn. rewrite lookup_insert_eq. by rewrite !bool_decide_eq_true_2 by done.
  - intros j Hj. cbn. by rewrite lookup_insert_ne.
Qed.

Lemma db_delete_written d p : kv_written d (db_delete d p) p None.
Proof.
  split; [rewrite kv_view_delete; by case_decide|].
  unfold kv_present, db_delete. destruct (db_kvs d !! p) eqn:E; cbn.
  - rewrite lookup_delete_eq. split; [done|]. intros j Hj. by rewrite lookup_delete_ne.
  - by rewrite E.
Qed.

Lemma decode_tail_foreign enc s : decode_tail enc s <> Err ErrNotFound.
Proof. unfold decode_tail. repeat (case_match; try done). Qed.

Fixpoint DecodeString_foreign (enc : Encoding) (s : string) {struct s} : DecodeString enc s <> Err ErrNotFound.
Proof.
  destruct s as [|p [|q [|r [|t rest]]]]; [apply (decode_tail_foreign enc)..|]. cbn [DecodeString].
  destruct (b64_value enc p), (b64_value enc q), (b64_value enc r), (b64_value enc t); try apply decode_tail_foreign.
  pose proof (DecodeString_foreign enc rest). destruct (DecodeString enc rest); cbn; congruence.
Qed.
End Props.

(** A client that shares the server with clients whose writes between two calls are
    steps of [others]: each call takes effect at one moment, on a database that is
    reached by the others, and does nothing else; a call that fails has acted or not.
    With equality for [others] the client is alone. *)
Class SharedEtcd (W : Type) `{EtcdClient W} (others : EtcdDb -> EtcdDb -> Prop) : Prop := {
  shared_Get k w w' o : etcd_Get k w = (w', o) ->
    others (db w) (db w') /\
    match o with
    | Ok kvs => kvs = option_list (db_kvs (db w') !! k)
    | Err e => e <> ErrNotFound
    | Panic _ => False
    end;
  shared_Put k v l w w' o : etcd_Put k v l w = (w', o) -> exists d, others (db w) d /\
    match o with
    | Ok _ => db w' = db_put d k v (Some l)
    | Err _ => db w' = d \/ db w' = db_put d k v (Some l)
    | Panic _ => False
    end;
  shared_Delete k w w' o : etcd_Delete k w = (w', o) -> exists d, others (db w) d /\
    match o with
    | Ok n => db w' = db_delete d k /\ n = (if db_kvs d !! k then 1 else 0)%Z
    | Err e => e <> ErrNotFound /\ (db w' = d \/ db w' = db_delete d k)
    | Panic _ => False
    end }.

Section Exact.
Context {W : Type} `{EtcdClient W} (others : EtcdDb -> EtcdDb -> Prop) `{!SharedEtcd W others}.
Variable Prefix : string.

(** What a call on the path [p] may do: at one moment [d], which the others have brought
    about, it does what [post] says of [d] and the database it leaves. *)
Definition at_one_moment (w w' : W) (post : EtcdDb -> EtcdDb -> Prop) : Prop :=
  exists d, others (db w) d /\ post d (db w').

Lemma kvs_Put_exact prefix k v w w' o :
  Forall is_byte v -> k <> "" -> kvs_Put Prefix prefix k v w = (w', o) ->
  at_one_moment w w' (fun d d' =>
    match o with
    | Ok _ => kv_written d d' (kv_path Prefix prefix k) (Some v)
    | Err _ => d' = d \/ kv_written d d' (kv_path Prefix prefix k) (Some v)
    | Panic _ => False
    end).
Proof.
  intros Hv Hk [(? & _)|[_ Hp]]%validated; [done|]. apply (shared_Put (others := others)) in Hp as (d & Hd & Ho).
  exists d. split; [done|]. destruct o as [u|e|p]; [| |done].
  - rewrite Ho. by apply db_put_written.
  - destruct Ho as [->| ->]; [by left|right; by apply db_put_written].
Qed.

Lemma kvs_Get_exact prefix k w w' o :
  k <> "" -> kvs_Get Prefix prefix k w = (w', o) ->
  others (db w) (db w') /\
  match o with
  | Ok v => kv_view (db w') (kv_path Prefix prefix k) = Some v
  | Err e => e = ErrNotFound -> kv_present (db w') (kv_path Prefix prefix k) = false
  | Panic _ => True
  end.
Proof.
  intros Hk [(? & _)|[_ Hg]]%validated; [done|].
  apply wbind_inv in Hg as [(kvs & w1 & Hg & Hr)|[(e & Hg & ->)|(p & Hg & ->)]];
    apply (shared_Get (others := others)) in Hg as [Hs Ho]; [|by split..].
  subst kvs. unfold kv_view, kv_present. destruct (db_kvs (db w1) !! _) as [kv|] eqn:E; cbn in Hr.
  - injection Hr as <- <-. split; [done|]. rewrite E. cbn.
    destruct (DecodeString _ _) as [v|e|p] eqn:Ed; [done| |done]. intros ->. by destruct (DecodeString_foreign _ _ Ed).
  - injection Hr as <- <-. split; [done|]. intros _. by rewrite E.
Qed.

Lemma kvs_Delete_exact prefix k w w' o :
  k <> "" -> kvs_Delete Prefix prefix k w = (w', o) ->
  at_one_moment w w' (fun d d' =>
    match o with
    | Ok _ => kv_present d (kv_path Prefix prefix k) = true /\ kv_written d d' (kv_path Prefix prefix k) None
    | Err e => if decide (e = ErrNotFound) then kv_present d (kv_path Prefix prefix k) = false /\ d' = d
               else d' = d \/ kv_written d d' (kv_path Prefix prefix k) None
    | Panic _ => False
    end).
Proof.
  intros Hk [(? & _)|[_ Hg]]%validated; [done|].
  apply wbind_inv in Hg as [(n & w1 & Hg & Hr)|[(e & Hg & ->)|(p & Hg & ->)]];
    apply (shared_Delete (others := others)) in Hg as (d & Hs & Ho); [| |done]; exists d; (split; [done|]).
  - destruct Ho as [Hdb ->]. unfold kv_present. destruct (db_kvs d !! _) as [kv|] eqn:E; cbn in Hr; injection Hr as <- <-.
    + rewrite Hdb. split; [by rewrite bool_decide_eq_true_2|]. apply db_delete_written.
    + rewrite decide_True by done. split; [done|]. rewrite Hdb. unfold db_delete. by rewrite E.
  - destruct Ho as [He Ho]. rewrite decide_False by done. destruct Ho as [->| ->]; [by left|right; apply db_delete_written].
Qed.

(** The client answers every call. *)
Definition etcd_answers : Prop :=
  (forall k w, is_Ok (etcd_Get k w).2 = true) /\ (forall k v l w, is_Ok (etcd_Put k v l w).2 = true) /\
  (forall k w, is_Ok (etcd_Delete k w).2 = true).

Lemma kvs_answers prefix k w : etcd_answers -> k <> "" ->
  (forall v, (kvs_Put Prefix prefix k v w).2 = Ok tt) /\
  ((kvs_Delete Prefix prefix k w).2 = Ok tt \/ (kvs_Delete Prefix prefix k w).2 = Err ErrNotFound) /\
  let r := kvs_Get Prefix prefix k w in
  r.2 = match db_kvs (db r.1) !! kv_path Prefix prefix k with
        | Some kv => DecodeString StdEncoding (kv_Value kv)
        | None => Err ErrNotFound
        end.
Proof.
  intros (Hg & Hp & Hd) Hk. unfold kvs_Put, kvs_Delete, kvs_Get, validateKey. rewrite bool_decide_eq_false_2 by done.
  cbn [fail_if]. change (wlift (Ok tt)) with (wret (W := W) tt). unfold wbind, wret. split; [|split].
  - intros v. specialize (Hp (kv_path Prefix prefix k) (EncodeToString StdEncoding v) 0%Z w).
    destruct (etcd_Put _ _ _ w) as [w' [[]|e|p]]; done.
  - specialize (Hd (kv_path Prefix prefix k) w). destruct (etcd_Delete _ w) as [w' [n|e|p]]; [|done..].
    destruct (_ =? 0)%Z; [by right|by left].
  - specialize (Hg (kv_path Prefix prefix k) w). destruct (etcd_Get _ w) as [w' [kvs|e|p]] eqn:E; [|done..].
    apply (shared_Get (others := others)) in E as [_ ->]. by destruct (db_kvs (db w') !! _) as [kv|] eqn:Ek; cbn; rewrite Ek.
Qed.

(** C23: the etcd key-value store is a linearizable store of byte strings, whatever the
    other clients do between its calls.  A call with an empty key fails and does nothing;
    any other call takes effect at one moment.  A put stores exactly the value under its
    own path; a delete succeeds exactly for a key that is present at that moment, which
    is gone then; both change no other record, and have done that or nothing when the
    server refuses them.  A get writes nothing and returns the value of that moment, and
    answers not found only for a missing key.  When the server answers, put succeeds,
    delete succeeds or answers not found, and get decodes the record or answers not found
    about a missing one. *)
Theorem etcd_kv_linearizable (prefix k : string) (v : list byte) (w : W) :
  Forall is_byte v ->
  let s := KeyValueStore (W := W) Prefix prefix in
  let p := kv_path Prefix prefix k in
  if decide (k = "") then
    exists e, e <> ErrNotFound /\ kv_Put s k v w = (w, Err e) /\ kv_Get s k w = (w, Err e) /\ kv_Delete s k w = (w, Err e)
  else
    (forall w' o, kv_Put s k v w = (w', o) -> at_one_moment w w' (fun d d' =>
       match o with
       | Ok _ => kv_written d d' p (Some v)
       | Err _ => d' = d \/ kv_written d d' p (Some v)
       | Panic _ => False
       end)) /\
    (forall w' o, kv_Get s k w = (w', o) -> others (db w) (db w') /\
       match o with
       | Ok v => kv_view (db w') p = Some v
       | Err e => e = ErrNotFound -> kv_present (db w') p = false
       | Panic _ => True
       end) /\
    (forall w' o, kv_Delete s k w = (w', o) -> at_one_moment w w' (fun d d' =>
       match o with
       | Ok _ => kv_present d p = true /\ kv_written d d' p None
       | Err e => if decide (e = ErrNotFound) then kv_present d p = false /\ d' = d else d' = d \/ kv_written d d' p None
       | Panic _ => False
       end)) /\
    (etcd_answers ->
       (kv_Put s k v w).2 = Ok tt /\
       ((kv_Delete s k w).2 = Ok tt \/ (kv_Delete s k w).2 = Err ErrNotFound) /\
       (kv_Get s k w).2 = match db_kvs (db (kv_Get s k w).1) !! p with
                          | Some kv => DecodeString StdEncoding (kv_Value kv)
                          | None => Err ErrNotFound
                          end).
Proof using SharedEtcd0.
  intros Hv. cbn zeta. destruct (decide (k = "")) as [->|Hk].
  - by exists (ErrorString "key cannot be empty").
  - split; [|split; [|split]].
    + intros w' o. by apply kvs_Put_exact.
    + intros w' o. by apply kvs_Get_exact.
    + intros w' o. by apply kvs_Delete_exact.
    + intros Ha. destruct (kvs_answers prefix k w Ha Hk) as (H1 & H2 & H3). split; [apply H1|done].
Qed.
End Exact.

Section Props.
Context {W : Type} `{EtcdClient W}.
Variable Prefix : string.

(** A key can lead out of the directory of the store. *)
Lemma kv_path_escapes prefix pfx dir id :
  store_prefix Prefix prefix = pfx -> plain_component pfx = true ->
  plain_component dir = true -> plain_component id = true ->
  kv_path Prefix prefix ("../" +:+ dir +:+ "/" +:+ id) = path_Join [pfx; dir; id].
Proof.
  intros Hpre Hp Hd Hi. unfold kv_path, kv_prefix. rewrite Hpre.
  assert (Hkv : plain_component "kv" = true) by reflexivity.
  assert (Ekv : path_Join [pfx; "kv"] = pfx +:+ "/" +:+ "kv").
  { rewrite path_Join_dir by done. unfold key_root.
    pose proof Hp as (_ & Hne & _)%plain_component_spec. rewrite decide_False by done.
    rewrite clean_stack_plain, is_rooted_plain by done. cbn [rev app GoStd.Join].
    by rewrite !str_app_nil, !str_app_assoc. }
  rewrite Ekv, path_Join_child, (path_Join_dir pfx dir) by done.
  pose proof Hp as (Hps & Hpne & _)%plain_component_spec.
  pose proof Hd as (Hds & Hdne & _)%plain_component_spec.
  pose proof Hi as (His & Hine & _)%plain_component_spec.
  unfold key_root. rewrite decide_False by done. rewrite clean_stack_plain, is_rooted_plain by done.
  rewrite path_Join_clean.
  2: done. 2: { repeat constructor; [|done]. by intros [? _]%str_app_eq_nil. }
  cbn [GoStd.Join].
  assert (Hst : clean_stack ((pfx +:+ "/" +:+ "kv") +:+ "/" +:+ "../" +:+ dir +:+ "/" +:+ id)
                = [id; dir; pfx]).
  { replace ((pfx +:+ "/" +:+ "kv") +:+ "/" +:+ "../" +:+ dir +:+ "/" +:+ id)
      with (((pfx +:+ "/" +:+ "kv") +:+ "/" +:+ "..") +:+ "/" +:+ dir +:+ "/" +:+ id)
      by (by rewrite !str_app_assoc).
    rewrite <- (str_app_assoc _ "/" (dir +:+ "/" +:+ id)), <- (str_app_assoc _ dir),
      (str_app_assoc _ "/" dir).
    assert (Hne1 : forall a b : string, a <> "" -> a +:+ b <> "") by (intros a b ? [? _]%str_app_eq_nil; done).
    rewrite clean_stack_snoc by (try done; by repeat apply Hne1).
    rewrite clean_stack_snoc by (try done; by repeat apply Hne1).
    unfold clean_stack. rewrite !is_rooted_app by (by repeat apply Hne1).
    rewrite !str_slash_app, !Split_app, (Split_no_char _ pfx Hps), is_rooted_plain by done.
    cbn. by rewrite clean_step_plain. }
  rewrite (path_Clean_stack _ _ _ Hst Hine).
  rewrite str_app_assoc, is_rooted_app, is_rooted_plain by done. cbn [rev app GoStd.Join].
  by rewrite !str_app_nil, !str_app_assoc.
Qed.

(** The key of a value is not confined to its store: with a plain store prefix a
    put under "../clusters/ID" succeeds by overwriting the record of cluster ID. *)
Lemma kv_put_can_overwrite_clusters (prefix id : string) (value : list byte) (w w' : W) :
  plain_component (store_prefix Prefix prefix) = true -> plain_component id = true ->
  kvs_Put Prefix prefix ("../" +:+ clusterKey +:+ "/" +:+ id) value w = (w', Ok tt) ->
  exists d, db_steps (db w) d /\
    db w' = db_put d (path_Join [store_prefix Prefix prefix; clusterKey; id])
              (EncodeToString StdEncoding value) (Some 0%Z).
Proof.
  intros Hp Hi [(_ & _ & ?)|[_ Hput]]%validated; [done|].
  apply etcd_Put_law in Hput as (d & Hd & Hw). exists d. split; [done|].
  by rewrite (kv_path_escapes prefix (store_prefix Prefix prefix)) in Hw.
Qed.

(** A keyring that was stored for an agent is read back, without its ephemeral
    keys, by every later Get that finds the record undisturbed; nothing else can
    come out of it. *)
Lemma stored_keyring_is_read_back `{KeyringJSON} (prefix : string) (ref : Reference)
    (kr kr' : Keyring) (w w1 w2 w3 : W) :
  keyring_ok kr ->
  krs_Put Prefix prefix ref kr w = (w1, Ok tt) ->
  krs_Get Prefix prefix ref w2 = (w3, Ok kr') ->
  db_kvs (db w3) !! keyring_path Prefix prefix ref = db_kvs (db w1) !! keyring_path Prefix prefix ref ->
  kr' = without_ephemeral kr.
Proof.
  intros Hk Hput Hget Hsame. destruct (keyring_roundtrip_aux kr Hk) as (s & Hm & Hu).
  unfold krs_Put in Hput. apply wbind_Ok in Hput as (s' & w' & Hs & Hp). apply wrapf_Ok in Hs, Hp.
  unfold wlift in Hs. rewrite Hm in Hs. injection Hs as <- <-.
  apply etcd_Put_law in Hp as (d & _ & Hdb).
  unfold krs_Get in Hget. apply wbind_Ok in Hget as (kvs & w'' & Hg & Hr). apply wrapf_Ok in Hg.
  apply etcd_Get_law in Hg as [_ ->].
  destruct (db_kvs (db w'') !! _) as [kv|] eqn:E; [|done]. cbn [option_list] in Hr.
  apply wrapf_Ok in Hr. injection Hr as -> Hdec.
  rewrite E, Hdb in Hsame. cbn in Hsame. rewrite lookup_insert_eq in Hsame. injection Hsame as ->.
  assert (Ev : forall k v l, kv_Value (new_kv d k v l) = v)
    by (intros; unfold new_kv; by destruct (db_kvs d !! _)).
  rewrite Ev, Hu in Hdec. by injection Hdec.
Qed.
End Props.

#[export] Instance RefWorld_errors : EtcdErrors RefWorld.
Proof. split; intros k w w'; cbn; unfold on_db; by destruct (interfere w). Qed.

Definition quiet_world : RefWorld := mkRefWorld (mkEtcdDb 1 ∅ ∅) [].

#[export] Instance RefWorld_shared : SharedEtcd RefWorld db_steps.
Proof.
  split; intros *; cbn; unfold on_db; intros [= <- <-]; cbn; pose proof (interfere_steps w) as Hs.
  - by split.
  - by exists (rw_db (interfere w)).
  - by exists (rw_db (interfere w)).
Qed.

(** Another client deletes the key between a put and a delete of it. *)
Definition racing_world : RefWorld := mkRefWorld (mkEtcdDb 1 ∅ ∅) [[]; [EnvDelete "opni/kv/key"]].
Definition after_put : RefWorld := (kvs_Put (W := RefWorld) "opni" "" "key" [1; 2; 3]%Z racing_world).1.

Lemma etcd_kv_linearizable_witness :
  kv_view (db after_put) (kv_path "opni" "" "key") = Some [1; 2; 3]%Z /\
  exists d, db_steps (db after_put) d /\ kv_present d (kv_path "opni" "" "key") = false.
Proof.
  assert (Hv : Forall is_byte [1; 2; 3]%Z) by (repeat constructor; lia).
  split.
  - destruct (etcd_kv_linearizable (W := RefWorld) db_steps "opni" "" "key" [1; 2; 3]%Z racing_world Hv) as (Hput & _).
    destruct (Hput after_put (Ok tt)) as (d & _ & Hw & _); [vm_compute; reflexivity|exact Hw].
  - destruct (etcd_kv_linearizable (W := RefWorld) db_steps "opni" "" "key" [1; 2; 3]%Z after_put Hv) as (_ & _ & Hdel & _).
    destruct (Hdel (kvs_Delete (W := RefWorld) "opni" "" "key" after_put).1 (Err ErrNotFound)) as (d & Hd & Hp & _);
      [vm_compute; reflexivity|]. exists d. split; [exact Hd|exact Hp].
Defined.

Definition keyring_world : RefWorld :=
  (krs_Put (W := RefWorld) "opni" "" (mkReference "c1") demo_keyring quiet_world).1.

(** What the store answers to a [Get] after the keyring was put. *)
Definition read_keyring : Keyring :=
  match (krs_Get (W := RefWorld) "opni" "" (mkReference "c1") keyring_world).2 with
  | Ok kr => kr
  | _ => ∅
  end.

