(* ===== verification/K8s.v ===== *)
(** The client of the Kubernetes API (sigs.k8s.io/controller-runtime/pkg/client) on the
    objects of one kind, as a class whose laws state the documented behaviour of the
    API server: names are unique in a namespace, an update is refused unless it carries
    the version that is stored, and the time of creation never changes.  A reference
    instance shows that the laws can hold. *)

From S2P Require Import Prelude GoStd CoreV1.
From stdpp Require Import relations.

Local Open Scope string_scope.

(** ** Errors of the server *)

Definition k8s_NotFound : error := External "NotFound".
Definition k8s_AlreadyExists : error := External "AlreadyExists".
Definition k8s_Conflict : error := External "Conflict".
Definition IsNotFound (e : error) : bool := errors_Is e k8s_NotFound.
Definition IsAlreadyExists (e : error) : bool := errors_Is e k8s_AlreadyExists.
Definition IsConflict (e : error) : bool := errors_Is e k8s_Conflict.

(** ** Objects *)

Record ObjectMeta := mkObjectMeta {
  om_Name : string;
  om_Namespace : string;
  om_Labels : gmap string string;
  om_ResourceVersion : Z;
  om_CreationTimestamp : Time }.

Record Object (T : Type) := mkObject { ob_Meta : ObjectMeta; ob_Spec : T }.
Arguments mkObject {_} _ _.
Arguments ob_Meta {_} _.
Arguments ob_Spec {_} _.

Abbreviation ObjectKey := (string * string)%type.
Definition key_of {T} (o : Object T) : ObjectKey := (om_Namespace (ob_Meta o), om_Name (ob_Meta o)).
Definition version_of {T} (o : Object T) : Z := om_ResourceVersion (ob_Meta o).

(** ** The objects the server stores, with the revision of the last write *)

Record ApiDb (T : Type) := mkApiDb { ad_rev : Z; ad_objs : gmap ObjectKey (Object T) }.
Arguments mkApiDb {_} _ _.
Arguments ad_rev {_} _.
Arguments ad_objs {_} _.

Definition stamped (rev : Z) (created : Time) (m : ObjectMeta) : ObjectMeta :=
  mkObjectMeta (om_Name m) (om_Namespace m) (om_Labels m) rev created.

Section Db.
Context {T : Type}.

(** A write stamps the object with a new revision. *)
Definition api_write (d : ApiDb T) (created : Time) (o : Object T) : ApiDb T :=
  let rev := (ad_rev d + 1)%Z in
  mkApiDb rev (<[key_of o := mkObject (stamped rev created (ob_Meta o)) (ob_Spec o)]> (ad_objs d)).
Definition api_delete (d : ApiDb T) (k : ObjectKey) : ApiDb T := mkApiDb (ad_rev d + 1) (delete k (ad_objs d)).

Inductive api_step : ApiDb T -> ApiDb T -> Prop :=
| api_step_create d created o : ad_objs d !! key_of o = None -> api_step d (api_write d created o)
| api_step_update d o old : ad_objs d !! key_of o = Some old ->
    api_step d (api_write d (om_CreationTimestamp (ob_Meta old)) o)
| api_step_delete d k : api_step d (api_delete d k).

(** Every object was written at a revision of the past, under its key. *)
Definition api_wf (d : ApiDb T) : Prop :=
  forall k o, ad_objs d !! k = Some o -> (version_of o <= ad_rev d)%Z /\ key_of o = k.

Lemma api_write_wf d created o : api_wf d -> api_wf (api_write d created o).
Proof.
  intros Hw k o'. cbn. rewrite lookup_insert_Some. intros [[<- <-]|[_ Hk]]; [by split|].
  destruct (Hw _ _ Hk). split; [lia|done].
Qed.
Lemma api_step_wf d d' : api_step d d' -> api_wf d -> api_wf d'.
Proof.
  destruct 1; intros Hw; [by apply api_write_wf..|]. intros k' o. cbn. rewrite lookup_delete_Some.
  intros [_ Hk]. destruct (Hw _ _ Hk). split; [lia|done].
Qed.
Lemma api_steps_wf d d' : rtc api_step d d' -> api_wf d -> api_wf d'.
Proof. induction 1; eauto using api_step_wf. Qed.

Lemma api_step_rev d d' : api_step d d' -> (ad_rev d <= ad_rev d')%Z.
Proof. destruct 1; cbn; lia. Qed.

(** An object at a key is the old one or is newer than everything before. *)
Lemma api_step_version d d' k o' :
  api_step d d' -> ad_objs d' !! k = Some o' -> ad_objs d !! k = Some o' \/ (ad_rev d < version_of o')%Z.
Proof.
  assert (forall created o, ad_objs (api_write d created o) !! k = Some o' ->
    ad_objs d !! k = Some o' \/ (ad_rev d < version_of o')%Z) as Hput.
  { intros created o. cbn. rewrite lookup_insert_Some. intros [[_ <-]|[_ ?]]; [right; cbn; lia|by left]. }
  destruct 1; [apply Hput..|]. cbn. rewrite lookup_delete_Some. intros [_ ?]. by left.
Qed.

Lemma api_steps_version d d' k o o' :
  rtc api_step d d' -> api_wf d -> ad_objs d !! k = Some o -> ad_objs d' !! k = Some o' ->
  version_of o' = version_of o -> o' = o.
Proof.
  intros Hs Hw Hk Hk' Hv. destruct (Hw _ _ Hk) as [Hle _].
  assert (ad_objs d !! k = Some o' \/ (ad_rev d < version_of o')%Z) as [H|H]; [|congruence|lia].
  clear Hv Hk Hw Hle. induction Hs as [d|d d1 d2 H1 H2 IH]; [by left|].
  destruct (IH Hk') as [H|H]; [by apply api_step_version with d1|].
  right. apply api_step_rev in H1. lia.
Qed.
End Db.

Abbreviation api_steps := (rtc api_step).

(** ** The client

    Every call takes effect at one point; others may have acted before it.  A failed
    call may or may not have acted, which is the same as somebody having acted. *)

Class KubeClient (W T : Type) := {
  objs : W -> ApiDb T;
  kube_Get : ObjectKey -> M W (Object T);
  kube_Create : Object T -> M W unit;
  kube_Update : Object T -> M W unit;
  kube_Delete : ObjectKey -> M W unit;
  kube_List : string -> M W (list (Object T));

  kube_Get_law k w w' o : kube_Get k w = (w', o) ->
    api_steps (objs w) (objs w') /\
    match o with
    | Ok ob => ad_objs (objs w') !! k = Some ob
    | Err e => IsNotFound e = true -> ad_objs (objs w') !! k = None
    | Panic _ => False end;
  kube_Create_law ob w w' o : kube_Create ob w = (w', o) ->
    match o with
    | Ok _ => exists d created, api_steps (objs w) d /\ ad_objs d !! key_of ob = None /\ objs w' = api_write d created ob
    | Err e => api_steps (objs w) (objs w') /\ (IsAlreadyExists e = true -> is_Some (ad_objs (objs w') !! key_of ob))
    | Panic _ => False end;
  kube_Update_law ob w w' o : kube_Update ob w = (w', o) ->
    match o with
    | Ok _ => exists d old, api_steps (objs w) d /\ ad_objs d !! key_of ob = Some old /\
        version_of ob = version_of old /\ objs w' = api_write d (om_CreationTimestamp (ob_Meta old)) ob
    | Err e => api_steps (objs w) (objs w')
    | Panic _ => False end;
  kube_Delete_law k w w' o : kube_Delete k w = (w', o) ->
    match o with
    | Ok _ => exists d, api_steps (objs w) d /\ is_Some (ad_objs d !! k) /\ objs w' = api_delete d k
    | Err e => api_steps (objs w) (objs w') /\ (IsNotFound e = true -> ad_objs (objs w') !! k = None)
    | Panic _ => False end;
  kube_List_law ns w w' o : kube_List ns w = (w', o) ->
    api_steps (objs w) (objs w') /\
    match o with
    | Ok l => exists all, all ≡ₚ (map_to_list (ad_objs (objs w'))).*2 /\
        l = filter (fun ob => om_Namespace (ob_Meta ob) = ns) all
    | Err _ => True | Panic _ => False end }.

(** ** A reference server

    Its clock stands still, and before each call the next of the scheduled changes is
    made by somebody else. *)

Record KubeWorld (T : Type) := mkKubeWorld {
  kw_db : ApiDb T;
  kw_now : Time;
  kw_sched : list (option (Object T)) }.
Arguments mkKubeWorld {_} _ _ _.
Arguments kw_db {_} _.
Arguments kw_now {_} _.
Arguments kw_sched {_} _.

Section Ref.
Context {T : Type}.

Definition env_write (now : Time) (d : ApiDb T) (o : Object T) : ApiDb T :=
  match ad_objs d !! key_of o with
  | Some old => api_write d (om_CreationTimestamp (ob_Meta old)) o
  | None => api_write d now o
  end.
Definition kube_interfere (w : KubeWorld T) : KubeWorld T :=
  match kw_sched w with
  | [] => w
  | None :: sched => mkKubeWorld (kw_db w) (kw_now w) sched
  | Some o :: sched => mkKubeWorld (env_write (kw_now w) (kw_db w) o) (kw_now w) sched
  end.
Definition on_api {A} (f : Time -> ApiDb T -> ApiDb T * outcome A) : M (KubeWorld T) A := fun w =>
  let w := kube_interfere w in
  let (d, a) := f (kw_now w) (kw_db w) in (mkKubeWorld d (kw_now w) (kw_sched w), a).

Lemma kube_interfere_steps (w : KubeWorld T) : api_steps (kw_db w) (kw_db (kube_interfere w)).
Proof.
  unfold kube_interfere. destruct (kw_sched w) as [|[o|] l]; [done| |done]. cbn. apply rtc_once. unfold env_write.
  destruct (ad_objs _ !! _) eqn:E; [by econstructor|by constructor].
Qed.

#[export] Instance KubeWorld_client : KubeClient (KubeWorld T) T.
Proof.
  refine {|
    objs := kw_db;
    kube_Get k := on_api (fun _ d => (d, match ad_objs d !! k with Some o => Ok o | None => Err k8s_NotFound end));
    kube_Create o := on_api (fun now d =>
      match ad_objs d !! key_of o with
      | Some _ => (d, Err k8s_AlreadyExists)
      | None => (api_write d now o, Ok tt)
      end);
    kube_Update o := on_api (fun _ d =>
      match ad_objs d !! key_of o with
      | None => (d, Err k8s_NotFound)
      | Some old => if (version_of o =? version_of old)%Z
                    then (api_write d (om_CreationTimestamp (ob_Meta old)) o, Ok tt) else (d, Err k8s_Conflict)
      end);
    kube_Delete k := on_api (fun _ d =>
      match ad_objs d !! k with Some _ => (api_delete d k, Ok tt) | None => (d, Err k8s_NotFound) end);
    kube_List ns := on_api (fun _ d => (d, Ok (filter (fun o => om_Namespace (ob_Meta o) = ns) (map_to_list (ad_objs d)).*2))) |}.
  all: intros *; unfold on_api; pose proof (kube_interfere_steps w) as Hs; intros H; simplify_eq/=.
  - destruct (ad_objs _ !! _) eqn:E; simplify_eq/=; done.
  - destruct (ad_objs _ !! _) eqn:E; simplify_eq/=; [|by eauto 10].
    split; [done|]. intros _. rewrite E. by eexists.
  - destruct (ad_objs _ !! _) as [old|] eqn:E; simplify_eq/=; [|done].
    destruct (_ =? _)%Z eqn:Ev; simplify_eq/=; [|done]. apply Z.eqb_eq in Ev. eauto 10.
  - destruct (ad_objs _ !! _) eqn:E; simplify_eq/=; [|done]. eexists. split; [done|]. rewrite E. by split.
  - split; [done|]. by eexists.
Defined.
End Ref.
