(* ===== verification/CrdStore.v ===== *)
(** pkg/storage/crds: tokens, roles, role bindings and keyrings as custom resources of
    Kubernetes.  A call that reads an expired token starts a goroutine that deletes it;
    the store remembers the goroutines it has started. *)

From S2P Require Import Prelude GoStd CoreV1 Storage Etcd Tokens Keyring EtcdStore K8s.

Local Open Scope string_scope.

(** ** The custom resources: the spec of a token, a role or a binding may be missing *)

Abbreviation TokenSpec := (option BootstrapToken).
Abbreviation RoleSpec := (option Role).
Abbreviation RoleBindingSpec := (option RoleBinding).
(** The data of a keyring. *)
Record KeyringData := mkKeyringData { kr_Data : string }.

(** ** crds.go *)

Definition defaultBackoff_Steps : nat := 20.

(** [retry.DefaultBackoff]. *)
Definition DefaultBackoff_Steps : nat := 4.

Record CRDStore (W : Type) := mkCRDStore {
  cs_world : W;
  cs_collecting : list (Object TokenSpec) }.
Arguments mkCRDStore {_} _ _.
Arguments cs_world {_} _.
Arguments cs_collecting {_} _.

Definition NewCRDStore {W} (w : W) : CRDStore W := mkCRDStore w [].

(** The namespace: an option, the environment, or the default. *)
Definition store_namespace (podNamespace : string) (withNamespace : option string) : string :=
  let ns := default podNamespace withNamespace in
  if decide (ns = "") then "default" else ns.

Definition spec_of {T} (o : Object (option T)) : outcome T :=
  match ob_Spec o with Some s => Ok s | None => Panic "nil pointer dereference" end.

Section Crd.
Context {W : Type} {KT : KubeClient W TokenSpec} {KR : KubeClient W RoleSpec} {KB : KubeClient W RoleBindingSpec}.
Context {KK : KubeClient W KeyringData} `{RetryLib} `{Sha256} `{KeyringJSON}.
Variable namespace : string.

Abbreviation S := (CRDStore W).

Definition on_kube {A} (m : M W A) : M S A := fun s =>
  let '(w, r) := m (cs_world s) in (mkCRDStore w (cs_collecting s), r).

Definition new_object {T} (name : string) (labels : gmap string string) (spec : T) : Object T :=
  mkObject (mkObjectMeta name namespace labels 0%Z 0%Z) spec.

(** An error of the client, translated. *)
Definition as_storage {A} (test : error -> bool) (err : error) (m : M S A) : M S A :=
  wcatch m (fun e => wfail (if test e then err else e)).

(** *** token_store.go *)

Definition CreateToken (entropy : outcome (list byte)) (ttl : Z) (opts : list TokenCreateOption) : M S BootstrapToken :=
  let options := Apply NewTokenCreateOptions opts in
  let! tok := wlift (NewToken entropy) in
  let token := with_token_meta (ToBootstrapToken tok)
    (mkBootstrapTokenMetadata (-1)%Z (int64_Seconds ttl) 0 (tco_Labels options) (tco_Capabilities options) "") in
  on_kube (kube_Create (new_object (bt_TokenID token) (tco_Labels options) (Some token : TokenSpec))) ;!
  wret token.

Definition DeleteToken (ref : Reference) : M S unit :=
  as_storage IsNotFound ErrNotFound (on_kube (kube_Delete (T := TokenSpec) (namespace, ref_Id ref))).

Definition Unix (t : Time) : Z := (t / second)%Z.

(** [patchTTL] on the spec: what is left of the time to live, in seconds. *)
Definition remaining (now created : Time) (ttl : Z) : Z :=
  let newTtl := wrap64 (ttl - (Unix now - Unix created)) in
  if (newTtl <? 0)%Z then 0 else newTtl.
Definition patchTTL (now : Time) (o : Object TokenSpec) : outcome BootstrapToken :=
  let? token := spec_of o in
  match bt_Metadata token with
  | None => Panic "nil pointer dereference"
  | Some m =>
      Ok (with_token_meta token
            (mkBootstrapTokenMetadata (btm_LeaseID m) (remaining now (om_CreationTimestamp (ob_Meta o)) (btm_Ttl m))
               (btm_UsageCount m) (btm_Labels m) (btm_Capabilities m) (btm_ResourceVersion m)))
  end.
Definition expired (token : BootstrapToken) : bool := (btm_Ttl (token_meta token) <=? 0)%Z.

(** [go c.garbageCollectToken(token)]. *)
Definition spawn_collect (o : Object TokenSpec) : M S unit := fun s =>
  (mkCRDStore (cs_world s) (o :: cs_collecting s), Ok tt).

(** What an expired token is reported as: an error of Kubernetes. *)
Definition GetToken (now : Time) (ref : Reference) : M S BootstrapToken :=
  let! o := as_storage IsNotFound ErrNotFound (on_kube (kube_Get (T := TokenSpec) (namespace, ref_Id ref))) in
  let! token := wlift (patchTTL now o) in
  if expired token then spawn_collect o ;! wfail k8s_NotFound
  else wret (Token.SetResourceVersion (Sprint (version_of o)) token).

(** One entry per item: nil for a token that is expired. *)
Definition list_entry (now : Time) (o : Object TokenSpec) : M S (option BootstrapToken) :=
  let! token := wlift (patchTTL now o) in
  if expired token then spawn_collect o ;! wret None else wret (Some token).
Definition ListTokens (now : Time) : M S (list (option BootstrapToken)) :=
  let! items := on_kube (kube_List (T := TokenSpec) namespace) in
  wmap (list_entry now) items.

(** One attempt of the optimistic update; a mutator dereferences the spec. *)
Definition update_token_once (ref : Reference) (mutator : MutatorFunc BootstrapToken) : M W BootstrapToken :=
  let! existing := kube_Get (T := TokenSpec) (namespace, ref_Id ref) in
  let! spec := wlift (spec_of existing) in
  let! token := wlift (mutator spec) in
  kube_Update (mkObject (ob_Meta existing) (Some token)) ;!
  wret token.
Definition UpdateToken (ref : Reference) (mutator : MutatorFunc BootstrapToken) : M S BootstrapToken :=
  as_storage IsNotFound ErrNotFound (on_kube (OnError defaultBackoff_Steps IsConflict (update_token_once ref mutator))).

(** The goroutine: every error but that the token is gone is retried. *)
Definition garbageCollectToken (o : Object TokenSpec) : M W unit :=
  OnError DefaultBackoff_Steps (fun err => negb (IsNotFound err)) (kube_Delete (T := TokenSpec) (key_of o)).

(** The goroutine of one of the tokens runs; its error is dropped. *)
Definition collect_one (s : S) : S :=
  match cs_collecting s with
  | [] => s
  | o :: rest => mkCRDStore (garbageCollectToken o (cs_world s)).1 rest
  end.

(** *** rbac_store.go *)

Definition CreateRole (role : Role) : M S unit :=
  as_storage IsAlreadyExists ErrAlreadyExists (on_kube (kube_Create (new_object (role_Id role) ∅ (Some role)))).
Definition DeleteRole (ref : Reference) : M S unit :=
  as_storage IsNotFound ErrNotFound (on_kube (kube_Delete (T := RoleSpec) (namespace, ref_Id ref))).
Definition GetRole (ref : Reference) : M S (option Role) :=
  let! role := as_storage IsNotFound ErrNotFound (on_kube (kube_Get (T := RoleSpec) (namespace, ref_Id ref))) in
  wret (ob_Spec role).
Definition CreateRoleBinding (rb : RoleBinding) : M S unit :=
  as_storage IsAlreadyExists ErrAlreadyExists (on_kube (kube_Create (new_object (rb_Id rb) ∅ (Some rb)))).
Definition DeleteRoleBinding (ref : Reference) : M S unit :=
  as_storage IsNotFound ErrNotFound (on_kube (kube_Delete (T := RoleBindingSpec) (namespace, ref_Id ref))).
Definition GetRoleBinding (ref : Reference) : M S (option RoleBinding) :=
  let! rb := as_storage IsNotFound ErrNotFound (on_kube (kube_Get (T := RoleBindingSpec) (namespace, ref_Id ref))) in
  wret (ob_Spec rb).
Definition ListRoles : M S (list (option Role)) :=
  let! l := on_kube (kube_List (T := RoleSpec) namespace) in wret (ob_Spec <$> l).
Definition ListRoleBindings : M S (list (option RoleBinding)) :=
  let! l := on_kube (kube_List (T := RoleBindingSpec) namespace) in wret (ob_Spec <$> l).

(** *** keyring_store.go

    The prefix of the store is not part of the name of the object. *)

Definition update_keyring_once (ref : Reference) (data : string) : M W unit :=
  let! kr := kube_Get (T := KeyringData) (namespace, ref_Id ref) in
  kube_Update (mkObject (ob_Meta kr) (mkKeyringData data)).

Definition krs_Put (prefix : string) (ref : Reference) (keyring : Keyring) : M W unit :=
  let! data := wlift (keyring_Marshal keyring) in
  fun w =>
    match kube_Get (T := KeyringData) (namespace, ref_Id ref) w with
    | (w, Err e) =>
        if negb (IsNotFound e) then (w, Err e)
        else kube_Create (new_object (ref_Id ref) ∅ (mkKeyringData data)) w
    | (w, Ok _) => OnError defaultBackoff_Steps IsConflict (update_keyring_once ref data) w
    | (w, Panic p) => (w, Panic p)
    end.

Definition krs_Get (prefix : string) (ref : Reference) : M W Keyring :=
  let! kr := wcatch (kube_Get (T := KeyringData) (namespace, ref_Id ref))
               (fun e => wfail (if IsNotFound e then ErrNotFound else e)) in
  wlift (keyring_Unmarshal (kr_Data (ob_Spec kr))).

(** A keyring that does not exist is deleted without an error. *)
Definition krs_Delete (prefix : string) (ref : Reference) : M W unit := fun w =>
  match kube_Get (T := KeyringData) (namespace, ref_Id ref) w with
  | (w, Err e) => (w, if IsNotFound e then Ok tt else Err e)
  | (w, Ok kr) => kube_Delete (T := KeyringData) (key_of kr) w
  | (w, Panic p) => (w, Panic p)
  end.

Definition KeyringStore (prefix : string) (ref : Reference) : ValueStoreT W Keyring :=
  {| v_Put := krs_Put prefix ref; v_Get := krs_Get prefix ref; v_Delete := krs_Delete prefix ref |}.
End Crd.
