(* ===== verification/CrdStoreProps.v ===== *)
(** What the Kubernetes storage backend promises, whatever others do to its objects. *)

From stdpp Require Import relations.
From S2P Require Import Prelude GoStd CoreV1 Storage Etcd Tokens Keyring EtcdStore K8s CrdStore.

Local Open Scope string_scope.

Section Props.
Context {W : Type} {KT : KubeClient W TokenSpec} {KR : KubeClient W RoleSpec} {KB : KubeClient W RoleBindingSpec}.
Context {KK : KubeClient W KeyringData} `{RetryLib} `{Sha256} `{KeyringJSON}.
Variable ns : string.

Abbreviation tokens w := (objs (T := TokenSpec) w).
Abbreviation stored s id := (ad_objs (tokens (cs_world s)) !! (ns, id)).

Lemma on_kube_inv {A} (m : M W A) s s' r : on_kube m s = (s', r) ->
  m (cs_world s) = (cs_world s', r) /\ cs_collecting s' = cs_collecting s.
Proof. unfold on_kube. destruct (m _) as [w o]. intros [= <- <-]. done. Qed.

Lemma as_storage_Ok {A} test err (m : M (CRDStore W) A) s s' a :
  as_storage test err m s = (s', Ok a) <-> m s = (s', Ok a).
Proof. unfold as_storage, wcatch, wfail. destruct (m s) as [? []]; naive_solver. Qed.

Lemma spec_of_Ok {T} (o : Object (option T)) s : spec_of o = Ok s -> ob_Spec o = Some s.
Proof. unfold spec_of. destruct (ob_Spec o); [by intros [= ->]|done]. Qed.

(** ** Updates *)

(** What a successful update has done: it stored its mutator's result in place of the
    token that was stored at that moment. *)
Definition token_updated (id : string) (mutator : MutatorFunc BootstrapToken) (d d' : ApiDb TokenSpec) (t : BootstrapToken) : Prop :=
  exists old spec, ad_objs d !! (ns, id) = Some old /\ ob_Spec old = Some spec /\ mutator spec = Ok t /\
    d' = api_write d (om_CreationTimestamp (ob_Meta old)) (mkObject (ob_Meta old) (Some t)).

Lemma crd_update_token_once_inv ref mutator (w w' : W) o :
  api_wf (tokens w) -> update_token_once ns ref mutator w = (w', o) ->
  match o with
  | Ok t => exists d, api_steps (tokens w) d /\ token_updated (ref_Id ref) mutator d (tokens w') t
  | _ => api_steps (tokens w) (tokens w')
  end.
Proof.
  intros Hw. unfold update_token_once. intros [(old & w1 & Hg & E)|[(e & Hg & ->)|(p & Hg & ->)]]%wbind_inv;
    apply kube_Get_law in Hg as [Hs Hg]; [|done|done].
  destruct (api_steps_wf _ _ Hs Hw _ _ Hg) as [_ Hk].
  apply wbind_inv in E as [(spec & w2 & Hsp & E)|[(e & [= <- _] & ->)|(p & [= <- _] & ->)]]; [|done|done].
  injection Hsp as <- Hsp%spec_of_Ok.
  apply wbind_inv in E as [(t & w3 & Hm & E)|[(e & [= <- _] & ->)|(p & [= <- _] & ->)]]; [|done|done].
  injection Hm as <- Hm.
  apply wbind_inv in E as [([] & w4 & Hu & [= <- <-])|[(e & Hu & ->)|(p & Hu & ->)]]; apply kube_Update_law in Hu; [| |done].
  - destruct Hu as (d & old' & Hs2 & Hk' & Hv & Hd). exists d. split; [by etrans|].
    change (key_of (mkObject (ob_Meta old) (Some t))) with (key_of old) in Hk'. rewrite Hk in Hk'.
    assert (old' = old) as -> by (eapply api_steps_version; eauto using api_steps_wf).
    by exists old, spec.
  - by etrans.
Qed.

Lemma crd_UpdateToken_inv ref mutator (s s' : CRDStore W) t :
  api_wf (tokens (cs_world s)) -> UpdateToken ns ref mutator s = (s', Ok t) ->
  exists d, api_steps (tokens (cs_world s)) d /\ token_updated (ref_Id ref) mutator d (tokens (cs_world s')) t.
Proof.
  intros Hw. unfold UpdateToken. rewrite as_storage_Ok. intros [E _]%on_kube_inv.
  pose proof (OnError_retried defaultBackoff_Steps IsConflict (update_token_once ns ref mutator) (cs_world s)) as Hr.
  rewrite E in Hr. specialize (Hr ltac:(unfold defaultBackoff_Steps; lia)). clear E. revert Hw Hr.
  generalize (cs_world s) as w. intros w Hw Hr. remember (cs_world s', Ok t) as r eqn:Er. revert Hw Er.
  induction Hr as [n w r E|n w w1 e r E _ _ IH]; intros Hw ->.
  - by apply crd_update_token_once_inv in E.
  - apply crd_update_token_once_inv in E; [|done]. destruct (IH (api_steps_wf _ _ E Hw) eq_refl) as (d & Hd & Ht).
    exists d. split; [by etrans|done].
Qed.

(** ** The life of a token *)

(** The age of a token in whole seconds. *)
Definition age (now : Time) (o : Object TokenSpec) : Z := (Unix now - Unix (om_CreationTimestamp (ob_Meta o)))%Z.

(** A stored token with its time to live. *)
Definition has_ttl (o : Object TokenSpec) (token : BootstrapToken) (m : BootstrapTokenMetadata) : Prop :=
  ob_Spec o = Some token /\ bt_Metadata token = Some m.
Definition with_ttl (token : BootstrapToken) (m : BootstrapTokenMetadata) (ttl : Z) : BootstrapToken :=
  with_token_meta token (mkBootstrapTokenMetadata (btm_LeaseID m) ttl (btm_UsageCount m) (btm_Labels m)
    (btm_Capabilities m) (btm_ResourceVersion m)).

Lemma patchTTL_eq now o token m : has_ttl o token m ->
  patchTTL now o = Ok (with_ttl token m (remaining now (om_CreationTimestamp (ob_Meta o)) (btm_Ttl m))).
Proof. intros [Hs Hm]. unfold patchTTL, spec_of. rewrite Hs. cbn. by rewrite Hm. Qed.

Lemma expired_with_ttl token m ttl : expired (with_ttl token m ttl) = (ttl <=? 0)%Z.
Proof. done. Qed.

Lemma remaining_eq now o ttl : in_int64 (ttl - age now o) ->
  remaining now (om_CreationTimestamp (ob_Meta o)) ttl = Z.max 0 (ttl - age now o).
Proof. unfold remaining, age. intros Hr. rewrite wrap64_id by done. destruct (_ <? 0)%Z eqn:E; [apply Z.ltb_lt in E|apply Z.ltb_ge in E]; lia. Qed.

(** A token that is read: what the answer [r] of the server makes of it. *)
Lemma GetToken_answer now ref (s : CRDStore W) w1 r :
  kube_Get (T := TokenSpec) (ns, ref_Id ref) (cs_world s) = (w1, r) ->
  match r with
  | Ok o => forall token m, has_ttl o token m -> in_int64 (btm_Ttl m - age now o) ->
      GetToken ns now ref s =
        if (age now o <? btm_Ttl m)%Z
        then (mkCRDStore w1 (cs_collecting s),
              Ok (Token.SetResourceVersion (Sprint (version_of o)) (with_ttl token m (btm_Ttl m - age now o))))
        else (mkCRDStore w1 (o :: cs_collecting s), Err k8s_NotFound)
  | Err e => GetToken ns now ref s = (mkCRDStore w1 (cs_collecting s), Err (if IsNotFound e then ErrNotFound else e))
  | Panic p => GetToken ns now ref s = (mkCRDStore w1 (cs_collecting s), Panic p)
  end.
Proof.
  intros E. unfold GetToken, as_storage, wcatch, on_kube.
  destruct r as [o|e|p]; [|unfold wbind at 1; by rewrite E..].
  intros token m Ht Hi. rewrite (wbind_eq_Ok _ _ _ (mkCRDStore w1 (cs_collecting s)) o) by (by rewrite E).
  rewrite (wbind_eq_Ok _ _ _ (mkCRDStore w1 (cs_collecting s)) (with_ttl token m (Z.max 0 (btm_Ttl m - age now o))))
    by (unfold wlift; by rewrite (patchTTL_eq now o token m Ht), remaining_eq).
  rewrite expired_with_ttl. destruct (_ <? _)%Z eqn:Ex.
  - apply Z.ltb_lt in Ex. rewrite (proj2 (Z.leb_gt _ _)) by lia. by rewrite Z.max_r by lia.
  - apply Z.ltb_ge in Ex. by rewrite (proj2 (Z.leb_le _ _)) by lia.
Qed.

Lemma CreateToken_stored entropy ttl opts (s s1 : CRDStore W) token : CreateToken ns entropy ttl opts s = (s1, Ok token) ->
  exists o m, stored s1 (bt_TokenID token) = Some o /\ has_ttl o token m /\ btm_Ttl m = int64_Seconds ttl.
Proof.
  unfold CreateToken. intros (tok & s2 & Ht & (u & s3 & Hc & [= <- <-])%wbind_Ok)%wbind_Ok. injection Ht as <- _.
  apply on_kube_inv in Hc as [Hc _]. apply kube_Create_law in Hc. destruct u. destruct Hc as (d & created & _ & _ & ->).
  eexists _, _. split; [apply lookup_insert_eq|]. by split.
Qed.

Lemma int64_Seconds_range ttl : (0 <= ttl <= int64_max)%Z -> (0 <= int64_Seconds ttl <= int64_max)%Z.
Proof.
  intros [Hl Hu]. unfold int64_Seconds, second. pose proof (Z.quot_pos ttl 1000000000 Hl ltac:(lia)).
  pose proof (Z.quot_le_upper_bound ttl 1000000000 int64_max ltac:(lia)). unfold int64_max in *. lia.
Qed.

(** C36: A token lives for its time to live and no longer.  A token that was created is
    stored, and as long as it is stored as it was, a read to which the server answers
    reports it with exactly the seconds that are left of its time when it is younger
    than that, and otherwise reports it as not found and starts its collection; a read
    that the server refuses fails and changes nothing. *)
Theorem token_lives_for_its_ttl entropy ttl opts (s s1 : CRDStore W) token :
  CreateToken ns entropy ttl opts s = (s1, Ok token) -> (0 <= ttl <= int64_max)%Z ->
  exists o m, stored s1 (bt_TokenID token) = Some o /\ has_ttl o token m /\
    forall now s2 w3 r, kube_Get (T := TokenSpec) (ns, bt_TokenID token) (cs_world s2) = (w3, r) ->
      ad_objs (tokens w3) !! (ns, bt_TokenID token) = Some o -> (0 <= age now o <= int64_max)%Z ->
      GetToken ns now (mkReference (bt_TokenID token)) s2 =
      match r with
      | Ok _ =>
          if (age now o <? int64_Seconds ttl)%Z
          then (mkCRDStore w3 (cs_collecting s2),
                Ok (Token.SetResourceVersion (Sprint (version_of o)) (with_ttl token m (int64_Seconds ttl - age now o))))
          else (mkCRDStore w3 (o :: cs_collecting s2), Err k8s_NotFound)
      | Err e => (mkCRDStore w3 (cs_collecting s2), Err (if IsNotFound e then ErrNotFound else e))
      | Panic p => (mkCRDStore w3 (cs_collecting s2), Panic p)
      end.
Proof.
  intros E Hi. destruct (CreateToken_stored _ _ _ _ _ _ E) as (o & m & Ho & Ht & Hm).
  exists o, m. split; [done|]. split; [done|]. intros now s2 w3 r Eg Hs Ha. rewrite <- Hm.
  pose proof (GetToken_answer now (mkReference (bt_TokenID token)) s2 w3 r Eg) as Hr.
  destruct r as [o'|e|p]; [|exact Hr..]. apply kube_Get_law in Eg as [_ Eg]. cbn in Eg.
  assert (o' = o) as -> by congruence. apply Hr; [done|].
  pose proof (int64_Seconds_range _ Hi). rewrite Hm. unfold in_int64, int64_min, int64_max in *. lia.
Qed.

(** The error of an expired token is not the one that the interface promises for a
    token that is not found. *)
Lemma expired_is_not_ErrNotFound : errors_Is k8s_NotFound ErrNotFound = false.
Proof. done. Qed.

(** ** Collection *)

Definition expired_at (now : Time) (o : Object TokenSpec) : Prop := exists t, patchTTL now o = Ok t /\ expired t = true.

Lemma GetToken_collects now ref (s s' : CRDStore W) r :
  GetToken ns now ref s = (s', r) -> exists l, cs_collecting s' = (l ++ cs_collecting s)%list /\ Forall (expired_at now) l.
Proof.
  unfold GetToken, as_storage, wcatch, wbind at 1. destruct (on_kube _ s) as [s1 r1] eqn:E1.
  apply on_kube_inv in E1 as [_ Hc]. destruct r1 as [o|e|p]; [|intros [= <- <-]; by exists []..].
  unfold wlift, wbind. destruct (patchTTL now o) as [t| |] eqn:Ep; [|intros [= <- <-]; by exists []..].
  destruct (expired t) eqn:Ex; cbn; intros [= <- <-]; [|by exists []]. exists [o]. cbn. rewrite Hc. split; [done|].
  repeat constructor. by exists t.
Qed.

Lemma list_entry_Ok now o (s s' : CRDStore W) e : list_entry now o s = (s', Ok e) ->
  exists t, patchTTL now o = Ok t /\ e = (if expired t then None else Some t) /\
    cs_world s' = cs_world s /\ cs_collecting s' = if expired t then o :: cs_collecting s else cs_collecting s.
Proof.
  unfold list_entry. intros (t & s1 & Ht & E)%wbind_Ok. injection Ht as <- Ht. exists t. split; [done|].
  destruct (expired t); injection E as <- <-; done.
Qed.

(** The listing has an entry for every token of the namespace, and the entry of an
    expired token is nil. *)
Lemma ListTokens_entries now (s s' : CRDStore W) l : ListTokens ns now s = (s', Ok l) ->
  exists items, items ≡ₚ filter (fun ob => om_Namespace (ob_Meta ob) = ns) (map_to_list (ad_objs (tokens (cs_world s')))).*2 /\
    Forall2 (fun o e => exists t, patchTTL now o = Ok t /\ e = if expired t then None else Some t) items l /\
    exists g, cs_collecting s' = (g ++ cs_collecting s)%list /\ Forall (expired_at now) g.
Proof.
  unfold ListTokens. intros (items & s1 & Hl & E)%wbind_Ok. apply on_kube_inv in Hl as [Hl Hc].
  apply kube_List_law in Hl as (_ & all & Hall & ->). set (items := filter _ all) in *.
  assert (cs_world s' = cs_world s1 /\
    Forall2 (fun o e => exists t, patchTTL now o = Ok t /\ e = if expired t then None else Some t) items l /\
    exists g, cs_collecting s' = (g ++ cs_collecting s1)%list /\ Forall (expired_at now) g) as (Hw & Hf & Hg).
  { clearbody items. clear -E. revert s1 l E. induction items as [|o items IH]; intros s1 l; cbn [wmap].
    - intros [= <- <-]. split; [done|]. split; [constructor|]. by exists [].
    - intros (e & s2 & (t & Hp & -> & Hw & Hc)%list_entry_Ok & (es & s3 & Hes & [= <- <-])%wbind_Ok)%wbind_Ok.
      destruct (IH _ _ Hes) as (Hw' & Hf & g & Hg & Hx). split; [congruence|]. split; [constructor; eauto|].
      rewrite Hc in Hg. destruct (expired t) eqn:Ex; [|by exists g]. exists (g ++ [o])%list. rewrite <- app_assoc. split; [done|].
      apply Forall_app. split; [done|]. repeat constructor. by exists t. }
  exists items. split; [|by rewrite <- Hc]. unfold items. rewrite Hw, Hall. done.
Qed.

(** Join signs an entry that is nil as a token without an id and a secret. *)
Lemma nil_token_is_signed : FromBootstrapToken (mkBootstrapToken "" "" None) = Ok (mkToken [] []).
Proof. done. Qed.

(** ** Keyrings *)

Abbreviation keyring_at w ref := (ad_objs (objs (T := KeyringData) w) !! (ns, ref_Id ref)).

Lemma update_keyring_once_inv ref data (w w' : W) : api_wf (objs (T := KeyringData) w) ->
  update_keyring_once ns ref data w = (w', Ok tt) -> exists o, keyring_at w' ref = Some o /\ kr_Data (ob_Spec o) = data.
Proof.
  intros Hw. unfold update_keyring_once. intros (kr & w1 & Hg & Hu)%wbind_Ok. apply kube_Get_law in Hg as [Hs Hk].
  destruct (api_steps_wf _ _ Hs Hw _ _ Hk) as [_ Hkey]. apply kube_Update_law in Hu as (d & old & _ & _ & _ & ->).
  eexists. split; [cbn; unfold key_of in *; cbn; rewrite Hkey; apply lookup_insert_eq|done].
Qed.

Lemma update_keyring_once_steps ref data (w w' : W) r :
  update_keyring_once ns ref data w = (w', Err r) -> api_steps (objs (T := KeyringData) w) (objs w').
Proof.
  unfold update_keyring_once. intros [(kr & w1 & Hg & Hu)|[(e & Hg & _)|(p & _ & [=])]]%wbind_inv;
    apply kube_Get_law in Hg as [Hs _]; [|done]. apply kube_Update_law in Hu. by etrans.
Qed.

Lemma krs_Put_stored prefix ref kr (w w' : W) : api_wf (objs (T := KeyringData) w) ->
  krs_Put ns prefix ref kr w = (w', Ok tt) ->
  exists data o, keyring_Marshal kr = Ok data /\ keyring_at w' ref = Some o /\ kr_Data (ob_Spec o) = data.
Proof.
  intros Hw. unfold krs_Put. intros (data & w1 & Hm & E)%wbind_Ok. injection Hm as <- Hm. exists data.
  destruct (kube_Get _ w) as [w2 [o|e|p]] eqn:Eg; apply kube_Get_law in Eg as [Hs _]; [| |done].
  - pose proof (OnError_retried defaultBackoff_Steps IsConflict (update_keyring_once ns ref data) w2) as Hr. rewrite E in Hr.
    specialize (Hr ltac:(unfold defaultBackoff_Steps; lia)). pose proof (api_steps_wf _ _ Hs Hw) as Hw2. clear Hs E.
    remember (w', Ok tt) as r eqn:Er. revert Hw2 Er. induction Hr as [n w2 r E|n w2 w3 e r E _ _ IH]; intros Hw2 ->.
    + destruct (update_keyring_once_inv _ _ _ _ Hw2 E) as (o' & ? & ?). eauto.
    + apply IH; [|done]. eauto using api_steps_wf, update_keyring_once_steps.
  - destruct (negb _); [done|]. apply kube_Create_law in E as (d & created & _ & _ & ->).
    eexists. split; [done|]. split; [apply lookup_insert_eq|done].
Qed.

(** A keyring that was stored is read back under every prefix: the prefix of the store
    does not keep the keyrings of different brokers apart. *)
Lemma keyring_read_under_any_prefix prefix prefix' ref kr kr' (w w1 w2 w3 : W) :
  api_wf (objs (T := KeyringData) w) -> keyring_ok kr ->
  krs_Put ns prefix ref kr w = (w1, Ok tt) -> krs_Get ns prefix' ref w2 = (w3, Ok kr') ->
  keyring_at w3 ref = keyring_at w1 ref -> kr' = without_ephemeral kr.
Proof.
  intros Hw Hk Hput Hget Hsame. destruct (keyring_roundtrip_aux kr Hk) as (d & Hm & Hu).
  destruct (krs_Put_stored _ _ _ _ _ Hw Hput) as (d' & o & Hm' & Ho & Hd). rewrite Hm in Hm'. injection Hm' as <-.
  unfold krs_Get in Hget. apply wbind_Ok in Hget as (o' & w4 & Hg & Hr). injection Hr as <- Hr.
  unfold wcatch, wfail in Hg. destruct (kube_Get _ w2) as [w5 [o2| |]] eqn:Eg; [injection Hg as <- <-|done..].
  apply kube_Get_law in Eg as [_ Hg]. rewrite Hg, Ho in Hsame. injection Hsame as ->. rewrite Hd, Hu in Hr. by injection Hr.
Qed.
End Props.

(** ** A run *)

(** A server whose clock says that a thousand seconds have passed. *)
Definition kube_start : CRDStore (KubeWorld TokenSpec) :=
  NewCRDStore (mkKubeWorld (mkApiDb 1 ∅) (1000 * second)%Z []).
Definition kube_created : CRDStore (KubeWorld TokenSpec) * outcome BootstrapToken :=
  CreateToken "opni" (Ok (replicate 32 5%Z)) (60 * second)%Z [] kube_start.
Definition kube_token : BootstrapToken :=
  match kube_created.2 with Ok t => t | _ => mkBootstrapToken "" "" None end.

Lemma kube_created_eq : kube_created = (kube_created.1, Ok kube_token).
Proof. vm_compute. reflexivity. Qed.

(** Half a minute later thirty of the sixty seconds are left. *)
Lemma token_lives_for_its_ttl_witness :
  match (GetToken "opni" (1030 * second)%Z (mkReference (bt_TokenID kube_token)) kube_created.1).2 with
  | Ok t => btm_Ttl (token_meta t) = 30%Z
  | _ => False
  end.
Proof.
  assert (0 <= 60 * second <= int64_max)%Z as Hr by (vm_compute; split; discriminate).
  destruct (token_lives_for_its_ttl "opni" (Ok (replicate 32 5%Z)) (60 * second)%Z [] kube_start kube_created.1 kube_token
    kube_created_eq Hr) as (o & m & Ho & Ht & Hget).
  assert (o = mkObject (mkObjectMeta (bt_TokenID kube_token) "opni" ∅ 2 (1000 * second)%Z) (Some kube_token)) as ->
    by (vm_compute in Ho; injection Ho as <-; vm_compute; reflexivity).
  destruct (kube_Get (T := TokenSpec) ("opni", bt_TokenID kube_token) (cs_world kube_created.1)) as [w3 r] eqn:E.
  rewrite (Hget (1030 * second)%Z kube_created.1 w3 r E).
  - destruct r as [o|e|p]; [vm_compute; reflexivity|vm_compute in E; discriminate E..].
  - vm_compute in E. injection E as <- _. vm_compute. reflexivity.
  - vm_compute. split; discriminate.
Defined.
