(* ===== verification/Nats.v ===== *)
(** The NATS JetStream client the jetstream backend stands on (nats.go), as an
    interface: buckets of keys with revisions, shared with other clients.  Its laws
    state documented behaviour of the client; a reference instance with a schedule of
    interfering writes shows that they can hold. *)

From S2P Require Import Prelude GoStd CoreV1.
From stdpp Require Import relations.
From Stdlib Require Import Ascii.

Local Open Scope string_scope.

(** ** Buckets *)

Inductive KeyValueOp := KeyValuePut | KeyValueDelete | KeyValuePurge.

#[export] Instance KeyValueOp_eq_dec : EqDecision KeyValueOp.
Proof. solve_decision. Defined.

Record KeyValueEntry := mkKeyValueEntry {
  en_Key : string;
  en_Value : string;
  en_Revision : Z;
  en_Created : Time;
  en_Operation : KeyValueOp }.

(** A bucket is a stream: every write, a deletion marker too, takes the next
    sequence number; the last entry of a key counts. *)
Record Bucket := mkBucket { bk_seq : Z; bk_last : gmap string KeyValueEntry }.

Notation NatsDb := (gmap string Bucket).

Definition empty_bucket : Bucket := mkBucket 0 ∅.
Definition bucket (d : NatsDb) (b : string) : Bucket := default empty_bucket (d !! b).

Definition new_entry (d : NatsDb) (b k v : string) (op : KeyValueOp) (t : Time) : KeyValueEntry :=
  mkKeyValueEntry k v (bk_seq (bucket d b) + 1) t op.

Definition nb_write (d : NatsDb) (b k v : string) (op : KeyValueOp) (t : Time) : NatsDb :=
  <[b := mkBucket (bk_seq (bucket d b) + 1) (<[k := new_entry d b k v op t]> (bk_last (bucket d b)))]> d.

Definition nb_put (d : NatsDb) (b k v : string) (t : Time) : NatsDb := nb_write d b k v KeyValuePut t.

(** A deletion is a marker, written whether the key has a value or not. *)
Definition nb_delete (d : NatsDb) (b k : string) (t : Time) : NatsDb :=
  nb_write d b k "" KeyValueDelete t.

Inductive nats_step : NatsDb -> NatsDb -> Prop :=
| nats_write d b k v op t : nats_step d (nb_write d b k v op t).

Notation nats_steps := (rtc nats_step).

Definition last_entry (d : NatsDb) (b k : string) : option KeyValueEntry := bk_last (bucket d b) !! k.

Definition is_put (e : KeyValueEntry) : bool := bool_decide (en_Operation e = KeyValuePut).

(** The entry of a key that has a value. *)
Definition live (d : NatsDb) (b k : string) : option KeyValueEntry :=
  e ← last_entry d b k; if is_put e then Some e else None.

(** The sequence number of the last write of a key, 0 when there was none. *)
Definition last_revision (d : NatsDb) (b k : string) : Z :=
  match last_entry d b k with Some e => en_Revision e | None => 0 end.

(** What a watcher delivers first: the last entry of every key, oldest first. *)
Definition rev_le (a b : KeyValueEntry) : Prop := (en_Revision a <= en_Revision b)%Z.
#[export] Instance rev_le_dec a b : Decision (rev_le a b).
Proof. unfold rev_le. apply _. Defined.

Definition snapshot (ignoreDeletes : bool) (d : NatsDb) (b : string) : list KeyValueEntry :=
  merge_sort rev_le
    (filter (fun e => negb ignoreDeletes || is_put e = true)
       (snd <$> map_to_list (bk_last (bucket d b)))).

(** Keys are not empty, do not start or end with a dot, and consist of letters,
    digits and [-/_=.]. *)
Definition key_char (c : ascii) : bool :=
  in_range 48 57 c || in_range 65 90 c || in_range 97 122 c ||
  bool_decide (c ∈ ["-"; "/"; "_"; "="; "."]%char).

Definition keyValid (k : string) : bool :=
  negb (bool_decide (k = "")) && negb (HasPrefix k ".") && negb (HasSuffix k ".") && str_all key_char k.

(** ** The client

    Every call takes effect at one point; other clients may have acted before it.
    A failed call may or may not have acted, which is the same as somebody having
    acted.  The errors are the client's own. *)

Definition nats_ErrKeyExists : error := External "nats: key exists".
Definition nats_ErrKeyNotFound : error := External "nats: key not found".
Definition nats_ErrInvalidKey : error := External "nats: invalid key".
Definition nats_ErrNoKeysFound : error := External "nats: no keys found".

Definition foreign (e : error) : Prop :=
  errors_Is e ErrNotFound = false /\ errors_Is e ErrAlreadyExists = false.

Class NatsClient (W : Type) := {
  nats_db : W -> NatsDb;
  nats_CreateKeyValue : string -> M W unit;
  nats_Get : string -> string -> M W KeyValueEntry;
  nats_Create : string -> string -> string -> M W Z;
  nats_Update : string -> string -> string -> Z -> M W Z;
  nats_Put : string -> string -> string -> M W Z;
  nats_Delete : string -> string -> M W unit;
  nats_Keys : string -> M W (list string);
  (** the updates up to the nil that ends the initial values, or up to the end of
      the channel when it was closed first *)
  nats_WatchAll : string -> bool -> M W (list (option KeyValueEntry));
  (** the local clock, and a [go] statement *)
  time_Now : M W Time;
  go_run : M W unit -> M W unit;

  nats_CreateKeyValue_law b w w' o : nats_CreateKeyValue b w = (w', o) ->
    nats_steps (nats_db w) (nats_db w') /\ no_panic o = true;
  nats_Get_law b k w w' o : nats_Get b k w = (w', o) ->
    nats_steps (nats_db w) (nats_db w') /\
    match o with
    | Ok e => keyValid k = true /\ live (nats_db w') b k = Some e
    | Err e => foreign e /\
        (errors_Is e nats_ErrKeyNotFound = true -> live (nats_db w') b k = None)
    | Panic _ => False end;
  (** a key with a deletion marker can be created again *)
  nats_Create_law b k v w w' o : nats_Create b k v w = (w', o) ->
    match o with
    | Ok rev => keyValid k = true /\ exists d t, nats_steps (nats_db w) d /\ live d b k = None /\
        nats_db w' = nb_put d b k v t /\ rev = bk_seq (bucket (nats_db w') b)
    | Err e => nats_steps (nats_db w) (nats_db w') /\ foreign e /\
        (errors_Is e nats_ErrKeyExists = true ->
           exists d, nats_steps (nats_db w) d /\ nats_steps d (nats_db w') /\ is_Some (live d b k))
    | Panic _ => False end;
  nats_Update_law b k v last w w' o : nats_Update b k v last w = (w', o) ->
    match o with
    | Ok rev => exists d t, nats_steps (nats_db w) d /\ last_revision d b k = last /\
        nats_db w' = nb_put d b k v t /\ rev = bk_seq (bucket (nats_db w') b)
    | Err e => nats_steps (nats_db w) (nats_db w') /\ foreign e
    | Panic _ => False end;
  nats_Put_law b k v w w' o : nats_Put b k v w = (w', o) ->
    match o with
    | Ok rev => exists d t, nats_steps (nats_db w) d /\
        nats_db w' = nb_put d b k v t /\ rev = bk_seq (bucket (nats_db w') b)
    | Err e => nats_steps (nats_db w) (nats_db w') /\ foreign e
    | Panic _ => False end;
  nats_Delete_law b k w w' o : nats_Delete b k w = (w', o) ->
    match o with
    | Ok _ => exists d t, nats_steps (nats_db w) d /\ nats_db w' = nb_delete d b k t
    | Err e => nats_steps (nats_db w) (nats_db w') /\ foreign e
    | Panic _ => False end;
  nats_Keys_law b w w' o : nats_Keys b w = (w', o) ->
    nats_steps (nats_db w) (nats_db w') /\
    match o with
    | Ok ks => forall k, k ∈ ks <-> is_Some (live (nats_db w') b k)
    | Err e => foreign e /\
        (errors_Is e nats_ErrNoKeysFound = true -> forall k, live (nats_db w') b k = None)
    | Panic _ => False end;
  nats_WatchAll_law b ign w w' o : nats_WatchAll b ign w = (w', o) ->
    nats_steps (nats_db w) (nats_db w') /\
    match o with
    | Ok us => us = map Some (snapshot ign (nats_db w') b) ++ [None] \/
        exists n, us = map Some (take n (snapshot ign (nats_db w') b))
    | Err e => foreign e
    | Panic _ => False end%list;
  time_Now_law w w' o : time_Now w = (w', o) ->
    nats_steps (nats_db w) (nats_db w') /\ is_Ok o = true;
  (** the statement returns at once; the goroutine has run, runs, or will run *)
  go_run_law (m : M W unit) w w' o : go_run m w = (w', o) ->
    (forall w1 w2 o', m w1 = (w2, o') -> nats_steps (nats_db w1) (nats_db w2)) ->
    nats_steps (nats_db w) (nats_db w') /\ o = Ok tt }.

(** ** Revisions identify entries *)

(** Every key was written at a sequence number of the past. *)
Definition bucket_wf (bk : Bucket) : Prop :=
  (0 <= bk_seq bk)%Z /\
  forall k e, bk_last bk !! k = Some e -> (0 < en_Revision e <= bk_seq bk)%Z /\ en_Key e = k.

Definition nats_wf (d : NatsDb) : Prop := forall b, bucket_wf (bucket d b).

Lemma bucket_write d b k v op t b' :
  bucket (nb_write d b k v op t) b' =
  if decide (b' = b) then
    mkBucket (bk_seq (bucket d b) + 1) (<[k := new_entry d b k v op t]> (bk_last (bucket d b)))
  else bucket d b'.
Proof.
  unfold bucket at 1, nb_write. rewrite lookup_insert.
  case_decide as E; [subst; by rewrite decide_True by done|by rewrite decide_False by congruence].
Qed.

Lemma last_entry_write d b k v op t b' k' :
  last_entry (nb_write d b k v op t) b' k' =
  if decide (b' = b /\ k' = k) then Some (new_entry d b k v op t) else last_entry d b' k'.
Proof.
  unfold last_entry. rewrite bucket_write. case_decide as Eb; cbn.
  - subst b'. rewrite lookup_insert. repeat case_decide; naive_solver.
  - rewrite decide_False by naive_solver. done.
Qed.

Lemma live_write d b k v op t b' k' :
  live (nb_write d b k v op t) b' k' =
  if decide (b' = b /\ k' = k)
  then if decide (op = KeyValuePut) then Some (new_entry d b k v op t) else None
  else live d b' k'.
Proof.
  unfold live. rewrite last_entry_write. case_decide; [|done]. cbn. unfold is_put.
  cbn. by repeat case_decide; repeat case_bool_decide.
Qed.

Lemma live_last d b k e : live d b k = Some e <-> last_entry d b k = Some e /\ en_Operation e = KeyValuePut.
Proof.
  unfold live, is_put. destruct (last_entry d b k) as [e'|]; cbn; [|naive_solver].
  case_bool_decide; naive_solver.
Qed.

Lemma nats_step_wf d d' : nats_step d d' -> nats_wf d -> nats_wf d'.
Proof.
  intros [d0 b k v op t] Hd b'. rewrite bucket_write. case_decide as Eb; [|by apply Hd].
  destruct (Hd b) as [Hs Hk]. split; cbn; [lia|]. intros k' e.
  rewrite lookup_insert. case_decide as Ek.
  - intros [= <-]. cbn. split; [lia|done].
  - intros [? ?]%Hk. split; [lia|done].
Qed.

Lemma nats_steps_wf d d' : nats_steps d d' -> nats_wf d -> nats_wf d'.
Proof. induction 1; [done|]. eauto using nats_step_wf. Qed.

(** Along any history a key is either untouched, or carries a revision newer than
    the start of the history. *)
Lemma nats_steps_key d d' b k :
  nats_steps d d' ->
  (bk_seq (bucket d b) <= bk_seq (bucket d' b))%Z /\
  (last_entry d' b k = last_entry d b k \/
   exists e, last_entry d' b k = Some e /\ (bk_seq (bucket d b) < en_Revision e)%Z).
Proof.
  induction 1 as [d|d d1 d2 Hs _ [IHr IH]]; [split; [lia|by left]|].
  destruct Hs as [d b1 k1 v op t]. rewrite bucket_write in IHr, IH. rewrite last_entry_write in IH.
  destruct (decide (b = b1)) as [->|Eb]; cbn in IHr, IH.
  - split; [lia|]. destruct IH as [->|(e & -> & ?)]; [|right; exists e; split; [done|lia]].
    case_decide; [|by left]. right. eexists. split; [done|]. cbn. lia.
  - split; [done|]. rewrite decide_False in IH by naive_solver. done.
Qed.

(** A revision names one entry of the key: no history can bring it back with
    another. *)
Lemma revision_unique d d' b k e :
  nats_wf d -> nats_steps d d' ->
  live d b k = Some e -> last_revision d' b k = en_Revision e -> live d' b k = Some e.
Proof.
  intros Hw Hs [E Hp]%live_last Hr. apply live_last. split; [|done].
  destruct (nats_steps_key _ _ b k Hs) as [_ [H|(e' & H & Hlt)]]; [congruence|].
  unfold last_revision in Hr. rewrite H in Hr.
  destruct (Hw b) as [_ Hk]. destruct (Hk _ _ E) as [? _]. lia.
Qed.

(** ** A reference instance *)

(** One batch of writes by others, and the time that passes, before each call. *)
Inductive NatsEnvOp := NatsEnvPut (b k v : string) | NatsEnvDelete (b k : string).

Record RefNats := mkRefNats {
  rn_db : NatsDb;
  rn_clock : Time;
  rn_sched : list (Z * list NatsEnvOp) }.

Definition nats_env_op (t : Time) (d : NatsDb) (o : NatsEnvOp) : NatsDb :=
  match o with
  | NatsEnvPut b k v => nb_put d b k v t
  | NatsEnvDelete b k => nb_delete d b k t
  end.

Definition nats_interfere (w : RefNats) : RefNats :=
  match rn_sched w with
  | [] => w
  | (dt, ops) :: sched =>
      let t := (rn_clock w + Z.max 0 dt)%Z in
      mkRefNats (fold_left (nats_env_op t) ops (rn_db w)) t sched
  end.

Definition on_nats {A} (f : NatsDb -> Time -> NatsDb * outcome A) : M RefNats A := fun w =>
  let w := nats_interfere w in
  let (d, o) := f (rn_db w) (rn_clock w) in (mkRefNats d (rn_clock w) (rn_sched w), o).

Lemma nats_interfere_steps w : nats_steps (rn_db w) (rn_db (nats_interfere w)).
Proof.
  unfold nats_interfere. destruct (rn_sched w) as [|[dt ops] sched]; [done|]. cbn.
  generalize (rn_clock w + Z.max 0 dt)%Z as t, (rn_db w) as d. intros t.
  induction ops as [|o ops IH]; intros d; [done|]. cbn. eapply rtc_l; [|apply IH].
  destruct o; constructor.
Qed.

Definition live_keys (d : NatsDb) (b : string) : list string :=
  fst <$> filter (fun p => is_put p.2 = true) (map_to_list (bk_last (bucket d b))).

Lemma live_keys_spec d b k : k ∈ live_keys d b <-> is_Some (live d b k).
Proof.
  unfold live_keys, live, last_entry. rewrite list_elem_of_fmap. split.
  - intros ([k' e] & -> & [Hp Hk]%list_elem_of_filter). apply elem_of_map_to_list in Hk.
    cbn in *. rewrite Hk. cbn. rewrite Hp. eauto.
  - intros [e He]. destruct (bk_last (bucket d b) !! k) as [e'|] eqn:E; [|done]. cbn in He.
    destruct (is_put e') eqn:Ep; [|done]. exists (k, e'). split; [done|].
    apply list_elem_of_filter. split; [done|]. by apply elem_of_map_to_list.
Qed.

Definition put_result (d : NatsDb) (b k v : string) (t : Time) : NatsDb * outcome Z :=
  let d' := nb_put d b k v t in (d', Ok (bk_seq (bucket d' b))).

#[export] Instance RefNats_client : NatsClient RefNats.
Proof.
  refine {|
    nats_db := rn_db;
    nats_CreateKeyValue b := on_nats (fun d _ => (d, Ok tt));
    nats_Get b k := on_nats (fun d _ => (d,
      if keyValid k then
        match live d b k with Some e => Ok e | None => Err nats_ErrKeyNotFound end
      else Err nats_ErrInvalidKey));
    nats_Create b k v := on_nats (fun d t =>
      if keyValid k then
        match live d b k with Some _ => (d, Err nats_ErrKeyExists) | None => put_result d b k v t end
      else (d, Err nats_ErrInvalidKey));
    nats_Update b k v last := on_nats (fun d t =>
      if keyValid k then
        if decide (last_revision d b k = last) then put_result d b k v t
        else (d, Err (External "nats: wrong last sequence"))
      else (d, Err nats_ErrInvalidKey));
    nats_Put b k v := on_nats (fun d t =>
      if keyValid k then put_result d b k v t else (d, Err nats_ErrInvalidKey));
    nats_Delete b k := on_nats (fun d t =>
      if keyValid k then (nb_delete d b k t, Ok tt) else (d, Err nats_ErrInvalidKey));
    nats_Keys b := on_nats (fun d _ => (d, Ok (live_keys d b)));
    nats_WatchAll b ign := on_nats (fun d _ => (d, Ok (map Some (snapshot ign d b) ++ [None])%list));
    time_Now := on_nats (fun d t => (d, Ok t));
    go_run m := fun w => let (w', _) := m w in (w', Ok tt) |}.
  all: try (intros *; unfold on_nats, put_result; intros H; pose proof nats_interfere_steps as Hi;
    repeat (case_match || case_decide); simplify_eq/=; unfold foreign; cbn; naive_solver).
  intros b w w' o. unfold on_nats. intros H. simplify_eq/=. split; [apply nats_interfere_steps|].
  apply live_keys_spec.
Defined.
