(* ===== verification/JetStore.v ===== *)
(** pkg/storage/jetstream: the JetStream storage backend, on the NATS client of
    [Nats].  The world [W] is whatever the client acts on. *)

From S2P Require Import Prelude GoStd Base64 Validation CoreV1 Storage Rbac Etcd Tokens EtcdStore Keyring Nats.
From Stdlib Require Import Ascii.

Local Open Scope string_scope.

(** ** jetstream.go *)

Definition tokensBucket : string := "tokens".
Definition clustersBucket : string := "clusters".
Definition keyringsBucket : string := "keyrings".
Definition rolesBucket : string := "roles".
Definition roleBindingsBucket : string := "rolebindings".
Definition dynamicBucket : string := "dynamic".

(** [strings.ReplaceAll] of one character by another. *)
Fixpoint ReplaceAll_char (old new : ascii) (s : string) : string :=
  match s with
  | EmptyString => EmptyString
  | String c s => String (if decide (c = old) then new else c) (ReplaceAll_char old new s)
  end.

Definition sanitize (prefix : string) : string :=
  ReplaceAll_char "." "_" (ReplaceAll_char "/" "-" prefix).

(** [time.Time.Unix]. *)
Definition Unix (t : Time) : Z := (t / second)%Z.

(** What the loop around the optimistic updates does with one attempt: [inl] ends
    it with a result, [inr] is an error it tries again after.  The number of
    attempts is the number of times the backoff controller, which has no limit of
    its own, fires before the context of the call is done. *)
Fixpoint backoff_loop {W A} (msg : string) (once : M W (A + error)) (attempts : nat)
    (updateErr : option error) : M W A :=
  match attempts with
  | O =>
      match updateErr with
      | Some e => wfail (Wrapped msg e)
      | None => wfail (ErrorString (msg +:+ ": (unknown error)"))
      end
  | S attempts =>
      let! r := once in
      match r with
      | inl a => wret a
      | inr e => backoff_loop msg once attempts (Some e)
      end
  end.

(** A failed call whose error the caller inspects. *)
Definition wtry {W A} (m : M W A) : M W (A + error) := fun w =>
  match m w with
  | (w', Ok a) => (w', Ok (inl a))
  | (w', Err e) => (w', Ok (inr e))
  | (w', Panic p) => (w', Panic p)
  end.

Section JetStore.
Context {W : Type} `{NatsClient W} `{Sha256} `{KeyringJSON}.
Context `{!ProtoJSON Cluster} `{!ProtoJSON BootstrapToken} `{!ProtoJSON Role} `{!ProtoJSON RoleBinding}.
Variable BucketPrefix : string.

Definition bucketName (name : string) : string := BucketPrefix +:+ "-" +:+ name.

(** A bucket that cannot be created is a panic of the logger. *)
Definition upsertBucket (name : string) : M W string := fun w =>
  match nats_CreateKeyValue (bucketName name) w with
  | (w', Ok _) => (w', Ok (bucketName name))
  | (w', Err _) => (w', Panic "failed to create bucket")
  | (w', Panic p) => (w', Panic p)
  end.

(** *** cluster_store.go *)

Definition CreateCluster (now : Time) (cluster : Cluster) : W -> W * (Cluster * outcome unit) := fun w =>
  let cluster := Clus.SetResourceVersion "" cluster in
  let cluster := Clus.SetCreationTimestamp (Truncate_second now) cluster in
  match Marshal cluster with
  | Err e => (w, (cluster, Err (Wrapped "failed to marshal cluster" e)))
  | Panic p => (w, (cluster, Panic p))
  | Ok data =>
      match nats_Create (bucketName clustersBucket) (cl_Id cluster) data w with
      | (w', Err e) =>
          if errors_Is e nats_ErrKeyExists then (w', (cluster, Err ErrAlreadyExists))
          else (w', (cluster, Err (Wrapped "failed to create cluster" e)))
      | (w', Panic p) => (w', (cluster, Panic p))
      | (w', Ok rev) => (w', (Clus.SetResourceVersion (Sprint rev) cluster, Ok tt))
      end
  end.

Definition GetCluster (ref : Reference) : M W Cluster :=
  let! resp := wcatch (nats_Get (bucketName clustersBucket) (ref_Id ref)) (fun e =>
                 if errors_Is e nats_ErrKeyNotFound then wfail ErrNotFound
                 else wfail (Wrapped "failed to get cluster" e)) in
  let! cluster := wrapf "failed to unmarshal cluster" (wlift (Unmarshal (en_Value resp))) in
  wret (Clus.SetResourceVersion (Sprint (en_Revision resp)) cluster).

Definition DeleteCluster (ref : Reference) : M W unit :=
  wcatch (GetCluster ref ;! wret tt) (fun e =>
    if errors_Is e nats_ErrKeyNotFound then wfail ErrNotFound else wfail e) ;!
  nats_Delete (bucketName clustersBucket) (ref_Id ref).

Definition update_cluster_once (ref : Reference) (mutator : MutatorFunc Cluster) : M W (Cluster + error) :=
  let! cluster := GetCluster ref in
  let! version := wrapf "internal error: cluster has invalid resource version"
                    (wlift (ParseUint (Clus.GetResourceVersion cluster))) in
  let! cluster := wlift (mutator cluster) in
  let cluster := Clus.SetResourceVersion "" cluster in
  let! data := wrapf "failed to marshal cluster" (wlift (Marshal cluster)) in
  let! r := wtry (nats_Update (bucketName clustersBucket) (ref_Id ref) data version) in
  match r with
  | inr e => wret (inr e)
  | inl rev => wret (inl (Clus.SetResourceVersion (Sprint rev) cluster))
  end.

Definition UpdateCluster (attempts : nat) (ref : Reference) (mutator : MutatorFunc Cluster) : M W Cluster :=
  backoff_loop "failed to update cluster" (update_cluster_once ref mutator) attempts None.

(** [None] is an update that cannot be decoded, which is logged and skipped. *)
Definition translateClusterWatchEvent (update : KeyValueEntry) : outcome (option (WatchEvent Cluster)) :=
  match en_Operation update with
  | KeyValuePut =>
      match Unmarshal (en_Value update) with
      | Err _ => Ok None
      | Panic p => Panic p
      | Ok cluster =>
          Ok (Some (mkWatchEvent WatchEventUpdate
                      (Some (Clus.SetResourceVersion (Sprint (en_Revision update)) cluster)) None))
      end
  | KeyValueDelete | KeyValuePurge =>
      Ok (Some (mkWatchEvent WatchEventDelete None (Some (mkCluster (en_Key update) None))))
  end.

(** A method of a nil message reads the zero value. *)
Definition version_of (c : option Cluster) : string :=
  match c with Some c => Clus.GetResourceVersion c | None => "" end.

(** The goroutine of WatchCluster: the updates up to the first nil, then the live
    ones up to the next nil or the end of the channel. *)
Fixpoint watch_cluster_live (current : option Cluster) (updates : list (option KeyValueEntry))
  : outcome (list (WatchEvent Cluster)) :=
  match updates with
  | [] | None :: _ => Ok []
  | Some update :: updates =>
      let? t := translateClusterWatchEvent update in
      match t with
      | None => watch_cluster_live current updates
      | Some e =>
          let step : WatchEvent Cluster * option Cluster :=
            match we_EventType e with
            | WatchEventUpdate => (mkWatchEvent WatchEventUpdate (we_Current e) current, we_Current e)
            | WatchEventDelete => (mkWatchEvent WatchEventDelete (we_Current e) current, None)
            | _ => (e, current)
            end in
          let? rest := watch_cluster_live step.2 updates in Ok (step.1 :: rest)
      end
  end.

Fixpoint watch_cluster_initial (cluster : Cluster) (current : option Cluster) (updates : list (option KeyValueEntry))
  : outcome (list (WatchEvent Cluster)) :=
  match updates with
  | [] => Ok []
  | None :: updates => watch_cluster_live current updates
  | Some update :: updates =>
      let? t := translateClusterWatchEvent update in
      match t with
      | None => watch_cluster_initial cluster current updates
      | Some e =>
          if decide (version_of (we_Current e) = Clus.GetResourceVersion cluster)
          then watch_cluster_initial cluster current updates
          else
            let? rest := watch_cluster_initial cluster (we_Current e) updates in
            Ok (mkWatchEvent WatchEventUpdate (we_Current e) (Some cluster) :: rest)
      end
  end.

Definition WatchCluster (cluster : Cluster) (updates : list (option KeyValueEntry))
  : outcome (list (WatchEvent Cluster)) :=
  watch_cluster_initial cluster (Some cluster) updates.

Notation KnownMap := (gmap string Cluster).

(** The initial phase of WatchClusters: the events for what the caller does not
    know yet, and the map of known clusters. *)
Definition initial_event (known : KnownMap) (update : KeyValueEntry)
  : outcome (KnownMap * list (WatchEvent Cluster)) :=
  if decide (en_Operation update = KeyValueDelete) then Ok (known, [])
  else
    let? t := translateClusterWatchEvent update in
    match t with
    | None => Ok (known, [])
    | Some e =>
        match we_Current e with
        | None => Panic "nil pointer dereference"
        | Some current =>
            match known !! cl_Id current with
            | None =>
                Ok (<[cl_Id current := current]> known,
                    [mkWatchEvent WatchEventCreate (Some current) None])
            | Some knownCluster =>
                if decide (Clus.GetResourceVersion knownCluster = Clus.GetResourceVersion current)
                then Ok (known, [])
                else Ok (<[cl_Id current := current]> known,
                         [mkWatchEvent WatchEventUpdate (Some current) (Some knownCluster)])
            end
        end
    end.

(** The live phase: the event for one update. *)
Definition live_event (known : KnownMap) (update : KeyValueEntry)
  : outcome (KnownMap * list (WatchEvent Cluster)) :=
  let? t := translateClusterWatchEvent update in
  match t with
  | None => Ok (known, [])
  | Some e =>
      match we_EventType e, we_Current e, we_Previous e with
      | WatchEventUpdate, Some current, _ =>
          Ok (<[cl_Id current := current]> known,
              [match known !! cl_Id current with
               | None => mkWatchEvent WatchEventCreate (Some current) (we_Previous e)
               | Some prev => mkWatchEvent WatchEventUpdate (Some current) (Some prev)
               end])
      | WatchEventDelete, _, Some previous =>
          match known !! cl_Id previous with
          | None => Panic "nil pointer dereference"
          | Some prev =>
              Ok (delete (cl_Id prev) known, [mkWatchEvent WatchEventDelete (we_Current e) (Some prev)])
          end
      | _, _, _ => Ok (known, [e])
      end
  end.

(** Each phase runs up to a nil update; [None] as the rest is a channel that was
    closed. *)
Fixpoint watch_phase (event : KnownMap -> KeyValueEntry -> outcome (KnownMap * list (WatchEvent Cluster)))
    (known : KnownMap) (updates : list KeyValueEntry) : outcome (KnownMap * list (WatchEvent Cluster)) :=
  match updates with
  | [] => Ok (known, [])
  | update :: updates =>
      let? r := event known update in
      let? rest := watch_phase event r.1 updates in
      Ok (rest.1, r.2 ++ rest.2)%list
  end.

(** WatchClusters over the initial values and the live updates of its watcher: the
    events it sends, and the size of its channel. *)
Definition WatchClusters (knownClusters : list Cluster) (initial updates : list KeyValueEntry)
  : outcome (KnownMap * list (WatchEvent Cluster) * nat) :=
  let? init := watch_phase initial_event (known_map knownClusters) initial in
  let? run := watch_phase live_event init.1 updates in
  Ok (run.1, (init.2 ++ run.2)%list, buffer_size (length init.2) (length init.2) 100).

(** A loop over the updates of a watcher, up to the nil that ends the initial
    values. *)
Fixpoint list_loop {A} (item : KeyValueEntry -> M W (list A)) (updates : list (option KeyValueEntry))
  : M W (list A) :=
  match updates with
  | [] | None :: _ => wret []
  | Some entry :: updates =>
      let! x := item entry in
      let! xs := list_loop item updates in
      wret (x ++ xs)%list
  end.

Definition ListClusters (matchLabels : option LabelSelector) (matchOptions : MatchOptions)
  : M W (list Cluster) :=
  let! updates := nats_WatchAll (bucketName clustersBucket) true in
  let selectorPredicate := NewSelectorPredicate (mkClusterSelector [] matchLabels matchOptions) in
  list_loop (fun entry =>
    let! cluster := wlift (Unmarshal (en_Value entry)) in
    if selectorPredicate cluster
    then wret [Clus.SetResourceVersion (Sprint (en_Revision entry)) cluster]
    else wret []) updates.

(** *** token_store.go *)

(** The lifetime left of a token, whose entry was written at [created]. *)
Definition patched_ttl (now created : Time) (ttl : Z) : Z :=
  let newTtl := wrap64 (ttl - wrap64 (Unix now - Unix created)) in
  if (newTtl <? 0)%Z then 0%Z else newTtl.

Definition with_ttl (ttl : Z) (token : BootstrapToken) : BootstrapToken :=
  let m := token_meta token in
  with_token_meta token
    (mkBootstrapTokenMetadata (btm_LeaseID m) ttl (btm_UsageCount m) (btm_Labels m)
       (btm_Capabilities m) (btm_ResourceVersion m)).

Definition patchTTL (token : BootstrapToken) (entry : KeyValueEntry) : M W BootstrapToken :=
  match bt_Metadata token with
  | None => wlift (Panic "nil pointer dereference")
  | Some m =>
      let! now := time_Now in
      wret (with_ttl (patched_ttl now (en_Created entry) (btm_Ttl m)) token)
  end.

(** A failure is only logged. *)
Definition garbageCollectToken (token : BootstrapToken) : M W unit :=
  wcatch (nats_Delete (bucketName tokensBucket) (bt_TokenID token)) (fun _ => wret tt).

Definition CreateToken (entropy : outcome (list byte)) (ttl : Z) (opts : list TokenCreateOption)
  : M W BootstrapToken :=
  let options := Apply NewTokenCreateOptions opts in
  let! tok := wlift (NewToken entropy) in
  let token := with_token_meta (ToBootstrapToken tok)
    (mkBootstrapTokenMetadata (-1) (int64_Seconds ttl) 0 (tco_Labels options) (tco_Capabilities options) "") in
  let! data := wrapf "failed to marshal token" (wlift (Marshal token)) in
  let! rev := wrapf "failed to create token"
                (nats_Create (bucketName tokensBucket) (bt_TokenID token) data) in
  wret (Token.SetResourceVersion (Sprint rev) token).

Definition GetToken (ref : Reference) : M W BootstrapToken :=
  let! entry := wcatch (nats_Get (bucketName tokensBucket) (ref_Id ref)) (fun e =>
                  if errors_Is e nats_ErrKeyNotFound then wfail ErrNotFound
                  else wfail (Wrapped "failed to get token" e)) in
  let! token := wrapf "failed to unmarshal token" (wlift (Unmarshal (en_Value entry))) in
  let! token := patchTTL token entry in
  if (btm_Ttl (token_meta token) <=? 0)%Z
  then go_run (garbageCollectToken token) ;! wfail ErrNotFound
  else wret (Token.SetResourceVersion (Sprint (en_Revision entry)) token).

Definition DeleteToken (ref : Reference) : M W unit :=
  GetToken ref ;! nats_Delete (bucketName tokensBucket) (ref_Id ref).

Definition update_token_once (ref : Reference) (mutator : MutatorFunc BootstrapToken)
  : M W (BootstrapToken + error) :=
  let! token := GetToken ref in
  let! token := wlift (mutator token) in
  let! data := wrapf "failed to marshal token" (wlift (Marshal token)) in
  let! version := wrapf "failed to parse resource version"
                    (wlift (ParseUint (Token.GetResourceVersion token))) in
  let! r := wtry (nats_Update (bucketName tokensBucket) (ref_Id ref) data version) in
  match r with
  | inr e => wret (inr e)
  | inl rev => wret (inl (Token.SetResourceVersion (Sprint rev) token))
  end.

Definition UpdateToken (attempts : nat) (ref : Reference) (mutator : MutatorFunc BootstrapToken)
  : M W BootstrapToken :=
  backoff_loop "failed to update token" (update_token_once ref mutator) attempts None.

Definition ListTokens : M W (list BootstrapToken) :=
  let! updates := nats_WatchAll (bucketName tokensBucket) true in
  list_loop (fun entry =>
    let! token := wrapf "failed to unmarshal token" (wlift (Unmarshal (en_Value entry))) in
    let! token := patchTTL token entry in
    if (btm_Ttl (token_meta token) <=? 0)%Z
    then go_run (garbageCollectToken token) ;! wret []
    else wret [Token.SetResourceVersion (Sprint (en_Revision entry)) token]) updates.

(** *** rbac_store.go *)

Definition CreateRole (role : Role) : M W unit :=
  let! data := wlift (Marshal role) in
  wcatch (nats_Create (bucketName rolesBucket) (role_Id role) data ;! wret tt) (fun e =>
    if errors_Is e nats_ErrKeyExists then wfail ErrAlreadyExists else wfail e).

Definition DeleteRole (ref : Reference) : M W unit :=
  wcatch (nats_Get (bucketName rolesBucket) (ref_Id ref) ;! wret tt) (fun e =>
    if errors_Is e nats_ErrKeyNotFound then wfail ErrNotFound else wfail e) ;!
  nats_Delete (bucketName rolesBucket) (ref_Id ref).

(** An empty id is a missing object. *)
Definition get_object (b : string) (ref : Reference) : M W KeyValueEntry :=
  wcatch (nats_Get (bucketName b) (ref_Id ref)) (fun e =>
    if errors_Is e nats_ErrKeyNotFound ||
       (errors_Is e nats_ErrInvalidKey && bool_decide (ref_Id ref = ""))
    then wfail ErrNotFound else wfail e).

Definition GetRole (ref : Reference) : M W Role :=
  let! entry := get_object rolesBucket ref in wlift (Unmarshal (en_Value entry)).

Definition CreateRoleBinding (rb : RoleBinding) : M W unit :=
  let! data := wlift (Marshal rb) in
  wcatch (nats_Create (bucketName roleBindingsBucket) (rb_Id rb) data ;! wret tt) (fun e =>
    if errors_Is e nats_ErrKeyExists then wfail ErrAlreadyExists else wfail e).

Definition DeleteRoleBinding (ref : Reference) : M W unit :=
  wcatch (nats_Get (bucketName roleBindingsBucket) (ref_Id ref) ;! wret tt) (fun e =>
    if errors_Is e nats_ErrKeyNotFound then wfail ErrNotFound else wfail e) ;!
  nats_Delete (bucketName roleBindingsBucket) (ref_Id ref).

Definition GetRoleBinding (ref : Reference) : M W RoleBinding :=
  let! entry := get_object roleBindingsBucket ref in
  let! rb := wlift (Unmarshal (en_Value entry)) in
  ApplyRoleBindingTaints GetRole rb.

Definition ListRoles : M W (list Role) :=
  let! updates := nats_WatchAll (bucketName rolesBucket) true in
  list_loop (fun entry => let! role := wlift (Unmarshal (en_Value entry)) in wret [role]) updates.

(** No taints are applied here. *)
Definition ListRoleBindings : M W (list RoleBinding) :=
  let! updates := nats_WatchAll (bucketName roleBindingsBucket) true in
  list_loop (fun entry => let! rb := wlift (Unmarshal (en_Value entry)) in wret [rb]) updates.

(** *** keyring_store.go *)

Definition jetstreamKeyringStore (prefix : string) (ref : Reference) : ValueStoreT W Keyring :=
  let key := path_Join [prefix; ref_Id ref] in
  {| v_Put keyring :=
       let! k := wrapf "failed to marshal keyring" (wlift (keyring_Marshal keyring)) in
       wrapf "failed to put keyring" (nats_Put (bucketName keyringsBucket) key k) ;! wret tt;
     v_Get :=
       let! resp := wcatch (nats_Get (bucketName keyringsBucket) key) (fun e =>
                      if errors_Is e nats_ErrKeyNotFound then wfail ErrNotFound
                      else wfail (Wrapped "failed to get keyring" e)) in
       wrapf "failed to unmarshal keyring" (wlift (keyring_Unmarshal (en_Value resp)));
     v_Delete :=
       wrapf "failed to delete keyring" (nats_Delete (bucketName keyringsBucket) key) |}.

(** *** kv_store.go *)

Definition jetstreamKeyValueStore (kv : string) : KeyValueStoreT W string :=
  {| kv_Put key value := nats_Put kv key value ;! wret tt;
     kv_Get key :=
       let! resp := wcatch (nats_Get kv key) (fun e =>
                      if errors_Is e nats_ErrKeyNotFound then wfail ErrNotFound else wfail e) in
       wret (en_Value resp);
     kv_Delete key :=
       wcatch (nats_Get kv key ;! wret tt) (fun e =>
         if errors_Is e nats_ErrKeyNotFound then wfail ErrNotFound else wfail e) ;!
       nats_Delete kv key;
     kv_ListKeys prefix :=
       wcatch (let! keys := nats_Keys kv in
               wret (filter (fun key => HasPrefix key prefix = true) keys)) (fun e =>
         if errors_Is e nats_ErrNoKeysFound then wret [] else wfail e) |}.

Definition KeyValueStore (prefix : string) : M W (KeyValueStoreT W string) :=
  let! bucket := upsertBucket (dynamicBucket +:+ "-" +:+ sanitize prefix) in
  wret (jetstreamKeyValueStore bucket).
End JetStore.
