(* ===== verification/JetStoreProps.v ===== *)
(** Properties of the JetStream storage backend [JetStore], for every client that
    obeys the contract of [Nats]: whatever other clients do between its calls. *)

From S2P Require Import Prelude GoStd Base64 Validation CoreV1 Storage Rbac Etcd Tokens RefJSON EtcdStore Keyring Nats JetStore.
From stdpp Require Import relations.
From Stdlib Require Import Ascii.

Local Open Scope string_scope.

(** ** Optimistic updates *)

(** An update loop that returned had attempts that failed to write, and one that
    wrote. *)
Lemma backoff_loop_Ok {W A} msg (once : M W (A + error)) n ue w w' a :
  backoff_loop msg once n ue w = (w', Ok a) ->
  exists w1, rtc (fun x y => exists e, once x = (y, Ok (inr e))) w w1 /\ once w1 = (w', Ok (inl a)).
Proof.
  revert ue w. induction n as [|n IH]; intros ue w; cbn; [by destruct ue|].
  intros (r & w1 & E & Hr)%wbind_Ok. destruct r as [a'|e].
  - injection Hr as -> ->. by exists w.
  - destruct (IH _ _ Hr) as (w2 & Hs & E2). exists w2. split; [|done]. eapply rtc_l; eauto.
Qed.

(** The invariant of the attempts carries over the loop. *)
Lemma backoff_loop_inv {W A} `{NatsClient W} msg (once : M W (A + error)) n ue w w' a :
  nats_wf (nats_db w) ->
  (forall x y e, nats_wf (nats_db x) -> once x = (y, Ok (inr e)) -> nats_steps (nats_db x) (nats_db y)) ->
  backoff_loop msg once n ue w = (w', Ok a) ->
  exists w1, nats_steps (nats_db w) (nats_db w1) /\ nats_wf (nats_db w1) /\ once w1 = (w', Ok (inl a)).
Proof.
  intros Hw Hstep (w1 & Hs & E)%backoff_loop_Ok. exists w1.
  cut (nats_steps (nats_db w) (nats_db w1) /\ nats_wf (nats_db w1)); [naive_solver|]. clear E.
  induction Hs as [|x y z [e He] _ IH]; [done|].
  pose proof (Hstep _ _ _ Hw He) as Hxy. destruct IH as [? ?]; [by eapply nats_steps_wf|].
  split; [by etrans|done].
Qed.

Lemma wtry_Ok {W A} (m : M W A) w w' r :
  wtry m w = (w', Ok r) <->
  (exists a, r = inl a /\ m w = (w', Ok a)) \/ (exists e, r = inr e /\ m w = (w', Err e)).
Proof. unfold wtry. destruct (m w) as [? []]; naive_solver. Qed.

Section ClusterProps.
Context {W : Type} `{NatsClient W} `{!ProtoJSON Cluster}.
Variable BucketPrefix : string.

Notation clusters := (bucketName BucketPrefix clustersBucket).

(** The cluster an entry stands for. *)
Definition decode (e : KeyValueEntry) : option Cluster :=
  match Unmarshal (en_Value e) with
  | Ok c => Some (Clus.SetResourceVersion (Sprint (en_Revision e)) c)
  | _ => None
  end.

Lemma jet_GetCluster_inv ref w w' c :
  GetCluster BucketPrefix ref w = (w', Ok c) ->
  nats_steps (nats_db w) (nats_db w') /\
  exists e, live (nats_db w') clusters (ref_Id ref) = Some e /\ decode e = Some c.
Proof.
  unfold GetCluster. intros (e & w1 & Hg & Hc)%wbind_Ok. unfold wcatch in Hg.
  destruct (nats_Get _ _ w) as [w2 [e'|er|p]] eqn:E; [|by destruct (errors_Is _ _)|done].
  injection Hg as <- <-. apply nats_Get_law in E as (Hs & _ & Hl).
  apply wbind_Ok in Hc as (c0 & w3 & Hu & Hr). apply wrapf_Ok in Hu.
  injection Hu as <- Hu. injection Hr as <- <-. split; [done|].
  exists e'. split; [done|]. unfold decode. by rewrite Hu.
Qed.

(** The commit of an update: at [d], the state just before the write, the stored
    cluster is the one the mutator was applied to. *)
Definition jet_committed (ref : Reference) (mutator : MutatorFunc Cluster) (d d' : NatsDb) (c : Cluster)
  : Prop :=
  exists e c0 c1 data t,
    live d clusters (ref_Id ref) = Some e /\ decode e = Some c0 /\
    mutator c0 = Ok c1 /\ Marshal (Clus.SetResourceVersion "" c1) = Ok data /\
    d' = nb_put d clusters (ref_Id ref) data t /\
    c = Clus.SetResourceVersion (Sprint (bk_seq (bucket d' clusters))) (Clus.SetResourceVersion "" c1).

Lemma ParseUint_Sprint_Ok z r : (0 <= z)%Z -> ParseUint (Sprint z) = Ok r -> r = z.
Proof.
  intros Hz. destruct (decide (z <= uint64_max)%Z) as [Hle|Hgt].
  - rewrite ParseUint_Sprint by done. congruence.
  - unfold ParseUint. destruct (DecimalString.NilZero.uint_of_string _) as [d|] eqn:E; [|done].
    case_bool_decide as Hd; [|done]. intros [= <-].
    assert (exists d', Z.to_int z = Decimal.Pos d' /\ d' <> Decimal.Nil) as (d' & Hd' & Hn).
    { destruct z as [|p|p]; [unfold uint64_max in *; lia| |lia]. exists (Pos.to_uint p). split; [done|].
      intros Hp. pose proof (DecimalPos.Unsigned.to_uint_nonnil p). done. }
    unfold Sprint in E. rewrite Hd' in E. cbn in E.
    rewrite DecimalString.NilZero.usu in E by done. injection E as <-.
    pose proof (DecimalZ.of_to z) as Hz'. rewrite Hd' in Hz'. done.
Qed.

Lemma jet_update_cluster_once_inv ref mutator w w' r :
  nats_wf (nats_db w) ->
  update_cluster_once BucketPrefix ref mutator w = (w', Ok r) ->
  match r with
  | inl c => exists d, nats_steps (nats_db w) d /\ jet_committed ref mutator d (nats_db w') c
  | inr _ => nats_steps (nats_db w) (nats_db w')
  end.
Proof.
  intros Hw. unfold update_cluster_once.
  intros (c0 & w1 & (Hs1 & e & Hl & Hd)%jet_GetCluster_inv & Hk)%wbind_Ok.
  apply wbind_Ok in Hk as (v & w2 & Hv & Hk). apply wrapf_Ok in Hv. injection Hv as <- Hv.
  apply wbind_Ok in Hk as (c1 & w2 & Hm & Hk). injection Hm as <- Hm.
  apply wbind_Ok in Hk as (data & w2 & Hma & Hk). apply wrapf_Ok in Hma. injection Hma as <- Hma.
  apply wbind_Ok in Hk as (u & w2 & [(rev & -> & Hu)|(er & -> & Hu)]%wtry_Ok & Hk);
    injection Hk as <- <-; apply nats_Update_law in Hu.
  - destruct Hu as (d & t & Hs2 & Hlast & Hdb & ->). exists d. split; [by etrans|].
    assert (nats_wf (nats_db w1)) as Hw1 by (by eapply nats_steps_wf).
    pose proof Hl as [Hle _]%live_last. destruct (Hw1 clusters) as [_ Hk1].
    destruct (Hk1 _ _ Hle) as [Hrev _]. pose proof Hd as Hd'. unfold decode in Hd'.
    destruct (Unmarshal (en_Value e)) as [c00| |]; [|done|done]. injection Hd' as <-.
    change (ParseUint (Sprint (en_Revision e)) = Ok v) in Hv.
    apply ParseUint_Sprint_Ok in Hv as ->; [|lia].
    pose proof (revision_unique _ _ _ _ _ Hw1 Hs2 Hl Hlast) as Hld.
    eexists e, _, c1, data, t. split; [done|]. split; [done|]. split; [done|]. split; [done|].
    split; [done|]. done.
  - destruct Hu as [Hs2 _]. by etrans.
Qed.

(** UpdateCluster of the JetStream backend loses no update either: its write
    expects the revision it read, so however other clients interfere, and however
    often it tried again, the value it stores is its mutator applied to the
    cluster stored just before the write, and the returned cluster carries the
    revision of that write. *)
Lemma jet_UpdateCluster_no_lost_update (attempts : nat) (ref : Reference)
    (mutator : MutatorFunc Cluster) (w w' : W) (c : Cluster) :
  nats_wf (nats_db w) ->
  UpdateCluster BucketPrefix attempts ref mutator w = (w', Ok c) ->
  exists d, nats_steps (nats_db w) d /\ jet_committed ref mutator d (nats_db w') c.
Proof.
  intros Hw (w1 & Hs & Hw1 & E)%backoff_loop_inv; [|done|].
  - destruct (jet_update_cluster_once_inv _ _ _ _ _ Hw1 E) as (d & Hd & Hc).
    exists d. split; [by etrans|done].
  - intros x y e Hx He. exact (jet_update_cluster_once_inv _ _ _ _ _ Hx He).
Qed.
End ClusterProps.

(** ** Tokens *)

Section TokenProps.
Context {W : Type} `{NatsClient W} `{!ProtoJSON BootstrapToken}.
Variable BucketPrefix : string.

Notation toks := (bucketName BucketPrefix tokensBucket).

Lemma garbageCollectToken_steps token w w' o :
  garbageCollectToken BucketPrefix token w = (w', o) -> nats_steps (nats_db w) (nats_db w').
Proof.
  unfold garbageCollectToken, wcatch, wret. destruct (nats_Delete _ _ w) as [w1 o1] eqn:E.
  apply nats_Delete_law in E. destruct o1 as [[]|e|p]; [|by intros [= <- <-]; destruct E|done].
  intros [= <- <-]. destruct E as (d & t & Hs & ->). eapply rtc_r; [done|]. constructor.
Qed.

(** What GetToken answers was read from a live entry, with the lifetime that the
    clock leaves of it. *)
Lemma GetToken_inv ref w w' tok :
  GetToken BucketPrefix ref w = (w', Ok tok) ->
  exists e t0 m now w1 w2,
    nats_steps (nats_db w) (nats_db w1) /\ live (nats_db w1) toks (ref_Id ref) = Some e /\
    Unmarshal (en_Value e) = Ok t0 /\ bt_Metadata t0 = Some m /\
    time_Now w1 = (w2, Ok now) /\ w2 = w' /\ nats_steps (nats_db w1) (nats_db w') /\
    (0 < patched_ttl now (en_Created e) (btm_Ttl m))%Z /\
    tok = Token.SetResourceVersion (Sprint (en_Revision e))
            (with_ttl (patched_ttl now (en_Created e) (btm_Ttl m)) t0).
Proof.
  unfold GetToken. intros (e & w1 & Hg & Hk)%wbind_Ok. unfold wcatch in Hg.
  destruct (nats_Get _ _ w) as [w2 [e'|er|p]] eqn:E; [|by destruct (errors_Is _ _)|done].
  injection Hg as <- <-. apply nats_Get_law in E as (Hs & _ & Hl).
  apply wbind_Ok in Hk as (t0 & w3 & Hu & Hk). apply wrapf_Ok in Hu. injection Hu as <- Hu.
  apply wbind_Ok in Hk as (t1 & w3 & Hp & Hk). unfold patchTTL in Hp.
  destruct (bt_Metadata t0) as [m|] eqn:Em; [|done].
  apply wbind_Ok in Hp as (now & w4 & Hn & Hp). injection Hp as <- <-.
  cbn in Hk. destruct (_ <=? 0)%Z eqn:Ez.
  - apply wbind_Ok in Hk as (? & ? & _ & Hf). done.
  - injection Hk as <- <-. apply Z.leb_gt in Ez. pose proof Hn as [Hs2 _]%time_Now_law.
    eexists e', t0, m, now, w2, w4. done.
Qed.

Lemma GetToken_steps ref w w' o :
  GetToken BucketPrefix ref w = (w', o) -> nats_steps (nats_db w) (nats_db w').
Proof.
  unfold GetToken, wbind at 1, wcatch. destruct (nats_Get _ _ w) as [w1 o1] eqn:E.
  apply nats_Get_law in E as [Hs Ho]. destruct o1 as [e|er|p]; [| |done].
  2: { destruct (errors_Is _ _); by intros [= <- <-]. }
  unfold wbind, wrapf, wcatch, wlift, wfail. destruct (Unmarshal _) as [t0|er|p];
    [|by intros [= <- <-]|by intros [= <- <-]].
  unfold patchTTL, wlift, wbind, wret. destruct (bt_Metadata t0); [|by intros [= <- <-]].
  destruct (time_Now w1) as [w2 o2] eqn:En. apply time_Now_law in En as [Hs2 Hok].
  destruct o2 as [now|er|p]; [|done|done]. destruct (_ <=? 0)%Z.
  - destruct (go_run _ w2) as [w3 o3] eqn:Eg.
    apply go_run_law in Eg as [Hs3 ->]; [|apply garbageCollectToken_steps].
    intros [= <- <-]. do 2 (etrans; [done|]). done.
  - intros [= <- <-]. by etrans.
Qed.

(** A mutator that leaves the lifetime and the resource version alone, as those of
    the gateway do. *)
Definition keeps_lifetime (mutator : MutatorFunc BootstrapToken) : Prop :=
  forall t t', mutator t = Ok t' ->
    btm_Ttl (token_meta t') = btm_Ttl (token_meta t) /\
    Token.GetResourceVersion t' = Token.GetResourceVersion t.

(** The commit of a token update: the entry [e] is the one stored just before the
    write, and was read when the clock said [now]. *)
Definition token_committed (ref : Reference) (mutator : MutatorFunc BootstrapToken)
    (e : KeyValueEntry) (now : Time) (d d' : NatsDb) (tok : BootstrapToken) : Prop :=
  exists t0 t1 data t,
    live d toks (ref_Id ref) = Some e /\ Unmarshal (en_Value e) = Ok t0 /\
    (0 < patched_ttl now (en_Created e) (btm_Ttl (token_meta t0)))%Z /\
    mutator (Token.SetResourceVersion (Sprint (en_Revision e))
               (with_ttl (patched_ttl now (en_Created e) (btm_Ttl (token_meta t0))) t0)) = Ok t1 /\
    Marshal t1 = Ok data /\ d' = nb_put d toks (ref_Id ref) data t /\
    tok = Token.SetResourceVersion (Sprint (bk_seq (bucket d' toks))) t1.

Lemma update_token_once_inv ref mutator w w' r :
  nats_wf (nats_db w) -> keeps_lifetime mutator ->
  update_token_once BucketPrefix ref mutator w = (w', Ok r) ->
  match r with
  | inl tok => exists e now w1 w2 d, time_Now w1 = (w2, Ok now) /\ nats_steps (nats_db w) (nats_db w1) /\
      nats_steps (nats_db w1) d /\ live (nats_db w1) toks (ref_Id ref) = Some e /\
      token_committed ref mutator e now d (nats_db w') tok
  | inr _ => nats_steps (nats_db w) (nats_db w')
  end.
Proof.
  intros Hw Hm. unfold update_token_once. intros (t0 & w1 & Hg & Hk)%wbind_Ok.
  pose proof (GetToken_steps _ _ _ _ Hg) as Hs1.
  apply wbind_Ok in Hk as (t1 & w2 & Hmu & Hk). injection Hmu as <- Hmu.
  apply wbind_Ok in Hk as (data & w2 & Hma & Hk). apply wrapf_Ok in Hma. injection Hma as <- Hma.
  apply wbind_Ok in Hk as (v & w2 & Hv & Hk). apply wrapf_Ok in Hv. injection Hv as <- Hv.
  apply wbind_Ok in Hk as (u & w2 & [(rev & -> & Hu)|(er & -> & Hu)]%wtry_Ok & Hk);
    injection Hk as <- <-; apply nats_Update_law in Hu; [|destruct Hu; by etrans].
  destruct Hu as (d & t & Hs2 & Hlast & Hdb & ->).
  apply GetToken_inv in Hg as (e & t00 & m & now & wa & wb & Ha & Hl & Hun & Hmeta & Hnow & -> & Hb & Hpos & ->).
  exists e, now, wa, w1, d. split; [done|]. split; [done|]. split; [by etrans|]. split; [done|].
  assert (nats_wf (nats_db wa)) as Hwa by (by eapply nats_steps_wf).
  pose proof Hl as [Hle _]%live_last. destruct (Hwa toks) as [_ Hka]. destruct (Hka _ _ Hle) as [Hrev _].
  destruct (Hm _ _ Hmu) as [_ Hver]. rewrite Hver in Hv.
  change (ParseUint (Sprint (en_Revision e)) = Ok v) in Hv.
  apply ParseUint_Sprint_Ok in Hv as ->; [|lia].
  assert (btm_Ttl (token_meta t00) = btm_Ttl m) as Ettl by (unfold token_meta; by rewrite Hmeta).
  exists t00, t1, data, t. rewrite Ettl. split; [|done].
  eapply revision_unique; [exact Hwa|by etrans|done|done].
Qed.

Lemma patched_ttl_left now created ttl :
  in_int64 (Unix now - Unix created) -> in_int64 (ttl - (Unix now - Unix created)) ->
  patched_ttl now created ttl = Z.max 0 (ttl - (Unix now - Unix created)).
Proof.
  intros H1 H2. unfold patched_ttl. rewrite (wrap64_id _ H1), (wrap64_id _ H2).
  destruct (_ <? 0)%Z eqn:E; [apply Z.ltb_lt in E|apply Z.ltb_ge in E]; lia.
Qed.

(** The second the life of an entry's token is over. *)
Definition expires (e : KeyValueEntry) : option Z :=
  match Unmarshal (en_Value e) with
  | Ok t => Some (Unix (en_Created e) + btm_Ttl (token_meta t))%Z
  | _ => None
  end.

(** UpdateToken keeps a token's expiry and revives no expired token.  The
    lifetime it writes is the one the clock left when it read the token, and the
    entry it replaces is the one it read, so the expiry moves by exactly the time
    between the reading of the clock and the write, as long as the times fit an
    int64. *)
Lemma jet_UpdateToken_keeps_expiry (attempts : nat) (ref : Reference)
    (mutator : MutatorFunc BootstrapToken) (w w' : W) (tok : BootstrapToken) :
  nats_wf (nats_db w) -> keeps_lifetime mutator ->
  UpdateToken BucketPrefix attempts ref mutator w = (w', Ok tok) ->
  exists e e' now w1 w2 d x x',
    nats_steps (nats_db w) (nats_db w1) /\ nats_steps (nats_db w1) d /\
    time_Now w1 = (w2, Ok now) /\
    live d toks (ref_Id ref) = Some e /\ live (nats_db w') toks (ref_Id ref) = Some e' /\
    token_committed ref mutator e now d (nats_db w') tok /\
    expires e = Some x /\ expires e' = Some x' /\
    (in_int64 (Unix now - Unix (en_Created e)) -> in_int64 (x - Unix now) ->
     Unix now < x /\ x' - x = Unix (en_Created e') - Unix now)%Z.
Proof.
  intros Hw Hm (w0 & Hs & Hw0 & E)%backoff_loop_inv; [|done|].
  2: { intros y z e Hy He. exact (update_token_once_inv _ _ _ _ _ Hy Hm He). }
  apply update_token_once_inv in E as (e & now & w1 & w2 & d & Hnow & Ha & Hb & _ & Hc); [|done|done].
  pose proof Hc as (t0 & t1 & data & t & Hl & Hu & Hpos & Hmu & Hma & Hdb & _).
  destruct (Hm _ _ Hmu) as [Httl _]. cbn in Httl.
  eexists e, (new_entry d toks (ref_Id ref) data KeyValuePut t), now, w1, w2, d, _, _.
  split; [by etrans|]. split; [done|]. split; [done|]. split; [done|].
  split; [rewrite Hdb; unfold nb_put; rewrite live_write, !decide_True by done; done|].
  split; [done|]. unfold expires. rewrite Hu. split; [done|]. cbn.
  rewrite (Unmarshal_Marshal _ _ Hma). split; [done|].
  intros H1 H2. rewrite patched_ttl_left in Httl, Hpos.
  - rewrite Httl. lia.
  - done.
  - by replace (btm_Ttl (token_meta t0) - (Unix now - Unix (en_Created e)))%Z
      with (Unix (en_Created e) + btm_Ttl (token_meta t0) - Unix now)%Z by lia.
  - done.
  - by replace (btm_Ttl (token_meta t0) - (Unix now - Unix (en_Created e)))%Z
      with (Unix (en_Created e) + btm_Ttl (token_meta t0) - Unix now)%Z by lia.
Qed.
End TokenProps.

(** ** The key-value store *)

Section KVProps.
Context {W : Type} `{NatsClient W}.

Definition nats_view (kv : string) (d : NatsDb) (key : string) : option string :=
  en_Value <$> live d kv key.

Lemma nats_view_write_ne kv d k v op t j : j <> k -> nats_view kv (nb_write d kv k v op t) j = nats_view kv d j.
Proof. intros Hj. unfold nats_view. by rewrite live_write, decide_False by naive_solver. Qed.

Lemma kv_get_inv kv k w w' o :
  wcatch (nats_Get kv k) (fun e => if errors_Is e nats_ErrKeyNotFound then wfail ErrNotFound else wfail e) w
    = (w', o) ->
  nats_steps (nats_db w) (nats_db w') /\
  match o with
  | Ok e => live (nats_db w') kv k = Some e
  | Err e => e = ErrNotFound -> live (nats_db w') kv k = None
  | Panic _ => False
  end.
Proof.
  unfold wcatch. destruct (nats_Get kv k w) as [w1 o1] eqn:E. apply nats_Get_law in E as [Hs Ho].
  destruct o1 as [e|e|p]; [| |done].
  - intros [= <- <-]. by destruct Ho.
  - destruct Ho as [[Hf _] Hn]. destruct (errors_Is e nats_ErrKeyNotFound); intros [= <- <-].
    + auto.
    + split; [done|]. intros ->. by rewrite errors_Is_refl in Hf.
Qed.

(** The JetStream key-value store implements the same contract as the etcd
    one: a value that was put is the value its key has, a call changes the record
    of its own key only, a successful get returns the value of that moment, and
    not-found is answered exactly about a missing key. *)
Lemma jet_kv_linearizable (kv : string) :
  LinearKV (jetstreamKeyValueStore (W := W) kv) nats_db nats_steps (fun key => key) (nats_view kv)
    (fun _ => True).
Proof.
  split; cbn.
  - intros w w' k v _ (rev & w1 & Hp & Hr)%wbind_Ok. injection Hr as <-.
    apply nats_Put_law in Hp as (d & t & Hs & Hdb & _). exists d. rewrite Hdb. split; [done|]. split.
    + unfold nats_view, nb_put. by rewrite live_write, !decide_True by done.
    + intros j Hj. by apply nats_view_write_ne.
  - intros w w' k v (e & w1 & [Hs Hl]%kv_get_inv & Hr)%wbind_Ok. injection Hr as <- <-.
    split; [done|]. unfold nats_view. by rewrite Hl.
  - intros w w' k [(e & w1 & _ & ?)|[(e & [Hs Hl]%kv_get_inv & [= <-])|(p & _ & ?)]]%wbind_inv; [done| |done].
    split; [done|]. unfold nats_view. by rewrite Hl.
  - intros w w' k (u & w1 & Hg & Hd)%wbind_Ok. apply nats_Delete_law in Hd as (d & t & Hs & Hdb).
    exists d. split.
    + etrans; [|done]. revert Hg. unfold wbind, wcatch, wret.
      destruct (nats_Get kv k w) as [w2 o2] eqn:E. apply nats_Get_law in E as [Hs2 _].
      destruct o2 as [e|e|p]; [|by destruct (errors_Is _ _)|done]. by intros [= <- _].
    + rewrite Hdb. split; [|intros j Hj; by apply nats_view_write_ne].
      unfold nats_view, nb_delete. by rewrite live_write, decide_True, decide_False by done.
  - intros w w' k Hg. exists (nats_db w').
    apply wbind_inv in Hg as [(u & w1 & _ & Hd)|[(e & Hg & [= <-])|(p & _ & ?)]]; [| |done].
    + apply nats_Delete_law in Hd as (_ & Hf & _). by rewrite errors_Is_refl in Hf.
    + assert (wcatch (nats_Get kv k)
        (fun e => if errors_Is e nats_ErrKeyNotFound then wfail ErrNotFound else wfail e) w
        = (w', Err ErrNotFound)) as Hg'.
      { revert Hg. unfold wbind, wcatch, wret. destruct (nats_Get kv k w) as [w2 [e|e|p]]; [done| |done].
        destruct (errors_Is e _); unfold wfail; intros; by simplify_eq. }
      apply kv_get_inv in Hg' as [Hs Hl]. split; [done|]. split; [|done].
      unfold nats_view. by rewrite Hl.
Qed.
End KVProps.

(** ** WatchClusters follows the bucket *)

Section WatchProps.
Context `{!ProtoJSON Cluster}.
Variable b : string.

Notation KnownMap := (gmap string Cluster).

(** What a receiver of the events holds. *)
Definition apply_event (m : KnownMap) (e : WatchEvent Cluster) : KnownMap :=
  match we_EventType e, we_Current e, we_Previous e with
  | WatchEventDelete, _, Some p => delete (cl_Id p) m
  | WatchEventDelete, _, None => m
  | _, Some c, _ => <[cl_Id c := c]> m
  | _, None, _ => m
  end.
Definition replay (m : KnownMap) (evs : list (WatchEvent Cluster)) : KnownMap := fold_left apply_event evs m.

(** The clusters of the bucket. *)
Definition decode_live (e : KeyValueEntry) : option Cluster := if is_put e then decode e else None.
Definition cluster_view (d : NatsDb) : KnownMap := omap decode_live (bk_last (bucket d b)).

(** The writes that follow a state of the bucket, as a watcher sees them. *)
Inductive history : NatsDb -> list KeyValueEntry -> NatsDb -> Prop :=
| history_nil d : history d [] d
| history_other d d' us b' k v op t :
    b' <> b -> history (nb_write d b' k v op t) us d' -> history d us d'
| history_write d d' us k v op t :
    history (nb_write d b k v op t) us d' -> history d (new_entry d b k v op t :: us) d'.

Lemma history_app d us d1 us' d2 : history d us d1 -> history d1 us' d2 -> history d (us ++ us') d2.
Proof.
  intros H1 H2. induction H1; cbn; [done|eapply history_other; eauto|apply history_write; eauto].
Qed.

(** The values are clusters stored under their id, and nothing was purged. *)
Definition entry_ok (e : KeyValueEntry) : Prop :=
  match en_Operation e with
  | KeyValuePut => exists c, decode e = Some c /\ cl_Id c = en_Key e
  | KeyValueDelete => True
  | KeyValuePurge => False
  end.

(** The writes on the clusters alone; [None] when a key without a value is
    deleted. *)
Definition run_write (m : KnownMap) (e : KeyValueEntry) : option KnownMap :=
  match decode_live e with
  | Some c => Some (<[en_Key e := c]> m)
  | None => if decide (is_Some (m !! en_Key e)) then Some (delete (en_Key e) m) else None
  end.
Fixpoint run_writes (m : KnownMap) (us : list KeyValueEntry) : option KnownMap :=
  match us with
  | [] => Some m
  | e :: us => m' ← run_write m e; run_writes m' us
  end.

(** The known clusters carry their id, in the map and out of it. *)
Definition ids_ok (m : KnownMap) : Prop := forall k c, m !! k = Some c -> cl_Id c = k.

Lemma cluster_view_lookup d k : cluster_view d !! k = (e ← last_entry d b k; decode_live e).
Proof. unfold cluster_view. by rewrite lookup_omap. Qed.

Lemma decode_put e c : en_Operation e = KeyValuePut -> decode e = Some c ->
  translateClusterWatchEvent e = Ok (Some (mkWatchEvent WatchEventUpdate (Some c) None)).
Proof.
  intros Ho Hd. unfold translateClusterWatchEvent, decode in *. rewrite Ho.
  destruct (Unmarshal _); [by injection Hd as ->|done|done].
Qed.

Lemma live_event_write m e :
  ids_ok m -> entry_ok e ->
  match run_write m e with
  | Some m' => ids_ok m' /\ exists ev, live_event m e = Ok (m', [ev]) /\ apply_event m ev = m'
  | None => exists p, live_event m e = Panic p
  end.
Proof.
  intros Hm He. unfold entry_ok in He. unfold run_write, decode_live, is_put.
  destruct (en_Operation e) eqn:Eo; [| |done].
  - rewrite bool_decide_eq_true_2 by done. destruct He as (c & Hc & Hid). rewrite Hc. split.
    + intros k c'. rewrite lookup_insert. case_decide; [|by apply Hm]. intros [= <-]. congruence.
    + unfold live_event. rewrite (decode_put _ _ Eo Hc). cbn. rewrite Hid.
      destruct (m !! en_Key e); eexists; (split; [done|]); cbn; by rewrite Hid.
  - rewrite bool_decide_eq_false_2 by done. unfold live_event, translateClusterWatchEvent.
    rewrite Eo. cbn. destruct (m !! en_Key e) as [prev|] eqn:Ek.
    + rewrite decide_True by eauto. pose proof (Hm _ _ Ek) as Hid. rewrite Hid. split.
      * intros k c' [_ Hk]%lookup_delete_Some. by apply Hm.
      * eexists. split; [done|]. cbn. by rewrite Hid.
    + rewrite decide_False by (by intros [? ?]). eauto.
Qed.

Lemma live_phase us m :
  ids_ok m -> Forall entry_ok us ->
  match run_writes m us with
  | Some m' => exists evs, watch_phase live_event m us = Ok (m', evs) /\ replay m evs = m'
  | None => exists p, watch_phase live_event m us = Panic p
  end.
Proof.
  intros Hm Hus. revert m Hm. induction Hus as [|e us He _ IH]; intros m Hm; cbn; [by exists []|].
  pose proof (live_event_write m e Hm He) as Hw. destruct (run_write m e) as [m1|]; cbn.
  - destruct Hw as (Hm1 & ev & Hl & Ha). specialize (IH m1 Hm1). rewrite Hl. cbn.
    destruct (run_writes m1 us) as [m'|].
    + destruct IH as (evs & Hp & Hr). rewrite Hp. cbn. eexists. split; [done|]. cbn. by rewrite Ha.
    + destruct IH as [p Hp]. rewrite Hp. by exists p.
  - destruct Hw as [p ->]. by exists p.
Qed.

(** The clusters of the bucket change as the writes say. *)
Lemma history_run d us d' m' :
  history d us d' -> Forall entry_ok us -> run_writes (cluster_view d) us = Some m' ->
  m' = cluster_view d'.
Proof.
  induction 1 as [d|d d' us b' k v op t Hb Hh IH|d d' us k v op t Hh IH]; intros Hus Hr.
  - by injection Hr as <-.
  - apply IH; [done|]. rewrite <- Hr. f_equal. apply map_eq. intros k'.
    rewrite !cluster_view_lookup, last_entry_write, decide_False by naive_solver. done.
  - apply Forall_cons in Hus as [He Hus]. cbn in Hr. apply bind_Some in Hr as (m1 & H1 & Hr).
    apply IH; [done|]. rewrite <- Hr. f_equal. apply map_eq. intros k'.
    rewrite cluster_view_lookup, last_entry_write. unfold run_write in H1. cbn in H1.
    destruct (decode_live _) as [c|] eqn:Ec.
    + injection H1 as <-. rewrite lookup_insert. destruct (decide (k = k')) as [->|Hk].
      * rewrite decide_True by done. cbn. congruence.
      * rewrite decide_False by naive_solver. by rewrite cluster_view_lookup.
    + case_decide; [|done]. injection H1 as <-. rewrite lookup_delete.
      destruct (decide (k = k')) as [->|Hk].
      * rewrite decide_True by done. cbn. congruence.
      * rewrite decide_False by naive_solver. by rewrite cluster_view_lookup.
Qed.

(** The clusters the caller knows were read from the bucket: their keys still have
    a value, and an unchanged version is an unchanged cluster. *)
Definition known_ok (known : KnownMap) (d : NatsDb) : Prop :=
  ids_ok known /\
  forall id c, known !! id = Some c -> exists e, live d b id = Some e /\
    (Clus.GetResourceVersion c = Sprint (en_Revision e) -> decode e = Some c).

Definition insert_live (m : KnownMap) (e : KeyValueEntry) : KnownMap :=
  match decode_live e with Some c => <[en_Key e := c]> m | None => m end.

Lemma decode_version e c : decode e = Some c -> Clus.GetResourceVersion c = Sprint (en_Revision e).
Proof. unfold decode. destruct (Unmarshal _); by intros [= <-]. Qed.

(** One initial value. *)
Lemma initial_event_step m e :
  ids_ok m -> entry_ok e ->
  (forall c, is_put e = true -> m !! en_Key e = Some c ->
     Clus.GetResourceVersion c = Sprint (en_Revision e) -> decode e = Some c) ->
  ids_ok (insert_live m e) /\
  exists evs, initial_event m e = Ok (insert_live m e, evs) /\ replay m evs = insert_live m e.
Proof.
  intros Hm He Hk. unfold entry_ok in He. unfold initial_event, insert_live, decode_live, is_put in *.
  destruct (en_Operation e) eqn:Eo; [| |done].
  - rewrite bool_decide_eq_true_2 in * by done. destruct He as (c & Hc & Hid). rewrite Hc.
    rewrite decide_False by done. rewrite (decode_put _ _ Eo Hc). cbn. rewrite Hid. split.
    + intros k c'. rewrite lookup_insert. case_decide; [|by apply Hm]. intros [= <-]. congruence.
    + destruct (m !! en_Key e) as [kc|] eqn:Ek.
      * case_decide as Ev.
        { exists []. rewrite (decode_version _ _ Hc) in Ev.
          pose proof (Hk kc eq_refl eq_refl Ev) as Hkc. rewrite Hc in Hkc. injection Hkc as ->.
          rewrite insert_id by done. done. }
        { eexists. split; [done|]. cbn. by rewrite Hid. }
      * eexists. split; [done|]. cbn. by rewrite Hid.
  - rewrite bool_decide_eq_false_2 by done. rewrite decide_True by done. split; [done|].
    by exists [].
Qed.

Lemma initial_phase us m :
  ids_ok m -> Forall entry_ok us -> NoDup (en_Key <$> us) ->
  (forall e c, e ∈ us -> is_put e = true -> m !! en_Key e = Some c ->
     Clus.GetResourceVersion c = Sprint (en_Revision e) -> decode e = Some c) ->
  ids_ok (fold_left insert_live us m) /\
  exists evs, watch_phase initial_event m us = Ok (fold_left insert_live us m, evs) /\
    replay m evs = fold_left insert_live us m.
Proof.
  intros Hm Hus. revert m Hm. induction Hus as [|e us He _ IH]; intros m Hm Hnd Hk; cbn.
  - split; [done|]. by exists [].
  - cbn in Hnd. apply list.NoDup_cons in Hnd as [Hne Hnd].
    destruct (initial_event_step m e Hm He) as (Hm1 & evs1 & He1 & Hr1).
    { intros c. apply Hk. by left. }
    destruct (IH (insert_live m e) Hm1 Hnd) as (Hm2 & evs2 & He2 & Hr2).
    { intros e' c He' Hp Hl. apply (Hk e' c); [by right|done|].
      unfold insert_live in Hl. destruct (decode_live e); [|done].
      rewrite lookup_insert_ne in Hl; [done|]. intros E. apply Hne. rewrite E.
      by apply list_elem_of_fmap_2. }
    split; [done|]. rewrite He1. cbn. rewrite He2. cbn. eexists. split; [done|].
    unfold replay in *. by rewrite fold_left_app, Hr1.
Qed.

Lemma fold_insert_live us m k :
  NoDup (en_Key <$> us) ->
  fold_left insert_live us m !! k =
  match list_find (fun e => en_Key e = k) us with
  | Some (_, e) => match decode_live e with Some c => Some c | None => m !! k end
  | None => m !! k
  end.
Proof.
  revert m. induction us as [|e us IH]; intros m Hnd; cbn; [done|].
  cbn in Hnd. apply list.NoDup_cons in Hnd as [Hne Hnd]. rewrite IH by done.
  unfold insert_live at 1 2. destruct (decide (en_Key e = k)) as [Ek|Ek].
  - assert (list_find (fun e0 => en_Key e0 = k) us = None) as ->.
    { apply list_find_None. apply list.Forall_forall. intros e' He' <-. apply Hne.
      rewrite Ek. by apply list_elem_of_fmap_2. }
    subst k. destruct (decode_live e); [by rewrite lookup_insert_eq|done].
  - assert ((match decode_live e with Some c => <[en_Key e := c]> m | None => m end) !! k = m !! k) as Em
      by (destruct (decode_live e); [by rewrite lookup_insert_ne|done]).
    destruct (list_find _ us) as [[i e']|]; cbn; by rewrite Em.
Qed.

Lemma snapshot_spec d e : e ∈ snapshot false d b <-> exists k, last_entry d b k = Some e.
Proof.
  unfold snapshot. rewrite merge_sort_Permutation. rewrite list_elem_of_filter, list_elem_of_fmap. split.
  - intros (_ & [k e'] & -> & Hk%elem_of_map_to_list). by exists k.
  - intros (k & Hk). split; [done|]. exists (k, e). split; [done|]. by apply elem_of_map_to_list.
Qed.

Lemma snapshot_keys d : nats_wf d -> NoDup (en_Key <$> snapshot false d b).
Proof.
  intros Hw. unfold snapshot.
  rewrite merge_sort_Permutation.
  assert (forall l, filter (fun e => negb false || is_put e = true) l = l) as ->.
  { induction l as [|x l IH]; [done|]. rewrite filter_cons_True by done. by rewrite IH. }
  rewrite <- list_fmap_compose.
  assert ((en_Key ∘ snd) <$> map_to_list (bk_last (bucket d b)) = fst <$> map_to_list (bk_last (bucket d b)))
    as ->; [|apply NoDup_fst_map_to_list].
  apply list_fmap_ext. intros i [k e] Hi. cbn. destruct (Hw b) as [_ Hk].
  apply (Hk k e). apply elem_of_map_to_list. by eapply list_elem_of_lookup_2.
Qed.

Lemma initial_phase_view known d :
  nats_wf d -> known_ok known d -> (forall k e, last_entry d b k = Some e -> entry_ok e) ->
  fold_left insert_live (snapshot false d b) known = cluster_view d.
Proof.
  intros Hw [_ Hk] Hok. apply map_eq. intros k.
  rewrite fold_insert_live by by apply snapshot_keys. rewrite cluster_view_lookup.
  assert (known !! k = None \/ exists e, live d b k = Some e) as Hkn.
  { destruct (known !! k) eqn:E; [|by left]. destruct (Hk _ _ E) as (e & ? & _). right. eauto. }
  destruct (list_find _ _) as [[i e]|] eqn:Ef.
  - apply list_find_Some in Ef as (Hi & Hek & _). apply list_elem_of_lookup_2 in Hi.
    apply snapshot_spec in Hi as (k' & Hk'). destruct (Hw b) as [_ Hkey].
    destruct (Hkey _ _ Hk') as [_ Ek']. assert (k' = k) as -> by congruence. rewrite Hk'. cbn.
    destruct (decode_live e) as [c|] eqn:Ec; [done|]. destruct Hkn as [?|(e' & Hl)]; [done|].
    apply live_last in Hl as [Hl Hp]. assert (e' = e) as -> by congruence.
    specialize (Hok _ _ Hk'). unfold entry_ok in Hok. rewrite Hp in Hok. destruct Hok as (c & Hc & _).
    unfold decode_live, is_put in Ec. rewrite bool_decide_eq_true_2 in Ec by done. congruence.
  - apply list_find_None in Ef. assert (last_entry d b k = None) as El.
    { destruct (last_entry d b k) as [e|] eqn:El; [|done]. destruct (Hw b) as [_ Hkey].
      destruct (Hkey _ _ El) as [_ Ek]. rewrite list.Forall_forall in Ef.
      exfalso. apply (Ef e); [|done]. apply snapshot_spec. by exists k. }
    rewrite El. cbn. destruct Hkn as [?|(e' & Hl)]; [done|].
    apply live_last in Hl as [Hl _]. congruence.
Qed.

Lemma known_map_ids cs : ids_ok (known_map cs).
Proof.
  unfold known_map. assert (forall m, ids_ok m -> ids_ok (fold_left (fun m c => <[cl_Id c := c]> m) cs m)) as Hg;
    [|by apply Hg]. induction cs as [|c cs IH]; intros m Hm; [done|]. cbn. apply IH.
  intros k c'. rewrite lookup_insert. case_decide; [|by apply Hm]. by intros [= <-].
Qed.

(** The two phases together. *)
Lemma WatchClusters_run (knownClusters : list Cluster) (d d' : NatsDb) (updates : list KeyValueEntry) :
  nats_wf d -> known_ok (known_map knownClusters) d ->
  (forall k e, last_entry d b k = Some e -> entry_ok e) ->
  history d updates d' -> Forall entry_ok updates ->
  match run_writes (cluster_view d) updates with
  | Some m => m = cluster_view d' /\ exists evs n,
      WatchClusters knownClusters (snapshot false d b) updates = Ok (m, evs, n) /\
      replay (known_map knownClusters) evs = m
  | None => exists p, WatchClusters knownClusters (snapshot false d b) updates = Panic p
  end.
Proof.
  intros Hw Hk Hok Hh Hus. unfold WatchClusters.
  destruct (initial_phase (snapshot false d b) (known_map knownClusters)) as (Hids & evs1 & He1 & Hr1).
  - apply known_map_ids.
  - apply list.Forall_forall. intros e (k & He)%snapshot_spec. eauto.
  - by apply snapshot_keys.
  - intros e c (k & He)%snapshot_spec Hp Hl Hv. destruct Hk as [_ Hk].
    destruct (Hk _ _ Hl) as (e' & [Hl' _]%live_last & Hd). destruct (Hw b) as [_ Hkey].
    destruct (Hkey _ _ He) as [_ Ek]. rewrite Ek in Hl'. assert (e' = e) as -> by congruence. auto.
  - rewrite (initial_phase_view _ _ Hw Hk Hok) in He1, Hr1, Hids. rewrite He1. cbn.
    pose proof (live_phase updates (cluster_view d) Hids Hus) as Hlive.
    destruct (run_writes _ _) as [m|] eqn:Er.
    + destruct Hlive as (evs2 & He2 & Hr2). rewrite He2. cbn.
      split; [by eapply history_run|]. eexists _, _. split; [done|].
      unfold replay in *. by rewrite fold_left_app, Hr1.
    + destruct Hlive as [p Hp]. rewrite Hp. by exists p.
Qed.

(** C14: WatchClusters keeps its receiver in step with the bucket.  Provided that the
    clusters the caller knows are still in the bucket when the watch starts, that every
    value decodes and no key is purged, and as long as no key without a value is
    deleted while the watch lasts, replaying the events over the clusters the caller
    knew gives exactly the clusters of the bucket at the end. *)
Theorem WatchClusters_follows_bucket (knownClusters : list Cluster) (d d' : NatsDb)
    (updates : list KeyValueEntry) :
  nats_wf d -> known_ok (known_map knownClusters) d ->
  (forall k e, last_entry d b k = Some e -> entry_ok e) ->
  history d updates d' -> Forall entry_ok updates ->
  run_writes (cluster_view d) updates <> None ->
  exists known evs n,
    WatchClusters knownClusters (snapshot false d b) updates = Ok (known, evs, n) /\
    known = cluster_view d' /\ replay (known_map knownClusters) evs = cluster_view d'.
Proof.
  intros Hw Hk Hok Hh Hus Hr. pose proof (WatchClusters_run _ _ _ _ Hw Hk Hok Hh Hus) as Hrun.
  destruct (run_writes _ _) as [m|]; [|done]. destruct Hrun as (-> & evs & n & He & Hrep).
  by exists (cluster_view d'), evs, n.
Qed.

(** A cluster that is deleted twice crashes every gateway that watches the
    clusters: the goroutine of WatchClusters dereferences the nil it finds for a
    key it no longer knows.  Two DeleteCluster calls that overlap do this, as the
    check for the cluster and its deletion are separate calls. *)
Lemma double_delete_crashes_watch (knownClusters : list Cluster) (d d1 d2 : NatsDb)
    (us us' : list KeyValueEntry) (id : string) (t : Time) :
  nats_wf d -> known_ok (known_map knownClusters) d ->
  (forall k e, last_entry d b k = Some e -> entry_ok e) ->
  history d us d1 -> Forall entry_ok us -> run_writes (cluster_view d) us <> None ->
  live d1 b id = None ->
  history (nb_delete d1 b id t) us' d2 -> Forall entry_ok us' ->
  exists p, WatchClusters knownClusters (snapshot false d b)
              (us ++ new_entry d1 b id "" KeyValueDelete t :: us') = Panic p.
Proof.
  intros Hw Hk Hok Hh Hus Hr Hl Hh' Hus'.
  pose proof (WatchClusters_run knownClusters d d2 (us ++ new_entry d1 b id "" KeyValueDelete t :: us')
    Hw Hk Hok) as Hrun.
  destruct (run_writes (cluster_view d) us) as [m|] eqn:Em; [|done].
  pose proof (history_run _ _ _ _ Hh Hus Em) as ->.
  assert (run_writes (cluster_view d) (us ++ new_entry d1 b id "" KeyValueDelete t :: us') = None) as Hn.
  { revert Em. generalize (cluster_view d) as m0. clear - Hl.
    induction us as [|u us IH]; intros m0; cbn.
    - intros [= ->]. unfold run_write. cbn. rewrite decide_False; [done|].
      rewrite cluster_view_lookup. intros [c Hc]. apply bind_Some in Hc as (e & He & Hc).
      unfold live in Hl. rewrite He in Hl. cbn in Hl. unfold decode_live in Hc.
      destruct (is_put e); done.
    - destruct (run_write m0 u); cbn; [apply IH|done]. }
  rewrite Hn in Hrun. apply Hrun.
  - eapply history_app; [done|]. by constructor.
  - apply Forall_app. split; [done|]. by constructor.
Qed.
End WatchProps.

(** ** What the backend does differently *)

(** An id may hold parentheses, and start or end with a dot; the keys of NATS may
    not, so such a cluster passes validation and can never be stored. *)
Lemma valid_ids_that_cannot_be_stored {W} `{NatsClient W} `{!ProtoJSON Cluster} BucketPrefix now id m w w' c o :
  keyValid id = false ->
  CreateCluster BucketPrefix now (mkCluster id m) w = (w', (c, o)) -> o <> Ok tt.
Proof.
  intros Hv. unfold CreateCluster. destruct (Marshal _); [|by intros [= <- <- <-]|by intros [= <- <- <-]].
  cbn [cl_Id Clus.SetCreationTimestamp Clus.SetResourceVersion with_cluster_meta].
  destruct (nats_Create _ _ _ w) as [w1 [rev|e|p]] eqn:E; intros Hc Ho; subst o.
  - apply nats_Create_law in E as [Hk _]. congruence.
  - destruct (errors_Is _ _); by injection Hc.
  - by injection Hc.
Qed.

Example parentheses_are_valid : ValidateID "a(b)" = Ok tt /\ keyValid "a(b)" = false /\
  ValidateID ".a" = Ok tt /\ keyValid ".a" = false.
Proof. vm_compute. auto. Qed.

(** Different prefixes can name the same bucket. *)
Example prefixes_that_share_a_bucket :
  sanitize "a/b" = sanitize "a-b" /\ sanitize "a.b" = sanitize "a_b".
Proof. vm_compute. auto. Qed.

(** ** Witnesses on the reference client *)

Lemma pair_with_result {A B} (p : A * B) b : p.2 = b -> p = (p.1, b).
Proof. by destruct p as [? ?]; intros <-. Qed.

Definition quiet_nats (d : NatsDb) : RefNats := mkRefNats d 1000%Z [].

Definition nats_wf_check (d : NatsDb) : bool :=
  forallb (fun p : string * Bucket =>
    (0 <=? bk_seq p.2)%Z &&
    forallb (fun q : string * KeyValueEntry =>
      ((0 <? en_Revision q.2) && (en_Revision q.2 <=? bk_seq p.2))%Z && bool_decide (en_Key q.2 = q.1))
      (map_to_list (bk_last p.2))) (map_to_list d).

Lemma nats_wf_check_sound d : nats_wf_check d = true -> nats_wf d.
Proof.
  unfold nats_wf_check. rewrite forallb_elem. intros Hc b. unfold bucket.
  destruct (d !! b) as [bk|] eqn:Eb; cbn.
  2: { split; cbn; [lia|]. intros k e He. by rewrite lookup_empty in He. }
  apply elem_of_map_to_list in Eb. specialize (Hc _ Eb). cbn in Hc.
  rewrite andb_true_iff, forallb_elem, Z.leb_le in Hc. destruct Hc as [H0 Hk]. split; [done|].
  intros k e He%elem_of_map_to_list. specialize (Hk _ He). cbn in Hk.
  rewrite !andb_true_iff, Z.ltb_lt, Z.leb_le, bool_decide_eq_true in Hk. tauto.
Qed.

Definition jet_demo : Cluster := mkCluster "c1" (Some (mkClusterMetadata {[ "env" := "prod" ]} [] "" None None)).
Definition jet_demo_db : NatsDb := rn_db (CreateCluster "gateway" 1500000000%Z jet_demo (quiet_nats ∅)).1.

(** Another client labels the cluster between the read and the write of the first
    attempt. *)
Definition jet_contended : RefNats :=
  mkRefNats jet_demo_db 1000%Z
    [(0%Z, []); (5%Z, match Marshal (Clus.SetLabels {[ "team" := "a" ]} jet_demo) with
              | Ok s => [NatsEnvPut "gateway-clusters" "c1" s]
              | _ => []
              end)].

(** The first attempt failed, the second one applied the mutator to the labelled
    cluster; with one attempt the update fails. *)
Example jet_UpdateCluster_demo :
  match UpdateCluster "gateway" 3 (mkReference "c1") (NewAddCapabilityMutator metrics_capability) jet_contended with
  | (_, Ok c) =>
      (Clus.GetLabels c !! "team", cc_Name <$> Clus.GetCapabilities c, Clus.GetResourceVersion c)
      = (Some "a", ["metrics"], "3")
  | _ => False
  end /\
  is_Ok (UpdateCluster "gateway" 1 (mkReference "c1")
           (NewAddCapabilityMutator metrics_capability) jet_contended).2 = false.
Proof. vm_compute. auto. Qed.

Definition jet_token : BootstrapToken :=
  mkBootstrapToken "ab" "cd" (Some (mkBootstrapTokenMetadata (-1) 60 0 ∅ [] "")).

(** The token was stored at second 0; 20 seconds pass before it is read, and 5
    more before the clock is read again for the write. *)
Definition jet_token_world : RefNats :=
  mkRefNats (match Marshal jet_token with Ok s => nb_put ∅ "gateway-tokens" "ab" s 0%Z | _ => ∅ end) 0%Z
    [(20000000000%Z, []); (0%Z, []); (5000000000%Z, [])].

Lemma increment_keeps_lifetime : keeps_lifetime NewIncrementUsageCountMutator.
Proof.
  intros t t'. unfold NewIncrementUsageCountMutator, Token.GetResourceVersion, token_meta.
  destruct (bt_Metadata t) as [m|]; [|done]. by intros [= <-].
Qed.

(** 40 of the 60 seconds were left at the reading; the write came 5 seconds later,
    so the token now ends at second 65 instead of second 60. *)
Example jet_UpdateToken_demo :
  match UpdateToken "gateway" 1 (mkReference "ab") NewIncrementUsageCountMutator jet_token_world with
  | (w, Ok t) => btm_Ttl (token_meta t) = 40%Z /\
      (live (rn_db w) "gateway-tokens" "ab" ≫= expires) = Some 65%Z
  | _ => False
  end.
Proof. vm_compute. auto. Qed.

(** Two deletions of the cluster overlap: the other one comes between the check
    and the deletion of this one, and both succeed. *)
Definition jet_racing : RefNats :=
  mkRefNats jet_demo_db 1000%Z [(0%Z, []); (0%Z, [NatsEnvDelete "gateway-clusters" "c1"])].

Definition entry_okb (e : KeyValueEntry) : bool :=
  match en_Operation e with
  | KeyValuePut => match decode e with Some c => bool_decide (cl_Id c = en_Key e) | None => false end
  | KeyValueDelete => true
  | KeyValuePurge => false
  end.

Lemma entry_okb_sound e : entry_okb e = true -> entry_ok e.
Proof.
  unfold entry_okb, entry_ok. destruct (en_Operation e); [|done|done].
  destruct (decode e) as [c|]; [|done]. intros ?%bool_decide_eq_true. by exists c.
Qed.

Lemma bucket_ok_check d b :
  forallb (fun p => entry_okb p.2) (map_to_list (bk_last (bucket d b))) = true ->
  forall k e, last_entry d b k = Some e -> entry_ok e.
Proof.
  rewrite forallb_elem. intros Hc k e He. unfold last_entry in He. apply elem_of_map_to_list in He. by apply entry_okb_sound, (Hc _ He).
Qed.

Lemma nothing_known b d : known_ok b (known_map []) d.
Proof. split; intros k c Hk; by unfold known_map in Hk; cbn in Hk; rewrite lookup_empty in Hk. Qed.

Definition jet_deleted_once : NatsDb := nb_delete jet_demo_db "gateway-clusters" "c1" 1000%Z.

Lemma WatchClusters_follows_bucket_witness :
  exists known evs n,
    WatchClusters [] (snapshot false jet_demo_db "gateway-clusters")
      [new_entry jet_demo_db "gateway-clusters" "c1" "" KeyValueDelete 1000%Z] = Ok (known, evs, n) /\
    known = cluster_view "gateway-clusters" jet_deleted_once /\
    replay (known_map []) evs = cluster_view "gateway-clusters" jet_deleted_once.
Proof.
  apply (WatchClusters_follows_bucket "gateway-clusters" [] jet_demo_db jet_deleted_once).
  - by apply nats_wf_check_sound; vm_compute.
  - apply nothing_known.
  - apply bucket_ok_check. vm_compute. reflexivity.
  - constructor. constructor.
  - by repeat constructor.
  - vm_compute. discriminate.
Defined.

(** A cluster the caller knows that was deleted before the watch started is never
    reported as deleted. *)
Example deleted_before_the_watch :
  match WatchClusters [jet_demo] (snapshot false jet_deleted_once "gateway-clusters") [] with
  | Ok (_, evs, _) => evs = []
  | _ => False
  end.
Proof. vm_compute. reflexivity. Qed.

(** WatchCluster reports it as updated, without a current value. *)
Example deleted_before_WatchCluster :
  let c := Clus.SetResourceVersion "1" jet_demo in
  WatchCluster c (map Some (snapshot false jet_deleted_once "gateway-clusters") ++ [None])
  = Ok [mkWatchEvent WatchEventUpdate None (Some c)].
Proof. vm_compute. reflexivity. Qed.
