(* ===== verification/ClusterAuth.v ===== *)
(** pkg/b2mac, pkg/ecdh and pkg/auth/cluster: message authentication codes, the key
    exchange, and the challenge-response authentication of clusters. *)

From S2P Require Import Prelude GoStd Util Base64 CoreV1 Etcd RefJSON Tokens Crypto Pkp Keyring.
From Stdlib Require Import Ascii.

Local Open Scope string_scope.

(** ** b2mac/mac.go *)

Definition b2mac_New512 `{Blake2b} (id : list byte) (nonce : UUID) (payload key : list byte)
  : outcome (list byte) :=
  blake2b_512 key [id; nonce; payload].

Definition b2mac_Verify `{Blake2b} (mac id : list byte) (nonce : UUID) (payload key : list byte)
  : outcome unit :=
  let? sum := blake2b_512 key [id; nonce; payload] in
  if ConstantTimeCompare sum mac then Ok tt else Err (ErrorString "verification failed").

(** ** b2mac/header.go *)

Definition dquote : ascii := chr 34.

Definition EncodeAuthHeader `{UUIDLib} (id : list byte) (nonce : UUID) (mac : list byte) : outcome string :=
  fail_if (negb (uuid_is_v4 nonce)) (ErrorString "nonce is not a v4 UUID") ;?
  let macEncoded := EncodeToString RawURLEncoding mac in
  let idEncoded := EncodeToString RawURLEncoding id in
  Ok ("MAC id=" +:+ quote idEncoded +:+ ",nonce=" +:+ quote (uuid_String nonce) +:+
      ",mac=" +:+ quote macEncoded).

(** The value between the quotes of a quoted string. *)
Definition unquote (s : string) : option string :=
  if (String.length s <? 2)%nat || negb (HasPrefix s (String dquote "")) || negb (HasSuffix s (String dquote ""))
  then None
  else Some (take_str (String.length s - 2) (drop_str 1 s)).

(** The named results and the set of keys seen so far. *)
Record header_state := mkHeaderState {
  hs_id : list byte;
  hs_nonce : UUID;
  hs_mac : list byte;
  hs_foundKeys : gset string }.

Definition decode_pair `{UUIDLib} (st : header_state) (pair : string) : outcome header_state :=
  match Split "="%char pair with
  | [k; v] =>
      match unquote v with
      | None => Err (ErrorString "expected quoted string")
      | Some v =>
          let key := TrimSpace k in
          if decide (key ∈ hs_foundKeys st) then Err (ErrorString ("duplicate key: " +:+ key))
          else
            let found := hs_foundKeys st ∪ {[ key ]} in
            if decide (key = "id") then
              let? id := omap_err (fun _ => ErrorString "malformed id") (DecodeString RawURLEncoding v) in
              Ok (mkHeaderState id (hs_nonce st) (hs_mac st) found)
            else if decide (key = "nonce") then
              let? nonce := uuid_Parse v in
              fail_if (negb (uuid_is_v4 nonce)) (ErrorString "nonce is not a v4 UUID") ;?
              Ok (mkHeaderState (hs_id st) nonce (hs_mac st) found)
            else if decide (key = "mac") then
              let? mac := DecodeString RawURLEncoding v in
              Ok (mkHeaderState (hs_id st) (hs_nonce st) mac found)
            else Err (ErrorString "unknown key")
      end
  | _ => Err (ErrorString "malformed key-value pair")
  end.

Fixpoint decode_pairs `{UUIDLib} (st : header_state) (pairs : list string) : outcome header_state :=
  match pairs with
  | [] => Ok st
  | kv :: pairs => let? st := decode_pair st kv in decode_pairs st pairs
  end.

(** The checks at the end overwrite one another: the last missing part is named. *)
Definition DecodeAuthHeader `{UUIDLib} (header : string) : outcome (list byte * UUID * list byte) :=
  if negb (HasPrefix header "MAC ") then Err (ErrorString "incorrect authorization type")
  else
    let trimmed := TrimSpace (TrimPrefix header "MAC") in
    let? st := decode_pairs (mkHeaderState [] uuid_Nil [] ∅) (Split ","%char trimmed) in
    if (length (hs_mac st) =? 0)%nat then Err (ErrorString "Header is missing signature")
    else if decide (hs_nonce st = uuid_Nil) then Err (ErrorString "Header is missing nonce")
    else if (length (hs_id st) =? 0)%nat then Err (ErrorString "Header is missing id")
    else Ok (hs_id st, hs_nonce st, hs_mac st).

Definition NewEncodedHeader `{Blake2b} `{UUIDLib} (id : list byte) (nonce : UUID) (payload key : list byte)
  : outcome string :=
  let? mac := b2mac_New512 id nonce payload key in EncodeAuthHeader id nonce mac.

(** ** ecdh/ecdh.go *)

Definition ErrInvalidPeerType : error := ErrorString "invalid peer type".

Record EphemeralKeyPair := mkEphemeralKeyPair { ekp_PrivateKey : list byte; ekp_PublicKey : list byte }.

Definition PeerType : Type := Z.
Definition PeerTypeClient : PeerType := 0%Z.
Definition PeerTypeServer : PeerType := 1%Z.

Record PeerPublicKey := mkPeerPublicKey { ppk_PublicKey : list byte; ppk_PeerType : PeerType }.

(** [NewEphemeralKeyPair] on what the random source yields for 32 bytes. *)
Definition NewEphemeralKeyPair `{Curve25519} (entropy : outcome (list byte)) : outcome EphemeralKeyPair :=
  match entropy with
  | Ok priv =>
      match X25519 priv Basepoint with
      | Ok pub => Ok (mkEphemeralKeyPair priv pub)
      | _ => Panic "x25519"
      end
  | _ => Panic "entropy"
  end.

Definition DeriveSharedSecret `{Curve25519} `{Blake2b} (ours : EphemeralKeyPair) (theirs : PeerPublicKey)
  : outcome (list byte) :=
  let? q := X25519 (ekp_PrivateKey ours) (ppk_PublicKey theirs) in
  if decide (ppk_PeerType theirs = PeerTypeClient) then
    blake2b_512 [] [q; ppk_PublicKey theirs; ekp_PublicKey ours]
  else if decide (ppk_PeerType theirs = PeerTypeServer) then
    blake2b_512 [] [q; ekp_PublicKey ours; ppk_PublicKey theirs]
  else Err (Wrapped (Sprint (ppk_PeerType theirs)) ErrInvalidPeerType).

(** ** auth/cluster/cluster.go *)

(** The storage interface [KeyringStoreBroker] with the stores it returns: a
    keyring is addressed by a prefix and a reference. *)
Class KeyringStoreBroker (W : Type) := {
  ks_Get : string -> Reference -> M W Keyring;
  ks_Put : string -> Reference -> Keyring -> M W unit;
  ks_Delete : string -> Reference -> M W unit }.

Section Middleware.
Context {W : Type} `{KeyringStoreBroker W} `{Blake2b} `{UUIDLib}.

Definition gateway_prefix : string := "gateway".
Definition fake_prefix : string := "gateway-internal".
Definition fake_ref : Reference := mkReference "fake".

(** The closure passed to [Try]: the last shared keys that verify the MAC win. *)
Definition verify_shared (mac clusterID : list byte) (nonce : UUID) (msgBody : list byte)
    (k : AnyKey) (authorized : option SharedKeys) : option SharedKeys :=
  match k with
  | KShared shared =>
      match b2mac_Verify mac clusterID nonce msgBody (sk_ClientKey shared) with
      | Ok _ => Some shared
      | _ => authorized
      end
  | _ => authorized
  end.

Definition VerifyKeyring (authHeader : string) (expectedNonce : UUID) (msgBody : list byte)
  : M W (string * SharedKeys) := fun w =>
  match DecodeAuthHeader authHeader with
  | Err _ => (w, Err (util_StatusError codes_InvalidArgument))
  | Panic p => (w, Panic p)
  | Ok (clusterID, headerNonce, mac) =>
      if negb (ConstantTimeCompare headerNonce expectedNonce)
      then (w, Err (util_StatusError codes_Unauthenticated))
      else
        let id := mkReference (bytes_str clusterID) in
        match ks_Get gateway_prefix id w with
        | (w, Panic p) => (w, Panic p)
        | (w, Ok kr) =>
            match Try kr [UseKey TSharedKeys (verify_shared mac clusterID expectedNonce msgBody)] false None with
            | Ok (false, _) => (w, Err (util_StatusError codes_Internal))
            | Ok (true, None) => (w, Err (util_StatusError codes_Unauthenticated))
            | Ok (true, Some sharedKeys) => (w, Ok (bytes_str clusterID, sharedKeys))
            | Err e => (w, Err e)
            | Panic p => (w, Panic p)
            end
        | (w, Err _) =>
            match ks_Get fake_prefix fake_ref w with
            | (w, Err _) => (w, Err (util_StatusError codes_Internal))
            | (w, Panic p) => (w, Panic p)
            | (w, Ok kr) =>
                match Try kr [UseKey TSharedKeys (verify_shared mac clusterID expectedNonce msgBody)] false None with
                | Panic p => (w, Panic p)
                | _ => (w, Err (util_StatusError codes_Unauthenticated))
                end
            end
        end
  end.

(** What happens first after the challenge was sent: the stream is closed, one
    second passes, receiving fails, or a message arrives (its authorization field
    and whether it has unknown fields). *)
Inductive challenge_event :=
| StreamDone (err : error)
| TimedOut
| RecvFailed (err : error)
| Received (authorization : string) (unknown : bool).

(** The result of the server side: the context the handler is called with, which
    carries the cluster's id and its keys. *)
Definition StreamServerInterceptor (nonce : UUID) (sendHeader : outcome unit) (event : challenge_event)
    (FullMethod : string) : M W (string * SharedKeys) :=
  match sendHeader with
  | Err _ => wfail (StatusError codes_Aborted "failed to send challenge")
  | Panic p => wlift (Panic p)
  | Ok _ =>
      match event with
      | StreamDone err => wfail err
      | TimedOut => wfail (StatusError codes_DeadlineExceeded "timed out waiting for challenge response")
      | RecvFailed _ => wfail (StatusError codes_Aborted "error receiving challenge response")
      | Received authorization unknown =>
          if unknown then wfail (StatusError codes_InvalidArgument
                                   "expected challenge response, but received incorrect message data")
          else if decide (authorization = "") then
            wfail (StatusError codes_InvalidArgument "empty challenge response received")
          else VerifyKeyring authorization nonce (str_bytes FullMethod)
      end
  end.
End Middleware.

(** The client side: the authorization it answers the challenge headers with. *)
Definition ClientStreamInterceptor `{Blake2b} `{UUIDLib} (id : string) (sharedKeys : SharedKeys)
    (header : outcome (list string)) (method : string) : outcome string :=
  match header with
  | Err _ => Err (StatusError codes_Internal "failed to read stream header")
  | Panic p => Panic p
  | Ok [challenge] =>
      match uuid_Parse challenge with
      | Ok nonce =>
          let? mac := b2mac_New512 (str_bytes id) nonce (str_bytes method) (sk_ClientKey sharedKeys) in
          EncodeAuthHeader (str_bytes id) nonce mac
      | Err _ => Err (StatusError codes_Internal "server sent an invalid challenge header")
      | Panic p => Panic p
      end
  | Ok _ => Err (StatusError codes_Internal "server did not send a challenge header")
  end.

(** ** Properties: headers *)

Lemma url_char_graph c : url_char c = true -> is_graph c = true.
Proof. destruct c as [[] [] [] [] [] [] [] []]; vm_compute; done. Qed.

Lemma uuid_char_graph c :
  in_range 48 57 c || in_range 97 102 c || bool_decide (c = "-"%char) = true -> is_graph c = true.
Proof. destruct c as [[] [] [] [] [] [] [] []]; vm_compute; done. Qed.

(** Text that may stand between the quotes of a header field. *)
Definition field_char (c : ascii) : bool :=
  is_graph c && negb (bool_decide (c = ","%char)) && negb (bool_decide (c = "="%char)).

Lemma url_char_field c : url_char c = true -> field_char c = true.
Proof. destruct c as [[] [] [] [] [] [] [] []]; vm_compute; done. Qed.

Lemma uuid_char_field c :
  in_range 48 57 c || in_range 97 102 c || bool_decide (c = "-"%char) = true -> field_char c = true.
Proof. destruct c as [[] [] [] [] [] [] [] []]; vm_compute; done. Qed.

Lemma field_no_char c s : field_char c = false -> str_all field_char s = true -> no_char c s = true.
Proof.
  intros Hc Hs. unfold no_char. eapply str_all_impl; [|exact Hs]. intros d Hd.
  rewrite negb_true_iff, bool_decide_eq_false. intros ->. congruence.
Qed.

Lemma unquote_quote s : unquote (quote s) = Some s.
Proof.
  assert (take_str (String.length s) (s +:+ String (chr 34) "") = s) as Ht.
  { clear. induction s as [|c s IH]; [done|]. rewrite str_app_cons. cbn. by rewrite IH. }
  assert (HasSuffix (quote s) (String dquote "") = true) as Hs.
  { unfold HasSuffix, quote, dquote. cbn [String.length]. rewrite str_length_app. cbn [String.length].
    replace (S (String.length s + 1) - 1) with (String.length (String (chr 34) s)) by (cbn; lia).
    change (String (chr 34) (s +:+ String (chr 34) "")) with (String (chr 34) s +:+ String (chr 34) "").
    rewrite drop_str_app. by rewrite bool_decide_eq_true_2. }
  unfold unquote. rewrite Hs. unfold quote, dquote. cbn [String.length]. rewrite str_length_app.
  cbn [String.length]. replace (S (String.length s + 1)) with (S (S (String.length s))) by lia.
  cbn [HasPrefix]. rewrite bool_decide_eq_true_2 by done. cbn.
  assert (forall x, HasPrefix x "" = true) as -> by by intros [].
  cbn. by rewrite Nat.sub_0_r, Ht.
Qed.

(** One field of a header. *)
Definition field (key v : string) : string := key +:+ String "=" (quote v).

Lemma field_Split key v :
  no_char "="%char key = true -> str_all field_char v = true ->
  Split "="%char (field key v) = [key; quote v].
Proof.
  intros Hk Hv. unfold field. rewrite Split_app, (Split_no_char _ _ Hk).
  rewrite Split_no_char; [done|]. unfold quote. rewrite no_char_cons. split; [done|].
  unfold no_char. rewrite str_all_app. fold (no_char "="%char v).
  by rewrite (field_no_char "="%char v eq_refl Hv).
Qed.

Lemma field_no_comma key v :
  no_char ","%char key = true -> str_all field_char v = true -> no_char ","%char (field key v) = true.
Proof.
  intros Hk Hv. unfold field, quote, no_char in *. rewrite str_all_app, Hk. cbn.
  rewrite str_all_app. fold (no_char ","%char v). by rewrite (field_no_char ","%char v eq_refl Hv).
Qed.

Lemma field_graph key v :
  str_all is_graph key = true -> str_all field_char v = true -> str_all is_graph (field key v) = true.
Proof.
  intros Hk Hv. unfold field, quote. rewrite str_all_app, Hk. cbn. rewrite str_all_app.
  rewrite (str_all_impl field_char is_graph v); [done| |done].
  intros c. unfold field_char. by rewrite !andb_true_iff; intros [[? _] _].
Qed.

(** A header is its three fields separated by commas. *)
Definition header_of (i n m : string) : string :=
  "MAC " +:+ (field "id" i +:+ String "," (field "nonce" n +:+ String "," (field "mac" m))).

Lemma EncodeAuthHeader_eq `{UUIDLib} id nonce mac h :
  EncodeAuthHeader id nonce mac = Ok h ->
  uuid_is_v4 nonce = true /\
  h = header_of (EncodeToString RawURLEncoding id) (uuid_String nonce) (EncodeToString RawURLEncoding mac).
Proof.
  unfold EncodeAuthHeader. intros Hh. open_ok Hh Hv. rewrite fail_if_Ok, negb_false_iff in Hv.
  injection Hh as <-. split; [done|]. unfold header_of, field, quote.
  by rewrite !str_app_assoc, !str_app_cons, ?str_app_assoc, ?str_app_cons, ?str_app_nil, ?str_app_assoc.
Qed.

Lemma decode_header_of `{UUIDLib} i n m :
  str_all field_char i = true -> str_all field_char n = true -> str_all field_char m = true ->
  TrimSpace (TrimPrefix (header_of i n m) "MAC") =
  field "id" i +:+ String "," (field "nonce" n +:+ String "," (field "mac" m)) /\
  Split ","%char (field "id" i +:+ String "," (field "nonce" n +:+ String "," (field "mac" m))) =
  [field "id" i; field "nonce" n; field "mac" m].
Proof.
  intros Hi Hn Hm. split.
  - unfold header_of. change ("MAC " +:+ ?s) with ("MAC" +:+ String " " s). rewrite TrimPrefix_app.
    apply TrimSpace_space_graph; [done|].
    rewrite str_all_app. cbn [str_all]. rewrite str_all_app. cbn [str_all].
    by rewrite !field_graph.
  - rewrite !Split_app. by rewrite !Split_no_char by by apply field_no_comma.
Qed.

Lemma auth_header_ok `{UUIDLib} (id mac : list byte) (nonce : UUID) :
  id <> [] -> mac <> [] -> Forall is_byte id -> Forall is_byte mac ->
  length nonce = 16 -> Forall is_byte nonce -> uuid_is_v4 nonce = true ->
  exists h, EncodeAuthHeader id nonce mac = Ok h /\ DecodeAuthHeader h = Ok (id, nonce, mac).
Proof.
  intros Hid Hmac Hbi Hbm Hln Hbn Hv.
  assert (is_Ok (EncodeAuthHeader id nonce mac) = true) as Hok by (unfold EncodeAuthHeader; by rewrite Hv).
  destruct (EncodeAuthHeader id nonce mac) as [h| |] eqn:Eh; [|done|done]. exists h. split; [done|].
  apply EncodeAuthHeader_eq in Eh as [_ ->].
  assert (str_all field_char (EncodeToString RawURLEncoding id) = true) as Fi
    by (eapply str_all_impl; [apply url_char_field|by apply EncodeToString_url]).
  assert (str_all field_char (EncodeToString RawURLEncoding mac) = true) as Fm
    by (eapply str_all_impl; [apply url_char_field|by apply EncodeToString_url]).
  assert (str_all field_char (uuid_String nonce) = true) as Fn
    by (eapply str_all_impl; [apply uuid_char_field|apply uuid_String_chars]).
  unfold DecodeAuthHeader. destruct (decode_header_of _ _ _ Fi Fn Fm) as [-> ->].
  unfold header_of. rewrite HasPrefix_app. cbn [negb decode_pairs].
  unfold decode_pair. rewrite !field_Split by done.
  change (TrimSpace "id") with "id". change (TrimSpace "nonce") with "nonce".
  change (TrimSpace "mac") with "mac". rewrite !unquote_quote.
  rewrite !base64_roundtrip by (apply RawURLEncoding_ok || done).
  rewrite uuid_Parse_String by done. cbn [hs_foundKeys hs_id hs_nonce hs_mac].
  rewrite decide_False by set_solver. rewrite decide_True by done. cbn [omap_err obind].
  rewrite decide_False by set_solver. rewrite decide_False, decide_True by done. cbn [hs_foundKeys hs_id hs_nonce hs_mac obind].
  rewrite Hv. cbn [negb fail_if obind hs_foundKeys hs_id hs_nonce hs_mac].
  rewrite decide_False by set_solver. rewrite !decide_False, decide_True by done.
  cbn [obind hs_foundKeys hs_id hs_nonce hs_mac].
  rewrite (decide_False (P := nonce = uuid_Nil)) by by apply uuid_v4_not_nil.
  destruct id; [done|]. by destruct mac.
Qed.

(** The Authorization header of a MAC decodes to the id, nonce and MAC it was
    made from; a header is only ever produced for, and only ever decodes to, a
    version 4 nonce, a non-empty id and a non-empty MAC. *)
Lemma auth_header_roundtrip `{UUIDLib} (id mac : list byte) (nonce : UUID) :
  id <> [] -> mac <> [] -> Forall is_byte id -> Forall is_byte mac ->
  length nonce = 16 -> Forall is_byte nonce -> uuid_is_v4 nonce = true ->
  exists h, EncodeAuthHeader id nonce mac = Ok h /\ DecodeAuthHeader h = Ok (id, nonce, mac).
Proof. apply auth_header_ok. Qed.

(** ** Properties: key exchange *)

Lemma blake2b_512_Ok `{Blake2b} key writes s :
  blake2b_512 key writes = Ok s -> s = b2b_Sum512 key (concat writes) /\ length s = 64.
Proof.
  unfold blake2b_512. intros Hs. open_ok Hs Hk. injection Hs as <-. split; [done|]. apply b2b_Sum512_length.
Qed.

(** Both ends of the exchange compute the same outcome. *)
Lemma shared_secret_agree `{Curve25519} `{Blake2b} client server ec es :
  NewEphemeralKeyPair ec = Ok client -> NewEphemeralKeyPair es = Ok server ->
  DeriveSharedSecret client (mkPeerPublicKey (ekp_PublicKey server) PeerTypeServer) =
  DeriveSharedSecret server (mkPeerPublicKey (ekp_PublicKey client) PeerTypeClient).
Proof.
  unfold NewEphemeralKeyPair. destruct ec as [pc| |]; [|done|done]. destruct es as [ps| |]; [|done|done].
  destruct (X25519 pc Basepoint) as [A| |] eqn:EA; [|done|done]. intros [= <-].
  destruct (X25519 ps Basepoint) as [B| |] eqn:EB; [|done|done]. intros [= <-].
  unfold DeriveSharedSecret. cbn [ekp_PrivateKey ekp_PublicKey ppk_PublicKey ppk_PeerType].
  rewrite (X25519_agree _ _ _ _ EA EB). done.
Qed.

Lemma DeriveSharedSecret_length `{Curve25519} `{Blake2b} ours theirs s :
  DeriveSharedSecret ours theirs = Ok s -> length s = 64.
Proof.
  unfold DeriveSharedSecret. intros (q & _ & Hs)%obind_Ok.
  repeat case_decide; [by apply blake2b_512_Ok in Hs as [_ ?]..|done].
Qed.

Lemma NewSharedKeys_Ok `{Ed25519} secret :
  length secret = 64 -> exists sk, NewSharedKeys secret = Ok sk /\
    length (sk_ClientKey sk) = 64 /\ length (sk_ServerKey sk) = 64.
Proof.
  intros Hl. unfold NewSharedKeys. rewrite Hl. cbn [Nat.eqb negb].
  destruct (NewKeyFromSeed_Ok (take 32 secret)) as (kc & -> & Hc); [rewrite length_take; lia|].
  destruct (NewKeyFromSeed_Ok (drop 32 secret)) as (ks & -> & Hs); [rewrite length_drop; lia|].
  cbn. eauto.
Qed.

(** ** Properties: verification *)

Section Verify.
Context {W : Type} `{KeyringStoreBroker W} `{Blake2b} `{UUIDLib}.

(** The MAC is the one these keys give for the id, the nonce and the message. *)
Definition mac_valid (keys : SharedKeys) (mac clusterID : list byte) (nonce : UUID) (msgBody : list byte) : Prop :=
  b2mac_New512 clusterID nonce msgBody (sk_ClientKey keys) = Ok mac.

Lemma b2mac_Verify_Ok mac id nonce payload key u :
  b2mac_Verify mac id nonce payload key = Ok u <-> b2mac_New512 id nonce payload key = Ok mac.
Proof.
  unfold b2mac_Verify, b2mac_New512, ConstantTimeCompare. destruct u.
  destruct (blake2b_512 _ _) as [s| |]; cbn; [|done|done]. case_bool_decide; naive_solver.
Qed.

Lemma verify_fold mac id nonce body ks : forall acc r,
  fold_left (fun s k => verify_shared mac id nonce body k s) ks acc = r ->
  (r = acc \/ exists sk, r = Some sk /\ KShared sk ∈ ks /\ mac_valid sk mac id nonce body) /\
  (forall sk, KShared sk ∈ ks -> mac_valid sk mac id nonce body -> is_Some r) /\
  (is_Some acc -> is_Some r).
Proof.
  induction ks as [|k ks IH]; intros acc r; cbn [fold_left].
  - intros <-. split; [by left|]. split; [|done]. intros sk []%not_elem_of_nil.
  - intros Hr. destruct (IH _ _ Hr) as (Ha & Hb & Hc). split; [|split].
    + destruct Ha as [E|(sk & E & Hin & Hm)]; [|right; exists sk; split; [done|split; [by right|done]]].
      unfold verify_shared in E. destruct k as [sk|?|?|?|?|]; try by left.
      destruct (b2mac_Verify _ _ _ _ _) eqn:Ev; [|by left|by left].
      apply b2mac_Verify_Ok in Ev. right. exists sk. split; [done|]. split; [left|done].
    + intros sk [<-|Hin]%elem_of_cons Hm; [|by eapply Hb].
      apply Hc. cbn. apply b2mac_Verify_Ok with (u := tt) in Hm. by rewrite Hm.
    + intros Hacc. apply Hc. unfold verify_shared. destruct k; try done. by destruct (b2mac_Verify _ _ _ _ _).
Qed.

(** C9: a caller is let in as a cluster only with a MAC over the server's own nonce
    and the method called, made with shared keys stored for that very cluster.  Every
    failure is one of these: a malformed header is an invalid argument; another nonce,
    an unknown cluster and a MAC that no stored key makes are all answered as
    unauthenticated, so that the answer tells an unknown cluster and a wrong MAC not
    apart.  Only a keyring without shared keys, or a spare keyring that cannot be read
    when the cluster is unknown, is an internal error. *)
Theorem VerifyKeyring_sound (authHeader : string) (nonce : UUID) (body : list byte) (w w' : W)
    (o : outcome (string * SharedKeys)) :
  VerifyKeyring authHeader nonce body w = (w', o) ->
  match o with
  | Ok (id, keys) => exists clusterID mac kr ks,
      DecodeAuthHeader authHeader = Ok (clusterID, nonce, mac) /\ id = bytes_str clusterID /\
      ks_Get gateway_prefix (mkReference id) w = (w', Ok kr) /\
      kr !! TSharedKeys = Some ks /\ KShared keys ∈ ks /\ mac_valid keys mac clusterID nonce body
  | Err e =>
      match DecodeAuthHeader authHeader with
      | Err _ => e = util_StatusError codes_InvalidArgument
      | Ok (clusterID, headerNonce, mac) =>
          if decide (headerNonce = nonce) then
            match ks_Get gateway_prefix (mkReference (bytes_str clusterID)) w with
            | (_, Ok kr) =>
                match kr !! TSharedKeys with
                | Some ks => e = util_StatusError codes_Unauthenticated /\
                             forall sk, KShared sk ∈ ks -> ~ mac_valid sk mac clusterID nonce body
                | None => e = util_StatusError codes_Internal
                end
            | (w1, Err _) =>
                e = match (ks_Get fake_prefix fake_ref w1).2 with
                    | Ok _ => util_StatusError codes_Unauthenticated
                    | _ => util_StatusError codes_Internal
                    end
            | (_, Panic _) => False
            end
          else e = util_StatusError codes_Unauthenticated
      | Panic _ => False
      end
  | Panic _ => True
  end.
Proof.
  unfold VerifyKeyring. destruct (DecodeAuthHeader authHeader) as [[[clusterID hn] mac]| |] eqn:Ed;
    [|by intros [= <- <-]..].
  unfold ConstantTimeCompare. case_bool_decide as Hn; cbn [negb]; [|intros [= <- <-]; by rewrite decide_False].
  subst hn. destruct (ks_Get gateway_prefix _ w) as [w1 [kr|e|p]] eqn:Eg; [| |by intros [= <- <-]].
  - cbn [Try]. destruct (kr !! TSharedKeys) as [ks|] eqn:Ek; [|intros [= <- <-]; by rewrite decide_True].
    destruct (fold_left _ ks None) as [sk|] eqn:Ef; cbn [Try]; intros [= <- <-];
      destruct (verify_fold _ _ _ _ _ _ _ Ef) as (Hs & Hall & _).
    + destruct Hs as [|(sk' & [= <-] & Hin & Hm)]; [done|]. exists clusterID, mac, kr, ks. done.
    + rewrite decide_True by done. split; [done|]. intros sk Hin Hm. by destruct (Hall sk Hin Hm).
  - destruct (ks_Get fake_prefix fake_ref w1) as [w2 [kr|e2|p]] eqn:Ef.
    + destruct (Try _ _ _ _); intros [= <- <-]; [by rewrite decide_True..|done].
    + intros [= <- <-]. by rewrite decide_True.
    + by intros [= <- <-].
Qed.
End Verify.

Lemma challenge_response_ok {W} `{KeyringStoreBroker W} `{Blake2b} `{UUIDLib}
    (id method : string) (keys : SharedKeys) (nonce : UUID) (kr : Keyring) (ks : list AnyKey) (w w' : W) :
  id <> "" -> length nonce = 16 -> Forall is_byte nonce -> uuid_is_v4 nonce = true ->
  length (sk_ClientKey keys) <= 64 ->
  ks_Get gateway_prefix (mkReference id) w = (w', Ok kr) ->
  kr !! TSharedKeys = Some ks -> KShared keys ∈ ks ->
  exists auth keys', ClientStreamInterceptor id keys (Ok [uuid_String nonce]) method = Ok auth /\
    StreamServerInterceptor nonce (Ok tt) (Received auth false) method w = (w', Ok (id, keys')) /\
    KShared keys' ∈ ks /\
    b2mac_New512 (str_bytes id) nonce (str_bytes method) (sk_ClientKey keys') =
    b2mac_New512 (str_bytes id) nonce (str_bytes method) (sk_ClientKey keys).
Proof.
  intros Hid Hln Hbn Hv Hkey Hget Hks Hin. unfold ClientStreamInterceptor.
  rewrite uuid_Parse_String by done.
  assert (exists mac, b2mac_New512 (str_bytes id) nonce (str_bytes method) (sk_ClientKey keys) = Ok mac /\
    mac <> [] /\ Forall is_byte mac) as (mac & Hmac & Hne & Hb).
  { unfold b2mac_New512, blake2b_512. rewrite (proj2 (Nat.ltb_ge _ _)) by done. cbn.
    eexists. split; [done|]. split; [|apply b2b_Sum512_bytes].
    intros E. apply (f_equal length) in E. by rewrite b2b_Sum512_length in E. }
  rewrite Hmac. cbn [obind].
  assert (str_bytes id <> []) as Hids.
  { intros E. apply Hid. rewrite <- (bytes_str_bytes id), E. done. }
  destruct (auth_header_ok (str_bytes id) mac nonce) as (auth & Ha & Hd); try done;
    [apply str_bytes_bytes|].
  rewrite Ha. exists auth.
  assert (auth <> "") as Hauth by (intros ->; by vm_compute in Hd).
  destruct (fold_left (fun s k => verify_shared mac (str_bytes id) nonce (str_bytes method) k s) ks None)
    as [keys'|] eqn:Ef.
  - destruct (verify_fold _ _ _ _ _ _ _ Ef) as ([|(sk & [= <-] & Hin' & Hm)] & _ & _); [done|].
    exists keys'. split; [done|]. split; [|split; [done|exact Hm]].
    unfold StreamServerInterceptor. rewrite decide_False by done.
    unfold VerifyKeyring. rewrite Hd. unfold ConstantTimeCompare. rewrite bool_decide_eq_true_2 by done.
    cbn [negb]. rewrite bytes_str_bytes, Hget. cbn [Try]. rewrite Hks, Ef. done.
  - destruct (verify_fold _ _ _ _ _ _ _ Ef) as (_ & Hs & _). by destruct (Hs keys Hin Hmac) as [? [=]].
Qed.

(** The answer of a client that holds the stored keys of a cluster passes the
    server's check of the challenge it sent, and the request is then handled with
    the client's id and keys stored for it. *)
Lemma challenge_response_accepted {W} `{KeyringStoreBroker W} `{Blake2b} `{UUIDLib}
    (id method : string) (keys : SharedKeys) (nonce : UUID) (kr : Keyring) (ks : list AnyKey) (w w' : W) :
  id <> "" -> length nonce = 16 -> Forall is_byte nonce -> uuid_is_v4 nonce = true ->
  length (sk_ClientKey keys) <= 64 ->
  ks_Get gateway_prefix (mkReference id) w = (w', Ok kr) ->
  kr !! TSharedKeys = Some ks -> KShared keys ∈ ks ->
  exists auth keys', ClientStreamInterceptor id keys (Ok [uuid_String nonce]) method = Ok auth /\
    StreamServerInterceptor nonce (Ok tt) (Received auth false) method w = (w', Ok (id, keys')) /\
    KShared keys' ∈ ks /\
    b2mac_New512 (str_bytes id) nonce (str_bytes method) (sk_ClientKey keys') =
    b2mac_New512 (str_bytes id) nonce (str_bytes method) (sk_ClientKey keys).
Proof. apply challenge_response_ok. Qed.

(** ** Witnesses *)

(** Keyrings in memory, by prefix and id. *)
Definition MemKeyrings : Type := list (string * string * Keyring).

Definition mem_find (p id : string) (m : MemKeyrings) : option Keyring :=
  snd <$> find (fun e => bool_decide (e.1 = (p, id))) m.

#[export] Instance MemKeyrings_broker : KeyringStoreBroker MemKeyrings := {|
  ks_Get p r := fun m => (m, match mem_find p (ref_Id r) m with Some kr => Ok kr | None => Err ErrNotFound end);
  ks_Put p r kr := fun m => (((p, ref_Id r), kr) :: m, Ok tt);
  ks_Delete p r := fun m => (List.filter (fun e => negb (bool_decide (e.1 = (p, ref_Id r)))) m, Ok tt) |}.

Definition demo_nonce : UUID := [1; 2; 3; 4; 5; 6; 64; 8; 128; 10; 11; 12; 13; 14; 15; 16]%Z.
Definition demo_shared_keyring : Keyring := {[ TSharedKeys := [KShared demo_shared] ]}.
Definition demo_keyrings : MemKeyrings := [(("gateway", "c1"), demo_shared_keyring)].

Lemma demo_nonce_bytes : Forall is_byte demo_nonce.
Proof. unfold demo_nonce, is_byte. repeat constructor; lia. Qed.

Definition demo_auth : string :=
  match ClientStreamInterceptor "c1" demo_shared (Ok [uuid_String demo_nonce]) "/m" with
  | Ok auth => auth
  | _ => ""
  end.

Lemma VerifyKeyring_sound_witness :
  VerifyKeyring demo_auth demo_nonce (str_bytes "/m") demo_keyrings = (demo_keyrings, Ok ("c1", demo_shared)) /\
  exists clusterID mac kr ks,
    DecodeAuthHeader demo_auth = Ok (clusterID, demo_nonce, mac) /\ "c1" = bytes_str clusterID /\
    ks_Get gateway_prefix (mkReference "c1") demo_keyrings = (demo_keyrings, Ok kr) /\
    kr !! TSharedKeys = Some ks /\ KShared demo_shared ∈ ks /\
    mac_valid demo_shared mac clusterID demo_nonce (str_bytes "/m").
Proof.
  split; [vm_compute; reflexivity|].
  apply (VerifyKeyring_sound demo_auth demo_nonce (str_bytes "/m") demo_keyrings demo_keyrings
           (Ok ("c1", demo_shared))).
  vm_compute. reflexivity.
Defined.
