(* ===== verification/Trust.v ===== *)
(** pkg/trust: how an agent decides to trust the gateway's TLS certificate, and how
    that decision is kept in its keyring. *)

From S2P Require Import Prelude GoStd Base64 CoreV1 Etcd RefJSON Tokens Crypto Pkp Keyring.

Local Open Scope string_scope.

(** ** strategy.go *)

Section Trust.
Context `{X509} `{Sha256} `{Blake2b}.

(** The pins of the one PKP key of a keyring; the closure counts what it saw. *)
Definition see_pkp (k : AnyKey) (st : option PKPKey * option error) : option PKPKey * option error :=
  match k with
  | KPKP pk =>
      (Some pk, if st.1 then Some (ErrorString "keyring contains multiple PKP key sets") else st.2)
  | _ => st
  end.

Definition NewKeyringPinSource (kr : Keyring) : outcome (list PublicKeyPin) :=
  let? r := Try kr [UseKey TPKPKey see_pkp] false (None, None) in
  match r.2 with
  | (_, Some err) => Err err
  | (None, None) => Err (ErrorString "keyring is missing PKP key")
  | (Some pkpKey, None) => Ok (PinnedKeys pkpKey)
  end.

Definition NewPinSource (pins : list PublicKeyPin) : outcome (list PublicKeyPin) := Ok pins.

Definition see_cacerts (k : AnyKey) (st : option CACertsKey * option error) : option CACertsKey * option error :=
  match k with
  | KCACerts ca =>
      (Some ca, if st.1 then Some (ErrorString "keyring contains multiple CA certs key sets") else st.2)
  | _ => st
  end.

Definition NewKeyringCACertsSource (kr : Keyring) : outcome (list Certificate) :=
  let? r := Try kr [UseKey TCACertsKey see_cacerts] false (None, None) in
  match r.2 with
  | (_, Some err) => Err err
  | (None, None) => Err (ErrorString "keyring is missing CA certs key")
  | (Some caCertsKey, None) =>
      omapM (fun der => omap_err (Wrapped "failed to parse CA cert") (ParseCertificate der)) (CACerts caCertsKey)
  end.

Definition NewCACertsSource (certs : list Certificate) : outcome (list Certificate) := Ok certs.

(** A source is what its [Items] method returns.  [Some None]: the config is given
    without a source. *)
Record StrategyConfig := mkStrategyConfig {
  sc_PKP : option (option (outcome (list PublicKeyPin)));
  sc_CACerts : option (option (outcome (list Certificate)));
  sc_Insecure : option unit }.

Inductive Strategy :=
| pkpTrustStrategy (pins : list PublicKeyPin)
| caCertsTrustStrategy (caCerts : list Certificate)
| insecureTrustStrategy.

Definition Build (c : StrategyConfig) : outcome Strategy :=
  match sc_PKP c with
  | Some None => Err (ErrorString "no pin source provided for PKP trust strategy")
  | Some (Some items) => let? pins := items in Ok (pkpTrustStrategy pins)
  | None =>
      match sc_CACerts c with
      | Some None => Ok (caCertsTrustStrategy [])
      | Some (Some items) => let? certs := items in Ok (caCertsTrustStrategy certs)
      | None =>
          match sc_Insecure c with
          | Some _ => Ok insecureTrustStrategy
          | None => Err (ErrorString "no trust strategy configured")
          end
      end
  end.

(** [nil] for the insecure strategy. *)
Definition PersistentKey (s : Strategy) : AnyKey :=
  match s with
  | pkpTrustStrategy pins => KPKP (NewPKPKey pins)
  | caCertsTrustStrategy caCerts => KCACerts (NewCACertsKey caCerts)
  | insecureTrustStrategy => KNil
  end.

(** [systemPool]: what [x509.SystemCertPool] returns. *)
Definition TLSConfig (systemPool : outcome (list Certificate)) (s : Strategy) : outcome tls_Config :=
  match s with
  | pkpTrustStrategy pins => pkp_TLSConfig pins
  | caCertsTrustStrategy caCerts =>
      let? pool := (if (0 <? length caCerts)%nat then Ok caCerts else systemPool) in
      Ok (mkTlsConfig 0 false None (Some pool))
  | insecureTrustStrategy => Ok (mkTlsConfig 0 true None None)
  end.

(** ** flags.go *)

(** The values of the flags; [readCert] reads and parses a PEM file. *)
Record trust_flags := mkTrustFlags {
  fl_strategy : string;
  fl_pins : list string;
  fl_cacerts : list string;
  fl_confirmInsecure : bool }.

Definition BuildConfigFromFlags (readCert : string -> outcome Certificate) (flags : trust_flags)
  : outcome StrategyConfig :=
  if decide (fl_strategy flags = "pkp") then
    fail_if (length (fl_pins flags) =? 0)%nat (ErrorString "no pins provided") ;?
    let? pinnedKeys := omapM DecodePin (fl_pins flags) in
    Ok (mkStrategyConfig (Some (Some (NewPinSource pinnedKeys))) None None)
  else if decide (fl_strategy flags = "cacerts") then
    let? certs := omapM readCert (fl_cacerts flags) in
    Ok (mkStrategyConfig None (Some (Some (NewCACertsSource certs))) None)
  else if decide (fl_strategy flags = "insecure") then
    fail_if (negb (fl_confirmInsecure flags))
      (ErrorString "Use of the insecure trust strategy is highly discouraged") ;?
    Ok (mkStrategyConfig None None (Some tt))
  else Err (ErrorString ("invalid trust strategy: " +:+ fl_strategy flags)).

(** ** Properties *)

(** The configuration an agent rebuilds from its keyring for a strategy. *)
Definition config_from_keyring (s : Strategy) (kr : Keyring) : StrategyConfig :=
  match s with
  | pkpTrustStrategy _ => mkStrategyConfig (Some (Some (NewKeyringPinSource kr))) None None
  | caCertsTrustStrategy _ => mkStrategyConfig None (Some (Some (NewKeyringCACertsSource kr))) None
  | insecureTrustStrategy => mkStrategyConfig None None (Some tt)
  end.

(** The keys a bootstrapped agent keeps: its shared keys, and the key of its trust
    strategy unless that is nil. *)
Definition agent_keys (shared : SharedKeys) (s : Strategy) : list AnyKey :=
  KShared shared :: (if decide (PersistentKey s = KNil) then [] else [PersistentKey s]).

Lemma map_DeepCopy pins : map pin_DeepCopy pins = pins.
Proof. apply map_id_ext. by intros []. Qed.

Lemma agent_keyring shared s : exists kr, keyring_New (agent_keys shared s) = Ok kr /\
  kr !! TSharedKeys = Some [KShared shared] /\
  match s with
  | pkpTrustStrategy pins => kr !! TPKPKey = Some [KPKP (mkPKPKey pins)]
  | caCertsTrustStrategy certs => kr !! TCACertsKey = Some [KCACerts (mkCACertsKey (map cert_Raw certs))]
  | insecureTrustStrategy => True
  end.
Proof.
  assert (Forall (fun k => allowedKeyTypes (TypeOf k) = true) (agent_keys shared s)) as Ha.
  { unfold agent_keys. constructor; [done|]. case_decide; [constructor|]. constructor; [|constructor].
    by destruct s. }
  destruct (keyring_New_Ok _ Ha) as (kr & Hkr). exists kr. split; [done|].
  rewrite !(keyring_New_lookup _ _ _ Hkr). unfold agent_keys.
  destruct s; cbn [PersistentKey]; [rewrite decide_False by done|rewrite decide_False by done|rewrite decide_True by done].
  all: unfold keys_of_type; split; [done|].
  - cbn. unfold NewPKPKey. by rewrite map_DeepCopy.
  - done.
  - done.
Qed.

Lemma NewKeyringPinSource_one kr pins :
  kr !! TPKPKey = Some [KPKP (mkPKPKey pins)] -> NewKeyringPinSource kr = Ok pins.
Proof. unfold NewKeyringPinSource. cbn. by intros ->. Qed.

Lemma NewKeyringCACertsSource_one kr certs :
  kr !! TCACertsKey = Some [KCACerts (mkCACertsKey (map cert_Raw certs))] ->
  NewKeyringCACertsSource kr = Ok certs.
Proof.
  unfold NewKeyringCACertsSource. cbn. intros ->. cbn. induction certs as [|c certs IH]; [done|].
  cbn. rewrite ParseCertificate_Raw. cbn. by rewrite IH.
Qed.
End Trust.

(** The trust decision survives the bootstrap: the keyring an agent keeps,
    written to a store and read back, rebuilds the very strategy it bootstrapped
    with, for pins and for CA certificates alike. *)
Lemma trust_persisted `{X509} `{Sha256} `{Blake2b} `{KeyringJSON} (shared : SharedKeys) (s : Strategy) :
  exists kr data kr', keyring_New (agent_keys shared s) = Ok kr /\
    keyring_Marshal kr = Ok data /\ keyring_Unmarshal data = Ok kr' /\
    Build (config_from_keyring s kr') = Ok s /\
    kr' !! TSharedKeys = Some [KShared shared].
Proof.
  destruct (agent_keyring shared s) as (kr & Hkr & Hsh & Hs).
  destruct (keyring_roundtrip_aux kr (keyring_New_ok _ _ Hkr)) as (data & Hm & Hu).
  exists kr, data, (without_ephemeral kr). split; [done|]. split; [done|]. split; [done|].
  unfold without_ephemeral. split; [|by rewrite lookup_delete_ne].
  destruct s as [pins|certs|]; unfold Build; cbn.
  - by rewrite (NewKeyringPinSource_one _ pins) by by rewrite lookup_delete_ne.
  - by rewrite (NewKeyringCACertsSource_one _ certs) by by rewrite lookup_delete_ne.
  - done.
Qed.
