(* ===== verification/Task.v ===== *)
(** pkg/task: the task controller.  A task is a state machine whose state is kept,
    with its progress, logs and transitions, in a key-value store; the runner the
    controller was made with supplies the work of each state.

    The world of a call is a [World]: the store, the contexts of the tasks that
    were launched, the channels of the callbacks, the goroutines that were started
    and the calls made to [OnTaskCompleted].  [github.com/qmuntal/stateless] is not
    part of the repository: [StateMachine] holds what the controller configures on
    it and the class [Stateless] what it documents of activating a machine. *)

From S2P Require Import Prelude GoStd Util CoreV1 Storage.

Local Open Scope string_scope.

(** ** The messages of core.proto *)

Inductive TaskState : Set :=
| TaskState_Unknown | TaskState_Pending | TaskState_Running
| TaskState_Completed | TaskState_Failed | TaskState_Canceled.

Inductive TaskTrigger : Set :=
| TaskTrigger_Start | TaskTrigger_End | TaskTrigger_Error | TaskTrigger_Cancel.

Record StateTransition := mkStateTransition { st_State : TaskState; st_Timestamp : Time }.

Record Progress := mkProgress { pr_Current : Z; pr_Total : Z }.

Record LogEntry := mkLogEntry { le_Msg : string; le_Level : Z; le_Timestamp : Time }.

Record TaskStatus := mkTaskStatus {
  ts_State : TaskState;
  ts_Progress : option Progress;
  ts_Metadata : string;
  ts_Logs : list LogEntry;
  ts_Transitions : list StateTransition }.

#[export] Instance TaskState_eq_dec : EqDecision TaskState.
Proof. solve_decision. Defined.
#[export] Instance TaskTrigger_eq_dec : EqDecision TaskTrigger.
Proof. solve_decision. Defined.

(** [TaskState.String], generated from the names of the enumeration. *)
Definition TaskState_String (s : TaskState) : string :=
  match s with
  | TaskState_Unknown => "Unknown"
  | TaskState_Pending => "Pending"
  | TaskState_Running => "Running"
  | TaskState_Completed => "Completed"
  | TaskState_Failed => "Failed"
  | TaskState_Canceled => "Canceled"
  end.

(** The states the documentation of [TaskRunner] calls end states. *)
Definition end_state (s : TaskState) : bool :=
  match s with
  | TaskState_Completed | TaskState_Failed | TaskState_Canceled => true
  | _ => false
  end.

Definition set_State (s : TaskState) (x : TaskStatus) : TaskStatus :=
  mkTaskStatus s (ts_Progress x) (ts_Metadata x) (ts_Logs x) (ts_Transitions x).
Definition set_Progress (p : option Progress) (x : TaskStatus) : TaskStatus :=
  mkTaskStatus (ts_State x) p (ts_Metadata x) (ts_Logs x) (ts_Transitions x).
Definition set_Metadata (m : string) (x : TaskStatus) : TaskStatus :=
  mkTaskStatus (ts_State x) (ts_Progress x) m (ts_Logs x) (ts_Transitions x).
Definition set_Logs (l : list LogEntry) (x : TaskStatus) : TaskStatus :=
  mkTaskStatus (ts_State x) (ts_Progress x) (ts_Metadata x) l (ts_Transitions x).
Definition set_Transitions (l : list StateTransition) (x : TaskStatus) : TaskStatus :=
  mkTaskStatus (ts_State x) (ts_Progress x) (ts_Metadata x) (ts_Logs x) l.

(** The levels of zapcore. *)
Definition InfoLevel : Z := 0.

(** ** Contexts and channels *)

Definition context_Canceled : error := External "context canceled".

(** A context is the background context, the controller's, or the one made for a
    launched task, named by a number. *)
Inductive Context_ := Background | CtrlCtx | TaskCtx (n : nat).

#[export] Instance Context_eq_dec : EqDecision Context_.
Proof. solve_decision. Defined.

(** A channel: its capacity and the values waiting in it. *)
Record Chan (A : Type) := mkChan { ch_cap : nat; ch_buf : list A }.
Arguments mkChan {_} _ _.
Arguments ch_cap {_} _.
Arguments ch_buf {_} _.

(** [select { case ch <- v: default: }] *)
Definition try_send {A} (v : A) (c : Chan A) : Chan A :=
  if decide (length (ch_buf c) < ch_cap c) then mkChan (ch_cap c) (ch_buf c ++ [v])%list else c.

(** ** Options of a launch *)

(** Metadata of any type, with what encoding/json and reflect tell of it. *)
Class MetadataJSON (Any : Type) := {
  md_is_struct : Any -> bool;
  md_Marshal : Any -> outcome string;
  md_Unmarshal : string -> Any -> outcome Any }.

Record NewTaskOptions (Any : Type) := mkNewTaskOptions {
  o_metadata : option Any;
  o_jsonMetadata : option string;
  o_statusCallback : option nat;
  o_stateCallback : option nat }.
Arguments mkNewTaskOptions {_} _ _ _ _.
Arguments o_metadata {_} _.
Arguments o_jsonMetadata {_} _.
Arguments o_statusCallback {_} _.
Arguments o_stateCallback {_} _.

Definition NewTaskOption (Any : Type) : Type := NewTaskOptions Any -> NewTaskOptions Any.

Definition NewTaskOptions_apply {Any} (opts : list (NewTaskOption Any)) (o : NewTaskOptions Any)
  : NewTaskOptions Any := fold_left (fun o op => op o) opts o.

Definition WithMetadata `{MetadataJSON Any} (md : Any) : outcome (NewTaskOption Any) :=
  if negb (md_is_struct md) then Panic "metadata must be a json-encodable struct"
  else Ok (fun o => mkNewTaskOptions (Some md) (o_jsonMetadata o) (o_statusCallback o) (o_stateCallback o)).

Definition WithJsonMetadata {Any} (md : string) : NewTaskOption Any := fun o =>
  mkNewTaskOptions (o_metadata o) (Some md) (o_statusCallback o) (o_stateCallback o).

Definition WithStatusCallback {Any} (ch : nat) : NewTaskOption Any := fun o =>
  mkNewTaskOptions (o_metadata o) (o_jsonMetadata o) (Some ch) (o_stateCallback o).

Definition WithStateCallback {Any} (ch : nat) : NewTaskOption Any := fun o =>
  mkNewTaskOptions (o_metadata o) (o_jsonMetadata o) (o_statusCallback o) (Some ch).

(** ** The world of the controller *)

(** The goroutine [go sm.ActivateCtx(taskCtx)] of one launch: what its closures
    captured. *)
Record Launched := mkLaunched {
  l_id : string;
  l_ctx : nat;
  l_mdJson : string;
  l_statusCallback : option nat;
  l_stateCallback : option nat }.

Record World (W : Type) := mkWorld {
  w_store : W;                             (* the key-value store *)
  w_ctxErr : option error;                 (* [c.ctx.Err()] *)
  w_tasks : gmap string nat;               (* [c.tasks]: the context of each task *)
  w_canceled : gset nat;                   (* the task contexts that were canceled *)
  w_nextCtx : nat;
  w_clock : nat;                           (* readings of the clock so far *)
  w_statusCh : gmap nat (Chan (option TaskStatus));
  w_stateCh : gmap nat (Chan TaskState);
  w_goroutines : list Launched;
  w_completed : list (string * TaskState * list error) }.
Arguments mkWorld {_} _ _ _ _ _ _ _ _ _ _.
Arguments w_store {_} _.
Arguments w_ctxErr {_} _.
Arguments w_tasks {_} _.
Arguments w_canceled {_} _.
Arguments w_nextCtx {_} _.
Arguments w_clock {_} _.
Arguments w_statusCh {_} _.
Arguments w_stateCh {_} _.
Arguments w_goroutines {_} _.
Arguments w_completed {_} _.

Section WorldOps.
Context {W : Type}.
Implicit Types w : World W.

Definition with_store (s : W) w : World W :=
  mkWorld s (w_ctxErr w) (w_tasks w) (w_canceled w) (w_nextCtx w) (w_clock w)
    (w_statusCh w) (w_stateCh w) (w_goroutines w) (w_completed w).
Definition with_tasks (t : gmap string nat) w : World W :=
  mkWorld (w_store w) (w_ctxErr w) t (w_canceled w) (w_nextCtx w) (w_clock w)
    (w_statusCh w) (w_stateCh w) (w_goroutines w) (w_completed w).
Definition with_canceled (c : gset nat) w : World W :=
  mkWorld (w_store w) (w_ctxErr w) (w_tasks w) c (w_nextCtx w) (w_clock w)
    (w_statusCh w) (w_stateCh w) (w_goroutines w) (w_completed w).
Definition with_nextCtx (n : nat) w : World W :=
  mkWorld (w_store w) (w_ctxErr w) (w_tasks w) (w_canceled w) n (w_clock w)
    (w_statusCh w) (w_stateCh w) (w_goroutines w) (w_completed w).
Definition with_clock (n : nat) w : World W :=
  mkWorld (w_store w) (w_ctxErr w) (w_tasks w) (w_canceled w) (w_nextCtx w) n
    (w_statusCh w) (w_stateCh w) (w_goroutines w) (w_completed w).
Definition with_statusCh (c : gmap nat (Chan (option TaskStatus))) w : World W :=
  mkWorld (w_store w) (w_ctxErr w) (w_tasks w) (w_canceled w) (w_nextCtx w) (w_clock w)
    c (w_stateCh w) (w_goroutines w) (w_completed w).
Definition with_stateCh (c : gmap nat (Chan TaskState)) w : World W :=
  mkWorld (w_store w) (w_ctxErr w) (w_tasks w) (w_canceled w) (w_nextCtx w) (w_clock w)
    (w_statusCh w) c (w_goroutines w) (w_completed w).
Definition with_goroutines (g : list Launched) w : World W :=
  mkWorld (w_store w) (w_ctxErr w) (w_tasks w) (w_canceled w) (w_nextCtx w) (w_clock w)
    (w_statusCh w) (w_stateCh w) g (w_completed w).
Definition with_completed (c : list (string * TaskState * list error)) w : World W :=
  mkWorld (w_store w) (w_ctxErr w) (w_tasks w) (w_canceled w) (w_nextCtx w) (w_clock w)
    (w_statusCh w) (w_stateCh w) (w_goroutines w) c.

(** A call to the store acts on the store of the world. *)
Definition on_store {A} (m : M W A) : M (World W) A := fun w =>
  let '(s, o) := m (w_store w) in (with_store s w, o).

(** [ctx.Err()] *)
Definition ctx_Err (ctx : Context_) w : option error :=
  match ctx with
  | Background => None
  | CtrlCtx => w_ctxErr w
  | TaskCtx n => if bool_decide (n ∈ w_canceled w) then Some context_Canceled else w_ctxErr w
  end.

Definition cancel_ctx (n : nat) w : World W :=
  match ctx_Err (TaskCtx n) w with
  | None => with_canceled ({[n]} ∪ w_canceled w) w
  | Some _ => w
  end.

Definition get_world : M (World W) (World W) := fun w => (w, Ok w).
Definition modify (f : World W -> World W) : M (World W) unit := fun w => (f w, Ok tt).
End WorldOps.

(** A loop that retries without a bound has not returned yet when its fuel ends. *)
Definition still_retrying : string := "still retrying".

(** ** The state machine library *)

(** One call to [Fire]: the context the handlers will get, the trigger and its
    arguments (only the error trigger has one). *)
Record Firing := mkFiring { f_ctx : Context_; f_trigger : TaskTrigger; f_args : list error }.

(** What is configured on a machine.  A handler's last action is to fire a trigger
    or to return. *)
Record StateMachine (W : Type) := mkStateMachine {
  sm_accessor : Context_ -> M W TaskState;
  sm_mutator : Context_ -> TaskState -> M W unit;
  sm_OnTransitioning : TaskState -> M W unit;
  sm_Permit : TaskState -> TaskTrigger -> option TaskState;
  sm_OnActive : TaskState -> Context_ -> M W (option Firing);
  sm_OnEntry : TaskState -> Context_ -> list error -> M W (option Firing) }.
Arguments mkStateMachine {_} _ _ _ _ _ _.
Arguments sm_accessor {_} _ _ _.
Arguments sm_mutator {_} _ _ _ _.
Arguments sm_OnTransitioning {_} _ _ _.
Arguments sm_Permit {_} _ _ _.
Arguments sm_OnActive {_} _ _ _ _.
Arguments sm_OnEntry {_} _ _ _ _ _.

Definition unhandled_trigger : error :=
  External "stateless: No valid leaving transitions are permitted".

(** The documented run of a queue of triggers: the current state is read, a trigger
    no transition is permitted for is an error, and a permitted one calls the
    transition callback, stores the new state and runs its entry actions; a trigger
    fired by an entry action runs after it.  [fires sm n f w w' o]: firing [f] in
    [w] handles at most [n] triggers and ends in [w'] with [o]. *)
Inductive fires {W} (sm : StateMachine W) : nat -> Firing -> W -> W -> outcome unit -> Prop :=
| fires_no_state n f w w1 e :
    sm_accessor sm (f_ctx f) w = (w1, Err e) -> fires sm (S n) f w w1 (Err e)
| fires_unhandled n f w w1 s :
    sm_accessor sm (f_ctx f) w = (w1, Ok s) ->
    sm_Permit sm s (f_trigger f) = None ->
    fires sm (S n) f w w1 (Err unhandled_trigger)
| fires_not_stored n f w w1 w2 w3 s d e :
    sm_accessor sm (f_ctx f) w = (w1, Ok s) ->
    sm_Permit sm s (f_trigger f) = Some d ->
    sm_OnTransitioning sm d w1 = (w2, Ok tt) ->
    sm_mutator sm (f_ctx f) d w2 = (w3, Err e) ->
    fires sm (S n) f w w3 (Err e)
| fires_last n f w w1 w2 w3 w4 s d :
    sm_accessor sm (f_ctx f) w = (w1, Ok s) ->
    sm_Permit sm s (f_trigger f) = Some d ->
    sm_OnTransitioning sm d w1 = (w2, Ok tt) ->
    sm_mutator sm (f_ctx f) d w2 = (w3, Ok tt) ->
    sm_OnEntry sm d (f_ctx f) (f_args f) w3 = (w4, Ok None) ->
    fires sm (S n) f w w4 (Ok tt)
| fires_next n f g w w1 w2 w3 w4 w' s d o :
    sm_accessor sm (f_ctx f) w = (w1, Ok s) ->
    sm_Permit sm s (f_trigger f) = Some d ->
    sm_OnTransitioning sm d w1 = (w2, Ok tt) ->
    sm_mutator sm (f_ctx f) d w2 = (w3, Ok tt) ->
    sm_OnEntry sm d (f_ctx f) (f_args f) w3 = (w4, Ok (Some g)) ->
    fires sm n g w4 w' o ->
    fires sm (S n) f w w' o.

(** Activating a machine runs the activation action of its current state. *)
Inductive activates {W} (sm : StateMachine W) : nat -> Context_ -> W -> W -> outcome unit -> Prop :=
| activates_no_state n ctx w w1 e :
    sm_accessor sm ctx w = (w1, Err e) -> activates sm n ctx w w1 (Err e)
| activates_done n ctx w w1 w2 s :
    sm_accessor sm ctx w = (w1, Ok s) ->
    sm_OnActive sm s ctx w1 = (w2, Ok None) -> activates sm n ctx w w2 (Ok tt)
| activates_fire n ctx w w1 w2 w' s g o :
    sm_accessor sm ctx w = (w1, Ok s) ->
    sm_OnActive sm s ctx w1 = (w2, Ok (Some g)) ->
    fires sm n g w2 w' o -> activates sm n ctx w w' o.

(** [ActivateCtx] with a bound on the number of triggers it handles. *)
Class Stateless := {
  ActivateCtx : forall {W}, nat -> StateMachine W -> Context_ -> M W unit;
  ActivateCtx_law : forall {W} (sm : StateMachine W) n ctx w w' o,
    activates sm n ctx w w' o -> ActivateCtx n sm ctx w = (w', o) }.

(** ** task.go and types.go *)

(** What a handler of a [TaskRunner] does: a sequence of uses of its context and of
    the [ActiveTask], then an error or nil.  [RCancelTask] is no action of the
    runner: at that point another goroutine calls [CancelTask]. *)
Inductive RunnerM (Any : Type) : Type :=
| RReturn (err : option error)
| RCtxErr (k : option error -> RunnerM Any)
| RSetProgress (progress : option Progress) (k : RunnerM Any)
| RGetProgress (k : option Progress -> RunnerM Any)
| RAddLogEntry (level : Z) (msg : string) (k : RunnerM Any)
| RLoadTaskMetadata (output : Any) (k : Any -> RunnerM Any)
| RCancelTask (id : string) (k : RunnerM Any).
Arguments RReturn {_} _.
Arguments RCtxErr {_} _.
Arguments RSetProgress {_} _ _.
Arguments RGetProgress {_} _.
Arguments RAddLogEntry {_} _ _ _.
Arguments RLoadTaskMetadata {_} _ _.
Arguments RCancelTask {_} _ _.

Record TaskRunner (Any : Type) := mkTaskRunner {
  OnTaskPending : string -> RunnerM Any;
  OnTaskRunning : string -> RunnerM Any;
  OnTaskCompleted : string -> TaskState -> list error -> RunnerM Any }.
Arguments mkTaskRunner {_} _ _ _.
Arguments OnTaskPending {_} _ _.
Arguments OnTaskRunning {_} _ _.
Arguments OnTaskCompleted {_} _ _ _ _.

Section Controller.
Context {W Any : Type} `{MetadataJSON Any}.
Context (clock : nat -> Time) (fuel : nat).
Context (store : KeyValueStoreT W TaskStatus) (runner : TaskRunner Any).

(** [timestamppb.Now()] *)
Definition Now : M (World W) Time := fun w =>
  (with_clock (S (w_clock w)) w, Ok (clock (w_clock w))).

Definition task_status (id : string) : ValueStoreT W TaskStatus := NewValueStore store id.

(** A done controller context is taken before the answer of the store. *)
Fixpoint getStatus_loop (n : nat) (id : string) : M (World W) (option TaskStatus) :=
  match n with
  | O => fun w => (w, Panic still_retrying)
  | S n => fun w =>
      match ctx_Err CtrlCtx w with
      | Some _ => (w, Ok None)
      | None =>
          match on_store (v_Get (task_status id)) w with
          | (w', Ok status) => (w', Ok (Some status))
          | (w', Err _) => getStatus_loop n id w'
          | (w', Panic p) => (w', Panic p)
          end
      end
  end.

Definition getStatus (id : string) : M (World W) (option TaskStatus) := getStatus_loop fuel id.

Fixpoint putStatus_loop (n : nat) (id : string) (status : TaskStatus) : M (World W) unit :=
  match n with
  | O => fun w => (w, Panic still_retrying)
  | S n => fun w =>
      match ctx_Err CtrlCtx w with
      | Some _ => (w, Ok tt)
      | None =>
          match on_store (v_Put (task_status id) status) w with
          | (w', Ok _) => (w', Ok tt)
          | (w', Err _) => putStatus_loop n id status w'
          | (w', Panic p) => (w', Panic p)
          end
      end
  end.

Definition putStatus (id : string) (status : TaskStatus) : M (World W) unit :=
  putStatus_loop fuel id status.

Definition LoadTaskMetadata (id : string) (output : Any) : M (World W) Any :=
  let! status := getStatus id in
  let md := default "" (ts_Metadata <$> status) in
  if decide (TrimSpace md = "") then wret output
  else match md_Unmarshal md output with
       | Ok v => wret v
       | Err _ => fun w => (w, Panic "bug: failed to unmarshal task metadata")
       | Panic p => fun w => (w, Panic p)
       end.

Definition SetProgress (id : string) (progress : option Progress) : M (World W) unit :=
  let! status := getStatus id in
  match status with
  | None => wret tt
  | Some status => putStatus id (set_Progress progress status)
  end.

Definition GetProgress (id : string) : M (World W) (option Progress) :=
  let! status := getStatus id in wret (status ≫= ts_Progress).

Definition AddLogEntry (id : string) (level : Z) (msg : string) : M (World W) unit :=
  let! status := getStatus id in
  match status with
  | None => wret tt
  | Some status =>
      let! now := Now in
      putStatus id (set_Logs (ts_Logs status ++ [mkLogEntry msg level now])%list status)
  end.

(** The caller reads the clock to build the transition. *)
Definition logTransition (id : string) (transition : StateTransition) : M (World W) unit :=
  let! status := getStatus id in
  match status with
  | None => wret tt
  | Some status =>
      putStatus id (set_Transitions (ts_Transitions status ++ [transition])%list status)
  end.

(** ** controller.go *)

Definition CancelTask (id : string) (w : World W) : World W :=
  let w1 := match w_tasks w !! id with
            | Some n => cancel_ctx n w
            | None => w
            end in
  with_tasks (delete id (w_tasks w1)) w1.

(** A handler of the runner, called for task [id] with context [ctx]. *)
Fixpoint run_runner (r : RunnerM Any) (id : string) (ctx : Context_) : M (World W) (option error) :=
  match r with
  | RReturn err => wret err
  | RCtxErr k => let! w := get_world in run_runner (k (ctx_Err ctx w)) id ctx
  | RSetProgress p k => SetProgress id p ;! run_runner k id ctx
  | RGetProgress k => let! p := GetProgress id in run_runner (k p) id ctx
  | RAddLogEntry level msg k => AddLogEntry id level msg ;! run_runner k id ctx
  | RLoadTaskMetadata output k => let! v := LoadTaskMetadata id output in run_runner (k v) id ctx
  | RCancelTask other k => modify (CancelTask other) ;! run_runner k id ctx
  end.

Section Machine.
Context (l : Launched).

Definition accessor (_ : Context_) : M (World W) TaskState :=
  let! status := on_store (v_Get (task_status (l_id l))) in wret (ts_State status).

Definition mutator (_ : Context_) (state : TaskState) : M (World W) unit :=
  let! ts := wcatch (on_store (v_Get (task_status (l_id l))))
               (fun err => if decide (StatusCode err = codes_NotFound)
                           then wret (mkTaskStatus state None (l_mdJson l) [] [])
                           else wfail err) in
  on_store (v_Put (task_status (l_id l)) (set_State state ts)).

Definition onTransitioning (destination : TaskState) : M (World W) unit :=
  let! now := Now in logTransition (l_id l) (mkStateTransition destination now).

Definition permit (s : TaskState) (t : TaskTrigger) : option TaskState :=
  match s, t with
  | TaskState_Pending, TaskTrigger_Start => Some TaskState_Running
  | TaskState_Pending, TaskTrigger_Cancel => Some TaskState_Canceled
  | TaskState_Running, TaskTrigger_End => Some TaskState_Completed
  | TaskState_Running, TaskTrigger_Cancel => Some TaskState_Canceled
  | TaskState_Running, TaskTrigger_Error => Some TaskState_Failed
  | _, _ => None
  end.

(** The triggers fired after an error of a runner's handler. *)
Definition fire_error (ctx : Context_) (err : error) : M (World W) (option Firing) :=
  let! w := get_world in
  if decide (ctx_Err ctx w = Some err)
  then wret (Some (mkFiring Background TaskTrigger_Cancel []))
  else wret (Some (mkFiring Background TaskTrigger_Error [err])).

Definition pending_OnActive (ctx : Context_) : M (World W) (option Firing) :=
  let! err := run_runner (OnTaskPending runner (l_id l)) (l_id l) ctx in
  match err with
  | Some err => fire_error ctx err
  | None => wret (Some (mkFiring ctx TaskTrigger_Start []))
  end.

Definition running_OnEntry (ctx : Context_) : M (World W) (option Firing) :=
  let! err := run_runner (OnTaskRunning runner (l_id l)) (l_id l) ctx in
  match err with
  | Some err => fire_error ctx err
  | None => wret (Some (mkFiring Background TaskTrigger_End []))
  end.

Definition send_status (status : option TaskStatus) (w : World W) : World W :=
  match l_statusCallback l with
  | Some ch => with_statusCh (alter (try_send status) ch (w_statusCh w)) w
  | None => w
  end.

Definition send_state (state : TaskState) (w : World W) : World W :=
  match l_stateCallback l with
  | Some ch => with_stateCh (alter (try_send state) ch (w_stateCh w)) w
  | None => w
  end.

Definition maybeSendCallbacks : M (World W) unit :=
  let! status := getStatus (l_id l) in
  modify (send_status status) ;!
  modify (send_state (default TaskState_Unknown (ts_State <$> status))).

Definition completed_OnEntry (state : TaskState) (ctx : Context_) (args : list error)
  : M (World W) (option Firing) :=
  modify (fun w => with_completed (w_completed w ++ [(l_id l, state, args)])%list w) ;!
  run_runner (OnTaskCompleted runner (l_id l) state args) (l_id l) ctx ;!
  maybeSendCallbacks ;! wret None.

Definition machine : StateMachine (World W) :=
  {| sm_accessor := accessor;
     sm_mutator := mutator;
     sm_OnTransitioning := onTransitioning;
     sm_Permit := permit;
     sm_OnActive s ctx :=
       match s with TaskState_Pending => pending_OnActive ctx | _ => wret None end;
     sm_OnEntry s ctx args :=
       match s with
       | TaskState_Running => running_OnEntry ctx
       | TaskState_Completed | TaskState_Failed | TaskState_Canceled => completed_OnEntry s ctx args
       | _ => wret None
       end |}.
End Machine.

(** What is kept of the saved status of a task that is launched again. *)
Definition restart_status (mdJson : string) (state : TaskState) (now : Time) (prev : TaskStatus)
  : TaskStatus :=
  let prev := set_State TaskState_Pending prev in
  match state with
  | TaskState_Running => prev
  | TaskState_Failed =>
      set_Logs (ts_Logs prev ++
        [mkLogEntry ("internal: restarting task (previous state: " +:+ TaskState_String state +:+ ")")
           InfoLevel now])%list
        (set_Metadata mdJson (set_Progress None prev))
  | TaskState_Canceled => set_Transitions [] (set_Logs [] (set_Metadata mdJson prev))
  | _ => set_Transitions [] (set_Logs [] (set_Metadata mdJson (set_Progress None prev)))
  end.

Definition launch_metadata (options : NewTaskOptions Any) : outcome string :=
  match o_jsonMetadata options, o_metadata options with
  | Some md, _ => Ok md
  | None, Some md => omap_err (Wrapped "failed to marshal metadata") (md_Marshal md)
  | None, None => Ok ""
  end.

(** The status the machine starts from: a new one, or the saved one restarted.  An
    error of the store other than not-found does not stop the launch here. *)
Definition launch_status (l : Launched) : M (World W) unit := fun w =>
  match accessor l (TaskCtx (l_ctx l)) w with
  | (w1, Err e) =>
      if decide (StatusCode e = codes_NotFound)
      then mutator l (TaskCtx (l_ctx l)) TaskState_Pending w1
      else (w1, Ok tt)
  | (w1, Ok state) =>
      (let! prev := on_store (v_Get (task_status (l_id l))) in
       match state with
       | TaskState_Failed =>
           let! now := Now in
           on_store (v_Put (task_status (l_id l)) (restart_status (l_mdJson l) state now prev))
       | _ => on_store (v_Put (task_status (l_id l)) (restart_status (l_mdJson l) state 0%Z prev))
       end) w1
  | (w1, Panic p) => (w1, Panic p)
  end.

Definition LaunchTask (id : string) (opts : list (NewTaskOption Any)) : M (World W) unit := fun w =>
  match ctx_Err CtrlCtx w with
  | Some err => (w, Err (Wrapped "cannot launch task" err))
  | None =>
      let options := NewTaskOptions_apply opts (mkNewTaskOptions None None None None) in
      (let! mdJson := wlift (launch_metadata options) in
       let! w := get_world in
       modify (fun w => match w_tasks w !! id with Some n => cancel_ctx n w | None => w end) ;!
       let taskCtx := w_nextCtx w in
       let l := mkLaunched id taskCtx mdJson (o_statusCallback options) (o_stateCallback options) in
       modify (fun w => with_tasks (<[id := taskCtx]> (w_tasks w)) (with_nextCtx (S taskCtx) w)) ;!
       launch_status l ;!
       let! now := Now in
       logTransition id (mkStateTransition TaskState_Pending now) ;!
       modify (fun w => with_goroutines (w_goroutines w ++ [l])%list w)) w
  end.

Definition ListTasks : M (World W) (list string) :=
  let! keys := on_store (kv_ListKeys store "") in wret (map path_Base keys).

Definition Controller_TaskStatus (id : string) : M (World W) TaskStatus :=
  on_store (v_Get (task_status id)).

(** The loop of [NewController] for one saved task. *)
Fixpoint resume_task (n : nat) (id : string) : M (World W) unit :=
  match n with
  | O => fun w => (w, Panic still_retrying)
  | S n => fun w =>
      match Controller_TaskStatus id w with
      | (w1, Err e) =>
          if decide (StatusCode e = codes_NotFound) then (w1, Ok tt) else resume_task n id w1
      | (w1, Ok status) =>
          match ts_State status with
          | TaskState_Pending | TaskState_Running =>
              match LaunchTask id [WithJsonMetadata (ts_Metadata status)] w1 with
              | (w2, Err _) => resume_task n id w2
              | r => r
              end
          | TaskState_Completed | TaskState_Failed | TaskState_Canceled =>
              wcatch (on_store (v_Delete (task_status id))) (fun _ => wret tt) w1
          | TaskState_Unknown => (w1, Ok tt)
          end
      | (w1, Panic p) => (w1, Panic p)
      end
  end.

Fixpoint resume_tasks (ids : list string) : M (World W) unit :=
  match ids with
  | [] => wret tt
  | id :: ids => resume_task fuel id ;! resume_tasks ids
  end.

Definition resume_all : M (World W) unit :=
  let! existingTasks := ListTasks in resume_tasks existingTasks.

(** One goroutine of a launched task, run to its end.  Two triggers are handled at
    most: one leaves Pending and one leaves Running. *)
Definition run_task `{Stateless} (l : Launched) : M (World W) unit :=
  ActivateCtx 2 (machine l) (TaskCtx (l_ctx l)).
End Controller.

Definition tasks_prefix (name : string) : string := "/tasks/" +:+ name +:+ "/".

(** [NewController] over the store it is given. *)
Definition NewController {W Any} `{MetadataJSON Any} (clock : nat -> Time) (fuel : nat)
    (name : string) (base : KeyValueStoreT W TaskStatus) (runner : TaskRunner Any)
    (ctxErr : option error) (s : W) : World W * outcome unit :=
  resume_all clock fuel (NewKeyValueStoreWithPrefix base (tasks_prefix name))
    (mkWorld s ctxErr ∅ ∅ 0 0 ∅ ∅ [] []).
