(* ===== verification/TaskProps.v ===== *)
(** pkg/task: what the task controller guarantees over a store that answers every
    call: the life cycle of a launched task, what a relaunch keeps, and which
    tasks a new controller resumes. *)

From S2P Require Import Prelude GoStd Util CoreV1 Storage Task.

Local Open Scope string_scope.

(** ** A store that answers *)

(** The contract a task controller needs of its store for its retry loops to end at
    the first attempt.  [view] is the content of the store. *)
Class ReliableKV {W T} (s : KeyValueStoreT W T) (view : W -> string -> option T) : Prop := {
  rl_get w k v : view w k = Some v -> kv_Get s k w = (w, Ok v);
  rl_missing w k : view w k = None -> kv_Get s k w = (w, Err ErrNotFound);
  rl_put w k v : exists w', kv_Put s k v w = (w', Ok tt) /\
    forall j, view w' j = if decide (j = k) then Some v else view w j;
  rl_delete w k : is_Some (view w k) -> exists w', kv_Delete s k w = (w', Ok tt) /\
    forall j, view w' j = if decide (j = k) then None else view w j }.

(** The contract of [ListKeys]: every key that starts with the prefix, once. *)
Class ListingKV {W T} (s : KeyValueStoreT W T) (view : W -> string -> option T) : Prop :=
  rl_list w p : exists ks, kv_ListKeys s p w = (w, Ok ks) /\ NoDup ks /\
    forall k, k ∈ ks <-> HasPrefix k p = true /\ is_Some (view w k).

#[export] Instance ReliableKV_prefix {W T} (s : KeyValueStoreT W T) view prefix :
  ReliableKV s view ->
  ReliableKV (NewKeyValueStoreWithPrefix s prefix) (fun w k => view w (prefix +:+ k)).
Proof.
  intros [Hg Hm Hp Hd]. split; cbn.
  - auto.
  - auto.
  - intros w k v. destruct (Hp w (prefix +:+ k) v) as (w' & ? & Hv). exists w'. split; [done|].
    intros j. rewrite Hv. repeat case_decide; subst; try done. by apply str_app_inj_l in H0.
  - intros w k Hk. destruct (Hd w (prefix +:+ k) Hk) as (w' & ? & Hv). exists w'. split; [done|].
    intros j. rewrite Hv. repeat case_decide; subst; try done. by apply str_app_inj_l in H0.
Qed.

(** A store kept in a map, the concrete store of the examples. *)
Definition map_store {T} : KeyValueStoreT (gmap string T) T :=
  {| kv_Put k v := fun m => (<[k := v]> m, Ok tt);
     kv_Get k := fun m => (m, match m !! k with Some v => Ok v | None => Err ErrNotFound end);
     kv_Delete k := fun m =>
       match m !! k with Some _ => (delete k m, Ok tt) | None => (m, Err ErrNotFound) end;
     kv_ListKeys p := fun m =>
       (m, Ok (filter (fun k => HasPrefix k p = true) (map fst (map_to_list m)))) |}.

#[export] Instance map_store_reliable {T} :
  ReliableKV (@map_store T) (fun m k => m !! k).
Proof.
  split; cbn.
  - by intros w k v ->.
  - by intros w k ->.
  - intros w k v. eexists; split; [done|]. intros j. case_decide; subst.
    + by rewrite lookup_insert_eq. + by rewrite lookup_insert_ne.
  - intros w k [v Hv]. rewrite Hv. eexists; split; [done|]. intros j. case_decide; subst.
    + by rewrite lookup_delete_eq. + by rewrite lookup_delete_ne.
Qed.

#[export] Instance map_store_listing {T} : ListingKV (@map_store T) (fun m k => m !! k).
Proof.
  intros w p. eexists; split; [done|]. split; [apply list.NoDup_filter, NoDup_fst_map_to_list|].
  intros k. rewrite list_elem_of_filter, list_elem_of_fmap. split.
  - intros (Hp & [k' v] & -> & Hin%elem_of_map_to_list). cbn in *. eauto.
  - intros [Hp [v Hv]]. split; [done|]. exists (k, v). split; [done|]. by apply elem_of_map_to_list.
Qed.

(** ** Frames *)

Section Props.
Context {W Any : Type} `{MetadataJSON Any} (clock : nat -> Time) (fuel : nat).
Context (store : KeyValueStoreT W TaskStatus) (view : W -> string -> option TaskStatus).
Context `{!ReliableKV store view} (runner : TaskRunner Any).
Implicit Types (w : World W) (id : string) (st : TaskStatus).

(** The status of task [id], in a world whose controller is alive. *)
Definition live id st w : Prop := w_ctxErr w = None /\ view (w_store w) id = Some st.

(** What the handlers of a runner cannot touch: the state, the metadata and the
    transitions of their task, every other task, the callbacks and the goroutines. *)
Record untouched id w w' : Prop := {
  un_ctx : w_ctxErr w' = w_ctxErr w;
  un_status st : view (w_store w) id = Some st -> exists st', view (w_store w') id = Some st' /\
    ts_State st' = ts_State st /\ ts_Metadata st' = ts_Metadata st /\
    ts_Transitions st' = ts_Transitions st;
  un_others j : j <> id -> view (w_store w') j = view (w_store w) j;
  un_statusCh : w_statusCh w' = w_statusCh w;
  un_stateCh : w_stateCh w' = w_stateCh w;
  un_goroutines : w_goroutines w' = w_goroutines w;
  un_completed : w_completed w' = w_completed w }.

#[local] Instance untouched_refl id : Reflexive (untouched id).
Proof. intros w. split; eauto. Qed.

#[local] Instance untouched_trans id : Transitive (untouched id).
Proof.
  intros w1 w2 w3 H1 H2. destruct H1, H2. split; try congruence.
  - intros st Hst. destruct (un_status0 _ Hst) as (st2 & Hst2 & ? & ? & ?).
    destruct (un_status1 _ Hst2) as (st3 & ? & ? & ? & ?). exists st3. intuition congruence.
  - intros j Hj. rewrite un_others1 by done. auto.
Qed.

Lemma untouched_live id st w w' :
  untouched id w w' -> live id st w -> exists st', live id st' w' /\
    ts_State st' = ts_State st /\ ts_Transitions st' = ts_Transitions st.
Proof.
  intros Hu [Hc Hv]. destruct (un_status _ _ _ Hu _ Hv) as (st' & ? & ? & ? & ?).
  exists st'. split; [|done]. split; [|done]. by rewrite (un_ctx _ _ _ Hu).
Qed.

(** ** Reads and writes of the status *)

Lemma get_live id st w :
  live id st w -> on_store (v_Get (task_status store id)) w = (w, Ok st).
Proof.
  intros [_ Hv]. unfold on_store. cbn. rewrite (rl_get _ _ _ Hv). by destruct w.
Qed.

Lemma getStatus_live id st w :
  0 < fuel -> live id st w -> getStatus fuel store id w = (w, Ok (Some st)).
Proof using ReliableKV0.
  intros Hf Hl. unfold getStatus. destruct fuel; [lia|]. cbn [getStatus_loop].
  unfold ctx_Err. rewrite (proj1 Hl). by rewrite (get_live _ _ _ Hl).
Qed.

(** What a write of the status of [id] leaves: the new status, all else as before. *)
Record written id st w w' : Prop := {
  wr_live : view (w_store w') id = Some st;
  wr_others j : j <> id -> view (w_store w') j = view (w_store w) j;
  wr_rest : exists s, w' = with_store s w }.

Lemma put_written id st w :
  exists w', on_store (v_Put (task_status store id) st) w = (w', Ok tt) /\ written id st w w'.
Proof using ReliableKV0.
  unfold on_store. cbn. destruct (rl_put (w_store w) id st) as (s & -> & Hs).
  eexists; split; [done|]. split; cbn; [| |by eexists].
  - rewrite Hs. by rewrite decide_True.
  - intros j Hj. rewrite Hs. by rewrite decide_False.
Qed.

Lemma putStatus_written id st w :
  0 < fuel -> w_ctxErr w = None ->
  exists w', putStatus fuel store id st w = (w', Ok tt) /\ written id st w w'.
Proof using ReliableKV0.
  intros Hf Hc. unfold putStatus. destruct fuel; [lia|]. cbn [putStatus_loop].
  unfold ctx_Err. rewrite Hc. destruct (put_written id st w) as (w' & -> & Hw). eauto.
Qed.

Lemma written_live id st w w' : w_ctxErr w = None -> written id st w w' -> live id st w'.
Proof. by intros Hc [Hv _ [s ->]]. Qed.

Lemma written_untouched id st0 st w w' :
  view (w_store w) id = Some st0 -> ts_State st = ts_State st0 -> ts_Metadata st = ts_Metadata st0 ->
  ts_Transitions st = ts_Transitions st0 -> written id st w w' -> untouched id w w'.
Proof.
  intros Hv H1 H2 H3 [Hw Ho [s ->]]. split; try done.
  intros st' Hst'. exists st. rewrite Hv in Hst'. by simplify_eq.
Qed.

Lemma with_clock_untouched id n w : untouched id w (with_clock n w).
Proof. split; cbn; eauto. Qed.

Lemma CancelTask_untouched id id' w : untouched id w (CancelTask id' w).
Proof.
  unfold CancelTask, cancel_ctx. destruct (w_tasks w !! id'); [destruct (ctx_Err _ w)|]; split; cbn; eauto.
Qed.

(** ** The ActiveTask interface *)

Section Active.
Context (Hfuel : 0 < fuel).

Lemma SetProgress_ok id st p w : live id st w ->
  exists w', SetProgress fuel store id p w = (w', Ok tt) /\
    live id (set_Progress p st) w' /\ untouched id w w'.
Proof using Hfuel ReliableKV0.
  intros Hl. unfold SetProgress. rewrite (wbind_eq_Ok _ _ _ _ _ (getStatus_live _ _ _ Hfuel Hl)).
  destruct (putStatus_written id (set_Progress p st) w Hfuel (proj1 Hl)) as (w' & -> & Hw).
  exists w'. split; [done|]. split; [by eapply written_live, Hw; apply Hl|].
  by eapply (written_untouched id st), Hw; [apply Hl|..].
Qed.

Lemma AddLogEntry_ok id st level msg w : live id st w ->
  exists w', AddLogEntry clock fuel store id level msg w = (w', Ok tt) /\
    live id (set_Logs (ts_Logs st ++ [mkLogEntry msg level (clock (w_clock w))])%list st) w' /\
    untouched id w w'.
Proof using Hfuel ReliableKV0.
  intros Hl. unfold AddLogEntry. rewrite (wbind_eq_Ok _ _ _ _ _ (getStatus_live _ _ _ Hfuel Hl)).
  cbn. set (st' := set_Logs _ _). set (w1 := with_clock _ _).
  destruct (putStatus_written id st' w1 Hfuel (proj1 Hl)) as (w' & -> & Hw).
  exists w'. split; [done|]. split; [by eapply written_live, Hw; apply Hl|].
  etrans; [apply with_clock_untouched|]. by eapply (written_untouched id st), Hw; [apply Hl|..].
Qed.

Lemma logTransition_ok id st tr w : live id st w ->
  exists w', logTransition fuel store id tr w = (w', Ok tt) /\
    written id (set_Transitions (ts_Transitions st ++ [tr])%list st) w w'.
Proof using Hfuel ReliableKV0.
  intros Hl. unfold logTransition. rewrite (wbind_eq_Ok _ _ _ _ _ (getStatus_live _ _ _ Hfuel Hl)).
  apply putStatus_written; [done | apply Hl].
Qed.

Lemma GetProgress_ok id st w : live id st w ->
  GetProgress fuel store id w = (w, Ok (ts_Progress st)).
Proof using Hfuel ReliableKV0.
  intros Hl. unfold GetProgress. by rewrite (wbind_eq_Ok _ _ _ _ _ (getStatus_live _ _ _ Hfuel Hl)).
Qed.

Lemma LoadTaskMetadata_inv id st out w w' o : live id st w ->
  LoadTaskMetadata fuel store id out w = (w', o) -> w' = w.
Proof using Hfuel ReliableKV0.
  intros Hl. unfold LoadTaskMetadata. rewrite (wbind_eq_Ok _ _ _ _ _ (getStatus_live _ _ _ Hfuel Hl)).
  cbn. case_decide; [by intros [= ->]|]. by destruct (md_Unmarshal _ _); intros [= ->].
Qed.

(** Whatever a handler of a runner does, it leaves the state machine alone. *)
Lemma run_runner_untouched r id ctx st w w' o :
  live id st w -> run_runner clock fuel store r id ctx w = (w', o) -> untouched id w w'.
Proof using Hfuel ReliableKV0.
  revert st w. induction r as [err|k IH|p k IH|k IH|level msg k IH|out k IH|id' k IH];
    intros st w Hl; cbn [run_runner].
  - by intros [= ->].
  - apply (IH _ st); done.
  - destruct (SetProgress_ok id st p w Hl) as (w1 & Hw1 & Hl1 & Hu).
    rewrite (wbind_eq_Ok _ _ _ _ _ Hw1). intros Hr. etrans; [done|]. by eapply IH.
  - rewrite (wbind_eq_Ok _ _ _ _ _ (GetProgress_ok _ _ _ Hl)). by apply (IH _ st).
  - destruct (AddLogEntry_ok id st level msg w Hl) as (w1 & Hw1 & Hl1 & Hu).
    rewrite (wbind_eq_Ok _ _ _ _ _ Hw1). intros Hr. etrans; [done|]. by eapply IH.
  - destruct (LoadTaskMetadata fuel store id out w) as [w1 o1] eqn:E.
    pose proof (LoadTaskMetadata_inv _ _ _ _ _ _ Hl E) as ->.
    unfold wbind at 1. rewrite E. destruct o1 as [v|e|p]; [by apply (IH _ st)| |]; by intros [= ->].
  - cbn. intros Hr. etrans; [apply (CancelTask_untouched id id')|].
    destruct (untouched_live _ _ _ _ (CancelTask_untouched id id' w) Hl) as (st' & Hl' & _).
    by eapply IH.
Qed.

(** ** Entering a state *)

(** Everything of the world but the status of [id] and what the handlers of the
    runner may change. *)
Record elsewhere id w w' : Prop := {
  el_ctx : w_ctxErr w' = w_ctxErr w;
  el_others j : j <> id -> view (w_store w') j = view (w_store w) j;
  el_goroutines : w_goroutines w' = w_goroutines w }.

#[local] Instance elsewhere_trans id : Transitive (elsewhere id).
Proof.
  intros w1 w2 w3 [] []. split; try congruence. intros j Hj. rewrite el_others1 by done. auto.
Qed.

Lemma untouched_elsewhere id w w' : untouched id w w' -> elsewhere id w w'.
Proof. intros []. by split. Qed.

Lemma accessor_live l st ctx w :
  live (l_id l) st w -> accessor store l ctx w = (w, Ok (ts_State st)).
Proof using ReliableKV0.
  intros Hl. unfold accessor. by rewrite (wbind_eq_Ok _ _ _ _ _ (get_live _ _ _ Hl)).
Qed.

(** The status once the machine has moved to [d] at time [t]. *)
Definition moved (d : TaskState) (t : Time) st : TaskStatus :=
  set_State d (set_Transitions (ts_Transitions st ++ [mkStateTransition d t])%list st).

(** A transition logs itself, then stores the new state. *)
Lemma enter_state l st d ctx w : live (l_id l) st w ->
  exists w1 w2, onTransitioning clock fuel store l d w = (w1, Ok tt) /\
    mutator store l ctx d w1 = (w2, Ok tt) /\
    live (l_id l) (moved d (clock (w_clock w)) st) w2 /\
    elsewhere (l_id l) w w2 /\ w_statusCh w2 = w_statusCh w /\ w_stateCh w2 = w_stateCh w /\
    w_completed w2 = w_completed w.
Proof using Hfuel ReliableKV0.
  intros Hl. unfold onTransitioning. cbn.
  destruct (logTransition_ok (l_id l) st (mkStateTransition d (clock (w_clock w)))
              (with_clock (S (w_clock w)) w) Hl) as (w1 & -> & Hw1).
  assert (Hl1 := written_live _ _ _ _ (proj1 Hl : w_ctxErr (with_clock _ w) = None) Hw1).
  unfold mutator, wcatch.
  set (st' := moved d (clock (w_clock w)) st).
  destruct (put_written (l_id l) st' w1) as (w2 & Hp & Hw2).
  exists w1, w2. split; [done|]. unfold wbind. rewrite (get_live _ _ _ Hl1).
  split; [exact Hp|]. destruct Hw1 as [? Ho1 [s1 ->]], Hw2 as [? Ho2 [s2 ->]].
  repeat split; try done; try apply Hl.
  intros j Hj. by rewrite Ho2, Ho1.
Qed.

(** A handler of the runner that returns, in every world its task is live in. *)
Definition returns (r : RunnerM Any) id (ctx : Context_) : Prop :=
  forall w st, live id st w -> exists w' err, run_runner clock fuel store r id ctx w = (w', Ok err).

(** What the end of a task leaves: the final status is stored with its transitions,
    the runner was told once and the callbacks were offered that status. *)
Definition ended (l : Launched) (w : World W) (d : TaskState) (args : list error)
    (trs : list StateTransition) (w' : World W) : Prop :=
  exists final, live (l_id l) final w' /\ ts_State final = d /\ ts_Transitions final = trs /\
    w_completed w' = (w_completed w ++ [(l_id l, d, args)])%list /\
    w_statusCh w' = w_statusCh (send_status l (Some final) w) /\
    w_stateCh w' = w_stateCh (send_state l d w) /\
    elsewhere (l_id l) w w'.

Lemma completed_ended l st ctx args w :
  live (l_id l) st w ->
  returns (OnTaskCompleted runner (l_id l) (ts_State st) args) (l_id l) ctx ->
  exists w', completed_OnEntry clock fuel store runner l (ts_State st) ctx args w = (w', Ok None) /\
    ended l w (ts_State st) args (ts_Transitions st) w'.
Proof using Hfuel ReliableKV0.
  intros Hl Hret. unfold completed_OnEntry. cbn.
  set (w0 := with_completed _ w). assert (Hl0 : live (l_id l) st w0) by exact Hl.
  destruct (Hret w0 st Hl0) as (w1 & err & Hr). rewrite (wbind_eq_Ok _ _ _ _ _ Hr).
  pose proof (run_runner_untouched _ _ _ _ _ _ _ Hl0 Hr) as Hu.
  destruct (untouched_live _ _ _ _ Hu Hl0) as (fin & Hl1 & Hs & Ht).
  unfold maybeSendCallbacks. rewrite (wbind_eq_Ok (W := World W) _ _ w1
    (send_state l (ts_State fin) (send_status l (Some fin) w1)) tt).
  2:{ by rewrite (wbind_eq_Ok _ _ _ _ _ (getStatus_live _ _ _ Hfuel Hl1)). }
  eexists; split; [done|]. exists fin.
  destruct Hl1 as [Hc1 Hv1]. destruct Hu. cbn in *. rewrite Hs.
  unfold send_state, send_status.
  destruct (l_statusCallback l), (l_stateCallback l); cbn; repeat split; cbn; congruence || auto.
Qed.

Lemma fires_end l st n f d w :
  live (l_id l) st w -> permit (ts_State st) (f_trigger f) = Some d -> end_state d = true ->
  returns (OnTaskCompleted runner (l_id l) d (f_args f)) (l_id l) (f_ctx f) ->
  exists w', fires (machine clock fuel store runner l) (S n) f w w' (Ok tt) /\
    ended l w d (f_args f) (ts_Transitions st ++ [mkStateTransition d (clock (w_clock w))])%list w'.
Proof using Hfuel ReliableKV0.
  intros Hl Hp Hd Hret.
  destruct (enter_state l st d (f_ctx f) w Hl) as (w1 & w2 & Hon & Hmu & Hl2 & He & Hc1 & Hc2 & Hco).
  destruct (completed_ended l _ (f_ctx f) (f_args f) w2 Hl2 Hret) as (w3 & Hce & fin & Hl3 & Hend).
  exists w3. split.
  - eapply (fires_last _ _ _ _ _ _ _ _ (ts_State st) d); cbn; [by apply accessor_live|done..|].
    by destruct d.
  - exists fin. destruct Hend as (? & ? & Hco' & Hc1' & Hc2' & He').
    split; [done|]. split; [done|]. split; [done|].
    split_and!; [| | |by etrans].
    + by rewrite Hco', Hco.
    + rewrite Hc1'. unfold send_status. destruct (l_statusCallback l); cbn; by rewrite Hc1.
    + rewrite Hc2'. unfold send_state. destruct (l_stateCallback l); cbn; by rewrite Hc2.
Qed.

(** The end state a handler's error leads to, and the arguments of the trigger. *)
Definition end_of (ctxErr err : option error) : TaskState * list error :=
  match err with
  | None => (TaskState_Completed, [])
  | Some e => if decide (ctxErr = Some e) then (TaskState_Canceled, []) else (TaskState_Failed, [e])
  end.

Lemma fire_error_spec ctx e w :
  fire_error ctx e w =
  (w, Ok (Some (if decide (ctx_Err ctx w = Some e) then mkFiring Background TaskTrigger_Cancel []
                else mkFiring Background TaskTrigger_Error [e]))).
Proof. unfold fire_error. cbn. by case_decide. Qed.

(** The trigger the entry action of Running fires. *)
Lemma running_fires l w w1 err :
  run_runner clock fuel store (OnTaskRunning runner (l_id l)) (l_id l) (TaskCtx (l_ctx l)) w = (w1, Ok err) ->
  exists g, running_OnEntry clock fuel store runner l (TaskCtx (l_ctx l)) w = (w1, Ok (Some g)) /\
    let '(d, args) := end_of (ctx_Err (TaskCtx (l_ctx l)) w1) err in
    permit TaskState_Running (f_trigger g) = Some d /\ end_state d = true /\
    f_args g = args /\ f_ctx g = Background.
Proof.
  intros Hr. unfold running_OnEntry. rewrite (wbind_eq_Ok _ _ _ _ _ Hr).
  destruct err as [e|]; [rewrite fire_error_spec|]; eexists; (split; [done|]); cbn; [|done].
  by case_decide.
Qed.

(** The run of the second half of a task: from the trigger that starts it. *)
Lemma fires_start l st w :
  live (l_id l) st w -> ts_State st = TaskState_Pending ->
  returns (OnTaskRunning runner (l_id l)) (l_id l) (TaskCtx (l_ctx l)) ->
  (forall d args, returns (OnTaskCompleted runner (l_id l) d args) (l_id l) Background) ->
  exists w2 st2 w3 err w' t1 t2,
    live (l_id l) st2 w2 /\ ts_State st2 = TaskState_Running /\
    run_runner clock fuel store (OnTaskRunning runner (l_id l)) (l_id l) (TaskCtx (l_ctx l)) w2
      = (w3, Ok err) /\
    fires (machine clock fuel store runner l) 2 (mkFiring (TaskCtx (l_ctx l)) TaskTrigger_Start [])
      w w' (Ok tt) /\
    let '(d, args) := end_of (ctx_Err (TaskCtx (l_ctx l)) w3) err in
    ended l w d args (ts_Transitions st ++ [mkStateTransition TaskState_Running t1; mkStateTransition d t2])%list w'.
Proof using Hfuel ReliableKV0.
  intros Hl Hs Hrun Hcomp.
  destruct (enter_state l st TaskState_Running (TaskCtx (l_ctx l)) w Hl)
    as (w1 & w2 & Hon & Hmu & Hl2 & He & Hc1 & Hc2 & Hco).
  destruct (Hrun w2 _ Hl2) as (w3 & err & Hr).
  pose proof (run_runner_untouched _ _ _ _ _ _ _ Hl2 Hr) as Hu.
  destruct (untouched_live _ _ _ _ Hu Hl2) as (st3 & Hl3 & Hs3 & Ht3). cbn in Hs3, Ht3.
  destruct (running_fires l w2 w3 err Hr) as (g & Hg & Hgd).
  destruct (end_of (ctx_Err (TaskCtx (l_ctx l)) w3) err) as [d args] eqn:Hd.
  destruct Hgd as (Hp & Hend & <- & Hbg). rewrite <- Hs3 in Hp.
  destruct (fires_end l st3 0 g d w3 Hl3 Hp Hend) as (w' & Hf & fin & Hl' & Hfs & Hft & Hco' & Hc1' & Hc2' & He').
  { rewrite Hbg. apply Hcomp. }
  exists w2, (moved TaskState_Running (clock (w_clock w)) st), w3, err, w', (clock (w_clock w)), (clock (w_clock w3)). split; [exact Hl2|].
  split; [done|]. split; [exact Hr|]. split.
  { eapply (fires_next _ _ _ g _ w w1 w2 w3 _ (ts_State st) TaskState_Running); cbn; try done.
    - by apply accessor_live.
    - by rewrite Hs. }
  rewrite Hd. exists fin. split; [done|]. split; [done|]. split.
  { by rewrite Hft, Ht3, <- (assoc_L (++))%list. }
  destruct Hu. split_and!.
  - rewrite Hco'. congruence.
  - rewrite Hc1'. unfold send_status. destruct (l_statusCallback l); cbn; congruence.
  - rewrite Hc2'. unfold send_state. destruct (l_stateCallback l); cbn; congruence.
  - etrans; [exact He|]. etrans; [|exact He']. by split.
Qed.

(** The trigger the activation of a pending task fires. *)
Lemma pending_fires l w w1 err :
  run_runner clock fuel store (OnTaskPending runner (l_id l)) (l_id l) (TaskCtx (l_ctx l)) w = (w1, Ok err) ->
  pending_OnActive clock fuel store runner l (TaskCtx (l_ctx l)) w =
  (w1, Ok (Some match err with
                | None => mkFiring (TaskCtx (l_ctx l)) TaskTrigger_Start []
                | Some e => if decide (ctx_Err (TaskCtx (l_ctx l)) w1 = Some e)
                            then mkFiring Background TaskTrigger_Cancel []
                            else mkFiring Background TaskTrigger_Error [e]
                end)).
Proof.
  intros Hr. unfold pending_OnActive. rewrite (wbind_eq_Ok _ _ _ _ _ Hr).
  destruct err as [e|]; [apply fire_error_spec|done].
Qed.

(** The end of a part of a run is the end of the whole: the part before it was the
    work of a handler of the runner. *)
Lemma ended_after l w w1 d args trs w' :
  untouched (l_id l) w w1 -> ended l w1 d args trs w' -> ended l w d args trs w'.
Proof.
  intros Hu (fin & ? & ? & ? & Hco & Hc1 & Hc2 & He). exists fin. split; [done|]. split; [done|].
  split; [done|]. split_and!.
  - rewrite Hco. by rewrite (un_completed _ _ _ Hu).
  - rewrite Hc1. unfold send_status. destruct (l_statusCallback l); cbn; by rewrite (un_statusCh _ _ _ Hu).
  - rewrite Hc2. unfold send_state. destruct (l_stateCallback l); cbn; by rewrite (un_stateCh _ _ _ Hu).
  - etrans; [by apply untouched_elsewhere | done].
Qed.
End Active.

(** ** Claims: the life cycle *)

(** C10: a task whose runner accepts it in OnTaskPending is run to an end state: the
    goroutine of the launch calls OnTaskRunning once the status says Running, the
    final state is Completed, Canceled or Failed as that call returned nil, the
    error of its context or another error, both transitions are appended to the
    saved history, OnTaskCompleted is called exactly once with that state, the
    callbacks are offered the final status and no other task is touched. *)
Theorem task_life_cycle `{Stateless} (l : Launched) (st : TaskStatus) (w w1 : World W) :
  0 < fuel ->
  live (l_id l) st w -> ts_State st = TaskState_Pending ->
  returns (OnTaskRunning runner (l_id l)) (l_id l) (TaskCtx (l_ctx l)) ->
  (forall d args, returns (OnTaskCompleted runner (l_id l) d args) (l_id l) Background) ->
  run_runner clock fuel store (OnTaskPending runner (l_id l)) (l_id l) (TaskCtx (l_ctx l)) w = (w1, Ok None) ->
  exists w2 st2 w3 err w' t1 t2,
    live (l_id l) st2 w2 /\ ts_State st2 = TaskState_Running /\
    run_runner clock fuel store (OnTaskRunning runner (l_id l)) (l_id l) (TaskCtx (l_ctx l)) w2
      = (w3, Ok err) /\
    run_task clock fuel store runner l w = (w', Ok tt) /\
    let '(d, args) := end_of (ctx_Err (TaskCtx (l_ctx l)) w3) err in
    ended l w d args
      (ts_Transitions st ++ [mkStateTransition TaskState_Running t1; mkStateTransition d t2])%list w'.
Proof using ReliableKV0.
  intros Hf Hl Hs Hrun Hcomp Hp.
  pose proof (run_runner_untouched Hf _ _ _ _ _ _ _ Hl Hp) as Hu.
  destruct (untouched_live _ _ _ _ Hu Hl) as (st1 & Hl1 & Hs1 & Ht1). rewrite Hs in Hs1.
  destruct (fires_start Hf l st1 w1 Hl1 Hs1 Hrun Hcomp)
    as (w2 & st2 & w3 & err & w' & t1 & t2 & Hl2 & Hs2 & Hr & Hfires & Hend).
  exists w2, st2, w3, err, w', t1, t2. split; [done|]. split; [done|]. split; [done|]. split.
  - apply ActivateCtx_law. eapply (activates_fire _ _ _ w w w1); cbn.
    + by apply (accessor_live l st).
    + rewrite Hs. by rewrite (pending_fires l w w1 None Hp).
    + done.
  - rewrite Ht1 in Hend. destruct (end_of _ err). by eapply ended_after.
Qed.

(** An error of OnTaskPending does not fail the task: unless it is the error of
    the task's context, which cancels it, the pending state has no transition for
    the error trigger, so that the goroutine ends with an error nobody reads, the
    saved state stays Pending with the same transitions and neither OnTaskCompleted
    nor a callback is called. *)
Lemma pending_error_leaves_task_pending `{Stateless} (l : Launched) (st : TaskStatus)
    (w w1 : World W) (e : error) :
  0 < fuel ->
  live (l_id l) st w -> ts_State st = TaskState_Pending ->
  (forall d args, returns (OnTaskCompleted runner (l_id l) d args) (l_id l) Background) ->
  run_runner clock fuel store (OnTaskPending runner (l_id l)) (l_id l) (TaskCtx (l_ctx l)) w = (w1, Ok (Some e)) ->
  if decide (ctx_Err (TaskCtx (l_ctx l)) w1 = Some e)
  then exists w' t, run_task clock fuel store runner l w = (w', Ok tt) /\
         ended l w TaskState_Canceled [] (ts_Transitions st ++ [mkStateTransition TaskState_Canceled t])%list w'
  else run_task clock fuel store runner l w = (w1, Err unhandled_trigger) /\
       (exists st', live (l_id l) st' w1 /\ ts_State st' = TaskState_Pending /\
          ts_Transitions st' = ts_Transitions st) /\
       w_completed w1 = w_completed w /\ w_statusCh w1 = w_statusCh w /\ w_stateCh w1 = w_stateCh w.
Proof using ReliableKV0.
  intros Hf Hl Hs Hcomp Hp.
  pose proof (run_runner_untouched Hf _ _ _ _ _ _ _ Hl Hp) as Hu.
  destruct (untouched_live _ _ _ _ Hu Hl) as (st1 & Hl1 & Hs1 & Ht1). rewrite Hs in Hs1.
  pose proof (pending_fires l w w1 (Some e) Hp) as Hfire. cbn beta iota in Hfire.
  pose proof (accessor_live l st (TaskCtx (l_ctx l)) w Hl) as Hacc. rewrite Hs in Hacc.
  case_decide as Hd.
  - set (g := mkFiring Background TaskTrigger_Cancel []) in *.
    destruct (fires_end Hf l st1 1 g TaskState_Canceled w1 Hl1) as (w' & Hfs & Hend);
      [by rewrite Hs1 | done | apply Hcomp |].
    exists w', (clock (w_clock w1)). split.
    + apply ActivateCtx_law. by eapply (activates_fire _ _ _ w w w1).
    + rewrite Ht1 in Hend. by eapply ended_after.
  - split.
    + apply ActivateCtx_law. eapply (activates_fire _ _ _ w w w1); [done|done|].
      eapply (fires_unhandled _ _ _ _ _ TaskState_Pending); cbn; [|done].
      rewrite <- Hs1. by apply (accessor_live l st1).
    + destruct Hu. split_and!; try done. exists st1. done.
Qed.

(** ** Launching *)

(** Contexts are fresh: those that were canceled or belong to a task were made. *)
Definition ctx_ok (w : World W) : Prop :=
  (forall n, n ∈ w_canceled w -> n < w_nextCtx w) /\
  (forall id n, w_tasks w !! id = Some n -> n < w_nextCtx w).

(** The table of controller.go: what a relaunch keeps of the saved status. *)
Definition restart_table (md : string) (prev : option TaskStatus) (new : TaskStatus) : Prop :=
  ts_State new = TaskState_Pending /\
  match prev with
  | None =>
      ts_Progress new = None /\ ts_Metadata new = md /\ ts_Logs new = [] /\
      exists t, ts_Transitions new = [mkStateTransition TaskState_Pending t]
  | Some old =>
      ts_Progress new = (match ts_State old with
                         | TaskState_Running | TaskState_Canceled => ts_Progress old
                         | _ => None end) /\
      ts_Metadata new = (match ts_State old with
                         | TaskState_Running => ts_Metadata old
                         | _ => md end) /\
      match ts_State old with
      | TaskState_Running => ts_Logs new = ts_Logs old
      | TaskState_Failed => exists e, ts_Logs new = (ts_Logs old ++ [e])%list
      | _ => ts_Logs new = []
      end /\
      exists t, ts_Transitions new =
        ((match ts_State old with
          | TaskState_Running | TaskState_Failed => ts_Transitions old
          | _ => [] end) ++ [mkStateTransition TaskState_Pending t])%list
  end.

(** The status before the transition to Pending is logged. *)
Definition relaunched (md : string) (prev : option TaskStatus) (t : Time) : TaskStatus :=
  match prev with
  | None => mkTaskStatus TaskState_Pending None md [] []
  | Some old => restart_status md (ts_State old) t old
  end.

Lemma relaunched_table md prev t t' :
  restart_table md prev
    (set_Transitions (ts_Transitions (relaunched md prev t) ++ [mkStateTransition TaskState_Pending t'])%list
       (relaunched md prev t)).
Proof.
  unfold restart_table. destruct prev as [[[] ? ? ? ?]|]; cbn; eauto 10.
Qed.

Lemma launch_status_ok l w : w_ctxErr w = None ->
  exists w' t, launch_status clock store l w = (w', Ok tt) /\
    written (l_id l) (relaunched (l_mdJson l) (view (w_store w) (l_id l)) t) w (with_clock (w_clock w) w').
Proof using ReliableKV0.
  intros Hc. unfold launch_status. destruct (view (w_store w) (l_id l)) as [old|] eqn:Hv.
  - assert (Hl : live (l_id l) old w) by done.
    rewrite (accessor_live _ _ _ _ Hl). cbn [relaunched].
    destruct (put_written (l_id l) (restart_status (l_mdJson l) (ts_State old) 0%Z old) w) as (w1 & Hp & Hw).
    destruct (put_written (l_id l) (restart_status (l_mdJson l) (ts_State old) (clock (w_clock w)) old)
                (with_clock (S (w_clock w)) w)) as (w2 & Hp2 & Hw2).
    unfold wbind, wcatch. rewrite (get_live _ _ _ Hl).
    destruct Hw as [Ha Hb [s ->]], Hw2 as [Ha2 Hb2 [s2 ->]].
    destruct (ts_State old) eqn:Hs;
      try (exists (with_store s w), 0%Z; split; [exact Hp|]; split; [done|done|by exists s; destruct w]).
    exists (with_store s2 (with_clock (S (w_clock w)) w)), (clock (w_clock w)).
    split; [exact Hp2|]. split; [done|done|by exists s2; destruct w].
  - assert (Hg : on_store (v_Get (task_status store (l_id l))) w = (w, Err ErrNotFound)).
    { unfold on_store. cbn. rewrite (rl_missing _ _ Hv). by destruct w. }
    unfold accessor at 1. unfold wbind at 1. rewrite Hg. cbn [StatusCode]. rewrite decide_True by done.
    unfold mutator, wcatch, wbind. rewrite Hg. cbn [StatusCode]. rewrite decide_True by done. cbn [wret].
    destruct (put_written (l_id l) (relaunched (l_mdJson l) None 0%Z) w) as (w1 & Hp & [Ha Hb [s ->]]).
    exists (with_store s w), 0%Z. split; [exact Hp|]. split; [done|done|by exists s; destruct w].
Qed.

Lemma cancel_previous_ctx id w : w_ctxErr w = None ->
  let w1 := match w_tasks w !! id with Some n => cancel_ctx n w | None => w end in
  exists c, w1 = with_canceled c w /\ w_canceled w ⊆ c /\
    (forall n, n ∈ c -> n ∈ w_canceled w \/ w_tasks w !! id = Some n) /\
    (forall n, w_tasks w !! id = Some n -> n ∈ c).
Proof.
  intros Hc w1. subst w1. destruct (w_tasks w !! id) as [n|].
  - unfold cancel_ctx, ctx_Err. rewrite Hc. case_bool_decide as Hn.
    + exists (w_canceled w). split; [by destruct w|]. set_solver.
    + exists ({[n]} ∪ w_canceled w). split; [done|]. set_solver.
  - exists (w_canceled w). split; [by destruct w|]. set_solver.
Qed.

Definition launch_options (opts : list (NewTaskOption Any)) : NewTaskOptions Any :=
  NewTaskOptions_apply opts (mkNewTaskOptions None None None None).

Lemma LaunchTask_ok id opts md w :
  0 < fuel -> w_ctxErr w = None -> ctx_ok w -> launch_metadata (launch_options opts) = Ok md ->
  exists w' new,
    LaunchTask clock fuel store id opts w = (w', Ok tt) /\
    live id new w' /\ restart_table md (view (w_store w) id) new /\
    (forall j, j <> id -> view (w_store w') j = view (w_store w) j) /\
    w_goroutines w' = (w_goroutines w ++
      [mkLaunched id (w_nextCtx w) md (o_statusCallback (launch_options opts))
         (o_stateCallback (launch_options opts))])%list /\
    ctx_Err (TaskCtx (w_nextCtx w)) w' = None /\
    (forall n, w_tasks w !! id = Some n -> ctx_Err (TaskCtx n) w' = Some context_Canceled) /\
    ctx_ok w'.
Proof using ReliableKV0.
  intros Hf Hc [Hok1 Hok2] Hmd. unfold LaunchTask. unfold ctx_Err at 1. rewrite Hc. cbn zeta.
  fold (launch_options opts). rewrite Hmd. cbn [wlift wbind get_world modify].
  destruct (cancel_previous_ctx id w Hc) as (c & -> & Hsub & Hc1 & Hc2).
  set (l := mkLaunched id (w_nextCtx w) md _ _). set (w1 := with_tasks _ _).
  destruct (launch_status_ok l w1 Hc) as (w2 & t & Hls & [Hv2 Ho2 [s2 Hw2]]).
  assert (Hw2' : w2 = with_clock (w_clock w2) (with_store s2 w1)).
  { rewrite <- Hw2. by destruct w2. }
  cbn [l_id] in *. cbn [Now] in *. unfold wbind at 1. rewrite Hls. cbn [wbind Now].
  set (w3 := with_clock (S (w_clock w2)) w2).
  assert (Hl3 : live id (relaunched md (view (w_store w) id) t) w3).
  { split; [by unfold w3; rewrite Hw2'|]. exact Hv2. }
  destruct (logTransition_ok Hf id _ (mkStateTransition TaskState_Pending (clock (w_clock w2))) w3 Hl3)
    as (w4 & Hlog & [Hv4 Ho4 [s4 ->]]).
  unfold wbind. rewrite Hlog. cbn [modify]. eexists _, _. split; [reflexivity|].
  split; [split; [unfold w3; rewrite Hw2'; exact Hc|exact Hv4]|].
  split; [apply relaunched_table|]. split.
  { intros j Hj. etrans; [by apply Ho4|]. by apply Ho2. }
  unfold w3. rewrite Hw2'. unfold w1. cbn.
  split; [done|]. unfold ctx_ok, ctx_Err. cbn. rewrite Hc. split_and!.
  - rewrite bool_decide_eq_false_2; [done|]. intros [Hn|Hn]%Hc1.
    + specialize (Hok1 _ Hn). lia. + specialize (Hok2 _ _ Hn). lia.
  - intros n Hn. by rewrite bool_decide_eq_true_2 by auto.
  - intros n [Hn|Hn]%Hc1; [specialize (Hok1 _ Hn) | specialize (Hok2 _ _ Hn)]; lia.
  - intros j n. rewrite lookup_insert_Some. intros [[_ <-]|[_ Hn]]; [lia|]. specialize (Hok2 _ _ Hn). lia.
Qed.

(** Launching a task in a live controller succeeds: its saved status is Pending
    and keeps, resets or clears the progress, the metadata, the logs and the
    transitions of the previous status by the table of the source, plus the Pending
    transition; exactly one goroutine is started, with a context that is not
    canceled, the context of the previous launch of the same task is canceled, and
    no other task is touched. *)
Lemma LaunchTask_restarts (id : string) (opts : list (NewTaskOption Any)) (md : string) (w : World W) :
  0 < fuel -> w_ctxErr w = None -> ctx_ok w -> launch_metadata (launch_options opts) = Ok md ->
  exists w' new,
    LaunchTask clock fuel store id opts w = (w', Ok tt) /\
    live id new w' /\ restart_table md (view (w_store w) id) new /\
    (forall j, j <> id -> view (w_store w') j = view (w_store w) j) /\
    w_goroutines w' = (w_goroutines w ++
      [mkLaunched id (w_nextCtx w) md (o_statusCallback (launch_options opts))
         (o_stateCallback (launch_options opts))])%list /\
    ctx_Err (TaskCtx (w_nextCtx w)) w' = None /\
    (forall n, w_tasks w !! id = Some n -> ctx_Err (TaskCtx n) w' = Some context_Canceled) /\
    ctx_ok w'.
Proof using ReliableKV0. apply LaunchTask_ok. Qed.

(** ** Resuming *)

(** What a new controller makes of a saved task: a task that was pending or running
    is launched again with its metadata, the state of an ended one is deleted. *)
Definition settled id (prev : option TaskStatus) (w' : World W) : Prop :=
  match prev with
  | None => view (w_store w') id = None
  | Some st =>
      match ts_State st with
      | TaskState_Pending | TaskState_Running =>
          (exists new, view (w_store w') id = Some new /\ restart_table (ts_Metadata st) (Some st) new) /\
          exists l, l ∈ w_goroutines w' /\ l_id l = id /\ l_mdJson l = ts_Metadata st
      | TaskState_Completed | TaskState_Failed | TaskState_Canceled => view (w_store w') id = None
      | TaskState_Unknown => view (w_store w') id = Some st
      end
  end.

(** The controller stays alive and only starts goroutines. *)
Definition resumes (w w' : World W) : Prop :=
  w_ctxErr w' = None /\ ctx_ok w' /\ w_goroutines w ⊆ w_goroutines w'.

Lemma settled_later id prev w w' :
  settled id prev w -> view (w_store w') id = view (w_store w) id ->
  w_goroutines w ⊆ w_goroutines w' -> settled id prev w'.
Proof.
  unfold settled. intros Hs Hv Hg. rewrite Hv.
  destruct prev as [st|]; [|done]. destruct (ts_State st); try done.
  all: destruct Hs as [? (l & ? & ?)]; split; [done|]; exists l; split; [by apply Hg|done].
Qed.

Lemma resume_launch id st w :
  0 < fuel -> w_ctxErr w = None -> ctx_ok w -> view (w_store w) id = Some st ->
  exists w', LaunchTask clock fuel store id [WithJsonMetadata (ts_Metadata st)] w = (w', Ok tt) /\
    resumes w w' /\ (forall j, j <> id -> view (w_store w') j = view (w_store w) j) /\
    (exists new, view (w_store w') id = Some new /\ restart_table (ts_Metadata st) (Some st) new) /\
    exists l, l ∈ w_goroutines w' /\ l_id l = id /\ l_mdJson l = ts_Metadata st.
Proof using ReliableKV0.
  intros Hf Hc Hok Hv.
  destruct (LaunchTask_ok id [WithJsonMetadata (ts_Metadata st)] (ts_Metadata st) w Hf Hc Hok eq_refl)
    as (w' & new & Hlaunch & [Hc' Hv'] & Htab & Ho & Hg & _ & _ & Hok').
  exists w'. split; [done|]. rewrite Hv in Htab.
  repeat split; try done; try apply Hok'.
  - rewrite Hg. by apply list_subseteq_app_l.
  - eauto.
  - rewrite Hg. eexists. split; [apply elem_of_app; right; by apply list_elem_of_singleton|]. done.
Qed.

Lemma resume_delete id st w :
  view (w_store w) id = Some st ->
  exists s, wcatch (on_store (v_Delete (task_status store id))) (fun _ => wret tt) w
              = (with_store s w, Ok tt) /\
    forall j, view s j = if decide (j = id) then None else view (w_store w) j.
Proof using ReliableKV0.
  intros Hv. destruct (rl_delete (w_store w) id) as (s & Hd & Hs); [eauto|].
  exists s. split; [|done]. unfold wcatch, on_store. cbn. by rewrite Hd.
Qed.

Lemma resume_task_settles n id w :
  0 < fuel -> w_ctxErr w = None -> ctx_ok w ->
  exists w', resume_task clock fuel store (S n) id w = (w', Ok tt) /\
    resumes w w' /\ (forall j, j <> id -> view (w_store w') j = view (w_store w) j) /\
    settled id (view (w_store w) id) w'.
Proof using ReliableKV0.
  intros Hf Hc Hok. cbn [resume_task]. unfold Controller_TaskStatus, settled, resumes.
  destruct (view (w_store w) id) as [st|] eqn:Hv.
  - assert (Hl : live id st w) by done. rewrite (get_live _ _ _ Hl).
    destruct (resume_launch id st w Hf Hc Hok Hv) as (w1 & Hla & Hr & Ho & Hset).
    destruct (resume_delete id st w Hv) as (s & Hdel & Hs).
    destruct (ts_State st); try (rewrite Hla; by exists w1);
      try (rewrite Hdel; eexists; split; [done|]; cbn; rewrite Hs, decide_True by done;
           repeat split; try done; try apply Hok; intros j Hj; by rewrite Hs, decide_False).
    by exists w.
  - assert (Hg : on_store (v_Get (task_status store id)) w = (w, Err ErrNotFound)).
    { unfold on_store. cbn. rewrite (rl_missing _ _ Hv). by destruct w. }
    rewrite Hg. cbn [StatusCode]. rewrite decide_True by done. by exists w.
Qed.

Lemma resume_tasks_settle ids w :
  0 < fuel -> w_ctxErr w = None -> ctx_ok w -> NoDup ids ->
  exists w', resume_tasks clock fuel store ids w = (w', Ok tt) /\
    resumes w w' /\ (forall j, j ∉ ids -> view (w_store w') j = view (w_store w) j) /\
    (forall id, id ∈ ids -> settled id (view (w_store w) id) w').
Proof using ReliableKV0.
  intros Hf. revert w. induction ids as [|id ids IH]; intros w Hc Hok Hnd; cbn [resume_tasks].
  - exists w. unfold resumes. repeat split; try done; try apply Hok. by intros id Hid%not_elem_of_nil.
  - apply list.NoDup_cons in Hnd as [Hid Hnd]. unfold wbind.
    destruct (resume_task_settles (pred fuel) id w Hf Hc Hok) as (w1 & Hr & (Hc1 & Hok1 & Hg1) & Ho1 & Hs1).
    rewrite Nat.succ_pred in Hr by lia. rewrite Hr.
    destruct (IH w1 Hc1 Hok1 Hnd) as (w2 & -> & (Hc2 & Hok2 & Hg2) & Ho2 & Hs2).
    exists w2. split; [done|]. split; [by unfold resumes; split_and!; [..|etrans]|]. split.
    + intros j [Hj1 Hj2]%not_elem_of_cons. by rewrite Ho2, Ho1.
    + intros j [->|Hj]%elem_of_cons.
      * eapply settled_later; [exact Hs1|by apply Ho2|done].
      * rewrite <- Ho1; [by apply Hs2|]. by intros ->.
Qed.
End Props.

(** ** Task identifiers and their keys *)

Definition task_id_ok (id : string) : Prop := id <> "" /\ no_char slash id = true.

Lemma path_Base_task (name id : string) :
  task_id_ok id -> path_Base (tasks_prefix name +:+ id) = id.
Proof.
  intros [Hne Hs]. unfold path_Base. rewrite decide_False by done.
  unfold tasks_prefix. rewrite !str_app_assoc.
  replace ("/tasks/" +:+ name +:+ "/" +:+ id) with (("/tasks/" +:+ name) +:+ String slash id)
    by (by rewrite str_app_assoc).
  rewrite Split_app, (Split_no_char _ _ Hs), list.filter_app, filter_cons_True, filter_nil by done.
  by rewrite rev_app_distr.
Qed.

(** A controller started over a store that answers resumes exactly what was
    left to do: of the tasks saved under its name, those that were Pending or
    Running are launched again with their metadata, by the restart table, and
    those that had ended are deleted; keys of other controllers are untouched and
    start nothing. *)
Lemma NewController_resumes {W Any} `{MetadataJSON Any} (clock : nat -> Time) (fuel : nat)
    (base : KeyValueStoreT W TaskStatus) (view : W -> string -> option TaskStatus)
    (runner : TaskRunner Any) (name : string) (s : W) :
  ReliableKV base view -> ListingKV base view -> 0 < fuel ->
  (forall id, is_Some (view s (tasks_prefix name +:+ id)) -> task_id_ok id) ->
  exists w', NewController clock fuel name base runner None s = (w', Ok tt) /\
    (forall id, settled (fun w k => view w (tasks_prefix name +:+ k)) id
                  (view s (tasks_prefix name +:+ id)) w').
Proof.
  intros Hrel Hlist Hf Hids. unfold NewController, resume_all, ListTasks.
  destruct (Hlist s (tasks_prefix name +:+ "")) as (ks & Hks & Hnd & Hin).
  set (pstore := NewKeyValueStoreWithPrefix base (tasks_prefix name)).
  set (pview := fun w k => view w (tasks_prefix name +:+ k)).
  set (w0 := mkWorld s None ∅ ∅ 0 0 ∅ ∅ [] []).
  assert (Hl : on_store (kv_ListKeys pstore "") w0 = (w0, Ok ks)).
  { unfold on_store. cbn. by rewrite Hks. }
  assert (Hkey : forall k, k ∈ ks -> exists id, k = tasks_prefix name +:+ id /\ task_id_ok id).
  { intros k [(id & Hk)%HasPrefix_spec Hsome]%Hin. rewrite str_app_nil_r in Hk. subst k. eauto. }
  unfold wbind. rewrite Hl. cbn [wret].
  destruct (resume_tasks_settle clock fuel pstore pview (map path_Base ks) w0 Hf eq_refl) as
    (w' & Hr & _ & Ho & Hs).
  - split; cbn; [set_solver|]. intros ? ?. by rewrite lookup_empty.
  - apply NoDup_fmap_2_strong; [|done]. intros k1 k2 H1 H2 He.
    destruct (Hkey _ H1) as (i1 & -> & Hi1), (Hkey _ H2) as (i2 & -> & Hi2).
    rewrite !path_Base_task in He by done. by subst.
  - exists w'. split; [exact Hr|]. intros id.
    destruct (view s (tasks_prefix name +:+ id)) as [st|] eqn:Hv.
    + specialize (Hs id). cbn in Hs. unfold pview at 2 in Hs. rewrite Hv in Hs. apply Hs.
      apply list_elem_of_fmap. exists (tasks_prefix name +:+ id). split.
      * symmetry. apply path_Base_task. eauto.
      * apply Hin. rewrite str_app_nil_r. split; [apply HasPrefix_app | eauto].
    + cbn. specialize (Ho id). cbn in Ho. unfold pview at 2 in Ho. rewrite Hv in Ho. apply Ho.
      intros (k & -> & Hk)%list_elem_of_fmap. destruct (Hkey _ Hk) as (i & -> & Hi).
      rewrite path_Base_task in Hv by done. apply Hin in Hk as [_ Hk]. rewrite Hv in Hk. by destruct Hk.
Qed.

(** ** Concrete runs *)

(** A machine library that follows the documented run, with the bound as fuel. *)
Fixpoint fire_ref {W} (sm : StateMachine W) (n : nat) (f : Firing) : M W unit :=
  match n with
  | O => fun w => (w, Panic "too many triggers")
  | S n =>
      let! s := sm_accessor sm (f_ctx f) in
      match sm_Permit sm s (f_trigger f) with
      | None => wfail unhandled_trigger
      | Some d =>
          sm_OnTransitioning sm d ;!
          sm_mutator sm (f_ctx f) d ;!
          let! g := sm_OnEntry sm d (f_ctx f) (f_args f) in
          match g with None => wret tt | Some g => fire_ref sm n g end
      end
  end.

Definition activate_ref {W} (n : nat) (sm : StateMachine W) (ctx : Context_) : M W unit :=
  let! s := sm_accessor sm ctx in
  let! g := sm_OnActive sm s ctx in
  match g with None => wret tt | Some g => fire_ref sm n g end.

Lemma fire_ref_fires {W} (sm : StateMachine W) n f w w' o :
  fires sm n f w w' o -> fire_ref sm n f w = (w', o).
Proof.
  induction 1 as [????? Ha|????? Ha Hp|???????? ? Ha Hp Ho Hm|???????? ? Ha Hp Ho Hm He
                 |? ? g ???????? ? Ha Hp Ho Hm He ? IH];
    cbn; unfold wbind; rewrite Ha; try done; rewrite Hp; try done; rewrite Ho, Hm; try done.
  all: by rewrite He.
Qed.

Lemma activate_ref_activates {W} (sm : StateMachine W) n ctx w w' o :
  activates sm n ctx w w' o -> activate_ref n sm ctx w = (w', o).
Proof.
  intros [????? Ha|?????? Ha Hb|????????? Ha Hb Hf]; unfold activate_ref, wbind;
    rewrite Ha; try done; rewrite Hb; [done|]. by apply fire_ref_fires.
Qed.

#[export] Instance stateless_ref : Stateless :=
  {| ActivateCtx := @activate_ref; ActivateCtx_law := @activate_ref_activates |}.

#[export] Instance unit_metadata : MetadataJSON unit :=
  {| md_is_struct _ := true; md_Marshal _ := Ok "{}"; md_Unmarshal _ _ := Ok tt |}.

Definition tick (n : nat) : Time := Z.of_nat n.

(** A runner that accepts its task and is canceled while it works. *)
Definition canceled_runner : TaskRunner unit :=
  {| OnTaskPending _ := RReturn None;
     OnTaskRunning id := RCancelTask id (RCtxErr (fun e => RReturn e));
     OnTaskCompleted _ _ _ := RReturn None |}.

(** A runner that refuses its task. *)
Definition refusing_runner : TaskRunner unit :=
  {| OnTaskPending _ := RReturn (Some (ErrorString "not now"));
     OnTaskRunning _ := RReturn None;
     OnTaskCompleted _ _ _ := RReturn None |}.

Definition fresh_world (s : gmap string TaskStatus) : World (gmap string TaskStatus) :=
  mkWorld s None ∅ ∅ 0 0 {[ 0 := mkChan 1 [] ]} ∅ [] [].

Definition launched_world : World (gmap string TaskStatus) :=
  (LaunchTask tick 1 map_store "job" [@WithStatusCallback unit 0] (fresh_world ∅)).1.

Definition job : Launched := mkLaunched "job" 0 "" (Some 0) None.
Definition job_status : TaskStatus :=
  mkTaskStatus TaskState_Pending None "" [] [mkStateTransition TaskState_Pending 0%Z].

(** The launched job is canceled while it runs: the saved status and the one sent
    to the callback say so. *)
Lemma task_life_cycle_witness :
  exists w', run_task tick 1 map_store canceled_runner job launched_world = (w', Ok tt) /\
    w_completed w' = [("job", TaskState_Canceled, [])] /\
    exists w1, run_runner tick 1 map_store (OnTaskPending canceled_runner "job") "job" (TaskCtx 0)
                 launched_world = (w1, Ok None).
Proof.
  pose proof (task_life_cycle tick 1 map_store (fun m k => m !! k) canceled_runner job job_status
    launched_world launched_world) as T.
  destruct T as (w2 & st2 & w3 & err & w' & t1 & t2 & Hl & Hs & Hr & Hrun & _).
  - lia.
  - by split; vm_compute.
  - reflexivity.
  - intros w st _. cbn. eauto.
  - intros d args w st _. cbn. eauto.
  - reflexivity.
  - exists w'. split; [exact Hrun|]. split; [|eexists; reflexivity].
    assert (E : (run_task tick 1 map_store canceled_runner job launched_world).1 = w') by by rewrite Hrun.
    rewrite <- E. vm_compute. reflexivity.
Defined.

(** A controller finds one running task. *)
Definition saved_task : gmap string TaskStatus :=
  {[ "/tasks/install/job" := mkTaskStatus TaskState_Running None "{}" [] [] ]}.

