(* ===== verification/Health.v ===== *)
(** pkg/health: the condition tracker, the aggregator of health servers and the
    listener that turns the connection of an agent into a stream of updates. *)

From S2P Require Import Prelude GoStd Util CoreV1.

Local Open Scope string_scope.

(** ** condition_tracker.go *)

(** The type is an int32 in the source. *)
Definition ConditionStatus := Z.
Definition StatusPending : ConditionStatus := 0%Z.
Definition StatusFailure : ConditionStatus := 1%Z.
Definition StatusDisabled : ConditionStatus := 2%Z.

Definition ConditionStatus_String (s : ConditionStatus) : string :=
  if decide (s = StatusPending) then "Pending"
  else if decide (s = StatusFailure) then "Failure"
  else if decide (s = StatusDisabled) then "Disabled"
  else "".

Definition ConditionStatusStrToEnum (status : string) : outcome ConditionStatus :=
  if decide (status = "Pending") then Ok StatusPending
  else if decide (status = "Failure") then Ok StatusFailure
  else if decide (status = "Disabled") then Ok StatusDisabled
  else Err (ErrorString ("unknown condition status " +:+ status)).

Definition CondConfigSync : string := "config Sync".
Definition CondBackend : string := "Backend".

(** A listener is named by a number; [ct_started] lists the listeners that were
    started in a goroutine, in order. *)
Record ConditionTracker := mkConditionTracker {
  ct_conditions : gmap string ConditionStatus;
  ct_modTime : Time;
  ct_listeners : list nat;
  ct_started : list nat }.

Definition NewDefaultConditionTracker (now : Time) : ConditionTracker :=
  mkConditionTracker {[ CondConfigSync := StatusPending ]} now [] [].

Definition notifyListeners (ct : ConditionTracker) : ConditionTracker :=
  mkConditionTracker (ct_conditions ct) (ct_modTime ct) (ct_listeners ct)
    (ct_started ct ++ ct_listeners ct)%list.

(** For a missing key [v] is the zero value of the type. *)
Definition ct_Set (key : string) (value : ConditionStatus) (now : Time) (ct : ConditionTracker)
  : ConditionTracker :=
  match ct_conditions ct !! key with
  | Some _ => ct
  | None =>
      if decide (StatusPending <> value) then
        notifyListeners
          (mkConditionTracker (<[key := value]> (ct_conditions ct)) now (ct_listeners ct) (ct_started ct))
      else ct
  end.

Definition ct_Clear (key : string) (now : Time) (ct : ConditionTracker) : ConditionTracker :=
  match ct_conditions ct !! key with
  | Some _ =>
      notifyListeners
        (mkConditionTracker (delete key (ct_conditions ct)) now (ct_listeners ct) (ct_started ct))
  | None => ct
  end.

(** The order of [Range] is not specified. *)
Definition ct_List (ct : ConditionTracker) : list string :=
  map (fun kv : string * ConditionStatus => kv.1 +:+ " " +:+ ConditionStatus_String kv.2)
    (map_to_list (ct_conditions ct)).

Definition LastModified (ct : ConditionTracker) : Time := ct_modTime ct.

Definition AddListener (listener : nat) (ct : ConditionTracker) : ConditionTracker :=
  mkConditionTracker (ct_conditions ct) (ct_modTime ct) (ct_listeners ct ++ [listener])%list
    (ct_started ct).

(** The calls a tracker gets, in the order they take effect. *)
Inductive ct_op :=
| OpSet (key : string) (value : ConditionStatus) (now : Time)
| OpClear (key : string) (now : Time)
| OpAddListener (listener : nat).

Definition ct_apply (op : ct_op) (ct : ConditionTracker) : ConditionTracker :=
  match op with
  | OpSet key value now => ct_Set key value now ct
  | OpClear key now => ct_Clear key now ct
  | OpAddListener l => AddListener l ct
  end.

Definition ct_run (ops : list ct_op) (ct : ConditionTracker) : ConditionTracker :=
  fold_left (fun ct op => ct_apply op ct) ops ct.

(** ** aggregator.go *)

(** [lo.MaxBy]: the comparison tells whether its first argument is greater. *)
Class MaxByLib := {
  lo_MaxBy : forall {A : Type}, A -> list A -> (A -> A -> bool) -> A;
  lo_MaxBy_nil : forall A (zero : A) gt, lo_MaxBy zero [] gt = zero;
  lo_MaxBy_cons : forall A (zero : A) x l gt,
    lo_MaxBy zero (x :: l) gt = fold_left (fun m y => if gt y m then y else m) l x }.

(** A client of the interface [HealthClient]: its answer. *)
Definition HealthClient := outcome Health.

Record AggregatorOptions := mkAggregatorOptions { ao_staticAnnotations : gmap string string }.

Record Aggregator := mkAggregator {
  ag_options : AggregatorOptions;
  ag_clients : gmap string HealthClient }.

Definition AggregatorOption : Type := AggregatorOptions -> AggregatorOptions.

Definition AggregatorOptions_apply (opts : list AggregatorOption) (o : AggregatorOptions)
  : AggregatorOptions := fold_left (fun o op => op o) opts o.

Definition WithStaticAnnotations (staticAnnotations : gmap string string) : AggregatorOption :=
  fun _ => mkAggregatorOptions staticAnnotations.

(** The options are applied to a value that the new aggregator does not hold. *)
Definition NewAggregator (opts : list AggregatorOption) : Aggregator :=
  let options := AggregatorOptions_apply opts (mkAggregatorOptions ∅) in
  mkAggregator (mkAggregatorOptions ∅) ∅.

Definition AddClient (name : string) (client : HealthClient) (h : Aggregator) : Aggregator :=
  mkAggregator (ag_options h) (<[name := client]> (ag_clients h)).

Definition RemoveClient (name : string) (h : Aggregator) : Aggregator :=
  mkAggregator (ag_options h) (delete name (ag_clients h)).

Section Aggregator.
Context `{MaxByLib} (Error : error -> string).

(** [time.Time{}], 1 January of year 1, in nanoseconds of the Unix epoch. *)
Definition zero_time : Time := (-62135596800000000000)%Z.

(** What the goroutine of one client writes: a time, conditions, readiness. *)
Definition client_result (name : string) (client : HealthClient) : Time * list string * bool :=
  match client with
  | Err err =>
      (zero_time,
       match StatusCode err with
       | codes_Unavailable => ["%s is unavailable"; name]
       | codes_ResourceExhausted => ["%s is overloaded"; name]
       | codes_DeadlineExceeded | codes_Canceled => ["%s timed out"; name]
       | _ => [name +:+ ": " +:+ Error err]
       end, false)
  | Ok health =>
      (default 0%Z (h_Timestamp health),
       map (fun condition => name +:+ ": " +:+ condition) (h_Conditions health),
       h_Ready health)
  | Panic _ => (zero_time, [], false)
  end.

(** [order] is the order in which the clients are numbered by the loop over the map. *)
Definition GetHealth_in (order : list (string * HealthClient)) (h : Aggregator) : Health :=
  let results := map (fun c => client_result c.1 c.2) order in
  let clientTimestamps := map (fun r => r.1.1) results in
  let clientConditions := map (fun r => r.1.2) results in
  let clientsReady := map snd results in
  mkHealth
    (Some (lo_MaxBy zero_time clientTimestamps (fun t1 t2 => (t1 <? t2)%Z)))
    (fold_left andb clientsReady true)
    (merge_sort String.le (mjoin clientConditions))
    (ao_staticAnnotations (ag_options h)).

Definition GetHealth (h : Aggregator) : Health := GetHealth_in (map_to_list (ag_clients h)) h.
End Aggregator.

(** ** listener.go *)

Record StatusUpdate := mkStatusUpdate { su_ID : string; su_Status : Status }.
Record HealthUpdate := mkHealthUpdate { hu_ID : string; hu_Health : option Health }.

(** The listener's output: what is sent on its two channels, in order. *)
Inductive Update := UStatus (u : StatusUpdate) | UHealth (u : HealthUpdate).

(** Durations are in nanoseconds. *)
Definition Second : Z := 1000000000%Z.

Record ListenerOptions := mkListenerOptions {
  lo_interval : Z;
  lo_maxJitter : Z;
  lo_maxConnections : Z;
  lo_updateQueueCap : Z }.

Definition ListenerOption : Type := ListenerOptions -> ListenerOptions.

Definition WithPollInterval (interval : Z) : ListenerOption := fun o =>
  mkListenerOptions interval (lo_maxJitter o) (lo_maxConnections o) (lo_updateQueueCap o).
Definition WithMaxJitter (duration : Z) : ListenerOption := fun o =>
  mkListenerOptions (lo_interval o) duration (lo_maxConnections o) (lo_updateQueueCap o).
Definition WithMaxConnections (max : Z) : ListenerOption := fun o =>
  mkListenerOptions (lo_interval o) (lo_maxJitter o) max (lo_updateQueueCap o).
Definition WithUpdateQueueCap (cap : Z) : ListenerOption := fun o =>
  mkListenerOptions (lo_interval o) (lo_maxJitter o) (lo_maxConnections o) cap.

Definition NewListener_options (opts : list ListenerOption) : ListenerOptions :=
  let options := fold_left (fun o op => op o) opts
                   (mkListenerOptions (30 * Second)%Z (30 * Second)%Z int64_max 1000%Z) in
  if (lo_interval options <? lo_maxJitter options)%Z
  then WithMaxJitter (lo_interval options) options
  else options.

(** [calcDuration]; [Int63n n] is in the range [0, n). *)
Definition calcDuration (Int63n : Z -> Z) (l : ListenerOptions) : Z :=
  let jitter := if (0 <? lo_maxJitter l)%Z then Int63n (lo_maxJitter l) else 0%Z in
  wrap64 (lo_interval l + jitter).

Definition publishStatus (id : string) (connected : bool) (now : Time) : Update :=
  UStatus (mkStatusUpdate id (mkStatus (Some now) connected)).

(** What wakes the loop of a connection. *)
Inductive conn_event :=
| EvDone                                   (* [ctx.Done()] *)
| EvClosed                                 (* [l.closed] *)
| EvTimer (answer : outcome Health)        (* the timer; the answer of [GetHealth] *)
| EvIncoming (up : HealthUpdate).          (* an update sent by the agent *)

(** A health that replaces the current one: different and newer. *)
Definition replaces (health curHealth : option Health) : bool :=
  negb (Health_Equal health curHealth) && NewerThan health curHealth.

(** One turn of the loop: the current health, what is sent and whether it goes on. *)
Definition conn_turn (id : string) (ev : conn_event) (curHealth : option Health)
  : option Health * list Update * bool :=
  match ev with
  | EvDone | EvClosed => (curHealth, [], false)
  | EvTimer (Ok health) =>
      if replaces (Some health) curHealth
      then (Some health, [UHealth (mkHealthUpdate id (Some health))], true)
      else (curHealth, [], true)
  | EvTimer _ => (curHealth, [], true)
  | EvIncoming up =>
      if replaces (hu_Health up) curHealth
      then (hu_Health up, [UHealth (mkHealthUpdate (hu_ID up) (hu_Health up))], true)
      else (curHealth, [], true)
  end.

(** The loop over the events of a connection; [true] when it has returned. *)
Fixpoint conn_loop (id : string) (evs : list conn_event) (curHealth : option Health)
  : list Update * bool :=
  match evs with
  | [] => ([], false)
  | ev :: evs =>
      let '(curHealth, out, goes_on) := conn_turn id ev curHealth in
      if goes_on
      then let '(rest, returned) := conn_loop id evs curHealth in ((out ++ rest)%list, returned)
      else (out, true)
  end.

(** [HandleConnection] of agent [id] once it holds the semaphore and the lock of the
    agent: [first] is the answer to the first [GetHealth], the clock gives the time
    of each update the listener makes itself.  The second component tells whether
    the call has returned, with its deferred updates sent. *)
Definition HandleConnection (id : string) (clock : nat -> Time) (first : outcome Health)
    (evs : list conn_event) : list Update * bool :=
  let connected := publishStatus id true (clock 0) in
  let '(curHealth, initial) :=
    match first with
    | Ok h => (Some h,
               [UHealth (mkHealthUpdate id (Some (mkHealth (Some (clock 1)) (h_Ready h)
                                                    (h_Conditions h) (h_Annotations h))))])
    | _ => (None, [])
    end in
  let '(updates, returned) := conn_loop id evs curHealth in
  let deferred :=
    if returned
    then [UHealth (mkHealthUpdate id (Some (mkHealth (Some (clock 2)) false [] ∅)));
          publishStatus id false (clock 3)]
    else [] in
  ((connected :: initial ++ updates ++ deferred)%list, returned).

(** ** The shared state of a listener

    Handlers of connections and the call to [Close] run concurrently; they meet at
    the [closed] channel, at the semaphore and at the table of incoming updates. *)

Inductive conn_phase :=
| Checked        (* saw that the listener is open, waits for the semaphore *)
| Holding        (* holds one unit, waits for the lock of its agent *)
| Registered     (* holds the lock too; its updates go to the channels *)
| Left.          (* released its unit *)

Inductive close_phase := NotClosed | Closing | ChannelsClosed.

#[export] Instance conn_phase_eq_dec : EqDecision conn_phase.
Proof. solve_decision. Defined.
#[export] Instance close_phase_eq_dec : EqDecision close_phase.
Proof. solve_decision. Defined.

Record Listener := mkListener {
  li_max : Z;                                   (* [maxConnections] *)
  li_held : Z;                                  (* units of the semaphore in use *)
  li_close : close_phase;
  li_conns : gmap nat (string * conn_phase);    (* the running handlers *)
  li_locks : gmap string nat;                   (* the holder of each agent's lock *)
  li_incoming : gmap string nat;                (* [incomingHealthUpdates] *)
  li_sent_on_closed : bool }.                   (* a send on a closed channel: a panic *)

Definition NewListener (max : Z) : Listener := mkListener max 0%Z NotClosed ∅ ∅ ∅ false.

(** [Close]: no connection is let in any more; its goroutine then closes the two
    channels, once it has got all the units of the semaphore. *)
Definition Listener_Close (l : Listener) : Listener :=
  mkListener (li_max l) (li_held l) Closing (li_conns l) (li_locks l) (li_incoming l)
    (li_sent_on_closed l).

Definition close_channels (l : Listener) : Listener :=
  mkListener (li_max l) (li_held l + li_max l)%Z ChannelsClosed (li_conns l) (li_locks l)
    (li_incoming l) (li_sent_on_closed l).

(** The steps of the handlers and of [Close]. *)
Inductive lstep : Listener -> Listener -> Prop :=
| l_enter l c id :
    li_conns l !! c = None -> li_close l = NotClosed ->
    lstep l (mkListener (li_max l) (li_held l) (li_close l) (<[c := (id, Checked)]> (li_conns l))
               (li_locks l) (li_incoming l) (li_sent_on_closed l))
| l_give_up l c id :                              (* the context ends while it waits *)
    li_conns l !! c = Some (id, Checked) ->
    lstep l (mkListener (li_max l) (li_held l) (li_close l) (<[c := (id, Left)]> (li_conns l))
               (li_locks l) (li_incoming l) (li_sent_on_closed l))
| l_acquire l c id :
    li_conns l !! c = Some (id, Checked) -> (li_held l + 1 <= li_max l)%Z ->
    lstep l (mkListener (li_max l) (li_held l + 1)%Z (li_close l) (<[c := (id, Holding)]> (li_conns l))
               (li_locks l) (li_incoming l) (li_sent_on_closed l))
| l_lock l c id :
    li_conns l !! c = Some (id, Holding) -> li_locks l !! id = None ->
    lstep l (mkListener (li_max l) (li_held l) (li_close l) (<[c := (id, Registered)]> (li_conns l))
               (<[id := c]> (li_locks l)) (<[id := c]> (li_incoming l)) (li_sent_on_closed l))
| l_send l c id :
    li_conns l !! c = Some (id, Registered) ->
    lstep l (mkListener (li_max l) (li_held l) (li_close l) (li_conns l) (li_locks l) (li_incoming l)
               (li_sent_on_closed l || bool_decide (li_close l = ChannelsClosed)))
| l_leave l c id :
    li_conns l !! c = Some (id, Registered) ->
    lstep l (mkListener (li_max l) (li_held l - 1)%Z (li_close l) (<[c := (id, Left)]> (li_conns l))
               (delete id (li_locks l)) (delete id (li_incoming l)) (li_sent_on_closed l))
| l_Close l : li_close l = NotClosed -> lstep l (Listener_Close l)
| l_close_channels l :
    li_close l = Closing -> (li_held l + li_max l <= li_max l)%Z -> lstep l (close_channels l).

(** [UpdateHealth]: the handler whose channel gets the update of agent [id]. *)
Definition UpdateHealth (id : string) (req : Health) (l : Listener) : option (nat * HealthUpdate) :=
  (fun c => (c, mkHealthUpdate id (Some req))) <$> li_incoming l !! id.
