(* ===== verification/HealthProps.v ===== *)
(** pkg/health: what the condition tracker, the aggregator and the listener
    guarantee. *)

From S2P Require Import Prelude GoStd Util CoreV1 Health.

Local Open Scope string_scope.

(** ** Condition tracker *)

Definition clears (key : string) (op : ct_op) : bool :=
  match op with OpClear k _ => bool_decide (k = key) | _ => false end.

Lemma ct_apply_keeps key v op ct :
  clears key op = false -> ct_conditions ct !! key = Some v ->
  ct_conditions (ct_apply op ct) !! key = Some v.
Proof.
  intros Hc Hv. destruct op as [k w now|k now|l]; cbn in *.
  - unfold ct_Set. destruct (ct_conditions ct !! k) eqn:E; [done|]. case_decide; [|done].
    cbn. rewrite lookup_insert_ne; [done|]. intros ->. congruence.
  - apply bool_decide_eq_false in Hc. unfold ct_Clear. destruct (ct_conditions ct !! k) eqn:E; [|done].
    cbn. by rewrite lookup_delete_ne.
  - done.
Qed.

Lemma ct_run_keeps key v ops ct :
  forallb (fun op => negb (clears key op)) ops = true -> ct_conditions ct !! key = Some v ->
  ct_conditions (ct_run ops ct) !! key = Some v.
Proof.
  unfold ct_run. revert ct. induction ops as [|op ops IH]; intros ct; cbn; [done|].
  intros [Hop%negb_true_iff Hops]%andb_true_iff Hv. apply IH; [done|]. by apply ct_apply_keeps.
Qed.

(** The status of a condition that is set cannot be changed: whatever sequence of
    calls follows, as long as none of them clears the condition its status is the
    one it had, even when [Set] is called with another one. *)
Lemma condition_status_is_never_changed (key : string) (v : ConditionStatus) (ops : list ct_op)
    (ct : ConditionTracker) :
  forallb (fun op => negb (clears key op)) ops = true -> ct_conditions ct !! key = Some v ->
  ct_conditions (ct_run ops ct) !! key = Some v.
Proof. apply ct_run_keeps. Qed.

Lemma insert_changes (m : gmap string ConditionStatus) k v : m !! k = None -> <[k := v]> m <> m.
Proof. intros Hk E. rewrite <- E, lookup_insert_eq in Hk. done. Qed.

Lemma delete_changes (m : gmap string ConditionStatus) k v : m !! k = Some v -> delete k m <> m.
Proof. intros Hk E. rewrite <- E, lookup_delete_eq in Hk. done. Qed.

Definition op_time (op : ct_op) : option Time :=
  match op with OpSet _ _ now | OpClear _ now => Some now | OpAddListener _ => None end.

(** The listeners of a tracker are started exactly by the calls that change its
    conditions, every listener once per change, and those calls alone move the time
    of the last modification, to their own time. *)
Lemma tracker_notifies_exactly_changes (op : ct_op) (ct : ConditionTracker) :
  (ct_conditions (ct_apply op ct) <> ct_conditions ct ->
     ct_started (ct_apply op ct) = (ct_started ct ++ ct_listeners ct)%list /\
     op_time op = Some (LastModified (ct_apply op ct))) /\
  (ct_conditions (ct_apply op ct) = ct_conditions ct ->
     ct_started (ct_apply op ct) = ct_started ct /\
     LastModified (ct_apply op ct) = LastModified ct).
Proof.
  destruct op as [k v now|k now|l]; cbn; unfold ct_Set, ct_Clear.
  - destruct (ct_conditions ct !! k) eqn:E; [done|]. case_decide; [|done].
    cbn. split; [done|]. intros Hc. by apply insert_changes in Hc.
  - destruct (ct_conditions ct !! k) eqn:E; [|done].
    cbn. split; [done|]. intros Hc. by eapply delete_changes in Hc.
  - done.
Qed.

Lemma tracker_notifies_exactly_changes_witness :
  ct_started (ct_apply (OpSet CondBackend StatusFailure 5%Z)
                (AddListener 7 (NewDefaultConditionTracker 0%Z))) = [7].
Proof.
  destruct (tracker_notifies_exactly_changes (OpSet CondBackend StatusFailure 5%Z)
              (AddListener 7 (NewDefaultConditionTracker 0%Z))) as [H _].
  destruct H as [H _]; [|exact H].
  intros E. apply (f_equal (fun m => m !! CondBackend)) in E. vm_compute in E. discriminate E.
Defined.

(** ** Aggregator *)

Section AggregatorProps.
Context `{MaxByLib} (Error : error -> string).

Lemma fold_andb l b : fold_left andb l b = b && forallb id l.
Proof.
  revert b. induction l as [|x l IH]; intros b; cbn; [by rewrite andb_true_r|].
  by rewrite IH, andb_assoc.
Qed.

(** The fold of [MaxBy] under [<] keeps the least element. *)
Lemma fold_min l (m : Z) :
  let r := fold_left (fun m y => if (y <? m)%Z then y else m) l m in
  (r = m \/ r ∈ l) /\ (r <= m)%Z /\ forall y, y ∈ l -> (r <= y)%Z.
Proof.
  revert m. induction l as [|x l IH]; intros m; cbn.
  - split; [by left|]. split; [lia|]. by intros y Hy%not_elem_of_nil.
  - specialize (IH (if (x <? m)%Z then x else m)). cbn in IH. destruct IH as (Hin & Hle & Hall).
    set (r := fold_left _ l _) in *.
    destruct (Z.ltb_spec x m); (split; [|split; [lia|]]).
    1,3: destruct Hin as [->|Hin]; [set_solver|right; by apply elem_of_cons; right].
    all: intros y [->|Hy]%elem_of_cons; [lia|auto].
Qed.

Lemma MaxBy_before_min t l :
  let r := lo_MaxBy zero_time (t :: l) (fun t1 t2 => (t1 <? t2)%Z) in
  r ∈ t :: l /\ forall y, y ∈ t :: l -> (r <= y)%Z.
Proof.
  cbn. rewrite lo_MaxBy_cons. destruct (fold_min l t) as (Hin & Hle & Hall).
  split; [apply elem_of_cons; exact Hin|].
  intros y [->|Hy]%elem_of_cons; auto.
Qed.

Definition answered_ready (c : string * HealthClient) : bool :=
  match c.2 with Ok h => h_Ready h | _ => false end.

Lemma client_result_ready c : (client_result Error c.1 c.2).2 = answered_ready c.
Proof. by destruct c as [? [|[]|]]. Qed.

Lemma GetHealth_in_ready order h :
  h_Ready (GetHealth_in Error order h) = forallb answered_ready order.
Proof.
  unfold GetHealth_in. cbn. rewrite fold_andb. cbn. induction order as [|c order IH]; cbn; [done|].
  by rewrite client_result_ready, IH.
Qed.

Definition conditions_of (c : string * HealthClient) : list string := (client_result Error c.1 c.2).1.2.

Lemma GetHealth_in_conditions order h :
  h_Conditions (GetHealth_in Error order h) ≡ₚ mjoin (map conditions_of order) /\
  Sorted String.le (h_Conditions (GetHealth_in Error order h)).
Proof.
  unfold GetHealth_in. cbn [h_Conditions]. split; [|apply Sorted_merge_sort, _].
  rewrite merge_sort_Permutation, map_map. done.
Qed.

Lemma mjoin_Permutation {A} (l1 l2 : list (list A)) : l1 ≡ₚ l2 -> mjoin l1 ≡ₚ mjoin l2.
Proof.
  induction 1 as [|x l1 l2 _ IH|x y l|l1 l2 l3 _ IH1 _ IH2]; cbn; [done|by rewrite IH| |by rewrite IH1].
  unfold mjoin in *. rewrite !(assoc_L (++))%list. by rewrite (Permutation_app_comm x y).
Qed.

Lemma timestamps_min order h :
  order <> [] ->
  exists t, h_Timestamp (GetHealth_in Error order h) = Some t /\
    t ∈ map (fun c => (client_result Error c.1 c.2).1.1) order /\
    forall c, c ∈ order -> (t <= (client_result Error c.1 c.2).1.1)%Z.
Proof.
  intros Hne. unfold GetHealth_in. cbn [h_Timestamp]. rewrite map_map.
  destruct order as [|c order]; [done|]. cbn [map].
  eexists. split; [done|]. set (ts := map _ order).
  destruct (MaxBy_before_min (client_result Error c.1 c.2).1.1 ts) as [Hin Hall].
  split; [exact Hin|]. intros c' Hc'. apply Hall.
  apply elem_of_cons in Hc' as [->|Hc']; [by left|]. right.
  apply (list_elem_of_fmap_2 (fun c => (client_result Error c.1 c.2).1.1)). done.
Qed.

(** The time the aggregator takes from the answer of a client. *)
Definition answer_time (client : HealthClient) : Time :=
  match client with Ok health => default 0%Z (h_Timestamp health) | _ => zero_time end.

(** The time is the least one, although the code asks for the greatest. *)
Lemma aggregated_time (h : Aggregator) (name : string) (client : HealthClient) :
  ag_clients h !! name = Some client ->
  exists t, h_Timestamp (GetHealth Error h) = Some t /\
    (t <= answer_time client)%Z /\
    exists name' client', ag_clients h !! name' = Some client' /\ t = answer_time client'.
Proof.
  intros Hc. unfold GetHealth.
  assert (Hin : (name, client) ∈ map_to_list (ag_clients h)) by by apply elem_of_map_to_list.
  assert (Hne : map_to_list (ag_clients h) <> []) by (intros E; rewrite E in Hin; set_solver).
  destruct (timestamps_min _ h Hne) as (t & Ht & Hmem & Hall). exists t. split; [done|].
  assert (Hres : forall n c, (client_result Error n c).1.1 = answer_time c) by (intros ? []; done).
  split.
  - specialize (Hall _ Hin). by rewrite Hres in Hall.
  - apply list_elem_of_fmap in Hmem as ([n c] & -> & Hnc%elem_of_map_to_list). exists n, c.
    split; [done|]. apply Hres.
Qed.

Lemma GetHealth_ready_iff (h : Aggregator) :
  h_Ready (GetHealth Error h) = true <->
  forall name client, ag_clients h !! name = Some client ->
    exists health, client = Ok health /\ h_Ready health = true.
Proof.
  unfold GetHealth.
  rewrite GetHealth_in_ready, forallb_elem. split.
  - intros Hall name client Hc. specialize (Hall (name, client)).
    rewrite elem_of_map_to_list in Hall. specialize (Hall Hc). unfold answered_ready in Hall.
    cbn in Hall. destruct client; [eauto|done..].
  - intros Hall [name client] Hc%elem_of_map_to_list. destruct (Hall _ _ Hc) as (health & -> & Hr). done.
Qed.

(** Neither the order of the loop nor that of the answers matters. *)
Lemma GetHealth_in_order (h : Aggregator) (order : list (string * HealthClient)) :
  order ≡ₚ map_to_list (ag_clients h) -> GetHealth_in Error order h = GetHealth Error h.
Proof.
  unfold GetHealth. destruct (GetHealth_in_conditions (map_to_list (ag_clients h)) h) as [Hp Hs].
  intros Hperm. destruct (GetHealth_in_conditions order h) as [Hp' Hs'].
  assert (Hts : h_Timestamp (GetHealth_in Error order h)
                = h_Timestamp (GetHealth_in Error (map_to_list (ag_clients h)) h)).
  { destruct (decide (order = [])) as [->|Hne].
    { symmetry in Hperm. apply Permutation_nil_r in Hperm. by rewrite Hperm. }
    assert (Hne' : map_to_list (ag_clients h) <> []).
    { intros E. rewrite E in Hperm. by apply Permutation_nil_r in Hperm. }
    destruct (timestamps_min order h Hne) as (t1 & -> & Hin1 & Hall1).
    destruct (timestamps_min _ h Hne') as (t2 & -> & Hin2 & Hall2). f_equal.
    apply list_elem_of_fmap in Hin1 as (c1 & -> & Hc1), Hin2 as (c2 & -> & Hc2).
    apply Z.le_antisymm; [apply Hall1; by rewrite Hperm | apply Hall2; by rewrite <- Hperm]. }
  assert (Hrd : h_Ready (GetHealth_in Error order h)
                = h_Ready (GetHealth_in Error (map_to_list (ag_clients h)) h)).
  { rewrite !GetHealth_in_ready. by apply filter_Permutation_all. }
  assert (Hco : h_Conditions (GetHealth_in Error order h)
                = h_Conditions (GetHealth_in Error (map_to_list (ag_clients h)) h)).
  { eapply (Sorted_unique String.le); [done..|]. rewrite Hp', Hp. apply mjoin_Permutation.
    apply (fmap_Permutation conditions_of). done. }
  assert (Han : h_Annotations (GetHealth_in Error order h)
                = h_Annotations (GetHealth_in Error (map_to_list (ag_clients h)) h)) by done.
  destruct (GetHealth_in Error order h), (GetHealth_in Error (map_to_list (ag_clients h)) h).
  cbn in *. by subst.
Qed.

(** The aggregator reports ready exactly when every client answered without an
    error and is ready, its conditions are the sorted list of all the conditions of
    the clients, each named after its client or telling that it failed, and the
    whole report does not depend on the order in which the clients are asked.  Its
    time is the oldest of the times of the clients, the zero time for a client that
    failed, although the code asks for the latest one. *)
Lemma aggregated_health (h : Aggregator) (order : list (string * HealthClient)) :
  (h_Ready (GetHealth Error h) = true <->
     forall name client, ag_clients h !! name = Some client ->
       exists health, client = Ok health /\ h_Ready health = true) /\
  h_Conditions (GetHealth Error h) ≡ₚ mjoin (map conditions_of (map_to_list (ag_clients h))) /\
  Sorted String.le (h_Conditions (GetHealth Error h)) /\
  (forall name client, ag_clients h !! name = Some client ->
     exists t, h_Timestamp (GetHealth Error h) = Some t /\ (t <= answer_time client)%Z /\
       exists name' client', ag_clients h !! name' = Some client' /\ t = answer_time client') /\
  (order ≡ₚ map_to_list (ag_clients h) -> GetHealth_in Error order h = GetHealth Error h).
Proof.
  destruct (GetHealth_in_conditions (map_to_list (ag_clients h)) h) as [Hp Hs].
  split_and!; [apply GetHealth_ready_iff|exact Hp|exact Hs|apply aggregated_time|apply GetHealth_in_order].
Qed.
End AggregatorProps.

#[export] Instance maxby_ref : MaxByLib :=
  {| lo_MaxBy A zero l gt :=
       match l with
       | [] => zero
       | x :: l => fold_left (fun m y => if gt y m then y else m) l x
       end;
     lo_MaxBy_nil _ _ _ := eq_refl;
     lo_MaxBy_cons _ _ _ _ _ := eq_refl |}.

Definition two_clients : Aggregator :=
  AddClient "b" (Ok (mkHealth (Some 9%Z) true ["disk Failure"] ∅))
    (AddClient "a" (Ok (mkHealth (Some 4%Z) true [] ∅)) (NewAggregator [])).

(** ** Listener: one connection *)

Definition update_id (u : Update) : string :=
  match u with UStatus u => su_ID u | UHealth u => hu_ID u end.

Definition update_time (u : Update) : Time :=
  match u with
  | UStatus u => default 0%Z (CoreV1.st_Timestamp (su_Status u))
  | UHealth u => health_time (hu_Health u)
  end.

(** The updates the agent sends reach the handler of its own connection. *)
Definition own_event (id : string) (ev : conn_event) : bool :=
  match ev with EvIncoming up => bool_decide (hu_ID up = id) | _ => true end.

Lemma replaces_newer h cur : replaces h cur = true -> (health_time cur < health_time h)%Z.
Proof. unfold replaces, NewerThan. intros [_ H]%andb_true_iff. by apply Z.ltb_lt. Qed.

Lemma replaces_differs h cur : replaces h cur = true -> Health_Equal h cur = false.
Proof. unfold replaces. intros [H _]%andb_true_iff. by apply negb_true_iff. Qed.

(** One turn sends at most one health, which replaces the current one. *)
Lemma conn_turn_cases id ev cur :
  own_event id ev = true ->
  (exists h, conn_turn id ev cur = (h, [UHealth (mkHealthUpdate id h)], true) /\ replaces h cur = true) \/
  (exists goes_on, conn_turn id ev cur = (cur, [], goes_on)).
Proof.
  destruct ev as [| |[h|e|p]|[uid h]]; cbn; eauto; intros Ho.
  - destruct (replaces (Some h) cur) eqn:E; eauto.
  - apply bool_decide_eq_true in Ho as ->. destruct (replaces h cur) eqn:E; eauto.
Qed.

(** The healths a loop publishes: each one differs from the last one known and is
    newer than it. *)
Inductive chain : option Health -> list Update -> Prop :=
| chain_nil cur : chain cur []
| chain_cons cur id h us :
    replaces h cur = true -> chain h us -> chain cur (UHealth (mkHealthUpdate id h) :: us).

Lemma conn_loop_chain id evs cur :
  forallb (own_event id) evs = true ->
  chain cur (conn_loop id evs cur).1 /\ Forall (fun u => update_id u = id) (conn_loop id evs cur).1.
Proof.
  revert cur. induction evs as [|ev evs IH]; intros cur; cbn [conn_loop forallb].
  - intros _. by split; constructor.
  - intros [Hev Hevs]%andb_true_iff.
    destruct (conn_turn_cases id ev cur Hev) as [(h & -> & Hr)|(goes_on & ->)].
    + destruct (IH h Hevs) as [Hc Hf]. destruct (conn_loop id evs h). cbn in *.
      split; [by constructor|by constructor].
    + destruct (IH cur Hevs) as [Hc Hf]. destruct goes_on; cbn; [|by split; constructor].
      by destruct (conn_loop id evs cur).
Qed.

Lemma chain_times cur us :
  chain cur us ->
  StronglySorted Z.lt (map update_time us) /\
  forall u, u ∈ us -> (health_time cur < update_time u)%Z.
Proof.
  induction 1 as [cur|cur id h us Hr Hc [IHs IHa]]; cbn.
  - split; [constructor|]. by intros u Hu%not_elem_of_nil.
  - apply replaces_newer in Hr. split.
    + constructor; [done|]. apply list.Forall_forall. intros t (u & -> & Hu)%list_elem_of_fmap.
      by apply IHa.
    + intros u [->|Hu]%elem_of_cons; [done|]. specialize (IHa u Hu). lia.
Qed.

(** The updates published for a connection tell its story in order: first that the
    agent is connected and the health it answered first, then healths of that agent
    each different from and strictly newer than the one known before, and, once the
    connection has ended, a health that is not ready followed by the disconnected
    status, with nothing after it. *)
Lemma connection_updates (id : string) (clock : nat -> Time) (first : outcome Health)
    (evs : list conn_event) :
  forallb (own_event id) evs = true ->
  exists initial loop deferred,
    (HandleConnection id clock first evs).1
      = (publishStatus id true (clock 0) :: initial ++ loop ++ deferred)%list /\
    Forall (fun u => update_id u = id) (initial ++ loop ++ deferred)%list /\
    length initial = (if is_Ok first then 1 else 0) /\
    chain (match first with Ok h => Some h | _ => None end) loop /\
    StronglySorted Z.lt (map update_time loop) /\
    deferred = (if (HandleConnection id clock first evs).2
                then [UHealth (mkHealthUpdate id (Some (mkHealth (Some (clock 2)) false [] ∅)));
                      publishStatus id false (clock 3)]
                else []).
Proof.
  intros Ho. unfold HandleConnection.
  set (ci := match first with Ok h => _ | _ => _ end). destruct ci as [cur initial] eqn:Eci.
  assert (Hcur : cur = match first with Ok h => Some h | _ => None end).
  { subst ci. by destruct first; simplify_eq. }
  assert (Hlen : length initial = if is_Ok first then 1 else 0).
  { subst ci. by destruct first; simplify_eq. }
  assert (Hids : Forall (fun u => update_id u = id) initial).
  { subst ci. destruct first; simplify_eq; repeat constructor. }
  destruct (conn_loop_chain id evs cur Ho) as [Hc Hf].
  destruct (conn_loop id evs cur) as [loop returned]. cbn in *.
  set (deferred := if returned then _ else _).
  exists initial, loop, deferred. split; [done|]. split.
  { apply Forall_app. split; [done|]. apply Forall_app. split; [done|].
    unfold deferred. destruct returned; repeat constructor. }
  split; [done|]. rewrite <- Hcur. split; [done|]. split; [|done]. by apply (chain_times cur).
Qed.

Definition demo_events : list conn_event :=
  [EvTimer (Ok (mkHealth (Some 7%Z) false [] ∅)); EvTimer (Ok (mkHealth (Some 6%Z) true [] ∅)); EvDone].

(** ** Listener: concurrency *)

Definition holds (ph : conn_phase) : bool :=
  match ph with Holding | Registered => true | _ => false end.

(** The invariant of the shared state: the units of the semaphore are those of the
    handlers that hold one and, once the channels are closed, all of them; the lock
    of an agent and its entry in the table of incoming updates belong to the one
    handler registered for it. *)
Record listener_ok (l : Listener) : Prop := {
  ok_units : exists H : gset nat,
    (forall c, c ∈ H <-> exists id ph, li_conns l !! c = Some (id, ph) /\ holds ph = true) /\
    li_held l = (Z.of_nat (size H) + if decide (li_close l = ChannelsClosed) then li_max l else 0)%Z;
  ok_max : (li_held l <= li_max l)%Z;
  ok_lock id c : li_locks l !! id = Some c <-> li_conns l !! c = Some (id, Registered);
  ok_incoming : li_incoming l = li_locks l;
  ok_sent : li_sent_on_closed l = false }.

Lemma closed_no_holder l c id ph :
  listener_ok l -> li_close l = ChannelsClosed -> li_conns l !! c = Some (id, ph) -> holds ph = false.
Proof.
  intros [(H & HH & Hheld) Hmax _ _ _] Hc Hl. destruct (holds ph) eqn:E; [|done].
  rewrite Hc, decide_True in Hheld by done.
  assert (Hin : c ∈ H) by (apply HH; eauto).
  assert (size H <> 0) by (intros Hz%size_empty_inv; set_solver). lia.
Qed.

(** The holders after one handler moved to phase [ph]. *)
Lemma holders_insert (conns : gmap nat (string * conn_phase)) (H : gset nat) c id ph :
  (forall c, c ∈ H <-> exists id ph, conns !! c = Some (id, ph) /\ holds ph = true) ->
  forall d, d ∈ (if holds ph then {[c]} ∪ H else H ∖ {[c]}) <->
    exists id' ph', <[c := (id, ph)]> conns !! d = Some (id', ph') /\ holds ph' = true.
Proof.
  intros HH d. destruct (decide (d = c)) as [->|Hd].
  - rewrite lookup_insert_eq. destruct (holds ph) eqn:E.
    + split; [|set_solver]. eauto.
    + split; [set_solver|]. intros (? & ? & ? & ?). simplify_eq. congruence.
  - rewrite lookup_insert_ne by done. rewrite <- HH. destruct (holds ph); set_solver.
Qed.

(** A move between phases that are not [Registered] leaves the registered handlers. *)
Lemma registered_insert (conns : gmap nat (string * conn_phase)) c id ph d j :
  (forall i, conns !! c <> Some (i, Registered)) -> ph <> Registered ->
  <[c := (id, ph)]> conns !! d = Some (j, Registered) <-> conns !! d = Some (j, Registered).
Proof.
  intros Hc Hph. destruct (decide (d = c)) as [->|Hd].
  - rewrite lookup_insert_eq. split; [congruence|]. intros H. by apply Hc in H.
  - by rewrite lookup_insert_ne.
Qed.

(** The lock table when a handler takes the lock of its agent, and when it returns. *)
Lemma locks_register (conns : gmap nat (string * conn_phase)) (locks : gmap string nat) c id :
  (forall j d, locks !! j = Some d <-> conns !! d = Some (j, Registered)) ->
  conns !! c = Some (id, Holding) -> locks !! id = None ->
  forall j d, <[id := c]> locks !! j = Some d <->
    <[c := (id, Registered)]> conns !! d = Some (j, Registered).
Proof.
  intros Hlock Hph Hfree j d. destruct (decide (j = id)) as [->|Hj].
  - rewrite lookup_insert_eq. destruct (decide (d = c)) as [->|Hd].
    + by rewrite lookup_insert_eq.
    + rewrite lookup_insert_ne, <- Hlock by done. split; congruence.
  - rewrite lookup_insert_ne, Hlock by done. destruct (decide (d = c)) as [->|Hd].
    + rewrite lookup_insert_eq. split; congruence.
    + by rewrite lookup_insert_ne.
Qed.

Lemma locks_release (conns : gmap nat (string * conn_phase)) (locks : gmap string nat) c id :
  (forall j d, locks !! j = Some d <-> conns !! d = Some (j, Registered)) ->
  conns !! c = Some (id, Registered) ->
  forall j d, delete id locks !! j = Some d <->
    <[c := (id, Left)]> conns !! d = Some (j, Registered).
Proof.
  intros Hlock Hph j d. apply Hlock in Hph as Hlk. rewrite lookup_delete_Some, Hlock.
  destruct (decide (d = c)) as [->|Hd].
  - rewrite lookup_insert_eq. split; [|congruence]. intros [? ?]. congruence.
  - rewrite lookup_insert_ne by done. split; [tauto|]. intros Hd'. split; [|done].
    intros ->. apply Hlock in Hd'. congruence.
Qed.

Lemma lstep_ok l l' : lstep l l' -> listener_ok l -> listener_ok l'.
Proof.
  intros Hst Hok. pose proof Hok as [(H & HH & Hheld) Hmax Hlock Hinc Hsent].
  destruct Hst as [l c id Hn Hc|l c id Hph|l c id Hph Hroom|l c id Hph Hfree|l c id Hph|l c id Hph|l Hc|l Hc Hroom].
  - split; cbn; try done.
    + exists (H ∖ {[c]}). split; [by apply (holders_insert _ _ _ id Checked)|].
      rewrite Hheld. do 2 f_equal. rewrite difference_disjoint_L; [done|].
      apply disjoint_singleton_r. rewrite HH, Hn. naive_solver.
    + intros j d. rewrite registered_insert; [apply Hlock| |done]. congruence.
  - split; cbn; try done.
    + exists (H ∖ {[c]}). split; [by apply (holders_insert _ _ _ id Left)|].
      rewrite Hheld. do 2 f_equal. rewrite difference_disjoint_L; [done|].
      apply disjoint_singleton_r. rewrite HH, Hph. naive_solver.
    + intros j d. rewrite registered_insert; [apply Hlock| |done]. congruence.
  - split; cbn; try done.
    + exists ({[c]} ∪ H). split; [by apply (holders_insert _ _ _ id Holding)|].
      rewrite size_union, size_singleton by (apply disjoint_singleton_l; rewrite HH, Hph; naive_solver).
      rewrite Hheld. lia.
    + intros j d. rewrite registered_insert; [apply Hlock| |done]. congruence.
  - split; cbn; try done.
    + exists H. split; [|done]. intros d. rewrite <- (holders_insert _ _ c id Registered HH).
      cbn. assert (c ∈ H) by (apply HH; eauto). set_solver.
    + by apply locks_register.
    + by rewrite Hinc.
  - split; cbn; try done; [by exists H|]. rewrite Hsent. cbn. apply bool_decide_eq_false.
    intros Hc. by pose proof (closed_no_holder _ _ _ _ Hok Hc Hph).
  - split; cbn; try lia.
    + exists (H ∖ {[c]}). split; [by apply (holders_insert _ _ _ id Left)|].
      assert (Hin : c ∈ H) by (apply HH; eauto).
      rewrite size_difference, size_singleton by set_solver.
      assert (size H <> 0) by (intros Hz%size_empty_inv; set_solver). lia.
    + by apply locks_release.
    + by rewrite Hinc.
    + done.
  - split; cbn; try done. exists H. split; [done|]. by rewrite Hc in Hheld.
  - split; cbn; try done. exists H. split; [done|]. rewrite Hc in Hheld.
    rewrite decide_False in Hheld by done. rewrite decide_True by done. lia.
Qed.

(** The states a listener gets to. *)
Definition listener_reachable (max : Z) (l : Listener) : Prop := rtc lstep (NewListener max) l.

(** C39: in every interleaving of the handlers of connections and of Close, from a new
    listener: no update is sent on a channel that Close has closed, no more than the
    configured number of connections hold the semaphore, and an agent has at most
    one registered handler, which is the one its UpdateHealth calls reach. *)
Theorem listener_safe (max : Z) (l : Listener) :
  (0 <= max)%Z -> listener_reachable max l ->
  li_sent_on_closed l = false /\ (li_held l <= li_max l)%Z /\
  (forall c1 c2 id, li_conns l !! c1 = Some (id, Registered) ->
     li_conns l !! c2 = Some (id, Registered) -> c1 = c2) /\
  (forall id req c up, UpdateHealth id req l = Some (c, up) ->
     li_conns l !! c = Some (id, Registered) /\ hu_ID up = id).
Proof.
  intros Hmax Hr. unfold listener_reachable in Hr. assert (Hok : listener_ok l).
  { cut (listener_ok (NewListener max)).
    - induction Hr as [|l1 l2 l3 Hst _ IH]; [done|]. intros H1. by eapply IH, lstep_ok.
    - split; cbn; try done. exists ∅. split; [|done]. intros c. rewrite lookup_empty. set_solver. }
  destruct Hok as [_ Hm Hlock Hinc Hs]. split_and!; try done.
  - intros c1 c2 id H1%Hlock H2%Hlock. congruence.
  - intros id req c up. unfold UpdateHealth. rewrite Hinc.
    destruct (li_locks l !! id) as [d|] eqn:E; [|done]. cbn. intros [= <- <-]. by apply Hlock in E.
Qed.

(** One connection enters and is registered. *)
Definition one_conn : Listener :=
  mkListener 1%Z 1%Z NotClosed {[ 0 := ("a", Registered) ]} {[ "a" := 0 ]} {[ "a" := 0 ]} false.

Lemma listener_safe_witness :
  listener_reachable 1%Z one_conn /\ li_sent_on_closed one_conn = false.
Proof.
  assert (Hr : listener_reachable 1%Z one_conn).
  { eapply rtc_l; [apply (l_enter _ 0 "a"); done|].
    eapply rtc_l; [apply (l_acquire _ 0 "a"); cbn; [done|lia]|].
    eapply rtc_l; [apply (l_lock _ 0 "a"); done|]. apply rtc_refl. }
  split; [exact Hr|]. apply (listener_safe 1%Z one_conn); [lia|exact Hr].
Defined.
