(* ===== verification/Monitor.v ===== *)
(** pkg/health/monitor.go: the monitor keeps the last health and status of every
    agent and feeds them to watchers.  [Run], the goroutines of the watchers and
    their consumers interleave: each statement that can block is a step.  The mutex
    of the monitor is held by [Run] while it sends an update to the listeners. *)

From S2P Require Import Prelude CoreV1 Health.

Local Open Scope string_scope.

Record ClusterHealthStatus := mkClusterHealthStatus {
  chs_Cluster : Reference;
  chs_HealthStatus : HealthStatus }.

Definition hl_cap : nat := 10.
Definition ch_cap : nat := 100.

(** Where the goroutine of a watcher is. *)
Inductive wphase :=
| WInit (rest : list (string * Health))    (* sends what was known at the start *)
| WLoop                                    (* waits in the select *)
| WEmit (hs : ClusterHealthStatus)         (* sends on its channel *)
| WLeaving                                 (* left the loop, waits for the mutex *)
| WGone.

Record Watcher := mkWatcher {
  wa_hl : list (string * Health);
  wa_sl : list (string * Status);
  wa_hlClosed : bool;
  wa_slClosed : bool;
  wa_ctxDone : bool;
  wa_curHealth : gmap string Health;
  wa_curStatus : gmap string Status;
  wa_ch : list ClusterHealthStatus;
  wa_phase : wphase }.

(** Where [Run] is: in its select, or sending an update to the listeners left. *)
Inductive run_phase :=
| RIdle
| RSendHealth (id : string) (h : Health) (rest : list nat)
| RSendStatus (id : string) (s : Status) (rest : list nat)
| RStopped.

Record Monitor := mkMonitor {
  m_currentHealth : gmap string Health;
  m_currentStatus : gmap string Status;
  m_healthListeners : list nat;
  m_statusListeners : list nat;
  m_watchers : gmap nat Watcher;
  m_run : run_phase }.

Definition NewMonitor : Monitor := mkMonitor ∅ ∅ [] [] ∅ RIdle.

(** The mutex is free unless [Run] is sending. *)
Definition mu_free (m : Monitor) : bool :=
  match m_run m with RIdle | RStopped => true | _ => false end.

Definition GetHealthStatus (id : string) (m : Monitor) : HealthStatus :=
  mkHealthStatus (m_currentHealth m !! id) (m_currentStatus m !! id).

Definition with_run (r : run_phase) (m : Monitor) : Monitor :=
  mkMonitor (m_currentHealth m) (m_currentStatus m) (m_healthListeners m) (m_statusListeners m)
    (m_watchers m) r.
Definition with_watchers (ws : gmap nat Watcher) (m : Monitor) : Monitor :=
  mkMonitor (m_currentHealth m) (m_currentStatus m) (m_healthListeners m) (m_statusListeners m)
    ws (m_run m).
Definition set_phase (p : wphase) (w : Watcher) : Watcher :=
  mkWatcher (wa_hl w) (wa_sl w) (wa_hlClosed w) (wa_slClosed w) (wa_ctxDone w)
    (wa_curHealth w) (wa_curStatus w) (wa_ch w) p.
Definition set_ch (c : list ClusterHealthStatus) (w : Watcher) : Watcher :=
  mkWatcher (wa_hl w) (wa_sl w) (wa_hlClosed w) (wa_slClosed w) (wa_ctxDone w)
    (wa_curHealth w) (wa_curStatus w) c (wa_phase w).
Definition set_hl (q : list (string * Health)) (w : Watcher) : Watcher :=
  mkWatcher q (wa_sl w) (wa_hlClosed w) (wa_slClosed w) (wa_ctxDone w)
    (wa_curHealth w) (wa_curStatus w) (wa_ch w) (wa_phase w).
Definition set_sl (q : list (string * Status)) (w : Watcher) : Watcher :=
  mkWatcher (wa_hl w) q (wa_hlClosed w) (wa_slClosed w) (wa_ctxDone w)
    (wa_curHealth w) (wa_curStatus w) (wa_ch w) (wa_phase w).
Definition set_curHealth (c : gmap string Health) (w : Watcher) : Watcher :=
  mkWatcher (wa_hl w) (wa_sl w) (wa_hlClosed w) (wa_slClosed w) (wa_ctxDone w)
    c (wa_curStatus w) (wa_ch w) (wa_phase w).
Definition set_curStatus (c : gmap string Status) (w : Watcher) : Watcher :=
  mkWatcher (wa_hl w) (wa_sl w) (wa_hlClosed w) (wa_slClosed w) (wa_ctxDone w)
    (wa_curHealth w) c (wa_ch w) (wa_phase w).
Definition set_ctxDone (w : Watcher) : Watcher :=
  mkWatcher (wa_hl w) (wa_sl w) (wa_hlClosed w) (wa_slClosed w) true
    (wa_curHealth w) (wa_curStatus w) (wa_ch w) (wa_phase w).
Definition close_hl (w : Watcher) : Watcher :=
  mkWatcher (wa_hl w) (wa_sl w) true (wa_slClosed w) (wa_ctxDone w)
    (wa_curHealth w) (wa_curStatus w) (wa_ch w) (wa_phase w).
Definition close_sl (w : Watcher) : Watcher :=
  mkWatcher (wa_hl w) (wa_sl w) (wa_hlClosed w) true (wa_ctxDone w)
    (wa_curHealth w) (wa_curStatus w) (wa_ch w) (wa_phase w).

(** What a watcher reports of a cluster. *)
Definition report (id : string) (w : Watcher) : ClusterHealthStatus :=
  mkClusterHealthStatus (mkReference id)
    (mkHealthStatus (wa_curHealth w !! id) (wa_curStatus w !! id)).

(** ** Run *)

(** [case update := <-updater.HealthC()]: the mutex is taken, the map updated. *)
Definition run_recv_health (id : string) (h : Health) (m : Monitor) : Monitor :=
  mkMonitor (<[id := h]> (m_currentHealth m)) (m_currentStatus m)
    (m_healthListeners m) (m_statusListeners m) (m_watchers m)
    (RSendHealth id h (m_healthListeners m)).

Definition run_recv_status (id : string) (s : Status) (m : Monitor) : Monitor :=
  mkMonitor (m_currentHealth m) (<[id := s]> (m_currentStatus m))
    (m_healthListeners m) (m_statusListeners m) (m_watchers m)
    (RSendStatus id s (m_statusListeners m)).

(** One send to a listener with room in its channel. *)
Definition run_send_health (id : string) (h : Health) (n : nat) (rest : list nat) (m : Monitor) : Monitor :=
  with_run (RSendHealth id h rest)
    (with_watchers (alter (fun w => set_hl (wa_hl w ++ [(id, h)])%list w) n (m_watchers m)) m).

Definition run_send_status (id : string) (s : Status) (n : nat) (rest : list nat) (m : Monitor) : Monitor :=
  with_run (RSendStatus id s rest)
    (with_watchers (alter (fun w => set_sl (wa_sl w ++ [(id, s)])%list w) n (m_watchers m)) m).

(** The deferred function of [Run]. *)
Definition run_stop (m : Monitor) : Monitor :=
  mkMonitor ∅ ∅ [] []
    (foldr (alter close_sl) (foldr (alter close_hl) (m_watchers m) (m_healthListeners m))
       (m_statusListeners m))
    RStopped.

(** ** WatchHealthStatus *)

Definition WatchHealthStatus (n : nat) (m : Monitor) : Monitor :=
  let w := mkWatcher [] [] false false false (m_currentHealth m) (m_currentStatus m) []
             (WInit (map_to_list (m_currentHealth m))) in
  mkMonitor (m_currentHealth m) (m_currentStatus m)
    (m_healthListeners m ++ [n])%list (m_statusListeners m ++ [n])%list
    (<[n := w]> (m_watchers m)) (m_run m).

(** The cleanup at the end of the goroutine: the first occurrence of its channel is
    removed from each list and the channel closed. *)
Definition remove_first (n : nat) (l : list nat) : list nat :=
  match list_find (fun k => k = n) l with
  | Some (i, _) => (take i l ++ drop (S i) l)%list
  | None => l
  end.

Definition watcher_leave (n : nat) (w : Watcher) (m : Monitor) : Monitor :=
  let w := if decide (n ∈ m_healthListeners m) then close_hl w else w in
  let w := if decide (n ∈ m_statusListeners m) then close_sl w else w in
  mkMonitor (m_currentHealth m) (m_currentStatus m)
    (remove_first n (m_healthListeners m)) (remove_first n (m_statusListeners m))
    (<[n := set_phase WGone w]> (m_watchers m)) (m_run m).

(** ** The interleavings *)

(** The steps of the goroutine of a watcher that need no mutex, and those of its
    consumer and its context. *)
Inductive wstep : Watcher -> Watcher -> Prop :=
| w_init w id h rest :
    wa_phase w = WInit ((id, h) :: rest) -> length (wa_ch w) < ch_cap ->
    wstep w (set_phase (WInit rest)
               (set_ch (wa_ch w ++ [mkClusterHealthStatus (mkReference id)
                                      (mkHealthStatus (Some h) (wa_curStatus w !! id))])%list w))
| w_init_done w :
    wa_phase w = WInit [] -> wstep w (set_phase WLoop w)
| w_recv_health w id h q :
    wa_phase w = WLoop -> wa_hl w = (id, h) :: q ->
    let w' := set_hl q (set_curHealth (<[id := h]> (wa_curHealth w)) w) in
    wstep w (set_phase (WEmit (report id w')) w')
| w_recv_status w id s q :
    wa_phase w = WLoop -> wa_sl w = (id, s) :: q ->
    let w' := set_sl q (set_curStatus (<[id := s]> (wa_curStatus w)) w) in
    wstep w (set_phase (WEmit (report id w')) w')
| w_closed w :
    wa_phase w = WLoop ->
    (wa_hl w = [] /\ wa_hlClosed w = true) \/ (wa_sl w = [] /\ wa_slClosed w = true) ->
    wstep w (set_phase WLeaving w)
| w_canceled w :
    wa_phase w = WLoop -> wa_ctxDone w = true -> wstep w (set_phase WLeaving w)
| w_emit w hs :
    wa_phase w = WEmit hs -> length (wa_ch w) < ch_cap ->
    wstep w (set_phase WLoop (set_ch (wa_ch w ++ [hs])%list w))
| w_drop w hs :
    wa_phase w = WEmit hs -> wa_ctxDone w = true -> wstep w (set_phase WLoop w)
| w_cancel w : wstep w (set_ctxDone w)
| w_read w hs c : wa_ch w = hs :: c -> wstep w (set_ch c w).

Inductive mstep : Monitor -> Monitor -> Prop :=
| m_recv_health m id h : m_run m = RIdle -> mstep m (run_recv_health id h m)
| m_recv_status m id s : m_run m = RIdle -> mstep m (run_recv_status id s m)
| m_send_health m id h n rest w :
    m_run m = RSendHealth id h (n :: rest) ->
    m_watchers m !! n = Some w -> length (wa_hl w) < hl_cap ->
    mstep m (run_send_health id h n rest m)
| m_send_status m id s n rest w :
    m_run m = RSendStatus id s (n :: rest) ->
    m_watchers m !! n = Some w -> length (wa_sl w) < hl_cap ->
    mstep m (run_send_status id s n rest m)
| m_sent_health m id h : m_run m = RSendHealth id h [] -> mstep m (with_run RIdle m)
| m_sent_status m id s : m_run m = RSendStatus id s [] -> mstep m (with_run RIdle m)
| m_stop m : m_run m = RIdle -> mstep m (run_stop m)
| m_watch m n : mu_free m = true -> m_watchers m !! n = None -> mstep m (WatchHealthStatus n m)
| m_leave m n w :
    mu_free m = true -> m_watchers m !! n = Some w -> wa_phase w = WLeaving ->
    mstep m (watcher_leave n w m)
| m_watcher m n w w' :
    m_watchers m !! n = Some w -> wstep w w' ->
    mstep m (with_watchers (<[n := w']> (m_watchers m)) m).

(** ** Watchers follow the monitor *)

Definition replay {A} (q : list (string * A)) (cur : gmap string A) : gmap string A :=
  fold_left (fun c kv => <[kv.1 := kv.2]> c) q cur.

(** What watcher [n] will know once it has read its channel and the update that is
    being sent. *)
Definition view_health (m : Monitor) (n : nat) (w : Watcher) : gmap string Health :=
  match m_run m with
  | RSendHealth id h rest =>
      if decide (n ∈ rest) then <[id := h]> (replay (wa_hl w) (wa_curHealth w))
      else replay (wa_hl w) (wa_curHealth w)
  | _ => replay (wa_hl w) (wa_curHealth w)
  end.

Definition view_status (m : Monitor) (n : nat) (w : Watcher) : gmap string Status :=
  match m_run m with
  | RSendStatus id s rest =>
      if decide (n ∈ rest) then <[id := s]> (replay (wa_sl w) (wa_curStatus w))
      else replay (wa_sl w) (wa_curStatus w)
  | _ => replay (wa_sl w) (wa_curStatus w)
  end.

(** The listeners an update is still to be sent to. *)
Definition run_rest (r : run_phase) : list nat :=
  match r with RSendHealth _ _ rest | RSendStatus _ _ rest => rest | _ => [] end.

Record monitor_ok (m : Monitor) : Prop := {
  mo_same : m_statusListeners m = m_healthListeners m;
  mo_nodup : NoDup (m_healthListeners m);
  mo_rest : NoDup (run_rest (m_run m));
  mo_rest_in n : n ∈ run_rest (m_run m) -> n ∈ m_healthListeners m;
  mo_watcher n : n ∈ m_healthListeners m -> exists w, m_watchers m !! n = Some w /\
    view_health m n w = m_currentHealth m /\ view_status m n w = m_currentStatus m }.

Lemma replay_app {A} (q : list (string * A)) k v cur :
  replay (q ++ [(k, v)])%list cur = <[k := v]> (replay q cur).
Proof. unfold replay. by rewrite fold_left_app. Qed.

Lemma wstep_view m n w w' :
  wstep w w' -> view_health m n w' = view_health m n w /\ view_status m n w' = view_status m n w.
Proof.
  intros Hst. unfold view_health, view_status.
  destruct Hst as [| |w id h q _ Hq| w id s q _ Hq| | | | | |]; try done; cbn;
    split; try done; rewrite Hq; done.
Qed.

Lemma remove_first_spec n l :
  NoDup l -> NoDup (remove_first n l) /\ forall k, k ∈ remove_first n l <-> k ∈ l /\ k <> n.
Proof.
  intros Hnd. unfold remove_first.
  destruct (list_find (fun k => k = n) l) as [[i x]|] eqn:E.
  - apply list_find_Some in E as (Hi & -> & _).
    rewrite <- (take_drop_middle l i n Hi) in Hnd.
    assert (Hp : forall k, k ∈ l <-> k ∈ n :: (take i l ++ drop (S i) l)%list).
    { intros k. rewrite <- (take_drop_middle l i n Hi) at 1. by rewrite Permutation_middle. }
    rewrite <- Permutation_middle in Hnd. apply list.NoDup_cons in Hnd as [Hn Hnd].
    split; [done|]. intros k. rewrite Hp, elem_of_cons. naive_solver.
  - apply list_find_None in E. split; [done|]. intros k. split; [|tauto].
    intros Hk. split; [done|]. by eapply list.Forall_forall in E.
Qed.

Lemma mu_free_rest m : mu_free m = true -> run_rest (m_run m) = [].
Proof. unfold mu_free. by destruct (m_run m). Qed.

(** With the mutex free nothing is being sent. *)
Lemma mu_free_view m n w : mu_free m = true ->
  view_health m n w = replay (wa_hl w) (wa_curHealth w) /\
  view_status m n w = replay (wa_sl w) (wa_curStatus w).
Proof. unfold mu_free, view_health, view_status. by destruct (m_run m). Qed.

Section Invariant.
Implicit Types (m : Monitor) (w : Watcher).

Lemma recv_health_ok m id h :
  m_run m = RIdle -> monitor_ok m -> monitor_ok (run_recv_health id h m).
Proof.
  intros Hr [Hs Hn _ _ Hw]. split; cbn; try done. intros n Hin.
  destruct (Hw n Hin) as (w & Hl & Hh & Hst). exists w. split; [done|].
  unfold view_health, view_status in *. rewrite Hr in *. cbn.
  rewrite decide_True by done. by rewrite Hh.
Qed.

Lemma recv_status_ok m id s :
  m_run m = RIdle -> monitor_ok m -> monitor_ok (run_recv_status id s m).
Proof.
  intros Hr [Hs Hn _ _ Hw]. split; cbn; try done; try (rewrite Hs; done). intros n Hin.
  destruct (Hw n Hin) as (w & Hl & Hh & Hst). exists w. split; [done|].
  unfold view_health, view_status in *. rewrite Hr in *. cbn.
  rewrite decide_True by (by rewrite Hs). by rewrite Hst.
Qed.

Lemma send_health_ok m id h n rest w :
  m_run m = RSendHealth id h (n :: rest) -> m_watchers m !! n = Some w ->
  monitor_ok m -> monitor_ok (run_send_health id h n rest m).
Proof.
  intros Hr Hl [Hs Hn Hrest Hrin Hw]. rewrite Hr in *. cbn in *.
  apply list.NoDup_cons in Hrest as [Hnin Hrest].
  split; cbn; try done; [intros k Hk; apply Hrin; by right|].
  intros k Hin. destruct (Hw k Hin) as (w' & Hl' & Hh & Hst).
  unfold view_health, view_status in *. rewrite Hr in *. cbn. destruct (decide (k = n)) as [->|Hk].
  - rewrite lookup_alter_eq, Hl'. eexists. split; [done|]. rewrite decide_False by done.
    rewrite decide_True in Hh by by left. split; [|done].
    cbn [wa_hl wa_curHealth set_hl]. by rewrite replay_app.
  - rewrite lookup_alter_ne by done. exists w'. split; [done|]. split; [|done]. rewrite <- Hh.
    repeat case_decide; set_solver.
Qed.

Lemma send_status_ok m id s n rest w :
  m_run m = RSendStatus id s (n :: rest) -> m_watchers m !! n = Some w ->
  monitor_ok m -> monitor_ok (run_send_status id s n rest m).
Proof.
  intros Hr Hl [Hs Hn Hrest Hrin Hw]. rewrite Hr in *. cbn in *.
  apply list.NoDup_cons in Hrest as [Hnin Hrest].
  split; cbn; try done; [intros k Hk; apply Hrin; by right|].
  intros k Hin. destruct (Hw k Hin) as (w' & Hl' & Hh & Hst).
  unfold view_health, view_status in *. rewrite Hr in *. cbn. destruct (decide (k = n)) as [->|Hk].
  - rewrite lookup_alter_eq, Hl'. eexists. split; [done|]. rewrite decide_False by done.
    rewrite decide_True in Hst by by left. split; [done|].
    cbn [wa_sl wa_curStatus set_sl]. by rewrite replay_app.
  - rewrite lookup_alter_ne by done. exists w'. split; [done|]. split; [done|]. rewrite <- Hst.
    repeat case_decide; set_solver.
Qed.

Lemma sent_ok m : run_rest (m_run m) = [] -> monitor_ok m -> monitor_ok (with_run RIdle m).
Proof.
  intros Hr [Hs Hn _ _ Hw]. split; cbn; try done; try (constructor || (intros; set_solver)).
  intros n Hin. destruct (Hw n Hin) as (w & Hl & Hh & Hst). exists w. split; [done|].
  unfold view_health, view_status in *. cbn.
  destruct (m_run m); cbn in Hr; subst; try done; rewrite decide_False in * by set_solver; done.
Qed.

Lemma watch_ok m n :
  mu_free m = true -> m_watchers m !! n = None -> monitor_ok m -> monitor_ok (WatchHealthStatus n m).
Proof.
  intros Hf Hfresh [Hs Hn Hrest Hrin Hw].
  assert (Hnin : n ∉ m_healthListeners m).
  { intros Hin. destruct (Hw n Hin) as (w & Hl & _). congruence. }
  split; cbn; try done.
  - by rewrite Hs.
  - apply list.NoDup_app. split; [done|]. split; [set_solver|]. apply NoDup_singleton.
  - rewrite (mu_free_rest _ Hf). set_solver.
  - intros k [Hk| ->%list_elem_of_singleton]%elem_of_app.
    + destruct (Hw k Hk) as (w & Hl & Hh & Hst). exists w. rewrite lookup_insert_ne by congruence.
      split; [done|]. split; [exact Hh|exact Hst].
    + rewrite lookup_insert_eq. eexists. split; [done|].
      split; (etrans; [by apply mu_free_view|done]).
Qed.

Lemma leave_ok m n w :
  mu_free m = true -> monitor_ok m -> monitor_ok (watcher_leave n w m).
Proof.
  intros Hf [Hs Hn Hrest Hrin Hw].
  destruct (remove_first_spec n _ Hn) as [Hnd Hmem].
  split; cbn; try done.
  - by rewrite Hs.
  - rewrite (mu_free_rest _ Hf). set_solver.
  - intros k [Hk Hne]%Hmem. destruct (Hw k Hk) as (w' & Hl & Hh & Hst). exists w'.
    rewrite lookup_insert_ne by done. split; [done|]. split; [exact Hh|exact Hst].
Qed.

Lemma watcher_step_ok m n w w' :
  m_watchers m !! n = Some w -> wstep w w' -> monitor_ok m ->
  monitor_ok (with_watchers (<[n := w']> (m_watchers m)) m).
Proof.
  intros Hl Hst [Hs Hn Hrest Hrin Hw]. split; cbn; try done.
  intros k Hin. destruct (Hw k Hin) as (w0 & Hl0 & Hh & Hss). destruct (decide (k = n)) as [->|Hk].
  - rewrite lookup_insert_eq. exists w'. split; [done|].
    destruct (wstep_view m n w w' Hst) as [H1 H2]. simplify_eq.
    split; [by rewrite <- Hh, <- H1|by rewrite <- Hss, <- H2].
  - rewrite lookup_insert_ne by done. by exists w0.
Qed.

Lemma mstep_ok m m' : mstep m m' -> monitor_ok m -> monitor_ok m'.
Proof.
  destruct 1; intros Hok.
  - by apply recv_health_ok.
  - by apply recv_status_ok.
  - by eapply send_health_ok.
  - by eapply send_status_ok.
  - apply sent_ok; [|done]. by rewrite H.
  - apply sent_ok; [|done]. by rewrite H.
  - split; cbn; try done; try constructor; set_solver.
  - by apply watch_ok.
  - by apply leave_ok.
  - by eapply watcher_step_ok.
Qed.

Lemma reachable_ok m : rtc mstep NewMonitor m -> monitor_ok m.
Proof.
  intros Hr. cut (monitor_ok NewMonitor).
  - induction Hr as [|m1 m2 m3 Hst _ IH]; [done|]. intros H1. by eapply IH, mstep_ok.
  - split; cbn; try done; try constructor; set_solver.
Qed.
End Invariant.

(** ** Claims *)

(** C11: whatever the interleaving of the monitor, of its watchers and of their
    consumers, a watcher that is still registered and has read its two channels
    knows exactly the healths and the statuses the monitor holds, when the monitor
    is not sending an update: no update is lost, reordered or duplicated on the way. *)
Theorem watchers_follow_monitor (m : Monitor) (n : nat) (w : Watcher) :
  rtc mstep NewMonitor m -> mu_free m = true ->
  n ∈ m_healthListeners m -> m_watchers m !! n = Some w -> wa_hl w = [] -> wa_sl w = [] ->
  wa_curHealth w = m_currentHealth m /\ wa_curStatus w = m_currentStatus m.
Proof.
  intros Hr Hf Hn Hl Hh Hs. destruct (mo_watcher _ (reachable_ok _ Hr) n Hn) as (w' & Hl' & Hvh & Hvs).
  simplify_eq. destruct (mu_free_view m n w Hf) as [E1 E2].
  rewrite E1, Hh in Hvh. rewrite E2, Hs in Hvs. done.
Qed.

(** One agent reports, a watcher starts and reads the report. *)
Definition demo_health : Health := mkHealth (Some 1%Z) true [] ∅.
Definition demo_watched : Monitor := run_recv_health "a" demo_health (WatchHealthStatus 0 NewMonitor).
Definition demo_sent : Monitor := with_run RIdle (run_send_health "a" demo_health 0 [] demo_watched).
Definition demo_watcher (p : wphase) : Watcher :=
  mkWatcher [("a", demo_health)] [] false false false ∅ ∅ [] p.
Definition demo_loop : Monitor :=
  with_watchers (<[0 := set_phase WLoop (demo_watcher (WInit []))]> (m_watchers demo_sent)) demo_sent.
Definition demo_read_watcher : Watcher :=
  let w' := set_hl [] (set_curHealth {[ "a" := demo_health ]} (demo_watcher WLoop)) in
  set_phase (WEmit (report "a" w')) w'.
Definition demo_read : Monitor :=
  with_watchers (<[0 := demo_read_watcher]> (m_watchers demo_loop)) demo_loop.

Lemma demo_reachable : rtc mstep NewMonitor demo_read.
Proof.
  eapply rtc_l; [by apply (m_watch NewMonitor 0)|].
  eapply rtc_l; [by apply (m_recv_health _ "a" demo_health)|].
  eapply rtc_l; [eapply (m_send_health _ "a" demo_health 0 []); [done|done|cbn; unfold hl_cap; lia]|].
  eapply rtc_l; [by eapply (m_sent_health _ "a" demo_health)|].
  eapply rtc_l; [eapply (m_watcher _ 0 (demo_watcher (WInit []))); [done|by apply w_init_done]|].
  eapply rtc_l; [|apply rtc_refl].
  eapply (m_watcher _ 0 (demo_watcher WLoop)); [done|].
  apply (w_recv_health (demo_watcher WLoop) "a" demo_health []); done.
Qed.

Lemma watchers_follow_monitor_witness :
  wa_curHealth demo_read_watcher = m_currentHealth demo_read /\
  m_currentHealth demo_read !! "a" = Some demo_health.
Proof.
  split; [|reflexivity].
  apply (watchers_follow_monitor demo_read 0 demo_read_watcher).
  - exact demo_reachable.
  - reflexivity.
  - apply list_elem_of_singleton. reflexivity.
  - reflexivity.
  - reflexivity.
  - reflexivity.
Defined.

(** A watcher that has left its loop with [k] healths in its channel. *)
Definition leaving (k : nat) (m : Monitor) : Prop :=
  m_healthListeners m = [0] /\
  exists w, m_watchers m !! 0 = Some w /\ length (wa_hl w) = k /\ wa_phase w = WLeaving.

Lemma fill_channel k : k <= hl_cap ->
  exists m, rtc mstep NewMonitor m /\ m_run m = RIdle /\ leaving k m.
Proof.
  induction k as [|k IH]; intros Hk.
  - set (w0 := mkWatcher [] [] false false false ∅ ∅ [] (WInit [])).
    eexists. split; [|split].
    + eapply rtc_l; [by apply (m_watch NewMonitor 0)|].
      eapply rtc_l; [eapply (m_watcher _ 0 w0); [done|by apply w_init_done]|].
      eapply rtc_l; [eapply (m_watcher _ 0 (set_phase WLoop w0)); [done|by apply w_cancel]|].
      eapply rtc_l; [|apply rtc_refl].
      eapply (m_watcher _ 0 (set_ctxDone (set_phase WLoop w0))); [done|by apply w_canceled].
    + done.
    + split; [done|]. eexists. split; [apply lookup_insert_eq|]. done.
  - destruct IH as (m & Hr & Hrun & Hls & w & Hw & Hlen & Hph); [lia|].
    set (m1 := run_recv_health "a" demo_health m).
    set (m2 := run_send_health "a" demo_health 0 [] m1).
    exists (with_run RIdle m2). split; [|split; [done|split; [done|]]].
    + etrans; [exact Hr|].
      eapply rtc_l; [by apply (m_recv_health _ "a" demo_health)|].
      eapply rtc_l; [eapply (m_send_health m1 "a" demo_health 0 []); [|exact Hw|lia]; cbn; by rewrite Hls|].
      eapply rtc_l; [by eapply (m_sent_health m2 "a" demo_health)|apply rtc_refl].
    + cbn. rewrite lookup_alter_eq, Hw. eexists. split; [done|]. cbn. rewrite length_app. cbn.
      split; [lia|done].
Qed.

(** [Run] waits for room in a channel that will not be read again. *)
Definition stuck (m : Monitor) : Prop :=
  (exists id h rest, m_run m = RSendHealth id h (0 :: rest)) /\
  exists w, m_watchers m !! 0 = Some w /\ length (wa_hl w) = hl_cap /\ wa_phase w = WLeaving.

Lemma wstep_leaving w w' :
  wstep w w' -> wa_phase w = WLeaving -> wa_hl w' = wa_hl w /\ wa_phase w' = WLeaving.
Proof. destruct 1; cbn; try congruence; done. Qed.

Lemma stuck_step m m' : mstep m m' -> stuck m -> stuck m'.
Proof.
  intros Hst [(id & h & rest & Hr) (w & Hw & Hlen & Hph)].
  assert (Hmu : mu_free m = false) by (unfold mu_free; by rewrite Hr).
  destruct Hst as [| | ? ? ? ? ? w2 Hr2 Hw2 Hroom| | | | | | |m n w1 w2 Hn Hws]; try congruence.
  - assert (n = 0) as -> by congruence. assert (w2 = w) as -> by congruence. lia.
  - split; [by exists id, h, rest|]. cbn. destruct (decide (n = 0)) as [->|Hne].
    + rewrite lookup_insert_eq. exists w2. split; [done|]. simplify_eq.
      destruct (wstep_leaving _ _ Hws Hph) as [-> ->]. done.
    + rewrite lookup_insert_ne by done. by exists w.
Qed.

(** The monitor can stop for ever: a watcher whose context ended leaves its loop
    and waits for the mutex without reading its channel, while Run holds the mutex
    and waits for room in that channel.  From the state that eleven health updates
    then lead to, no interleaving ever frees the mutex, so that no later call to
    GetHealthStatus or WatchHealthStatus returns. *)
Lemma monitor_can_deadlock :
  exists m, rtc mstep NewMonitor m /\ forall m', rtc mstep m m' -> mu_free m' = false.
Proof.
  destruct (fill_channel hl_cap) as (m & Hr & Hrun & Hls & w & Hw & Hlen & Hph); [lia|].
  exists (run_recv_health "a" demo_health m). split.
  { eapply rtc_r; [exact Hr|]. by apply m_recv_health. }
  assert (Hstuck : stuck (run_recv_health "a" demo_health m)).
  { split; [cbn; rewrite Hls; by eexists _, _, _|]. by exists w. }
  intros m' Hr'. revert Hstuck. induction Hr' as [m1|m1 m2 m3 Hst _ IH]; intros Hs.
  - destruct Hs as [(id & h & rest & E) _]. unfold mu_free. by rewrite E.
  - by eapply IH, stuck_step.
Qed.
