(* ===== verification/Bootstrap.v ===== *)
(** pkg/bootstrap and pkg/capabilities: how an agent that holds a bootstrap token
    becomes a cluster of the gateway. *)

From S2P Require Import Prelude GoStd Util Base64 Validation CoreV1 Storage Etcd RefJSON Tokens Crypto Pkp Keyring ClusterAuth Trust.

Local Open Scope string_scope.

(** ** pkg/capabilities *)

Definition ErrUnknownCapability : error := ErrorString "unknown capability".
Definition ErrBackendNotFound : error := ErrorString "capability backend not found".
Definition ErrBackendAlreadyExists : error := ErrorString "capability backend already exists".

Definition Has {O T} `{MetadataAccessor O T} `{Comparator T} (accessor : O) (capability : T) : bool :=
  existsb (fun cap => Equal cap capability) (ma_GetCapabilities accessor).

Definition capabilities_Cluster (name : string) : ClusterCapability := mkClusterCapability name None.

Definition JoinExistingCluster : string := "join_existing_cluster".

Definition TokenCapabilities_For (tc : string) (ref : Reference) : TokenCapability :=
  mkTokenCapability tc (Some ref).

(** The client of a capability backend (a gRPC service of a plugin). *)
Class BackendClient (W : Type) := {
  Backend : Type;
  CanInstall : Backend -> M W unit;
  Install : Backend -> Reference -> M W unit }.

(** The store of backends, by capability name. *)
Definition BackendStore_Get {B} (backends : gmap string B) (name : string) : outcome B :=
  match backends !! name with
  | Some backend => Ok backend
  | None => Err (Wrapped name ErrBackendNotFound)
  end.

Definition BackendStore_Add {B} (backends : gmap string B) (name : string) (backend : B)
  : outcome (gmap string B) :=
  if decide (is_Some (backends !! name)) then Err (Wrapped name ErrBackendAlreadyExists)
  else Ok (<[name := backend]> backends).

Definition BackendStore_List {B} (backends : gmap string B) : list string := (map_to_list backends).*1.

(** ** Storage *)

(** What a storage backend holds. *)
Record StoreView := mkStoreView {
  sv_tokens : gmap string BootstrapToken;
  sv_clusters : gmap string Cluster;
  sv_keyrings : gmap (string * string) Keyring }.

Definition set_token (v : StoreView) (id : string) (t : BootstrapToken) : StoreView :=
  mkStoreView (<[id := t]> (sv_tokens v)) (sv_clusters v) (sv_keyrings v).
Definition set_cluster (v : StoreView) (id : string) (c : Cluster) : StoreView :=
  mkStoreView (sv_tokens v) (<[id := c]> (sv_clusters v)) (sv_keyrings v).
Definition set_keyring (v : StoreView) (k : string * string) (kr : Keyring) : StoreView :=
  mkStoreView (sv_tokens v) (sv_clusters v) (<[k := kr]> (sv_keyrings v)).

(** A stored cluster differs from the one passed in at most in what the store
    stamps on it. *)
Definition stored_as (c c' : Cluster) : Prop :=
  cl_Id c' = cl_Id c /\ Clus.GetLabels c' = Clus.GetLabels c /\
  Clus.GetCapabilities c' = Clus.GetCapabilities c.

(** The interface [Storage] of the bootstrap servers, and what it promises while no
    other client writes: reads change nothing, writes change what they name or fail
    without effect. *)
Class BootstrapStorage (W : Type) `{KeyringStoreBroker W} := {
  bview : W -> StoreView;
  bs_ListTokens : M W (list BootstrapToken);
  bs_GetToken : Reference -> M W BootstrapToken;
  bs_UpdateToken : Reference -> MutatorFunc BootstrapToken -> M W BootstrapToken;
  bs_GetCluster : Reference -> M W Cluster;
  bs_CreateCluster : Cluster -> M W unit;

  ListTokens_law w w' o : bs_ListTokens w = (w', o) -> bview w' = bview w /\
    match o with Ok ts => ts ≡ₚ (map_to_list (sv_tokens (bview w))).*2 | Err _ => True | Panic _ => False end;
  GetToken_law r w w' o : bs_GetToken r w = (w', o) -> bview w' = bview w /\
    match o with
    | Ok t => sv_tokens (bview w) !! ref_Id r = Some t
    | Err e => errors_Is e ErrNotFound = true -> sv_tokens (bview w) !! ref_Id r = None
    | Panic _ => False end;
  UpdateToken_law r m w w' o : bs_UpdateToken r m w = (w', o) ->
    match o with
    | Ok t' => exists t, sv_tokens (bview w) !! ref_Id r = Some t /\ m t = Ok t' /\
        bview w' = set_token (bview w) (ref_Id r) t'
    | Err _ => bview w' = bview w
    | Panic p => bview w' = bview w /\ exists t, sv_tokens (bview w) !! ref_Id r = Some t /\ m t = Panic p end;
  GetCluster_law r w w' o : bs_GetCluster r w = (w', o) -> bview w' = bview w /\
    match o with
    | Ok c => sv_clusters (bview w) !! ref_Id r = Some c
    | Err e => errors_Is e ErrNotFound = true -> sv_clusters (bview w) !! ref_Id r = None
    | Panic _ => False end;
  CreateCluster_law c w w' o : bs_CreateCluster c w = (w', o) ->
    match o with
    | Ok _ => sv_clusters (bview w) !! cl_Id c = None /\
        exists c', stored_as c c' /\ bview w' = set_cluster (bview w) (cl_Id c) c'
    | Err _ => bview w' = bview w
    | Panic _ => False end;
  ks_Get_law p r w w' o : ks_Get p r w = (w', o) -> bview w' = bview w /\
    match o with
    | Ok kr => sv_keyrings (bview w) !! (p, ref_Id r) = Some kr
    | Err e => errors_Is e ErrNotFound = true -> sv_keyrings (bview w) !! (p, ref_Id r) = None
    | Panic _ => False end;
  ks_Put_law p r kr w w' o : ks_Put p r kr w = (w', o) ->
    match o with
    | Ok _ => bview w' = set_keyring (bview w) (p, ref_Id r) kr
    | Err _ => bview w' = bview w
    | Panic _ => False end }.

(** encoding/json on [Token]. *)
Class TokenJSON := {
  ParseJSON : string -> outcome Token;
  ParseJSON_token_json t : Forall is_byte (tok_ID t) -> Forall is_byte (tok_Secret t) ->
    ParseJSON (token_json t) = Ok t }.

(** ** Requests *)

Record BootstrapAuthRequest := mkBootstrapAuthRequest {
  ar_ClientID : string;
  ar_ClientPubKey : list byte;
  ar_Capability : string }.

Definition validation_missing (field : string) : error :=
  ValidationError ("missing required field: " +:+ field).

Definition BootstrapAuthRequest_Validate (h : BootstrapAuthRequest) : outcome unit :=
  fail_if (bool_decide (ar_ClientID h = "")) (validation_missing "ClientID") ;?
  omap_err (fun _ => ErrInvalidID) (ValidateID (ar_ClientID h)) ;?
  fail_if (length (ar_ClientPubKey h) =? 0)%nat (validation_missing "ClientPubKey") ;?
  fail_if (bool_decide (ar_Capability h = "")) (validation_missing "Capability").

Record BootstrapAuthRequestV2 := mkBootstrapAuthRequestV2 {
  ar2_ClientId : string;
  ar2_ClientPubKey : list byte;
  ar2_FriendlyName : option string }.

Definition BootstrapAuthRequestV2_Validate (h : BootstrapAuthRequestV2) : outcome unit :=
  fail_if (bool_decide (ar2_ClientId h = "")) (validation_missing "ClientID") ;?
  omap_err (fun _ => ErrInvalidID) (ValidateID (ar2_ClientId h)) ;?
  fail_if (length (ar2_ClientPubKey h) =? 0)%nat (validation_missing "ClientPubKey") ;?
  match ar2_FriendlyName h with
  | Some name => omap_err (fun _ => ErrInvalidName) (ValidateLabelValue name)
  | None => Ok tt
  end.

(** pkg/health/annotations *)
Definition AgentVersion : string := "opni.io/agent-version".
Definition Version1 : string := "v1".
Definition Version2 : string := "v2".

(** ** server.go, server_v2.go *)

Section Server.
Context {W : Type} `{BootstrapStorage W} `{JWS} `{TokenJSON} `{Curve25519} `{Blake2b} `{Ed25519}.
Variable privateKey : Key.

(** One signature per token, by the token's id; the first failure ends the loop. *)
Fixpoint sign_tokens (tokenList : list BootstrapToken) (signatures : gmap string string)
  : outcome (gmap string string) :=
  match tokenList with
  | [] => Ok signatures
  | token :: tokenList =>
      let? rawToken := FromBootstrapToken token in
      let? sig := omap_err (Wrapped "error signing token") (SignDetached rawToken privateKey) in
      sign_tokens tokenList (<[HexID rawToken := sig]> signatures)
  end.

Definition Join : M W (gmap string string) :=
  let! tokenList := bs_ListTokens in
  let! signatures := wlift (sign_tokens tokenList ∅) in
  if decide (size signatures = 0) then
    wfail (StatusError codes_Unavailable "server is not accepting bootstrap requests")
  else wret signatures.

(** The part of [Auth] both servers share: the bearer token of the request is a JWS
    of the server over a token it still stores. [md] holds the values of the
    Authorization key, [None] without metadata. *)
Definition authenticate (md : option (list string)) : M W (Token * BootstrapToken) := fun w =>
  match md with
  | None | Some [] => (w, Err (util_StatusError codes_Unauthenticated))
  | Some (v :: _) =>
      let authHeader := TrimSpace v in
      if decide (authHeader = "") then (w, Err (util_StatusError codes_Unauthenticated))
      else
        let bearerToken := TrimSpace (TrimPrefix authHeader "Bearer") in
        match jws_Verify bearerToken (public_of privateKey) with
        | Err _ => (w, Err (util_StatusError codes_PermissionDenied))
        | Panic p => (w, Panic p)
        | Ok payload =>
            match ParseJSON payload with
            | Ok token =>
                match bs_GetToken (Token_Reference token) w with
                | (w, Ok bootstrapToken) => (w, Ok (token, bootstrapToken))
                | (w, Err e) =>
                    (w, Err (util_StatusError
                               (if errors_Is e ErrNotFound then codes_PermissionDenied else codes_Unavailable)))
                | (w, Panic p) => (w, Panic p)
                end
            | _ => (w, Panic "bug: jws.Verify returned a malformed token")
            end
        end
  end.

(** The server's half of the key exchange: its ephemeral public key and the keyring
    it will store. *)
Definition exchange (entropy : outcome (list byte)) (clientPubKey : list byte)
  : outcome (list byte * Keyring) :=
  let? ekp := NewEphemeralKeyPair entropy in
  let? sharedSecret := omap_err (fun _ => StatusError codes_InvalidArgument "key exchange failed")
                         (DeriveSharedSecret ekp (mkPeerPublicKey clientPubKey PeerTypeClient)) in
  let? shared := NewSharedKeys sharedSecret in
  let? kr := keyring_New [KShared shared] in
  Ok (ekp_PublicKey ekp, kr).

(** The labels of a new cluster: those of the token without its name, and the
    agent version. *)
Definition cluster_labels (bootstrapToken : BootstrapToken) (version : string) : gmap string string :=
  <[AgentVersion := version]> (delete NameLabel (Token.GetLabels bootstrapToken)).

Definition status_wrap {A} (c : code) (msg : string) (m : M W A) : M W A :=
  wcatch m (fun _ => wfail (StatusError c msg)).

Definition AuthV2 (md : option (list string)) (authReq : BootstrapAuthRequestV2) (entropy : outcome (list byte))
  : M W (list byte) :=
  let! (token, bootstrapToken) := authenticate md in
  status_wrap codes_InvalidArgument "invalid request" (wlift (BootstrapAuthRequestV2_Validate authReq)) ;!
  let existing := mkReference (ar2_ClientId authReq) in
  (fun w => match bs_GetCluster existing w with
            | (w, Ok _) => (w, Err (StatusError codes_AlreadyExists "cluster already exists"))
            | (w, Err e) => if errors_Is e ErrNotFound then (w, Ok tt)
                            else (w, Err (StatusError codes_Unavailable "failed to look up cluster"))
            | (w, Panic p) => (w, Panic p)
            end) ;!
  let! (serverPubKey, kr) := wlift (exchange entropy (ar2_ClientPubKey authReq)) in
  let tokenLabels := cluster_labels bootstrapToken Version2 in
  let tokenLabels := match ar2_FriendlyName authReq with
                     | Some name => <[NameLabel := name]> tokenLabels
                     | None => tokenLabels
                     end in
  let newCluster := mkCluster (ar2_ClientId authReq)
                      (Some (mkClusterMetadata tokenLabels [] "" None None)) in
  status_wrap codes_Internal "error creating cluster" (bs_CreateCluster newCluster) ;!
  status_wrap codes_Internal "error incrementing usage count"
    (bs_UpdateToken (Token_Reference token) (NewCompositeMutator [NewIncrementUsageCountMutator])) ;!
  status_wrap codes_Internal "error storing keyring"
    (ks_Put gateway_prefix (Clus.GetReference newCluster) kr) ;!
  wret serverPubKey.

Section V1.
Context `{BackendClient W}.
Variable backends : gmap string Backend.

(** The result of the installation itself is ignored. *)
Definition handleCreate (newCluster : Cluster) (newCapability : Backend) (token : BootstrapToken)
    (kr : Keyring) : M W unit :=
  wrapf "error creating cluster" (bs_CreateCluster newCluster) ;!
  wrapf "error incrementing usage count"
    (bs_UpdateToken (Token.GetReference token)
       (NewCompositeMutator
          [NewIncrementUsageCountMutator;
           NewAddCapabilityMutator
             (mkTokenCapability JoinExistingCluster (Some (Clus.GetReference newCluster)))])) ;!
  wrapf "error storing keyring" (ks_Put gateway_prefix (Clus.GetReference newCluster) kr) ;!
  (fun w => match Install newCapability (Clus.GetReference newCluster) w with
            | (w, Panic p) => (w, Panic p)
            | (w, _) => (w, Ok tt)
            end).

Definition handleEdit (existingCluster : Reference) (newCapability : Backend) (token : BootstrapToken)
    (keyring : Keyring) : M W unit :=
  wrapf "error incrementing usage count"
    (bs_UpdateToken (Token.GetReference token) NewIncrementUsageCountMutator) ;!
  let! kr := wrapf "error getting existing keyring" (ks_Get gateway_prefix existingCluster) in
  let! merged := wlift (Merge keyring kr) in
  wrapf "error storing keyring" (ks_Put gateway_prefix existingCluster merged) ;!
  Install newCapability existingCluster.

(** Whether an existing cluster is to be edited: it must lack the capability and the
    token must be allowed to edit it. *)
Definition should_edit (authReq : BootstrapAuthRequest) (bootstrapToken : BootstrapToken) : M W bool := fun w =>
  let existing := mkReference (ar_ClientID authReq) in
  match bs_GetCluster existing w with
  | (w, Ok cluster) =>
      if Has cluster (capabilities_Cluster (ar_Capability authReq)) then
        (w, Err (StatusError codes_AlreadyExists "capability is already installed on this cluster"))
      else if Has bootstrapToken (TokenCapabilities_For JoinExistingCluster existing) then (w, Ok true)
      else (w, Err (StatusError codes_PermissionDenied "insufficient permissions for this cluster"))
  | (w, Err e) => if errors_Is e ErrNotFound then (w, Ok false)
                  else (w, Err (StatusError codes_Unavailable "failed to look up cluster"))
  | (w, Panic p) => (w, Panic p)
  end.

Definition get_backend (name : string) : outcome Backend :=
  match BackendStore_Get backends name with
  | Err e => Err (StatusError (if errors_Is e ErrBackendNotFound then codes_NotFound else codes_Internal) name)
  | r => r
  end.

Definition AuthV1 (md : option (list string)) (authReq : BootstrapAuthRequest) (entropy : outcome (list byte))
  : M W (list byte) :=
  let! (token, bootstrapToken) := authenticate md in
  status_wrap codes_InvalidArgument "invalid request" (wlift (BootstrapAuthRequest_Validate authReq)) ;!
  let existing := mkReference (ar_ClientID authReq) in
  let! shouldEditExisting := should_edit authReq bootstrapToken in
  let! (serverPubKey, kr) := wlift (exchange entropy (ar_ClientPubKey authReq)) in
  let! backendClient := wlift (get_backend (ar_Capability authReq)) in
  status_wrap codes_Unavailable "capability cannot be installed" (CanInstall backendClient) ;!
  (if (shouldEditExisting : bool) then
     status_wrap codes_Internal "error installing capability"
       (handleEdit existing backendClient bootstrapToken kr)
   else
     let newCluster := mkCluster (ar_ClientID authReq)
       (Some (mkClusterMetadata (cluster_labels bootstrapToken Version1)
                [capabilities_Cluster (ar_Capability authReq)] "" None None)) in
     status_wrap codes_Internal "error installing capability"
       (handleCreate newCluster backendClient bootstrapToken kr)) ;!
  wret serverPubKey.
End V1.
End Server.

(** ** client.go, client_v2.go *)

Definition ErrNoValidSignature : error := ErrorString "no valid signature found in response".
Definition ErrNoToken : error := ErrorString "no bootstrap token provided".

(** What the client sees of the gateway: whether a connection with some TLS
    configuration can be opened, the public key of the leaf certificate the server
    showed (when the connection is a TLS one), and the two calls. *)
Record Gateway `{X509} (W Req : Type) := mkGateway {
  gw_dial : tls_Config -> outcome unit;
  gw_peerKey : option Key;
  gw_Join : M W (gmap string string);
  gw_Auth : option (list string) -> Req -> M W (list byte) }.
Arguments mkGateway {_ _ _} _ _ _ _.
Arguments gw_dial {_ _ _} _ _.
Arguments gw_peerKey {_ _ _} _.
Arguments gw_Join {_ _ _} _ _.
Arguments gw_Auth {_ _ _} _ _ _ _.

Section Client.
Context {W Req : Type} `{X509} `{Sha256} `{JWS} `{Curve25519} `{Blake2b} `{Ed25519}.
Variables (gw : Gateway W Req) (systemPool : outcome (list Certificate)).

Definition bootstrapJoin (strategy : Strategy) : M W (gmap string string * Key) :=
  let! tlsConfig := wlift (TLSConfig systemPool strategy) in
  wrapf "failed to dial gateway" (wlift (gw_dial gw tlsConfig)) ;!
  let! resp := wrapf "join request failed" (gw_Join gw) in
  match gw_peerKey gw with
  | None => wfail (ErrorString "unexpected type for peer TLS info")
  | Some key => wret (resp, key)
  end.

Definition findValidSignature (token : Token) (signatures : gmap string string) (pubKey : Key)
  : outcome string :=
  match signatures !! HexID token with
  | Some sig => VerifyDetached token sig pubKey
  | None => Err ErrNoValidSignature
  end.

(** [mkReq] builds the request from the client's id and ephemeral public key. *)
Definition client_Bootstrap (token : option Token) (strategy : Strategy) (ident : outcome string)
    (entropy : outcome (list byte)) (mkReq : string -> list byte -> Req) : M W Keyring :=
  match token with
  | None => wfail ErrNoToken
  | Some token =>
      let! (signatures, serverKey) := bootstrapJoin strategy in
      let! completeJws := wlift (findValidSignature token signatures serverKey) in
      let! tlsConfig := wlift (TLSConfig systemPool strategy) in
      wrapf "failed to dial gateway" (wlift (gw_dial gw tlsConfig)) ;!
      let! ekp := wlift (NewEphemeralKeyPair entropy) in
      let! id := wrapf "failed to obtain unique identifier" (wlift ident) in
      let! serverPubKey := wrapf "auth request failed"
        (gw_Auth gw (Some ["Bearer " +:+ completeJws]) (mkReq id (ekp_PublicKey ekp))) in
      let! sharedSecret := wlift (DeriveSharedSecret ekp (mkPeerPublicKey serverPubKey PeerTypeServer)) in
      let! shared := wlift (NewSharedKeys sharedSecret) in
      wlift (keyring_New (agent_keys shared strategy))
  end.
End Client.

(** The two generations of clients. *)
Definition ClientConfig_Bootstrap {W} `{X509} `{Sha256} `{JWS} `{Curve25519} `{Blake2b} `{Ed25519}
    (gw : Gateway W BootstrapAuthRequest) (systemPool : outcome (list Certificate))
    (Capability : string) (Token_ : option Token) (TrustStrategy : Strategy)
    (ident : outcome string) (entropy : outcome (list byte)) : M W Keyring :=
  client_Bootstrap gw systemPool Token_ TrustStrategy ident entropy
    (fun id pub => mkBootstrapAuthRequest id pub Capability).

Definition ClientConfigV2_Bootstrap {W} `{X509} `{Sha256} `{JWS} `{Curve25519} `{Blake2b} `{Ed25519}
    (gw : Gateway W BootstrapAuthRequestV2) (systemPool : outcome (list Certificate))
    (FriendlyName : option string) (Token_ : option Token) (TrustStrategy : Strategy)
    (ident : outcome string) (entropy : outcome (list byte)) : M W Keyring :=
  client_Bootstrap gw systemPool Token_ TrustStrategy ident entropy
    (fun id pub => mkBootstrapAuthRequestV2 id pub FriendlyName).
