(* ===== verification/Management.v ===== *)
(** pkg/management and pkg/apis/management/v1: the management server's handlers of
    clusters, capabilities, bootstrap tokens, roles and role bindings, on top of a
    storage backend.  Error messages leave out their arguments. *)

From S2P Require Import Prelude GoStd Util Validation CoreV1 Storage Etcd RefJSON Tokens Keyring ClusterAuth Task Bootstrap.

Local Open Scope string_scope.

(** ** Requests and their validation (pkg/apis/management/v1/validation.go,
    pkg/apis/capability/v1/validation.go) *)

(** google.protobuf.Duration and the methods of durationpb. *)
Record Duration := mkDuration { du_Seconds : Z; du_Nanos : Z }.

Class DurationLib := {
  CheckValid : option Duration -> outcome unit;
  AsDuration : option Duration -> Z }.

Record CreateBootstrapTokenRequest := mkCreateBootstrapTokenRequest {
  cbr_Ttl : option Duration;
  cbr_Labels : gmap string string;
  cbr_Capabilities : list TokenCapability }.

Record ListClustersRequest := mkListClustersRequest {
  lcr_MatchLabels : option LabelSelector;
  lcr_MatchOptions : MatchOptions }.

Record EditClusterRequest := mkEditClusterRequest {
  ecr_Cluster : option Reference;
  ecr_Labels : gmap string string }.

Record WatchClustersRequest := mkWatchClustersRequest { wcr_KnownClusters : list Reference }.

(** The install and uninstall requests of a capability: the cluster and the rest. *)
Record CapabilityTarget := mkCapabilityTarget {
  ct_Cluster : option Reference;
  ct_Options : string }.

Record CapabilityRequest := mkCapabilityRequest {
  cr_Name : string;
  cr_Target : option CapabilityTarget }.

Record CapabilityStatusRequest := mkCapabilityStatusRequest {
  csr_Name : string;
  csr_Cluster : option Reference }.

(** [validation.Validate] of a message pointer: the methods dereference it. *)
Definition validate_ptr {A} (validate : A -> outcome unit) (p : option A) : outcome unit :=
  match p with
  | Some a => validate a
  | None => Panic "nil pointer dereference"
  end.

Definition CreateBootstrapTokenRequest_Validate `{DurationLib} (r : CreateBootstrapTokenRequest)
  : outcome unit :=
  omap_err (fun _ => Wrapped "ttl" ErrInvalidValue) (CheckValid (cbr_Ttl r)) ;?
  fail_if (AsDuration (cbr_Ttl r) <=? 0)%Z (Wrapped "ttl cannot be negative or zero" ErrInvalidValue) ;?
  ValidateLabels (cbr_Labels r) ;?
  foreach TokenCapability_Validate (cbr_Capabilities r).

Definition ListClustersRequest_Validate (r : ListClustersRequest) : outcome unit :=
  match lcr_MatchLabels r with
  | Some ls => LabelSelector_Validate ls
  | None => Ok tt
  end ;?
  MatchOptions_Validate (lcr_MatchOptions r).

Definition EditClusterRequest_Validate (r : EditClusterRequest) : outcome unit :=
  match ecr_Cluster r with
  | None => Err (missing "cluster")
  | Some ref => Reference_Validate ref
  end ;?
  ValidateLabels (ecr_Labels r).

Definition WatchClustersRequest_Validate (r : WatchClustersRequest) : outcome unit :=
  foreach Reference_Validate (wcr_KnownClusters r).

Definition CapabilityTarget_Validate (t : CapabilityTarget) : outcome unit :=
  validate_ptr Reference_Validate (ct_Cluster t).

Definition CapabilityRequest_Validate (r : CapabilityRequest) : outcome unit :=
  ValidateID (cr_Name r) ;? validate_ptr CapabilityTarget_Validate (cr_Target r).

Definition CapabilityStatusRequest_Validate (r : CapabilityStatusRequest) : outcome unit :=
  ValidateID (csr_Name r) ;? validate_ptr Reference_Validate (csr_Cluster r).

(** ** The storage backend and the capability backends *)

(** The methods of the backend the handlers call.  What they promise while no other
    client writes: reads change nothing, writes change what they name or fail
    without effect. *)
Class ManagementStorage (W : Type) := {
  mview : W -> StoreView;
  ms_GetCluster : Reference -> M W Cluster;
  ms_ListClusters : option LabelSelector -> MatchOptions -> M W (list Cluster);
  ms_UpdateCluster : Reference -> MutatorFunc Cluster -> M W Cluster;
  ms_DeleteCluster : Reference -> M W unit;
  ms_DeleteKeyring : string -> Reference -> M W unit;
  ms_WatchClusters : list (option Cluster) -> M W (list (WatchEvent Cluster));
  ms_CreateToken : Z -> list TokenCreateOption -> M W BootstrapToken;
  ms_DeleteToken : Reference -> M W unit;
  ms_ListTokens : M W (list BootstrapToken);
  ms_GetToken : Reference -> M W BootstrapToken;
  ms_CreateRole : Role -> M W unit;
  ms_DeleteRole : Reference -> M W unit;
  ms_GetRole : Reference -> M W Role;
  ms_ListRoles : M W (list Role);
  ms_CreateRoleBinding : RoleBinding -> M W unit;
  ms_DeleteRoleBinding : Reference -> M W unit;
  ms_GetRoleBinding : Reference -> M W RoleBinding;
  ms_ListRoleBindings : M W (list RoleBinding);

  ms_GetCluster_law r w w' o : ms_GetCluster r w = (w', o) -> mview w' = mview w /\
    match o with
    | Ok c => sv_clusters (mview w) !! ref_Id r = Some c
    | Err e => errors_Is e ErrNotFound = true -> sv_clusters (mview w) !! ref_Id r = None
    | Panic _ => False end;
  ms_ListClusters_law ls mo w w' o : ms_ListClusters ls mo w = (w', o) -> mview w' = mview w /\
    match o with
    | Ok cs => cs ≡ₚ filter (fun c => NewSelectorPredicate (mkClusterSelector [] ls mo) c = true)
                      (map_to_list (sv_clusters (mview w))).*2
    | Err _ => True
    | Panic _ => False end;
  ms_UpdateCluster_law r m w w' o : ms_UpdateCluster r m w = (w', o) ->
    match o with
    | Ok c' => exists c, sv_clusters (mview w) !! ref_Id r = Some c /\ m c = Ok c' /\
        mview w' = set_cluster (mview w) (ref_Id r) c'
    | Err _ => mview w' = mview w
    | Panic p => mview w' = mview w /\ exists c, sv_clusters (mview w) !! ref_Id r = Some c /\ m c = Panic p end;
  ms_DeleteCluster_law r w w' o : ms_DeleteCluster r w = (w', o) ->
    match o with
    | Ok _ => mview w' = mkStoreView (sv_tokens (mview w)) (delete (ref_Id r) (sv_clusters (mview w)))
                           (sv_keyrings (mview w))
    | Err _ => mview w' = mview w
    | Panic _ => False end;
  ms_DeleteKeyring_law p r w w' o : ms_DeleteKeyring p r w = (w', o) ->
    match o with
    | Ok _ => mview w' = mkStoreView (sv_tokens (mview w)) (sv_clusters (mview w))
                           (delete (p, ref_Id r) (sv_keyrings (mview w)))
    | Err e => mview w' = mview w /\
        (errors_Is e ErrNotFound = true -> sv_keyrings (mview w) !! (p, ref_Id r) = None)
    | Panic _ => False end }.

Inductive InstallResponseStatus := Install_Unknown | Install_Success | Install_Warning | Install_Error.

Record InstallResponse := mkInstallResponse {
  ir_Status : InstallResponseStatus;
  ir_Message : string }.

(** The client of a capability backend. *)
Class CapabilityBackend (W : Type) := {
  CBackend : Type;
  cb_Install : CBackend -> CapabilityTarget -> M W (option InstallResponse);
  cb_Uninstall : CBackend -> CapabilityTarget -> M W unit;
  cb_UninstallStatus : CBackend -> Reference -> M W TaskStatus;
  cb_CancelUninstall : CBackend -> Reference -> M W unit }.

(** The helpers on maps of github.com/samber/lo. *)
Class LoMapLib := {
  lo_PickBy : gmap string string -> (string -> string -> bool) -> gmap string string;
  lo_OmitByValues : gmap string Z -> list Z -> gmap string Z;
  lo_PickBy_law m p k :
    lo_PickBy m p !! k = m !! k ≫= fun v => if p k v then Some v else None;
  lo_OmitByValues_law m vs k :
    lo_OmitByValues m vs !! k = m !! k ≫= fun v => if decide (v ∈ vs) then None else Some v }.

Section Server.
Context {W : Type} `{ManagementStorage W} `{CapabilityBackend W} `{DurationLib} `{LoMapLib}.

(** ** Resolving references (clusters.go) *)

(** The clusters found by id; a missing one is left nil. *)
Fixpoint lookup_clusters (refs : list Reference) : M W (list (option Cluster)) :=
  match refs with
  | [] => wret []
  | ref :: refs =>
      let! c := (fun w => match ms_GetCluster ref w with
                          | (w', Ok c) => (w', Ok (Some c))
                          | (w', Err e) => if errors_Is e ErrNotFound then (w', Ok None) else (w', Err e)
                          | (w', Panic p) => (w', Panic p)
                          end) in
      let! cs := lookup_clusters refs in
      wret (c :: cs)
  end.

(** The names still to be resolved, with the index each one stands at; an index is
    set to -1 once its cluster is found. *)
Fixpoint unresolved (i : Z) (refs : list Reference) (clusters : list (option Cluster))
    (names : list string) (nameIndexes : gmap string Z) : list string * gmap string Z :=
  match refs, clusters with
  | ref :: refs, None :: clusters =>
      unresolved (i + 1) refs clusters (names ++ [ref_Id ref])%list (<[ref_Id ref := i]> nameIndexes)
  | _ :: refs, Some _ :: clusters => unresolved (i + 1) refs clusters names nameIndexes
  | _, _ => (names, nameIndexes)
  end.

(** [clusters[idx] = c] *)
Definition set_index {A} (idx : Z) (x : A) (l : list A) : outcome (list A) :=
  if decide (0 <= idx < Z.of_nat (length l))%Z then Ok (<[Z.to_nat idx := x]> l)
  else Panic "index out of range".

(** The loop over the clusters that were listed by name. *)
Fixpoint assign_names (items : list Cluster) (clusters : list (option Cluster))
    (nameIndexes : gmap string Z) : outcome (list (option Cluster) * gmap string Z) :=
  match items with
  | [] => Ok (clusters, nameIndexes)
  | c :: items =>
      match cl_Metadata c with
      | None => Panic "nil pointer dereference"
      | Some md =>
          let name := map_index (cm_Labels md) NameLabel in
          let idx := default 0%Z (nameIndexes !! name) in
          if bool_decide (is_Some (nameIndexes !! name)) then
            let? clusters := set_index idx (Some c) clusters in
            assign_names items clusters (<[name := (-1)%Z]> nameIndexes)
          else if decide (idx = -1)%Z then
            Err (StatusError codes_FailedPrecondition "ambiguous cluster name")
          else Panic "bug: ListClusters with label selector returned bad results"
      end
  end.

Definition by_name (names : list string) : LabelSelector :=
  mkLabelSelector ∅ [mkLabelSelectorRequirement NameLabel LabelSelectorOpIn names].

Definition resolveClusters (refs : list Reference) : M W (list (option Cluster)) :=
  let! clusters := lookup_clusters refs in
  let '(names, nameIndexes) := unresolved 0 refs clusters [] ∅ in
  if decide (names = []) then wret clusters
  else
    let! items := ms_ListClusters (Some (by_name names)) MatchOptions_EmptySelectorMatchesNone in
    let! (clusters, nameIndexes) := wlift (assign_names items clusters nameIndexes) in
    let notFound := lo_OmitByValues nameIndexes [(-1)%Z] in
    if existsb (fun kv : string * Z => negb (kv.2 =? -1)%Z) (map_to_list nameIndexes)
       && (0 <? size notFound)%nat then
      if (size notFound =? 1)%nat
      then wfail (StatusError codes_NotFound "cluster not found")
      else wfail (StatusError codes_NotFound "clusters not found")
    else wret clusters.

Definition resolveCluster (ref : Reference) : M W (option Cluster) :=
  let! clusters := resolveClusters [ref] in
  match clusters with
  | c :: _ => wret c
  | [] => fun w => (w, Panic "index out of range")
  end.

(** The id the reference is changed to; a nil cluster is dereferenced. *)
Definition ensureReferenceResolved (ref : Reference) : M W Reference :=
  let! c := resolveCluster ref in
  match c with
  | Some c => wret (mkReference (cl_Id c))
  | None => fun w => (w, Panic "nil pointer dereference")
  end.

(** ** Clusters *)

Definition srv_ListClusters (req : ListClustersRequest) : M W (list Cluster) :=
  wlift (ListClustersRequest_Validate req) ;!
  ms_ListClusters (lcr_MatchLabels req) (lcr_MatchOptions req).

Definition srv_DeleteCluster (ref : Reference) : M W unit :=
  wlift (Reference_Validate ref) ;!
  let! cluster := resolveCluster ref in
  let capabilities := match cluster with Some c => Clus.GetCapabilities c | None => [] end in
  if (0 <? length capabilities)%nat
  then wfail (StatusError codes_FailedPrecondition "cannot delete a cluster with capabilities")
  else
    match cluster with
    | None => fun w => (w, Panic "nil pointer dereference")
    | Some cluster =>
        (fun w => match ms_DeleteKeyring gateway_prefix (Clus.GetReference cluster) w with
                  | (w', Err e) =>
                      if errors_Is e ErrNotFound then (w', Ok tt)
                      else (w', Err (Wrapped "failed to delete keyring store for cluster" e))
                  | r => r
                  end) ;!
        ms_DeleteCluster (Clus.GetReference cluster)
    end.

Definition srv_GetCluster (ref : Reference) : M W (option Cluster) :=
  wlift (Reference_Validate ref) ;! resolveCluster ref.

Inductive ManagementEventType := ME_Created | ME_Updated | ME_Deleted.

(** The event sent for a storage event; the type of an unknown one is the zero value. *)
Definition management_event (event : WatchEvent Cluster) : option Cluster * ManagementEventType :=
  match we_EventType event with
  | WatchEventCreate => (we_Current event, ME_Created)
  | WatchEventUpdate => (we_Current event, ME_Updated)
  | WatchEventDelete => (we_Previous event, ME_Deleted)
  | WatchEventUnset => (None, ME_Created)
  end.

(** The events sent on the stream until a send fails; [send n] is the result of the
    [n]th one. *)
Fixpoint forward_events (send : nat -> outcome unit) (n : nat) (events : list (WatchEvent Cluster))
  : list (option Cluster * ManagementEventType) * outcome unit :=
  match events with
  | [] => ([], Ok tt)
  | event :: events =>
      match send n with
      | Ok _ => let '(sent, o) := forward_events send (S n) events in (management_event event :: sent, o)
      | Err e => ([], Err e)
      | Panic p => ([], Panic p)
      end
  end.

Definition srv_WatchClusters (req : WatchClustersRequest) (send : nat -> outcome unit)
  : M W (list (option Cluster * ManagementEventType) * outcome unit) :=
  wlift (WatchClustersRequest_Validate req) ;!
  let! known := resolveClusters (wcr_KnownClusters req) in
  let! events := ms_WatchClusters known in
  wret (forward_events send 0 events).

Definition immutable_labels (labels : gmap string string) : gmap string string :=
  lo_PickBy labels (fun k _ => negb (IsLabelMutable k)).

(** The mutator: a nil metadata is allocated, then the labels replaced. *)
Definition set_labels (labels : gmap string string) : MutatorFunc Cluster := fun c =>
  Ok (Clus.SetLabels labels c).

Definition srv_EditCluster (req : EditClusterRequest) : M W Cluster :=
  wlift (EditClusterRequest_Validate req) ;!
  match ecr_Cluster req with
  | None => fun w => (w, Panic "nil pointer dereference")
  | Some ref =>
      let! oldCluster := resolveCluster ref in
      let oldLabels := match oldCluster with Some c => Clus.GetLabels c | None => ∅ end in
      if decide (immutable_labels oldLabels = immutable_labels (ecr_Labels req)) then
        match oldCluster with
        | None => fun w => (w, Panic "nil pointer dereference")
        | Some oldCluster => ms_UpdateCluster (Clus.GetReference oldCluster) (set_labels (ecr_Labels req))
        end
      else wfail (StatusError codes_InvalidArgument "cannot change immutable labels")
  end.

(** ** Capabilities *)

Variable backends : gmap string CBackend.

(** The target with its cluster resolved in place. *)
Definition resolve_target (t : CapabilityTarget) : M W CapabilityTarget :=
  match ct_Cluster t with
  | None => fun w => (w, Panic "nil pointer dereference")
  | Some ref => let! ref := ensureReferenceResolved ref in
                wret (mkCapabilityTarget (Some ref) (ct_Options t))
  end.

Definition InstallCapability (req : CapabilityRequest) : M W InstallResponse :=
  wlift (CapabilityRequest_Validate req) ;!
  match cr_Target req with
  | None => fun w => (w, Panic "nil pointer dereference")
  | Some target =>
      let! target := resolve_target target in
      let! backend := wlift (BackendStore_Get backends (cr_Name req)) in
      let! resp := cb_Install backend target in
      wret (default (mkInstallResponse Install_Success "") resp)
  end.

Definition UninstallCapability (req : CapabilityRequest) : M W unit :=
  wlift (CapabilityRequest_Validate req) ;!
  match cr_Target req with
  | None => fun w => (w, Panic "nil pointer dereference")
  | Some target =>
      let! target := resolve_target target in
      let! backend := wlift (BackendStore_Get backends (cr_Name req)) in
      cb_Uninstall backend target
  end.

(** An error other than not-found is reported as internal. *)
Definition status_error (not_found : string) (e : error) : error :=
  if decide (StatusCode e = codes_NotFound) then StatusError codes_NotFound not_found
  else StatusError codes_Internal "internal".

Definition CapabilityUninstallStatus (req : CapabilityStatusRequest) : M W TaskStatus :=
  wlift (CapabilityStatusRequest_Validate req) ;!
  match csr_Cluster req with
  | None => fun w => (w, Panic "nil pointer dereference")
  | Some ref =>
      let! ref := ensureReferenceResolved ref in
      let! backend := wcatch (wlift (BackendStore_Get backends (csr_Name req)))
                        (fun e => wfail (status_error "capability not found for cluster" e)) in
      wcatch (cb_UninstallStatus backend ref)
        (fun e => wfail (status_error "no status available for cluster and capability" e))
  end.

Definition CancelCapabilityUninstall (req : CapabilityStatusRequest) : M W unit :=
  wlift (CapabilityStatusRequest_Validate req) ;!
  match csr_Cluster req with
  | None => fun w => (w, Panic "nil pointer dereference")
  | Some ref =>
      let! ref := ensureReferenceResolved ref in
      let! backend := wlift (BackendStore_Get backends (csr_Name req)) in
      cb_CancelUninstall backend ref
  end.

(** ** Bootstrap tokens (tokens.go) *)

Definition internal {A} (m : M W A) : M W A :=
  wcatch m (fun _ => wfail (StatusError codes_Internal "internal")).

Definition CreateBootstrapToken (req : CreateBootstrapTokenRequest) : M W BootstrapToken :=
  wlift (CreateBootstrapTokenRequest_Validate req) ;!
  internal (ms_CreateToken (AsDuration (cbr_Ttl req))
              [WithLabels (cbr_Labels req); WithCapabilities (cbr_Capabilities req)]).

Definition RevokeBootstrapToken (ref : Reference) : M W unit :=
  wlift (Reference_Validate ref) ;! ms_DeleteToken ref.

Definition ListBootstrapTokens : M W (list BootstrapToken) := internal ms_ListTokens.

Definition GetBootstrapToken (ref : Reference) : M W BootstrapToken :=
  wlift (Reference_Validate ref) ;! internal (ms_GetToken ref).

(** ** Roles and role bindings (rbac.go) *)

Definition srv_CreateRole `{LoLib} (role : Role) : M W unit :=
  wlift (Role_Validate role) ;! ms_CreateRole role.

Definition srv_DeleteRole (ref : Reference) : M W unit :=
  wlift (Reference_Validate ref) ;! ms_DeleteRole ref.

Definition srv_GetRole (ref : Reference) : M W Role :=
  wlift (Reference_Validate ref) ;! ms_GetRole ref.

Definition srv_CreateRoleBinding `{LoLib} (rb : RoleBinding) : M W unit :=
  wlift (RoleBinding_Validate rb) ;!
  if (0 <? length (rb_Taints rb))%nat then wfail ErrReadOnlyField
  else ms_CreateRoleBinding rb.

Definition srv_DeleteRoleBinding (ref : Reference) : M W unit :=
  wlift (Reference_Validate ref) ;! ms_DeleteRoleBinding ref.

Definition srv_GetRoleBinding (ref : Reference) : M W RoleBinding :=
  wlift (Reference_Validate ref) ;! ms_GetRoleBinding ref.

Definition srv_ListRoles : M W (list Role) := ms_ListRoles.
Definition srv_ListRoleBindings : M W (list RoleBinding) := ms_ListRoleBindings.

(** The provider of the server is the one of pkg/storage. *)
Definition srv_SubjectAccess (provider : SubjectAccessRequest -> M W (list Reference))
    (sar : SubjectAccessRequest) : M W (list Reference) :=
  wlift (SubjectAccessRequest_Validate sar) ;! provider sar.
End Server.
