(* ===== verification/ManagementProps.v ===== *)
(** pkg/management: what the handlers guarantee on a storage backend that answers. *)

From S2P Require Import Prelude GoStd Util Validation CoreV1 Storage Etcd RefJSON Tokens Keyring ClusterAuth Task Bootstrap Management.

Local Open Scope string_scope.

(** A backend whose reads answer. *)
Class AnsweringStorage (W : Type) `{ManagementStorage W} : Prop := {
  an_get r w : exists w', ms_GetCluster r w =
    (w', match sv_clusters (mview w) !! ref_Id r with Some c => Ok c | None => Err ErrNotFound end);
  an_list ls mo w : exists w' cs, ms_ListClusters ls mo w = (w', Ok cs) }.

(** The clusters that bear a name. *)
Definition named (v : StoreView) (n : string) : list Cluster :=
  filter (fun c => map_index (Clus.GetLabels c) NameLabel = n) (map_to_list (sv_clusters v)).*2.

(** What a reference means: the cluster with that id, else the only one of that name. *)
Definition resolved (v : StoreView) (n : string) : option Cluster :=
  match sv_clusters v !! n with
  | Some c => Some c
  | None => match named v n with [c] => Some c | _ => None end
  end.

(** The answer to a reference: a name that two clusters bear crashes the server. *)
Definition resolution (v : StoreView) (n : string) : outcome (option Cluster) :=
  match sv_clusters v !! n with
  | Some c => Ok (Some c)
  | None => match named v n with
            | [] => Err (StatusError codes_NotFound "cluster not found")
            | [c] => Ok (Some c)
            | _ => Panic "index out of range"
            end
  end.

(** ** Resolving *)

Lemma by_name_predicate n (c : Cluster) :
  NewSelectorPredicate (mkClusterSelector [] (Some (by_name [n])) MatchOptions_EmptySelectorMatchesNone) c
  = bool_decide (map_index (Clus.GetLabels c) NameLabel = n).
Proof.
  assert (E : IsEmpty (Some (by_name [n])) = false).
  { unfold IsEmpty, by_name. cbn [ls_MatchLabels ls_MatchExpressions].
    rewrite (bool_decide_eq_false_2 (_ = [])) by done. apply andb_false_r. }
  unfold NewSelectorPredicate. cbn [cs_LabelSelector cs_ClusterIDs cs_MatchOptions].
  rewrite E. cbn [andb list_to_set]. rewrite bool_decide_eq_false_2 by set_solver.
  unfold labelSelectorMatches, by_name. cbn [ls_MatchLabels ls_MatchExpressions].
  rewrite map_to_list_empty, match_expressions_single. cbn [forallb andb].
  unfold requirement_holds. cbn [lsr_Operator lsr_Key lsr_Values]. rewrite decide_True by done.
  apply bool_decide_ext. apply list_elem_of_singleton.
Qed.

Lemma by_name_listed n cs v :
  cs ≡ₚ filter (fun c => NewSelectorPredicate
                  (mkClusterSelector [] (Some (by_name [n])) MatchOptions_EmptySelectorMatchesNone) c = true)
          (map_to_list (sv_clusters v)).*2 ->
  cs ≡ₚ named v n.
Proof.
  intros ->. unfold named. erewrite list_filter_iff; [done|]. intros c. cbn beta.
  by rewrite by_name_predicate, bool_decide_eq_true.
Qed.

Lemma named_metadata v n c :
  n <> "" -> c ∈ named v n -> exists md, cl_Metadata c = Some md /\ map_index (cm_Labels md) NameLabel = n.
Proof.
  intros Hn [Hc _]%list_elem_of_filter. unfold Clus.GetLabels, cluster_meta in Hc.
  destruct (cl_Metadata c) as [md|]; [by exists md|]. cbn in Hc. by unfold map_index in Hc.
Qed.

(** The loop over the listed clusters, for one name. *)
Lemma assign_one v n items :
  n <> "" -> items ≡ₚ named v n ->
  assign_names items [None] {[ n := 0%Z ]} =
  match named v n with
  | [] => Ok ([None], {[ n := 0%Z ]})
  | [c] => Ok ([Some c], {[ n := (-1)%Z ]})
  | _ => Panic "index out of range"
  end.
Proof.
  intros Hn Hp.
  assert (Hmd : forall c, c ∈ items -> exists md, cl_Metadata c = Some md /\ map_index (cm_Labels md) NameLabel = n).
  { intros c Hc. rewrite Hp in Hc. by eapply named_metadata. }
  destruct items as [|c1 items].
  { symmetry in Hp. apply Permutation_nil_r in Hp. by rewrite Hp. }
  destruct (Hmd c1) as (md1 & E1 & N1); [by left|].
  cbn [assign_names]. rewrite E1, N1, lookup_singleton_eq, bool_decide_eq_true_2 by done. cbn [default].
  change (set_index 0%Z (Some c1) [None]) with (Ok [Some c1]). cbn [obind].
  rewrite insert_singleton_eq. destruct items as [|c2 items].
  { symmetry in Hp. apply Permutation_singleton_r in Hp. by rewrite Hp. }
  destruct (Hmd c2) as (md2 & E2 & N2); [by right; left|].
  cbn [assign_names]. rewrite E2, N2, lookup_singleton_eq, bool_decide_eq_true_2 by done. cbn [default].
  change (set_index (-1)%Z (Some c2) [Some c1]) with (Panic (A := list (option Cluster)) "index out of range").
  cbn [obind]. apply Permutation_length in Hp. destruct (named v n) as [|? [|? ?]]; done.
Qed.

Lemma OmitByValues_found `{LoMapLib} (n : string) : lo_OmitByValues {[ n := (-1)%Z ]} [(-1)%Z] = ∅.
Proof.
  apply map_eq. intros k. rewrite lo_OmitByValues_law, lookup_empty.
  destruct (({[ n := (-1)%Z ]} : gmap string Z) !! k) as [v|] eqn:E; [|done]. cbn.
  apply lookup_singleton_Some in E as [_ <-]. by rewrite decide_True by by left.
Qed.

Lemma OmitByValues_missing `{LoMapLib} (n : string) :
  lo_OmitByValues {[ n := 0%Z ]} [(-1)%Z] = {[ n := 0%Z ]}.
Proof.
  apply map_eq. intros k. rewrite lo_OmitByValues_law.
  destruct (({[ n := 0%Z ]} : gmap string Z) !! k) as [v|] eqn:E; [|done]. cbn.
  apply lookup_singleton_Some in E as [_ <-]. rewrite decide_False; [done|].
  by intros ?%list_elem_of_singleton.
Qed.

Section Resolve.
Context {W : Type} `{ManagementStorage W} `{!AnsweringStorage W} `{LoMapLib}.
Implicit Types w : W.

Lemma resolve_answers ref w :
  ref_Id ref <> "" ->
  exists w', mview w' = mview w /\ resolveCluster ref w = (w', resolution (mview w) (ref_Id ref)).
Proof using AnsweringStorage0.
  intros Hn. destruct (an_get ref w) as (w1 & Hg).
  pose proof (proj1 (ms_GetCluster_law _ _ _ _ Hg)) as Hv1.
  unfold resolveCluster, resolveClusters, resolution. cbn [lookup_clusters].
  destruct (sv_clusters (mview w) !! ref_Id ref) as [c|] eqn:E.
  { exists w1. split; [done|]. unfold wbind, wret. rewrite Hg. done. }
  destruct (an_list (Some (by_name [ref_Id ref])) MatchOptions_EmptySelectorMatchesNone w1) as (w2 & cs & Hl).
  pose proof (ms_ListClusters_law _ _ _ _ _ Hl) as [Hv2 Hcs]. apply by_name_listed in Hcs. rewrite Hv1 in Hcs.
  exists w2. split; [congruence|]. unfold wbind, wret, wlift. rewrite Hg. cbn [errors_Is].
  rewrite bool_decide_eq_true_2 by done. cbn [orb unresolved]. rewrite insert_empty. cbn [app].
  rewrite decide_False by done. rewrite Hl, (assign_one _ _ _ Hn Hcs).
  destruct (named (mview w) (ref_Id ref)) as [|c [|c2 cs']].
  - rewrite map_to_list_singleton, OmitByValues_missing, map_size_singleton. done.
  - rewrite map_to_list_singleton, OmitByValues_found, map_size_empty. done.
  - done.
Qed.
End Resolve.

(** ** Claims *)

(** The clusters of a backend are stored under their ids. *)
Definition clusters_wf (v : StoreView) : Prop :=
  forall id c, sv_clusters v !! id = Some c -> cl_Id c = id.

Lemma resolved_stored v n c : clusters_wf v -> resolved v n = Some c -> sv_clusters v !! cl_Id c = Some c.
Proof.
  intros Hwf. unfold resolved. destruct (sv_clusters v !! n) as [c'|] eqn:E.
  - intros [= ->]. by rewrite (Hwf _ _ E).
  - destruct (named v n) as [|c' [|]] eqn:En; [done| |done]. intros [= ->].
    assert (Hin : c ∈ named v n) by (rewrite En; by left). apply list_elem_of_filter in Hin as [_ Hin].
    apply list_elem_of_fmap in Hin as ([id c'] & -> & Hin%elem_of_map_to_list). cbn.
    by rewrite (Hwf _ _ Hin).
Qed.

Lemma resolution_Ok v n c : resolution v n = Ok c -> c = resolved v n /\ is_Some c.
Proof.
  unfold resolution, resolved. destruct (sv_clusters v !! n); [intros [= <-]; eauto|].
  destruct (named v n) as [|? [|]]; intros [= <-]; eauto.
Qed.

Lemma resolved_resolution v n c : resolved v n = Some c -> resolution v n = Ok (Some c).
Proof.
  unfold resolution, resolved. destruct (sv_clusters v !! n); [by intros [= ->]|].
  by destruct (named v n) as [|? [|]]; intros [= ->].
Qed.

Section Handlers.
Context {W : Type} `{ManagementStorage W} `{!AnsweringStorage W} `{LoMapLib}.
Implicit Types w : W.

(** Resolving a reference to a cluster answers completely: the cluster with that
    id; else the only cluster with that friendly name; not found when no cluster has
    it.  When two clusters have the name the server does not report the ambiguity
    but crashes on an index out of range. *)
Lemma resolveCluster_answers (ref : Reference) (w : W) :
  ref_Id ref <> "" ->
  exists w', mview w' = mview w /\ resolveCluster ref w = (w', resolution (mview w) (ref_Id ref)).
Proof using AnsweringStorage0. apply resolve_answers. Qed.

Lemma validated_ref {A} ref (m : M W A) w w' o :
  (wlift (Reference_Validate ref) ;! m) w = (w', o) ->
  (ref_Id ref <> "" /\ m w = (w', o)) \/ (w' = w /\ is_Ok o = false /\ Reference_Validate ref <> Ok tt).
Proof.
  unfold wbind, wlift, Reference_Validate, fail_if. case_bool_decide as E; cbn.
  - intros [= <- <-]. by right.
  - destruct (ValidateID (ref_Id ref)) as [[]|e|p]; [by left| |]; intros [= <- <-]; by right.
Qed.

(** Deleting a cluster removes exactly the cluster its reference means and that
    cluster's keyring, and only when it has no capabilities: with capabilities the
    request is refused as a failed precondition and nothing is changed. *)
Lemma DeleteCluster_removes_unused (ref : Reference) (w w' : W) (o : outcome unit) :
  srv_DeleteCluster ref w = (w', o) ->
  (o = Ok tt -> exists c, resolved (mview w) (ref_Id ref) = Some c /\ Clus.GetCapabilities c = [] /\
     mview w' = mkStoreView (sv_tokens (mview w)) (delete (cl_Id c) (sv_clusters (mview w)))
                  (delete (gateway_prefix, cl_Id c) (sv_keyrings (mview w)))) /\
  (forall c, resolved (mview w) (ref_Id ref) = Some c -> Clus.GetCapabilities c <> [] ->
     mview w' = mview w /\ is_Ok o = false).
Proof using AnsweringStorage0.
  intros [[Hn Hd]|(-> & Ho & _)]%validated_ref; [|split; [by intros ->|done]].
  destruct (resolve_answers ref w Hn) as (w1 & Hv1 & Hr). unfold wbind at 1 in Hd. rewrite Hr in Hd.
  destruct (resolution (mview w) (ref_Id ref)) as [c|e|p] eqn:E.
  2,3: injection Hd as <- <-; split; [done|]; intros c Hc; apply resolved_resolution in Hc; congruence.
  apply resolution_Ok in E as [Ec [c' ->]]. cbn zeta in Hd.
  destruct (Clus.GetCapabilities c') as [|cap caps] eqn:Ecap; cbn [length Nat.ltb Nat.leb] in Hd.
  2:{ injection Hd as <- <-. split; [done|]. done. }
  split; [|intros c Hc; rewrite <- Ec in Hc; injection Hc as ->; by rewrite Ecap].
  intros ->. exists c'. split; [done|]. split; [done|].
  unfold wbind in Hd.
  destruct (ms_DeleteKeyring gateway_prefix (Clus.GetReference c') w1) as [w2 ok] eqn:Ek.
  apply ms_DeleteKeyring_law in Ek. change (ref_Id (Clus.GetReference c')) with (cl_Id c') in Ek.
  assert (Hv2 : mview w2 = mkStoreView (sv_tokens (mview w)) (sv_clusters (mview w))
                  (delete (gateway_prefix, cl_Id c') (sv_keyrings (mview w))) /\
                ms_DeleteCluster (Clus.GetReference c') w2 = (w', Ok tt)).
  { rewrite Hv1 in Ek. destruct ok as [[]|e|p]; [by split| |done].
    destruct Ek as [Ek Hnone]. destruct (errors_Is e ErrNotFound) eqn:En; [|done].
    split; [|done]. rewrite Ek, delete_id by by apply Hnone. by destruct (mview w). }
  destruct Hv2 as [Hv2 Hdel%ms_DeleteCluster_law]. rewrite Hdel, Hv2. done.
Qed.

(** An edit that succeeds gives the cluster its reference means exactly the labels of
    the request, keeps its id, its capabilities and every label the server manages
    itself, and changes no other cluster. *)
Lemma EditCluster_keeps_immutable_labels (req : EditClusterRequest) (w w' : W) (c' : Cluster) :
  clusters_wf (mview w) ->
  srv_EditCluster req w = (w', Ok c') ->
  exists ref c, ecr_Cluster req = Some ref /\ resolved (mview w) (ref_Id ref) = Some c /\
    cl_Id c' = cl_Id c /\ Clus.GetCapabilities c' = Clus.GetCapabilities c /\
    Clus.GetLabels c' = ecr_Labels req /\
    (forall k, IsLabelMutable k = false -> Clus.GetLabels c' !! k = Clus.GetLabels c !! k) /\
    mview w' = set_cluster (mview w) (cl_Id c) c'.
Proof using AnsweringStorage0.
  intros Hwf He. unfold srv_EditCluster in He.
  apply wbind_Ok in He as ([] & w0 & Hval & He). unfold wlift in Hval. injection Hval as <- Hval.
  destruct (ecr_Cluster req) as [ref|] eqn:Eref; [|done].
  assert (Hn : ref_Id ref <> "").
  { unfold EditClusterRequest_Validate in Hval. rewrite Eref in Hval. open_ok Hval Href.
    unfold Reference_Validate in Href. open_ok Href H1. apply fail_if_Ok in H1.
    by apply bool_decide_eq_false in H1. }
  destruct (resolve_answers ref w Hn) as (w1 & Hv1 & Hr). unfold wbind at 1 in He. rewrite Hr in He.
  destruct (resolution (mview w) (ref_Id ref)) as [c|e|p] eqn:E; [|done..].
  apply resolution_Ok in E as [Ec [c0 ->]]. cbn zeta in He. case_decide as Him; [|done].
  apply ms_UpdateCluster_law in He as (c1 & Hc1 & Hm & Hv). rewrite Hv1 in Hc1, Hv.
  change (ref_Id (Clus.GetReference c0)) with (cl_Id c0) in Hc1, Hv.
  rewrite (resolved_stored _ _ c0 Hwf (eq_sym Ec)) in Hc1. injection Hc1 as <-.
  injection Hm as <-. exists ref, c0. repeat split; try done. intros k Hk.
  apply (f_equal (fun m : gmap string string => m !! k)) in Him. unfold immutable_labels in Him.
  rewrite !lo_PickBy_law, Hk in Him. cbn in Him |- *.
  destruct (Clus.GetLabels c0 !! k), (ecr_Labels req !! k); cbn in Him; congruence.
Qed.
End Handlers.

(** ** A backend in memory *)

#[export] Instance lo_map_ref : LoMapLib.
Proof.
  refine {|
    lo_PickBy m p := omap (fun kv => kv) (map_imap (fun k v => Some (if p k v then Some v else None)) m);
    lo_OmitByValues m vs := omap (fun v => if decide (v ∈ vs) then None else Some v) m |}.
  - intros m p k. rewrite lookup_omap, map_lookup_imap. by destruct (m !! k).
  - intros m vs k. by rewrite lookup_omap.
Defined.

Definition not_supported {A} : M StoreView A := wfail (ErrorString "not supported").

#[export] Instance memory_storage : ManagementStorage StoreView.
Proof.
  refine {|
    mview v := v;
    ms_GetCluster r := fun v =>
      (v, match sv_clusters v !! ref_Id r with Some c => Ok c | None => Err ErrNotFound end);
    ms_ListClusters ls mo := fun v =>
      (v, Ok (filter (fun c => NewSelectorPredicate (mkClusterSelector [] ls mo) c = true)
                (map_to_list (sv_clusters v)).*2));
    ms_UpdateCluster r m := fun v =>
      match sv_clusters v !! ref_Id r with
      | Some c => match m c with
                  | Ok c' => (set_cluster v (ref_Id r) c', Ok c')
                  | Err e => (v, Err e)
                  | Panic p => (v, Panic p)
                  end
      | None => (v, Err ErrNotFound)
      end;
    ms_DeleteCluster r := fun v =>
      (mkStoreView (sv_tokens v) (delete (ref_Id r) (sv_clusters v)) (sv_keyrings v), Ok tt);
    ms_DeleteKeyring p r := fun v =>
      match sv_keyrings v !! (p, ref_Id r) with
      | Some _ => (mkStoreView (sv_tokens v) (sv_clusters v) (delete (p, ref_Id r) (sv_keyrings v)), Ok tt)
      | None => (v, Err ErrNotFound)
      end;
    ms_WatchClusters _ := wret [];
    ms_CreateToken _ _ := not_supported;
    ms_DeleteToken _ := not_supported;
    ms_ListTokens := not_supported;
    ms_GetToken _ := not_supported;
    ms_CreateRole _ := not_supported;
    ms_DeleteRole _ := not_supported;
    ms_GetRole _ := not_supported;
    ms_ListRoles := not_supported;
    ms_CreateRoleBinding _ := not_supported;
    ms_DeleteRoleBinding _ := not_supported;
    ms_GetRoleBinding _ := not_supported;
    ms_ListRoleBindings := not_supported |}.
  - intros r w w' o. destruct (sv_clusters w !! ref_Id r) eqn:E; intros [= <- <-]; done.
  - intros ls mo w w' o [= <- <-]. done.
  - intros r m w w' o. destruct (sv_clusters w !! ref_Id r) as [c|] eqn:E; [|by intros [= <- <-]].
    destruct (m c) eqn:Em; intros [= <- <-]; eauto.
  - intros r w w' o [= <- <-]. done.
  - intros p r w w' o. destruct (sv_keyrings w !! (p, ref_Id r)) eqn:E; intros [= <- <-]; done.
Defined.

#[export] Instance memory_answers : AnsweringStorage StoreView.
Proof. split; intros; cbn; eauto. Qed.

Definition demo_named (id : string) : Cluster :=
  mkCluster id (Some (mkClusterMetadata {[ NameLabel := "prod"; "opni.io/agent-version" := "v2" ]} [] "" None None)).
Definition one_cluster : StoreView := mkStoreView ∅ {[ "c1" := demo_named "c1" ]} ∅.
Definition two_named : StoreView :=
  mkStoreView ∅ {[ "c1" := demo_named "c1"; "c2" := demo_named "c2" ]} ∅.

(** Two clusters called "prod": looking one up by name panics. *)
Definition rename : EditClusterRequest :=
  mkEditClusterRequest (Some (mkReference "prod"))
    {[ NameLabel := "staging"; "opni.io/agent-version" := "v2" ]}.

