(* ===== verification/BootstrapProps.v ===== *)
(** Properties of the bootstrap protocol of [Bootstrap], for every storage backend
    that keeps the contract [BootstrapStorage]. *)

From S2P Require Import Prelude GoStd Util Base64 Validation CoreV1 Storage Etcd RefJSON Tokens Crypto Pkp Keyring ClusterAuth Trust Bootstrap.
From Stdlib Require Import Ascii.

Local Open Scope string_scope.

(** Steps through the first call of a sequence; the last two goals are its failures. *)
Ltac wstep H E :=
  let a := fresh "a" in let w1 := fresh "w" in
  apply wbind_inv in H as [(a & w1 & E & H)|[(? & E & ->)|(? & E & ->)]]; cbn beta in H.

Lemma wlift_inv {W A} (o : outcome A) (w w' : W) r : wlift o w = (w', r) -> w = w' /\ o = r.
Proof. by intros [= <- <-]. Qed.

Lemma wrapf_inv {W A} msg (m : M W A) w w' o :
  wrapf msg m w = (w', o) ->
  exists o', m w = (w', o') /\
    match o' with Ok a => o = Ok a | Err e => o = Err (Wrapped msg e) | Panic p => o = Panic p end.
Proof. unfold wrapf, wcatch, wfail. destruct (m w) as [w1 [a|e|p]]; intros [= <- <-]; (eexists; split; [reflexivity|done]). Qed.

Lemma status_wrap_inv {W A} c msg (m : M W A) w w' o :
  status_wrap c msg m w = (w', o) ->
  exists o', m w = (w', o') /\
    match o' with Ok a => o = Ok a | Err _ => o = Err (StatusError c msg) | Panic p => o = Panic p end.
Proof. unfold status_wrap, wcatch, wfail. destruct (m w) as [w1 [a|e|p]]; intros [= <- <-]; (eexists; split; [reflexivity|done]). Qed.

Section ServerProps.
Context {W : Type} `{BootstrapStorage W} `{JWS} `{TokenJSON} `{Curve25519} `{Blake2b} `{Ed25519}.
Variable privateKey : Key.

(** The bearer token in the metadata of a request is a JWS of the server over the
    JSON form of a token. *)
Definition bearer (md : option (list string)) (token : Token) : Prop :=
  exists v rest payload, md = Some (v :: rest) /\
    jws_Verify (TrimSpace (TrimPrefix (TrimSpace v) "Bearer")) (public_of privateKey) = Ok payload /\
    ParseJSON payload = Ok token.

Lemma authenticate_inv md w w' o :
  authenticate privateKey md w = (w', o) ->
  bview w' = bview w /\
  match o with
  | Ok (token, bt) => bearer md token /\ sv_tokens (bview w) !! HexID token = Some bt
  | Err e => StatusCode e ∈ [codes_Unauthenticated; codes_PermissionDenied; codes_Unavailable]
  | Panic _ => True
  end.
Proof.
  unfold authenticate. destruct md as [[|v rest]|]; [intros [= <- <-]; split; [done|left]| |intros [= <- <-]; split; [done|left]].
  case_decide; [intros [= <- <-]; split; [done|left]|].
  destruct (jws_Verify _ _) as [payload|e|p] eqn:Ev; [|intros [= <- <-]; split; [done|by right; left]|by intros [= <- <-]].
  destruct (ParseJSON payload) as [token|e|p] eqn:Ep; [|by intros [= <- <-]..].
  destruct (bs_GetToken _ w) as [w1 [bt|e|p]] eqn:Eg; apply GetToken_law in Eg as [Hv Ho]; [| |done].
  - intros [= <- <-]. split; [done|]. split; [|done]. by exists v, rest, payload.
  - intros [= <- <-]. split; [done|]. destruct (errors_Is e ErrNotFound); cbn; set_solver.
Qed.

(** The keyring of one set of shared keys. *)
Definition shared_keyring (sk : SharedKeys) : Keyring := {[ TSharedKeys := [KShared sk] ]}.

Lemma keyring_New_shared sk : keyring_New [KShared sk] = Ok (shared_keyring sk).
Proof. done. Qed.

Lemma exchange_inv entropy pub spub kr :
  exchange entropy pub = Ok (spub, kr) ->
  exists ekp secret sk, NewEphemeralKeyPair entropy = Ok ekp /\
    DeriveSharedSecret ekp (mkPeerPublicKey pub PeerTypeClient) = Ok secret /\
    NewSharedKeys secret = Ok sk /\ spub = ekp_PublicKey ekp /\ kr = shared_keyring sk.
Proof.
  unfold exchange. intros (ekp & He & (secret & Hs%omap_err_Ok & (sk & Hk & Hr)%obind_Ok)%obind_Ok)%obind_Ok.
  rewrite keyring_New_shared in Hr. injection Hr as <- <-. eauto 10.
Qed.

(** The cluster a second-generation agent is registered as. *)
Definition new_cluster_v2 (bt : BootstrapToken) (req : BootstrapAuthRequestV2) (c : Cluster) : Prop :=
  cl_Id c = ar2_ClientId req /\ Clus.GetCapabilities c = [] /\
  Clus.GetLabels c = match ar2_FriendlyName req with
                     | Some name => <[NameLabel := name]> (cluster_labels bt Version2)
                     | None => cluster_labels bt Version2
                     end.

(** The states a run of [AuthV2] can stop in. *)
Inductive auth2_run (v : StoreView) (md : option (list string)) (req : BootstrapAuthRequestV2)
    (entropy : outcome (list byte)) : outcome (list byte) -> StoreView -> Prop :=
| run_refused o : is_Ok o = false -> auth2_run v md req entropy o v
| run_partial o token bt c v' :
    is_Ok o = false -> bearer md token -> sv_tokens v !! HexID token = Some bt ->
    sv_clusters v !! ar2_ClientId req = None -> new_cluster_v2 bt req c ->
    (v' = set_cluster v (ar2_ClientId req) c \/
     exists bt', NewIncrementUsageCountMutator bt = Ok bt' /\
       v' = set_token (set_cluster v (ar2_ClientId req) c) (HexID token) bt') ->
    auth2_run v md req entropy o v'
| run_done token bt bt' c spub kr :
    bearer md token -> sv_tokens v !! HexID token = Some bt ->
    BootstrapAuthRequestV2_Validate req = Ok tt ->
    sv_clusters v !! ar2_ClientId req = None -> new_cluster_v2 bt req c ->
    exchange entropy (ar2_ClientPubKey req) = Ok (spub, kr) ->
    NewIncrementUsageCountMutator bt = Ok bt' ->
    auth2_run v md req entropy (Ok spub)
      (set_keyring (set_token (set_cluster v (ar2_ClientId req) c) (HexID token) bt')
         (gateway_prefix, ar2_ClientId req) kr).

Lemma AuthV2_inv md req entropy w w' o :
  AuthV2 privateKey md req entropy w = (w', o) -> auth2_run (bview w) md req entropy o (bview w').
Proof.
  unfold AuthV2. intros Hrun. wstep Hrun Ea; apply authenticate_inv in Ea as [Hv0 Ha];
    [|rewrite Hv0; by apply run_refused..].
  destruct a as [token bt]. destruct Ha as [Hb Ht]. rewrite <- Hv0 in Ht |- *. clear Hv0.
  wstep Hrun Ev; apply status_wrap_inv in Ev as (o' & [= <- <-] & Ho);
    [|by apply run_refused..].
  destruct (BootstrapAuthRequestV2_Validate req) as [[]| |] eqn:Eval; [|done|done]. clear Ho a.
  wstep Hrun Ec; destruct (bs_GetCluster _ _) as [wg [c|e|p]] eqn:Eg in Ec;
    apply GetCluster_law in Eg as [Hv1 Hc]; try done; cbn in Hc;
    try (destruct (errors_Is e ErrNotFound)); simplify_eq;
    try (rewrite Hv1; by apply run_refused).
  specialize (Hc eq_refl). rewrite <- Hv1 in Hc, Ht |- *. clear Hv1.
  wstep Hrun Ex; injection Ex as <- Ex; [|by apply run_refused..].
  destruct a as [spub kr].
  set (newCluster := mkCluster _ _) in Hrun.
  wstep Hrun Ecr; apply status_wrap_inv in Ecr as (o' & Ecr & Ho); apply CreateCluster_law in Ecr.
  2, 3: destruct o'; simplify_eq; first [by rewrite Ecr; apply run_refused | done].
  destruct o' as [[]| |]; [|done|done]. destruct Ecr as (_ & c & (Hid & Hl & Hcap) & Hv2).
  change (cl_Id newCluster) with (ar2_ClientId req) in Hv2, Hid.
  assert (new_cluster_v2 bt req c) as Hnew by (split; [done|split; [done|rewrite Hl; by destruct (ar2_FriendlyName req)]]).
  wstep Hrun Eu; apply status_wrap_inv in Eu as (o' & Eu & Ho'); apply UpdateToken_law in Eu.
  2, 3: eapply run_partial; [done|exact Hb|exact Ht|exact Hc|exact Hnew|left];
        destruct o'; simplify_eq; first [congruence | destruct Eu; congruence].
  destruct o' as [bt'| |]; [|done|done]. destruct Eu as (t & Hlt & Hm & Hv3). cbn in Hlt, Hv3.
  rewrite Hv2 in Hlt. cbn in Hlt. rewrite Ht in Hlt. injection Hlt as <-.
  assert (NewIncrementUsageCountMutator bt = Ok bt') as Hm'.
  { cbn in Hm. destruct (NewIncrementUsageCountMutator bt); [done|done|done]. }
  wstep Hrun Ep; apply status_wrap_inv in Ep as (o' & Ep & Ho2); apply ks_Put_law in Ep.
  2, 3: eapply run_partial; [done|exact Hb|exact Ht|exact Hc|exact Hnew|right];
        exists bt'; destruct o'; simplify_eq; try done; (split; [done|congruence]).
  destruct o' as [[]| |]; [|done|done]. injection Hrun as <- <-.
  rewrite Ep, Hv3, Hv2. by eapply run_done.
Qed.
End ServerProps.

(** C2: a second-generation agent is only ever admitted with a bearer token the
    server signed for a token it still stores, under an id no cluster has; it is
    then registered with the labels of the token, the use of the token is counted
    and its keys are stored.  Whatever the outcome, no cluster that existed before
    is changed, nor are its keys, and neither is any cluster or keyring but those of
    the new id: nobody can take over a cluster.  Keys that were left behind under an id
    without a cluster are replaced when an agent is admitted under that id.  A refused
    agent never gets keys. *)
Theorem AuthV2_no_takeover {W} `{BootstrapStorage W} `{JWS} `{TokenJSON} `{Curve25519} `{Blake2b} `{Ed25519}
    (privateKey : Key) (md : option (list string)) (req : BootstrapAuthRequestV2)
    (entropy : outcome (list byte)) (w w' : W) (o : outcome (list byte)) :
  AuthV2 privateKey md req entropy w = (w', o) ->
  (forall id c, sv_clusters (bview w) !! id = Some c ->
     sv_clusters (bview w') !! id = Some c /\
     sv_keyrings (bview w') !! (gateway_prefix, id) = sv_keyrings (bview w) !! (gateway_prefix, id)) /\
  (forall id, id <> ar2_ClientId req -> sv_clusters (bview w') !! id = sv_clusters (bview w) !! id) /\
  (forall k, k <> (gateway_prefix, ar2_ClientId req) -> sv_keyrings (bview w') !! k = sv_keyrings (bview w) !! k) /\
  match o with
  | Ok serverPubKey => exists token bt bt' c sk ekp secret,
      bearer privateKey md token /\ sv_tokens (bview w) !! HexID token = Some bt /\
      sv_clusters (bview w) !! ar2_ClientId req = None /\
      sv_clusters (bview w') !! ar2_ClientId req = Some c /\ new_cluster_v2 bt req c /\
      sv_tokens (bview w') !! HexID token = Some bt' /\ NewIncrementUsageCountMutator bt = Ok bt' /\
      NewEphemeralKeyPair entropy = Ok ekp /\ serverPubKey = ekp_PublicKey ekp /\
      DeriveSharedSecret ekp (mkPeerPublicKey (ar2_ClientPubKey req) PeerTypeClient) = Ok secret /\
      NewSharedKeys secret = Ok sk /\
      sv_keyrings (bview w') !! (gateway_prefix, ar2_ClientId req) = Some (shared_keyring sk)
  | _ => sv_keyrings (bview w') = sv_keyrings (bview w)
  end.
Proof.
  intros Hrun%AuthV2_inv. destruct Hrun as [o Ho|o token bt c v' Ho Hb Ht Hc Hn Hv'|token bt bt' c spub kr Hb Ht Hval Hc Hn Hx Hm].
  - split_and!; [done..|]. by destruct o.
  - assert (Hk : sv_keyrings v' = sv_keyrings (bview w) /\ forall id, id <> ar2_ClientId req ->
      sv_clusters v' !! id = sv_clusters (bview w) !! id)
      by (destruct Hv' as [->|(bt' & _ & ->)]; cbn; split; try done; intros id Hid; by rewrite lookup_insert_ne).
    destruct Hk as [Hk Hcl]. split_and!; [|done|by intros k _; rewrite Hk|by destruct o].
    intros id c0 Hid. rewrite Hk, Hcl by congruence. done.
  - split_and!; cbn.
    + intros id c0 Hid. assert (ar2_ClientId req <> id) by congruence.
      rewrite lookup_insert_ne by done. rewrite lookup_insert_ne by congruence. done.
    + intros id Hid. by rewrite lookup_insert_ne.
    + intros k Hk. by rewrite lookup_insert_ne.
    + destruct (exchange_inv _ _ _ _ Hx) as (ekp & secret & sk & ? & ? & ? & ? & ->).
      exists token, bt, bt', c, sk, ekp, secret. rewrite !lookup_insert_eq. done.
Qed.

(** An attempt that fails after the cluster was created locks its id: every later
    attempt with that id is refused. *)
Lemma AuthV2_existing {W} `{BootstrapStorage W} `{JWS} `{TokenJSON} `{Curve25519} `{Blake2b} `{Ed25519}
    privateKey md req entropy (w w' : W) o :
  AuthV2 privateKey md req entropy w = (w', o) -> is_Some (sv_clusters (bview w) !! ar2_ClientId req) ->
  is_Ok o = false /\ sv_keyrings (bview w') = sv_keyrings (bview w).
Proof.
  intros Hrun%AuthV2_inv [c0 Hc0].
  destruct Hrun as [o Ho|o token bt c v' Ho Hb Ht Hc Hn Hv'|token bt bt' c spub kr Hb Ht Hval Hc Hn Hx Hm];
    [done|congruence..].
Qed.

(** Registration is not atomic: when counting the token or storing the keys
    fails, the cluster stays registered without keys, and no later attempt of the
    agent with its id can succeed. *)
Lemma AuthV2_failure_locks_id {W} `{BootstrapStorage W} `{JWS} `{TokenJSON} `{Curve25519} `{Blake2b} `{Ed25519}
    (privateKey : Key) (md md2 : option (list string)) (req req2 : BootstrapAuthRequestV2)
    (entropy entropy2 : outcome (list byte)) (w w1 w2 w3 : W) (o o2 : outcome (list byte)) :
  AuthV2 privateKey md req entropy w = (w1, o) -> is_Ok o = false -> bview w1 <> bview w ->
  bview w2 = bview w1 -> ar2_ClientId req2 = ar2_ClientId req ->
  AuthV2 privateKey md2 req2 entropy2 w2 = (w3, o2) ->
  is_Some (sv_clusters (bview w1) !! ar2_ClientId req) /\ is_Ok o2 = false /\
  sv_keyrings (bview w3) = sv_keyrings (bview w).
Proof.
  intros Hrun%AuthV2_inv Ho Hne Heq Hid Hsecond.
  assert (is_Some (sv_clusters (bview w1) !! ar2_ClientId req) /\
          sv_keyrings (bview w1) = sv_keyrings (bview w)) as [Hs Hk].
  { inversion Hrun as [? ?|o' token bt c v' ? Hb Ht Hc Hn Hv'|]; subst; [done| |done].
    destruct Hv' as [->|(bt' & _ & ->)]; cbn; rewrite lookup_insert_eq; done. }
  split; [done|]. rewrite <- Hid, <- Heq in Hs. destruct (AuthV2_existing _ _ _ _ _ _ _ Hsecond Hs) as [-> ->].
  by rewrite Heq.
Qed.

(** ** Joining *)

(** What the server stores about tokens: well-formed tokens under their own id. *)
Definition stored_token (id : string) (bt : BootstrapToken) (t : Token) : Prop :=
  token_wf t /\ bt_TokenID bt = HexID t /\ bt_Secret bt = HexSecret t /\ id = HexID t /\
  is_Some (bt_Metadata bt).

Definition tokens_wf (v : StoreView) : Prop :=
  forall id bt, sv_tokens v !! id = Some bt -> exists t, stored_token id bt t.

Lemma stored_token_From id bt t : stored_token id bt t -> FromBootstrapToken bt = Ok t.
Proof.
  intros ((_ & _ & Hi & Hs) & E1 & E2 & _). unfold FromBootstrapToken, HexID, HexSecret in *.
  rewrite E1, E2, !hex_roundtrip by done. cbn. by destruct t.
Qed.

Lemma stored_token_det id1 id2 bt t1 t2 :
  stored_token id1 bt t1 -> stored_token id2 bt t2 -> t1 = t2 /\ id1 = id2.
Proof.
  intros S1 S2. pose proof (stored_token_From _ _ _ S1) as E. rewrite (stored_token_From _ _ _ S2) in E.
  injection E as ->. split; [done|].
  destruct S1 as (_ & _ & _ & -> & _), S2 as (_ & _ & _ & -> & _). done.
Qed.

Section JoinProps.
Context {W : Type} `{BootstrapStorage W} `{JWS}.
Variable seed : list byte.
Let privateKey : Key := Ed25519PrivateKey seed.

Lemma SignDetached_Ok t : exists sig m, SignDetached t privateKey = Ok sig /\
  VerifyDetached t sig (public_of privateKey) = Ok m /\
  jws_Sign (token_json t) privateKey = Ok m.
Proof.
  pose proof (jws_Sign_Ok (token_json t) seed) as Hok.
  destruct (jws_Sign (token_json t) (Ed25519PrivateKey seed)) as [m| |] eqn:Em; [|done|done].
  destruct (detached_roundtrip t seed m Em) as (sig & h & s & Hs & _ & _ & Hv). by exists sig, m.
Qed.

Lemma sign_tokens_spec l : forall m,
  Forall (fun bt => exists id t, stored_token id bt t) l ->
  exists sigs, sign_tokens privateKey l m = Ok sigs /\
  (forall bt id t, bt ∈ l -> stored_token id bt t -> is_Some (sigs !! HexID t)) /\
  (forall id, is_Some (m !! id) -> is_Some (sigs !! id)) /\
  (forall id sig, sigs !! id = Some sig -> m !! id = Some sig \/
     exists bt t, bt ∈ l /\ stored_token id bt t /\ SignDetached t privateKey = Ok sig).
Proof.
  induction l as [|bt l IH]; intros m Hf; cbn [sign_tokens].
  - exists m. split; [done|]. split; [by intros ? ? ? []%not_elem_of_nil|]. split; [done|by left].
  - apply Forall_cons_1 in Hf as [(id & t & Ht) Hf]. rewrite (stored_token_From _ _ _ Ht). cbn [obind].
    destruct (SignDetached_Ok t) as (sig & _ & Hsig & _). rewrite Hsig. cbn [omap_err obind].
    destruct (IH (<[HexID t := sig]> m) Hf) as (sigs & Hs & K1 & K2 & K3).
    exists sigs. split; [done|]. split; [|split].
    + intros bt' id' t' [->|Hin]%elem_of_cons Ht'; [|by eapply K1].
      pose proof (stored_token_From _ _ _ Ht') as E. rewrite (stored_token_From _ _ _ Ht) in E.
      injection E as <-. apply K2. by rewrite lookup_insert_eq.
    + intros id' Hid'. apply K2. rewrite lookup_insert. by case_decide.
    + intros id' sig' E. destruct (K3 _ _ E) as [E'|(bt' & t' & ? & ? & ?)].
      * rewrite lookup_insert in E'. case_decide as Eid; [|by left]. right. injection E' as <-.
        exists bt, t. split; [left|]. split; [|done]. destruct Ht as (? & ? & ? & ? & ?). by subst.
      * right. exists bt', t'. split; [by right|done].
Qed.

Lemma tokens_all_stored v ts :
  tokens_wf v -> ts ≡ₚ (map_to_list (sv_tokens v)).*2 ->
  Forall (fun bt => exists id t, stored_token id bt t) ts.
Proof.
  intros Hwf Hp. apply list.Forall_forall. intros bt Hbt. rewrite Hp in Hbt.
  apply list_elem_of_fmap in Hbt as ([id bt'] & -> & Hin%elem_of_map_to_list).
  exists id. by apply Hwf.
Qed.

(** What Join answers when there are tokens. *)
Lemma Join_inv w w1 ts :
  tokens_wf (bview w) -> bs_ListTokens w = (w1, Ok ts) -> sv_tokens (bview w) <> ∅ ->
  exists sigs, Join privateKey w = (w1, Ok sigs) /\ bview w1 = bview w /\
    (forall id, is_Some (sigs !! id) <-> is_Some (sv_tokens (bview w) !! id)) /\
    (forall id bt t, sv_tokens (bview w) !! id = Some bt -> FromBootstrapToken bt = Ok t ->
       exists sig m, sigs !! HexID t = Some sig /\
         VerifyDetached t sig (public_of privateKey) = Ok m /\
         jws_Sign (token_json t) privateKey = Ok m).
Proof.
  intros Hwf Hl Hne. destruct (ListTokens_law _ _ _ Hl) as [Hv Hp].
  destruct (sign_tokens_spec ts ∅ (tokens_all_stored _ _ Hwf Hp)) as (sigs & Hs & K1 & _ & K3).
  assert (forall id bt t, sv_tokens (bview w) !! id = Some bt -> stored_token id bt t ->
            is_Some (sigs !! HexID t)) as Hin.
  { intros id bt t Hid. apply K1. rewrite Hp. apply list_elem_of_fmap. exists (id, bt).
    split; [done|]. by apply elem_of_map_to_list. }
  assert (forall id bt t sig, sv_tokens (bview w) !! id = Some bt -> FromBootstrapToken bt = Ok t ->
            sigs !! HexID t = Some sig -> SignDetached t privateKey = Ok sig) as Hsigs.
  { intros id bt t sig Hid Hf E. destruct (K3 _ _ E) as [E'|(bt' & t' & Hin' & Ht' & Hs')];
      [by rewrite lookup_empty in E'|].
    rewrite Hp in Hin'. apply list_elem_of_fmap in Hin' as ([id' bt''] & -> & Hin'%elem_of_map_to_list).
    cbn [snd] in Ht'. destruct (Hwf _ _ Hin') as (t'' & Ht''). destruct (Hwf _ _ Hid) as (t0 & Ht0).
    pose proof (stored_token_det _ _ _ _ _ Ht' Ht'') as [<- Eid].
    rewrite (stored_token_From _ _ _ Ht0) in Hf. injection Hf as ->.
    assert (id' = id) as -> by (destruct Ht0 as (_ & _ & _ & -> & _); congruence).
    rewrite Hid in Hin'. injection Hin' as <-.
    by destruct (stored_token_det _ _ _ _ _ Ht' Ht0) as [<- _]. }
  exists sigs. split; [|split; [done|split]].
  - unfold Join, wbind, wlift, wfail, wret. rewrite Hl, Hs. case_decide as Hsz; [|done].
    apply map_size_empty_inv in Hsz. subst sigs. exfalso. apply Hne.
    apply map_empty. intros id. destruct (sv_tokens (bview w) !! id) as [bt|] eqn:E; [|done].
    destruct (Hwf _ _ E) as (t & Ht). destruct (Hin _ _ _ E Ht) as [? E']. by rewrite lookup_empty in E'.
  - intros id. split.
    + intros [sig E]. destruct (K3 _ _ E) as [E'|(bt & t & Hbt & Ht & _)]; [by rewrite lookup_empty in E'|].
      rewrite Hp in Hbt. apply list_elem_of_fmap in Hbt as ([id' bt'] & -> & Hi%elem_of_map_to_list).
      destruct (Hwf _ _ Hi) as (t' & Ht'). cbn [snd] in Ht.
      destruct (stored_token_det _ _ _ _ _ Ht Ht') as [_ ->]. by exists bt'.
    + intros [bt E]. destruct (Hwf _ _ E) as (t & Ht). pose proof (Hin _ _ _ E Ht) as Hs'.
      destruct Ht as (_ & _ & _ & -> & _). done.
  - intros id bt t Hid Hf. destruct (Hwf _ _ Hid) as (t0 & Ht0).
    pose proof (stored_token_From _ _ _ Ht0) as E. rewrite Hf in E. injection E as <-.
    destruct (Hin _ _ _ Hid Ht0) as [sig Esig].
    pose proof (Hsigs _ _ _ _ Hid Hf Esig) as Hsg.
    destruct (SignDetached_Ok t) as (sig' & m & E' & Hv' & Hm). rewrite Hsg in E'. injection E' as <-.
    by exists sig, m.
Qed.
End JoinProps.

(** ** The whole protocol *)

(** A storage backend that answers: every call whose precondition holds succeeds. *)
Record Reliable (W : Type) `{BootstrapStorage W} : Prop := {
  rel_list w : exists w' ts, bs_ListTokens w = (w', Ok ts);
  rel_token r w t : sv_tokens (bview w) !! ref_Id r = Some t -> exists w', bs_GetToken r w = (w', Ok t);
  rel_no_cluster r w : sv_clusters (bview w) !! ref_Id r = None ->
    exists w' e, bs_GetCluster r w = (w', Err e) /\ errors_Is e ErrNotFound = true;
  rel_create c w : sv_clusters (bview w) !! cl_Id c = None -> exists w', bs_CreateCluster c w = (w', Ok tt);
  rel_update r m w t t' : sv_tokens (bview w) !! ref_Id r = Some t -> m t = Ok t' ->
    exists w', bs_UpdateToken r m w = (w', Ok t');
  rel_put p r kr w : exists w', ks_Put p r kr w = (w', Ok tt);
  rel_get p r kr w : sv_keyrings (bview w) !! (p, ref_Id r) = Some kr -> exists w', ks_Get p r w = (w', Ok kr) }.

Lemma bearer_header m :
  m <> "" -> str_all is_graph m = true ->
  TrimSpace (TrimPrefix (TrimSpace ("Bearer " +:+ m)) "Bearer") = m.
Proof.
  intros Hne Hm. change ("Bearer " +:+ m) with (String "B" ("earer " +:+ m)).
  destruct (last_char m) as [d|] eqn:El.
  - rewrite (TrimSpace_ends _ _ d); [|done| |by eapply last_char_all].
    + change (String "B" ("earer " +:+ m)) with ("Bearer" +:+ String " " m).
      rewrite TrimPrefix_app. by apply TrimSpace_space_graph.
    + change (String "B" ("earer " +:+ m)) with ("Bearer " +:+ m). by rewrite last_char_app.
  - exfalso. apply Hne. clear -El. induction m as [|c [|]]; [done|done|]. cbn [last_char] in *. by apply IHm in El.
Qed.

Lemma jws_graph `{JWS} payload k m : jws_Sign payload k = Ok m -> m <> "" /\ str_all is_graph m = true.
Proof.
  intros (h & s & -> & Hh & Hs)%jws_Sign_compact. split.
  - intros [_ [? _]%str_app_eq_nil]%str_app_eq_nil. done.
  - rewrite !str_all_app, (str_all_impl _ _ h url_char_graph Hh), (str_all_impl _ _ s url_char_graph Hs).
    by rewrite (str_all_impl _ _ _ url_char_graph (EncodeToString_url _ (str_bytes_bytes payload))).
Qed.

Section EndToEnd.
Context {W : Type} `{BootstrapStorage W} `{JWS} `{TokenJSON} `{Curve25519} `{Blake2b} `{Ed25519}.
Context (Hrel : Reliable W).
Variable seed : list byte.
Let privateKey : Key := Ed25519PrivateKey seed.

Lemma AuthV2_succeeds t m bt bt' req es spub kr w :
  token_wf t -> jws_Sign (token_json t) privateKey = Ok m ->
  sv_tokens (bview w) !! HexID t = Some bt -> NewIncrementUsageCountMutator bt = Ok bt' ->
  BootstrapAuthRequestV2_Validate req = Ok tt -> sv_clusters (bview w) !! ar2_ClientId req = None ->
  exchange es (ar2_ClientPubKey req) = Ok (spub, kr) ->
  exists w', AuthV2 privateKey (Some ["Bearer " +:+ m]) req es w = (w', Ok spub).
Proof.
  intros (_ & _ & Hbi & Hbs) Hm Ht Hinc Hval Hc Hx. destruct (jws_graph _ _ _ Hm) as [Hne Hg]. unfold AuthV2.
  destruct (rel_token _ Hrel (Token_Reference t) w bt Ht) as (w1 & Eg).
  destruct (GetToken_law _ _ _ _ Eg) as [Hv1 _].
  assert (TrimSpace ("Bearer " +:+ m) <> "") as Hne2.
  { intros E. pose proof (bearer_header m Hne Hg) as Hb. rewrite E in Hb. by vm_compute in Hb. }
  assert (authenticate privateKey (Some ["Bearer " +:+ m]) w = (w1, Ok (t, bt))) as Ha.
  { unfold authenticate. rewrite decide_False by done. rewrite (bearer_header m Hne Hg).
    by rewrite (jws_Verify_Sign _ _ _ Hm), ParseJSON_token_json, Eg by done. }
  rewrite (wbind_eq_Ok _ _ _ _ _ Ha).
  unfold status_wrap, wcatch, wlift. rewrite Hval.
  destruct (rel_no_cluster _ Hrel (mkReference (ar2_ClientId req)) w1) as (w2 & e & Ec & He); [by rewrite Hv1|].
  destruct (GetCluster_law _ _ _ _ Ec) as [Hv2 _].
  erewrite wbind_eq_Ok by reflexivity. erewrite wbind_eq_Ok by (rewrite Ec, He; reflexivity).
  rewrite Hx. erewrite wbind_eq_Ok by reflexivity. cbv beta iota.
  set (nc := mkCluster _ _).
  destruct (rel_create _ Hrel nc w2) as (w3 & Ecr); [cbn; by rewrite Hv2, Hv1|].
  destruct (CreateCluster_law _ _ _ _ Ecr) as (_ & c & _ & Hv3).
  erewrite wbind_eq_Ok by (rewrite Ecr; reflexivity).
  destruct (rel_update _ Hrel (Token_Reference t) (NewCompositeMutator [NewIncrementUsageCountMutator])
              w3 bt bt') as (w4 & Eu).
  { rewrite Hv3. cbn. by rewrite Hv2, Hv1. }
  { cbn. by rewrite Hinc. }
  erewrite wbind_eq_Ok by (rewrite Eu; reflexivity).
  destruct (rel_put _ Hrel gateway_prefix (Clus.GetReference nc) kr w4) as (w5 & Ep).
  erewrite wbind_eq_Ok by (rewrite Ep; reflexivity). by exists w5.
Qed.

Lemma exchange_succeeds es client :
  length es = 32 -> (exists ec, NewEphemeralKeyPair (Ok ec) = Ok client) ->
  exists ekp secret sk, exchange (Ok es) (ekp_PublicKey client) = Ok (ekp_PublicKey ekp, shared_keyring sk) /\
    DeriveSharedSecret client (mkPeerPublicKey (ekp_PublicKey ekp) PeerTypeServer) = Ok secret /\
    NewSharedKeys secret = Ok sk /\ length (sk_ClientKey sk) = 64.
Proof.
  intros Hes (ec & Hec).
  assert (exists ekp, NewEphemeralKeyPair (Ok es) = Ok ekp) as (ekp & Hek).
  { unfold NewEphemeralKeyPair. pose proof (X25519_base es Hes) as Hb.
    destruct (X25519 es Basepoint); [eauto|done|done]. }
  assert (exists secret, DeriveSharedSecret ekp (mkPeerPublicKey (ekp_PublicKey client) PeerTypeClient) = Ok secret)
    as (secret & Hsec).
  { unfold NewEphemeralKeyPair in Hek, Hec.
    destruct (X25519 es Basepoint) as [pe| |] eqn:Ee; [|done|done]. injection Hek as <-.
    destruct (X25519 ec Basepoint) as [pc| |] eqn:Ecp; [|done|done]. injection Hec as <-.
    unfold DeriveSharedSecret. cbn [ekp_PrivateKey ekp_PublicKey ppk_PublicKey ppk_PeerType].
    pose proof (X25519_public es ec pc Hes Ecp) as Hp.
    destruct (X25519 es pc) as [q| |]; [|done|done]. cbn. eauto. }
  destruct (NewSharedKeys_Ok secret (DeriveSharedSecret_length _ _ _ Hsec)) as (sk & Hsk & Hlen & _).
  exists ekp, secret, sk. rewrite (shared_secret_agree client ekp _ _ Hec Hek).
  split; [|done]. unfold exchange. rewrite Hek. cbn [obind]. rewrite Hsec. cbn [omap_err obind].
  rewrite Hsk. done.
Qed.

(** The gateway as a client reaches it: the server above, behind the TLS key it signs
    with. *)
Context `{X509} `{Sha256} `{UUIDLib}.

Definition gateway_v2 (es : list byte) (dial : tls_Config -> outcome unit) : Gateway W BootstrapAuthRequestV2 :=
  mkGateway dial (Some (public_of privateKey)) (Join privateKey)
    (fun md req => AuthV2 privateKey md req (Ok es)).

Lemma bearer_unique t m token :
  token_wf t -> jws_Sign (token_json t) privateKey = Ok m ->
  bearer privateKey (Some ["Bearer " +:+ m]) token -> token = t.
Proof.
  intros (_ & _ & Hbi & Hbs) Hm (v & rest & payload & [= <- <-] & Hv & Hp).
  destruct (jws_graph _ _ _ Hm) as [Hne Hg]. rewrite (bearer_header m Hne Hg) in Hv.
  rewrite (jws_Verify_Sign _ _ _ Hm) in Hv. injection Hv as <-.
  rewrite ParseJSON_token_json in Hp by done. by injection Hp as <-.
Qed.

Lemma NewEphemeralKeyPair_Ok ec :
  length ec = 32 -> exists client, NewEphemeralKeyPair (Ok ec) = Ok client /\ length (ekp_PublicKey client) = 32.
Proof.
  intros Hl. unfold NewEphemeralKeyPair. pose proof (X25519_base ec Hl) as Hb.
  destruct (X25519 ec Basepoint) as [pub| |] eqn:E; [|done|done]. exists (mkEphemeralKeyPair ec pub).
  split; [done|]. by apply X25519_length in E.
Qed.

Lemma request_valid id pub name :
  ValidateID id = Ok tt -> length pub = 32 -> (forall n, name = Some n -> ValidateLabelValue n = Ok tt) ->
  BootstrapAuthRequestV2_Validate (mkBootstrapAuthRequestV2 id pub name) = Ok tt.
Proof.
  intros Hid Hp Hn. unfold BootstrapAuthRequestV2_Validate. cbn.
  rewrite bool_decide_eq_false_2; [|intros ->; by vm_compute in Hid].
  rewrite Hid, Hp. cbn. destruct name as [n|]; [|done]. by rewrite (Hn n eq_refl).
Qed.

(** The state of the store after the agent [id] was admitted with the token [t]. *)
Definition admitted (v v' : StoreView) (t : Token) (bt : BootstrapToken) (id : string) (name : option string)
    (sk : SharedKeys) : Prop :=
  exists c bt' pub, NewIncrementUsageCountMutator bt = Ok bt' /\
    new_cluster_v2 bt (mkBootstrapAuthRequestV2 id pub name) c /\
    v' = set_keyring (set_token (set_cluster v id c) (HexID t) bt') (gateway_prefix, id) (shared_keyring sk).

Lemma bootstrap_v2_run t bt id name strat tls pool dial ec es w :
  tokens_wf (bview w) -> sv_tokens (bview w) !! HexID t = Some bt -> FromBootstrapToken bt = Ok t ->
  ValidateID id = Ok tt -> (forall n, name = Some n -> ValidateLabelValue n = Ok tt) ->
  sv_clusters (bview w) !! id = None -> length ec = 32 -> length es = 32 ->
  TLSConfig pool strat = Ok tls -> dial tls = Ok tt ->
  exists w' kr sk,
    ClientConfigV2_Bootstrap (gateway_v2 es dial) pool name (Some t) strat (Ok id) (Ok ec) w = (w', Ok kr) /\
    keyring_New (agent_keys sk strat) = Ok kr /\ length (sk_ClientKey sk) = 64 /\
    admitted (bview w) (bview w') t bt id name sk.
Proof.
  intros Hwf Ht Hf Hid Hname Hc Hec Hes Htls Hdial.
  destruct (Hwf _ _ Ht) as (t0 & Hst). pose proof (stored_token_From _ _ _ Hst) as E.
  rewrite Hf in E. injection E as <-. pose proof Hst as (Htw & _ & _ & _ & [meta Hmeta]).
  destruct (rel_list _ Hrel w) as (w1 & ts & Hl).
  destruct (Join_inv seed w w1 ts Hwf Hl) as (sigs & HJ & Hv1 & _ & Hsig).
  { intros E. by rewrite E, lookup_empty in Ht. }
  destruct (Hsig _ _ _ Ht Hf) as (sig & m & Es & Hver & Hm).
  destruct (NewEphemeralKeyPair_Ok ec Hec) as (client & Hcl & Hpub).
  destruct (exchange_succeeds es client Hes (ex_intro _ ec Hcl)) as (ekp & secret & sk & Hx & Hsec & Hsk & Hlen).
  set (req := mkBootstrapAuthRequestV2 id (ekp_PublicKey client) name).
  assert (exists bt', NewIncrementUsageCountMutator bt = Ok bt') as (bt' & Hinc)
    by (unfold NewIncrementUsageCountMutator; rewrite Hmeta; eauto).
  destruct (AuthV2_succeeds t m bt bt' req (Ok es) (ekp_PublicKey ekp) (shared_keyring sk) w1) as (w2 & HA);
    [done|done|by rewrite Hv1|done|by apply request_valid|by rewrite Hv1|exact Hx|].
  destruct (agent_keyring sk strat) as (kr & Hkr & _).
  exists w2, kr, sk. split; [|split; [done|split; [done|]]].
  - unfold ClientConfigV2_Bootstrap, client_Bootstrap, bootstrapJoin, gateway_v2.
    cbn [gw_dial gw_Join gw_Auth gw_peerKey]. unfold wbind, wrapf, wcatch, wlift, wret, findValidSignature.
    unfold privateKey in *.
    rewrite Htls, Hdial, HJ, Es, Hver, Hcl. cbv beta iota. fold req. rewrite HA, Hsec, Hsk. by rewrite Hkr.
  - apply AuthV2_inv in HA. inversion HA as [? Hbad|? ? ? ? ? Hbad|token bt0 bt0' c spub kr0 Hb Ht0 Hval Hc0 Hn Hx0 Hm0 E1 E2];
      [done|done|]. subst. apply (bearer_unique t m token Htw Hm) in Hb as ->.
    rewrite Hv1 in *. rewrite Ht in Ht0. injection Ht0 as <-.
    cbn in Hx0. rewrite Hx in Hx0. injection Hx0 as <-.
    exists c, bt0', (ekp_PublicKey client). done.
Qed.
End EndToEnd.

(** C13: bootstrapping works end to end.  An agent that is given a stored token, a
    trust strategy that accepts the gateway, and a valid id that is not taken ends
    with a keyring; the gateway has then registered it under its id with the labels
    of the token and counted the use of the token; both sides hold the same keys; and
    from then on the agent passes the gateway's challenge for every method and nonce. *)
Theorem bootstrap_then_authenticate {W} `{BootstrapStorage W} `{JWS} `{TokenJSON} `{Curve25519} `{Blake2b}
    `{Ed25519} `{X509} `{Sha256} `{UUIDLib} (seed : list byte) (t : Token) (bt : BootstrapToken)
    (id : string) (name : option string) (strat : Strategy) (tls : tls_Config)
    (pool : outcome (list Certificate)) (dial : tls_Config -> outcome unit) (ec es : list byte) (w : W) :
  Reliable W -> tokens_wf (bview w) ->
  sv_tokens (bview w) !! HexID t = Some bt -> FromBootstrapToken bt = Ok t ->
  ValidateID id = Ok tt -> (forall n, name = Some n -> ValidateLabelValue n = Ok tt) ->
  sv_clusters (bview w) !! id = None -> length ec = 32 -> length es = 32 ->
  TLSConfig pool strat = Ok tls -> dial tls = Ok tt ->
  exists w' kr sk,
    ClientConfigV2_Bootstrap (gateway_v2 seed es dial) pool name (Some t) strat (Ok id) (Ok ec) w = (w', Ok kr) /\
    keyring_New (agent_keys sk strat) = Ok kr /\ admitted (bview w) (bview w') t bt id name sk /\
    forall nonce method, length nonce = 16 -> Forall is_byte nonce -> uuid_is_v4 nonce = true ->
      exists auth w2, ClientStreamInterceptor id sk (Ok [uuid_String nonce]) method = Ok auth /\
        StreamServerInterceptor nonce (Ok tt) (Received auth false) method w' = (w2, Ok (id, sk)).
Proof.
  intros Hrel Hwf Ht Hf Hid Hname Hc Hec Hes Htls Hdial.
  destruct (bootstrap_v2_run Hrel seed t bt id name strat tls pool dial ec es w) as (w' & kr & sk & Hrun & Hkr & Hlen & Hadm);
    try done.
  exists w', kr, sk. split; [done|]. split; [done|]. split; [done|]. intros nonce method Hn Hb Hv.
  destruct Hadm as (c & bt' & pub & _ & _ & Hview).
  destruct (rel_get _ Hrel gateway_prefix (mkReference id) (shared_keyring sk) w') as (w2 & Hg).
  { rewrite Hview. cbn. by rewrite lookup_insert_eq. }
  destruct (challenge_response_ok id method sk nonce (shared_keyring sk) [KShared sk] w' w2)
    as (auth & keys & Ha & Hs & Hin & _); try done.
  { intros ->. by vm_compute in Hid. }
  { lia. }
  { left. }
  exists auth, w2. split; [done|]. apply list_elem_of_singleton in Hin. by injection Hin as ->.
Qed.

(** ** First-generation agents *)

Section V1Props.
Local Opaque Merge.
Context {W : Type} `{BootstrapStorage W} `{JWS} `{TokenJSON} `{Curve25519} `{Blake2b} `{Ed25519}.
Context `{BackendClient W}.
Variables (privateKey : Key) (backends : gmap string Backend).

(** What the bootstrap server relies on: asking a backend changes nothing it stores,
    installing changes clusters at most. *)
Definition backends_behave : Prop :=
  (forall b w w' o, CanInstall b w = (w', o) -> bview w' = bview w) /\
  (forall b r w w' o, Install b r w = (w', o) ->
     sv_tokens (bview w') = sv_tokens (bview w) /\ sv_keyrings (bview w') = sv_keyrings (bview w)).

Lemma should_edit_inv req bt w w' o :
  should_edit req bt w = (w', o) ->
  bview w' = bview w /\
  match o with
  | Ok true => exists c, sv_clusters (bview w) !! ar_ClientID req = Some c /\
      Has c (capabilities_Cluster (ar_Capability req)) = false /\
      Has bt (TokenCapabilities_For JoinExistingCluster (mkReference (ar_ClientID req))) = true
  | Ok false => sv_clusters (bview w) !! ar_ClientID req = None
  | _ => True
  end.
Proof.
  unfold should_edit. destruct (bs_GetCluster _ w) as [w1 [c|e|p]] eqn:E;
    apply GetCluster_law in E as [Hv Hc]; [| |done].
  - destruct (Has c _) eqn:Ec; [by intros [= <- <-]|].
    destruct (Has bt _) eqn:Eb; intros [= <- <-]; [|done]. split; [done|]. by exists c.
  - destruct (errors_Is e ErrNotFound); intros [= <- <-]; [|done]. split; [done|]. by apply Hc.
Qed.

(** The keyring stored for an edited cluster: the new keys, then the old ones. *)
Definition edited (old new : option Keyring) (sk : SharedKeys) : Prop :=
  exists kr m, old = Some kr /\ Merge (shared_keyring sk) kr = Ok m /\ new = Some m.

Lemma handleEdit_inv ref b bt sk w w' o :
  backends_behave -> handleEdit ref b bt (shared_keyring sk) w = (w', o) ->
  let at_ v := sv_keyrings v !! (gateway_prefix, ref_Id ref) in
  at_ (bview w') = at_ (bview w) \/ edited (at_ (bview w)) (at_ (bview w')) sk.
Proof.
  intros [_ Hinst] Hrun at_. unfold handleEdit in Hrun.
  assert (forall w w' o, bs_UpdateToken (Token.GetReference bt) NewIncrementUsageCountMutator w = (w', o) ->
            sv_keyrings (bview w') = sv_keyrings (bview w)) as Hupd.
  { intros w0 w0' o0 Hu%UpdateToken_law. destruct o0; [destruct Hu as (t & _ & _ & ->)| |destruct Hu as [-> _]];
      [done|by rewrite Hu|done]. }
  wstep Hrun Eu; apply wrapf_inv in Eu as (o1 & Eu & _); apply Hupd in Eu; [|left; unfold at_; by rewrite Eu..].
  wstep Hrun Eg; apply wrapf_inv in Eg as (o2 & Eg & Ho2); apply ks_Get_law in Eg as [Hv Hk];
    [|left; unfold at_; by rewrite Hv, Eu..].
  destruct o2 as [kr| |]; [|discriminate Ho2..]. injection Ho2 as ->.
  wstep Hrun Em; apply wlift_inv in Em as [<- Em]; [|left; unfold at_; by rewrite Hv, Eu..].
  wstep Hrun Ep; apply wrapf_inv in Ep as (o3 & Ep & Ho3); apply ks_Put_law in Ep.
  2, 3: destruct o3; [discriminate Ho3|left; unfold at_; by rewrite Ep, Hv, Eu|destruct Ep].
  destruct o3; [|discriminate Ho3..]. apply Hinst in Hrun as [_ Hr].
  right. eexists _, _. split; [|split; [exact Em|]].
  - unfold at_. rewrite <- Eu. exact Hk.
  - unfold at_. rewrite Hr, Ep. cbn. by rewrite lookup_insert_eq.
Qed.

Lemma AuthV1_existing md req entropy w w' o c :
  backends_behave -> AuthV1 privateKey backends md req entropy w = (w', o) ->
  sv_clusters (bview w) !! ar_ClientID req = Some c ->
  let at_ v := sv_keyrings v !! (gateway_prefix, ar_ClientID req) in
  at_ (bview w') = at_ (bview w) \/
  exists token bt sk, bearer privateKey md token /\ sv_tokens (bview w) !! HexID token = Some bt /\
    Has c (capabilities_Cluster (ar_Capability req)) = false /\
    Has bt (TokenCapabilities_For JoinExistingCluster (mkReference (ar_ClientID req))) = true /\
    edited (at_ (bview w)) (at_ (bview w')) sk.
Proof.
  intros Hbe Hrun Hc at_. unfold AuthV1 in Hrun.
  wstep Hrun Ea; apply authenticate_inv in Ea as [Hv0 Ha]; [|left; unfold at_; by rewrite Hv0..].
  destruct a as [token bt]. destruct Ha as [Hb Ht].
  wstep Hrun Ev; apply status_wrap_inv in Ev as (o' & [= <- <-] & Ho); [|left; unfold at_; by rewrite Hv0..].
  wstep Hrun Es; apply should_edit_inv in Es as [Hv1 Hs]; [|left; unfold at_; by rewrite Hv1, Hv0..].
  rewrite Hv0, Hc in Hs. rewrite Hv0 in Hv1. clear Hv0. destruct a0; [|done].
  destruct Hs as (c' & [= <-] & Hcap & Hperm).
  wstep Hrun Ex; injection Ex as <- Ex; [|left; unfold at_; by rewrite Hv1..].
  destruct a0 as [spub kr]. destruct (exchange_inv _ _ _ _ Ex) as (_ & _ & sk & _ & _ & _ & _ & ->).
  wstep Hrun Eb; injection Eb as <- Eb; [|left; unfold at_; by rewrite Hv1..].
  wstep Hrun Ei; apply status_wrap_inv in Ei as (o2 & Ei & _); apply (proj1 Hbe) in Ei;
    [|left; unfold at_; by rewrite Ei, Hv1..].
  rewrite Hv1 in Ei. clear Hv1.
  wstep Hrun Eh; apply status_wrap_inv in Eh as (o3 & Eh & _); apply handleEdit_inv in Eh; try done;
    cbn [ref_Id] in Eh; rewrite Ei in Eh; try injection Hrun as <- <-.
  all: destruct Eh as [Eh|Eh]; [by left|right; by exists token, bt, sk].
Qed.
End V1Props.

(** A first-generation agent can add keys to a cluster that already exists only
    with a bearer token the server signed for a stored token that carries the
    permission to join that very cluster, and only while the cluster lacks the
    capability; the keys stored before are then all kept, behind the new ones.  In
    every other case the cluster's keys stay as they are. *)
Lemma AuthV1_edit_requires_permission {W} `{BootstrapStorage W} `{JWS} `{TokenJSON} `{Curve25519} `{Blake2b}
    `{Ed25519} `{BackendClient W} (privateKey : Key) (backends : gmap string Backend)
    (md : option (list string)) (req : BootstrapAuthRequest) (entropy : outcome (list byte))
    (w w' : W) (o : outcome (list byte)) (c : Cluster) (kr kr' : Keyring) :
  backends_behave -> AuthV1 privateKey backends md req entropy w = (w', o) ->
  sv_clusters (bview w) !! ar_ClientID req = Some c ->
  sv_keyrings (bview w) !! (gateway_prefix, ar_ClientID req) = Some kr -> keyring_ok kr ->
  sv_keyrings (bview w') !! (gateway_prefix, ar_ClientID req) = Some kr' -> kr' <> kr ->
  exists token bt sk, bearer privateKey md token /\ sv_tokens (bview w) !! HexID token = Some bt /\
    Has bt (TokenCapabilities_For JoinExistingCluster (mkReference (ar_ClientID req))) = true /\
    Has c (capabilities_Cluster (ar_Capability req)) = false /\
    kr' !! TSharedKeys = Some (KShared sk :: default [] (kr !! TSharedKeys)) /\
    (forall ty, ty <> TSharedKeys -> kr' !! ty = kr !! ty).
Proof.
  intros Hbe Hrun Hc Hk Hok Hk' Hne.
  destruct (AuthV1_existing _ _ _ _ _ _ _ _ _ Hbe Hrun Hc) as [E|(token & bt & sk & Hb & Ht & Hcap & Hperm & He)].
  - rewrite Hk, Hk' in E. by injection E as ->.
  - exists token, bt, sk. split; [done|]. split; [done|]. split; [done|]. split; [done|].
    destruct He as (kr0 & m & E0 & Hm & Em). rewrite Hk in E0. injection E0 as <-.
    rewrite Hk' in Em. injection Em as <-.
    assert (keyring_ok (shared_keyring sk)) as Hoks by apply (keyring_New_ok [KShared sk]), keyring_New_shared.
    pose proof (fun t => Merge_in_lookup _ _ _ _ _ t Hoks Hok (map_to_list_order _) (map_to_list_order _) Hm) as Hl.
    clear Hm. split; [rewrite Hl; unfold shared_keyring; by rewrite lookup_singleton_eq|].
    intros ty Hty. rewrite Hl. unfold shared_keyring.
    rewrite lookup_singleton_ne by done. cbn. destruct (kr !! ty) as [l|] eqn:El; [|done].
    cbn. destruct (Hok _ _ El) as (_ & Hn & _). by destruct l.
Qed.

(** ** Witnesses *)

(** A store in memory; with [fails] it loses every keyring it is given. *)
Record RefStore (fails : bool) := mkRefStore { rs_view : StoreView }.
Arguments mkRefStore {_} _.
Arguments rs_view {_} _.

Definition rs_read {b A} (f : StoreView -> option A) : M (RefStore b) A := fun w =>
  (w, match f (rs_view w) with Some a => Ok a | None => Err ErrNotFound end).

#[export] Instance RefStore_keyrings b : KeyringStoreBroker (RefStore b) := {|
  ks_Get p r := rs_read (fun v => sv_keyrings v !! (p, ref_Id r));
  ks_Put p r kr := fun w =>
    if b then (w, Err (External "store unavailable"))
    else (mkRefStore (set_keyring (rs_view w) (p, ref_Id r) kr), Ok tt);
  ks_Delete p r := fun w =>
    (mkRefStore (mkStoreView (sv_tokens (rs_view w)) (sv_clusters (rs_view w))
                   (delete (p, ref_Id r) (sv_keyrings (rs_view w)))), Ok tt) |}.

Definition rs_UpdateToken {b} (r : Reference) (m : MutatorFunc BootstrapToken) : M (RefStore b) BootstrapToken :=
  fun w => match sv_tokens (rs_view w) !! ref_Id r with
           | None => (w, Err ErrNotFound)
           | Some t => match m t with
                       | Ok t' => (mkRefStore (set_token (rs_view w) (ref_Id r) t'), Ok t')
                       | Err e => (w, Err e)
                       | Panic p => (w, Panic p)
                       end
           end.

Definition rs_CreateCluster {b} (c : Cluster) : M (RefStore b) unit := fun w =>
  match sv_clusters (rs_view w) !! cl_Id c with
  | Some _ => (w, Err ErrAlreadyExists)
  | None => (mkRefStore (set_cluster (rs_view w) (cl_Id c) c), Ok tt)
  end.

#[export] Instance RefStore_storage b : BootstrapStorage (RefStore b).
Proof.
  refine {|
    bview := rs_view;
    bs_ListTokens := fun w => (w, Ok (map_to_list (sv_tokens (rs_view w))).*2);
    bs_GetToken r := rs_read (fun v => sv_tokens v !! ref_Id r);
    bs_UpdateToken := rs_UpdateToken;
    bs_GetCluster r := rs_read (fun v => sv_clusters v !! ref_Id r);
    bs_CreateCluster := rs_CreateCluster |}.
  - intros w w' o [= <- <-]. done.
  - intros r w w' o [= <- <-]. split; [done|]. by destruct (sv_tokens _ !! _).
  - intros r m w w' o. unfold rs_UpdateToken. destruct (sv_tokens (rs_view w) !! ref_Id r) as [t|] eqn:E;
      [|by intros [= <- <-]]. destruct (m t) eqn:Em; intros [= <- <-]; cbn; rewrite ?E; eauto.
  - intros r w w' o [= <- <-]. split; [done|]. by destruct (sv_clusters _ !! _).
  - intros c w w' o. unfold rs_CreateCluster. destruct (sv_clusters (rs_view w) !! cl_Id c) eqn:E; intros [= <- <-]; [done|].
    split; [done|]. by exists c.
  - intros p r w w' o [= <- <-]. split; [done|]. by destruct (sv_keyrings _ !! _).
  - intros p r kr w w' o. cbn. destruct b; by intros [= <- <-].
Defined.

Lemma RefStore_reliable : Reliable (RefStore false).
Proof.
  split.
  - intros w. eexists _, _. reflexivity.
  - intros r w t Ht. eexists. cbn in *. unfold rs_read. by rewrite Ht.
  - intros r w Hn. eexists _, _. cbn in *. unfold rs_read. rewrite Hn. split; [reflexivity|done].
  - intros c w Hn. eexists. cbn in *. unfold rs_CreateCluster. rewrite Hn. reflexivity.
  - intros r m w t t' Ht Hm. eexists. cbn in *. unfold rs_UpdateToken. rewrite Ht, Hm. reflexivity.
  - intros p r kr w. eexists. reflexivity.
  - intros p r kr w Hk. eexists. cbn in *. unfold rs_read. by rewrite Hk.
Qed.

(** The JSON form of a token cut at its quotes. *)
Definition toy_ParseJSON (s : string) : outcome Token :=
  match Split (chr 34) s with
  | [_; _; _; i; _] => let? id := DecodeString StdEncoding i in Ok (mkToken id [])
  | [_; _; _; i; _; _; _; x; _] =>
      let? id := DecodeString StdEncoding i in let? secret := DecodeString StdEncoding x in
      Ok (mkToken id secret)
  | _ => Err (External "invalid JSON")
  end.

Lemma std_no_quote bs : Forall is_byte bs -> no_char (chr 34) (EncodeToString StdEncoding bs) = true.
Proof.
  intros Hb. unfold no_char. eapply str_all_impl; [|by apply EncodeToString_std]. intros d Hd.
  rewrite negb_true_iff, bool_decide_eq_false. by intros <-.
Qed.

Lemma quote_app s x : quote s +:+ x = String (chr 34) (s +:+ String (chr 34) x).
Proof. unfold quote. by rewrite str_app_cons, str_app_assoc, str_app_cons, str_app_nil. Qed.

#[export] Instance TokenJSON_ref : TokenJSON.
Proof.
  refine {| ParseJSON := toy_ParseJSON |}. intros [id secret] Hi Hs. cbn in Hi, Hs.
  unfold token_json. cbn [tok_ID tok_Secret].
  destruct secret as [|x xs]; [rewrite decide_True by done|rewrite decide_False by done];
    rewrite ?str_app_assoc, !quote_app, ?str_app_nil; unfold toy_ParseJSON;
    rewrite !Split_app, ?(Split_no_char _ _ (std_no_quote _ Hi)), ?(Split_no_char _ _ (std_no_quote _ Hs)).
  all: repeat rewrite (Split_no_char (chr 34)) by reflexivity; cbn [app];
    rewrite !base64_roundtrip by (apply StdEncoding_ok || done); done.
Defined.

Definition demo_token : Token := mkToken [1; 2; 3; 4; 5; 6]%Z (replicate 26 7%Z).
Definition demo_bt : BootstrapToken :=
  mkBootstrapToken (HexID demo_token) (HexSecret demo_token)
    (Some (mkBootstrapTokenMetadata 0 0 0 {[ "env" := "prod" ]} [] "")).
Definition demo_view : StoreView := mkStoreView {[ HexID demo_token := demo_bt ]} ∅ ∅.
Definition demo_entropy : list byte := replicate 32 5%Z.
Definition demo_entropy2 : list byte := replicate 32 6%Z.
Definition demo_strategy : Strategy := pkpTrustStrategy [demo_pin].
Definition demo_tls : tls_Config := mkTlsConfig VersionTLS12 true (Some (VerifyConnection [demo_pin])) None.
Definition demo_key : Key := Ed25519PrivateKey [1]%Z.

Lemma demo_tokens_wf : tokens_wf demo_view.
Proof.
  intros id bt Hid. exists demo_token. unfold demo_view in Hid. cbn in Hid.
  apply lookup_singleton_Some in Hid as [<- <-].
  split; [|done]. unfold token_wf, demo_token, is_byte. cbn. repeat split; repeat constructor; lia.
Qed.

Lemma bootstrap_then_authenticate_witness :
  exists w' kr, ClientConfigV2_Bootstrap (gateway_v2 [1]%Z demo_entropy (fun _ => Ok tt)) (Ok []) (Some "agent")
    (Some demo_token) demo_strategy (Ok "c1") (Ok demo_entropy2)
    (mkRefStore (fails := false) demo_view) = (w', Ok kr).
Proof.
  destruct (bootstrap_then_authenticate (W := RefStore false) [1]%Z demo_token demo_bt "c1" (Some "agent") demo_strategy demo_tls
              (Ok []) (fun _ => Ok tt) demo_entropy2 demo_entropy (mkRefStore demo_view)) as (w' & kr & sk & Hrun & _);
    [apply RefStore_reliable|apply demo_tokens_wf|reflexivity|vm_compute; reflexivity|vm_compute; reflexivity| |
     reflexivity|reflexivity|reflexivity|reflexivity|reflexivity|].
  - intros n [= <-]. vm_compute. reflexivity.
  - by exists w', kr.
Defined.

(** The request of an agent with a bearer token of the server. *)
Definition demo_md : option (list string) :=
  match jws_Sign (token_json demo_token) demo_key with Ok m => Some ["Bearer " +:+ m] | _ => None end.
Definition demo_req : BootstrapAuthRequestV2 := mkBootstrapAuthRequestV2 "c1" (replicate 32 11%Z) None.

Lemma AuthV2_no_takeover_witness :
  exists pub, (AuthV2 demo_key demo_md demo_req (Ok demo_entropy) (mkRefStore (fails := false) demo_view)).2 = Ok pub /\
    exists c, sv_clusters (bview (AuthV2 demo_key demo_md demo_req (Ok demo_entropy)
                (mkRefStore (fails := false) demo_view)).1) !! "c1" = Some c.
Proof.
  set (r := AuthV2 demo_key demo_md demo_req (Ok demo_entropy) (mkRefStore (fails := false) demo_view)).
  pose proof (AuthV2_no_takeover demo_key demo_md demo_req (Ok demo_entropy)
                (mkRefStore (fails := false) demo_view) r.1 r.2) as Hr.
  assert (r = (r.1, r.2)) as Er by apply surjective_pairing.
  destruct (Hr Er) as (_ & _ & _ & Hok). destruct r.2 as [pub|e|p] eqn:E2; [|exfalso; vm_compute in E2; discriminate E2..].
  destruct Hok as (_ & _ & _ & c & _ & _ & _ & _ & _ & _ & Hc & _). exists pub. split; [reflexivity|]. exists c. exact Hc.
Defined.

(** Backends that accept every installation. *)
#[export] Instance RefStore_backends b : BackendClient (RefStore b) := {|
  Backend := unit;
  CanInstall _ := wret tt;
  Install _ _ := wret tt |}.

Lemma RefStore_backends_behave : backends_behave (W := RefStore false).
Proof. split; [intros b w w0 o E|intros b r w w0 o E]; cbn in E; unfold wret in E; by injection E as <- <-. Qed.

Definition demo_view_v1 : StoreView :=
  mkStoreView {[ HexID demo_token := mkBootstrapToken (HexID demo_token) (HexSecret demo_token)
                   (Some (mkBootstrapTokenMetadata 0 0 0 ∅
                            [TokenCapabilities_For JoinExistingCluster (mkReference "c1")] "")) ]}
    {[ "c1" := mkCluster "c1" None ]} {[ (gateway_prefix, "c1") := shared_keyring demo_shared ]}.

Definition demo_req_v1 : BootstrapAuthRequest := mkBootstrapAuthRequest "c1" (replicate 32 11%Z) "metrics".

Definition demo_run_v1 : RefStore false * outcome (list byte) :=
  AuthV1 demo_key {[ "metrics" := tt ]} demo_md demo_req_v1 (Ok demo_entropy) (mkRefStore demo_view_v1).

Definition demo_keyring_v1 : Keyring :=
  default ∅ (sv_keyrings (bview demo_run_v1.1) !! (gateway_prefix, "c1")).

