(* ===== verification/OsFs.v ===== *)
(** The file system behind [afero.Fs], and goroutines that work on it.

    A file system maps paths to regular files and knows a set of directories.  What
    the disk refuses (permissions, a full device) is a parameter, the class [Disk], so
    every statement holds whatever calls fail; only closing a file, whose error the code
    drops, is taken to succeed.  A goroutine is the tree of calls it
    makes; several goroutines run in any interleaving of single calls.  The last part
    proves that goroutines which touch different paths do not see each other. *)

From S2P Require Import Prelude GoStd.

Local Open Scope string_scope.

(** ** Errors of package os *)

Definition os_ErrNotExist : error := External "file does not exist".
Definition os_ErrPermission : error := External "permission denied".
Definition os_ErrExist : error := External "file exists".
Definition os_EISDIR : error := External "is a directory".

Definition os_IsNotExist (e : error) : bool := bool_decide (e = os_ErrNotExist).
Definition os_IsPermission (e : error) : bool := bool_decide (e = os_ErrPermission).

(** ** Files *)

Record File := mkFile { f_Data : list byte; f_Mode : Z }.
Record FileInfo := mkFileInfo { fi_Size : Z; fi_Mode : Z; fi_IsDir : bool }.
Record Fs := mkFs { fs_files : gmap string File; fs_dirs : gset string }.

Definition set_files (s : Fs) (m : gmap string File) : Fs := mkFs m (fs_dirs s).

Inductive FsCall := CStat | COpen | CCreate | CWrite | CRemove | CRename | CTempFile | CChmod
                  | CMkdirAll | CReadDir.

(** [disk_fault c p] is the error the call [c] meets on [p]; a write that fails has
    written [disk_short p] bytes. *)
Class Disk := {
  disk_fault : FsCall -> string -> option error;
  disk_short : string -> nat;
  disk_umask : Z }.

Definition Reliable (D : Disk) : Prop := forall c p, disk_fault c p = None.

#[export] Instance Disk_ref : Disk :=
  {| disk_fault _ _ := None; disk_short _ := 0; disk_umask := 18 |}.

Lemma Disk_ref_reliable : Reliable Disk_ref.
Proof. by intros c p. Qed.

(** ** Calls *)

Inductive fsop : Type -> Type :=
| Stat (p : string) : fsop (outcome FileInfo)
| ReadFile (p : string) : fsop (outcome (list byte))
| WriteFile (p : string) (data : list byte) (perm : Z) : fsop (outcome unit)
| Remove (p : string) : fsop (outcome unit)
| Rename (old new : string) : fsop (outcome unit)
| CreateExcl (p : string) : fsop (outcome unit)
| WriteTo (p : string) (data : list byte) : fsop (outcome unit)
| Chmod (p : string) (mode : Z) : fsop (outcome unit).

Section Exec.
Context {D : Disk}.

Definition faulty {A} (c : FsCall) (p : string) (k : outcome A) : outcome A :=
  match disk_fault c p with Some e => Err e | None => k end.

Definition file_info (f : File) : FileInfo := mkFileInfo (Z.of_nat (length (f_Data f))) (f_Mode f) false.
Definition dir_info : FileInfo := mkFileInfo 0 493 true.

(** [os.Stat]. *)
Definition fs_Stat (s : Fs) (p : string) : outcome FileInfo :=
  faulty CStat p
    match fs_files s !! p with
    | Some f => Ok (file_info f)
    | None => if decide (p ∈ fs_dirs s) then Ok dir_info else Err os_ErrNotExist
    end.

(** [Open], reading to the end and [Close]. *)
Definition fs_ReadFile (s : Fs) (p : string) : outcome (list byte) :=
  faulty COpen p
    match fs_files s !! p with
    | Some f => Ok (f_Data f)
    | None => if decide (p ∈ fs_dirs s) then Err os_EISDIR else Err os_ErrNotExist
    end.

Definition fs_put (s : Fs) (p : string) (f : File) : Fs := set_files s (<[p := f]> (fs_files s)).

(** Writing [data] to an open file that was just created or truncated. *)
Definition fs_fill (s : Fs) (p : string) (data : list byte) (mode : Z) : Fs * outcome unit :=
  match disk_fault CWrite p with
  | Some e => (fs_put s p (mkFile (take (disk_short p) data) mode), Err e)
  | None => (fs_put s p (mkFile data mode), Ok tt)
  end.

Definition create_mode (s : Fs) (p : string) (perm : Z) : Z :=
  match fs_files s !! p with
  | Some f => f_Mode f
  | None => Z.land perm (Z.lnot disk_umask)
  end.

(** [WriteFile]: the file is created, or truncated with its mode kept. *)
Definition fs_WriteFile (s : Fs) (p : string) (data : list byte) (perm : Z) : Fs * outcome unit :=
  match disk_fault CCreate p with
  | Some e => (s, Err e)
  | None =>
      if decide (p = "") then (s, Err os_ErrNotExist)
      else if decide (p ∈ fs_dirs s) then (s, Err os_EISDIR)
      else fs_fill s p data (create_mode s p perm)
  end.

(** [Create]: the file is created, or truncated, and left open. *)
Definition fs_Create (s : Fs) (p : string) (perm : Z) : Fs * outcome unit :=
  match disk_fault CCreate p with
  | Some e => (s, Err e)
  | None =>
      if decide (p = "") then (s, Err os_ErrNotExist)
      else if decide (p ∈ fs_dirs s) then (s, Err os_EISDIR)
      else (fs_put s p (mkFile [] (create_mode s p perm)), Ok tt)
  end.

(** [Remove] of a file.  The removal of directories is not modelled. *)
Definition fs_Remove (s : Fs) (p : string) : Fs * outcome unit :=
  match disk_fault CRemove p with
  | Some e => (s, Err e)
  | None =>
      match fs_files s !! p with
      | Some _ => (set_files s (delete p (fs_files s)), Ok tt)
      | None => (s, if decide (p ∈ fs_dirs s) then Err os_EISDIR else Err os_ErrNotExist)
      end
  end.

(** [Rename] of a file: an existing destination is replaced. *)
Definition fs_Rename (s : Fs) (old new : string) : Fs * outcome unit :=
  match disk_fault CRename old, disk_fault CRename new with
  | Some e, _ | None, Some e => (s, Err e)
  | None, None =>
      match fs_files s !! old with
      | None => (s, if decide (old ∈ fs_dirs s) then Err os_EISDIR else Err os_ErrNotExist)
      | Some f =>
          if decide (new = "") then (s, Err os_ErrNotExist)
          else if decide (new ∈ fs_dirs s) then (s, Err os_ErrExist)
          else (set_files s (<[new := f]> (delete old (fs_files s))), Ok tt)
      end
  end.

(** [OpenFile(p, O_RDWR|O_CREATE|O_EXCL, 0600)], the attempt of [TempFile]. *)
Definition fs_CreateExcl (s : Fs) (p : string) : Fs * outcome unit :=
  match disk_fault CTempFile p with
  | Some e => (s, Err e)
  | None =>
      match fs_files s !! p with
      | Some _ => (s, Err os_ErrExist)
      | None => if decide (p ∈ fs_dirs s) then (s, Err os_ErrExist)
                else (fs_put s p (mkFile [] (Z.land 384 (Z.lnot disk_umask))), Ok tt)
      end
  end.

(** Writing to an open file. *)
Definition fs_WriteTo (s : Fs) (p : string) (data : list byte) : Fs * outcome unit :=
  match fs_files s !! p with
  | Some f => fs_fill s p data (f_Mode f)
  | None => (s, Err os_ErrNotExist)
  end.

Definition fs_Chmod (s : Fs) (p : string) (mode : Z) : Fs * outcome unit :=
  match disk_fault CChmod p with
  | Some e => (s, Err e)
  | None =>
      match fs_files s !! p with
      | Some f => (fs_put s p (mkFile (f_Data f) mode), Ok tt)
      | None => (s, if decide (p ∈ fs_dirs s) then Ok tt else Err os_ErrNotExist)
      end
  end.

Definition exec {X} (o : fsop X) (s : Fs) : Fs * X :=
  match o with
  | Stat p => (s, fs_Stat s p)
  | ReadFile p => (s, fs_ReadFile s p)
  | WriteFile p d m => fs_WriteFile s p d m
  | Remove p => fs_Remove s p
  | Rename a b => fs_Rename s a b
  | CreateExcl p => fs_CreateExcl s p
  | WriteTo p d => fs_WriteTo s p d
  | Chmod p m => fs_Chmod s p m
  end.

(** [MkdirAll] of one directory (its parents are not tracked), and the names of the
    files of a directory in the order [ReadDir] lists them. *)
Definition fs_MkdirAll (s : Fs) (p : string) : Fs * outcome unit :=
  match disk_fault CMkdirAll p with
  | Some e => (s, Err e)
  | None => (mkFs (fs_files s) ({[p]} ∪ fs_dirs s), Ok tt)
  end.

(** The name of [p] inside the directory [dir], when it is one of its files. *)
Definition name_in (dir p : string) : option string :=
  let rest := TrimPrefix p (dir +:+ "/") in
  if HasPrefix p (dir +:+ "/") && no_char slash rest && negb (bool_decide (rest = ""))
  then Some rest else None.

Definition fs_ReadDir (s : Fs) (dir : string) : outcome (list string) :=
  faulty CReadDir dir
    (Ok (merge_sort String.le (omap (name_in dir) (fst <$> map_to_list (fs_files s))))).
End Exec.

(** ** Goroutines *)

Inductive prog (A : Type) : Type :=
| Ret (a : A)
| Op (X : Type) (o : fsop X) (k : X -> prog A).
Arguments Ret {_} _.
Arguments Op {_} _ _ _.

Fixpoint pbind {A B} (m : prog A) (k : A -> prog B) : prog B :=
  match m with
  | Ret a => k a
  | Op X o c => Op X o (fun x => pbind (c x) k)
  end.

Definition call {X} (o : fsop X) : prog X := Op X o Ret.

Notation "'do' x '<-' m ';' k" := (pbind m (fun x => k))
  (at level 10, x pattern, m at level 100, k at level 200) : go_scope.

(** A goroutine that runs alone. *)
Fixpoint run `{Disk} {A} (m : prog A) (s : Fs) : Fs * A :=
  match m with
  | Ret a => (s, a)
  | Op X o k => let (s', x) := exec o s in run (k x) s'
  end.

(** One call of one of the goroutines. *)
Inductive pstep `{Disk} {A} : Fs * list (prog A) -> Fs * list (prog A) -> Prop :=
| pstep_at s l i X o k s' x :
    l !! i = Some (Op X o k) -> exec o s = (s', x) -> pstep (s, l) (s', <[i := k x]> l).

Definition is_ret {A} (m : prog A) : Prop := exists a, m = Ret a.
Definition finished {A} (l : list (prog A)) : Prop := Forall is_ret l.

(** The paths a call may read or change. *)
Definition op_paths {X} (o : fsop X) : list string :=
  match o with
  | Stat p | ReadFile p | WriteFile p _ _ | Remove p | CreateExcl p | WriteTo p _ | Chmod p _ => [p]
  | Rename a b => [a; b]
  end.

(** Every call of the goroutine stays within the paths [F] and it makes at most [n]. *)
Fixpoint within {A} (F : gset string) (n : nat) (m : prog A) : Prop :=
  match m, n with
  | Ret _, _ => True
  | Op X o k, S n => (forall p, p ∈ op_paths o -> p ∈ F) /\ forall x, within F n (k x)
  | Op _ _ _, O => False
  end.

(** Two file systems agree on [F]. *)
Definition agree (F : gset string) (s1 s2 : Fs) : Prop :=
  fs_dirs s1 = fs_dirs s2 /\ forall p, p ∈ F -> fs_files s1 !! p = fs_files s2 !! p.

#[export] Instance agree_equiv F : Equivalence (agree F).
Proof.
  split.
  - by intros s.
  - intros s1 s2 [Hd Hp]. split; [done|]. intros p HF. by rewrite Hp.
  - intros s1 s2 s3 [Hd Hp] [Hd' Hp']. split; [congruence|]. intros p HF. rewrite Hp, Hp'; done.
Qed.

Lemma agree_mono F G s1 s2 : G ⊆ F -> agree F s1 s2 -> agree G s1 s2.
Proof. intros HG [Hd Hp]. split; [done|]. intros p Hin. apply Hp. set_solver. Qed.

(** ** Goroutines on different paths *)

Section Locality.
Context {D : Disk}.

Ltac fs_cases :=
  unfold fs_Stat, fs_ReadFile, fs_WriteFile, create_mode, fs_Remove, fs_Rename, fs_CreateExcl,
    fs_WriteTo, fs_Chmod, faulty.

Ltac fs_split :=
  repeat match goal with
         | |- context [match disk_fault ?c ?p with _ => _ end] => destruct (disk_fault c p) eqn:?
         | |- context [match fs_files ?s !! ?p with _ => _ end] => destruct (fs_files s !! p) eqn:?
         | |- context [decide ?P] => destruct (decide P)
         end.

Lemma exec_frame' {X} (o : fsop X) s :
  fs_dirs (exec o s).1 = fs_dirs s /\
  forall p, p ∉ op_paths o -> fs_files (exec o s).1 !! p = fs_files s !! p.
Proof.
  destruct o; cbn; fs_cases; unfold fs_fill; fs_split; cbn; (split; [done|]); intros q Hq;
    rewrite ?not_elem_of_cons in Hq; destruct_and?; by simplify_map_eq.
Qed.

Lemma exec_frame {X} (o : fsop X) s s' x :
  exec o s = (s', x) ->
  fs_dirs s' = fs_dirs s /\ forall p, p ∉ op_paths o -> fs_files s' !! p = fs_files s !! p.
Proof. intros H. pose proof (exec_frame' o s) as Hf. by rewrite H in Hf. Qed.

(** ** What each call does, by its answer *)

Ltac fs_answer := fs_cases; fs_split; intros; simplify_eq; eauto 10.

Lemma Stat_spec s p o : fs_Stat s p = o ->
  (exists e, o = Err e) \/ (exists i, o = Ok i /\ (is_Some (fs_files s !! p) \/ p ∈ fs_dirs s)).
Proof. fs_answer. Qed.

Lemma ReadFile_spec s p o : fs_ReadFile s p = o ->
  (exists e, o = Err e) \/ (exists f, o = Ok (f_Data f) /\ fs_files s !! p = Some f).
Proof. fs_answer. Qed.

Lemma fill_spec s p d m s' o : fs_fill s p d m = (s', o) ->
  (exists e, o = Err e /\ s' = fs_put s p (mkFile (take (disk_short p) d) m)) \/
  (o = Ok tt /\ s' = fs_put s p (mkFile d m)).
Proof. unfold fs_fill. fs_answer. Qed.

Lemma WriteTo_spec s p d s' o : fs_WriteTo s p d = (s', o) ->
  (exists e, o = Err e /\ (s' = s \/ exists f, s' = fs_put s p f)) \/
  (exists f, o = Ok tt /\ fs_files s !! p = Some f /\ s' = fs_put s p (mkFile d (f_Mode f))).
Proof.
  unfold fs_WriteTo. destruct (fs_files s !! p) as [f|] eqn:E; [|intros [= <- <-]; eauto].
  intros [(e & -> & ->)|[-> ->]]%fill_spec; eauto 10.
Qed.

Lemma Remove_spec s p s' o : fs_Remove s p = (s', o) ->
  (exists e, o = Err e /\ s' = s) \/
  (o = Ok tt /\ s' = set_files s (delete p (fs_files s))).
Proof. fs_answer. Qed.

Lemma Rename_spec s a b s' o : fs_Rename s a b = (s', o) ->
  (exists e, o = Err e /\ s' = s) \/
  (exists f, o = Ok tt /\ fs_files s !! a = Some f /\ s' = set_files s (<[b := f]> (delete a (fs_files s)))).
Proof. fs_answer. Qed.

Lemma CreateExcl_spec s p s' o : fs_CreateExcl s p = (s', o) ->
  (exists e, o = Err e /\ s' = s) \/
  (exists m, o = Ok tt /\ fs_files s !! p = None /\ s' = fs_put s p (mkFile [] m)).
Proof. fs_answer. Qed.

Lemma Chmod_spec s p m s' o : fs_Chmod s p m = (s', o) ->
  (exists e, o = Err e /\ s' = s) \/
  (o = Ok tt /\ s' = s) \/
  (exists f, o = Ok tt /\ fs_files s !! p = Some f /\ s' = fs_put s p (mkFile (f_Data f) m)).
Proof. fs_answer. Qed.

Ltac transport H :=
  repeat match goal with
         | |- context [fs_files ?s2 !! ?p] =>
             match type of H with
             | forall p, p ∈ _ -> fs_files ?s1 !! p = fs_files s2 !! p =>
                 rewrite <- (H p) by (set_solver)
             end
         end.

Lemma agree_put F s1 s2 p f : agree F s1 s2 -> agree F (fs_put s1 p f) (fs_put s2 p f).
Proof.
  intros [Hd Hp]. split; [done|]. intros q Hq. cbn.
  destruct (decide (p = q)) as [->|]; simplify_map_eq; auto.
Qed.

Lemma agree_delete F s1 s2 p : agree F s1 s2 ->
  agree F (set_files s1 (delete p (fs_files s1))) (set_files s2 (delete p (fs_files s2))).
Proof.
  intros [Hd Hp]. split; [done|]. intros q Hq. cbn.
  destruct (decide (p = q)) as [->|]; simplify_map_eq; auto.
Qed.

Lemma agree_fill F s1 s2 p d m : agree F s1 s2 ->
  agree F (fs_fill s1 p d m).1 (fs_fill s2 p d m).1 /\ (fs_fill s1 p d m).2 = (fs_fill s2 p d m).2.
Proof. intros H. unfold fs_fill. destruct (disk_fault CWrite p); (split; [by apply agree_put|done]). Qed.

(** The answer of a call and its effect depend only on the paths it names. *)
Lemma exec_local {X} (o : fsop X) F s1 s2 :
  agree F s1 s2 -> (forall p, p ∈ op_paths o -> p ∈ F) ->
  (exec o s1).2 = (exec o s2).2 /\ agree F (exec o s1).1 (exec o s2).1.
Proof.
  intros HA Hsub. pose proof HA as [Hd Hp].
  destruct o; cbn in Hsub |- *; fs_cases; rewrite <- ?Hd; transport Hp; fs_split; cbn;
    first [by apply and_comm, agree_fill | split; [done|]; auto using agree_put, agree_delete].
  change (agree F (fs_put (set_files s1 (delete old (fs_files s1))) new f)
    (fs_put (set_files s2 (delete old (fs_files s2))) new f)). auto using agree_put, agree_delete.
Qed.

Lemma run_local {A} (m : prog A) F n s1 s2 :
  within F n m -> agree F s1 s2 ->
  (run m s1).2 = (run m s2).2 /\ agree F (run m s1).1 (run m s2).1.
Proof.
  revert n s1 s2. induction m as [a|X o k IH]; intros n s1 s2 Hw HA; cbn; [done|].
  destruct n as [|n]; [done|]. destruct Hw as [Hsub Hk].
  destruct (exec_local o F s1 s2 HA Hsub) as [Hx HA'].
  destruct (exec o s1) as [t1 x1], (exec o s2) as [t2 x2]. cbn in *. subst x2. by eapply IH.
Qed.

Lemma run_frame {A} (m : prog A) F n s p :
  within F n m -> p ∉ F -> fs_files (run m s).1 !! p = fs_files s !! p.
Proof.
  revert n s. induction m as [a|X o k IH]; intros n s Hw Hp; cbn; [done|].
  destruct n as [|n]; [done|]. destruct Hw as [Hsub Hk].
  destruct (exec o s) as [t x] eqn:E. rewrite (IH x n); [|done..].
  apply exec_frame in E as [_ Hf]. apply Hf. set_solver.
Qed.

Lemma run_dirs {A} (m : prog A) s : fs_dirs (run m s).1 = fs_dirs s.
Proof.
  revert s. induction m as [a|X o k IH]; intros s; cbn; [done|].
  destruct (exec o s) as [t x] eqn:E. rewrite IH. by apply exec_frame in E as [-> _].
Qed.

Lemma run_pbind {A B} (m : prog A) (k : A -> prog B) s :
  run (pbind m k) s = run (k (run m s).2) (run m s).1.
Proof.
  revert s. induction m as [a|X o c IH]; intros s; cbn; [done|].
  destruct (exec o s) as [t x]. apply IH.
Qed.

Lemma within_mono {A} (m : prog A) F n n' : within F n m -> n <= n' -> within F n' m.
Proof.
  revert n n'. induction m as [a|X o k IH]; intros n n' H Hle; [by destruct n'|].
  destruct n as [|n]; [done|]. destruct n' as [|n']; [lia|]. destruct H as [H1 H2].
  split; [done|]. intros x. eapply IH; [done|lia].
Qed.

Lemma within_pbind {A B} (m : prog A) (k : A -> prog B) F n n' :
  within F n m -> (forall a, within F n' (k a)) -> within F (n + n') (pbind m k).
Proof.
  revert n. induction m as [a|X o c IH]; intros n Hm Hk; cbn.
  - eapply within_mono; [apply Hk|lia].
  - destruct n as [|n]; [done|]. destruct Hm as [H1 H2]. cbn. split; [done|]. intros x. by apply IH.
Qed.

(** A budget gives each goroutine its paths and the number of calls it has left. *)
Notation budget := (list (gset string * nat)).

Definition keeps {A} (b : budget) (l : list (prog A)) : Prop :=
  Forall2 (fun Fn m => within Fn.1 Fn.2 m) b l.

Definition separate (Fs : list (gset string)) : Prop :=
  forall i j F G, i <> j -> Fs !! i = Some F -> Fs !! j = Some G -> F ## G.

Lemma pstep_inv {A} s (l : list (prog A)) c b :
  pstep (s, l) c -> keeps b l ->
  exists i X o k s' x F n, l !! i = Some (Op X o k) /\ exec o s = (s', x) /\
    c = (s', <[i := k x]> l) /\ b !! i = Some (F, S n) /\
    keeps (<[i := (F, n)]> b) (<[i := k x]> l) /\
    (forall p, p ∉ F -> fs_files s' !! p = fs_files s !! p) /\ fs_dirs s' = fs_dirs s.
Proof.
  inversion 1 as [s0 l0 i X o k s' x Hi He]; subst. intros Hk.
  destruct (Forall2_lookup_r _ _ _ _ _ Hk Hi) as ([F [|n]] & Hb & Hw); [done|]. destruct Hw as [Hsub Hw].
  exists i, X, o, k, s', x, F, n. split_and!; try done.
  - apply Forall2_insert; [done|]. apply Hw.
  - intros p Hp. apply exec_frame in He as [_ Hf]. apply Hf. set_solver.
  - by apply exec_frame in He as [-> _].
Qed.

Definition calls_left (b : budget) : nat := sum_list (snd <$> b).

Lemma calls_left_insert (b : budget) i F n :
  b !! i = Some (F, S n) -> calls_left b = S (calls_left (<[i := (F, n)]> b)).
Proof.
  unfold calls_left. revert i. induction b as [|y b IH]; intros [|i]; cbn; [done..|intros [= ->]; done|].
  intros H. cbn in IH. rewrite (IH i H). apply Nat.add_succ_r.
Qed.

Lemma footprints_insert (b : budget) i F n n' :
  b !! i = Some (F, n) -> fst <$> <[i := (F, n')]> b = fst <$> b.
Proof.
  intros H. rewrite list_fmap_insert. cbn. apply list_insert_id. by rewrite list_lookup_fmap, H.
Qed.

(** The goroutines stop: no schedule has more calls than the budget. *)
Lemma schedule_bounded {A} (c c' : Fs * list (prog A)) b k :
  keeps b c.2 -> nsteps pstep k c c' -> k <= calls_left b.
Proof.
  intros Hk Hn. revert b Hk. induction Hn as [c|k [s l] c1 c2 Hs Hn IH]; intros b Hk; [lia|].
  destruct (pstep_inv s l c1 b Hs Hk) as (i&X&o&f&s'&x&F&n&_&_&->&Hb&Hk'&_).
  apply IH in Hk'. rewrite (calls_left_insert b i F n Hb). lia.
Qed.

(** A schedule that cannot go on has finished every goroutine. *)
Lemma stuck_finished {A} s (l : list (prog A)) :
  (forall c, ~ pstep (s, l) c) -> finished l.
Proof.
  intros Hstuck. apply list.Forall_forall. intros m Hm. destruct m as [a|X o k]; [by exists a|].
  apply list_elem_of_lookup in Hm as [i Hi]. destruct (exec o s) as [s' x] eqn:E.
  destruct (Hstuck _ (pstep_at s l i X o k s' x Hi E)).
Qed.

(** Goroutines that keep to different paths end as if each had run alone from the
    start, in every interleaving, and change no other path. *)
Lemma interleaving_local {A} (s s' : Fs) (l l' : list (prog A)) b :
  keeps b l -> separate (fst <$> b) -> rtc pstep (s, l) (s', l') ->
  length l' = length l /\ fs_dirs s' = fs_dirs s /\
  (forall i m m' F n, l !! i = Some m -> l' !! i = Some m' -> b !! i = Some (F, n) ->
     (run m s).2 = (run m' s').2 /\ agree F (run m s).1 (run m' s').1) /\
  (forall p, (forall F, F ∈ fst <$> b -> p ∉ F) -> fs_files s' !! p = fs_files s !! p).
Proof.
  intros Hk Hsep Hr. remember (s, l) as c eqn:Ec. remember (s', l') as c' eqn:Ec'.
  revert s l b Ec Hk Hsep. induction Hr as [c|c c1 c2 Hs Hr IH]; intros s l b -> Hk Hsep.
  { simplify_eq. split_and!; try done. intros i m m' F n Hm Hm'. naive_solver. }
  destruct (pstep_inv s l c1 b Hs Hk) as (i&X&o&k&s1&x&F&n&Hi&He&->&Hb&Hk'&Hf&Hd).
  pose proof (footprints_insert b i F (S n) n Hb) as Hfp.
  destruct (IH Ec' s1 (<[i:=k x]> l) _ eq_refl Hk') as (Hlen & Hd' & Hloc & Hout); [by rewrite Hfp|].
  rewrite length_insert in Hlen. rewrite Hfp in Hout. split_and!; [done|congruence| |].
  - intros j m m' G n' Hm Hm' HG. destruct (decide (i = j)) as [->|Hij].
    + rewrite Hm in Hi. rewrite HG in Hb. simplify_eq. cbn. rewrite He.
      eapply Hloc; [|done|]; by rewrite list_lookup_insert_eq by (by eapply lookup_lt_Some).
    + destruct (Hloc j m m' G n') as [H1 H2];
        [by rewrite list_lookup_insert_ne|done|by rewrite list_lookup_insert_ne|].
      assert (agree G s s1) as HA.
      { split; [done|]. intros p Hp. symmetry. apply Hf.
        assert (F ## G); [|set_solver]. eapply (Hsep i j); [done|..]; by rewrite list_lookup_fmap, ?Hb, ?HG. }
      pose proof (Forall2_lookup_lr _ _ _ _ _ _ Hk HG Hm) as Hw. cbn in Hw.
      destruct (run_local m G n' s s1 Hw HA) as [H3 H4].
      split; [congruence|]. by rewrite H4.
  - intros p Hp. rewrite Hout by done. apply Hf, Hp. apply list_elem_of_fmap. exists (F, S n).
    split; [done|]. by eapply list_elem_of_lookup_2.
Qed.

Lemma Ret_fmap_lookup {A} (outs : list A) i a : outs !! i = Some a -> (Ret <$> outs : list (prog A)) !! i = Some (Ret a).
Proof. intros H. by rewrite list_lookup_fmap, H. Qed.

(** Two schedules that finish end in the same file system with the same results. *)
Lemma schedules_agree {A} (s s1 s2 : Fs) (l : list (prog A)) b outs1 outs2 :
  keeps b l -> separate (fst <$> b) ->
  rtc pstep (s, l) (s1, Ret <$> outs1) -> rtc pstep (s, l) (s2, Ret <$> outs2) ->
  s1 = s2 /\ outs1 = outs2.
Proof.
  intros Hk Hsep H1 H2.
  destruct (interleaving_local _ _ _ _ _ Hk Hsep H1) as (Hl1 & Hd1 & HL1 & Ho1).
  destruct (interleaving_local _ _ _ _ _ Hk Hsep H2) as (Hl2 & Hd2 & HL2 & Ho2).
  rewrite !length_fmap in *.
  assert (forall i m F n, l !! i = Some m -> b !! i = Some (F, n) ->
    exists a, outs1 !! i = Some a /\ outs2 !! i = Some a /\ agree F s1 s2) as Hi.
  { intros i m F n Hm Hb. pose proof (lookup_lt_Some _ _ _ Hm) as Hlt.
    destruct (lookup_lt_is_Some_2 outs1 i) as [a1 Ha1]; [lia|].
    destruct (lookup_lt_is_Some_2 outs2 i) as [a2 Ha2]; [lia|].
    destruct (HL1 i m _ F n Hm (Ret_fmap_lookup _ _ _ Ha1) Hb) as [E1 A1].
    destruct (HL2 i m _ F n Hm (Ret_fmap_lookup _ _ _ Ha2) Hb) as [E2 A2].
    cbn in *. exists a1. rewrite Ha2. split_and!; [done|congruence|]. by rewrite <- A1. }
  split.
  - destruct s1 as [f1 d1], s2 as [f2 d2]. cbn in *. f_equal; [|congruence].
    apply map_eq. intros p.
    destruct (decide (Exists (fun Fn => p ∈ Fn.1) b)) as [He|Hn].
    + apply Exists_exists in He as ([F n] & Hin & Hp).
      apply list_elem_of_In, list_elem_of_lookup in Hin as [i Hb]. destruct (Forall2_lookup_l _ _ _ _ _ Hk Hb) as (m & Hm & _).
      destruct (Hi i m F n Hm Hb) as (a & _ & _ & [_ HA]). by apply HA.
    + rewrite Ho1, Ho2; [done|..]; intros F (Fn & -> & Hin)%list_elem_of_fmap Hp;
        apply Hn, Exists_exists; exists Fn; (split; [by apply list_elem_of_In|done]).
  - apply list_eq. intros i. destruct (l !! i) as [m|] eqn:Hm.
    + destruct (Forall2_lookup_r _ _ _ _ _ Hk Hm) as ([F n] & Hb & _).
      destruct (Hi i m F n Hm Hb) as (a & -> & -> & _). done.
    + apply lookup_ge_None in Hm. rewrite !lookup_ge_None_2; [done|lia|lia].
Qed.

(** Running the goroutines one after the other is a schedule. *)
Fixpoint run_all {A} (ps : list (prog A)) (s : Fs) : Fs * list A :=
  match ps with
  | [] => (s, [])
  | p :: ps => let (s1, o) := run p s in let (s2, os) := run_all ps s1 in (s2, o :: os)
  end.

Lemma run_schedule {A} (m : prog A) l1 l2 s :
  rtc pstep (s, (l1 ++ m :: l2)%list) ((run m s).1, (l1 ++ Ret (run m s).2 :: l2)%list).
Proof.
  revert s. induction m as [a|X o k IH]; intros s; cbn; [done|].
  destruct (exec o s) as [s' x] eqn:E. eapply rtc_l; [|apply (IH x s')].
  assert (<[length l1 := k x]> (l1 ++ Op X o k :: l2)%list = (l1 ++ k x :: l2)%list) as <-.
  { rewrite insert_app_r_alt by lia. by rewrite Nat.sub_diag. }
  apply pstep_at with (o := o); [by rewrite list_lookup_middle|done].
Qed.

Lemma run_all_schedule {A} (l : list (prog A)) s :
  rtc pstep (s, l) ((run_all l s).1, Ret <$> (run_all l s).2).
Proof.
  enough (forall done, rtc pstep (s, (done ++ l)%list) ((run_all l s).1, (done ++ (Ret <$> (run_all l s).2))%list)) as H
    by apply (H []).
  revert s. induction l as [|m l IH]; intros s l0; cbn; [by rewrite app_nil_r|].
  destruct (run m s) as [s1 o] eqn:E1. destruct (run_all l s1) as [s2 os] eqn:E2. cbn.
  etrans; [apply run_schedule|]. rewrite E1. cbn.
  specialize (IH s1 (l0 ++ [Ret o])%list). rewrite E2 in IH. cbn in IH.
  by rewrite <- !app_assoc in IH.
Qed.
End Locality.
