(* ===== verification/Patch.v ===== *)
(** Plugin synchronisation: pkg/apis/control/v1 (manifests, patches and their
    validation), pkg/patch (the difference of two manifests, the patch client of the
    agent, the patch cache and the sync server of the gateway), pkg/plugins/discovery.go
    and the sync of pkg/agent/v2.

    zstd, bsdiff and the reading of build information are classes with their
    documented laws; the calls that report metrics or write logs are left out, and
    error messages leave out their arguments. *)

From S2P Require Import Prelude GoStd Util CoreV1 Tokens Base64 Crypto OsFs.

Local Open Scope string_scope.

(** ** pkg/apis/control/v1/remote.proto *)

(** The numbers of the enum; a number this version does not know is kept. *)
Inductive PatchOp :=
| PatchOp_None | PatchOp_Update | PatchOp_Create | PatchOp_Remove | PatchOp_Rename
| PatchOp_Unknown (n : Z).

#[export] Instance PatchOp_eq_dec : EqDecision PatchOp.
Proof. solve_decision. Defined.

Definition PatchOp_number (op : PatchOp) : Z :=
  match op with
  | PatchOp_None => 0 | PatchOp_Update => 1 | PatchOp_Create => 2
  | PatchOp_Remove => 3 | PatchOp_Rename => 4 | PatchOp_Unknown n => n
  end.

Record PluginManifestEntry := mkManifestEntry {
  me_Module : string; me_Filename : string; me_Digest : string }.
Record PluginManifest := mkPluginManifest { pm_Items : list PluginManifestEntry }.
Record PluginArchiveEntry := mkArchiveEntry {
  ae_Metadata : PluginManifestEntry; ae_Data : list byte }.
Record PluginArchive := mkPluginArchive { pa_Items : list PluginArchiveEntry }.
Record PatchSpec := mkPatchSpec {
  ps_Module : string; ps_Op : PatchOp; ps_Data : list byte; ps_Filename : string;
  ps_OldDigest : string; ps_NewDigest : string }.
Record PatchList := mkPatchList { pl_Items : list PatchSpec }.
Record SyncResults := mkSyncResults {
  sr_DesiredState : PluginManifest; sr_RequiredPatches : PatchList }.

#[export] Instance PluginManifestEntry_eq_dec : EqDecision PluginManifestEntry.
Proof. solve_decision. Defined.
#[export] Instance PatchSpec_eq_dec : EqDecision PatchSpec.
Proof. solve_decision. Defined.

(** ** pkg/apis/control/v1/extensions.go *)

Definition GetId (m : PluginManifestEntry) : string := me_Module m.

Definition DigestSet (m : PluginManifest) : gset string := list_to_set (me_Digest <$> pm_Items m).

Definition PluginDigests (m : PluginManifest) : gmap string string :=
  fold_left (fun hm v => <[GetId v := me_Digest v]> hm) (pm_Items m) ∅.

Definition DigestBytes (m : PluginManifestEntry) : list byte :=
  match hex_Decode (me_Digest m) with Ok bs => bs | _ => [] end.

(** [slices.SortFunc] is not stable; entries with the same key keep an order here,
    and no statement depends on it. *)
Definition manifest_le (a b : PluginManifestEntry) : Prop := String.le (me_Module a) (me_Module b).
#[export] Instance manifest_le_dec a b : Decision (manifest_le a b).
Proof. unfold manifest_le. apply _. Defined.

Definition PluginManifest_Sort (m : PluginManifest) : PluginManifest :=
  mkPluginManifest (merge_sort manifest_le (pm_Items m)).

Definition archive_le (a b : PluginArchiveEntry) : Prop :=
  manifest_le (ae_Metadata a) (ae_Metadata b).
#[export] Instance archive_le_dec a b : Decision (archive_le a b).
Proof. unfold archive_le. apply _. Defined.

Definition PluginArchive_Sort (a : PluginArchive) : PluginArchive :=
  mkPluginArchive (merge_sort archive_le (pa_Items a)).

Definition ToManifest (a : PluginArchive) : PluginManifest :=
  mkPluginManifest (ae_Metadata <$> pa_Items a).

Definition patch_le (a b : PatchSpec) : Prop :=
  if decide (PatchOp_number (ps_Op a) = PatchOp_number (ps_Op b)) then
    if decide (ps_Module a = ps_Module b) then String.le (ps_Filename a) (ps_Filename b)
    else String.le (ps_Module a) (ps_Module b)
  else (PatchOp_number (ps_Op a) < PatchOp_number (ps_Op b))%Z.
#[export] Instance patch_le_dec a b : Decision (patch_le a b).
Proof. unfold patch_le. repeat case_decide; apply _. Defined.

Definition PatchList_Sort (l : PatchList) : PatchList :=
  mkPatchList (merge_sort patch_le (pl_Items l)).

Definition ManifestDigestKey : string := "manifest-digest".

Section Digest.
Context {B : Blake2b}.

(** The hexadecimal BLAKE2b-256 digest of a plugin. *)
Definition digest_of (data : list byte) : string := hex_Encode (b2b_Sum256 data).

(** [Digest]: the strings of the sorted entries are hashed one after the other. *)
Definition Digest (m : PluginManifest) : string :=
  hex_Encode (b2b_Sum256 (mjoin ((fun e =>
    str_bytes (me_Module e) ++ str_bytes (me_Filename e) ++ str_bytes (me_Digest e))%list
      <$> pm_Items (PluginManifest_Sort m)))).
End Digest.

(** ** pkg/apis/control/v1/validate.go *)

Definition PluginArchiveEntry_Validate (a : PluginArchiveEntry) : outcome unit :=
  fail_if (bool_decide (me_Digest (ae_Metadata a) = ""))
    (ValidationError "digest is required for plugin archive entries") ;?
  fail_if (bool_decide (me_Filename (ae_Metadata a) = ""))
    (ValidationError "filename is required for plugin archive entries") ;?
  fail_if (bool_decide (me_Module (ae_Metadata a) = ""))
    (ValidationError "module is required for plugin archive entries") ;?
  fail_if (bool_decide (GetId (ae_Metadata a) = ""))
    (ValidationError "id is required for plugin archive entries").

Definition PluginArchive_Validate (a : PluginArchive) : outcome unit :=
  foreach PluginArchiveEntry_Validate (pa_Items a).

Definition PluginManifestEntry_Validate (m : PluginManifestEntry) : outcome unit :=
  fail_if (bool_decide (me_Digest m = ""))
    (ValidationError "digest is required for plugin manifest entries") ;?
  fail_if (bool_decide (me_Filename m = ""))
    (ValidationError "Filename is required for plugin manifest entries") ;?
  fail_if (bool_decide (me_Module m = ""))
    (ValidationError "Module is required for plugin manifest entries").

Definition PluginManifest_Validate (m : PluginManifest) : outcome unit :=
  foreach PluginManifestEntry_Validate (pm_Items m).

Definition PatchSpec_Validate (a : PatchSpec) : outcome unit :=
  fail_if (bool_decide (ps_Filename a = "")) (ValidationError "filename must be set") ;?
  fail_if (bool_decide (ps_Module a = "")) (ValidationError "module must be set") ;?
  match ps_Op a with
  | PatchOp_Update | PatchOp_Rename =>
      fail_if (bool_decide (ps_OldDigest a = "")) (ValidationError "OldHash is required for patching") ;?
      fail_if (bool_decide (ps_NewDigest a = "")) (ValidationError "NewHash is required for patching")
  | PatchOp_Create =>
      fail_if (bool_decide (ps_NewDigest a = "")) (ValidationError "NewHash is required for creating")
  | PatchOp_None | PatchOp_Remove =>
      fail_if (negb (bool_decide (ps_Data a = [])))
        (ValidationError "no data should be sent alongside a None/Remove operation")
  | PatchOp_Unknown _ => Ok tt
  end.

Definition PatchList_Validate (a : PatchList) : outcome unit :=
  foreach PatchSpec_Validate (pl_Items a).

(** ** pkg/patch/manifest.go: LeftJoinOn *)

(** The entries of a manifest by module; a later entry replaces an earlier one. *)
Definition by_id (m : PluginManifest) : gmap string PluginManifestEntry :=
  fold_left (fun hm v => <[GetId v := v]> hm) (pm_Items m) ∅.

(** What the agent must do about one of the gateway's plugins. *)
Definition join_ours (theirPlugins : gmap string PluginManifestEntry)
    (ours : PluginManifestEntry) : list PatchSpec :=
  match theirPlugins !! GetId ours with
  | None => [mkPatchSpec (GetId ours) PatchOp_Create [] (me_Filename ours) "" (me_Digest ours)]
  | Some theirs =>
      if decide (me_Digest ours = me_Digest theirs) then
        if decide (me_Filename ours = me_Filename theirs) then []
        else [mkPatchSpec (GetId ours) PatchOp_Rename (str_bytes (me_Filename ours))
                (me_Filename theirs) (me_Digest theirs) (me_Digest ours)]
      else [mkPatchSpec (GetId ours) PatchOp_Update [] (me_Filename ours)
              (me_Digest theirs) (me_Digest ours)]
  end.

(** What the agent must do about one of its own plugins. *)
Definition join_theirs (ourPlugins : gmap string PluginManifestEntry) (ourDigests : gset string)
    (theirs : PluginManifestEntry) : list PatchSpec :=
  match ourPlugins !! GetId theirs with
  | Some _ => []
  | None =>
      if decide (me_Digest theirs ∈ ourDigests) then []
      else [mkPatchSpec (GetId theirs) PatchOp_Remove [] (me_Filename theirs) (me_Digest theirs) ""]
  end.

Definition join_items (gateway agent : PluginManifest) : list PatchSpec :=
  ((pm_Items gateway ≫= join_ours (by_id agent)) ++
   (pm_Items agent ≫= join_theirs (by_id gateway) (DigestSet gateway)))%list.

Definition LeftJoinOn (gateway agent : PluginManifest) : PatchList :=
  PatchList_Sort (mkPatchList (join_items gateway agent)).

(** ** pkg/plugins/discovery.go and pkg/plugins/meta *)

Record PluginMeta := mkPluginMeta {
  md_BinaryPath : string; md_GoVersion : string; md_Module : string;
  md_ModeList : option (list string) }.

Definition PluginMeta_Filename (pm : PluginMeta) : string := path_Base (md_BinaryPath pm).

(** [buildinfo.Read] of a binary (its Go version and module path), and the plugin run
    by [meta.QueryPluginModes]. *)
Class PluginBinary := {
  buildinfo_Read : list byte -> outcome (string * string);
  QueryPluginModes : string -> outcome (list string) }.

Definition DefaultPluginGlob : string := "plugin_*".

Record DiscoveryConfig := mkDiscoveryConfig {
  dc_Dir : string; dc_OsFs : bool; dc_Filters : list (PluginMeta -> bool); dc_QueryModes : bool }.

Section Discovery.
Context {D : Disk} {PB : PluginBinary} {B : Blake2b}.

(** [afero.Glob] of a pattern whose directory part is literal and clean: the paths of
    the directory's files whose names match, in order; an unreadable directory has
    none. *)
Definition fs_Glob (s : Fs) (dir : string) (matches : string -> bool) : list string :=
  match fs_ReadDir s dir with
  | Ok names => (fun n => dir +:+ "/" +:+ n) <$> filter (fun n => matches n = true) names
  | _ => []
  end.

(** [meta.ReadFile]. *)
Definition meta_ReadFile (path : string) (data : list byte) : outcome PluginMeta :=
  let? (goVersion, modpath) := buildinfo_Read data in
  Ok (mkPluginMeta path goVersion modpath None).

(** The turn of the loop of [Discover] for one path: the plugin, or nothing when the
    file is skipped. *)
Definition discover_path (dc : DiscoveryConfig) (s : Fs) (path : string) : outcome (option PluginMeta) :=
  match fs_ReadFile s path with
  | Ok data =>
      match meta_ReadFile path data with
      | Ok md =>
          let? queried :=
            if dc_QueryModes dc then
              if dc_OsFs dc then
                match QueryPluginModes (md_BinaryPath md) with
                | Ok modes => Ok (Some (mkPluginMeta (md_BinaryPath md) (md_GoVersion md) (md_Module md) (Some modes)))
                | Err _ => Ok None
                | Panic p => Panic p
                end
              else Panic "cannot query plugin modes with custom filesystem"
            else Ok (Some md) in
          match queried with
          | None => Ok None
          | Some md => Ok (if forallb (fun f => f md) (dc_Filters dc) then Some md else None)
          end
      | Err _ => Ok None
      | Panic p => Panic p
      end
  | Err _ => Ok None
  | Panic p => Panic p
  end.

Definition Discover (dc : DiscoveryConfig) (s : Fs) : outcome (list PluginMeta) :=
  let? found := omapM (discover_path dc s) (fs_Glob s (path_Clean (dc_Dir dc)) (fun n => HasPrefix n "plugin_")) in
  Ok (omap id found).

(** ** pkg/patch/manifest.go: GetFilesystemPlugins *)

(** The goroutine that reads one plugin; a plugin that cannot be read is skipped. *)
Definition read_plugin (s : Fs) (md : PluginMeta) : option PluginArchiveEntry :=
  match fs_ReadFile s (md_BinaryPath md) with
  | Ok contents =>
      Some (mkArchiveEntry
              (mkManifestEntry (md_Module md) (path_Base (md_BinaryPath md)) (digest_of contents))
              contents)
  | _ => None
  end.

Definition GetFilesystemPlugins (dc : DiscoveryConfig) (s : Fs) : outcome PluginArchive :=
  let? matches := Discover dc s in
  Ok (PluginArchive_Sort (mkPluginArchive (omap (read_plugin s) matches))).
End Discovery.

(** ** pkg/patch/patcher.go *)

(** bsdiff: a patch has the magic of the format and turns the old file into the new
    one. *)
Class Bsdiff := {
  bsdiff_Reader : list byte -> list byte -> outcome (list byte);
  bspatch_Reader : list byte -> list byte -> outcome (list byte);
  bsdiff_no_panic old new : no_panic (bsdiff_Reader old new) = true;
  bspatch_no_panic old p : no_panic (bspatch_Reader old p) = true;
  bsdiff_apply old new p : bsdiff_Reader old new = Ok p ->
    take 8 p = str_bytes "BSDIFF40" /\ bspatch_Reader old p = Ok new }.

Inductive BinaryPatcher := BsdiffPatcher.

Definition GeneratePatch `{Bsdiff} (p : BinaryPatcher) (old new : list byte) : outcome (list byte) :=
  match p with BsdiffPatcher => bsdiff_Reader old new end.

Definition ApplyPatch `{Bsdiff} (p : BinaryPatcher) (old patch : list byte) : outcome (list byte) :=
  match p with BsdiffPatcher => bspatch_Reader old patch end.

(** [CheckFormat]: [ReadAt] fails when there are fewer bytes than the header has. *)
Definition CheckFormat (p : BinaryPatcher) (data : list byte) : bool :=
  match p with
  | BsdiffPatcher =>
      let header := str_bytes "BSDIFF40" in
      (length header <=? length data)%nat && bool_decide (take (length header) data = header)
  end.

Definition allPatchEngines : list BinaryPatcher := [BsdiffPatcher].

Definition NewPatcherFromFormat (data : list byte) : option BinaryPatcher :=
  head (filter (fun p => CheckFormat p data = true) allPatchEngines).

(** ** pkg/patch/client.go *)

Record pluginFs := mkPluginFs { pf_dir : string; pf_tempDir : string }.

Definition filepath_IsAbs (p : string) : bool := HasPrefix p "/".

Definition resolve (f : pluginFs) (path : string) : string :=
  if decide (path = "") then path
  else if decide (path = ".") then pf_dir f
  else if filepath_IsAbs path then path
  else path_Join [pf_dir f; path].

Definition internalErrf (m : string) : error := StatusError codes_Internal m.
Definition unavailableErrf (m : string) : error := StatusError codes_Unavailable m.
Definition osErrf (m : string) (err : error) : error :=
  if os_IsPermission err then internalErrf m else unavailableErrf m.

Section Client.
Context {BS : Bsdiff} {B : Blake2b}.
Variable f : pluginFs.

Definition ret_err (e : error) : prog (outcome unit) := Ret (Err e).

Definition pf_Stat (path : string) := call (Stat (resolve f path)).
Definition pf_ReadFile (path : string) := call (ReadFile (resolve f path)).
Definition pf_WriteFile (path : string) data perm := call (WriteFile (resolve f path) data perm).
Definition pf_Remove (path : string) := call (Remove (resolve f path)).
Definition pf_Rename (old new : string) := call (Rename (resolve f old) (resolve f new)).
Definition pf_Chmod (path : string) mode := call (Chmod (resolve f path) mode).

Definition doRename (entry : PatchSpec) : prog (outcome unit) :=
  let newFilename := bytes_str (ps_Data entry) in
  do st <- pf_Stat newFilename;
  match st with
  | Ok _ => ret_err (unavailableErrf "could not rename plugin: destination already exists")
  | _ =>
      do r <- pf_Rename (ps_Filename entry) newFilename;
      match r with
      | Err err => ret_err (osErrf "could not rename plugin" err)
      | _ => Ret (Ok tt)
      end
  end.

Definition doCreate (entry : PatchSpec) : prog (outcome unit) :=
  do r <- pf_WriteFile (ps_Filename entry) (ps_Data entry) 493;
  match r with
  | Err err => ret_err (osErrf "could not write plugin" err)
  | _ => Ret (Ok tt)
  end.

(** The deferred removal of the temporary file. *)
Definition cleanup (origTempFile : string) (result : outcome unit) : prog (outcome unit) :=
  do st <- pf_Stat origTempFile;
  match st with
  | Ok _ => do _ <- pf_Remove origTempFile; Ret result
  | _ => Ret result
  end.

(** The end of [doUpdate], once the new contents are in the temporary file. *)
Definition replace_plugin (entry : PatchSpec) (tmp : string) (existingPerm : Z) : prog (outcome unit) :=
  do ch <- pf_Chmod tmp existingPerm;
  do r <- pf_Rename tmp (ps_Filename entry);
  match r with
  | Err err => Ret (Err (osErrf "could not write to plugin" err))
  | _ =>
      match ch with
      | Ok _ => Ret (Ok tt)
      | _ =>
          do c <- pf_Chmod (ps_Filename entry) existingPerm;
          match c with
          | Err err => Ret (Err (osErrf "could not update permissions for plugin" err))
          | _ => Ret (Ok tt)
          end
      end
  end.

(** The patched contents: what [ApplyPatch] writes to the temporary file. *)
Definition apply_to_temp (entry : PatchSpec) (patcher : BinaryPatcher) (oldPluginData : list byte)
    (tmp : string) (existingPerm : Z) : prog (outcome unit) :=
  match ApplyPatch patcher oldPluginData (ps_Data entry) with
  | Ok newData =>
      do w <- call (WriteTo tmp newData);
      match w with
      | Err err => Ret (Err (osErrf "failed applying patch for plugin" err))
      | _ =>
          if decide (digest_of newData = ps_NewDigest entry) then replace_plugin entry tmp existingPerm
          else Ret (Err (StatusError codes_Unavailable "patch failed for plugin (checksum mismatch)"))
      end
  | Err err => Ret (Err (osErrf "failed applying patch for plugin" err))
  | Panic p => Ret (Panic p)
  end.

(** [rnd] is the random part of the name that [TempFile] finds free. *)
Definition temp_name (rnd : string) : string :=
  path_Join [resolve f (pf_tempDir f); ".opni-tmp-plugin-" +:+ rnd].

Definition doUpdate (rnd : string) (entry : PatchSpec) : prog (outcome unit) :=
  do st <- pf_Stat (ps_Filename entry);
  match st with
  | Err err => ret_err (osErrf "failed to stat plugin" err)
  | Panic p => Ret (Panic p)
  | Ok oldPluginInfo =>
      do rd <- pf_ReadFile (ps_Filename entry);
      match rd with
      | Err err => ret_err (osErrf "failed to read plugin" err)
      | Panic p => Ret (Panic p)
      | Ok oldPluginData =>
          if decide (digest_of oldPluginData = ps_OldDigest entry) then
            match NewPatcherFromFormat (ps_Data entry) with
            | None => ret_err (internalErrf "unknown patch format for plugin")
            | Some patcher =>
                let tmp := temp_name rnd in
                do t <- call (CreateExcl tmp);
                match t with
                | Err _ => ret_err (internalErrf "could not create temporary file")
                | Panic p => Ret (Panic p)
                | Ok _ =>
                    do res <- apply_to_temp entry patcher oldPluginData tmp
                                (Z.land (fi_Mode oldPluginInfo) 511);
                    cleanup tmp res
                end
            end
          else ret_err (unavailableErrf "existing plugin is invalid, cannot apply patch")
      end
  end.

Definition doRemove (entry : PatchSpec) : prog (outcome unit) :=
  do r <- pf_Remove (ps_Filename entry);
  match r with
  | Err err => if os_IsNotExist err then Ret (Ok tt) else ret_err (osErrf "could not remove plugin" err)
  | _ => Ret (Ok tt)
  end.

(** One goroutine of [Patch]. *)
Definition patch_entry (rnd : string) (entry : PatchSpec) : prog (outcome unit) :=
  match ps_Op entry with
  | PatchOp_Create => doCreate entry
  | PatchOp_Update => doUpdate rnd entry
  | PatchOp_Remove => doRemove entry
  | PatchOp_Rename => doRename entry
  | PatchOp_None => Ret (Ok tt)
  | PatchOp_Unknown _ => ret_err (StatusError codes_Internal "unknown patch operation")
  end.

Definition patch_progs (rnds : list string) (patches : PatchList) : list (prog (outcome unit)) :=
  zip_with patch_entry rnds (pl_Items patches).

(** [errgroup.Wait]: nil, or the error of the goroutine that failed first. *)
Definition group_result (outs : list (outcome unit)) (r : outcome unit) : Prop :=
  (Forall (fun o => o = Ok tt) outs /\ r = Ok tt) \/ (r ∈ outs /\ r <> Ok tt).

(** [Patch]: the goroutines run in some interleaving until all have returned. *)
Definition Patch `{Disk} (rnds : list string) (patches : PatchList) (s s' : Fs) (r : outcome unit) : Prop :=
  exists outs, rtc pstep (s, patch_progs rnds patches) (s', Ret <$> outs) /\ group_result outs r.
End Client.

(** ** pkg/patch/filesystem.go *)

(** zstd: decompression inverts compression.  [zstd_buffered d] tells whether the
    encoder still holds its output for [d] when the copy into it returns, so that the
    file is written only by the deferred [Close], whose error nobody reads. *)
Class Zstd := {
  zstd_compress : list byte -> list byte;
  zstd_decompress : list byte -> outcome (list byte);
  zstd_buffered : list byte -> bool;
  zstd_no_panic d : no_panic (zstd_decompress d) = true;
  zstd_roundtrip d : zstd_decompress (zstd_compress d) = Ok d }.

Definition PatchKey (oldDigest newDigest : string) : string := oldDigest +:+ "-to-" +:+ newDigest.

Section Cache.
Context {D : Disk} {BS : Bsdiff} {B : Blake2b} {ZS : Zstd}.

(** [config.Dir]. *)
Variable dir : string.

Definition cache_path (parts : list string) : string := path_Join (dir :: parts).

Definition read_fs {A} (o : Fs -> outcome A) : M Fs A := fun s => (s, o s).

Definition NewFilesystemCache : M Fs unit :=
  (fun s => fs_MkdirAll s dir) ;!
  (fun s => fs_MkdirAll s (path_Join [dir; "plugins"])) ;!
  (fun s => fs_MkdirAll s (path_Join [dir; "patches"])).

(** Removes files one by one; a file that cannot be removed is passed over. *)
Definition remove_all (paths : list string) (s : Fs) : Fs :=
  fold_left (fun s p => (fs_Remove s p).1) paths s.

(** The patches [Clean] finds for a plugin: to it, then from it. *)
Definition patches_of (s : Fs) (hash : string) : list string :=
  (fs_Glob s (cache_path ["patches"]) (fun n => HasSuffix n ("-to-" +:+ hash)) ++
   fs_Glob s (cache_path ["patches"]) (fun n => HasPrefix n (hash +:+ "-to-")))%list.

Definition clean_one (s : Fs) (hash : string) : Fs :=
  let s1 := (fs_Remove s (cache_path ["plugins"; hash])).1 in
  remove_all (patches_of s1 hash) s1.

Definition Clean (hashes : list string) (s : Fs) : Fs := fold_left clean_one hashes s.

Definition ListDigests (s : Fs) : outcome (list string) := fs_ReadDir s (cache_path ["plugins"]).

Definition errCorrupted : error := ErrorString "plugin corrupted: hash mismatch".

Definition GetPlugin (hash : string) : M Fs (list byte) :=
  let! src := read_fs (fun s => fs_ReadFile s (cache_path ["plugins"; hash])) in
  let! pluginData := wlift (zstd_decompress src) in
  if decide (digest_of pluginData = hash) then wret pluginData
  else fun s => (Clean [hash] s, Err errCorrupted).

Definition generatePatch (oldDigest newDigest : string) : M Fs (list byte) :=
  let! oldBin := GetPlugin oldDigest in
  let! newBin := GetPlugin newDigest in
  wlift (GeneratePatch BsdiffPatcher oldBin newBin).

(** [RequestPatch]: the calls for one key are made by one caller at a time. *)
Definition RequestPatch (oldDigest newDigest : string) : M Fs (list byte) := fun s =>
  let patchPath := cache_path ["patches"; PatchKey oldDigest newDigest] in
  match fs_Stat s patchPath with
  | Ok _ => (s, fs_ReadFile s patchPath)
  | _ =>
      match generatePatch oldDigest newDigest s with
      | (s1, Ok patchData) =>
          match fs_WriteFile s1 patchPath patchData 420 with
          | (s2, Ok _) => (s2, Ok patchData)
          | (s2, Err err) => (s2, Err err)
          | (s2, Panic p) => (s2, Panic p)
          end
      | (s1, Err err) => ((generatePatch oldDigest newDigest s1).1, Err err)
      | (s1, Panic p) => (s1, Panic p)
      end
  end.

(** [Archive]: whether a valid copy of the plugin is in the cache already. *)
Definition archived (item : PluginArchiveEntry) : M Fs bool := fun s =>
  let destPath := cache_path ["plugins"; me_Digest (ae_Metadata item)] in
  match fs_Stat s destPath with
  | Ok _ =>
      match fs_ReadFile s destPath with
      | Ok src =>
          (s, Ok (match zstd_decompress src with
                  | Ok d => bool_decide (digest_of d = me_Digest (ae_Metadata item))
                  | _ => false
                  end))
      | Err e => (s, Err e)
      | Panic p => (s, Panic p)
      end
  | _ => (s, Ok false)
  end.

Definition archive_write (item : PluginArchiveEntry) (s : Fs) : Fs * outcome unit :=
  let destPath := cache_path ["plugins"; me_Digest (ae_Metadata item)] in
  match fs_Create s destPath 438 with
  | (s1, Ok _) =>
      let (s2, o) := fs_WriteTo s1 destPath (zstd_compress (ae_Data item)) in
      (s2, if zstd_buffered (ae_Data item) then Ok tt else o)
  | r => r
  end.

Definition first_error (failed : option error) (o : outcome unit) : option error :=
  match failed, o with
  | Some e, _ => Some e
  | None, Err e => Some e
  | None, _ => None
  end.

Fixpoint archive_items (items : list PluginArchiveEntry) (failed : option error) : M Fs unit :=
  match items with
  | [] => match failed with Some e => wfail e | None => wret tt end
  | item :: items =>
      let! present := archived item in
      if present then archive_items items failed
      else fun s => let (s', o) := archive_write item s in
                    archive_items items (first_error failed o) s'
  end.

Definition Archive (manifest : PluginArchive) : M Fs unit := archive_items (pa_Items manifest) None.
End Cache.

(** ** pkg/patch/server.go *)

(** The gateway's file system, and the manifest that is loaded once.  A load that
    panics counts as done and leaves no manifest. *)
Record SyncState := mkSyncState {
  ss_fs : Fs; ss_once : bool; ss_manifest : option PluginManifest }.

Definition set_fs (st : SyncState) (s : Fs) : SyncState := mkSyncState s (ss_once st) (ss_manifest st).

Definition on_fs {A} (m : M Fs A) : M SyncState A := fun st =>
  let (s, o) := m (ss_fs st) in (set_fs st s, o).

Record ServerConfig := mkServerConfig {
  sc_Dir : string; sc_CacheDir : string; sc_OsFs : bool; sc_Filters : list (PluginMeta -> bool);
  sc_PatchEngine : string; sc_CacheBackend : string }.

Section Server.
Context {D : Disk} {BS : Bsdiff} {B : Blake2b} {ZS : Zstd} {PB : PluginBinary}.
Variable cfg : ServerConfig.

Definition NewFilesystemPluginSyncServer : M Fs SyncState :=
  if decide (sc_PatchEngine cfg = "bsdiff") then
    if decide (sc_CacheBackend cfg = "filesystem") then
      NewFilesystemCache (sc_CacheDir cfg) ;! fun s => (s, Ok (mkSyncState s false None))
    else wfail (ErrorString "unknown cache backend")
  else wfail (ErrorString "unknown patch engine").

Definition discovery : DiscoveryConfig :=
  mkDiscoveryConfig (sc_Dir cfg) (sc_OsFs cfg) (sc_Filters cfg) (negb (bool_decide (length (sc_Filters cfg) = 0))).

Definition loadPluginManifest : M SyncState unit := fun st =>
  match GetFilesystemPlugins discovery (ss_fs st) with
  | Ok md =>
      match Archive (sc_CacheDir cfg) md (ss_fs st) with
      | (s, Ok _) => (mkSyncState s (ss_once st) (Some (ToManifest md)), Ok tt)
      | (s, _) => (set_fs st s, Panic "failed to archive plugin manifest")
      end
  | Err _ => (st, Panic "failed to read plugins")
  | Panic p => (st, Panic p)
  end.

(** [getPluginManifest]: [sync.Once] runs the load on the first call only. *)
Definition getPluginManifest : M SyncState (option PluginManifest) := fun st =>
  if ss_once st then (st, Ok (ss_manifest st))
  else
    let st1 := mkSyncState (ss_fs st) true (ss_manifest st) in
    match loadPluginManifest st1 with
    | (st2, Ok _) => (st2, Ok (ss_manifest st2))
    | (st2, Err e) => (st2, Err e)
    | (st2, Panic p) => (st2, Panic p)
    end.

(** Reading a field of the manifest panics when there is none. *)
Definition deref {A} (m : option A) : outcome A :=
  match m with Some a => Ok a | None => Panic "nil pointer dereference" end.

Definition with_data (entry : PatchSpec) (op : PatchOp) (data : list byte) : PatchSpec :=
  mkPatchSpec (ps_Module entry) op data (ps_Filename entry) (ps_OldDigest entry) (ps_NewDigest entry).

(** The goroutine of [SyncPluginManifest] for one entry. *)
Definition sync_entry (entry : PatchSpec) : M Fs PatchSpec := fun s =>
  match ps_Op entry with
  | PatchOp_Create =>
      match GetPlugin (sc_CacheDir cfg) (ps_NewDigest entry) s with
      | (s1, Ok data) => (s1, Ok (with_data entry (ps_Op entry) data))
      | (s1, Err _) => (s1, Err (StatusError codes_Internal "lost plugin in cache"))
      | (s1, Panic p) => (s1, Panic p)
      end
  | PatchOp_Update =>
      match RequestPatch (sc_CacheDir cfg) (ps_OldDigest entry) (ps_NewDigest entry) s with
      | (s1, Ok data) => (s1, Ok (with_data entry (ps_Op entry) data))
      | (s1, Err err) =>
          if errors_Is err os_ErrNotExist then
            match GetPlugin (sc_CacheDir cfg) (ps_NewDigest entry) s1 with
            | (s2, Ok data) => (s2, Ok (with_data entry PatchOp_Create data))
            | (s2, Err _) => (s2, Err (StatusError codes_Internal "lost plugin in cache, cannot generate patch"))
            | (s2, Panic p) => (s2, Panic p)
            end
          else (s1, Err (StatusError codes_Internal "internal error in plugin cache, cannot sync"))
      | (s1, Panic p) => (s1, Panic p)
      end
  | _ => (s, Ok entry)
  end.

(** All entries are worked on, whatever becomes of one; the first error is returned. *)
Fixpoint sync_entries (entries : list PatchSpec) : M Fs (list PatchSpec) := fun s =>
  match entries with
  | [] => (s, Ok [])
  | e :: entries =>
      let (s1, o) := sync_entry e s in
      let (s2, os) := sync_entries entries s1 in
      (s2, let? x := o in let? xs := os in Ok (x :: xs))
  end.

Definition SyncPluginManifest (theirManifest : PluginManifest) : M SyncState SyncResults :=
  wlift (PluginManifest_Validate theirManifest) ;!
  let! m := getPluginManifest in
  let! ourManifest := wlift (deref m) in
  let archive := LeftJoinOn ourManifest theirManifest in
  let! items := on_fs (sync_entries (pl_Items archive)) in
  wret (mkSyncResults ourManifest (mkPatchList items)).

Definition GetPluginManifest : M SyncState (option PluginManifest) := getPluginManifest.

(** The digests the clusters reported when they last connected. *)
Definition cluster_versions (c : Cluster) : list string :=
  match cm_LastKnownConnectionDetails (cluster_meta c) with
  | Some d => snd <$> map_to_list (lk_PluginVersions d)
  | None => []
  end.

Definition digests_to_keep (m : PluginManifest) (clusters : list Cluster) : gset string :=
  DigestSet m ∪ list_to_set (clusters ≫= cluster_versions).

(** [clusters] is the answer of [store.ListClusters] with an empty selector. *)
Definition RunGarbageCollection (clusters : outcome (list Cluster)) : M SyncState unit :=
  let! items := wlift clusters in
  let! m := getPluginManifest in
  let! manifest := wlift (deref m) in
  let digestsToKeep := digests_to_keep manifest items in
  let! curDigests := on_fs (read_fs (ListDigests (sc_CacheDir cfg))) in
  let toClean := filter (fun h => h ∉ digestsToKeep) curDigests in
  on_fs (fun s => (Clean (sc_CacheDir cfg) toClean s, Ok tt)).

(** [StreamServerInterceptor]: the manifest digests of the request, if it has metadata,
    and the handler that runs with our manifest in its context. *)
Definition sync_StreamServerInterceptor {A} (values : option (list string))
    (handler : option PluginManifest -> M SyncState A) : M SyncState A :=
  match values with
  | Some (digest :: _) =>
      let! m := getPluginManifest in
      let! manifest := wlift (deref m) in
      if decide (Digest manifest = digest) then let! m := getPluginManifest in handler m
      else wfail (StatusError codes_FailedPrecondition "plugins are out of date")
  | _ => let! m := getPluginManifest in handler m
  end.
End Server.

(** ** pkg/agent/v2/agent.go: syncPlugins *)

(** The agent's plugins are read, the gateway is asked for patches, and they are
    applied.  [s] is the agent's file system and [st] the gateway; [f] and [rnds] are
    the temporary directory and names of the patch client. *)
Definition syncPlugins (DA DG : Disk) `{Bsdiff, Blake2b, Zstd, PluginBinary} (cfg : ServerConfig)
    (f : pluginFs) (rnds : list string) (s : Fs) (st : SyncState)
    (s' : Fs) (st' : SyncState) (res : outcome PluginManifest) : Prop :=
  match @GetFilesystemPlugins DA _ _ (mkDiscoveryConfig (pf_dir f) true [] false) s with
  | Ok archive =>
      match @SyncPluginManifest DG _ _ _ _ cfg (ToManifest archive) st with
      | (st1, Ok syncResp) =>
          st' = st1 /\
          exists r, @Patch _ _ f DA rnds (sr_RequiredPatches syncResp) s s' r /\
            res = (r ;? Ok (sr_DesiredState syncResp))
      | (st1, Err e) => s' = s /\ st' = st1 /\ res = Err e
      | (st1, Panic p) => s' = s /\ st' = st1 /\ res = Panic p
      end
  | Err e => s' = s /\ st' = st /\ res = Err e
  | Panic p => s' = s /\ st' = st /\ res = Panic p
  end.
