(* ===== verification/PatchProps.v ===== *)
(** Reference instances of the libraries plugin synchronisation stands on, and a small
    gateway and agent the witnesses run on. *)

From S2P Require Import Prelude GoStd Util CoreV1 Base64 Tokens Crypto OsFs Patch.

Local Open Scope string_scope.

Definition bsdiff_header : list byte := str_bytes "BSDIFF40".

(** A patch that carries the whole new file. *)
Definition ref_bsdiff (old new : list byte) : outcome (list byte) := Ok (bsdiff_header ++ new)%list.
Definition ref_bspatch (old p : list byte) : outcome (list byte) :=
  if decide (take 8 p = bsdiff_header) then Ok (drop 8 p) else Err (External "corrupt patch").

Lemma ref_bsdiff_apply old new p :
  ref_bsdiff old new = Ok p -> take 8 p = str_bytes "BSDIFF40" /\ ref_bspatch old p = Ok new.
Proof.
  intros [= <-]. unfold ref_bspatch.
  assert (take 8 (bsdiff_header ++ new)%list = bsdiff_header) as E by (by apply take_app_length').
  rewrite decide_True by done. done.
Qed.

#[export] Instance Bsdiff_ref : Bsdiff := {|
  bsdiff_Reader := ref_bsdiff; bspatch_Reader := ref_bspatch;
  bsdiff_no_panic old new := eq_refl;
  bspatch_no_panic old p := ltac:(unfold ref_bspatch; by case_decide);
  bsdiff_apply := ref_bsdiff_apply |}.

(** Compression that adds a magic byte. *)
#[export] Instance Zstd_ref : Zstd.
Proof.
  refine {| zstd_compress d := 40%Z :: d;
            zstd_decompress c := match c with
                                 | b :: d => if decide (b = 40%Z) then Ok d else Err (External "invalid magic")
                                 | [] => Err (External "invalid input")
                                 end;
            zstd_buffered _ := true |}.
  - intros [|b d]; [done|]. by case_decide.
  - done.
Defined.

(** A plugin binary whose first byte tells its module. *)
#[export] Instance PluginBinary_ref : PluginBinary := {|
  buildinfo_Read data := match data with
                         | b :: _ => Ok ("go1.20", "module_" +:+ Sprint b)
                         | [] => Err (External "unrecognized file format")
                         end;
  QueryPluginModes _ := Ok [] |}.

(** ** A gateway and an agent *)

Definition bin_a_old : list byte := [1; 10]%Z.
Definition bin_a_new : list byte := [1; 11]%Z.
Definition bin_b : list byte := [2; 20]%Z.
Definition bin_c : list byte := [3; 30]%Z.

Definition ref_cfg : ServerConfig := mkServerConfig "/gw" "/cache" true [] "bsdiff" "filesystem".
Definition ref_pfs : pluginFs := mkPluginFs "/agent" "/tmp".

Definition ref_gateway_fs : Fs :=
  mkFs {[ "/gw/plugin_a" := mkFile bin_a_new 493; "/gw/plugin_c" := mkFile bin_c 493 ]} {[ "/gw" ]}.
Definition ref_fresh : SyncState := mkSyncState ref_gateway_fs false None.
Definition ref_gateway : SyncState := (getPluginManifest ref_cfg ref_fresh).1.
Definition ref_gm : PluginManifest := default (mkPluginManifest []) (ss_manifest ref_gateway).

Definition ref_agent_fs : Fs :=
  mkFs {[ "/agent/plugin_a" := mkFile bin_a_old 493; "/agent/plugin_b" := mkFile bin_b 493;
          "/agent/notes" := mkFile [9%Z] 420 ]} {[ "/agent"; "/tmp" ]}.
Definition ref_archive : PluginArchive :=
  match GetFilesystemPlugins (mkDiscoveryConfig "/agent" true [] false) ref_agent_fs with
  | Ok a => a
  | _ => mkPluginArchive []
  end.
Definition ref_am : PluginManifest := ToManifest ref_archive.
Definition ref_rnds : list string := ["1"; "2"; "3"].

Definition ref_entry (m file : string) (bin : list byte) : PluginManifestEntry :=
  mkManifestEntry m file (digest_of bin).

Lemma ref_gm_items : pm_Items ref_gm = [ref_entry "module_1" "plugin_a" bin_a_new; ref_entry "module_3" "plugin_c" bin_c].
Proof. vm_compute. reflexivity. Qed.

Lemma ref_am_items : pm_Items ref_am = [ref_entry "module_1" "plugin_a" bin_a_old; ref_entry "module_2" "plugin_b" bin_b].
Proof. vm_compute. reflexivity. Qed.

(** ** The patch client: every interleaving of its goroutines, every failure of the disk,
    and what it achieves on a disk that works. *)

(** ** The goroutines of the patch client *)

Section Client.
Context {BS : Bsdiff} {B : Blake2b}.

(** The paths a patch works on. *)
Definition entry_paths (f : pluginFs) (rnd : string) (e : PatchSpec) : gset string :=
  match ps_Op e with
  | PatchOp_Create | PatchOp_Remove => {[resolve f (ps_Filename e)]}
  | PatchOp_Update => {[resolve f (ps_Filename e); temp_name f rnd; resolve f (temp_name f rnd)]}
  | PatchOp_Rename => {[resolve f (ps_Filename e); resolve f (bytes_str (ps_Data e))]}
  | _ => ∅
  end.

(** No goroutine makes more calls. *)
Definition max_calls : nat := 9.

Ltac within_tac :=
  repeat match goal with
         | |- within _ _ (match ?x with _ => _ end) => destruct x
         | |- within _ _ (Ret _) => done
         | |- within _ (S _) (Op _ _ _) =>
             split; [cbn; intros ? ?; set_solver | intros ?; cbn -[within temp_name resolve]]
         | |- within _ _ (Op _ _ _) => done
         | |- within _ _ (pbind (match ?x with _ => _ end) _) => destruct x
         | |- within _ _ (pbind (Op _ _ _) _) => cbn -[within temp_name resolve]
         | |- within _ _ (pbind (Ret _) _) => cbn -[within temp_name resolve]
         | |- within _ _ (pbind (pbind _ _) _) => cbn -[within temp_name resolve]
         end.

Lemma patch_entry_within f rnd e : within (entry_paths f rnd e) max_calls (patch_entry f rnd e).
Proof.
  unfold patch_entry, entry_paths, max_calls. destruct (ps_Op e).
  - done.
  - unfold doUpdate, apply_to_temp, replace_plugin, cleanup, pf_Stat, pf_ReadFile, pf_Chmod, pf_Rename,
      pf_Remove, ret_err, call. cbn -[within temp_name resolve]. within_tac.
  - unfold doCreate, pf_WriteFile, ret_err, call. cbn -[within resolve]. within_tac.
  - unfold doRemove, pf_Remove, ret_err, call. cbn -[within resolve]. within_tac.
  - unfold doRename, pf_Stat, pf_Rename, ret_err, call. cbn -[within resolve]. within_tac.
  - done.
Qed.

Context {D : Disk}.

Definition patch_budget (f : pluginFs) (rnds : list string) (patches : PatchList) : list (gset string * nat) :=
  zip_with (fun rnd e => (entry_paths f rnd e, max_calls)) rnds (pl_Items patches).

Lemma patch_budget_keeps f rnds patches : keeps (patch_budget f rnds patches) (patch_progs f rnds patches).
Proof.
  unfold patch_budget, patch_progs, keeps. generalize (pl_Items patches) as es.
  induction rnds as [|r rnds IH]; intros [|e es]; constructor; [apply patch_entry_within|apply IH].
Qed.

Lemma patch_budget_calls f rnds patches :
  calls_left (patch_budget f rnds patches) <= max_calls * length (pl_Items patches).
Proof.
  unfold patch_budget, calls_left, max_calls. generalize (pl_Items patches) as es.
  induction rnds as [|r rnds IH]; intros [|e es]; cbn -[Nat.mul]; try lia.
  specialize (IH es). unfold sum_list in *. cbn -[Nat.mul] in *. lia.
Qed.

(** The patches work on different paths. *)
Definition separate_patches (f : pluginFs) (rnds : list string) (patches : PatchList) : Prop :=
  separate (zip_with (entry_paths f) rnds (pl_Items patches)).

Lemma separate_budget f rnds patches :
  separate_patches f rnds patches -> separate (fst <$> patch_budget f rnds patches).
Proof.
  unfold separate_patches, patch_budget. generalize (pl_Items patches) as es. intros es.
  enough (zip_with (entry_paths f) rnds es =
    fst <$> zip_with (fun rnd e => (entry_paths f rnd e, max_calls)) rnds es) as -> by done.
  revert es. induction rnds as [|r rnds IH]; intros [|e es]; cbn; [done..|]. by rewrite <- IH.
Qed.

(** A call of [Patch] ends.  In every interleaving of its goroutines and whatever
    the disk refuses, at most nine file system calls are made per patch, and a schedule
    that cannot go on has brought every goroutine to its result. *)
Lemma Patch_terminates f rnds patches s k c :
  nsteps pstep k (s, patch_progs f rnds patches) c ->
  k <= max_calls * length (pl_Items patches) /\
  ((forall c', ~ pstep c c') -> finished c.2).
Proof.
  intros H. split.
  - etrans; [eapply schedule_bounded; [|exact H]; apply patch_budget_keeps|apply patch_budget_calls].
  - destruct c as [s' l]. apply stuck_finished.
Qed.

Lemma Patch_schedule f rnds patches s s' r :
  separate_patches f rnds patches -> Patch f rnds patches s s' r ->
  s' = (run_all (patch_progs f rnds patches) s).1 /\
  group_result (run_all (patch_progs f rnds patches) s).2 r.
Proof.
  intros Hsep (outs & Hr & Hg).
  destruct (schedules_agree _ _ _ _ _ _ _ (patch_budget_keeps f rnds patches)
    (separate_budget _ _ _ Hsep) Hr (run_all_schedule _ s)) as [-> ->]. done.
Qed.

(** The order of the goroutines does not matter.  When the patches work on
    different paths, every finished interleaving leaves the file system that running
    them one after the other leaves, with the same result for each, and there is
    always such a run. *)
Lemma Patch_order_irrelevant f rnds patches s s' r :
  separate_patches f rnds patches ->
  (Patch f rnds patches s s' r <->
   s' = (run_all (patch_progs f rnds patches) s).1 /\
   group_result (run_all (patch_progs f rnds patches) s).2 r).
Proof.
  intros Hsep. split; [by apply Patch_schedule|].
  intros [-> Hg]. exists (run_all (patch_progs f rnds patches) s).2. by split; [apply run_all_schedule|].
Qed.

(** ** Updates are atomic *)

(** The contents at [p] after a run: what was there before, or the whole of [d]. *)
Definition old_or (s s' : Fs) (p : string) (d : list byte) : Prop :=
  fs_files s' !! p = fs_files s !! p \/ exists m, fs_files s' !! p = Some (mkFile d m).

Definition patch_error (r : outcome unit) : Prop :=
  r = Ok tt \/ exists e, r = Err e /\ (StatusCode e = codes_Internal \/ StatusCode e = codes_Unavailable).

Lemma osErrf_code m e : StatusCode (osErrf m e) = codes_Internal \/ StatusCode (osErrf m e) = codes_Unavailable.
Proof. unfold osErrf. destruct (os_IsPermission e); cbn; auto. Qed.

Lemma patch_error_os m e : patch_error (Err (osErrf m e)).
Proof. right. eexists. split; [done|]. apply osErrf_code. Qed.

Lemma patch_error_ok : patch_error (Ok tt).
Proof. by left. Qed.

Hint Resolve patch_error_os patch_error_ok : core.

Lemma replace_plugin_run f e tmp perm s d m0 s' r :
  let p := resolve f (ps_Filename e) in
  resolve f tmp <> p -> fs_files s !! resolve f tmp = Some (mkFile d m0) ->
  run (replace_plugin f e tmp perm) s = (s', r) ->
  old_or s s' p d /\ (r = Ok tt -> exists m, fs_files s' !! p = Some (mkFile d m)) /\ patch_error r.
Proof.
  intros p Hne Ht. unfold replace_plugin, pf_Chmod, pf_Rename, call. cbn -[resolve]. fold p.
  destruct (fs_Chmod s (resolve f tmp) perm) as [s1 c1] eqn:E1.
  assert (fs_files s1 !! p = fs_files s !! p /\ exists m1, fs_files s1 !! resolve f tmp = Some (mkFile d m1)) as [Hp [m1 Ht1]].
  { apply Chmod_spec in E1 as [(e' & -> & ->)|[[-> ->]|(f' & -> & Hf & ->)]]; [eauto..|].
    cbn. simplify_map_eq. eauto. }
  destruct (fs_Rename s1 (resolve f tmp) p) as [s2 c2] eqn:E2.
  apply Rename_spec in E2 as [(e' & -> & ->)|(f' & -> & Hf & ->)].
  { intros [= <- <-]. split; [by left|]. split; [done|auto]. }
  simplify_eq. destruct c1 as [u|e1|q].
  - intros [= <- <-]. cbn. unfold old_or. cbn. simplify_map_eq. eauto 10.
  - cbn -[resolve]. destruct (fs_Chmod _ p perm) as [s3 c3] eqn:E3.
    apply Chmod_spec in E3 as [(e' & -> & ->)|[[-> ->]|(f' & -> & Hf' & ->)]];
      intros [= <- <-]; unfold old_or; cbn in *; simplify_map_eq; eauto 10.
  - apply Chmod_spec in E1 as [(? & ? & ?)|[[? ?]|(? & ? & ? & ?)]]; done.
Qed.

(** The plugin holds what the patch makes of [old], with the digest that was promised. *)
Definition updated (f : pluginFs) (e : PatchSpec) (old : list byte) (s' : Fs) : Prop :=
  exists d m, fs_files s' !! resolve f (ps_Filename e) = Some (mkFile d m) /\
    bspatch_Reader old (ps_Data e) = Ok d /\ digest_of d = ps_NewDigest e.

Definition update_post (f : pluginFs) (e : PatchSpec) (old : list byte) (s s' : Fs) (r : outcome unit) : Prop :=
  let p := resolve f (ps_Filename e) in
  (fs_files s' !! p = fs_files s !! p \/ updated f e old s') /\
  (r = Ok tt -> updated f e old s') /\ patch_error r.

Lemma update_post_err f e old s s' err :
  fs_files s' !! resolve f (ps_Filename e) = fs_files s !! resolve f (ps_Filename e) ->
  (StatusCode err = codes_Internal \/ StatusCode err = codes_Unavailable) ->
  update_post f e old s s' (Err err).
Proof. intros Hp Hc. split; [by left|]. split; [done|]. right. eauto. Qed.

Lemma update_post_frame f e old s0 s s' s1 r :
  let p := resolve f (ps_Filename e) in
  fs_files s0 !! p = fs_files s !! p -> fs_files s1 !! p = fs_files s' !! p ->
  update_post f e old s0 s1 r -> update_post f e old s s' r.
Proof. intros p H0 H1. unfold update_post, updated. fold p. rewrite H0, H1. done. Qed.

Lemma apply_to_temp_run f e old tmp perm s s' r :
  resolve f tmp = tmp -> tmp <> resolve f (ps_Filename e) -> is_Some (fs_files s !! tmp) ->
  run (apply_to_temp f e BsdiffPatcher old tmp perm) s = (s', r) -> update_post f e old s s' r.
Proof.
  intros Ht Hne [ft Hft]. unfold apply_to_temp. cbn [ApplyPatch].
  pose proof (bspatch_no_panic old (ps_Data e)) as Hnp.
  destruct (bspatch_Reader old (ps_Data e)) as [d|er|q] eqn:Ea; [|intros [= <- <-]; by apply update_post_err, osErrf_code|done].
  cbn -[replace_plugin]. destruct (fs_WriteTo s tmp d) as [s1 w] eqn:Ew.
  apply WriteTo_spec in Ew as [(er & -> & Hs)|(f1 & -> & _ & ->)].
  { intros [= <- <-]. apply update_post_err; [|apply osErrf_code].
    destruct Hs as [->|[f1 ->]]; [done|]. cbn. by simplify_map_eq. }
  case_decide as Hd; [|intros [= <- <-]; apply update_post_err; [cbn; by simplify_map_eq|by right]].
  intros Hr. apply replace_plugin_run with (d := d) (m0 := f_Mode f1) in Hr as (Ho & Hok & He);
    [|by rewrite Ht|rewrite Ht; cbn; by simplify_map_eq].
  split_and!; [| |done].
  - destruct Ho as [Ho|[m Ho]]; [left; rewrite Ho; cbn; by simplify_map_eq|]. right. exists d, m. auto.
  - intros [m Hm]%Hok. exists d, m. auto.
Qed.

Lemma cleanup_run f tmp res s s' r p :
  resolve f tmp = tmp -> tmp <> p -> run (cleanup f tmp res) s = (s', r) ->
  r = res /\ fs_files s' !! p = fs_files s !! p.
Proof.
  intros Ht Hne. unfold cleanup, pf_Stat, pf_Remove, call. cbn -[resolve]. rewrite Ht.
  destruct (fs_Stat s tmp); [|by intros [= <- <-]..]. cbn.
  destruct (fs_Remove s tmp) as [s1 o] eqn:E. intros [= <- <-]. split; [done|].
  apply Remove_spec in E as [(e & _ & ->)|[_ ->]]; cbn; by simplify_map_eq.
Qed.

Lemma NewPatcherFromFormat_bsdiff d q : NewPatcherFromFormat d = Some q -> q = BsdiffPatcher.
Proof. by destruct q. Qed.

(** C32: an update replaces a plugin atomically.  Whichever calls the disk refuses, the
    plugin file afterwards is what it was, or exactly the patched contents, with the
    digest the gateway announced; a nil result means the latter, and that the file the
    patch was applied to had the old digest.  Every other result is an error with code
    Internal or Unavailable. *)
Theorem doUpdate_atomic f rnd e s s' r :
  let p := resolve f (ps_Filename e) in
  resolve f (temp_name f rnd) = temp_name f rnd -> temp_name f rnd <> p ->
  run (doUpdate f rnd e) s = (s', r) ->
  patch_error r /\
  ((fs_files s' !! p = fs_files s !! p /\ r <> Ok tt) \/
   exists old, (f_Data <$> fs_files s !! p) = Some old /\ digest_of old = ps_OldDigest e /\ updated f e old s').
Proof.
  intros p Ht Hne. unfold doUpdate, pf_Stat, pf_ReadFile, call. cbn -[resolve temp_name apply_to_temp cleanup].
  fold p. destruct (fs_Stat s p) as [i|er|q] eqn:Es;
    [|intros [= <- <-]; split; [auto|by left]|by apply Stat_spec in Es as [[? ?]|(? & ? & _)]].
  cbn -[resolve temp_name apply_to_temp cleanup]. fold p.
  destruct (fs_ReadFile s p) as [old|er|q] eqn:Er;
    [|intros [= <- <-]; split; [auto|by left]|by apply ReadFile_spec in Er as [[? ?]|(? & ? & _)]].
  apply ReadFile_spec in Er as [[? ?]|(fl & [= ->] & Hfl)]; [done|]. cbn -[resolve temp_name apply_to_temp cleanup].
  case_decide as Hold; [|intros [= <- <-]; (split; [right; eexists; split; [done|by right]|by left])].
  destruct (NewPatcherFromFormat (ps_Data e)) as [[]|] eqn:Ep;
    [|intros [= <- <-]; (split; [right; eexists; split; [done|by left]|by left])].
  cbn -[resolve temp_name apply_to_temp cleanup].
  destruct (fs_CreateExcl s (temp_name f rnd)) as [s1 c] eqn:Ec.
  apply CreateExcl_spec in Ec as [(er & -> & ->)|(m & -> & Hn & ->)];
    [intros [= <- <-]; (split; [right; eexists; split; [done|by left]|by left])|].
  rewrite run_pbind. destruct (run (apply_to_temp _ _ _ _ _ _) _) as [s2 r2] eqn:Ea.
  apply apply_to_temp_run in Ea as (Ho & Hok & He); [|done..|cbn; by simplify_map_eq].
  cbn [fst snd]. intros [<- Hp]%(cleanup_run _ _ _ _ _ _ p); [|done..].
  split; [done|]. unfold updated in *. fold p in Ho, Hok |- *. rewrite Hp. cbn in Ho. simplify_map_eq.
  destruct (decide (r = Ok tt)) as [Hr|Hr]; [right; exists (f_Data fl); auto|].
  destruct Ho as [Ho|Ho]; [left; by rewrite Ho|right; exists (f_Data fl); auto].
Qed.
End Client.

(** ** A disk that works *)

Section Reliable.
Context {BS : Bsdiff} {B : Blake2b} {D : Disk}.
Hypothesis HR : Reliable D.
Variable f : pluginFs.

Notation rp := (resolve f).

(** A path a plugin can be written to. *)
Definition plain (s : Fs) (p : string) : Prop := p <> "" /\ p ∉ fs_dirs s.

(** The patch fits the files it is meant for. *)
Definition applicable (rnd : string) (s : Fs) (e : PatchSpec) : Prop :=
  plain s (rp (ps_Filename e)) /\
  match ps_Op e with
  | PatchOp_Create => digest_of (ps_Data e) = ps_NewDigest e
  | PatchOp_Update =>
      resolve f (temp_name f rnd) = temp_name f rnd /\ temp_name f rnd <> rp (ps_Filename e) /\
      temp_name f rnd ∉ fs_dirs s /\ fs_files s !! temp_name f rnd = None /\
      exists fl d, fs_files s !! rp (ps_Filename e) = Some fl /\ digest_of (f_Data fl) = ps_OldDigest e /\
        NewPatcherFromFormat (ps_Data e) = Some BsdiffPatcher /\
        bspatch_Reader (f_Data fl) (ps_Data e) = Ok d /\ digest_of d = ps_NewDigest e
  | PatchOp_Rename =>
      plain s (rp (bytes_str (ps_Data e))) /\ fs_files s !! rp (bytes_str (ps_Data e)) = None /\
      exists fl, fs_files s !! rp (ps_Filename e) = Some fl /\ digest_of (f_Data fl) = ps_NewDigest e
  | PatchOp_Remove | PatchOp_None => True
  | PatchOp_Unknown _ => False
  end.

Definition holds (s : Fs) (p digest : string) : Prop :=
  exists fl, fs_files s !! p = Some fl /\ digest_of (f_Data fl) = digest.

(** What a patch is for. *)
Definition achieved (rnd : string) (e : PatchSpec) (s' : Fs) : Prop :=
  match ps_Op e with
  | PatchOp_Create => holds s' (rp (ps_Filename e)) (ps_NewDigest e)
  | PatchOp_Update =>
      holds s' (rp (ps_Filename e)) (ps_NewDigest e) /\ fs_files s' !! temp_name f rnd = None
  | PatchOp_Rename =>
      holds s' (rp (bytes_str (ps_Data e))) (ps_NewDigest e) /\ fs_files s' !! rp (ps_Filename e) = None
  | PatchOp_Remove => fs_files s' !! rp (ps_Filename e) = None
  | _ => True
  end.

Lemma achieved_agree rnd e s1 s2 :
  agree (entry_paths f rnd e) s1 s2 -> achieved rnd e s1 -> achieved rnd e s2.
Proof.
  unfold achieved, entry_paths, holds. intros [_ HA]. destruct (ps_Op e); try done;
    rewrite !HA by set_solver; done.
Qed.

Lemma fault_none c p : disk_fault c p = None.
Proof. apply HR. Qed.

Ltac reliable := rewrite ?fault_none; cbn -[resolve temp_name].

Lemma doCreate_reliable rnd e s :
  ps_Op e = PatchOp_Create -> applicable rnd s e ->
  (run (doCreate f e) s).2 = Ok tt /\ achieved rnd e (run (doCreate f e) s).1.
Proof.
  unfold applicable, achieved. intros -> [[Hn Hd] Hdig]. unfold doCreate, pf_WriteFile, call. cbn -[resolve].
  unfold fs_WriteFile, fs_fill. reliable. rewrite !decide_False by done. cbn -[resolve].
  split; [done|]. eexists. split; [by simplify_map_eq|done].
Qed.

Lemma doRemove_reliable rnd e s :
  ps_Op e = PatchOp_Remove -> applicable rnd s e ->
  (run (doRemove f e) s).2 = Ok tt /\ achieved rnd e (run (doRemove f e) s).1.
Proof.
  unfold applicable, achieved. intros -> [[Hn Hd] _]. unfold doRemove, pf_Remove, call. cbn -[resolve].
  unfold fs_Remove. reliable. destruct (fs_files s !! rp (ps_Filename e)) eqn:E; cbn -[resolve].
  - split; [done|]. by simplify_map_eq.
  - by rewrite decide_False by done.
Qed.

Lemma doRename_reliable rnd e s :
  ps_Op e = PatchOp_Rename -> applicable rnd s e ->
  (run (doRename f e) s).2 = Ok tt /\ achieved rnd e (run (doRename f e) s).1.
Proof.
  unfold applicable, achieved. intros -> [[Hn Hd] ([Hn' Hd'] & Hfree & fl & Hfl & Hdig)].
  unfold doRename, pf_Stat, pf_Rename, call. cbn -[resolve].
  unfold fs_Stat, faulty. reliable. rewrite Hfree, decide_False by done. cbn -[resolve].
  unfold fs_Rename. reliable. rewrite Hfl, !decide_False by done. cbn -[resolve].
  assert (rp (ps_Filename e) <> rp (bytes_str (ps_Data e))) by congruence.
  split; [done|]. split; [eexists; split; [by simplify_map_eq|done]|by simplify_map_eq].
Qed.

Lemma replace_plugin_reliable e tmp perm s d m0 :
  let p := rp (ps_Filename e) in
  rp tmp = tmp -> tmp <> p -> plain s p -> fs_files s !! tmp = Some (mkFile d m0) ->
  run (replace_plugin f e tmp perm) s =
  (set_files s (<[p := mkFile d perm]> (delete tmp (fs_files s))), Ok tt).
Proof.
  intros p Ht Hne [Hn Hd] Htmp. unfold replace_plugin, pf_Chmod, pf_Rename, call. cbn -[resolve].
  rewrite Ht. fold p. unfold fs_Chmod. reliable. rewrite Htmp. cbn.
  unfold fs_Rename. reliable. cbn. simplify_map_eq.
  by rewrite delete_insert_eq.
Qed.

Lemma doUpdate_reliable rnd e s :
  ps_Op e = PatchOp_Update -> applicable rnd s e ->
  (run (doUpdate f rnd e) s).2 = Ok tt /\ achieved rnd e (run (doUpdate f rnd e) s).1.
Proof.
  unfold applicable, achieved. intros -> (Hpl & Ht & Hne & Htd & Hfree & fl & d & Hfl & Hold & Hp & Ha & Hnew).
  unfold doUpdate, pf_Stat, pf_ReadFile, call. cbn -[resolve temp_name apply_to_temp cleanup].
  unfold fs_Stat, faulty. rewrite fault_none, Hfl. cbn -[resolve temp_name apply_to_temp cleanup].
  unfold fs_ReadFile, faulty. rewrite fault_none, Hfl. cbn -[resolve temp_name apply_to_temp cleanup].
  rewrite decide_True by done. rewrite Hp. cbn -[resolve temp_name apply_to_temp cleanup].
  unfold fs_CreateExcl. rewrite fault_none, Hfree, decide_False by done.
  cbn -[resolve temp_name apply_to_temp cleanup]. rewrite run_pbind.
  unfold apply_to_temp. cbn [ApplyPatch]. rewrite Ha. cbn -[resolve temp_name replace_plugin cleanup].
  unfold fs_WriteTo. cbn -[resolve temp_name replace_plugin cleanup]. simplify_map_eq.
  unfold fs_fill. rewrite fault_none. cbn -[resolve temp_name replace_plugin cleanup].
  erewrite replace_plugin_reliable; [|done|done|done|cbn -[resolve temp_name]; by simplify_map_eq].
  cbn -[resolve temp_name]. unfold cleanup, pf_Stat, call. cbn -[resolve temp_name].
  unfold fs_Stat, faulty. rewrite fault_none, Ht. cbn -[resolve temp_name].
  simplify_map_eq. split; [done|].
  split; [eexists; split; [by simplify_map_eq|done]|by simplify_map_eq].
Qed.

Lemma patch_entry_reliable rnd e s :
  applicable rnd s e ->
  (run (patch_entry f rnd e) s).2 = Ok tt /\ achieved rnd e (run (patch_entry f rnd e) s).1.
Proof.
  intros Ha. unfold patch_entry. destruct (ps_Op e) eqn:Eo.
  - split; [done|]. unfold achieved. by rewrite Eo.
  - by apply doUpdate_reliable.
  - by apply doCreate_reliable.
  - by apply doRemove_reliable.
  - by apply doRename_reliable.
  - unfold applicable in Ha. rewrite Eo in Ha. by destruct Ha.
Qed.

(** Patches that fit are applied.  On a disk that works, whenever the patches work
    on different paths and fit the files they are meant for, every interleaving of
    [Patch] returns nil, brings every plugin to its new digest and place, leaves no
    temporary file and touches nothing else. *)
Lemma Patch_applied rnds patches s s' r :
  length rnds = length (pl_Items patches) -> separate_patches f rnds patches ->
  (forall i rnd e, rnds !! i = Some rnd -> pl_Items patches !! i = Some e -> applicable rnd s e) ->
  Patch f rnds patches s s' r ->
  r = Ok tt /\
  (forall i rnd e, rnds !! i = Some rnd -> pl_Items patches !! i = Some e -> achieved rnd e s') /\
  (forall p, (forall i rnd e, rnds !! i = Some rnd -> pl_Items patches !! i = Some e -> p ∉ entry_paths f rnd e) ->
     fs_files s' !! p = fs_files s !! p) /\
  fs_dirs s' = fs_dirs s.
Proof.
  intros Hlen Hsep Happ (outs & Hr & Hg).
  destruct (interleaving_local _ _ _ _ _ (patch_budget_keeps f rnds patches) (separate_budget _ _ _ Hsep) Hr)
    as (Hl & Hd & HL & Ho).
  assert (forall i rnd e, rnds !! i = Some rnd -> pl_Items patches !! i = Some e ->
    outs !! i = Some (Ok tt) /\ achieved rnd e s') as Hi.
  { intros i rnd e Hrnd He.
    assert (patch_progs f rnds patches !! i = Some (patch_entry f rnd e)) as Hp
      by (unfold patch_progs; by rewrite lookup_zip_with, Hrnd; cbn; rewrite He).
    assert (patch_budget f rnds patches !! i = Some (entry_paths f rnd e, max_calls)) as Hb
      by (unfold patch_budget; by rewrite lookup_zip_with, Hrnd; cbn; rewrite He).
    pose proof (lookup_lt_Some _ _ _ Hp) as Hlt. rewrite length_fmap in Hl.
    destruct (lookup_lt_is_Some_2 outs i) as [o Hout]; [lia|].
    destruct (HL i _ _ _ _ Hp (Ret_fmap_lookup _ _ _ Hout) Hb) as [Ex HA]. cbn in Ex, HA.
    destruct (patch_entry_reliable rnd e s (Happ i rnd e Hrnd He)) as [Eok Hach].
    split; [congruence|]. by eapply achieved_agree. }
  split_and!; [| |intros p Hp|done].
  - destruct Hg as [[_ ->]|[Hin Hne]]; [done|]. apply list_elem_of_lookup in Hin as [i Hout].
    pose proof (lookup_lt_Some _ _ _ Hout) as Hlt. rewrite length_fmap in Hl. unfold patch_progs in Hl.
    rewrite length_zip_with in Hl.
    destruct (lookup_lt_is_Some_2 rnds i) as [rnd Hrnd]; [lia|].
    destruct (lookup_lt_is_Some_2 (pl_Items patches) i) as [e He]; [lia|].
    destruct (Hi i rnd e Hrnd He) as [? _]. congruence.
  - intros i rnd e Hrnd He. by apply (Hi i).
  - apply Ho. intros F (Fn & -> & Hin)%list_elem_of_fmap. unfold patch_budget in Hin.
    apply list_elem_of_lookup in Hin as [i Hi']. rewrite lookup_zip_with in Hi'.
    destruct (rnds !! i) as [rnd|] eqn:Hrnd; [|done]. cbn in Hi'.
    destruct (pl_Items patches !! i) as [e|] eqn:He; [|done]. cbn in Hi'. simplify_eq. by eapply Hp.
Qed.
End Reliable.

(** ** Witnesses *)

Definition ref_update : PatchSpec :=
  mkPatchSpec "module_1" PatchOp_Update (bsdiff_header ++ bin_a_new) "plugin_a" (digest_of bin_a_old) (digest_of bin_a_new).
Definition ref_create : PatchSpec :=
  mkPatchSpec "module_3" PatchOp_Create bin_c "plugin_c" "" (digest_of bin_c).
Definition ref_remove : PatchSpec := mkPatchSpec "module_2" PatchOp_Remove [] "plugin_b" (digest_of bin_b) "".
Definition ref_patches : PatchList := mkPatchList [ref_update; ref_create; ref_remove].

Lemma ref_separate : separate_patches ref_pfs ref_rnds ref_patches.
Proof.
  intros i j F G Hij HF HG.
  assert (forall (F G : gset string), bool_decide (F ## G) = true -> F ## G) as Hdec
    by (intros ? ?; apply bool_decide_eq_true).
  destruct i as [|[|[|i]]], j as [|[|[|j]]]; cbn in HF, HG; try done; simplify_eq;
    apply Hdec; vm_compute; reflexivity.
Qed.

Lemma doUpdate_atomic_witness :
  exists s', run (doUpdate ref_pfs "1" ref_update) ref_agent_fs = (s', Ok tt) /\ updated ref_pfs ref_update bin_a_old s'.
Proof.
  destruct (run (doUpdate ref_pfs "1" ref_update) ref_agent_fs) as [s' r] eqn:E.
  assert (r = Ok tt) as -> by (apply (f_equal snd) in E; vm_compute in E; by symmetry).
  exists s'. split; [reflexivity|].
  destruct (doUpdate_atomic ref_pfs "1" ref_update ref_agent_fs s' (Ok tt)) as [_ [[_ []]|(old & Ho & _ & Hu)]];
    [vm_compute; reflexivity|vm_compute; discriminate|exact E|reflexivity|].
  vm_compute in Ho. injection Ho as <-. exact Hu.
Defined.
