(* ===== verification/PatchCache.v ===== *)
(** The patch cache of the gateway: the paths of its files, what it hands out, what it
    keeps through its operations, and its garbage collection. *)

From S2P Require Import Prelude GoStd Util CoreV1 Tokens Base64 Crypto OsFs Patch PatchProps.
From Stdlib Require Import Ascii.

Local Open Scope string_scope.

(** ** Digests and the paths of the cache *)

(** Sixty-four hexadecimal digits. *)
Definition hexdigest (d : string) : Prop :=
  String.length d = 64 /\ str_all is_hex d = true.

Lemma digest_of_hex `{Blake2b} data : hexdigest (digest_of data).
Proof.
  split; [unfold digest_of; by rewrite hex_Encode_length, b2b_Sum256_length|].
  apply hex_Encode_hex, b2b_Sum256_bytes.
Qed.

Lemma hexdigest_plain d : hexdigest d -> plain_component d = true.
Proof.
  intros [Hl Hd]. apply plain_component_spec. split; [by apply hex_no_char|].
  split_and!; intros ->; done.
Qed.

Lemma str_app_inj_len (a b c d : string) :
  String.length a = String.length b -> a +:+ c = b +:+ d -> a = b /\ c = d.
Proof.
  revert b. induction a as [|x a IH]; intros [|y b]; cbn; try done.
  intros [= Hl]. rewrite !str_app_cons. intros [= -> He]. destruct (IH b Hl He) as [-> ->]. done.
Qed.

Lemma PatchKey_inj o n o' n' :
  hexdigest o -> hexdigest o' -> PatchKey o n = PatchKey o' n' -> o = o' /\ n = n'.
Proof.
  intros [Ho _] [Ho' _] H. unfold PatchKey in H. apply str_app_inj_len in H as [-> H]; [|congruence].
  by apply (str_app_inj_l "-to-") in H as ->.
Qed.

Lemma PatchKey_plain o n : hexdigest o -> hexdigest n -> plain_component (PatchKey o n) = true.
Proof.
  intros [Hlo Ho] [Hln Hn]. apply plain_component_spec. split.
  { unfold PatchKey, no_char. rewrite !str_all_app.
    rewrite !andb_true_iff. split; [exact (hex_no_char slash o eq_refl Ho)|].
    split; [done|exact (hex_no_char slash n eq_refl Hn)]. }
  assert (String.length (PatchKey o n) = 132) as Hl
    by (unfold PatchKey; rewrite !str_length_app, Hlo, Hln; done).
  split_and!; intros E; rewrite E in Hl; done.
Qed.

Section Paths.
Variable dir : string.

Definition plugin_path (d : string) : string := cache_path dir ["plugins"; d].
Definition patch_path (o n : string) : string := cache_path dir ["patches"; PatchKey o n].
Definition plugins_dir : string := cache_path dir ["plugins"].
Definition patches_dir : string := cache_path dir ["patches"].

Lemma plugin_path_child d : hexdigest d -> plugin_path d = plugins_dir +:+ "/" +:+ d.
Proof. intros H. apply path_Join_child; [done|by apply hexdigest_plain]. Qed.

Lemma patch_path_child o n : hexdigest o -> hexdigest n -> patch_path o n = patches_dir +:+ "/" +:+ PatchKey o n.
Proof. intros Ho Hn. apply path_Join_child; [done|by apply PatchKey_plain]. Qed.

Lemma plugin_path_inj d d' : hexdigest d -> hexdigest d' -> plugin_path d = plugin_path d' -> d = d'.
Proof. intros H H'. rewrite !plugin_path_child by done. by intros ?%str_app_inj_l%str_app_inj_l. Qed.

Lemma patch_path_inj o n o' n' :
  hexdigest o -> hexdigest n -> hexdigest o' -> hexdigest n' -> patch_path o n = patch_path o' n' -> o = o' /\ n = n'.
Proof.
  intros Ho Hn Ho' Hn'. rewrite !patch_path_child by done. intros ?%str_app_inj_l%str_app_inj_l.
  by apply PatchKey_inj.
Qed.

Lemma plugins_patches_ne x y : plugins_dir +:+ "/" +:+ x <> patches_dir +:+ "/" +:+ y.
Proof.
  unfold plugins_dir, patches_dir, cache_path. rewrite !path_Join_dir by done.
  rewrite !str_app_assoc. intros H%str_app_inj_l. done.
Qed.

Lemma plugin_patch_ne d o n : hexdigest d -> hexdigest o -> hexdigest n -> plugin_path d <> patch_path o n.
Proof. intros Hd Ho Hn. rewrite plugin_path_child, patch_path_child by done. apply plugins_patches_ne. Qed.
End Paths.

(** ** Removal *)

Section Removal.
Context {D : Disk}.
Variable dir : string.

Lemma Remove_files s p : fs_files (fs_Remove s p).1 = fs_files s \/
  fs_files (fs_Remove s p).1 = delete p (fs_files s).
Proof. destruct (fs_Remove s p) as [s' o] eqn:E. apply Remove_spec in E as [(e & _ & ->)|[_ ->]]; auto. Qed.

Lemma Remove_subset s p : fs_files (fs_Remove s p).1 ⊆ fs_files s.
Proof. destruct (Remove_files s p) as [->| ->]; [done|apply delete_subseteq]. Qed.

Lemma Remove_keeps s p q : p <> q -> fs_files (fs_Remove s p).1 !! q = fs_files s !! q.
Proof. intros H. destruct (Remove_files s p) as [->| ->]; [done|by apply lookup_delete_ne]. Qed.

Lemma Remove_reliable s p : Reliable D -> fs_files (fs_Remove s p).1 !! p = None.
Proof.
  intros HR. unfold fs_Remove. rewrite HR. destruct (fs_files s !! p) eqn:E; cbn; [by simplify_map_eq|done].
Qed.

Lemma remove_all_subset ps s : fs_files (remove_all ps s) ⊆ fs_files s.
Proof.
  unfold remove_all. revert s. induction ps as [|p ps IH]; intros s; cbn; [done|].
  etrans; [apply IH|apply Remove_subset].
Qed.

Lemma remove_all_keeps ps s q : q ∉ ps -> fs_files (remove_all ps s) !! q = fs_files s !! q.
Proof.
  unfold remove_all. revert s. induction ps as [|p ps IH]; intros s; cbn; [done|].
  rewrite not_elem_of_cons. intros [Hp Hps]. rewrite IH by done. by apply Remove_keeps.
Qed.

Lemma subset_None (m1 m2 : gmap string File) p : m1 ⊆ m2 -> m2 !! p = None -> m1 !! p = None.
Proof. intros H Hn. by eapply lookup_weaken_None. Qed.

Lemma remove_all_reliable ps s q : Reliable D -> q ∈ ps -> fs_files (remove_all ps s) !! q = None.
Proof.
  intros HR. unfold remove_all. revert s. induction ps as [|p ps IH]; intros s Hin; cbn.
  - by apply not_elem_of_nil in Hin.
  - apply elem_of_cons in Hin as [->|Hin]; [|by apply IH].
    eapply subset_None; [apply remove_all_subset|by apply Remove_reliable].
Qed.

Lemma clean_one_subset s h : fs_files (clean_one dir s h) ⊆ fs_files s.
Proof. unfold clean_one. etrans; [apply remove_all_subset|apply Remove_subset]. Qed.

Lemma Clean_subset hs s : fs_files (Clean dir hs s) ⊆ fs_files s.
Proof.
  unfold Clean. revert s. induction hs as [|h hs IH]; intros s; cbn; [done|].
  etrans; [apply IH|apply clean_one_subset].
Qed.

(** *** The names of a directory *)

Lemma name_in_child d n : no_char slash n = true -> n <> "" -> name_in d (d +:+ "/" +:+ n) = Some n.
Proof.
  intros Hn Hne. unfold name_in. rewrite <- str_app_assoc, TrimPrefix_app, HasPrefix_app, Hn.
  by rewrite bool_decide_eq_false_2 by done.
Qed.

Lemma name_in_Some d p n : name_in d p = Some n -> p = d +:+ "/" +:+ n /\ no_char slash n = true /\ n <> "".
Proof.
  unfold name_in. destruct (HasPrefix p (d +:+ "/")) eqn:E; [|done].
  apply HasPrefix_spec in E as [t ->]. rewrite TrimPrefix_app.
  destruct (no_char slash t) eqn:Et; [|done]. cbn. case_bool_decide; [done|]. intros [= <-].
  split; [|done]. by rewrite str_app_assoc.
Qed.

Lemma ReadDir_elem s d names n :
  fs_ReadDir s d = Ok names -> n ∈ names <->
  is_Some (fs_files s !! (d +:+ "/" +:+ n)) /\ no_char slash n = true /\ n <> "".
Proof.
  unfold fs_ReadDir, faulty. destruct (disk_fault CReadDir d); [done|]. intros [= <-].
  rewrite merge_sort_Permutation, list_elem_of_omap. split.
  - intros (p & Hp & (-> & Hn & Hne)%name_in_Some).
    apply list_elem_of_fmap in Hp as ([p' fl] & Hp' & Hin). cbn in Hp'. subst p'.
    apply elem_of_map_to_list in Hin. rewrite Hin. eauto.
  - intros ([fl Hfl] & Hn & Hne). exists (d +:+ "/" +:+ n). split; [|by apply name_in_child].
    apply list_elem_of_fmap. exists (d +:+ "/" +:+ n, fl). split; [done|]. by apply elem_of_map_to_list.
Qed.

Lemma Glob_elem s d m p :
  p ∈ fs_Glob s d m -> exists n, p = d +:+ "/" +:+ n /\ m n = true /\ is_Some (fs_files s !! p).
Proof.
  unfold fs_Glob. destruct (fs_ReadDir s d) as [names| |] eqn:E; [|by intros ?%not_elem_of_nil..].
  intros (n & -> & [Hm Hn]%list_elem_of_filter)%list_elem_of_fmap. exists n. split; [done|]. split; [done|].
  by apply (ReadDir_elem _ _ _ _ E) in Hn as [? _].
Qed.

Lemma Glob_complete s d m n :
  Reliable D -> m n = true -> is_Some (fs_files s !! (d +:+ "/" +:+ n)) -> no_char slash n = true -> n <> "" ->
  d +:+ "/" +:+ n ∈ fs_Glob s d m.
Proof.
  intros HR Hm Hs Hn Hne. unfold fs_Glob.
  destruct (fs_ReadDir s d) as [names| |] eqn:E;
    [|unfold fs_ReadDir, faulty in E; by rewrite HR in E..].
  apply list_elem_of_fmap. exists n. split; [done|]. apply list_elem_of_filter. split; [done|].
  by apply (ReadDir_elem _ _ _ _ E).
Qed.

(** *** Which patches [Clean] finds *)

Lemma PatchKey_prefix o n h : hexdigest o -> hexdigest h -> HasPrefix (PatchKey o n) (h +:+ "-to-") = true <-> h = o.
Proof.
  intros [Ho _] [Hh _]. rewrite HasPrefix_spec. split.
  - intros [t Ht]. unfold PatchKey in Ht. rewrite str_app_assoc in Ht.
    apply str_app_inj_len in Ht as [-> _]; [done|congruence].
  - intros ->. exists n. unfold PatchKey. by rewrite str_app_assoc.
Qed.

Lemma PatchKey_suffix o n h : hexdigest o -> hexdigest n -> hexdigest h -> HasSuffix (PatchKey o n) ("-to-" +:+ h) = true <-> h = n.
Proof.
  intros [Ho _] [Hn _] [Hh _]. unfold HasSuffix, PatchKey. rewrite !str_length_app, Ho, Hn, Hh.
  cbn [Nat.leb Nat.add Nat.sub String.length andb]. rewrite bool_decide_eq_true.
  rewrite <- Ho, drop_str_app. split; [|by intros ->]. by intros ->%(str_app_inj_l "-to-").
Qed.

Lemma patches_of_elem s h p :
  p ∈ patches_of dir s h -> exists n, p = patches_dir dir +:+ "/" +:+ n /\
    (HasSuffix n ("-to-" +:+ h) = true \/ HasPrefix n (h +:+ "-to-") = true).
Proof.
  unfold patches_of. rewrite elem_of_app. intros [(n & -> & Hm & _)%Glob_elem|(n & -> & Hm & _)%Glob_elem]; eauto.
Qed.

Lemma clean_one_keeps_plugin s h d :
  hexdigest h -> hexdigest d -> d <> h ->
  fs_files (clean_one dir s h) !! plugin_path dir d = fs_files s !! plugin_path dir d.
Proof.
  intros Hh Hd Hne. unfold clean_one. rewrite remove_all_keeps.
  - apply Remove_keeps. by intros E%(plugin_path_inj dir h d).
  - intros (n & Hp & _)%patches_of_elem. rewrite plugin_path_child in Hp by done. by apply plugins_patches_ne in Hp.
Qed.

Lemma clean_one_keeps_patch s h o n :
  hexdigest h -> hexdigest o -> hexdigest n -> o <> h -> n <> h ->
  fs_files (clean_one dir s h) !! patch_path dir o n = fs_files s !! patch_path dir o n.
Proof.
  intros Hh Ho Hn Hoh Hnh. unfold clean_one. rewrite remove_all_keeps.
  - apply Remove_keeps. by apply plugin_patch_ne.
  - intros (k & Hp & Hk)%patches_of_elem. rewrite patch_path_child in Hp by done.
    apply str_app_inj_l, (str_app_inj_l "/") in Hp as <-.
    rewrite PatchKey_prefix, PatchKey_suffix in Hk by done. destruct Hk; congruence.
Qed.

Lemma clean_one_removes s h o n :
  Reliable D -> hexdigest h -> hexdigest o -> hexdigest n -> o = h \/ n = h ->
  fs_files (clean_one dir s h) !! plugin_path dir h = None /\
  fs_files (clean_one dir s h) !! patch_path dir o n = None.
Proof.
  intros HR Hh Ho Hn Hor. unfold clean_one. split.
  - eapply subset_None; [apply remove_all_subset|by apply Remove_reliable].
  - set (s1 := (fs_Remove s (cache_path dir ["plugins"; h])).1).
    destruct (fs_files s1 !! patch_path dir o n) as [fl|] eqn:E;
      [|by eapply subset_None; [apply remove_all_subset|]].
    apply remove_all_reliable; [done|]. rewrite patch_path_child in E |- * by done.
    pose proof (PatchKey_plain o n Ho Hn) as (Hs & Hne & _)%plain_component_spec.
    unfold patches_of. rewrite elem_of_app. destruct Hor as [<-|<-]; [right|left];
      apply Glob_complete; eauto; [by apply PatchKey_prefix|by apply PatchKey_suffix].
Qed.

(** A digest that is not cleaned keeps its plugin, and a patch between two such digests
    stays. *)
Lemma Clean_keeps hs s o n :
  Forall hexdigest hs -> hexdigest o -> hexdigest n -> o ∉ hs -> n ∉ hs ->
  fs_files (Clean dir hs s) !! plugin_path dir o = fs_files s !! plugin_path dir o /\
  fs_files (Clean dir hs s) !! patch_path dir o n = fs_files s !! patch_path dir o n.
Proof.
  intros Hhs Ho Hn. unfold Clean. revert s. induction Hhs as [|h hs Hh _ IH]; intros s; cbn; [done|].
  rewrite !not_elem_of_cons. intros [Ho1 Ho2] [Hn1 Hn2]. destruct (IH (clean_one dir s h) Ho2 Hn2) as [-> ->].
  by rewrite clean_one_keeps_plugin, clean_one_keeps_patch.
Qed.

Lemma Clean_removes hs s h o n :
  Reliable D -> Forall hexdigest hs -> h ∈ hs -> hexdigest o -> hexdigest n -> o = h \/ n = h ->
  fs_files (Clean dir hs s) !! plugin_path dir h = None /\
  fs_files (Clean dir hs s) !! patch_path dir o n = None.
Proof.
  intros HR Hhs Hin Ho Hn Hor. unfold Clean. revert s. induction Hhs as [|h' hs Hh' Hhs IH]; intros s; cbn.
  - by apply not_elem_of_nil in Hin.
  - apply elem_of_cons in Hin as [->|Hin]; [|by apply IH].
    destruct (clean_one_removes s h' o n HR Hh' Ho Hn Hor) as [H1 H2].
    split; (eapply subset_None; [apply Clean_subset|done]).
Qed.
End Removal.

(** ** What the cache hands out *)

Section Cache.
Context {D : Disk} {BS : Bsdiff} {B : Blake2b} {ZS : Zstd}.
Variable dir : string.

(** A valid copy of the plugin with digest [d] is in the cache. *)
Definition cached (s : Fs) (d : string) (data : list byte) : Prop :=
  exists fl, fs_files s !! plugin_path dir d = Some fl /\ zstd_decompress (f_Data fl) = Ok data /\ digest_of data = d.

Lemma GetPlugin_spec h s s' o :
  GetPlugin dir h s = (s', o) ->
  (exists data, o = Ok data /\ cached s h data /\ s' = s) \/ (exists e, o = Err e /\ fs_files s' ⊆ fs_files s).
Proof.
  unfold GetPlugin, read_fs, wbind, wlift, wret. fold (plugin_path dir h).
  destruct (fs_ReadFile s (plugin_path dir h)) as [src|e|q] eqn:E;
    [|intros [= <- <-]; eauto|by apply ReadFile_spec in E as [[? ?]|(? & ? & _)]].
  apply ReadFile_spec in E as [[? ?]|(fl & [= ->] & Hfl)]; [done|].
  pose proof (zstd_no_panic (f_Data fl)) as Hz.
  destruct (zstd_decompress (f_Data fl)) as [data|e|q] eqn:Ed; [|intros [= <- <-]; eauto|done].
  case_decide as Hdig; intros [= <- <-]; [left; exists data; split; [done|]; split; [by exists fl|done]|].
  right. eexists. split; [done|]. apply (Clean_subset dir [h]).
Qed.

Lemma GetPlugin_cached h s data : Reliable D -> cached s h data -> GetPlugin dir h s = (s, Ok data).
Proof.
  intros HR (fl & Hfl & Hd & Hdig). unfold GetPlugin, read_fs, wbind, wlift, wret, fs_ReadFile, faulty.
  rewrite HR. fold (plugin_path dir h). rewrite Hfl, Hd. by rewrite decide_True.
Qed.

Lemma GetPlugin_missing h s :
  Reliable D -> fs_files s !! plugin_path dir h = None -> plugin_path dir h ∉ fs_dirs s ->
  GetPlugin dir h s = (s, Err os_ErrNotExist).
Proof.
  intros HR Hn Hd. unfold GetPlugin, read_fs, wbind, fs_ReadFile, faulty. rewrite HR.
  fold (plugin_path dir h). rewrite Hn. by rewrite decide_False.
Qed.

(** The plugin binaries in circulation: different ones have different digests. *)
Variable U : list byte -> Prop.

(** A patch between two digests is what bsdiff makes of the binaries they stand for. *)
Definition good_patch (o n : string) (p : list byte) : Prop :=
  exists ob nb, U ob /\ U nb /\ digest_of ob = o /\ digest_of nb = n /\ bsdiff_Reader ob nb = Ok p.

(** The invariant of the cache: a file under a digest is a valid copy of a plugin in
    circulation, every stored patch is a good one, and no directory is in the way. *)
Record cache_inv (s : Fs) : Prop := mkCacheInv {
  ci_plugins d fl : hexdigest d -> fs_files s !! plugin_path dir d = Some fl ->
    exists data, cached s d data /\ U data;
  ci_patches o n fl : hexdigest o -> hexdigest n ->
    fs_files s !! patch_path dir o n = Some fl -> good_patch o n (f_Data fl);
  ci_dirs_plugins d : hexdigest d -> plugin_path dir d ∉ fs_dirs s /\ plugin_path dir d <> "";
  ci_dirs_patches o n : hexdigest o -> hexdigest n -> patch_path dir o n ∉ fs_dirs s /\ patch_path dir o n <> "" }.

Lemma cached_U s d data : cache_inv s -> cached s d data -> U data.
Proof.
  intros Hc Hd. pose proof Hd as (fl & Hfl & Hz & Hdig).
  destruct (ci_plugins s Hc d fl) as (data' & (fl' & Hfl' & Hz' & _) & HU);
    [rewrite <- Hdig; apply digest_of_hex|done|].
  rewrite Hfl in Hfl'. injection Hfl' as <-. rewrite Hz in Hz'. by injection Hz' as <-.
Qed.

Lemma cache_inv_put_patch s o n p m :
  cache_inv s -> hexdigest o -> hexdigest n -> good_patch o n p ->
  cache_inv (fs_put s (patch_path dir o n) (mkFile p m)) /\
  (forall d, hexdigest d -> fs_files (fs_put s (patch_path dir o n) (mkFile p m)) !! plugin_path dir d =
                            fs_files s !! plugin_path dir d).
Proof.
  intros [H1 H2 H3 H4] Ho Hn Hg.
  assert (forall d, hexdigest d -> fs_files (fs_put s (patch_path dir o n) (mkFile p m)) !! plugin_path dir d =
                            fs_files s !! plugin_path dir d) as Hframe.
  { intros d Hd. cbn. rewrite lookup_insert_ne; [done|]. intros E. symmetry in E. by apply plugin_patch_ne in E. }
  split; [|done]. split; [| |done|done].
  - intros d fl Hd. rewrite Hframe by done. intros Hfl. destruct (H1 d fl Hd Hfl) as (data & Hc & HU).
    exists data. split; [|done]. unfold cached. by rewrite Hframe.
  - intros o' n' fl Ho' Hn' Hfl. cbn in Hfl.
    destruct (decide (patch_path dir o n = patch_path dir o' n')) as [E|E].
    + pose proof (patch_path_inj dir o n o' n' Ho Hn Ho' Hn' E) as [<- <-].
      rewrite lookup_insert_eq in Hfl. by simplify_eq.
    + rewrite lookup_insert_ne in Hfl by done. by eapply H2.
Qed.

(** On a disk that works the cache answers a digest with its plugin, or says that it
    does not have it. *)
Lemma GetPlugin_inv h s :
  Reliable D -> cache_inv s -> hexdigest h ->
  (exists data, GetPlugin dir h s = (s, Ok data) /\ cached s h data /\ U data) \/
  (fs_files s !! plugin_path dir h = None /\ GetPlugin dir h s = (s, Err os_ErrNotExist)).
Proof.
  intros HR Hc Hh. destruct (fs_files s !! plugin_path dir h) as [fl|] eqn:E.
  - destruct (ci_plugins s Hc h fl Hh E) as (data & Hd & HU). left. exists data.
    split; [by apply GetPlugin_cached|done].
  - right. split; [done|]. apply GetPlugin_missing; [done..|]. by apply ci_dirs_plugins.
Qed.

(** *** generatePatch and RequestPatch *)

Lemma WriteFile_spec s p d m s' r :
  fs_WriteFile s p d m = (s', r) ->
  (exists e, r = Err e /\ (s' = s \/ exists n k, s' = fs_put s p (mkFile (take n d) k))) \/
  (exists k, r = Ok tt /\ s' = fs_put s p (mkFile d k)).
Proof.
  unfold fs_WriteFile. destruct (disk_fault CCreate p); [intros [= <- <-]; eauto|].
  repeat case_decide; [intros [= <- <-]; eauto..|].
  intros [(e & -> & ->)|[-> ->]]%fill_spec; eauto 10.
Qed.

(** bsdiff fails only for want of memory. *)
Definition bsdiff_total : Prop := forall ob nb, exists p, bsdiff_Reader ob nb = Ok p.

Lemma generatePatch_inv o n s :
  Reliable D -> bsdiff_total -> cache_inv s -> hexdigest o -> hexdigest n ->
  (exists p, generatePatch dir o n s = (s, Ok p) /\ good_patch o n p) \/
  generatePatch dir o n s = (s, Err os_ErrNotExist).
Proof.
  intros HR Hb Hc Ho Hn. unfold generatePatch, wbind.
  destruct (GetPlugin_inv o s HR Hc Ho) as [(ob & -> & Hob & HUo)|[_ ->]]; [|by right].
  destruct (GetPlugin_inv n s HR Hc Hn) as [(nb & -> & Hnb & HUn)|[_ ->]]; [|by right].
  destruct (Hb ob nb) as [p Hp]. left. exists p. unfold wlift. cbn. rewrite Hp. split; [done|].
  destruct Hob as (? & _ & _ & ?), Hnb as (? & _ & _ & ?). by exists ob, nb.
Qed.

(** A request for a patch is answered with a good one, or with "does not exist"; the
    plugins of the cache stay as they are and its invariant is kept. *)
Lemma RequestPatch_inv o n s :
  Reliable D -> bsdiff_total -> cache_inv s -> hexdigest o -> hexdigest n ->
  exists s' r, RequestPatch dir o n s = (s', r) /\ cache_inv s' /\
    (forall d, hexdigest d -> fs_files s' !! plugin_path dir d = fs_files s !! plugin_path dir d) /\
    ((exists p, r = Ok p /\ good_patch o n p) \/ r = Err os_ErrNotExist).
Proof.
  intros HR Hb Hc Ho Hn. unfold RequestPatch. fold (patch_path dir o n).
  destruct (ci_dirs_patches s Hc o n Ho Hn) as [Hnd Hne].
  destruct (fs_files s !! patch_path dir o n) as [fl|] eqn:E.
  - unfold fs_Stat, fs_ReadFile, faulty. rewrite !HR, E. do 2 eexists. split; [done|].
    split; [done|]. split; [done|]. left. eexists. split; [done|]. by eapply ci_patches.
  - unfold fs_Stat, faulty. rewrite HR, E, decide_False by done.
    destruct (generatePatch_inv o n s HR Hb Hc Ho Hn) as [(p & -> & Hg)| ->];
      [|do 2 eexists; split; [done|]; auto using GetPlugin_inv].
    + unfold fs_WriteFile, fs_fill. rewrite !HR, !decide_False by done. do 2 eexists. split; [done|].
      destruct (cache_inv_put_patch s o n p (create_mode s (patch_path dir o n) 420) Hc Ho Hn Hg) as [Hc' Hf].
      split; [done|]. split; [done|]. eauto.
    + destruct (generatePatch_inv o n s HR Hb Hc Ho Hn) as [(p & -> & Hg)| ->]; cbn; auto.
Qed.

(** *** Archive *)

(** An archive as [GetFilesystemPlugins] makes it: every entry has the digest of its
    data. *)
Definition archive_ok (s : Fs) (item : PluginArchiveEntry) : Prop :=
  digest_of (ae_Data item) = me_Digest (ae_Metadata item) /\ U (ae_Data item) /\
  plugin_path dir (me_Digest (ae_Metadata item)) ∉ fs_dirs s /\
  plugin_path dir (me_Digest (ae_Metadata item)) <> "".

Definition has (s : Fs) (d : string) : Prop := exists data, cached s d data.

(** What a step of [Archive] keeps. *)
Definition archive_step (s s' : Fs) : Prop :=
  fs_dirs s' = fs_dirs s /\ (forall d, has s d -> has s' d) /\ (cache_inv s -> cache_inv s').

Lemma archive_step_refl s : archive_step s s.
Proof. by split_and!. Qed.

Lemma archive_step_trans s1 s2 s3 : archive_step s1 s2 -> archive_step s2 s3 -> archive_step s1 s3.
Proof. intros (H1 & H2 & H3) (H4 & H5 & H6). split_and!; [congruence|auto..]. Qed.

Lemma archive_put_step s d data m :
  digest_of data = d -> U data ->
  let s' := fs_put s (plugin_path dir d) (mkFile (zstd_compress data) m) in
  archive_step s s' /\ has s' d.
Proof.
  intros Hd HU s'. assert (hexdigest d) as Hh by (rewrite <- Hd; apply digest_of_hex).
  assert (cached s' d data) as Hc.
  { eexists. split; [cbn; by simplify_map_eq|]. split; [apply zstd_roundtrip|done]. }
  assert (forall d' data', d' <> d -> cached s d' data' <-> cached s' d' data') as Hother.
  { intros d' data' Hne. unfold cached. split; intros (fl & Hfl & Hz & Hdig); exists fl;
      (assert (hexdigest d') by (rewrite <- Hdig; apply digest_of_hex));
      (assert (plugin_path dir d <> plugin_path dir d') by (by intros E%plugin_path_inj; [congruence|..]));
      cbn in *; (split; [by simplify_map_eq|done]). }
  split; [|by exists data]. split; [done|]. split.
  - intros d' [data' Hd']. destruct (decide (d' = d)) as [->|Hne]; [by exists data|].
    exists data'. by apply Hother.
  - intros [H1 H2 H3 H4]. split; [| |done|done].
    + intros d' fl Hh' Hfl. destruct (decide (d' = d)) as [->|Hne]; [by exists data|].
      assert (plugin_path dir d <> plugin_path dir d') by (by intros E%plugin_path_inj; [congruence|..]).
      cbn in Hfl. simplify_map_eq. destruct (H1 d' fl Hh' Hfl) as (x & Hx & HUx). exists x.
      split; [by apply Hother|done].
    + intros o n fl Ho Hn Hfl. cbn in Hfl. rewrite lookup_insert_ne in Hfl by (by apply plugin_patch_ne).
      by eapply H2.
Qed.

Lemma archive_write_reliable item s :
  let p := plugin_path dir (me_Digest (ae_Metadata item)) in
  Reliable D -> p ∉ fs_dirs s -> p <> "" ->
  archive_write dir item s =
  (fs_put s p (mkFile (zstd_compress (ae_Data item)) (create_mode s p 438)), Ok tt).
Proof.
  intros p HR Hnd Hne. unfold archive_write. fold (plugin_path dir (me_Digest (ae_Metadata item))). fold p.
  unfold fs_Create. rewrite HR, !decide_False by done.
  unfold fs_WriteTo. cbn. simplify_map_eq. unfold fs_fill. rewrite HR. unfold fs_put, set_files. cbn.
  rewrite insert_insert_eq. by destruct (zstd_buffered (ae_Data item)).
Qed.

Lemma archive_items_spec items s :
  Reliable D -> Forall (archive_ok s) items ->
  exists s', archive_items dir items None s = (s', Ok tt) /\ archive_step s s' /\
    Forall (fun item => has s' (me_Digest (ae_Metadata item))) items.
Proof.
  intros HR. revert s. induction items as [|item items IH]; intros s Hok; cbn.
  { exists s. split; [done|]. split; [apply archive_step_refl|constructor]. }
  inversion Hok as [|? ? (Hdig & HU & Hnd & Hne) Hrest]; subst. set (d := me_Digest (ae_Metadata item)) in *.
  assert (forall s1, archive_step s s1 -> has s1 d ->
    exists s', archive_items dir items None s1 = (s', Ok tt) /\ archive_step s s' /\
      Forall (fun item => has s' (me_Digest (ae_Metadata item))) (item :: items)) as Hnext.
  { intros s1 Hst Hhas. destruct (IH s1) as (s' & Hr & Hst' & Hall).
    { eapply list.Forall_impl; [exact Hrest|]. intros it (? & ? & ? & ?). unfold archive_ok.
      destruct Hst as (-> & _ & _). done. }
    exists s'. split; [done|]. split; [by eapply archive_step_trans|]. constructor; [|done].
    destruct Hst' as (_ & Hkeep & _). by apply Hkeep. }
  unfold wbind, archived. fold d. fold (plugin_path dir d). unfold fs_Stat, faulty. rewrite HR.
  pose proof (archive_write_reliable item s HR Hnd Hne) as Hw. fold d in Hw.
  destruct (archive_put_step s d (ae_Data item) (create_mode s (plugin_path dir d) 438) Hdig HU) as [Hst Hhas].
  destruct (fs_files s !! plugin_path dir d) as [fl|] eqn:Efl.
  - unfold fs_ReadFile, faulty. rewrite HR, Efl.
    destruct (zstd_decompress (f_Data fl)) as [x| |] eqn:Ez; [case_bool_decide as Hx| |];
      [apply Hnext; [apply archive_step_refl|exists x; by exists fl]|rewrite Hw; by apply Hnext..].
  - rewrite decide_False by done. rewrite Hw. by apply Hnext.
Qed.
End Cache.
