(* ===== verification/PatchSync.v ===== *)
(** The sync of an agent with its gateway: the difference of two manifests, the server
    that fills in the data, and the state of the agent after it has applied the
    patches; garbage collection; what a manifest of an agent can do to the cache. *)

From S2P Require Import Prelude GoStd Util CoreV1 Tokens Base64 Crypto OsFs Patch PatchProps PatchCache.

Local Open Scope string_scope.

(** ** The difference of two manifests *)

Section Join.
Implicit Types gm am m : PluginManifest.

Lemma by_id_lookup m k e :
  NoDup (me_Module <$> pm_Items m) -> by_id m !! k = Some e <-> e ∈ pm_Items m /\ me_Module e = k.
Proof.
  unfold by_id, GetId. intros Hnd. set (step := fun (hm : gmap string PluginManifestEntry) v => <[me_Module v := v]> hm).
  enough (forall l acc, NoDup (me_Module <$> l) -> (forall x, x ∈ l -> acc !! me_Module x = None) ->
    fold_left step l acc !! k = Some e <-> acc !! k = Some e \/ (e ∈ l /\ me_Module e = k)) as H.
  { rewrite H by (try done; intros; apply lookup_empty). rewrite lookup_empty. naive_solver. }
  induction l as [|x l IH]; intros acc Hl Hacc; cbn.
  - split; [auto|]. intros [?|[[]%not_elem_of_nil _]]. done.
  - cbn in Hl. apply list.NoDup_cons in Hl as [Hx Hl]. rewrite IH; [|done|].
    + unfold step. rewrite elem_of_cons. destruct (decide (me_Module x = k)) as [<-|Hne].
      * rewrite lookup_insert_eq, (Hacc x) by (by left). split.
        -- intros [[= ->]|[He Hk]]; [by right; split; [left|]|by right; split; [right|]].
        -- intros [?|[[->|He] Hk]]; [done|by left|by right].
      * rewrite lookup_insert_ne by done. naive_solver.
    + intros y Hy. unfold step. rewrite lookup_insert_ne.
      * apply Hacc. by right.
      * intros E. apply Hx. rewrite E. by apply list_elem_of_fmap_2.
Qed.

(** The plugin of a manifest with a module name. *)
Definition entry_of (m : PluginManifest) (k : string) (e : PluginManifestEntry) : Prop :=
  e ∈ pm_Items m /\ me_Module e = k.

Lemma by_id_None m k :
  NoDup (me_Module <$> pm_Items m) -> by_id m !! k = None <-> forall e, ~ entry_of m k e.
Proof.
  intros Hnd. rewrite eq_None_not_Some. unfold is_Some. setoid_rewrite by_id_lookup; [|done].
  unfold entry_of. naive_solver.
Qed.

(** What the agent has to do, module by module. *)
Inductive join_spec (gm am : PluginManifest) : PatchSpec -> Prop :=
| join_create g : g ∈ pm_Items gm -> (forall t, ~ entry_of am (me_Module g) t) ->
    join_spec gm am (mkPatchSpec (me_Module g) PatchOp_Create [] (me_Filename g) "" (me_Digest g))
| join_update g t : g ∈ pm_Items gm -> entry_of am (me_Module g) t -> me_Digest g <> me_Digest t ->
    join_spec gm am (mkPatchSpec (me_Module g) PatchOp_Update [] (me_Filename g) (me_Digest t) (me_Digest g))
| join_rename g t : g ∈ pm_Items gm -> entry_of am (me_Module g) t ->
    me_Digest g = me_Digest t -> me_Filename g <> me_Filename t ->
    join_spec gm am (mkPatchSpec (me_Module g) PatchOp_Rename (str_bytes (me_Filename g)) (me_Filename t)
                       (me_Digest t) (me_Digest g))
| join_remove t : t ∈ pm_Items am -> (forall g, ~ entry_of gm (me_Module t) g) ->
    me_Digest t ∉ DigestSet gm ->
    join_spec gm am (mkPatchSpec (me_Module t) PatchOp_Remove [] (me_Filename t) (me_Digest t) "").

Definition modules_distinct m : Prop := NoDup (me_Module <$> pm_Items m).

Lemma join_items_spec gm am e :
  modules_distinct gm -> modules_distinct am -> e ∈ join_items gm am <-> join_spec gm am e.
Proof.
  intros Hg Ha. unfold join_items. rewrite elem_of_app, !list_elem_of_bind.
  unfold join_ours, join_theirs, GetId. split.
  - intros [(g & He & Hin)|(t & He & Hin)].
    + destruct (by_id am !! me_Module g) as [t|] eqn:E.
      * apply by_id_lookup in E; [|done]. repeat case_decide; [by apply not_elem_of_nil in He|..];
          apply list_elem_of_singleton in He as ->; by econstructor.
      * rewrite by_id_None in E by done. apply list_elem_of_singleton in He as ->. by constructor.
    + destruct (by_id gm !! me_Module t) as [g|] eqn:E; [by apply not_elem_of_nil in He|].
      rewrite by_id_None in E by done. case_decide; [by apply not_elem_of_nil in He|].
      apply list_elem_of_singleton in He as ->. by constructor.
  - intros [g Hin Hn|g t Hin Ht Hd|g t Hin Ht Hd Hf|t Hin Hn Hd]; [left; exists g..|right; exists t].
    + rewrite <- by_id_None in Hn by done. rewrite Hn. split; [by apply list_elem_of_singleton|done].
    + apply by_id_lookup in Ht; [|done]. rewrite Ht, decide_False by done. split; [by apply list_elem_of_singleton|done].
    + apply by_id_lookup in Ht; [|done]. rewrite Ht, decide_True, decide_False by done.
      split; [by apply list_elem_of_singleton|done].
    + rewrite <- by_id_None in Hn by done. rewrite Hn, decide_False by done. split; [by apply list_elem_of_singleton|done].
Qed.

Lemma bind_modules (f : PluginManifestEntry -> list PatchSpec) l :
  (forall x e, e ∈ f x -> ps_Module e = me_Module x) -> (forall x, length (f x) <= 1) ->
  NoDup (me_Module <$> l) -> NoDup (ps_Module <$> (l ≫= f)).
Proof.
  intros Hm Hl. induction l as [|x l IH]; cbn; [by constructor|]. intros [Hx Hnd]%list.NoDup_cons.
  rewrite fmap_app. apply list.NoDup_app. split_and!; [| |by apply IH].
  - specialize (Hl x). destruct (f x) as [|a [|b r]]; cbn in *; [constructor|apply NoDup_singleton|lia].
  - intros k (e & -> & He)%list_elem_of_fmap (e' & Hk & He')%list_elem_of_fmap.
    apply list_elem_of_bind in He' as (y & He' & Hy). apply Hx. rewrite <- (Hm x e He), Hk, (Hm y e' He').
    by apply list_elem_of_fmap_2.
Qed.

(** Every module is the subject of at most one patch. *)
Lemma join_items_modules gm am :
  modules_distinct gm -> modules_distinct am -> NoDup (ps_Module <$> join_items gm am).
Proof.
  intros Hg Ha. unfold join_items. rewrite fmap_app. apply list.NoDup_app. split_and!.
  - apply bind_modules; [| |done]; unfold join_ours, GetId; intros x.
    + intros e. destruct (by_id am !! me_Module x); repeat case_decide; intros He;
        [by apply not_elem_of_nil in He|by apply list_elem_of_singleton in He as ->..].
    + destruct (by_id am !! me_Module x); repeat case_decide; cbn; lia.
  - intros k (e & -> & (g & He & Hin)%list_elem_of_bind)%list_elem_of_fmap
      (e' & Hk & (t & He' & Hin')%list_elem_of_bind)%list_elem_of_fmap.
    assert (ps_Module e = me_Module g) as Eg.
    { unfold join_ours, GetId in He. destruct (by_id am !! me_Module g); repeat case_decide;
        [by apply not_elem_of_nil in He|by apply list_elem_of_singleton in He as ->..]. }
    unfold join_theirs, GetId in He'. destruct (by_id gm !! me_Module t) eqn:E; [by apply not_elem_of_nil in He'|].
    rewrite by_id_None in E by done.
    case_decide; [by apply not_elem_of_nil in He'|]. apply list_elem_of_singleton in He' as ->. cbn in Hk.
    apply (E g). split; [done|congruence].
  - apply bind_modules; [| |done]; unfold join_theirs, GetId; intros x.
    + intros e. destruct (by_id gm !! me_Module x); repeat case_decide; intros He;
        [by apply not_elem_of_nil in He..|by apply list_elem_of_singleton in He as ->].
    + destruct (by_id gm !! me_Module x); repeat case_decide; cbn; lia.
Qed.

Lemma LeftJoinOn_items gm am : pl_Items (LeftJoinOn gm am) ≡ₚ join_items gm am.
Proof. apply merge_sort_Permutation. Qed.

(** The patches of two manifests are exactly the differences between them, one per
    module at most: a plugin the agent lacks is created, one with another digest
    updated, one with the same digest and another file name renamed, and one the
    gateway has neither by module nor by digest removed.  Two manifests with the same
    plugins have none. *)
Lemma LeftJoinOn_differences gm am :
  modules_distinct gm -> modules_distinct am ->
  (forall e, e ∈ pl_Items (LeftJoinOn gm am) <-> join_spec gm am e) /\
  NoDup (ps_Module <$> pl_Items (LeftJoinOn gm am)) /\
  (pm_Items gm ≡ₚ pm_Items am -> pl_Items (LeftJoinOn gm am) = []).
Proof.
  intros Hg Ha. assert (forall e, e ∈ pl_Items (LeftJoinOn gm am) <-> join_spec gm am e) as Hspec.
  { intros e. rewrite LeftJoinOn_items. by apply join_items_spec. }
  split_and!; [done| |].
  - rewrite LeftJoinOn_items. by apply join_items_modules.
  - intros Hp. destruct (pl_Items (LeftJoinOn gm am)) as [|e l] eqn:E; [done|].
    assert (join_spec gm am e) as Hs by (apply Hspec; by left).
    assert (forall x y, x ∈ pm_Items gm -> entry_of am (me_Module x) y -> x = y) as Huniq.
    { intros x y Hx Hy. rewrite Hp in Hx.
      assert (by_id am !! me_Module x = Some x) as H1 by (by apply by_id_lookup).
      apply by_id_lookup in Hy; [|done]. congruence. }
    destruct Hs as [g Hin Hn|g t Hin Ht Hd|g t Hin Ht Hd Hf|t Hin Hn Hd].
    + destruct (Hn g). split; [by rewrite <- Hp|done].
    + by rewrite (Huniq g t Hin Ht) in Hd.
    + by rewrite (Huniq g t Hin Ht) in Hf.
    + destruct (Hn t). split; [by rewrite Hp|done].
Qed.
End Join.

(** ** The server fills in the data *)

Section Server.
Context {D : Disk} {BS : Bsdiff} {B : Blake2b} {ZS : Zstd} {PB : PluginBinary}.
Variable cfg : ServerConfig.
Variable U : list byte -> Prop.

Notation dir := (sc_CacheDir cfg).

(** A patch as the server sends it. *)
Definition filled (e e' : PatchSpec) : Prop :=
  match ps_Op e with
  | PatchOp_Create => exists data, e' = with_data e PatchOp_Create data /\ digest_of data = ps_NewDigest e
  | PatchOp_Update =>
      (exists p, e' = with_data e PatchOp_Update p /\ good_patch U (ps_OldDigest e) (ps_NewDigest e) p) \/
      (exists data, e' = with_data e PatchOp_Create data /\ digest_of data = ps_NewDigest e)
  | _ => e' = e
  end.

(** The cache can serve the patch. *)
Definition servable (s : Fs) (e : PatchSpec) : Prop :=
  match ps_Op e with
  | PatchOp_Create => has dir s (ps_NewDigest e)
  | PatchOp_Update => has dir s (ps_NewDigest e) /\ hexdigest (ps_OldDigest e)
  | _ => True
  end.

Lemma has_hex s d : has dir s d -> hexdigest d.
Proof. intros (data & fl & _ & _ & <-). apply digest_of_hex. Qed.

Lemma has_frame s s' d :
  (forall d, hexdigest d -> fs_files s' !! plugin_path dir d = fs_files s !! plugin_path dir d) ->
  has dir s d -> has dir s' d.
Proof.
  intros Hf Hd. pose proof (has_hex s d Hd) as Hh. destruct Hd as (data & fl & Hfl & Hr).
  exists data, fl. by rewrite Hf.
Qed.

Lemma sync_entry_filled e s :
  Reliable D -> bsdiff_total -> cache_inv dir U s -> servable s e ->
  exists s' e', sync_entry cfg e s = (s', Ok e') /\ filled e e' /\ cache_inv dir U s' /\
    (forall d, has dir s d -> has dir s' d).
Proof.
  intros HR Hb Hc Hs. unfold sync_entry, filled, servable in *. destruct (ps_Op e) eqn:Eo; try by do 2 eexists.
  - destruct Hs as [Hn Ho]. pose proof (has_hex _ _ Hn) as Hh. pose proof Hn as [data Hd].
    destruct (RequestPatch_inv dir U (ps_OldDigest e) (ps_NewDigest e) s HR Hb Hc Ho Hh)
      as (s' & r & -> & Hc' & Hf & Hr).
    destruct Hr as [(p & -> & Hg)| ->].
    + do 2 eexists. split; [done|]. split; [left; by eexists|]. split; [done|]. intros d. by apply has_frame.
    + rewrite errors_Is_refl. destruct Hd as (fl & Hfl & Hz & Hdig). rewrite <- (Hf _ Hh) in Hfl.
      rewrite (GetPlugin_cached dir _ s' data) by (done || by exists fl).
      do 2 eexists. split; [done|]. split; [right; by eexists|]. split; [done|]. intros d. by apply has_frame.
  - destruct Hs as [data Hd]. rewrite (GetPlugin_cached dir _ s data HR Hd).
    destruct Hd as (fl & _ & _ & Hdig). do 2 eexists. split; [done|]. split; [by eexists|done].
Qed.

Lemma sync_entries_filled es s :
  Reliable D -> bsdiff_total -> cache_inv dir U s -> (forall e, e ∈ es -> servable s e) ->
  exists s' items, sync_entries cfg es s = (s', Ok items) /\ Forall2 filled es items /\ cache_inv dir U s' /\
    (forall d, has dir s d -> has dir s' d).
Proof.
  intros HR Hb. revert s. induction es as [|e es IH]; intros s Hc Hs; cbn; [by do 2 eexists|].
  destruct (sync_entry_filled e s HR Hb Hc) as (s1 & e' & -> & He & Hc1 & Hk1); [apply Hs; by left|].
  destruct (IH s1 Hc1) as (s2 & items & -> & Hitems & Hc2 & Hk2).
  { intros x Hx. assert (servable s x) as Hsx by (apply Hs; by right).
    unfold servable in *. destruct (ps_Op x); naive_solver. }
  do 2 eexists. split; [done|]. split; [by constructor|]. split; [done|]. auto.
Qed.

(** A gateway whose manifest is loaded and whose cache has every plugin of it. *)
Definition gateway_ready (st : SyncState) (gm : PluginManifest) : Prop :=
  ss_once st = true /\ ss_manifest st = Some gm /\ cache_inv dir U (ss_fs st) /\
  forall g, g ∈ pm_Items gm -> has dir (ss_fs st) (me_Digest g).

(** The server answers a valid manifest with the filled differences, and stays ready. *)
Lemma SyncPluginManifest_ready st gm am :
  Reliable D -> bsdiff_total -> gateway_ready st gm -> modules_distinct gm -> modules_distinct am ->
  PluginManifest_Validate am = Ok tt -> (forall t, t ∈ pm_Items am -> hexdigest (me_Digest t)) ->
  exists st' items, SyncPluginManifest cfg am st = (st', Ok (mkSyncResults gm (mkPatchList items))) /\
    Forall2 filled (pl_Items (LeftJoinOn gm am)) items /\ gateway_ready st' gm.
Proof.
  intros HR Hb (Ho & Hm & Hc & Hhas) Hg Ha Hv Hhex.
  destruct (sync_entries_filled (pl_Items (LeftJoinOn gm am)) (ss_fs st) HR Hb Hc)
    as (s' & items & Hr & Hf & Hc' & Hk).
  { intros e He. rewrite LeftJoinOn_items, join_items_spec in He by done. unfold servable.
    destruct He as [g Hin Hn|g t Hin [Ht _] Hd|g t Hin Ht Hd Hfn|t Hin Hn Hd]; cbn; auto. }
  exists (set_fs st s'), items. split_and!; [|done|].
  - unfold SyncPluginManifest, wbind, wlift. rewrite Hv. unfold getPluginManifest. rewrite Ho, Hm. cbn [deref].
    unfold on_fs. by rewrite Hr.
  - split_and!; try done. intros g Hin. by apply Hk, Hhas.
Qed.
End Server.

(** ** The agent after a sync *)

Section Agent.
Context {D : Disk} {BS : Bsdiff} {B : Blake2b}.
Variable U : list byte -> Prop.
Variable f : pluginFs.

Notation rp := (resolve f).

Definition entries (gm am : PluginManifest) : list PluginManifestEntry := (pm_Items gm ++ pm_Items am)%list.

(** The agent's manifest describes its files, no two plugins share a file, and the
    cases the difference of manifests does not cover are absent: a plugin whose digest
    and file name both changed, and a plugin the gateway does not have by module but
    has by digest. *)
Record sync_ok (s : Fs) (gm am : PluginManifest) : Prop := mkSyncOk {
  so_gm : modules_distinct gm;
  so_am : modules_distinct am;
  so_files x y : x ∈ entries gm am -> y ∈ entries gm am -> me_Module x <> me_Module y ->
    rp (me_Filename x) <> rp (me_Filename y);
  so_plain x : x ∈ entries gm am -> plain s (rp (me_Filename x));
  so_holds t : t ∈ pm_Items am -> exists fl, fs_files s !! rp (me_Filename t) = Some fl /\
    digest_of (f_Data fl) = me_Digest t /\ U (f_Data fl);
  so_update g t : g ∈ pm_Items gm -> entry_of am (me_Module g) t -> me_Digest g <> me_Digest t ->
    me_Filename g = me_Filename t;
  so_rename g t : g ∈ pm_Items gm -> entry_of am (me_Module g) t -> me_Digest g = me_Digest t ->
    me_Filename g <> me_Filename t -> fs_files s !! rp (me_Filename g) = None;
  so_extra t : t ∈ pm_Items am -> (forall g, ~ entry_of gm (me_Module t) g) -> me_Digest t ∉ DigestSet gm }.

(** The names [TempFile] finds are free, different, and not those of plugins. *)
Record temps_ok (s : Fs) (gm am : PluginManifest) (rnds : list string) : Prop := mkTempsOk {
  to_abs rnd : rnd ∈ rnds -> rp (temp_name f rnd) = temp_name f rnd;
  to_free rnd : rnd ∈ rnds -> temp_name f rnd ∉ fs_dirs s /\ fs_files s !! temp_name f rnd = None;
  to_plugin rnd x : rnd ∈ rnds -> x ∈ entries gm am -> temp_name f rnd <> rp (me_Filename x);
  to_distinct i j r r' : i <> j -> rnds !! i = Some r -> rnds !! j = Some r' -> temp_name f r <> temp_name f r' }.

(** Different plugins in circulation have different digests. *)
Definition collision_free : Prop := forall a b, U a -> U b -> digest_of a = digest_of b -> a = b.

Lemma bsdiff_format ob nb p : bsdiff_Reader ob nb = Ok p -> NewPatcherFromFormat p = Some BsdiffPatcher.
Proof.
  intros H. destruct (bsdiff_apply ob nb p H) as [Ht _]. unfold NewPatcherFromFormat, allPatchEngines.
  rewrite filter_cons_True; [done|]. cbn [CheckFormat]. change (length (str_bytes "BSDIFF40")) with 8.
  rewrite Ht, bool_decide_eq_true_2 by done. rewrite andb_true_r. apply Nat.leb_le.
  apply (f_equal length) in Ht. rewrite length_take in Ht. change (length (str_bytes "BSDIFF40")) with 8 in Ht. lia.
Qed.

Section Sync.
Context (s : Fs) (gm am : PluginManifest) (rnds : list string).
Hypothesis Hok : sync_ok s gm am.
Hypothesis Htmp : temps_ok s gm am rnds.
Hypothesis Hcf : collision_free.

Lemma entries_gm g : g ∈ pm_Items gm -> g ∈ entries gm am.
Proof. intros H. apply elem_of_app. by left. Qed.
Lemma entries_am t : t ∈ pm_Items am -> t ∈ entries gm am.
Proof. intros H. apply elem_of_app. by right. Qed.
Hint Resolve entries_gm entries_am : core.

Lemma filled_applicable e e' rnd :
  join_spec gm am e -> filled U e e' -> rnd ∈ rnds -> applicable f rnd s e'.
Proof.
  intros Hj Hf Hr. unfold filled in Hf. destruct Hj as [g Hin Hn|g t Hin [Ht Hm] Hd|g t Hin [Ht Hm] Hd Hfn|t Hin Hn Hd];
    cbn in Hf.
  - destruct Hf as (data & -> & Hdig). split; [cbn; apply (so_plain s gm am Hok); auto|done].
  - destruct Hf as [(p & -> & ob & nb & HUo & HUn & Ho & Hnb & Hp)|(data & -> & Hdig)];
      (split; [cbn; apply (so_plain s gm am Hok); auto|]); [|done].
    cbn -[temp_name]. destruct (so_holds s gm am Hok t Ht) as (fl & Hfl & Hdig & HUf).
    assert (ob = f_Data fl) as -> by (apply Hcf; [done..|congruence]).
    rewrite (so_update s gm am Hok g t) by (done || by split).
    destruct (to_free s gm am rnds Htmp rnd Hr) as [Htd Htf].
    split_and!; [by apply (to_abs s gm am rnds Htmp)|by apply (to_plugin s gm am rnds Htmp); auto|done..|].
    exists fl, nb. split_and!; try done; [by eapply bsdiff_format|by eapply bsdiff_apply].
  - subst e'. destruct (so_holds s gm am Hok t Ht) as (fl & Hfl & Hdig & HUf).
    split; [cbn; apply (so_plain s gm am Hok); auto|]. cbn -[bytes_str str_bytes]. rewrite bytes_str_bytes.
    split_and!; [apply (so_plain s gm am Hok); auto..|by apply (so_rename s gm am Hok g t)|].
    exists fl. split; [done|congruence].
  - subst e'. split; [cbn; apply (so_plain s gm am Hok); auto|done].
Qed.

Lemma filled_module e e' : filled U e e' -> ps_Module e' = ps_Module e.
Proof. unfold filled. destruct (ps_Op e); naive_solver. Qed.

Lemma filled_paths e e' rnd p :
  join_spec gm am e -> filled U e e' -> rnd ∈ rnds -> p ∈ entry_paths f rnd e' ->
  (p = temp_name f rnd /\ ps_Op e' = PatchOp_Update) \/ exists x, x ∈ entries gm am /\ me_Module x = ps_Module e' /\ p = rp (me_Filename x).
Proof.
  intros Hj Hf Hr. unfold entry_paths, filled in *.
  destruct Hj as [g Hin Hn|g t Hin [Ht Hm] Hd|g t Hin [Ht Hm] Hd Hfn|t Hin Hn Hd]; cbn -[temp_name] in Hf.
  - destruct Hf as (data & -> & _). cbn. intros ->%elem_of_singleton. right. exists g. auto.
  - destruct Hf as [(q & -> & _)|(data & -> & _)]; cbn -[temp_name].
    + rewrite (to_abs s gm am rnds Htmp rnd Hr).
      rewrite !elem_of_union, !elem_of_singleton. intros [[->| ->]| ->]; auto. right. exists g. auto.
    + intros ->%elem_of_singleton. right. exists g. auto.
  - subst e'. cbn -[bytes_str str_bytes]. rewrite bytes_str_bytes, elem_of_union, !elem_of_singleton.
    intros [->| ->]; right; [exists t|exists g]; auto.
  - subst e'. cbn. intros ->%elem_of_singleton. right. exists t. auto.
Qed.

Context (items : list PatchSpec).
Hypothesis Hfill : Forall2 (filled U) (pl_Items (LeftJoinOn gm am)) items.
Hypothesis Hlen : length rnds = length items.

Lemma item_inv i e' :
  items !! i = Some e' -> exists e, pl_Items (LeftJoinOn gm am) !! i = Some e /\ join_spec gm am e /\ filled U e e'.
Proof.
  intros Hi. destruct (Forall2_lookup_r _ _ _ _ _ Hfill Hi) as (e & He & Hf). exists e. split; [done|].
  split; [|done]. apply join_items_spec; [apply Hok..|]. rewrite <- LeftJoinOn_items. by eapply list_elem_of_lookup_2.
Qed.

Lemma item_paths i rnd e' p :
  rnds !! i = Some rnd -> items !! i = Some e' -> p ∈ entry_paths f rnd e' ->
  (p = temp_name f rnd /\ ps_Op e' = PatchOp_Update) \/ exists x, x ∈ entries gm am /\ me_Module x = ps_Module e' /\ p = rp (me_Filename x).
Proof.
  intros Hr Hi. destruct (item_inv i e' Hi) as (e & _ & Hj & Hf). eapply filled_paths; [done..|].
  by eapply list_elem_of_lookup_2.
Qed.

Lemma items_modules i j e1 e2 :
  i <> j -> items !! i = Some e1 -> items !! j = Some e2 -> ps_Module e1 <> ps_Module e2.
Proof.
  intros Hij H1 H2. destruct (item_inv i e1 H1) as (o1 & Ho1 & _ & Hf1).
  destruct (item_inv j e2 H2) as (o2 & Ho2 & _ & Hf2). rewrite (filled_module _ _ Hf1), (filled_module _ _ Hf2).
  assert (NoDup (ps_Module <$> pl_Items (LeftJoinOn gm am))) as Hnd.
  { rewrite LeftJoinOn_items. apply join_items_modules; apply Hok. }
  intros E. apply Hij. eapply (NoDup_lookup _ i j); [exact Hnd|..]; by rewrite list_lookup_fmap, ?Ho1, ?Ho2; cbn; rewrite ?E.
Qed.

Lemma items_separate : separate_patches f rnds (mkPatchList items).
Proof.
  unfold separate_patches, separate. cbn [pl_Items]. intros i j F G Hij HF HG p Hp1 Hp2.
  rewrite lookup_zip_with in HF, HG.
  destruct (rnds !! i) as [r1|] eqn:R1; [|done]. destruct (items !! i) as [e1|] eqn:E1; [|done].
  destruct (rnds !! j) as [r2|] eqn:R2; [|done]. destruct (items !! j) as [e2|] eqn:E2; [|done].
  cbn in HF, HG. simplify_eq. pose proof (items_modules i j e1 e2 Hij E1 E2) as Hm.
  destruct (item_paths i r1 e1 p R1 E1 Hp1) as [[Hp _]|(x & Hx & Hxm & Hpx)];
    destruct (item_paths j r2 e2 p R2 E2 Hp2) as [[Hq _]|(y & Hy & Hym & Hqy)]; subst p.
  - by eapply (to_distinct s gm am rnds Htmp i j).
  - eapply (to_plugin s gm am rnds Htmp r1 y); [by eapply list_elem_of_lookup_2|done..].
  - eapply (to_plugin s gm am rnds Htmp r2 x); [by eapply list_elem_of_lookup_2|done|]. congruence.
  - eapply (so_files s gm am Hok x y); [done..|congruence|done].
Qed.

Lemma entry_of_unique m k x y : modules_distinct m -> entry_of m k x -> entry_of m k y -> x = y.
Proof.
  intros Hm Hx Hy. apply by_id_lookup in Hx; [|done]. apply by_id_lookup in Hy; [|done]. congruence.
Qed.

Hypothesis HR : Reliable D.
Context (s' : Fs) (r : outcome unit).
Hypothesis Hpatch : Patch f rnds (mkPatchList items) s s' r.

Lemma sync_applies :
  r = Ok tt /\
  (forall i rnd e, rnds !! i = Some rnd -> items !! i = Some e -> achieved f rnd e s') /\
  (forall p, (forall i rnd e, rnds !! i = Some rnd -> items !! i = Some e -> p ∉ entry_paths f rnd e) ->
     fs_files s' !! p = fs_files s !! p) /\
  fs_dirs s' = fs_dirs s.
Proof.
  apply (Patch_applied HR f rnds (mkPatchList items)); [done|apply items_separate| |done].
  intros i rnd e Hr Hi. destruct (item_inv i e Hi) as (e0 & _ & Hj & Hf).
  eapply filled_applicable; [done..|]. by eapply list_elem_of_lookup_2.
Qed.

Lemma spec_achieved e : join_spec gm am e -> exists e' rnd, filled U e e' /\ achieved f rnd e' s'.
Proof.
  intros Hj. apply join_items_spec in Hj; [|apply Hok..]. rewrite <- LeftJoinOn_items in Hj.
  apply list_elem_of_lookup in Hj as [i Hi]. destruct (Forall2_lookup_l _ _ _ _ _ Hfill Hi) as (e' & Hi' & Hf).
  destruct (lookup_lt_is_Some_2 rnds i) as [rnd Hr]; [rewrite Hlen; by eapply lookup_lt_Some|].
  exists e', rnd. split; [done|]. by eapply (proj1 (proj2 sync_applies)).
Qed.

(** A plugin that is the same on both sides is not touched. *)
Lemma unchanged_untouched g t :
  g ∈ pm_Items gm -> entry_of am (me_Module g) t -> me_Digest g = me_Digest t -> me_Filename g = me_Filename t ->
  fs_files s' !! rp (me_Filename g) = fs_files s !! rp (me_Filename g).
Proof.
  intros Hg Ht Hd Hfn. apply (proj2 (proj2 sync_applies)). intros i rnd e Hr Hi Hp.
  destruct (item_paths i rnd e _ Hr Hi Hp) as [[E _]|(x & Hx & Hxm & E)].
  { eapply (to_plugin s gm am rnds Htmp rnd g); [by eapply list_elem_of_lookup_2|auto|done]. }
  destruct (decide (me_Module x = me_Module g)) as [Em|Em]; [|by apply (so_files s gm am Hok x g) in Em; auto].
  destruct (item_inv i e Hi) as (e0 & _ & Hj & Hf). rewrite (filled_module _ _ Hf), Em in Hxm.
  assert (forall g', g' ∈ pm_Items gm -> me_Module g = me_Module g' -> g' = g) as Hug
    by (intros g' H1 H2; by eapply (entry_of_unique gm (me_Module g)); [apply Hok|..]).
  destruct Hj as [g' Hin Hn|g' t' Hin Ht' Hd'|g' t' Hin Ht' Hd' Hfn'|t' Hin Hn Hd']; cbn in Hxm;
    try (apply Hug in Hxm; [subst g'|done]).
  - by apply (Hn t).
  - apply Hd'. by rewrite (entry_of_unique am _ t' t (so_am s gm am Hok) Ht' Ht).
  - apply Hfn'. by rewrite (entry_of_unique am _ t' t (so_am s gm am Hok) Ht' Ht).
  - apply (Hn g). by split.
Qed.

Lemma gateway_plugin_held g : g ∈ pm_Items gm -> holds s' (rp (me_Filename g)) (me_Digest g).
Proof.
  intros Hg. destruct (by_id am !! me_Module g) as [t|] eqn:E.
  - apply by_id_lookup in E; [|apply Hok]. destruct (decide (me_Digest g = me_Digest t)) as [Hd|Hd].
    + destruct (decide (me_Filename g = me_Filename t)) as [Hfn|Hfn].
      * unfold holds. rewrite (unchanged_untouched g t) by done. rewrite Hfn, Hd.
        destruct E as [Ht _]. destruct (so_holds s gm am Hok t Ht) as (fl & ? & ? & _). eauto.
      * destruct (spec_achieved _ (join_rename gm am g t Hg E Hd Hfn)) as (e' & rnd & Hf & Hach).
        cbn in Hf. subst e'. unfold achieved in Hach. cbn -[bytes_str str_bytes] in Hach.
        rewrite bytes_str_bytes in Hach. by destruct Hach.
    + destruct (spec_achieved _ (join_update gm am g t Hg E Hd)) as (e' & rnd & Hf & Hach).
      cbn in Hf. destruct Hf as [(q & -> & _)|(data & -> & _)]; [by destruct Hach|done].
  - rewrite by_id_None in E by apply Hok.
    destruct (spec_achieved _ (join_create gm am g Hg E)) as (e' & rnd & (data & -> & _) & Hach). done.
Qed.

Lemma stale_plugin_gone t :
  t ∈ pm_Items am -> (forall g, g ∈ pm_Items gm -> rp (me_Filename g) <> rp (me_Filename t)) ->
  fs_files s' !! rp (me_Filename t) = None.
Proof.
  intros Ht Hno. destruct (by_id gm !! me_Module t) as [g|] eqn:E.
  - apply by_id_lookup in E as [Hg Hm]; [|apply Hok].
    assert (entry_of am (me_Module g) t) as Hta by (by split).
    destruct (decide (me_Digest g = me_Digest t)) as [Hd|Hd].
    + destruct (decide (me_Filename g = me_Filename t)) as [Hfn|Hfn]; [by destruct (Hno g Hg); rewrite Hfn|].
      destruct (spec_achieved _ (join_rename gm am g t Hg Hta Hd Hfn)) as (e' & rnd & Hf & Hach).
      cbn in Hf. subst e'. by destruct Hach.
    + destruct (Hno g Hg). by rewrite (so_update s gm am Hok g t Hg Hta Hd).
  - rewrite by_id_None in E by apply Hok.
    destruct (spec_achieved _ (join_remove gm am t Ht E (so_extra s gm am Hok t Ht E))) as (e' & rnd & Hf & Hach).
    cbn in Hf. by subst e'.
Qed.

Lemma temps_gone rnd : rnd ∈ rnds -> fs_files s' !! temp_name f rnd = None.
Proof.
  intros Hr. pose proof Hr as [i Hi]%list_elem_of_lookup.
  destruct (lookup_lt_is_Some_2 items i) as [e He]; [rewrite <- Hlen; by eapply lookup_lt_Some|].
  destruct (decide (ps_Op e = PatchOp_Update)) as [Eo|Eo].
  { pose proof (proj1 (proj2 sync_applies) i rnd e Hi He) as Hach. unfold achieved in Hach. rewrite Eo in Hach.
    by destruct Hach. }
  rewrite (proj1 (proj2 (proj2 sync_applies))); [by apply (to_free s gm am rnds Htmp)|].
  intros j rnd' e' Hj He' Hp. destruct (item_paths j rnd' e' _ Hj He' Hp) as [[E Eu]|(x & Hx & _ & E)];
    [|by eapply (to_plugin s gm am rnds Htmp rnd x)].
  destruct (decide (i = j)) as [<-|Hij]; [by simplify_eq|by eapply (to_distinct s gm am rnds Htmp i j)].
Qed.

Lemma others_unchanged p :
  (forall x, x ∈ entries gm am -> p <> rp (me_Filename x)) -> (forall rnd, rnd ∈ rnds -> p <> temp_name f rnd) ->
  fs_files s' !! p = fs_files s !! p.
Proof.
  intros Hx Ht. apply (proj2 (proj2 sync_applies)). intros i rnd e Hr Hi Hp.
  destruct (item_paths i rnd e p Hr Hi Hp) as [[-> _]|(x & Hin & _ & ->)]; [|by apply (Hx x)].
  apply (Ht rnd); [by eapply list_elem_of_lookup_2|done].
Qed.
End Sync.
End Agent.

(** ** Agent and gateway together *)

Section Convergence.
Context {DA DG : Disk} {BS : Bsdiff} {B : Blake2b} {ZS : Zstd} {PB : PluginBinary}.
Variable cfg : ServerConfig.
Variable U : list byte -> Prop.
Variable f : pluginFs.

(** The agent's files agree with a manifest: every plugin of it is there with its
    digest. *)
Definition in_sync (s : Fs) (m : PluginManifest) : Prop :=
  forall g, g ∈ pm_Items m -> holds s (resolve f (me_Filename g)) (me_Digest g).

End Convergence.

(** ** A gateway becomes ready *)

Section Load.
Context {D : Disk} {BS : Bsdiff} {B : Blake2b} {ZS : Zstd} {PB : PluginBinary}.
Variable cfg : ServerConfig.
Variable U : list byte -> Prop.

(** Nothing lies under the two directories of the cache. *)
Definition no_cache (dir : string) (s : Fs) : Prop :=
  map_Forall (fun p _ => HasPrefix p (plugins_dir dir) = false /\ HasPrefix p (patches_dir dir) = false) (fs_files s) /\
  set_Forall (fun p => HasPrefix p (plugins_dir dir) = false \/ p = plugins_dir dir) (fs_dirs s) /\
  set_Forall (fun p => HasPrefix p (patches_dir dir) = false \/ p = patches_dir dir) (fs_dirs s).

Lemma app_ne_self (a b : string) : b <> "" -> a +:+ b <> a.
Proof. intros Hb E. apply Hb. apply (str_app_inj_l a). by rewrite str_app_nil_r. Qed.

Lemma plugins_dir_ne dir : plugins_dir dir <> "" /\ patches_dir dir <> "".
Proof.
  unfold plugins_dir, patches_dir, cache_path. rewrite !path_Join_dir by done.
  split; by intros [_ ?]%str_app_eq_nil.
Qed.

Lemma cache_inv_fresh dir s : no_cache dir s -> cache_inv dir U s.
Proof.
  intros (Hf & Hd1 & Hd2). destruct (plugins_dir_ne dir) as [Hp1 Hp2]. split.
  - intros d fl Hh Hfl. rewrite plugin_path_child in Hfl by done. apply Hf in Hfl as [H _].
    by rewrite HasPrefix_app in H.
  - intros o n fl Ho Hn Hfl. rewrite patch_path_child in Hfl by done. apply Hf in Hfl as [_ H].
    by rewrite HasPrefix_app in H.
  - intros d Hh. rewrite plugin_path_child by done. split.
    + intros [H|H]%Hd1; [by rewrite HasPrefix_app in H|by apply app_ne_self in H].
    + by intros [? _]%str_app_eq_nil.
  - intros o n Ho Hn. rewrite patch_path_child by done. split.
    + intros [H|H]%Hd2; [by rewrite HasPrefix_app in H|by apply app_ne_self in H].
    + by intros [? _]%str_app_eq_nil.
Qed.

Lemma GetFilesystemPlugins_digests dc s md item :
  GetFilesystemPlugins dc s = Ok md -> item ∈ pa_Items md -> digest_of (ae_Data item) = me_Digest (ae_Metadata item).
Proof.
  unfold GetFilesystemPlugins. intros (ms & _ & [= <-])%obind_Ok. cbn [pa_Items PluginArchive_Sort].
  rewrite merge_sort_Permutation, list_elem_of_omap. intros (m & _ & Hr). unfold read_plugin in Hr.
  destruct (fs_ReadFile s (md_BinaryPath m)); [|done..]. by simplify_eq.
Qed.

(** The first use of the manifest archives the gateway's plugins. *)
Lemma getPluginManifest_ready st md :
  Reliable D -> ss_once st = false -> cache_inv (sc_CacheDir cfg) U (ss_fs st) ->
  GetFilesystemPlugins (discovery cfg) (ss_fs st) = Ok md -> (forall item, item ∈ pa_Items md -> U (ae_Data item)) ->
  exists st', getPluginManifest cfg st = (st', Ok (Some (ToManifest md))) /\ gateway_ready cfg U st' (ToManifest md).
Proof.
  intros HR Ho Hc Hm HU. unfold getPluginManifest. rewrite Ho. unfold loadPluginManifest. cbn [ss_fs]. rewrite Hm.
  destruct (archive_items_spec (sc_CacheDir cfg) U (pa_Items md) (ss_fs st) HR) as (s' & Hs & (_ & _ & Hinv) & Hall).
  { apply list.Forall_forall. intros item Hin. pose proof (GetFilesystemPlugins_digests _ _ _ _ Hm Hin) as Hd.
    split; [done|]. split; [by apply HU|]. apply (ci_dirs_plugins _ _ _ Hc). rewrite <- Hd. apply digest_of_hex. }
  unfold Archive. rewrite Hs. eexists. split; [done|]. split_and!; try done; [by apply Hinv|].
  intros g Hg. cbn in Hg. apply list_elem_of_fmap in Hg as (item & -> & Hin).
  rewrite list.Forall_forall in Hall. by apply Hall.
Qed.
End Load.

(** ** Garbage collection *)

Section Gc.
Context {D : Disk} {BS : Bsdiff} {B : Blake2b} {ZS : Zstd} {PB : PluginBinary}.
Variable cfg : ServerConfig.

Notation dir := (sc_CacheDir cfg).

(** Some cluster runs the plugin, or the gateway offers it. *)
Definition in_use (gm : PluginManifest) (clusters : list Cluster) (d : string) : Prop :=
  (exists g, g ∈ pm_Items gm /\ me_Digest g = d) \/
  exists c det m, c ∈ clusters /\ cm_LastKnownConnectionDetails (cluster_meta c) = Some det /\
    lk_PluginVersions det !! m = Some d.

Lemma digests_to_keep_spec gm clusters d : d ∈ digests_to_keep gm clusters <-> in_use gm clusters d.
Proof.
  unfold digests_to_keep, in_use, DigestSet. rewrite elem_of_union, !elem_of_list_to_set, list_elem_of_fmap, list_elem_of_bind.
  apply Morphisms_Prop.or_iff_morphism.
  - split; intros (g & H1 & H2); exists g; by split.
  - unfold cluster_versions. split.
    + intros (c & Hd & Hc). destruct (cm_LastKnownConnectionDetails (cluster_meta c)) as [det|] eqn:E; [|by apply not_elem_of_nil in Hd].
      apply list_elem_of_fmap in Hd as ([m d'] & -> & Hin%elem_of_map_to_list). eauto 10.
    + intros (c & det & m & Hc & E & Hm). exists c. rewrite E. split; [|done].
      apply list_elem_of_fmap. exists (m, d). split; [done|]. by apply elem_of_map_to_list.
Qed.

(** C37: garbage collection is safe and complete.  A plugin that the gateway offers or
    that some cluster reported keeps its file, and so does a patch between two such
    plugins, whatever the disk refuses; on a disk that works every other plugin is gone
    afterwards, with all patches from it and to it. *)
Theorem gc_collects st st' gm clusters :
  ss_once st = true -> ss_manifest st = Some gm ->
  (forall names, ListDigests dir (ss_fs st) = Ok names -> Forall hexdigest names) ->
  RunGarbageCollection cfg (Ok clusters) st = (st', Ok tt) ->
  (forall o n, hexdigest o -> hexdigest n -> in_use gm clusters o -> in_use gm clusters n ->
     fs_files (ss_fs st') !! plugin_path dir o = fs_files (ss_fs st) !! plugin_path dir o /\
     fs_files (ss_fs st') !! patch_path dir o n = fs_files (ss_fs st) !! patch_path dir o n) /\
  (Reliable D -> forall h o n, hexdigest h -> hexdigest o -> hexdigest n -> ~ in_use gm clusters h ->
     is_Some (fs_files (ss_fs st) !! plugin_path dir h) -> o = h \/ n = h ->
     fs_files (ss_fs st') !! plugin_path dir h = None /\ fs_files (ss_fs st') !! patch_path dir o n = None).
Proof.
  intros Ho Hm Hnames. unfold RunGarbageCollection, wbind, wlift, getPluginManifest. rewrite Ho, Hm. cbn [deref].
  unfold on_fs at 1, read_fs. destruct (ListDigests dir (ss_fs st)) as [names|e|q] eqn:El; [|done..].
  specialize (Hnames names eq_refl). intros [= <-]. cbn [ss_fs set_fs].
  set (toClean := filter (fun h => h ∉ digests_to_keep gm clusters) names).
  assert (Forall hexdigest toClean) as Hclean.
  { apply list.Forall_forall. intros h [_ Hh]%list_elem_of_filter. rewrite list.Forall_forall in Hnames. by apply Hnames. }
  split.
  - intros o n Hho Hhn Hu Hu'. apply digests_to_keep_spec in Hu, Hu'.
    apply Clean_keeps; [done..| |]; by intros [? _]%list_elem_of_filter.
  - intros HR h o n Hh Hho Hhn Hu Hs Hor. apply Clean_removes; [done..| |done|done|done].
    apply list_elem_of_filter. split; [by rewrite digests_to_keep_spec|].
    apply (ReadDir_elem _ _ _ _ El). fold (plugins_dir dir). rewrite <- plugin_path_child by done.
    pose proof (hexdigest_plain h Hh) as (? & ? & _)%plain_component_spec. done.
Qed.
End Gc.

(** ** Limits of the synchronisation *)

Section Stuck.
Context {D : Disk} {BS : Bsdiff} {B : Blake2b}.

(** A plugin whose file name and digest both changed cannot be updated.  The patch
    names the gateway's file, which the agent does not have, so that applying it fails
    with Unavailable and changes nothing; a retry fails in the same way. *)
Lemma renamed_update_stuck f rnd s g t data s' r :
  Reliable D -> me_Module g = me_Module t -> me_Digest g <> me_Digest t ->
  fs_files s !! resolve f (me_Filename g) = None -> resolve f (me_Filename g) ∉ fs_dirs s ->
  let e := mkPatchSpec (me_Module g) PatchOp_Update [] (me_Filename g) (me_Digest t) (me_Digest g) in
  pl_Items (LeftJoinOn (mkPluginManifest [g]) (mkPluginManifest [t])) = [e] /\
  (Patch f [rnd] (mkPatchList [with_data e PatchOp_Update data]) s s' r ->
   s' = s /\ r = Err (unavailableErrf "failed to stat plugin")).
Proof.
  intros HR Hm Hd Hf Hnd e. split.
  - unfold LeftJoinOn, PatchList_Sort, join_items, join_ours, join_theirs, by_id, GetId. cbn [pm_Items pl_Items fold_left mbind list_bind].
    rewrite Hm, !lookup_insert_eq, decide_False by done. unfold e. rewrite Hm. reflexivity.
  - intros Hp. apply Patch_schedule in Hp; [|by intros i j F G Hij; destruct i, j].
    destruct Hp as [-> Hg].
    assert (run_all (patch_progs f [rnd] (mkPatchList [with_data e PatchOp_Update data])) s =
            (s, [Err (unavailableErrf "failed to stat plugin")])) as E.
    { unfold patch_progs, patch_entry, doUpdate, pf_Stat, call. cbn -[resolve temp_name].
      unfold fs_Stat, faulty. rewrite HR, Hf, decide_False by done. reflexivity. }
    rewrite E in *. cbn in Hg. split; [done|].
    destruct Hg as [[H _]|[H _]]; [by inversion H|]. by apply list_elem_of_singleton in H.
Qed.
End Stuck.

(** The manifest of an agent that claims to have a plugin under a path of the cache. *)
Definition evil_manifest : PluginManifest :=
  mkPluginManifest [mkManifestEntry "module_1" "plugin_a" ("../plugins/" +:+ digest_of bin_c)].

(** An agent can remove a plugin from the gateway's cache.  The digests of a
    manifest are used as file names without a check: a valid manifest whose digest leads
    back to the file of another plugin makes the server find that file corrupted and
    clean it, and the next agent that needs the plugin is refused with Internal, where
    it was served before. *)
Lemma agent_evicts_plugin :
  let '(st1, r1) := SyncPluginManifest ref_cfg evil_manifest ref_gateway in
  let '(st2, r2) := SyncPluginManifest ref_cfg ref_am st1 in
  PluginManifest_Validate evil_manifest = Ok tt /\
  is_Ok (SyncPluginManifest ref_cfg ref_am ref_gateway).2 = true /\
  r1 = Err (StatusError codes_Internal "internal error in plugin cache, cannot sync") /\
  r2 = Err (StatusError codes_Internal "lost plugin in cache").
Proof. vm_compute. split_and!; reflexivity. Qed.

(** A disk that is full when a patch is written. *)
Definition full_disk : Disk :=
  {| disk_fault c p := match c with
                       | CWrite => if HasPrefix p "/cache/patches/" then Some (External "no space left on device") else None
                       | _ => None
                       end;
     disk_short _ := 9; disk_umask := 18 |}.

Definition ref_both : Fs :=
  (Archive "/cache" (mkPluginArchive [mkArchiveEntry (ref_entry "module_1" "plugin_a" bin_a_old) bin_a_old;
                                      mkArchiveEntry (ref_entry "module_1" "plugin_a" bin_a_new) bin_a_new]) ref_gateway_fs).1.

(** A patch that was not written completely stays in the cache: the request that wrote
    it fails, but later ones, on a disk that works again, are answered with the
    truncated patch, which no agent can apply. *)
Theorem short_write_poisons_cache :
  let o := digest_of bin_a_old in let n := digest_of bin_a_new in
  let (s1, r1) := @RequestPatch full_disk _ _ _ "/cache" o n ref_both in
  let (s2, r2) := RequestPatch "/cache" o n s1 in
  let p := match r2 with Ok p => p | _ => [] end in
  is_Ok r1 = false /\ is_Ok r2 = true /\ p <> (bsdiff_header ++ bin_a_new)%list /\
  (run (doUpdate ref_pfs "1" (mkPatchSpec "module_1" PatchOp_Update p "plugin_a" o n)) ref_agent_fs).2 =
    Err (StatusError codes_Unavailable "patch failed for plugin (checksum mismatch)").
Proof. vm_compute. split_and!; [reflexivity..|discriminate|reflexivity]. Qed.

(** ** Witnesses *)

Definition ref_U (d : list byte) : Prop := d ∈ [bin_a_old; bin_a_new; bin_b; bin_c].

Lemma ref_collision_free : collision_free ref_U.
Proof.
  intros a b Ha Hb. unfold ref_U in *.
  repeat (apply elem_of_cons in Ha as [->|Ha]); try (by apply not_elem_of_nil in Ha);
    repeat (apply elem_of_cons in Hb as [->|Hb]); try (by apply not_elem_of_nil in Hb); try done;
    vm_compute; discriminate.
Qed.

Lemma ref_no_cache : no_cache "/cache" ref_gateway_fs.
Proof.
  split_and!; cbn [fs_files fs_dirs ref_gateway_fs].
  - apply map_Forall_insert_2; [|apply map_Forall_singleton]; split; vm_compute; reflexivity.
  - apply set_Forall_singleton. left. vm_compute. reflexivity.
  - apply set_Forall_singleton. left. vm_compute. reflexivity.
Qed.

Lemma ref_ready : gateway_ready ref_cfg ref_U ref_gateway ref_gm.
Proof.
  destruct (GetFilesystemPlugins (discovery ref_cfg) ref_gateway_fs) as [md| |] eqn:E; [|vm_compute in E; discriminate E..].
  destruct (getPluginManifest_ready ref_cfg ref_U ref_fresh md Disk_ref_reliable eq_refl
    (cache_inv_fresh _ _ _ ref_no_cache) E) as (st' & Hr & Hready).
  { intros item Hin. vm_compute in E. injection E as <-.
    repeat (apply elem_of_cons in Hin as [->|Hin]); [..|by apply not_elem_of_nil in Hin];
      unfold ref_U; cbn [ae_Data]; rewrite !elem_of_cons; auto 10. }
  unfold ref_gm, ref_gateway. rewrite Hr. cbn [fst]. pose proof Hready as (_ & -> & _). exact Hready.
Qed.

Ltac elems H :=
  repeat (apply elem_of_cons in H as [->|H]); [..|destruct (not_elem_of_nil _ H)].

Lemma ref_entries : entries ref_gm ref_am =
  [ref_entry "module_1" "plugin_a" bin_a_new; ref_entry "module_3" "plugin_c" bin_c;
   ref_entry "module_1" "plugin_a" bin_a_old; ref_entry "module_2" "plugin_b" bin_b].
Proof. unfold entries. by rewrite ref_gm_items, ref_am_items. Qed.

Lemma ref_sync_ok : sync_ok ref_U ref_pfs ref_agent_fs ref_gm ref_am.
Proof.
  split; unfold modules_distinct, entry_of; rewrite ?ref_entries, ?ref_gm_items, ?ref_am_items.
  - apply (bool_decide_eq_true_1 _). vm_compute. reflexivity.
  - apply (bool_decide_eq_true_1 _). vm_compute. reflexivity.
  - intros x y Hx Hy. elems Hx; elems Hy; cbn [me_Module me_Filename ref_entry]; intros Hne; try done; vm_compute; discriminate.
  - intros x Hx. elems Hx; (split; [vm_compute; discriminate|]); cbn [fs_dirs ref_agent_fs];
      rewrite not_elem_of_union, !not_elem_of_singleton; vm_compute; split; discriminate.
  - intros t Ht. elems Ht; eexists; (split; [vm_compute; reflexivity|]); (split; [reflexivity|]);
      unfold ref_U; cbn [f_Data]; rewrite !elem_of_cons; auto 10.
  - intros g t Hg [Ht Hm] _. elems Hg; elems Ht; try done; vm_compute in Hm; discriminate Hm.
  - intros g t Hg [Ht Hm] Hd Hfn. elems Hg; elems Ht; try done; vm_compute in Hm; discriminate Hm.
  - intros t Ht Hno. elems Ht.
    + exfalso. apply (Hno (ref_entry "module_1" "plugin_a" bin_a_new)).
      split; [left|reflexivity].
    + unfold DigestSet. rewrite ref_gm_items, elem_of_list_to_set. cbn [fmap list_fmap].
      rewrite !not_elem_of_cons. split_and!; [vm_compute; discriminate..|apply not_elem_of_nil].
Qed.

Lemma ref_temps_ok : temps_ok ref_pfs ref_agent_fs ref_gm ref_am ref_rnds.
Proof.
  split.
  - intros rnd Hr. unfold ref_rnds in Hr. elems Hr; vm_compute; reflexivity.
  - intros rnd Hr. unfold ref_rnds in Hr. elems Hr; (split; [|vm_compute; reflexivity]); cbn [fs_dirs ref_agent_fs];
      rewrite not_elem_of_union, !not_elem_of_singleton; vm_compute; split; discriminate.
  - intros rnd x Hr Hx. rewrite ref_entries in Hx. unfold ref_rnds in Hr. elems Hr; elems Hx; vm_compute; discriminate.
  - intros i j r r' Hij Hi Hj. destruct i as [|[|[|i]]], j as [|[|[|j]]]; cbn in Hi, Hj; try done; simplify_eq;
      vm_compute; discriminate.
Qed.

Lemma ref_syncPlugins : exists s' st' res,
  syncPlugins Disk_ref Disk_ref ref_cfg ref_pfs ref_rnds ref_agent_fs ref_gateway s' st' res.
Proof.
  unfold syncPlugins.
  destruct (GetFilesystemPlugins (mkDiscoveryConfig (pf_dir ref_pfs) true [] false) ref_agent_fs) as [a| |]; [|eauto 10..].
  destruct (SyncPluginManifest ref_cfg (ToManifest a) ref_gateway) as [st1 [r| |]]; [|eauto 10..].
  set (progs := patch_progs ref_pfs ref_rnds (sr_RequiredPatches r)).
  pose proof (run_all_schedule progs ref_agent_fs) as Hs.
  assert (exists o, group_result (run_all progs ref_agent_fs).2 o) as [o Ho].
  { destruct (decide (Forall (fun o => o = Ok tt) (run_all progs ref_agent_fs).2)) as [H|H].
    - exists (Ok tt). by left.
    - apply not_Forall_Exists in H; [|apply _]. apply Exists_exists in H as (o & Hin & Hne).
      exists o. right. split; [by apply list_elem_of_In|done]. }
  do 3 eexists. split; [done|]. exists o. split; [|done]. eexists. split; [exact Hs|exact Ho].
Qed.


(** A cluster that runs the old plugin, and a cache with one plugin nobody uses. *)
Definition ref_cluster : Cluster :=
  mkCluster "c1" (Some (mkClusterMetadata ∅ [] "" (Some (mkLastKnownConnectionDetails None "" None
    {[ "module_1" := digest_of bin_a_old ]})) None)).
Definition ref_unused : SyncState :=
  let items := [mkArchiveEntry (ref_entry "module_1" "plugin_a" bin_a_old) bin_a_old;
                mkArchiveEntry (ref_entry "module_2" "plugin_b" bin_b) bin_b] in
  set_fs ref_gateway (Archive "/cache" (mkPluginArchive items) (ss_fs ref_gateway)).1.

Lemma gc_collects_witness :
  exists st', RunGarbageCollection ref_cfg (Ok [ref_cluster]) ref_unused = (st', Ok tt) /\
    fs_files (ss_fs st') !! plugin_path "/cache" (digest_of bin_a_old) =
      fs_files (ss_fs ref_unused) !! plugin_path "/cache" (digest_of bin_a_old) /\
    fs_files (ss_fs st') !! plugin_path "/cache" (digest_of bin_b) = None.
Proof.
  destruct (RunGarbageCollection ref_cfg (Ok [ref_cluster]) ref_unused) as [st' r] eqn:E. exists st'.
  assert (r = Ok tt) as -> by (apply (f_equal snd) in E; vm_compute in E; symmetry; exact E).
  split; [reflexivity|].
  destruct (gc_collects ref_cfg ref_unused st' ref_gm [ref_cluster]) as [Hkeep Hgone];
    [vm_compute; reflexivity|vm_compute; reflexivity| |exact E|].
  { intros names Hn. vm_compute in Hn. injection Hn as <-.
    repeat (apply list.Forall_cons; split; [split; vm_compute; reflexivity|]). constructor. }
  assert (in_use ref_gm [ref_cluster] (digest_of bin_a_old)) as Hold.
  { right. exists ref_cluster. eexists. exists "module_1". split; [left|]. split; [reflexivity|]. apply lookup_singleton_eq. }
  split; [exact (proj1 (Hkeep _ _ (digest_of_hex bin_a_old) (digest_of_hex bin_a_old) Hold Hold))|].
  refine (proj1 (Hgone Disk_ref_reliable _ _ _ (digest_of_hex bin_b) (digest_of_hex bin_b) (digest_of_hex bin_b) _ _
    (or_introl eq_refl))); [|vm_compute; eexists; reflexivity].
  intros [(g & Hg & Hd)|(c & det & m & Hc & Hdet & Hm)].
  - rewrite ref_gm_items in Hg. elems Hg; vm_compute in Hd; discriminate Hd.
  - elems Hc. injection Hdet as <-. cbn [lk_PluginVersions] in Hm.
    apply lookup_singleton_Some in Hm as [_ Hm]. vm_compute in Hm. discriminate Hm.
Defined.

