(* ===== verification/Gateway.v ===== *)
(** pkg/gateway: the connections of agents.  The sync requester and the delegate server
    keep the connected agents in maps that the handlers of connections change; a handler
    is a small state machine, and handlers of different connections interleave.  A
    section of code that holds the mutex is one step; the delegate server has a path
    that keeps the mutex, so there the mutex is part of the state.  The last part is the
    interceptor that records the details of a connection. *)

From S2P Require Import Prelude GoStd Util Validation CoreV1 Storage Patch Bootstrap Management.

Local Open Scope string_scope.

(** ** sync.go *)

(** Where the handler of a connection is: before its first lock, waiting for the
    connection to end, before its second lock, returned; [Leaked] has returned with the
    mutex locked. *)
Inductive phase := Starting | Serving | Stopping | Gone | Leaked.

#[export] Instance phase_eq_dec : EqDecision phase.
Proof. solve_decision. Defined.

Record Conn := mkConn { cn_id : string; cn_phase : phase }.

(** Connections are numbered in the order they were made; the number stands for the
    client set of the connection. *)
Record SyncRequester := mkSyncRequester { sq_activeAgents : gmap string nat; sq_conns : list Conn }.

Definition set_phase (i : nat) (p : phase) (l : list Conn) : list Conn :=
  match l !! i with Some c => <[i := mkConn (cn_id c) p]> l | None => l end.

(** The two locked sections of [HandleAgentConnection]. *)
Definition sq_register (i : nat) (id : string) (s : SyncRequester) : SyncRequester :=
  mkSyncRequester (<[id := i]> (sq_activeAgents s)) (set_phase i Serving (sq_conns s)).
Definition sq_unregister (i : nat) (id : string) (s : SyncRequester) : SyncRequester :=
  mkSyncRequester (delete id (sq_activeAgents s)) (set_phase i Gone (sq_conns s)).

(** One step of some connection: it is made, its handler registers it, it ends, its
    handler unregisters it. *)
Inductive sq_step : SyncRequester -> SyncRequester -> Prop :=
| sq_connect s id : sq_step s (mkSyncRequester (sq_activeAgents s) (sq_conns s ++ [mkConn id Starting])%list)
| sq_start s i id : sq_conns s !! i = Some (mkConn id Starting) -> sq_step s (sq_register i id s)
| sq_done s i id : sq_conns s !! i = Some (mkConn id Serving) ->
    sq_step s (mkSyncRequester (sq_activeAgents s) (set_phase i Stopping (sq_conns s)))
| sq_stop s i id : sq_conns s !! i = Some (mkConn id Stopping) -> sq_step s (sq_unregister i id s).

Definition NewSyncRequester : SyncRequester := mkSyncRequester ∅ [].

(** The client sets [RequestSync] collects; [order] is the order in which it ranges over
    the map. *)
Definition to_sync (agents : gmap string nat) (order : list nat) (id : string) : list nat :=
  if decide (id = "") then order
  else match agents !! id with Some c => [c] | None => [] end.

(** [RequestSync]: the clients that are asked and the result; [syncNow] is the call to
    the agent.  Every turn of the loop returns. *)
Definition RequestSync (syncNow : nat -> outcome unit) (agents : gmap string nat) (order : list nat)
    (id : string) : list nat * outcome unit :=
  match to_sync agents order id with
  | clientSet :: _ =>
      ([clientSet], match syncNow clientSet with Err err => Err err | _ => Ok tt end)
  | [] => ([], Err (StatusError codes_NotFound "agent is not connected"))
  end.

(** [period + rand.Int63n(jitter)], the time to the next periodic sync. *)
Definition sync_interval (period jitter : Z) (rand : Z) : Z := wrap64 (period + rand `mod` jitter).

(** ** delegate.go *)

Record agentInfo := mkAgentInfo { ai_conn : nat; ai_labels : gmap string string; ai_id : string }.

#[export] Instance agentInfo_reader : IdLabelReader agentInfo :=
  {| ilr_GetId := ai_id; ilr_GetLabels := ai_labels |}.

Record DelegateServer := mkDelegateServer {
  dg_locked : bool; dg_activeAgents : gmap string agentInfo; dg_conns : list Conn }.

Definition NewDelegateServer : DelegateServer := mkDelegateServer false ∅ [].

(** The first locked section, with the answer of [clusterStore.GetCluster]: on an error
    the handler returns without unlocking. *)
Definition dg_register (i : nat) (id : string) (answer : outcome Cluster) (s : DelegateServer) : DelegateServer :=
  match answer with
  | Ok c => mkDelegateServer false (<[id := mkAgentInfo i (Clus.GetLabels c) id]> (dg_activeAgents s))
              (set_phase i Serving (dg_conns s))
  | _ => mkDelegateServer true (dg_activeAgents s) (set_phase i Leaked (dg_conns s))
  end.

Definition dg_unregister (i : nat) (id : string) (s : DelegateServer) : DelegateServer :=
  mkDelegateServer false (delete id (dg_activeAgents s)) (set_phase i Gone (dg_conns s)).

Inductive dg_step : DelegateServer -> DelegateServer -> Prop :=
| dg_connect s id :
    dg_step s (mkDelegateServer (dg_locked s) (dg_activeAgents s) (dg_conns s ++ [mkConn id Starting])%list)
| dg_start s i id answer : dg_locked s = false -> dg_conns s !! i = Some (mkConn id Starting) ->
    dg_step s (dg_register i id answer s)
| dg_done s i id : dg_conns s !! i = Some (mkConn id Serving) ->
    dg_step s (mkDelegateServer (dg_locked s) (dg_activeAgents s) (set_phase i Stopping (dg_conns s)))
| dg_stop s i id : dg_locked s = false -> dg_conns s !! i = Some (mkConn id Stopping) ->
    dg_step s (dg_unregister i id s).

Section Delegate.
Context {RPC : Type}.

(** [target.Invoke(ctx, totem.Forward, request, reply)], and [proto.Unmarshal] of the
    forwarded response. *)
Variable invoke : nat -> RPC -> outcome RPC.
Variable unwrap : RPC -> outcome RPC.

(** A call that waits for the mutex forever has no result. *)
Definition dg_Request (s : DelegateServer) (request : RPC) (targetId : string) : option (outcome RPC) :=
  if dg_locked s then None
  else Some
    match dg_activeAgents s !! targetId with
    | Some target => let? fwdResp := invoke (ai_conn target) request in unwrap fwdResp
    | None => Err (StatusError codes_NotFound "target not found")
    end.

(** The agents a broadcast is for, in the order [order] of the map. *)
Definition broadcast_targets (order : list agentInfo) (selector : ClusterSelector) : list agentInfo :=
  filter (fun aa => NewSelectorPredicate selector aa = true) order.

(** Every target is invoked; the first error is the result. *)
Definition dg_Broadcast (s : DelegateServer) (order : list agentInfo) (request : RPC) (selector : ClusterSelector)
    : option (outcome (list (Reference * RPC))) :=
  if dg_locked s then None
  else Some
    match broadcast_targets order selector with
    | [] => Err (StatusError codes_NotFound "no targets found")
    | targets => omapM (fun t => let? item := invoke (ai_conn t) request in Ok (mkReference (ai_id t), item)) targets
    end.
End Delegate.

(** ** versions.go *)

Section Details.
Context {W : Type} {MS : ManagementStorage W}.

(** The mutator of [NewLastKnownDetailsApplier]; a cluster without metadata makes it
    panic. *)
Definition set_details (lkcd : LastKnownConnectionDetails) : MutatorFunc Cluster := fun c =>
  match cl_Metadata c with
  | Some m => Ok (mkCluster (cl_Id c) (Some (mkClusterMetadata (cm_Labels m) (cm_Capabilities m)
                    (cm_ResourceVersion m) (Some lkcd) (cm_CreationTimestamp m))))
  | None => Panic "nil pointer dereference"
  end.

(** The details of a connection: [addr] when the peer is known, [manifest] the manifest
    in the context, [buildInfo] the build information sent by the agent, if any, after
    parsing. *)
Definition connection_details (now : Time) (addr : option string) (manifest : option PluginManifest)
    (buildInfo : option (outcome BuildInfo)) : outcome LastKnownConnectionDetails :=
  let? bi := match buildInfo with
             | Some (Ok b) => Ok (Some b)
             | Some (Err e) => Err e
             | Some (Panic p) => Panic p
             | None => Ok None
             end in
  Ok (mkLastKnownConnectionDetails (Some now) (default "" addr) bi
        (match manifest with Some m => PluginDigests m | None => ∅ end)).

Definition LastKnownDetailsApplier {A} (id : string) (now : Time) (addr : option string)
    (manifest : option PluginManifest) (buildInfo : option (outcome BuildInfo)) (handler : M W A) : M W A :=
  let! lkcd := wlift (connection_details now addr manifest buildInfo) in
  wcatch (ms_UpdateCluster (mkReference id) (set_details lkcd))
    (fun _ => wfail (StatusError codes_Internal "failed to update cluster")) ;!
  handler.
End Details.

(** ** The sync requester *)

Definition registered (p : phase) : Prop := p = Serving \/ p = Stopping.

(** Every agent in the map belongs to a connection that has not ended its handler. *)
Definition sq_inv (s : SyncRequester) : Prop :=
  forall id i, sq_activeAgents s !! id = Some i ->
    exists p, sq_conns s !! i = Some (mkConn id p) /\ registered p.

Lemma set_phase_lookup i p l j :
  set_phase i p l !! j = if decide (i = j) then (fun c => mkConn (cn_id c) p) <$> l !! j else l !! j.
Proof.
  unfold set_phase. destruct (l !! i) as [c|] eqn:E; case_decide as H; subst.
  - rewrite list_lookup_insert_eq by (by eapply lookup_lt_Some). by rewrite E.
  - by rewrite list_lookup_insert_ne.
  - by rewrite E.
  - done.
Qed.

Lemma sq_step_inv s s' : sq_step s s' -> sq_inv s -> sq_inv s'.
Proof.
  intros Hs Hinv. destruct Hs as [s id|s i id Hi|s i id Hi|s i id Hi]; intros id' j Hj; cbn in Hj |- *.
  - destruct (Hinv id' j Hj) as (p & Hp & Hr). exists p. split; [|done].
    rewrite lookup_app_l; [done|by eapply lookup_lt_Some].
  - rewrite set_phase_lookup. destruct (decide (id' = id)) as [->|Hne].
    + rewrite lookup_insert_eq in Hj. injection Hj as <-. rewrite decide_True, Hi by done.
      exists Serving. split; [done|by left].
    + rewrite lookup_insert_ne in Hj by done. destruct (Hinv id' j Hj) as (p & Hp & Hr).
      case_decide; [subst; rewrite Hi in Hp; simplify_eq|eauto].
  - destruct (Hinv id' j Hj) as (p & Hp & Hr). rewrite set_phase_lookup. case_decide; [|eauto].
    subst. rewrite Hi in *. simplify_eq/=. exists Stopping. split; [done|by right].
  - apply lookup_delete_Some in Hj as [Hne Hj]. destruct (Hinv id' j Hj) as (p & Hp & Hr).
    rewrite set_phase_lookup. case_decide; [subst; rewrite Hi in Hp; simplify_eq|eauto].
Qed.

(** Steps in which a handler registers its connection only when no other connection of
    the agent is registered. *)
Definition sq_exclusive (s s' : SyncRequester) : Prop :=
  sq_step s s' /\
  forall i id, s' = sq_register i id s -> sq_conns s !! i = Some (mkConn id Starting) ->
    forall j p, sq_conns s !! j = Some (mkConn id p) -> ~ registered p.

Definition sq_complete (s : SyncRequester) : Prop :=
  forall id i p, sq_conns s !! i = Some (mkConn id p) -> registered p -> sq_activeAgents s !! id = Some i.

Lemma sq_exclusive_complete s s' : sq_exclusive s s' -> sq_inv s -> sq_complete s -> sq_complete s'.
Proof.
  intros [Hs Hex] Hinv Hc. destruct Hs as [s id|s i id Hi|s i id Hi|s i id Hi]; intros id' j p Hj Hr; cbn in Hj |- *.
  - destruct (decide (j < length (sq_conns s))) as [Hlt|Hge].
    + rewrite lookup_app_l in Hj by done. by eapply Hc.
    + rewrite lookup_app_r in Hj by lia. apply list_lookup_singleton_Some in Hj as [_ [= _ <-]]. by destruct Hr.
  - rewrite set_phase_lookup in Hj. case_decide as Hij.
    + subst j. rewrite Hi in Hj. simplify_eq/=. by rewrite lookup_insert_eq.
    + rewrite lookup_insert_ne; [by eapply Hc|]. intros ->. by eapply (Hex i id' eq_refl Hi j p).
  - rewrite set_phase_lookup in Hj. case_decide as Hij; [|by eapply Hc].
    subst j. rewrite Hi in Hj. simplify_eq/=. eapply Hc; [done|by left].
  - rewrite set_phase_lookup in Hj. case_decide as Hij.
    + subst j. rewrite Hi in Hj. simplify_eq/=. by destruct Hr.
    + pose proof (Hc _ _ _ Hj Hr) as Hact. rewrite lookup_delete_ne; [done|]. intros ->.
      assert (sq_activeAgents s !! id' = Some i) by (eapply Hc; [done|by right]). congruence.
Qed.

Lemma sq_reachable_inv s : rtc sq_step NewSyncRequester s -> sq_inv s.
Proof.
  intros H. assert (sq_inv NewSyncRequester) as H0 by (intros id i Hi; cbn in Hi; by rewrite lookup_empty in Hi).
  revert H0. induction H as [s|s1 s2 s3 Hs _ IH]; [done|]. intros Hinv. apply IH. by eapply sq_step_inv.
Qed.

(** C33: the map of active agents follows the connections.  In every interleaving an
    agent in the map has a connection that is not over; and as long as an agent's next
    connection is registered only after the handler of its previous one has returned,
    the map has exactly the agents that are connected, each with its own connection. *)
Theorem active_agents_follow_connections s :
  (rtc sq_step NewSyncRequester s -> sq_inv s) /\
  (rtc sq_exclusive NewSyncRequester s ->
   forall id i, sq_activeAgents s !! id = Some i <-> exists p, sq_conns s !! i = Some (mkConn id p) /\ registered p).
Proof.
  split; [apply sq_reachable_inv|]. intros H.
  assert (sq_inv s /\ sq_complete s) as [Hinv Hc].
  { assert (sq_inv NewSyncRequester /\ sq_complete NewSyncRequester) as H0.
    { split; [apply sq_reachable_inv; reflexivity|]. intros id i p Hi. by destruct i. }
    revert H0. induction H as [s|s1 s2 s3 Hs _ IH]; [done|]. intros [Hi Hc]. apply IH.
    split; [eapply sq_step_inv; [apply Hs|done]|by eapply sq_exclusive_complete]. }
  intros id i. split; [apply Hinv|]. intros (p & Hp & Hr). by eapply Hc.
Qed.

(** A sync request reaches one agent.  A request that names an agent asks exactly
    the connection registered for it, or fails with NotFound; a request without a name,
    which stands for all agents, asks only the first one the map yields and reports
    success, whoever else is connected. *)
Lemma RequestSync_asks_one syncNow agents order id called r :
  order ≡ₚ (map_to_list agents).*2 -> RequestSync syncNow agents order id = (called, r) ->
  (id <> "" -> called = match agents !! id with Some c => [c] | None => [] end) /\
  (id = "" -> called = match order with c :: _ => [c] | [] => [] end) /\
  (r = Ok tt -> exists c, called = [c]) /\
  (2 <= size agents -> id = "" -> exists other c, agents !! other = Some c /\ (NoDup order -> c ∉ called)).
Proof.
  intros Hperm. unfold RequestSync, to_sync. case_decide as Hid.
  - assert (length order = size agents) as Hlen.
    { rewrite Hperm, length_fmap. apply length_map_to_list. }
    destruct order as [|c order]; intros [= <- <-].
    + split_and!; try done. intros Hs. cbn in Hlen. lia.
    + split_and!; try done; [eauto|]. intros Hs _. destruct order as [|c2 order]; [cbn in Hlen; lia|].
      assert (c2 ∈ (map_to_list agents).*2) as Hc2 by (rewrite <- Hperm; right; left).
      apply list_elem_of_fmap in Hc2 as ([other c'] & -> & Hin%elem_of_map_to_list). exists other, c'.
      split; [done|]. intros [Hn _]%list.NoDup_cons. rewrite list_elem_of_singleton. intros ->. apply Hn. by left.
  - destruct (agents !! id) as [c|]; intros [= <- <-]; split_and!; try done; eauto.
Qed.

(** ** The delegate server *)

Lemma dg_locked_step s s' : dg_step s s' -> dg_locked s = true ->
  dg_locked s' = true /\ dg_activeAgents s' = dg_activeAgents s.
Proof. intros Hs Hl. destruct Hs; cbn; try done; congruence. Qed.

(** A connection whose cluster cannot be looked up blocks the delegate server for
    good.  After the failed lookup the mutex stays locked in every continuation: no
    connection is registered or removed any more, and no request or broadcast returns. *)
Lemma failed_lookup_blocks_delegate {RPC} (invoke : nat -> RPC -> outcome RPC) unwrap s i id e s' order req target sel :
  dg_locked s = false -> dg_conns s !! i = Some (mkConn id Starting) ->
  dg_step s (dg_register i id (Err e) s) /\
  (rtc dg_step (dg_register i id (Err e) s) s' ->
   dg_activeAgents s' = dg_activeAgents s /\
   dg_Request invoke unwrap s' req target = None /\ dg_Broadcast invoke s' order req sel = None).
Proof.
  intros Hl Hi. split; [by constructor|]. intros Hr.
  assert (dg_locked s' = true /\ dg_activeAgents s' = dg_activeAgents s) as [Hl' Ha].
  { assert (dg_locked (dg_register i id (Err e) s) = true /\
            dg_activeAgents (dg_register i id (Err e) s) = dg_activeAgents s) as H0 by done.
    revert H0. induction Hr as [t|t1 t2 t3 Hs _ IH]; [done|]. intros [H1 H2]. apply IH.
    destruct (dg_locked_step t1 t2 Hs H1). split; congruence. }
  unfold dg_Request, dg_Broadcast. rewrite Hl'. done.
Qed.

(** A broadcast is all or nothing.  It answers with one reply of every connected
    agent the selector matches, each under the agent's id, and only when every one of
    them replied; if no agent matches it is NotFound, and one failed call loses the
    replies of all others. *)
Lemma Broadcast_replies {RPC} (invoke : nat -> RPC -> outcome RPC) s order req sel :
  dg_locked s = false -> order ≡ₚ (map_to_list (dg_activeAgents s)).*2 ->
  exists r, dg_Broadcast invoke s order req sel = Some r /\
  ((forall id a, dg_activeAgents s !! id = Some a -> NewSelectorPredicate sel a = false) ->
     r = Err (StatusError codes_NotFound "no targets found")) /\
  (forall replies, r = Ok replies ->
     length replies = length (broadcast_targets order sel) /\
     forall ref item, (ref, item) ∈ replies <-> exists id a, dg_activeAgents s !! id = Some a /\
       NewSelectorPredicate sel a = true /\ ref = mkReference (ai_id a) /\ invoke (ai_conn a) req = Ok item) /\
  (forall id a e, dg_activeAgents s !! id = Some a -> NewSelectorPredicate sel a = true ->
     invoke (ai_conn a) req = Err e -> is_Ok r = false).
Proof.
  intros Hl Hperm. unfold dg_Broadcast. rewrite Hl. eexists. split; [done|].
  assert (forall a, a ∈ broadcast_targets order sel <->
    exists id, dg_activeAgents s !! id = Some a /\ NewSelectorPredicate sel a = true) as Htargets.
  { intros a. unfold broadcast_targets. rewrite list_elem_of_filter, Hperm, list_elem_of_fmap. split.
    - intros [Hp ([id a'] & -> & Hin%elem_of_map_to_list)]. eauto.
    - intros (id & Ha & Hp). split; [done|]. exists (id, a). split; [done|]. by apply elem_of_map_to_list. }
  set (f := fun t => let? item := invoke (ai_conn t) req in Ok (mkReference (ai_id t), item)).
  assert (forall replies, omapM f (broadcast_targets order sel) = Ok replies ->
     length replies = length (broadcast_targets order sel) /\
     forall ref item, (ref, item) ∈ replies <-> exists id a, dg_activeAgents s !! id = Some a /\
       NewSelectorPredicate sel a = true /\ ref = mkReference (ai_id a) /\ invoke (ai_conn a) req = Ok item) as Hok.
  { intros replies Hr%omapM_Ok. split; [symmetry; by eapply Forall2_length|]. intros ref item. split.
    - intros [j Hj]%list_elem_of_lookup. destruct (Forall2_lookup_r _ _ _ _ _ Hr Hj) as (a & Ha & Hf).
      apply list_elem_of_lookup_2, Htargets in Ha as (id & Ha & Hp). unfold f in Hf.
      apply obind_Ok in Hf as (it & Hinv & [= <- <-]). eauto 10.
    - intros (id & a & Ha & Hp & -> & Hinv).
      assert (a ∈ broadcast_targets order sel) as Hin by (apply Htargets; eauto).
      apply list_elem_of_lookup in Hin as [j Hj]. destruct (Forall2_lookup_l _ _ _ _ _ Hr Hj) as (rep & Hrep & Hf).
      unfold f in Hf. rewrite Hinv in Hf. injection Hf as <-. by eapply list_elem_of_lookup_2. }
  split_and!.
  - intros Hno. destruct (broadcast_targets order sel) as [|a l] eqn:E; [done|].
    destruct (proj1 (Htargets a)) as (id & Ha & Hp); [by left|]. by rewrite (Hno id a Ha) in Hp.
  - intros replies. destruct (broadcast_targets order sel) as [|a l]; [done|]. apply Hok.
  - intros id a e Ha Hp He. assert (a ∈ broadcast_targets order sel) as Hin by (apply Htargets; eauto).
    destruct (broadcast_targets order sel) as [|a0 l] eqn:E; [done|].
    destruct (omapM f (a0 :: l)) as [replies| |] eqn:Er; [|done..].
    apply omapM_Ok in Er. apply list_elem_of_lookup in Hin as [j Hj].
    destruct (Forall2_lookup_l _ _ _ _ _ Er Hj) as (rep & _ & Hf). unfold f in Hf. by rewrite He in Hf.
Qed.

(** ** Connection details *)

(** The details a connection leaves in the store: the handler runs only after they are
    recorded, and the plugin versions recorded are those of the manifest in the context,
    which the sync server's interceptor sets to the gateway's own. *)
Lemma details_recorded {W A} `{ManagementStorage W} id now addr manifest (handler : M W A) w w' a :
  LastKnownDetailsApplier id now addr (Some manifest) None handler w = (w', Ok a) ->
  exists w1 c, handler w1 = (w', Ok a) /\ sv_clusters (mview w1) !! id = Some c /\
    (lk_PluginVersions <$> cm_LastKnownConnectionDetails (cluster_meta c)) = Some (PluginDigests manifest).
Proof.
  unfold LastKnownDetailsApplier. intros (lkcd & w0 & Hd & H1)%wbind_Ok. unfold wlift in Hd. cbn in Hd. simplify_eq.
  apply wbind_Ok in H1 as (u & w1 & Hu & Hh). unfold wcatch in Hu.
  destruct (ms_UpdateCluster _ _ _) as [w2 o] eqn:E. destruct o as [c'| |]; [|done..]. simplify_eq.
  apply ms_UpdateCluster_law in E as (c & Hc & Hm & Hv). exists w1, u. split; [done|]. rewrite Hv. cbn.
  unfold set_details in Hm. destruct (cl_Metadata c); [|done]. injection Hm as <-.
  split; [apply lookup_insert_eq|done].
Qed.

(** ** Witnesses *)

(** An agent that reconnects before the handler of its first connection has returned. *)
Definition reconnected : SyncRequester := mkSyncRequester ∅ [mkConn "a" Gone; mkConn "a" Serving].

(** The old handler's exit removes the new connection: the agent is connected and a sync
    request for it fails with NotFound. *)
Lemma reconnect_is_lost :
  rtc sq_step NewSyncRequester reconnected /\
  RequestSync (fun _ => Ok tt) (sq_activeAgents reconnected) [] "a" =
    ([], Err (StatusError codes_NotFound "agent is not connected")).
Proof.
  split; [|vm_compute; reflexivity]. unfold reconnected, NewSyncRequester.
  eapply rtc_l; [apply (sq_connect _ "a")|]. cbn.
  eapply rtc_l; [by apply (sq_start _ 0 "a")|]. cbn.
  eapply rtc_l; [by apply (sq_done _ 0 "a")|]. cbn.
  eapply rtc_l; [apply (sq_connect _ "a")|]. cbn.
  eapply rtc_l; [by apply (sq_start _ 1 "a")|]. cbn.
  eapply rtc_l; [by apply (sq_stop _ 0 "a")|]. cbn.
  match goal with |- rtc _ ?x ?y => replace x with y by (vm_compute; reflexivity) end. reflexivity.
Qed.

Definition demo_delegate : DelegateServer :=
  mkDelegateServer false {[ "a" := mkAgentInfo 0 {[ "env" := "dev" ]} "a" ]} [mkConn "a" Serving; mkConn "b" Starting].

