(* ===== verification/AlertingV1.v ===== *)
(** pkg/apis/alerting/v1 and pkg/alerting/shared: the messages of the alerting API, their
    validation, the labels that route an alarm or a notification, the redaction of
    secrets and the pruning of incident intervals.  The content of a oneof is not nil;
    an error message leaves out the values that are formatted into it. *)

From Stdlib Require Import QArith Ascii.
From S2P Require Import Prelude GoStd Util Validation CoreV1 Management.

Local Open Scope string_scope.

(** ** pkg/alerting/shared/shared.go *)

Definition SingleConfigId : string := "global".

Definition InternalSlackId : string := "slack".
Definition InternalEmailId : string := "email".
Definition InternalPagerdutyId : string := "pagerduty".
Definition InternalWebhookId : string := "webhook".
Definition InternalPushoverId : string := "pushover".
Definition InternalSNSId : string := "sns".
Definition InternalTelegramId : string := "telegram".
Definition InternalOpsGenieId : string := "opsgenie".
Definition InternalVictorOpsId : string := "victorops".
Definition InternalWechatId : string := "wechat".

Definition OpniDatasourceLabel : string := "OpniDatasource".
Definition OpniSeverityLabel : string := "OpniSeverity".
Definition OpniUnbufferedKey : string := "OpniGroupKey".
Definition OpniDatasourceMetrics : string := "metrics".

Definition OpniHeaderAnnotations : string := "OpniHeader".
Definition OpniBodyAnnotations : string := "OpniSummary".
Definition OpniClusterAnnotation : string := "OpniCluster".
Definition OpniAlarmNameAnnotation : string := "OpniAlarmName".
Definition OpniGoldenSignalAnnotation : string := "OpniGoldenSignal".

Definition OpniGroupByClause : list string := ["alertname"].

(** Alertmanager's label matchers (labels.Matcher, labels.MatchType). *)
Inductive MatchType := MatchEqual | MatchNotEqual | MatchRegexp | MatchNotRegexp.
Record Matcher := mkMatcher { m_Type : MatchType; m_Name : string; m_Value : string }.

#[export] Instance MatchType_eq_dec : EqDecision MatchType.
Proof. solve_decision. Defined.
#[export] Instance Matcher_eq_dec : EqDecision Matcher.
Proof. solve_decision. Defined.

Definition OpniSubRoutingTreeMatcher : Matcher := mkMatcher MatchEqual OpniDatasourceLabel "".
Definition OpniMetricsSubRoutingTreeMatcher : Matcher :=
  mkMatcher MatchEqual OpniDatasourceLabel OpniDatasourceMetrics.
Definition OpniSeverityTreeMatcher : Matcher := mkMatcher MatchEqual OpniSeverityLabel "true".

Record OpniReceiverId := mkOpniReceiverId { or_Namespace : string; or_ReceiverId : string }.

Definition NewOpniReceiverName (id : OpniReceiverId) : string :=
  Join "." ["opni"; or_Namespace id; or_ReceiverId id].

Definition ExtractReceiverId (receiverName : string) : outcome OpniReceiverId :=
  match Split "."%char receiverName with
  | [_; ns; rid] => Ok (mkOpniReceiverId ns rid)
  | _ => Err (ErrorString "invalid receiver name format")
  end.

Definition ComparisonOperators : list string := ["<"; ">"; "<="; ">="; "="; "!="].
Definition KubeStates : list string := ["Pending"; "Running"; "Succeeded"; "Failed"; "Unknown"].

Definition OpniTitleLabel : string := "OpniTitleLabel".
Definition OpniBodyLabel : string := "OpniBodyLabel".
Definition BroadcastIdLabel : string := "broadcastId".
Definition BackendConditionIdLabel : string := "conditionId".
Definition AlertingHookReceiverName : string := "opni.default.hook".
Definition AlertingDefaultHookPort : Z := 3000.

(** The error constructors: an error is the gRPC status it converts to. *)
Definition WithNotFoundError (msg : string) : error := StatusError codes_NotFound msg.
Definition WithInternalServerError (msg : string) : error := StatusError codes_Internal msg.
Definition WithUnimplementedError (msg : string) : error := StatusError codes_Unimplemented msg.
Definition WithFailedPreconditionError (msg : string) : error := StatusError codes_Unimplemented msg.

Definition AlertingErrInvalidSlackChannel : error :=
  ValidationError "Slack channel invalid : must start with '#'".

Definition AlertManagerLabelsToAnnotations (m : Matcher) : outcome (gmap string string) :=
  match m_Type m with
  | MatchEqual => Ok {[ m_Name m := m_Value m ]}
  | _ => Err (ErrorString "unsupported match type for internal routing")
  end.

(** ** Messages *)

Inductive OpniSeverity := Severity_Info | Severity_Warning | Severity_Error | Severity_Critical.
Inductive GoldenSignal := Golden_Custom | Golden_Errors | Golden_Saturation | Golden_Traffic | Golden_Latency.

#[export] Instance OpniSeverity_eq_dec : EqDecision OpniSeverity.
Proof. solve_decision. Defined.

(** [OpniSeverity_name], sorted by number, and [String]. *)
Definition OpniSeverity_all : list OpniSeverity :=
  [Severity_Info; Severity_Warning; Severity_Error; Severity_Critical].
Definition OpniSeverity_String (s : OpniSeverity) : string :=
  match s with
  | Severity_Info => "Info" | Severity_Warning => "Warning"
  | Severity_Error => "Error" | Severity_Critical => "Critical"
  end.
Definition OpniSeverity_names : list string := OpniSeverity_String <$> OpniSeverity_all.

Definition GoldenSignal_String (g : GoldenSignal) : string :=
  match g with
  | Golden_Custom => "Custom" | Golden_Errors => "Errors" | Golden_Saturation => "Saturation"
  | Golden_Traffic => "Traffic" | Golden_Latency => "Latency"
  end.
Definition GoldenSignal_names : list string :=
  GoldenSignal_String <$> [Golden_Custom; Golden_Errors; Golden_Saturation; Golden_Traffic; Golden_Latency].

Record SlackEndpoint := mkSlackEndpoint { sl_WebhookUrl : string; sl_Channel : string }.
Record EmailEndpoint := mkEmailEndpoint {
  em_To : string;
  em_SmtpFrom : option string;
  em_SmtpSmartHost : option string;
  em_SmtpAuthUsername : option string;
  em_SmtpAuthIdentity : option string;
  em_SmtpAuthPassword : option string;
  em_SmtpRequireTLS : option bool }.
Record PagerDutyEndpoint := mkPagerDutyEndpoint { pd_IntegrationKey : string; pd_ServiceKey : string }.
(** The HTTP settings of a webhook are carried, never read. *)
Record WebhookEndpoint := mkWebhookEndpoint { we_Url : string; we_HttpConfig : string; we_MaxAlerts : Z }.

Inductive endpoint_type :=
| AlertEndpoint_Slack (s : SlackEndpoint)
| AlertEndpoint_Email (e : EmailEndpoint)
| AlertEndpoint_PagerDuty (p : PagerDutyEndpoint)
| AlertEndpoint_Webhook (w : WebhookEndpoint).

Record AlertEndpoint := mkAlertEndpoint {
  ep_Name : string;
  ep_Description : string;
  ep_Endpoint : option endpoint_type;
  ep_Properties : gmap string string;
  ep_LastUpdated : option Time;
  ep_Id : string }.

Record EndpointImplementation := mkEndpointImplementation {
  ei_Title : string; ei_Body : string; ei_SendResolved : option bool }.

Record FullAttachedEndpoint := mkFullAttachedEndpoint {
  fe_EndpointId : string;
  fe_AlertEndpoint : option AlertEndpoint;
  fe_Details : option EndpointImplementation }.

Record FullAttachedEndpoints := mkFullAttachedEndpoints {
  fes_Items : list FullAttachedEndpoint;
  fes_InitialDelay : option Duration;
  fes_RepeatInterval : option Duration;
  fes_ThrottlingDuration : option Duration;
  fes_Details : option EndpointImplementation }.

Record AttachedEndpoint := mkAttachedEndpoint { at_EndpointId : string }.
Record AttachedEndpoints := mkAttachedEndpoints {
  ats_Items : list AttachedEndpoint;
  ats_InitialDelay : option Duration;
  ats_RepeatInterval : option Duration;
  ats_ThrottlingDuration : option Duration;
  ats_Details : option EndpointImplementation }.

Record RateLimitingConfig := mkRateLimitingConfig {
  rl_InitialDelay : option Duration;
  rl_RepeatInterval : option Duration;
  rl_ThrottlingDuration : option Duration }.

Record RoutingNode := mkRoutingNode {
  rn_ConditionId : option Reference;
  rn_FullAttachedEndpoints : option FullAttachedEndpoints }.

(** Floating-point numbers by their values: every finite float is a rational. *)
Inductive float := NaN | Inf (negative : bool) | Finite (q : Q).
Definition float_le (a b : float) : bool :=
  match a, b with
  | NaN, _ | _, NaN => false
  | Inf true, _ | _, Inf false => true
  | Inf false, _ | _, Inf true => false
  | Finite x, Finite y => Qle_bool x y
  end.

Record AlertConditionSystem := mkAlertConditionSystem {
  sy_ClusterId : option Reference; sy_Timeout : option Duration }.
Record AlertConditionKubeState := mkAlertConditionKubeState {
  ks_ClusterId : string; ks_ObjectType : string; ks_ObjectName : string;
  ks_Namespace : string; ks_State : string; ks_For : option Duration }.
Record AlertConditionCPUSaturation := mkAlertConditionCPUSaturation {
  cpu_ClusterId : option Reference; cpu_NodeCoreFilters : gmap string (list Z);
  cpu_CpuStates : list string; cpu_Operation : string; cpu_ExpectedRatio : float;
  cpu_For : option Duration }.
Record AlertConditionMemorySaturation := mkAlertConditionMemorySaturation {
  mem_ClusterId : option Reference; mem_NodeMemoryFilters : gmap string (list string);
  mem_UsageTypes : list string; mem_Operation : string; mem_ExpectedRatio : float;
  mem_For : option Duration }.
Record AlertConditionFilesystemSaturation := mkAlertConditionFilesystemSaturation {
  fs_ClusterId : option Reference; fs_NodeFilters : gmap string (list string * list string);
  fs_Operation : string; fs_ExpectedRatio : float; fs_For : option Duration }.
Record AlertConditionPrometheusQuery := mkAlertConditionPrometheusQuery {
  pq_ClusterId : option Reference; pq_Query : string; pq_For : option Duration }.
Record AlertConditionDownstreamCapability := mkAlertConditionDownstreamCapability {
  dc_ClusterId : option Reference; dc_CapabilityState : list string; dc_For : option Duration }.
Record AlertConditionMonitoringBackend := mkAlertConditionMonitoringBackend {
  mb_BackendComponents : list string; mb_For : option Duration; mb_ClusterId : option Reference }.

(** The oneof of [AlertTypeDetails]. *)
Inductive AlertTypeDetails :=
| AT_System (s : AlertConditionSystem)
| AT_KubeState (k : AlertConditionKubeState)
| AT_Composition (x y : option Reference)
| AT_ControlFlow (x y : option Reference) (for_ : option Duration)
| AT_Cpu (c : AlertConditionCPUSaturation)
| AT_Memory (m : AlertConditionMemorySaturation)
| AT_Fs (f : AlertConditionFilesystemSaturation)
| AT_PrometheusQuery (q : AlertConditionPrometheusQuery)
| AT_DownstreamCapability (d : AlertConditionDownstreamCapability)
| AT_MonitoringBackend (m : AlertConditionMonitoringBackend).

Record SilenceInfo := mkSilenceInfo {
  si_SilenceId : string; si_StartsAt : option Time; si_EndsAt : option Time }.

(** [ac_AlertType] is [None] when the details are nil or their oneof is not set: the
    getters do not tell the two apart. *)
Record AlertCondition := mkAlertCondition {
  ac_Name : string;
  ac_Description : string;
  ac_Labels : list string;
  ac_Severity : OpniSeverity;
  ac_AlertType : option AlertTypeDetails;
  ac_AttachedEndpoints : option AttachedEndpoints;
  ac_Silence : option SilenceInfo;
  ac_LastUpdated : option Time;
  ac_Id : string;
  ac_GoldenSignal : GoldenSignal;
  ac_OverrideType : string }.

Record Notification := mkNotification {
  no_Title : string; no_Body : string; no_Properties : gmap string string }.

Record AlertsRequest := mkAlertsRequest {
  ar_ConditionId : option Reference;
  ar_Namespace : string;
  ar_ConditionName : string;
  ar_Annotations : option (gmap string string);
  ar_Labels : option (gmap string string) }.

Record CachedState := mkCachedState { cs_Healthy : bool; cs_Firing : bool; cs_Timestamp : option Time }.
Record Interval := mkInterval { iv_Start : option Time; iv_End : option Time }.

(** ** validate.go *)

(** The parsers of net/url, net/mail, promql, text/template and of label names; a parsed
    URL is an opaque value with a scheme, a host and a path. *)
Class AlertParsers := {
  URL : Type;
  URL_eq_dec :: EqDecision URL;
  url_Parse : string -> option URL;
  url_ParseRequestURI : string -> option URL;
  URL_Scheme : URL -> string;
  URL_Host : URL -> string;
  URL_Path : URL -> string;
  URL_with_path : string -> URL -> URL;
  mail_ParseAddress : string -> bool;
  promql_ParseExpr : string -> bool;
  template_Parse : string -> bool;
  LabelName_IsValid : string -> bool }.

Definition UpstreamClusterId : string := "UPSTREAM_CLUSTER_ID".
Definition EndpointTagNotifications : string := "notifications".
Definition NotificationPropertyDedupeKey : string := "opni.io/dedupeKey".
Definition NotificationPropertyGroupKey : string := "opni.io/groupKey".
Definition NotificationPropertyClusterId : string := "opni.io/clusterId".
Definition NotificationPropertyGoldenSignal : string := "opni.io/goldenSignal".
Definition NotificationPropertySeverity : string := "opni.io/severity".

Definition reject (b : bool) (msg : string) : outcome unit := fail_if b (ValidationError msg).
Definition is_empty (s : string) : bool := bool_decide (s = "").

Definition validComparionOperator (op : string) : outcome unit :=
  reject (negb (bool_decide (op ∈ ComparisonOperators))) "Invalid comparison operator".

(** A loop over items with a cache of the ids seen. *)
Fixpoint validate_items {A} (key : A -> string) (dup : string) (validate : A -> outcome unit)
    (cache : gset string) (l : list A) : outcome unit :=
  match l with
  | [] => Ok tt
  | x :: l =>
      reject (bool_decide (key x ∈ cache)) dup ;?
      validate x ;?
      validate_items key dup validate ({[key x]} ∪ cache) l
  end.

(** [c.ClusterId.Id]: the pointer is dereferenced. *)
Definition deref_id (r : option Reference) : outcome string :=
  match r with Some r => Ok (ref_Id r) | None => Panic "nil pointer dereference" end.
Definition clusterId_set (r : option Reference) : outcome unit :=
  let? id := deref_id r in reject (is_empty id) "clusterId must be set".
Definition ratio_ok (f : float) : bool := float_le (Finite 0) f && float_le f (Finite 1).

Record SyncerConfig := mkSyncerConfig {
  sc_GatewayJoinAddress : string; sc_ListenAddress : string;
  sc_AlertmanagerAddress : string; sc_AlertmanagerConfigPath : string }.

Definition SyncerConfig_Validate (s : SyncerConfig) : outcome unit :=
  fail_if (is_empty (sc_GatewayJoinAddress s)) (Wrapped "GatewayJoinAddress" ErrMissingRequiredField) ;?
  fail_if (is_empty (sc_ListenAddress s)) (Wrapped "ListenAddress" ErrMissingRequiredField) ;?
  fail_if (is_empty (sc_AlertmanagerAddress s)) (Wrapped "AlertmanagerAddress" ErrMissingRequiredField) ;?
  fail_if (is_empty (sc_AlertmanagerConfigPath s)) (Wrapped "AlertManagerConfigPath" ErrMissingRequiredField).

Section Validate.
Context {DL : DurationLib} {AP : AlertParsers}.

Definition no_duration (d : option Duration) : bool := bool_decide (AsDuration d = 0%Z).

Definition SilenceRequest_Validate (conditionId : option Reference) (duration : option Duration) : outcome unit :=
  validate_ptr Reference_Validate conditionId ;?
  reject (match duration with None => true | Some _ => no_duration duration end)
    "Require a non-zero Duration to activate a silence".

Definition KubeState_Validate (k : AlertConditionKubeState) : outcome unit :=
  reject (is_empty (ks_ClusterId k)) "clusterId must be set" ;?
  reject (is_empty (ks_ObjectType k)) "objectType must be set" ;?
  reject (is_empty (ks_ObjectName k)) "objectName must be set" ;?
  reject (is_empty (ks_Namespace k)) "objectNamespace must be set" ;?
  reject (negb (bool_decide (ks_State k ∈ KubeStates))) "state must be one of the following".

Definition CPUSaturation_Validate (c : AlertConditionCPUSaturation) : outcome unit :=
  clusterId_set (cpu_ClusterId c) ;?
  reject (negb (ratio_ok (cpu_ExpectedRatio c))) "expectedRatio must be between 0 and 1" ;?
  reject (no_duration (cpu_For c)) "'for' duration must be set" ;?
  reject (bool_decide (cpu_CpuStates c = [])) "At least one usage type should be set" ;?
  validComparionOperator (cpu_Operation c).

Definition MemorySaturation_Validate (c : AlertConditionMemorySaturation) : outcome unit :=
  clusterId_set (mem_ClusterId c) ;?
  reject (negb (ratio_ok (mem_ExpectedRatio c))) "expectedRatio must be between 0 and 1" ;?
  reject (no_duration (mem_For c)) "'for' duration must be set" ;?
  reject (bool_decide (mem_UsageTypes c = [])) "At least one usage type should be set" ;?
  validComparionOperator (mem_Operation c).

Definition FilesystemSaturation_Validate (f : AlertConditionFilesystemSaturation) : outcome unit :=
  clusterId_set (fs_ClusterId f) ;?
  reject (negb (ratio_ok (fs_ExpectedRatio f))) "expectedRatio must be between 0 and 1" ;?
  reject (no_duration (fs_For f)) "'for' duration must be set" ;?
  validComparionOperator (fs_Operation f).

Definition PrometheusQuery_Validate (q : AlertConditionPrometheusQuery) : outcome unit :=
  clusterId_set (pq_ClusterId q) ;?
  reject (is_empty (pq_Query q)) "Prometheus query must be non-empty" ;?
  reject (negb (promql_ParseExpr (pq_Query q))) "Invalid prometheus query" ;?
  reject (no_duration (pq_For q)) "'for' duration must be set".

Definition DownstreamCapability_Validate (d : AlertConditionDownstreamCapability) : outcome unit :=
  clusterId_set (dc_ClusterId d) ;?
  reject (AsDuration (dc_For d) <=? 0)%Z "positive 'for' duration must be set" ;?
  reject (bool_decide (dc_CapabilityState d = [])) "At least one bad capability state required for alerting".

(** The method sets the cluster before it checks the rest. *)
Definition MonitoringBackend_Validate (m : AlertConditionMonitoringBackend)
  : AlertConditionMonitoringBackend * outcome unit :=
  (mkAlertConditionMonitoringBackend (mb_BackendComponents m) (mb_For m) (Some (mkReference UpstreamClusterId)),
   reject (no_duration (mb_For m)) "'for' duration must be some positive time" ;?
   reject (bool_decide (mb_BackendComponents m = [])) "At least one backend component must be set to track").

Definition AlertTypeDetails_Validate (d : option AlertTypeDetails) : option AlertTypeDetails * outcome unit :=
  match d with
  | Some (AT_System _) => (d, Ok tt)
  | Some (AT_DownstreamCapability c) => (d, DownstreamCapability_Validate c)
  | Some (AT_KubeState k) => (d, KubeState_Validate k)
  | Some (AT_Cpu c) => (d, CPUSaturation_Validate c)
  | Some (AT_Memory m) => (d, MemorySaturation_Validate m)
  | Some (AT_Fs f) => (d, FilesystemSaturation_Validate f)
  | Some (AT_PrometheusQuery q) => (d, PrometheusQuery_Validate q)
  | Some (AT_Composition _ _) => (d, Err (WithUnimplementedError "Composition alerts not implemented yet"))
  | Some (AT_ControlFlow _ _ _) => (d, Err (WithUnimplementedError "Control flow alerts not implemented yet"))
  | Some (AT_MonitoringBackend m) =>
      let '(m', r) := MonitoringBackend_Validate m in (Some (AT_MonitoringBackend m'), r)
  | None => (d, Err (ValidationError "Backend does not handle alert type provided"))
  end.

Definition EndpointImplementation_Validate (e : EndpointImplementation) : outcome unit :=
  reject (is_empty (ei_Title e)) "Title must be set" ;?
  reject (is_empty (ei_Body e)) "Body must be set".

Definition AttachedEndpoint_Validate (a : AttachedEndpoint) : outcome unit :=
  reject (is_empty (at_EndpointId a)) "attachedEndpoint endpoint id must be set".

Definition AttachedEndpoints_Validate (a : AttachedEndpoints) : outcome unit :=
  match ats_Details a with
  | None => Err (ValidationError "attachedEndpoints details must be set")
  | Some d =>
      EndpointImplementation_Validate d ;?
      validate_items at_EndpointId "duplicate endpoint id in request" AttachedEndpoint_Validate ∅ (ats_Items a)
  end.

Definition set_AlertType (t : option AlertTypeDetails) (a : AlertCondition) : AlertCondition :=
  mkAlertCondition (ac_Name a) (ac_Description a) (ac_Labels a) (ac_Severity a) t (ac_AttachedEndpoints a)
    (ac_Silence a) (ac_LastUpdated a) (ac_Id a) (ac_GoldenSignal a) (ac_OverrideType a).

Definition AlertCondition_Validate (a : AlertCondition) : AlertCondition * outcome unit :=
  if is_empty (ac_Name a) then (a, Err (ValidationError "AlertCondition name must be set"))
  else
    let '(t, r) := AlertTypeDetails_Validate (ac_AlertType a) in
    (set_AlertType t a,
     r ;? match ac_AttachedEndpoints a with
          | Some ae => AttachedEndpoints_Validate ae
          | None => Ok tt
          end).

Definition SlackEndpoint_Validate (s : SlackEndpoint) : outcome unit :=
  reject (is_empty (sl_WebhookUrl s)) "webhook must be set" ;?
  reject (bool_decide (url_ParseRequestURI (sl_WebhookUrl s) = None)) "webhook must be a valid url" ;?
  reject (is_empty (sl_Channel s)) "channel must be set" ;?
  fail_if (negb (HasPrefix (sl_Channel s) "#")) AlertingErrInvalidSlackChannel.

Definition EmailEndpoint_Validate (e : EmailEndpoint) : outcome unit :=
  reject (is_empty (em_To e)) "email recipient must be set" ;?
  reject (negb (mail_ParseAddress (em_To e))) "Invalid recipient email" ;?
  (match em_SmtpFrom e with
   | Some from => reject (negb (is_empty from) && negb (mail_ParseAddress from)) "Invalid sender email"
   | None => Ok tt
   end) ;?
  match em_SmtpSmartHost e with
  | Some h => reject (negb (bool_decide (length (Split ":"%char h) = 2)))
                "SMTP smart host must be in the form <address>:<port>"
  | None => Ok tt
  end.

Definition PagerDutyEndpoint_Validate (p : PagerDutyEndpoint) : outcome unit :=
  reject (is_empty (pd_IntegrationKey p) && is_empty (pd_ServiceKey p))
    "integration key or service key must be set for pager duty endpoint" ;?
  reject (negb (is_empty (pd_ServiceKey p)) && negb (is_empty (pd_IntegrationKey p)))
    "only one of integration key or service key must be set for pager duty endpoint".

Definition WebhookEndpoint_Validate (w : WebhookEndpoint) : outcome unit :=
  reject (is_empty (we_Url w)) "url must be set" ;?
  reject (bool_decide (url_Parse (we_Url w) = None)) "url must be a valid url".

Definition AlertEndpoint_Validate (a : AlertEndpoint) : outcome unit :=
  reject (is_empty (ep_Name a)) "AlertEndpoint name must be set" ;?
  match ep_Endpoint a with
  | Some (AlertEndpoint_Slack s) => SlackEndpoint_Validate s
  | Some (AlertEndpoint_Email e) => EmailEndpoint_Validate e
  | Some (AlertEndpoint_PagerDuty p) => PagerDutyEndpoint_Validate p
  | Some (AlertEndpoint_Webhook w) => WebhookEndpoint_Validate w
  | None => Err (WithUnimplementedError "AlertEndpoint type not implemented yet")
  end.

Definition FullAttachedEndpoint_Validate (f : FullAttachedEndpoint) : outcome unit :=
  reject (is_empty (fe_EndpointId f)) "EndpointId must be set" ;?
  match fe_Details f with
  | None => Err (ValidationError "Details must be set")
  | Some d =>
      EndpointImplementation_Validate d ;?
      match fe_AlertEndpoint f with
      | None => Err (ValidationError "AlertEndpoint must be set")
      | Some a => AlertEndpoint_Validate a
      end
  end.

Definition FullAttachedEndpoints_Validate (f : FullAttachedEndpoints) : outcome unit :=
  match fes_Details f with
  | None => Err (ValidationError "Details must be set")
  | Some d =>
      EndpointImplementation_Validate d ;?
      validate_items fe_EndpointId "Duplicate endpoint" FullAttachedEndpoint_Validate ∅ (fes_Items f)
  end.

Definition RoutingNode_Validate (c : RoutingNode) : outcome unit :=
  reject (bool_decide (rn_ConditionId c = None)) "ConditionId must be set" ;?
  match rn_FullAttachedEndpoints c with
  | None => Err (ValidationError "FullAttachedEndpoints must be set")
  | Some f => FullAttachedEndpoints_Validate f
  end.

(** The requests that hold a condition; the getter of a nil condition gives no name. *)
Definition UpdateAlertConditionRequest_Validate (id : option Reference) (updateAlert : option AlertCondition)
  : option AlertCondition * outcome unit :=
  match id with
  | None => (updateAlert, Err (ValidationError "Id must be set"))
  | Some id =>
      if is_empty (ref_Id id) then (updateAlert, Err (ValidationError "Id must be set"))
      else match updateAlert with
           | None => (None, Err (ValidationError "AlertCondition name must be set"))
           | Some c => let '(c', r) := AlertCondition_Validate c in (Some c', r)
           end
  end.

Definition CloneToRequest_Validate (toClusters : list string) (c : option AlertCondition)
  : option AlertCondition * outcome unit :=
  if bool_decide (toClusters = []) then (c, Err (ValidationError "toClusters must have a least one cluster set"))
  else match c with
       | None => (None, Err (ValidationError "AlertCondition name must be set"))
       | Some c => let '(c', r) := AlertCondition_Validate c in (Some c', r)
       end.

Definition TimelineRequest_Validate (lookbackWindow : option Duration) : outcome unit :=
  match lookbackWindow with
  | None => Err (ValidationError "lookbackWindow must be set")
  | Some d => reject (du_Seconds d =? 0)%Z "lookbackWindow must have a non zero time"
  end.

(** The maps that are nil are made, once the other checks passed. *)
Definition make_maps (t : AlertsRequest) : AlertsRequest :=
  mkAlertsRequest (ar_ConditionId t) (ar_Namespace t) (ar_ConditionName t)
    (Some (default ∅ (ar_Annotations t))) (Some (default ∅ (ar_Labels t))).

Definition TriggerAlertsRequest_Validate (t : AlertsRequest) : AlertsRequest * outcome unit :=
  if is_empty (ar_Namespace t) then (t, Err (ValidationError "namespace must be set for triggering alerts"))
  else match ar_ConditionId t with
       | Some id =>
           if is_empty (ref_Id id) then (t, Err (ValidationError "conditionId must be set for triggering alerts"))
           else (make_maps t, Ok tt)
       | None => (t, Err (ValidationError "conditionId must be set for triggering alerts"))
       end.

Definition ResolveAlertsRequest_Validate (t : AlertsRequest) : AlertsRequest * outcome unit :=
  (make_maps t, Ok tt).

Definition ToggleRequest_Validate (id : option Reference) : outcome unit :=
  match id with
  | Some id => reject (is_empty (ref_Id id)) "endpoint id must be set"
  | None => Err (ValidationError "endpoint id must be set")
  end.

(** A property that must be one of some names, or is set to a default. *)
Definition enum_property (k : string) (names : list string) (dflt msg : string)
    (props : gmap string string) : gmap string string * outcome unit :=
  match props !! k with
  | Some v => (props, reject (negb (bool_decide (v ∈ names))) msg)
  | None => (<[k := dflt]> props, Ok tt)
  end.

Definition Notification_properties : M (gmap string string) unit :=
  enum_property NotificationPropertyGoldenSignal GoldenSignal_names (GoldenSignal_String Golden_Custom)
    "invalid golden signal value" ;!
  enum_property NotificationPropertySeverity OpniSeverity_names (OpniSeverity_String Severity_Info)
    "invalid severity value" ;!
  fun props => (props, reject (bool_decide (props !! NotificationPropertyClusterId = Some ""))
                         "if specifying a cluster id property, it must be set").

Definition Notification_Validate (n : Notification) : Notification * outcome unit :=
  if is_empty (no_Title n) then (n, Err (ValidationError "field Title must be set"))
  else if is_empty (no_Body n) then (n, Err (ValidationError "field Body must be set"))
  else let '(props, r) := Notification_properties (no_Properties n) in
       (mkNotification (no_Title n) (no_Body n) props, r).
End Validate.

(** ** extensions.go *)

Definition IsInternalCondition (c : AlertCondition) : bool :=
  match ac_AlertType c with
  | Some (AT_System _) | Some (AT_DownstreamCapability _) | Some (AT_MonitoringBackend _) => true
  | _ => false
  end.

Definition IsMetricsCondition (c : AlertCondition) : bool :=
  match ac_AlertType c with
  | Some (AT_PrometheusQuery _) | Some (AT_KubeState _) | Some (AT_Cpu _) | Some (AT_Memory _)
  | Some (AT_Fs _) => true
  | _ => false
  end.

Definition AlertCondition_Namespace (a : AlertCondition) : string :=
  match ac_AlertType a with
  | Some (AT_System _) => "disconnect"
  | Some (AT_DownstreamCapability _) => "capability"
  | Some (AT_Cpu _) => "cpu"
  | Some (AT_Memory _) => "memory"
  | Some (AT_Fs _) => "fs"
  | Some (AT_KubeState _) => "kube-state"
  | Some (AT_PrometheusQuery _) => "promql"
  | Some (AT_MonitoringBackend _) => "monitoring-backend"
  | _ => "default"
  end.

(** An absent key of a Go map reads as the empty string. *)
Definition map_get (m : gmap string string) (k : string) : string := default "" (m !! k).

Definition Notification_GetRoutingGoldenSignal (n : Notification) : string :=
  default (GoldenSignal_String Golden_Custom) (no_Properties n !! NotificationPropertyGoldenSignal).

Definition Notification_GetRoutingLabels (n : Notification) : gmap string string :=
  let res := <[BackendConditionIdLabel := map_get (no_Properties n) NotificationPropertyDedupeKey]>
             {[ OpniSeverityLabel := map_get (no_Properties n) NotificationPropertySeverity ]} in
  match no_Properties n !! NotificationPropertyGroupKey with
  | Some v => <[BroadcastIdLabel := v]> res
  | None => res
  end.

Definition Notification_GetRoutingAnnotations (n : Notification) : gmap string string :=
  let res := <[OpniGoldenSignalAnnotation := Notification_GetRoutingGoldenSignal n]>
             (<[OpniBodyAnnotations := no_Body n]> {[ OpniHeaderAnnotations := no_Title n ]}) in
  match no_Properties n !! NotificationPropertyClusterId with
  | Some v => <[OpniClusterAnnotation := v]> res
  | None => res
  end.

Definition AlertCondition_GetRoutingLabels (a : AlertCondition) : gmap string string :=
  <[AlertCondition_Namespace a := ac_Id a]>
  (<[BackendConditionIdLabel := ac_Id a]>
   {[ OpniSeverityLabel := OpniSeverity_String (ac_Severity a) ]}).

(** The title the user attached, if there is one. *)
Definition custom_details (a : AlertCondition) : option EndpointImplementation :=
  match ac_AttachedEndpoints a with
  | Some ae =>
      match ats_Details ae with
      | Some d => if is_empty (ei_Title d) then None else Some d
      | None => None
      end
  | None => None
  end.

Definition AlertCondition_header (a : AlertCondition) : string :=
  match custom_details a with Some d => ei_Title d | None => ac_Name a end.

Definition AlertTypeDetails_body (t : option AlertTypeDetails) : string :=
  match t with
  | Some (AT_System _) => "Agent disconnect"
  | Some (AT_DownstreamCapability _) => "Downstream cluster capability"
  | Some (AT_MonitoringBackend _) => "Monitoring backend"
  | Some (AT_PrometheusQuery _) => "Prometheus query"
  | Some (AT_KubeState _) => "Kube state"
  | Some (AT_Cpu _) => "CPU"
  | Some (AT_Memory _) => "Memory"
  | Some (AT_Fs _) => "Filesystem"
  | _ => ""
  end.

Definition AlertCondition_body (a : AlertCondition) : string :=
  match custom_details a with
  | Some d => ei_Body d
  | None =>
      if negb (is_empty (ac_Description a)) then ac_Description a
      else if negb (is_empty (AlertTypeDetails_body (ac_AlertType a))) then AlertTypeDetails_body (ac_AlertType a)
      else "Sorry, no alarm body available for this alert type"
  end.

Definition AlertCondition_GetClusterId (a : AlertCondition) : option Reference :=
  match ac_AlertType a with
  | Some (AT_System s) => sy_ClusterId s
  | Some (AT_DownstreamCapability d) => dc_ClusterId d
  | Some (AT_MonitoringBackend m) => mb_ClusterId m
  | Some (AT_PrometheusQuery q) => pq_ClusterId q
  | Some (AT_KubeState k) => Some (mkReference (ks_ClusterId k))
  | Some (AT_Cpu c) => cpu_ClusterId c
  | Some (AT_Memory m) => mem_ClusterId m
  | Some (AT_Fs f) => fs_ClusterId f
  | _ => None
  end.

Definition AlertCondition_GetRoutingGoldenSignal (a : AlertCondition) : string :=
  GoldenSignal_String (ac_GoldenSignal a).

Definition ref_GetId (r : option Reference) : string := default "" (ref_Id <$> r).

Definition AlertCondition_GetRoutingAnnotations (a : AlertCondition) : gmap string string :=
  <[OpniGoldenSignalAnnotation := AlertCondition_GetRoutingGoldenSignal a]>
  (<[OpniAlarmNameAnnotation := ac_Name a]>
   (<[OpniClusterAnnotation := ref_GetId (AlertCondition_GetClusterId a)]>
    (<[OpniBodyAnnotations := AlertCondition_body a]>
     {[ OpniHeaderAnnotations := AlertCondition_header a ]}))).

Inductive AlertType :=
| AlertType_System | AlertType_KubeState | AlertType_CpuSaturation | AlertType_MemorySaturation
| AlertType_FsSaturation | AlertType_DownstreamCapability | AlertType_Composition
| AlertType_ControlFlow | AlertType_PrometheusQuery | AlertType_MonitoringBackend.

Definition IsType (a : AlertCondition) (typVal : AlertType) : bool :=
  match typVal, ac_AlertType a with
  | AlertType_System, Some (AT_System _)
  | AlertType_DownstreamCapability, Some (AT_DownstreamCapability _)
  | AlertType_MonitoringBackend, Some (AT_MonitoringBackend _)
  | AlertType_PrometheusQuery, Some (AT_PrometheusQuery _)
  | AlertType_KubeState, Some (AT_KubeState _)
  | AlertType_CpuSaturation, Some (AT_Cpu _)
  | AlertType_MemorySaturation, Some (AT_Memory _)
  | AlertType_FsSaturation, Some (AT_Fs _) => true
  | _, _ => false
  end.

(** [SetClusterId]: a kube state condition stores the id itself. *)
Definition SetClusterId (clusterId : option Reference) (a : AlertCondition) : AlertCondition * outcome unit :=
  match ac_AlertType a with
  | Some (AT_System s) =>
      (set_AlertType (Some (AT_System (mkAlertConditionSystem clusterId (sy_Timeout s)))) a, Ok tt)
  | Some (AT_PrometheusQuery q) =>
      (set_AlertType (Some (AT_PrometheusQuery (mkAlertConditionPrometheusQuery clusterId (pq_Query q) (pq_For q)))) a,
       Ok tt)
  | Some (AT_KubeState k) =>
      match clusterId with
      | Some r => (set_AlertType (Some (AT_KubeState (mkAlertConditionKubeState (ref_Id r) (ks_ObjectType k)
                     (ks_ObjectName k) (ks_Namespace k) (ks_State k) (ks_For k)))) a, Ok tt)
      | None => (a, Panic "nil pointer dereference")
      end
  | Some (AT_Cpu c) =>
      (set_AlertType (Some (AT_Cpu (mkAlertConditionCPUSaturation clusterId (cpu_NodeCoreFilters c)
         (cpu_CpuStates c) (cpu_Operation c) (cpu_ExpectedRatio c) (cpu_For c)))) a, Ok tt)
  | Some (AT_Memory m) =>
      (set_AlertType (Some (AT_Memory (mkAlertConditionMemorySaturation clusterId (mem_NodeMemoryFilters m)
         (mem_UsageTypes m) (mem_Operation m) (mem_ExpectedRatio m) (mem_For m)))) a, Ok tt)
  | Some (AT_Fs f) =>
      (set_AlertType (Some (AT_Fs (mkAlertConditionFilesystemSaturation clusterId (fs_NodeFilters f)
         (fs_Operation f) (fs_ExpectedRatio f) (fs_For f)))) a, Ok tt)
  | _ => (a, Err (WithInternalServerError "AlertCondition could not find its clusterId"))
  end.

(** [InvolvedConditionsForEndpoint] and [GetInvolvedConditions]: [order] is the order in
    which the map is ranged over. *)
Definition InvolvedConditionsForEndpoint (order : list (string * list string)) (endpointId : string) : list string :=
  omap (M := list) (fun '(cond, endps) => if bool_decide (endpointId ∈ endps) then Some cond else None) order.

Definition GetInvolvedConditions (order : list (string * list Reference)) (endpointId : string) : list Reference :=
  omap (M := list) (fun '(cond, endps) =>
          if bool_decide (endpointId ∈ (ref_Id <$> endps : list string)) then Some (mkReference cond) else None) order.

Definition CachedState_IsEquivalent (c other : CachedState) : bool :=
  bool_decide (cs_Healthy c = cs_Healthy other) && bool_decide (cs_Firing c = cs_Firing other).

Definition DefaultCachedState (now : Time) : CachedState := mkCachedState true false (Some now).

(** [timestamppb.Timestamp.AsTime]: nil is the epoch. *)
Definition AsTime (t : option Time) : Time := default 0%Z t.
Definition minute : Z := 60000000000.
Definition second : Z := 1000000000.
Definition hour : Z := 3600000000000.

(** [IncidentIntervals.Prune]: the loop counts the intervals to drop and moves the start
    of those that reach over the horizon; then as many are dropped from the front. *)
Fixpoint prune_loop (horizon : Time) (l : list Interval) : nat * list Interval :=
  match l with
  | [] => (0, [])
  | i :: l' =>
      if (AsTime (iv_Start i) <? horizon)%Z then
        let '(n, r) := prune_loop horizon l' in
        match iv_End i with
        | Some e =>
            if (e <? horizon)%Z then (S n, i :: r)
            else (n, mkInterval (Some (horizon + minute)%Z) (iv_End i) :: r)
        | None => (n, i :: r)
        end
      else (0, l)
  end.

Definition Prune (now ttl : Z) (items : list Interval) : list Interval :=
  let '(n, r) := prune_loop (now + wrap64 (- ttl))%Z items in drop n r.

(** The default rate limits: 10 minutes, 10 minutes, 10 seconds. *)
Definition RateLimitingConfig_Default : RateLimitingConfig :=
  mkRateLimitingConfig (Some (mkDuration 10 0)) (Some (mkDuration 600 0)) (Some (mkDuration 600 0)).

(** ** secrets.go *)

Definition Redacted : string := "***".

Definition set_endpoint (t : option endpoint_type) (e : AlertEndpoint) : AlertEndpoint :=
  mkAlertEndpoint (ep_Name e) (ep_Description e) t (ep_Properties e) (ep_LastUpdated e) (ep_Id e).
Definition set_password (p : option string) (m : EmailEndpoint) : EmailEndpoint :=
  mkEmailEndpoint (em_To m) (em_SmtpFrom m) (em_SmtpSmartHost m) (em_SmtpAuthUsername m)
    (em_SmtpAuthIdentity m) p (em_SmtpRequireTLS m).

Definition AlertEndpoint_RedactSecrets (e : AlertEndpoint) : AlertEndpoint :=
  match ep_Endpoint e with
  | Some (AlertEndpoint_Slack s) =>
      set_endpoint (Some (AlertEndpoint_Slack (mkSlackEndpoint Redacted (sl_Channel s)))) e
  | Some (AlertEndpoint_Email m) => set_endpoint (Some (AlertEndpoint_Email (set_password (Some Redacted) m))) e
  | Some (AlertEndpoint_PagerDuty p) =>
      set_endpoint (Some (AlertEndpoint_PagerDuty (mkPagerDutyEndpoint Redacted (pd_ServiceKey p)))) e
  | _ => e
  end.

Definition HasSameImplementation (e other : AlertEndpoint) : bool :=
  match ep_Endpoint e, ep_Endpoint other with
  | Some (AlertEndpoint_Slack _), Some (AlertEndpoint_Slack _)
  | Some (AlertEndpoint_Email _), Some (AlertEndpoint_Email _)
  | Some (AlertEndpoint_PagerDuty _), Some (AlertEndpoint_PagerDuty _) => true
  | _, _ => false
  end.

(** The password of an email endpoint is dereferenced. *)
Definition UnredactSecrets (e unredacted : AlertEndpoint) : outcome AlertEndpoint :=
  match ep_Endpoint e, ep_Endpoint unredacted with
  | Some (AlertEndpoint_Slack s), Some (AlertEndpoint_Slack u) =>
      Ok (if bool_decide (sl_WebhookUrl s = Redacted)
          then set_endpoint (Some (AlertEndpoint_Slack (mkSlackEndpoint (sl_WebhookUrl u) (sl_Channel s)))) e
          else e)
  | Some (AlertEndpoint_Email m), Some (AlertEndpoint_Email u) =>
      match em_SmtpAuthPassword m with
      | None => Panic "nil pointer dereference"
      | Some p =>
          Ok (if bool_decide (p = Redacted)
              then set_endpoint (Some (AlertEndpoint_Email (set_password (em_SmtpAuthPassword u) m))) e
              else e)
      end
  | Some (AlertEndpoint_PagerDuty p), Some (AlertEndpoint_PagerDuty u) =>
      Ok (if bool_decide (pd_IntegrationKey p = Redacted)
          then set_endpoint (Some (AlertEndpoint_PagerDuty
                 (mkPagerDutyEndpoint (pd_IntegrationKey u) (pd_ServiceKey p)))) e
          else e)
  | _, _ => Ok e
  end.
