(* ===== verification/AmConfig.v ===== *)
(** pkg/alerting/drivers/config/api_types.go: the Alertmanager configuration as Opni holds
    it, and the checks that its UnmarshalYAML methods run.  In every such method
    [unmarshal] is the decoder of the YAML package: it overwrites the fields the document
    sets in the value it is given.  Error messages leave out the values formatted into
    them; fields that are only carried along are one field of text. *)

From Stdlib Require Import Ascii.
From S2P Require Import Prelude GoStd Util Validation CoreV1 Management AlertingV1.

Local Open Scope string_scope.

Definition errorf (b : bool) (msg : string) : outcome unit := fail_if b (ErrorString msg).

Record HostPort := mkHostPort { hp_Host : string; hp_Port : string }.

Definition HostPort_String (hp : HostPort) : string :=
  if is_empty (hp_Host hp) && is_empty (hp_Port hp) then "" else hp_Host hp +:+ ":" +:+ hp_Port hp.

(** [HostPort.UnmarshalYAML]; [split] is net.SplitHostPort. *)
Definition HostPort_Unmarshal (split : string -> outcome (string * string)) (unmarshal : outcome string)
    (hp : HostPort) : outcome HostPort :=
  let? s := unmarshal in
  if is_empty s then Ok hp
  else let? hostport := split s in
       errorf (is_empty hostport.2) "port cannot be empty" ;?
       Ok (mkHostPort hostport.1 hostport.2).

(** The HTTP client settings of prometheus/common. *)
Record HTTPClientConfig := mkHTTPClientConfig { hc_Authorization : option string; hc_Other : string }.

(** ** Routes *)

Inductive Route := mkRoute {
  rt_Receiver : string;
  rt_GroupByStr : list string;
  rt_GroupBy : list string;
  rt_GroupByAll : bool;
  rt_Match : gmap string string;
  rt_MatchRE : gmap string (option string);
  rt_Matchers : list Matcher;
  rt_MuteTimeIntervals : list string;
  rt_ActiveTimeIntervals : list string;
  rt_Continue : bool;
  rt_Routes : list Route;
  rt_GroupWait : option Z;
  rt_GroupInterval : option Z;
  rt_RepeatInterval : option Z }.

(** The zero value, and the setters of the fields that are assigned. *)
Definition zero_Route : Route := mkRoute "" [] [] false ∅ ∅ [] [] [] false [] None None None.

Definition set_Receiver (x : string) (r : Route) : Route :=
  mkRoute x (rt_GroupByStr r) (rt_GroupBy r) (rt_GroupByAll r) (rt_Match r) (rt_MatchRE r) (rt_Matchers r)
    (rt_MuteTimeIntervals r) (rt_ActiveTimeIntervals r) (rt_Continue r) (rt_Routes r) (rt_GroupWait r)
    (rt_GroupInterval r) (rt_RepeatInterval r).
Definition set_GroupBy (x : list string) (all : bool) (r : Route) : Route :=
  mkRoute (rt_Receiver r) (rt_GroupByStr r) x all (rt_Match r) (rt_MatchRE r) (rt_Matchers r)
    (rt_MuteTimeIntervals r) (rt_ActiveTimeIntervals r) (rt_Continue r) (rt_Routes r) (rt_GroupWait r)
    (rt_GroupInterval r) (rt_RepeatInterval r).
Definition set_Matchers (x : list Matcher) (r : Route) : Route :=
  mkRoute (rt_Receiver r) (rt_GroupByStr r) (rt_GroupBy r) (rt_GroupByAll r) (rt_Match r) (rt_MatchRE r) x
    (rt_MuteTimeIntervals r) (rt_ActiveTimeIntervals r) (rt_Continue r) (rt_Routes r) (rt_GroupWait r)
    (rt_GroupInterval r) (rt_RepeatInterval r).
Definition set_Continue (x : bool) (r : Route) : Route :=
  mkRoute (rt_Receiver r) (rt_GroupByStr r) (rt_GroupBy r) (rt_GroupByAll r) (rt_Match r) (rt_MatchRE r)
    (rt_Matchers r) (rt_MuteTimeIntervals r) (rt_ActiveTimeIntervals r) x (rt_Routes r) (rt_GroupWait r)
    (rt_GroupInterval r) (rt_RepeatInterval r).
Definition set_Routes (x : list Route) (r : Route) : Route :=
  mkRoute (rt_Receiver r) (rt_GroupByStr r) (rt_GroupBy r) (rt_GroupByAll r) (rt_Match r) (rt_MatchRE r)
    (rt_Matchers r) (rt_MuteTimeIntervals r) (rt_ActiveTimeIntervals r) (rt_Continue r) x (rt_GroupWait r)
    (rt_GroupInterval r) (rt_RepeatInterval r).
(** The wait, the interval between groups and the interval between repetitions. *)
Definition set_timing (w i rp : option Z) (r : Route) : Route :=
  mkRoute (rt_Receiver r) (rt_GroupByStr r) (rt_GroupBy r) (rt_GroupByAll r) (rt_Match r) (rt_MatchRE r)
    (rt_Matchers r) (rt_MuteTimeIntervals r) (rt_ActiveTimeIntervals r) (rt_Continue r) (rt_Routes r) w i rp.

(** [{{ template "name" rest}}]; a double quote is character 34. *)
Definition dq : string := String (chr 34) "".
Definition tmpl (name rest : string) : string := "{{ template " +:+ dq +:+ name +:+ dq +:+ rest.

Section Config.
Context {AP : AlertParsers}.

Definition MatchRegexps_Unmarshal (m : gmap string (option string)) : outcome unit :=
  foreach (fun '(k, v) =>
    errorf (negb (LabelName_IsValid k)) "invalid label name" ;?
    errorf (bool_decide (v = None)) "invalid regexp value") (map_to_list m).

(** The labels of [group_by]: three dots group by all of them. *)
Fixpoint parse_group_by (l : list string) (acc : list string * bool) : outcome (list string * bool) :=
  match l with
  | [] => Ok acc
  | x :: l =>
      if bool_decide (x = "...") then parse_group_by l (acc.1, true)
      else errorf (negb (LabelName_IsValid x)) "invalid label name in group_by list" ;?
           parse_group_by l (app acc.1 [x], acc.2)
  end.

Definition zero_interval (d : option Z) : bool := bool_decide (d = Some 0%Z).

Definition Route_Unmarshal (unmarshal : Route -> outcome Route) (r0 : Route) : outcome Route :=
  let? r := unmarshal r0 in
  foreach (fun k => errorf (negb (LabelName_IsValid k)) "invalid label name") (fst <$> map_to_list (rt_Match r)) ;?
  let? acc := parse_group_by (rt_GroupByStr r) (rt_GroupBy r, rt_GroupByAll r) in
  let '(groupBy, all) := acc in
  errorf (negb (bool_decide (groupBy = [])) && all)
    "cannot have wildcard group_by (`...`) and other other labels at the same time" ;?
  errorf (negb (bool_decide (NoDup groupBy))) "duplicated label in group_by" ;?
  errorf (zero_interval (rt_GroupInterval r)) "group_interval cannot be zero" ;?
  errorf (zero_interval (rt_RepeatInterval r)) "repeat_interval cannot be zero" ;?
  Ok (set_GroupBy groupBy all r).

(** [checkReceiver] and [checkTimeInterval] walk the tree, children first. *)
Fixpoint checkReceiver (receivers : gset string) (r : Route) {struct r} : outcome unit :=
  (fix children (l : list Route) : outcome unit :=
     match l with
     | [] => Ok tt
     | sr :: l => checkReceiver receivers sr ;? children l
     end) (rt_Routes r) ;?
  errorf (negb (is_empty (rt_Receiver r)) && negb (bool_decide (rt_Receiver r ∈ receivers)))
    "undefined receiver used in route".

Fixpoint checkTimeInterval (timeIntervals : gset string) (r : Route) {struct r} : outcome unit :=
  (fix children (l : list Route) : outcome unit :=
     match l with
     | [] => Ok tt
     | sr :: l => checkTimeInterval timeIntervals sr ;? children l
     end) (rt_Routes r) ;?
  foreach (fun ti => errorf (negb (bool_decide (ti ∈ timeIntervals))) "undefined time interval used in route")
    (rt_ActiveTimeIntervals r) ;?
  foreach (fun tm => errorf (negb (bool_decide (tm ∈ timeIntervals))) "undefined time interval used in route")
    (rt_MuteTimeIntervals r).

(** ** Time intervals and inhibition rules *)

Record MuteTimeInterval := mkMuteTimeInterval { mt_Name : string; mt_TimeIntervals : string }.
Definition MuteTimeInterval_Unmarshal (unmarshal : MuteTimeInterval -> outcome MuteTimeInterval)
    (mt0 : MuteTimeInterval) : outcome MuteTimeInterval :=
  let? mt := unmarshal mt0 in
  errorf (is_empty (mt_Name mt)) "missing name in mute time interval" ;? Ok mt.
Record TimeInterval := mkTimeInterval { ti_Name : string; ti_TimeIntervals : string }.
Definition TimeInterval_Unmarshal (unmarshal : TimeInterval -> outcome TimeInterval)
    (ti0 : TimeInterval) : outcome TimeInterval :=
  let? ti := unmarshal ti0 in
  errorf (is_empty (ti_Name ti)) "missing name in time interval" ;? Ok ti.

Record InhibitRule := mkInhibitRule {
  ir_SourceMatch : gmap string string; ir_SourceMatchRE : gmap string (option string);
  ir_SourceMatchers : list Matcher; ir_TargetMatch : gmap string string;
  ir_TargetMatchRE : gmap string (option string); ir_TargetMatchers : list Matcher;
  ir_Equal : list string }.
Definition InhibitRule_Unmarshal (unmarshal : InhibitRule -> outcome InhibitRule) (r0 : InhibitRule)
  : outcome InhibitRule :=
  let? r := unmarshal r0 in
  foreach (fun k => errorf (negb (LabelName_IsValid k)) "invalid label name") (fst <$> map_to_list (ir_SourceMatch r)) ;?
  foreach (fun k => errorf (negb (LabelName_IsValid k)) "invalid label name") (fst <$> map_to_list (ir_TargetMatch r)) ;?
  Ok r.

(** ** Receivers *)

(** [config.URL] is a pointer; the configurations below share the field of
    [NotifierConfig], whether to notify of resolved alerts. *)
Record WebhookConfig := mkWebhookConfig {
  wh_VSendResolved : bool; wh_HTTPConfig : option HTTPClientConfig; wh_URL : option URL; wh_MaxAlerts : Z }.
Definition DefaultWebhookConfig : WebhookConfig := mkWebhookConfig true None None 0.
Definition WebhookConfig_Unmarshal (unmarshal : WebhookConfig -> outcome WebhookConfig) : outcome WebhookConfig :=
  let? c := unmarshal DefaultWebhookConfig in
  match wh_URL c with
  | None => Err (ErrorString "missing URL in webhook config")
  | Some u =>
      errorf (negb (bool_decide (URL_Scheme u = "https")) && negb (bool_decide (URL_Scheme u = "http")))
        "scheme required for webhook url" ;? Ok c
  end.

Record EmailConfig := mkEmailConfig {
  ec_VSendResolved : bool; ec_To : string; ec_From : string; ec_Hello : string; ec_Smarthost : HostPort;
  ec_AuthUsername : string; ec_AuthPassword : string; ec_AuthPasswordFile : string; ec_AuthSecret : string;
  ec_AuthIdentity : string; ec_Headers : gmap string string; ec_HTML : string; ec_Text : string;
  ec_RequireTLS : option bool; ec_TLSConfig : string }.
Definition zero_EmailConfig : EmailConfig :=
  mkEmailConfig false "" "" "" (mkHostPort "" "") "" "" "" "" "" ∅ "" "" None "".
Definition DefaultEmailConfig : EmailConfig :=
  mkEmailConfig false "" "" "" (mkHostPort "" "") "" "" "" "" "" ∅ (tmpl "email.default.html" " . }}") "" None "".
(** Two headers with one canonical name are refused; [canonical] is
    textproto.CanonicalMIMEHeaderKey. *)
Definition EmailConfig_Unmarshal (canonical : string -> string) (unmarshal : EmailConfig -> outcome EmailConfig)
  : outcome EmailConfig :=
  let? c := unmarshal DefaultEmailConfig in
  errorf (is_empty (ec_To c)) "missing to address in email config" ;?
  let headers := map_to_list (ec_Headers c) in
  errorf (negb (bool_decide (NoDup ((fun h => canonical h.1) <$> headers)))) "duplicate header in email config" ;?
  Ok (mkEmailConfig (ec_VSendResolved c) (ec_To c) (ec_From c) (ec_Hello c) (ec_Smarthost c) (ec_AuthUsername c)
        (ec_AuthPassword c) (ec_AuthPasswordFile c) (ec_AuthSecret c) (ec_AuthIdentity c)
        (list_to_map ((fun h => (canonical h.1, h.2)) <$> headers)) (ec_HTML c) (ec_Text c) (ec_RequireTLS c)
        (ec_TLSConfig c)).

Record PagerdutyConfig := mkPagerdutyConfig {
  pc_VSendResolved : bool; pc_HTTPConfig : option HTTPClientConfig; pc_ServiceKey : string;
  pc_ServiceKeyFile : string; pc_RoutingKey : string; pc_RoutingKeyFile : string; pc_URL : option URL;
  pc_Client : string; pc_ClientURL : string; pc_Description : string; pc_Details : gmap string string;
  pc_Source : string; pc_Other : string }.
Definition DefaultPagerdutyDetails : gmap string string :=
  list_to_map [("firing", (tmpl "pagerduty.default.instances" " .Alerts.Firing }}"));
               ("resolved", (tmpl "pagerduty.default.instances" " .Alerts.Resolved }}"));
               ("num_firing", "{{ .Alerts.Firing | len }}"); ("num_resolved", "{{ .Alerts.Resolved | len }}")].
Definition zero_PagerdutyConfig : PagerdutyConfig :=
  mkPagerdutyConfig false None "" "" "" "" None "" "" "" ∅ "" "".
Definition DefaultPagerdutyConfig : PagerdutyConfig :=
  mkPagerdutyConfig true None "" "" "" "" None (tmpl "pagerduty.default.client" " . }}")
    (tmpl "pagerduty.default.clientURL" " . }}") (tmpl "pagerduty.default.description" " .}}") ∅ "" "".
Definition PagerdutyConfig_Unmarshal (unmarshal : PagerdutyConfig -> outcome PagerdutyConfig)
  : outcome PagerdutyConfig :=
  let? c := unmarshal DefaultPagerdutyConfig in
  errorf (is_empty (pc_RoutingKey c) && is_empty (pc_ServiceKey c) && is_empty (pc_RoutingKeyFile c)
          && is_empty (pc_ServiceKeyFile c)) "missing service or routing key in PagerDuty config" ;?
  errorf (negb (is_empty (pc_RoutingKey c)) && negb (is_empty (pc_RoutingKeyFile c)))
    "at most one of routing_key & routing_key_file must be configured" ;?
  errorf (negb (is_empty (pc_ServiceKey c)) && negb (is_empty (pc_ServiceKeyFile c)))
    "at most one of service_key & service_key_file must be configured" ;?
  Ok (mkPagerdutyConfig (pc_VSendResolved c) (pc_HTTPConfig c) (pc_ServiceKey c) (pc_ServiceKeyFile c)
        (pc_RoutingKey c) (pc_RoutingKeyFile c) (pc_URL c) (pc_Client c) (pc_ClientURL c) (pc_Description c)
        (pc_Details c ∪ DefaultPagerdutyDetails)
        (if is_empty (pc_Source c) then pc_Client c else pc_Source c) (pc_Other c)).

Record SlackAction := mkSlackAction {
  sa_Type : string; sa_Text : string; sa_URL : string; sa_Style : string; sa_Name : string; sa_Value : string;
  sa_ConfirmField : option string }.
(** An action with a URL loses the fields of a message action. *)
Definition SlackAction_Unmarshal (unmarshal : SlackAction -> outcome SlackAction) (c0 : SlackAction)
  : outcome SlackAction :=
  let? c := unmarshal c0 in
  errorf (is_empty (sa_Type c)) "missing type in Slack action configuration" ;?
  errorf (is_empty (sa_Text c)) "missing text in Slack action configuration" ;?
  if negb (is_empty (sa_URL c)) then
    Ok (mkSlackAction (sa_Type c) (sa_Text c) (sa_URL c) (sa_Style c) "" "" None)
  else if negb (is_empty (sa_Name c)) then
    Ok (mkSlackAction (sa_Type c) (sa_Text c) "" (sa_Style c) (sa_Name c) (sa_Value c) (sa_ConfirmField c))
  else Err (ErrorString "missing name or url in Slack action configuration").

Record SlackField := mkSlackField { sf_Title : string; sf_Value : string; sf_Short : option bool }.
Definition SlackField_Unmarshal (unmarshal : SlackField -> outcome SlackField) (c0 : SlackField) : outcome SlackField :=
  let? c := unmarshal c0 in
  errorf (is_empty (sf_Title c)) "missing title in Slack field configuration" ;?
  errorf (is_empty (sf_Value c)) "missing value in Slack field configuration" ;?
  Ok c.

Record SlackConfig := mkSlackConfig {
  sk_VSendResolved : bool; sk_HTTPConfig : option HTTPClientConfig; sk_APIURL : option URL; sk_APIURLFile : string;
  sk_Channel : string; sk_Username : string; sk_Color : string; sk_Title : string; sk_TitleLink : string;
  sk_Pretext : string; sk_Text : string; sk_Fields : list SlackField; sk_Footer : string; sk_Fallback : string;
  sk_CallbackID : string; sk_IconEmoji : string; sk_IconURL : string; sk_Actions : list SlackAction;
  sk_Other : string }.
Definition zero_SlackConfig : SlackConfig :=
  mkSlackConfig false None None "" "" "" "" "" "" "" "" [] "" "" "" "" "" [] "".
Definition DefaultSlackConfig : SlackConfig :=
  mkSlackConfig false None None "" ""
    (tmpl "slack.default.username" " . }}")
    ("{{ if eq .Status " +:+ dq +:+ "firing" +:+ dq +:+ " }}danger{{ else }}good{{ end }}")
    (tmpl "slack.default.title" " . }}") (tmpl "slack.default.titlelink" " . }}")
    (tmpl "slack.default.pretext" " . }}") (tmpl "slack.default.text" " . }}") []
    (tmpl "slack.default.footer" " . }}") (tmpl "slack.default.fallback" " . }}")
    (tmpl "slack.default.callbackid" " . }}") (tmpl "slack.default.iconemoji" " . }}")
    (tmpl "slack.default.iconurl" " . }}") [] "".
Definition SlackConfig_Unmarshal (unmarshal : SlackConfig -> outcome SlackConfig) : outcome SlackConfig :=
  let? c := unmarshal DefaultSlackConfig in
  errorf (negb (bool_decide (sk_APIURL c = None)) && negb (is_empty (sk_APIURLFile c)))
    "at most one of api_url & api_url_file must be configured" ;? Ok c.

Record WechatConfig := mkWechatConfig {
  wc_VSendResolved : bool; wc_HTTPConfig : option HTTPClientConfig; wc_APISecret : string; wc_CorpID : string;
  wc_Message : string; wc_APIURL : option URL; wc_ToUser : string; wc_ToParty : string; wc_ToTag : string;
  wc_AgentID : string; wc_MessageType : string }.
Definition DefaultWechatConfig : WechatConfig :=
  mkWechatConfig false None "" "" (tmpl "wechat.default.message" " . }}") None (tmpl "wechat.default.to_user" " . }}")
    (tmpl "wechat.default.to_party" " . }}") (tmpl "wechat.default.to_tag" " . }}")
    (tmpl "wechat.default.agent_id" " . }}") "".
Definition WechatConfig_Unmarshal (unmarshal : WechatConfig -> outcome WechatConfig) : outcome WechatConfig :=
  let? c := unmarshal DefaultWechatConfig in
  let ty := if is_empty (wc_MessageType c) then "text" else wc_MessageType c in
  errorf (negb (bool_decide (ty ∈ ["text"; "markdown"]))) "weChat message type does not match valid options" ;?
  Ok (mkWechatConfig (wc_VSendResolved c) (wc_HTTPConfig c) (wc_APISecret c) (wc_CorpID c) (wc_Message c)
        (wc_APIURL c) (wc_ToUser c) (wc_ToParty c) (wc_ToTag c) (wc_AgentID c) ty).

Record OpsGenieConfigResponder := mkOpsGenieConfigResponder {
  og_ID : string; og_Name : string; og_Username : string; og_Type : string }.
Record OpsGenieConfig := mkOpsGenieConfig {
  oc_VSendResolved : bool; oc_HTTPConfig : option HTTPClientConfig; oc_APIKey : string; oc_APIKeyFile : string;
  oc_APIURL : option URL; oc_Message : string; oc_Description : string; oc_Source : string;
  oc_Responders : list OpsGenieConfigResponder; oc_Other : string }.
Definition DefaultOpsGenieConfig : OpsGenieConfig :=
  mkOpsGenieConfig true None "" "" None (tmpl "opsgenie.default.message" " . }}")
    (tmpl "opsgenie.default.description" " . }}") (tmpl "opsgenie.default.source" " . }}") [] "".
(** The type of a responder is lowered in a copy of the loop variable only. *)
Definition OpsGenieConfig_Unmarshal (toLower : string -> string) (contains_braces : string -> bool)
    (unmarshal : OpsGenieConfig -> outcome OpsGenieConfig) : outcome OpsGenieConfig :=
  let? c := unmarshal DefaultOpsGenieConfig in
  errorf (negb (is_empty (oc_APIKey c)) && negb (is_empty (oc_APIKeyFile c)))
    "at most one of api_key & api_key_file must be configured" ;?
  foreach (fun r =>
    errorf (is_empty (og_ID r) && is_empty (og_Username r) && is_empty (og_Name r))
      "opsGenieConfig responder has to have at least one of id, username or name specified" ;?
    if contains_braces (og_Type r)
    then errorf (negb (template_Parse (og_Type r))) "opsGenieConfig responder type is not a valid template"
    else errorf (negb (bool_decide (toLower (og_Type r) ∈ ["team"; "teams"; "user"; "escalation"; "schedule"])))
           "opsGenieConfig responder type does not match valid options") (oc_Responders c) ;?
  Ok c.

Record VictorOpsConfig := mkVictorOpsConfig {
  vc_VSendResolved : bool; vc_HTTPConfig : option HTTPClientConfig; vc_APIKey : string; vc_APIKeyFile : string;
  vc_APIURL : option URL; vc_RoutingKey : string; vc_MessageType : string; vc_StateMessage : string;
  vc_EntityDisplayName : string; vc_MonitoringTool : string; vc_CustomFields : gmap string string }.
Definition DefaultVictorOpsConfig : VictorOpsConfig :=
  mkVictorOpsConfig true None "" "" None "" "CRITICAL" (tmpl "victorops.default.state_message" " . }}")
    (tmpl "victorops.default.entity_display_name" " . }}") (tmpl "victorops.default.monitoring_tool" " . }}") ∅.
Definition reservedFields : list string :=
  ["routing_key"; "message_type"; "state_message"; "entity_display_name"; "monitoring_tool"; "entity_id"; "entity_state"].
Definition VictorOpsConfig_Unmarshal (unmarshal : VictorOpsConfig -> outcome VictorOpsConfig) : outcome VictorOpsConfig :=
  let? c := unmarshal DefaultVictorOpsConfig in
  errorf (is_empty (vc_RoutingKey c)) "missing Routing key in VictorOps config" ;?
  errorf (negb (is_empty (vc_APIKey c)) && negb (is_empty (vc_APIKeyFile c)))
    "at most one of api_key & api_key_file must be configured" ;?
  foreach (fun v => errorf (bool_decide (v ∈ dom (vc_CustomFields c)))
    "victorOps config contains custom field which cannot be used as it conflicts with the fixed/static fields")
    reservedFields ;?
  Ok c.

Record PushoverConfig := mkPushoverConfig {
  po_VSendResolved : bool; po_HTTPConfig : option HTTPClientConfig; po_UserKey : string; po_Token : string;
  po_Title : string; po_Message : string; po_URL : string; po_Priority : string; po_Retry : Z; po_Expire : Z;
  po_HTML : bool; po_Other : string }.
Definition DefaultPushoverConfig : PushoverConfig :=
  mkPushoverConfig true None "" "" (tmpl "pushover.default.title" " . }}") (tmpl "pushover.default.message" " . }}")
    (tmpl "pushover.default.url" " . }}")
    ("{{ if eq .Status " +:+ dq +:+ "firing" +:+ dq +:+ " }}2{{ else }}0{{ end }}") minute hour false "".
Definition PushoverConfig_Unmarshal (unmarshal : PushoverConfig -> outcome PushoverConfig) : outcome PushoverConfig :=
  let? c := unmarshal DefaultPushoverConfig in
  errorf (is_empty (po_UserKey c)) "missing user key in Pushover config" ;?
  errorf (is_empty (po_Token c)) "missing token in Pushover config" ;?
  Ok c.

Record SNSConfig := mkSNSConfig {
  sn_VSendResolved : bool; sn_HTTPConfig : option HTTPClientConfig; sn_TopicARN : string; sn_PhoneNumber : string;
  sn_TargetARN : string; sn_Subject : string; sn_Message : string; sn_Other : string }.
Definition DefaultSNSConfig : SNSConfig :=
  mkSNSConfig true None "" "" "" (tmpl "sns.default.subject" " . }}") (tmpl "sns.default.message" " . }}") "".
(** [a != b != c] associates to the left. *)
Definition SNSConfig_Unmarshal (unmarshal : SNSConfig -> outcome SNSConfig) : outcome SNSConfig :=
  let? c := unmarshal DefaultSNSConfig in
  errorf (xorb (xorb (is_empty (sn_TargetARN c)) (is_empty (sn_TopicARN c))) (is_empty (sn_PhoneNumber c)))
    "must provide either a Target ARN, Topic ARN, or Phone Number for SNS config" ;?
  Ok c.

Record TelegramConfig := mkTelegramConfig {
  tg_VSendResolved : bool; tg_HTTPConfig : option HTTPClientConfig; tg_APIUrl : option URL; tg_BotToken : string;
  tg_ChatID : Z; tg_Message : string; tg_DisableNotifications : bool; tg_ParseMode : string }.
Definition DefaultTelegramConfig : TelegramConfig :=
  mkTelegramConfig true None None "" 0 (tmpl "telegram.default.message" " . }}") false "HTML".
Definition TelegramConfig_Unmarshal (unmarshal : TelegramConfig -> outcome TelegramConfig) : outcome TelegramConfig :=
  let? c := unmarshal DefaultTelegramConfig in
  errorf (is_empty (tg_BotToken c)) "missing bot_token on telegram_config" ;?
  errorf (tg_ChatID c =? 0)%Z "missing chat_id on telegram_config" ;?
  errorf (negb (bool_decide (tg_ParseMode c ∈ [""; "Markdown"; "MarkdownV2"; "HTML"])))
    "unknown parse_mode on telegram_config, must be Markdown, MarkdownV2, HTML or empty string" ;?
  Ok c.

Record DiscordConfig := mkDiscordConfig {
  dd_VSendResolved : bool; dd_HTTPConfig : option HTTPClientConfig; dd_WebhookURL : option URL; dd_Title : string;
  dd_Message : string }.
Definition DefaultDiscordConfig : DiscordConfig :=
  mkDiscordConfig true None None (tmpl "discord.default.title" " . }}") (tmpl "discord.default.message" " . }}").
Definition DiscordConfig_Unmarshal (unmarshal : DiscordConfig -> outcome DiscordConfig) : outcome DiscordConfig :=
  unmarshal DefaultDiscordConfig.

Record WebexConfig := mkWebexConfig {
  wx_VSendResolved : bool; wx_HTTPConfig : option HTTPClientConfig; wx_APIURL : option URL; wx_Message : string;
  wx_RoomID : string }.
Definition DefaultWebexConfig : WebexConfig :=
  mkWebexConfig true None None (tmpl "webex.default.message" " . }}") "".
Definition WebexConfig_Unmarshal (unmarshal : WebexConfig -> outcome WebexConfig) : outcome WebexConfig :=
  let? c := unmarshal DefaultWebexConfig in
  errorf (is_empty (wx_RoomID c)) "missing room_id on webex_config" ;?
  errorf (match wx_HTTPConfig c with
          | Some h => bool_decide (hc_Authorization h = None)
          | None => true
          end) "missing webex_configs.http_config.authorization" ;?
  Ok c.

Record Receiver := mkReceiver {
  rv_Name : string;
  rv_DiscordConfigs : list DiscordConfig; rv_EmailConfigs : list EmailConfig;
  rv_PagerdutyConfigs : list PagerdutyConfig; rv_SlackConfigs : list SlackConfig;
  rv_WebhookConfigs : list WebhookConfig; rv_OpsGenieConfigs : list OpsGenieConfig;
  rv_WechatConfigs : list WechatConfig; rv_PushoverConfigs : list PushoverConfig;
  rv_VictorOpsConfigs : list VictorOpsConfig; rv_SNSConfigs : list SNSConfig;
  rv_TelegramConfigs : list TelegramConfig; rv_WebexConfigs : list WebexConfig }.
Definition named_Receiver (name : string) : Receiver := mkReceiver name [] [] [] [] [] [] [] [] [] [] [] [].
Definition Receiver_Unmarshal (unmarshal : Receiver -> outcome Receiver) (c0 : Receiver) : outcome Receiver :=
  let? c := unmarshal c0 in
  errorf (is_empty (rv_Name c)) "missing name in receiver" ;? Ok c.

(** ** Global settings *)

Record GlobalConfig := mkGlobalConfig {
  gc_ResolveTimeout : Z; gc_HTTPConfig : option HTTPClientConfig;
  gc_SMTPFrom : string; gc_SMTPHello : string; gc_SMTPSmarthost : HostPort; gc_SMTPAuthUsername : string;
  gc_SMTPAuthPassword : string; gc_SMTPAuthPasswordFile : string; gc_SMTPAuthSecret : string;
  gc_SMTPAuthIdentity : string; gc_SMTPRequireTLS : bool;
  gc_SlackAPIURL : option URL; gc_SlackAPIURLFile : string; gc_PagerdutyURL : option URL;
  gc_OpsGenieAPIURL : option URL; gc_OpsGenieAPIKey : string; gc_OpsGenieAPIKeyFile : string;
  gc_WeChatAPIURL : option URL; gc_WeChatAPISecret : string; gc_WeChatAPICorpID : string;
  gc_VictorOpsAPIURL : option URL; gc_VictorOpsAPIKey : string; gc_VictorOpsAPIKeyFile : string;
  gc_TelegramAPIUrl : option URL; gc_WebexAPIURL : option URL }.

Definition parseURL (s : string) : outcome URL :=
  match url_Parse s with
  | None => Err (ErrorString "parse error")
  | Some u =>
      errorf (negb (bool_decide (URL_Scheme u = "http")) && negb (bool_decide (URL_Scheme u = "https")))
        "unsupported scheme for URL" ;?
      errorf (is_empty (URL_Host u)) "missing host for URL" ;?
      Ok u
  end.

Definition mustParseURL (s : string) : outcome URL :=
  match parseURL s with Err _ => Panic "mustParseURL" | r => r end.

Definition pagerduty_url : string := "https://events.pagerduty.com/v2/enqueue".
Definition opsgenie_url : string := "https://api.opsgenie.com/".
Definition wechat_url : string := "https://qyapi.weixin.qq.com/cgi-bin/".
Definition victorops_url : string := "https://alert.victorops.com/integrations/generic/20131114/alert/".
Definition telegram_url : string := "https://api.telegram.org".
Definition webex_url : string := "https://webexapis.com/v1/messages".

(** [http] stands for prometheus/common's DefaultHTTPClientConfig. *)
Definition DefaultGlobalConfig (http : HTTPClientConfig) : outcome GlobalConfig :=
  let? pagerduty := mustParseURL pagerduty_url in
  let? opsgenie := mustParseURL opsgenie_url in
  let? wechat := mustParseURL wechat_url in
  let? victorops := mustParseURL victorops_url in
  let? telegram := mustParseURL telegram_url in
  let? webex := mustParseURL webex_url in
  Ok (mkGlobalConfig (5 * minute) (Some http) "" "localhost" (mkHostPort "" "") "" "" "" "" "" true
        None "" (Some pagerduty) (Some opsgenie) "" "" (Some wechat) "" "" (Some victorops) "" ""
        (Some telegram) (Some webex)).

Definition GlobalConfig_Unmarshal (http : HTTPClientConfig) (unmarshal : GlobalConfig -> outcome GlobalConfig)
  : outcome GlobalConfig :=
  let? dflt := DefaultGlobalConfig http in unmarshal dflt.

(** ** The configuration *)

Record Config := mkConfig {
  cf_Global : option GlobalConfig;
  cf_Route : option Route;
  cf_InhibitRules : list InhibitRule;
  cf_Receivers : list Receiver;
  cf_Templates : list string;
  cf_MuteTimeIntervals : list MuteTimeInterval;
  cf_TimeIntervals : list TimeInterval }.

(** What a receiver takes from the global settings.  The URLs of OpsGenie, WeChat and
    VictorOps get a final slash in place, also when they are the global ones. *)
Definition or_http (g : GlobalConfig) (h : option HTTPClientConfig) : option HTTPClientConfig :=
  match h with Some _ => h | None => gc_HTTPConfig g end.
Definition or_empty (s dflt : string) : string := if is_empty s then dflt else s.

Definition webhook_defaults (g : GlobalConfig) (c : WebhookConfig) : WebhookConfig :=
  mkWebhookConfig (wh_VSendResolved c) (or_http g (wh_HTTPConfig c)) (wh_URL c) (wh_MaxAlerts c).

Definition email_defaults (g : GlobalConfig) (c : EmailConfig) : outcome EmailConfig :=
  let no_host := is_empty (HostPort_String (ec_Smarthost c)) in
  errorf (no_host && is_empty (HostPort_String (gc_SMTPSmarthost g))) "no global SMTP smarthost set" ;?
  errorf (is_empty (ec_From c) && is_empty (gc_SMTPFrom g)) "no global SMTP from set" ;?
  let no_password := is_empty (ec_AuthPassword c) && is_empty (ec_AuthPasswordFile c) in
  Ok (mkEmailConfig (ec_VSendResolved c) (ec_To c) (or_empty (ec_From c) (gc_SMTPFrom g))
        (or_empty (ec_Hello c) (gc_SMTPHello g))
        (if no_host then gc_SMTPSmarthost g else ec_Smarthost c)
        (or_empty (ec_AuthUsername c) (gc_SMTPAuthUsername g))
        (if no_password then gc_SMTPAuthPassword g else ec_AuthPassword c)
        (if no_password then gc_SMTPAuthPasswordFile g else ec_AuthPasswordFile c)
        (or_empty (ec_AuthSecret c) (gc_SMTPAuthSecret g))
        (or_empty (ec_AuthIdentity c) (gc_SMTPAuthIdentity g))
        (ec_Headers c) (ec_HTML c) (ec_Text c)
        (match ec_RequireTLS c with None => Some (gc_SMTPRequireTLS g) | b => b end) (ec_TLSConfig c)).

Definition slack_defaults (g : GlobalConfig) (c : SlackConfig) : outcome SlackConfig :=
  let unset := bool_decide (sk_APIURL c = None) && is_empty (sk_APIURLFile c) in
  errorf (unset && bool_decide (gc_SlackAPIURL g = None) && is_empty (gc_SlackAPIURLFile g))
    "no global Slack API URL set either inline or in a file" ;?
  Ok (mkSlackConfig (sk_VSendResolved c) (or_http g (sk_HTTPConfig c))
        (if unset then gc_SlackAPIURL g else sk_APIURL c) (if unset then gc_SlackAPIURLFile g else sk_APIURLFile c)
        (sk_Channel c) (sk_Username c) (sk_Color c) (sk_Title c) (sk_TitleLink c) (sk_Pretext c) (sk_Text c)
        (sk_Fields c) (sk_Footer c) (sk_Fallback c) (sk_CallbackID c) (sk_IconEmoji c) (sk_IconURL c)
        (sk_Actions c) (sk_Other c)).

Definition pushover_defaults (g : GlobalConfig) (c : PushoverConfig) : PushoverConfig :=
  mkPushoverConfig (po_VSendResolved c) (or_http g (po_HTTPConfig c)) (po_UserKey c) (po_Token c) (po_Title c)
    (po_Message c) (po_URL c) (po_Priority c) (po_Retry c) (po_Expire c) (po_HTML c) (po_Other c).

Definition pagerduty_defaults (g : GlobalConfig) (c : PagerdutyConfig) : outcome PagerdutyConfig :=
  errorf (bool_decide (pc_URL c = None) && bool_decide (gc_PagerdutyURL g = None)) "no global PagerDuty URL set" ;?
  Ok (mkPagerdutyConfig (pc_VSendResolved c) (or_http g (pc_HTTPConfig c)) (pc_ServiceKey c) (pc_ServiceKeyFile c)
        (pc_RoutingKey c) (pc_RoutingKeyFile c)
        (match pc_URL c with None => gc_PagerdutyURL g | u => u end)
        (pc_Client c) (pc_ClientURL c) (pc_Description c) (pc_Details c) (pc_Source c) (pc_Other c)).

(** The three URLs that are changed in place. *)
Record shared_urls := mkShared { su_OpsGenie : option URL; su_WeChat : option URL; su_VictorOps : option URL }.

Definition with_slash (u : URL) : URL :=
  if HasSuffix (URL_Path u) "/" then u else URL_with_path (URL_Path u +:+ "/") u.

(** The URL a configuration ends up with, and the global one. *)
Definition resolve_url (own global : option URL) (msg : string) : outcome (URL * option URL) :=
  match own with
  | Some u => Ok (with_slash u, global)
  | None =>
      match global with
      | None => Err (ErrorString msg)
      | Some u => Ok (with_slash u, Some (with_slash u))
      end
  end.

Definition opsgenie_defaults (g : GlobalConfig) (su : shared_urls) (c : OpsGenieConfig)
  : outcome (shared_urls * OpsGenieConfig) :=
  let? uu := resolve_url (oc_APIURL c) (su_OpsGenie su) "no global OpsGenie URL set" in
  let unset := is_empty (oc_APIKey c) && is_empty (oc_APIKeyFile c) in
  errorf (unset && is_empty (gc_OpsGenieAPIKey g) && is_empty (gc_OpsGenieAPIKeyFile g))
    "no global OpsGenie API Key set either inline or in a file" ;?
  Ok (mkShared uu.2 (su_WeChat su) (su_VictorOps su),
      mkOpsGenieConfig (oc_VSendResolved c) (or_http g (oc_HTTPConfig c))
        (if unset then gc_OpsGenieAPIKey g else oc_APIKey c)
        (if unset then gc_OpsGenieAPIKeyFile g else oc_APIKeyFile c)
        (Some uu.1) (oc_Message c) (oc_Description c) (oc_Source c) (oc_Responders c) (oc_Other c)).

(** WeChat fills its URL, secret and corporation before the slash is added. *)
Definition wechat_defaults (g : GlobalConfig) (su : shared_urls) (c : WechatConfig)
  : outcome (shared_urls * WechatConfig) :=
  let? uu := resolve_url (wc_APIURL c) (su_WeChat su) "no global Wechat URL set" in
  errorf (is_empty (wc_APISecret c) && is_empty (gc_WeChatAPISecret g)) "no global Wechat ApiSecret set" ;?
  errorf (is_empty (wc_CorpID c) && is_empty (gc_WeChatAPICorpID g)) "no global Wechat CorpID set" ;?
  Ok (mkShared (su_OpsGenie su) uu.2 (su_VictorOps su),
      mkWechatConfig (wc_VSendResolved c) (or_http g (wc_HTTPConfig c))
        (or_empty (wc_APISecret c) (gc_WeChatAPISecret g)) (or_empty (wc_CorpID c) (gc_WeChatAPICorpID g))
        (wc_Message c) (Some uu.1) (wc_ToUser c) (wc_ToParty c) (wc_ToTag c) (wc_AgentID c) (wc_MessageType c)).

Definition victorops_defaults (g : GlobalConfig) (su : shared_urls) (c : VictorOpsConfig)
  : outcome (shared_urls * VictorOpsConfig) :=
  let? uu := resolve_url (vc_APIURL c) (su_VictorOps su) "no global VictorOps URL set" in
  let unset := is_empty (vc_APIKey c) && is_empty (vc_APIKeyFile c) in
  errorf (unset && is_empty (gc_VictorOpsAPIKey g) && is_empty (gc_VictorOpsAPIKeyFile g))
    "no global VictorOps API Key set" ;?
  Ok (mkShared (su_OpsGenie su) (su_WeChat su) uu.2,
      mkVictorOpsConfig (vc_VSendResolved c) (or_http g (vc_HTTPConfig c))
        (if unset then gc_VictorOpsAPIKey g else vc_APIKey c)
        (if unset then gc_VictorOpsAPIKeyFile g else vc_APIKeyFile c)
        (Some uu.1) (vc_RoutingKey c) (vc_MessageType c) (vc_StateMessage c) (vc_EntityDisplayName c)
        (vc_MonitoringTool c) (vc_CustomFields c)).

Definition sns_defaults (g : GlobalConfig) (c : SNSConfig) : SNSConfig :=
  mkSNSConfig (sn_VSendResolved c) (or_http g (sn_HTTPConfig c)) (sn_TopicARN c) (sn_PhoneNumber c) (sn_TargetARN c)
    (sn_Subject c) (sn_Message c) (sn_Other c).

Definition telegram_defaults (g : GlobalConfig) (c : TelegramConfig) : TelegramConfig :=
  mkTelegramConfig (tg_VSendResolved c) (or_http g (tg_HTTPConfig c))
    (match tg_APIUrl c with None => gc_TelegramAPIUrl g | u => u end)
    (tg_BotToken c) (tg_ChatID c) (tg_Message c) (tg_DisableNotifications c) (tg_ParseMode c).

Definition discord_defaults (g : GlobalConfig) (c : DiscordConfig) : outcome DiscordConfig :=
  errorf (bool_decide (dd_WebhookURL c = None)) "no discord webhook URL provided" ;?
  Ok (mkDiscordConfig (dd_VSendResolved c) (or_http g (dd_HTTPConfig c)) (dd_WebhookURL c) (dd_Title c) (dd_Message c)).

Definition webex_defaults (g : GlobalConfig) (c : WebexConfig) : outcome WebexConfig :=
  errorf (bool_decide (wx_APIURL c = None) && bool_decide (gc_WebexAPIURL g = None)) "no global Webex URL set" ;?
  Ok (mkWebexConfig (wx_VSendResolved c) (or_http g (wx_HTTPConfig c))
        (match wx_APIURL c with None => gc_WebexAPIURL g | u => u end) (wx_Message c) (wx_RoomID c)).

(** A loop that threads a state. *)
Fixpoint thread {S A} (f : S -> A -> outcome (S * A)) (s : S) (l : list A) : outcome (S * list A) :=
  match l with
  | [] => Ok (s, [])
  | x :: l =>
      let? sx := f s x in
      let? sl := thread f sx.1 l in
      Ok (sl.1, sx.2 :: sl.2)
  end.

(** One turn of the loop over the receivers. *)
Definition receiver_defaults (g : GlobalConfig) (su : shared_urls) (r : Receiver) : outcome (shared_urls * Receiver) :=
  let? emails := omapM (email_defaults g) (rv_EmailConfigs r) in
  let? slacks := omapM (slack_defaults g) (rv_SlackConfigs r) in
  let? pagerdutys := omapM (pagerduty_defaults g) (rv_PagerdutyConfigs r) in
  let? og := thread (opsgenie_defaults g) su (rv_OpsGenieConfigs r) in
  let? wc := thread (wechat_defaults g) og.1 (rv_WechatConfigs r) in
  let? vo := thread (victorops_defaults g) wc.1 (rv_VictorOpsConfigs r) in
  let? discords := omapM (discord_defaults g) (rv_DiscordConfigs r) in
  let? webexs := omapM (webex_defaults g) (rv_WebexConfigs r) in
  Ok (vo.1, mkReceiver (rv_Name r) discords emails pagerdutys slacks (webhook_defaults g <$> rv_WebhookConfigs r)
        og.2 wc.2 (pushover_defaults g <$> rv_PushoverConfigs r) vo.2 (sns_defaults g <$> rv_SNSConfigs r)
        (telegram_defaults g <$> rv_TelegramConfigs r) webexs).

(** The loop over the receivers: names are unique. *)
Fixpoint receivers_loop (g : GlobalConfig) (names : gset string) (su : shared_urls) (l : list Receiver)
  : outcome (gset string * shared_urls * list Receiver) :=
  match l with
  | [] => Ok (names, su, [])
  | r :: l =>
      errorf (bool_decide (rv_Name r ∈ names)) "notification config name is not unique" ;?
      let? sr := receiver_defaults g su r in
      let? rest := receivers_loop g ({[rv_Name r]} ∪ names) sr.1 l in
      Ok (rest.1.1, rest.1.2, sr.2 :: rest.2)
  end.

Definition global_checks (g : GlobalConfig) : outcome unit :=
  errorf (negb (bool_decide (gc_SlackAPIURL g = None)) && negb (is_empty (gc_SlackAPIURLFile g)))
    "at most one of slack_api_url & slack_api_url_file must be configured" ;?
  errorf (negb (is_empty (gc_OpsGenieAPIKey g)) && negb (is_empty (gc_OpsGenieAPIKeyFile g)))
    "at most one of opsgenie_api_key & opsgenie_api_key_file must be configured" ;?
  errorf (negb (is_empty (gc_VictorOpsAPIKey g)) && negb (is_empty (gc_VictorOpsAPIKeyFile g)))
    "at most one of victorops_api_key & victorops_api_key_file must be configured" ;?
  errorf (negb (is_empty (gc_SMTPAuthPassword g)) && negb (is_empty (gc_SMTPAuthPasswordFile g)))
    "at most one of smtp_auth_password & smtp_auth_password_file must be configured".

Definition root_checks (r : Route) : outcome unit :=
  errorf (is_empty (rt_Receiver r)) "root route must specify a default receiver" ;?
  errorf (negb (bool_decide (rt_Match r = ∅)) || negb (bool_decide (rt_MatchRE r = ∅))
          || negb (bool_decide (rt_Matchers r = []))) "root route must not have any matchers" ;?
  errorf (negb (bool_decide (rt_MuteTimeIntervals r = []))) "root route must not have any mute time intervals" ;?
  errorf (negb (bool_decide (rt_ActiveTimeIntervals r = []))) "root route must not have any active time intervals".

Fixpoint names_unique (msg : string) (names : gset string) (l : list string) : outcome (gset string) :=
  match l with
  | [] => Ok names
  | x :: l => errorf (bool_decide (x ∈ names)) msg ;? names_unique msg ({[x]} ∪ names) l
  end.

Definition write_urls (su : shared_urls) (g : GlobalConfig) : GlobalConfig :=
  mkGlobalConfig (gc_ResolveTimeout g) (gc_HTTPConfig g) (gc_SMTPFrom g) (gc_SMTPHello g) (gc_SMTPSmarthost g)
    (gc_SMTPAuthUsername g) (gc_SMTPAuthPassword g) (gc_SMTPAuthPasswordFile g) (gc_SMTPAuthSecret g)
    (gc_SMTPAuthIdentity g) (gc_SMTPRequireTLS g) (gc_SlackAPIURL g) (gc_SlackAPIURLFile g) (gc_PagerdutyURL g)
    (su_OpsGenie su) (gc_OpsGenieAPIKey g) (gc_OpsGenieAPIKeyFile g) (su_WeChat su) (gc_WeChatAPISecret g)
    (gc_WeChatAPICorpID g) (su_VictorOps su) (gc_VictorOpsAPIKey g) (gc_VictorOpsAPIKeyFile g) (gc_TelegramAPIUrl g)
    (gc_WebexAPIURL g).

(** [Config.UnmarshalYAML]. *)
Definition Config_Unmarshal (http : HTTPClientConfig) (unmarshal : Config -> outcome Config) (c0 : Config)
  : outcome Config :=
  let? c := unmarshal c0 in
  let? g := match cf_Global c with Some g => Ok g | None => DefaultGlobalConfig http end in
  global_checks g ;?
  let? recvs := receivers_loop g ∅ (mkShared (gc_OpsGenieAPIURL g) (gc_WeChatAPIURL g) (gc_VictorOpsAPIURL g))
                  (cf_Receivers c) in
  let '(names, su, receivers) := recvs in
  match cf_Route c with
  | None => Err (ErrorString "no routes provided")
  | Some r =>
      root_checks r ;?
      checkReceiver names r ;?
      let? ti1 := names_unique "mute time interval is not unique" ∅ (mt_Name <$> cf_MuteTimeIntervals c) in
      let? ti2 := names_unique "time interval is not unique" ti1 (ti_Name <$> cf_TimeIntervals c) in
      checkTimeInterval ti2 r ;?
      Ok (mkConfig (Some (write_urls su g)) (cf_Route c) (cf_InhibitRules c) receivers (cf_Templates c)
            (cf_MuteTimeIntervals c) (cf_TimeIntervals c))
  end.

(** ** The document

    What Alertmanager reads is the YAML text of a configuration.  The YAML package writes
    and reads back plain values as they are; the types below have their own text forms, of
    which those of other packages are given here. *)
Class AmText := {
  Matcher_String : Matcher -> string;
  ParseMatchers : string -> outcome (list Matcher);
  sort_Matchers : list Matcher -> list Matcher;
  net_SplitHostPort : string -> outcome (string * string);
  Duration_String : Z -> string;
  ParseDuration : string -> outcome Z;
  URL_String : URL -> string;
  URL_Read : string -> outcome URL;
  HTTP_Reread : HTTPClientConfig -> outcome HTTPClientConfig;
  CanonicalMIMEHeaderKey : string -> string;
  ToLower : string -> string;
  contains_braces : string -> bool }.

Context {TX : AmText}.

Definition Matchers_Marshal (m : list Matcher) : list string := Matcher_String <$> m.
Fixpoint append_matchers (lines : list string) (m : list Matcher) : outcome (list Matcher) :=
  match lines with
  | [] => Ok m
  | line :: lines => let? pm := ParseMatchers line in append_matchers lines (app m pm)
  end.
Definition Matchers_Unmarshal (unmarshal : outcome (list string)) (m0 : list Matcher) : outcome (list Matcher) :=
  let? lines := unmarshal in
  let? m := append_matchers lines m0 in
  Ok (sort_Matchers m).

Definition HostPort_Marshal (hp : HostPort) : string := HostPort_String hp.

(** What is read back of a value that was written; an empty one is left out, so that the
    value it would be read into stays. *)
Definition reread_Matchers (m : list Matcher) : outcome (list Matcher) :=
  if bool_decide (m = []) then Ok [] else Matchers_Unmarshal (Ok (Matchers_Marshal m)) [].
Definition reread_HostPort (hp dflt : HostPort) : outcome HostPort :=
  HostPort_Unmarshal net_SplitHostPort (Ok (HostPort_Marshal hp)) dflt.
Definition reread_Duration (d : Z) : outcome Z := ParseDuration (Duration_String d).
Definition reread_URL (u : URL) : outcome URL := URL_Read (URL_String u).
Definition reread_opt {A} (f : A -> outcome A) (x dflt : option A) : outcome (option A) :=
  match x with
  | None => Ok dflt
  | Some x => let? y := f x in Ok (Some y)
  end.
Definition or_set {A} (x dflt : option A) : option A := match x with None => dflt | _ => x end.

(** The routes; [GroupBy] and [GroupByAll] are not written. *)
Definition route_document (r : Route) (matchers : list Matcher) (routes : list Route) (d : Route) : outcome Route :=
  MatchRegexps_Unmarshal (rt_MatchRE r) ;?
  let? gw := reread_opt reread_Duration (rt_GroupWait r) (rt_GroupWait d) in
  let? gi := reread_opt reread_Duration (rt_GroupInterval r) (rt_GroupInterval d) in
  let? ri := reread_opt reread_Duration (rt_RepeatInterval r) (rt_RepeatInterval d) in
  Ok (mkRoute (or_empty (rt_Receiver r) (rt_Receiver d)) (rt_GroupByStr r) (rt_GroupBy d) (rt_GroupByAll d)
        (rt_Match r) (rt_MatchRE r) matchers (rt_MuteTimeIntervals r) (rt_ActiveTimeIntervals r) (rt_Continue r)
        routes gw gi ri).
Fixpoint reread_Route (r : Route) {struct r} : outcome Route :=
  let? matchers := reread_Matchers (rt_Matchers r) in
  let? routes := (fix children (l : list Route) : outcome (list Route) :=
                    match l with
                    | [] => Ok []
                    | sr :: l => let? x := reread_Route sr in let? xs := children l in Ok (x :: xs)
                    end) (rt_Routes r) in
  Route_Unmarshal (route_document r matchers routes) zero_Route.

Definition reread_InhibitRule (r : InhibitRule) : outcome InhibitRule :=
  MatchRegexps_Unmarshal (ir_SourceMatchRE r) ;?
  MatchRegexps_Unmarshal (ir_TargetMatchRE r) ;?
  let? source := reread_Matchers (ir_SourceMatchers r) in
  let? target := reread_Matchers (ir_TargetMatchers r) in
  InhibitRule_Unmarshal (fun _ => Ok (mkInhibitRule (ir_SourceMatch r) (ir_SourceMatchRE r) source
    (ir_TargetMatch r) (ir_TargetMatchRE r) target (ir_Equal r))) (mkInhibitRule ∅ ∅ [] ∅ ∅ [] []).

(** The configurations that Opni builds; those of the other kinds, which it only passes
    on, are read as they were written. *)
Definition reread_Email (c : EmailConfig) : outcome EmailConfig :=
  EmailConfig_Unmarshal CanonicalMIMEHeaderKey (fun d =>
    let? host := reread_HostPort (ec_Smarthost c) (ec_Smarthost d) in
    Ok (mkEmailConfig (ec_VSendResolved c) (or_empty (ec_To c) (ec_To d)) (or_empty (ec_From c) (ec_From d))
          (or_empty (ec_Hello c) (ec_Hello d)) host (or_empty (ec_AuthUsername c) (ec_AuthUsername d))
          (or_empty (ec_AuthPassword c) (ec_AuthPassword d)) (or_empty (ec_AuthPasswordFile c) (ec_AuthPasswordFile d))
          (or_empty (ec_AuthSecret c) (ec_AuthSecret d)) (or_empty (ec_AuthIdentity c) (ec_AuthIdentity d))
          (ec_Headers c ∪ ec_Headers d) (or_empty (ec_HTML c) (ec_HTML d)) (or_empty (ec_Text c) (ec_Text d))
          (or_set (ec_RequireTLS c) (ec_RequireTLS d)) (or_empty (ec_TLSConfig c) (ec_TLSConfig d)))).
Definition reread_Pagerduty (c : PagerdutyConfig) : outcome PagerdutyConfig :=
  PagerdutyConfig_Unmarshal (fun d =>
    let? http := reread_opt HTTP_Reread (pc_HTTPConfig c) (pc_HTTPConfig d) in
    let? url := reread_opt reread_URL (pc_URL c) (pc_URL d) in
    Ok (mkPagerdutyConfig (pc_VSendResolved c) http (or_empty (pc_ServiceKey c) (pc_ServiceKey d))
          (or_empty (pc_ServiceKeyFile c) (pc_ServiceKeyFile d)) (or_empty (pc_RoutingKey c) (pc_RoutingKey d))
          (or_empty (pc_RoutingKeyFile c) (pc_RoutingKeyFile d)) url (or_empty (pc_Client c) (pc_Client d))
          (or_empty (pc_ClientURL c) (pc_ClientURL d)) (or_empty (pc_Description c) (pc_Description d))
          (pc_Details c ∪ pc_Details d) (or_empty (pc_Source c) (pc_Source d)) (or_empty (pc_Other c) (pc_Other d)))).
Definition reread_Slack (c : SlackConfig) : outcome SlackConfig :=
  SlackConfig_Unmarshal (fun d =>
    let? http := reread_opt HTTP_Reread (sk_HTTPConfig c) (sk_HTTPConfig d) in
    let? url := reread_opt reread_URL (sk_APIURL c) (sk_APIURL d) in
    let? fields := omapM (fun x => SlackField_Unmarshal (fun _ => Ok x) (mkSlackField "" "" None)) (sk_Fields c) in
    let? actions := omapM (fun x => SlackAction_Unmarshal (fun _ => Ok x) (mkSlackAction "" "" "" "" "" "" None))
                      (sk_Actions c) in
    Ok (mkSlackConfig (sk_VSendResolved c) http url (or_empty (sk_APIURLFile c) (sk_APIURLFile d))
          (or_empty (sk_Channel c) (sk_Channel d)) (or_empty (sk_Username c) (sk_Username d))
          (or_empty (sk_Color c) (sk_Color d)) (or_empty (sk_Title c) (sk_Title d))
          (or_empty (sk_TitleLink c) (sk_TitleLink d)) (or_empty (sk_Pretext c) (sk_Pretext d))
          (or_empty (sk_Text c) (sk_Text d)) fields (or_empty (sk_Footer c) (sk_Footer d))
          (or_empty (sk_Fallback c) (sk_Fallback d)) (or_empty (sk_CallbackID c) (sk_CallbackID d))
          (or_empty (sk_IconEmoji c) (sk_IconEmoji d)) (or_empty (sk_IconURL c) (sk_IconURL d)) actions
          (or_empty (sk_Other c) (sk_Other d)))).
(** The URL and the bound on alerts are always written; a missing URL is written as null,
    which is not read. *)
Definition reread_Webhook (c : WebhookConfig) : outcome WebhookConfig :=
  WebhookConfig_Unmarshal (fun d =>
    let? http := reread_opt HTTP_Reread (wh_HTTPConfig c) (wh_HTTPConfig d) in
    let? url := reread_opt reread_URL (wh_URL c) (wh_URL d) in
    Ok (mkWebhookConfig (wh_VSendResolved c) http url (wh_MaxAlerts c))).

Definition reread_Receiver (r : Receiver) : outcome Receiver :=
  Receiver_Unmarshal (fun _ =>
    let? discords := omapM (fun c => DiscordConfig_Unmarshal (fun _ => Ok c)) (rv_DiscordConfigs r) in
    let? emails := omapM reread_Email (rv_EmailConfigs r) in
    let? pagerdutys := omapM reread_Pagerduty (rv_PagerdutyConfigs r) in
    let? slacks := omapM reread_Slack (rv_SlackConfigs r) in
    let? webhooks := omapM reread_Webhook (rv_WebhookConfigs r) in
    let? opsgenies := omapM (fun c => OpsGenieConfig_Unmarshal ToLower contains_braces (fun _ => Ok c)) (rv_OpsGenieConfigs r) in
    let? wechats := omapM (fun c => WechatConfig_Unmarshal (fun _ => Ok c)) (rv_WechatConfigs r) in
    let? pushovers := omapM (fun c => PushoverConfig_Unmarshal (fun _ => Ok c)) (rv_PushoverConfigs r) in
    let? victorops := omapM (fun c => VictorOpsConfig_Unmarshal (fun _ => Ok c)) (rv_VictorOpsConfigs r) in
    let? sns := omapM (fun c => SNSConfig_Unmarshal (fun _ => Ok c)) (rv_SNSConfigs r) in
    let? telegrams := omapM (fun c => TelegramConfig_Unmarshal (fun _ => Ok c)) (rv_TelegramConfigs r) in
    let? webexs := omapM (fun c => WebexConfig_Unmarshal (fun _ => Ok c)) (rv_WebexConfigs r) in
    Ok (mkReceiver (rv_Name r) discords emails pagerdutys slacks webhooks opsgenies wechats pushovers victorops sns
          telegrams webexs)) (named_Receiver "").

Definition reread_Global (http : HTTPClientConfig) (g : GlobalConfig) : outcome GlobalConfig :=
  GlobalConfig_Unmarshal http (fun d =>
    let? timeout := reread_Duration (gc_ResolveTimeout g) in
    let? http := reread_opt HTTP_Reread (gc_HTTPConfig g) (gc_HTTPConfig d) in
    let? host := reread_HostPort (gc_SMTPSmarthost g) (gc_SMTPSmarthost d) in
    let? slack := reread_opt reread_URL (gc_SlackAPIURL g) (gc_SlackAPIURL d) in
    let? pagerduty := reread_opt reread_URL (gc_PagerdutyURL g) (gc_PagerdutyURL d) in
    let? opsgenie := reread_opt reread_URL (gc_OpsGenieAPIURL g) (gc_OpsGenieAPIURL d) in
    let? wechat := reread_opt reread_URL (gc_WeChatAPIURL g) (gc_WeChatAPIURL d) in
    let? victorops := reread_opt reread_URL (gc_VictorOpsAPIURL g) (gc_VictorOpsAPIURL d) in
    let? telegram := reread_opt reread_URL (gc_TelegramAPIUrl g) (gc_TelegramAPIUrl d) in
    let? webex := reread_opt reread_URL (gc_WebexAPIURL g) (gc_WebexAPIURL d) in
    Ok (mkGlobalConfig timeout http (or_empty (gc_SMTPFrom g) (gc_SMTPFrom d)) (or_empty (gc_SMTPHello g) (gc_SMTPHello d))
          host (or_empty (gc_SMTPAuthUsername g) (gc_SMTPAuthUsername d))
          (or_empty (gc_SMTPAuthPassword g) (gc_SMTPAuthPassword d))
          (or_empty (gc_SMTPAuthPasswordFile g) (gc_SMTPAuthPasswordFile d))
          (or_empty (gc_SMTPAuthSecret g) (gc_SMTPAuthSecret d)) (or_empty (gc_SMTPAuthIdentity g) (gc_SMTPAuthIdentity d))
          (gc_SMTPRequireTLS g) slack (or_empty (gc_SlackAPIURLFile g) (gc_SlackAPIURLFile d)) pagerduty opsgenie
          (or_empty (gc_OpsGenieAPIKey g) (gc_OpsGenieAPIKey d)) (or_empty (gc_OpsGenieAPIKeyFile g) (gc_OpsGenieAPIKeyFile d))
          wechat (or_empty (gc_WeChatAPISecret g) (gc_WeChatAPISecret d))
          (or_empty (gc_WeChatAPICorpID g) (gc_WeChatAPICorpID d)) victorops
          (or_empty (gc_VictorOpsAPIKey g) (gc_VictorOpsAPIKey d))
          (or_empty (gc_VictorOpsAPIKeyFile g) (gc_VictorOpsAPIKeyFile d)) telegram webex)).

(** The configuration that Alertmanager holds after it has read the text of [c]. *)
Definition zero_Config : Config := mkConfig None None [] [] [] [] [].
Definition config_document (http : HTTPClientConfig) (c d : Config) : outcome Config :=
  let? g := reread_opt (reread_Global http) (cf_Global c) (cf_Global d) in
  let? r := reread_opt reread_Route (cf_Route c) (cf_Route d) in
  let? inhibit := omapM reread_InhibitRule (cf_InhibitRules c) in
  let? receivers := omapM reread_Receiver (cf_Receivers c) in
  let? mutes := omapM (fun x => MuteTimeInterval_Unmarshal (fun _ => Ok x) (mkMuteTimeInterval "" "")) (cf_MuteTimeIntervals c) in
  let? intervals := omapM (fun x => TimeInterval_Unmarshal (fun _ => Ok x) (mkTimeInterval "" "")) (cf_TimeIntervals c) in
  Ok (mkConfig g r inhibit receivers (cf_Templates c) mutes intervals).
Definition load_Config (http : HTTPClientConfig) (c : Config) : outcome Config :=
  Config_Unmarshal http (config_document http c) zero_Config.
End Config.
