(* ===== verification/AlertRouting.v ===== *)
(** pkg/alerting/drivers/config/receiver.go and pkg/alerting/drivers/routing: the receivers
    Opni builds from alert endpoints, the default routing tree and the router that maps
    namespaces and route ids to endpoints and builds an Alertmanager configuration. *)

From Stdlib Require Import Ascii.
From stdpp Require Import sorting.
From S2P Require Import Prelude GoStd Util Validation CoreV1 Management AlertingV1 AmConfig.

Local Open Scope string_scope.

Section Routing.
Context {DL : DurationLib} {AP : AlertParsers}.

(** ** receiver.go *)

(** The implementations of the interface [OpniReceiver]. *)
Inductive OpniReceiver :=
| RecvEmail (c : EmailConfig)
| RecvSlack (c : SlackConfig)
| RecvPagerduty (c : PagerdutyConfig)
| RecvWebhook (c : WebhookConfig)
| RecvOpsGenie (c : OpsGenieConfig)
| RecvVictorOps (c : VictorOpsConfig)
| RecvWechat (c : WechatConfig)
| RecvPushover (c : PushoverConfig)
| RecvSNS (c : SNSConfig)
| RecvTelegram (c : TelegramConfig).

Definition InternalId (r : OpniReceiver) : string :=
  match r with
  | RecvEmail _ => InternalEmailId | RecvSlack _ => InternalSlackId
  | RecvPagerduty _ => InternalPagerdutyId | RecvWebhook _ => InternalWebhookId
  | RecvOpsGenie _ => InternalOpsGenieId | RecvVictorOps _ => InternalVictorOpsId
  | RecvWechat _ => InternalWechatId | RecvPushover _ => InternalPushoverId
  | RecvSNS _ => InternalSNSId | RecvTelegram _ => InternalTelegramId
  end.

Definition newline : string := String (chr 10) "".
Definition HeaderTemplate : string :=
  "{{ range .Alerts }} {{ .Annotations." +:+ OpniHeaderAnnotations +:+ " }} " +:+ newline +:+ " {{ end }}".
Definition BodyTemplate : string :=
  "{{ range .Alerts }} {{ .Annotations." +:+ OpniBodyAnnotations +:+ " }} " +:+ newline +:+ " {{ end }}".

(** What survives of the details of an endpoint: only whether to notify of resolved
    alerts; the last six implementations return nil. *)
Definition ExtractInfo (r : OpniReceiver) : option EndpointImplementation :=
  match r with
  | RecvEmail c => Some (mkEndpointImplementation "" "" (Some (ec_VSendResolved c)))
  | RecvSlack c => Some (mkEndpointImplementation "" "" (Some (sk_VSendResolved c)))
  | RecvPagerduty c => Some (mkEndpointImplementation "" "" (Some (pc_VSendResolved c)))
  | RecvWebhook c => Some (mkEndpointImplementation "" "" (Some (wh_VSendResolved c)))
  | _ => None
  end.

(** [StoreInfo] dereferences the details. *)
Definition EmailConfig_StoreInfo (d : EndpointImplementation) (c : EmailConfig) : EmailConfig :=
  mkEmailConfig (default false (ei_SendResolved d)) (ec_To c) (ec_From c) (ec_Hello c) (ec_Smarthost c)
    (ec_AuthUsername c) (ec_AuthPassword c) (ec_AuthPasswordFile c) (ec_AuthSecret c) (ec_AuthIdentity c)
    (<["Subject" := ei_Body d]> (ec_Headers c)) (ei_Body d) (ec_Text c) (ec_RequireTLS c) (ec_TLSConfig c).
Definition SlackConfig_StoreInfo (d : EndpointImplementation) (c : SlackConfig) : SlackConfig :=
  mkSlackConfig (default false (ei_SendResolved d)) (sk_HTTPConfig c) (sk_APIURL c) (sk_APIURLFile c) (sk_Channel c)
    (sk_Username c) (sk_Color c) (sk_Title c) (sk_TitleLink c) (sk_Pretext c) (sk_Text c) (sk_Fields c) (sk_Footer c)
    (sk_Fallback c) (sk_CallbackID c) (sk_IconEmoji c) (sk_IconURL c) (sk_Actions c) (sk_Other c).
Definition PagerdutyConfig_StoreInfo (d : EndpointImplementation) (c : PagerdutyConfig) : PagerdutyConfig :=
  mkPagerdutyConfig (default false (ei_SendResolved d)) (pc_HTTPConfig c) (pc_ServiceKey c) (pc_ServiceKeyFile c)
    (pc_RoutingKey c) (pc_RoutingKeyFile c) (pc_URL c) (pc_Client c) (pc_ClientURL c) (pc_Description c)
    (pc_Details c) (pc_Source c) (pc_Other c).
Definition WebhookConfig_StoreInfo (d : EndpointImplementation) (c : WebhookConfig) : WebhookConfig :=
  mkWebhookConfig (default false (ei_SendResolved d)) (wh_HTTPConfig c) (wh_URL c) (wh_MaxAlerts c).

(** [Configure] of a new configuration. *)
Definition EmailConfig_Configure (e : EmailEndpoint) (c : EmailConfig) : outcome EmailConfig :=
  let? host := match em_SmtpSmartHost e with
               | None => Ok (ec_Smarthost c)
               | Some h => match Split ":"%char h with
                           | a :: b :: _ => Ok (mkHostPort a b)
                           | _ => Panic "index out of range"
                           end
               end in
  Ok (mkEmailConfig (ec_VSendResolved c) (em_To e) (default (ec_From c) (em_SmtpFrom e)) (ec_Hello c) host
        (default (ec_AuthUsername c) (em_SmtpAuthUsername e)) (default (ec_AuthPassword c) (em_SmtpAuthPassword e))
        (ec_AuthPasswordFile c) (ec_AuthSecret c) (default (ec_AuthIdentity c) (em_SmtpAuthIdentity e))
        (<["Subject" := HeaderTemplate]> (ec_Headers c)) BodyTemplate (ec_Text c) (ec_RequireTLS c) (ec_TLSConfig c)).
Definition SlackConfig_Configure (s : SlackEndpoint) (c : SlackConfig) : outcome SlackConfig :=
  match url_Parse (sl_WebhookUrl s) with
  | None => Panic "url.Parse"
  | Some u =>
      Ok (mkSlackConfig (sk_VSendResolved c) (sk_HTTPConfig c) (Some u) (sk_APIURLFile c) (sl_Channel s)
            (sk_Username c) (sk_Color c) HeaderTemplate (sk_TitleLink c) (sk_Pretext c) BodyTemplate (sk_Fields c)
            (sk_Footer c) (sk_Fallback c) (sk_CallbackID c) (sk_IconEmoji c) (sk_IconURL c) (sk_Actions c) (sk_Other c))
  end.
(** The integration key, when it is set, becomes the service key. *)
Definition PagerdutyConfig_Configure (p : PagerDutyEndpoint) (c : PagerdutyConfig) : PagerdutyConfig :=
  mkPagerdutyConfig (pc_VSendResolved c) (pc_HTTPConfig c)
    (if negb (is_empty (pd_IntegrationKey p)) then pd_IntegrationKey p
     else if negb (is_empty (pd_ServiceKey p)) then pd_ServiceKey p else pc_ServiceKey c)
    (pc_ServiceKeyFile c) (pc_RoutingKey c) (pc_RoutingKeyFile c) (pc_URL c) (pc_Client c) (pc_ClientURL c)
    (HeaderTemplate +:+ newline +:+ BodyTemplate)
    (<["title" := HeaderTemplate]> (DefaultPagerdutyDetails ∪ pc_Details c)) (pc_Source c) (pc_Other c).
Definition WebhookConfig_Configure (w : WebhookEndpoint) (c : WebhookConfig) : outcome WebhookConfig :=
  match url_Parse (we_Url w) with
  | None => Panic "url.Parse"
  | Some u => Ok (mkWebhookConfig (wh_VSendResolved c) (wh_HTTPConfig c) (Some u) (wh_MaxAlerts c))
  end.

Definition zero_WebhookConfig : WebhookConfig := mkWebhookConfig false None None 0.

(** [ExtractReceiver]: the first type the document decodes into. *)
Definition ExtractReceiver (slack : outcome SlackConfig) (email : outcome EmailConfig)
    (pagerduty : outcome PagerdutyConfig) (webhook : outcome WebhookConfig) (opsGenie : outcome OpsGenieConfig)
    (victorOps : outcome VictorOpsConfig) (wechat : outcome WechatConfig) (pushover : outcome PushoverConfig)
    (sns : outcome SNSConfig) (telegram : outcome TelegramConfig) : outcome OpniReceiver :=
  match slack with Ok c => Ok (RecvSlack c) | _ =>
  match email with Ok c => Ok (RecvEmail c) | _ =>
  match pagerduty with Ok c => Ok (RecvPagerduty c) | _ =>
  match webhook with Ok c => Ok (RecvWebhook c) | _ =>
  match opsGenie with Ok c => Ok (RecvOpsGenie c) | _ =>
  match victorOps with Ok c => Ok (RecvVictorOps c) | _ =>
  match wechat with Ok c => Ok (RecvWechat c) | _ =>
  match pushover with Ok c => Ok (RecvPushover c) | _ =>
  match sns with Ok c => Ok (RecvSNS c) | _ =>
  match telegram with Ok c => Ok (RecvTelegram c) | _ => Err (ErrorString "unknown receiver type")
  end end end end end end end end end end.

(** The loop of [BuildReceiver]: each configuration joins the list of its type. *)
Definition add_config (r : Receiver) (recv : OpniReceiver) : outcome Receiver :=
  let build e p s w := Ok (mkReceiver (rv_Name r) (rv_DiscordConfigs r) (rv_EmailConfigs r ++ e)
    (rv_PagerdutyConfigs r ++ p) (rv_SlackConfigs r ++ s) (rv_WebhookConfigs r ++ w) (rv_OpsGenieConfigs r)
    (rv_WechatConfigs r) (rv_PushoverConfigs r) (rv_VictorOpsConfigs r) (rv_SNSConfigs r) (rv_TelegramConfigs r)
    (rv_WebexConfigs r))%list in
  match recv with
  | RecvSlack c => build [] [] [c] []
  | RecvEmail c => build [c] [] [] []
  | RecvPagerduty c => build [] [c] [] []
  | RecvWebhook c => build [] [] [] [c]
  | _ => Err (ErrorString "unknown receiver type")
  end.
Fixpoint add_configs (r : Receiver) (recvs : list OpniReceiver) : outcome Receiver :=
  match recvs with
  | [] => Ok r
  | x :: l => let? r' := add_config r x in add_configs r' l
  end.
Definition BuildReceiver (receiverId : string) (recvs : list OpniReceiver) : outcome Receiver :=
  errorf (bool_decide (length recvs = 0)) "no receivers to build" ;?
  let? r := add_configs (named_Receiver receiverId) recvs in
  errorf (bool_decide (length (rv_SlackConfigs r) + length (rv_EmailConfigs r) + length (rv_PagerdutyConfigs r)
                       + length (rv_WebhookConfigs r) = 0)) "no receivers to configs parsed" ;?
  Ok r.

(** ** default.go and metrics_default.go *)

Record rateLimitingConfig := mkRateLimiting {
  rlc_InitialDelay : Z; rlc_RepeatInterval : Z; rlc_ThrottlingDuration : Z }.

Definition DefaultSubTreeLabel : string := OpniSeverityLabel.

(** One value per severity, in ascending order; the throttling factor shrinks with it. *)
Definition default_value (n i : Z) (sev : OpniSeverity) : string * rateLimitingConfig :=
  let r := wrap64 (3 * Z.abs (i - n) - 2) in
  (OpniSeverity_String sev, mkRateLimiting (10 * second)%Z (5 * hour)%Z (wrap64 (r * minute))).
Definition DefaultSubTreeValues : list (string * rateLimitingConfig) :=
  imap (fun i sev => default_value (Z.of_nat (length OpniSeverity_all)) (Z.of_nat i) sev) OpniSeverity_all.

(** [lo.Assign]: the later map wins. *)
Definition NewOpniAlarmLabels (conditionId : string) : outcome (gmap string string) :=
  let? treeLabels := AlertManagerLabelsToAnnotations OpniSubRoutingTreeMatcher in
  Ok (treeLabels ∪ {[ BackendConditionIdLabel := conditionId ]}).
Definition NewOpniSeverityLabels (title body severity : string) : outcome (gmap string string) :=
  let? treeLabels := AlertManagerLabelsToAnnotations OpniSeverityTreeMatcher in
  Ok (treeLabels ∪ <[OpniBodyLabel := body]> (<[OpniTitleLabel := title]> {[ OpniSeverityLabel := severity ]})).

Definition DefaultOpniReceiver (embeddedServerHook : string) : outcome Receiver :=
  match url_Parse embeddedServerHook with
  | None => Panic "util.Must"
  | Some u => Ok (mkReceiver AlertingHookReceiverName [] [] [] [] [mkWebhookConfig false None (Some u) 0]
                    [] [] [] [] [] [] [])
  end.

(** [http] stands for the default HTTP settings of the global configuration. *)
Definition NewDefaultRoutingTreeRoot (http : HTTPClientConfig) (embeddedServerHook : string) : outcome Config :=
  let? g := DefaultGlobalConfig http in
  let? hook := DefaultOpniReceiver embeddedServerHook in
  Ok (mkConfig (Some g)
        (Some (set_timing (Some (60 * second)%Z) None (Some (5 * hour)%Z)
                (set_Receiver AlertingHookReceiverName (set_GroupBy ["..."] false zero_Route))))
        [] [hook] [] [] []).

Definition newNamespaceParentMatcher (namespace : string) : Matcher := mkMatcher MatchNotEqual namespace "".
Definition newNamespaceMatcher (namespace value : string) : Matcher := mkMatcher MatchEqual namespace value.

Definition newFinalizer (optionalNamespace : option string) : Route :=
  set_Continue false (set_Receiver AlertingHookReceiverName
    (set_Matchers (match optionalNamespace with
                   | None => []
                   | Some ns => [newNamespaceParentMatcher ns]
                   end) zero_Route)).

Definition setRateLimiting (rl : rateLimitingConfig) (route : Route) : Route :=
  set_timing (Some (rlc_InitialDelay rl)) (Some (rlc_ThrottlingDuration rl)) (Some (rlc_RepeatInterval rl)) route.

Definition setDefaultRateLimitingFromProto (route : Route) : Route :=
  let rl := RateLimitingConfig_Default in
  set_timing
    (Some (match rl_InitialDelay rl with Some _ => AsDuration (rl_InitialDelay rl) | None => 10 * second end))%Z
    (Some (match rl_ThrottlingDuration rl with Some _ => AsDuration (rl_ThrottlingDuration rl) | None => 10 * minute end))%Z
    (Some (match rl_RepeatInterval rl with Some _ => AsDuration (rl_RepeatInterval rl) | None => 10 * minute end))%Z
    route.

Definition NewOpniSubRoutingTreeWithDefaultValue (namespace : string) (value : string * rateLimitingConfig)
  : Route * Receiver :=
  let id := NewOpniReceiverName (mkOpniReceiverId namespace value.1) in
  (set_Receiver id (setRateLimiting value.2
     (set_Continue true (set_Matchers [newNamespaceMatcher namespace value.1] zero_Route))),
   named_Receiver id).

Definition NewOpniNamespacedSubTree (namespace : string) (defaultValues : list (string * rateLimitingConfig))
  : Route * list Receiver :=
  let subs := NewOpniSubRoutingTreeWithDefaultValue namespace <$> defaultValues in
  (set_timing (Some (60 * second)%Z) None (Some (5 * hour)%Z)
     (set_Routes ((fst <$> subs) ++ [newFinalizer (Some namespace)])%list
        (set_Continue false (set_Matchers [newNamespaceParentMatcher namespace]
           (set_GroupBy ["..."] false zero_Route)))),
   snd <$> subs).

Definition NewOpniSubRoutingTree : Route * list Receiver :=
  let '(dflt, recvs) := NewOpniNamespacedSubTree DefaultSubTreeLabel DefaultSubTreeValues in
  let dflt := set_GroupBy (rt_GroupBy dflt ++ [OpniUnbufferedKey])%list (rt_GroupByAll dflt) dflt in
  (set_Routes [dflt; newFinalizer None]
     (set_Continue true (set_Matchers [OpniSubRoutingTreeMatcher] (set_GroupBy OpniGroupByClause false zero_Route))),
   recvs).

Definition NewOpniMetricsSubtree : Route :=
  setDefaultRateLimitingFromProto
    (set_Continue true (set_Matchers [OpniMetricsSubRoutingTreeMatcher] (set_GroupBy ["..."] false zero_Route))).

(** [slices.SortFunc] by name is not stable; receivers of one name keep their order here. *)
Definition receiver_le (a b : Receiver) : Prop := String.le (rv_Name a) (rv_Name b).
#[global] Instance receiver_le_dec a b : Decision (receiver_le a b).
Proof using. unfold receiver_le. apply _. Defined.

Definition set_root_routes (l : list Route) (c : Config) : Config :=
  mkConfig (cf_Global c) (set_Routes l <$> cf_Route c) (cf_InhibitRules c) (cf_Receivers c) (cf_Templates c)
    (cf_MuteTimeIntervals c) (cf_TimeIntervals c).
Definition set_Receivers (l : list Receiver) (c : Config) : Config :=
  mkConfig (cf_Global c) (cf_Route c) (cf_InhibitRules c) l (cf_Templates c)
    (cf_MuteTimeIntervals c) (cf_TimeIntervals c).

Definition NewDefaultRoutingTree (http : HTTPClientConfig) (embeddedServerHook : string) : outcome Config :=
  let? root := NewDefaultRoutingTreeRoot http embeddedServerHook in
  let '(subtree, recvs) := NewOpniSubRoutingTree in
  Ok (set_Receivers (merge_sort receiver_le recvs ++ cf_Receivers root)%list
        (set_root_routes [subtree; NewOpniMetricsSubtree] root)).

Definition NewOpniSubRoutingTreeWithValue (rl : rateLimitingConfig) (opniConfigs : list OpniReceiver)
    (matchers : list Matcher) (receiverId : string) : outcome (Route * Receiver) :=
  let valueRoute := set_Receiver receiverId (setRateLimiting rl (setDefaultRateLimitingFromProto
                      (set_Continue true (set_Matchers matchers zero_Route)))) in
  match BuildReceiver receiverId opniConfigs with
  | Ok recv => Ok (valueRoute, recv)
  | Err _ => Panic "BuildReceiver"
  | Panic p => Panic p
  end.
End Routing.
