(* ===== verification/AlertRouter.v ===== *)
(** pkg/alerting/drivers/routing/routing.go: the router.  It indexes receivers by
    namespace, route id and endpoint id, follows the changes of endpoints, and builds the
    Alertmanager configuration.  Go ranges over a map in any order: where the result may
    depend on it, the order is an argument. *)

From stdpp Require Import sorting.
From S2P Require Import Prelude GoStd Util Validation CoreV1 Management AlertingV1 AmConfig AlertRouting.

Local Open Scope string_scope.

Section Router.
Context {DL : DurationLib} {AP : AlertParsers}.

Record OpniRouterV1 := mkOpniRouterV1 {
  ro_HookEndpoint : string;
  ro_SyncedConfig : option Config;
  ro_DefaultNamespaceConfigs : gmap string (gmap string OpniReceiver);
  ro_NamespacedSpecs : gmap string (gmap string (gmap string OpniReceiver));
  ro_NamespacedRateLimiting : gmap string (gmap string rateLimitingConfig) }.

Definition NewOpniRouterV1 (hookEndpoint : string) : OpniRouterV1 := mkOpniRouterV1 hookEndpoint None ∅ ∅ ∅.
Definition NewDefaultOpniRouting : OpniRouterV1 := NewOpniRouterV1 "http://localhost:3000".

Definition set_defaults (m : gmap string (gmap string OpniReceiver)) (o : OpniRouterV1) : OpniRouterV1 :=
  mkOpniRouterV1 (ro_HookEndpoint o) (ro_SyncedConfig o) m (ro_NamespacedSpecs o) (ro_NamespacedRateLimiting o).
Definition set_specs (m : gmap string (gmap string (gmap string OpniReceiver))) (o : OpniRouterV1) : OpniRouterV1 :=
  mkOpniRouterV1 (ro_HookEndpoint o) (ro_SyncedConfig o) (ro_DefaultNamespaceConfigs o) m (ro_NamespacedRateLimiting o).
Definition set_limits (m : gmap string (gmap string rateLimitingConfig)) (o : OpniRouterV1) : OpniRouterV1 :=
  mkOpniRouterV1 (ro_HookEndpoint o) (ro_SyncedConfig o) (ro_DefaultNamespaceConfigs o) (ro_NamespacedSpecs o) m.

(** An inner map of a nested map; a missing one reads as empty. *)
Definition inner {A} (m : gmap string (gmap string A)) (k : string) : gmap string A := default ∅ (m !! k).

(** [newReceiverImplementationFromEndpoint]: a nil endpoint or an unset one panics, and
    [StoreInfo] dereferences the details. *)
Definition newReceiverImplementationFromEndpoint (endp : option AlertEndpoint)
    (details : option EndpointImplementation) : outcome OpniReceiver :=
  match endp ≫= ep_Endpoint with
  | None => Panic "no such endpoint type implemented"
  | Some t =>
      let? configure := match t with
        | AlertEndpoint_Email e =>
            let? c := EmailConfig_Configure e zero_EmailConfig in
            Ok (fun d => RecvEmail (EmailConfig_StoreInfo d c))
        | AlertEndpoint_Slack s =>
            let? c := SlackConfig_Configure s zero_SlackConfig in
            Ok (fun d => RecvSlack (SlackConfig_StoreInfo d c))
        | AlertEndpoint_PagerDuty p =>
            Ok (fun d => RecvPagerduty (PagerdutyConfig_StoreInfo d (PagerdutyConfig_Configure p zero_PagerdutyConfig)))
        | AlertEndpoint_Webhook w =>
            let? c := WebhookConfig_Configure w zero_WebhookConfig in
            Ok (fun d => RecvWebhook (WebhookConfig_StoreInfo d c))
        end in
      match details with
      | Some d => Ok (configure d)
      | None => Panic "nil pointer dereference"
      end
  end.

(** [HasLabels] and [HasReceivers]: the first namespace, in the order [range], that has
    the route. *)
Definition find_namespace (range : list string) (o : OpniRouterV1) (routingId : string) : option string :=
  find (fun ns => bool_decide (routingId ∈ dom (inner (ro_NamespacedSpecs o) ns))) range.
Definition HasLabels (range : list string) (o : OpniRouterV1) (routingId : string) : list Matcher :=
  match find_namespace range o routingId with
  | Some ns => [mkMatcher MatchEqual ns routingId]
  | None => []
  end.
Definition HasReceivers (range : list string) (o : OpniRouterV1) (routingId : string) : list string :=
  match find_namespace range o routingId with
  | Some ns => [NewOpniReceiverName (mkOpniReceiverId ns routingId)]
  | None => []
  end.

(** [yaml] is the decoded document; a null document has no error and no configuration. *)
Definition SyncExternalConfig (yaml : outcome (option Config)) : M OpniRouterV1 unit := fun o =>
  match yaml with
  | Ok cfg => (mkOpniRouterV1 (ro_HookEndpoint o) cfg (ro_DefaultNamespaceConfigs o) (ro_NamespacedSpecs o)
                 (ro_NamespacedRateLimiting o), Ok tt)
  | Err _ => (o, Err (StatusError codes_FailedPrecondition "Alertmanager configuration not supported"))
  | Panic p => (o, Panic p)
  end.

(** The receivers of some endpoints, by endpoint id; a later one replaces an earlier one. *)
Fixpoint build_endpoints {A} (id : A -> string) (build : A -> outcome OpniReceiver) (l : list A)
    (acc : gmap string OpniReceiver) : outcome (gmap string OpniReceiver) :=
  match l with
  | [] => Ok acc
  | x :: l => let? r := build x in build_endpoints id build l (<[id x := r]> acc)
  end.

Definition default_details : EndpointImplementation :=
  mkEndpointImplementation ("{{ ." +:+ OpniTitleLabel +:+ " }}") ("{{ ." +:+ OpniBodyLabel +:+ " }}") None.

(** [SetDefaultNamespaceConfig]: the loop over the severities. *)
Fixpoint set_default_loop (endpoints : list AlertEndpoint) (vals : list (string * rateLimitingConfig))
  : M OpniRouterV1 unit := fun o =>
  match vals with
  | [] => (o, Ok tt)
  | val :: vals =>
      if bool_decide (length endpoints = 0) then
        (set_defaults (delete val.1 (ro_DefaultNamespaceConfigs o)) o, Ok tt)
      else
        match foreach AlertEndpoint_Validate endpoints with
        | Err e => (o, Err e)
        | Panic p => (o, Panic p)
        | Ok _ =>
            match build_endpoints ep_Id
                    (fun e => newReceiverImplementationFromEndpoint (Some e) (Some default_details)) endpoints ∅ with
            | Ok m => set_default_loop endpoints vals
                        (set_defaults (<[val.1 := m]> (ro_DefaultNamespaceConfigs o)) o)
            | Err e => (o, Err e)
            | Panic p => (o, Panic p)
            end
        end
  end.
Definition SetDefaultNamespaceConfig (endpoints : list AlertEndpoint) : M OpniRouterV1 unit :=
  set_default_loop endpoints DefaultSubTreeValues.

Definition duration_or (d : option Duration) (dflt : Duration) : Z :=
  AsDuration (match d with Some _ => d | None => Some dflt end).

Definition SetNamespaceSpec (namespace routeId : string) (specs : FullAttachedEndpoints) : M OpniRouterV1 unit := fun o =>
  if is_empty namespace then (o, Err (ValidationError "namespace cannot be empty when setting specs"))
  else if bool_decide (namespace = DefaultSubTreeLabel) then
    (o, Err (ValidationError "namespace cannot be the default namespace label"))
  else match foreach FullAttachedEndpoint_Validate (fes_Items specs) with
       | Err _ => (o, Err (StatusError codes_InvalidArgument "failed to update endpoint with route id"))
       | Panic p => (o, Panic p)
       | Ok _ =>
           match build_endpoints fe_EndpointId
                   (fun s => newReceiverImplementationFromEndpoint (fe_AlertEndpoint s) (fes_Details specs))
                   (fes_Items specs) ∅ with
           | Err e => (o, Err e)
           | Panic p => (o, Panic p)
           | Ok m =>
               let specs' := <[namespace := <[routeId := m]> (inner (ro_NamespacedSpecs o) namespace)]>
                               (ro_NamespacedSpecs o) in
               let limit := mkRateLimiting (duration_or (fes_InitialDelay specs) (mkDuration 60 0))
                              (duration_or (fes_RepeatInterval specs) (mkDuration 600 0))
                              (duration_or (fes_ThrottlingDuration specs) (mkDuration 30 0)) in
               let limits' := <[namespace := <[routeId := limit]> (inner (ro_NamespacedRateLimiting o) namespace)]>
                                (ro_NamespacedRateLimiting o) in
               (set_limits limits' (set_specs specs' o), Ok tt)
           end
       end.

(** A loop over a map that replaces every value, or fails. *)
Definition map_mapM {A} (f : A -> outcome A) (m : gmap string A) : outcome (gmap string A) :=
  let? l := omapM (fun '(k, v) => let? v' := f v in Ok (k, v')) (map_to_list m) in
  Ok (list_to_map l).

(** The endpoint [id] of one map of endpoints, if it is there. *)
Definition update_in (id : string) (spec : AlertEndpoint) (endpoints : gmap string OpniReceiver)
  : outcome (gmap string OpniReceiver) :=
  match endpoints !! id with
  | Some r =>
      let? r' := newReceiverImplementationFromEndpoint (Some spec) (ExtractInfo r) in
      Ok (<[id := r']> endpoints)
  | None => Ok endpoints
  end.

Definition UpdateEndpoint (id : string) (spec : AlertEndpoint) : M OpniRouterV1 unit := fun o =>
  match AlertEndpoint_Validate spec with
  | Err _ => (o, Err (ValidationError "invalid endpoint"))
  | Panic p => (o, Panic p)
  | Ok _ =>
      match map_mapM (map_mapM (update_in id spec)) (ro_NamespacedSpecs o) with
      | Err e => (o, Err e)
      | Panic p => (o, Panic p)
      | Ok specs =>
          match map_mapM (update_in id spec) (ro_DefaultNamespaceConfigs o) with
          | Err e => (o, Err e)
          | Panic p => (o, Panic p)
          | Ok dflts => (set_defaults dflts (set_specs specs o), Ok tt)
          end
      end
  end.

Definition drop_endpoint (id : string) (m : gmap string OpniReceiver) : gmap string OpniReceiver := delete id m.

(** [DeleteEndpoint]: a default value without endpoints is removed, as is the empty one. *)
Definition DeleteEndpoint (id : string) (o : OpniRouterV1) : OpniRouterV1 :=
  set_defaults
    (filter (fun kv => kv.2 <> ∅ /\ kv.1 <> "") (drop_endpoint id <$> ro_DefaultNamespaceConfigs o))
    (set_specs (fmap (M := gmap string) (drop_endpoint id) <$> ro_NamespacedSpecs o) o).

(** ** BuildConfig *)

Definition sorted_keys {A} (m : gmap string A) : list string := merge_sort String.le (map_to_list m).*1.

(** The receivers of a map of endpoints, in the order of the endpoint ids. *)
Definition endpoint_list (m : gmap string OpniReceiver) : list OpniReceiver := omap (m !!.) (sorted_keys m).

(** The loop over the default receivers. *)
Definition default_receiver (o : OpniRouterV1) (recv : Receiver) : outcome Receiver :=
  if bool_decide (rv_Name recv = AlertingHookReceiverName) then Ok recv
  else
    match ExtractReceiverId (rv_Name recv) with
    | Err _ | Panic _ => Panic "ExtractReceiverId"
    | Ok id =>
        match ro_DefaultNamespaceConfigs o !! or_ReceiverId id with
        | None => Ok recv
        | Some m =>
            match BuildReceiver (NewOpniReceiverName (mkOpniReceiverId (or_Namespace id) (or_ReceiverId id)))
                    (endpoint_list m) with
            | Ok r => Ok r
            | Err _ => Panic "BuildReceiver"
            | Panic p => Panic p
            end
        end
    end.

(** The two calls that range over the namespaces are made once per route: [range false]
    and [range true] are the orders in which they do. *)
Definition ranges := bool -> string -> string -> list string.

(** The loop over the routes of a namespace: each route with endpoints is put in front. *)
Fixpoint namespace_loop (range : ranges) (o : OpniRouterV1) (namespace : string) (routeIds : list string)
    (subTree : Route) (recvs : list Receiver) : outcome (Route * list Receiver) :=
  match routeIds with
  | [] => Ok (subTree, recvs)
  | routeId :: routeIds =>
      let endpoints := inner (inner (ro_NamespacedSpecs o) namespace) routeId in
      if bool_decide (size endpoints = 0) then namespace_loop range o namespace routeIds subTree recvs
      else
        match HasReceivers (range true namespace routeId) o routeId with
        | [] => Panic "index out of range"
        | name :: _ =>
            let? rr := NewOpniSubRoutingTreeWithValue
                         (default (mkRateLimiting 0 0 0) (inner (ro_NamespacedRateLimiting o) namespace !! routeId))
                         (endpoint_list endpoints)
                         (HasLabels (range false namespace routeId) o routeId)
                         name in
            namespace_loop range o namespace routeIds (set_Routes (rr.1 :: rt_Routes subTree) subTree)
              (recvs ++ [rr.2])%list
        end
  end.

Fixpoint namespaces_loop (range : ranges) (o : OpniRouterV1) (namespaces : list string)
    (routes : list Route) (recvs : list Receiver) : outcome (list Route * list Receiver) :=
  match namespaces with
  | [] => Ok (routes, recvs)
  | namespace :: namespaces =>
      let? tr := namespace_loop range o namespace (sorted_keys (inner (ro_NamespacedSpecs o) namespace))
                   (NewOpniNamespacedSubTree namespace []).1 recvs in
      namespaces_loop range o namespaces (routes ++ [tr.1])%list tr.2
  end.

(** What one matcher of one subtree adds: the namespaces to the Opni subtree, the synced
    configuration to the metrics subtree. *)
Definition attach (o : OpniRouterV1) (opniRoutes : list Route) (st : Config * Route) (m : Matcher) : Config * Route :=
  let '(root, subRoute) := st in
  let subRoute :=
    if bool_decide (m = mkMatcher MatchEqual OpniDatasourceLabel "")
    then set_Routes (opniRoutes ++ rt_Routes subRoute)%list subRoute else subRoute in
  if bool_decide (m = mkMatcher MatchEqual OpniDatasourceLabel OpniDatasourceMetrics) then
    match ro_SyncedConfig o with
    | Some sc =>
        (mkConfig (cf_Global sc) (cf_Route root) (cf_InhibitRules sc) (cf_Receivers sc ++ cf_Receivers root)%list
           (cf_Templates sc) (cf_MuteTimeIntervals root ++ cf_MuteTimeIntervals sc)%list (cf_TimeIntervals sc),
         set_Routes (option_list (cf_Route sc)) subRoute)
    | None => (root, subRoute)
    end
  else (root, subRoute).

Fixpoint attach_all (o : OpniRouterV1) (opniRoutes : list Route) (root : Config) (subRoutes : list Route)
  : Config * list Route :=
  match subRoutes with
  | [] => (root, [])
  | r :: l =>
      let '(root, r') := fold_left (attach o opniRoutes) (rt_Matchers r) (root, r) in
      let '(root, l') := attach_all o opniRoutes root l in
      (root, r' :: l')
  end.

(** The receiver of the hook must be the last one. *)
Definition check_last (root : Config) : outcome Config :=
  match list.last (cf_Receivers root) with
  | Some r => if bool_decide (rv_Name r = AlertingHookReceiverName) then Ok root
              else Panic "default receiver should always be last"
  | None => Panic "index out of range"
  end.

Definition BuildConfig (http : HTTPClientConfig) (range : ranges) (o : OpniRouterV1) : outcome Config :=
  let? root := NewDefaultRoutingTree http (ro_HookEndpoint o) in
  let? recvs := omapM (default_receiver o) (cf_Receivers root) in
  let root := set_Receivers recvs root in
  let? rr := namespaces_loop range o (sorted_keys (ro_NamespacedSpecs o)) [] [] in
  let '(opniRoutes, opniReceivers) := rr in
  let '(root, subRoutes) := attach_all o opniRoutes root (default [] (rt_Routes <$> cf_Route root)) in
  let root := set_root_routes subRoutes root in
  let root := set_Receivers (merge_sort receiver_le opniReceivers ++ cf_Receivers root)%list root in
  check_last root.

(** ** Clone *)

Definition Clone (o : OpniRouterV1) : OpniRouterV1 :=
  mkOpniRouterV1 (ro_HookEndpoint o) (ro_SyncedConfig o) (ro_DefaultNamespaceConfigs o) (ro_NamespacedSpecs o)
    (map_imap (fun ns routes =>
       Some (map_imap (fun routeId _ =>
         Some (default (mkRateLimiting 0 0 0) (inner (ro_NamespacedRateLimiting o) ns !! routeId))) routes))
     (ro_NamespacedSpecs o)).

(** The methods that are not implemented. *)
Definition Router_Walk (o : OpniRouterV1) : outcome unit :=
  Err (StatusError codes_Unimplemented "OpniRouterV1 does not implement Walk").
Definition Router_Search (o : OpniRouterV1) (labels : gmap string string) : list Route := [].
Definition Router_Merge (o other : OpniRouterV1) : outcome OpniRouterV1 :=
  Err (StatusError codes_Unimplemented "OpniRouterV1 does not implement Merge").
End Router.
