(* ===== verification/AlertRouterProps.v ===== *)
(** What the router keeps and what it builds: the invariant of the router, the form of the
    configuration that BuildConfig returns, its validity for Alertmanager, and where an
    alert is delivered. *)

From Stdlib Require Import Ascii.
From stdpp Require Import sorting.
From S2P Require Import Prelude GoStd Util Validation CoreV1 Management AlertingV1 AmConfig AlertRouting AlertRouter.

Local Open Scope string_scope.

(** ** Alertmanager's routing

    [matcher_matches] and [route_match] are Alertmanager's; [route_match l parent r] lists
    the receivers that get an alert with labels [l] that enters the route [r], where
    [parent] is the receiver that [r] inherits if it has none.  The laws are those of its
    documentation: a missing label is an empty one; an alert that matches a route goes
    through the children, stops after the first child that matches and does not continue,
    and is handled by the route itself if no child matches. *)

Fixpoint children_match (f : Route -> list string) (l : list Route) : list string :=
  match l with
  | [] => []
  | r :: l =>
      match f r with
      | [] => children_match f l
      | ms => if rt_Continue r then ms ++ children_match f l else ms
      end%list
  end.

Definition own_receiver (parent : string) (r : Route) : string := or_empty (rt_Receiver r) parent.
Definition or_self (recv : string) (ms : list string) : list string :=
  match ms with [] => [recv] | _ => ms end.

Class Alertmanager := {
  matcher_matches : gmap string string -> Matcher -> bool;
  route_match : gmap string string -> string -> Route -> list string;
  matches_equal l n v : matcher_matches l (mkMatcher MatchEqual n v) = bool_decide (map_get l n = v);
  matches_not_equal l n v : matcher_matches l (mkMatcher MatchNotEqual n v) = negb (bool_decide (map_get l n = v));
  route_match_spec l parent r : rt_Match r = ∅ -> rt_MatchRE r = ∅ ->
    route_match l parent r =
      if forallb (matcher_matches l) (rt_Matchers r)
      then or_self (own_receiver parent r) (children_match (route_match l (own_receiver parent r)) (rt_Routes r))
      else [] }.

(** The receivers an alert reaches in a configuration. *)
Definition deliver `{Alertmanager} {AP : AlertParsers} (l : gmap string string) (c : Config) : list string :=
  match cf_Route c with Some r => route_match l "" r | None => [] end.

(** durationpb: a duration of seconds and nanoseconds that fits is that many nanoseconds,
    and nil is zero. *)
Class DurationLaws {DL : DurationLib} : Prop := {
  AsDuration_nil : AsDuration None = 0%Z;
  AsDuration_some s n : in_int64 (s * second + n) -> AsDuration (Some (mkDuration s n)) = (s * second + n)%Z }.

(** ** Loops over maps *)

Section Maps.
Context {A : Type}.

Lemma keys_elem (m : gmap string A) k : k ∈ (map_to_list m).*1 <-> k ∈ dom m.
Proof.
  rewrite elem_of_dom, list_elem_of_fmap. split.
  - intros ([k' v] & -> & H%elem_of_map_to_list). by exists v.
  - intros [v H]. exists (k, v). by rewrite elem_of_map_to_list.
Qed.

Lemma sorted_keys_elem (m : gmap string A) k : k ∈ sorted_keys m <-> k ∈ dom m.
Proof. unfold sorted_keys. by rewrite merge_sort_Permutation, keys_elem. Qed.

Lemma sorted_keys_NoDup (m : gmap string A) : NoDup (sorted_keys m).
Proof. unfold sorted_keys. rewrite merge_sort_Permutation. apply NoDup_fst_map_to_list. Qed.

Lemma map_mapM_lookup (f : A -> outcome A) m m' k v' :
  map_mapM f m = Ok m' -> m' !! k = Some v' <-> exists v, m !! k = Some v /\ f v = Ok v'.
Proof.
  unfold map_mapM. rewrite obind_Ok. intros (l & Hl & [= <-]). apply omapM_Ok in Hl.
  assert (l.*1 = (map_to_list m).*1) as Hk.
  { clear k v'. induction Hl as [|[k v] [k' v'] ? ? Hx _ IH]; cbn; [done|].
    apply obind_Ok in Hx as (? & _ & [= -> ->]). by rewrite IH. }
  rewrite <- elem_of_list_to_map by (rewrite Hk; apply NoDup_fst_map_to_list).
  split.
  - intros (i & Hi)%list_elem_of_lookup.
    destruct (Forall2_lookup_r _ _ _ _ _ Hl Hi) as ([k0 v0] & H0 & Hx).
    apply obind_Ok in Hx as (w & Hw & [= -> ->]). exists v0. split; [|done].
    apply elem_of_map_to_list. by eapply list_elem_of_lookup_2.
  - intros (v & Hv & Hf). apply elem_of_map_to_list, list_elem_of_lookup in Hv as (i & Hi).
    destruct (Forall2_lookup_l _ _ _ _ _ Hl Hi) as ([k0 v0] & H0 & Hx).
    rewrite Hf in Hx. injection Hx as <- <-. by eapply list_elem_of_lookup_2.
Qed.

Lemma map_mapM_total (f : A -> outcome A) m :
  (forall k v, m !! k = Some v -> is_Ok (f v) = true) -> exists m', map_mapM f m = Ok m'.
Proof.
  intros H. assert (exists l, omapM (fun '(k, v) => let? v' := f v in Ok (k, v')) (map_to_list m) = Ok l) as (l & Hl).
  { assert (forall p : string * A, p ∈ map_to_list m -> is_Ok (f p.2) = true) as Hp
      by (intros [k v] Hkv%elem_of_map_to_list; by eapply H).
    induction (map_to_list m) as [|[k v] l IH]; [by exists []|].
    cbn. specialize (Hp (k, v) ltac:(left)) as Hv. cbn in Hv. destruct (f v) as [v'| |]; [|done..].
    destruct IH as (l' & ->). { intros p Hl. apply Hp. by right. }
    by eexists. }
  unfold map_mapM. rewrite Hl. by eexists.
Qed.

End Maps.

(** ** The invariant of a router *)

Section Invariant.
Context {DL : DurationLib} {AP : AlertParsers}.

(** The receivers that BuildReceiver knows. *)
Definition buildable (r : OpniReceiver) : bool :=
  match r with RecvEmail _ | RecvSlack _ | RecvPagerduty _ | RecvWebhook _ => true | _ => false end.
Definition all_buildable (m : gmap string OpniReceiver) : Prop := forall k r, m !! k = Some r -> buildable r = true.

Record router_ok (o : OpniRouterV1) : Prop := {
  ok_namespace ns : ns ∈ dom (ro_NamespacedSpecs o) -> ns <> "" /\ ns <> DefaultSubTreeLabel;
  ok_specs ns r : all_buildable (inner (inner (ro_NamespacedSpecs o) ns) r);
  ok_defaults v m : ro_DefaultNamespaceConfigs o !! v = Some m -> m <> ∅ /\ all_buildable m;
  ok_limits_ns : dom (ro_NamespacedRateLimiting o) = dom (ro_NamespacedSpecs o);
  ok_limits ns : dom (inner (ro_NamespacedRateLimiting o) ns) = dom (inner (ro_NamespacedSpecs o) ns) }.

Lemma inner_insert {A} (m : gmap string (gmap string A)) k v k' :
  inner (<[k := v]> m) k' = if decide (k = k') then v else inner m k'.
Proof. unfold inner. case_decide; subst; [by rewrite lookup_insert_eq | by rewrite lookup_insert_ne]. Qed.

Lemma inner_empty {A} k : inner (∅ : gmap string (gmap string A)) k = ∅.
Proof. unfold inner. by rewrite lookup_empty. Qed.

Lemma all_buildable_empty : all_buildable ∅.
Proof. intros k r. by rewrite lookup_empty. Qed.

Lemma all_buildable_insert k r m : buildable r = true -> all_buildable m -> all_buildable (<[k := r]> m).
Proof. intros Hr Hm k' r' [[_ <-] | [_ H]]%lookup_insert_Some; [done | by eapply Hm]. Qed.

Lemma newReceiver_buildable e d r : newReceiverImplementationFromEndpoint e d = Ok r -> buildable r = true.
Proof.
  unfold newReceiverImplementationFromEndpoint. intros H.
  destruct (e ≫= ep_Endpoint) as [[]|]; [..|done];
    apply obind_Ok in H as (f & Hf & H); destruct d; try done; injection H as <-;
    repeat (apply obind_Ok in Hf as (? & _ & Hf)); by injection Hf as <-.
Qed.

(** Endpoints that pass validation give a receiver, if the URLs of Slack endpoints parse;
    a webhook's URL is parsed by its validation. *)
Definition slack_url_ok (e : AlertEndpoint) : Prop :=
  forall s, ep_Endpoint e = Some (AlertEndpoint_Slack s) -> url_Parse (sl_WebhookUrl s) <> None.

Lemma newReceiver_total e d :
  AlertEndpoint_Validate e = Ok tt -> slack_url_ok e ->
  exists r, newReceiverImplementationFromEndpoint (Some e) (Some d) = Ok r.
Proof.
  unfold AlertEndpoint_Validate, newReceiverImplementationFromEndpoint, slack_url_ok. intros H Hs.
  open_ok H Hn. cbn. destruct (ep_Endpoint e) as [[s|m|p|w]|]; [..|done].
  - specialize (Hs s eq_refl). unfold SlackConfig_Configure.
    destruct (url_Parse (sl_WebhookUrl s)); [|done]. cbn. by eexists.
  - unfold EmailEndpoint_Validate in H. open_ok H H1. open_ok H H2. open_ok H H3.
    unfold EmailConfig_Configure. destruct (em_SmtpSmartHost m) as [h|]; [|cbn; by eexists].
    apply fail_if_Ok, negb_false_iff, bool_decide_eq_true_1 in H.
    destruct (Split ":"%char h) as [|a [|b l]]; try done. cbn. by eexists.
  - cbn. by eexists.
  - unfold WebhookEndpoint_Validate in H. open_ok H H1. apply fail_if_Ok, bool_decide_eq_false_1 in H.
    unfold WebhookConfig_Configure. destruct (url_Parse (we_Url w)); [|done]. cbn. by eexists.
Qed.

Lemma build_endpoints_buildable {B} (id : B -> string) build l acc m :
  (forall x r, build x = Ok r -> buildable r = true) ->
  build_endpoints id build l acc = Ok m -> all_buildable acc -> all_buildable m.
Proof.
  intros Hb. revert acc. induction l as [|x l IH]; intros acc; cbn; [by intros [= <-]|].
  rewrite obind_Ok. intros (r & Hr & H) Hacc. eapply IH; [exact H|].
  apply all_buildable_insert; [by eapply Hb | done].
Qed.

(** The ids of the result are those of the items and of the accumulator. *)
Lemma build_endpoints_dom {B} (id : B -> string) build l acc m :
  build_endpoints id build l acc = Ok m -> dom m = dom acc ∪ list_to_set (id <$> l).
Proof.
  revert acc. induction l as [|x l IH]; intros acc; cbn; [intros [= <-]; set_solver|].
  rewrite obind_Ok. intros (r & _ & H). apply IH in H as ->. rewrite dom_insert_L. set_solver.
Qed.

Lemma build_endpoints_total {B} (id : B -> string) build l acc :
  (forall x, x ∈ l -> exists r, build x = Ok r) -> exists m, build_endpoints id build l acc = Ok m.
Proof.
  revert acc. induction l as [|x l IH]; intros acc H; cbn; [by eexists|].
  destruct (H x ltac:(left)) as (r & ->). cbn. apply IH. intros y Hy. apply H. by right.
Qed.

Lemma NewOpniRouterV1_ok h : router_ok (NewOpniRouterV1 h).
Proof.
  constructor; cbn; intros *; rewrite ?inner_empty, ?lookup_empty; done.
Qed.

Lemma SyncExternalConfig_ok y o : router_ok o -> router_ok (SyncExternalConfig y o).1.
Proof. intros []. unfold SyncExternalConfig. destruct y; by constructor. Qed.

Lemma set_default_loop_ok endps vals o : router_ok o -> router_ok (set_default_loop endps vals o).1.
Proof.
  revert o. induction vals as [|v vals IH]; intros o Ho; [done|]. cbn [set_default_loop].
  case_bool_decide.
  - destruct Ho. constructor; cbn; try done. intros v0 m [_ Hv]%lookup_delete_Some. by eapply ok_defaults0.
  - destruct (foreach _ _); [|done..]. destruct (build_endpoints _ _ _ _) as [m| |] eqn:Hm; [|done..].
    apply IH. destruct Ho. constructor; cbn; try done.
    intros v0 m0 [[<- <-] | [_ Hv]]%lookup_insert_Some; [|by eapply ok_defaults0]. split.
    + apply build_endpoints_dom in Hm. intros ->. destruct endps; [done|]. cbn in Hm. set_solver.
    + eapply build_endpoints_buildable; [|exact Hm | apply all_buildable_empty].
      intros x r. apply newReceiver_buildable.
Qed.

Lemma SetNamespaceSpec_ok ns r specs o : router_ok o -> router_ok (SetNamespaceSpec ns r specs o).1.
Proof.
  intros Ho. unfold SetNamespaceSpec. destruct (is_empty ns) eqn:Hne; [done|].
  case_bool_decide as Hns; [done|]. destruct (foreach _ _); [|done..].
  destruct (build_endpoints _ _ _ _) as [m| |] eqn:Hm; [|done..]. destruct Ho. constructor; cbn.
  - intros n. rewrite dom_insert_L. intros [->%elem_of_singleton | Hn]%elem_of_union; [|by apply ok_namespace0].
    split; [|done]. by apply bool_decide_eq_false_1 in Hne.
  - intros n rt. rewrite inner_insert. case_decide; [|apply ok_specs0]. rewrite inner_insert.
    case_decide; [|apply ok_specs0].
    eapply build_endpoints_buildable; [|exact Hm | apply all_buildable_empty]. intros x y. apply newReceiver_buildable.
  - done.
  - by rewrite !dom_insert_L, ok_limits_ns0.
  - intros n. rewrite !inner_insert. case_decide; [|done]. by rewrite !dom_insert_L, ok_limits0.
Qed.

Lemma update_in_buildable id spec m m' : update_in id spec m = Ok m' -> all_buildable m -> all_buildable m'.
Proof.
  unfold update_in. destruct (m !! id); [|by intros [= <-]]. rewrite obind_Ok. intros (r & Hr & [= <-]).
  apply all_buildable_insert. by eapply newReceiver_buildable.
Qed.

Lemma update_in_dom id spec m m' : update_in id spec m = Ok m' -> dom m' = dom m.
Proof.
  unfold update_in. destruct (m !! id) eqn:E; [|by intros [= <-]]. rewrite obind_Ok. intros (r & Hr & [= <-]).
  apply elem_of_dom_2 in E. rewrite dom_insert_L. set_solver.
Qed.

Lemma map_mapM_dom {A} (f : A -> outcome A) m m' : map_mapM f m = Ok m' -> dom m' = dom m.
Proof.
  intros H. apply set_eq. intros k. rewrite !elem_of_dom. split; intros [v Hv].
  - apply (map_mapM_lookup _ _ _ _ _ H) in Hv as (v0 & ? & _). by eexists.
  - assert (is_Ok (f v) = true) as Hf.
    { destruct (f v) eqn:E; [done|..]; exfalso;
        unfold map_mapM in H; apply obind_Ok in H as (l & Hl & _); apply omapM_Ok in Hl;
        apply elem_of_map_to_list, list_elem_of_lookup in Hv as (i & Hi);
        destruct (Forall2_lookup_l _ _ _ _ _ Hl Hi) as (? & _ & Hx); by rewrite E in Hx. }
    destruct (f v) as [v'| |] eqn:E; [|done..]. exists v'. rewrite (map_mapM_lookup _ _ _ _ _ H). by exists v.
Qed.

(** The inner maps of an updated nested map. *)
Lemma map_mapM_inner {A} (f : gmap string A -> outcome (gmap string A)) m m' k :
  f ∅ = Ok ∅ -> map_mapM f m = Ok m' -> f (inner m k) = Ok (inner m' k).
Proof.
  intros H0 H. unfold inner. destruct (m' !! k) as [v'|] eqn:E.
  - apply (map_mapM_lookup _ _ _ _ _ H) in E as (v & -> & Hf). done.
  - assert (m !! k = None) as ->; [|done].
    apply not_elem_of_dom. rewrite <- (map_mapM_dom _ _ _ H). by apply not_elem_of_dom.
Qed.

Lemma update_in_empty id spec : update_in id spec ∅ = Ok ∅.
Proof. unfold update_in. by rewrite lookup_empty. Qed.

Lemma map_mapM_empty {A} (f : A -> outcome A) : map_mapM f ∅ = Ok ∅.
Proof. unfold map_mapM. by rewrite map_to_list_empty. Qed.

Lemma UpdateEndpoint_ok id spec o : router_ok o -> router_ok (UpdateEndpoint id spec o).1.
Proof.
  intros Ho. unfold UpdateEndpoint. destruct (AlertEndpoint_Validate spec); [|done..].
  destruct (map_mapM (map_mapM _) _) as [m| |] eqn:Hm; [|done..].
  destruct (map_mapM _ (ro_DefaultNamespaceConfigs o)) as [d| |] eqn:Hd; [|done..].
  destruct Ho. constructor; cbn.
  - intros n. rewrite (map_mapM_dom _ _ _ Hm). apply ok_namespace0.
  - intros n r. eapply update_in_buildable; [|apply (ok_specs0 n r)].
    apply map_mapM_inner; [apply update_in_empty|]. by apply (map_mapM_inner (map_mapM _)); [apply map_mapM_empty|].
  - intros v m0 Hv. apply (map_mapM_lookup _ _ _ _ _ Hd) in Hv as (m1 & H1 & Hu).
    destruct (ok_defaults0 _ _ H1) as [Hne Hb]. split; [|by eapply update_in_buildable].
    intros ->. apply update_in_dom in Hu. rewrite dom_empty_L in Hu. symmetry in Hu. by apply dom_empty_inv_L in Hu.
  - by rewrite (map_mapM_dom _ _ _ Hm).
  - intros n. rewrite ok_limits0. symmetry. eapply map_mapM_dom.
    apply (map_mapM_inner (map_mapM _)); [apply map_mapM_empty | exact Hm].
Qed.

Lemma drop_endpoint_buildable id m : all_buildable m -> all_buildable (drop_endpoint id m).
Proof. unfold drop_endpoint. intros H k r [_ Hk]%lookup_delete_Some. by eapply H. Qed.

Lemma inner_fmap {A} (f : gmap string A -> gmap string A) m k : f ∅ = ∅ -> inner (f <$> m) k = f (inner m k).
Proof. unfold inner. rewrite lookup_fmap. intros H. by destruct (m !! k). Qed.

Lemma drop_endpoint_empty id : drop_endpoint id ∅ = ∅.
Proof. unfold drop_endpoint. by rewrite delete_empty. Qed.

Lemma DeleteEndpoint_inner id o n r :
  inner (inner (ro_NamespacedSpecs (DeleteEndpoint id o)) n) r
  = drop_endpoint id (inner (inner (ro_NamespacedSpecs o) n) r).
Proof.
  cbn. rewrite inner_fmap by apply fmap_empty. by rewrite inner_fmap by apply drop_endpoint_empty.
Qed.

Lemma DeleteEndpoint_ok id o : router_ok o -> router_ok (DeleteEndpoint id o).
Proof.
  intros []. constructor.
  - intros n. cbn. rewrite dom_fmap_L. apply ok_namespace0.
  - intros n r. rewrite DeleteEndpoint_inner. apply drop_endpoint_buildable, ok_specs0.
  - cbn. intros v m (Hv & Hne & _)%map_lookup_filter_Some. split; [done|]. rewrite lookup_fmap in Hv.
    destruct (ro_DefaultNamespaceConfigs o !! v) eqn:E; [|done]. injection Hv as <-.
    apply drop_endpoint_buildable. by eapply ok_defaults0.
  - cbn. by rewrite dom_fmap_L.
  - intros n. cbn. rewrite inner_fmap by apply fmap_empty. by rewrite dom_fmap_L.
Qed.
End Invariant.
