(* ===== verification/AlertBuild.v ===== *)
(** The configuration that BuildConfig returns, written without its loops: BuildConfig
    does not panic on a router that satisfies the invariant, and, when no route id is
    used by two namespaces, the result does not depend on the order of the maps. *)

From Stdlib Require Import Ascii.
From stdpp Require Import sorting.
From S2P Require Import Prelude GoStd Util Validation CoreV1 Management AlertingV1 AmConfig AlertRouting AlertRouter AlertRouterProps.

Local Open Scope string_scope.

Section Build.
Context {DL : DurationLib} {AP : AlertParsers}.

(** ** Receivers *)

Definition email_of (r : OpniReceiver) := match r with RecvEmail c => Some c | _ => None end.
Definition slack_of (r : OpniReceiver) := match r with RecvSlack c => Some c | _ => None end.
Definition pagerduty_of (r : OpniReceiver) := match r with RecvPagerduty c => Some c | _ => None end.
Definition webhook_of (r : OpniReceiver) := match r with RecvWebhook c => Some c | _ => None end.

(** The receiver with the configurations of a list of endpoints. *)
Definition receiver_of (name : string) (l : list OpniReceiver) : Receiver :=
  mkReceiver name [] (omap email_of l) (omap pagerduty_of l) (omap slack_of l) (omap webhook_of l) [] [] [] [] [] [] [].

Lemma add_configs_eq r l :
  Forall (fun x => buildable x = true) l ->
  add_configs r l = Ok (mkReceiver (rv_Name r) (rv_DiscordConfigs r) (rv_EmailConfigs r ++ omap email_of l)
    (rv_PagerdutyConfigs r ++ omap pagerduty_of l) (rv_SlackConfigs r ++ omap slack_of l)
    (rv_WebhookConfigs r ++ omap webhook_of l) (rv_OpsGenieConfigs r)
    (rv_WechatConfigs r) (rv_PushoverConfigs r) (rv_VictorOpsConfigs r) (rv_SNSConfigs r) (rv_TelegramConfigs r)
    (rv_WebexConfigs r))%list.
Proof.
  intros Hl. revert r. induction Hl as [|x l Hx _ IH]; intros r.
  - cbn. rewrite !app_nil_r. by destruct r.
  - destruct x; try done; cbn; rewrite IH; cbn; by rewrite ?app_nil_r, <- ?app_assoc.
Qed.

Lemma BuildReceiver_eq name l :
  l <> [] -> Forall (fun x => buildable x = true) l -> BuildReceiver name l = Ok (receiver_of name l).
Proof.
  intros Hne Hl. unfold BuildReceiver. rewrite bool_decide_eq_false_2 by (by destruct l). cbn [errorf fail_if obind].
  rewrite add_configs_eq by done. cbn. rewrite bool_decide_eq_false_2; [done|].
  destruct Hl as [|x l Hx _]; [done|]. destruct x; try done; cbn; lia.
Qed.

Lemma endpoint_list_elem m x : x ∈ endpoint_list m <-> exists k, m !! k = Some x.
Proof.
  unfold endpoint_list. rewrite list_elem_of_omap. split.
  - intros (k & _ & H). by exists k.
  - intros (k & H). exists k. rewrite sorted_keys_elem. split; [by eapply elem_of_dom_2 | done].
Qed.

Lemma endpoint_list_ne m : m <> ∅ -> endpoint_list m <> [].
Proof.
  intros (k & x & H)%map_choose He.
  assert (x ∈ endpoint_list m) as Hx by (rewrite endpoint_list_elem; eauto). rewrite He in Hx.
  by apply not_elem_of_nil in Hx.
Qed.

Lemma endpoint_list_buildable m : all_buildable m -> Forall (fun x => buildable x = true) (endpoint_list m).
Proof. intros H. rewrite list.Forall_forall. intros x (k & Hk)%endpoint_list_elem. by eapply H. Qed.

Lemma BuildReceiver_endpoints name m :
  m <> ∅ -> all_buildable m -> BuildReceiver name (endpoint_list m) = Ok (receiver_of name (endpoint_list m)).
Proof. intros. apply BuildReceiver_eq; [by apply endpoint_list_ne | by apply endpoint_list_buildable]. Qed.

(** ** Namespaces *)

Definition value_name (ns routeId : string) : string := NewOpniReceiverName (mkOpniReceiverId ns routeId).
Definition endpoints_of (o : OpniRouterV1) (ns routeId : string) : gmap string OpniReceiver :=
  inner (inner (ro_NamespacedSpecs o) ns) routeId.
Definition limit_of (o : OpniRouterV1) (ns routeId : string) : rateLimitingConfig :=
  default (mkRateLimiting 0 0 0) (inner (ro_NamespacedRateLimiting o) ns !! routeId).

Definition value_route (o : OpniRouterV1) (ns routeId : string) : Route :=
  set_Receiver (value_name ns routeId)
    (setRateLimiting (limit_of o ns routeId)
       (setDefaultRateLimitingFromProto (set_Continue true (set_Matchers [newNamespaceMatcher ns routeId] zero_Route)))).
Definition value_receiver (o : OpniRouterV1) (ns routeId : string) : Receiver :=
  receiver_of (value_name ns routeId) (endpoint_list (endpoints_of o ns routeId)).

(** The routes of a namespace that have endpoints. *)
Definition live (o : OpniRouterV1) (ns routeId : string) : Prop := endpoints_of o ns routeId <> ∅.
#[global] Instance live_dec o ns routeId : Decision (live o ns routeId).
Proof using. unfold live. refine (if decide (size (endpoints_of o ns routeId) = 0) then right _ else left _);
  rewrite <- map_size_empty_iff; tauto. Defined.
Definition live_routes (o : OpniRouterV1) (ns : string) : list string :=
  filter (live o ns) (sorted_keys (inner (ro_NamespacedSpecs o) ns)).

Definition ns_tree (o : OpniRouterV1) (ns : string) : Route :=
  let base := (NewOpniNamespacedSubTree ns []).1 in
  set_Routes (rev (value_route o ns <$> live_routes o ns) ++ rt_Routes base)%list base.
Definition ns_receivers (o : OpniRouterV1) (ns : string) : list Receiver := value_receiver o ns <$> live_routes o ns.

(** No two namespaces have the same route id, and the calls of a build range over all
    the namespaces. *)
Definition routes_unique (o : OpniRouterV1) : Prop := forall ns1 ns2 r,
  r ∈ dom (inner (ro_NamespacedSpecs o) ns1) -> r ∈ dom (inner (ro_NamespacedSpecs o) ns2) -> ns1 = ns2.
Definition ranges_ok (range : ranges) (o : OpniRouterV1) : Prop :=
  forall b ns r, range b ns r ≡ₚ (map_to_list (ro_NamespacedSpecs o)).*1.

Lemma inner_dom_ns {A} (m : gmap string (gmap string A)) ns r : r ∈ dom (inner m ns) -> ns ∈ dom m.
Proof. unfold inner. rewrite (elem_of_dom m). destruct (m !! ns); cbn; [done|]. rewrite dom_empty. set_solver. Qed.

Lemma find_namespace_eq o range ns r :
  routes_unique o -> range ≡ₚ (map_to_list (ro_NamespacedSpecs o)).*1 ->
  r ∈ dom (inner (ro_NamespacedSpecs o) ns) -> find_namespace range o r = Some ns.
Proof.
  intros Hu Hr Hd. unfold find_namespace. destruct (find _ range) as [ns'|] eqn:E.
  - apply find_some in E as [_ E]. apply bool_decide_eq_true_1 in E. f_equal. by eapply Hu.
  - exfalso. assert (In ns range) as Hin.
    { apply list_elem_of_In. rewrite Hr, keys_elem. by eapply inner_dom_ns. }
    pose proof (find_none _ _ E _ Hin) as Hf. cbn in Hf. by apply bool_decide_eq_false_1 in Hf.
Qed.

Lemma set_Routes_twice a b r : set_Routes a (set_Routes b r) = set_Routes a r.
Proof. done. Qed.

Lemma live_size o ns r : live o ns r <-> size (endpoints_of o ns r) <> 0.
Proof. unfold live. by rewrite map_size_empty_iff. Qed.

Lemma namespace_loop_eq range o ns ids tree recvs :
  router_ok o -> routes_unique o -> ranges_ok range o ->
  (forall r, r ∈ ids -> r ∈ dom (inner (ro_NamespacedSpecs o) ns)) ->
  namespace_loop range o ns ids tree recvs =
    Ok (set_Routes (rev (value_route o ns <$> filter (live o ns) ids) ++ rt_Routes tree) tree,
        recvs ++ (value_receiver o ns <$> filter (live o ns) ids))%list.
Proof.
  intros Ho Hu Hr. revert tree recvs. induction ids as [|r ids IH]; intros tree recvs Hids.
  - cbn. rewrite app_nil_r. by destruct tree.
  - cbn [namespace_loop]. rewrite filter_cons. fold (endpoints_of o ns r).
    assert (forall r', r' ∈ ids -> r' ∈ dom (inner (ro_NamespacedSpecs o) ns)) as Hids' by (intros; apply Hids; by right).
    case_bool_decide as Hs.
    + rewrite decide_False by (rewrite live_size; tauto). by apply IH.
    + assert (live o ns r) as Hl by (by rewrite live_size). rewrite decide_True by done.
      pose proof (Hids r ltac:(left)) as Hd.
      unfold HasReceivers, HasLabels. rewrite !(find_namespace_eq o _ ns r) by (done || apply Hr).
      unfold NewOpniSubRoutingTreeWithValue. rewrite BuildReceiver_endpoints by (exact Hl || apply (ok_specs _ Ho)).
      cbn [obind fst snd]. rewrite IH by done. rewrite !fmap_cons. cbn [rev]. rewrite <- !app_assoc. done.
Qed.

Lemma namespaces_loop_eq range o nss routes recvs :
  router_ok o -> routes_unique o -> ranges_ok range o ->
  namespaces_loop range o nss routes recvs =
    Ok (routes ++ (ns_tree o <$> nss), recvs ++ concat (ns_receivers o <$> nss))%list.
Proof.
  intros Ho Hu Hr. revert routes recvs. induction nss as [|ns nss IH]; intros routes recvs.
  - cbn. by rewrite !app_nil_r.
  - cbn [namespaces_loop].
    rewrite namespace_loop_eq; [|done..|intros r; by rewrite sorted_keys_elem]. cbn [obind fst snd].
    rewrite IH. rewrite !fmap_cons. cbn [concat]. by rewrite <- !app_assoc.
Qed.

(** ** The default namespace *)

(** The severities in the order of the names of their receivers. *)
Definition sorted_severities : list string := ["Critical"; "Error"; "Info"; "Warning"].
Definition default_recv (o : OpniRouterV1) (sev : string) : Receiver :=
  let name := value_name DefaultSubTreeLabel sev in
  match ro_DefaultNamespaceConfigs o !! sev with
  | Some m => receiver_of name (endpoint_list m)
  | None => named_Receiver name
  end.

Lemma default_receivers_sorted :
  merge_sort receiver_le NewOpniSubRoutingTree.2
  = (fun sev => named_Receiver (value_name DefaultSubTreeLabel sev)) <$> sorted_severities.
Proof using. vm_compute. reflexivity. Qed.

Lemma default_receiver_eq o sev :
  router_ok o -> sev ∈ sorted_severities ->
  default_receiver o (named_Receiver (value_name DefaultSubTreeLabel sev)) = Ok (default_recv o sev).
Proof.
  intros Ho Hs. unfold default_receiver. change (rv_Name (named_Receiver ?n)) with n.
  assert (value_name DefaultSubTreeLabel sev <> AlertingHookReceiverName /\
          ExtractReceiverId (value_name DefaultSubTreeLabel sev) = Ok (mkOpniReceiverId DefaultSubTreeLabel sev))
    as [Hh He].
  { unfold sorted_severities in Hs. rewrite !elem_of_cons, elem_of_nil in Hs.
    destruct Hs as [-> | [-> | [-> | [-> | []]]]]; by vm_compute. }
  rewrite bool_decide_eq_false_2 by done. rewrite He. cbn [or_ReceiverId or_Namespace]. unfold default_recv.
  destruct (ro_DefaultNamespaceConfigs o !! sev) as [m|] eqn:E; [|done].
  destruct (ok_defaults _ Ho _ _ E) as [Hne Hb]. by rewrite BuildReceiver_endpoints.
Qed.

Definition hook_receiver (u : URL) : Receiver :=
  mkReceiver AlertingHookReceiverName [] [] [] [] [mkWebhookConfig false None (Some u) 0] [] [] [] [] [] [] [].

Lemma default_receivers_eq o u :
  router_ok o ->
  omapM (default_receiver o)
    (((fun sev => named_Receiver (value_name DefaultSubTreeLabel sev)) <$> sorted_severities) ++ [hook_receiver u])%list
  = Ok ((default_recv o <$> sorted_severities) ++ [hook_receiver u])%list.
Proof.
  intros Ho. apply omapM_Ok, Forall2_app; [|by repeat constructor].
  apply Forall2_fmap, Forall_Forall2_diag, list.Forall_forall. intros sev Hs. by apply default_receiver_eq.
Qed.

(** ** The whole configuration *)

Definition opni_tree (o : OpniRouterV1) : Route :=
  set_Routes ((ns_tree o <$> sorted_keys (ro_NamespacedSpecs o)) ++ rt_Routes NewOpniSubRoutingTree.1)%list
    NewOpniSubRoutingTree.1.
Definition metrics_tree (o : OpniRouterV1) : Route :=
  match ro_SyncedConfig o with
  | Some sc => set_Routes (option_list (cf_Route sc)) NewOpniMetricsSubtree
  | None => NewOpniMetricsSubtree
  end.
Definition root_route (o : OpniRouterV1) : Route :=
  set_Routes [opni_tree o; metrics_tree o]
    (set_timing (Some (60 * second)%Z) None (Some (5 * hour)%Z)
       (set_Receiver AlertingHookReceiverName (set_GroupBy ["..."] false zero_Route))).

Definition built_receivers (o : OpniRouterV1) (u : URL) : list Receiver :=
  (merge_sort receiver_le (concat (ns_receivers o <$> sorted_keys (ro_NamespacedSpecs o))) ++
   default [] (cf_Receivers <$> ro_SyncedConfig o) ++
   (default_recv o <$> sorted_severities) ++ [hook_receiver u])%list.

Definition built_config (g : GlobalConfig) (o : OpniRouterV1) (u : URL) : Config :=
  match ro_SyncedConfig o with
  | Some sc => mkConfig (cf_Global sc) (Some (root_route o)) (cf_InhibitRules sc) (built_receivers o u)
                 (cf_Templates sc) (cf_MuteTimeIntervals sc) (cf_TimeIntervals sc)
  | None => mkConfig (Some g) (Some (root_route o)) [] (built_receivers o u) [] [] []
  end.

Lemma attach_all_eq o routes root :
  attach_all o routes root [NewOpniSubRoutingTree.1; NewOpniMetricsSubtree] =
    (match ro_SyncedConfig o with
     | Some sc => mkConfig (cf_Global sc) (cf_Route root) (cf_InhibitRules sc) (cf_Receivers sc ++ cf_Receivers root)%list
                    (cf_Templates sc) (cf_MuteTimeIntervals root ++ cf_MuteTimeIntervals sc)%list (cf_TimeIntervals sc)
     | None => root
     end,
     [set_Routes (routes ++ rt_Routes NewOpniSubRoutingTree.1)%list NewOpniSubRoutingTree.1; metrics_tree o]).
Proof.
  unfold metrics_tree. cbn [attach_all].
  change (rt_Matchers NewOpniSubRoutingTree.1) with [OpniSubRoutingTreeMatcher].
  change (rt_Matchers NewOpniMetricsSubtree) with [OpniMetricsSubRoutingTreeMatcher].
  cbn [fold_left]. unfold attach.
  rewrite (bool_decide_eq_true_2 (OpniSubRoutingTreeMatcher = mkMatcher _ _ "")) by done.
  rewrite (bool_decide_eq_false_2 (OpniSubRoutingTreeMatcher = mkMatcher _ _ OpniDatasourceMetrics)) by done.
  rewrite (bool_decide_eq_false_2 (OpniMetricsSubRoutingTreeMatcher = mkMatcher _ _ "")) by done.
  rewrite (bool_decide_eq_true_2 (OpniMetricsSubRoutingTreeMatcher = mkMatcher _ _ OpniDatasourceMetrics)) by done.
  by destruct (ro_SyncedConfig o).
Qed.

Local Opaque NewOpniSubRoutingTree NewOpniMetricsSubtree sorted_severities default_recv named_Receiver value_name.

Lemma check_last_Ok (c : Config) c' pre u :
  cf_Receivers c = (pre ++ [hook_receiver u])%list -> c = c' -> check_last c = Ok c'.
Proof. intros H <-. unfold check_last. rewrite H, last_snoc. by rewrite bool_decide_eq_true_2. Qed.

Lemma BuildConfig_eq http range o g u :
  router_ok o -> routes_unique o -> ranges_ok range o ->
  DefaultGlobalConfig http = Ok g -> url_Parse (ro_HookEndpoint o) = Some u ->
  BuildConfig http range o = Ok (built_config g o u).
Proof.
  intros Ho Hu Hr Hg Hh. unfold BuildConfig, NewDefaultRoutingTree, NewDefaultRoutingTreeRoot, DefaultOpniReceiver.
  rewrite Hg, Hh. cbn [obind]. rewrite (surjective_pairing NewOpniSubRoutingTree), default_receivers_sorted.
  cbn [cf_Receivers set_Receivers set_root_routes cf_Route fmap option_fmap option_map obind].
  fold (hook_receiver u). rewrite default_receivers_eq by done. cbn [obind].
  rewrite namespaces_loop_eq by done. cbn [obind app default from_option].
  unfold set_Receivers at 1. cbn [rt_Routes set_Routes]. rewrite attach_all_eq.
  unfold built_config, built_receivers.
  set (A := merge_sort receiver_le _). destruct (ro_SyncedConfig o) as [sc|].
  - apply (check_last_Ok _ _ (A ++ cf_Receivers sc ++ (default_recv o <$> sorted_severities))%list u);
      [by rewrite <- !app_assoc | reflexivity].
  - apply (check_last_Ok _ _ (A ++ (default_recv o <$> sorted_severities))%list u);
      [by rewrite <- !app_assoc | reflexivity].
Qed.
End Build.
