(* ===== verification/AlertDelivery.v ===== *)
(** Where an alert goes: the routing tree that BuildConfig returns, run by Alertmanager,
    implements the table of the router. *)

From Stdlib Require Import Ascii.
From stdpp Require Import sorting.
From S2P Require Import Prelude GoStd Util Validation CoreV1 Management AlertingV1 AmConfig AlertRouting AlertRouter AlertRouterProps AlertBuild.

Local Open Scope string_scope.

(** ** Lemmas on children *)

Lemma children_match_continue f l1 l2 :
  Forall (fun r => rt_Continue r = true) l1 ->
  children_match f (l1 ++ l2)%list = (concat (f <$> l1) ++ children_match f l2)%list.
Proof.
  induction 1 as [|r l1 Hr _ IH]; [done|]. cbn. destruct (f r) as [|m ms]; [done|].
  rewrite Hr, IH. by rewrite app_assoc.
Qed.

Lemma children_match_skip f l1 l2 :
  Forall (fun r => f r = []) l1 -> children_match f (l1 ++ l2)%list = children_match f l2.
Proof. induction 1 as [|r l1 Hr _ IH]; [done|]. cbn. by rewrite Hr. Qed.

Lemma children_match_stop f r l2 :
  f r <> [] -> rt_Continue r = false -> children_match f (r :: l2) = f r.
Proof. intros Hf Hc. cbn. rewrite Hc. by destruct (f r). Qed.

(** At most one element of a list without duplicates is picked. *)
Lemma concat_pick {A} `{EqDecision A} (g : A -> string) (x : A) (l : list A) :
  NoDup l -> concat ((fun y => if decide (x = y) then [g y] else []) <$> l)
             = if decide (x ∈ l) then [g x] else [].
Proof.
  induction 1 as [|y l Hy _ IH]; cbn.
  - rewrite decide_False; [done | by apply not_elem_of_nil].
  - rewrite IH. clear IH. case_decide; subst.
    + rewrite (decide_False _ _ Hy), decide_True; [done | by left].
    + destruct (decide (x ∈ l)); [rewrite decide_True by (by right) | rewrite decide_False by (by rewrite elem_of_cons; intros [])]; done.
Qed.

Section Delivery.
Context {DL : DurationLib} {AP : AlertParsers} {AM : Alertmanager}.

(** ** The routes of the tree *)

Lemma own_receiver_name parent r name : rt_Receiver r = name -> name <> "" -> own_receiver parent r = name.
Proof. unfold own_receiver, or_empty, is_empty. intros -> H. by rewrite bool_decide_eq_false_2. Qed.

(** A route without children. *)
Lemma leaf_match l parent r :
  rt_Match r = ∅ -> rt_MatchRE r = ∅ -> rt_Routes r = [] -> rt_Receiver r <> "" ->
  route_match l parent r = if forallb (matcher_matches l) (rt_Matchers r) then [rt_Receiver r] else [].
Proof.
  intros H1 H2 H3 H4. rewrite route_match_spec by done. rewrite H3. cbn [children_match or_self].
  by rewrite (own_receiver_name _ _ _ eq_refl).
Qed.

Lemma value_name_ne ns r : value_name ns r <> "".
Proof. done. Qed.

Lemma value_route_match l parent o ns r :
  route_match l parent (value_route o ns r) = if decide (map_get l ns = r) then [value_name ns r] else [].
Proof.
  rewrite leaf_match by done. cbn [rt_Matchers value_route set_Receiver set_timing setRateLimiting
    setDefaultRateLimitingFromProto set_Continue set_Matchers forallb rt_Receiver].
  unfold newNamespaceMatcher. rewrite matches_equal, andb_true_r. by repeat case_decide; case_bool_decide.
Qed.

Lemma default_route_match l parent ns val :
  route_match l parent (NewOpniSubRoutingTreeWithDefaultValue ns val).1
  = if decide (map_get l ns = val.1) then [value_name ns val.1] else [].
Proof.
  rewrite leaf_match by done. cbn [rt_Matchers NewOpniSubRoutingTreeWithDefaultValue fst set_Receiver set_timing
    setRateLimiting set_Continue set_Matchers forallb rt_Receiver].
  unfold newNamespaceMatcher. rewrite matches_equal, andb_true_r. by repeat case_decide; case_bool_decide.
Qed.

Lemma finalizer_match l parent ns :
  route_match l parent (newFinalizer ns)
  = match ns with
    | Some ns => if decide (map_get l ns = "") then [] else [AlertingHookReceiverName]
    | None => [AlertingHookReceiverName]
    end.
Proof.
  rewrite leaf_match by (by destruct ns). destruct ns as [ns|]; [|done].
  cbn [newFinalizer rt_Matchers set_Continue set_Receiver set_Matchers forallb rt_Receiver].
  unfold newNamespaceParentMatcher. rewrite matches_not_equal, andb_true_r.
  by case_decide; case_bool_decide.
Qed.

(** The names of a namespace: the route the label names, if it is there, and the hook. *)
Definition pick (ns value : string) (values : list string) : list string :=
  (if decide (value ∈ values) then [value_name ns value] else []) ++ [AlertingHookReceiverName].

(** A namespace whose routes continue and which ends in its finalizer. *)
Lemma namespace_children l parent ns values routes :
  NoDup values -> map_get l ns <> "" ->
  Forall (fun r => rt_Continue r = true) routes ->
  (route_match l parent <$> routes)
    = (fun v => if decide (map_get l ns = v) then [value_name ns v] else []) <$> values ->
  children_match (route_match l parent) (routes ++ [newFinalizer (Some ns)])%list = pick ns (map_get l ns) values.
Proof.
  intros Hnd Hne Hc Hm. rewrite children_match_continue by done. rewrite Hm, concat_pick by done. unfold pick. f_equal.
  cbn [children_match]. rewrite finalizer_match, decide_False by done. by cbn.
Qed.

(** A subtree for a namespace, matched by every alert that has its label. *)
Lemma namespace_match l parent ns values r :
  rt_Match r = ∅ -> rt_MatchRE r = ∅ -> rt_Matchers r = [newNamespaceParentMatcher ns] ->
  (map_get l ns <> "" ->
   children_match (route_match l (own_receiver parent r)) (rt_Routes r) = pick ns (map_get l ns) values) ->
  route_match l parent r = if decide (map_get l ns = "") then [] else pick ns (map_get l ns) values.
Proof.
  intros H1 H2 H3 H4. rewrite route_match_spec by done. rewrite H3. cbn [forallb]. unfold newNamespaceParentMatcher.
  rewrite matches_not_equal, andb_true_r. case_decide as Hd.
  - by rewrite bool_decide_eq_true_2.
  - rewrite bool_decide_eq_false_2 by done. cbn [negb]. rewrite H4 by done. unfold pick. by case_decide.
Qed.

Lemma live_routes_NoDup o ns : NoDup (live_routes o ns).
Proof. apply list.NoDup_filter, sorted_keys_NoDup. Qed.

Lemma live_routes_elem o ns r : r ∈ live_routes o ns <-> live o ns r.
Proof.
  unfold live_routes. rewrite list_elem_of_filter, sorted_keys_elem. split; [tauto|]. intros H. split; [done|].
  unfold live, endpoints_of, inner at 1 in H. apply elem_of_dom. destruct (inner _ ns !! r); [by eexists | done].
Qed.

Lemma ns_tree_match l parent o ns :
  route_match l parent (ns_tree o ns)
  = if decide (map_get l ns = "") then [] else pick ns (map_get l ns) (live_routes o ns).
Proof.
  apply namespace_match; [done..|]. intros Hne.
  change (rt_Routes (ns_tree o ns))
    with (rev (value_route o ns <$> live_routes o ns) ++ [newFinalizer (Some ns)])%list.
  assert (forall v, pick ns v (live_routes o ns) = pick ns v (rev (live_routes o ns))) as E.
  { intros v. unfold pick. f_equal. apply decide_ext. by rewrite <- Permutation_rev. }
  rewrite E. apply namespace_children; [|done|..].
  - rewrite <- Permutation_rev. apply live_routes_NoDup.
  - rewrite list.Forall_forall. intros r. rewrite <- Permutation_rev.
    by intros (v & -> & _)%list_elem_of_fmap.
  - rewrite <- map_rev. rewrite <- list_fmap_compose. apply list_fmap_ext. intros _ v _. apply value_route_match.
Qed.

(** ** The whole tree *)

(** The namespace an alert belongs to: the first one, by name, whose label it has. *)
Definition namespace_of (o : OpniRouterV1) (l : gmap string string) : option string :=
  find (fun ns => negb (is_empty (map_get l ns))) (sorted_keys (ro_NamespacedSpecs o)).

(** What the router promises: an alert of a namespace goes to the receiver of the route
    its label names, if endpoints are attached to that route, and to the hook; an alert
    without a namespace goes to the receiver of its severity and to the hook; metrics go
    through the synced configuration; nothing else leaves the hook. *)
Definition routing_table (o : OpniRouterV1) (l : gmap string string) : list string :=
  if decide (map_get l OpniDatasourceLabel = "") then
    match namespace_of o l with
    | Some ns => pick ns (map_get l ns) (live_routes o ns)
    | None =>
        if decide (map_get l OpniSeverityLabel = "") then [AlertingHookReceiverName]
        else pick OpniSeverityLabel (map_get l OpniSeverityLabel) OpniSeverity_names
    end
  else if decide (map_get l OpniDatasourceLabel = OpniDatasourceMetrics) then
    match ro_SyncedConfig o ≫= cf_Route with
    | Some r => or_self AlertingHookReceiverName (route_match l AlertingHookReceiverName r)
    | None => [AlertingHookReceiverName]
    end
  else [AlertingHookReceiverName].

Definition default_tree : Route := default zero_Route (rt_Routes NewOpniSubRoutingTree.1 !! 0).

Lemma default_tree_match l parent :
  route_match l parent default_tree
  = if decide (map_get l OpniSeverityLabel = "") then []
    else pick OpniSeverityLabel (map_get l OpniSeverityLabel) OpniSeverity_names.
Proof.
  apply namespace_match; [reflexivity..|]. intros Hne.
  change (rt_Routes default_tree) with
    (((fun val => (NewOpniSubRoutingTreeWithDefaultValue OpniSeverityLabel val).1) <$> DefaultSubTreeValues)
       ++ [newFinalizer (Some OpniSeverityLabel)])%list.
  apply namespace_children; [|done|..].
  - apply (bool_decide_eq_true_1 _). vm_compute. reflexivity.
  - rewrite list.Forall_forall. by intros r (v & -> & _)%list_elem_of_fmap.
  - change OpniSeverity_names with (fst <$> DefaultSubTreeValues). rewrite <- !list_fmap_compose.
    apply list_fmap_ext. intros _ v _. apply default_route_match.
Qed.

Lemma pick_ne ns v vs : pick ns v vs <> [].
Proof. unfold pick. by case_decide. Qed.

Lemma opni_children l parent o :
  children_match (route_match l parent)
    ((ns_tree o <$> sorted_keys (ro_NamespacedSpecs o)) ++ [default_tree; newFinalizer None])%list
  = match namespace_of o l with
    | Some ns => pick ns (map_get l ns) (live_routes o ns)
    | None =>
        if decide (map_get l OpniSeverityLabel = "") then [AlertingHookReceiverName]
        else pick OpniSeverityLabel (map_get l OpniSeverityLabel) OpniSeverity_names
    end.
Proof.
  unfold namespace_of. induction (sorted_keys _) as [|ns nss IH].
  - cbn [fmap list_fmap app find]. destruct (decide (map_get l OpniSeverityLabel = "")) as [Hs|Hs].
    + change [default_tree; newFinalizer None] with ([default_tree] ++ [newFinalizer None])%list.
      rewrite children_match_skip.
      * cbn [children_match]. by rewrite finalizer_match.
      * constructor; [|constructor]. by rewrite default_tree_match, decide_True.
    + rewrite children_match_stop; rewrite ?default_tree_match, ?decide_False by done; [done | apply pick_ne | reflexivity].
  - cbn [find]. rewrite fmap_cons. destruct (decide (map_get l ns = "")) as [Hn|Hn].
    + replace (is_empty (map_get l ns)) with true by (by unfold is_empty; rewrite bool_decide_eq_true_2). cbn [negb]. rewrite <- IH.
      change (ns_tree o ns :: ?x) with ([ns_tree o ns] ++ x)%list. rewrite <- app_assoc.
      apply children_match_skip. constructor; [|constructor]. by rewrite ns_tree_match, decide_True.
    + replace (is_empty (map_get l ns)) with false by (by unfold is_empty; rewrite bool_decide_eq_false_2).
      cbn [negb app]. rewrite children_match_stop; rewrite ?ns_tree_match, ?decide_False by done; [done | apply pick_ne | reflexivity].
Qed.

Lemma opni_tree_match l o :
  route_match l AlertingHookReceiverName (opni_tree o)
  = if decide (map_get l OpniDatasourceLabel = "") then
      match namespace_of o l with
      | Some ns => pick ns (map_get l ns) (live_routes o ns)
      | None =>
          if decide (map_get l OpniSeverityLabel = "") then [AlertingHookReceiverName]
          else pick OpniSeverityLabel (map_get l OpniSeverityLabel) OpniSeverity_names
      end
    else [].
Proof.
  rewrite route_match_spec by reflexivity.
  change (rt_Matchers (opni_tree o)) with [OpniSubRoutingTreeMatcher].
  change (rt_Routes (opni_tree o)) with
    ((ns_tree o <$> sorted_keys (ro_NamespacedSpecs o)) ++ [default_tree; newFinalizer None])%list.
  cbn [forallb]. unfold OpniSubRoutingTreeMatcher. rewrite matches_equal, andb_true_r.
  case_decide as Hd; [rewrite bool_decide_eq_true_2 by done | by rewrite bool_decide_eq_false_2].
  rewrite opni_children. pose proof pick_ne as Hp.
  destruct (namespace_of o l) as [ns|]; [|case_decide; [done|]];
    match goal with |- or_self _ (pick ?a ?b ?c) = _ => specialize (Hp a b c); by destruct (pick a b c) end.
Qed.

Lemma metrics_tree_match l o :
  route_match l AlertingHookReceiverName (metrics_tree o)
  = if decide (map_get l OpniDatasourceLabel = OpniDatasourceMetrics) then
      match ro_SyncedConfig o ≫= cf_Route with
      | Some r => or_self AlertingHookReceiverName (route_match l AlertingHookReceiverName r)
      | None => [AlertingHookReceiverName]
      end
    else [].
Proof.
  unfold metrics_tree. destruct (ro_SyncedConfig o) as [sc|]; rewrite route_match_spec by reflexivity;
    change (forallb (matcher_matches l) _) with (matcher_matches l OpniMetricsSubRoutingTreeMatcher && true);
    unfold OpniMetricsSubRoutingTreeMatcher; rewrite matches_equal, andb_true_r;
    (case_decide; [rewrite bool_decide_eq_true_2 by done | by rewrite bool_decide_eq_false_2]); cbn [mbind option_bind].
  - change (rt_Routes (set_Routes ?x _)) with x. destruct (cf_Route sc) as [r|]; [|done]. change (option_list (Some r)) with [r]. cbn [children_match].
    change (own_receiver ?p (set_Routes _ NewOpniMetricsSubtree)) with AlertingHookReceiverName.
    destruct (route_match l AlertingHookReceiverName r) as [|m ms]; [done|].
    destruct (rt_Continue r); [|done]. by rewrite app_nil_r.
  - done.
Qed.

Lemma deliver_built g o u l : deliver l (built_config g o u) = routing_table o l.
Proof.
  assert (cf_Route (built_config g o u) = Some (root_route o)) as E
    by (unfold built_config; by destruct (ro_SyncedConfig o)).
  unfold deliver. rewrite E. rewrite route_match_spec by reflexivity.
  change (rt_Matchers (root_route o)) with (@nil Matcher). change (rt_Routes (root_route o)) with [opni_tree o; metrics_tree o].
  change (own_receiver "" (root_route o)) with AlertingHookReceiverName.
  cbn [forallb children_match]. change (rt_Continue (opni_tree o)) with true.
  rewrite opni_tree_match, metrics_tree_match. unfold routing_table.
  destruct (decide (map_get l OpniDatasourceLabel = "")) as [Hd|Hd].
  - rewrite (decide_False (P := map_get l OpniDatasourceLabel = OpniDatasourceMetrics)) by (by rewrite Hd).
    pose proof pick_ne as Hp.
    destruct (namespace_of o l) as [ns|]; [|case_decide; [done|]];
      match goal with |- context [pick ?a ?b ?c] => specialize (Hp a b c); destruct (pick a b c); [done|] end;
      by rewrite app_nil_r.
  - case_decide; [|done].
    destruct (rt_Continue (metrics_tree o)), (ro_SyncedConfig o ≫= cf_Route) as [r|]; try done;
      destruct (route_match l AlertingHookReceiverName r) as [|m ms]; try done; cbn; by rewrite app_nil_r.
Qed.

(** C24: an alert that enters the configuration built from a router is delivered by
    Alertmanager exactly as the table of the router says: the routing tree is a
    refinement of the table, for every set of labels. *)
Theorem routing_tree_implements_table http range o g u c l :
  router_ok o -> routes_unique o -> ranges_ok range o ->
  DefaultGlobalConfig http = Ok g -> url_Parse (ro_HookEndpoint o) = Some u ->
  BuildConfig http range o = Ok c ->
  deliver l c = routing_table o l.
Proof.
  intros Ho Hu Hr Hg Hh. rewrite (BuildConfig_eq _ _ _ _ _ Ho Hu Hr Hg Hh). intros [= <-].
  apply deliver_built.
Qed.
End Delivery.
