(* ===== verification/AlertValid.v ===== *)
(** The configuration built from a router is one that Alertmanager accepts: the checks of
    its UnmarshalYAML methods pass on the configuration, on every route and on every
    receiver, when the endpoints of the router are complete. *)

From Stdlib Require Import Ascii.
From stdpp Require Import sorting.
From S2P Require Import Prelude GoStd Util Validation CoreV1 Management AlertingV1 AmConfig AlertRouting AlertRouter AlertRouterProps AlertBuild.

Local Open Scope string_scope.

Lemma elem_of_concat_fmap {A B} (f : A -> list B) (l : list A) x :
  x ∈ concat (f <$> l) <-> exists y, y ∈ l /\ x ∈ f y.
Proof.
  induction l as [|y l IH]; cbn.
  - split; [by intros H%not_elem_of_nil | by intros (? & H%not_elem_of_nil & _)].
  - rewrite elem_of_app, IH. setoid_rewrite elem_of_cons. naive_solver.
Qed.

Lemma omapM_total {A B} (f : A -> outcome B) (l : list A) :
  (forall x, x ∈ l -> exists y, f x = Ok y) -> exists ys, omapM f l = Ok ys.
Proof.
  induction l as [|x l IH]; intros H; [by eexists|]. cbn. destruct (H x ltac:(left)) as (y & ->). cbn.
  destruct IH as (ys & ->); [|by eexists]. intros z Hz. apply H. by right.
Qed.

Lemma omapM_total_all {A B} (f : A -> outcome B) (P : B -> Prop) (l : list A) :
  (forall x, x ∈ l -> exists y, f x = Ok y /\ P y) -> exists ys, omapM f l = Ok ys /\ Forall P ys.
Proof.
  induction l as [|x l IH]; intros H; [by eexists|]. cbn. destruct (H x ltac:(left)) as (y & -> & Hy). cbn.
  destruct IH as (ys & -> & Hys); [intros z Hz; apply H; by right|]. eexists. split; [done|]. by constructor.
Qed.

(** ** Receiver names *)

Lemma value_name_eq ns r : value_name ns r = "opni" +:+ String "."%char (ns +:+ String "."%char r).
Proof. done. Qed.

Lemma Split_value_name ns r : no_char "."%char ns = true -> Split "."%char (value_name ns r) = "opni" :: ns :: Split "."%char r.
Proof.
  intros H. rewrite value_name_eq, Split_app. rewrite Split_app, (Split_no_char _ ns) by done. done.
Qed.

Lemma value_name_inj ns1 ns2 r1 r2 :
  no_char "."%char ns1 = true -> no_char "."%char ns2 = true ->
  value_name ns1 r1 = value_name ns2 r2 -> ns1 = ns2 /\ r1 = r2.
Proof.
  intros H1 H2 E. assert (ns1 = ns2) as <-.
  { pose proof (f_equal (Split "."%char) E) as Es. rewrite !Split_value_name in Es by done. by injection Es. }
  split; [done|]. rewrite !value_name_eq in E. apply str_app_inj_l in E. injection E as E.
  apply str_app_inj_l in E. by injection E.
Qed.

Lemma hook_is_value_name : AlertingHookReceiverName = value_name "default" "hook".
Proof. done. Qed.

(** A receiver name and the id it was made of: the round trip holds when neither part has
    a dot. *)
Lemma ExtractReceiverId_roundtrip id :
  no_char "."%char (or_Namespace id) = true -> no_char "."%char (or_ReceiverId id) = true ->
  ExtractReceiverId (NewOpniReceiverName id) = Ok id.
Proof.
  destruct id as [ns r]. intros Hn Hr. unfold ExtractReceiverId.
  change (NewOpniReceiverName (mkOpniReceiverId ns r)) with (value_name ns r).
  by rewrite Split_value_name, Split_no_char.
Qed.

Section Valid.
Context {DL : DurationLib} {AP : AlertParsers}.

(** ** Walking the tree *)

Fixpoint tree_routes (r : Route) : list Route :=
  r :: (fix children (l : list Route) : list Route :=
          match l with [] => [] | x :: l => tree_routes x ++ children l end)%list (rt_Routes r).

Lemma tree_routes_eq r : tree_routes r = r :: concat (tree_routes <$> rt_Routes r).
Proof. destruct r as [? ? ? ? ? ? ? ? ? ? routes ? ? ?]. cbn. f_equal. induction routes as [|x l IH]; [done|]. cbn. by f_equal. Qed.

Lemma checkReceiver_eq names r :
  checkReceiver names r =
    (foreach (checkReceiver names) (rt_Routes r) ;?
     errorf (negb (is_empty (rt_Receiver r)) && negb (bool_decide (rt_Receiver r ∈ names)))
       "undefined receiver used in route").
Proof. destruct r as [? ? ? ? ? ? ? ? ? ? routes ? ? ?]. cbn. f_equal. induction routes as [|x l IH]; [done|]. cbn. by rewrite IH. Qed.

Lemma checkTimeInterval_eq names r :
  checkTimeInterval names r =
    (foreach (checkTimeInterval names) (rt_Routes r) ;?
    foreach (fun ti => errorf (negb (bool_decide (ti ∈ names))) "undefined time interval used in route")
      (rt_ActiveTimeIntervals r) ;?
    foreach (fun tm => errorf (negb (bool_decide (tm ∈ names))) "undefined time interval used in route")
      (rt_MuteTimeIntervals r)).
Proof. destruct r as [? ? ? ? ? ? ? ? ? ? routes ? ? ?]. cbn. f_equal. induction routes as [|x l IH]; [done|]. cbn. by rewrite IH. Qed.

(** A property of every route of a tree. *)
Inductive tree_all (P : Route -> Prop) : Route -> Prop :=
| tree_node r : P r -> (forall x, x ∈ rt_Routes r -> tree_all P x) -> tree_all P r.

Lemma tree_all_elem P r : tree_all P r -> forall x, x ∈ tree_routes r -> P x.
Proof.
  induction 1 as [r Hr _ IH]. intros x. rewrite tree_routes_eq, elem_of_cons.
  intros [-> | Hx]; [done|]. 
  apply elem_of_concat_fmap in Hx as (y & Hy & Hx). by eapply IH.
Qed.

Definition receiver_known (names : gset string) (r : Route) : Prop := rt_Receiver r = "" \/ rt_Receiver r ∈ names.

Lemma checkReceiver_Ok names r : tree_all (receiver_known names) r -> checkReceiver names r = Ok tt.
Proof.
  induction 1 as [r Hr _ IH]. rewrite checkReceiver_eq.
  rewrite (proj2 (foreach_Ok _ _) IH). cbn [obind]. apply fail_if_Ok. unfold is_empty.
  destruct Hr as [Hr | Hr]; [by rewrite (bool_decide_eq_true_2 (_ = "")) | ].
  rewrite (bool_decide_eq_true_2 (_ ∈ _)) by done. by rewrite andb_false_r.
Qed.

Definition no_intervals (r : Route) : Prop := rt_ActiveTimeIntervals r = [] /\ rt_MuteTimeIntervals r = [].

Lemma checkTimeInterval_Ok names r : tree_all no_intervals r -> checkTimeInterval names r = Ok tt.
Proof.
  induction 1 as [r [H1 H2] _ IH]. rewrite checkTimeInterval_eq.
  rewrite (proj2 (foreach_Ok _ _) IH), H1, H2. done.
Qed.

(** ** The text forms

    What the packages that write and read the text of a configuration promise.  A matcher
    on a label whose name is one of Alertmanager's (letters, digits, underscores and
    colons) is read back as it was written, and one on a name with a dash is refused;
    the matchers of a route may come back in another order; a duration is written in
    milliseconds; a URL is read if it has an http scheme and a host. *)
Definition label_char (c : ascii) : bool := is_alnum c || one_of ["_"; ":"]%char c.
Definition label_name (s : string) : bool :=
  match s with
  | "" => false
  | String c _ => negb (in_range 48 57 c) && str_all label_char s
  end.
Definition dashed_name (s : string) : bool :=
  negb (no_char "-"%char s) && str_all (fun c => label_char c || bool_decide (c = "-"%char)) s.
Definition ascii_text (s : string) : bool := str_all (in_range 0 127) s.
Definition plain_host (s : string) : bool := no_char ":"%char s && no_char "["%char s && no_char "]"%char s.
Definition millisecond : Z := 1000000.
Definition http_url (u : URL) : Prop :=
  (URL_Scheme u = "http" \/ URL_Scheme u = "https") /\ URL_Host u <> "" /\ exists s, url_Parse s = Some u.
Definition equality (t : MatchType) : Prop := t = MatchEqual \/ t = MatchNotEqual.

Class AmTextLaws {TX : AmText} : Prop := {
  parse_printed m : label_name (m_Name m) = true -> equality (m_Type m) -> ascii_text (m_Value m) = true ->
    ParseMatchers (Matcher_String m) = Ok [m];
  parse_dashed m : dashed_name (m_Name m) = true -> is_Ok (ParseMatchers (Matcher_String m)) = false;
  sort_matchers_perm l : sort_Matchers l ≡ₚ l;
  split_printed h p : plain_host h = true -> plain_host p = true -> net_SplitHostPort (h +:+ ":" +:+ p) = Ok (h, p);
  duration_printed d : (0 <= d <= int64_max)%Z -> ParseDuration (Duration_String d) = Ok (d / millisecond * millisecond)%Z;
  url_printed u : http_url u -> URL_Read (URL_String u) = Ok u;
  url_refused s u : url_Parse s = Some u -> ~ http_url u -> is_Ok (URL_Read (URL_String u)) = false }.

Context {TX : AmText} {TL : AmTextLaws}.

(** ** Matchers *)

(** A matcher as Opni writes them, on a label that has a dash or has not. *)
Definition plain_matcher (m : Matcher) : Prop :=
  (label_name (m_Name m) = true \/ dashed_name (m_Name m) = true) /\ equality (m_Type m) /\ ascii_text (m_Value m) = true.
Definition loadable_matcher (m : Matcher) : Prop := plain_matcher m /\ label_name (m_Name m) = true.

Lemma append_matchers_Ok ms acc :
  Forall loadable_matcher ms -> append_matchers (Matchers_Marshal ms) acc = Ok (acc ++ ms)%list.
Proof.
  intros H. revert acc. induction H as [|m ms [(_ & Ht & Hv) Hn] _ IH]; intros acc; cbn; [by rewrite app_nil_r|].
  rewrite parse_printed by done. cbn. rewrite IH. by rewrite <- app_assoc.
Qed.

Lemma append_matchers_inv ms acc ms' :
  Forall plain_matcher ms -> append_matchers (Matchers_Marshal ms) acc = Ok ms' -> Forall loadable_matcher ms.
Proof.
  intros H. revert acc ms'. induction H as [|m ms Hm _ IH]; intros acc ms' Ha; [constructor|]. cbn in Ha.
  apply obind_Ok in Ha as (pm & Hp & Ha). constructor; [|by eapply IH]. split; [done|].
  destruct Hm as ([Hn|Hd] & _); [done|]. pose proof (parse_dashed m Hd) as E. by rewrite Hp in E.
Qed.

Lemma reread_Matchers_Ok ms : Forall loadable_matcher ms -> exists ms', reread_Matchers ms = Ok ms' /\ ms' ≡ₚ ms.
Proof.
  intros H. unfold reread_Matchers. case_bool_decide as E; [by rewrite E; exists []|].
  unfold Matchers_Unmarshal. cbn [obind]. rewrite append_matchers_Ok by done. eexists. split; [done|]. apply sort_matchers_perm.
Qed.

Lemma reread_Matchers_inv ms ms' :
  Forall plain_matcher ms -> reread_Matchers ms = Ok ms' -> Forall loadable_matcher ms /\ ms' ≡ₚ ms.
Proof.
  intros Hp H. assert (Forall loadable_matcher ms) as Hl.
  { revert H. unfold reread_Matchers. case_bool_decide as E; [by rewrite E|].
    unfold Matchers_Unmarshal. cbn [obind]. intros (m & Hm & _)%obind_Ok. by eapply append_matchers_inv. }
  split; [done|]. destruct (reread_Matchers_Ok ms Hl) as (x & Hx & Hperm). rewrite H in Hx. by injection Hx as <-.
Qed.

(** ** Routes *)

Lemma reread_Route_eq r :
  reread_Route r =
    (let? matchers := reread_Matchers (rt_Matchers r) in
     let? routes := omapM reread_Route (rt_Routes r) in
     Route_Unmarshal (route_document r matchers routes) zero_Route).
Proof.
  destruct r as [? ? ? ? ? ? ? ? ? ? routes ? ? ?]. cbn.
  destruct (reread_Matchers _); [|done..]. cbn. f_equal.
  induction routes as [|x l IH]; [done|]. cbn. by rewrite IH.
Qed.

(** A route and the one read back: the same but for the order of its matchers, its times,
    which are cut to milliseconds, and its group labels. *)
Inductive reloaded : Route -> Route -> Prop :=
| reloaded_node r r' :
    rt_Receiver r' = rt_Receiver r -> rt_Continue r' = rt_Continue r -> rt_Match r' = rt_Match r ->
    rt_MatchRE r' = rt_MatchRE r -> rt_MuteTimeIntervals r' = rt_MuteTimeIntervals r ->
    rt_ActiveTimeIntervals r' = rt_ActiveTimeIntervals r -> rt_Matchers r' ≡ₚ rt_Matchers r ->
    length (rt_Routes r') = length (rt_Routes r) ->
    (forall i x x', rt_Routes r !! i = Some x -> rt_Routes r' !! i = Some x' -> reloaded x x') ->
    reloaded r r'.

Lemma or_empty_none s : or_empty s "" = s.
Proof. unfold or_empty, is_empty. by case_bool_decide. Qed.

Lemma route_document_inv r matchers routes r' :
  Route_Unmarshal (route_document r matchers routes) zero_Route = Ok r' ->
  rt_Receiver r' = rt_Receiver r /\ rt_Continue r' = rt_Continue r /\ rt_Match r' = rt_Match r /\
  rt_MatchRE r' = rt_MatchRE r /\ rt_MuteTimeIntervals r' = rt_MuteTimeIntervals r /\
  rt_ActiveTimeIntervals r' = rt_ActiveTimeIntervals r /\ rt_Matchers r' = matchers /\ rt_Routes r' = routes.
Proof.
  unfold Route_Unmarshal, route_document. intros (d & Hd & H)%obind_Ok.
  open_ok Hd H0. open_ok Hd H1. open_ok Hd H2. open_ok Hd H3. injection Hd as <-.
  open_ok H G0. apply obind_Ok in H as ([groupBy all] & _ & H).
  open_ok H G1. open_ok H G2. open_ok H G3. open_ok H G4. injection H as <-.
  cbn. by rewrite or_empty_none.
Qed.

Lemma reread_Route_inv r r' :
  tree_all (fun x => Forall plain_matcher (rt_Matchers x)) r -> reread_Route r = Ok r' ->
  reloaded r r' /\ tree_all (fun x => Forall loadable_matcher (rt_Matchers x)) r.
Proof.
  intros H. revert r'. induction H as [r Hr _ IH]. intros r'. rewrite reread_Route_eq.
  intros (ms & Hms & (rs & Hrs & Hd)%obind_Ok)%obind_Ok. apply omapM_Ok in Hrs.
  destruct (reread_Matchers_inv _ _ Hr Hms) as [Hl Hperm].
  apply route_document_inv in Hd as (? & ? & ? & ? & ? & ? & Em & Er). split.
  - constructor; [assumption..| | |]; rewrite ?Em, ?Er; [assumption|symmetry; by eapply Forall2_length|].
    intros i x x' Hx Hx'. eapply IH; [by eapply list_elem_of_lookup_2|]. by eapply Forall2_lookup_lr in Hrs.
  - constructor; [done|]. intros x Hx. apply list_elem_of_lookup in Hx as (i & Hi).
    destruct (Forall2_lookup_l _ _ _ _ _ Hrs Hi) as (x' & _ & Hx'). eapply IH; [by eapply list_elem_of_lookup_2|done].
Qed.

(** Times that are written and read back without becoming zero. *)
Definition wait_ok (d : option Z) : Prop := forall z, d = Some z -> (0 <= z <= int64_max)%Z.
Definition interval_ok (d : option Z) : Prop := forall z, d = Some z -> (millisecond <= z <= int64_max)%Z.

Lemma reread_wait d : wait_ok d -> exists d', reread_opt reread_Duration d None = Ok d'.
Proof.
  intros H. destruct d as [z|]; [|by eexists]. cbn. unfold reread_Duration. rewrite duration_printed by by apply H. by eexists.
Qed.
Lemma reread_interval d : interval_ok d -> exists d', reread_opt reread_Duration d None = Ok d' /\ zero_interval d' = false.
Proof.
  intros H. destruct d as [z|]; [|by eexists]. cbn. specialize (H z eq_refl). unfold millisecond in H. unfold reread_Duration.
  rewrite duration_printed by lia. eexists. split; [done|]. apply bool_decide_eq_false_2. intros [= E].
  unfold millisecond in E. pose proof (Z.div_le_mono 1000000 z 1000000 ltac:(lia) ltac:(lia)) as Hz. rewrite Z.div_same in Hz by lia. lia.
Qed.

Record loadable_route (r : Route) : Prop := {
  lr_matchers : Forall loadable_matcher (rt_Matchers r);
  lr_match : rt_Match r = ∅;
  lr_match_re : rt_MatchRE r = ∅;
  lr_group : rt_GroupByStr r = [];
  lr_wait : wait_ok (rt_GroupWait r);
  lr_interval : interval_ok (rt_GroupInterval r);
  lr_repeat : interval_ok (rt_RepeatInterval r) }.

Lemma route_document_Ok r matchers routes : loadable_route r ->
  exists r', Route_Unmarshal (route_document r matchers routes) zero_Route = Ok r'.
Proof.
  intros [_ H1 H2 H3 H4 H5 H6]. unfold Route_Unmarshal, route_document, MatchRegexps_Unmarshal. cbn [zero_Route rt_GroupWait
    rt_GroupInterval rt_RepeatInterval rt_Receiver rt_GroupBy rt_GroupByAll].
  destruct (reread_wait _ H4) as (d1 & ->), (reread_interval _ H5) as (d2 & -> & E2), (reread_interval _ H6) as (d3 & -> & E3).
  rewrite H2, H3, map_to_list_empty. cbn [foreach obind rt_Match rt_GroupByStr rt_GroupBy rt_GroupByAll rt_GroupInterval rt_RepeatInterval].
  rewrite H1, map_to_list_empty. cbn [fmap list_fmap foreach obind parse_group_by]. rewrite E2, E3. by eexists.
Qed.

Lemma reread_Route_Ok r : tree_all loadable_route r -> exists r', reread_Route r = Ok r'.
Proof.
  induction 1 as [r Hr _ IH]. rewrite reread_Route_eq.
  destruct (reread_Matchers_Ok _ (lr_matchers _ Hr)) as (ms & -> & _). cbn [obind].
  destruct (omapM_total reread_Route (rt_Routes r)) as (rs & ->); [done|]. by apply route_document_Ok.
Qed.

(** What holds of every route of a tree holds of the routes read back. *)
Lemma reloaded_tree (P : Route -> Prop) r r' :
  (forall x x', rt_Receiver x' = rt_Receiver x -> rt_MuteTimeIntervals x' = rt_MuteTimeIntervals x ->
     rt_ActiveTimeIntervals x' = rt_ActiveTimeIntervals x -> P x -> P x') ->
  reloaded r r' -> tree_all P r -> tree_all P r'.
Proof.
  intros HP. induction 1 as [r r' H1 H2 H3 H4 H5 H6 H7 H8 _ IH]. intros Ht. inversion Ht as [? Hr Hch]; subst.
  constructor; [by eapply HP|]. intros x' Hx'. apply list_elem_of_lookup in Hx' as (i & Hi).
  destruct (lookup_lt_is_Some_2 (rt_Routes r) i) as [x Hx]; [rewrite <- H8; by eapply lookup_lt_Some|].
  eapply IH; [done..|]. apply Hch. by eapply list_elem_of_lookup_2.
Qed.

(** ** Receivers *)

(** The receivers that Opni makes of endpoints: a Slack or webhook one has a URL that was
    parsed. *)
Definition addressed (x : OpniReceiver) : Prop :=
  match x with
  | RecvEmail _ | RecvPagerduty _ => True
  | RecvSlack c => exists s u, url_Parse s = Some u /\ sk_APIURL c = Some u
  | RecvWebhook c => exists s u, url_Parse s = Some u /\ wh_URL c = Some u
  | _ => False
  end.

(** A configuration that is read back and needs nothing from the global settings but what
    they have: an email names its sender and a smart host with a port, a Slack or webhook
    configuration has an http URL, a PagerDuty configuration has a key. *)
Definition host_ok (hp : HostPort) : Prop :=
  plain_host (hp_Host hp) = true /\ plain_host (hp_Port hp) = true /\ hp_Port hp <> "".
Definition ready (r : OpniReceiver) : Prop :=
  match r with
  | RecvEmail c => ec_To c <> "" /\ ec_From c <> "" /\ host_ok (ec_Smarthost c) /\ size (ec_Headers c) <= 1
  | RecvSlack c => (exists u, sk_APIURL c = Some u /\ http_url u) /\ sk_APIURLFile c = "" /\ sk_HTTPConfig c = None /\
                   sk_Fields c = [] /\ sk_Actions c = []
  | RecvPagerduty c => pc_ServiceKey c <> "" /\ pc_ServiceKeyFile c = "" /\ pc_RoutingKey c = "" /\
                       pc_HTTPConfig c = None /\ pc_URL c = None
  | RecvWebhook c => (exists u, wh_URL c = Some u /\ http_url u) /\ wh_HTTPConfig c = None
  | _ => False
  end.

(** What must be left after reading. *)
Definition sendable_email (c : EmailConfig) : Prop := ec_From c <> "" /\ HostPort_String (ec_Smarthost c) <> "".
Definition sendable_slack (c : SlackConfig) : Prop := sk_APIURL c <> None.

Lemma HostPort_String_ok hp : hp_Port hp <> "" -> HostPort_String hp = hp_Host hp +:+ ":" +:+ hp_Port hp /\ HostPort_String hp <> "".
Proof.
  intros H. unfold HostPort_String, is_empty. rewrite (bool_decide_eq_false_2 _ H), andb_false_r. split; [done|].
  by destruct (hp_Host hp).
Qed.

Lemma reread_HostPort_Ok hp d : host_ok hp -> reread_HostPort hp d = Ok hp.
Proof.
  intros (H1 & H2 & H3). destruct (HostPort_String_ok hp H3) as [E Hne]. unfold reread_HostPort, HostPort_Unmarshal, HostPort_Marshal.
  cbn [obind]. unfold is_empty at 1. rewrite (bool_decide_eq_false_2 _ Hne), E, split_printed by done. cbn [obind snd fst].
  unfold is_empty. rewrite (bool_decide_eq_false_2 _ H3). by destruct hp.
Qed.

Lemma reread_Email_Ok c : ready (RecvEmail c) -> exists c', reread_Email c = Ok c' /\ sendable_email c'.
Proof.
  intros (Ht & Hf & Hh & Hs). unfold reread_Email, EmailConfig_Unmarshal. rewrite reread_HostPort_Ok by done.
  cbn [obind ec_To ec_Headers DefaultEmailConfig]. rewrite or_empty_none. unfold is_empty at 1. rewrite (bool_decide_eq_false_2 _ Ht).
  cbn [errorf fail_if obind]. rewrite (right_id_L ∅ (∪)). rewrite bool_decide_eq_true_2.
  - eexists. split; [done|]. split; cbn [ec_From ec_Smarthost]; [by rewrite or_empty_none|]. by apply HostPort_String_ok, Hh.
  - rewrite <- length_map_to_list in Hs.
    destruct (map_to_list (ec_Headers c)) as [|x [|y l]]; cbn in *; [constructor | apply NoDup_singleton | lia].
Qed.

Lemma reread_Slack_Ok c : ready (RecvSlack c) -> exists c', reread_Slack c = Ok c' /\ sendable_slack c'.
Proof.
  intros ((u & Hu & Hh) & H1 & H2 & H3 & H4). unfold reread_Slack, SlackConfig_Unmarshal. rewrite Hu, H1, H2, H3, H4.
  cbn [reread_opt]. unfold reread_URL. rewrite url_printed by done. by eexists.
Qed.

Lemma reread_Pagerduty_Ok c : ready (RecvPagerduty c) -> exists c', reread_Pagerduty c = Ok c'.
Proof.
  intros (H1 & H2 & H3 & H4 & H5). unfold reread_Pagerduty, PagerdutyConfig_Unmarshal. rewrite H2, H3, H4, H5.
  cbn [reread_opt obind pc_RoutingKey pc_ServiceKey pc_ServiceKeyFile pc_RoutingKeyFile DefaultPagerdutyConfig].
  rewrite !or_empty_none. unfold is_empty. rewrite (bool_decide_eq_false_2 _ H1). by eexists.
Qed.

Lemma reread_Webhook_Ok c : ready (RecvWebhook c) -> exists c', reread_Webhook c = Ok c'.
Proof.
  intros ((u & Hu & Hh) & H1). unfold reread_Webhook, WebhookConfig_Unmarshal. rewrite Hu, H1. cbn [reread_opt]. unfold reread_URL.
  rewrite url_printed by done. cbn. destruct Hh as [[-> | ->] _]; by eexists.
Qed.

(** A receiver with configurations of the four kinds that Opni builds. *)
Record four_kinds (r : Receiver) : Prop := {
  fk_discord : rv_DiscordConfigs r = []; fk_opsgenie : rv_OpsGenieConfigs r = []; fk_wechat : rv_WechatConfigs r = [];
  fk_pushover : rv_PushoverConfigs r = []; fk_victorops : rv_VictorOpsConfigs r = []; fk_sns : rv_SNSConfigs r = [];
  fk_telegram : rv_TelegramConfigs r = []; fk_webex : rv_WebexConfigs r = [] }.

Lemma receiver_of_four name l : four_kinds (receiver_of name l).
Proof. done. Qed.

Lemma reread_Receiver_inv r r' :
  reread_Receiver r = Ok r' -> four_kinds r ->
  four_kinds r' /\ rv_Name r' = rv_Name r /\ rv_Name r <> "" /\
  omapM reread_Email (rv_EmailConfigs r) = Ok (rv_EmailConfigs r') /\
  omapM reread_Pagerduty (rv_PagerdutyConfigs r) = Ok (rv_PagerdutyConfigs r') /\
  omapM reread_Slack (rv_SlackConfigs r) = Ok (rv_SlackConfigs r') /\
  omapM reread_Webhook (rv_WebhookConfigs r) = Ok (rv_WebhookConfigs r').
Proof.
  intros H [H1 H2 H3 H4 H5 H6 H7 H8]. unfold reread_Receiver, Receiver_Unmarshal in H. rewrite H1, H2, H3, H4, H5, H6, H7, H8 in H.
  cbn [omapM obind] in H. apply obind_Ok in H as (d & Hd & H). open_ok Hd He. open_ok Hd Hp. open_ok Hd Hs. open_ok Hd Hw.
  injection Hd as <-. open_ok H Hn. injection H as <-. apply fail_if_Ok, bool_decide_eq_false_1 in Hn. by repeat split.
Qed.

Lemma receiver_of_loads name l : name <> "" -> (forall x, x ∈ l -> ready x) ->
  exists r', reread_Receiver (receiver_of name l) = Ok r' /\ four_kinds r' /\ rv_Name r' = name /\
    Forall sendable_email (rv_EmailConfigs r') /\ Forall sendable_slack (rv_SlackConfigs r').
Proof.
  intros Hn Hl. unfold reread_Receiver, Receiver_Unmarshal. cbn [receiver_of rv_DiscordConfigs rv_EmailConfigs rv_PagerdutyConfigs
    rv_SlackConfigs rv_WebhookConfigs rv_OpsGenieConfigs rv_WechatConfigs rv_PushoverConfigs rv_VictorOpsConfigs rv_SNSConfigs
    rv_TelegramConfigs rv_WebexConfigs rv_Name omapM obind].
  assert (forall c, c ∈ omap email_of l -> exists c', reread_Email c = Ok c' /\ sendable_email c') as He.
  { intros c (x & Hx%Hl & Hf)%list_elem_of_omap. destruct x; try done. injection Hf as <-. by apply reread_Email_Ok. }
  assert (forall c, c ∈ omap slack_of l -> exists c', reread_Slack c = Ok c' /\ sendable_slack c') as Hs.
  { intros c (x & Hx%Hl & Hf)%list_elem_of_omap. destruct x; try done. injection Hf as <-. by apply reread_Slack_Ok. }
  destruct (omapM_total_all reread_Email sendable_email (omap email_of l) He) as (e & -> & Hse). cbn [obind].
  destruct (omapM_total reread_Pagerduty (omap pagerduty_of l)) as (p & ->).
  { intros c (x & Hx%Hl & Hf)%list_elem_of_omap. destruct x; try done. injection Hf as <-. by apply reread_Pagerduty_Ok. }
  cbn [obind]. destruct (omapM_total_all reread_Slack sendable_slack (omap slack_of l) Hs) as (sl & -> & Hss). cbn [obind].
  destruct (omapM_total reread_Webhook (omap webhook_of l)) as (w & ->).
  { intros c (x & Hx%Hl & Hf)%list_elem_of_omap. destruct x; try done. injection Hf as <-. by apply reread_Webhook_Ok. }
  cbn [obind rv_Name]. unfold is_empty. rewrite (bool_decide_eq_false_2 _ Hn). cbn [errorf fail_if obind].
  eexists. by repeat split.
Qed.

(** *** What a receiver takes from the global settings *)

Definition usable (g : GlobalConfig) (r : Receiver) : Prop :=
  forall su, exists r', receiver_defaults g su r = Ok (su, r').

Lemma email_defaults_Ok g c : sendable_email c -> exists c', email_defaults g c = Ok c'.
Proof.
  intros (Hf & Hs). unfold email_defaults, is_empty.
  rewrite (bool_decide_eq_false_2 (HostPort_String (ec_Smarthost c) = "")) by done.
  rewrite (bool_decide_eq_false_2 (ec_From c = "")) by done. by eexists.
Qed.

Lemma slack_defaults_Ok g c : sendable_slack c -> exists c', slack_defaults g c = Ok c'.
Proof. intros Hu. unfold slack_defaults. rewrite (bool_decide_eq_false_2 (sk_APIURL c = None)) by done. by eexists. Qed.

Lemma pagerduty_defaults_Ok g c : gc_PagerdutyURL g <> None -> exists c', pagerduty_defaults g c = Ok c'.
Proof. intros Hu. unfold pagerduty_defaults. rewrite (bool_decide_eq_false_2 (gc_PagerdutyURL g = None)) by done. rewrite andb_false_r. by eexists. Qed.

Lemma four_kinds_defaults g su r : four_kinds r ->
  receiver_defaults g su r =
    (let? emails := omapM (email_defaults g) (rv_EmailConfigs r) in
     let? slacks := omapM (slack_defaults g) (rv_SlackConfigs r) in
     let? pagerdutys := omapM (pagerduty_defaults g) (rv_PagerdutyConfigs r) in
     Ok (su, mkReceiver (rv_Name r) [] emails pagerdutys slacks (webhook_defaults g <$> rv_WebhookConfigs r) [] [] [] [] [] [] [])).
Proof. intros [H1 H2 H3 H4 H5 H6 H7 H8]. unfold receiver_defaults. by rewrite H1, H2, H3, H4, H5, H6, H7, H8. Qed.

Lemma sendable_usable g r :
  gc_PagerdutyURL g <> None -> four_kinds r -> Forall sendable_email (rv_EmailConfigs r) ->
  Forall sendable_slack (rv_SlackConfigs r) -> usable g r.
Proof.
  rewrite !list.Forall_forall. intros Hg Hk He Hs su. rewrite four_kinds_defaults by done.
  destruct (omapM_total (email_defaults g) (rv_EmailConfigs r)) as (e & ->); [intros c Hc; by apply email_defaults_Ok, He|].
  cbn [obind]. destruct (omapM_total (slack_defaults g) (rv_SlackConfigs r)) as (sl & ->); [intros c Hc; by apply slack_defaults_Ok, Hs|].
  cbn [obind]. destruct (omapM_total (pagerduty_defaults g) (rv_PagerdutyConfigs r)) as (p & ->); [intros c _; by apply pagerduty_defaults_Ok|].
  by eexists.
Qed.

(** *** Where a receiver sends *)

Definition destinations (r : Receiver) : list string * list (option URL * string) * list string * list (option URL) :=
  (ec_To <$> rv_EmailConfigs r, (fun c => (sk_APIURL c, sk_Channel c)) <$> rv_SlackConfigs r,
   pc_ServiceKey <$> rv_PagerdutyConfigs r, wh_URL <$> rv_WebhookConfigs r).

(** A URL that was parsed is read back as it was, or not at all. *)
Lemma reread_URL_inv s u u' : url_Parse s = Some u -> reread_URL u = Ok u' -> u' = u.
Proof.
  unfold reread_URL. intros Hs H.
  destruct (decide (URL_Scheme u = "http" \/ URL_Scheme u = "https")) as [H1|H1];
    [destruct (decide (URL_Host u = "")) as [H2|H2]|].
  - pose proof (url_refused s u Hs) as E. rewrite H in E. discriminate E. by intros (_ & ? & _).
  - rewrite url_printed in H; [congruence|]. split; [done|]. split; [done|]. by exists s.
  - pose proof (url_refused s u Hs) as E. rewrite H in E. discriminate E. by intros (? & _).
Qed.

Lemma omapM_fmap {A B} (f : A -> outcome A) (p : A -> B) l l' :
  (forall x y, x ∈ l -> f x = Ok y -> p y = p x) -> omapM f l = Ok l' -> p <$> l' = p <$> l.
Proof.
  intros Hp H%omapM_Ok. induction H as [|x y l l' Hx _ IH]; [done|]. cbn. f_equal; [by apply Hp; [left|]|].
  apply IH. intros z w Hz. apply Hp. by right.
Qed.

Lemma reread_destinations name l r' :
  (forall x, x ∈ l -> addressed x) -> reread_Receiver (receiver_of name l) = Ok r' ->
  four_kinds r' /\ rv_Name r' = name /\ destinations r' = destinations (receiver_of name l) /\
  Forall sendable_slack (rv_SlackConfigs r').
Proof.
  intros Hl H. apply reread_Receiver_inv in H as (Hk & Hn & _ & He & Hp & Hs & Hw); [|apply receiver_of_four].
  cbn [receiver_of rv_EmailConfigs rv_PagerdutyConfigs rv_SlackConfigs rv_WebhookConfigs rv_Name] in *.
  assert (forall c c', c ∈ omap slack_of l -> reread_Slack c = Ok c' ->
    (sk_APIURL c', sk_Channel c') = (sk_APIURL c, sk_Channel c) /\ sendable_slack c') as Hslack.
  { intros c c' (x & Hx%Hl & Hf)%list_elem_of_omap Hc. destruct x; try done. injection Hf as <-. destruct Hx as (s & u & Hu & Hc0).
    unfold reread_Slack, SlackConfig_Unmarshal in Hc. rewrite Hc0 in Hc. apply obind_Ok in Hc as (d & Hd & Hc). open_ok Hc Hc1.
    injection Hc as <-. open_ok Hd H1. open_ok Hd H2. open_ok Hd H3. open_ok Hd H4. injection Hd as <-.
    apply obind_Ok in H2 as (u' & Hu' & [= <-]). unfold sendable_slack. cbn. rewrite Hc0, or_empty_none, (reread_URL_inv _ _ _ Hu Hu'). done. }
  split; [done|]. split; [done|]. split.
  - unfold destinations. cbn [receiver_of rv_EmailConfigs rv_PagerdutyConfigs rv_SlackConfigs rv_WebhookConfigs].
    f_equal; [f_equal; [f_equal|]|].
    + eapply omapM_fmap; [|exact He]. intros c c' _ Hc. unfold reread_Email, EmailConfig_Unmarshal in Hc.
      apply obind_Ok in Hc as (d & Hd & Hc). open_ok Hc H1. open_ok Hc H2. injection Hc as <-. open_ok Hd H3. injection Hd as <-.
      cbn. by rewrite or_empty_none.
    + eapply omapM_fmap; [|exact Hs]. intros c c' Hc Hr. by destruct (Hslack c c' Hc Hr).
    + eapply omapM_fmap; [|exact Hp]. intros c c' _ Hc. unfold reread_Pagerduty, PagerdutyConfig_Unmarshal in Hc.
      apply obind_Ok in Hc as (d & Hd & Hc). open_ok Hc H1. open_ok Hc H2. open_ok Hc H3. injection Hc as <-.
      open_ok Hd H4. open_ok Hd H5. injection Hd as <-. cbn. by rewrite or_empty_none.
    + eapply omapM_fmap; [|exact Hw]. intros c c' (x & Hx%Hl & Hf)%list_elem_of_omap Hc. destruct x; try done. injection Hf as <-.
      destruct Hx as (s & u & Hu & Hc0). unfold reread_Webhook, WebhookConfig_Unmarshal in Hc. rewrite Hc0 in Hc.
      apply obind_Ok in Hc as (d & Hd & Hc). open_ok Hd H1. open_ok Hd H2. injection Hd as <-. apply obind_Ok in H2 as (u' & Hu' & [= <-]).
      cbn [wh_URL] in Hc. open_ok Hc H3. injection Hc as <-. cbn. by rewrite Hc0, (reread_URL_inv _ _ _ Hu Hu').
  - apply omapM_Ok in Hs. rewrite list.Forall_forall. intros c' (i & Hi)%list_elem_of_lookup.
    destruct (Forall2_lookup_r _ _ _ _ _ Hs Hi) as (c & Hc%list_elem_of_lookup_2 & Hr). by destruct (Hslack c c' Hc Hr).
Qed.

Lemma defaults_destinations g su r su' r' :
  four_kinds r -> Forall sendable_slack (rv_SlackConfigs r) -> receiver_defaults g su r = Ok (su', r') ->
  rv_Name r' = rv_Name r /\ destinations r' = destinations r.
Proof.
  intros Hk Hs. rewrite four_kinds_defaults by done. intros H. open_ok H He. open_ok H Hsl. open_ok H Hp. injection H as <- <-.
  split; [done|]. unfold destinations. cbn [rv_EmailConfigs rv_PagerdutyConfigs rv_SlackConfigs rv_WebhookConfigs].
  f_equal; [f_equal; [f_equal|]|].
  - eapply omapM_fmap; [|exact He]. intros c c' _ Hc. unfold email_defaults in Hc. open_ok Hc H1. open_ok Hc H2. by injection Hc as <-.
  - eapply omapM_fmap; [|exact Hsl]. intros c c' Hin Hc. rewrite list.Forall_forall in Hs. specialize (Hs c Hin).
    unfold slack_defaults in Hc. open_ok Hc H1. injection Hc as <-. cbn. by rewrite (bool_decide_eq_false_2 (sk_APIURL c = None)).
  - eapply omapM_fmap; [|exact Hp]. intros c c' _ Hc. unfold pagerduty_defaults in Hc. open_ok Hc H1. by injection Hc as <-.
  - rewrite <- list_fmap_compose. by apply list_fmap_ext.
Qed.

Lemma receivers_loop_Ok g names su l :
  (forall r, r ∈ l -> usable g r) -> NoDup (rv_Name <$> l) -> (forall r, r ∈ l -> rv_Name r ∉ names) ->
  exists l', receivers_loop g names su l = Ok (names ∪ list_to_set (rv_Name <$> l), su, l').
Proof.
  revert names. induction l as [|r l IH]; intros names Hu Hnd Hfresh.
  - exists []. cbn. do 3 f_equal. set_solver.
  - rewrite fmap_cons in Hnd. apply list.NoDup_cons in Hnd as [Hr Hnd]. cbn [receivers_loop].
    rewrite bool_decide_eq_false_2 by (apply Hfresh; left). cbn [errorf fail_if obind].
    destruct (Hu r ltac:(left) su) as (r' & ->). cbn [obind fst snd].
    destruct (IH ({[rv_Name r]} ∪ names)) as (l' & ->).
    + intros x Hx. apply Hu. by right.
    + done.
    + intros x Hx. pose proof (Hfresh x ltac:(by right)).
      assert (rv_Name x <> rv_Name r); [|set_solver]. intros E. apply Hr. rewrite <- E. by apply list_elem_of_fmap_2.
    + exists (r' :: l'). cbn. do 3 f_equal. set_solver.
Qed.

(** What becomes of the receivers in the loop over them. *)
Lemma receivers_loop_inv g names su l res :
  receivers_loop g names su l = Ok res ->
  Forall2 (fun r r' => exists su su', receiver_defaults g su r = Ok (su', r')) l res.2.
Proof.
  revert names su res. induction l as [|r l IH]; intros names su res; cbn; [by intros [= <-]|].
  intros (? & _ & ([su' r'] & Hr & (rest & Hl & [= <-])%obind_Ok)%obind_Ok)%obind_Ok. cbn. constructor; [eauto|]. by eapply IH.
Qed.

(** ** What Alertmanager requires of a router *)

Definition limit_ok (l : rateLimitingConfig) : Prop :=
  (0 <= rlc_InitialDelay l <= int64_max)%Z /\ (millisecond <= rlc_ThrottlingDuration l <= int64_max)%Z /\
  (millisecond <= rlc_RepeatInterval l <= int64_max)%Z.

Record deployable (o : OpniRouterV1) : Prop := {
  dep_plain ns : ns ∈ dom (ro_NamespacedSpecs o) -> no_char "."%char ns = true /\ label_name ns = true;
  dep_hook : ~ live o "default" "hook";
  dep_ids ns r : live o ns r -> ascii_text r = true;
  dep_specs ns r k x : endpoints_of o ns r !! k = Some x -> ready x;
  dep_defaults v m k x : ro_DefaultNamespaceConfigs o !! v = Some m -> m !! k = Some x -> ready x;
  dep_limits ns r : live o ns r -> limit_ok (limit_of o ns r) }.

(** ** The names of the receivers of a configuration *)

Definition route_pairs (o : OpniRouterV1) : list (string * string) :=
  concat ((fun ns => pair ns <$> live_routes o ns) <$> sorted_keys (ro_NamespacedSpecs o)).
Definition name_pairs (o : OpniRouterV1) : list (string * string) :=
  (route_pairs o ++ (pair DefaultSubTreeLabel <$> sorted_severities) ++ [("default", "hook")])%list.
Definition pair_name (p : string * string) : string := value_name p.1 p.2.

Lemma route_pairs_elem o ns r : (ns, r) ∈ route_pairs o <-> ns ∈ dom (ro_NamespacedSpecs o) /\ r ∈ live_routes o ns.
Proof.
  unfold route_pairs. rewrite elem_of_concat_fmap. setoid_rewrite sorted_keys_elem. setoid_rewrite list_elem_of_fmap.
  split; [intros (? & ? & ? & [= -> ->] & ?); done | intros [H1 H2]; eauto 6].
Qed.

Lemma route_pairs_NoDup o : NoDup (route_pairs o).
Proof.
  unfold route_pairs. pose proof (sorted_keys_NoDup (ro_NamespacedSpecs o)) as H.
  induction H as [|ns nss Hns _ IH]; [constructor|]. rewrite fmap_cons. cbn [concat].
  apply list.NoDup_app. split; [|split; [|done]].
  - apply NoDup_fmap_2; [by intros ? ? [=] | apply list.NoDup_filter, sorted_keys_NoDup].
  - intros p (r1 & -> & _)%list_elem_of_fmap (n2 & Hn & (r2 & [= -> ->] & _)%list_elem_of_fmap)%elem_of_concat_fmap.
    done.
Qed.

Lemma name_pairs_plain o p : deployable o -> p ∈ name_pairs o -> no_char "."%char p.1 = true.
Proof.
  intros Hd. unfold name_pairs. rewrite !elem_of_app. destruct p as [ns r].
  intros [[Hn _]%route_pairs_elem | [(? & [= -> ->] & _)%list_elem_of_fmap | [= -> ->]%list_elem_of_singleton]]; [|done..].
  by apply (dep_plain _ Hd).
Qed.

Lemma name_pairs_NoDup o : router_ok o -> deployable o -> NoDup (name_pairs o).
Proof.
  intros Ho Hd. unfold name_pairs. apply list.NoDup_app. split; [apply route_pairs_NoDup|]. split.
  - intros [ns r] [Hn Hl]%route_pairs_elem. rewrite elem_of_app.
    intros [(? & [= -> ->] & _)%list_elem_of_fmap | [= -> ->]%list_elem_of_singleton].
    + by destruct (ok_namespace _ Ho _ Hn).
    + apply (dep_hook _ Hd). unfold live_routes in Hl. by apply list_elem_of_filter in Hl as [? _].
  - apply (bool_decide_eq_true_1 _). vm_compute. reflexivity.
Qed.

Lemma default_recv_name o sev : rv_Name (default_recv o sev) = value_name DefaultSubTreeLabel sev.
Proof. unfold default_recv. by destruct (ro_DefaultNamespaceConfigs o !! sev). Qed.

Lemma built_receivers_perm o u : ro_SyncedConfig o = None ->
  built_receivers o u ≡ₚ ((fun p => value_receiver o p.1 p.2) <$> route_pairs o)
                          ++ (default_recv o <$> sorted_severities) ++ [hook_receiver u].
Proof.
  intros Hs. unfold built_receivers. rewrite Hs, merge_sort_Permutation. cbn [fmap option_fmap option_map default app].
  apply Permutation_app; [|done]. unfold route_pairs, ns_receivers.
  induction (sorted_keys (ro_NamespacedSpecs o)) as [|ns nss IH]; [done|]. rewrite !fmap_cons. cbn [concat].
  rewrite fmap_app, <- IH. apply Permutation_app; [|done]. rewrite <- list_fmap_compose. done.
Qed.

Lemma built_names o u : ro_SyncedConfig o = None ->
  rv_Name <$> built_receivers o u ≡ₚ pair_name <$> name_pairs o.
Proof.
  intros Hs. rewrite (built_receivers_perm _ _ Hs). unfold name_pairs. rewrite !fmap_app, <- !list_fmap_compose.
  apply Permutation_app; [done|]. apply Permutation_app; [|done].
  rewrite (list_fmap_ext (rv_Name ∘ default_recv o) (pair_name ∘ pair DefaultSubTreeLabel) sorted_severities); [done|].
  intros _ sev _. apply default_recv_name.
Qed.

Lemma built_names_NoDup o u : router_ok o -> deployable o -> ro_SyncedConfig o = None ->
  NoDup (rv_Name <$> built_receivers o u).
Proof.
  intros Ho Hd Hs. rewrite built_names by done. apply NoDup_fmap_2_strong; [|by apply name_pairs_NoDup].
  intros [n1 r1] [n2 r2] H1 H2 E. apply name_pairs_plain in H1, H2; [|done..].
  unfold pair_name in E. cbn in H1, H2, E. by destruct (value_name_inj _ _ _ _ H1 H2 E) as [-> ->].
Qed.

(** A property of the receivers of a configuration, from one of the endpoints of the
    router. *)
Definition endpoints_all (Q : OpniReceiver -> Prop) (o : OpniRouterV1) : Prop :=
  (forall ns r k x, endpoints_of o ns r !! k = Some x -> Q x) /\
  (forall v m k x, ro_DefaultNamespaceConfigs o !! v = Some m -> m !! k = Some x -> Q x).

Lemma built_receivers_all (Q : OpniReceiver -> Prop) o u (P : Receiver -> Prop) :
  endpoints_all Q o -> ro_SyncedConfig o = None ->
  (forall name l, name <> "" -> (forall x, x ∈ l -> Q x) -> P (receiver_of name l)) ->
  Q (RecvWebhook (mkWebhookConfig false None (Some u) 0)) ->
  forall r, r ∈ built_receivers o u -> P r.
Proof.
  intros [H1 H2] Hs HP Hh r. rewrite (built_receivers_perm _ _ Hs), !elem_of_app.
  intros [([ns rt] & -> & _)%list_elem_of_fmap | [(sev & -> & _)%list_elem_of_fmap | ->%list_elem_of_singleton]].
  - apply HP; [done|]. intros x (k & Hk)%endpoint_list_elem. by eapply H1.
  - unfold default_recv. destruct (ro_DefaultNamespaceConfigs o !! sev) as [m|] eqn:E.
    + apply HP; [done|]. intros x (k & Hk)%endpoint_list_elem. by eapply H2.
    + apply (HP _ []); [done|]. by intros x Hx%not_elem_of_nil.
  - apply (HP AlertingHookReceiverName [RecvWebhook (mkWebhookConfig false None (Some u) 0)]); [done|].
    by intros x ->%list_elem_of_singleton.
Qed.

(** ** The routes of a configuration *)

Lemma tree_all_impl (P Q : Route -> Prop) r : (forall x, P x -> Q x) -> tree_all P r -> tree_all Q r.
Proof. intros HPQ. induction 1 as [r Hr _ IH]. constructor; [by apply HPQ | exact IH]. Qed.

Lemma tree_leaf P r : rt_Routes r = [] -> P r -> tree_all P r.
Proof. intros Hr HP. constructor; [done|]. rewrite Hr. by intros x Hx%not_elem_of_nil. Qed.

(** A property of routes that does not look at their children holds of the whole tree of a
    router if it holds of the kinds of routes it is made of. *)
Definition default_subtree : Route := default zero_Route (rt_Routes NewOpniSubRoutingTree.1 !! 0).

Section Tree.
Context (P : Route -> Prop) (o : OpniRouterV1).
Context (P_children : forall l r, P r -> P (set_Routes l r)).
Context (P_subtree : forall ns, ns ∈ dom (ro_NamespacedSpecs o) -> P (NewOpniNamespacedSubTree ns []).1).
Context (P_value : forall ns r, ns ∈ dom (ro_NamespacedSpecs o) -> live o ns r -> P (value_route o ns r)).
Context (P_default : forall val, val ∈ DefaultSubTreeValues -> P (NewOpniSubRoutingTreeWithDefaultValue DefaultSubTreeLabel val).1).
Context (P_final : forall ns, default DefaultSubTreeLabel ns ∈ dom (ro_NamespacedSpecs o) \/ default DefaultSubTreeLabel ns = DefaultSubTreeLabel ->
  P (newFinalizer ns)).

Lemma final_tree ns : default DefaultSubTreeLabel ns ∈ dom (ro_NamespacedSpecs o) \/ default DefaultSubTreeLabel ns = DefaultSubTreeLabel ->
  tree_all P (newFinalizer ns).
Proof. intros Hn. apply tree_leaf; [done|]. by apply P_final. Qed.

Lemma ns_tree_all ns : ns ∈ dom (ro_NamespacedSpecs o) -> tree_all P (ns_tree o ns).
Proof.
  intros Hn. constructor; [by apply P_children, P_subtree|].
  change (rt_Routes (ns_tree o ns)) with (rev (value_route o ns <$> live_routes o ns) ++ [newFinalizer (Some ns)])%list.
  intros x. rewrite <- Permutation_rev, elem_of_app.
  intros [(r & -> & Hr)%list_elem_of_fmap | ->%list_elem_of_singleton]; [|apply final_tree; by left].
  unfold live_routes in Hr. apply list_elem_of_filter in Hr as [Hl _]. apply tree_leaf; [done|]. by apply P_value.
Qed.

Lemma root_route_tree : ro_SyncedConfig o = None ->
  P (root_route o) -> P NewOpniSubRoutingTree.1 -> P default_subtree -> P NewOpniMetricsSubtree -> tree_all P (root_route o).
Proof.
  intros Hs H1 H2 H3 H4. constructor; [done|]. change (rt_Routes (root_route o)) with [opni_tree o; metrics_tree o]. intros x.
  rewrite elem_of_cons, list_elem_of_singleton. intros [-> | ->].
  2: { unfold metrics_tree. rewrite Hs. by apply tree_leaf. }
  constructor; [by apply P_children|]. intros x. change (rt_Routes (opni_tree o)) with
    ((ns_tree o <$> sorted_keys (ro_NamespacedSpecs o)) ++ rt_Routes NewOpniSubRoutingTree.1)%list.
  rewrite elem_of_app. intros [(ns & -> & Hns)%list_elem_of_fmap | Hx].
  { apply ns_tree_all. by apply sorted_keys_elem. }
  change (rt_Routes NewOpniSubRoutingTree.1) with [default_subtree; newFinalizer None] in Hx.
  rewrite elem_of_cons, list_elem_of_singleton in Hx. destruct Hx as [-> | ->]; [|apply final_tree; by right].
  constructor; [done|]. intros y. change (rt_Routes _) with
    (((fun val => (NewOpniSubRoutingTreeWithDefaultValue DefaultSubTreeLabel val).1) <$> DefaultSubTreeValues)
       ++ [newFinalizer (Some DefaultSubTreeLabel)])%list.
  rewrite elem_of_app. intros [(v & -> & Hv)%list_elem_of_fmap | ->%list_elem_of_singleton]; [|apply final_tree; by right].
  apply tree_leaf; [done|]. by apply P_default.
Qed.
End Tree.

(** The matchers of a configuration, and the older forms of them, which are not used. *)
Definition plain_route (r : Route) : Prop := Forall plain_matcher (rt_Matchers r) /\ rt_Match r = ∅ /\ rt_MatchRE r = ∅.
Definition plain_names (o : OpniRouterV1) : Prop :=
  (forall ns, ns ∈ dom (ro_NamespacedSpecs o) -> label_name ns = true \/ dashed_name ns = true) /\
  (forall ns r, live o ns r -> ascii_text r = true).

Lemma plain_matcher_intro t n v :
  label_name n = true \/ dashed_name n = true -> equality t -> ascii_text v = true -> plain_matcher (mkMatcher t n v).
Proof. done. Qed.

Lemma root_route_plain o : ro_SyncedConfig o = None -> plain_names o -> tree_all plain_route (root_route o).
Proof.
  intros Hs [Hn Hi]. apply root_route_tree; try done.
  - intros ns H%Hn. split; [|by split]. constructor; [|constructor]. apply plain_matcher_intro; [done|by right|done].
  - intros ns r H%Hn Hl. split; [|by split]. constructor; [|constructor]. apply plain_matcher_intro; [done|by left|by eapply Hi].
  - intros val Hv. split; [|by split]. constructor; [|constructor]. apply plain_matcher_intro; [by left|by left|].
    assert (Forall (fun v : string * rateLimitingConfig => ascii_text v.1 = true) DefaultSubTreeValues) as Ha
      by (apply (bool_decide_eq_true_1 _); vm_compute; reflexivity).
    rewrite list.Forall_forall in Ha. by apply Ha.
  - intros [ns|] H; (split; [|by split]); [|constructor]. constructor; [|constructor].
    apply plain_matcher_intro; [|by right|done]. cbn in H. destruct H as [H%Hn | ->]; [done|by left].
  - split; [|by split]. constructor; [|constructor]. apply plain_matcher_intro; [by left|by left|done].
  - split; [|by split]. constructor; [|constructor]. apply plain_matcher_intro; [by left|by right|done].
  - split; [|by split]. constructor; [|constructor]. apply plain_matcher_intro; [by left|by left|done].
Qed.

Definition route_good (names : gset string) (r : Route) : Prop :=
  receiver_known names r /\ no_intervals r /\ wait_ok (rt_GroupWait r) /\ interval_ok (rt_GroupInterval r) /\
  interval_ok (rt_RepeatInterval r) /\ rt_GroupByStr r = [] /\ Forall (fun m => label_name (m_Name m) = true) (rt_Matchers r).

Lemma wait_some z : (0 <= z <= int64_max)%Z -> wait_ok (Some z).
Proof. by intros H ? [= <-]. Qed.
Lemma interval_some z : (millisecond <= z <= int64_max)%Z -> interval_ok (Some z).
Proof. by intros H ? [= <-]. Qed.

Lemma root_route_good `{!DurationLaws} names o :
  AlertingHookReceiverName ∈ names -> (forall ns r, (ns, r) ∈ route_pairs o -> value_name ns r ∈ names) ->
  (forall sev, sev ∈ sorted_severities -> value_name DefaultSubTreeLabel sev ∈ names) -> deployable o ->
  ro_SyncedConfig o = None -> tree_all (route_good names) (root_route o).
Proof.
  intros Hh Hn Hs Hd Hsync. apply root_route_tree; [done|..|done| | | |].
  - intros ns Hx. split_and!; [by left|done|by apply wait_some|done|by apply interval_some|done|].
    constructor; [|constructor]. by apply (dep_plain _ Hd).
  - intros ns r Hx Hl. destruct (dep_limits _ Hd _ _ Hl) as (L1 & L2 & L3).
    split_and!; [right|done|by apply wait_some|by apply interval_some|by apply interval_some|done|].
    + apply Hn, route_pairs_elem. split; [done|]. unfold live_routes. rewrite list_elem_of_filter, sorted_keys_elem. split; [done|].
      unfold live, endpoints_of, inner at 1 in Hl. apply elem_of_dom. destruct (inner _ ns !! r); [by eexists | done].
    + constructor; [|constructor]. by apply (dep_plain _ Hd).
  - intros val Hv.
    assert (Forall (fun v : string * rateLimitingConfig => limit_ok v.2 /\ v.1 ∈ sorted_severities) DefaultSubTreeValues) as Ha
      by (apply (bool_decide_eq_true_1 _); vm_compute; reflexivity).
    rewrite list.Forall_forall in Ha. destruct (Ha _ Hv) as ((L1 & L2 & L3) & Hsev).
    split_and!; [right; by apply Hs|done|by apply wait_some|by apply interval_some|by apply interval_some|done|by repeat constructor].
  - intros ns Hx. split_and!; [by right|done..|]. destruct ns as [ns|]; repeat constructor. cbn in *.
    destruct Hx as [Hx | ->]; [by apply (dep_plain _ Hd)|done].
  - split_and!; [by right|done|by apply wait_some|done|by apply interval_some|done|constructor].
  - split_and!; [by left|done..|by repeat constructor].
  - split_and!; [by left|done|by apply wait_some|done|by apply interval_some|done|by repeat constructor].
  - split_and!; [by left|done| | | |done|by repeat constructor]; cbn; rewrite AsDuration_some by done;
      [apply wait_some|apply interval_some|apply interval_some]; by vm_compute.
Qed.

Lemma deployable_plain o : deployable o -> plain_names o.
Proof. intros Hd. split; [intros ns H; left; by apply (dep_plain _ Hd)|apply (dep_ids _ Hd)]. Qed.

Lemma tree_all_and (P Q : Route -> Prop) r : tree_all P r -> tree_all Q r -> tree_all (fun x => P x /\ Q x) r.
Proof.
  induction 1 as [r Hr _ IH]. intros Hq. inversion Hq as [? Hq0 Hq1]; subst. constructor; [done|].
  intros x Hx. apply IH; [done|]. by apply Hq1.
Qed.

Lemma plain_tree_matchers r : tree_all plain_route r -> tree_all (fun x => Forall plain_matcher (rt_Matchers x)) r.
Proof. apply tree_all_impl. by intros x [? _]. Qed.

Lemma good_loads names r : tree_all (route_good names) r -> tree_all plain_route r -> tree_all loadable_route r.
Proof.
  intros Hg Hp. eapply tree_all_impl; [|exact (tree_all_and _ _ _ Hg Hp)].
  intros x ((_ & _ & H1 & H2 & H3 & H4 & H5) & (H6 & H7 & H8)). constructor; try done.
  rewrite list.Forall_forall in *. intros m Hm. split; [by apply H6|by apply H5].
Qed.

(** ** The global settings *)

Lemma mustParseURL_inv t u : mustParseURL t = Ok u -> http_url u.
Proof.
  unfold mustParseURL. destruct (parseURL t) as [x| |] eqn:E; [|done..]. intros [= <-]. unfold parseURL in E.
  destruct (url_Parse t) as [y|] eqn:Eu; [|done]. open_ok E E1. open_ok E E2. injection E as <-. apply fail_if_Ok in E1, E2.
  split; [|split; [by apply bool_decide_eq_false_1 in E2|by exists t]].
  apply andb_false_iff in E1 as [E1|E1]; apply negb_false_iff, bool_decide_eq_true_1 in E1; auto.
Qed.

Lemma reread_HostPort_empty d : reread_HostPort (mkHostPort "" "") d = Ok d.
Proof. done. Qed.

(** The global settings that Opni writes are the default ones, and are read back. *)
Lemma reread_Global_Ok http g : DefaultGlobalConfig http = Ok g -> HTTP_Reread http = Ok http -> reread_Global http g = Ok g.
Proof.
  intros Hg Hh. unfold reread_Global, GlobalConfig_Unmarshal. rewrite Hg. cbn [obind]. unfold DefaultGlobalConfig in Hg.
  open_ok Hg H1. open_ok Hg H2. open_ok Hg H3. open_ok Hg H4. open_ok Hg H5. open_ok Hg H6. injection Hg as <-.
  apply mustParseURL_inv in H1, H2, H3, H4, H5, H6.
  cbn [gc_ResolveTimeout gc_HTTPConfig gc_SMTPSmarthost gc_SlackAPIURL gc_PagerdutyURL gc_OpsGenieAPIURL gc_WeChatAPIURL
    gc_VictorOpsAPIURL gc_TelegramAPIUrl gc_WebexAPIURL reread_opt]. unfold reread_Duration, reread_URL.
  rewrite duration_printed by by vm_compute. rewrite Hh. cbn [obind]. rewrite reread_HostPort_empty.
  by rewrite !url_printed by done.
Qed.

Lemma DefaultGlobalConfig_inv http g : DefaultGlobalConfig http = Ok g ->
  gc_PagerdutyURL g <> None /\ global_checks g = Ok tt.
Proof.
  unfold DefaultGlobalConfig. intros H. do 6 (apply obind_Ok in H as (? & _ & H)). by injection H as <-.
Qed.

(** ** The configuration *)

Lemma built_config_eq g o u : ro_SyncedConfig o = None ->
  built_config g o u = mkConfig (Some g) (Some (root_route o)) [] (built_receivers o u) [] [] [].
Proof. unfold built_config. by intros ->. Qed.

(** The configuration built from a router that has what Alertmanager requires is written,
    read back and accepted: every check of the UnmarshalYAML methods passes. *)
Lemma built_config_loads `{!DurationLaws} http o g u :
  router_ok o -> deployable o -> ro_SyncedConfig o = None ->
  DefaultGlobalConfig http = Ok g -> HTTP_Reread http = Ok http -> http_url u ->
  exists c', load_Config http (built_config g o u) = Ok c'.
Proof.
  intros Ho Hd Hs Hg Hr Hhttp. rewrite built_config_eq by done.
  set (names := list_to_set (rv_Name <$> built_receivers o u) : gset string).
  assert (forall p, p ∈ name_pairs o -> pair_name p ∈ names) as Hn.
  { intros p Hp. unfold names. rewrite elem_of_list_to_set, (built_names _ _ Hs). by apply list_elem_of_fmap_2. }
  assert (tree_all (route_good names) (root_route o)) as Hgood.
  { apply root_route_good; [|intros ns rt Hp|intros sev Hsev|done..].
    - apply (Hn ("default", "hook")). unfold name_pairs. rewrite !elem_of_app. do 2 right. by apply list_elem_of_singleton.
    - apply (Hn (ns, rt)). unfold name_pairs. rewrite !elem_of_app. by left.
    - apply (Hn (DefaultSubTreeLabel, sev)). unfold name_pairs. rewrite !elem_of_app. right. left. by apply list_elem_of_fmap_2. }
  pose proof (root_route_plain o Hs (deployable_plain o Hd)) as Hplain.
  destruct (reread_Route_Ok _ (good_loads _ _ Hgood Hplain)) as (r' & Er).
  destruct (reread_Route_inv _ r' (plain_tree_matchers _ Hplain) Er) as [Hrel _].
  destruct (omapM_total_all reread_Receiver (fun r => usable g r) (built_receivers o u)) as (rs & Ers & Hus).
  { destruct (DefaultGlobalConfig_inv _ _ Hg) as [Hp _].
    apply (built_receivers_all ready); [split; [apply (dep_specs _ Hd)|apply (dep_defaults _ Hd)]|done| |].
    - intros name l Hne Hl. destruct (receiver_of_loads name l Hne Hl) as (r & E & Hk & _ & He & Hsl). exists r.
      split; [done|]. by apply sendable_usable.
    - split; [by exists u|done]. }
  assert (rv_Name <$> rs = rv_Name <$> built_receivers o u) as Enames.
  { eapply omapM_fmap; [|exact Ers]. intros x y Hx. revert x Hx y.
    apply (built_receivers_all (fun _ => True) o u (fun x => forall y, reread_Receiver x = Ok y -> rv_Name y = rv_Name x)); [by split|done| |done].
    intros name l _ _ y Hx. by apply reread_Receiver_inv in Hx as (_ & ? & _); [|apply receiver_of_four]. }
  unfold load_Config, Config_Unmarshal, config_document. cbn [obind cf_Global cf_Receivers cf_Route cf_InhibitRules cf_MuteTimeIntervals
    cf_TimeIntervals cf_Templates omapM reread_opt zero_Config].
  rewrite (reread_Global_Ok _ _ Hg Hr), Er, Ers. cbn [obind cf_Global cf_Receivers cf_Route cf_MuteTimeIntervals cf_TimeIntervals].
  rewrite (proj2 (DefaultGlobalConfig_inv _ _ Hg)). cbn [obind].
  destruct (receivers_loop_Ok g ∅ (mkShared (gc_OpsGenieAPIURL g) (gc_WeChatAPIURL g) (gc_VictorOpsAPIURL g)) rs) as (l' & ->).
  + by rewrite list.Forall_forall in Hus.
  + rewrite Enames. by apply built_names_NoDup.
  + set_solver.
  + cbn [obind]. rewrite (left_id_L ∅ (∪)), Enames. fold names.
    assert (root_checks r' = Ok tt) as ->.
    { inversion Hrel as [? ? E1 E2 E3 E4 E5 E6 E7 _ _]; subst. unfold root_checks. rewrite E1, E3, E4, E5, E6.
      change (rt_Matchers (root_route o)) with (@nil Matcher) in E7. apply Permutation_nil_r in E7. by rewrite E7. }
    cbn [obind]. rewrite checkReceiver_Ok.
    2: { eapply (reloaded_tree _ _ _ _ Hrel). eapply tree_all_impl; [|exact Hgood]. by intros x (? & _). }
    cbn [obind fmap list_fmap names_unique]. rewrite checkTimeInterval_Ok; [by eexists|].
    eapply (reloaded_tree _ _ _ _ Hrel). eapply tree_all_impl; [|exact Hgood]. by intros x (_ & ? & _).
  Unshelve.
  all: cbn; unfold receiver_known, no_intervals; intros x x' E1 E2 E3; by rewrite ?E1, ?E2, ?E3.
Qed.

(** What reading a configuration starts with. *)
Lemma load_Config_inv http o g u c' :
  ro_SyncedConfig o = None -> load_Config http (built_config g o u) = Ok c' ->
  exists g' r' rs names su rs', reread_Global http g = Ok g' /\ reread_Route (root_route o) = Ok r' /\
    omapM reread_Receiver (built_receivers o u) = Ok rs /\
    receivers_loop g' ∅ (mkShared (gc_OpsGenieAPIURL g') (gc_WeChatAPIURL g') (gc_VictorOpsAPIURL g')) rs = Ok (names, su, rs') /\
    cf_Route c' = Some r' /\ cf_Receivers c' = rs'.
Proof.
  intros Hs. rewrite built_config_eq by done. unfold load_Config, Config_Unmarshal. intros (d & Hd & H)%obind_Ok.
  unfold config_document in Hd. cbn [cf_Global cf_Receivers cf_Route cf_InhibitRules cf_MuteTimeIntervals cf_TimeIntervals omapM] in Hd.
  apply obind_Ok in Hd as (g1 & Hg & Hd). cbn [reread_opt] in Hg. apply obind_Ok in Hg as (g' & Hg & [= <-]).
  apply obind_Ok in Hd as (r1 & Hr & Hd). cbn [reread_opt] in Hr. apply obind_Ok in Hr as (r' & Hr & [= <-]).
  cbn [obind] in Hd. open_ok Hd Hrs. cbn [obind] in Hd. injection Hd as <-.
  cbn [cf_Global cf_Receivers cf_Route cf_MuteTimeIntervals cf_TimeIntervals obind] in H.
  open_ok H Hg2. apply obind_Ok in H as ([[names su] rs'] & Hl & H).
  do 2 (apply obind_Ok in H as ([] & _ & H)). do 2 (apply obind_Ok in H as (? & _ & H)). apply obind_Ok in H as ([] & _ & [= <-]).
  by repeat eexists.
Qed.

(** What is read back of such a configuration, if it is read at all: the routing tree, up
    to the order of matchers and the times, and for every receiver one of the same name
    that sends to the same places. *)
Lemma loaded_config http o g u c' :
  ro_SyncedConfig o = None -> plain_names o -> endpoints_all addressed o -> url_Parse (ro_HookEndpoint o) = Some u ->
  load_Config http (built_config g o u) = Ok c' ->
  (exists r', cf_Route c' = Some r' /\ reloaded (root_route o) r') /\
  tree_all (fun x => Forall loadable_matcher (rt_Matchers x)) (root_route o) /\
  Forall2 (fun r r' => rv_Name r' = rv_Name r /\ destinations r' = destinations r) (built_receivers o u) (cf_Receivers c').
Proof.
  intros Hs Hn Ha Hu H. destruct (load_Config_inv _ _ _ _ _ Hs H) as (g' & r' & rs & names & su & rs' & _ & Hr & Hrs & Hl & -> & ->).
  destruct (reread_Route_inv _ r' (plain_tree_matchers _ (root_route_plain o Hs Hn)) Hr) as [Hrel Hload].
  split; [by exists r'|]. split; [done|]. apply receivers_loop_inv in Hl. cbn [snd] in Hl. apply omapM_Ok in Hrs.
  assert (forall r, r ∈ built_receivers o u -> forall r1, reread_Receiver r = Ok r1 ->
    four_kinds r1 /\ rv_Name r1 = rv_Name r /\ destinations r1 = destinations r /\ Forall sendable_slack (rv_SlackConfigs r1)) as Hread.
  { apply (built_receivers_all addressed o u (fun r => forall r1, reread_Receiver r = Ok r1 ->
      four_kinds r1 /\ rv_Name r1 = rv_Name r /\ destinations r1 = destinations r /\ Forall sendable_slack (rv_SlackConfigs r1)));
      [done..| |by exists (ro_HookEndpoint o), u].
    intros name l _ Hx r1 H1. by apply reread_destinations. }
  clear -Hrs Hl Hread. revert rs' Hl. induction Hrs as [|r r1 l l1 H1 _ IH]; intros rs' Hl; inversion Hl as [|? r2 ? l2 Hd Hl']; subst; [constructor|].
  constructor; [|apply IH; [intros x Hx; apply Hread; by right|done]].
  destruct Hd as (su0 & su' & Hd). destruct (Hread r ltac:(left) _ H1) as (Hk & En & Ed & Hsl).
  destruct (defaults_destinations _ _ _ _ _ Hk Hsl Hd) as [-> ->]. done.
Qed.

Lemma loaded_receiver http o g u c' name l :
  ro_SyncedConfig o = None -> load_Config http (built_config g o u) = Ok c' -> receiver_of name l ∈ built_receivers o u ->
  (forall x, x ∈ l -> addressed x) ->
  exists r', r' ∈ cf_Receivers c' /\ rv_Name r' = name /\ destinations r' = destinations (receiver_of name l).
Proof.
  intros Hs H Hin Hl. destruct (load_Config_inv _ _ _ _ _ Hs H) as (g' & r' & rs & names & su & rs' & _ & _ & Hrs & Hlp & _ & ->).
  apply list_elem_of_lookup in Hin as (i & Hi). apply omapM_Ok in Hrs. apply receivers_loop_inv in Hlp.
  destruct (Forall2_lookup_l _ _ _ _ _ Hrs Hi) as (r1 & Hr1 & Hread).
  destruct (Forall2_lookup_l _ _ _ _ _ Hlp Hr1) as (r2 & Hr2 & su0 & su1 & Hd).
  destruct (reread_destinations _ _ _ Hl Hread) as (Hk & En & Ed & Hsl).
  destruct (defaults_destinations _ _ _ _ _ Hk Hsl Hd) as [En2 Ed2]. exists r2. rewrite En2, Ed2.
  split_and!; [by eapply list_elem_of_lookup_2|done..].
Qed.

Lemma newReceiver_addressed e d x : newReceiverImplementationFromEndpoint e d = Ok x -> addressed x.
Proof.
  unfold newReceiverImplementationFromEndpoint. intros H. destruct (e ≫= ep_Endpoint) as [[s|m|p|w]|]; [..|done];
    apply obind_Ok in H as (f & Hf & H); (destruct d; [|done]); injection H as <-.
  - unfold SlackConfig_Configure in Hf. destruct (url_Parse (sl_WebhookUrl s)) as [u|] eqn:E; [|done]. injection Hf as <-.
    by exists (sl_WebhookUrl s), u.
  - apply obind_Ok in Hf as (? & _ & [= <-]). done.
  - by injection Hf as <-.
  - unfold WebhookConfig_Configure in Hf. destruct (url_Parse (we_Url w)) as [u|] eqn:E; [|done]. injection Hf as <-.
    by exists (we_Url w), u.
Qed.

Lemma ready_addressed x : ready x -> addressed x.
Proof. destruct x as [c|c|c|c|c|c|c|c|c|c]; try done; intros ((u & Hu & _ & _ & s & Hs) & _); by exists s, u. Qed.

(** ** An incomplete endpoint *)

Lemma omapM_not_Ok {A B} (f : A -> outcome B) (l : list A) x :
  x ∈ l -> is_Ok (f x) = false -> is_Ok (omapM f l) = false.
Proof.
  intros Hx Hf. destruct (omapM f l) as [ys| |] eqn:E; [|done..]. apply omapM_Ok in E.
  apply list_elem_of_lookup in Hx as (i & Hi). destruct (Forall2_lookup_l _ _ _ _ _ E Hi) as (y & _ & Hy). by rewrite Hy in Hf.
Qed.

Lemma receivers_loop_not_Ok g names su l r :
  r ∈ l -> (forall su, is_Ok (receiver_defaults g su r) = false) -> is_Ok (receivers_loop g names su l) = false.
Proof.
  revert names su. induction l as [|x l IH]; intros names su Hr Hf; [by apply not_elem_of_nil in Hr|].
  cbn [receivers_loop]. destruct (errorf _ _); [|done..]. cbn [obind].
  rewrite elem_of_cons in Hr. destruct Hr as [<- | Hr].
  - specialize (Hf su). by destruct (receiver_defaults g su r).
  - destruct (receiver_defaults g su x) as [[su' x']| |]; [|done..]. cbn [obind fst snd].
    specialize (IH ({[rv_Name x]} ∪ names) su' Hr Hf). by destruct (receivers_loop g _ su' l).
Qed.

(** A valid email endpoint that names no smart host, once attached to any alarm,
    makes Alertmanager refuse the whole configuration: the receiver of every other alarm
    is lost with it. *)
Lemma incomplete_email_refuses_all http range o g u c ns r k e :
  router_ok o -> routes_unique o -> ranges_ok range o -> ro_SyncedConfig o = None ->
  DefaultGlobalConfig http = Ok g -> url_Parse (ro_HookEndpoint o) = Some u ->
  endpoints_of o ns r !! k = Some (RecvEmail e) -> ec_Smarthost e = mkHostPort "" "" ->
  BuildConfig http range o = Ok c -> is_Ok (load_Config http c) = false.
Proof.
  intros Ho Hu Hr Hs Hg Hh Hk He. rewrite (BuildConfig_eq _ _ _ _ _ Ho Hu Hr Hg Hh). intros [= <-].
  destruct (load_Config http (built_config g o u)) as [c'| |] eqn:Hc; [|done..]. exfalso.
  destruct (load_Config_inv _ _ _ _ _ Hs Hc) as (g' & r' & rs & names & su & rs' & Hg' & _ & Hrs & Hl & _).
  assert (gc_SMTPSmarthost g' = mkHostPort "" "") as Hhost.
  { unfold reread_Global, GlobalConfig_Unmarshal in Hg'. rewrite Hg in Hg'. cbn [obind] in Hg'. unfold DefaultGlobalConfig in Hg.
    do 6 (apply obind_Ok in Hg as (? & _ & Hg)). injection Hg as <-. do 2 (apply obind_Ok in Hg' as (? & _ & Hg')).
    cbn [gc_SMTPSmarthost] in Hg'. rewrite reread_HostPort_empty in Hg'. cbn [obind] in Hg'.
    do 7 (apply obind_Ok in Hg' as (? & _ & Hg')). by injection Hg' as <-. }
  assert (value_receiver o ns r ∈ built_receivers o u) as Hin.
  { rewrite (built_receivers_perm _ _ Hs), !elem_of_app. left. apply list_elem_of_fmap. exists (ns, r). split; [done|].
    assert (r ∈ dom (inner (ro_NamespacedSpecs o) ns)) as Hd.
    { unfold endpoints_of, inner at 1 in Hk. apply elem_of_dom. destruct (inner _ ns !! r); [by eexists | done]. }
    apply route_pairs_elem. split; [by eapply inner_dom_ns|]. unfold live_routes.
    rewrite list_elem_of_filter, sorted_keys_elem. split; [|done]. unfold live. intros E. by rewrite E in Hk. }
  apply omapM_Ok in Hrs. apply list_elem_of_lookup in Hin as (i & Hi).
  destruct (Forall2_lookup_l _ _ _ _ _ Hrs Hi) as (r1 & Hr1 & Hread).
  apply reread_Receiver_inv in Hread as (Hk1 & _ & _ & Hem & _); [|apply receiver_of_four]. apply omapM_Ok in Hem.
  assert (e ∈ rv_EmailConfigs (value_receiver o ns r)) as (j & Hj)%list_elem_of_lookup.
  { cbn. apply list_elem_of_omap. exists (RecvEmail e). split; [|done]. apply endpoint_list_elem. by exists k. }
  destruct (Forall2_lookup_l _ _ _ _ _ Hem Hj) as (e1 & He1 & Hrd).
  assert (ec_Smarthost e1 = mkHostPort "" "") as Hh1.
  { unfold reread_Email, EmailConfig_Unmarshal in Hrd. rewrite He, reread_HostPort_empty in Hrd. cbn [obind] in Hrd.
    do 2 (apply obind_Ok in Hrd as (? & _ & Hrd)). by injection Hrd as <-. }
  assert (is_Ok (receivers_loop g' ∅ (mkShared (gc_OpsGenieAPIURL g') (gc_WeChatAPIURL g') (gc_VictorOpsAPIURL g')) rs) = false) as Hf;
    [|by rewrite Hl in Hf].
  apply (receivers_loop_not_Ok _ _ _ _ r1); [by eapply list_elem_of_lookup_2|]. intros su'. rewrite four_kinds_defaults by done.
  assert (is_Ok (omapM (email_defaults g') (rv_EmailConfigs r1)) = false) as Hm.
  { apply (omapM_not_Ok _ _ e1); [by eapply list_elem_of_lookup_2|]. unfold email_defaults. by rewrite Hh1, Hhost. }
  by destruct (omapM (email_defaults g') _).
Qed.

(** ** A namespace with a dash *)

Lemma dashed_not_label s : dashed_name s = true -> label_name s = false.
Proof.
  unfold dashed_name, label_name. intros [H _]%andb_true_iff. apply negb_true_iff in H. destruct s as [|c s]; [done|].
  apply andb_false_iff. right. revert H. generalize (String c s) as t. clear. intros t. unfold no_char.
  induction t as [|d t IH]; cbn; [done|]. case_bool_decide as E; cbn; [by subst|]. intros H%IH. by rewrite H, andb_false_r.
Qed.

(** A condition in a namespace whose name has a dash, such as a condition on the state of
    Kubernetes objects or on the monitoring backend, makes Alertmanager refuse the whole
    configuration: the name is that of a label in the matchers of its routes. *)
Lemma dashed_namespace_refuses_all http range o g u c ns :
  router_ok o -> routes_unique o -> ranges_ok range o -> ro_SyncedConfig o = None -> plain_names o ->
  DefaultGlobalConfig http = Ok g -> url_Parse (ro_HookEndpoint o) = Some u ->
  ns ∈ dom (ro_NamespacedSpecs o) -> dashed_name ns = true ->
  BuildConfig http range o = Ok c -> is_Ok (load_Config http c) = false.
Proof.
  intros Ho Hu Hr Hs Hp Hg Hh Hn Hd. rewrite (BuildConfig_eq _ _ _ _ _ Ho Hu Hr Hg Hh). intros [= <-].
  destruct (load_Config http (built_config g o u)) as [c'| |] eqn:Hc; [|done..]. exfalso.
  destruct (load_Config_inv _ _ _ _ _ Hs Hc) as (g' & r' & rs & names & su & rs' & _ & Hrt & _).
  destruct (reread_Route_inv _ r' (plain_tree_matchers _ (root_route_plain o Hs Hp)) Hrt) as [_ Hl].
  inversion Hl as [? _ H1]; subst. specialize (H1 (opni_tree o) ltac:(left)). inversion H1 as [? _ H2]; subst.
  assert (ns_tree o ns ∈ rt_Routes (opni_tree o)) as Hin.
  { change (rt_Routes (opni_tree o)) with ((ns_tree o <$> sorted_keys (ro_NamespacedSpecs o)) ++ rt_Routes NewOpniSubRoutingTree.1)%list.
    apply elem_of_app. left. apply list_elem_of_fmap_2. by apply sorted_keys_elem. }
  specialize (H2 _ Hin). inversion H2 as [? H3 _]; subst. change (rt_Matchers (ns_tree o ns)) with [newNamespaceParentMatcher ns] in H3.
  apply Forall_inv in H3 as [_ H3]. cbn in H3. by rewrite dashed_not_label in H3.
Qed.

(** ** Where the configuration that was read delivers *)

Context {AM : Alertmanager}.

Lemma children_match_ext (f f' : Route -> list string) l l' :
  length l' = length l ->
  (forall i x x', l !! i = Some x -> l' !! i = Some x' -> f' x' = f x /\ rt_Continue x' = rt_Continue x) ->
  children_match f' l' = children_match f l.
Proof.
  revert l'. induction l as [|x l IH]; intros [|x' l'] Hlen H; try done. cbn. destruct (H 0 x x' eq_refl eq_refl) as [-> ->].
  rewrite (IH l'); [done|by injection Hlen|]. intros i. apply (H (S i)).
Qed.

Lemma reloaded_match l r r' : reloaded r r' -> tree_all plain_route r ->
  forall parent, route_match l parent r' = route_match l parent r.
Proof.
  induction 1 as [r r' H1 H2 H3 H4 H5 H6 H7 H8 Hch IH]. intros Ht parent. inversion Ht as [? (_ & Hm & Hre) Hsub]; subst.
  rewrite !route_match_spec by congruence. unfold own_receiver. rewrite H1.
  assert (forallb (matcher_matches l) (rt_Matchers r') = forallb (matcher_matches l) (rt_Matchers r)) as ->.
  { apply eq_true_iff_eq. rewrite !forallb_forall. split; intros H x Hx; apply H; by rewrite <- list_elem_of_In, ?H7, ?list_elem_of_In in *. }
  destruct (forallb _ _); [|done]. f_equal. apply children_match_ext; [done|]. intros i x x' Hx Hx'. split.
  - eapply IH; [done..|]. apply Hsub. by eapply list_elem_of_lookup_2.
  - by destruct (Hch i x x' Hx Hx').
Qed.

(** Reading a configuration back does not change where alerts go. *)
Lemma loaded_delivery http o g u c' l :
  ro_SyncedConfig o = None -> plain_names o -> load_Config http (built_config g o u) = Ok c' ->
  deliver l c' = deliver l (built_config g o u).
Proof.
  intros Hs Hn H. destruct (load_Config_inv _ _ _ _ _ Hs H) as (g' & r' & rs & names & su & rs' & _ & Hr & _ & _ & Er & _).
  unfold deliver. rewrite Er, built_config_eq by done. cbn [cf_Route]. pose proof (root_route_plain o Hs Hn) as Hp.
  destruct (reread_Route_inv _ r' (plain_tree_matchers _ Hp) Hr) as [Hrel _]. by apply reloaded_match.
Qed.
End Valid.
