(* ===== verification/AlertStorage.v ===== *)
(** pkg/alerting/storage: the stores of conditions, endpoints, states and incidents on a
    NATS key-value bucket, the in-memory store of routers, and the client set that
    computes the router from the stored conditions and endpoints. *)

From Stdlib Require String.
From stdpp Require Import sorting.
From S2P Require Import Prelude GoStd Util Validation CoreV1 Etcd Tokens Management AlertingV1 AmConfig AlertRouting AlertRouter.

Local Open Scope string_scope.

(** ** jetstream.go *)

(** nats.KeyValue: a bucket, and its sentinel errors. *)
Definition ErrKeyNotFound : error := External "nats: key not found".
Definition ErrNoKeysFound : error := External "nats: no keys found".

Class NatsKV (W : Type) := {
  nkv_Get : string -> M W string;
  nkv_Put : string -> string -> M W unit;
  nkv_Delete : string -> M W unit;
  nkv_Keys : M W (list string) }.

(** interfaces.AlertingSecret. *)
Class AlertingSecret (T : Type) := RedactSecrets : T -> T.

#[export] Instance AlertEndpoint_secret : AlertingSecret AlertEndpoint := AlertEndpoint_RedactSecrets.
#[export] Instance AlertCondition_secret : AlertingSecret AlertCondition := fun c => c.
#[export] Instance CachedState_secret : AlertingSecret CachedState := fun c => c.
#[export] Instance IncidentIntervals_secret : AlertingSecret (list Interval) := fun c => c.

Section JetStream.
Context {W : Type} {KV : NatsKV W}.

Section Store.
Context {T : Type} {PJ : ProtoJSON T} {AS : AlertingSecret T}.

Definition js_Key (basePath key : string) : string := path_Join [basePath; key].

Definition js_Put (basePath key : string) (value : T) : M W unit :=
  let! data := wlift (Marshal value) in nkv_Put (js_Key basePath key) data.

Definition js_Get (basePath key : string) (unredacted : bool) : M W T :=
  let! data := nkv_Get (js_Key basePath key) in
  let! rt := wlift (Unmarshal data) in
  wret (if unredacted then rt else RedactSecrets rt).

Definition js_Delete (basePath key : string) : M W unit :=
  wcatch (nkv_Delete (js_Key basePath key))
    (fun e => if errors_Is e ErrKeyNotFound then wret tt else wfail e).

Definition js_ListKeys (basePath : string) : M W (list string) :=
  wcatch (let! keys := nkv_Keys in
          wret (path_Base <$> filter (fun p => HasPrefix p basePath = true) keys))
    (fun e => if errors_Is e ErrNoKeysFound then wret [] else wfail e).

Definition js_List (basePath : string) (unredacted : bool) : M W (list T) :=
  let! keys := js_ListKeys basePath in
  wmap (fun key => js_Get basePath key unredacted) keys.
End Store.

(** *** The state cache *)

Section State.
Context {PJ : ProtoJSON CachedState}.

(** A state that cannot be read differs only if it is not there. *)
Definition IsDiff (basePath key : string) (incoming : CachedState) : M W bool := fun w =>
  match js_Get basePath key true w with
  | (w', Ok persisted) => (w', Ok (negb (CachedState_IsEquivalent persisted incoming)))
  | (w', Err e) => (w', Ok (errors_Is e ErrKeyNotFound))
  | (w', Panic p) => (w', Panic p)
  end.

Definition LastKnownChange (basePath key : string) : M W (option Time) :=
  let! state := js_Get basePath key true in wret (cs_Timestamp state).

(** [Put]: a state that is not different is stored only when it is older. *)
Definition state_Put (basePath key : string) (incoming : CachedState) : M W unit :=
  let! diff := IsDiff basePath key incoming in
  if diff : bool then js_Put basePath key incoming
  else fun w =>
    match LastKnownChange basePath key w with
    | (w', Err _) => (w', Ok tt)
    | (w', Panic p) => (w', Panic p)
    | (w', Ok last) =>
        if (AsTime (cs_Timestamp incoming) <? AsTime last)%Z then js_Put basePath key incoming w'
        else (w', Ok tt)
    end.
End State.

(** *** The incident tracker *)

(** The last interval, if there is one. *)
Definition update_last (f : Interval -> list Interval) (items : list Interval) (none : list Interval) : list Interval :=
  match rev items with
  | [] => none
  | l :: before => (rev before ++ f l)%list
  end.

(** The update of [OpenInterval]: the last interval ends where the new one starts. *)
Definition open_items (start : option Time) (items : list Interval) : list Interval :=
  update_last (fun l => match iv_Start l with
                        | None => [mkInterval start (iv_End l)]
                        | Some _ => [mkInterval (iv_Start l) start; mkInterval start None]
                        end) items [mkInterval start None].

Definition close_items (end_ : option Time) (items : list Interval) : list Interval :=
  update_last (fun l => match iv_Start l with
                        | None => [mkInterval end_ end_]
                        | Some _ => [mkInterval (iv_Start l) end_]
                        end) items [mkInterval end_ end_].

Record ActiveWindow := mkActiveWindow { aw_Start : option Time; aw_End : option Time }.

Section Incidents.
Context {PJ : ProtoJSON (list Interval)}.

(** The intervals of a condition; a missing entry is created. *)
Definition get_intervals (basePath conditionId : string) : M W (list Interval) :=
  wcatch (js_Get basePath conditionId false)
    (fun e => if errors_Is e ErrKeyNotFound
              then js_Put basePath conditionId ([] : list Interval) ;! wret []
              else wfail e).

Definition OpenInterval (basePath : string) (ttl now : Z) (conditionId : string) (start : option Time) : M W unit :=
  let! items := get_intervals basePath conditionId in
  js_Put basePath conditionId (Prune now ttl (open_items start items)).

Definition CloseInterval (basePath : string) (ttl now : Z) (conditionId : string) (end_ : option Time) : M W unit :=
  let! items := get_intervals basePath conditionId in
  js_Put basePath conditionId (Prune now ttl (close_items end_ items)).

(** The test [step.Start == step.End] compares pointers of a decoded message: it holds
    only when both are nil. *)
Definition active_windows (start end_ : option Time) (items : list Interval) : list ActiveWindow :=
  omap (M := list) (fun step =>
    if (AsTime (iv_Start step) <? AsTime start)%Z then None
    else match iv_Start step, iv_End step with
         | None, None => None
         | s, Some e => Some (mkActiveWindow s (Some e))
         | s, None => Some (mkActiveWindow s end_)
         end) items.

Definition GetActiveWindowsFromIncidentTracker (basePath conditionId : string) (start end_ : option Time)
  : M W (list ActiveWindow) :=
  let! items := js_Get basePath conditionId false in
  wret (active_windows start end_ items).
End Incidents.
End JetStream.

(** ** backend/api.go, mem.go and clientset.go *)

Section ClientSet.
Context {DL : DurationLib} {AP : AlertParsers} {SH : Sha256}.

(** Every stored endpoint that an attachment names. *)
Definition ConvertEndpointIdsToRoutingNode (endpointList : list AlertEndpoint) (req : AttachedEndpoints) (id : string)
  : RoutingNode :=
  mkRoutingNode (Some (mkReference id))
    (Some (mkFullAttachedEndpoints
       (endpointItem ← endpointList;
        expected ← ats_Items req;
        if bool_decide (ep_Id endpointItem = at_EndpointId expected)
        then [mkFullAttachedEndpoint (ep_Id endpointItem) (Some endpointItem) (ats_Details req)] else [])
       (ats_InitialDelay req) (ats_RepeatInterval req) (ats_ThrottlingDuration req) (ats_Details req))).

(** The in-memory store of routers keeps copies. *)
Definition mem_Get (routers : gmap string OpniRouterV1) (key : string) : outcome OpniRouterV1 :=
  match routers !! key with
  | Some v => Ok v
  | None => Err (StatusError codes_NotFound "router not found")
  end.
Definition mem_Put (key : string) (value : OpniRouterV1) (routers : gmap string OpniRouterV1) : gmap string OpniRouterV1 :=
  <[key := Clone value]> routers.
Definition mem_Delete (key : string) (routers : gmap string OpniRouterV1) : gmap string OpniRouterV1 := delete key routers.

Definition no_endpoints : FullAttachedEndpoints := mkFullAttachedEndpoints [] None None None None.

(** The body of the loop over the conditions. *)
Definition condition_id (c : AlertCondition) : string :=
  if is_empty (ac_Id c) then ref_GetId (AlertCondition_GetClusterId c) else ac_Id c.

Definition route_condition (endpMap : gmap string AlertEndpoint) (cond : AlertCondition) : M OpniRouterV1 unit :=
  let id := condition_id cond in
  let ns := AlertCondition_Namespace cond in
  match ac_AttachedEndpoints cond with
  | None => SetNamespaceSpec ns id no_endpoints
  | Some endpoints =>
      if bool_decide (length (ats_Items endpoints) = 0) then SetNamespaceSpec ns id no_endpoints
      else
        let! endpointConfigs := wlift (omapM (fun e =>
               match endpMap !! at_EndpointId e with
               | Some endp => Ok endp
               | None => Err (StatusError codes_NotFound "endpoint not found")
               end) (ats_Items endpoints)) in
        SetNamespaceSpec ns id
          (default no_endpoints (rn_FullAttachedEndpoints (ConvertEndpointIdsToRoutingNode endpointConfigs endpoints id)))
  end.

Fixpoint route_conditions (endpMap : gmap string AlertEndpoint) (conds : list AlertCondition) : M OpniRouterV1 unit :=
  match conds with
  | [] => wret tt
  | cond :: conds => route_condition endpMap cond ;! route_conditions endpMap conds
  end.

Definition endpoint_map (endps : list AlertEndpoint) : gmap string AlertEndpoint :=
  fold_left (fun m a => <[ep_Id a := a]> m) endps ∅.

Definition wants_notifications (a : AlertEndpoint) : Prop := is_Some (ep_Properties a !! EndpointTagNotifications).
#[global] Instance wants_notifications_dec a : Decision (wants_notifications a).
Proof using. unfold wants_notifications. apply _. Defined.

(** The routing specification of some conditions and endpoints, on top of a router. *)
Definition route_all (conds : list AlertCondition) (endps : list AlertEndpoint) : M OpniRouterV1 unit :=
  route_conditions (endpoint_map endps) conds ;!
  SetDefaultNamespaceConfig (filter wants_notifications endps).

(** The stores the client set uses, as far as a sync needs them. *)
Class AlertingStores (W : Type) := {
  conds_List : M W (list AlertCondition);
  endps_List : bool -> M W (list AlertEndpoint) }.

Record ClientSet (W : Type) := mkClientSet {
  cl_world : W;
  cl_routers : gmap string OpniRouterV1;
  cl_hashes : gmap string string }.
Arguments mkClientSet {_} _ _ _.
Arguments cl_world {_} _.
Arguments cl_routers {_} _.
Arguments cl_hashes {_} _.

Section Sync.
Context {W : Type} {ST : AlertingStores W} (Timestamp_String : option Time -> string).

Definition on_world {A} (m : M W A) : M (ClientSet W) A := fun c =>
  let '(w, r) := m (cl_world c) in (mkClientSet w (cl_routers c) (cl_hashes c), r).

Definition GetHash (key : string) (c : ClientSet W) : string := default "" (cl_hashes c !! key).

(** The text that is hashed: ids and times of all conditions and endpoints. *)
Definition aggregate (conds : list AlertCondition) (endps : list AlertEndpoint) : string :=
  Join "-" ((fun a => ac_Id a +:+ Timestamp_String (ac_LastUpdated a)) <$> conds) +:+
  Join "_" ((fun a => ep_Id a +:+ Timestamp_String (ep_LastUpdated a)) <$> endps).

Definition string_bytes (s : string) : list byte :=
  (fun a => Z.of_nat (ord a)) <$> Stdlib.Strings.String.list_ascii_of_string s.

Definition CalculateHash (key : string) : M (ClientSet W) unit :=
  if bool_decide (key = SingleConfigId) then
    let! conds := on_world conds_List in
    let! endps := on_world (endps_List false) in
    fun c => (mkClientSet (cl_world c) (cl_routers c)
                (<[key := hex_Encode (Sum256 (string_bytes (aggregate conds endps)))]> (cl_hashes c)), Ok tt)
  else fun c => (c, Panic "not implemented").

(** [router] is the router of the sync options, a new one by default. *)
Definition calculateRouters (router : OpniRouterV1) : M (ClientSet W) (list string) :=
  let! conds := on_world conds_List in
  let! endps := on_world (endps_List true) in
  fun c =>
    match route_all conds endps router with
    | (o, Ok _) => (mkClientSet (cl_world c) (mem_Put SingleConfigId o (cl_routers c)) (cl_hashes c), Ok [SingleConfigId])
    | (_, Err e) => (c, Err e)
    | (_, Panic p) => (c, Panic p)
    end.

Definition ForceSync (router : OpniRouterV1) : M (ClientSet W) unit :=
  CalculateHash SingleConfigId ;!
  calculateRouters router ;! wret tt.

(** [Sync] ignores the error of the hash. *)
Definition Sync (router : OpniRouterV1) : M (ClientSet W) (list string) := fun c =>
  let curHash := GetHash SingleConfigId c in
  match CalculateHash SingleConfigId c with
  | (c', Panic p) => (c', Panic p)
  | (c', _) =>
      if bool_decide (curHash = GetHash SingleConfigId c') then (c', Ok [])
      else calculateRouters router c'
  end.

(** [constructSyncRequest] (plugins/alerting/pkg/alerting/ops/reconcile.go): one
    configuration per router that is found and builds; [yaml] is yaml.Marshal. *)
Definition constructSyncRequest (http : HTTPClientConfig) (range : ranges) (yaml : Config -> outcome string)
    (routerKeys : list string) (c : ClientSet W) : outcome (list (string * string)) :=
  foldr (fun key acc =>
    let? items := acc in
    match mem_Get (cl_routers c) key with
    | Ok router =>
        match BuildConfig http range router with
        | Ok config => match yaml config with
                       | Ok data => Ok ((key, data) :: items)
                       | Err _ => Ok items
                       | Panic p => Panic p
                       end
        | Err _ => Ok items
        | Panic p => Panic p
        end
    | Err _ => Ok items
    | Panic p => Panic p
    end) (Ok []) routerKeys.
End Sync.
End ClientSet.
Arguments mkClientSet {_ _} _ _ _.
Arguments cl_world {_ _} _.
Arguments cl_routers {_ _} _.
Arguments cl_hashes {_ _} _.
