(* ===== verification/AlertSync.v ===== *)
(** The composition: the router that a sync computes from the stored conditions and
    endpoints, the configuration built from it, and the delivery of an alarm. *)

From Stdlib Require Import Ascii.
From stdpp Require Import sorting.
From S2P Require Import Prelude GoStd Util Validation CoreV1 Etcd Tokens Management AlertingV1 AmConfig AlertRouting AlertRouter AlertRouterProps AlertBuild AlertDelivery AlertValid AlertStorage.

Local Open Scope string_scope.

Lemma find_unique {A} (P : A -> bool) (l : list A) x :
  x ∈ l -> P x = true -> (forall y, y ∈ l -> P y = true -> y = x) -> find P l = Some x.
Proof.
  intros Hx HP Hu. destruct (find P l) as [y|] eqn:E.
  - apply find_some in E as [Hy HPy]. f_equal. apply Hu; [by apply list_elem_of_In | done].
  - rewrite (find_none _ _ E) in HP; [done | by apply list_elem_of_In].
Qed.

Section Sync.
Context {DL : DurationLib} {AP : AlertParsers}.

(** ** The effect of setting a route *)

Definition has_route (o : OpniRouterV1) (ns r : string) : Prop := r ∈ dom (inner (ro_NamespacedSpecs o) ns).

Lemma SetNamespaceSpec_effect ns r specs o o' :
  SetNamespaceSpec ns r specs o = (o', Ok tt) ->
  exists m, build_endpoints fe_EndpointId
              (fun s => newReceiverImplementationFromEndpoint (fe_AlertEndpoint s) (fes_Details specs))
              (fes_Items specs) ∅ = Ok m /\
    (forall ns' r', endpoints_of o' ns' r' = if decide ((ns, r) = (ns', r')) then m else endpoints_of o ns' r') /\
    (forall ns' r', has_route o' ns' r' <-> (ns, r) = (ns', r') \/ has_route o ns' r') /\
    ro_SyncedConfig o' = ro_SyncedConfig o /\ ro_HookEndpoint o' = ro_HookEndpoint o.
Proof.
  unfold SetNamespaceSpec. intros H. destruct (is_empty ns); [done|]. case_bool_decide; [done|].
  destruct (foreach _ _); [|done..]. destruct (build_endpoints _ _ _ _) as [m| |]; [|done..].
  injection H as <-. exists m. split; [done|]. split_and!; [| |done|done]; intros ns' r'.
  - unfold endpoints_of. cbn. rewrite inner_insert. case_decide; subst; [rewrite inner_insert|]; by repeat case_decide; naive_solver.
  - unfold has_route. cbn. rewrite inner_insert. case_decide; subst; [|naive_solver].
    rewrite dom_insert_L. set_solver.
Qed.

Lemma set_default_loop_frame endps vals o o' res :
  set_default_loop endps vals o = (o', res) ->
  ro_NamespacedSpecs o' = ro_NamespacedSpecs o /\ ro_SyncedConfig o' = ro_SyncedConfig o /\
  ro_HookEndpoint o' = ro_HookEndpoint o /\ ro_NamespacedRateLimiting o' = ro_NamespacedRateLimiting o.
Proof.
  revert o. induction vals as [|v vals IH]; intros o; cbn [set_default_loop]; [by intros [= <- _]|].
  case_bool_decide; [by intros [= <- _]|]. destruct (foreach _ _); [|by intros [= <- _]..].
  destruct (build_endpoints _ _ _ _); [|by intros [= <- _]..]. intros Hl. apply IH in Hl as (-> & -> & -> & ->). done.
Qed.

(** ** The endpoints of a condition *)

Definition attached_ids (cond : AlertCondition) : list string :=
  default [] ((fun a => at_EndpointId <$> ats_Items a) <$> ac_AttachedEndpoints cond).
Definition attached_details (cond : AlertCondition) : option EndpointImplementation :=
  ac_AttachedEndpoints cond ≫= ats_Details.

(** The receivers of a condition: those of the endpoints it names. *)
Definition receivers_of (endpMap : gmap string AlertEndpoint) (cond : AlertCondition) (m : gmap string OpniReceiver) : Prop :=
  forall k x, m !! k = Some x <->
    k ∈ attached_ids cond /\
    exists endp, endpMap !! k = Some endp /\
      newReceiverImplementationFromEndpoint (Some endp) (attached_details cond) = Ok x.

Lemma build_endpoints_lookup {B} (id : B -> string) build l acc m :
  build_endpoints id build l acc = Ok m ->
  (forall x y, x ∈ l -> y ∈ l -> id x = id y -> build x = build y) ->
  forall k r, m !! k = Some r <-> (exists x, x ∈ l /\ id x = k /\ build x = Ok r) \/ (acc !! k = Some r /\ k ∉ id <$> l).
Proof.
  revert acc. induction l as [|x l IH]; intros acc; cbn [build_endpoints].
  - intros [= <-] _ k r. split; [intros H; right; split; [done | apply not_elem_of_nil]|].
    intros [(x & Hx%not_elem_of_nil & _) | [H _]]; done.
  - rewrite obind_Ok. intros (y & Hy & H) Hf k r.
    rewrite (IH _ H) by (intros; apply Hf; [by right | by right | done]). rewrite fmap_cons, not_elem_of_cons.
    setoid_rewrite elem_of_cons. destruct (decide (id x = k)) as [<-|Hne].
    + rewrite lookup_insert_eq. split.
      * intros [(z & Hz & He & Hb) | [[= <-] _]]; left; eauto.
      * intros [(z & [-> | Hz] & He & Hb) | [_ [Hn _]]]; [|left; eauto|done].
        destruct (decide (id x ∈ id <$> l)) as [Hin|Hin].
        -- apply list_elem_of_fmap in Hin as (z & He' & Hz). left. exists z. split; [done|]. split; [done|].
           rewrite <- Hb. apply Hf; [by right | by left | done].
        -- right. split; [congruence | done].
    + rewrite lookup_insert_ne by done. split.
      * intros [(z & Hz & He & Hb) | [Ha Hn]]; [left; eauto | right; split; [done|]; split; [congruence | done]].
      * intros [(z & [-> | Hz] & He & Hb) | (Ha & _ & Hn)]; [done | left; eauto | by right].
Qed.

(** The ids of a map made of a list are those of its elements. *)
Definition keyed (endpMap : gmap string AlertEndpoint) : Prop := forall k e, endpMap !! k = Some e -> ep_Id e = k.

Lemma endpoint_map_keyed endps : keyed (endpoint_map endps).
Proof.
  unfold endpoint_map. assert (keyed ∅) as H0 by (intros k e; by rewrite lookup_empty).
  revert H0. generalize (∅ : gmap string AlertEndpoint). induction endps as [|a l IH]; intros m Hm; [done|].
  cbn. apply IH. intros k e [[<- <-] | [_ H]]%lookup_insert_Some; [done | by apply Hm].
Qed.

Lemma full_items_elem (l : list AlertEndpoint) req id s :
  s ∈ fes_Items (default no_endpoints (rn_FullAttachedEndpoints (ConvertEndpointIdsToRoutingNode l req id))) <->
  exists e, e ∈ l /\ ep_Id e ∈ (at_EndpointId <$> ats_Items req) /\
            s = mkFullAttachedEndpoint (ep_Id e) (Some e) (ats_Details req).
Proof.
  cbn. rewrite list_elem_of_bind. setoid_rewrite list_elem_of_bind. split.
  - intros (e & (x & Hs & Hx) & He). case_bool_decide as Hid; [|by apply not_elem_of_nil in Hs].
    apply list_elem_of_singleton in Hs as ->. exists e. split; [done|]. split; [|done].
    rewrite Hid. by apply list_elem_of_fmap_2.
  - intros (e & He & (x & Hid & Hx)%list_elem_of_fmap & ->). exists e. split; [|done]. exists x. split; [|done].
    rewrite bool_decide_eq_true_2 by done. by apply list_elem_of_singleton.
Qed.

Definition cond_route (c : AlertCondition) : string * string := (AlertCondition_Namespace c, condition_id c).

(** What a step or a loop leaves alone. *)
Definition same_setup (o o' : OpniRouterV1) : Prop :=
  ro_SyncedConfig o' = ro_SyncedConfig o /\ ro_HookEndpoint o' = ro_HookEndpoint o.

Lemma no_endpoints_effect endpMap cond o o' :
  attached_ids cond = [] ->
  SetNamespaceSpec (AlertCondition_Namespace cond) (condition_id cond) no_endpoints o = (o', Ok tt) ->
  exists m, receivers_of endpMap cond m /\
    (forall ns r, endpoints_of o' ns r = if decide (cond_route cond = (ns, r)) then m else endpoints_of o ns r) /\
    (forall ns r, has_route o' ns r <-> cond_route cond = (ns, r) \/ has_route o ns r) /\ same_setup o o'.
Proof.
  intros Ha H. apply SetNamespaceSpec_effect in H as (m & [= <-] & He & Hr & Hs). exists ∅.
  split; [|done]. intros k x. rewrite lookup_empty, Ha. split; [done|]. by intros [Hk%not_elem_of_nil _].
Qed.

Lemma route_condition_effect endpMap cond o o' :
  keyed endpMap -> route_condition endpMap cond o = (o', Ok tt) ->
  exists m, receivers_of endpMap cond m /\
    (forall ns r, endpoints_of o' ns r = if decide (cond_route cond = (ns, r)) then m else endpoints_of o ns r) /\
    (forall ns r, has_route o' ns r <-> cond_route cond = (ns, r) \/ has_route o ns r) /\ same_setup o o'.
Proof.
  intros Hk H. unfold route_condition in H.
  destruct (ac_AttachedEndpoints cond) as [ae|] eqn:Ea;
    [|apply (no_endpoints_effect endpMap) in H; [done | unfold attached_ids; by rewrite Ea]].
  case_bool_decide as Hl.
  { apply (no_endpoints_effect endpMap) in H; [done|]. unfold attached_ids. rewrite Ea. cbn. by destruct (ats_Items ae). }
  apply wbind_Ok in H as (cfgs & w1 & [= <- Hc] & H). apply omapM_Ok in Hc.
  assert (forall e, e ∈ cfgs -> exists k, k ∈ attached_ids cond /\ endpMap !! k = Some e /\ ep_Id e = k) as Hin.
  { intros e (i & Hi)%list_elem_of_lookup. destruct (Forall2_lookup_r _ _ _ _ _ Hc Hi) as (a & Ha & Hf).
    destruct (endpMap !! at_EndpointId a) as [e'|] eqn:E; [|done]. injection Hf as ->.
    exists (at_EndpointId a). unfold attached_ids. rewrite Ea. cbn. split; [|by auto].
    apply list_elem_of_fmap_2. by eapply list_elem_of_lookup_2. }
  assert (forall k, k ∈ attached_ids cond -> exists e, e ∈ cfgs /\ endpMap !! k = Some e) as Hout.
  { intros k. unfold attached_ids. rewrite Ea. cbn. intros (a & -> & (i & Hi)%list_elem_of_lookup)%list_elem_of_fmap.
    destruct (Forall2_lookup_l _ _ _ _ _ Hc Hi) as (e & He & Hf). exists e. split; [by eapply list_elem_of_lookup_2|].
    destruct (endpMap !! at_EndpointId a); [by injection Hf as -> | done]. }
  apply SetNamespaceSpec_effect in H as (m & Hm & He & Hr & Hs). exists m. split; [|done]. intros k x.
  rewrite (build_endpoints_lookup _ _ _ _ _ Hm).
  - split.
    + intros [(sp & (e & Hec & Hid & ->)%full_items_elem & <- & Hb) | [H _]]; [|by rewrite lookup_empty in H].
      destruct (Hin e Hec) as (k & Hk1 & Hk2 & Hk3). cbn [fe_EndpointId]. rewrite Hk3. split; [done|].
      exists e. split; [done|]. unfold attached_details. by rewrite Ea.
    + intros (Hka & e & Hke & Hb). left. destruct (Hout k Hka) as (e' & He' & Hke'). rewrite Hke in Hke'. injection Hke' as <-.
      exists (mkFullAttachedEndpoint (ep_Id e) (Some e) (ats_Details ae)). split; [|split; [by apply Hk|]].
      * apply full_items_elem. exists e. split; [done|]. split; [|done].
        rewrite (Hk _ _ Hke). unfold attached_ids in Hka. by rewrite Ea in Hka.
      * cbn. unfold attached_details in Hb. by rewrite Ea in Hb.
  - intros s1 s2 (e1 & He1 & _ & ->)%full_items_elem (e2 & He2 & _ & ->)%full_items_elem E. cbn in E |- *.
    destruct (Hin e1 He1) as (k1 & _ & Hk1 & E1), (Hin e2 He2) as (k2 & _ & Hk2 & E2). congruence.
Qed.

Lemma route_conditions_effect endpMap conds o o' :
  keyed endpMap -> NoDup (cond_route <$> conds) -> route_conditions endpMap conds o = (o', Ok tt) ->
  (forall cond, cond ∈ conds -> receivers_of endpMap cond (endpoints_of o' (cond_route cond).1 (cond_route cond).2)) /\
  (forall ns r, (ns, r) ∉ cond_route <$> conds -> endpoints_of o' ns r = endpoints_of o ns r) /\
  (forall ns r, has_route o' ns r <-> (ns, r) ∈ cond_route <$> conds \/ has_route o ns r) /\ same_setup o o'.
Proof.
  intros Hk. revert o. induction conds as [|c conds IH]; intros o Hnd H; cbn [route_conditions] in H.
  - injection H as <-. split_and!; [by intros ? ?%not_elem_of_nil | done | | by split].
    intros ns r. cbn. split; [by right|]. by intros [?%not_elem_of_nil | ?].
  - rewrite fmap_cons in Hnd. apply list.NoDup_cons in Hnd as [Hc Hnd].
    apply wbind_Ok in H as ([] & o1 & H1 & H). apply route_condition_effect in H1 as (m & Hm & He & Hr & Hs); [|done].
    apply IH in H as (I1 & I2 & I3 & I4); [|done]. split_and!.
    + intros cond [-> | Hcond]%elem_of_cons; [|by apply I1].
      rewrite I2 by (by destruct (cond_route c)). rewrite He, decide_True; [done|]. by destruct (cond_route c).
    + intros ns r. rewrite fmap_cons, not_elem_of_cons. intros [Hn1 Hn2]. rewrite I2, He, decide_False by done. done.
    + intros ns r. rewrite I3, Hr, fmap_cons, elem_of_cons. split; intros; naive_solver.
    + destruct Hs, I4. split; congruence.
Qed.

(** ** The whole sync *)

Lemma wstep_ok {A} (P : OpniRouterV1 -> Prop) (m : M OpniRouterV1 A) o o' res :
  (forall x, P x -> P (m x).1) -> P o -> m o = (o', res) -> P o'.
Proof. intros Hm Ho H. specialize (Hm o Ho). by rewrite H in Hm. Qed.

Lemma route_condition_ok endpMap cond o : router_ok o -> router_ok (route_condition endpMap cond o).1.
Proof.
  intros Ho. unfold route_condition. destruct (ac_AttachedEndpoints cond); [|by apply SetNamespaceSpec_ok].
  case_bool_decide; [by apply SetNamespaceSpec_ok|]. unfold wbind, wlift.
  destruct (omapM _ _); [by apply SetNamespaceSpec_ok | done..].
Qed.

Lemma route_conditions_ok endpMap conds o : router_ok o -> router_ok (route_conditions endpMap conds o).1.
Proof.
  revert o. induction conds as [|c conds IH]; intros o Ho; [done|]. cbn [route_conditions]. unfold wbind.
  pose proof (route_condition_ok endpMap c o Ho) as H. destruct (route_condition endpMap c o) as [o1 []]; [by apply IH | done..].
Qed.

(** The router of a sync from scratch. *)
Lemma route_all_effect conds endps h o :
  NoDup (cond_route <$> conds) -> route_all conds endps (NewOpniRouterV1 h) = (o, Ok tt) ->
  router_ok o /\
  (forall cond, cond ∈ conds ->
     receivers_of (endpoint_map endps) cond (endpoints_of o (AlertCondition_Namespace cond) (condition_id cond))) /\
  (forall ns r, has_route o ns r <-> (ns, r) ∈ cond_route <$> conds) /\
  ro_SyncedConfig o = None /\ ro_HookEndpoint o = h.
Proof.
  intros Hnd H. unfold route_all in H. apply wbind_Ok in H as ([] & o1 & H1 & H2).
  assert (router_ok o1) as Ho1.
  { eapply wstep_ok; [|apply (NewOpniRouterV1_ok h)|exact H1]. intros x. apply route_conditions_ok. }
  pose proof (wstep_ok router_ok _ _ _ _ (fun x => set_default_loop_ok _ _ x) Ho1 H2) as Ho.
  apply set_default_loop_frame in H2 as (Es & Ec & Eh & _).
  apply route_conditions_effect in H1 as (I1 & I2 & I3 & I4 & I5); [|apply endpoint_map_keyed|done].
  split; [done|]. split; [|split; [|split; [by rewrite Ec, I4 | by rewrite Eh, I5]]].
  - intros cond Hc. unfold endpoints_of. rewrite Es. by apply I1.
  - intros ns r. unfold has_route. rewrite Es. rewrite (I3 ns r). split; [|by left].
    intros [? | Hn]; [done|]. unfold has_route in Hn. cbn in Hn. rewrite inner_empty, dom_empty in Hn. set_solver.
Qed.

(** The labels of an alarm name its namespace and no other one. *)
Lemma Namespace_constant c : AlertCondition_Namespace c ∈
  ["disconnect"; "capability"; "cpu"; "memory"; "fs"; "kube-state"; "promql"; "monitoring-backend"; "default"].
Proof.
  unfold AlertCondition_Namespace. destruct (ac_AlertType c) as [[]|]; apply (bool_decide_eq_true_1 _); vm_compute; reflexivity.
Qed.

Lemma routing_label c ns :
  ns <> OpniSeverityLabel -> ns <> BackendConditionIdLabel ->
  map_get (AlertCondition_GetRoutingLabels c) ns = if decide (ns = AlertCondition_Namespace c) then ac_Id c else "".
Proof.
  intros H1 H2. unfold map_get, AlertCondition_GetRoutingLabels. case_decide as E.
  - by rewrite E, lookup_insert_eq.
  - by rewrite lookup_insert_ne, lookup_insert_ne, lookup_singleton_ne.
Qed.

Lemma constant_not_label ns :
  ns ∈ ["disconnect"; "capability"; "cpu"; "memory"; "fs"; "kube-state"; "promql"; "monitoring-backend"; "default"] ->
  ns <> OpniSeverityLabel /\ ns <> BackendConditionIdLabel /\ ns <> OpniDatasourceLabel.
Proof.
  intros H. rewrite !elem_of_cons, elem_of_nil in H.
  destruct H as [->|[->|[->|[->|[->|[->|[->|[->|[->|[]]]]]]]]]]; by vm_compute.
Qed.

Lemma condition_id_set c : ac_Id c <> "" -> condition_id c = ac_Id c.
Proof. intros H. unfold condition_id, is_empty. by rewrite bool_decide_eq_false_2. Qed.

Lemma NoDup_cond_route conds : NoDup (condition_id <$> conds) -> NoDup (cond_route <$> conds).
Proof.
  intros H. apply (NoDup_fmap_1 snd). rewrite <- list_fmap_compose.
  by rewrite (list_fmap_ext (snd ∘ cond_route) condition_id conds).
Qed.

Lemma routes_unique_of conds o :
  NoDup (condition_id <$> conds) -> (forall ns r, has_route o ns r <-> (ns, r) ∈ cond_route <$> conds) -> routes_unique o.
Proof.
  intros Hnd Hr ns1 ns2 r H1%Hr H2%Hr.
  apply list_elem_of_fmap in H1 as (c1 & [= -> E1] & Hc1), H2 as (c2 & [= -> E2] & Hc2). subst r.
  apply list_elem_of_lookup in Hc1 as (i & Hi), Hc2 as (j & Hj).
  assert (i = j) as ->; [|congruence].
  eapply (NoDup_lookup _ _ _ (condition_id c1) Hnd); rewrite list_lookup_fmap; [by rewrite Hi | rewrite Hj; cbn; congruence].
Qed.

(** Labels under which an alert is an alarm of a condition. *)
Definition alarm_labels (cond : AlertCondition) (l : gmap string string) : Prop :=
  forall ns, ns <> OpniSeverityLabel -> ns <> BackendConditionIdLabel -> ns <> "alertname" ->
    map_get l ns = if decide (ns = AlertCondition_Namespace cond) then ac_Id cond else "".

Lemma constant_not_alertname ns :
  ns ∈ ["disconnect"; "capability"; "cpu"; "memory"; "fs"; "kube-state"; "promql"; "monitoring-backend"; "default"] ->
  ns <> "alertname".
Proof. intros H ->. by apply (bool_decide_eq_false_1 _) in H. Qed.

Lemma alarm_namespace (conds : list AlertCondition) o cond l :
  (forall ns r, has_route o ns r <-> (ns, r) ∈ cond_route <$> conds) -> cond ∈ conds -> ac_Id cond <> "" ->
  (forall ns, ns ∈ dom (ro_NamespacedSpecs o) -> exists r, has_route o ns r) -> alarm_labels cond l ->
  namespace_of o l = Some (AlertCondition_Namespace cond).
Proof.
  intros Hr Hc Hid Hne Hl. pose proof (Namespace_constant cond) as Hk.
  destruct (constant_not_label _ Hk) as (L1 & L2 & _). pose proof (constant_not_alertname _ Hk) as L4.
  apply find_unique.
  - apply sorted_keys_elem, (inner_dom_ns _ _ (condition_id cond)), Hr. by apply list_elem_of_fmap_2 with (f := cond_route).
  - rewrite Hl, decide_True by done. unfold is_empty. by rewrite bool_decide_eq_false_2.
  - intros ns (r & Hn%Hr)%sorted_keys_elem%Hne. apply list_elem_of_fmap in Hn as (c & [= -> _] & _).
    destruct (constant_not_label _ (Namespace_constant c)) as (N1 & N2 & _).
    rewrite Hl by (done || apply constant_not_alertname, Namespace_constant). by case_decide.
Qed.

(** In a router of a sync every namespace has a route. *)
Definition populated (o : OpniRouterV1) : Prop :=
  forall ns, ns ∈ dom (ro_NamespacedSpecs o) -> exists r, has_route o ns r.

Lemma SetNamespaceSpec_populated ns r specs o : populated o -> populated (SetNamespaceSpec ns r specs o).1.
Proof.
  intros Ho. unfold SetNamespaceSpec. destruct (is_empty ns); [done|]. case_bool_decide; [done|].
  destruct (foreach _ _); [|done..]. destruct (build_endpoints _ _ _ _) as [m| |]; [|done..].
  intros ns'. unfold has_route. cbn. rewrite dom_insert_L, elem_of_union, elem_of_singleton.
  setoid_rewrite inner_insert. destruct (decide (ns = ns')) as [<-|Hn].
  - intros _. exists r. rewrite dom_insert_L. set_solver.
  - intros [? | Hd]; [done|]. by apply Ho.
Qed.

Lemma route_conditions_populated endpMap conds o : populated o -> populated (route_conditions endpMap conds o).1.
Proof.
  revert o. induction conds as [|c conds IH]; intros o Ho; [done|]. cbn [route_conditions]. unfold wbind.
  assert (populated (route_condition endpMap c o).1) as H.
  { unfold route_condition. destruct (ac_AttachedEndpoints c); [|by apply SetNamespaceSpec_populated].
    case_bool_decide; [by apply SetNamespaceSpec_populated|]. unfold wbind, wlift.
    destruct (omapM _ _); [by apply SetNamespaceSpec_populated | done..]. }
  destruct (route_condition endpMap c o) as [o1 []]; [by apply IH | done..].
Qed.

Lemma route_all_populated conds endps h o :
  route_all conds endps (NewOpniRouterV1 h) = (o, Ok tt) -> populated o.
Proof.
  unfold route_all. intros H. apply wbind_Ok in H as ([] & o1 & H1 & H2).
  apply set_default_loop_frame in H2 as (Es & _).
  assert (populated o1) as Ho1.
  { eapply wstep_ok; [|  |exact H1]; [intros x; apply route_conditions_populated|]. intros ns. cbn. set_solver. }
  intros ns. unfold has_route. rewrite Es. apply Ho1.
Qed.

Context {AM : Alertmanager}.

(** The delivery of an alarm, by its labels. *)
Lemma alarm_delivery (conds : list AlertCondition) endps h o http range g u c cond l :
  NoDup (condition_id <$> conds) -> route_all conds endps (NewOpniRouterV1 h) = (o, Ok tt) ->
  ranges_ok range o -> DefaultGlobalConfig http = Ok g -> url_Parse h = Some u ->
  BuildConfig http range o = Ok c -> cond ∈ conds -> ac_Id cond <> "" -> alarm_labels cond l ->
  let name := value_name (AlertCondition_Namespace cond) (ac_Id cond) in
  exists m, receivers_of (endpoint_map endps) cond m /\
    deliver l c = ((if decide (m = ∅) then [] else [name]) ++ [AlertingHookReceiverName])%list /\
    (m <> ∅ -> receiver_of name (endpoint_list m) ∈ cf_Receivers c).
Proof.
  intros Hnd Hra Hrg Hg Hu Hb Hc Hid Hl name.
  pose proof (route_all_populated _ _ _ _ Hra) as Hpop.
  apply route_all_effect in Hra as (Ho & He & Hr & Hs & Hh); [|by apply NoDup_cond_route].
  pose proof (routes_unique_of _ _ Hnd Hr) as Huq. rewrite <- Hh in Hu.
  specialize (He cond Hc). rewrite condition_id_set in He by done.
  exists (endpoints_of o (AlertCondition_Namespace cond) (ac_Id cond)). split; [done|].
  pose proof (Namespace_constant cond) as Hk. destruct (constant_not_label _ Hk) as (L1 & L2 & L3).
  pose proof (constant_not_alertname _ Hk) as L4. split.
  - rewrite (BuildConfig_eq http range o g u Ho Huq Hrg Hg Hu) in Hb. injection Hb as <-.
    rewrite deliver_built. unfold routing_table.
    assert (map_get l OpniDatasourceLabel = "") as ->
      by (rewrite Hl by done; rewrite decide_False; [done | by intros E; rewrite E in L3]).
    rewrite decide_True by done. rewrite (alarm_namespace conds o cond) by done.
    rewrite Hl, decide_True by done. unfold pick. f_equal.
    destruct (decide (endpoints_of o (AlertCondition_Namespace cond) (ac_Id cond) = ∅)) as [E|E].
    + rewrite decide_False; [done|]. rewrite live_routes_elem. unfold live. rewrite E. tauto.
    + by rewrite decide_True by (by rewrite live_routes_elem).
  - intros Hne. rewrite (BuildConfig_eq http range o g u Ho Huq Hrg Hg Hu) in Hb. injection Hb as <-.
    unfold built_config. rewrite Hs. cbn [cf_Receivers]. rewrite (built_receivers_perm _ _ Hs), elem_of_app. left.
    apply list_elem_of_fmap. exists (AlertCondition_Namespace cond, ac_Id cond). split; [done|].
    apply route_pairs_elem. rewrite live_routes_elem. split; [|done].
    apply (inner_dom_ns _ _ (ac_Id cond)), Hr. rewrite <- condition_id_set by done.
    by apply list_elem_of_fmap_2 with (f := cond_route).
Qed.

(** The names of a router of a sync, in the matchers of its routes. *)
Lemma constant_label ns :
  ns ∈ ["disconnect"; "capability"; "cpu"; "memory"; "fs"; "kube-state"; "promql"; "monitoring-backend"; "default"] ->
  no_char "."%char ns = true /\ (label_name ns = true \/ dashed_name ns = true) /\
  (dashed_name ns = true <-> ns ∈ ["kube-state"; "monitoring-backend"]).
Proof.
  intros H. rewrite !elem_of_cons, elem_of_nil in H.
  destruct H as [->|[->|[->|[->|[->|[->|[->|[->|[->|[]]]]]]]]]];
    (split; [done|]); (split; [(by left) || by right|]); rewrite !elem_of_cons, elem_of_nil; vm_compute; naive_solver.
Qed.

Lemma sync_plain_names (conds : list AlertCondition) o :
  populated o -> (forall ns r, has_route o ns r <-> (ns, r) ∈ cond_route <$> conds) ->
  (forall c, c ∈ conds -> ascii_text (condition_id c) = true) -> plain_names o.
Proof.
  intros Hpop Hr Hid. split.
  - intros ns (r & Hn%Hr)%Hpop. apply list_elem_of_fmap in Hn as (c & [= -> _] & _). apply constant_label, Namespace_constant.
  - intros ns r Hl. assert ((ns, r) ∈ cond_route <$> conds) as Hin.
    { apply Hr. unfold has_route. apply elem_of_dom. unfold live, endpoints_of, inner at 1 in Hl. destruct (inner _ ns !! r); [by eexists | done]. }
    apply list_elem_of_fmap in Hin as (c & [= -> ->] & Hc). by apply Hid.
Qed.

(** The delivery of an alarm by the configuration that Alertmanager reads. *)
Lemma loaded_alarm_delivery {TX : AmText} {TL : AmTextLaws} (conds : list AlertCondition) endps h o http range g u c c' cond l :
  NoDup (condition_id <$> conds) -> (forall x, x ∈ conds -> ascii_text (condition_id x) = true) ->
  route_all conds endps (NewOpniRouterV1 h) = (o, Ok tt) ->
  ranges_ok range o -> DefaultGlobalConfig http = Ok g -> url_Parse h = Some u ->
  BuildConfig http range o = Ok c -> load_Config http c = Ok c' -> cond ∈ conds -> ac_Id cond <> "" -> alarm_labels cond l ->
  let name := value_name (AlertCondition_Namespace cond) (ac_Id cond) in
  exists m, receivers_of (endpoint_map endps) cond m /\
    deliver l c' = ((if decide (m = ∅) then [] else [name]) ++ [AlertingHookReceiverName])%list /\
    (m <> ∅ -> exists r', r' ∈ cf_Receivers c' /\ rv_Name r' = name /\
       destinations r' = destinations (receiver_of name (endpoint_list m))).
Proof.
  intros Hnd Hid Hra Hrg Hg Hu Hb Hl Hc Hne Hal name.
  destruct (alarm_delivery conds endps h o http range g u c cond l) as (m & Hm & Hd & Hin); [done..|].
  pose proof (route_all_populated _ _ _ _ Hra) as Hpop.
  apply route_all_effect in Hra as (Ho & _ & Hr & Hs & Hh); [|by apply NoDup_cond_route].
  pose proof (routes_unique_of _ _ Hnd Hr) as Huq. rewrite <- Hh in Hu.
  rewrite (BuildConfig_eq http range o g u Ho Huq Hrg Hg Hu) in Hb. injection Hb as <-.
  exists m. split; [done|]. split.
  - etrans; [|exact Hd]. apply (loaded_delivery http); [done|by eapply sync_plain_names|done].
  - intros Hmne. eapply loaded_receiver; [exact Hs|exact Hl| |].
    + specialize (Hin Hmne). unfold built_config in Hin. by rewrite Hs in Hin.
    + intros x (k & (_ & e & _ & Hx)%Hm)%endpoint_list_elem. by eapply newReceiver_addressed.
Qed.

(** C6: an alarm reaches the endpoints attached to its condition.  When a sync computes
    the router from conditions with distinct ids, and Alertmanager reads the text of the
    configuration built from that router and accepts it, it delivers an alert with the
    labels of a condition to one receiver, which sends to exactly the endpoints attached
    to the condition, and to the hook; without attached endpoints it goes to the hook
    alone.  A configuration that is refused, such as one with a condition on the state of
    Kubernetes objects, is not covered. *)
Theorem alarm_reaches_attached_endpoints {TX : AmText} {TL : AmTextLaws} (conds : list AlertCondition) endps h o http range g u c c' cond :
  NoDup (condition_id <$> conds) -> (forall x, x ∈ conds -> ascii_text (condition_id x) = true) ->
  route_all conds endps (NewOpniRouterV1 h) = (o, Ok tt) ->
  ranges_ok range o -> DefaultGlobalConfig http = Ok g -> url_Parse h = Some u ->
  BuildConfig http range o = Ok c -> load_Config http c = Ok c' -> cond ∈ conds -> ac_Id cond <> "" ->
  let name := value_name (AlertCondition_Namespace cond) (ac_Id cond) in
  exists m, receivers_of (endpoint_map endps) cond m /\
    deliver (AlertCondition_GetRoutingLabels cond) c'
      = ((if decide (m = ∅) then [] else [name]) ++ [AlertingHookReceiverName])%list /\
    (m <> ∅ -> exists r', r' ∈ cf_Receivers c' /\ rv_Name r' = name /\
       destinations r' = destinations (receiver_of name (endpoint_list m))).
Proof.
  intros. eapply loaded_alarm_delivery; try done. intros ns ? ? _. by apply routing_label.
Qed.
End Sync.

(** ** A sync succeeds *)

Section Total.
Context {DL : DurationLib} {AP : AlertParsers}.

Definition endpoint_valid (e : AlertEndpoint) : Prop := AlertEndpoint_Validate e = Ok tt /\ slack_url_ok e.

(** What the API checks of a condition, and that its endpoints are stored. *)
Definition condition_valid (endpMap : gmap string AlertEndpoint) (cond : AlertCondition) : Prop :=
  match ac_AttachedEndpoints cond with
  | None => True
  | Some ae => AttachedEndpoints_Validate ae = Ok tt /\
               forall k, k ∈ at_EndpointId <$> ats_Items ae -> exists e, endpMap !! k = Some e /\ endpoint_valid e
  end.

Lemma SetNamespaceSpec_total ns r specs d o :
  ns <> "" -> ns <> DefaultSubTreeLabel ->
  (fes_Items specs = [] \/ fes_Details specs = Some d) ->
  (forall s, s ∈ fes_Items specs -> FullAttachedEndpoint_Validate s = Ok tt /\
     exists e, fe_AlertEndpoint s = Some e /\ endpoint_valid e) ->
  exists o', SetNamespaceSpec ns r specs o = (o', Ok tt).
Proof.
  intros Hne Hl Hd Hs. unfold SetNamespaceSpec, is_empty. rewrite !bool_decide_eq_false_2 by done.
  rewrite (proj2 (foreach_Ok _ _)) by (intros s H; by destruct (Hs s H)).
  destruct (build_endpoints_total fe_EndpointId
    (fun s => newReceiverImplementationFromEndpoint (fe_AlertEndpoint s) (fes_Details specs)) (fes_Items specs) ∅)
    as (m & ->); [|by eexists].
  intros s H. destruct (Hs s H) as (_ & e & -> & He1 & He2). destruct Hd as [Hd | ->].
  - rewrite Hd in H. by apply not_elem_of_nil in H.
  - by apply newReceiver_total.
Qed.

Lemma validate_items_elem {A} (key : A -> string) dup validate cache l :
  validate_items key dup validate cache l = Ok tt -> forall x, x ∈ l -> validate x = Ok tt.
Proof.
  revert cache. induction l as [|y l IH]; intros cache H x; [by intros Hx%not_elem_of_nil|]. cbn in H.
  open_ok H H1. open_ok H H2. rewrite elem_of_cons. intros [-> | Hx]; [done | by eapply IH].
Qed.

Lemma route_condition_total endpMap cond o :
  keyed endpMap -> condition_valid endpMap cond -> exists o', route_condition endpMap cond o = (o', Ok tt).
Proof.
  intros Hk Hv. unfold route_condition, condition_valid in *.
  pose proof (Namespace_constant cond) as Hc. destruct (constant_not_label _ Hc) as (L1 & _).
  assert (AlertCondition_Namespace cond <> "") as Hne by (intros E; rewrite E in Hc; by apply (bool_decide_eq_true_2 _) in Hc).
  set (d := mkEndpointImplementation "" "" None).
  destruct (ac_AttachedEndpoints cond) as [ae|];
    [|apply (SetNamespaceSpec_total _ _ _ d); [done|done|by left|by intros s Hs%not_elem_of_nil]].
  destruct Hv as [Hv He]. case_bool_decide.
  { apply (SetNamespaceSpec_total _ _ _ d); [done|done|by left|by intros s Hs%not_elem_of_nil]. }
  destruct (omapM_total (fun e => match endpMap !! at_EndpointId e with
      | Some endp => Ok endp | None => Err (StatusError codes_NotFound "endpoint not found") end) (ats_Items ae)) as (cfgs & Hcfg).
  { intros a Ha. destruct (He (at_EndpointId a)) as (e & -> & _); [by apply list_elem_of_fmap_2 | by eexists]. }
  unfold wbind, wlift. rewrite Hcfg. apply omapM_Ok in Hcfg. unfold AttachedEndpoints_Validate in Hv.
  destruct (ats_Details ae) as [da|] eqn:Ed; [|done]. open_ok Hv Hda.
  apply (SetNamespaceSpec_total _ _ _ da); [done|done|by right|].
  intros s (e & Hec & Hid & ->)%full_items_elem. apply list_elem_of_lookup in Hec as (i & Hi).
  destruct (Forall2_lookup_r _ _ _ _ _ Hcfg Hi) as (a & Ha%list_elem_of_lookup_2 & Hf).
  destruct (He (at_EndpointId a)) as (e' & E' & Hve); [by apply list_elem_of_fmap_2|]. rewrite E' in Hf. injection Hf as ->.
  split; [|by exists e]. unfold FullAttachedEndpoint_Validate. cbn [fe_EndpointId fe_Details fe_AlertEndpoint].
  pose proof (validate_items_elem _ _ _ _ _ Hv a Ha) as Hva. unfold AttachedEndpoint_Validate in Hva.
  apply fail_if_Ok in Hva. unfold reject at 1. rewrite (Hk _ _ E'), Hva, Ed. cbn [fail_if obind]. rewrite Hda. cbn [obind]. apply Hve.
Qed.

Lemma set_default_loop_total endps vals o :
  (forall e, e ∈ endps -> endpoint_valid e) -> exists o', set_default_loop endps vals o = (o', Ok tt).
Proof.
  intros He. revert o. induction vals as [|v vals IH]; intros o; cbn [set_default_loop]; [by eexists|].
  case_bool_decide; [by eexists|]. rewrite (proj2 (foreach_Ok _ _)) by (intros e Hx; apply (He e Hx)).
  destruct (build_endpoints_total ep_Id
    (fun e => newReceiverImplementationFromEndpoint (Some e) (Some default_details)) endps ∅) as (m & ->); [|apply IH].
  intros e Hx. destruct (He e Hx). by apply newReceiver_total.
Qed.

Lemma route_all_total (conds : list AlertCondition) endps o :
  (forall cond, cond ∈ conds -> condition_valid (endpoint_map endps) cond) ->
  (forall e, e ∈ endps -> wants_notifications e -> endpoint_valid e) ->
  exists o', route_all conds endps o = (o', Ok tt).
Proof.
  intros Hc He. unfold route_all.
  assert (exists o1, route_conditions (endpoint_map endps) conds o = (o1, Ok tt)) as (o1 & H1).
  { revert o Hc. induction conds as [|c conds IH]; intros o Hc; [by eexists|]. cbn [route_conditions].
    destruct (route_condition_total (endpoint_map endps) c o) as (o2 & H2);
      [apply endpoint_map_keyed | apply Hc; left | ].
    rewrite (wbind_eq_Ok _ _ _ _ _ H2). apply IH. intros cond Hx. apply Hc. by right. }
  rewrite (wbind_eq_Ok _ _ _ _ _ H1). apply set_default_loop_total.
  intros e [Hn Hx]%list_elem_of_filter. by apply He.
Qed.

(** C31: a sync of valid data cannot fail: when every stored condition and endpoint passes
    the validation of the API, the attached endpoints exist, and the URLs of Slack
    endpoints parse, the router is computed without an error and without a panic,
    whatever router it starts from; and when the conditions have distinct ids and the
    hook's URL parses, the configuration of a new router is built from it without an error
    and without a panic, in whatever order the build ranges over the namespaces. *)
Theorem sync_of_valid_data_succeeds (conds : list AlertCondition) endps http g h u :
  (forall cond, cond ∈ conds -> condition_valid (endpoint_map endps) cond) ->
  (forall e, e ∈ endps -> wants_notifications e -> endpoint_valid e) ->
  NoDup (condition_id <$> conds) -> DefaultGlobalConfig http = Ok g -> url_Parse h = Some u ->
  (forall o, exists o', route_all conds endps o = (o', Ok tt)) /\
  exists o, route_all conds endps (NewOpniRouterV1 h) = (o, Ok tt) /\
    forall range, ranges_ok range o -> exists c, BuildConfig http range o = Ok c.
Proof.
  intros Hc He Hnd Hg Hu. split; [intros o; by apply route_all_total|].
  destruct (route_all_total conds endps (NewOpniRouterV1 h) Hc He) as (o & Ho). exists o. split; [done|]. intros range Hr.
  apply route_all_effect in Ho as (Hok & _ & Hrt & Hs & Hh); [|by apply NoDup_cond_route]. rewrite <- Hh in Hu.
  eexists. by apply (BuildConfig_eq http range o g u Hok (routes_unique_of _ _ Hnd Hrt)).
Qed.
End Total.

(** ** A sync that fails *)

Section Failed.
Context {DL : DurationLib} {AP : AlertParsers} {SH : Sha256}.
Context {W : Type} {ST : AlertingStores W} (TS : option Time -> string).

Lemma CalculateHash_pure w rs hs conds endps :
  conds_List w = (w, Ok conds) -> endps_List false w = (w, Ok endps) ->
  CalculateHash TS SingleConfigId (mkClientSet w rs hs) =
    (mkClientSet w rs (<[SingleConfigId := hex_Encode (Sum256 (string_bytes (aggregate TS conds endps)))]> hs), Ok tt).
Proof.
  intros Hc He. unfold CalculateHash. rewrite bool_decide_eq_true_2 by done. unfold wbind, on_world. cbn.
  rewrite Hc. cbn. by rewrite He.
Qed.

(** A sync that fails is not tried again: the hash of the data is stored before the
    routers are computed, so the next sync of the same data finds nothing to do, reports
    success and leaves the routers as they were. *)
Lemma failed_sync_is_not_retried w rs hs conds endps full router router' c1 e :
  conds_List w = (w, Ok conds) -> endps_List false w = (w, Ok endps) -> endps_List true w = (w, Ok full) ->
  Sync TS router (mkClientSet w rs hs) = (c1, Err e) ->
  cl_routers c1 = rs /\ Sync TS router' c1 = (c1, Ok []).
Proof.
  intros Hc He Hf H. unfold Sync in H. rewrite (CalculateHash_pure _ _ _ _ _ Hc He) in H.
  case_bool_decide; [done|]. unfold calculateRouters, wbind, on_world in H. cbn in H. rewrite Hc in H. cbn in H. rewrite Hf in H. cbn in H.
  assert (c1 = mkClientSet w rs (<[SingleConfigId := hex_Encode (Sum256 (string_bytes (aggregate TS conds endps)))]> hs)) as ->
    by (destruct (route_all conds full router) as [o []]; by injection H).
  split; [done|]. unfold Sync. rewrite (CalculateHash_pure _ _ _ _ _ Hc He).
  unfold GetHash. cbn [cl_hashes]. rewrite insert_insert_eq. by rewrite bool_decide_eq_true_2.
Qed.
End Failed.
