(* ===== verification/AlertSyncValid.v ===== *)
(** The configuration that a sync of valid and complete data produces is accepted by
    Alertmanager. *)

From Stdlib Require Import Ascii.
From stdpp Require Import sorting.
From S2P Require Import Prelude GoStd Util Validation CoreV1 Etcd Tokens Management AlertingV1 AmConfig AlertRouting AlertRouter AlertRouterProps AlertBuild AlertDelivery AlertValid AlertStorage AlertSync.

Local Open Scope string_scope.

Section SyncValid.
Context {DL : DurationLib} {AP : AlertParsers}.

(** An endpoint that names all that Alertmanager needs: the sender of an email and its
    smart host with a port, an http URL for Slack and for a webhook. *)
Definition complete (e : AlertEndpoint) : Prop :=
  match ep_Endpoint e with
  | Some (AlertEndpoint_Email m) =>
      (exists f, em_SmtpFrom m = Some f /\ f <> "") /\
      (exists h a b, em_SmtpSmartHost m = Some h /\ Split ":"%char h = [a; b] /\ host_ok (mkHostPort a b))
  | Some (AlertEndpoint_Slack s) => exists u, url_Parse (sl_WebhookUrl s) = Some u /\ http_url u
  | Some (AlertEndpoint_Webhook w) => exists u, url_Parse (we_Url w) = Some u /\ http_url u
  | _ => True
  end.

Lemma newReceiver_ready e d x :
  AlertEndpoint_Validate e = Ok tt -> complete e ->
  newReceiverImplementationFromEndpoint (Some e) d = Ok x -> ready x.
Proof.
  unfold AlertEndpoint_Validate, complete, newReceiverImplementationFromEndpoint. intros Hv Hc H.
  open_ok Hv Hn. cbn in H. destruct (ep_Endpoint e) as [t|]; [|done].
  apply obind_Ok in H as (f & Hf & H). destruct d as [d|]; [|done]. injection H as <-.
  destruct t as [s|m|p|w].
  - destruct Hc as (u & Hu & Hs). unfold SlackConfig_Configure in Hf. rewrite Hu in Hf. injection Hf as <-.
    split; [by exists u|done].
  - destruct Hc as [(fr & Hfr & Hne) (h & a & b & Hh & Hs & Ha)].
    unfold EmailConfig_Configure in Hf. rewrite Hh, Hs in Hf. cbn in Hf. injection Hf as <-. cbn.
    unfold EmailEndpoint_Validate in Hv. open_ok Hv H1. apply fail_if_Ok, bool_decide_eq_false_1 in H1. rewrite Hfr.
    split; [done|]. split; [done|]. split; [done|].
    rewrite insert_insert_eq. rewrite insert_empty, map_size_singleton. lia.
  - injection Hf as <-. unfold PagerDutyEndpoint_Validate in Hv. open_ok Hv H1. apply fail_if_Ok in H1.
    cbn. split; [|done]. destruct (is_empty (pd_IntegrationKey p)) eqn:E1; cbn.
    + cbn in H1. rewrite H1. cbn. by apply bool_decide_eq_false_1 in H1.
    + by apply bool_decide_eq_false_1 in E1.
  - destruct Hc as (u & Hu & Hs). unfold WebhookConfig_Configure in Hf. rewrite Hu in Hf. injection Hf as <-.
    split; [by exists u|done].
Qed.

(** ** Default receivers and rate limits of a sync *)

Definition defaults_all (P : OpniReceiver -> Prop) (o : OpniRouterV1) : Prop :=
  forall v m k x, ro_DefaultNamespaceConfigs o !! v = Some m -> m !! k = Some x -> P x.

Lemma build_endpoints_all {B} (P : OpniReceiver -> Prop) (id : B -> string) build l acc m :
  (forall y x, y ∈ l -> build y = Ok x -> P x) -> (forall k x, acc !! k = Some x -> P x) ->
  build_endpoints id build l acc = Ok m -> forall k x, m !! k = Some x -> P x.
Proof.
  revert acc. induction l as [|y l IH]; intros acc Hl Hacc; cbn; [by intros [= <-]|].
  rewrite obind_Ok. intros (r & Hr & H). eapply IH; [| |exact H].
  - intros z x Hz. apply Hl. by right.
  - intros k x [[_ <-] | [_ Hx]]%lookup_insert_Some; [by eapply (Hl y); [left|] | by eapply Hacc].
Qed.

Lemma set_default_loop_all (P : OpniReceiver -> Prop) endps vals o :
  (forall e x, e ∈ endps -> AlertEndpoint_Validate e = Ok tt ->
     newReceiverImplementationFromEndpoint (Some e) (Some default_details) = Ok x -> P x) ->
  defaults_all P o -> defaults_all P (set_default_loop endps vals o).1.
Proof.
  intros HP. revert o. induction vals as [|v vals IH]; intros o Ho; [done|]. cbn [set_default_loop].
  case_bool_decide.
  - intros v0 m k x. cbn. intros [_ Hv]%lookup_delete_Some. by eapply Ho.
  - destruct (foreach AlertEndpoint_Validate endps) as [[]| |] eqn:Hf; [|done..].
    destruct (build_endpoints _ _ _ _) as [m| |] eqn:Hm; [|done..].
    apply IH. intros v0 m0 k x. cbn. intros [[_ <-] | [_ Hv]]%lookup_insert_Some; [|by eapply Ho].
    eapply (build_endpoints_all P); [| |exact Hm].
    + intros e y He. eapply HP; [done|]. by eapply foreach_Ok in Hf.
    + intros k' x'. by rewrite lookup_empty.
Qed.

Lemma SetNamespaceSpec_defaults ns r specs o :
  ro_DefaultNamespaceConfigs (SetNamespaceSpec ns r specs o).1 = ro_DefaultNamespaceConfigs o.
Proof.
  unfold SetNamespaceSpec. destruct (is_empty ns); [done|]. case_bool_decide; [done|].
  destruct (foreach _ _); [|done..]. by destruct (build_endpoints _ _ _ _).
Qed.

(** The times a condition sets, with the defaults of the router. *)
Definition limit_of_specs (specs : FullAttachedEndpoints) : rateLimitingConfig :=
  mkRateLimiting (duration_or (fes_InitialDelay specs) (mkDuration 60 0)) (duration_or (fes_RepeatInterval specs) (mkDuration 600 0))
    (duration_or (fes_ThrottlingDuration specs) (mkDuration 30 0)).
Definition attached_limit (ae : AttachedEndpoints) : rateLimitingConfig :=
  mkRateLimiting (duration_or (ats_InitialDelay ae) (mkDuration 60 0)) (duration_or (ats_RepeatInterval ae) (mkDuration 600 0))
    (duration_or (ats_ThrottlingDuration ae) (mkDuration 30 0)).

Lemma route_condition_SetNamespace endpMap cond o :
  (exists e, route_condition endpMap cond o = (o, e) /\ is_Ok e = false) \/
  exists specs, route_condition endpMap cond o = SetNamespaceSpec (AlertCondition_Namespace cond) (condition_id cond) specs o /\
    (fes_Items specs = [] \/ exists ae, ac_AttachedEndpoints cond = Some ae /\
       limit_of_specs specs = attached_limit ae).
Proof.
  unfold route_condition. destruct (ac_AttachedEndpoints cond) as [ae|]; [|right; eexists; split; [done | by left]].
  case_bool_decide; [right; eexists; split; [done | by left]|].
  unfold wbind, wlift. destruct (omapM _ _) as [l| |]; [|left; eauto..].
  right. eexists. split; [done|]. right. exists ae. done.
Qed.

Lemma route_conditions_defaults endpMap conds o :
  ro_DefaultNamespaceConfigs (route_conditions endpMap conds o).1 = ro_DefaultNamespaceConfigs o.
Proof.
  revert o. induction conds as [|c conds IH]; intros o; [done|]. cbn [route_conditions]. unfold wbind.
  assert (ro_DefaultNamespaceConfigs (route_condition endpMap c o).1 = ro_DefaultNamespaceConfigs o) as E.
  { destruct (route_condition_SetNamespace endpMap c o) as [(e & -> & _) | (specs & -> & _)]; [done|].
    apply SetNamespaceSpec_defaults. }
  destruct (route_condition endpMap c o) as [o1 []]; cbn in *; [by rewrite IH | done..].
Qed.

(** The limits of the routes that have endpoints. *)
Definition limits_ok (o : OpniRouterV1) : Prop := forall ns r, live o ns r -> limit_ok (limit_of o ns r).

(** The times of a condition are whole milliseconds or more, and its delay is not
    negative. *)
Definition durations_ok (cond : AlertCondition) : Prop :=
  forall ae, ac_AttachedEndpoints cond = Some ae -> limit_ok (attached_limit ae).

Lemma SetNamespaceSpec_limits ns r specs o :
  (fes_Items specs = [] \/ limit_ok (limit_of_specs specs)) -> limits_ok o -> limits_ok (SetNamespaceSpec ns r specs o).1.
Proof.
  intros Hs Ho. unfold SetNamespaceSpec. destruct (is_empty ns); [done|]. case_bool_decide; [done|].
  destruct (foreach _ _); [|done..]. destruct (build_endpoints _ _ _ _) as [m| |] eqn:Hm; [|done..].
  intros ns' r'. unfold live, limit_of, endpoints_of. cbn. rewrite !inner_insert.
  destruct (decide (ns = ns')) as [<-|Hn]; [|apply Ho]. rewrite inner_insert.
  destruct (decide (r = r')) as [<-|Hr]; [|rewrite lookup_insert_ne by done; apply Ho].
  rewrite lookup_insert_eq. cbn. destruct Hs as [Hs | Hs]; [|done]. rewrite Hs in Hm. by injection Hm as <-.
Qed.

Lemma route_conditions_limits endpMap conds o :
  (forall c, c ∈ conds -> durations_ok c) -> limits_ok o -> limits_ok (route_conditions endpMap conds o).1.
Proof.
  revert o. induction conds as [|c conds IH]; intros o Hc Ho; [done|]. cbn [route_conditions]. unfold wbind.
  assert (limits_ok (route_condition endpMap c o).1) as H.
  { destruct (route_condition_SetNamespace endpMap c o) as [(e & -> & _) | (specs & -> & Hs)]; [done|].
    apply SetNamespaceSpec_limits; [|done]. destruct Hs as [? | (ae & Ha & ->)]; [by left | right].
    by apply (Hc c ltac:(left)). }
  destruct (route_condition endpMap c o) as [o1 []]; [|done..]. apply IH; [|done]. intros c' Hc'. apply Hc. by right.
Qed.

(** ** The router of a sync is deployable *)

Lemma endpoint_map_elem endps k e : endpoint_map endps !! k = Some e -> e ∈ endps.
Proof.
  unfold endpoint_map. assert (forall m : gmap string AlertEndpoint,
    fold_left (fun m a => <[ep_Id a := a]> m) endps m !! k = Some e -> e ∈ endps \/ m !! k = Some e) as H.
  { induction endps as [|a l IH]; intros m; [by right|]. cbn. intros H%IH. rewrite elem_of_cons.
    destruct H as [H | [[_ <-] | [_ H]]%lookup_insert_Some]; auto. }
  intros [H0 | H0]%H; [done|]. by rewrite lookup_empty in H0.
Qed.

(** What a condition needs to be deployed: its times, an id of plain text, and that it is
    not of the kinds whose namespace has a dash. *)
Definition deployable_condition (c : AlertCondition) : Prop :=
  durations_ok c /\ ascii_text (condition_id c) = true /\ AlertCondition_Namespace c ∉ ["kube-state"; "monitoring-backend"].

Lemma route_all_deployable (conds : list AlertCondition) endps h o :
  NoDup (condition_id <$> conds) -> ("default", "hook") ∉ cond_route <$> conds ->
  (forall e, e ∈ endps -> AlertEndpoint_Validate e = Ok tt /\ complete e) ->
  (forall c, c ∈ conds -> deployable_condition c) ->
  route_all conds endps (NewOpniRouterV1 h) = (o, Ok tt) -> deployable o.
Proof.
  intros Hnd Hhook He Hd Hra. pose proof (route_all_populated _ _ _ _ Hra) as Hpop.
  pose proof (route_all_effect _ _ _ _ (NoDup_cond_route _ Hnd) Hra) as (Ho & Hrecv & Hr & Hs & Hh).
  assert (forall ns r, endpoints_of o ns r <> ∅ -> (ns, r) ∈ cond_route <$> conds) as Hlive.
  { intros ns r Hne. apply Hr. unfold has_route. apply elem_of_dom.
    unfold endpoints_of, inner at 1 in Hne. destruct (inner _ ns !! r); [by eexists | done]. }
  unfold route_all in Hra. apply wbind_Ok in Hra as ([] & o1 & H1 & H2). constructor.
  - intros ns (r & Hn%Hr)%Hpop. apply list_elem_of_fmap in Hn as (c & [= -> _] & Hc).
    destruct (constant_label _ (Namespace_constant c)) as (Hk & [Hl|Hl] & Hdash); [done|].
    apply Hdash in Hl. by destruct (Hd c Hc) as (_ & _ & []).
  - intros Hl. by apply Hhook, Hlive.
  - intros ns r (c & [= -> ->] & Hc)%Hlive%list_elem_of_fmap. apply (Hd c Hc).
  - intros ns r k x Hx. assert ((ns, r) ∈ cond_route <$> conds) as Hin
      by (apply Hlive; intros E; by rewrite E in Hx).
    apply list_elem_of_fmap in Hin as (c & [= -> ->] & Hc). apply (Hrecv c Hc) in Hx as (_ & e & Hk & Hb).
    apply endpoint_map_elem in Hk. destruct (He e Hk). by eapply newReceiver_ready.
  - assert (defaults_all ready o) as Hall; [|by apply Hall].
    assert (defaults_all ready o1) as Ho1.
    { intros v m k x Hv. pose proof (route_conditions_defaults (endpoint_map endps) conds (NewOpniRouterV1 h)) as E.
      rewrite H1 in E. cbn in E. rewrite E in Hv. by rewrite lookup_empty in Hv. }
    pose proof (set_default_loop_all ready (filter wants_notifications endps) DefaultSubTreeValues o1) as Hl.
    unfold SetDefaultNamespaceConfig in H2. rewrite H2 in Hl. apply Hl; [|done].
    intros e x [_ Hin]%list_elem_of_filter Hv. destruct (He e Hin). by eapply newReceiver_ready.
  - assert (limits_ok o1) as Hl1.
    { pose proof (route_conditions_limits (endpoint_map endps) conds (NewOpniRouterV1 h)) as Hl. rewrite H1 in Hl.
      apply Hl; [by intros c []%Hd|]. intros ns r. unfold live, endpoints_of. cbn. by rewrite !inner_empty. }
    apply set_default_loop_frame in H2 as (Es & _ & _ & El). intros ns r.
    unfold live, limit_of, endpoints_of. rewrite Es, El. apply Hl1.
Qed.

(** C12: a sync of valid and complete data, without the conditions whose namespace has a
    dash, yields a configuration that Alertmanager loads: the build does not panic, the
    text of the configuration is read back (matchers, hosts with ports, URLs and times
    parse), and every check passes: those of every receiver and every route, and those of
    the whole (receiver names are unique, every receiver that a route names is defined,
    the root matches everything).  What is loaded has the routing tree that was built, up
    to the order of matchers and times in milliseconds, and for every receiver one of the
    same name that sends to the same places. *)
Theorem synced_config_accepted `{!DurationLaws} {TX : AmText} {TL : AmTextLaws} (conds : list AlertCondition) endps h o http range g u :
  NoDup (condition_id <$> conds) -> ("default", "hook") ∉ cond_route <$> conds ->
  (forall e, e ∈ endps -> AlertEndpoint_Validate e = Ok tt /\ complete e) ->
  (forall c, c ∈ conds -> deployable_condition c) ->
  route_all conds endps (NewOpniRouterV1 h) = (o, Ok tt) -> ranges_ok range o ->
  DefaultGlobalConfig http = Ok g -> HTTP_Reread http = Ok http -> url_Parse h = Some u -> http_url u ->
  exists c c' r r', BuildConfig http range o = Ok c /\ load_Config http c = Ok c' /\
    cf_Route c = Some r /\ cf_Route c' = Some r' /\ reloaded r r' /\
    Forall2 (fun x x' => rv_Name x' = rv_Name x /\ destinations x' = destinations x) (cf_Receivers c) (cf_Receivers c').
Proof.
  intros Hnd Hhook He Hd Hra Hrg Hg Hh0 Hu Hhttp.
  pose proof (route_all_deployable _ _ _ _ Hnd Hhook He Hd Hra) as Hdep.
  apply route_all_effect in Hra as (Ho & _ & Hr & Hs & Hh); [|by apply NoDup_cond_route].
  rewrite <- Hh in Hu. destruct (built_config_loads http o g u) as (c' & Hc'); [done..|].
  destruct (loaded_config http o g u c' Hs (deployable_plain o Hdep)) as ((r' & Er' & Hrel) & _ & Hrv); [|done..|].
  { split; intros; apply ready_addressed; [by eapply (dep_specs _ Hdep)|by eapply (dep_defaults _ Hdep)]. }
  exists (built_config g o u), c', (root_route o), r'. rewrite built_config_eq in * by done. split_and!; [|done..].
  rewrite <- built_config_eq by done. pose proof (routes_unique_of _ _ Hnd Hr). by apply BuildConfig_eq.
Qed.

(** A sync with a condition on the state of Kubernetes objects or on the monitoring
    backend yields a configuration that Alertmanager refuses as a whole. *)
Lemma dashed_condition_refuses_all {TX : AmText} {TL : AmTextLaws} (conds : list AlertCondition) endps h o http range g u c cond :
  NoDup (condition_id <$> conds) -> (forall x, x ∈ conds -> ascii_text (condition_id x) = true) ->
  route_all conds endps (NewOpniRouterV1 h) = (o, Ok tt) -> ranges_ok range o ->
  DefaultGlobalConfig http = Ok g -> url_Parse h = Some u ->
  cond ∈ conds -> AlertCondition_Namespace cond ∈ ["kube-state"; "monitoring-backend"] ->
  BuildConfig http range o = Ok c -> is_Ok (load_Config http c) = false.
Proof.
  intros Hnd Hid Hra Hrg Hg Hu Hc Hd Hb. pose proof (route_all_populated _ _ _ _ Hra) as Hpop.
  apply route_all_effect in Hra as (Ho & _ & Hr & Hs & Hh); [|by apply NoDup_cond_route]. rewrite <- Hh in Hu.
  eapply (dashed_namespace_refuses_all http range o g u c (AlertCondition_Namespace cond)); try done.
  - by eapply routes_unique_of.
  - by eapply sync_plain_names.
  - apply (inner_dom_ns _ _ (condition_id cond)), Hr. by apply list_elem_of_fmap_2 with (f := cond_route).
  - destruct (constant_label _ (Namespace_constant cond)) as (_ & _ & Hk). by apply Hk.
Qed.
End SyncValid.
