(* ===== verification/AlertIncidents.v ===== *)
(** The incident tracker, the state cache, the redaction of secrets and the life of a
    router. *)

From Stdlib Require Import Ascii.
From stdpp Require Import sorting.
From S2P Require Import Prelude GoStd Util Validation CoreV1 Etcd Tokens Management AlertingV1 AmConfig AlertRouting AlertRouter AlertRouterProps AlertBuild AlertDelivery AlertValid AlertStorage AlertSync AlertSyncValid.

Local Open Scope string_scope.

(** ** Pruning *)

(** The intervals of a condition, as the tracker writes them: each starts, ends no earlier
    than it starts and before the next one starts, and only the last may be open. *)
Fixpoint ordered (l : list Interval) : Prop :=
  match l with
  | [] => True
  | i :: l' =>
      (exists s, iv_Start i = Some s /\
         match iv_End i with
         | None => l' = []
         | Some e => (s <= e)%Z /\ match l' with [] => True | j :: _ => (e <= AsTime (iv_Start j))%Z end
         end) /\ ordered l'
  end.

(** The reference: an interval that ended before the horizon is dropped, one that reaches
    over it is cut a minute after it, the others stay. *)
Definition keeps (h : Z) (i : Interval) : Prop :=
  match iv_End i with None => True | Some e => (h <= e)%Z end.
#[export] Instance keeps_dec h i : Decision (keeps h i).
Proof. unfold keeps. destruct (iv_End i); apply _. Defined.
Definition clip (h : Z) (i : Interval) : Interval :=
  match iv_End i with
  | Some e => if (AsTime (iv_Start i) <? h)%Z then mkInterval (Some (h + minute)%Z) (iv_End i) else i
  | None => i
  end.

Lemma ordered_recent h l :
  ordered l -> match l with [] => True | i :: _ => (h <= AsTime (iv_Start i))%Z end ->
  clip h <$> filter (keeps h) l = l.
Proof.
  induction l as [|i l IH]; [done|]. cbn [ordered]. intros [(s & Hs & He) Hl] Hh.
  rewrite Hs in Hh. cbn in Hh. rewrite filter_cons.
  destruct (iv_End i) as [e|] eqn:Ee.
  - destruct He as [Hse Hnext]. rewrite (decide_True (P := keeps h i)) by (unfold keeps; rewrite Ee; lia). rewrite fmap_cons. f_equal.
    + unfold clip. rewrite Ee, Hs. cbn. destruct (Z.ltb_spec s h); [lia | done].
    + apply IH; [done|]. destruct l; [done|]. lia.
  - subst l. rewrite (decide_True (P := keeps h i)) by (unfold keeps; by rewrite Ee). cbn. unfold clip. by rewrite Ee.
Qed.

Lemma prune_loop_recent h l :
  match l with [] => True | i :: _ => (h <= AsTime (iv_Start i))%Z end -> prune_loop h l = (0, l).
Proof. destruct l as [|i l]; [done|]. intros H. cbn. by destruct (Z.ltb_spec (AsTime (iv_Start i)) h); [lia|]. Qed.

Lemma prune_loop_spec h l : ordered l ->
  (let '(n, r) := prune_loop h l in drop n r) = clip h <$> filter (keeps h) l.
Proof.
  induction l as [|i l IH]; [done|]. intros Ho. pose proof Ho as [(s & Hs & He) Hl].
  destruct (Z.ltb_spec (AsTime (iv_Start i)) h) as [Hlt|Hge].
  - cbn [prune_loop]. rewrite (proj2 (Z.ltb_lt _ _) Hlt). rewrite filter_cons.
    destruct (iv_End i) as [e|] eqn:Ee.
    + destruct He as [Hse Hnext]. destruct (Z.ltb_spec e h) as [He|He].
      * rewrite (decide_False (P := keeps h i)) by (unfold keeps; rewrite Ee; lia).
        rewrite <- IH by done. by destruct (prune_loop h l).
      * rewrite (decide_True (P := keeps h i)) by (unfold keeps; rewrite Ee; lia).
        assert (match l with [] => True | j :: _ => (h <= AsTime (iv_Start j))%Z end) as Hr by (destruct l; [done | lia]).
        rewrite (prune_loop_recent _ _ Hr). cbn [drop]. rewrite fmap_cons, (ordered_recent h l) by done. f_equal.
        unfold clip. rewrite Ee. by rewrite (proj2 (Z.ltb_lt _ _) Hlt).
    + subst l. rewrite (decide_True (P := keeps h i)) by (unfold keeps; by rewrite Ee). cbn. unfold clip. by rewrite Ee.
  - rewrite prune_loop_recent by done. cbn [drop]. by rewrite ordered_recent.
Qed.

(** Pruning the intervals of a condition to a time to live is the reference
    definition, and bounds what is kept: an interval that has ended starts and ends no
    earlier than the horizon, and no interval that reaches the window is lost. *)
Lemma Prune_keeps_the_window now ttl l :
  ordered l -> (0 <= ttl <= int64_max)%Z ->
  let h := (now - ttl)%Z in
  Prune now ttl l = (clip h <$> filter (keeps h) l) /\
  (forall i e, i ∈ Prune now ttl l -> iv_End i = Some e -> (h <= AsTime (iv_Start i) /\ h <= e)%Z) /\
  (length (Prune now ttl l) <= length l).
Proof.
  intros Ho Ht h. assert (Prune now ttl l = clip h <$> filter (keeps h) l) as E.
  { unfold Prune. rewrite wrap64_id by (unfold in_int64, int64_min, int64_max in *; lia).
    replace (now + - ttl)%Z with h by (unfold h; lia). by apply prune_loop_spec. }
  rewrite E. split; [done|]. split.
  - intros i e (j & -> & [Hk Hj]%list_elem_of_filter)%list_elem_of_fmap He. unfold clip, keeps in *.
    destruct (iv_End j) as [e'|] eqn:Ej; [|congruence].
    destruct (Z.ltb_spec (AsTime (iv_Start j)) h); cbn [iv_End iv_Start AsTime default] in *.
    + injection He as <-. cbn. unfold minute. lia.
    + rewrite Ej in He. injection He as <-. lia.
  - rewrite length_fmap. apply length_filter.
Qed.

(** The prune of the tracker cuts an interval a minute after the horizon, even when the
    interval ends before that: its start then lies after its end. *)
Lemma Prune_inverts_interval now ttl s e :
  (0 <= ttl <= int64_max)%Z -> (s < now - ttl <= e)%Z -> (e < now - ttl + minute)%Z ->
  Prune now ttl [mkInterval (Some s) (Some e)] = [mkInterval (Some (now - ttl + minute)%Z) (Some e)].
Proof.
  intros Ht Hs He. unfold Prune. rewrite wrap64_id by (unfold in_int64, int64_min, int64_max in *; lia).
  replace (now + - ttl)%Z with (now - ttl)%Z by lia. cbn.
  rewrite (proj2 (Z.ltb_lt _ _)) by lia. by rewrite (proj2 (Z.ltb_ge _ _)) by lia.
Qed.

(** ** Opening and closing an incident *)

Lemma update_last_snoc f l i none : update_last f (l ++ [i])%list none = (l ++ f i)%list.
Proof. unfold update_last. rewrite rev_app_distr. cbn. by rewrite rev_involutive. Qed.

Definition recent (h : Z) (l : list Interval) : Prop :=
  match l with [] => True | i :: _ => (h <= AsTime (iv_Start i))%Z end.

Lemma Prune_recent now ttl l : (0 <= ttl <= int64_max)%Z -> recent (now - ttl) l -> Prune now ttl l = l.
Proof.
  intros Ht Hr. unfold Prune. rewrite wrap64_id by (unfold in_int64, int64_min, int64_max in *; lia).
  replace (now + - ttl)%Z with (now - ttl)%Z by lia. by rewrite prune_loop_recent.
Qed.

Lemma recent_snoc h l i j l2 :
  recent h (l ++ [i])%list -> AsTime (iv_Start j) = AsTime (iv_Start i) -> recent h (l ++ j :: l2)%list.
Proof. intros H Hj. destruct l; cbn in *; [by rewrite Hj | done]. Qed.

(** The tracker loses the end of an incident when the next one opens: after an
    incident that started at [s] was closed at [e], opening the next one at [t] leaves
    an interval from [s] to [t], whatever [e] was, so the healthy time between the two
    incidents is reported as firing. *)
Lemma reopening_overwrites_the_end now1 now2 ttl before s e t :
  (0 <= ttl <= int64_max)%Z ->
  recent (now1 - ttl) (before ++ [mkInterval (Some s) None])%list ->
  recent (now2 - ttl) (before ++ [mkInterval (Some s) None])%list ->
  let closed := Prune now1 ttl (close_items (Some e) (before ++ [mkInterval (Some s) None])%list) in
  closed = (before ++ [mkInterval (Some s) (Some e)])%list /\
  Prune now2 ttl (open_items (Some t) closed)
    = (before ++ [mkInterval (Some s) (Some t); mkInterval (Some t) None])%list.
Proof.
  intros Ht H1 H2 closed.
  assert (closed = (before ++ [mkInterval (Some s) (Some e)])%list) as ->.
  { unfold closed, close_items. rewrite update_last_snoc. cbn. apply Prune_recent; [done|]. by eapply recent_snoc. }
  split; [done|]. unfold open_items. rewrite update_last_snoc. cbn. apply Prune_recent; [done|]. by eapply recent_snoc.
Qed.

(** ** Secrets *)

Lemma set_endpoint_same e t : ep_Endpoint e = t -> forall t', set_endpoint t (set_endpoint t' e) = e.
Proof. intros <- t'. by destruct e. Qed.

(** Redaction and its inverse: restoring the secrets of a redacted endpoint from the
    stored one gives the stored one back, and the redacted form of a Slack, email or
    PagerDuty endpoint is the same for every URL, password or integration key. *)
Lemma unredact_restores_secrets e :
  UnredactSecrets (AlertEndpoint_RedactSecrets e) e = Ok e /\
  (forall u1 u2 ch, AlertEndpoint_RedactSecrets (set_endpoint (Some (AlertEndpoint_Slack (mkSlackEndpoint u1 ch))) e)
     = AlertEndpoint_RedactSecrets (set_endpoint (Some (AlertEndpoint_Slack (mkSlackEndpoint u2 ch))) e)) /\
  (forall p1 p2 m, AlertEndpoint_RedactSecrets (set_endpoint (Some (AlertEndpoint_Email (set_password p1 m))) e)
     = AlertEndpoint_RedactSecrets (set_endpoint (Some (AlertEndpoint_Email (set_password p2 m))) e)) /\
  (forall k1 k2 sk, AlertEndpoint_RedactSecrets (set_endpoint (Some (AlertEndpoint_PagerDuty (mkPagerDutyEndpoint k1 sk))) e)
     = AlertEndpoint_RedactSecrets (set_endpoint (Some (AlertEndpoint_PagerDuty (mkPagerDutyEndpoint k2 sk))) e)).
Proof.
  split; [|done]. destruct e as [n d t ps lu id]. unfold AlertEndpoint_RedactSecrets. cbn.
  destruct t as [[[u ch]|m|[ik sk]|w]|]; cbn; try done. by destruct m.
Qed.

(** ** The life of a router *)

Section Life.
Context {DL : DurationLib} {AP : AlertParsers}.

(** The operations on a router, in any order. *)
Inductive router_step : OpniRouterV1 -> OpniRouterV1 -> Prop :=
| step_sync_external y o : router_step o (SyncExternalConfig y o).1
| step_defaults endps o : router_step o (SetDefaultNamespaceConfig endps o).1
| step_spec ns r specs o : router_step o (SetNamespaceSpec ns r specs o).1
| step_update id spec o : router_step o (UpdateEndpoint id spec o).1
| step_delete id o : router_step o (DeleteEndpoint id o).

Inductive router_reachable (h : string) : OpniRouterV1 -> Prop :=
| reachable_new : router_reachable h (NewOpniRouterV1 h)
| reachable_step o o' : router_reachable h o -> router_step o o' -> router_reachable h o'.

Lemma router_reachable_ok h o : router_reachable h o -> router_ok o.
Proof.
  induction 1 as [|o o' _ Ho Hs]; [apply NewOpniRouterV1_ok|]. destruct Hs.
  - by apply SyncExternalConfig_ok.
  - by apply set_default_loop_ok.
  - by apply SetNamespaceSpec_ok.
  - by apply UpdateEndpoint_ok.
  - by apply DeleteEndpoint_ok.
Qed.

Lemma Clone_limits o : router_ok o ->
  map_imap (fun ns routes => Some (map_imap (fun routeId _ =>
    Some (default (mkRateLimiting 0 0 0) (inner (ro_NamespacedRateLimiting o) ns !! routeId))) routes))
    (ro_NamespacedSpecs o) = ro_NamespacedRateLimiting o.
Proof.
  intros Ho. apply map_eq. intros ns. rewrite map_lookup_imap.
  pose proof (ok_limits_ns _ Ho) as Hd. pose proof (ok_limits _ Ho ns) as Hi. unfold inner in *.
  destruct (ro_NamespacedSpecs o !! ns) as [m|] eqn:Es; cbn [mbind option_bind option_map fmap option_fmap default from_option] in *.
  - assert (ns ∈ dom (ro_NamespacedRateLimiting o)) as [ls El]%elem_of_dom by (rewrite Hd; by eapply elem_of_dom_2).
    rewrite El in Hi |- *. cbn in Hi |- *. f_equal. apply map_eq. intros r. rewrite map_lookup_imap.
    destruct (m !! r) as [v|] eqn:Er; cbn.
    + assert (r ∈ dom ls) as [x ->]%elem_of_dom; [|done]. rewrite Hi. by eapply elem_of_dom_2.
    + symmetry. apply not_elem_of_dom. rewrite Hi. by apply not_elem_of_dom.
  - cbn. symmetry. apply not_elem_of_dom. rewrite Hd. by apply not_elem_of_dom.
Qed.

(** Whatever operations a router has been through, it keeps its invariant (no
    namespace is empty or the default one, every receiver can be built, every route has
    its rate limits, no default value is left without endpoints), and a clone of it is
    equal to it. *)
Lemma router_invariant h o : router_reachable h o -> router_ok o /\ Clone o = o.
Proof.
  intros H%router_reachable_ok. split; [done|]. unfold Clone. rewrite Clone_limits by done. by destruct o.
Qed.

(** ** The effect of deleting and updating an endpoint *)

(** Deleting an endpoint removes it from every route and from every default value,
    and changes nothing else. *)
Lemma DeleteEndpoint_everywhere id o :
  let o' := DeleteEndpoint id o in
  (forall ns r k, endpoints_of o' ns r !! k = if decide (k = id) then None else endpoints_of o ns r !! k) /\
  (forall v m', ro_DefaultNamespaceConfigs o' !! v = Some m' -> m' !! id = None /\ m' <> ∅) /\
  (forall v m, ro_DefaultNamespaceConfigs o !! v = Some m -> v <> "" -> delete id m <> ∅ ->
     ro_DefaultNamespaceConfigs o' !! v = Some (delete id m)) /\
  ro_NamespacedRateLimiting o' = ro_NamespacedRateLimiting o /\ ro_SyncedConfig o' = ro_SyncedConfig o.
Proof.
  intros o'. split; [|split; [|split; [|done]]].
  - intros ns r k. unfold endpoints_of, o'. rewrite DeleteEndpoint_inner. unfold drop_endpoint.
    case_decide; subst; [by rewrite lookup_delete_eq | by rewrite lookup_delete_ne].
  - intros v m' (Hv & Hne & _)%map_lookup_filter_Some. cbn in Hv. rewrite lookup_fmap in Hv.
    destruct (ro_DefaultNamespaceConfigs o !! v); [|done]. injection Hv as <-. split; [apply lookup_delete_eq | done].
  - intros v m Hv Hn Hd. apply map_lookup_filter_Some. split; [|done]. cbn. by rewrite lookup_fmap, Hv.
Qed.

(** Updating an endpoint rebuilds its receiver in every route that has it; of the
    details the route was set up with only the flag to notify of resolved alerts
    survives, and no other receiver changes. *)
Lemma UpdateEndpoint_everywhere id spec o o' :
  UpdateEndpoint id spec o = (o', Ok tt) ->
  forall ns r k,
    match endpoints_of o ns r !! k with
    | None => endpoints_of o' ns r !! k = None
    | Some x =>
        if decide (k = id) then exists x', newReceiverImplementationFromEndpoint (Some spec) (ExtractInfo x) = Ok x' /\
                                           endpoints_of o' ns r !! k = Some x'
        else endpoints_of o' ns r !! k = Some x
    end.
Proof.
  unfold UpdateEndpoint. intros H ns r k. destruct (AlertEndpoint_Validate spec); [|done..].
  destruct (map_mapM (map_mapM _) _) as [m| |] eqn:Hm; [|done..].
  destruct (map_mapM _ (ro_DefaultNamespaceConfigs o)) as [d| |]; [|done..]. injection H as <-.
  assert (update_in id spec (endpoints_of o ns r) = Ok (inner (inner m ns) r)) as Hu.
  { unfold endpoints_of. apply map_mapM_inner; [apply update_in_empty|].
    by apply (map_mapM_inner (map_mapM _)); [apply map_mapM_empty|]. }
  unfold endpoints_of at 2 3 4. cbn. unfold update_in in Hu.
  destruct (endpoints_of o ns r !! id) as [x|] eqn:Ei.
  - apply obind_Ok in Hu as (x' & Hx & [= <-]). destruct (decide (k = id)) as [->|Hk].
    + rewrite Ei. exists x'. by rewrite lookup_insert_eq.
    + rewrite lookup_insert_ne by done. by destruct (endpoints_of o ns r !! k).
  - injection Hu as <-. destruct (endpoints_of o ns r !! k) eqn:Ek; [|done]. case_decide; [congruence | done].
Qed.
End Life.

(** ** Reference instances of the libraries that alerting stands on, and a small system:
    two conditions and two endpoints. *)

(** ** Instances *)

#[export] Instance DurationLib_ref : DurationLib := {
  CheckValid d := match d with Some _ => Ok tt | None => Err (ErrorString "invalid nil Duration") end;
  AsDuration d := match d with Some d => (du_Seconds d * second + du_Nanos d)%Z | None => 0%Z end }.
#[export] Instance DurationLaws_ref : DurationLaws.
Proof. by split. Qed.

(** A URL is its text; the absolute http and https ones parse. *)
Definition ref_parse (s : string) : option string :=
  if HasPrefix s "http://" || HasPrefix s "https://" then Some s else None.
#[export] Instance AlertParsers_ref : AlertParsers := {
  URL := string;
  url_Parse := ref_parse;
  url_ParseRequestURI := ref_parse;
  URL_Scheme u := if HasPrefix u "https://" then "https" else "http";
  URL_Host u := u;
  URL_Path u := "/";
  URL_with_path p u := u;
  mail_ParseAddress s := negb (is_empty s);
  promql_ParseExpr s := true;
  template_Parse s := true;
  LabelName_IsValid s := true }.

(** The text of a matcher is its name, its operator and its value between quotes. *)
Definition operator (t : MatchType) : string :=
  match t with MatchEqual => "=" | MatchNotEqual => "!=" | MatchRegexp => "=~" | MatchNotRegexp => "!~" end.
Fixpoint span_label (s : string) : string * string :=
  match s with
  | "" => ("", "")
  | String c t => if label_char c then let '(a, b) := span_label t in (String c a, b) else ("", s)
  end.
Fixpoint drop_last (s : string) : string :=
  match s with
  | "" => ""
  | String c "" => ""
  | String c t => String c (drop_last t)
  end.
Definition ref_ParseMatchers (s : string) : outcome (list Matcher) :=
  let '(name, rest) := span_label s in
  match rest with
  | String "="%char (String q v) =>
      if bool_decide (q = chr 34) && label_name name then Ok [mkMatcher MatchEqual name (drop_last v)] else Err (ErrorString "bad matcher format")
  | String "!"%char (String "="%char (String q v)) =>
      if bool_decide (q = chr 34) && label_name name then Ok [mkMatcher MatchNotEqual name (drop_last v)] else Err (ErrorString "bad matcher format")
  | _ => Err (ErrorString "bad matcher format")
  end.

Lemma span_label_app n c t : str_all label_char n = true -> label_char c = false -> span_label (n +:+ String c t) = (n, String c t).
Proof.
  intros Hn Hc. induction n as [|d n IH]; rewrite ?str_app_nil, ?str_app_cons; cbn [span_label]; [by rewrite Hc|].
  cbn [str_all] in Hn. apply andb_true_iff in Hn as [-> Hn]. by rewrite IH.
Qed.
Lemma drop_last_app v : drop_last (v +:+ dq) = v.
Proof.
  induction v as [|c v IH]; [done|]. rewrite str_app_cons. destruct v as [|d v]; [done|]. rewrite str_app_cons in *.
  change (String c (drop_last (String d (v +:+ dq))) = String c (String d v)). by rewrite IH.
Qed.
Lemma dashed_split s : no_char "-"%char s = false -> str_all (fun c => label_char c || bool_decide (c = "-"%char)) s = true ->
  exists n t, s = n +:+ String "-"%char t /\ str_all label_char n = true.
Proof.
  unfold no_char. induction s as [|c s IH]; [done|]. cbn [str_all]. intros Hd [Hc Hs]%andb_true_iff.
  destruct (decide (c = "-"%char)) as [->|E]; [by exists "", s|].
  rewrite (bool_decide_eq_false_2 ("-"%char = c)) in Hd by congruence. destruct (IH Hd Hs) as (n & t & -> & Hn).
  exists (String c n), t. split; [done|]. cbn [str_all]. rewrite Hn, andb_true_r. by rewrite bool_decide_eq_false_2, orb_false_r in Hc.
Qed.

#[export] Instance AmText_ref : AmText := {
  Matcher_String m := m_Name m +:+ (operator (m_Type m) +:+ dq +:+ m_Value m +:+ dq);
  ParseMatchers := ref_ParseMatchers;
  sort_Matchers l := l;
  net_SplitHostPort s := match Split ":"%char s with [h; p] => Ok (h, p) | _ => Err (ErrorString "missing port in address") end;
  Duration_String d := Sprint (d / millisecond)%Z;
  ParseDuration s := let? n := ParseInt s in Ok (n * millisecond)%Z;
  URL_String u := u;
  URL_Read s := match ref_parse s with Some u => Ok u | None => Err (ErrorString "unsupported scheme") end;
  HTTP_Reread h := Ok h;
  CanonicalMIMEHeaderKey s := s;
  ToLower s := s;
  contains_braces s := false }.

Lemma ref_parse_id s u : ref_parse s = Some u -> u = s.
Proof. unfold ref_parse. destruct (_ || _); [by intros [= <-]|done]. Qed.

#[export] Instance AmTextLaws_ref : AmTextLaws.
Proof.
  split.
  - intros [t n v] Hn Ht _. cbn in *. unfold ref_ParseMatchers.
    assert (str_all label_char n = true) as Hs by (destruct n; [done|]; by apply andb_true_iff in Hn as [_ ?]).
    destruct Ht as [-> | ->]; cbn [operator].
    + change (n +:+ ("=" +:+ dq +:+ v +:+ dq)) with (n +:+ String "="%char (String (chr 34) (v +:+ dq))).
      rewrite span_label_app by done. cbn -[drop_last dq]. by rewrite Hn, drop_last_app.
    + change (n +:+ ("!=" +:+ dq +:+ v +:+ dq)) with (n +:+ String "!"%char (String "="%char (String (chr 34) (v +:+ dq)))).
      rewrite span_label_app by done. cbn -[drop_last dq]. by rewrite Hn, drop_last_app.
  - intros [t n v] Hd. cbn [m_Name] in Hd. unfold dashed_name in Hd. apply andb_true_iff in Hd as [Hd Ha]. apply negb_true_iff in Hd.
    destruct (dashed_split n Hd Ha) as (a & b & -> & Hl).
    change (is_Ok (ref_ParseMatchers ((a +:+ String "-"%char b) +:+ (operator t +:+ dq +:+ v +:+ dq))) = false).
    generalize (operator t +:+ dq +:+ v +:+ dq) as w. intros w. rewrite str_app_assoc, str_app_cons.
    unfold ref_ParseMatchers. by rewrite span_label_app.
  - done.
  - intros h p Hh Hp. cbn. unfold plain_host in *. apply andb_true_iff in Hh as [[Hh _]%andb_true_iff _], Hp as [[Hp _]%andb_true_iff _].
    str_simpl. by rewrite Split_app, !Split_no_char.
  - intros d Hd. cbn. rewrite ParseInt_Sprint; [done|]. unfold millisecond. split.
    + pose proof (Z.div_pos d 1000000 ltac:(lia) ltac:(lia)). unfold int64_min. lia.
    + pose proof (Z.div_le_upper_bound d 1000000 int64_max ltac:(lia)) as H. apply H. unfold int64_max in *. lia.
  - intros u (_ & _ & s & Hs). cbn in *. pose proof (ref_parse_id _ _ Hs) as ->. by rewrite Hs.
  - intros s u Hs Hn. destruct Hn. pose proof (ref_parse_id _ _ Hs) as ->. split; [cbn; destruct (HasPrefix s "https://"); auto|].
    split; [|by exists s]. cbn in *. unfold ref_parse in Hs. by destruct s.
Qed.

Definition ref_matches (l : gmap string string) (m : Matcher) : bool :=
  match m_Type m with
  | MatchEqual => bool_decide (map_get l (m_Name m) = m_Value m)
  | MatchNotEqual => negb (bool_decide (map_get l (m_Name m) = m_Value m))
  | _ => false
  end.
Fixpoint ref_route_match (l : gmap string string) (parent : string) (r : Route) {struct r} : list string :=
  if forallb (ref_matches l) (rt_Matchers r)
  then or_self (own_receiver parent r)
         ((fix children (rs : list Route) : list string :=
             match rs with
             | [] => []
             | x :: rs =>
                 match ref_route_match l (own_receiver parent r) x with
                 | [] => children rs
                 | ms => if rt_Continue x then ms ++ children rs else ms
                 end%list
             end) (rt_Routes r))
  else [].

#[export] Instance Alertmanager_ref : Alertmanager.
Proof.
  refine {| matcher_matches := ref_matches; route_match := ref_route_match |}; [done..|].
  intros l parent [? ? ? ? ? ? ? ? ? ? routes ? ? ?] _ _. cbn. destruct (forallb _ _); [|done]. f_equal.
  generalize (own_receiver parent) as q. intros q. match goal with |- context [q ?r] => generalize (q r) as p end. intros p.
  induction routes as [|x rs IH]; [done|]. cbn. by rewrite IH.
Defined.

Definition ref_http : HTTPClientConfig := mkHTTPClientConfig None "".

(** ** A small system *)

Definition ref_endpoint (id : string) (t : endpoint_type) : AlertEndpoint :=
  mkAlertEndpoint id "" (Some t) {[ EndpointTagNotifications := "" ]} None id.
Definition slack_endpoint : AlertEndpoint :=
  ref_endpoint "e1" (AlertEndpoint_Slack (mkSlackEndpoint "https://hooks.slack.com/x" "#ops")).
Definition email_endpoint (host : option string) : AlertEndpoint :=
  ref_endpoint "e2" (AlertEndpoint_Email (mkEmailEndpoint "ops@example.com" (Some "opni@example.com") host None None None None)).
Definition ref_details : EndpointImplementation := mkEndpointImplementation "title" "body" (Some true).
Definition ref_condition (id : string) (t : AlertTypeDetails) (attached : list string) : AlertCondition :=
  mkAlertCondition id "" [] Severity_Critical (Some t)
    (Some (mkAttachedEndpoints (mkAttachedEndpoint <$> attached) None None None (Some ref_details)))
    None None id Golden_Custom "".
Definition ref_cond1 : AlertCondition :=
  ref_condition "c1" (AT_System (mkAlertConditionSystem (Some (mkReference "agent")) None)) ["e1"; "e2"].
Definition ref_cond2 : AlertCondition :=
  ref_condition "c2" (AT_DownstreamCapability (mkAlertConditionDownstreamCapability (Some (mkReference "agent")) ["x"]
     (Some (mkDuration 60 0)))) [].
Definition ref_conds : list AlertCondition := [ref_cond1; ref_cond2].
Definition ref_endps (host : option string) : list AlertEndpoint := [slack_endpoint; email_endpoint host].
Definition ref_hook : string := "http://localhost:3000".
Definition ref_router (host : option string) : OpniRouterV1 :=
  (route_all ref_conds (ref_endps host) (NewOpniRouterV1 ref_hook)).1.
Definition ref_ranges (o : OpniRouterV1) : ranges := fun _ _ _ => (map_to_list (ro_NamespacedSpecs o)).*1.
Definition ref_global : GlobalConfig :=
  match DefaultGlobalConfig ref_http with Ok g => g | _ => mkGlobalConfig 0 None "" "" (mkHostPort "" "") "" "" "" "" "" false
    None "" None None "" "" None "" "" None "" "" None None end.
Definition ref_config (host : option string) : Config :=
  match BuildConfig ref_http (ref_ranges (ref_router host)) (ref_router host) with
  | Ok c => c | _ => mkConfig None None [] [] [] [] []
  end.
Definition complete_host : option string := Some "smtp.example.com:587".

(** A result that evaluates to success. *)
Lemma run_eq {W} (p : W * outcome unit) : p.2 = Ok tt -> p = (p.1, Ok tt).
Proof. destruct p as [w o]. by intros <-. Qed.
Lemma ok_eq {A} (x : outcome A) d : is_Ok x = true -> x = Ok (match x with Ok a => a | _ => d end).
Proof. by destruct x. Qed.

Lemma ref_route_all_complete :
  route_all ref_conds (ref_endps complete_host) (NewOpniRouterV1 ref_hook) = (ref_router complete_host, Ok tt).
Proof. refine (run_eq (route_all ref_conds (ref_endps complete_host) (NewOpniRouterV1 ref_hook)) _). vm_compute. reflexivity. Qed.
Lemma ref_route_all_incomplete :
  route_all ref_conds (ref_endps None) (NewOpniRouterV1 ref_hook) = (ref_router None, Ok tt).
Proof. refine (run_eq (route_all ref_conds (ref_endps None) (NewOpniRouterV1 ref_hook)) _). vm_compute. reflexivity. Qed.
Lemma ref_global_eq : DefaultGlobalConfig ref_http = Ok ref_global.
Proof. apply ok_eq. vm_compute. reflexivity. Qed.
Lemma ref_build host : is_Ok (BuildConfig ref_http (ref_ranges (ref_router host)) (ref_router host)) = true ->
  BuildConfig ref_http (ref_ranges (ref_router host)) (ref_router host) = Ok (ref_config host).
Proof. apply ok_eq. Qed.
Lemma ref_build_complete : is_Ok (BuildConfig ref_http (ref_ranges (ref_router complete_host)) (ref_router complete_host)) = true.
Proof. vm_compute. reflexivity. Qed.
Lemma ref_build_incomplete : is_Ok (BuildConfig ref_http (ref_ranges (ref_router None)) (ref_router None)) = true.
Proof. vm_compute. reflexivity. Qed.
Lemma ref_ids_NoDup : NoDup (condition_id <$> ref_conds).
Proof. apply (bool_decide_eq_true_1 _). vm_compute. reflexivity. Qed.
Lemma ref_ranges_ok o : ranges_ok (ref_ranges o) o.
Proof. by intros b ns r. Qed.

(** The invariants of the example router, from the lemmas of a sync. *)
Lemma ref_router_ok host :
  route_all ref_conds (ref_endps host) (NewOpniRouterV1 ref_hook) = (ref_router host, Ok tt) ->
  router_ok (ref_router host) /\ routes_unique (ref_router host) /\ ro_SyncedConfig (ref_router host) = None /\
  ro_HookEndpoint (ref_router host) = ref_hook.
Proof.
  intros H. apply route_all_effect in H as (Ho & _ & Hr & Hs & Hh); [|apply NoDup_cond_route, ref_ids_NoDup].
  split; [done|]. split; [|done]. exact (routes_unique_of _ _ ref_ids_NoDup Hr).
Qed.

(** The email configuration of the incomplete system. *)
Definition the_email (x : option OpniReceiver) : EmailConfig :=
  match x with Some (RecvEmail e) => e | _ => zero_EmailConfig end.
Definition is_email (x : option OpniReceiver) : bool := match x with Some (RecvEmail _) => true | _ => false end.
Lemma the_email_eq x : is_email x = true -> x = Some (RecvEmail (the_email x)).
Proof. by destruct x as [[]|]. Qed.
Definition ref_email : option OpniReceiver := endpoints_of (ref_router None) "disconnect" "c1" !! "e2".
Lemma ref_email_is : is_email ref_email = true.
Proof. vm_compute. reflexivity. Qed.
Lemma ref_email_host : ec_Smarthost (the_email ref_email) = mkHostPort "" "".
Proof. vm_compute. reflexivity. Qed.

(** ** Witnesses *)

Lemma routing_tree_implements_table_witness :
  deliver (AlertCondition_GetRoutingLabels ref_cond1) (ref_config complete_host)
  = routing_table (ref_router complete_host) (AlertCondition_GetRoutingLabels ref_cond1).
Proof.
  destruct (ref_router_ok complete_host ref_route_all_complete) as (Ho & Hu & Hs & Hh).
  apply (routing_tree_implements_table ref_http (ref_ranges (ref_router complete_host)) (ref_router complete_host)
           ref_global ref_hook (ref_config complete_host) (AlertCondition_GetRoutingLabels ref_cond1) Ho Hu
           (ref_ranges_ok _) ref_global_eq).
  - rewrite Hh. reflexivity.
  - exact (ref_build _ ref_build_complete).
Defined.

(** One condition on the state of a Kubernetes object, without any endpoint, and the whole
    configuration is refused. *)
Definition kube_conds : list AlertCondition :=
  ref_condition "c3" (AT_KubeState (mkAlertConditionKubeState "agent" "pod" "opni" "opni" "Running" None)) [] :: ref_conds.
Example kube_state_config_refused :
  match route_all kube_conds (ref_endps complete_host) (NewOpniRouterV1 ref_hook) with
  | (o, Ok _) =>
      match BuildConfig ref_http (ref_ranges o) o with
      | Ok c => is_Ok (load_Config ref_http c) = false
      | _ => False
      end
  | _ => False
  end.
Proof. vm_compute. reflexivity. Qed.

(** What Alertmanager holds after it has read the configuration. *)
Definition ref_loaded : Config :=
  match load_Config ref_http (ref_config complete_host) with Ok c => c | _ => zero_Config end.
Lemma ref_loads : load_Config ref_http (ref_config complete_host) = Ok ref_loaded.
Proof. apply ok_eq. vm_compute. reflexivity. Qed.
Lemma ref_ids_ascii : forall x, x ∈ ref_conds -> ascii_text (condition_id x) = true.
Proof. intros x. unfold ref_conds. rewrite elem_of_cons, list_elem_of_singleton. by intros [-> | ->]. Qed.

Lemma alarm_reaches_attached_endpoints_witness :
  exists m, receivers_of (endpoint_map (ref_endps complete_host)) ref_cond1 m /\
    deliver (AlertCondition_GetRoutingLabels ref_cond1) ref_loaded
      = ((if decide (m = ∅) then [] else ["opni.disconnect.c1"]) ++ ["opni.default.hook"])%list /\
    (m <> ∅ -> exists r', r' ∈ cf_Receivers ref_loaded /\ rv_Name r' = "opni.disconnect.c1" /\
       destinations r' = destinations (receiver_of "opni.disconnect.c1" (endpoint_list m))).
Proof.
  apply (alarm_reaches_attached_endpoints ref_conds (ref_endps complete_host) ref_hook (ref_router complete_host) ref_http
           (ref_ranges (ref_router complete_host)) ref_global ref_hook (ref_config complete_host) ref_loaded ref_cond1
           ref_ids_NoDup ref_ids_ascii ref_route_all_complete (ref_ranges_ok _) ref_global_eq eq_refl (ref_build _ ref_build_complete)
           ref_loads).
  - left.
  - discriminate.
Defined.

Lemma ref_endpoints_valid : forall e, e ∈ ref_endps complete_host -> endpoint_valid e.
Proof.
  intros e. unfold ref_endps. rewrite elem_of_cons, list_elem_of_singleton.
  intros [-> | ->]; (split; [vm_compute; reflexivity|]); intros s Hs; [by injection Hs as <- | discriminate Hs].
Qed.

Lemma sync_of_valid_data_succeeds_witness :
  (forall o, exists o', route_all ref_conds (ref_endps complete_host) o = (o', Ok tt)) /\
  exists o, route_all ref_conds (ref_endps complete_host) (NewOpniRouterV1 ref_hook) = (o, Ok tt) /\
    forall range, ranges_ok range o -> exists c, BuildConfig ref_http range o = Ok c.
Proof.
  apply (sync_of_valid_data_succeeds ref_conds (ref_endps complete_host) ref_http ref_global ref_hook ref_hook).
  - intros c. unfold ref_conds. rewrite elem_of_cons, list_elem_of_singleton.
    intros [-> | ->]; (split; [vm_compute; reflexivity|]); intros k; cbn.
    + rewrite elem_of_cons, list_elem_of_singleton. intros [-> | ->].
      * exists slack_endpoint. split; [vm_compute; reflexivity | apply ref_endpoints_valid; left].
      * exists (email_endpoint complete_host). split; [vm_compute; reflexivity | apply ref_endpoints_valid; right; left].
    + by intros H%not_elem_of_nil.
  - intros e He _. by apply ref_endpoints_valid.
  - exact ref_ids_NoDup.
  - exact ref_global_eq.
  - reflexivity.
Defined.

(** The stores of the example: they always answer the same. *)
Definition ref_stores : AlertingStores unit := {|
  conds_List := wret [ref_condition "c1" (AT_System (mkAlertConditionSystem None None)) ["gone"]];
  endps_List := fun _ => wret [] |}.
#[export] Instance Sha256_zero : Sha256.
Proof. refine {| Sum256 := fun _ => replicate 32 0%Z |}; [done|]. intros _. by repeat constructor. Defined.

Lemma ref_http_url s : ref_parse s = Some s -> http_url s.
Proof.
  intros H. split; [cbn; destruct (HasPrefix s "https://"); auto|]. split; [|by exists s]. cbn. by destruct s.
Qed.

Lemma synced_config_accepted_witness :
  exists c c' r r', BuildConfig ref_http (ref_ranges (ref_router complete_host)) (ref_router complete_host) = Ok c /\
    load_Config ref_http c = Ok c' /\ cf_Route c = Some r /\ cf_Route c' = Some r' /\ reloaded r r' /\
    Forall2 (fun x x' => rv_Name x' = rv_Name x /\ destinations x' = destinations x) (cf_Receivers c) (cf_Receivers c').
Proof.
  apply (synced_config_accepted ref_conds (ref_endps complete_host) ref_hook (ref_router complete_host) ref_http
           (ref_ranges (ref_router complete_host)) ref_global ref_hook ref_ids_NoDup).
  - apply (bool_decide_eq_true_1 _). vm_compute. reflexivity.
  - intros e. unfold ref_endps. rewrite elem_of_cons, list_elem_of_singleton. intros [-> | ->].
    + split; [vm_compute; reflexivity|]. exists "https://hooks.slack.com/x". split; [reflexivity|]. by apply ref_http_url.
    + split; [vm_compute; reflexivity|]. split; [by exists "opni@example.com"|].
      exists "smtp.example.com:587", "smtp.example.com", "587". by vm_compute.
  - intros c. unfold ref_conds. rewrite elem_of_cons, list_elem_of_singleton.
    intros [-> | ->]; (split; [intros ae Ha; injection Ha as <-; by vm_compute|]); (split; [reflexivity|]);
      apply (bool_decide_eq_true_1 _); vm_compute; reflexivity.
  - exact ref_route_all_complete.
  - apply ref_ranges_ok.
  - exact ref_global_eq.
  - reflexivity.
  - reflexivity.
  - by apply ref_http_url.
Defined.

