(* ===== verification/SloV1.v ===== *)
(** plugins/slo/pkg/apis/slo (slo.proto, validate.go, extension.go) and pkg/slo/shared:
    the messages of the SLO API and their validation; what the code uses of float64,
    as the IEEE 754 operations of [SpecFloat] at 53 bits. *)

From Stdlib Require Import SpecFloat.
From S2P Require Import Prelude GoStd CoreV1 Management AlertingV1.
Open Scope string_scope.

(** ** float64 *)

Definition float64 := spec_float.

(** The conversion of an integer, rounded to nearest, ties to even. *)
Definition of_int (z : Z) : float64 := binary_normalize 53 1024 z 0 false.
Definition fadd (x y : float64) : float64 := SFadd 53 1024 x y.
Definition fsub (x y : float64) : float64 := SFsub 53 1024 x y.
Definition fmul (x y : float64) : float64 := SFmul 53 1024 x y.
Definition fdiv (x y : float64) : float64 := SFdiv 53 1024 x y.

(** [time.Duration.Hours]. *)
Definition Hours (d : Z) : float64 :=
  fadd (of_int (Z.quot d hour)) (fdiv (of_int (Z.rem d hour)) (of_int hour)).

(** The nearest integer to [m * 2^e * 10^9], ties to even. *)
Definition scaled (m : positive) (e : Z) : Z :=
  let n := (Z.pos m * 1000000000)%Z in
  if (0 <=? e)%Z then (n * 2 ^ e)%Z
  else
    let d := (2 ^ (- e))%Z in
    let q := (n / d)%Z in
    let r := (n mod d)%Z in
    if (2 * r <? d)%Z then q
    else if (d <? 2 * r)%Z then (q + 1)%Z
    else if Z.even q then q else (q + 1)%Z.

(** [s] padded with zeros on the left to nine digits. *)
Definition pad9 (s : string) : string := Repeat "0" (9 - String.length s) +:+ s.

(** The verb [%.9f]. *)
Definition fmt_9f (x : float64) : string :=
  match x with
  | S754_zero s => (if s then "-" else "") +:+ "0.000000000"
  | S754_infinity s => if s then "-Inf" else "+Inf"
  | S754_nan => "NaN"
  | S754_finite s m e =>
      let n := scaled m e in
      (if s then "-" else "") +:+ Sprint (n / 1000000000) +:+ "." +:+ pad9 (Sprint (n mod 1000000000))
  end.

(** ** pkg/slo/shared *)

Definition LoggingDatasource : string := "logging".
Definition MonitoringDatasource : string := "monitoring".
Definition ErrInvalidDatasource : error := StatusError codes_NotFound "Invalid required datasource value".

(** ** slo.proto

    A repeated field decodes to nil exactly when it is empty, so nil is the empty list. *)

Record Event := mkEvent { ev_Key : string; ev_Vals : list string }.

Record ServiceLevelObjective := mkServiceLevelObjective {
  so_Name : string;
  so_Datasource : string;
  so_ClusterId : string;
  so_ServiceId : string;
  so_GoodMetricName : string;
  so_TotalMetricName : string;
  so_GoodEvents : list Event;
  so_TotalEvents : list Event;
  so_SloPeriod : string;
  so_BudgetingInterval : option Duration;
  so_Target : option float64;
  so_Labels : list string;
  so_AttachedEndpoints : option AttachedEndpoints }.

Record SLOData := mkSLOData {
  sd_Id : string;
  sd_SLO : option ServiceLevelObjective;
  sd_CreatedAt : option Time }.

Inductive SLOStatusState :=
| SLO_InProgress | SLO_Creating | SLO_NoData | SLO_Ok | SLO_Warning | SLO_Breaching
| SLO_PartialDataOk | SLO_InternalError.

Record AlertFiringWindows := mkAlertFiringWindows {
  aw_Start : Time; aw_End : option Time; aw_Severity : string }.

Definition set_events (good total : list Event) (s : ServiceLevelObjective) : ServiceLevelObjective :=
  mkServiceLevelObjective (so_Name s) (so_Datasource s) (so_ClusterId s) (so_ServiceId s)
    (so_GoodMetricName s) (so_TotalMetricName s) good total (so_SloPeriod s) (so_BudgetingInterval s)
    (so_Target s) (so_Labels s) (so_AttachedEndpoints s).
Definition set_slo_name (name : string) (s : ServiceLevelObjective) : ServiceLevelObjective :=
  mkServiceLevelObjective name (so_Datasource s) (so_ClusterId s) (so_ServiceId s)
    (so_GoodMetricName s) (so_TotalMetricName s) (so_GoodEvents s) (so_TotalEvents s) (so_SloPeriod s)
    (so_BudgetingInterval s) (so_Target s) (so_Labels s) (so_AttachedEndpoints s).

(** ** The Prometheus libraries *)

(** Durations and expressions of PromQL: their parsers, and the text of a duration. *)
Class PromLib := {
  prom_ParseDuration : string -> outcome Z;
  prom_String : Z -> string;
  prom_ParseExpr : string -> outcome unit }.

(** ** validate.go *)

Section Validate.
Context {DL : DurationLib} {PL : PromLib}.

Definition target_value (t : option float64) : float64 := default (S754_zero false) t.

Definition Event_Validate (v : Event) : outcome unit :=
  reject (is_empty (ev_Key v)) "If an event is provided, its key must be set" ;?
  foreach (fun vals => reject (is_empty vals) "If an event is provided, one of its values cannot be empty")
    (ev_Vals v).

Definition datasource_ok (d : string) : bool :=
  bool_decide (d = MonitoringDatasource) || bool_decide (d = LoggingDatasource).

Definition ServiceLevelObjective_Validate (slo : ServiceLevelObjective) : outcome unit :=
  reject (match so_Target slo with None => true | Some _ => false end) "Target must be set for an SLO" ;?
  let v := target_value (so_Target slo) in
  reject (SFltb v (S754_zero false) || SFltb (of_int 100) v) "objective must be between 0 and 100" ;?
  reject (is_empty (so_SloPeriod slo)) "sloPeriod must be set" ;?
  match prom_ParseDuration (so_SloPeriod slo) with
  | Err _ => Err (ValidationError "Passed in sloPeriod string is not a valid prometheus duration")
  | Panic p => Panic p
  | Ok _ => Ok tt
  end ;?
  fail_if (negb (datasource_ok (so_Datasource slo))) ErrInvalidDatasource ;?
  reject (is_empty (so_Name slo)) "slo name must be set" ;?
  reject (is_empty (so_ServiceId slo)) "service must be set" ;?
  reject (is_empty (so_GoodMetricName slo)) "goodMetricName must be set" ;?
  reject (is_empty (so_TotalMetricName slo)) "totalMetricName must be set" ;?
  reject (is_empty (so_ClusterId slo)) "clusterId must be set" ;?
  reject (bool_decide (length (so_GoodEvents slo) = 0)) "goodEvents must always be set for creating an SLO" ;?
  foreach Event_Validate (so_GoodEvents slo) ;?
  let interval := AsDuration (so_BudgetingInterval slo) in
  reject ((interval <? minute)%Z || (hour <? interval)%Z) "budgetingInterval must be between 1 minute and 1 hour" ;?
  match so_AttachedEndpoints slo with
  | Some a => if bool_decide (0 < length (ats_Items a)) then AttachedEndpoints_Validate a else Ok tt
  | None => Ok tt
  end.

Definition CreateSLORequest_Validate (slo : option ServiceLevelObjective) : outcome unit :=
  match slo with
  | None => Err (ValidationError "creating SLO : slo attribute must be set")
  | Some slo => ServiceLevelObjective_Validate slo
  end.

Definition SLOData_Validate (s : SLOData) : outcome unit :=
  match sd_SLO s with
  | None => Err (ValidationError "SLO data : slo attribute must be set")
  | Some slo => ServiceLevelObjective_Validate slo
  end.

Definition ListServicesRequest_Validate (datasource clusterId : string) : outcome unit :=
  reject (is_empty datasource) "datasource must be set" ;?
  fail_if (negb (datasource_ok datasource)) ErrInvalidDatasource ;?
  reject (is_empty clusterId) "clusterId must be set".

Definition ListMetricsRequest_Validate (datasource clusterId serviceId : string) : outcome unit :=
  ListServicesRequest_Validate datasource clusterId ;?
  reject (is_empty serviceId) "serviceId must be set".

Definition ListEventsRequest_Validate (datasource clusterId serviceId metricId : string) : outcome unit :=
  reject (is_empty datasource) "datasource must be set" ;?
  fail_if (negb (datasource_ok datasource)) ErrInvalidDatasource ;?
  reject (is_empty serviceId) "serviceId must be set" ;?
  reject (is_empty clusterId) "clusterId must be set" ;?
  reject (is_empty metricId) "metricId must be set".
End Validate.

(** ** extension.go *)

(** [order] is the order in which the groups are ranged over. *)
Definition MetricGroupList_ContainsId (order : list (list string)) (id : string) : bool :=
  bool_decide (id ∈ concat order).

(** The result is negated. *)
Definition ServiceList_ContainsId (services : list string) (id : string) : bool :=
  negb (bool_decide (id ∈ services)).
