(* ===== verification/SloRules.v ===== *)
(** plugins/slo/pkg/slo (simple.go, util.go, window.go) and
    pkg/alerting/metrics/construct.go: the recording, metadata and alerting rules of an
    SLO, and the windows in which its alerts fire. *)

From Stdlib Require Import SpecFloat Ascii.
From S2P Require Import Prelude GoStd CoreV1 AlertingV1 SloV1.
Open Scope string_scope.

(** ** Names *)

Definition grafana_delete_mask : string := "slo_opni_delete".
Definition slo_uuid : string := "slo_opni_id".
Definition slo_service : string := "slo_opni_service".
Definition slo_name : string := "slo_opni_name".
Definition slo_window : string := "slo_window".
Definition slo_ratio_rate_query_name : string := "slo:sli_error:ratio_rate".
Definition slo_alert_ticket_window : string := "slo:alert:ticket_window".
Definition slo_alert_page_window : string := "slo:alert:page_window".
Definition slo_objective_ratio : string := "slo:objective:ratio".
Definition slo_error_budget_ratio : string := "slo:error_budget:ratio".
Definition slo_time_period_days : string := "slo:time_period:days".
Definition slo_current_burn_rate_ratio : string := "slo:current_burn_rate:ratio".
Definition slo_period_burn_rate_ratio : string := "slo:period_burn_rate:ratio".
Definition slo_period_error_budget_remaining_ratio : string := "slo:period_error_budget_remaining:ratio".
Definition slo_info : string := "opni_slo_info".
Definition RecordingRuleSuffix : string := "-recording".
Definition MetadataRuleSuffix : string := "-metadata".
Definition AlertRuleSuffix : string := "-alerts".

Definition quote : string := String (ascii_of_nat 34) "".
Definition lf : string := String (ascii_of_nat 10) "".
Definition quoted (s : string) : string := quote +:+ s +:+ quote.

(** ** util.go *)

(** [MergeLabels]: later maps win. *)
Definition MergeLabels (ms : list (gmap string string)) : gmap string string :=
  fold_left (fun res m => m ∪ res) ms ∅.

Definition LeftJoinSliceAbstract {T S} `{EqDecision S} (getId : T -> S) (arr1 arr2 : list T) : list T :=
  (arr1 ++ filter (fun v => getId v ∉ map getId arr1) arr2)%list.

Definition LeftJoinSlice {T} `{EqDecision T} (arr1 arr2 : list T) : list T :=
  (arr1 ++ filter (fun v => v ∉ arr1) arr2)%list.

(** The template [mwmbAlertTplBool]: one metric against one factor of the budget. *)
Definition burning (metric filter factor budget : string) : string :=
  "max(" +:+ metric +:+ filter +:+ " > bool (" +:+ factor +:+ " * " +:+ budget +:+ ")) without (" +:+
  slo_window +:+ ")".

Definition mwmbAlertTplBool (quickShortMetric quickLongMetric slowShortMetric slowQuickMetric
    quickShortBurnFactor quickLongBurnFactor slowShortBurnFactor slowQuickBurnFactor
    errorBudgetRatio metricFilter : string) : string :=
  "(" +:+ burning quickShortMetric metricFilter quickShortBurnFactor errorBudgetRatio +:+ " and " +:+
  burning quickLongMetric metricFilter quickLongBurnFactor errorBudgetRatio +:+ ") or (" +:+
  burning slowShortMetric metricFilter slowShortBurnFactor errorBudgetRatio +:+ " and " +:+
  burning slowQuickMetric metricFilter slowQuickBurnFactor errorBudgetRatio +:+ ")".

(** ** window.go *)

Record Window := mkWindow {
  wi_ErrorBudgetPercent : float64; wi_ShortWindow : Z; wi_LongWindow : Z }.

Record Windows := mkWindows {
  ws_SLOPeriod : Z; ws_PageQuick : Window; ws_PageSlow : Window; ws_TicketQuick : Window; ws_TicketSlow : Window }.

(** Products of durations wrap around. *)
Definition dmul (d n : Z) : Z := wrap64 (d * n).

Definition GenerateGoogleWindows (budgetingInterval : Z) : Windows :=
  let pageQuickShort := budgetingInterval in
  let pageQuickLong := dmul budgetingInterval 12 in
  let pageSlowShort := dmul budgetingInterval 6 in
  let pageSlowLong := dmul pageSlowShort 12 in
  let ticketQuickShort := dmul pageSlowShort 4 in
  let ticketQuickLong := dmul ticketQuickShort 12 in
  let ticketSlowShort := dmul ticketQuickShort 3 in
  let ticketSlowLong := dmul ticketQuickLong 3 in
  mkWindows budgetingInterval
    (mkWindow (of_int 2) pageQuickShort pageQuickLong)
    (mkWindow (of_int 5) pageSlowShort pageSlowLong)
    (mkWindow (of_int 10) ticketQuickShort ticketQuickLong)
    (mkWindow (of_int 10) ticketSlowShort ticketSlowLong).

Definition WindowDefaults (period : Z) : Windows :=
  mkWindows period
    (mkWindow (of_int 2) (5 * minute) (60 * minute))
    (mkWindow (of_int 5) (30 * minute) (6 * hour))
    (mkWindow (of_int 10) (6 * hour) (72 * hour))
    (mkWindow (of_int 10) (6 * hour) (72 * hour)).

Definition Window_Validate (w : Window) : outcome unit :=
  fail_if (wi_LongWindow w =? 0)%Z (ErrorString "long window is required") ;?
  fail_if (wi_ShortWindow w =? 0)%Z (ErrorString "short window is required") ;?
  fail_if (SFeqb (wi_ErrorBudgetPercent w) (S754_zero false)) (ErrorString "error budget is required").

Definition Windows_Validate (w : Windows) : outcome unit :=
  fail_if (ws_SLOPeriod w =? 0)%Z (ErrorString "slo period is required") ;?
  omap_err (Wrapped "invalid page quick") (Window_Validate (ws_PageQuick w)) ;?
  omap_err (Wrapped "invalid page slow") (Window_Validate (ws_PageSlow w)) ;?
  omap_err (Wrapped "invalid ticket quick") (Window_Validate (ws_TicketQuick w)) ;?
  omap_err (Wrapped "invalid ticket slow") (Window_Validate (ws_TicketSlow w)).

Definition GetBurnRateFactor (totalWindow : Z) (errorBudgetPercent : float64) (consumptionWindow : Z) : float64 :=
  let hoursRequiredConsumption := fdiv (fmul errorBudgetPercent (Hours totalWindow)) (of_int 100) in
  fdiv hoursRequiredConsumption (Hours consumptionWindow).

Definition window_speed (w : Windows) (win : Window) : float64 :=
  GetBurnRateFactor (ws_SLOPeriod w) (wi_ErrorBudgetPercent win) (wi_LongWindow win).
Definition GetSpeedPageQuick (w : Windows) : float64 := window_speed w (ws_PageQuick w).
Definition GetSpeedPageSlow (w : Windows) : float64 := window_speed w (ws_PageSlow w).
Definition GetSpeedTicketQuick (w : Windows) : float64 := window_speed w (ws_TicketQuick w).
Definition GetSpeedTicketSlow (w : Windows) : float64 := window_speed w (ws_TicketSlow w).

(** ** construct.go: alerting rules *)

Record Rule := mkRule {
  ru_Record : string; ru_Alert : string; ru_Expr : string; ru_For : Z;
  ru_Labels : gmap string string; ru_Annotations : gmap string string }.

Record AlertingRule := mkAlertingRule {
  al_Alert : string; al_Expr : string; al_For : Z;
  al_Labels : gmap string string; al_Annotations : gmap string string }.

Definition AsRuleFmt (a : AlertingRule) : Rule :=
  mkRule "" (al_Alert a) (al_Expr a) (al_For a) (al_Labels a) (al_Annotations a).

Definition AlertingRule_And (a other : AlertingRule) : AlertingRule :=
  mkAlertingRule "" ("(" +:+ al_Alert a +:+ ") and (" +:+ al_Alert other +:+ ")") 0
    (MergeLabels [al_Labels a; al_Labels other]) (MergeLabels [al_Annotations a; al_Annotations other]).
Definition AlertingRule_Or (a other : AlertingRule) : AlertingRule :=
  mkAlertingRule "" ("(" +:+ al_Alert a +:+ ") or (" +:+ al_Alert other +:+ ")") 0
    (MergeLabels [al_Labels a; al_Labels other]) (MergeLabels [al_Annotations a; al_Annotations other]).

Definition WithSloId (sloId alertType suffix : string) : string := sloId +:+ "-" +:+ alertType +:+ suffix.

Record RuleGroupYAMLv2 := mkRuleGroup { rg_Name : string; rg_Interval : Z; rg_Rules : list Rule }.

Definition MergeRuleGroups (left right : RuleGroupYAMLv2) : RuleGroupYAMLv2 :=
  mkRuleGroup (rg_Name left) (rg_Interval left) (LeftJoinSliceAbstract ru_Record (rg_Rules left) (rg_Rules right)).

(** ** simple.go *)

Record LabelPair := mkLabelPair { lp_Key : string; lp_Vals : list string }.

(** The pattern of one pair: its values as alternatives. *)
Definition pair_pattern (p : LabelPair) : string := Join "|" (lp_Vals p).

Definition LabelPairs_Construct (l : list LabelPair) : string :=
  fold_left (fun s p =>
    if is_empty (lp_Key p) then s
    else s +:+ "," +:+ lp_Key p +:+ "=~" +:+ quoted (pair_pattern p)) l "".

Record SLO := mkSLO {
  slo_Period : string;
  slo_Objective : float64;
  slo_Svc : string;
  slo_GoodMetric : string;
  slo_TotalMetric : string;
  slo_IdLabels : gmap string string;
  slo_UserLabels : gmap string string;
  slo_GoodEvents : list LabelPair;
  slo_TotalEvents : list LabelPair }.

Definition SLOFromId (sloName sloPeriod : string) (objective : float64) (svc goodMetric totalMetric : string)
    (userLabels : gmap string string) (goodEvents totalEvents : list LabelPair) (id : string) : SLO :=
  mkSLO sloPeriod objective svc goodMetric totalMetric
    (<[slo_uuid := id]> (<[slo_name := sloName]> {[ slo_service := svc ]})) userLabels goodEvents totalEvents.

(** [ToMatchingSubsetIdenticalMetric]: the totals are made to cover the good values of
    the same key, and keys that only the totals have are added to the good events. *)
Definition index_good (goodEvents : list Event) : gmap string (list string) :=
  fold_left (fun m g => <[ev_Key g := ev_Vals g]> m) goodEvents ∅.

Fixpoint match_totals (index : gmap string (list string)) (totals : list Event) : list Event * list Event :=
  match totals with
  | [] => ([], [])
  | t :: totals =>
      let '(added, rest) := match_totals index totals in
      if is_empty (ev_Key t) || bool_decide (length (ev_Vals t) = 0) then (added, t :: rest)
      else
        match index !! ev_Key t with
        | Some g => (added, mkEvent (ev_Key t) (LeftJoinSlice g (ev_Vals t)) :: rest)
        | None => (t :: added, t :: rest)
        end
  end.

Definition ToMatchingSubsetIdenticalMetric (goodEvents totalEvents : list Event) : list Event * list Event :=
  let '(added, totals) := match_totals (index_good goodEvents) totalEvents in
  ((goodEvents ++ added)%list, totals).

(** The events of an objective as they are stored back into it. *)
Definition reconcile (s : ServiceLevelObjective) : ServiceLevelObjective :=
  if bool_decide (so_GoodMetricName s = so_TotalMetricName s) then
    let '(g, t) := ToMatchingSubsetIdenticalMetric (so_GoodEvents s) (so_TotalEvents s) in set_events g t s
  else s.

Definition label_pairs (l : list Event) : list LabelPair := (fun e => mkLabelPair (ev_Key e) (ev_Vals e)) <$> l.
Definition user_labels (l : list string) : gmap string string :=
  fold_left (fun m n => <[n := "true"]> m) l ∅.

Definition slo_of (s : ServiceLevelObjective) (id : string) : SLO :=
  SLOFromId (so_Name s) (so_SloPeriod s) (target_value (so_Target s)) (so_ServiceId s)
    (so_GoodMetricName s) (so_TotalMetricName s) (user_labels (so_Labels s))
    (label_pairs (so_GoodEvents s)) (label_pairs (so_TotalEvents s)) id.

(** [CreateSLORequestToStruct] and [SLODataToStruct] change the message they are given:
    it is returned with the SLO.  [newId] is the result of [uuid.New]. *)
Definition CreateSLORequestToStruct (newId : string) (c : ServiceLevelObjective) : ServiceLevelObjective * SLO :=
  let c := reconcile c in (c, slo_of c newId).

Definition SLODataToStruct (newId : string) (s : SLOData) : outcome (SLOData * SLO) :=
  match sd_SLO s with
  | None => Panic "nil pointer dereference"
  | Some slo =>
      let slo := reconcile slo in
      Ok (mkSLOData (sd_Id s) (Some slo) (sd_CreatedAt s),
          slo_of slo (if is_empty (sd_Id s) then newId else sd_Id s))
  end.

Definition SLO_GetId (s : SLO) : string := map_get (slo_IdLabels s) slo_uuid.
Definition SLO_GetName (s : SLO) : string := map_get (slo_IdLabels s) slo_name.
Definition set_id_label (k v : string) (s : SLO) : SLO :=
  mkSLO (slo_Period s) (slo_Objective s) (slo_Svc s) (slo_GoodMetric s) (slo_TotalMetric s)
    (<[k := v]> (slo_IdLabels s)) (slo_UserLabels s) (slo_GoodEvents s) (slo_TotalEvents s).
Definition SLO_SetId (id : string) (s : SLO) : SLO := set_id_label slo_uuid id s.
Definition SLO_SetName (input : string) (s : SLO) : SLO := set_id_label slo_name input s.

Definition NewWindowRange (sloPeriod : string) : list string :=
  ["5m"; "30m"; "1h"; "2h"; "6h"; "1d"; sloPeriod].

Section Rules.
Context {PL : PromLib}.

Definition GetPrometheusRuleFilterByIdLabels (s : SLO) : string :=
  slo_uuid +:+ "=" +:+ quoted (SLO_GetId s) +:+ ", " +:+ slo_service +:+ "=" +:+ quoted (slo_Svc s) +:+ ", " +:+
  slo_name +:+ "=" +:+ quoted (SLO_GetName s).

Definition normalizeObjective (objective : float64) : float64 := fdiv objective (of_int 100).

Definition RawObjectiveQuery (s : SLO) : string :=
  "vector(" +:+ fmt_9f (normalizeObjective (slo_Objective s)) +:+ ")".
Definition RawErrorBudgetQuery (s : SLO) : string :=
  "vector(1-" +:+ fmt_9f (normalizeObjective (slo_Objective s)) +:+ ")".

(** The error ratio of a window over the error budget. *)
Definition burn_rate_query (s : SLO) (window : string) : string :=
  let f := GetPrometheusRuleFilterByIdLabels s in
  slo_ratio_rate_query_name +:+ window +:+ "{" +:+ f +:+ "}" +:+ " / " +:+
  "on(" +:+ slo_uuid +:+ ", " +:+ slo_service +:+ ", " +:+ slo_name +:+ ")" +:+ " group_left" +:+ lf +:+
  slo_error_budget_ratio +:+ "{" +:+ f +:+ "}".

Definition RawCurrentBurnRateQuery (s : SLO) : string := burn_rate_query s (hd "" (NewWindowRange (slo_Period s))).
Definition RawPeriodBurnRateQuery (s : SLO) : string :=
  burn_rate_query s (List.last (NewWindowRange (slo_Period s)) "").

(** A duration that does not parse panics. *)
Definition must_parse (d : string) : outcome Z :=
  match prom_ParseDuration d with Err _ => Panic "invalid duration" | o => o end.

(** [int(timeDur.Hours() / 24)] for the hours of a duration, exact below 2^53. *)
Definition RawPeriodDurationQuery (s : SLO) : outcome string :=
  let? dur := must_parse (slo_Period s) in
  let days := match fdiv (Hours dur) (of_int 24) with
              | S754_finite sg m e =>
                  let v := if (0 <=? e)%Z then (Z.pos m * 2 ^ e)%Z else Z.quot (Z.pos m) (2 ^ (- e)) in
                  if sg then (- v)%Z else v
              | _ => 0%Z
              end in
  Ok ("vector(" +:+ Sprint days +:+ ")").

Definition RawBudgetRemainingQuery (s : SLO) : string :=
  "1 - " +:+ slo_period_burn_rate_ratio +:+ "{" +:+ GetPrometheusRuleFilterByIdLabels s +:+ "}".
Definition RawDashboardInfoQuery : string := "vector(1)".

(** The template [simpleQueryTpl]. *)
Definition simpleQuery (metric jobId labels window : string) : string :=
  "sum(rate(" +:+ metric +:+ "{job=" +:+ quoted jobId +:+ labels +:+ "}[" +:+ window +:+ "]))".

Definition RawGoodEventsQuery (s : SLO) (w : string) : string :=
  simpleQuery (slo_GoodMetric s) (slo_Svc s) (LabelPairs_Construct (slo_GoodEvents s)) w.
Definition RawTotalEventsQuery (s : SLO) (w : string) : string :=
  simpleQuery (slo_TotalMetric s) (slo_Svc s) (LabelPairs_Construct (slo_TotalEvents s)) w.
Definition RawSLIQuery (s : SLO) (w : string) : string :=
  "1 - ((" +:+ RawGoodEventsQuery s w +:+ ")/(" +:+ RawTotalEventsQuery s w +:+ "))".

(** The evaluation interval: one minute if none is given. *)
Definition rule_interval (interval : option Z) : outcome Z :=
  must_parse (prom_String (default minute interval)).

Definition recording_rule (s : SLO) (w : string) : Rule :=
  mkRule (slo_ratio_rate_query_name +:+ w) "" (RawSLIQuery s w) 0
    (MergeLabels [slo_IdLabels s; {[ slo_window := w ]}; slo_UserLabels s]) ∅.

Definition ConstructRecordingRuleGroup (s : SLO) (interval : option Z) : outcome RuleGroupYAMLv2 :=
  let? promInterval := rule_interval interval in
  Ok (mkRuleGroup (SLO_GetId s +:+ RecordingRuleSuffix) promInterval
        (recording_rule s <$> NewWindowRange (slo_Period s))).

Definition metadata_rule (s : SLO) (record expr : string) : Rule :=
  mkRule record "" expr 0 (MergeLabels [slo_IdLabels s; slo_UserLabels s]) ∅.

Definition ConstructMetadataRules (s : SLO) (interval : option Z) : outcome RuleGroupYAMLv2 :=
  let? promInterval := rule_interval interval in
  let? periodDays := RawPeriodDurationQuery s in
  Ok (mkRuleGroup (SLO_GetId s +:+ MetadataRuleSuffix) promInterval
        [metadata_rule s slo_objective_ratio (RawObjectiveQuery s);
         metadata_rule s slo_error_budget_ratio (RawErrorBudgetQuery s);
         metadata_rule s slo_time_period_days periodDays;
         metadata_rule s slo_current_burn_rate_ratio (RawCurrentBurnRateQuery s);
         metadata_rule s slo_period_burn_rate_ratio (RawPeriodBurnRateQuery s);
         metadata_rule s slo_period_error_budget_remaining_ratio (RawBudgetRemainingQuery s);
         metadata_rule s slo_info RawDashboardInfoQuery]).

(** [AlertingRule.Build]. *)
Definition AlertingRule_Build (a : AlertingRule) (id : string) : outcome Rule :=
  let promRule := AsRuleFmt a in
  match prom_ParseExpr (ru_Expr promRule) with
  | Ok _ =>
      Ok (mkRule "" id (ru_Expr promRule) (ru_For promRule)
            (MergeLabels [ru_Labels promRule; {[ BackendConditionIdLabel := id ]}])
            (MergeLabels [ru_Annotations promRule; {[ BackendConditionIdLabel := id ]}]))
  | Err _ => Err (ErrorString "constructed rule is not a valid prometheus rule")
  | Panic p => Panic p
  end.

Definition must_build (a : AlertingRule) (id : string) : outcome Rule :=
  match AlertingRule_Build a id with Err _ => Panic "invalid rule" | o => o end.

(** The expression of an alert with a quick and a slow factor. *)
Definition alert_expr (s : SLO) (quick slow : float64) : string :=
  mwmbAlertTplBool (slo_ratio_rate_query_name +:+ "5m") (slo_ratio_rate_query_name +:+ "30m")
    (slo_ratio_rate_query_name +:+ "2h") (slo_ratio_rate_query_name +:+ "6h")
    (fmt_9f quick) (fmt_9f slow) (fmt_9f quick) (fmt_9f slow)
    (fmt_9f (fsub (of_int 100) (slo_Objective s)))
    ("{" +:+ GetPrometheusRuleFilterByIdLabels s +:+ "}").

Definition severity_labels (s : SLO) (sev : string) : gmap string string :=
  MergeLabels [slo_IdLabels s; {[ "slo_severity" := sev ]}; slo_UserLabels s].

Definition ConstructAlertingRuleGroup (s : SLO) (interval : option Z) : outcome RuleGroupYAMLv2 :=
  let? promInterval := rule_interval interval in
  let? dur := must_parse (slo_Period s) in
  let mwmbWindow := GenerateGoogleWindows dur in
  let ticket := alert_expr s (GetSpeedTicketQuick mwmbWindow) (GetSpeedTicketSlow mwmbWindow) in
  let page := alert_expr s (GetSpeedPageQuick mwmbWindow) (GetSpeedPageSlow mwmbWindow) in
  let? arPageRule := must_build (mkAlertingRule "" page 0 (severity_labels s "page") ∅)
                       (WithSloId (SLO_GetId s) "page" AlertRuleSuffix) in
  let? arTicketRule := must_build (mkAlertingRule "" ticket 0 (severity_labels s "ticket") ∅)
                         (WithSloId (SLO_GetId s) "ticket" AlertRuleSuffix) in
  Ok (mkRuleGroup (SLO_GetId s +:+ AlertRuleSuffix) promInterval
        [mkRule slo_alert_ticket_window "" ticket 0 (severity_labels s "ticket") ∅;
         mkRule slo_alert_page_window "" page 0 (severity_labels s "page") ∅;
         arPageRule; arTicketRule]).

Definition ConstructCortexRules (s : SLO) (interval : option Z) : outcome (list RuleGroupYAMLv2) :=
  let? rrecording := ConstructRecordingRuleGroup s interval in
  let? rmetadata := ConstructMetadataRules s interval in
  let? ralerts := ConstructAlertingRuleGroup s interval in
  Ok [rrecording; rmetadata; ralerts].
End Rules.

(** ** [DetectActiveWindows]

    A row of the matrix is a list of samples: the time in milliseconds and the value. *)

Definition one64 : float64 := of_int 1.
Definition unix_time (ms : Z) : Time := (Z.quot ms 1000 * second)%Z.

Definition detect_step (severity : string) (ws : list AlertFiringWindows) (sample : Z * float64)
  : list AlertFiringWindows :=
  let ts := unix_time sample.1 in
  if SFeqb sample.2 one64 then
    match list.last ws with
    | None => [mkAlertFiringWindows ts None severity]
    | Some w => match aw_End w with
                | Some _ => (ws ++ [mkAlertFiringWindows ts None severity])%list
                | None => ws
                end
    end
  else
    match list.last ws with
    | Some w => match aw_End w with
                | None => (removelast ws ++ [mkAlertFiringWindows (aw_Start w) (Some ts) (aw_Severity w)])%list
                | Some _ => ws
                end
    | None => ws
    end.

Definition close_last (now : Time) (ws : list AlertFiringWindows) : list AlertFiringWindows :=
  match list.last ws with
  | Some w => match aw_End w with
              | None => (removelast ws ++ [mkAlertFiringWindows (aw_Start w) (Some now) (aw_Severity w)])%list
              | Some _ => ws
              end
  | None => ws
  end.

Definition DetectActiveWindows (now : Time) (severity : string) (matrix : option (list (list (Z * float64))))
  : outcome (list AlertFiringWindows) :=
  match matrix with
  | None => Err (ErrorString "Got empty alerting window matrix from cortex")
  | Some rows => Ok (close_last now (fold_left (detect_step severity) (concat rows) []))
  end.
