(* ===== verification/SloStore.v ===== *)
(** plugins/slo/pkg/slo (cortex_info.go, impl.go, api.go): the operations on SLOs, which
    act on the rule groups of Cortex and on the key-value store of the plugin. *)

From Stdlib Require Import SpecFloat.
From S2P Require Import Prelude GoStd Util CoreV1 Storage Management AlertingV1 SloV1 SloRules.
Open Scope string_scope.

(** ** The services the plugin calls

    The Cortex admin API, the management API, the plugin's store of SLOs and the codecs
    of rule groups and of query results; [rules_content] is the text of a rule group. *)
Class SloServices (W : Type) := {
  rules_content : Type;
  ca_LoadRules : string -> rules_content -> string -> M W unit;
  ca_DeleteRule : string -> string -> string -> M W unit;
  ca_WriteMetrics : string -> string -> string -> M W unit;
  ca_Query : string -> string -> M W string;
  mg_ListClusters : M W (list string);
  slo_kv : KeyValueStoreT W SLOData;
  rules_yaml : RuleGroupYAMLv2 -> outcome rules_content;
  decode_vector : string -> outcome (option (list float64)) }.

Section Slo.
Context {W : Type} {SS : SloServices W} {DL : DurationLib} {PL : PromLib}.

(** ** cortex_info.go *)

Definition instantMaskDisabled : bool := true.

Definition createGrafanaSLOMask (clusterId ruleId : string) : M W unit :=
  if negb instantMaskDisabled then ca_WriteMetrics clusterId grafana_delete_mask ruleId else wret tt.

Definition slo_namespace : string := "slo".

Definition applyCortexSLORules (clusterId : string) (ruleSpec : RuleGroupYAMLv2) : M W unit :=
  let! out := wlift (rules_yaml ruleSpec) in
  ca_LoadRules slo_namespace out clusterId.

(** A group that does not exist counts as deleted. *)
Definition deleteCortexSLORules (clusterId groupName : string) : M W unit :=
  wcatch (ca_DeleteRule clusterId slo_namespace groupName)
    (fun err => if decide (StatusCode err = codes_NotFound \/ StatusCode err = codes_OK) then wret tt else wfail err).

(** A loop that goes on after errors and collects them. *)
Fixpoint collect {A} (f : A -> M W unit) (l : list A) : M W (list error) :=
  match l with
  | [] => wret []
  | x :: l => fun w =>
      match f x w with
      | (w, Ok _) => collect f l w
      | (w, Err e) => (let! es := collect f l in wret (e :: es)) w
      | (w, Panic p) => (w, Panic p)
      end
  end.

(** [errors.Combine]: nil, the only error, or one error that holds them all. *)
Definition errors_Combine (errs : list error) : outcome unit :=
  match errs with
  | [] => Ok tt
  | [e] => Err e
  | _ => Err (External "multierr")
  end.

Definition mask_errors (clusterId : string) (ruleId : option string) : M W (list error) :=
  match ruleId with
  | Some r => collect (createGrafanaSLOMask clusterId) [r]
  | None => wret []
  end.

Definition tryApplyThenDeleteCortexRules (clusterId : string) (ruleId : option string)
    (toApply : list RuleGroupYAMLv2) : M W unit :=
  let! errArr := collect (applyCortexSLORules clusterId) toApply in
  let! delErrs := if bool_decide (0 < length errArr)
                  then collect (fun rules => deleteCortexSLORules clusterId (rg_Name rules)) toApply
                  else wret [] in
  let! maskErrs := mask_errors clusterId ruleId in
  wlift (errors_Combine (errArr ++ delErrs ++ maskErrs)%list).

Definition QuerySLOComponent (query clusterId : string) : M W (option (list float64)) :=
  let! data := ca_Query clusterId query in
  wlift (decode_vector data).

(** ** impl.go and api.go

    [registered] holds the datasources that have been registered; [newId] is the result
    of [uuid.New] and [now] the time of the call. *)
Context (registered : list string).

Definition slo_path (id : string) : string := path_Join ["/slos"; id].

(** A method call on the nil interface of an unknown datasource. *)
Definition slo_store (datasource : string) : M W unit :=
  if bool_decide (datasource ∈ registered) then wret tt else wlift (Panic "nil pointer dereference").

Definition checkDatasource (datasource : string) : M W unit :=
  if bool_decide (datasource ∈ registered) then wret tt else wfail ErrInvalidDatasource.

Definition deref_slo (s : SLOData) : outcome ServiceLevelObjective :=
  match sd_SLO s with Some slo => Ok slo | None => Panic "nil pointer dereference" end.

(** [SLOMonitoring.Create]: the request comes back with its events reconciled. *)
Definition Slo_Create (newId : string) (req : ServiceLevelObjective) : M W (ServiceLevelObjective * string) :=
  let '(req, slo) := CreateSLORequestToStruct newId req in
  let! toApply := wlift (ConstructCortexRules slo None) in
  tryApplyThenDeleteCortexRules (so_ClusterId req) (Some (SLO_GetId slo)) toApply ;!
  wret (req, SLO_GetId slo).

(** The names the deletion asks for: those of the rules. *)
Definition rule_names (r : Rule) : list string :=
  ((if is_empty (ru_Alert r) then [] else [ru_Alert r]) ++
   (if is_empty (ru_Record r) then [] else [ru_Record r]))%list.

Definition Slo_Delete (newId : string) (existing : SLOData) : M W unit :=
  let! exSLO := wlift (deref_slo existing) in
  let! (_, slo) := wlift (SLODataToStruct newId existing) in
  let! toApply := wlift (ConstructCortexRules slo None) in
  let! errArr := collect (deleteCortexSLORules (so_ClusterId exSLO))
                   (g ← toApply; r ← rg_Rules g; rule_names r) in
  let! maskErrs := mask_errors (so_ClusterId exSLO) (Some (sd_Id existing)) in
  wlift (errors_Combine (errArr ++ maskErrs)%list).

Definition DeleteSLO (newId : string) (id : string) : M W unit :=
  let! existing := kv_Get slo_kv (slo_path id) in
  checkDatasource (default "" (so_Datasource <$> sd_SLO existing)) ;!
  Slo_Delete newId existing ;!
  kv_Delete slo_kv (slo_path id).

(** [SLOMonitoring.Update]: a failed deletion on the old cluster is only logged. *)
Definition Slo_Update (newId : string) (incoming existing : SLOData) : M W SLOData :=
  let! (incoming, newSlo) := wlift (SLODataToStruct newId incoming) in
  let! toApply := wlift (ConstructCortexRules newSlo None) in
  let! inSLO := wlift (deref_slo incoming) in
  tryApplyThenDeleteCortexRules (so_ClusterId inSLO) None toApply ;!
  let! exSLO := wlift (deref_slo existing) in
  (if bool_decide (so_ClusterId exSLO = so_ClusterId inSLO) then wret tt
   else wcatch (DeleteSLO newId (sd_Id existing)) (fun _ => wret tt)) ;!
  wret incoming.

Definition known_cluster (clusterId : string) : M W unit :=
  let! clusterList := mg_ListClusters in
  if bool_decide (clusterId ∈ clusterList) then wret tt else wfail (ValidationError "invalid cluster").

Definition GetSLO (id : string) : M W SLOData := kv_Get slo_kv (slo_path id).

Definition ListSLOs : M W (list SLOData) :=
  let! keys := kv_ListKeys slo_kv "/slos" in
  wmap (kv_Get slo_kv) keys.

Definition CreateSLO (newId : string) (now : Time) (slorequest : option ServiceLevelObjective) : M W string :=
  wlift (CreateSLORequest_Validate slorequest) ;!
  let! req := wlift (match slorequest with Some r => Ok r | None => Panic "nil pointer dereference" end) in
  known_cluster (so_ClusterId req) ;!
  slo_store (so_Datasource req) ;!
  let! (req, id) := Slo_Create newId req in
  kv_Put slo_kv (slo_path id) (mkSLOData id (Some req) (Some now)) ;!
  wret id.

Definition UpdateSLO (newId : string) (req : SLOData) : M W unit :=
  wlift (SLOData_Validate req) ;!
  let! slo := wlift (deref_slo req) in
  known_cluster (so_ClusterId slo) ;!
  let! existing := kv_Get slo_kv (slo_path (sd_Id req)) in
  slo_store (so_Datasource slo) ;!
  let! updatedSLO := Slo_Update newId req existing in
  kv_Put slo_kv (slo_path (sd_Id req)) updatedSLO.

(** [SLOMonitoring.Clone]: the reference and the data are returned with the error. *)
Definition Slo_Clone (newId cloneId : string) (clone : SLOData) : M W (SLOData * outcome unit) :=
  let! (clonedData, slo) := wlift (SLODataToStruct newId clone) in
  let! sloData := wlift (deref_slo clonedData) in
  let slo := SLO_SetName (so_Name sloData +:+ "-clone") (SLO_SetId cloneId slo) in
  let! toApply := wlift (ConstructCortexRules slo None) in
  fun w =>
    let '(w, r) := tryApplyThenDeleteCortexRules (so_ClusterId sloData) (Some cloneId) toApply w in
    match r with
    | Panic p => (w, Panic p)
    | _ => (w, Ok (mkSLOData cloneId (Some (set_slo_name (so_Name sloData +:+ "-clone") sloData))
                     (sd_CreatedAt clonedData), r))
    end.

Definition set_created (t : Time) (s : SLOData) : SLOData := mkSLOData (sd_Id s) (sd_SLO s) (Some t).

Definition CloneSLO (newId cloneId : string) (now : Time) (id : string) : M W SLOData :=
  let! existing := kv_Get slo_kv (slo_path id) in
  wlift (SLOData_Validate existing) ;!
  checkDatasource (default "" (so_Datasource <$> sd_SLO existing)) ;!
  let! (newData, anyError) := Slo_Clone newId cloneId existing in
  let newData := set_created now newData in
  wlift anyError ;!
  kv_Put slo_kv (slo_path cloneId) newData ;!
  wret newData.

(** [MultiClusterClone]: the part of the calling goroutine.  One object is cloned and
    changed in every turn, and every entry of the result points to it: what the entries
    hold is its last state.  [cloneIds] are the new ids, one per cluster. *)
Fixpoint multi_clone (idx : Z) (cloneIds : list string) (clonedData : SLOData) : SLOData :=
  match cloneIds with
  | [] => clonedData
  | id :: cloneIds =>
      multi_clone (idx + 1) cloneIds
        (mkSLOData id ((fun s => set_slo_name (so_Name s +:+ "-clone-" +:+ Sprint idx) s) <$> sd_SLO clonedData)
           (sd_CreatedAt clonedData))
  end.

(** The loop of [CloneToClusters] over the results. *)
Fixpoint store_clones (data : SLOData) (errors : list (option error)) (createdIds : list string) : M W (list error) :=
  match errors with
  | [] => wret []
  | Some err :: errors =>
      let! failures := store_clones data errors (tail createdIds) in wret (err :: failures)
  | None :: errors =>
      match createdIds with
      | [] => wlift (Panic "index out of range")
      | id :: createdIds =>
          kv_Put slo_kv (slo_path id) data ;!
          store_clones data errors createdIds
      end
  end.

(** [errArr] holds what the goroutines of [MultiClusterClone] reported, one entry per
    cluster; when the clusters cannot be listed that error is the only result. *)
Definition CloneToClusters (newId : string) (now : Time) (id : string) (cloneIds : list string)
    (errArr : list (option error)) : M W (list error) :=
  let! existing := kv_Get slo_kv (slo_path id) in
  wlift (SLOData_Validate existing) ;!
  checkDatasource (default "" (so_Datasource <$> sd_SLO existing)) ;!
  let! (clonedData, _) := wlift (SLODataToStruct newId existing) in
  fun w =>
    match mg_ListClusters w with
    | (w, Ok _) => store_clones (set_created now (multi_clone 0 cloneIds clonedData)) errArr cloneIds w
    | (w, Err e) => store_clones clonedData [Some e] [] w
    | (w, Panic p) => (w, Panic p)
    end.

(** ** Status *)

Definition is_no_data (v : option (list float64)) : bool :=
  match v with None | Some [] => true | _ => false end.

Definition evaluationInterval : Z := minute.

Definition Slo_Status (newId : string) (now : Time) (existing : SLOData) : M W SLOStatusState :=
  if (now - AsTime (sd_CreatedAt existing) <=? evaluationInterval * 2)%Z then wret SLO_Creating
  else
    let! (_, slo) := wlift (SLODataToStruct newId existing) in
    let! recording := wlift (ConstructRecordingRuleGroup slo None) in
    let cluster := default "" (so_ClusterId <$> sd_SLO existing) in
    let! sli := QuerySLOComponent (default "" (ru_Record <$> head (rg_Rules recording))) cluster in
    if is_no_data sli then wret SLO_NoData
    else
      let! budget := QuerySLOComponent (RawBudgetRemainingQuery slo) cluster in
      match budget with
      | None | Some [] => wret SLO_PartialDataOk
      | Some (metadataBudget :: _) =>
          if SFleb metadataBudget (S754_zero false) then wret SLO_Breaching
          else
            let! alerting := wlift (ConstructAlertingRuleGroup slo None) in
            let expr i := default "" (ru_Expr <$> rg_Rules alerting !! i) in
            let! v1 := QuerySLOComponent (expr 0) cluster in
            let! v2 := QuerySLOComponent (expr 1) cluster in
            match list.last (default [] v1), list.last (default [] v2) with
            | Some a, Some b =>
                if SFltb (S754_zero false) a || SFltb (S754_zero false) b then wret SLO_Warning else wret SLO_Ok
            | _, _ => wret SLO_PartialDataOk
            end
      end.

Definition Status (newId : string) (now : Time) (id : string) : M W SLOStatusState :=
  let! existing := kv_Get slo_kv (slo_path id) in
  checkDatasource (default "" (so_Datasource <$> sd_SLO existing)) ;!
  Slo_Status newId now existing.
End Slo.
