(* ===== verification/SloRulesProps.v ===== *)
(** The rules of an SLO: good events are among the total events, alerts read recorded
    series, the burn-rate factors, and the windows in which alerts fire. *)

From Stdlib Require Import SpecFloat.
From S2P Require Import Prelude GoStd CoreV1 AlertingV1 SloV1 SloRules.
Open Scope string_scope.

(** ** Good and total events *)

(** Regular expressions of Prometheus: a pattern made of well-formed alternatives
    matches what one of them matches. *)
Class PromRegex := {
  re_match : string -> string -> bool;
  re_valid : string -> bool;
  re_alternatives vals v : vals <> [] -> Forall (fun p => re_valid p = true) vals ->
    re_match (Join "|" vals) v = existsb (fun p => re_match p v) vals }.

Section Events.
Context {PR : PromRegex}.

(** Whether a series with the labels [l] is selected by the pairs of a query. *)
Definition selects (l : gmap string string) (pairs : list LabelPair) : bool :=
  forallb (fun p => is_empty (lp_Key p) || re_match (pair_pattern p) (map_get l (lp_Key p))) pairs.

Definition values_valid (e : Event) : Prop := Forall (fun p => re_valid p = true) (ev_Vals e).

Lemma index_good_elem good (m : gmap string (list string)) k v :
  fold_left (fun m g => <[ev_Key g := ev_Vals g]> m) good m !! k = Some v ->
  m !! k = Some v \/ exists g, g ∈ good /\ ev_Key g = k /\ ev_Vals g = v.
Proof.
  revert m. induction good as [|g good IH]; intros m; cbn; [by left|].
  intros H. destruct (IH _ H) as [Hm | (g' & Hg & ?)].
  - destruct (decide (ev_Key g = k)) as [<-|Hne].
    + rewrite lookup_insert_eq in Hm. simplify_eq. right. exists g. split; [left | done].
    + rewrite lookup_insert_ne in Hm by done. by left.
  - right. exists g'. split; [by right | done].
Qed.

Lemma selects_elem l es e :
  selects l (label_pairs es) = true -> e ∈ es -> ev_Key e <> "" ->
  re_match (Join "|" (ev_Vals e)) (map_get l (ev_Key e)) = true.
Proof.
  unfold selects. rewrite forallb_elem. intros H He Hk.
  specialize (H (mkLabelPair (ev_Key e) (ev_Vals e))). cbn in H.
  unfold is_empty in H. rewrite bool_decide_eq_false_2 in H by done. apply H.
  unfold label_pairs. apply list_elem_of_fmap. by exists e.
Qed.

Lemma match_totals_added index totals t :
  t ∈ (match_totals index totals).1 -> t ∈ totals.
Proof.
  induction totals as [|x totals IH]; cbn; [done|].
  destruct (match_totals index totals) as [added rest]. cbn in IH.
  rewrite elem_of_cons.
  destruct (_ || _); cbn; [naive_solver|].
  destruct (index !! ev_Key x); cbn; [naive_solver|]. rewrite elem_of_cons. naive_solver.
Qed.

(** What becomes of one total event. *)
Lemma match_totals_rest index totals t' :
  t' ∈ (match_totals index totals).2 ->
  exists t, t ∈ totals /\
    ((t' = t /\ (ev_Key t = "" \/ ev_Vals t = [] \/ (index !! ev_Key t = None /\ t ∈ (match_totals index totals).1))) \/
     exists g, index !! ev_Key t = Some g /\ t' = mkEvent (ev_Key t) (LeftJoinSlice g (ev_Vals t))).
Proof.
  induction totals as [|x totals IH]; cbn; [by intros ?%not_elem_of_nil|].
  destruct (match_totals index totals) as [added rest] eqn:E. cbn in IH.
  assert (Hold : forall added', added ⊆ added' -> t' ∈ rest ->
    exists t, t ∈ x :: totals /\
    ((t' = t /\ (ev_Key t = "" \/ ev_Vals t = [] \/ (index !! ev_Key t = None /\ t ∈ added'))) \/
     exists g, index !! ev_Key t = Some g /\ t' = mkEvent (ev_Key t) (LeftJoinSlice g (ev_Vals t)))).
  { intros added' Hsub Hr. destruct (IH Hr) as (t & Ht & Hc). exists t. split; [by right|].
    destruct Hc as [[-> [?|[?|[??]]]] | ?]; [left; split; [done|]; auto ..|by right]. }
  destruct (_ || _) eqn:Hs; cbn.
  { rewrite elem_of_cons. intros [->|Hr]; [|by apply Hold].
    exists x. split; [left|]. left. split; [done|].
    apply orb_true_iff in Hs as [Hs|Hs]; apply bool_decide_eq_true in Hs; [by left|].
    right. left. by destruct (ev_Vals x). }
  destruct (index !! ev_Key x) as [g|] eqn:Hi; cbn; rewrite elem_of_cons.
  - intros [->|Hr]; [|by apply Hold]. exists x. split; [left|]. right. eauto.
  - intros [->|Hr].
    + exists x. split; [left|]. left. split; [done|]. right. right. split; [done | left].
    + apply Hold; [|done]. intros y Hy. by right.
Qed.

Lemma match_alternatives vals more v :
  vals <> [] -> Forall (fun p => re_valid p = true) vals -> Forall (fun p => re_valid p = true) more ->
  re_match (Join "|" vals) v = true -> re_match (Join "|" (LeftJoinSlice vals more)) v = true.
Proof.
  intros Hne Hv Hm. rewrite re_alternatives by done. unfold LeftJoinSlice.
  rewrite re_alternatives.
  - rewrite existsb_app. by intros ->.
  - by destruct vals.
  - apply Forall_app. split; [done|].
    rewrite list.Forall_forall in Hm |- *. intros x Hx. apply list_elem_of_filter in Hx. naive_solver.
Qed.

(** When the good and the total metric of an SLO are the same, every series that
    the good query counts is counted by the total query too, so the ratio of good to
    total events is at most one: the reconciled total events select whatever the
    reconciled good events select, if every event has a value. *)
Lemma good_events_among_total (good total : list Event) (l : gmap string string) :
  (forall e, e ∈ good -> ev_Vals e <> [] /\ values_valid e) ->
  (forall e, e ∈ total -> ev_Vals e <> [] /\ values_valid e) ->
  let '(good', total') := ToMatchingSubsetIdenticalMetric good total in
  selects l (label_pairs good') = true -> selects l (label_pairs total') = true.
Proof.
  intros Hgood Htotal. unfold ToMatchingSubsetIdenticalMetric.
  pose proof (match_totals_rest (index_good good) total) as Hrest.
  destruct (match_totals (index_good good) total) as [added totals]. cbn in Hrest.
  intros Hsel. apply forallb_elem. intros p Hp.
  apply list_elem_of_fmap in Hp as (t' & -> & Ht'). cbn.
  destruct (decide (ev_Key t' = "")) as [->|Hk]; [done|]. apply orb_true_iff. right.
  destruct (Hrest t' Ht') as (t & Ht & [[-> Hc] | (g & Hi & ->)]).
  - destruct Hc as [?|[?|[_ Ha]]]; [done | by destruct (Htotal t Ht) |].
    apply (selects_elem _ (good ++ added)%list); [done| |done]. apply elem_of_app. by right.
  - cbn in Hk |- *. apply index_good_elem in Hi as [Hi | (e & He & Hke & <-)]; [by rewrite lookup_empty in Hi|].
    destruct (Hgood e He) as [Hne Hval], (Htotal t Ht) as [_ Hvt].
    apply match_alternatives; [done..|]. rewrite <- Hke.
    apply (selects_elem _ (good ++ added)%list); [done| |congruence]. apply elem_of_app. by left.
Qed.
End Events.

(** ** Alerts and recorded series *)

(** The labels by which the rules of an SLO find each other. *)
Definition id_labels (s : SLO) (m : gmap string string) : Prop :=
  m !! slo_uuid = Some (SLO_GetId s) /\ m !! slo_service = Some (slo_Svc s) /\ m !! slo_name = Some (SLO_GetName s).

(** User labels do not use the names of the identification labels. *)
Definition user_labels_ok (s : SLO) : Prop :=
  slo_UserLabels s !! slo_uuid = None /\ slo_UserLabels s !! slo_service = None /\
  slo_UserLabels s !! slo_name = None.

Lemma MergeLabels_id s sep k v :
  id_labels s (slo_IdLabels s) -> user_labels_ok s -> k <> slo_uuid -> k <> slo_service -> k <> slo_name ->
  sep = {[ k := v ]} ->
  id_labels s (MergeLabels [slo_IdLabels s; sep; slo_UserLabels s]).
Proof.
  intros (H1 & H2 & H3) (U1 & U2 & U3) ??? ->. unfold MergeLabels. cbn.
  unfold id_labels.
  rewrite !(lookup_union_r (slo_UserLabels s)) by done.
  rewrite map_union_empty.
  split; [|split]; rewrite lookup_union_r by (by rewrite lookup_singleton_ne); done.
Qed.

Definition is_alert_over (s : SLO) (records : list Rule) (expr : string) : Prop :=
  exists r1 r2 r3 r4 quick slow budget,
    Forall (fun r => r ∈ records /\ id_labels s (ru_Labels r)) [r1; r2; r3; r4] /\
    expr = mwmbAlertTplBool (ru_Record r1) (ru_Record r2) (ru_Record r3) (ru_Record r4)
             quick slow quick slow budget ("{" +:+ GetPrometheusRuleFilterByIdLabels s +:+ "}").

Lemma alert_expr_over s quick slow rr :
  id_labels s (slo_IdLabels s) -> user_labels_ok s ->
  rr = recording_rule s <$> NewWindowRange (slo_Period s) ->
  is_alert_over s rr (alert_expr s quick slow).
Proof.
  intros Hid Hu ->.
  exists (recording_rule s "5m"), (recording_rule s "30m"), (recording_rule s "2h"), (recording_rule s "6h").
  exists (fmt_9f quick), (fmt_9f slow), (fmt_9f (fsub (of_int 100) (slo_Objective s))). split; [|done].
  assert (Hr : forall w, w ∈ ["5m"; "30m"; "2h"; "6h"] ->
    recording_rule s w ∈ recording_rule s <$> NewWindowRange (slo_Period s) /\
    id_labels s (ru_Labels (recording_rule s w))).
  { intros w Hw. split.
    - apply list_elem_of_fmap. exists w. split; [done|].
      unfold NewWindowRange. set_solver.
    - apply (MergeLabels_id s _ slo_window w); [done | done | discriminate | discriminate | discriminate | done]. }
  repeat (apply Forall_cons; [apply Hr; set_solver|]). apply Forall_nil.
Qed.

Lemma must_build_expr `{PromLib} a id r : must_build a id = Ok r -> ru_Expr r = al_Expr a.
Proof. unfold must_build, AlertingRule_Build. cbn. by destruct (prom_ParseExpr _); intros; simplify_eq. Qed.

(** Every expression of the alerting rules of an SLO compares series that its own
    recording rules produce: the four metrics it reads are records of the recording
    group, and the label filter it applies names the labels those records carry, as long
    as the user's labels do not use the same names. *)
Lemma alerts_read_recorded_series `{PromLib} (s : SLO) (interval : option Z) (rr ra : RuleGroupYAMLv2) :
  id_labels s (slo_IdLabels s) -> user_labels_ok s ->
  ConstructRecordingRuleGroup s interval = Ok rr ->
  ConstructAlertingRuleGroup s interval = Ok ra ->
  Forall (fun r => is_alert_over s (rg_Rules rr) (ru_Expr r)) (rg_Rules ra).
Proof.
  intros Hid Hu. unfold ConstructRecordingRuleGroup, ConstructAlertingRuleGroup.
  rewrite !obind_Ok. intros (i & _ & [= <-]) (i' & _ & Hra). cbn.
  apply obind_Ok in Hra as (dur & _ & Hra).
  apply obind_Ok in Hra as (p & Hp & Hra). apply obind_Ok in Hra as (t & Ht & [= <-]). cbn.
  apply must_build_expr in Hp, Ht. cbn in Hp, Ht.
  repeat apply Forall_cons; rewrite ?Hp, ?Ht; try apply Forall_nil; by apply alert_expr_over.
Qed.

(** ** Burn-rate factors *)

(** The largest window is 864 periods long. *)
Lemma GenerateGoogleWindows_exact (p : Z) :
  (0 <= p)%Z -> (p * 864 <= int64_max)%Z ->
  let w := GenerateGoogleWindows p in
  wi_LongWindow (ws_PageQuick w) = (12 * p)%Z /\ wi_LongWindow (ws_PageSlow w) = (72 * p)%Z /\
  wi_LongWindow (ws_TicketQuick w) = (288 * p)%Z /\ wi_LongWindow (ws_TicketSlow w) = (864 * p)%Z.
Proof.
  intros H0 Hmax. unfold GenerateGoogleWindows.
  cbn [ws_PageQuick ws_PageSlow ws_TicketQuick ws_TicketSlow wi_LongWindow].
  assert (Hd : forall k n, (0 <= k)%Z -> (0 <= n)%Z -> (k * n <= 864)%Z -> dmul (k * p) n = (k * n * p)%Z).
  { intros k n Hk Hn Hkn. unfold dmul. rewrite wrap64_id; [lia|].
    unfold in_int64, int64_min, int64_max in *. nia. }
  pose proof (Hd 1%Z) as H1. rewrite !Z.mul_1_l in H1.
  rewrite !H1, !Hd by lia. lia.
Qed.

Definition day : Z := 24 * hour.

(** The four factors as they are printed into the alerting rules. *)
Definition printed_factors (p : Z) : list string :=
  let w := GenerateGoogleWindows p in
  fmt_9f <$> [GetSpeedPageQuick w; GetSpeedPageSlow w; GetSpeedTicketQuick w; GetSpeedTicketSlow w].

Definition google_factors : list string := ["0.001666667"; "0.000694444"; "0.000347222"; "0.000115741"].

Lemma printed_factors_checked :
  forallb (fun n => bool_decide (printed_factors (Z.of_nat n * day) = google_factors)) (seq 1 123) = true.
Proof. vm_compute. reflexivity. Qed.

(** The burn-rate factors of the alerts do not depend on the period of the SLO: for
    every period of whole days whose windows fit into an int64 (up to 123 days) the same
    four numbers are printed.  They are those of windows of 12, 72, 288 and 864
    periods, where the SRE workbook has 1 hour, 6 hours and 3 days; for a period of 30
    days it has the factors 14.4, 6 and 1. *)
Lemma burn_factors_do_not_depend_on_period (days : Z) :
  (1 <= days <= 123)%Z ->
  printed_factors (days * day) = google_factors /\
  (days * day * 864 <= int64_max)%Z /\
  fmt_9f <$> [GetSpeedPageQuick (WindowDefaults (30 * day)); GetSpeedPageSlow (WindowDefaults (30 * day));
              GetSpeedTicketQuick (WindowDefaults (30 * day)); GetSpeedTicketSlow (WindowDefaults (30 * day))]
    = ["14.400000000"; "6.000000000"; "1.000000000"; "1.000000000"].
Proof.
  intros Hh. split; [|split].
  - pose proof printed_factors_checked as Hc. rewrite forallb_forall in Hc.
    specialize (Hc (Z.to_nat days)). rewrite in_seq, Z2Nat.id in Hc by lia.
    eapply bool_decide_eq_true, Hc. lia.
  - unfold day, hour, int64_max. lia.
  - vm_compute. reflexivity.
Qed.

(** One day more and the longest window is negative: the factor is, too, and any error
    rate is above it. *)
Lemma long_period_wraps :
  (wi_LongWindow (ws_TicketSlow (GenerateGoogleWindows (124 * day))) < 0)%Z /\
  list.last (printed_factors (124 * day)) = Some "-0.000116576".
Proof. vm_compute. done. Qed.

(** ** [DetectActiveWindows] (plugins/slo/pkg/slo/simple.go): the windows it reports are
    the maximal runs of firing samples. *)

Open Scope Z_scope.

Definition sample : Type := Z * float64.
Definition sample_time (x : sample) : Time := unix_time x.1.
Definition firing (x : sample) : bool := SFeqb x.2 one64.

(** The runs of firing samples, read from left to right: [o] is the start of the run that
    is open, if one is. *)
Fixpoint runs (now : Time) (o : option Time) (l : list sample) : list (Time * Time) :=
  match l, o with
  | [], None => []
  | [], Some s => [(s, now)]
  | x :: l, None => runs now (if firing x then Some (sample_time x) else None) l
  | x :: l, Some s => if firing x then runs now o l else (s, sample_time x) :: runs now None l
  end.

Definition closed_window (severity : string) (r : Time * Time) : AlertFiringWindows :=
  mkAlertFiringWindows r.1 (Some r.2) severity.
Definition open_window (severity : string) (o : option Time) : list AlertFiringWindows :=
  match o with Some s => [mkAlertFiringWindows s None severity] | None => [] end.

Lemma last_closed severity ws :
  (forall w, list.last (closed_window severity <$> ws) = Some w -> is_Some (aw_End w)).
Proof.
  intros w Hw. apply last_Some_elem_of in Hw. apply list_elem_of_fmap in Hw as (r & -> & _). by eexists.
Qed.

(** One sample moves the detected windows as [runs] says. *)
Lemma detect_step_runs severity ws o x :
  detect_step severity ((closed_window severity <$> ws) ++ open_window severity o)%list x =
  match o with
  | None => (closed_window severity <$> ws) ++
              open_window severity (if firing x then Some (sample_time x) else None)
  | Some s => if firing x then (closed_window severity <$> ws) ++ open_window severity o
              else closed_window severity <$> (ws ++ [(s, sample_time x)])
  end%list.
Proof.
  unfold detect_step. fold (firing x). fold (sample_time x).
  destruct o as [s|]; cbn [open_window].
  - rewrite last_snoc. cbn. destruct (firing x); [done|].
    by rewrite removelast_last, fmap_app.
  - rewrite app_nil_r. pose proof (last_closed severity ws) as Hl.
    destruct (list.last (closed_window severity <$> ws)) as [w|] eqn:E.
    + destruct (Hl w eq_refl) as [e ->]. destruct (firing x); [done|]. by rewrite app_nil_r.
    + apply last_None in E. rewrite E. by destruct (firing x).
Qed.

Lemma detect_runs now severity l ws o :
  close_last now (fold_left (detect_step severity) l ((closed_window severity <$> ws) ++ open_window severity o)%list) =
  closed_window severity <$> (ws ++ runs now o l)%list.
Proof.
  revert ws o. induction l as [|x l IH]; intros ws o; cbn [fold_left runs].
  - unfold close_last. destruct o as [s|]; cbn [open_window].
    + rewrite last_snoc. cbn. by rewrite removelast_last, fmap_app.
    + rewrite !app_nil_r. pose proof (last_closed severity ws) as Hl.
      destruct (list.last _) as [w|]; [|done]. by destruct (Hl w eq_refl) as [e ->].
  - rewrite detect_step_runs. destruct o as [s|]; [|apply IH].
    destruct (firing x); [apply IH|].
    specialize (IH (ws ++ [(s, sample_time x)])%list None). cbn in IH. rewrite app_nil_r in IH.
    by rewrite IH, <- app_assoc.
Qed.

(** ** Runs of samples in order *)

Definition window_before (a b : Time * Time) : Prop := a.2 < b.1.
Definition covers (r : Time * Time) (t : Time) : Prop := r.1 <= t < r.2.
Definition in_order (lo : Time) (l : list sample) (now : Time) : Prop :=
  StronglySorted Z.lt (lo :: (sample_time <$> l)) /\ Forall (fun x => sample_time x < now) l.

Lemma in_order_cons lo x l now :
  in_order lo (x :: l) now -> lo < sample_time x < now /\ in_order (sample_time x) l now.
Proof.
  intros [Hs Hn]. apply Forall_cons_1 in Hn as [Hx Hn]. cbn in Hs.
  apply StronglySorted_inv in Hs as [Hs Hlo]. apply Forall_cons_1 in Hlo as [Hlo _]. done.
Qed.

Lemma in_order_elem lo l now x : in_order lo l now -> x ∈ l -> lo < sample_time x.
Proof.
  intros [Hs _] Hx. apply StronglySorted_inv in Hs as [_ Hlo].
  rewrite list.Forall_forall in Hlo. apply Hlo. apply list_elem_of_fmap. by exists x.
Qed.

(** Without an open run every run starts after [lo]; with one, it is the first. *)
Lemma runs_shape now lo l :
  in_order lo l now ->
  (Forall (fun r => lo < r.1 < r.2 /\ r.2 <= now) (runs now None l) /\
   StronglySorted window_before (runs now None l)) /\
  (forall s : Time, s <= lo -> lo < now -> exists e rest, runs now (Some s) l = (s, e) :: rest /\ lo < e <= now /\
     Forall (fun r => e < r.1 < r.2 /\ r.2 <= now) rest /\ StronglySorted window_before rest).
Proof.
  revert lo. induction l as [|x l IH]; intros lo Hio; cbn [runs].
  - split; [by repeat constructor|]. intros s Hs Hlo. exists now, []. split; [done|].
    split; [lia|]. by repeat constructor.
  - apply in_order_cons in Hio as [Hx Hio]. destruct (IH _ Hio) as [[Hf Hsort] Ho].
    assert (Hopen : forall s : Time, s <= sample_time x -> exists e rest, runs now (Some s) l = (s, e) :: rest /\
      sample_time x < e <= now /\ Forall (fun r => e < r.1 < r.2 /\ r.2 <= now) rest /\
      StronglySorted window_before rest) by (intros s Hs; apply Ho; lia).
    split.
    + destruct (firing x); cbn iota; [|split; [|done]; eapply Forall_impl; [|exact Hf]; intros [? ?]; cbn [fst snd]; lia].
      destruct (Hopen (sample_time x)) as (e & rest & -> & He & Hr & Hsr); [lia|]. split.
      * apply Forall_cons; [cbn; lia|]. eapply Forall_impl; [|exact Hr]. intros [? ?]. cbn [fst snd]. lia.
      * apply SSorted_cons; [done|]. eapply Forall_impl; [|exact Hr]. intros [? ?]. unfold window_before. cbn [fst snd]. lia.
    + intros s Hs Hlo. destruct (firing x).
      * destruct (Hopen s) as (e & rest & -> & He & Hr & Hsr); [lia|].
        exists e, rest. split; [done|]. split; [lia|done].
      * exists (sample_time x), (runs now None l). split; [done|]. split; [lia|]. done.
Qed.

(** A sample lies in a run exactly when it fires. *)
Lemma runs_cover now lo l o :
  in_order lo l now -> lo < now -> (forall s : Time, o = Some s -> s <= lo) ->
  forall x, x ∈ l -> (firing x = true <-> exists r, r ∈ runs now o l /\ covers r (sample_time x)).
Proof.
  revert lo o. induction l as [|x l IH]; intros lo o Hio Hlo Ho y Hy; [by apply not_elem_of_nil in Hy|].
  pose proof (in_order_cons _ _ _ _ Hio) as [Hx Hio'].
  destruct (runs_shape _ _ _ Hio') as [[Hnone _] Hsome].
  assert (Hafter : y ∈ l -> sample_time x < sample_time y) by (by apply in_order_elem with (now := now)).
  rewrite list.Forall_forall in Hnone.
  apply elem_of_cons in Hy as [->|Hy].
  - destruct (firing x) eqn:Ef; (split; [|intros (r & Hr & Hc)]); try done.
    + intros _. assert (exists (s e : Time) (rest : list (Time * Time)), runs now o (x :: l) = (s, e) :: rest /\ s <= sample_time x < e)
        as (s & e & rest & -> & ?).
      { cbn. rewrite Ef. destruct o as [s|].
        - destruct (Hsome s) as (e & rest & -> & ?); [specialize (Ho s eq_refl); lia | lia |]. exists s, e, rest.
          specialize (Ho s eq_refl). split; [done|lia].
        - destruct (Hsome (sample_time x)) as (e & rest & -> & ?); [lia..|]. exists (sample_time x), e, rest.
          split; [done|lia]. }
      exists (s, e). split; [left|]. by unfold covers.
    + cbn in Hr. rewrite Ef in Hr. unfold covers in Hc. destruct o as [s|].
      * apply elem_of_cons in Hr as [->|Hr]; [cbn in Hc; lia|]. specialize (Hnone r Hr). destruct r. cbn [fst snd] in *. lia.
      * specialize (Hnone r Hr). destruct r. cbn [fst snd] in *. lia.
  - specialize (Hafter Hy).
    assert (Hrec : forall o' : option Time, (forall s : Time, o' = Some s -> s <= sample_time x) ->
      firing y = true <-> exists r, r ∈ runs now o' l /\ covers r (sample_time y)) by
      (intros o' Ho'; apply (IH (sample_time x)); [done | lia | done | done]).
    cbn. destruct o as [s|], (firing x) eqn:Ef.
    + apply Hrec. intros s' [= <-]. specialize (Ho s eq_refl). lia.
    + rewrite (Hrec None) by done. setoid_rewrite elem_of_cons. split; [naive_solver|].
      intros (r & [->|Hr] & Hc); [|by eauto]. unfold covers in Hc. cbn in Hc. lia.
    + apply Hrec. intros s' [= <-]. lia.
    + by apply Hrec.
Qed.

(** *** Runs are maximal *)

(** A maximal run of firing samples, as a window: it begins at its first sample, the
    sample before it does not fire, and it ends at the first sample after it, which does
    not fire, or at the time of the query when there is none.  The samples are taken in
    the order in which they come, whatever their times. *)
Definition run_end (now : Time) (post : list sample) : Time :=
  match post with [] => now | y :: _ => sample_time y end.
Definition starts_quiet (l : list sample) : Prop := match l with [] => True | y :: _ => firing y = false end.
Definition ends_quiet (l : list sample) : Prop := forall y, list.last l = Some y -> firing y = false.
Definition maximal_run (now : Time) (l : list sample) (r : Time * Time) : Prop :=
  exists pre x mid post, l = (pre ++ x :: mid ++ post)%list /\ Forall (fun y => firing y = true) (x :: mid) /\
    ends_quiet pre /\ starts_quiet post /\ r = (sample_time x, run_end now post).

(** The firing samples at the front, and the rest. *)
Fixpoint after_run (l : list sample) : list sample :=
  match l with [] => [] | x :: l' => if firing x then after_run l' else l end.

Lemma after_run_spec l : exists mid, l = (mid ++ after_run l)%list /\ Forall (fun y => firing y = true) mid /\ starts_quiet (after_run l).
Proof.
  induction l as [|x l (mid & E & Hm & Hq)]; [by exists []|]. cbn. destruct (firing x) eqn:Ef.
  - exists (x :: mid). cbn. rewrite <- E. split; [done|]. split; [by constructor|done].
  - exists []. done.
Qed.

Lemma runs_open now s l : runs now (Some s) l = (s, run_end now (after_run l)) :: runs now None (after_run l).
Proof.
  induction l as [|x l IH]; [done|]. cbn. destruct (firing x) eqn:Ef; [apply IH|]. cbn. by rewrite Ef.
Qed.

(** Two ways to cut off a run at the front agree. *)
Lemma cut_unique (m1 m2 p1 p2 : list sample) :
  Forall (fun y => firing y = true) m1 -> Forall (fun y => firing y = true) m2 -> starts_quiet p1 -> starts_quiet p2 ->
  (m1 ++ p1 = m2 ++ p2)%list -> p1 = p2.
Proof.
  revert m2. induction m1 as [|x m1 IH]; intros [|y m2] H1 H2 Hp1 Hp2 E; cbn in *; [done| | |].
  - subst p1. apply Forall_cons_1 in H2 as [H2 _]. cbn in Hp1. congruence.
  - subst p2. apply Forall_cons_1 in H1 as [H1 _]. cbn in Hp2. congruence.
  - injection E as -> E. apply Forall_cons_1 in H1 as [_ H1]. apply Forall_cons_1 in H2 as [_ H2]. by eapply IH.
Qed.

Lemma ends_quiet_app m k : Forall (fun y => firing y = true) m -> ends_quiet (m ++ k)%list -> m = [] \/ k <> [].
Proof.
  intros Hm Hq. destruct k as [|y k]; [|by right]. left. rewrite app_nil_r in Hq.
  destruct (list.last m) as [y|] eqn:E; [|by apply last_None in E].
  rewrite list.Forall_forall in Hm. pose proof (Hm y (last_Some_elem_of _ _ E)). specialize (Hq y E). congruence.
Qed.

Lemma ends_quiet_suffix m k : k <> [] -> ends_quiet (m ++ k)%list <-> ends_quiet k.
Proof. intros Hk. unfold ends_quiet. rewrite last_app. destruct (list.last k) eqn:E; [done|]. by apply last_None in E. Qed.

(** The first run of samples that start with a firing one, and the runs after it. *)
Lemma maximal_run_cons now x mid rest r :
  Forall (fun y => firing y = true) (x :: mid) -> starts_quiet rest ->
  maximal_run now (x :: mid ++ rest)%list r <-> r = (sample_time x, run_end now rest) \/ maximal_run now rest r.
Proof.
  intros Hm Hq. split.
  - intros (pre & y & mid' & post & E & Hm' & Hpre & Hpost & ->).
    destruct pre as [|x' pre]; cbn in E; injection E as <- E.
    + left. apply Forall_cons_1 in Hm as [_ Hm]. apply Forall_cons_1 in Hm' as [_ Hm'].
      by rewrite (cut_unique mid mid' rest post Hm Hm' Hq Hpost E).
    + right. apply app_eq_inv in E as [(k & -> & _)|(k & -> & ->)].
      * change (Forall (fun y => firing y = true) ((x :: pre) ++ k)%list) in Hm. apply Forall_app in Hm as [Hm _].
        rewrite <- (app_nil_r (x :: pre)) in Hpre. by destruct (ends_quiet_app _ _ Hm Hpre).
      * exists k, y, mid', post. split; [done|]. split; [done|]. split; [|done]. destruct k as [|z k]; [done|].
        by apply (proj1 (ends_quiet_suffix (x :: mid) (z :: k) ltac:(done))).
  - intros [->|(pre & y & mid' & post & -> & Hm' & Hpre & Hpost & ->)].
    + exists [], x, mid, rest. done.
    + exists (x :: mid ++ pre)%list, y, mid', post. split; [cbn; by rewrite <- app_assoc|]. split; [done|]. split; [|done].
      destruct pre as [|z pre]; [|by apply (proj2 (ends_quiet_suffix (x :: mid) (z :: pre) ltac:(done)))].
      apply Forall_cons_1 in Hm' as [Hy _]. cbn in Hq. congruence.
Qed.

Lemma maximal_run_quiet now x l r : firing x = false -> maximal_run now (x :: l) r <-> maximal_run now l r.
Proof.
  intros Hx. split.
  - intros (pre & y & mid & post & E & Hm & Hpre & Hpost & ->). destruct pre as [|x' pre]; cbn in E; injection E as <- ->.
    + apply Forall_cons_1 in Hm as [Hy _]. congruence.
    + exists pre, y, mid, post. split; [done|]. split; [done|]. split; [|done]. destruct pre as [|z pre]; [done|].
      by apply (proj1 (ends_quiet_suffix [x] (z :: pre) ltac:(done))).
  - intros (pre & y & mid & post & -> & Hm & Hpre & Hpost & ->). exists (x :: pre), y, mid, post.
    split; [done|]. split; [done|]. split; [|done]. destruct pre as [|z pre]; [by intros z [= <-]|].
    by apply (proj2 (ends_quiet_suffix [x] (z :: pre) ltac:(done))).
Qed.

Lemma runs_maximal now l r : r ∈ runs now None l <-> maximal_run now l r.
Proof.
  induction l as [l IH] using (induction_ltof1 _ length). unfold ltof in IH. destruct l as [|x l]; cbn [runs].
  - split; [by intros ?%not_elem_of_nil|]. intros (pre & x & mid & post & E & _). by destruct pre.
  - destruct (firing x) eqn:Ef; [|rewrite maximal_run_quiet by done; apply IH; cbn; lia].
    destruct (after_run_spec l) as (mid & E & Hm & Hq). rewrite runs_open, elem_of_cons.
    rewrite IH by (apply (f_equal length) in E; rewrite length_app in E; cbn; lia).
    rewrite E at 3. rewrite maximal_run_cons; [done|by constructor|done].
Qed.

(** C29: The windows in which an alert fired are exactly the maximal runs of samples with
    value 1, in the order in which the samples come.  When the times of the samples
    increase along the matrix, which the code expects of Cortex, the windows are also
    disjoint and in order, they end at the latest at the time of the query, and a sample
    lies in one of them exactly when its value is 1. *)
Theorem detected_windows_are_runs (now : Time) (severity : string) (rows : list (list sample)) :
  exists ws, DetectActiveWindows now severity (Some rows) = Ok (closed_window severity <$> ws) /\
    (forall r, r ∈ ws <-> maximal_run now (concat rows) r) /\
    forall lo, in_order lo (concat rows) now -> lo < now ->
      StronglySorted window_before ws /\
      Forall (fun r => lo < r.1 < r.2 /\ r.2 <= now) ws /\
      forall x, x ∈ concat rows -> (firing x = true <-> exists r, r ∈ ws /\ covers r (sample_time x)).
Proof.
  exists (runs now None (concat rows)). split; [|split; [apply runs_maximal|]].
  { unfold DetectActiveWindows. f_equal. apply (detect_runs now severity _ [] None). }
  intros lo Hio Hlo. destruct (runs_shape _ _ _ Hio) as [[Hf Hs] _]. split; [done|]. split; [done|].
  by apply (runs_cover now lo).
Qed.

Lemma detected_windows_are_runs_witness :
  exists ws, DetectActiveWindows 100000000000 "severe"
      (Some [[(1000, one64); (2000, one64); (3000, S754_zero false)]; [(5000, one64)]])
      = Ok (closed_window "severe" <$> ws) /\ length ws = 2%nat /\ StronglySorted window_before ws.
Proof.
  destruct (detected_windows_are_runs 100000000000 "severe"
    [[(1000, one64); (2000, one64); (3000, S754_zero false)]; [(5000, one64)]]) as (ws & Hw & _ & Ho).
  exists ws. split; [done|]. split.
  - apply (f_equal (fun o => match o with Ok l => length l | _ => 0%nat end)) in Hw.
    cbn in Hw. rewrite length_fmap in Hw. by rewrite <- Hw.
  - apply (Ho 0); [|done]. split; cbn; repeat constructor; done.
Defined.
