(* ===== verification/SloProps.v ===== *)
(** What the operations on SLOs do to the rule groups of Cortex and to the stored SLOs. *)

From Stdlib Require Import SpecFloat Ascii.
From S2P Require Import Prelude GoStd Util CoreV1 Storage Management AlertingV1 AlertIncidents SloV1 SloRules SloStore SloRulesProps.
Open Scope string_scope.

(** ** The services

    [groups] are the rule groups of the namespace of SLOs by cluster and name, [slos] the
    entries of the store; the plugin is the only client.  A call that fails may or may
    not have had its effect.  Loading a group replaces the group of that name. *)
Class SloLaws {W : Type} (SS : SloServices W) (groups : W -> gmap (string * string) RuleGroupYAMLv2)
    (slos : W -> gmap string SLOData) : Prop := {
  law_load c g y w w' o : rules_yaml g = Ok y -> ca_LoadRules slo_namespace y c w = (w', o) ->
    slos w' = slos w /\ no_panic o = true /\
    (groups w' = <[(c, rg_Name g) := g]> (groups w) \/ o <> Ok tt /\ groups w' = groups w);
  law_yaml g : no_panic (rules_yaml g) = true;
  law_delete c n w w' o : ca_DeleteRule c slo_namespace n w = (w', o) ->
    slos w' = slos w /\ no_panic o = true /\
    (groups w' = delete (c, n) (groups w) \/ groups w' = groups w /\ o <> Ok tt) /\
    (forall e, o = Err e -> StatusCode e = codes_NotFound \/ StatusCode e = codes_OK ->
       groups w' !! (c, n) = None);
  law_clusters w w' o : mg_ListClusters w = (w', o) -> groups w' = groups w /\ slos w' = slos w;
  law_put k v w w' o : kv_Put slo_kv k v w = (w', o) ->
    groups w' = groups w /\ no_panic o = true /\
    (slos w' = <[k := v]> (slos w) \/ o <> Ok tt /\ slos w' = slos w);
  law_get k w w' o : kv_Get slo_kv k w = (w', o) ->
    groups w' = groups w /\ slos w' = slos w /\ (forall v, o = Ok v -> slos w !! k = Some v);
  law_kv_delete k w w' o : kv_Delete slo_kv k w = (w', o) ->
    groups w' = groups w /\ (slos w' = delete k (slos w) \/ o <> Ok tt /\ slos w' = slos w) }.

Section Props.
Context {W : Type} {SS : SloServices W} {DL : DurationLib} {PL : PromLib}.
Context (groups : W -> gmap (string * string) RuleGroupYAMLv2) (slos : W -> gmap string SLOData).
Context {SL : SloLaws SS groups slos}.

(** Two worlds that differ at most in the groups of [c] whose names are in [names]. *)
Definition only_groups (c : string) (names : list string) (w w' : W) : Prop :=
  slos w' = slos w /\ forall c' n, (c' = c -> n ∉ names) -> groups w' !! (c', n) = groups w !! (c', n).

Lemma only_groups_refl c names w : only_groups c names w w.
Proof. by split. Qed.

Lemma only_groups_trans c names w1 w2 w3 :
  only_groups c names w1 w2 -> only_groups c names w2 w3 -> only_groups c names w1 w3.
Proof. intros [H1 H2] [H3 H4]. split; [congruence|]. intros c' n Hn. by rewrite H4, H2. Qed.

Lemma only_groups_mono c names names' w w' :
  names ⊆ names' -> only_groups c names w w' -> only_groups c names' w w'.
Proof. intros Hs [H1 H2]. split; [done|]. intros c' n Hn. apply H2. intros Hc Hin. exact (Hn Hc (Hs _ Hin)). Qed.

(** ** Loops that collect errors *)

Lemma collect_cons {A} (f : A -> M W unit) x l w :
  no_panic (f x w).2 = true ->
  collect f (x :: l) w =
    match collect f l (f x w).1 with
    | (w', Ok es) => (w', Ok (match (f x w).2 with Err e => e :: es | _ => es end))
    | r => r
    end.
Proof.
  cbn. destruct (f x w) as [w1 [u|e|p]]; cbn; [intros _ | intros _ | done].
  - by destruct (collect f l w1) as [? []].
  - unfold wbind. by destruct (collect f l w1) as [? []].
Qed.

(** What a loop does when each turn changes only the group of its own name, and a turn
    without an error establishes [P] of that group. *)
Lemma collect_groups {A} (f : A -> M W unit) (name : A -> string) (P : A -> option RuleGroupYAMLv2 -> Prop) c l w :
  (forall x w w' o, f x w = (w', o) -> no_panic o = true /\ only_groups c [name x] w w' /\
     (o = Ok tt -> P x (groups w' !! (c, name x)))) ->
  exists w' errs, collect f l w = (w', Ok errs) /\ only_groups c (map name l) w w' /\
    (NoDup (map name l) -> exists bad, length bad = length errs /\
       forall x, x ∈ l -> x ∈ bad \/ P x (groups w' !! (c, name x))).
Proof.
  intros Hf. revert w. induction l as [|x l IH]; intros w.
  - exists w, []. split; [done|]. split; [apply only_groups_refl|]. intros _. exists []. split; [done|].
    intros x Hx. by apply not_elem_of_nil in Hx.
  - destruct (f x w) as [w1 o] eqn:E. destruct (Hf _ _ _ _ E) as (Hp & H1 & Hok).
    destruct (IH w1) as (w' & errs & Hc & H2 & Hall).
    exists w'. eexists. rewrite collect_cons by (by rewrite E). rewrite E. cbn. rewrite Hc.
    split; [done|]. split.
    + apply only_groups_trans with w1; [eapply only_groups_mono, H1 | eapply only_groups_mono, H2]; set_solver.
    + intros Hnd. apply list.NoDup_cons in Hnd as [Hnx Hnd]. destruct (Hall Hnd) as (bad & Hl & Hb).
      assert (Hk : groups w' !! (c, name x) = groups w1 !! (c, name x)) by (by apply H2; intros _).
      destruct o as [[]|e|p]; [exists bad | exists (x :: bad) | done]; (split; [cbn; congruence|]); intros y Hy;
        apply elem_of_cons in Hy as [->|Hy]; [right; rewrite Hk; by apply Hok|by apply Hb|by left; left|].
      destruct (Hb y Hy); [left; by right|by right].
Qed.

Lemma collect_no_errors {A} (f : A -> M W unit) l w w' es :
  (forall x w, (f x w).2 = Ok tt) -> collect f l w = (w', Ok es) -> es = [].
Proof.
  intros Hf. revert w. induction l as [|x l IH]; cbn; intros w; [by intros [= _ <-]|].
  specialize (Hf x w). destruct (f x w) as [w1 o]. cbn in Hf. subst o. apply IH.
Qed.

(** Without an error every turn has established [P]. *)
Lemma collect_all {A} (P : A -> Prop) (l : list A) {E} (errs : list E) :
  (exists bad : list A, length bad = length errs /\ forall x, x ∈ l -> x ∈ bad \/ P x) -> errs = [] -> forall x, x ∈ l -> P x.
Proof. intros (bad & Hl & Hb) -> x Hx. destruct bad; [|done]. by destruct (Hb x Hx) as [?%not_elem_of_nil|]. Qed.

Lemma apply_groups c (g : RuleGroupYAMLv2) w w' o :
  applyCortexSLORules c g w = (w', o) ->
  no_panic o = true /\ only_groups c [rg_Name g] w w' /\
  (o = Ok tt -> groups w' !! (c, rg_Name g) = Some g).
Proof.
  unfold applyCortexSLORules, wbind, wlift. pose proof (law_yaml (groups := groups) (slos := slos) g) as Hy.
  destruct (rules_yaml g) as [y|e|p] eqn:Ey; [|intros [= <- <-] | done].
  - intros H. destruct (law_load (SloLaws := SL) c g y w w' o Ey H) as (Hs & Hp & Hg). split; [done|].
    destruct Hg as [Hg|[Ho Hg]].
    + split; [|intros _; by rewrite Hg, lookup_insert_eq]. split; [done|]. intros c' n Hn. rewrite Hg.
      rewrite lookup_insert_ne; [done|]. intros [= <- <-]. apply Hn; [done | left].
    + split; [|done]. split; [done|]. intros c' n _. by rewrite Hg.
  - split; [done|]. split; [apply only_groups_refl | done].
Qed.

Lemma delete_groups c n w w' o :
  deleteCortexSLORules c n w = (w', o) ->
  no_panic o = true /\ only_groups c [n] w w' /\ (o = Ok tt -> groups w' !! (c, n) = None).
Proof.
  unfold deleteCortexSLORules, wcatch, wfail, wret.
  destruct (ca_DeleteRule c slo_namespace n w) as [w1 o1] eqn:E.
  destruct (law_delete (SloLaws := SL) _ _ _ _ _ E) as (Hs & Hp & Hg & He).
  assert (Honly : only_groups c [n] w w1).
  { split; [done|]. intros c' n' Hn. destruct Hg as [->|[-> _]]; [|done].
    rewrite lookup_delete_ne; [done|]. intros [= -> ->]. apply Hn; [done | left]. }
  assert (Hdel : o1 = Ok tt -> groups w1 !! (c, n) = None).
  { intros ->. destruct Hg as [->|[_ ?]]; [by rewrite lookup_delete_eq | done]. }
  destruct o1 as [[]|e|p]; [intros [= <- <-]; auto | | done].
  destruct (decide _) as [Hc|Hc]; intros [= <- <-].
  - split; [done|]. split; [done|]. intros _. by apply (He e).
  - auto.
Qed.

Lemma collect_apply c gs w :
  exists w' errs, collect (applyCortexSLORules c) gs w = (w', Ok errs) /\
    only_groups c (map rg_Name gs) w w' /\
    (NoDup (map rg_Name gs) -> exists bad, length bad = length errs /\
       forall g, g ∈ gs -> g ∈ bad \/ groups w' !! (c, rg_Name g) = Some g).
Proof.
  apply (collect_groups _ rg_Name (fun g v => v = Some g)). intros g ???. apply apply_groups.
Qed.

Lemma collect_delete {A} c (name : A -> string) l w :
  exists w' errs, collect (fun x => deleteCortexSLORules c (name x)) l w = (w', Ok errs) /\
    only_groups c (map name l) w w' /\
    (NoDup (map name l) -> exists bad, length bad = length errs /\
       forall x, x ∈ l -> x ∈ bad \/ groups w' !! (c, name x) = None).
Proof. apply (collect_groups _ name (fun _ v => v = None)). intros x ???. apply delete_groups. Qed.

(** ** [tryApplyThenDeleteCortexRules] *)

Lemma mask_errors_none c r w : mask_errors c r w = (w, Ok []).
Proof. by destruct r. Qed.

Lemma errors_Combine_Ok errs : errors_Combine errs = Ok tt -> errs = [].
Proof. by destruct errs as [|? []]. Qed.

Lemma errors_Combine_no_panic errs : no_panic (errors_Combine errs) = true.
Proof. by destruct errs as [|? []]. Qed.

(** The roll back of the groups [gs]: after the writes have failed with [errs] each group
    is deleted; [derrs] are the errors of these deletions. *)
Definition rolled_back (c : string) (gs : list RuleGroupYAMLv2) (w w' : W) (errs derrs : list error) : Prop :=
  exists w1, collect (applyCortexSLORules c) gs w = (w1, Ok errs) /\ errs <> [] /\
    collect (fun g => deleteCortexSLORules c (rg_Name g)) gs w1 = (w', Ok derrs).

Lemma try_apply c r gs w :
  NoDup (map rg_Name gs) ->
  exists w' o, tryApplyThenDeleteCortexRules c r gs w = (w', o) /\ no_panic o = true /\
    only_groups c (map rg_Name gs) w w' /\
    (o = Ok tt -> forall g, g ∈ gs -> groups w' !! (c, rg_Name g) = Some g) /\
    (o <> Ok tt -> exists errs derrs, rolled_back c gs w w' errs derrs /\ o = errors_Combine (errs ++ derrs)%list /\
       exists bad, length bad = length derrs /\
         forall g, g ∈ gs -> g ∈ bad \/ groups w' !! (c, rg_Name g) = None).
Proof.
  intros Hnd. unfold tryApplyThenDeleteCortexRules.
  destruct (collect_apply c gs w) as (w1 & errs & Ha & H1 & Hall).
  rewrite (wbind_eq_Ok _ _ _ _ _ Ha).
  destruct errs as [|e errs]; cbn [length]; [rewrite bool_decide_eq_false_2 by lia | rewrite bool_decide_eq_true_2 by lia].
  - cbn. rewrite wbind_eq_Ok with (1 := mask_errors_none c r w1). cbn.
    exists w1, (Ok tt). split; [done|]. split; [done|]. split; [done|]. split; [|done]. intros _.
    by apply (collect_all _ gs (E := error) [] (Hall Hnd)).
  - destruct (collect_delete c rg_Name gs w1) as (w2 & derrs & Hd & H2 & Hnone).
    rewrite (wbind_eq_Ok _ _ _ _ _ Hd), (wbind_eq_Ok _ _ _ _ _ (mask_errors_none c r w2)).
    eexists w2, _. split; [done|]. split; [apply errors_Combine_no_panic|].
    split; [by apply only_groups_trans with w1|]. split; [by intros ?%errors_Combine_Ok|].
    intros _. exists (e :: errs), derrs. split; [by exists w1|]. split; [by rewrite app_nil_r|]. by apply Hnone.
Qed.

(** ** The groups of an SLO *)

Definition rule_suffixes : list string := [RecordingRuleSuffix; MetadataRuleSuffix; AlertRuleSuffix].
Definition group_names (id : string) : list string := (fun sfx => id +:+ sfx) <$> rule_suffixes.

Lemma group_names_NoDup id : NoDup (group_names id).
Proof.
  apply NoDup_fmap_2; [intros a b; apply str_app_inj_l|].
  unfold rule_suffixes. repeat (apply NoDup_cons_2; [set_solver|]). apply NoDup_nil_2.
Qed.

Lemma cortex_rules_shape s i gs :
  ConstructCortexRules s i = Ok gs ->
  exists rr rm ra, gs = [rr; rm; ra] /\ ConstructRecordingRuleGroup s i = Ok rr /\
    ConstructMetadataRules s i = Ok rm /\ ConstructAlertingRuleGroup s i = Ok ra.
Proof.
  unfold ConstructCortexRules. intros H.
  apply obind_Ok in H as (rr & Hr & H). apply obind_Ok in H as (rm & Hm & H). apply obind_Ok in H as (ra & Ha & H).
  simplify_eq. by eauto 10.
Qed.

Lemma alerting_group_shape s i ra :
  ConstructAlertingRuleGroup s i = Ok ra ->
  rg_Name ra = SLO_GetId s +:+ AlertRuleSuffix /\
  (rg_Rules ra ≫= rule_names) =
    [slo_alert_ticket_window; slo_alert_page_window;
     WithSloId (SLO_GetId s) "page" AlertRuleSuffix; WithSloId (SLO_GetId s) "ticket" AlertRuleSuffix].
Proof.
  unfold ConstructAlertingRuleGroup. intros H.
  apply obind_Ok in H as (? & _ & H). apply obind_Ok in H as (? & _ & H).
  apply obind_Ok in H as (rp & Hp & H). apply obind_Ok in H as (rt & Ht & H). simplify_eq/=. split; [done|].
  assert (Hb : forall a id r, must_build a id = Ok r -> id <> "" -> rule_names r = [id]).
  { intros a id r. unfold must_build, AlertingRule_Build. cbn.
    destruct (prom_ParseExpr _); intros ??; simplify_eq. unfold rule_names, is_empty. cbn.
    by rewrite bool_decide_eq_false_2. }
  assert (Hne : forall id k, WithSloId id k AlertRuleSuffix <> "").
  { intros id k Hk. unfold WithSloId in Hk. apply str_app_eq_nil in Hk as [_ Hk]. by apply str_app_eq_nil in Hk as [? _]. }
  by rewrite (Hb _ _ _ Hp (Hne _ _)), (Hb _ _ _ Ht (Hne _ _)).
Qed.

Lemma cortex_rules_names s i gs :
  ConstructCortexRules s i = Ok gs -> map rg_Name gs = group_names (SLO_GetId s).
Proof.
  intros H. apply cortex_rules_shape in H as (rr & rm & ra & -> & Hr & Hm & Ha).
  apply alerting_group_shape in Ha as [Ha _]. cbn. rewrite Ha.
  unfold ConstructRecordingRuleGroup in Hr. apply obind_Ok in Hr as (? & _ & [= <-]).
  unfold ConstructMetadataRules in Hm. apply obind_Ok in Hm as (? & _ & Hm). by apply obind_Ok in Hm as (? & _ & [= <-]).
Qed.

Lemma must_parse_no_err d e : must_parse d <> Err e.
Proof. unfold must_parse. by destruct (prom_ParseDuration d). Qed.

Lemma must_build_no_err a id e : must_build a id <> Err e.
Proof. unfold must_build. by destruct (AlertingRule_Build a id). Qed.

(** The rules are built or the construction panics. *)
Lemma cortex_rules_never_fail s i e : ConstructCortexRules s i <> Err e.
Proof.
  unfold ConstructCortexRules, ConstructRecordingRuleGroup, ConstructMetadataRules, ConstructAlertingRuleGroup,
    RawPeriodDurationQuery, rule_interval. intros H.
  repeat (apply obind_Err in H as [H|(? & _ & H)]); try done;
    by (apply must_parse_no_err in H || apply must_build_no_err in H).
Qed.

(** An id begins with a hexadecimal digit, as those of [uuid.New] do. *)
Definition id_ok (id : string) : Prop :=
  match id with String c _ => hex_value c <> None | "" => False end.

(** The names of the rules, which the deletion uses, are not names of their groups. *)
Lemma rule_name_not_group s i gs n :
  ConstructCortexRules s i = Ok gs -> id_ok (SLO_GetId s) ->
  n ∈ (g ← gs; r ← rg_Rules g; rule_names r) -> n ∉ group_names (SLO_GetId s).
Proof.
  intros H Hid Hn Hg. apply cortex_rules_shape in H as (rr & rm & ra & -> & Hr & Hm & Ha).
  apply list_elem_of_fmap in Hg as (sfx & -> & Hsfx).
  unfold ConstructRecordingRuleGroup in Hr. apply obind_Ok in Hr as (? & _ & [= <-]).
  unfold ConstructMetadataRules in Hm. apply obind_Ok in Hm as (? & _ & Hm). apply obind_Ok in Hm as (? & _ & [= <-]).
  apply alerting_group_shape in Ha as [_ Ha].
  assert (Hfix : forall c t, id_ok (SLO_GetId s) -> hex_value c = None -> SLO_GetId s +:+ sfx <> String c t).
  { intros c t. destruct (SLO_GetId s); cbn; [done|]. intros Hh Hc [= -> _]. done. }
  apply list_elem_of_bind in Hn as (g & Hn & Hg).
  apply elem_of_cons in Hg as [->|Hg].
  { cbn in Hn. set_unfold. destruct_or! Hn; apply (Hfix _ _ Hid) in Hn; done. }
  apply elem_of_cons in Hg as [->|Hg].
  { cbn in Hn. set_unfold. destruct_or! Hn; apply (Hfix _ _ Hid) in Hn; done. }
  apply list_elem_of_singleton in Hg as ->.
  change (SLO_GetId s +:+ sfx ∈ rg_Rules ra ≫= rule_names) in Hn. rewrite Ha in Hn.
  unfold WithSloId in Hn.
  repeat (apply elem_of_cons in Hn as [Hn|Hn]); [by apply (Hfix _ _ Hid) in Hn ..| | |by apply not_elem_of_nil in Hn];
    apply str_app_inj_l in Hn; unfold rule_suffixes in Hsfx; set_solver.
Qed.

(** ** The operations *)

Context (registered : list string).

Lemma SLO_GetId_of s id : SLO_GetId (slo_of s id) = id.
Proof. unfold SLO_GetId, slo_of, SLOFromId, map_get. cbn. by rewrite lookup_insert_eq. Qed.

Lemma SLODataToStruct_id newId d d' slo :
  SLODataToStruct newId d = Ok (d', slo) -> sd_Id d <> "" -> SLO_GetId slo = sd_Id d.
Proof.
  unfold SLODataToStruct. destruct (sd_SLO d); [|done]. intros [= <- <-] Hne.
  rewrite SLO_GetId_of. unfold is_empty. by rewrite bool_decide_eq_false_2.
Qed.

(** What [Slo_Create] does: all the groups are there, or those of them that could be
    deleted again are not. *)
Definition left_behind (newId : string) (req : ServiceLevelObjective) (w w' : W) (e : error) : Prop :=
  only_groups (so_ClusterId req) (group_names newId) w w' /\
  exists gs errs derrs, ConstructCortexRules (slo_of (reconcile req) newId) None = Ok gs /\
    rolled_back (so_ClusterId req) gs w w' errs derrs /\ errors_Combine (errs ++ derrs)%list = Err e /\
    (exists bad, length bad = length derrs /\
       forall g, g ∈ gs -> g ∈ bad \/ groups w' !! (so_ClusterId req, rg_Name g) = None) /\
    (derrs = [] -> (forall n, n ∈ group_names newId -> groups w !! (so_ClusterId req, n) = None) -> groups w' = groups w).

Lemma Slo_Create_groups newId req w w' o :
  Slo_Create newId req w = (w', o) ->
  match o with
  | Ok r => r = (reconcile req, newId) /\ only_groups (so_ClusterId req) (group_names newId) w w' /\
      exists gs, ConstructCortexRules (slo_of (reconcile req) newId) None = Ok gs /\
        map rg_Name gs = group_names newId /\
        forall g, g ∈ gs -> groups w' !! (so_ClusterId req, rg_Name g) = Some g
  | Err e => left_behind newId req w w' e
  | Panic _ => w' = w
  end.
Proof.
  intros H. unfold Slo_Create, CreateSLORequestToStruct in H.
  assert (Hc : so_ClusterId (reconcile req) = so_ClusterId req).
  { unfold reconcile. destruct (bool_decide _); [|done]. by destruct (ToMatchingSubsetIdenticalMetric _ _). }
  rewrite SLO_GetId_of in H.
  unfold wbind at 1, wlift in H. cbn in H. unfold obind in H.
  destruct (ConstructCortexRules (slo_of (reconcile req) newId) None) as [gs|e|p] eqn:Eg;
    [|by apply cortex_rules_never_fail in Eg|by simplify_eq].
  pose proof (cortex_rules_names _ _ _ Eg) as Hn. rewrite SLO_GetId_of in Hn.
  destruct (try_apply (so_ClusterId req) (Some newId) gs w) as (w1 & o1 & Ht & Hp & Honly & Hok & Hbad).
  { rewrite Hn. apply group_names_NoDup. }
  rewrite Hc in H. unfold wbind, wret in H. rewrite Ht in H.
  rewrite Hn in Honly.
  destruct o1 as [[]|e|p]; simplify_eq; [split; [done|]; split; [done|]; exists gs; eauto|].
  destruct (Hbad ltac:(done)) as (errs & derrs & Hr & He & Hb). split; [done|].
  exists gs, errs, derrs. split; [done|]. split; [done|]. split; [by symmetry|]. split; [done|]. intros -> Hfresh.
  pose proof (collect_all _ gs (E := error) [] Hb eq_refl) as Hnone. destruct Honly as [_ Ho].
  apply map_eq. intros [c n]. destruct (decide (c = so_ClusterId req /\ n ∈ group_names newId)) as [[-> Hin]|Hout].
  - rewrite Hfresh by done. rewrite <- Hn in Hin. apply list_elem_of_fmap in Hin as (g & -> & Hg). by apply Hnone.
  - apply Ho. intros -> Hin. by apply Hout.
Qed.

(** C15: Creating an SLO rolls back what it cannot complete.  If it succeeds, the three rule
    groups of the SLO are in Cortex and its data is stored under its new id.  If it fails,
    the stored data is as before, and so is every group but those three: they are all
    there when it was the last write, that of the data, that failed; otherwise the writes
    are rolled back, and as many of the three as the roll back reported errors for, at
    most, are left behind (none when it reported none and the names were free before),
    with these errors part of the answer. *)
Theorem CreateSLO_all_or_nothing (newId : string) (now : Time) (req : ServiceLevelObjective) (w w' : W)
    (o : outcome string) :
  CreateSLO registered newId now (Some req) w = (w', o) ->
  (forall c n, (c = so_ClusterId req -> n ∉ group_names newId) -> groups w' !! (c, n) = groups w !! (c, n)) /\
  match o with
  | Ok id => id = newId /\
      slos w' = <[slo_path newId := mkSLOData newId (Some (reconcile req)) (Some now)]> (slos w) /\
      exists gs, ConstructCortexRules (slo_of (reconcile req) newId) None = Ok gs /\
        map rg_Name gs = group_names newId /\ forall g, g ∈ gs -> groups w' !! (so_ClusterId req, rg_Name g) = Some g
  | _ =>
      (groups w' = groups w /\ slos w' = slos w) \/
      (exists e w0, o = Err e /\ groups w0 = groups w /\ slos w' = slos w /\ left_behind newId req w0 w' e) \/
      (exists gs, ConstructCortexRules (slo_of (reconcile req) newId) None = Ok gs /\
         (forall g, g ∈ gs -> groups w' !! (so_ClusterId req, rg_Name g) = Some g) /\
         exists w1 o1, groups w1 = groups w' /\ slos w1 = slos w /\ is_Ok o1 = false /\
           kv_Put slo_kv (slo_path newId) (mkSLOData newId (Some (reconcile req)) (Some now)) w1 = (w', o1))
  end.
Proof.
  intros H. unfold CreateSLO in H.
  apply wbind_inv in H as [([] & w1 & [= <- Hv] & H) | [(? & [= <- _] & ->) | (? & [= <- _] & ->)]];
    [|by split; [|left]..].
  cbn in H.
  assert (Hk : forall w1 o1, known_cluster (so_ClusterId req) w = (w1, o1) -> groups w1 = groups w /\ slos w1 = slos w).
  { intros w1 o1. unfold known_cluster, wbind. destruct (mg_ListClusters w) as [w2 o2] eqn:E.
    apply (law_clusters (SloLaws := SL)) in E. destruct o2; cbn; [destruct (bool_decide _)|..]; by intros [= <- _]. }
  apply wbind_inv in H as [([] & w1 & Hc & H) | [(? & Hc & ->) | (? & Hc & ->)]];
    apply Hk in Hc as [Hg Hs]; [|by (split; [intros; by rewrite Hg|left])..].
  apply wbind_inv in H as [([] & w2 & Hd & H) | [(? & Hd & ->) | (? & Hd & ->)]];
    assert (Hst : forall w2 o2, slo_store registered (so_Datasource req) w1 = (w2, o2) -> w2 = w1)
      by (intros w3 o3; unfold slo_store; destruct (bool_decide _); by intros [= <- _]);
    apply Hst in Hd as ->; [|by (split; [intros; by rewrite Hg|left])..].
  apply wbind_inv in H as [([r id] & w2 & Hcr & H) | [(e & Hcr & ->) | (? & Hcr & ->)]];
    pose proof (Slo_Create_groups _ _ _ _ _ Hcr) as Hpost; cbn in Hpost.
  2: { split; [intros c n Hcn; rewrite (proj2 (proj1 Hpost)) by done; by rewrite Hg|]. right. left.
       exists e, w1. split; [done|]. split; [done|]. split; [|done]. by rewrite (proj1 (proj1 Hpost)). }
  2: { subst w'. split; [intros; by rewrite Hg|by left]. }
  destruct Hpost as ([= -> ->] & [Hs2 Ho] & gs & Hgs & Hn & Hin).
  apply wbind_inv in H as [([] & w3 & Hp & [= <- <-]) | [(? & Hp & ->) | (? & Hp & ->)]];
    pose proof (law_put (SloLaws := SL) _ _ _ _ _ Hp) as (Hg3 & _ & Hs3);
    (split; [intros c n Hcn; by rewrite Hg3, Ho, Hg|]).
  - destruct Hs3 as [Hs3|[? _]]; [|done]. split; [done|]. split; [congruence|]. exists gs. rewrite Hg3. done.
  - right. right. exists gs. rewrite Hg3. split; [done|]. split; [done|]. eexists w2, _.
    split; [done|]. split; [congruence|]. split; [|exact Hp]. done.
  - right. right. exists gs. rewrite Hg3. split; [done|]. split; [done|]. eexists w2, _.
    split; [done|]. split; [congruence|]. split; [|exact Hp]. done.
Qed.

Lemma collect_delete_names c names w w' o :
  collect (deleteCortexSLORules c) names w = (w', o) -> only_groups c names w w'.
Proof.
  intros H. destruct (collect_delete c (fun n => n) names w) as (w1 & errs & H1 & Ho & _).
  change (fun x => deleteCortexSLORules c x) with (deleteCortexSLORules c) in H1. rewrite map_id in Ho.
  rewrite H in H1. by simplify_eq.
Qed.

(** The deletion of an SLO's rules asks for groups named like its rules. *)
Lemma Slo_Delete_keeps_groups newId d w w' o c sfx :
  Slo_Delete newId d w = (w', o) -> id_ok (sd_Id d) -> sfx ∈ rule_suffixes ->
  groups w' !! (c, sd_Id d +:+ sfx) = groups w !! (c, sd_Id d +:+ sfx) /\ slos w' = slos w.
Proof.
  intros H Hid Hsfx. unfold Slo_Delete in H.
  assert (Hlift : forall A (x : outcome A) w1 o1, wlift x w = (w1, o1) -> w1 = w) by (by intros ???? [= <- _]).
  apply wbind_inv in H as [(ex & w1 & [= <- _] & H) | [(? & E & _) | (? & E & _)]]; [|by apply Hlift in E as -> ..].
  apply wbind_inv in H as [([d' slo] & w1 & [= <- Hst] & H) | [(? & E & _) | (? & E & _)]]; [|by apply Hlift in E as -> ..].
  apply wbind_inv in H as [(gs & w1 & [= <- Hgs] & H) | [(? & E & _) | (? & E & _)]]; [|by apply Hlift in E as -> ..].
  assert (Hne : sd_Id d <> "") by (by intros E; rewrite E in Hid).
  pose proof (SLODataToStruct_id _ _ _ _ Hst Hne) as Hslo.
  assert (Hnames : forall n, n ∈ (g ← gs; r ← rg_Rules g; rule_names r) -> n ∉ group_names (sd_Id d)).
  { intros n Hn. rewrite <- Hslo. apply (rule_name_not_group slo None gs n); [done | by rewrite Hslo | done]. }
  assert (Hkeep : forall w1 o1, collect (deleteCortexSLORules (so_ClusterId ex))
      (g ← gs; r ← rg_Rules g; rule_names r) w = (w1, o1) ->
    groups w1 !! (c, sd_Id d +:+ sfx) = groups w !! (c, sd_Id d +:+ sfx) /\ slos w1 = slos w).
  { intros w1 o1 E. apply collect_delete_names in E as [Hs Ho]. split; [|done]. apply Ho. intros _ Hin.
    apply (Hnames _ Hin). by apply list_elem_of_fmap_2. }
  apply wbind_inv in H as [(errs & w1 & E & H) | [(? & E & _) | (? & E & _)]]; [|by apply Hkeep in E ..].
  apply Hkeep in E. rewrite (wbind_eq_Ok _ _ _ _ _ (mask_errors_none _ _ _)) in H.
  by injection H as <- _.
Qed.

(** Deleting an SLO leaves its rules behind: whatever the outcome, each of the three
    rule groups of the SLO is what it was, on every cluster, since the deletion asks
    Cortex for groups that have the names of the rules; when it succeeds only the stored
    data is gone.  Cortex goes on evaluating the rules and firing the alerts. *)
Lemma DeleteSLO_keeps_rule_groups (newId id : string) (d : SLOData) (w w' : W) (o : outcome unit) :
  slos w !! slo_path id = Some d -> id_ok (sd_Id d) ->
  DeleteSLO registered newId id w = (w', o) ->
  (forall c sfx, sfx ∈ rule_suffixes -> groups w' !! (c, sd_Id d +:+ sfx) = groups w !! (c, sd_Id d +:+ sfx)) /\
  (o = Ok tt -> slos w' = delete (slo_path id) (slos w)).
Proof.
  intros Hd Hid H. unfold DeleteSLO in H.
  apply wbind_inv in H as [(e & w1 & E & H) | [(? & E & ->) | (? & E & ->)]];
    apply (law_get (SloLaws := SL)) in E as (Hg & Hs & Hv); [|split; [by rewrite Hg|done] ..].
  specialize (Hv e eq_refl). rewrite Hd in Hv. injection Hv as <-. rewrite <- Hs, <- Hg. clear Hs Hg.
  apply wbind_inv in H as [([] & w2 & E & H) | [(? & E & ->) | (? & E & ->)]];
    assert (Hst : forall w2 o2, checkDatasource registered (default "" (so_Datasource <$> sd_SLO d)) w1 = (w2, o2) -> w2 = w1)
      by (intros w3 o3; unfold checkDatasource; destruct (bool_decide _); by intros [= <- _]);
    apply Hst in E as ->; [|done..].
  apply wbind_inv in H as [([] & w2 & E & H) | [(? & E & ->) | (? & E & ->)]];
    pose proof (fun c sfx => Slo_Delete_keeps_groups _ _ _ _ _ c sfx E Hid) as Hk;
    [|by split; [intros; apply Hk|] ..].
  apply (law_kv_delete (SloLaws := SL)) in H as [Hg Hs]. rewrite Hg. split; [intros; by apply Hk|].
  intros ->. destruct Hs as [->|[? _]]; [|done]. f_equal.
  by apply (Hk "" RecordingRuleSuffix); left.
Qed.

(** An update that fails takes the SLO's rules with it: when the new rules cannot be
    loaded on the cluster of the SLO, the groups that are deleted again are those that
    were evaluated until then, and the stored data still describes them. *)
Lemma failed_update_deletes_rules (newId : string) (incoming existing : SLOData) (slo : ServiceLevelObjective)
    (w w' : W) (e : error) :
  sd_SLO incoming = Some slo -> sd_Id incoming <> "" ->
  (so_ClusterId <$> sd_SLO existing) = Some (so_ClusterId slo) ->
  (forall c n w, (deleteCortexSLORules c n w).2 = Ok tt) ->
  Slo_Update registered newId incoming existing w = (w', Err e) ->
  slos w' = slos w /\
  forall sfx, sfx ∈ rule_suffixes -> groups w' !! (so_ClusterId slo, sd_Id incoming +:+ sfx) = None.
Proof.
  intros Hslo Hne Hex Hdel H. unfold Slo_Update in H.
  assert (Hc : so_ClusterId (reconcile slo) = so_ClusterId slo).
  { unfold reconcile. destruct (bool_decide _); [|done]. by destruct (ToMatchingSubsetIdenticalMetric _ _). }
  apply wbind_inv in H as [([inc newSlo] & w1 & [= <- Hst] & H) | [(? & [= <- E] & _) | (? & E & [=])]];
    [|unfold SLODataToStruct in E; by rewrite Hslo in E].
  pose proof (SLODataToStruct_id _ _ _ _ Hst Hne) as Hid.
  unfold SLODataToStruct in Hst. rewrite Hslo in Hst. injection Hst as <- <-.
  apply wbind_inv in H as [(gs & w1 & [= <- Hgs] & H) | [(? & [= <- E] & _) | (? & E & [=])]].
  2: { by apply cortex_rules_never_fail in E. }
  cbn in H. rewrite Hc in H.
  destruct (try_apply (so_ClusterId slo) None gs w) as (w1 & o1 & Ht & Hp & [Hs _] & _ & Hbad).
  { rewrite (cortex_rules_names _ _ _ Hgs). apply group_names_NoDup. }
  apply wbind_inv in H as [([] & w2 & E & H) | [(? & E & [= <-]) | (? & E & [=])]]; rewrite Ht in E; simplify_eq.
  - exfalso. destruct (sd_SLO existing) as [ex|] eqn:Ee; [|done]. cbn in Hex. injection Hex as Hex.
    unfold deref_slo in H. rewrite Ee in H. cbn in H. by rewrite Hex, bool_decide_eq_true_2 in H.
  - split; [done|]. intros sfx Hsfx.
    assert (Hin : sd_Id incoming +:+ sfx ∈ map rg_Name gs).
    { rewrite (cortex_rules_names _ _ _ Hgs), Hid. by apply list_elem_of_fmap_2. }
    apply list_elem_of_fmap in Hin as (g & -> & Hg).
    destruct (Hbad ltac:(done)) as (errs & derrs & (w1 & _ & _ & Hd) & _ & Hb).
    apply collect_no_errors in Hd; [|intros; apply Hdel]. by apply (collect_all _ gs derrs Hb).
Qed.

(** ** Clones *)

Lemma store_clones_spec data errs ids w w' fs :
  store_clones data errs ids w = (w', Ok fs) ->
  (forall k, slos w !! k = Some data -> slos w' !! k = Some data) /\
  forall i cid, ids !! i = Some cid -> errs !! i = Some None -> slos w' !! slo_path cid = Some data.
Proof.
  revert ids w fs. induction errs as [|[e|] errs IH]; intros ids w fs H.
  - injection H as <- _. split; [done|]. intros i cid _ Hi. by rewrite lookup_nil in Hi.
  - apply wbind_Ok in H as (fs' & w1 & H & [= <- _]). destruct (IH _ _ _ H) as [Hk Hall]. split; [done|].
    intros [|i] cid Hc Hi; [done|]. apply (Hall i); [|done]. by destruct ids.
  - cbn in H. destruct ids as [|cid ids]; [done|]. apply wbind_Ok in H as ([] & w1 & Hp & H).
    apply (law_put (SloLaws := SL)) in Hp as (_ & _ & [Hp|[? _]]); [|done].
    destruct (IH _ _ _ H) as [Hk Hall]. split.
    + intros k Hd. apply Hk. rewrite Hp. destruct (decide (slo_path cid = k)) as [->|Hne].
      * by rewrite lookup_insert_eq.
      * by rewrite lookup_insert_ne.
    + intros [|i] cid' Hc Hi; cbn in Hc, Hi; [|by apply (Hall i)]. injection Hc as <-.
      apply Hk. by rewrite Hp, lookup_insert_eq.
Qed.

Lemma multi_clone_last idx ids data last_id :
  list.last ids = Some last_id -> sd_Id (multi_clone idx ids data) = last_id.
Proof.
  revert idx data. induction ids as [|id ids IH]; intros idx data Hl; [done|].
  destruct ids as [|id' ids]; [by injection Hl|]. by apply IH.
Qed.

Lemma multi_clone_cluster idx ids data :
  so_ClusterId <$> sd_SLO (multi_clone idx ids data) = so_ClusterId <$> sd_SLO data.
Proof.
  revert idx data. induction ids as [|id ids IH]; intros idx data; [done|]. cbn. rewrite IH. cbn.
  by destruct (sd_SLO data).
Qed.

(** All clones of an SLO to other clusters are stored as one and the same record:
    under the id of every cluster that reported no error lies the data with the id of
    the last clone, which names the cluster of the original instead of its own. *)
Lemma clones_share_one_record (newId id lastId : string) (now : Time) (cloneIds : list string)
    (errArr : list (option error)) (existing : SLOData) (w w' : W) (failures : list error) :
  (forall w, is_Ok (mg_ListClusters w).2 = true) ->
  slos w !! slo_path id = Some existing -> list.last cloneIds = Some lastId ->
  CloneToClusters registered newId now id cloneIds errArr w = (w', Ok failures) ->
  exists data, sd_Id data = lastId /\
    so_ClusterId <$> sd_SLO data = so_ClusterId <$> sd_SLO existing /\
    forall i cid, cloneIds !! i = Some cid -> errArr !! i = Some None -> slos w' !! slo_path cid = Some data.
Proof.
  intros Hcl Hex Hlast H. unfold CloneToClusters in H.
  apply wbind_Ok in H as (e & w1 & E & H). apply (law_get (SloLaws := SL)) in E as (_ & Hs & Hv).
  specialize (Hv e eq_refl). rewrite Hex in Hv. injection Hv as <-.
  apply wbind_Ok in H as ([] & w2 & [= <- _] & H). apply wbind_Ok in H as ([] & w2 & _ & H).
  apply wbind_Ok in H as ([cloned slo] & w3 & [= <- Hst] & H).
  specialize (Hcl w2). destruct (mg_ListClusters w2) as [w3 []]; [|done..].
  apply store_clones_spec in H as [_ Hall].
  exists (set_created now (multi_clone 0 cloneIds cloned)). cbn. split; [by apply multi_clone_last|].
  split; [|done]. rewrite multi_clone_cluster.
  unfold SLODataToStruct in Hst. destruct (sd_SLO existing) as [s|]; [|done]. injection Hst as <- _. cbn.
  unfold reconcile. destruct (bool_decide _); [|done]. by destruct (ToMatchingSubsetIdenticalMetric _ _).
Qed.

(** A valid request for a datasource without a store, such as logging, crashes. *)
Lemma create_unregistered_panics newId now req w w' :
  CreateSLORequest_Validate (Some req) = Ok tt -> known_cluster (so_ClusterId req) w = (w', Ok tt) ->
  so_Datasource req ∉ registered ->
  CreateSLO registered newId now (Some req) w = (w', Panic "nil pointer dereference").
Proof.
  intros Hv Hk Hd. unfold CreateSLO. rewrite (wbind_eq_Ok (wlift _) _ w w tt) by (unfold wlift; by rewrite Hv).
  cbn. unfold wbind at 1. rewrite Hk. unfold wbind, slo_store. by rewrite bool_decide_eq_false_2.
Qed.
End Props.

(** ** A reference instance of the services of the SLO plugin, and the theorems about it
    applied to concrete SLOs. *)

Open Scope string_scope.

(** ** Prometheus *)

(** Whole days only. *)
#[export] Instance PromLib_ref : PromLib := {|
  prom_ParseDuration s :=
    if bool_decide (s = "30d") then Ok (30 * 24 * hour)%Z
    else if bool_decide (s = "1m") then Ok minute
    else Err (ErrorString "not a valid duration string");
  prom_String _ := "1m";
  prom_ParseExpr _ := Ok tt |}.

(** Patterns without special characters: a value matches if it is an alternative. *)
Definition bar : ascii := "|"%char.
Definition ref_re_match (p v : string) : bool := bool_decide (v ∈ Split bar p).
Definition ref_re_valid (p : string) : bool := no_char bar p.

#[export] Instance PromRegex_ref : PromRegex.
Proof.
  refine {| re_match := ref_re_match; re_valid := ref_re_valid |}.
  intros vals v Hne Hv. unfold ref_re_match at 1.
  change "|" with (String bar ""). rewrite (Split_Join bar vals Hne) by exact Hv.
  rewrite list.Forall_forall in Hv.
  assert (Hone : forall x, x ∈ vals -> ref_re_match x v = bool_decide (v = x)).
  { intros x Hx. unfold ref_re_match. rewrite Split_no_char by (by apply Hv).
    apply bool_decide_ext. apply list_elem_of_singleton. }
  destruct (existsb _ vals) eqn:E.
  - apply existsb_elem in E as (x & Hx & Hm). rewrite Hone in Hm by done.
    apply bool_decide_eq_true in Hm. by apply bool_decide_eq_true_2; subst.
  - apply bool_decide_eq_false_2. intros Hin. assert (existsb (fun p => ref_re_match p v) vals = true); [|congruence].
    apply existsb_elem. exists v. split; [done|]. rewrite Hone by done. by apply bool_decide_eq_true_2.
Defined.

(** ** The services

    A world holds the groups and the SLOs; loading fails when [rw_broken] is set. *)
Record RefCortex := mkRefCortex {
  rw_groups : gmap (string * string) RuleGroupYAMLv2; rw_slos : gmap string SLOData; rw_broken : bool }.

#[export] Instance SloServices_ref : SloServices RefCortex := {|
  rules_content := RuleGroupYAMLv2;
  ca_LoadRules _ g c w :=
    if rw_broken w then (w, Err (StatusError codes_Unavailable "ruler"))
    else (mkRefCortex (<[(c, rg_Name g) := g]> (rw_groups w)) (rw_slos w) (rw_broken w), Ok tt);
  ca_DeleteRule c _ n w := (mkRefCortex (delete (c, n) (rw_groups w)) (rw_slos w) (rw_broken w), Ok tt);
  ca_WriteMetrics _ _ _ w := (w, Ok tt);
  ca_Query _ _ w := (w, Ok "");
  mg_ListClusters w := (w, Ok ["c1"; "c2"]);
  slo_kv := {|
    kv_Put k v w := (mkRefCortex (rw_groups w) (<[k := v]> (rw_slos w)) (rw_broken w), Ok tt);
    kv_Get k w := (w, match rw_slos w !! k with Some v => Ok v | None => Err ErrNotFound end);
    kv_Delete k w := (mkRefCortex (rw_groups w) (delete k (rw_slos w)) (rw_broken w), Ok tt);
    kv_ListKeys p w := (w, Ok []) |};
  rules_yaml g := Ok g;
  decode_vector _ := Ok None |}.

#[export] Instance SloLaws_ref : SloLaws SloServices_ref rw_groups rw_slos.
Proof.
  split; cbn.
  - intros c g y w w' o [= <-] H. destruct (rw_broken w); simplify_eq; cbn; auto.
  - done.
  - intros c n w w' o [= <- <-]. cbn. naive_solver.
  - by intros w w' o [= <- _].
  - intros k v w w' o [= <- <-]. cbn. naive_solver.
  - intros k w w' o [= <- <-]. split; [done|]. split; [done|]. intros v. by destruct (rw_slos w !! k) eqn:?; intros; simplify_eq.
  - intros k w w' o [= <- <-]. cbn. naive_solver.
Qed.

Definition ref_slo : ServiceLevelObjective :=
  mkServiceLevelObjective "availability" "monitoring" "c1" "api" "http_requests" "http_requests"
    [mkEvent "code" ["200"; "201"]] [mkEvent "code" ["500"]; mkEvent "verb" ["GET"]] "30d"
    (Some (mkDuration 300 0)) (Some (of_int 99)) [] None.

Definition ref_id : string := "1f".
Definition ref_data : SLOData := mkSLOData ref_id (Some (reconcile ref_slo)) (Some 5%Z).
Definition ref_empty : RefCortex := mkRefCortex ∅ ∅ false.
Definition ref_created : RefCortex := (CreateSLO ["monitoring"] ref_id 5%Z (Some ref_slo) ref_empty).1.
Definition break (w : RefCortex) : RefCortex := mkRefCortex (rw_groups w) (rw_slos w) true.

(** The runs below, by their results only. *)
Lemma ref_create_ok : (CreateSLO ["monitoring"] ref_id 5%Z (Some ref_slo) ref_empty).2 = Ok ref_id.
Proof. vm_compute. reflexivity. Qed.

Lemma ref_created_slos : rw_slos ref_created = {[ slo_path ref_id := ref_data ]}.
Proof. vm_compute. reflexivity. Qed.

Lemma CreateSLO_all_or_nothing_witness :
  exists gs, ConstructCortexRules (slo_of (reconcile ref_slo) ref_id) None = Ok gs /\
    forall g, g ∈ gs -> rw_groups ref_created !! ("c1", rg_Name g) = Some g.
Proof.
  destruct (CreateSLO_all_or_nothing rw_groups rw_slos ["monitoring"] ref_id 5%Z ref_slo ref_empty ref_created
    (CreateSLO ["monitoring"] ref_id 5%Z (Some ref_slo) ref_empty).2) as [_ Hr].
  - apply surjective_pairing.
  - destruct (CreateSLO ["monitoring"] ref_id 5%Z (Some ref_slo) ref_empty).2 as [id|e|p] eqn:E;
      [|vm_compute in E; discriminate E..].
    destruct Hr as (_ & _ & gs & Hg & _ & Hin). exists gs. split; [exact Hg | exact Hin].
Defined.

