(* ===== verification/MetricsBackend.v ===== *)
(** plugins/metrics on the gateway: the capability backend (pkg/backend/metrics.go)
    with its registry of remote-read targets, and the runner of the uninstall task
    (pkg/cortex/uninstall.go).  Handlers run one at a time here; the locks that make
    them do so are described with the handlers that hold them. *)

From S2P Require Import Prelude GoStd Util CoreV1 Storage Rbac Bootstrap Task Management.
From Stdlib Require Import Ascii.

Local Open Scope string_scope.

Definition CapabilityMetrics : string := "metrics".

(** [strings.Contains]. *)
Fixpoint Contains (s sub : string) : bool :=
  HasPrefix s sub || match s with EmptyString => false | String _ s => Contains s sub end.

(** A field of a message behind a pointer. *)
Definition deref {A} (p : option A) : outcome A :=
  match p with Some a => Ok a | None => Panic "nil pointer dereference" end.

(** ** Messages (remoteread.proto, node.proto) *)

Inductive TargetState :=
| TargetState_Unknown | TargetState_NotRunning | TargetState_Running
| TargetState_Completed | TargetState_Failed | TargetState_Canceled.

#[export] Instance TargetState_eq_dec : EqDecision TargetState.
Proof. solve_decision. Defined.

Record TargetMeta := mkTargetMeta { tm_Name : string; tm_ClusterId : string }.

Record TargetProgress := mkTargetProgress {
  tp_StartTimestamp : option Time;
  tp_LastReadTimestamp : option Time;
  tp_EndTimestamp : option Time }.

Record TargetStatus := mkTargetStatus {
  tst_Progress : option TargetProgress;
  tst_Message : string;
  tst_State : TargetState }.

Record TargetSpec := mkTargetSpec { tsp_Endpoint : string }.

Record Target := mkTarget {
  tg_Meta : option TargetMeta;
  tg_Spec : option TargetSpec;
  tg_Status : option TargetStatus }.

Record TargetDiff := mkTargetDiff { td_Endpoint : string; td_Name : string }.

Inductive LabelMatcher_Type :=
| LabelMatcher_Equal | LabelMatcher_NotEqual | LabelMatcher_RegexEqual | LabelMatcher_NotRegexEqual
| LabelMatcher_Other (n : Z).

Record LabelMatcher := mkLabelMatcher {
  lm_Type : LabelMatcher_Type; lm_Name : string; lm_Value : string }.

Record Query := mkQuery {
  q_StartTimestamp : option Time;
  q_EndTimestamp : option Time;
  q_Matchers : list LabelMatcher }.

Record DiscoveryEntry := mkDiscoveryEntry {
  de_Name : string; de_ClusterId : string; de_ExternalEndpoint : string; de_InternalEndpoint : string }.

Record PrometheusRulesSpec := mkPrometheusRulesSpec {
  prs_SearchNamespaces : list string; prs_Kubeconfig : option string }.
Record DiscoverySpec := mkDiscoverySpec {
  ds_PrometheusRules : option PrometheusRulesSpec;
  ds_Filesystem : option (list string);
  ds_Interval : string }.
Record RulesSpec := mkRulesSpec { rs_Discovery : option DiscoverySpec }.
Record PrometheusSpec := mkPrometheusSpec { ps_Image : string; ps_DeploymentStrategy : string }.
Record MetricsCapabilitySpec := mkMetricsCapabilitySpec {
  mcs_Rules : option RulesSpec; mcs_Prometheus : option PrometheusSpec }.
Record MetricsCapabilityConfig := mkMetricsCapabilityConfig {
  mcc_Enabled : bool;
  mcc_Conditions : list string;
  mcc_Spec : option MetricsCapabilitySpec }.

#[export] Instance PrometheusRulesSpec_eq_dec : EqDecision PrometheusRulesSpec.
Proof. solve_decision. Defined.
#[export] Instance DiscoverySpec_eq_dec : EqDecision DiscoverySpec.
Proof. solve_decision. Defined.
#[export] Instance RulesSpec_eq_dec : EqDecision RulesSpec.
Proof. solve_decision. Defined.
#[export] Instance PrometheusSpec_eq_dec : EqDecision PrometheusSpec.
Proof. solve_decision. Defined.
#[export] Instance MetricsCapabilitySpec_eq_dec : EqDecision MetricsCapabilitySpec.
Proof. solve_decision. Defined.
#[export] Instance MetricsCapabilityConfig_eq_dec : EqDecision MetricsCapabilityConfig.
Proof. solve_decision. Defined.

Inductive ConfigStatus := ConfigStatus_Unknown | ConfigStatus_UpToDate | ConfigStatus_NeedsUpdate.

Record SyncResponse := mkSyncResponse {
  sr_ConfigStatus : ConfigStatus;
  sr_UpdatedConfig : option MetricsCapabilityConfig }.

(** The state of the cortex cluster. *)
Inductive InstallState :=
| InstallState_Unknown | InstallState_NotInstalled | InstallState_Updating
| InstallState_Installed | InstallState_Uninstalling.

(** capability.v1 *)
Record NodeCapabilityStatus := mkNodeCapabilityStatus {
  ncs_Enabled : bool; ncs_LastSync : option Time; ncs_Conditions : list string }.

Record InstallRequest := mkInstallRequest { ireq_Cluster : Reference; ireq_IgnoreWarnings : bool }.

(** The options of an uninstall, decoded by encoding/json. *)
Record DefaultUninstallOptions := mkDefaultUninstallOptions {
  duo_DeleteStoredData : bool; duo_InitialDelay : Z }.
Record TimestampedMetadata := mkTimestampedMetadata {
  tmd_Options : DefaultUninstallOptions; tmd_DeletionTimestamp : Time }.

(** ** What the handlers call *)

(** The metadata a task is launched with is of type [Md]. *)
Class TaskController (W Md : Type) := {
  tc_TaskStatus : string -> M W TaskStatus;
  tc_LaunchTask : string -> Md -> M W unit;
  tc_CancelTask : string -> M W unit }.

(** The clients of the plugin: the management API, the node manager, the driver of
    the cortex cluster and the delegates of the agents' streams. *)
Class MetricsClients (W : Type) := {
  mgmt_GetCluster : Reference -> M W Cluster;
  RequestSync : option Reference -> list string -> M W unit;
  drv_GetClusterStatus : M W InstallState;
  drv_ShouldDisableNode : Reference -> M W unit;
  drv_UninstallCluster : M W unit;
  LoadFromStruct : string -> outcome DefaultUninstallOptions;
  rr_GetTargetStatus : string -> option TargetMeta -> M W TargetStatus;
  rr_Start : string -> Target -> option Query -> M W unit;
  rr_Stop : string -> TargetMeta -> M W unit;
  rr_Discover : list string -> option string -> M W (list (string * string));
  discovery_Unmarshal : string -> list DiscoveryEntry;
  clock_Now : M W Time }.

(** What the handlers need of the message text of an error, and of
    [status.Convert(err).Message()]. *)
Class ErrorText := { err_Error : error -> string; status_Message : error -> string }.

(** ** The state of the backend *)

Record MetricsBackend (W : Type) := mkMetricsBackend {
  mb_world : W;
  mb_nodeStatus : gmap string NodeCapabilityStatus;
  mb_remoteReadTargets : gmap string Target;
  mb_hasDelegate : bool }.
Arguments mkMetricsBackend {_} _ _ _ _.
Arguments mb_world {_} _.
Arguments mb_nodeStatus {_} _.
Arguments mb_remoteReadTargets {_} _.
Arguments mb_hasDelegate {_} _.

Section Backend.
Context {W : Type} `{ManagementStorage W} `{!TaskController W TimestampedMetadata}
  `{MetricsClients W} `{ErrorText}.

Notation B := (MetricsBackend W).

Definition on_world {A} (m : M W A) : M B A := fun b =>
  let '(w, o) := m (mb_world b) in
  (mkMetricsBackend w (mb_nodeStatus b) (mb_remoteReadTargets b) (mb_hasDelegate b), o).

Definition set_targets (ts : gmap string Target) (b : B) : B :=
  mkMetricsBackend (mb_world b) (mb_nodeStatus b) ts (mb_hasDelegate b).
Definition set_nodeStatus (ns : gmap string NodeCapabilityStatus) (b : B) : B :=
  mkMetricsBackend (mb_world b) ns (mb_remoteReadTargets b) (mb_hasDelegate b).

Definition get_targets : M B (gmap string Target) := fun b => (b, Ok (mb_remoteReadTargets b)).
Definition put_targets (ts : gmap string Target) : M B unit := fun b => (set_targets ts b, Ok tt).

(** ** The capability *)

Definition canInstall : M B unit :=
  let! stat := wcatch (on_world drv_GetClusterStatus)
                 (fun err => wfail (StatusError codes_Unavailable (err_Error err))) in
  match stat with
  | InstallState_Updating | InstallState_Installed => wret tt
  | InstallState_NotInstalled | InstallState_Uninstalling =>
      wfail (StatusError codes_Unavailable "cortex cluster is not installed")
  | InstallState_Unknown => wfail (StatusError codes_Internal "unknown cortex cluster state")
  end.

(** A failed request is only logged. *)
Definition requestNodeSync (cluster : option Reference) : M B unit :=
  wcatch (on_world (RequestSync cluster [CapabilityMetrics])) (fun _ => wret tt).

Definition Install (req : InstallRequest) : M B InstallResponse := fun b =>
  let finish (warning : option error) : M B InstallResponse :=
    on_world (ms_UpdateCluster (ireq_Cluster req)
                (NewAddCapabilityMutator (capabilities_Cluster CapabilityMetrics))) ;!
    requestNodeSync (Some (ireq_Cluster req)) ;!
    wret (match warning with
          | Some err => mkInstallResponse Install_Warning (err_Error err)
          | None => mkInstallResponse Install_Success ""
          end) in
  match canInstall b with
  | (b, Ok _) => finish None b
  | (b, Err err) =>
      if negb (ireq_IgnoreWarnings req)
      then (b, Ok (mkInstallResponse Install_Error (err_Error err)))
      else finish (Some err) b
  | (b, Panic p) => (b, Panic p)
  end.

Definition Status (cluster : Reference) : M B NodeCapabilityStatus := fun b =>
  match mb_nodeStatus b !! ref_Id cluster with
  | Some status => (b, Ok status)
  | None => (b, Err (StatusError codes_NotFound "no status has been reported for this node"))
  end.

(** A previous uninstall that still shows in the capability: [GetState] of a nil
    status is Unknown. *)
Definition check_stale_task (id : string) : M B unit :=
  let! stat := (fun b : B => match on_world (tc_TaskStatus id) b with
                | (b, Ok stat) => (b, Ok (Some stat))
                | (b, Err err) =>
                    if negb (bool_decide (StatusCode err = codes_NotFound))
                    then (b, Err (StatusError codes_Internal ("failed to get task status: " +:+ err_Error err)))
                    else (b, Ok None)
                | (b, Panic p) => (b, Panic p)
                end) in
  match default TaskState_Unknown (ts_State <$> stat) with
  | TaskState_Canceled | TaskState_Failed => wret tt
  | TaskState_Completed => wfail (StatusError codes_FailedPrecondition "uninstall already completed")
  | _ => wfail (StatusError codes_FailedPrecondition "uninstall is already in progress")
  end.

(** The first metrics capability of the cluster, when there is one. *)
Fixpoint check_capability (id : string) (caps : list ClusterCapability) : M B bool :=
  match caps with
  | [] => wret false
  | cap :: caps =>
      if negb (bool_decide (cc_Name cap = CapabilityMetrics)) then check_capability id caps
      else
        (if cc_DeletionTimestamp cap then check_stale_task id else wret tt) ;! wret true
  end.

Fixpoint set_deletion (now : Time) (caps : list ClusterCapability) : list ClusterCapability :=
  match caps with
  | [] => []
  | cap :: caps =>
      if bool_decide (cc_Name cap = CapabilityMetrics)
      then mkClusterCapability (cc_Name cap) (Some now) :: caps
      else cap :: set_deletion now caps
  end.

(** [c.Metadata.Capabilities] is read without a check of the metadata. *)
Definition deletion_mutator (now : Time) : MutatorFunc Cluster := fun c =>
  match cl_Metadata c with
  | None => Panic "nil pointer dereference"
  | Some _ => Ok (Clus.SetCapabilities (set_deletion now (Clus.GetCapabilities c)) c)
  end.

Definition Uninstall (ref : Reference) (options : option string) : M B unit :=
  let! cluster := on_world (mgmt_GetCluster ref) in
  let! defaultOpts :=
    match options with
    | None => wret (mkDefaultUninstallOptions false 0)
    | Some s => wcatch (wlift (LoadFromStruct s))
                  (fun err => wfail (ErrorString ("failed to unmarshal options: " +:+ err_Error err)))
    end in
  let! exists_ := check_capability (cl_Id cluster) (Clus.GetCapabilities cluster) in
  if negb exists_
  then wfail (StatusError codes_FailedPrecondition "cluster does not have the reuqested capability")
  else
    let! now := on_world clock_Now in
    wcatch (on_world (ms_UpdateCluster (Clus.GetReference cluster) (deletion_mutator now)) ;! wret tt)
      (fun err => wfail (ErrorString ("failed to update cluster metadata: " +:+ err_Error err))) ;!
    requestNodeSync (Some ref) ;!
    on_world (tc_LaunchTask (ref_Id ref) (mkTimestampedMetadata defaultOpts now)).

Definition UninstallStatus (cluster : Reference) : M B TaskStatus := on_world (tc_TaskStatus (ref_Id cluster)).

Definition CancelUninstall (cluster : Reference) : M B unit :=
  on_world (tc_CancelTask (ref_Id cluster)) ;! requestNodeSync (Some cluster).

(** ** Sync *)

Definition buildResponse (old : option MetricsCapabilityConfig) (new : MetricsCapabilityConfig) : SyncResponse :=
  if decide (old = Some new) then mkSyncResponse ConfigStatus_UpToDate None
  else mkSyncResponse ConfigStatus_NeedsUpdate (Some new).

(** The last metrics capability decides. *)
Definition capability_enabled (caps : list ClusterCapability) : bool :=
  fold_left (fun enabled cap =>
    if bool_decide (cc_Name cap = CapabilityMetrics) then negb (bool_decide (is_Some (cc_DeletionTimestamp cap)))
    else enabled) caps false.

Definition node_spec : MetricsCapabilitySpec :=
  mkMetricsCapabilitySpec
    (Some (mkRulesSpec (Some (mkDiscoverySpec (Some (mkPrometheusRulesSpec [] None)) None ""))))
    (Some (mkPrometheusSpec "" "externalPromOperator")).

(** [id] is the authorized id of the call. *)
Definition Sync (id : option string) (currentConfig : option MetricsCapabilityConfig) : M B SyncResponse :=
  match id with
  | None => wfail (util_StatusError codes_Unauthenticated)
  | Some id =>
      let! cluster := on_world (ms_GetCluster (mkReference id)) in
      let! disabled :=
        if capability_enabled (Clus.GetCapabilities cluster) then
          fun b => match on_world (drv_ShouldDisableNode (Clus.GetReference cluster)) b with
                   | (b, Ok _) => (b, Ok (true, []))
                   | (b, Err err) => (b, Ok (false, [status_Message err]))
                   | (b, Panic p) => (b, Panic p)
                   end
        else wret (false, []) in
      let! now := on_world clock_Now in
      (fun b =>
         let status := default (mkNodeCapabilityStatus false None []) (mb_nodeStatus b !! id) in
         let status := mkNodeCapabilityStatus (default false (mcc_Enabled <$> currentConfig)) (Some now)
                         (ncs_Conditions status) in
         (set_nodeStatus (<[id := status]> (mb_nodeStatus b)) b,
          Ok (buildResponse currentConfig (mkMetricsCapabilityConfig disabled.1 disabled.2 (Some node_spec)))))
  end.

(** ** The cortex cluster *)

Definition UninstallCluster : M B unit :=
  let! clusters := on_world (ms_ListClusters (Some (mkLabelSelector ∅ [])) MatchOptions_Default) in
  let clustersWithCapability :=
    cl_Id <$> filter (fun c => Has c (capabilities_Cluster CapabilityMetrics) = true) clusters in
  if decide (clustersWithCapability <> []) then
    wfail (StatusError codes_FailedPrecondition
             ("metrics capability is still installed on the following clusters: "
                +:+ GoStd.Join ", " clustersWithCapability))
  else fun b =>
    let '(b, o) := on_world drv_UninstallCluster b in
    let '(b, _) := requestNodeSync (Some (mkReference "")) b in (b, o).

(** ** Remote-read targets *)

Definition targetAlreadyExistsError (id : string) : error :=
  StatusError codes_AlreadyExists ("target '" +:+ id +:+ "' already exists").
Definition targetDoesNotExistError (id : string) : error :=
  StatusError codes_NotFound ("target '" +:+ id +:+ "' not found").

Definition getIdFromTargetMeta (meta : TargetMeta) : string := tm_ClusterId meta +:+ "/" +:+ tm_Name meta.

Definition running_status : TargetStatus :=
  mkTargetStatus (Some (mkTargetProgress None None None)) "" TargetState_Running.

(** Under the write lock. *)
Definition AddTarget (target : option Target) : M B unit :=
  let! target := wlift (deref target) in
  let! meta := wlift (deref (tg_Meta target)) in
  let targetId := getIdFromTargetMeta meta in
  let! targets := get_targets in
  match targets !! targetId with
  | Some _ => wfail (targetAlreadyExistsError targetId)
  | None =>
      let status := match tg_Status target with Some s => s | None => running_status end in
      put_targets (<[targetId := mkTarget (Some meta) (tg_Spec target) (Some status)]> targets)
  end.

(** Under the read lock, which is held while the agent is asked. *)
Definition GetTargetStatus (meta : option TargetMeta) : M B TargetStatus :=
  let! m := wlift (deref meta) in
  let! targets := get_targets in
  match targets !! getIdFromTargetMeta m with
  | None => wfail (ErrorString ("target '" +:+ tm_ClusterId m +:+ "/" +:+ tm_Name m +:+ "' does not exist"))
  | Some _ =>
      wcatch (on_world (rr_GetTargetStatus (tm_ClusterId m) meta)) (fun err =>
        if Contains (err_Error err) "target not found"
        then wret (mkTargetStatus None "" TargetState_NotRunning)
        else wfail err)
  end.

Definition require_not_running (meta : option TargetMeta) : M B unit :=
  let! status := wrapf "could not check on target status" (GetTargetStatus meta) in
  if decide (tst_State status = TargetState_Running)
  then wfail (ErrorString "can not edit running target") else wret tt.

(** The part of EditTarget under the write lock.  The target is shared with the
    registry, so that the fields that were set stay set when the edit fails. *)
Definition edit_locked (meta : TargetMeta) (diff : TargetDiff) (targets : gmap string Target)
  : gmap string Target * outcome unit :=
  let targetId := getIdFromTargetMeta meta in
  match targets !! targetId with
  | None => (targets, Err (targetDoesNotExistError targetId))
  | Some target =>
      let set_endpoint (key : string) (target : Target) (targets : gmap string Target) :=
        if decide (td_Endpoint diff = "") then (targets, Ok tt)
        else match tg_Spec target with
             | None => (targets, Panic "nil pointer dereference")
             | Some _ =>
                 (<[key := mkTarget (tg_Meta target) (Some (mkTargetSpec (td_Endpoint diff))) (tg_Status target)]>
                    targets, Ok tt)
             end in
      if decide (td_Name diff = "") then set_endpoint targetId target targets
      else
        match tg_Meta target with
        | None => (targets, Panic "nil pointer dereference")
        | Some tm =>
            let tm := mkTargetMeta (td_Name diff) (tm_ClusterId tm) in
            let target := mkTarget (Some tm) (tg_Spec target) (tg_Status target) in
            let newTargetId := getIdFromTargetMeta tm in
            match targets !! newTargetId with
            | Some _ => (<[targetId := target]> targets, Err (targetAlreadyExistsError (td_Name diff)))
            | None => set_endpoint newTargetId target (<[newTargetId := target]> (delete targetId targets))
            end
        end
  end.

Definition EditTarget (meta : option TargetMeta) (diff : option TargetDiff) : M B unit :=
  require_not_running meta ;!
  let! m := wlift (deref meta) in
  let! targets := get_targets in
  match targets !! getIdFromTargetMeta m with
  | None => wfail (targetDoesNotExistError (getIdFromTargetMeta m))
  | Some _ =>
      let! d := wlift (deref diff) in
      let r := edit_locked m d targets in
      put_targets r.1 ;! wlift r.2
  end.

Definition RemoveTarget (meta : option TargetMeta) : M B unit :=
  require_not_running meta ;!
  let! m := wlift (deref meta) in
  let! targets := get_targets in
  match targets !! getIdFromTargetMeta m with
  | None => wfail (targetDoesNotExistError (tm_Name m))
  | Some _ => put_targets (delete (getIdFromTargetMeta m) targets)
  end.

(** One goroutine per target; a failed status is nil, and its state is set.  The
    order of the result is the order in which the goroutines end. *)
Fixpoint list_targets (clusterId : string) (targets : list (string * Target)) : M B (list Target) :=
  match targets with
  | [] => wret []
  | (key, target) :: targets =>
      let! m := wlift (if decide (clusterId = "") then Ok None
                       else let? m := deref (tg_Meta target) in Ok (Some m)) in
      if negb (bool_decide (clusterId = "") ||
               bool_decide (Some clusterId = tm_ClusterId <$> m))
      then list_targets clusterId targets
      else
        let! newStatus := wcatch (GetTargetStatus (tg_Meta target))
                            (fun _ => wlift (Panic "nil pointer dereference")) in
        let target := mkTarget (tg_Meta target) (tg_Spec target) (Some newStatus) in
        let! ts := get_targets in
        put_targets (<[key := target]> ts) ;!
        let! rest := list_targets clusterId targets in
        wret (target :: rest)
  end.

(** Under the read lock, which the goroutines take again. *)
Definition ListTargets (clusterId : string) : M B (list Target) :=
  let! targets := get_targets in
  list_targets clusterId (map_to_list targets).

Definition with_delegate {A} (m : M B A) : M B A := fun b =>
  if mb_hasDelegate b then m b else (b, Err (ErrorString "encountered nil delegate")).

Definition Start (target : option Target) (query : option Query) : M B unit :=
  with_delegate (
    let! t := wlift (deref target) in
    let! m := wlift (deref (tg_Meta t)) in
    let! targets := get_targets in
    match targets !! getIdFromTargetMeta m with
    | None => wfail (targetDoesNotExistError (getIdFromTargetMeta m))
    | Some stored =>
        let! sm := wlift (deref (tg_Meta stored)) in
        on_world (rr_Start (tm_ClusterId sm) stored query)
    end).

Definition Stop (meta : option TargetMeta) : M B unit :=
  with_delegate (
    let! m := wlift (deref meta) in
    on_world (rr_Stop (tm_ClusterId m) m)).

(** The aggregation of the replies of a broadcast: the cluster of each reply is put
    into its entries. *)
Definition Discover (clusterIds : list string) (namespace : option string) : M B (list DiscoveryEntry) :=
  let! responses := on_world (rr_Discover clusterIds namespace) in
  wret (concat (map (fun r : string * string =>
    map (fun e => mkDiscoveryEntry (de_Name e) r.1 (de_ExternalEndpoint e) (de_InternalEndpoint e))
      (discovery_Unmarshal r.2)) responses)).
End Backend.

(** ** The uninstall task (pkg/cortex/uninstall.go, pkg/machinery/uninstall) *)

(** The task a runner works on. *)
Class ActiveTask (W Md : Type) := {
  at_LoadTaskMetadata : M W Md;
  at_AddLogEntry : Z -> string -> M W unit;
  at_SetProgress : option Progress -> M W unit }.

Class CortexPurger (W : Type) := {
  deleteTenant : string -> M W unit;
  (** whether the blocks of the tenant are deleted *)
  tenantDeleteStatus : string -> M W bool;
  ctx_err : error }.

Definition WarnLevel : Z := 1.
Definition ErrorLevel : Z := 2.
Definition DebugLevel : Z := -1.

Section UninstallTask.
Context {W : Type} `{ManagementStorage W} `{!ActiveTask W TimestampedMetadata} `{CortexPurger W} `{ErrorText}.

(** The polls the backoff controller, which has no limit of its own, allows before
    the context is done. *)
Fixpoint poll_deletion (id : string) (polls : nat) : M W unit :=
  match polls with
  | O =>
      at_AddLogEntry WarnLevel
        "Uninstall canceled, but time series data is still being deleted by Cortex" ;!
      wfail ctx_err
  | S polls => fun w =>
      match tenantDeleteStatus id w with
      | (w, Ok true) => at_AddLogEntry InfoLevel "Time series data deleted successfully" w
      | (w, Panic p) => (w, Panic p)
      | (w, _) => poll_deletion id polls w
      end
  end.

Definition Uninstall_OnTaskRunning (id : string) (polls : nat) : M W unit :=
  let! md := at_LoadTaskMetadata in
  at_AddLogEntry InfoLevel "Uninstalling metrics capability for this cluster" ;!
  (if duo_DeleteStoredData (tmd_Options md) then
     at_AddLogEntry WarnLevel "Will delete time series data" ;!
     deleteTenant id ;!
     at_AddLogEntry InfoLevel "Delete request accepted; polling status" ;!
     poll_deletion id polls
   else at_AddLogEntry InfoLevel "Time series data will not be deleted") ;!
  at_AddLogEntry InfoLevel "Removing capability from cluster metadata" ;!
  ms_UpdateCluster (mkReference id) (NewRemoveCapabilityMutator (capabilities_Cluster CapabilityMetrics)) ;!
  wret tt.

Definition reset_deletion (caps : list ClusterCapability) : list ClusterCapability :=
  map (fun cap => if bool_decide (cc_Name cap = CapabilityMetrics)
                  then mkClusterCapability (cc_Name cap) None else cap) caps.

(** The capabilities are updated in place: without metadata there is none. *)
Definition reset_mutator : MutatorFunc Cluster := fun c =>
  match cl_Metadata c with
  | None => Ok c
  | Some _ => Ok (Clus.SetCapabilities (reset_deletion (Clus.GetCapabilities c)) c)
  end.

Definition Uninstall_OnTaskCompleted (id : string) (state : TaskState) (args : list error) : M W unit :=
  let reset : M W unit :=
    wcatch (ms_UpdateCluster (mkReference id) reset_mutator ;! wret tt)
      (fun err => at_AddLogEntry WarnLevel ("Failed to reset deletion timestamp: " +:+ err_Error err)) in
  match state with
  | TaskState_Completed => at_AddLogEntry InfoLevel "Capability uninstalled successfully"
  | TaskState_Failed =>
      match args with
      | [] => wlift (Panic "index out of range")
      | err :: _ => at_AddLogEntry ErrorLevel ("Capability uninstall failed: " +:+ err_Error err) ;! reset
      end
  | TaskState_Canceled => at_AddLogEntry InfoLevel "Capability uninstall canceled" ;! reset
  | _ => reset
  end.

(** The delay before the uninstall: [timer] tells whether it ended before the
    context did. *)
Definition Uninstall_OnTaskPending (now : Time) (timer : bool) : M W unit :=
  let! md := at_LoadTaskMetadata in
  let del := duo_DeleteStoredData (tmd_Options md) in
  (if del then at_AddLogEntry WarnLevel "Stored data will be deleted"
   else at_AddLogEntry InfoLevel "Stored data will not be deleted") ;!
  if (0 <? duo_InitialDelay (tmd_Options md))%Z then
    let endTime := (tmd_DeletionTimestamp md + duo_InitialDelay (tmd_Options md))%Z in
    if (now <? endTime)%Z then
      at_AddLogEntry InfoLevel (if del then "Delaying uninstall and data deletion" else "Delaying uninstall") ;!
      if timer then wret tt
      else
        at_AddLogEntry InfoLevel "Uninstall canceled during delay period; no changes will be made" ;!
        wfail ctx_err
    else wret tt
  else wret tt.
End UninstallTask.
