(* ===== verification/MetricsAgent.v ===== *)
(** plugins/metrics on the agent: the node of the capability (pkg/agent/node.go,
    plugin.go) and the runner that imports remote data (pkg/agent/runner.go). *)

From S2P Require Import Prelude GoStd Util CoreV1 Storage Rbac Bootstrap Task Management Health MetricsBackend.

Local Open Scope string_scope.

(** ** runner.go *)

Definition TimeDeltaMillis : Z := 60000.

(** [time.Time.UnixMilli]. *)
Definition UnixMilli (t : Time) : Z := (t / 1000000)%Z.

(** A conversion of an int64 to a uint64. *)
Definition to_uint64 (z : Z) : Z := (z `mod` (uint64_max + 1))%Z.

Inductive PbMatcherType := LabelMatcher_EQ | LabelMatcher_NEQ | LabelMatcher_RE | LabelMatcher_NRE.
Record PbLabelMatcher := mkPbLabelMatcher {
  pm_Type : PbMatcherType; pm_Name : string; pm_Value : string }.

Definition matcher_type (t : LabelMatcher_Type) : outcome PbMatcherType :=
  match t with
  | LabelMatcher_Equal => Ok LabelMatcher_EQ
  | LabelMatcher_NotEqual => Ok LabelMatcher_NEQ
  | LabelMatcher_RegexEqual => Ok LabelMatcher_RE
  | LabelMatcher_NotRegexEqual => Ok LabelMatcher_NRE
  | LabelMatcher_Other n => Panic ("bug: bad matcher type " +:+ Sprint n)
  end.

Definition toLabelMatchers (rrLabelMatchers : list LabelMatcher) : outcome (list PbLabelMatcher) :=
  omapM (fun matcher =>
    let? matchType := matcher_type (lm_Type matcher) in
    Ok (mkPbLabelMatcher matchType (lm_Name matcher) (lm_Value matcher))) rrLabelMatchers.

Definition getMessageFromTaskLogs (logs : list LogEntry) : string :=
  match filter (fun log => le_Level log = ErrorLevel) (rev logs) with
  | log :: _ => le_Msg log
  | [] => ""
  end.

Record TargetRunMetadata := mkTargetRunMetadata {
  trm_Target : option Target;
  trm_Query : option Query }.

Record ReadRequest := mkReadRequest {
  rq_StartTimestampMs : Z;
  rq_EndTimestampMs : Z;
  rq_Matchers : list PbLabelMatcher }.

(** The store of the task controller: a map in memory. *)
Definition targetStore : KeyValueStoreT (gmap string TaskStatus) TaskStatus :=
  {| kv_Put key value := fun m => (<[key := value]> m, Ok tt);
     kv_Get key := fun m => (m, match m !! key with Some s => Ok s | None => Err ErrNotFound end);
     kv_Delete key := fun m => (delete key m, Ok tt);
     kv_ListKeys prefix := fun m =>
       (m, Ok (filter (fun k => HasPrefix k prefix = true) (map_to_list m).*1)) |}.

(** The reader of the remote endpoint, the writer to the gateway, and the coding of
    what is read. *)
Class ImportServices (W : Type) := {
  TimeSeries : Type;
  reader_Read : string -> ReadRequest -> M W (list (list TimeSeries));
  series_Marshal : list TimeSeries -> outcome string;
  snappy_Encode : string -> string;
  writer_Push : string -> M W unit }.

Section Importing.
Context {W : Type} `{ImportServices W} `{!ActiveTask W TargetRunMetadata} `{ErrorText}.

(** The series of one result; a push that fails is only logged. *)
Definition write_result (nextEnd total : Z) (series : list TimeSeries) : M W unit :=
  if decide (length series = 0) then wret tt
  else fun w =>
    match series_Marshal series with
    | Err err =>
        (at_AddLogEntry ErrorLevel ("failed to uncompress data from target endpoint: " +:+ err_Error err) ;!
         wfail (Wrapped "failed to uncompress data from target endpoint" err)) w
    | Panic p => (w, Panic p)
    | Ok uncompressed =>
        let compressed := snappy_Encode uncompressed in
        ((fun w => match writer_Push compressed w with
          | (w, Ok _) =>
              at_AddLogEntry DebugLevel
                ("pushed " +:+ Sprint (Z.of_nat (String.length compressed)) +:+ " bytes to remote write") w
          | (w, Err err) =>
              at_AddLogEntry ErrorLevel ("failed to push to remote write: " +:+ err_Error err) w
          | (w, Panic p) => (w, Panic p)
          end) ;!
         at_SetProgress (Some (mkProgress (to_uint64 nextEnd) total))) w
    end.

Fixpoint write_results (nextEnd total : Z) (results : list (list TimeSeries)) : M W unit :=
  match results with
  | [] => wret tt
  | series :: results => write_result nextEnd total series ;! write_results nextEnd total results
  end.

(** The body of the loop for one window. *)
Definition import_window (target : option Target) (matchers : list PbLabelMatcher)
    (total nextStart nextEnd : Z) : M W unit :=
  let! t := wlift (deref target) in
  let! spec := wlift (deref (tg_Spec t)) in
  let! results := (fun w =>
    match reader_Read (tsp_Endpoint spec) (mkReadRequest nextStart nextEnd matchers) w with
    | (w, Err err) =>
        (at_AddLogEntry ErrorLevel ("failed to read from target endpoint: " +:+ err_Error err) ;!
         wfail (Wrapped "failed to read from target endpoint" err)) w
    | r => r
    end) in
  write_results nextEnd total results.

(** The loop over the windows; the fuel bounds its rounds. *)
Fixpoint import_loop (fuel : nat) (target : option Target) (matchers : list PbLabelMatcher)
    (total importEnd nextStart nextEnd : Z) : M W unit :=
  match fuel with
  | O => wlift (Panic still_retrying)
  | S fuel =>
      if (nextStart <? importEnd)%Z then
        let nextStart := nextEnd in
        let nextEnd := wrap64 (nextStart + TimeDeltaMillis) in
        if (importEnd <=? nextStart)%Z then wret tt
        else
          let nextEnd := if (importEnd <=? nextEnd)%Z then importEnd else nextEnd in
          import_window target matchers total nextStart nextEnd ;!
          import_loop fuel target matchers total importEnd nextStart nextEnd
      else wret tt
  end.

(** One round per window, one that finds the end, and one to spare. *)
Definition import_fuel (importEnd start : Z) : nat :=
  Z.to_nat ((importEnd - start) / TimeDeltaMillis) + 3.

(** The context of the task is not looked at. *)
Definition Import_OnTaskRunning : M W unit :=
  let! run := at_LoadTaskMetadata in
  let! query := wlift (deref (trm_Query run)) in
  let! labelMatchers := wlift (toLabelMatchers (q_Matchers query)) in
  let importEnd := UnixMilli (default 0%Z (q_EndTimestamp query)) in
  let start := UnixMilli (default 0%Z (q_StartTimestamp query)) in
  let total := to_uint64 (importEnd - start) in
  at_SetProgress (Some (mkProgress 0 total)) ;!
  import_loop (import_fuel importEnd start) (trm_Target run) labelMatchers total importEnd start start.

Definition Import_OnTaskCompleted (state : TaskState) : M W unit :=
  match state with
  | TaskState_Completed => at_AddLogEntry InfoLevel "completed"
  | TaskState_Canceled => at_AddLogEntry WarnLevel "canceled"
  | _ => wret tt
  end.
End Importing.

(** The target runner over the task controller. *)
Section Runner.
Context {W : Type} `{!TaskController W TargetRunMetadata} `{ErrorText}.
Context (metadata_Unmarshal : string -> outcome TargetRunMetadata).

Definition runner_Start (target : option Target) (query : option Query) : M W unit :=
  let! t := wlift (deref target) in
  let! m := wlift (deref (tg_Meta t)) in
  (fun w => match tc_TaskStatus (tm_Name m) w with
   | (w, Err err) =>
       if negb (Contains (err_Error err) "not found")
       then (w, Err (ErrorString ("error checking for target status: " +:+ err_Error err)))
       else (w, Ok tt)
   | (w, Ok status) =>
       match ts_State status with
       | TaskState_Running | TaskState_Pending => (w, Err (ErrorString "target is already running"))
       | TaskState_Unknown => (w, Err (ErrorString "target state is unknown"))
       | _ => (w, Ok tt)
       end
   | (w, Panic p) => (w, Panic p)
   end) ;!
  wrapf "could not run target" (tc_LaunchTask (tm_Name m) (mkTargetRunMetadata target query)).

Definition runner_Stop (name : string) : M W unit :=
  let! status := wcatch (tc_TaskStatus name) (fun _ => wfail (ErrorString "target not found")) in
  match ts_State status with
  | TaskState_Canceled | TaskState_Completed | TaskState_Failed =>
      wfail (ErrorString "target is not running")
  | _ => tc_CancelTask name
  end.

Definition target_state (s : TaskState) : TargetState :=
  match s with
  | TaskState_Unknown => TargetState_Unknown
  | TaskState_Pending | TaskState_Running => TargetState_Running
  | TaskState_Completed => TargetState_Completed
  | TaskState_Failed => TargetState_Failed
  | TaskState_Canceled => TargetState_Canceled
  end.

(** The time of the last read: the seconds of the start, and the progress as
    seconds. *)
Definition last_read (start : option Time) (progress : option Progress) : outcome (option Time) :=
  match progress with
  | None => Ok start
  | Some p =>
      let? t := deref start in
      Ok (Some (wrap64 (t / 1000000000 + wrap64 (pr_Current p / 1000)) * 1000000000)%Z)
  end.

Definition runner_GetStatus (name : string) : M W TargetStatus := fun w =>
  match tc_TaskStatus name w with
  | (w, Err err) =>
      if decide (StatusCode err = codes_NotFound)
      then (w, Ok (mkTargetStatus None "" TargetState_NotRunning))
      else (w, Err (Wrapped "could not get target status" err))
  | (w, Panic p) => (w, Panic p)
  | (w, Ok taskStatus) =>
      (wlift (
         let? md := omap_err (Wrapped "could not parse target metedata")
                      (metadata_Unmarshal (ts_Metadata taskStatus)) in
         let? query := deref (trm_Query md) in
         let? lastRead := last_read (q_StartTimestamp query) (ts_Progress taskStatus) in
         Ok (mkTargetStatus
               (Some (mkTargetProgress (q_StartTimestamp query) lastRead (q_EndTimestamp query)))
               (getMessageFromTaskLogs (ts_Logs taskStatus))
               (target_state (ts_State taskStatus)))) : M W TargetStatus) w
  end.
End Runner.

(** ** node.go *)

(** A listener is the list of configurations that were put into its channel. *)
Record MetricsNode := mkMetricsNode {
  mn_hasNodeClient : bool;
  mn_config : option MetricsCapabilityConfig;
  mn_listeners : list (list MetricsCapabilityConfig);
  mn_conditions : ConditionTracker }.

Definition NewMetricsNode (ct : ConditionTracker) (sendHealthUpdate : nat) : MetricsNode :=
  mkMetricsNode false None [] (AddListener sendHealthUpdate ct).

Definition AddConfigListener (m : MetricsNode) : MetricsNode :=
  mkMetricsNode (mn_hasNodeClient m) (mn_config m) (mn_listeners m ++ [[]])%list (mn_conditions m).

Definition set_conditions (ct : ConditionTracker) (m : MetricsNode) : MetricsNode :=
  mkMetricsNode (mn_hasNodeClient m) (mn_config m) (mn_listeners m) ct.

(** A slow listener is waited for. *)
Definition updateConfig (now : Time) (config : option MetricsCapabilityConfig) (m : MetricsNode)
  : outcome MetricsNode :=
  let? c := deref config in
  let conditions :=
    if negb (mcc_Enabled c) && (0 <? length (mcc_Conditions c))%nat
    then ct_Set CondBackend StatusDisabled now (mn_conditions m)
    else ct_Clear CondBackend now (mn_conditions m) in
  Ok (mkMetricsNode (mn_hasNodeClient m) config (map (fun l => l ++ [c])%list (mn_listeners m)) conditions).

Section Node.
Context {W : Type}.
(** The client of the gateway's Sync, for this node. *)
Context (node_Sync : option MetricsCapabilityConfig -> M W SyncResponse).

Definition doSync (now : Time) (m : MetricsNode) : M W MetricsNode :=
  if negb (mn_hasNodeClient m)
  then wret (set_conditions (ct_Set CondConfigSync StatusPending now (mn_conditions m)) m)
  else fun w =>
    match node_Sync (mn_config m) w with
    | (w, Err _) => (w, Ok (set_conditions (ct_Set CondConfigSync StatusFailure now (mn_conditions m)) m))
    | (w, Panic p) => (w, Panic p)
    | (w, Ok syncResp) =>
        (w, let? m := match sr_ConfigStatus syncResp with
                      | ConfigStatus_NeedsUpdate => updateConfig now (sr_UpdatedConfig syncResp) m
                      | _ => Ok m
                      end in
            Ok (set_conditions (ct_Clear CondConfigSync now (mn_conditions m)) m))
    end.

(** The client is set and a sync is started. *)
Definition SetNodeClient (m : MetricsNode) : MetricsNode :=
  mkMetricsNode true (mn_config m) (mn_listeners m) (mn_conditions m).

(** Whether a sync is started. *)
Definition SyncNow (capabilityNames : list string) (m : MetricsNode) : outcome bool :=
  if (0 <? length capabilityNames)%nat && negb (bool_decide (CapabilityMetrics ∈ capabilityNames))
  then Ok false
  else if negb (mn_hasNodeClient m)
  then Err (StatusError codes_Unavailable "not connected to node server")
  else Ok true.
End Node.

Definition GetHealth (m : MetricsNode) : Health :=
  let conditions := merge_sort String.le (ct_List (mn_conditions m)) in
  mkHealth (Some (LastModified (mn_conditions m))) (length conditions =? 0)%nat conditions ∅.

(** ** plugin.go *)

(** The rule streamers that were started: whether each was stopped, and what it
    streams. *)
Record AgentPlugin := mkAgentPlugin {
  ap_stopRuleStreamer : option nat;
  ap_streamers : list (bool * option RulesSpec);
  ap_httpEnabled : bool }.

Definition cancel_streamer (n : nat) (p : AgentPlugin) : AgentPlugin :=
  mkAgentPlugin (ap_stopRuleStreamer p)
    (alter (fun s : bool * option RulesSpec => (true, s.2)) n (ap_streamers p)) (ap_httpEnabled p).

Definition startRuleStreamer (cfg : MetricsCapabilityConfig) (p : AgentPlugin) : AgentPlugin :=
  mkAgentPlugin (Some (length (ap_streamers p)))
    (ap_streamers p ++ [(false, mcc_Spec cfg ≫= mcs_Rules)])%list (ap_httpEnabled p).

Definition onConfigUpdated (cfg : MetricsCapabilityConfig) (p : AgentPlugin) : AgentPlugin :=
  match ap_stopRuleStreamer p, mcc_Enabled cfg with
  | Some stop, true => startRuleStreamer cfg (cancel_streamer stop p)
  | Some stop, false =>
      let p := cancel_streamer stop p in mkAgentPlugin None (ap_streamers p) false
  | None, true =>
      let p := startRuleStreamer cfg p in
      mkAgentPlugin (ap_stopRuleStreamer p) (ap_streamers p) true
  | None, false => p
  end.

(** ** The controller of the target runner *)

Definition runner_store : KeyValueStoreT (gmap string TaskStatus) TaskStatus :=
  NewKeyValueStoreWithPrefix targetStore (tasks_prefix "target-runner").

(** The task controller of [Task], as the interface the runner calls. *)
Definition controller_tasks {W Md} `{MetadataJSON Md} (clock : nat -> Time) (fuel : nat)
    (store : KeyValueStoreT W TaskStatus) : TaskController (World W) Md := {|
  tc_TaskStatus := Controller_TaskStatus store;
  tc_LaunchTask id md := let! opt := wlift (WithMetadata md) in LaunchTask clock fuel store id [opt];
  tc_CancelTask id := fun w => (CancelTask id w, Ok tt) |}.

(** A controller that cannot be made is a bug. *)
Definition NewTargetRunner `{MetadataJSON TargetRunMetadata} (clock : nat -> Time) (fuel : nat)
    (runner : TaskRunner TargetRunMetadata) : outcome (World (gmap string TaskStatus)) :=
  match NewController clock fuel "target-runner" targetStore runner None ∅ with
  | (w, Ok _) => Ok w
  | (_, Err _) => Panic "bug: failed to create target task controller"
  | (_, Panic p) => Panic p
  end.
