(* ===== verification/MetricsProps.v ===== *)
(** Properties of the metrics plugin: the import of remote data [MetricsAgent], the
    registry of targets, the uninstall and the synchronisation of nodes with the
    gateway [MetricsBackend]. *)

From S2P Require Import Prelude GoStd Util CoreV1 Storage Rbac Task TaskProps Health Bootstrap Management ManagementProps MetricsBackend MetricsAgent.

Local Open Scope string_scope.

(** ** The import reads the whole range *)

(** The reads that were made, in order; nothing but the reader adds to them, and no
    service panics. *)
Class ImportHistory (W : Type) `{ImportServices W} `{!ActiveTask W TargetRunMetadata} := {
  reads : W -> list ReadRequest;
  reader_Read_law e r w w' o : reader_Read e r w = (w', o) -> reads w' = (reads w ++ [r])%list /\ no_panic o = true;
  writer_Push_law s w w' o : writer_Push s w = (w', o) -> reads w' = reads w /\ no_panic o = true;
  series_Marshal_law l : no_panic (series_Marshal l) = true;
  at_LoadTaskMetadata_law w w' o : at_LoadTaskMetadata w = (w', o) -> reads w' = reads w /\ no_panic o = true;
  at_AddLogEntry_law l s w w' o : at_AddLogEntry l s w = (w', o) -> reads w' = reads w /\ is_Ok o = true;
  at_SetProgress_law p w w' o : at_SetProgress p w = (w', o) -> reads w' = reads w /\ is_Ok o = true }.

(** The requests tile the range from [s] to [e] without a gap or an overlap, each
    for a minute at most. *)
Fixpoint tiles (s e : Z) (rs : list ReadRequest) : Prop :=
  match rs with
  | [] => (e <= s)%Z
  | r :: rs =>
      rq_StartTimestampMs r = s /\ (s < rq_EndTimestampMs r <= Z.min e (s + TimeDeltaMillis))%Z /\
      tiles (rq_EndTimestampMs r) e rs
  end.

Section ImportProps.
Context {W : Type} `{ImportHistory W} `{ErrorText}.

(** A step of the import that reads nothing, and ends. *)
Definition quiet (m : M W unit) : Prop :=
  forall w w' o, m w = (w', o) -> reads w' = reads w /\ o <> Panic still_retrying.

Lemma quiet_log l s : quiet (at_AddLogEntry l s).
Proof. intros w w' o E. apply at_AddLogEntry_law in E as [? ?]. split; [done|]. by intros ->. Qed.

Lemma quiet_progress p : quiet (at_SetProgress p).
Proof. intros w w' o E. apply at_SetProgress_law in E as [? ?]. split; [done|]. by intros ->. Qed.

Lemma quiet_bind m k : quiet m -> quiet k -> quiet (m ;! k).
Proof.
  intros Hm Hk w w' o [([] & w1 & E & Ek)|[(e & E & ->)|(p & E & ->)]]%wbind_inv.
  - apply Hm in E as [E _]. apply Hk in Ek as [? ?]. split; [congruence|done].
  - apply Hm in E as [? _]. done.
  - apply Hm in E as [? Hp]. split; [done|]. congruence.
Qed.

Lemma quiet_fail e : quiet (wfail e).
Proof. intros w w' o [= <- <-]. done. Qed.

Lemma write_result_quiet nextEnd total series : quiet (write_result nextEnd total series).
Proof.
  unfold write_result. case_decide; [by intros w w' o [= <- <-]|]. intros w w' o E.
  pose proof (series_Marshal_law series) as Hnp. destruct (series_Marshal series) as [s|err|p]; [| |done].
  - revert E. apply quiet_bind; [|apply quiet_progress]. intros w0 w1 o1.
    destruct (writer_Push _ w0) as [w2 o2] eqn:Ep. apply writer_Push_law in Ep as [Hr Hp].
    destruct o2 as [u|err|p]; [| |done]; intros E; apply quiet_log in E as [? ?]; split; congruence.
  - revert E. apply quiet_bind; [apply quiet_log|apply quiet_fail].
Qed.

Lemma write_results_quiet nextEnd total results : quiet (write_results nextEnd total results).
Proof.
  induction results as [|series results IH]; cbn; [by intros w w' o [= <- <-]|].
  apply quiet_bind; [apply write_result_quiet|done].
Qed.

(** One window: one read of the window. *)
Lemma import_window_reads target ms total s e w w' o :
  import_window target ms total s e w = (w', o) ->
  o <> Panic still_retrying /\ (o = Ok tt -> reads w' = (reads w ++ [mkReadRequest s e ms])%list).
Proof.
  unfold import_window. destruct target as [t|]; [|by intros [= <- <-]].
  unfold wbind at 1. cbn [wlift deref]. destruct (tg_Spec t) as [spec|]; [|by intros [= <- <-]].
  unfold wbind at 1. cbn [wlift deref]. unfold wbind at 1.
  destruct (reader_Read _ _ w) as [w1 o1] eqn:Er. apply reader_Read_law in Er as [Hr Hp].
  destruct o1 as [results|err|p]; [| |done].
  - intros [Hw ?]%write_results_quiet. split; [done|]. intros _. congruence.
  - unfold wbind, wfail. destruct (at_AddLogEntry _ _ w1) as [w2 o2] eqn:El.
    apply at_AddLogEntry_law in El as [_ Ho]. destruct o2; [|done|done]. by intros [= <- <-].
Qed.

Lemma import_loop_reads fuel target ms total e : forall s0 s w w' o,
  (s0 <= s)%Z -> in_int64 s -> in_int64 (e + TimeDeltaMillis) ->
  (if decide (s < e)%Z then Z.to_nat ((e - s) / TimeDeltaMillis) + 2 <= fuel else 1 <= fuel)%nat ->
  import_loop fuel target ms total e s0 s w = (w', o) ->
  o <> Panic still_retrying /\
  (o = Ok tt -> exists rs, reads w' = (reads w ++ rs)%list /\ tiles s e rs /\
     Forall (fun r => rq_Matchers r = ms) rs).
Proof.
  unfold TimeDeltaMillis in *.
  induction fuel as [|fuel IH]; intros s0 s w w' o Hs Hi He Hf; [case_decide; lia|]. cbn [import_loop].
  assert (forall w : W, (s >= e)%Z -> exists rs, reads w = (reads w ++ rs)%list /\ tiles s e rs /\
    Forall (fun r => rq_Matchers r = ms) rs) as Hnone.
  { intros w0 Hge. exists []. rewrite app_nil_r. split; [done|]. split; [cbn; lia|constructor]. }
  destruct (Z.ltb_spec s0 e) as [Hlt|Hge].
  2: { intros [= <- <-]. split; [done|]. intros _. apply Hnone. lia. }
  destruct (Z.leb_spec e s) as [Hend|Hrun].
  { intros [= <- <-]. split; [done|]. intros _. apply Hnone. lia. }
  unfold TimeDeltaMillis. rewrite decide_True in Hf by done.
  assert (wrap64 (s + 60000) = s + 60000)%Z as ->.
  { apply wrap64_id. unfold in_int64, int64_min, int64_max in *. lia. }
  set (e1 := if (e <=? s + 60000)%Z then e else (s + 60000)%Z).
  assert (s < e1 <= Z.min e (s + 60000))%Z as He1.
  { unfold e1. destruct (Z.leb_spec e (s + 60000)); lia. }
  intros [([] & w1 & Ew & El)|[(err & Ew & ->)|(p & Ew & ->)]]%wbind_inv;
    apply import_window_reads in Ew as [Hnp Hread]; [|by split|by split].
  specialize (Hread eq_refl). apply IH in El.
  - destruct El as [? Hok]. split; [done|]. intros ->. destruct (Hok eq_refl) as (rs & Hr & Ht & Hms).
    exists (mkReadRequest s e1 ms :: rs). rewrite Hr, Hread, <- app_assoc. split; [done|].
    split; [cbn; unfold TimeDeltaMillis; done|]. by constructor.
  - lia.
  - unfold in_int64, int64_min, int64_max in *. lia.
  - done.
  - unfold e1. destruct (Z.leb_spec e (s + 60000)) as [Hl|Hl].
    + rewrite decide_False by lia. lia.
    + rewrite decide_True by lia.
      assert ((e - s) / 60000 = (e - (s + 60000)) / 60000 + 1)%Z as Ediv.
      { replace (e - s)%Z with ((e - (s + 60000)) + 1 * 60000)%Z by lia. apply Z.div_add. lia. }
      assert (0 <= (e - (s + 60000)) / 60000)%Z by (apply Z.div_pos; lia). lia.
Qed.

(** C30: An import ends, and one that succeeds has read the whole range of its
    query: its requests follow one another from the start to the end without a gap
    or an overlap, none asks for more than a minute, and all carry the matchers of
    the query. *)
Theorem import_reads_whole_range (w w1 w' : W) (run : TargetRunMetadata) (q : Query) (o : outcome unit) :
  at_LoadTaskMetadata w = (w1, Ok run) -> trm_Query run = Some q ->
  let start := UnixMilli (default 0%Z (q_StartTimestamp q)) in
  let end_ := UnixMilli (default 0%Z (q_EndTimestamp q)) in
  in_int64 start -> in_int64 (end_ + TimeDeltaMillis) ->
  Import_OnTaskRunning w = (w', o) ->
  o <> Panic still_retrying /\
  (o = Ok tt -> exists rs ms, toLabelMatchers (q_Matchers q) = Ok ms /\
     reads w' = (reads w ++ rs)%list /\ tiles start end_ rs /\ Forall (fun r => rq_Matchers r = ms) rs).
Proof.
  intros Hl Hq start end_ Hs He. unfold Import_OnTaskRunning.
  rewrite (wbind_eq_Ok _ _ _ _ _ Hl), Hq. cbn [deref]. apply at_LoadTaskMetadata_law in Hl as [Hr0 _].
  unfold wbind at 1, wlift. unfold wbind at 1.
  destruct (toLabelMatchers (q_Matchers q)) as [ms|err|p] eqn:Em; [|by intros [= <- <-]|].
  2: { intros [= <- <-]. split; [|done]. intros [= ->]. revert Em. unfold toLabelMatchers.
       induction (q_Matchers q) as [|m l IH]; cbn; [done|].
       destruct (lm_Type m); cbn; try done;
         (destruct (omapM _ l); cbn; [done|done|]; intros [= ->]; by apply IH). }
  fold start end_. intros [([] & w2 & Ep & El)|[(err & Ep & ->)|(p & Ep & ->)]]%wbind_inv.
  2: by split. 2: { apply at_SetProgress_law in Ep as [_ ?]. done. }
  apply at_SetProgress_law in Ep as [Hr1 _]. apply import_loop_reads in El; [|lia|done|done|].
  - destruct El as [? Hok]. split; [done|]. intros ->. destruct (Hok eq_refl) as (rs & Hr & Ht & Hm).
    exists rs, ms. split; [done|]. split; [congruence|done].
  - unfold import_fuel. case_decide; lia.
Qed.
End ImportProps.

(** ** The registry of targets *)

Section Registry.
Context {W : Type} `{ManagementStorage W} `{!TaskController W TimestampedMetadata}
  `{MetricsClients W} `{ErrorText}.

Notation B := (MetricsBackend W).

(** Every target is registered under the id its own metadata gives. *)
Definition keyed (ts : gmap string Target) : Prop :=
  forall k t, ts !! k = Some t -> exists m, tg_Meta t = Some m /\ k = getIdFromTargetMeta m.

Lemma keyed_insert ts m spec st :
  keyed ts -> keyed (<[getIdFromTargetMeta m := mkTarget (Some m) spec st]> ts).
Proof.
  intros Hk k t. rewrite lookup_insert. case_decide; [|by apply Hk]. intros [= <-]. eauto.
Qed.

Lemma keyed_delete ts k : keyed ts -> keyed (delete k ts).
Proof. intros Hk k' t [_ E]%lookup_delete_Some. by apply Hk. Qed.

Inductive TargetOp :=
| OpAddTarget (t : option Target)
| OpEditTarget (m : option TargetMeta) (d : option TargetDiff)
| OpRemoveTarget (m : option TargetMeta)
| OpListTargets (clusterId : string)
| OpGetTargetStatus (m : option TargetMeta)
| OpStart (t : option Target) (q : option Query)
| OpStop (m : option TargetMeta).

Definition run_target_op (op : TargetOp) : M B unit :=
  match op with
  | OpAddTarget t => AddTarget t
  | OpEditTarget m d => EditTarget m d
  | OpRemoveTarget m => RemoveTarget m
  | OpListTargets c => ListTargets c ;! wret tt
  | OpGetTargetStatus m => GetTargetStatus m ;! wret tt
  | OpStart t q => Start t q
  | OpStop m => Stop m
  end.

(** A call on the clients leaves the registry alone. *)
Lemma on_world_targets {A} (m : M W A) b b' o :
  on_world m b = (b', o) -> mb_remoteReadTargets b' = mb_remoteReadTargets b.
Proof. unfold on_world. destruct (m (mb_world b)) as [w r]. by intros [= <- _]. Qed.

Lemma GetTargetStatus_targets meta b b' o :
  GetTargetStatus meta b = (b', o) -> mb_remoteReadTargets b' = mb_remoteReadTargets b.
Proof.
  unfold GetTargetStatus. destruct meta as [m|]; [|by intros [= <- _]].
  unfold wbind, wlift, get_targets. cbn. destruct (_ !! _); [|by intros [= <- _]].
  unfold wcatch. destruct (on_world _ b) as [b1 o1] eqn:E. apply on_world_targets in E.
  destruct o1; [| |]; [|destruct (Contains _ _)|]; intros [= <- _]; done.
Qed.

Lemma require_not_running_targets meta b b' o :
  require_not_running meta b = (b', o) -> mb_remoteReadTargets b' = mb_remoteReadTargets b.
Proof.
  unfold require_not_running, wrapf, wcatch, wbind.
  destruct (GetTargetStatus meta b) as [b1 o1] eqn:E. apply GetTargetStatus_targets in E.
  destruct o1; [|by intros [= <- _]|by intros [= <- _]]. case_decide; by intros [= <- _].
Qed.

(** The edit under the lock keeps the keys, unless the new name is taken. *)
Lemma edit_locked_keyed m d ts ts' o :
  keyed ts -> edit_locked m d ts = (ts', o) ->
  o <> Err (targetAlreadyExistsError (td_Name d)) -> keyed ts'.
Proof.
  intros Hk. unfold edit_locked. destruct (ts !! _) as [target|] eqn:E; [|by intros [= <- _]].
  destruct (Hk _ _ E) as (tm & Htm & Hid). intros Hq Ho.
  repeat case_decide; rewrite ?Htm in Hq; repeat case_match; simplify_eq/=; try done.
  all: try (rewrite Hid; by apply keyed_insert).
  all: repeat (apply keyed_insert || apply keyed_delete); done.
Qed.

Lemma list_targets_keyed c l : forall b b' o,
  keyed (mb_remoteReadTargets b) ->
  Forall (fun p : string * Target => exists m, tg_Meta p.2 = Some m /\ p.1 = getIdFromTargetMeta m) l ->
  list_targets c l b = (b', o) -> keyed (mb_remoteReadTargets b').
Proof.
  induction l as [|[key t] l IH]; intros b b' o Hk Hl; cbn [list_targets]; [by intros [= <- _]|].
  apply list.Forall_cons in Hl as [(m & Hm & Hid) Hl]. cbn in Hm, Hid.
  unfold wbind at 1, wlift. destruct (if decide _ then _ else _) as [om|e|p];
    [|by intros [= <- _]|by intros [= <- _]].
  destruct (negb _); [by apply IH|]. unfold wbind at 1, wcatch.
  destruct (GetTargetStatus _ b) as [b1 o1] eqn:Eg. apply GetTargetStatus_targets in Eg.
  destruct o1 as [st|e|p]; [|intros [= <- _]; by rewrite Eg|intros [= <- _]; by rewrite Eg].
  unfold wbind at 1, get_targets. unfold wbind at 1, put_targets. unfold wbind.
  destruct (list_targets c l _) as [b2 o2] eqn:El. apply IH in El; [|cbn|done].
  - destruct o2; by intros [= <- _].
  - rewrite Eg, Hm, Hid. by apply keyed_insert.
Qed.

(** Whatever the handlers of the remote-read gateway do, on every branch,
    each target stays registered under the id its metadata gives, as long as no
    edit is refused because the new name is taken. *)
Lemma registry_keeps_keys (op : TargetOp) (b b' : B) (o : outcome unit) :
  keyed (mb_remoteReadTargets b) -> run_target_op op b = (b', o) ->
  (forall name, o <> Err (targetAlreadyExistsError name)) \/ (exists t, op = OpAddTarget t) ->
  keyed (mb_remoteReadTargets b').
Proof.
  intros Hk E Ho. destruct op as [t|m d|m|c|m|t q|m]; cbn in E.
  - unfold AddTarget, wbind, wlift, get_targets, put_targets in E.
    destruct t as [t|]; cbn in E; [|by injection E as <- _].
    destruct (tg_Meta t) as [m|]; cbn in E; [|by injection E as <- _].
    destruct (_ !! _); injection E as <- _; [done|]. cbn. by apply keyed_insert.
  - destruct Ho as [Ho|[t ?]]; [|done]. unfold EditTarget, wbind at 1 in E.
    destruct (require_not_running m b) as [b1 o1] eqn:Er. apply require_not_running_targets in Er.
    rewrite <- Er in Hk. destruct o1 as [[]|e|p]; [|by injection E as <- _|by injection E as <- _].
    destruct m as [m|]; [|by injection E as <- _]. unfold wbind, wlift, get_targets in E. cbn in E.
    destruct (mb_remoteReadTargets b1 !! _) eqn:El; [|by injection E as <- _].
    destruct d as [d|]; [|by injection E as <- _]. cbn in E.
    destruct (edit_locked m d _) as [ts r] eqn:Ed. unfold put_targets in E. injection E as <- <-.
    cbn. eapply edit_locked_keyed; [done|exact Ed|]. apply Ho.
  - unfold RemoveTarget, wbind at 1 in E.
    destruct (require_not_running m b) as [b1 o1] eqn:Er. apply require_not_running_targets in Er.
    rewrite <- Er in Hk. destruct o1 as [[]|e|p]; [|by injection E as <- _|by injection E as <- _].
    destruct m as [m|]; [|by injection E as <- _]. unfold wbind, wlift, get_targets in E. cbn in E.
    destruct (_ !! _); injection E as <- _; [|done]. by apply keyed_delete.
  - unfold ListTargets in E. unfold wbind at 1 in E.
    destruct ((let! targets := get_targets in list_targets c (map_to_list targets)) b) as [b1 o1] eqn:El.
    assert (keyed (mb_remoteReadTargets b1)) as Hk1.
    { unfold wbind, get_targets in El. eapply list_targets_keyed; [exact Hk| |exact El].
      apply list.Forall_forall. intros [k t] Hin%elem_of_map_to_list. by apply Hk. }
    destruct o1; by injection E as <- _.
  - unfold wbind in E. destruct (GetTargetStatus m b) as [b1 o1] eqn:Eg.
    apply GetTargetStatus_targets in Eg. rewrite <- Eg in Hk. destruct o1; by injection E as <- _.
  - unfold Start, with_delegate in E. destruct (mb_hasDelegate b); [|by injection E as <- _].
    destruct t as [t|]; [|by injection E as <- _]. unfold wbind, wlift, get_targets in E. cbn in E.
    destruct (tg_Meta t) as [m|]; cbn in E; [|by injection E as <- _].
    destruct (_ !! _) as [st|]; [|by injection E as <- _]. cbn in E.
    destruct (tg_Meta st) as [sm|]; cbn in E; [|by injection E as <- _].
    apply on_world_targets in E. by rewrite E.
  - unfold Stop, with_delegate in E. destruct (mb_hasDelegate b); [|by injection E as <- _].
    destruct m as [m|]; [|by injection E as <- _]. unfold wbind, wlift in E. cbn in E.
    apply on_world_targets in E. by rewrite E.
Qed.

(** A refused rename has renamed the target all the same: it stays registered under
    its old id with the new name, so that requests for the new name reach the other
    target, and the agent is asked about that one. *)
Lemma refused_rename_renames m d ts t other tm :
  keyed ts -> ts !! getIdFromTargetMeta m = Some t -> tg_Meta t = Some tm ->
  td_Name d <> "" -> td_Name d <> tm_Name m ->
  ts !! getIdFromTargetMeta (mkTargetMeta (td_Name d) (tm_ClusterId tm)) = Some other ->
  edit_locked m d ts =
    (<[getIdFromTargetMeta m :=
         mkTarget (Some (mkTargetMeta (td_Name d) (tm_ClusterId tm))) (tg_Spec t) (tg_Status t)]> ts,
     Err (targetAlreadyExistsError (td_Name d))).
Proof.
  intros Hk Ht Hm Hd _ Ho. unfold edit_locked. by rewrite Ht, decide_False, Hm, Ho by done.
Qed.

(** One target whose agent does not answer takes the listing down: the status that
    is written to is nil. *)
Lemma unreachable_agent_crashes_listing key t m b b1 e rest :
  tg_Meta t = Some m -> mb_remoteReadTargets b !! getIdFromTargetMeta m = Some t ->
  on_world (rr_GetTargetStatus (tm_ClusterId m) (Some m)) b = (b1, Err e) ->
  Contains (err_Error e) "target not found" = false ->
  list_targets "" ((key, t) :: rest) b = (b1, Panic "nil pointer dereference").
Proof.
  intros Hm Ht Hr He. cbn [list_targets].
  assert (GetTargetStatus (tg_Meta t) b = (b1, Err e)) as Hg.
  { rewrite Hm. unfold GetTargetStatus, wbind, wlift, get_targets. cbn [deref].
    unfold wcatch. by rewrite Ht, Hr, He. }
  unfold wbind at 1, wlift. rewrite decide_True by done. cbn [negb orb bool_decide decide_rel].
  rewrite (bool_decide_eq_true_2 ("" = "")) by done. cbn [orb negb].
  unfold wbind at 1, wcatch at 1. by rewrite Hg.
Qed.
End Registry.

(** ** Uninstalling, and what the nodes are told *)

(** What the clients promise about the stored clusters: only the storage backend
    changes them, and the management API answers with the stored one of the reference. *)
Class MetricsLaws (W : Type) `{ManagementStorage W} `{!TaskController W TimestampedMetadata}
    `{MetricsClients W} : Prop := {
  mgmt_GetCluster_law r w w' o : mgmt_GetCluster r w = (w', o) -> mview w' = mview w /\
    forall c, o = Ok c -> cl_Id c = ref_Id r /\ sv_clusters (mview w) !! ref_Id r = Some c;
  RequestSync_law c l w w' o : RequestSync c l w = (w', o) -> mview w' = mview w;
  tc_TaskStatus_law id w w' o : tc_TaskStatus id w = (w', o) -> mview w' = mview w;
  tc_LaunchTask_law id md w w' o : tc_LaunchTask id md w = (w', o) -> mview w' = mview w;
  ShouldDisableNode_law r w w' o : drv_ShouldDisableNode r w = (w', o) ->
    mview w' = mview w /\ no_panic o = true;
  clock_Now_law w w' o : clock_Now w = (w', o) -> mview w' = mview w /\ is_Ok o = true }.

Section Uninstalling.
Context {W : Type} `{MetricsLaws W} `{ErrorText}.

Notation B := (MetricsBackend W).
Notation cview b := (mview (mb_world b)).

Lemma on_world_inv {A} (m : M W A) (b b' : B) o :
  on_world m b = (b', o) -> m (mb_world b) = (mb_world b', o) /\
    mb_nodeStatus b' = mb_nodeStatus b /\ mb_remoteReadTargets b' = mb_remoteReadTargets b.
Proof. unfold on_world. destruct (m (mb_world b)) as [w r]. by intros [= <- <-]. Qed.

Lemma requestNodeSync_view c (b b' : B) o : requestNodeSync c b = (b', o) -> cview b' = cview b.
Proof.
  unfold requestNodeSync, wcatch. destruct (on_world _ b) as [b1 o1] eqn:E.
  apply on_world_inv in E as [E _]. apply RequestSync_law in E. destruct o1; by intros [= <- _].
Qed.

(** The capability that decides whether a cluster may be uninstalled: the first of
    its name. *)
Definition metrics_cap (caps : list ClusterCapability) : option ClusterCapability :=
  head (filter (fun cap => cc_Name cap = CapabilityMetrics) caps).

(** What [Uninstall] requires of it. *)
Definition may_uninstall (id : string) (cap : ClusterCapability) : Prop :=
  cc_DeletionTimestamp cap <> None ->
  exists w w' st, tc_TaskStatus id w = (w', Ok st) /\
    (ts_State st = TaskState_Canceled \/ ts_State st = TaskState_Failed).

Lemma check_stale_task_inv id (b b' : B) o :
  check_stale_task id b = (b', o) -> cview b' = cview b /\
  (o = Ok tt -> exists w w' st, tc_TaskStatus id w = (w', Ok st) /\
     (ts_State st = TaskState_Canceled \/ ts_State st = TaskState_Failed)).
Proof.
  unfold check_stale_task, wbind. destruct (on_world _ b) as [b1 o1] eqn:E.
  apply on_world_inv in E as [E _]. pose proof (tc_TaskStatus_law _ _ _ _ E) as Hv.
  destruct o1 as [st|err|p]; [| |by intros [= <- <-]].
  - cbn. destruct (ts_State st) eqn:Es; intros [= <- <-]; (split; [done|]); try done; intros _; eauto 6.
  - destruct (negb _); [by intros [= <- <-]|]. cbn. by intros [= <- <-].
Qed.

Lemma check_capability_inv id caps : forall (b b' : B) o,
  check_capability id caps b = (b', o) -> cview b' = cview b /\
  (o = Ok true -> exists cap, metrics_cap caps = Some cap /\ may_uninstall id cap) /\
  (o = Ok false -> metrics_cap caps = None).
Proof.
  induction caps as [|cap caps IH]; intros b b' o; cbn [check_capability].
  { intros [= <- <-]. done. }
  unfold metrics_cap. case_bool_decide as Hn; cbn [negb].
  - rewrite filter_cons_True by done. cbn [head]. unfold wbind.
    destruct (cc_DeletionTimestamp cap) as [t|] eqn:Et.
    + destruct (check_stale_task id b) as [b1 o1] eqn:E. apply check_stale_task_inv in E as [Hv Ho].
      destruct o1 as [[]|e|p]; intros [= <- <-]; (split; [done|]); split; try done.
      intros _. exists cap. split; [done|]. intros _. by apply Ho.
    + intros [= <- <-]. split; [done|]. split; [|done]. intros _. exists cap. split; [done|].
      unfold may_uninstall. by rewrite Et.
  - rewrite filter_cons_False by done. apply IH.
Qed.

(** At most one capability of a cluster is the metrics one. *)
Definition one_metrics (caps : list ClusterCapability) : Prop :=
  length (filter (fun cap => cc_Name cap = CapabilityMetrics) caps) <= 1.

Lemma capability_enabled_None caps acc :
  metrics_cap caps = None ->
  fold_left (fun enabled cap =>
    if bool_decide (cc_Name cap = CapabilityMetrics) then negb (bool_decide (is_Some (cc_DeletionTimestamp cap)))
    else enabled) caps acc = acc.
Proof.
  unfold metrics_cap. revert acc. induction caps as [|cap caps IH]; intros acc; [done|]. cbn [fold_left].
  case_bool_decide as Hn; [by rewrite filter_cons_True by done|].
  rewrite filter_cons_False by done. apply IH.
Qed.

Lemma set_deletion_disables now caps :
  one_metrics caps -> metrics_cap caps <> None -> capability_enabled (set_deletion now caps) = false.
Proof.
  unfold capability_enabled, one_metrics, metrics_cap.
  generalize false at 1 as acc. induction caps as [|cap caps IH]; intros acc Hone Hm; [done|].
  cbn [set_deletion]. case_bool_decide as Hn.
  - rewrite filter_cons_True in Hone by done. cbn in Hone. cbn [fold_left].
    rewrite bool_decide_eq_true_2 by done. cbn [cc_DeletionTimestamp].
    rewrite bool_decide_eq_true_2 by eauto. cbn [negb]. apply capability_enabled_None.
    unfold metrics_cap. destruct (filter _ caps); [done|]. cbn in Hone. lia.
  - rewrite filter_cons_False in Hone, Hm by done. cbn [fold_left].
    rewrite bool_decide_eq_false_2 by done. by apply IH.
Qed.

(** What the gateway wants of a node: it does not depend on what the node has. *)
Lemma Sync_desired id cur (b b' : B) r :
  Sync (Some id) cur b = (b', Ok r) ->
  cview b' = cview b /\
  exists c cfg, sv_clusters (cview b) !! id = Some c /\ r = buildResponse cur cfg /\
    (mcc_Enabled cfg = true -> capability_enabled (Clus.GetCapabilities c) = true /\ mcc_Conditions cfg = []) /\
    (capability_enabled (Clus.GetCapabilities c) = false ->
       cfg = mkMetricsCapabilityConfig false [] (Some node_spec)) /\
    forall cur', (Sync (Some id) cur' b).2 = Ok (buildResponse cur' cfg).
Proof.
  unfold Sync. intros E. unfold wbind in E |- *.
  destruct (on_world (ms_GetCluster _) b) as [b1 o1] eqn:Eg.
  destruct o1 as [c|e|p]; [|done|done].
  apply on_world_inv in Eg as (Eg & _ & _). apply ms_GetCluster_law in Eg as [Hv1 Hc].
  destruct (capability_enabled (Clus.GetCapabilities c)) eqn:Een.
  - destruct (on_world (drv_ShouldDisableNode _) b1) as [b2 o2] eqn:Ed.
    apply on_world_inv in Ed as (Ed & _ & _). apply ShouldDisableNode_law in Ed as [Hv2 Hnp].
    assert (exists d : bool * list string, match o2 with
      | Ok _ => (b2, Ok (true, [])) | Err err => (b2, Ok (false, [status_Message err]))
      | Panic p => (b2, Panic p) end = (b2, Ok d) /\ (d.1 = true -> d.2 = [])) as (d & Hd & Hd1).
    { destruct o2; [|by eexists|done]. by eexists. }
    rewrite Hd in E |- *. destruct (on_world clock_Now b2) as [b3 o3] eqn:Ec.
    apply on_world_inv in Ec as (Ec & _ & _). apply clock_Now_law in Ec as [Hv3 Hok].
    destruct o3 as [now|e|p]; [|done|done]. injection E as <- <-. cbn.
    split; [congruence|]. exists c, (mkMetricsCapabilityConfig d.1 d.2 (Some node_spec)).
    split; [exact Hc|]. split; [done|].
    split; [by intros Hd1'; split; [|apply Hd1]|]. split; [congruence|done].
  - cbn in E |- *. destruct (on_world clock_Now b1) as [b3 o3] eqn:Ec.
    apply on_world_inv in Ec as (Ec & _ & _). apply clock_Now_law in Ec as [Hv3 Hok].
    destruct o3 as [now|e|p]; [|done|done]. injection E as <- <-. cbn.
    split; [congruence|]. eexists c, _. split; [exact Hc|]. split; [done|].
    split; [done|]. split; [done|done].
Qed.

(** C16: Uninstalling metrics takes the node of the requested cluster out of service.
    It succeeds only if that cluster has the capability, and an earlier uninstall that
    still shows in it was canceled or has failed; the capability of the requested
    cluster is then marked as deleted, no other cluster is touched, and from then on
    every sync tells the node of that cluster to disable itself. *)
Theorem uninstall_disables_node (ref : Reference) (options : option string) (b b' : B) :
  (forall id c, sv_clusters (cview b) !! id = Some c -> one_metrics (Clus.GetCapabilities c)) ->
  Uninstall ref options b = (b', Ok tt) ->
  exists c c' cap now,
    sv_clusters (cview b) !! ref_Id ref = Some c /\
    metrics_cap (Clus.GetCapabilities c) = Some cap /\ may_uninstall (ref_Id ref) cap /\
    deletion_mutator now c = Ok c' /\ cview b' = set_cluster (cview b) (ref_Id ref) c' /\
    forall cur b1 b2 r, cview b1 = cview b' -> Sync (Some (ref_Id ref)) cur b1 = (b2, Ok r) ->
      r = buildResponse cur (mkMetricsCapabilityConfig false [] (Some node_spec)).
Proof.
  intros Hone. unfold Uninstall. intros (c & b1 & Hg & Hk)%wbind_Ok.
  apply on_world_inv in Hg as (Hg & _). apply mgmt_GetCluster_law in Hg as [Hv1 Hc].
  destruct (Hc c eq_refl) as [Hid Hc']. clear Hc. rename Hc' into Hc. rewrite <- Hid in *.
  apply wbind_Ok in Hk as (opts & b2 & Ho & Hk).
  assert (b2 = b1) as ->.
  { destruct options as [s|]; [|by injection Ho]. unfold wcatch, wlift in Ho.
    by destruct (LoadFromStruct s); injection Ho. }
  apply wbind_Ok in Hk as (ex & b3 & Hch & Hk). apply check_capability_inv in Hch as (Hv3 & Hcap & _).
  destruct ex; cbn [negb] in Hk; [|done]. destruct (Hcap eq_refl) as (cap & Hm & Hmay).
  apply wbind_Ok in Hk as (now & b4 & Hn & Hk). apply on_world_inv in Hn as (Hn & _).
  apply clock_Now_law in Hn as [Hv4 _].
  apply wbind_Ok in Hk as (u & b5 & Hu & Hk).
  assert (exists c', on_world (ms_UpdateCluster (Clus.GetReference c) (deletion_mutator now)) b4 = (b5, Ok c'))
    as [c' Hu'].
  { unfold wcatch, wbind, wret, wfail in Hu. destruct (on_world _ b4) as [b6 [c'|e|p]]; [|done|done].
    injection Hu as -> _. by exists c'. }
  apply on_world_inv in Hu' as (Hu' & _). apply ms_UpdateCluster_law in Hu' as (c0 & Hc0 & Hmut & Hv5).
  assert (cview b4 = cview b) as Hv by congruence. rewrite Hv in Hc0, Hv5.
  change (ref_Id (Clus.GetReference c)) with (cl_Id c) in Hc0, Hv5.
  assert (c0 = c) as -> by congruence.
  apply wbind_Ok in Hk as (u' & b6 & Hr & Hl). apply requestNodeSync_view in Hr.
  apply on_world_inv in Hl as (Hl & _). apply tc_LaunchTask_law in Hl.
  exists c, c', cap, now. split; [done|]. split; [done|]. split; [done|]. split; [done|].
  split; [congruence|]. intros cur b7 b8 r Hb7 Hs.
  apply Sync_desired in Hs as (_ & c1 & cfg & Hc1 & -> & _ & Hdis & _).
  assert (cview b7 = set_cluster (cview b) (cl_Id c) c') as Hb by congruence.
  rewrite Hb in Hc1. cbn in Hc1. rewrite lookup_insert_eq in Hc1. injection Hc1 as <-.
  rewrite Hdis; [done|]. unfold deletion_mutator in Hmut.
  destruct (cl_Metadata c) as [md|]; [|done]. injection Hmut as <-.
  apply set_deletion_disables; [by eapply Hone|congruence].
Qed.

(** An uninstall whose task record is gone can never be repeated: the comment
    calls the missing record ok to reset, but the state of a nil status is
    Unknown, which is answered as an uninstall in progress, and nothing changes. *)
Lemma lost_task_blocks_uninstall (ref : Reference) (b : B) (c : Cluster) (cap : ClusterCapability) (t : Time) (e : error) :
  on_world (mgmt_GetCluster ref) b = (b, Ok c) ->
  metrics_cap (Clus.GetCapabilities c) = Some cap -> cc_DeletionTimestamp cap = Some t ->
  on_world (tc_TaskStatus (cl_Id c)) b = (b, Err e) -> StatusCode e = codes_NotFound ->
  Uninstall ref None b =
    (b, Err (StatusError codes_FailedPrecondition "uninstall is already in progress")).
Proof.
  intros Hg Hm Ht Hs He. unfold Uninstall. rewrite (wbind_eq_Ok _ _ _ _ _ Hg).
  rewrite (wbind_eq_Ok _ _ _ b (mkDefaultUninstallOptions false 0)) by done.
  apply wbind_eq_Err. revert Hm. unfold metrics_cap.
  induction (Clus.GetCapabilities c) as [|cap' caps IH]; [done|]. cbn [check_capability].
  case_bool_decide as Hn; cbn [negb].
  - rewrite filter_cons_True by done. intros [= ->]. rewrite Ht. apply wbind_eq_Err.
    unfold check_stale_task. unfold wbind. rewrite Hs. by rewrite (bool_decide_eq_true_2 _ He).
  - rewrite filter_cons_False by done. done.
Qed.

(** C34: Nodes converge to what the gateway wants: a sync that goes through leaves
    the node with exactly the configuration the gateway computes for it, which
    enables it only if the stored cluster has the capability and it is not being
    deleted; the listeners get it when it is new; and a sync after that, while the
    gateway still wants the same, changes neither. *)
Theorem metrics_sync_converges (id : string) (now : Time) (m : MetricsNode) (b b' : B) (r : SyncResponse) :
  mn_hasNodeClient m = true ->
  Sync (Some id) (mn_config m) b = (b', Ok r) ->
  exists m' c cfg,
    doSync (Sync (Some id)) now m b = (b', Ok m') /\
    sv_clusters (cview b) !! id = Some c /\ mn_config m' = Some cfg /\
    (forall cur, (Sync (Some id) cur b).2 = Ok (buildResponse cur cfg)) /\
    (mcc_Enabled cfg = true -> capability_enabled (Clus.GetCapabilities c) = true) /\
    mn_listeners m' = (if decide (mn_config m = Some cfg) then mn_listeners m
                       else map (fun l => l ++ [cfg])%list (mn_listeners m)) /\
    CondConfigSync ∉ dom (ct_conditions (mn_conditions m')) /\
    forall now2 b1, (Sync (Some id) (Some cfg) b1).2 = Ok (buildResponse (Some cfg) cfg) ->
      exists b2 m2, doSync (Sync (Some id)) now2 m' b1 = (b2, Ok m2) /\
        mn_config m2 = mn_config m' /\ mn_listeners m2 = mn_listeners m'.
Proof.
  intros Hcl E. pose proof E as (_ & c & cfg & Hc & -> & Hen & _ & Hall)%Sync_desired.
  assert (forall ct t, CondConfigSync ∉ dom (ct_conditions (ct_Clear CondConfigSync t ct))) as Hclear.
  { intros ct t. unfold ct_Clear. destruct (ct_conditions ct !! CondConfigSync) eqn:Ek; cbn.
    - rewrite dom_delete. set_solver.
    - by apply not_elem_of_dom. }
  assert (forall m1 now2 b1, mn_hasNodeClient m1 = true -> mn_config m1 = Some cfg ->
    (Sync (Some id) (Some cfg) b1).2 = Ok (buildResponse (Some cfg) cfg) ->
    exists b2 m2, doSync (Sync (Some id)) now2 m1 b1 = (b2, Ok m2) /\
      mn_config m2 = mn_config m1 /\ mn_listeners m2 = mn_listeners m1) as Hagain.
  { intros m1 now2 b1 Hcl1 Hcfg Hs. unfold doSync. rewrite Hcl1, Hcfg. cbn [negb].
    destruct (Sync (Some id) (Some cfg) b1) as [b2 o2]. cbn in Hs. subst o2. unfold buildResponse.
    rewrite decide_True by done. cbn. eexists _, _. split; [done|]. done. }
  unfold doSync at 1. rewrite Hcl. cbn [negb]. rewrite E.
  destruct (decide (mn_config m = Some cfg)) as [Heq|Hne].
  - assert (buildResponse (mn_config m) cfg = mkSyncResponse ConfigStatus_UpToDate None) as ->
      by (unfold buildResponse; by rewrite decide_True).
    eexists _, c, cfg. cbn. split; [done|]. split; [done|]. split; [done|]. split; [done|].
    split; [by intros [? _]%Hen|]. split; [by rewrite decide_True|]. split; [apply Hclear|].
    intros now2 b1 Hs. by apply Hagain.
  - assert (buildResponse (mn_config m) cfg = mkSyncResponse ConfigStatus_NeedsUpdate (Some cfg)) as ->
      by (unfold buildResponse; by rewrite decide_False).
    eexists _, c, cfg. cbn. split; [reflexivity|]. split; [done|]. split; [done|]. split; [done|].
    split; [by intros [? _]%Hen|]. split; [by rewrite decide_False|]. split; [apply Hclear|].
    intros now2 b1 Hs. by apply Hagain.
Qed.
End Uninstalling.

(** ** How the uninstall task ends *)

Class UninstallLaws (W : Type) `{ManagementStorage W} `{!ActiveTask W TimestampedMetadata}
    `{CortexPurger W} : Prop := {
  ul_LoadTaskMetadata w w' o : at_LoadTaskMetadata w = (w', o) -> mview w' = mview w;
  ul_AddLogEntry l s w w' o : at_AddLogEntry l s w = (w', o) -> mview w' = mview w;
  ul_deleteTenant id w w' o : deleteTenant id w = (w', o) -> mview w' = mview w;
  ul_tenantDeleteStatus id w w' o : tenantDeleteStatus id w = (w', o) -> mview w' = mview w }.

Section UninstallOutcome.
Context {W : Type} `{UninstallLaws W} `{ErrorText}.

Lemma poll_deletion_inv id polls : forall w w',
  poll_deletion id polls w = (w', Ok tt) ->
  mview w' = mview w /\ exists w1 w2, tenantDeleteStatus id w1 = (w2, Ok true).
Proof.
  induction polls as [|polls IH]; intros w w'; cbn [poll_deletion].
  { intros (u & w1 & _ & E)%wbind_Ok. done. }
  destruct (tenantDeleteStatus id w) as [w1 o1] eqn:E. pose proof (ul_tenantDeleteStatus _ _ _ _ E) as Hv.
  destruct o1 as [[]|e|p]; [| | |done].
  - intros Hl%ul_AddLogEntry. split; [congruence|]. eauto.
  - intros [? ?]%IH. split; [congruence|done].
  - intros [? ?]%IH. split; [congruence|done].
Qed.

Lemma metrics_cap_removed caps :
  metrics_cap (filter (fun c => Equal c (capabilities_Cluster CapabilityMetrics) = false) caps) = None.
Proof.
  unfold metrics_cap. induction caps as [|c caps IH]; [done|].
  destruct (decide (Equal c (capabilities_Cluster CapabilityMetrics) = false)) as [Hf|Ht].
  - rewrite filter_cons_True by done. rewrite filter_cons_False; [done|].
    intros Hn. apply not_true_iff_false in Hf. apply Hf. apply ClusterCapability_Equal_spec.
    by rewrite Hn.
  - by rewrite filter_cons_False by done.
Qed.

(** The uninstall task leaves no half-deleted capability behind.  When it
    completes the cluster no longer has the capability, and if the stored data was
    to go, Cortex has reported it deleted; when it fails or is canceled the
    capability is there again without a deletion mark, unless the storage refused
    the update. *)
Lemma uninstall_task_outcome (id : string) (polls : nat) (w w' : W) (md : TimestampedMetadata) (w0 : W) :
  at_LoadTaskMetadata w = (w0, Ok md) ->
  (Uninstall_OnTaskRunning id polls w = (w', Ok tt) ->
     exists c c', sv_clusters (mview w) !! id = Some c /\ mview w' = set_cluster (mview w) id c' /\
       cl_Id c' = cl_Id c /\ metrics_cap (Clus.GetCapabilities c') = None /\
       (duo_DeleteStoredData (tmd_Options md) = true ->
          exists w1 w2, tenantDeleteStatus id w1 = (w2, Ok true))) /\
  (forall state args, state = TaskState_Failed \/ state = TaskState_Canceled ->
     Uninstall_OnTaskCompleted id state args w = (w', Ok tt) ->
     mview w' = mview w \/
     exists c c', sv_clusters (mview w) !! id = Some c /\ mview w' = set_cluster (mview w) id c' /\
       Clus.GetCapabilities c' = reset_deletion (Clus.GetCapabilities c)).
Proof.
  intros Hmd. split.
  - unfold Uninstall_OnTaskRunning. rewrite (wbind_eq_Ok _ _ _ _ _ Hmd).
    apply ul_LoadTaskMetadata in Hmd. intros (u & w1 & Hl & Hk)%wbind_Ok. apply ul_AddLogEntry in Hl.
    apply wbind_Ok in Hk as ([] & w2 & Hdel & Hk).
    assert (mview w2 = mview w1 /\ (duo_DeleteStoredData (tmd_Options md) = true ->
      exists w1 w2, tenantDeleteStatus id w1 = (w2, Ok true))) as [Hv2 Hd].
    { destruct (duo_DeleteStoredData _).
      - apply wbind_Ok in Hdel as (? & ? & ?%ul_AddLogEntry & Hdel).
        apply wbind_Ok in Hdel as (? & ? & ?%ul_deleteTenant & Hdel).
        apply wbind_Ok in Hdel as (? & ? & ?%ul_AddLogEntry & [? ?]%poll_deletion_inv).
        split; [congruence|done].
      - apply ul_AddLogEntry in Hdel. done. }
    apply wbind_Ok in Hk as (? & w3 & Hl3%ul_AddLogEntry & Hk).
    apply wbind_Ok in Hk as (c' & w4 & Hu & [= <-]).
    apply ms_UpdateCluster_law in Hu as (c & Hc & Hm & Hv). injection Hm as <-. cbn [ref_Id] in Hc, Hv.
    assert (mview w3 = mview w) as Hw3 by congruence. rewrite Hw3 in Hc, Hv.
    eexists c, _. split; [exact Hc|]. split; [exact Hv|]. split; [done|]. split; [|done]. apply metrics_cap_removed.
  - intros state args Hs.
    assert (forall wa : W, mview wa = mview w ->
      wcatch (ms_UpdateCluster (mkReference id) reset_mutator ;! wret tt)
        (fun err => at_AddLogEntry WarnLevel ("Failed to reset deletion timestamp: " +:+ err_Error err)) wa
        = (w', Ok tt) ->
      mview w' = mview w \/
      exists c c', sv_clusters (mview w) !! id = Some c /\ mview w' = set_cluster (mview w) id c' /\
        Clus.GetCapabilities c' = reset_deletion (Clus.GetCapabilities c)) as Hreset.
    { intros wa Hwa. unfold wcatch, wbind, wret.
      destruct (ms_UpdateCluster _ _ wa) as [wb o] eqn:Eu. apply ms_UpdateCluster_law in Eu.
      destruct o as [c'|e|p]; [| |done].
      - intros [= <-]. right. destruct Eu as (c & Hc & Hm & Hv). rewrite Hwa in Hc, Hv.
        exists c, c'. split; [done|]. split; [done|]. unfold reset_mutator in Hm.
        destruct (cl_Metadata c) as [m|] eqn:Em; injection Hm as <-; [done|].
        unfold Clus.GetCapabilities, cluster_meta. by rewrite Em.
      - intros Hl%ul_AddLogEntry. left. congruence. }
    unfold Uninstall_OnTaskCompleted. destruct Hs as [-> | ->].
    + destruct args as [|err args]; [done|]. intros (? & w1 & Hl%ul_AddLogEntry & E)%wbind_Ok. by apply (Hreset w1).
    + intros (? & w1 & Hl%ul_AddLogEntry & E)%wbind_Ok. by apply (Hreset w1).
Qed.
End UninstallOutcome.

(** ** One rule streamer *)

(** The streamers that are not stopped: the one the plugin can stop, if any; the
    HTTP server is enabled exactly while it runs. *)
Definition plugin_ok (p : AgentPlugin) : Prop :=
  ap_httpEnabled p = bool_decide (is_Some (ap_stopRuleStreamer p)) /\
  forall n rules, ap_streamers p !! n = Some (false, rules) <->
    ap_stopRuleStreamer p = Some n /\ ap_streamers p !! n = Some (false, rules).

Definition running_rules (p : AgentPlugin) : option (option RulesSpec) :=
  n ← ap_stopRuleStreamer p; snd <$> ap_streamers p !! n.

(** However often the configuration of the agent changes, at most one rule
    streamer runs: the one for the rules of the last configuration when that
    enables the capability, and none, with the HTTP server off, when it does
    not. *)
Lemma one_rule_streamer (cfgs : list MetricsCapabilityConfig) :
  let p := fold_left (fun p cfg => onConfigUpdated cfg p) cfgs (mkAgentPlugin None [] false) in
  plugin_ok p /\
  (ap_httpEnabled p = true <-> exists cfg, list.last cfgs = Some cfg /\ mcc_Enabled cfg = true) /\
  running_rules p =
    match list.last cfgs with
    | Some cfg => if mcc_Enabled cfg then Some (mcc_Spec cfg ≫= mcs_Rules) else None
    | None => None
    end.
Proof.
  induction cfgs as [|cfg cfgs IH] using rev_ind.
  { cbn. split; [split; [done|]|split; [|done]]; [intros n rules; cbn; naive_solver|].
    split; [done|]. naive_solver. }
  rewrite fold_left_app, last_snoc. cbn [fold_left].
  set (p := fold_left _ cfgs _) in *. destruct IH as [[Hh Hs] _].
  unfold onConfigUpdated, startRuleStreamer, cancel_streamer, plugin_ok, running_rules.
  destruct (ap_stopRuleStreamer p) as [stop|] eqn:Estop, (mcc_Enabled cfg) eqn:Een; cbn;
    rewrite ?length_alter.
  - split; [split; [done|]|].
    + intros n rules. destruct (decide (n < length (ap_streamers p))) as [Hlt|Hge].
      * rewrite lookup_app_l by (by rewrite length_alter). split; [|naive_solver].
        destruct (decide (n = stop)) as [->|Hne].
        { rewrite list_lookup_alter_eq. by destruct (ap_streamers p !! stop). }
        { rewrite list_lookup_alter_ne by done. intros Hl. apply Hs in Hl as [[= ->] _]. done. }
      * rewrite lookup_app_r by (rewrite length_alter; lia). rewrite length_alter.
        rewrite list_lookup_singleton_Some. split; [|naive_solver]. intros [? ?]. split; [f_equal; lia|done].
    + rewrite Hh. split; [naive_solver|].
      rewrite lookup_app_r by (by rewrite length_alter). rewrite length_alter, Nat.sub_diag. done.
  - split; [split; [done|]|].
    + intros n rules. split; [|naive_solver]. destruct (decide (n = stop)) as [->|Hne].
      * rewrite list_lookup_alter_eq. by destruct (ap_streamers p !! stop).
      * rewrite list_lookup_alter_ne by done. intros Hl. apply Hs in Hl as [[= ->] _]. done.
    + split; [|done]. naive_solver.
  - split; [split; [done|]|].
    + intros n rules. destruct (decide (n < length (ap_streamers p))) as [Hlt|Hge].
      * rewrite lookup_app_l by done. split; [|naive_solver]. intros Hl. by apply Hs in Hl as [? _].
      * rewrite lookup_app_r by lia. rewrite list_lookup_singleton_Some. split; [|naive_solver].
        intros [? ?]. split; [f_equal; lia|done].
    + split; [naive_solver|]. rewrite lookup_app_r by done. by rewrite Nat.sub_diag.
  - rewrite ?Estop in *. split; [split; [done|]|].
    + intros n rules. rewrite ?Estop. apply Hs.
    + rewrite Hh. split; [|by rewrite ?Estop]. naive_solver.
Qed.

(** ** A target runs once *)

#[export] Instance targetStore_reliable : ReliableKV targetStore (fun m k => m !! k).
Proof.
  split; cbn; intros.
  - by rewrite H.
  - by rewrite H.
  - eexists. split; [done|]. intros j. rewrite lookup_insert. repeat case_decide; congruence.
  - eexists. split; [done|]. intros j. rewrite lookup_delete. repeat case_decide; congruence.
Qed.

Definition runner_view (m : gmap string TaskStatus) (name : string) : option TaskStatus :=
  m !! (tasks_prefix "target-runner" +:+ name).

#[export] Instance runner_store_reliable : ReliableKV runner_store runner_view.
Proof. apply (ReliableKV_prefix targetStore (fun m k => m !! k)), _. Qed.

Section RunnerProps.
Context `{MetadataJSON TargetRunMetadata} `{ErrorText}.
Context (clock : nat -> Time) (fuel : nat) (metadata_Unmarshal : string -> outcome TargetRunMetadata).

Notation TW := (World (gmap string TaskStatus)).
#[local] Instance target_tasks : TaskController TW TargetRunMetadata := controller_tasks clock fuel runner_store.

(** The saved status of a target. *)
Definition saved (w : TW) (name : string) : option TaskStatus := runner_view (w_store w) name.

Lemma TaskStatus_saved name (w : TW) :
  tc_TaskStatus name w = (w, match saved w name with Some st => Ok st | None => Err ErrNotFound end).
Proof.
  cbn. unfold Controller_TaskStatus, on_store, saved, runner_view. cbn. by destruct w, (_ !! _).
Qed.

(** A target that does not run, or whose last run has ended, can be started:
    exactly one import is launched for it, with the target and the query of the
    request; until that one ends every other start of the same name is refused and
    changes nothing, and the status that is reported is Running. *)
Lemma target_runs_once (t : Target) (m : TargetMeta) (q : option Query) (md : string) (w : TW) :
  0 < fuel -> w_ctxErr w = None -> ctx_ok w ->
  Contains (err_Error ErrNotFound) "not found" = true ->
  tg_Meta t = Some m ->
  match saved w (tm_Name m) with None => True | Some st => end_state (ts_State st) = true end ->
  md_is_struct (mkTargetRunMetadata (Some t) q) = true ->
  md_Marshal (mkTargetRunMetadata (Some t) q) = Ok md ->
  exists w', runner_Start (Some t) q w = (w', Ok tt) /\
    (exists l, w_goroutines w' = (w_goroutines w ++ [l])%list /\ l_id l = tm_Name m /\ l_mdJson l = md) /\
    (forall t' q', tm_Name <$> tg_Meta t' = Some (tm_Name m) ->
       runner_Start (Some t') q' w' = (w', Err (ErrorString "target is already running"))) /\
    (forall qry, metadata_Unmarshal md = Ok (mkTargetRunMetadata (Some t) q) -> q = Some qry ->
       is_Some (q_StartTimestamp qry) ->
       exists st, runner_GetStatus metadata_Unmarshal (tm_Name m) w' = (w', Ok st) /\
         tst_State st = TargetState_Running).
Proof.
  intros Hf Hctx Hok Hnf Hm Hst Hstruct Hmd.
  destruct (LaunchTask_ok clock fuel runner_store runner_view (tm_Name m)
    [fun o => mkNewTaskOptions (Some (mkTargetRunMetadata (Some t) q)) (o_jsonMetadata o)
                (o_statusCallback o) (o_stateCallback o)] md w Hf Hctx Hok)
    as (w' & new & Hl & [_ Hnew] & Htab & _ & Hg & _).
  { unfold launch_metadata. cbn. by rewrite Hmd. }
  pose proof (TaskStatus_saved (tm_Name m) w') as Hs'. unfold saved in Hs'. rewrite Hnew in Hs'.
  assert (ts_State new = TaskState_Pending) as Hp by apply Htab.
  exists w'. split; [|split; [|split]].
  - unfold runner_Start. rewrite (wbind_eq_Ok _ _ w w t) by done.
    rewrite (wbind_eq_Ok _ _ w w m) by (unfold wlift; by rewrite Hm).
    rewrite (wbind_eq_Ok _ _ w w tt).
    + assert (tc_LaunchTask (tm_Name m) (mkTargetRunMetadata (Some t) q) w = (w', Ok tt)) as Hlt.
      { cbn [tc_LaunchTask target_tasks controller_tasks]. unfold WithMetadata, wbind, wlift.
        rewrite Hstruct. exact Hl. }
      unfold wrapf, wcatch. by rewrite Hlt.
    + rewrite TaskStatus_saved. destruct (saved w (tm_Name m)) as [st|]; [|by rewrite Hnf].
      by destruct (ts_State st).
  - eexists. split; [exact Hg|]. done.
  - intros t' q' Ht'. destruct (tg_Meta t') as [m'|] eqn:Em'; [|done]. injection Ht' as Ht'.
    unfold runner_Start. rewrite (wbind_eq_Ok _ _ w' w' t') by done.
    rewrite (wbind_eq_Ok _ _ w' w' m') by (unfold wlift; by rewrite Em').
    apply wbind_eq_Err. by rewrite Ht', Hs', Hp.
  - intros qry Hun -> [start Hq]. unfold runner_GetStatus. rewrite Hs'.
    assert (saved w (tm_Name m) = None \/ exists old, saved w (tm_Name m) = Some old /\
      end_state (ts_State old) = true) as Hold by (destruct (saved w (tm_Name m)); eauto).
    assert (ts_Metadata new = md) as Hmeta.
    { unfold saved in Hold. destruct Htab as [_ Htab].
      destruct Hold as [Hold | (old & Hold & He)]; rewrite Hold in Htab; [apply Htab|].
      destruct Htab as (_ & -> & _). by destruct (ts_State old). }
    unfold wlift. rewrite Hmeta, Hun. cbn. unfold last_read. rewrite Hq. cbn.
    destruct (ts_Progress new) as [p|]; cbn; rewrite Hp; eexists; by split.
Qed.
End RunnerProps.

(** ** Reference clients of the metrics plugin, the runs of the handlers on them, and the
    properties of [MetricsProps] at these runs. *)

#[export] Instance ref_error_text : ErrorText := {|
  err_Error e := match e with ErrNotFound => "not found" | _ => "error" end;
  status_Message _ := "status" |}.

(** ** An import *)

(** Every read finds one series, the number of its window; pushes fail when
    [iw_broken] is set. *)
Record ImportWorld := mkImportWorld {
  iw_run : TargetRunMetadata;
  iw_broken : bool;
  iw_reads : list ReadRequest;
  iw_pushed : list string;
  iw_logs : list (Z * string);
  iw_progress : option Progress }.

#[export] Instance ref_import : ImportServices ImportWorld := {|
  TimeSeries := Z;
  reader_Read _ r := fun w =>
    (mkImportWorld (iw_run w) (iw_broken w) (iw_reads w ++ [r])%list (iw_pushed w) (iw_logs w) (iw_progress w),
     Ok [[rq_StartTimestampMs r]]);
  series_Marshal l := Ok (GoStd.Join "," (map Sprint l));
  snappy_Encode s := s;
  writer_Push s := fun w =>
    if iw_broken w then (w, Err (External "unavailable"))
    else (mkImportWorld (iw_run w) (iw_broken w) (iw_reads w) (iw_pushed w ++ [s])%list (iw_logs w) (iw_progress w),
          Ok tt) |}.

#[export] Instance ref_import_task : ActiveTask ImportWorld TargetRunMetadata := {|
  at_LoadTaskMetadata := fun w => (w, Ok (iw_run w));
  at_AddLogEntry l s := fun w =>
    (mkImportWorld (iw_run w) (iw_broken w) (iw_reads w) (iw_pushed w) (iw_logs w ++ [(l, s)])%list (iw_progress w),
     Ok tt);
  at_SetProgress p := fun w =>
    (mkImportWorld (iw_run w) (iw_broken w) (iw_reads w) (iw_pushed w) (iw_logs w) p, Ok tt) |}.

#[export] Instance ref_import_history : ImportHistory ImportWorld.
Proof.
  refine {| reads := iw_reads |}; intros *; cbn; try (intros [= <- <-]; done); [|done].
  destruct (iw_broken w); by intros [= <- <-].
Defined.

Definition demo_target : Target :=
  mkTarget (Some (mkTargetMeta "t" "c1")) (Some (mkTargetSpec "http://prometheus")) None.

(** Two and a half minutes. *)
Definition demo_query : Query := mkQuery (Some 1000000000%Z) (Some 151000000000%Z) [].

Definition import_world (broken : bool) : ImportWorld :=
  mkImportWorld (mkTargetRunMetadata (Some demo_target) (Some demo_query)) broken [] [] [] None.

Lemma import_reads_whole_range_witness :
  exists rs ms, toLabelMatchers (q_Matchers demo_query) = Ok ms /\
    reads (Import_OnTaskRunning (import_world false)).1 = (reads (import_world false) ++ rs)%list /\
    tiles 1000 151000 rs /\ Forall (fun r => rq_Matchers r = ms) rs.
Proof.
  destruct (import_reads_whole_range (import_world false) (import_world false)
    (Import_OnTaskRunning (import_world false)).1 (iw_run (import_world false)) demo_query (Ok tt)) as [_ Hr].
  - reflexivity.
  - reflexivity.
  - vm_compute. split; discriminate.
  - vm_compute. split; discriminate.
  - vm_compute. reflexivity.
  - apply Hr. reflexivity.
Defined.

Example import_demo :
  let w := (Import_OnTaskRunning (import_world false)).1 in
  (map (fun r => (rq_StartTimestampMs r, rq_EndTimestampMs r)) (iw_reads w), iw_pushed w)
  = ([(1000, 61000); (61000, 121000); (121000, 151000)]%Z, ["1000"; "61000"; "121000"]).
Proof. vm_compute. reflexivity. Qed.

(** An import whose pushes all fail completes, with nothing imported. *)
Example import_without_pushes :
  let r := Import_OnTaskRunning (import_world true) in
  r.2 = Ok tt /\ iw_pushed r.1 = [] /\ length (iw_reads r.1) = 3.
Proof. vm_compute. auto. Qed.

(** The progress is an absolute time, and the time of the last read adds it to the
    start: of a range that ends at second 151, second 152 is reported. *)
Example last_read_is_past_the_end :
  let p := iw_progress (Import_OnTaskRunning (import_world false)).1 in
  last_read (q_StartTimestamp demo_query) p = Ok (Some 152000000000%Z).
Proof. vm_compute. reflexivity. Qed.

(** ** Starting a target *)

#[export] Instance ref_run_metadata : MetadataJSON TargetRunMetadata := {|
  md_is_struct _ := true;
  md_Marshal _ := Ok "metadata";
  md_Unmarshal _ out := Ok out |}.

Definition target_world : World (gmap string TaskStatus) := mkWorld ∅ None ∅ ∅ 0 0 ∅ ∅ [] [].

(** ** The gateway on a store in memory *)

#[export] Instance ref_controller : TaskController StoreView TimestampedMetadata := {|
  tc_TaskStatus _ := wfail ErrNotFound;
  tc_LaunchTask _ _ := wret tt;
  tc_CancelTask _ := wret tt |}.

#[export] Instance ref_clients : MetricsClients StoreView := {|
  mgmt_GetCluster r := fun v =>
    (v, match sv_clusters v !! ref_Id r with
        | Some c => if decide (cl_Id c = ref_Id r) then Ok c else Err ErrNotFound
        | None => Err ErrNotFound
        end);
  RequestSync _ _ := wret tt;
  drv_GetClusterStatus := wret InstallState_Installed;
  drv_ShouldDisableNode _ := wret tt;
  drv_UninstallCluster := wret tt;
  LoadFromStruct _ := Ok (mkDefaultUninstallOptions false 0);
  rr_GetTargetStatus _ _ := wret (mkTargetStatus None "" TargetState_NotRunning);
  rr_Start _ _ _ := wret tt;
  rr_Stop _ _ := wret tt;
  rr_Discover _ _ := wret [];
  discovery_Unmarshal _ := [];
  clock_Now := wret 7%Z |}.

#[export] Instance ref_metrics_laws : MetricsLaws StoreView.
Proof.
  split; intros *; cbn; try (intros [= <- <-]; done).
  intros [= <- <-]. split; [done|]. intros c. destruct (sv_clusters w !! ref_Id r) as [c'|] eqn:E; [|done].
  case_decide as Hid; [|done]. intros [= ->]. done.
Qed.

Definition metrics_cluster (del : option Time) : Cluster :=
  mkCluster "c1" (Some (mkClusterMetadata ∅ [mkClusterCapability "metrics" del] "" None None)).

Definition metrics_backend (del : option Time) : MetricsBackend StoreView :=
  mkMetricsBackend (mkStoreView ∅ {[ "c1" := metrics_cluster del ]} ∅) ∅ ∅ true.

Lemma metrics_backend_one del id c :
  sv_clusters (mview (mb_world (metrics_backend del))) !! id = Some c -> one_metrics (Clus.GetCapabilities c).
Proof. cbn. intros [_ <-]%lookup_singleton_Some. vm_compute. lia. Qed.

Lemma uninstall_disables_node_witness :
  exists c c' cap now,
    sv_clusters (mview (mb_world (metrics_backend None))) !! "c1" = Some c /\
    metrics_cap (Clus.GetCapabilities c) = Some cap /\ may_uninstall (W := StoreView) "c1" cap /\
    deletion_mutator now c = Ok c'.
Proof.
  destruct (uninstall_disables_node (W := StoreView) (mkReference "c1") None (metrics_backend None)
    (Uninstall (mkReference "c1") None (metrics_backend None)).1) as (c & c' & cap & now & Hr).
  - apply metrics_backend_one.
  - vm_compute. reflexivity.
  - exists c, c', cap, now. repeat split; apply Hr.
Defined.

(** After the uninstall, and before it, what the node is told. *)
Example uninstall_demo :
  let b := (Uninstall (mkReference "c1") None (metrics_backend None)).1 in
  let enabled (b : MetricsBackend StoreView) :=
    match (Sync (Some "c1") None b).2 with Ok r => mcc_Enabled <$> sr_UpdatedConfig r | _ => None end in
  (enabled (metrics_backend None), enabled b) = (Some true, Some false).
Proof. vm_compute. reflexivity. Qed.

Definition demo_node : MetricsNode :=
  mkMetricsNode true None [[]] (NewDefaultConditionTracker 0%Z).

Lemma metrics_sync_converges_witness :
  exists m' cfg,
    (doSync (Sync (Some "c1")) 9%Z demo_node (metrics_backend None)).2 = Ok m' /\
    mn_config m' = Some cfg /\ mn_listeners m' = [[cfg]].
Proof.
  destruct (metrics_sync_converges (W := StoreView) "c1" 9%Z demo_node (metrics_backend None)
    (Sync (Some "c1") None (metrics_backend None)).1
    (mkSyncResponse ConfigStatus_NeedsUpdate (Some (mkMetricsCapabilityConfig true [] (Some node_spec)))))
    as (m' & c & cfg & Hs & _ & Hc & _ & _ & Hl & _).
  - reflexivity.
  - vm_compute. reflexivity.
  - exists m', cfg. rewrite Hs. split; [reflexivity|]. split; [exact Hc|].
    rewrite Hl, decide_False by discriminate. reflexivity.
Defined.

(** ** The uninstall task *)

#[export] Instance ref_uninstall_task : ActiveTask StoreView TimestampedMetadata := {|
  at_LoadTaskMetadata := wret (mkTimestampedMetadata (mkDefaultUninstallOptions true 0) 7%Z);
  at_AddLogEntry _ _ := wret tt;
  at_SetProgress _ := wret tt |}.

#[export] Instance ref_purger : CortexPurger StoreView := {|
  deleteTenant _ := wret tt;
  tenantDeleteStatus _ := wret true;
  ctx_err := External "context canceled" |}.

#[export] Instance ref_uninstall_laws : UninstallLaws StoreView.
Proof. split; intros *; cbn; by intros [= <- <-]. Qed.

Definition deleting_store : StoreView := mb_world (metrics_backend (Some 7%Z)).

(** An install during an uninstall reports success and changes nothing: the
    capability goes when the task completes. *)
Example install_during_uninstall :
  let r := Install (mkInstallRequest (mkReference "c1") false) (metrics_backend (Some 7%Z)) in
  r = (metrics_backend (Some 7%Z), Ok (mkInstallResponse Install_Success "")).
Proof. vm_compute. reflexivity. Qed.
