(* ===== verification/LogAdmin.v ===== *)
(** plugins/logging/pkg/gateway/admin_v2.go and admin.go, the part that computes: the
    node pools of the OpenSearch cluster from the request of the administrator, and
    the description of the cluster from its node pools. *)

From S2P Require Import Prelude GoStd Util.
From Stdlib Require Import Ascii.

Local Open Scope string_scope.

(** ** Kubernetes quantities *)

(** k8s.io/apimachinery/pkg/api/resource. *)
Class QuantityLib (Q : Type) := {
  ParseQuantity : string -> outcome Q;
  q_String : Q -> string;
  q_Value : Q -> Z;
  q_Cmp : Q -> Q -> comparison;
  q_IsZero : Q -> bool;
  (** the quantity of a key that is not there *)
  q_zero : Q }.

(** ** Objects *)

Record ResourceRequirements (Q : Type) := mkResources {
  rr_Limits : option (gmap string Q); rr_Requests : option (gmap string Q) }.
Arguments mkResources {_} _ _.
Arguments rr_Limits {_} _.
Arguments rr_Requests {_} _.

Record Toleration := mkToleration {
  tol_Key : string; tol_Operator : string; tol_Value : string; tol_Effect : string }.

(** An anti-affinity term: the weight of a preferred one, none for a required one, the
    labels and the topology key. *)
Record AntiAffinityTerm := mkAntiAffinityTerm {
  aa_Weight : option Z; aa_MatchLabels : gmap string string; aa_TopologyKey : string }.
Record Affinity := mkAffinity { af_PodAntiAffinity : option (list AntiAffinityTerm) }.

Record PVCSource := mkPVCSource { pvc_StorageClassName : string; pvc_AccessModes : list string }.
Record PersistenceConfig := mkPersistenceConfig { pc_PVC : option PVCSource; pc_EmptyDir : option unit }.

Record NodePool (Q : Type) := mkNodePool {
  np_Component : string; np_Replicas : Z; np_DiskSize : string;
  np_Resources : ResourceRequirements Q; np_Jvm : string; np_Roles : list string;
  np_Tolerations : list Toleration; np_NodeSelector : gmap string string;
  np_Affinity : option Affinity; np_Persistence : option PersistenceConfig;
  np_Labels : gmap string string; np_Env : list (string * string) }.
Arguments mkNodePool {_} _ _ _ _ _ _ _ _ _ _ _ _.
Arguments np_Component {_} _.
Arguments np_Replicas {_} _.
Arguments np_DiskSize {_} _.
Arguments np_Resources {_} _.
Arguments np_Jvm {_} _.
Arguments np_Roles {_} _.
Arguments np_Tolerations {_} _.
Arguments np_NodeSelector {_} _.
Arguments np_Affinity {_} _.
Arguments np_Persistence {_} _.
Arguments np_Labels {_} _.
Arguments np_Env {_} _.

Record DashboardsConfig (Q : Type) := mkDashboardsConfig {
  dbc_Image : option string; dbc_Replicas : Z; dbc_Enable : bool;
  dbc_Resources : ResourceRequirements Q; dbc_Version : string;
  dbc_Tls : option (bool * bool); dbc_AdditionalConfig : gmap string string }.
Arguments mkDashboardsConfig {_} _ _ _ _ _ _ _.
Arguments dbc_Image {_} _.
Arguments dbc_Replicas {_} _.
Arguments dbc_Enable {_} _.
Arguments dbc_Resources {_} _.
Arguments dbc_Version {_} _.
Arguments dbc_Tls {_} _.
Arguments dbc_AdditionalConfig {_} _.

(** The object the operator reconciles: its spec and the two versions of its status.
    The retention is behind the embedded pointer [ClusterConfigSpec]. *)
Record OpniOpensearch (Q : Type) := mkOpniOpensearch {
  oo_IndexRetention : option string; oo_NodePools : list (NodePool Q);
  oo_Dashboards : DashboardsConfig Q; oo_Security : bool;
  oo_ExternalURL : string; oo_ImageRepo : string; oo_OpensearchVersion : string; oo_Version : string;
  oo_NatsRef : option string;
  oo_StatusVersion : option string; oo_StatusOpensearchVersion : option string }.
Arguments mkOpniOpensearch {_} _ _ _ _ _ _ _ _ _ _ _.
Arguments oo_IndexRetention {_} _.
Arguments oo_NodePools {_} _.
Arguments oo_Dashboards {_} _.
Arguments oo_Security {_} _.
Arguments oo_ExternalURL {_} _.
Arguments oo_ImageRepo {_} _.
Arguments oo_OpensearchVersion {_} _.
Arguments oo_Version {_} _.
Arguments oo_NatsRef {_} _.
Arguments oo_StatusVersion {_} _.
Arguments oo_StatusOpensearchVersion {_} _.

(** ** Messages (loggingadmin.proto) *)

Record DataPersistence := mkDataPersistence { dp_Enabled : option bool; dp_StorageClass : option string }.
Record CPUResource := mkCPUResource { cpu_Request : string; cpu_Limit : string }.

Record DataDetails := mkDataDetails {
  dd_Replicas : option Z; dd_DiskSize : string; dd_MemoryLimit : string; dd_CpuResources : option CPUResource;
  dd_EnableAntiAffinity : option bool; dd_NodeSelector : gmap string string;
  dd_Tolerations : list (option Toleration); dd_Persistence : option DataPersistence }.

Record IngestDetails := mkIngestDetails {
  id_Replicas : option Z; id_MemoryLimit : string; id_CpuResources : option CPUResource;
  id_EnableAntiAffinity : option bool; id_NodeSelector : gmap string string;
  id_Tolerations : list (option Toleration) }.

Record ControlplaneDetails := mkControlplaneDetails {
  cd_Replicas : option Z; cd_NodeSelector : gmap string string;
  cd_Tolerations : list (option Toleration); cd_Persistence : option DataPersistence }.

Record ComputeResourceQuantities := mkComputeQuantities { cq_Cpu : string; cq_Memory : string }.
Record DashboardResources := mkDashboardResources {
  dr_Requests : option ComputeResourceQuantities; dr_Limits : option ComputeResourceQuantities }.
Record DashboardsDetails := mkDashboardsDetails {
  dbd_Enabled : option bool; dbd_Replicas : option Z; dbd_Resources : option DashboardResources }.

(** The first version of the API describes each node pool by itself. *)
Record OpensearchNodeDetails := mkOpensearchNodeDetails {
  nd_Name : string; nd_Replicas : option Z; nd_DiskSize : string; nd_MemoryLimit : string;
  nd_CPUResources : option CPUResource; nd_EnableAntiAffinity : option bool; nd_NodeSelector : gmap string string;
  nd_Tolerations : list (option Toleration); nd_Roles : list string; nd_Persistence : option DataPersistence }.
Record OpensearchClusterV1 := mkOpensearchClusterV1 {
  oc1_ExternalURL : string; oc1_NodePools : list OpensearchNodeDetails;
  oc1_Dashboards : option DashboardsDetails; oc1_DataRetention : option string }.

Record OpensearchClusterV2 := mkOpensearchClusterV2 {
  oc2_ExternalURL : string; oc2_DataNodes : option DataDetails; oc2_IngestNodes : option IngestDetails;
  oc2_ControlplaneNodes : option ControlplaneDetails; oc2_Dashboards : option DashboardsDetails;
  oc2_DataRetention : option string }.

(** ** errors.go *)

Definition ErrInvalidPersistence : error := ErrorString "invalid persistence config".
Definition ErrInvalidCluster : error := ErrorString "invalid opensearch cluster".
Definition ErrStoredClusterPersistence : error := Wrapped "stored opensearch cluster is invalid" ErrInvalidPersistence.
Definition ErrRequestMissingMemory : error := Wrapped "memory limit must be configured" ErrInvalidCluster.
Definition ErrInvalidRetention : error :=
  Wrapped "duration must be integer and time unit, e.g 7d" ErrInvalidCluster.
Definition ErrMissingDataNode : error := Wrapped "request must contain data nodes" ErrInvalidCluster.
Definition ErrRequestGtLimits : error := Wrapped "cpu requests must not be more than cpu limits" ErrInvalidCluster.
Definition ErrReplicasZero (nodeType : string) : error :=
  Wrapped ("replicas for " +:+ nodeType +:+ " must be a positive nonzero integer") ErrInvalidCluster.

Definition LabelOpsterCluster : string := "opster.io/opensearch-cluster".
Definition LabelOpsterNodePool : string := "opster.io/opensearch-nodepool".
Definition LabelOpniNodeGroup : string := "opni.io/node-group".
Definition TopologyKeyK8sHost : string := "kubernetes.io/hostname".
Definition opensearchVersion : string := "2.4.0".
Definition defaultRepo : string := "docker.io/rancher".

(** [slices.Contains]. *)
Definition contains (l : list string) (x : string) : bool := bool_decide (x ∈ l).

Section Admin.
Context {Q : Type} `{QuantityLib Q}.

(** ** From the request to the node pools *)

Definition generateK8sResources (memoryLimit : string) (cpu : option CPUResource)
  : outcome (ResourceRequirements Q * string) :=
  if decide (memoryLimit = "") then Err ErrRequestMissingMemory
  else
    let? memory := ParseQuantity memoryLimit in
    let jvmVal := Z.quot (q_Value memory) 2 in
    let limits := {[ "memory" := memory ]} : gmap string Q in
    let requests := {[ "memory" := memory ]} : gmap string Q in
    let? (limits, requests) :=
      match cpu with
      | None => Ok (limits, requests)
      | Some cpu =>
          let? request := if decide (cpu_Request cpu = "") then Ok None
                          else let? q := ParseQuantity (cpu_Request cpu) in Ok (Some q) in
          let? limit := if decide (cpu_Limit cpu = "") then Ok None
                        else let? q := ParseQuantity (cpu_Limit cpu) in Ok (Some q) in
          let requests := match request with Some q => <["cpu" := q]> requests | None => requests end in
          let limits := match limit with Some q => <["cpu" := q]> limits | None => limits end in
          match request, limit with
          | Some r, Some l => match q_Cmp r l with Gt => Err ErrRequestGtLimits | _ => Ok (limits, requests) end
          | _, _ => Ok (limits, requests)
          end
      end in
    let jvm := "-Xmx" +:+ Sprint jvmVal +:+ " -Xms" +:+ Sprint jvmVal in
    Ok (mkResources (Some limits) (Some requests), jvm).

Definition convertTolerations (pointers : list (option Toleration)) : list Toleration := omap id pointers.

Definition generateAntiAffinity (clusterName opniRole : string) : Affinity :=
  mkAffinity (Some [mkAntiAffinityTerm (Some 100%Z)
    {[ LabelOpsterCluster := clusterName; LabelOpniNodeGroup := opniRole ]} TopologyKeyK8sHost]).

Definition convertPersistence (persistence : option DataPersistence) : option PersistenceConfig :=
  match persistence with
  | None => None
  | Some p =>
      if default true (dp_Enabled p)
      then Some (mkPersistenceConfig (Some (mkPVCSource (default "" (dp_StorageClass p)) ["ReadWriteOnce"])) None)
      else Some (mkPersistenceConfig None (Some tt))
  end.

Definition env_no_demo : string * string := ("DISABLE_INSTALL_DEMO_CONFIG", "true").
Definition env_no_analyzer : string * string := ("DISABLE_PERFORMANCE_ANALYZER_AGENT_CLI", "true").

(** [m.opensearchCluster.Name]. *)
Variable clusterName : string.

Definition anti_affinity (enabled : option bool) (role : string) : option Affinity :=
  if default false enabled then Some (generateAntiAffinity clusterName role) else None.

Definition convertIngestDetails (details : IngestDetails) : outcome (NodePool Q) :=
  let? (resources, jvm) := generateK8sResources (id_MemoryLimit details) (id_CpuResources details) in
  if (default 1 (id_Replicas details) <? 1)%Z then Err (ErrReplicasZero "ingest")
  else Ok (mkNodePool "ingest" (default 1%Z (id_Replicas details)) "5Gi" resources jvm ["ingest"]
             (convertTolerations (id_Tolerations details)) (id_NodeSelector details)
             (anti_affinity (id_EnableAntiAffinity details) "ingest")
             (Some (mkPersistenceConfig None (Some tt)))
             {[ LabelOpniNodeGroup := "ingest" ]} [env_no_demo]).

(** The resources of the nodes that only vote: a JVM for 512Mi in 640Mi. *)
Definition quorum_resources : outcome (ResourceRequirements Q * string) :=
  let? (_, jvm) := generateK8sResources "512Mi" (Some (mkCPUResource "100m" "")) in
  let? (resources, _) := generateK8sResources "640Mi" (Some (mkCPUResource "100m" "")) in
  Ok (resources, jvm).

Definition convertControlplaneDetails (details : ControlplaneDetails) : outcome (NodePool Q) :=
  let? (_, jvm) := generateK8sResources "512Mi" (Some (mkCPUResource "100m" "")) in
  if (default 1 (cd_Replicas details) <? 1)%Z then Err (ErrReplicasZero "controlplane")
  else
    let? (resources, _) := generateK8sResources "640Mi" (Some (mkCPUResource "100m" "")) in
    Ok (mkNodePool "controlplane" (default 3%Z (cd_Replicas details)) "5Gi" resources jvm ["master"]
          (convertTolerations (cd_Tolerations details)) (cd_NodeSelector details)
          (Some (generateAntiAffinity clusterName "controlplane"))
          (convertPersistence (cd_Persistence details))
          {[ LabelOpniNodeGroup := "controlplane" ]} [env_no_demo; env_no_analyzer]).

(** The pool of the data nodes. *)
Definition data_pool (d : DataDetails) (resources : ResourceRequirements Q) (jvm : string)
    (replicas : Z) (roles : list string) : NodePool Q :=
  mkNodePool "data" replicas (dd_DiskSize d) resources jvm roles (convertTolerations (dd_Tolerations d))
    (dd_NodeSelector d) (anti_affinity (dd_EnableAntiAffinity d) "data") (convertPersistence (dd_Persistence d))
    {[ LabelOpniNodeGroup := "data" ]} [env_no_demo].

(** The nodes beyond the fifth, which may not become masters. *)
Definition second_pool (initial : NodePool Q) (replicas : Z) : NodePool Q :=
  mkNodePool "datax" replicas (np_DiskSize initial) (np_Resources initial) (np_Jvm initial)
    (RemoveFirstOccurence (np_Roles initial) "master") (np_Tolerations initial) (np_NodeSelector initial)
    (np_Affinity initial) (np_Persistence initial) (np_Labels initial) (np_Env initial).

(** The nodes that complete an even or small number of masters. *)
Definition quorum_pool (d : DataDetails) (replicas : Z) : outcome (NodePool Q) :=
  let? (resources, jvm) := quorum_resources in
  Ok (mkNodePool "quorum" replicas "5Gi" resources jvm ["master"] (convertTolerations (dd_Tolerations d))
        (dd_NodeSelector d) (anti_affinity (dd_EnableAntiAffinity d) "data") None
        {[ LabelOpniNodeGroup := "data" ]} [env_no_demo; env_no_analyzer]).

(** [opt_pool b p] is the pool [p] when [b] holds. *)
Definition opt_pool (b : bool) (p : outcome (NodePool Q)) : outcome (list (NodePool Q)) :=
  if b then let? x := p in Ok [x] else Ok [].

Definition generateNodePools (cluster : OpensearchClusterV2) : outcome (list (NodePool Q)) :=
  let memory := default "" (dd_MemoryLimit <$> oc2_DataNodes cluster) in
  let? (resources, jvm) := generateK8sResources memory (oc2_DataNodes cluster ≫= dd_CpuResources) in
  match oc2_DataNodes cluster with
  | None => Panic "nil pointer dereference"
  | Some d =>
      let n := default 1%Z (dd_Replicas d) in
      if (n <? 1)%Z then Err (ErrReplicasZero "data")
      else
        let noControlplane := negb (bool_decide (is_Some (oc2_ControlplaneNodes cluster))) in
        let roles := (["data"] ++ (match oc2_IngestNodes cluster with Some _ => [] | None => ["ingest"] end)
                      ++ (if noControlplane then ["master"] else []))%list in
        let splitPool := noControlplane && (5 <? n)%Z in
        let extraControlPlanePool := noControlplane && ((Z.rem n 2 =? 0)%Z || (n <? 3)%Z) && negb (5 <? n)%Z in
        let initialPool := data_pool d resources jvm (if splitPool then 5 else n)%Z roles in
        let? second := opt_pool splitPool (Ok (second_pool initialPool (n - 5)%Z)) in
        let? quorum := opt_pool extraControlPlanePool (quorum_pool d (if (n <? 3)%Z then 3 - n else 1)%Z) in
        let? ingest := match oc2_IngestNodes cluster with
                       | Some i => let? p := convertIngestDetails i in Ok [p] | None => Ok [] end in
        let? controlplane := match oc2_ControlplaneNodes cluster with
                             | Some c => let? p := convertControlplaneDetails c in Ok [p] | None => Ok [] end in
        Ok (initialPool :: second ++ quorum ++ ingest ++ controlplane)%list
  end.

(** ** From the node pools to the description *)

(** [Resources.Limits.Memory()] and the like: a missing quantity is zero. *)
Definition quantity (l : option (gmap string Q)) (k : string) : Q := default q_zero (default ∅ l !! k).

Definition generatePersistence (pool : NodePool Q) : outcome DataPersistence :=
  match np_Persistence pool with
  | None => Ok (mkDataPersistence (Some true) None)
  | Some p =>
      match pc_EmptyDir p, pc_PVC p with
      | Some _, _ => Ok (mkDataPersistence (Some false) None)
      | None, Some pvc =>
          Ok (mkDataPersistence (Some true)
                (if decide (pvc_StorageClassName pvc = "") then None else Some (pvc_StorageClassName pvc)))
      | None, None => Err ErrStoredClusterPersistence
      end
  end.

Definition generateCPU (pool : NodePool Q) : option CPUResource :=
  let request := quantity (rr_Requests (np_Resources pool)) "cpu" in
  let limit := quantity (rr_Limits (np_Resources pool)) "cpu" in
  if q_IsZero request && q_IsZero limit then None
  else Some (mkCPUResource (q_String request) (q_String limit)).

Definition antiAffinityEnabled (pool : NodePool Q) : option bool :=
  match np_Affinity pool with
  | None => Some false
  | Some a => Some (bool_decide (is_Some (af_PodAntiAffinity a)))
  end.

(** Every pointer is to the one variable of the loop, which holds the last element
    in the end. *)
Definition toleration_pointers (ts : list Toleration) : list (option Toleration) :=
  (fun _ => list.last ts) <$> ts.

(** The pool of a variable that was never assigned. *)
Definition empty_pool : NodePool Q := mkNodePool "" 0 "" (mkResources None None) "" [] [] ∅ None None ∅ [].

(** int32 addition. *)
Definition add32 (a b : Z) : Z := ((a + b + 2147483648) mod 4294967296 - 2147483648)%Z.

Definition generateDataDetails (pools : list (NodePool Q)) : outcome DataDetails :=
  let data := filter (fun p => contains (np_Roles p) "data" = true) pools in
  let replicas := fold_left (fun r p => add32 r (np_Replicas p)) data 0%Z in
  let referencePool := default empty_pool (list.last data) in
  let? persistence := generatePersistence referencePool in
  Ok (mkDataDetails (Some replicas) (np_DiskSize referencePool)
        (q_String (quantity (rr_Limits (np_Resources referencePool)) "memory"))
        (generateCPU referencePool) (antiAffinityEnabled referencePool) (np_NodeSelector referencePool)
        (toleration_pointers (np_Tolerations referencePool)) (Some persistence)).

(** The loop over the ingest pools: it ends with nothing at one that holds data. *)
Fixpoint ingest_loop (pools : list (NodePool Q)) (replicas : Z) (ref : NodePool Q) : option (Z * NodePool Q) :=
  match pools with
  | [] => Some (replicas, ref)
  | pool :: pools =>
      if contains (np_Roles pool) "ingest" then
        if contains (np_Roles pool) "data" then None
        else ingest_loop pools (add32 replicas (np_Replicas pool)) pool
      else ingest_loop pools replicas ref
  end.

Definition generateIngestDetails (pools : list (NodePool Q)) : option IngestDetails :=
  match ingest_loop pools 0 empty_pool with
  | None => None
  | Some (replicas, referencePool) =>
      Some (mkIngestDetails (Some replicas)
              (q_String (quantity (rr_Limits (np_Resources referencePool)) "memory"))
              (generateCPU referencePool) (antiAffinityEnabled referencePool) (np_NodeSelector referencePool)
              (toleration_pointers (np_Tolerations referencePool)))
  end.

Fixpoint controlplane_loop (pools : list (NodePool Q)) (ref : NodePool Q) : option (NodePool Q) :=
  match pools with
  | [] => Some ref
  | pool :: pools =>
      if contains (np_Roles pool) "master" then
        if contains (np_Roles pool) "data" then None else controlplane_loop pools pool
      else controlplane_loop pools ref
  end.

Definition generateControlplaneDetails (pools : list (NodePool Q)) : outcome (option ControlplaneDetails) :=
  match controlplane_loop pools empty_pool with
  | None => Ok None
  | Some referencePool =>
      let? persistence := generatePersistence referencePool in
      Ok (Some (mkControlplaneDetails (Some (np_Replicas referencePool)) (np_NodeSelector referencePool)
                  (toleration_pointers (np_Tolerations referencePool)) (Some persistence)))
  end.

(** ** Dashboards *)

Definition parse_quantities (r : option ComputeResourceQuantities) : outcome (option (gmap string Q)) :=
  match r with
  | None => Ok None
  | Some r =>
      let must (s : string) := match ParseQuantity s with Err _ => Panic "cannot parse quantity" | o => o end in
      let? l := if decide (cq_Cpu r = "") then Ok ∅
                else let? q := must (cq_Cpu r) in Ok {[ "cpu" := q ]} in
      let? l := if decide (cq_Memory r = "") then Ok l
                else let? q := must (cq_Memory r) in Ok (<["memory" := q]> l) in
      Ok (Some l)
  end.

Definition dashboards_image (osVersion version : string) : string :=
  defaultRepo +:+ "/opensearch-dashboards:" +:+ osVersion +:+ "-" +:+ version.

(** The version of the plugin, the override, and the branding. *)
Variables (versionsVersion versionOverride : string) (branding : gmap string string).

(** The messages the pointer [cluster] stands for: its two status versions. *)
Definition convertProtobufToDashboards (dashboard : option DashboardsDetails)
    (cluster : option (option string * option string)) : outcome (DashboardsConfig Q) :=
  match dashboard with
  | None => Panic "nil pointer dereference"
  | Some d =>
      let osVersion := match cluster with
                       | None => opensearchVersion
                       | Some (_, osv) => default opensearchVersion osv
                       end in
      let version := match cluster with
                     | None => "0.8.3-rc2"
                     | Some (v, _) => default (TrimPrefix versionsVersion "v") v
                     end in
      let version := if decide (version = "unversioned") then "0.8.3-rc2" else version in
      let version := if decide (versionOverride = "") then version else versionOverride in
      let? requests := parse_quantities (dbd_Resources d ≫= dr_Requests) in
      let? limits := parse_quantities (dbd_Resources d ≫= dr_Limits) in
      Ok (mkDashboardsConfig (Some (dashboards_image osVersion version)) (default 1%Z (dbd_Replicas d))
            (default true (dbd_Enabled d)) (mkResources limits requests) osVersion (Some (true, true)) branding)
  end.

Definition show_quantity (l : gmap string Q) (k : string) : string :=
  let q := quantity (Some l) k in if q_IsZero q then "" else q_String q.

(** admin.go: the limits are written over the requests. *)
Definition convertDashboardsToProtobuf (dashboard : DashboardsConfig Q) : DashboardsDetails :=
  let show l := mkComputeQuantities (show_quantity l "cpu") (show_quantity l "memory") in
  mkDashboardsDetails (Some (dbc_Enable dashboard)) (Some (dbc_Replicas dashboard))
    (match rr_Limits (dbc_Resources dashboard), rr_Requests (dbc_Resources dashboard) with
     | None, None => None
     | limits, requests =>
         let r := show <$> requests in
         let r := match limits with Some l => Some (show l) | None => r end in
         Some (mkDashboardResources r None)
     end).

(** ** The first version of the API *)

(** The resources of a pool; a request above the limit is not refused. *)
Definition v1_resources (memoryLimit : string) (cpu : option CPUResource) : outcome (ResourceRequirements Q * Q) :=
  if decide (memoryLimit = "") then Err ErrRequestMissingMemory
  else
    let? memory := ParseQuantity memoryLimit in
    let base := {[ "memory" := memory ]} : gmap string Q in
    let add (s : string) (l : gmap string Q) : outcome (gmap string Q) :=
      if decide (s = "") then Ok l else let? q := ParseQuantity s in Ok (<["cpu" := q]> l) in
    let? requests := match cpu with None => Ok base | Some c => add (cpu_Request c) base end in
    let? limits := match cpu with None => Ok base | Some c => add (cpu_Limit c) base end in
    Ok (mkResources (Some limits) (Some requests), memory).

Definition convertProtobufToNodePool (pool : OpensearchNodeDetails) : outcome (NodePool Q) :=
  let? (resources, memory) := v1_resources (nd_MemoryLimit pool) (nd_CPUResources pool) in
  let jvmVal := Z.quot (q_Value memory) 2 in
  Ok (mkNodePool (nd_Name pool) (default 1%Z (nd_Replicas pool)) (nd_DiskSize pool) resources
        ("-Xmx" +:+ Sprint jvmVal +:+ " -Xms" +:+ Sprint jvmVal)
        (ReplaceFirstOccurrence (nd_Roles pool) "controlplane" "master")
        (convertTolerations (nd_Tolerations pool)) (nd_NodeSelector pool)
        (if default true (nd_EnableAntiAffinity pool)
         then Some (mkAffinity (Some [mkAntiAffinityTerm None
                {[ LabelOpsterCluster := clusterName; LabelOpsterNodePool := nd_Name pool ]} TopologyKeyK8sHost]))
         else None)
        (convertPersistence (nd_Persistence pool)) ∅ []).

Definition convertNodePoolToProtobuf (pool : NodePool Q) : outcome OpensearchNodeDetails :=
  let? persistence := generatePersistence pool in
  Ok (mkOpensearchNodeDetails (np_Component pool) (Some (np_Replicas pool)) (np_DiskSize pool)
        (q_String (quantity (rr_Limits (np_Resources pool)) "memory")) (generateCPU pool) (antiAffinityEnabled pool)
        (np_NodeSelector pool) (toleration_pointers (np_Tolerations pool))
        (ReplaceFirstOccurrence (np_Roles pool) "master" "controlplane") (Some persistence)).

(** The version of the dashboards: of the cluster, or what is installed. *)
Definition v1_convertProtobufToDashboards (dashboard : option DashboardsDetails)
    (cluster : option (option string * option string)) : outcome (DashboardsConfig Q) :=
  match dashboard with
  | None => Panic "nil pointer dereference"
  | Some d =>
      let trimmed := TrimPrefix versionsVersion "v" in
      let osVersion := match cluster with
                       | None => opensearchVersion
                       | Some (_, osv) => default opensearchVersion osv
                       end in
      let version := match cluster with
                     | None => if decide (versionOverride = "")
                               then (if decide (versionsVersion = "unversioned") then "0.8.3-rc2" else trimmed)
                               else versionOverride
                     | Some (v, _) => default (if decide (versionOverride = "") then trimmed else versionOverride) v
                     end in
      let version := if decide (version = "unversioned") then "0.8.3-rc2" else version in
      let? requests := parse_quantities (dbd_Resources d ≫= dr_Requests) in
      let? limits := parse_quantities (dbd_Resources d ≫= dr_Limits) in
      Ok (mkDashboardsConfig (Some (dashboards_image osVersion version)) (default 1%Z (dbd_Replicas d))
            (default true (dbd_Enabled d)) (mkResources limits requests) osVersion (Some (true, true)) branding)
  end.

(** ** The retention *)

Definition is_digit (c : ascii) : bool := in_range 48 57 c.

(** The regular expression ^\d+[dMmyh], which does not say what follows. *)
Fixpoint digits_then_unit (s : string) : bool :=
  match s with
  | String c s =>
      if is_digit c then digits_then_unit s
      else existsb (fun u => bool_decide (c = u)) ["d"; "M"; "m"; "y"; "h"]%char
  | EmptyString => false
  end.

Definition validDurationString (duration : string) : bool :=
  match duration with
  | String c s => is_digit c && digits_then_unit s
  | EmptyString => false
  end.
End Admin.
