(* ===== verification/LogAdminProps.v ===== *)
(** The OpenSearch cluster an administrator asks for: how many nodes of each role the
    node pools have, and what is read back from them. *)

From S2P Require Import Prelude GoStd Util LogAdmin.
From Stdlib Require Import Ascii.

Local Open Scope string_scope.

Section Pools.
Context {Q : Type} `{QuantityLib Q}.
Variable clusterName : string.

(** The nodes with a role. *)
Definition total (role : string) (pools : list (NodePool Q)) : Z :=
  foldr (fun p n => (if contains (np_Roles p) role then np_Replicas p else 0) + n)%Z 0%Z pools.

Lemma total_app role l1 l2 : total role (l1 ++ l2) = (total role l1 + total role l2)%Z.
Proof. unfold total. induction l1 as [|p l1 IH]; cbn [app foldr]; [done|]. rewrite IH. lia. Qed.

(** The numbers of the two extra pools of [n] data nodes that are also the masters. *)
Definition split_pool (cp : bool) (n : Z) : bool := negb cp && (5 <? n)%Z.
Definition extra_pool (cp : bool) (n : Z) : bool :=
  negb cp && ((Z.rem n 2 =? 0)%Z || (n <? 3)%Z) && negb (5 <? n)%Z.

Definition data_roles (ingest cp : bool) : list string :=
  (["data"] ++ (if ingest then [] else ["ingest"]) ++ (if cp then [] else ["master"]))%list.

Definition is_some {A} (o : option A) : bool := bool_decide (is_Some o).

(** What the pools of an accepted request are. *)
Lemma generateNodePools_inv cluster pools :
  generateNodePools clusterName cluster = Ok pools ->
  exists d resources jvm second quorum ingest controlplane,
    oc2_DataNodes cluster = Some d /\
    generateK8sResources (dd_MemoryLimit d) (dd_CpuResources d) = Ok (resources, jvm) /\
    let n := default 1%Z (dd_Replicas d) in
    let cp := is_some (oc2_ControlplaneNodes cluster) in
    let initial := data_pool clusterName d resources jvm (if split_pool cp n then 5 else n)%Z
                     (data_roles (is_some (oc2_IngestNodes cluster)) cp) in
    (1 <= n)%Z /\
    opt_pool (split_pool cp n) (Ok (second_pool initial (n - 5)%Z)) = Ok second /\
    opt_pool (extra_pool cp n) (quorum_pool clusterName d (if (n <? 3)%Z then 3 - n else 1)%Z) = Ok quorum /\
    match oc2_IngestNodes cluster with
    | Some i => exists p, convertIngestDetails clusterName i = Ok p /\ ingest = [p]
    | None => ingest = [] end /\
    match oc2_ControlplaneNodes cluster with
    | Some c => exists p, convertControlplaneDetails clusterName c = Ok p /\ controlplane = [p]
    | None => controlplane = [] end /\
    pools = (initial :: second ++ quorum ++ ingest ++ controlplane)%list.
Proof.
  unfold generateNodePools. destruct (generateK8sResources _ _) as [[resources jvm]|e|p] eqn:Er; [|done|done]. cbn [obind].
  destruct (oc2_DataNodes cluster) as [d|]; [|done]. cbn in Er.
  destruct (default 1 (dd_Replicas d) <? 1)%Z eqn:Hn; [done|]. cbv zeta.
  assert (forall A (o : option A), negb (bool_decide (is_Some o)) = negb (is_some o)) as Hs by done.
  replace (["data"] ++ match oc2_IngestNodes cluster with Some _ => [] | None => ["ingest"] end ++
    (if negb (bool_decide (is_Some (oc2_ControlplaneNodes cluster))) then ["master"] else []))%list
    with (data_roles (is_some (oc2_IngestNodes cluster)) (is_some (oc2_ControlplaneNodes cluster)))
    by (unfold data_roles, is_some; by destruct (oc2_IngestNodes cluster), (oc2_ControlplaneNodes cluster)).
  rewrite Hs. fold (split_pool (is_some (oc2_ControlplaneNodes cluster)) (default 1%Z (dd_Replicas d))).
  fold (extra_pool (is_some (oc2_ControlplaneNodes cluster)) (default 1%Z (dd_Replicas d))).
  destruct (opt_pool (split_pool _ _) _) as [second|e|p] eqn:E1; [|done|done].
  cbn [obind]. destruct (opt_pool (extra_pool _ _) _) as [quorum|e|p] eqn:E2; [|done|done]. cbn [obind].
  destruct (match oc2_IngestNodes cluster with Some _ => _ | None => _ end) as [ingest|e|p] eqn:E3; [|done|done]. cbn [obind].
  destruct (match oc2_ControlplaneNodes cluster with Some _ => _ | None => _ end) as [cps|e|p] eqn:E4; [|done|done].
  intros [= <-]. exists d, resources, jvm, second, quorum, ingest, cps. split; [done|]. split; [done|].
  split; [lia|]. split; [done|]. split; [done|]. split; [|split; [|done]].
  - destruct (oc2_IngestNodes cluster) as [i|]; [|by injection E3 as <-].
    destruct (convertIngestDetails clusterName i) as [p|e|p] eqn:E; [|done|done]. exists p. by injection E3 as <-.
  - destruct (oc2_ControlplaneNodes cluster) as [c|]; [|by injection E4 as <-].
    destruct (convertControlplaneDetails clusterName c) as [p|e|p] eqn:E; [|done|done]. exists p. by injection E4 as <-.
Qed.

Lemma convertIngestDetails_inv i p :
  convertIngestDetails clusterName i = Ok p ->
  np_Roles p = ["ingest"] /\ np_Replicas p = default 1%Z (id_Replicas i) /\ np_Component p = "ingest" /\
  np_NodeSelector p = id_NodeSelector i /\ np_Tolerations p = convertTolerations (id_Tolerations i) /\
  np_Affinity p = anti_affinity clusterName (id_EnableAntiAffinity i) "ingest" /\ (1 <= np_Replicas p)%Z.
Proof.
  unfold convertIngestDetails. destruct (generateK8sResources _ _) as [[r j]|e|q]; [|done|done]. cbn [obind].
  destruct (_ <? 1)%Z eqn:Hn; [done|]. intros [= <-]. cbn. repeat (split; [done|]). lia.
Qed.

Lemma convertControlplaneDetails_inv c p :
  convertControlplaneDetails clusterName c = Ok p ->
  np_Roles p = ["master"] /\ np_Replicas p = default 3%Z (cd_Replicas c) /\ np_Component p = "controlplane" /\
  np_NodeSelector p = cd_NodeSelector c /\ np_Tolerations p = convertTolerations (cd_Tolerations c) /\
  np_Persistence p = convertPersistence (cd_Persistence c).
Proof.
  unfold convertControlplaneDetails. destruct (generateK8sResources _ _) as [[r j]|e|q]; [|done|done]. cbn [obind].
  destruct (_ <? 1)%Z; [done|]. destruct (generateK8sResources _ _) as [[r' j']|e|q]; [|done|done]. by intros [= <-].
Qed.

Lemma quorum_pool_inv d k p :
  quorum_pool clusterName d k = Ok p ->
  np_Roles p = ["master"] /\ np_Replicas p = k /\ np_Component p = "quorum".
Proof. unfold quorum_pool. destruct quorum_resources as [[r j]|e|q]; [|done|done]. by intros [= <-]. Qed.

Lemma opt_pool_Ok b (p : outcome (NodePool Q)) l :
  opt_pool b p = Ok l -> if b then exists x, p = Ok x /\ l = [x] else l = [].
Proof. unfold opt_pool. destruct b; [|by intros [= <-]]. destruct p as [x|e|q]; [|done|done]. intros [= <-]. by exists x. Qed.

(** The nodes of a role in the pools that come from the data nodes. *)
Definition data_part_total (ingest cp : bool) (n : Z) (role : string) : Z :=
  (if contains (data_roles ingest cp) role then if split_pool cp n then 5 else n else 0) +
  (if split_pool cp n then if contains (RemoveFirstOccurence (data_roles ingest cp) "master") role then n - 5 else 0 else 0) +
  (if extra_pool cp n then if contains ["master"] role then if (n <? 3)%Z then 3 - n else 1 else 0 else 0).

Lemma data_part_counts ingest cp n :
  (1 <= n)%Z ->
  data_part_total ingest cp n "data" = n /\
  data_part_total ingest cp n "ingest" = (if ingest then 0 else n)%Z /\
  (if cp then data_part_total ingest cp n "master" = 0%Z
   else Z.odd (data_part_total ingest cp n "master") = true /\ (3 <= data_part_total ingest cp n "master" <= 5)%Z).
Proof.
  intros Hn. unfold data_part_total, split_pool, extra_pool.
  assert (n = 1 \/ n = 2 \/ n = 3 \/ n = 4 \/ n = 5 \/ 5 < n)%Z as Hcase by lia.
  destruct ingest, cp; cbn -[contains]; repeat split.
  all: destruct Hcase as [->|[->|[->|[->|[->|Hc]]]]]; try (vm_compute; reflexivity || discriminate).
  all: replace (5 <? n)%Z with true by lia; cbn -[contains]; rewrite ?andb_false_r; vm_compute contains; cbn; reflexivity || lia.
Qed.

Lemma data_part_pools d resources jvm ingest cp n second quorum role :
  let initial := data_pool clusterName d resources jvm (if split_pool cp n then 5 else n)%Z (data_roles ingest cp) in
  opt_pool (split_pool cp n) (Ok (second_pool initial (n - 5)%Z)) = Ok second ->
  opt_pool (extra_pool cp n) (quorum_pool clusterName d (if (n <? 3)%Z then 3 - n else 1)%Z) = Ok quorum ->
  total role (initial :: second ++ quorum) = data_part_total ingest cp n role /\
  np_Component <$> (initial :: second ++ quorum) =
    ("data" :: (if split_pool cp n then ["datax"] else []) ++ (if extra_pool cp n then ["quorum"] else []))%list.
Proof.
  intros initial E1%opt_pool_Ok E2%opt_pool_Ok. unfold data_part_total.
  change (initial :: second ++ quorum)%list with ([initial] ++ second ++ quorum)%list.
  rewrite !total_app, !fmap_app.
  assert (total role second = (if split_pool cp n then if contains (RemoveFirstOccurence (data_roles ingest cp) "master") role then n - 5 else 0 else 0)%Z
    /\ np_Component <$> second = if split_pool cp n then ["datax"] else []) as [-> ->].
  { destruct (split_pool cp n); [|by subst]. destruct E1 as (x & [= <-] & ->). cbn. split; [|done].
    destruct (contains _ _); lia. }
  assert (total role quorum = (if extra_pool cp n then if contains ["master"] role then if (n <? 3)%Z then 3 - n else 1 else 0 else 0)%Z
    /\ np_Component <$> quorum = if extra_pool cp n then ["quorum"] else []) as [-> ->].
  { destruct (extra_pool cp n); [|by subst]. destruct E2 as (x & (Hr & Hrep & Hc)%quorum_pool_inv & ->). cbn.
    rewrite Hr, Hrep, Hc. split; [|done]. destruct (contains _ _); lia. }
  split; [|done]. cbn -[contains]. destruct (contains _ _); lia.
Qed.

Lemma ingest_part (io : option IngestDetails) ingest :
  match io with
  | Some i => exists p, convertIngestDetails clusterName i = Ok p /\ ingest = [p]
  | None => ingest = [] end ->
  forall role,
    total role ingest = (if contains ["ingest"] role then match io with None => 0 | Some i => default 1%Z (id_Replicas i) end else 0)%Z /\
    np_Component <$> ingest = match io with None => [] | Some _ => ["ingest"] end.
Proof.
  intros E role. destruct io as [i|].
  - destruct E as (p & (Hr & Hrep & Hc & _)%convertIngestDetails_inv & ->).
    unfold total. cbn. rewrite Hr, Hrep, Hc. split; [|done]. destruct (contains ["ingest"] role); lia.
  - rewrite E. cbn. by destruct (contains _ _).
Qed.

Lemma controlplane_part (co : option ControlplaneDetails) cps :
  match co with
  | Some c => exists p, convertControlplaneDetails clusterName c = Ok p /\ cps = [p]
  | None => cps = [] end ->
  forall role,
    total role cps = (if contains ["master"] role then match co with None => 0 | Some c => default 3%Z (cd_Replicas c) end else 0)%Z /\
    np_Component <$> cps = match co with None => [] | Some _ => ["controlplane"] end.
Proof.
  intros E role. destruct co as [c|].
  - destruct E as (p & (Hr & Hrep & Hc & _)%convertControlplaneDetails_inv & ->).
    unfold total. cbn. rewrite Hr, Hrep, Hc. split; [|done]. destruct (contains ["master"] role); lia.
  - rewrite E. cbn. by destruct (contains _ _).
Qed.

(** C22: of an accepted request for n data nodes the node pools have n nodes that hold
    data; without a control plane of its own the cluster has an odd number of nodes that
    may be elected master, three or five, whatever n is, and with one it has as many as
    the control plane; ingestion is done by the ingest nodes asked for, or else by the
    data nodes; and no two pools have the same name. *)
Theorem node_pools_quorum cluster pools d :
  generateNodePools clusterName cluster = Ok pools -> oc2_DataNodes cluster = Some d ->
  let n := default 1%Z (dd_Replicas d) in
  (1 <= n)%Z /\ total "data" pools = n /\
  match oc2_ControlplaneNodes cluster with
  | None => Z.odd (total "master" pools) = true /\ (3 <= total "master" pools <= 5)%Z
  | Some c => total "master" pools = default 3%Z (cd_Replicas c)
  end /\
  total "ingest" pools = match oc2_IngestNodes cluster with
                         | None => n | Some i => default 1%Z (id_Replicas i) end /\
  NoDup (np_Component <$> pools).
Proof.
  intros Hp Hd. destruct (generateNodePools_inv _ _ Hp) as (d' & resources & jvm & second & quorum & ingest & cps & Hd' & _ & Hrest).
  rewrite Hd in Hd'. injection Hd' as <-. cbv zeta in *. set (n := default 1%Z (dd_Replicas d)) in *.
  destruct Hrest as (Hn & E1 & E2 & E3 & E4 & ->). split; [done|].
  pose proof (ingest_part _ _ E3) as Hi. pose proof (controlplane_part _ _ E4) as Hc.
  destruct (data_part_pools d resources jvm _ _ n second quorum "data" E1 E2) as [Td Cd].
  destruct (data_part_pools d resources jvm _ _ n second quorum "ingest" E1 E2) as [Ti _].
  destruct (data_part_pools d resources jvm _ _ n second quorum "master" E1 E2) as [Tm _].
  destruct (data_part_counts (is_some (oc2_IngestNodes cluster)) (is_some (oc2_ControlplaneNodes cluster)) n Hn) as (Nd & Ni & Nm).
  match goal with |- context [total "data" (?x :: second ++ quorum ++ ingest ++ cps)%list] =>
    replace (x :: second ++ quorum ++ ingest ++ cps)%list with ((x :: second ++ quorum) ++ ingest ++ cps)%list
      by (cbn; by rewrite <- app_assoc) end.
  rewrite !total_app, Td, Ti, Tm, !(proj1 (Hi _)), !(proj1 (Hc _)), !fmap_app, Cd, (proj2 (Hi "")), (proj2 (Hc "")), Nd, Ni.
  change (contains ["ingest"] "data") with false. change (contains ["ingest"] "ingest") with true.
  change (contains ["ingest"] "master") with false. change (contains ["master"] "data") with false.
  change (contains ["master"] "ingest") with false. change (contains ["master"] "master") with true.
  unfold is_some in *. destruct (oc2_IngestNodes cluster) as [i|], (oc2_ControlplaneNodes cluster) as [c|]; cbn -[contains total] in *.
  all: rewrite ?Nm; cbn.
  all: split; [lia|]; split; [try lia; rewrite ?Z.add_0_r; tauto|]; split; [lia|].
  all: repeat match goal with |- context [if ?b then _ else _] => destruct b end; cbn; repeat (constructor; [set_solver|]); constructor.
Qed.

(** ** Reading the cluster back *)

Definition int32_max : Z := 2147483647.

Lemma add32_small a b : (0 <= a)%Z -> (0 <= b)%Z -> (a + b <= int32_max)%Z -> add32 a b = (a + b)%Z.
Proof. unfold add32, int32_max. intros. rewrite Z.mod_small by lia. lia. Qed.

(** The persistence that is reported for what was asked. *)
Definition reported_persistence (p : option DataPersistence) : DataPersistence :=
  match p with
  | None => mkDataPersistence (Some true) None
  | Some p =>
      if default true (dp_Enabled p)
      then mkDataPersistence (Some true) (match dp_StorageClass p with Some "" => None | o => o end)
      else mkDataPersistence (Some false) None
  end.

Lemma generatePersistence_convert (pool : NodePool Q) p :
  np_Persistence pool = convertPersistence p -> generatePersistence pool = Ok (reported_persistence p).
Proof.
  unfold generatePersistence, convertPersistence, reported_persistence. intros ->.
  destruct p as [[en [sc|]]|]; cbn; [| |done]; destruct (default true en); cbn; try done.
  case_decide as Hs; [by subst|]. by destruct sc.
Qed.

Lemma antiAffinity_convert (pool : NodePool Q) enabled role :
  np_Affinity pool = anti_affinity clusterName enabled role -> antiAffinityEnabled pool = Some (default false enabled).
Proof. unfold antiAffinityEnabled, anti_affinity. intros ->. by destruct (default false enabled). Qed.

Lemma generateK8sResources_memory mem cpu resources jvm :
  generateK8sResources mem cpu = Ok (resources, jvm) ->
  exists q, ParseQuantity mem = Ok q /\ quantity (rr_Limits resources) "memory" = q /\
            quantity (rr_Requests resources) "memory" = q.
Proof.
  unfold generateK8sResources. case_decide; [done|]. destruct (ParseQuantity mem) as [q|e|p] eqn:Em; [|done|done]. cbn [obind].
  intros Hr. exists q. split; [done|]. unfold quantity. destruct cpu as [[r l]|]; cbn in Hr.
  - destruct (if decide (r = "") then _ else _) as [rq|e|p]; [|done|done]. cbn in Hr.
    destruct (if decide (l = "") then _ else _) as [lq|e|p]; [|done|done]. cbn in Hr.
    destruct rq as [rq|], lq as [lq|]; cbn in Hr; [destruct (q_Cmp rq lq); [| |done]|..]; injection Hr as <- _; cbn;
      by rewrite ?(lookup_insert_ne _ "cpu" "memory") by done; rewrite lookup_singleton_eq.
  - injection Hr as <- _. cbn. by rewrite lookup_singleton_eq.
Qed.

(** The processors that are reported: a request or a limit that is missing is zero, and
    nothing is reported when both are. *)
Definition asked (text : string) : Q :=
  if decide (text = "") then q_zero else match ParseQuantity text with Ok q => q | _ => q_zero end.
Definition reported_cpu (cpu : option CPUResource) : option CPUResource :=
  let request := default q_zero ((fun c => asked (cpu_Request c)) <$> cpu) in
  let limit := default q_zero ((fun c => asked (cpu_Limit c)) <$> cpu) in
  if q_IsZero request && q_IsZero limit then None else Some (mkCPUResource (q_String request) (q_String limit)).

Lemma generateK8sResources_cpu mem cpu resources jvm (p : NodePool Q) :
  generateK8sResources mem cpu = Ok (resources, jvm) -> np_Resources p = resources -> generateCPU p = reported_cpu cpu.
Proof.
  intros Hr Hp. unfold generateCPU. rewrite Hp. clear p Hp.
  assert (quantity (rr_Requests resources) "cpu" = default q_zero ((fun c => asked (cpu_Request c)) <$> cpu) /\
          quantity (rr_Limits resources) "cpu" = default q_zero ((fun c => asked (cpu_Limit c)) <$> cpu)) as [-> ->]; [|done].
  revert Hr. unfold generateK8sResources, quantity. case_decide; [done|]. destruct (ParseQuantity mem) as [q|e|p]; [|done|done]. cbn [obind].
  destruct cpu as [[r l]|]; cbn [cpu_Request cpu_Limit fmap option_fmap option_map default].
  2: { intros [= <- _]. cbn. by rewrite lookup_singleton_ne. }
  unfold asked. destruct (decide (r = "")) as [Hr|Hr], (decide (l = "")) as [Hl|Hl]; cbn [obind];
    try (destruct (ParseQuantity r) as [rq|e|p]; [|done|done]); cbn [obind];
    try (destruct (ParseQuantity l) as [lq|e|p]; [|done|done]); cbn [obind];
    try (destruct (q_Cmp rq lq); [| |done]); intros [= <- _]; cbn;
    by rewrite ?lookup_insert_eq, ?lookup_singleton_ne by done.
Qed.

(** The tolerations that are reported: as many as there are, each of them the last. *)
Definition last_repeated (ts : list Toleration) : list (option Toleration) := replicate (length ts) (list.last ts).

Lemma toleration_pointers_last ts : toleration_pointers ts = last_repeated ts.
Proof.
  unfold toleration_pointers, last_repeated. generalize (list.last ts) as x. intros x.
  induction ts as [|t ts IH]; [done|]. cbn. by f_equal.
Qed.

Abbreviation holds_data := (fun p : NodePool Q => contains (np_Roles p) "data" = true).

Lemma data_roles_contain ingest cp :
  contains (data_roles ingest cp) "data" = true /\
  contains (RemoveFirstOccurence (data_roles ingest cp) "master") "data" = true /\
  contains (data_roles ingest cp) "ingest" = negb ingest /\
  contains (RemoveFirstOccurence (data_roles ingest cp) "master") "ingest" = negb ingest /\
  contains (data_roles ingest cp) "master" = negb cp.
Proof. by destruct ingest, cp. Qed.

(** The pools of an accepted request, by what is read of them. *)
Record pool_shape (cluster : OpensearchClusterV2) (d : DataDetails) (resources : ResourceRequirements Q)
    (initial : NodePool Q) (second quorum ingest cps : list (NodePool Q)) : Prop := {
  ps_initial : exists jvm roles k, initial = data_pool clusterName d resources jvm k roles /\
    contains roles "data" = true /\ contains roles "ingest" = negb (is_some (oc2_IngestNodes cluster)) /\
    contains roles "master" = negb (is_some (oc2_ControlplaneNodes cluster)) /\
    ((k = default 1%Z (dd_Replicas d) /\ second = []) \/
     (k = 5%Z /\ (5 < default 1 (dd_Replicas d))%Z /\ oc2_ControlplaneNodes cluster = None /\
      exists roles2, second = [second_pool (data_pool clusterName d resources jvm k roles) (default 1 (dd_Replicas d) - 5)%Z] /\
        np_Roles (second_pool (data_pool clusterName d resources jvm k roles) (default 1 (dd_Replicas d) - 5)%Z) = roles2 /\
        contains roles2 "data" = true /\ contains roles2 "ingest" = negb (is_some (oc2_IngestNodes cluster))));
  ps_quorum : Forall (fun p => np_Roles p = ["master"]) quorum /\
              (oc2_ControlplaneNodes cluster <> None -> quorum = []);
  ps_ingest : match oc2_IngestNodes cluster with
    | Some i => exists p, convertIngestDetails clusterName i = Ok p /\ ingest = [p]
    | None => ingest = [] end;
  ps_cps : match oc2_ControlplaneNodes cluster with
    | Some c => exists p, convertControlplaneDetails clusterName c = Ok p /\ cps = [p]
    | None => cps = [] end }.

Lemma generateNodePools_shape cluster pools :
  generateNodePools clusterName cluster = Ok pools ->
  exists d resources jvm initial second quorum ingest cps,
    oc2_DataNodes cluster = Some d /\ (1 <= default 1 (dd_Replicas d))%Z /\
    generateK8sResources (dd_MemoryLimit d) (dd_CpuResources d) = Ok (resources, jvm) /\
    pools = (initial :: second ++ quorum ++ ingest ++ cps)%list /\
    pool_shape cluster d resources initial second quorum ingest cps.
Proof.
  intros (d & resources & jvm & second & quorum & ingest & cps & Hd & Hr & Hn & E1%opt_pool_Ok & E2%opt_pool_Ok & E3 & E4 & ->)%generateNodePools_inv.
  set (n := default 1%Z (dd_Replicas d)) in *.
  set (ci := is_some (oc2_IngestNodes cluster)) in *. set (cc := is_some (oc2_ControlplaneNodes cluster)) in *.
  destruct (data_roles_contain ci cc) as (R1 & R2 & R3 & R4 & R5).
  exists d, resources, jvm. eexists. exists second, quorum, ingest, cps.
  split; [done|]. split; [done|]. split; [done|]. split; [done|]. split; [| |done|done].
  - eexists jvm, _, _. split; [done|]. split; [done|]. split; [done|]. split; [done|].
    destruct (split_pool cc n) eqn:Hs.
    + right. split; [done|]. unfold split_pool in Hs. apply andb_true_iff in Hs as [Hcc Hs].
      split; [lia|]. split.
      { unfold cc, is_some in Hcc. by destruct (oc2_ControlplaneNodes cluster). }
      destruct E1 as (x & [= <-] & ->). eexists. split; [done|]. split; [reflexivity|]. done.
    + left. done.
  - split.
    + destruct (extra_pool cc n); [|by subst]. destruct E2 as (x & (Hx & _)%quorum_pool_inv & ->). by constructor.
    + intros Hne. unfold extra_pool in E2. assert (cc = true) as -> by (unfold cc, is_some; by destruct (oc2_ControlplaneNodes cluster)).
      done.
Qed.

Lemma filter_none (P : NodePool Q -> Prop) `{forall p, Decision (P p)} l : Forall (fun p => ~ P p) l -> filter P l = [].
Proof. induction 1 as [|p l Hp _ IH]; [done|]. by rewrite filter_cons_False. Qed.

(** The data nodes are counted in the pools that hold data, and described by the last
    of them. *)
Lemma read_data cluster d resources initial second quorum ingest cps :
  pool_shape cluster d resources initial second quorum ingest cps ->
  (1 <= default 1 (dd_Replicas d) <= int32_max)%Z ->
  let data := filter holds_data (initial :: second ++ quorum ++ ingest ++ cps)%list in
  fold_left (fun r p => add32 r (np_Replicas p)) data 0%Z = default 1%Z (dd_Replicas d) /\
  exists ref, list.last data = Some ref /\ np_DiskSize ref = dd_DiskSize d /\ np_Resources ref = resources /\
    np_NodeSelector ref = dd_NodeSelector d /\ np_Tolerations ref = convertTolerations (dd_Tolerations d) /\
    np_Affinity ref = anti_affinity clusterName (dd_EnableAntiAffinity d) "data" /\
    np_Persistence ref = convertPersistence (dd_Persistence d).
Proof.
  intros [(jvm & roles & k & -> & Hd & _ & _ & Hk) [Hq _] Hi Hc] Hn data.
  assert (filter holds_data (quorum ++ ingest ++ cps)%list = []) as Hrest.
  { apply filter_none. rewrite !Forall_app. split; [|split].
    - eapply list.Forall_impl; [exact Hq|]. intros p Hp. cbn beta in *. by rewrite Hp.
    - destruct (oc2_IngestNodes cluster) as [i|]; [|by subst].
      destruct Hi as (p & (Hr & _)%convertIngestDetails_inv & ->). constructor; [by rewrite Hr|done].
    - destruct (oc2_ControlplaneNodes cluster) as [c|]; [|by subst].
      destruct Hc as (p & (Hr & _)%convertControlplaneDetails_inv & ->). constructor; [by rewrite Hr|done]. }
  destruct Hk as [[-> ->]|(-> & H5 & _ & roles2 & -> & Hr2 & Hd2 & _)]; subst data.
  - cbn [app]. rewrite filter_cons_True by done. rewrite Hrest. cbn. split; [rewrite add32_small; lia|].
    eexists. split; [done|]. done.
  - cbn [app]. rewrite filter_cons_True by done. rewrite filter_cons_True by (by rewrite Hr2). rewrite Hrest.
    cbn -[second_pool]. split; [cbn; rewrite (add32_small 0 5), add32_small by (unfold int32_max in *; lia); lia|].
    eexists. split; [done|]. done.
Qed.

Lemma ingest_loop_skip (l1 l2 : list (NodePool Q)) (k : Z) ref :
  Forall (fun p => contains (np_Roles p) "ingest" = false) l1 -> ingest_loop (l1 ++ l2) k ref = ingest_loop l2 k ref.
Proof. induction 1 as [|p l1 Hp _ IH]; cbn; [done|]. by rewrite Hp. Qed.

Lemma controlplane_loop_skip (l1 l2 : list (NodePool Q)) ref :
  Forall (fun p => contains (np_Roles p) "master" = false) l1 -> controlplane_loop (l1 ++ l2) ref = controlplane_loop l2 ref.
Proof. induction 1 as [|p l1 Hp _ IH]; cbn; [done|]. by rewrite Hp. Qed.

Lemma convertIngestDetails_memory i p :
  convertIngestDetails clusterName i = Ok p ->
  exists q, ParseQuantity (id_MemoryLimit i) = Ok q /\ quantity (rr_Limits (np_Resources p)) "memory" = q /\
    generateCPU p = reported_cpu (id_CpuResources i).
Proof.
  unfold convertIngestDetails. destruct (generateK8sResources _ _) as [[r j]|e|q] eqn:E; [|done|done]. cbn [obind].
  destruct (_ <? 1)%Z; [done|]. intros [= <-]. destruct (generateK8sResources_memory _ _ _ _ E) as (q & Hq & Hl & _).
  exists q. split_and!; [done..|]. by eapply generateK8sResources_cpu.
Qed.

(** Ingest nodes are reported when they were asked for, with what was asked. *)
Lemma read_ingest cluster d resources initial second quorum ingest cps :
  pool_shape cluster d resources initial second quorum ingest cps ->
  match oc2_IngestNodes cluster with
  | None => generateIngestDetails (initial :: second ++ quorum ++ ingest ++ cps) = None
  | Some i => (default 1 (id_Replicas i) <= int32_max)%Z ->
      exists r q, generateIngestDetails (initial :: second ++ quorum ++ ingest ++ cps) = Some r /\
        ParseQuantity (id_MemoryLimit i) = Ok q /\ id_MemoryLimit r = q_String q /\
        id_Replicas r = Some (default 1%Z (id_Replicas i)) /\ id_NodeSelector r = id_NodeSelector i /\
        id_EnableAntiAffinity r = Some (default false (id_EnableAntiAffinity i)) /\
        id_Tolerations r = last_repeated (convertTolerations (id_Tolerations i)) /\
        id_CpuResources r = reported_cpu (id_CpuResources i)
  end.
Proof.
  intros [(jvm & roles & k & -> & Hd & Hri & _ & Hk) [Hq _] Hi Hc]. unfold generateIngestDetails.
  destruct (oc2_IngestNodes cluster) as [i|] eqn:Ei.
  - intros Hn. destruct Hi as (p & Hp & ->). pose proof (convertIngestDetails_inv _ _ Hp) as (Hr & Hrep & _ & Hs & Ht & Ha & H1).
    destruct (convertIngestDetails_memory _ _ Hp) as (q & Hm & Hl & Hcpu).
    match goal with |- context [ingest_loop (?x :: second ++ quorum ++ [p] ++ cps)%list] =>
      replace (x :: second ++ quorum ++ [p] ++ cps)%list with ((x :: second ++ quorum) ++ p :: cps)%list
        by (cbn; by rewrite <- app_assoc) end.
    rewrite ingest_loop_skip.
    2: { constructor; [done|]. rewrite Forall_app. split.
         - destruct Hk as [[-> ->]|(-> & _ & _ & roles2 & -> & Hr2 & _ & Hi2)]; [done|]. constructor; [|done]. rewrite Hr2. exact Hi2.
         - eapply list.Forall_impl; [exact Hq|]. intros x Hx. cbn beta in *. by rewrite Hx. }
    cbn [ingest_loop]. rewrite Hr. change (contains ["ingest"] "ingest") with true. change (contains ["ingest"] "data") with false.
    cbn match. rewrite <- (app_nil_r cps), ingest_loop_skip.
    2: { destruct (oc2_ControlplaneNodes cluster) as [c|]; [|by subst].
         destruct Hc as (x & (Hx & _)%convertControlplaneDetails_inv & ->). constructor; [by rewrite Hx|done]. }
    cbn [ingest_loop]. eexists _, q. split; [done|]. cbn. rewrite Hl, Hrep, Hs, Ht.
    rewrite add32_small by (rewrite <- ?Hrep; lia).
    repeat (split; [done || by apply antiAffinity_convert with (role := "ingest")|]). by rewrite toleration_pointers_last.
  - cbn [ingest_loop data_pool np_Roles]. change (negb (is_some (@None IngestDetails))) with true in Hri. by rewrite Hri, Hd.
Qed.

(** So are control plane nodes. *)
Lemma read_controlplane cluster d resources initial second quorum ingest cps :
  pool_shape cluster d resources initial second quorum ingest cps ->
  match oc2_ControlplaneNodes cluster with
  | None => generateControlplaneDetails (initial :: second ++ quorum ++ ingest ++ cps) = Ok None
  | Some c =>
      exists r, generateControlplaneDetails (initial :: second ++ quorum ++ ingest ++ cps) = Ok (Some r) /\
        cd_Replicas r = Some (default 3%Z (cd_Replicas c)) /\ cd_NodeSelector r = cd_NodeSelector c /\
        cd_Persistence r = Some (reported_persistence (cd_Persistence c)) /\
        cd_Tolerations r = last_repeated (convertTolerations (cd_Tolerations c))
  end.
Proof.
  intros [(jvm & roles & k & -> & Hd & _ & Hrm & Hk) [_ Hq] Hi Hc]. unfold generateControlplaneDetails.
  destruct (oc2_ControlplaneNodes cluster) as [c|] eqn:Ec.
  - rewrite (Hq ltac:(done)). destruct Hc as (p & Hp & ->).
    pose proof (convertControlplaneDetails_inv _ _ Hp) as (Hr & Hrep & _ & Hs & Ht & Hpe).
    destruct Hk as [[-> ->]|(_ & _ & ? & _)]; [|done].
    match goal with |- context [controlplane_loop (?x :: [] ++ [] ++ ingest ++ [p])%list] =>
      change (x :: [] ++ [] ++ ingest ++ [p])%list with ((x :: ingest) ++ [p])%list end.
    rewrite controlplane_loop_skip.
    2: { constructor; [done|]. destruct (oc2_IngestNodes cluster) as [i|]; [|by subst].
         destruct Hi as (x & (Hx & _)%convertIngestDetails_inv & ->). constructor; [by rewrite Hx|done]. }
    cbn [controlplane_loop]. rewrite Hr. change (contains ["master"] "master") with true. change (contains ["master"] "data") with false.
    cbn match. rewrite (generatePersistence_convert p (cd_Persistence c) Hpe). cbn [obind]. eexists. split; [done|]. cbn.
    rewrite Hrep, Hs, Ht. repeat (split; [done|]). apply toleration_pointers_last.
  - cbn [controlplane_loop data_pool np_Roles]. change (negb (is_some (@None ControlplaneDetails))) with true in Hrm. by rewrite Hrm, Hd.
Qed.

(** Describing the cluster from its node pools gives back what the administrator
    asked for: the number of data nodes, also when they were split in two pools or
    completed by quorum nodes, with their disk, node selector, anti-affinity, persistence
    and memory as the quantity prints; the ingest and the control plane nodes when they
    were asked for, and none when they were not. *)
Lemma cluster_description_round_trip cluster pools d :
  generateNodePools clusterName cluster = Ok pools -> oc2_DataNodes cluster = Some d ->
  (default 1 (dd_Replicas d) <= int32_max)%Z ->
  (forall i, oc2_IngestNodes cluster = Some i -> default 1 (id_Replicas i) <= int32_max)%Z ->
  (exists r q, generateDataDetails pools = Ok r /\
     ParseQuantity (dd_MemoryLimit d) = Ok q /\ dd_MemoryLimit r = q_String q /\
     dd_Replicas r = Some (default 1%Z (dd_Replicas d)) /\ dd_DiskSize r = dd_DiskSize d /\
     dd_NodeSelector r = dd_NodeSelector d /\
     dd_EnableAntiAffinity r = Some (default false (dd_EnableAntiAffinity d)) /\
     dd_Persistence r = Some (reported_persistence (dd_Persistence d)) /\
     dd_Tolerations r = last_repeated (convertTolerations (dd_Tolerations d)) /\
     dd_CpuResources r = reported_cpu (dd_CpuResources d)) /\
  match oc2_IngestNodes cluster with
  | None => generateIngestDetails pools = None
  | Some i => exists r q, generateIngestDetails pools = Some r /\
      ParseQuantity (id_MemoryLimit i) = Ok q /\ id_MemoryLimit r = q_String q /\
      id_Replicas r = Some (default 1%Z (id_Replicas i)) /\ id_NodeSelector r = id_NodeSelector i /\
      id_EnableAntiAffinity r = Some (default false (id_EnableAntiAffinity i)) /\
      id_Tolerations r = last_repeated (convertTolerations (id_Tolerations i)) /\
      id_CpuResources r = reported_cpu (id_CpuResources i)
  end /\
  match oc2_ControlplaneNodes cluster with
  | None => generateControlplaneDetails pools = Ok None
  | Some c => exists r, generateControlplaneDetails pools = Ok (Some r) /\
      cd_Replicas r = Some (default 3%Z (cd_Replicas c)) /\ cd_NodeSelector r = cd_NodeSelector c /\
      cd_Persistence r = Some (reported_persistence (cd_Persistence c)) /\
      cd_Tolerations r = last_repeated (convertTolerations (cd_Tolerations c))
  end.
Proof.
  intros Hp Hd Hmax Hmaxi.
  destruct (generateNodePools_shape _ _ Hp) as (d' & resources & jvm & initial & second & quorum & ingest & cps & Hd' & Hn & Hr & -> & Hs).
  rewrite Hd in Hd'. injection Hd' as <-. split; [|split].
  - destruct (read_data _ _ _ _ _ _ _ _ Hs) as (Hc & ref & Hl & H1 & H2 & H3 & H4 & H5 & H6); [lia|].
    destruct (generateK8sResources_memory _ _ _ _ Hr) as (q & Hq & Hlim & _).
    unfold generateDataDetails. rewrite Hl, Hc. change (default empty_pool (Some ref)) with ref. rewrite (generatePersistence_convert ref _ H6). cbn [obind].
    eexists _, q. split; [done|]. cbn. rewrite H1, H2, H3, Hlim. repeat (split; [done || by apply antiAffinity_convert with (role := "data")|]).
    split; [by rewrite H4, toleration_pointers_last|]. by eapply generateK8sResources_cpu.
  - pose proof (read_ingest _ _ _ _ _ _ _ _ Hs) as Hi. destruct (oc2_IngestNodes cluster) as [i|]; [|done].
    destruct (Hi (Hmaxi i eq_refl)) as (r & q & Hx). by exists r, q.
  - pose proof (read_controlplane _ _ _ _ _ _ _ _ Hs) as Hc. destruct (oc2_ControlplaneNodes cluster) as [c|]; [|done].
    done.
Qed.
End Pools.
