(* ===== verification/OsReconciler.v ===== *)
(** pkg/opensearch/reconciler: the objects of an OpenSearch server (roles, users, role
    mappings, policies, pipelines, templates, indices and dashboards) brought to what is
    wanted, one request at a time.  The clients of pkg/opensearch/opensearch are a class;
    a response carries its body as the decoder reads it. *)

From S2P Require Import Prelude GoStd Util.

Local Open Scope string_scope.

(** ** Types (pkg/opensearch/opensearch/types) *)

Record IndexPermissionSpec := mkIndexPermissionSpec {
  ips_IndexPatterns : list string; ips_DocumentLevelSecurity : string;
  ips_FieldLevelSecurity : list string; ips_AllowedActions : list string }.
Record TenantPermissionsSpec := mkTenantPermissionsSpec {
  tps_TenantPatterns : list string; tps_AllowedActions : list string }.
Record RoleSpec := mkRoleSpec {
  rsp_RoleName : string; rsp_ClusterPermissions : list string;
  rsp_IndexPermissions : list IndexPermissionSpec; rsp_TenantPermissions : list TenantPermissionsSpec }.

Record UserSpec := mkUserSpec {
  usp_UserName : string; usp_Password : string; usp_Hash : string; usp_SecurityRoles : list string;
  usp_BackendRoles : list string; usp_Attributes : gmap string string }.

Record RoleMappingSpec := mkRoleMappingSpec {
  rms_BackendRoles : list string; rms_Hosts : list string; rms_Users : list string }.
Definition empty_mapping : RoleMappingSpec := mkRoleMappingSpec [] [] [].
Definition with_users (users : list string) (m : RoleMappingSpec) : RoleMappingSpec :=
  mkRoleMappingSpec (rms_BackendRoles m) (rms_Hosts m) users.

(** The settings and mappings of a template, and the states of a policy, are compared as
    a whole. *)
Record IndexTemplateSpec (T : Type) := mkIndexTemplateSpec {
  its_TemplateName : string; its_IndexPatterns : list string; its_Template : T; its_Priority : Z }.
Arguments mkIndexTemplateSpec {_} _ _ _ _.
Arguments its_TemplateName {_} _.
Arguments its_IndexPatterns {_} _.
Arguments its_Template {_} _.
Arguments its_Priority {_} _.

(** The embedded pointer to the id, with the flag that it is marshalled. *)
Record ISMPolicySpec (P : Type) := mkISMPolicySpec { isp_ID : option (string * bool); isp_Policy : P }.
Arguments mkISMPolicySpec {_} _ _.
Arguments isp_ID {_} _.
Arguments isp_Policy {_} _.
Record ISMGetResponse (P : Type) := mkISMGetResponse { igr_SeqNo : Z; igr_PrimaryTerm : Z; igr_Policy : ISMPolicySpec P }.
Arguments mkISMGetResponse {_} _ _ _.
Arguments igr_SeqNo {_} _.
Arguments igr_PrimaryTerm {_} _.
Arguments igr_Policy {_} _.

Record Processor := mkProcessor { prc_OpniLogging : bool; prc_OpniPre : bool }.
Record IngestPipeline := mkIngestPipeline { ipl_Description : string; ipl_Processors : list Processor }.

Inductive AliasAction :=
| AliasAdd (index alias : string) (isWriteIndex : bool)
| AliasRemove (index alias : string)
| AliasRemoveIndex (index : string).

#[export] Instance AliasAction_eq_dec : EqDecision AliasAction.
Proof. solve_decision. Defined.
#[export] Instance Processor_eq_dec : EqDecision Processor.
Proof. solve_decision. Defined.
#[export] Instance IngestPipeline_eq_dec : EqDecision IngestPipeline.
Proof. solve_decision. Defined.
#[export] Instance IndexTemplateSpec_eq_dec {T} `{!EqDecision T} : EqDecision (IndexTemplateSpec T).
Proof. solve_decision. Defined.
#[export] Instance ISMPolicySpec_eq_dec {P} `{!EqDecision P} : EqDecision (ISMPolicySpec P).
Proof. solve_decision. Defined.

(** ** Responses and clients *)

Record ApiResponse (A : Type) := mkApiResponse { ap_StatusCode : Z; ap_String : string; ap_Body : outcome A }.
Arguments mkApiResponse {_} _ _ _.
Arguments ap_StatusCode {_} _.
Arguments ap_String {_} _.
Arguments ap_Body {_} _.
Definition ap_IsError {A} (r : ApiResponse A) : bool := (299 <? ap_StatusCode r)%Z.

Class OsAdmin (W T P S : Type) := {
  (** the names of the indices a pattern selects *)
  CatIndices : list string -> M W (ApiResponse (list string));
  GetIndexTemplates : list string -> M W (ApiResponse (list (string * IndexTemplateSpec T)));
  PutIndexTemplate : string -> IndexTemplateSpec T -> M W (ApiResponse unit);
  DeleteIndexTemplate : string -> M W (ApiResponse unit);
  CreateIndex : string -> option S -> M W (ApiResponse unit);
  UpdateAlias : list AliasAction -> M W (ApiResponse unit);
  SynchronousReindex : list string -> string -> M W (ApiResponse unit);
  DeleteIndices : list string -> M W (ApiResponse unit);
  (** the version a document of the dashboards records *)
  GetDocument : string -> string -> M W (ApiResponse string);
  UpdateDocument : string -> string -> string -> M W (ApiResponse unit);
  UpdateIndicesSettings : list string -> string -> M W (ApiResponse unit);
  GetISM : string -> M W (ApiResponse (ISMGetResponse P));
  CreateISM : string -> ISMPolicySpec P -> M W (ApiResponse unit);
  UpdateISM : string -> ISMPolicySpec P -> Z -> Z -> M W (ApiResponse unit);
  GetRole : string -> M W (ApiResponse unit);
  CreateRole : string -> RoleSpec -> M W (ApiResponse unit);
  DeleteRole : string -> M W (ApiResponse unit);
  GetUser : string -> M W (ApiResponse unit);
  CreateUser : string -> UserSpec -> M W (ApiResponse unit);
  DeleteUser : string -> M W (ApiResponse unit);
  GetRolesMapping : string -> M W (ApiResponse (gmap string RoleMappingSpec));
  CreateRolesMapping : string -> RoleMappingSpec -> M W (ApiResponse unit);
  DeleteRolesMapping : string -> M W (ApiResponse unit);
  GetIngestPipeline : string -> M W (ApiResponse IngestPipeline);
  PutIngestTemplate : string -> IngestPipeline -> M W (ApiResponse unit);
  DeleteIngestPipeline : string -> M W (ApiResponse unit);
  ImportObjects : string -> M W (ApiResponse unit);
  (** golang.org/x/mod/semver *)
  semver_Compare : string -> string -> Z }.

Section Reconciler.
Context {W T P S : Type} `{!OsAdmin W T P S} `{!EqDecision T} `{!EqDecision P}.

(** A write whose response must not be an error. *)
Definition request (text : string) (op : M W (ApiResponse unit)) : M W unit :=
  let! resp := op in
  if ap_IsError resp then wfail (ErrorString (text +:+ ap_String resp)) else wret tt.

(** Whether the object a read asks for is there. *)
Definition present {A} (text : string) (op : M W (ApiResponse A)) : M W bool :=
  let! resp := op in
  if (ap_StatusCode resp =? 404)%Z then wret false
  else if ap_IsError resp then wfail (ErrorString (text +:+ ap_String resp)) else wret true.

(** ** Indices *)

Definition indexExists (name : string) : M W bool :=
  present ("failed to cat index " +:+ name +:+ ": ") (CatIndices [name]).

Definition prefixIndicesAbsent (prefix : string) : M W bool :=
  let! resp := CatIndices [prefix +:+ "*"] in
  if ap_IsError resp then wfail (ErrorString ("checking indices failed: " +:+ ap_String resp))
  else let! indices := wlift (ap_Body resp) in wret (length indices =? 0)%nat.

(** gjson finds nothing in a body that does not parse. *)
Definition oldIndicesExist (oldPrefixes : list string) : M W bool :=
  let! resp := CatIndices oldPrefixes in
  if ap_IsError resp then wfail (ErrorString ("failed to cat indices " +:+ ap_String resp))
  else wret (0 <? length (match ap_Body resp with Ok l => l | _ => [] end))%nat.

Definition MaybeCreateIndex (name : string) (settings : S) : M W unit :=
  let! exists_ := indexExists name in
  if exists_ : bool then wret tt
  else request ("failed to create index " +:+ name +:+ ": ") (CreateIndex name (Some settings)).

(** *** Bootstrapping an index *)

Definition first_index (prefix : string) : string := prefix +:+ "-000001".

(** The old prefixes that still have indices are taken off the alias; an error counts
    as none. *)
Fixpoint remove_actions (alias : string) (oldPrefixes : list string) : M W (list AliasAction) :=
  match oldPrefixes with
  | [] => wret []
  | prefix :: oldPrefixes =>
      let! exists_ := wcatch (oldIndicesExist [prefix]) (fun _ => wret false) in
      let! actions := remove_actions alias oldPrefixes in
      wret (if exists_ : bool then AliasRemove prefix alias :: actions else actions)
  end.

Definition bootstrap_alias (prefix alias : string) (oldPrefixes : list string) (old aliasIsIndex : bool)
  : M W (list AliasAction) :=
  let add := AliasAdd (first_index prefix) alias true in
  if old || negb aliasIsIndex then
    let! removes := if old then remove_actions alias oldPrefixes else wret [] in
    let actions := add :: removes in
    request ("failed to update alias " +:+ alias +:+ ": ") (UpdateAlias actions) ;! wret actions
  else wret [add].

Definition bootstrap_data (prefix alias : string) (oldPrefixes : list string) (old aliasIsIndex : bool)
    (actions : list AliasAction) : M W unit :=
  (if old || aliasIsIndex
   then request ("failed to reindex " +:+ alias +:+ ": ")
          (SynchronousReindex (if old then oldPrefixes else [alias]) (first_index prefix))
   else wret tt) ;!
  if old then request "failed to delete old indices " (DeleteIndices oldPrefixes)
  else if aliasIsIndex
  then request ("failed to update alias " +:+ alias +:+ ": ") (UpdateAlias (actions ++ [AliasRemoveIndex alias])%list)
  else wret tt.

Definition MaybeBootstrapIndex (prefix alias : string) (oldPrefixes : list string) : M W unit :=
  let! bootstrap := prefixIndicesAbsent prefix in
  if negb bootstrap then wret tt
  else
    request ("failed to bootstrap " +:+ prefix +:+ ": ") (CreateIndex (first_index prefix) None) ;!
    let! aliasIsIndex := indexExists alias in
    let! old := match oldPrefixes with [] => wret false | _ => oldIndicesExist oldPrefixes end in
    let! actions := bootstrap_alias prefix alias oldPrefixes old aliasIsIndex in
    bootstrap_data prefix alias oldPrefixes old aliasIsIndex actions.

(** ** Templates *)

(** The first template of the name decides; a list without it means nothing to do. *)
Fixpoint compare_templates (template : IndexTemplateSpec T) (l : list (string * IndexTemplateSpec T)) : bool :=
  match l with
  | [] => false
  | (name, remote) :: l =>
      if decide (name = its_TemplateName template)
      then negb (bool_decide (mkIndexTemplateSpec name (its_IndexPatterns remote) (its_Template remote) (its_Priority remote) = template))
      else compare_templates template l
  end.

Definition shouldCreateTemplate (template : IndexTemplateSpec T) : M W bool :=
  let! resp := GetIndexTemplates [its_TemplateName template] in
  if (ap_StatusCode resp =? 404)%Z then wret true
  else if ap_IsError resp
  then wfail (ErrorString ("failed to check index template " +:+ its_TemplateName template +:+ ": " +:+ ap_String resp))
  else let! l := wlift (ap_Body resp) in wret (compare_templates template l).

Definition TemplateExists (name : string) : M W bool :=
  present ("failed to check index template " +:+ name +:+ ": ") (GetIndexTemplates [name]).

Definition MaybeCreateIndexTemplate (template : IndexTemplateSpec T) : M W unit :=
  let! createTemplate := shouldCreateTemplate template in
  if createTemplate : bool
  then request ("failed to create template " +:+ its_TemplateName template +:+ ": ")
         (PutIndexTemplate (its_TemplateName template) template)
  else wret tt.

Definition MaybeDeleteIndexTemplate (name : string) : M W unit :=
  let! exists_ := TemplateExists name in
  if exists_ : bool then request ("failed to delete template " +:+ name +:+ ": ") (DeleteIndexTemplate name) else wret tt.

(** ** State management policies *)

Inductive ISMCheck := ISMCreate | ISMInSync | ISMUpdate (seqNo primaryTerm : Z).

(** [policy.PolicyID] goes through the embedded pointer. *)
Definition policy_id (policy : ISMPolicySpec P) : M W string :=
  match isp_ID policy with
  | Some (id, _) => wret id
  | None => wlift (Panic "nil pointer dereference")
  end.

Definition checkISMPolicy (policy : ISMPolicySpec P) : M W ISMCheck :=
  let! id := policy_id policy in
  let! resp := GetISM id in
  if (ap_StatusCode resp =? 404)%Z then wret ISMCreate
  else if ap_IsError resp then wfail (ErrorString ("response from API is " +:+ ap_String resp))
  else
    let! ism := wlift (ap_Body resp) in
    wret (if decide (igr_Policy ism = policy) then ISMInSync else ISMUpdate (igr_SeqNo ism) (igr_PrimaryTerm ism)).

Definition ReconcileISM (policy : ISMPolicySpec P) : M W unit :=
  let! check := checkISMPolicy policy in
  let! id := policy_id policy in
  match check with
  | ISMCreate => request "failed to create ism policy: " (CreateISM id policy)
  | ISMUpdate seqNo primaryTerm => request "failed to update ism policy: " (UpdateISM id policy seqNo primaryTerm)
  | ISMInSync => wret tt
  end.

(** ** Dashboards *)

Definition shouldUpdateDashboards (indexName docID version : string) : M W bool :=
  let! exists_ := indexExists indexName in
  if negb exists_ then wret true
  else
    let! resp := GetDocument indexName docID in
    if (ap_StatusCode resp =? 404)%Z then wret true
    else if ap_IsError resp then wfail (ErrorString ("failed to check dashboards version doc: " +:+ ap_String resp))
    else let! stored := wlift (ap_Body resp) in wret (semver_Compare stored version <? 0)%Z.

Definition upsertDashboardsObjectDoc (indexName docID version : string) : M W unit :=
  request "failed to upsert kibana doc: " (UpdateDocument indexName docID version).

Definition ImportKibanaObjects (indexName docID version dashboardsObjects : string) : M W unit :=
  let! update := shouldUpdateDashboards indexName docID version in
  if update : bool then
    request "unable to import kibana objects: " (ImportObjects dashboardsObjects) ;!
    upsertDashboardsObjectDoc indexName docID version
  else wret tt.

(** ** Roles and users *)

Definition shouldCreateRole (name : string) : M W bool :=
  let! there := present "response from API is " (GetRole name) in wret (negb there).

(** A role that is there is left as it is. *)
Definition MaybeCreateRole (role : RoleSpec) : M W unit :=
  let! createRole := shouldCreateRole (rsp_RoleName role) in
  if createRole : bool then request "failed to create role: " (CreateRole (rsp_RoleName role) role) else wret tt.

Definition MaybeDeleteRole (rolename : string) : M W unit :=
  let! absent := shouldCreateRole rolename in
  if absent : bool then wret tt else request "failed to delete role: " (DeleteRole rolename).

Definition shouldCreateUser (name : string) : M W bool :=
  let! there := present "response from API is " (GetUser name) in wret (negb there).

Definition MaybeCreateUser (user : UserSpec) : M W unit :=
  let! createUser := shouldCreateUser (usp_UserName user) in
  if createUser : bool then request "failed to create user: " (CreateUser (usp_UserName user) user) else wret tt.

Definition MaybeDeleteUser (username : string) : M W unit :=
  let! absent := shouldCreateUser username in
  if absent : bool then wret tt else request "failed to delete user: " (DeleteUser username).

(** ** Role mappings *)

(** Only 404 is looked at, and the error of the decoder is dropped: then, as without
    an entry, the mapping is empty. *)
Definition checkRolesMapping (roleName userName : string) : M W (bool * RoleMappingSpec) :=
  let! resp := GetRolesMapping roleName in
  if (ap_StatusCode resp =? 404)%Z then wret (true, with_users [userName] empty_mapping)
  else
    let mappings := match ap_Body resp with Ok m => m | _ => ∅ end in
    let mapping := default empty_mapping (mappings !! roleName) in
    if bool_decide (userName ∈ rms_Users mapping) then wret (false, mapping)
    else wret (true, with_users (rms_Users mapping ++ [userName])%list mapping).

Definition MaybeUpdateRolesMapping (roleName userName : string) : M W unit :=
  let! (shouldUpdate, mapping) := checkRolesMapping roleName userName in
  if negb shouldUpdate then wret tt
  else request "failed to create rolesmapping: " (CreateRolesMapping roleName mapping).

(** For every other user the user to remove is kept. *)
Definition remaining_users (userName : string) (users : list string) : list string :=
  flat_map (fun user => if decide (user = userName) then [] else [userName]) users.

Definition MaybeRemoveRolesMapping (roleName userName : string) : M W unit :=
  let! (userAbsent, mapping) := checkRolesMapping roleName userName in
  if userAbsent : bool then wret tt
  else
    let users := remaining_users userName (rms_Users mapping) in
    request "failed to remove user role mapping: "
      (if (length users =? 0)%nat then DeleteRolesMapping roleName
       else CreateRolesMapping roleName (with_users users mapping)).

(** ** Ingest pipelines *)

Definition shouldUpdateIngestPipeline (name : string) (new : IngestPipeline) : M W bool :=
  let! resp := GetIngestPipeline name in
  if (ap_StatusCode resp =? 404)%Z then wret true
  else if ap_IsError resp then wfail (ErrorString ("response from API is " +:+ ap_String resp))
  else let! existing := wlift (ap_Body resp) in wret (negb (bool_decide (new = existing))).

Definition ingestPipelineExists (name : string) : M W bool :=
  present "response from API is " (GetIngestPipeline name).

Definition MaybeCreateIngestPipeline (name : string) (pipeline : IngestPipeline) : M W unit :=
  let! shouldCreate := shouldUpdateIngestPipeline name pipeline in
  if shouldCreate : bool then request "failed to create ingest pipeline: " (PutIngestTemplate name pipeline) else wret tt.

Definition MaybeDeleteIngestPipeline (name : string) : M W unit :=
  let! exists_ := ingestPipelineExists name in
  if exists_ : bool then request "failed to delete ingest pipeline: " (DeleteIngestPipeline name) else wret tt.

Definition UpdateDefaultIngestPipelineForIndex (index pipelineName : string) : M W unit :=
  let! absent := if HasSuffix index "*" then prefixIndicesAbsent index
                 else let! exists_ := indexExists index in wret (negb exists_) in
  if absent : bool then wret tt
  else request "failed to update index settings: " (UpdateIndicesSettings [index] pipelineName).
End Reconciler.
