(* ===== verification/OsReconcilerProps.v ===== *)
(** What the requests of the OpenSearch reconciler do to a server that keeps the documented
    behaviour of its API: who is in a role mapping, and where the documents are. *)

From S2P Require Import Prelude GoStd Util OsReconciler.

Local Open Scope string_scope.

Section Requests.
Context {W T P S : Type} `{!OsAdmin W T P S} `{!EqDecision T} `{!EqDecision P}.

Lemma request_inv text op (w w' : W) o :
  request text op w = (w', o) ->
  match o with
  | Ok _ => exists resp, op w = (w', Ok resp) /\ ap_IsError resp = false
  | Err e => op w = (w', Err e) \/ exists resp, op w = (w', Ok resp) /\ ap_IsError resp = true
  | Panic p => op w = (w', Panic p)
  end.
Proof.
  unfold request. intros [(resp & w1 & E1 & E2)|[(e & E & ->)|(p & E & ->)]]%wbind_inv; [|by auto..].
  destruct (ap_IsError resp) eqn:Hr; injection E2 as <- <-; [right|]; by exists resp.
Qed.

(** Whatever comes of it, a request is one call of the client. *)
Lemma request_call text op (w w' : W) o : request text op w = (w', o) -> exists o', op w = (w', o').
Proof. intros E%request_inv. destruct o; naive_solver. Qed.

(** ** Role mappings *)

(** The mappings of the server, as far as the client's struct has their fields: those it
    lacks, [and_backend_roles] and the description, are not represented, and a request
    that stores a mapping drops them. *)
Class MappingLaws := {
  mp_view : W -> gmap string RoleMappingSpec;
  GetRolesMapping_law r w w' o : GetRolesMapping r w = (w', o) ->
    mp_view w' = mp_view w /\
    match o with
    | Ok resp =>
        (ap_StatusCode resp = 404%Z -> mp_view w !! r = None) /\
        (ap_IsError resp = false -> exists m, mp_view w !! r = Some m /\ ap_Body resp = Ok {[ r := m ]})
    | Err _ => True
    | Panic _ => False
    end;
  CreateRolesMapping_law r m w w' o : CreateRolesMapping r m w = (w', o) ->
    (mp_view w' = mp_view w \/ mp_view w' = <[r := m]> (mp_view w)) /\
    match o with
    | Ok resp => ap_IsError resp = false -> mp_view w' = <[r := m]> (mp_view w)
    | Err _ => True
    | Panic _ => False
    end;
  DeleteRolesMapping_law r w w' o : DeleteRolesMapping r w = (w', o) ->
    (mp_view w' = mp_view w \/ mp_view w' = delete r (mp_view w)) /\
    match o with
    | Ok resp => ap_IsError resp = false -> mp_view w' = delete r (mp_view w)
    | Err _ => True
    | Panic _ => False
    end }.

Section Mappings.
Context `{!MappingLaws}.

(** The users of a role, none without a mapping. *)
Definition users_of (r : string) (w : W) : list string := rms_Users (default empty_mapping (mp_view w !! r)).

(** The read was answered: there is no mapping, or the answer holds it. *)
Definition answered (r : string) (w : W) : Prop :=
  exists w1 resp, GetRolesMapping r w = (w1, Ok resp) /\ (ap_StatusCode resp = 404%Z \/ ap_IsError resp = false).

Lemma checkRolesMapping_spec r u w w' b m :
  answered r w -> checkRolesMapping r u w = (w', Ok (b, m)) ->
  mp_view w' = mp_view w /\ b = negb (bool_decide (u ∈ users_of r w)) /\
  let old := default empty_mapping (mp_view w !! r) in
  m = if b then with_users (users_of r w ++ [u])%list old else old.
Proof.
  intros (w1 & resp & E & Hans) (resp' & w2 & E2 & Hc)%wbind_Ok. rewrite E in E2. injection E2 as <- <-.
  pose proof (GetRolesMapping_law _ _ _ _ E) as [Hv [H404 Hok]]. unfold users_of.
  destruct (ap_StatusCode resp =? 404)%Z eqn:Hs.
  - rewrite (H404 ltac:(lia)). injection Hc as <- <- <-. done.
  - destruct Hans as [?|Hans]; [lia|]. destruct (Hok Hans) as (mp & Hm & Hb). rewrite Hb in Hc. cbv beta zeta iota in Hc. rewrite lookup_singleton_eq in Hc. rewrite Hm.
    cbn [default] in *. destruct (bool_decide _); injection Hc as <- <- <-; done.
Qed.

(** C20: granting a role to a user, when the role's mapping could be read, adds the user to
    the mapping and changes nothing else: the users, backend roles and hosts that were
    mapped stay mapped, and so do those of the other roles. *)
Theorem granting_a_role_adds_one_user r u w w' :
  answered r w -> MaybeUpdateRolesMapping r u w = (w', Ok tt) ->
  users_of r w' = (if bool_decide (u ∈ users_of r w) then users_of r w else users_of r w ++ [u])%list /\
  (forall m, mp_view w !! r = Some m -> exists m', mp_view w' !! r = Some m' /\
     rms_BackendRoles m' = rms_BackendRoles m /\ rms_Hosts m' = rms_Hosts m) /\
  (forall r', r' <> r -> mp_view w' !! r' = mp_view w !! r').
Proof.
  intros Hans ([b m] & w1 & E1 & E2)%wbind_Ok.
  destruct (checkRolesMapping_spec _ _ _ _ _ _ Hans E1) as (Hv & -> & ->).
  destruct (bool_decide (u ∈ users_of r w)) eqn:Hu; cbn in E2.
  - injection E2 as <-. unfold users_of in *. rewrite Hv. split; [done|]. split; [|done]. intros m Hm. by exists m.
  - apply request_inv in E2 as (resp & E & Hr). apply CreateRolesMapping_law in E as [_ E]. unfold users_of. rewrite (E Hr), Hv.
    split; [by rewrite lookup_insert_eq|]. split; [|intros r' Hne; by rewrite lookup_insert_ne].
    intros m Hm. rewrite Hm. eexists. split; [by rewrite lookup_insert_eq|]. done.
Qed.

(** Taking a role from a user: with another user in the mapping, what is left of it is
    the user that was to go. *)
Lemma remaining_users_spec u l : remaining_users u l = replicate (length (filter (fun x => x <> u) l)) u.
Proof.
  unfold remaining_users. induction l as [|x l IH]; [done|]. cbn [flat_map]. rewrite IH.
  destruct (decide (x = u)) as [->|Hx]; [by rewrite filter_cons_False by tauto|by rewrite filter_cons_True].
Qed.

Lemma revoking_keeps_the_user r u w w' :
  answered r w -> MaybeRemoveRolesMapping r u w = (w', Ok tt) -> u ∈ users_of r w ->
  users_of r w' = replicate (length (filter (fun x => x <> u) (users_of r w))) u.
Proof.
  intros Hans ([b m] & w1 & E1 & E2)%wbind_Ok Hu.
  destruct (checkRolesMapping_spec _ _ _ _ _ _ Hans E1) as (Hv & -> & ->).
  rewrite (bool_decide_eq_true_2 _ Hu) in E2. cbn [negb] in E2.
  rewrite remaining_users_spec in E2. fold (users_of r w) in E2.
  apply request_inv in E2 as (resp & E & Hr). rewrite length_replicate in E.
  destruct (length (filter _ (users_of r w)) =? 0)%nat eqn:Hl; unfold users_of at 1.
  - apply DeleteRolesMapping_law in E as [_ E]. rewrite (E Hr), lookup_delete_eq. by apply Nat.eqb_eq in Hl as ->.
  - apply CreateRolesMapping_law in E as [_ E]. by rewrite (E Hr), lookup_insert_eq.
Qed.

(** A read that fails with a status other than 404 erases the mapping of everyone else. *)
Lemma failed_read_erases_mapping r u w w1 resp e w' :
  GetRolesMapping r w = (w1, Ok resp) -> ap_StatusCode resp <> 404%Z -> ap_Body resp = Err e ->
  MaybeUpdateRolesMapping r u w = (w', Ok tt) -> mp_view w' !! r = Some (with_users [u] empty_mapping).
Proof.
  intros Eg Hs Hb ([b m] & w2 & (resp' & w3 & E1 & E2)%wbind_Ok & E3)%wbind_Ok. rewrite Eg in E1. injection E1 as <- <-.
  destruct (ap_StatusCode resp =? 404)%Z eqn:H4; [lia|]. rewrite Hb in E2. cbv beta zeta iota in E2. rewrite lookup_empty in E2. cbn in E2. injection E2 as <- <- <-.
  apply request_inv in E3 as (resp' & E & Hr). apply CreateRolesMapping_law in E as [_ E]. by rewrite (E Hr), lookup_insert_eq.
Qed.
End Mappings.

(** ** Documents *)

(** The indices of the server with their documents.  Nobody else writes to them while the
    reconciler runs; a request that fails may have been carried out. *)
Class IndexLaws := {
  ix_view : W -> gmap string (gset string);
  (** a name or a pattern selects an index *)
  ix_selects : string -> string -> bool;
  CatIndices_law names w w' o : CatIndices names w = (w', o) -> ix_view w' = ix_view w;
  CreateIndex_law name settings w w' o : CreateIndex name settings w = (w', o) ->
    ix_view w' = ix_view w \/ (ix_view w !! name = None /\ ix_view w' = <[name := ∅]> (ix_view w));
  UpdateAlias_law actions w w' o : UpdateAlias actions w = (w', o) ->
    forall i D, ix_view w !! i = Some D -> ix_view w' !! i = Some D \/ AliasRemoveIndex i ∈ actions;
  SynchronousReindex_law sources dest w w' o : SynchronousReindex sources dest w = (w', o) ->
    (forall i D, ix_view w !! i = Some D -> exists D', ix_view w' !! i = Some D' /\ D ⊆ D') /\
    (forall resp, o = Ok resp -> ap_IsError resp = false ->
       exists D', ix_view w' !! dest = Some D' /\
         forall i D, ix_view w !! i = Some D -> existsb (fun s => ix_selects s i) sources = true -> D ⊆ D');
  DeleteIndices_law names w w' o : DeleteIndices names w = (w', o) ->
    forall i D, ix_view w !! i = Some D -> ix_view w' !! i = Some D \/ existsb (fun s => ix_selects s i) names = true }.

Section Documents.
Context `{!IndexLaws}.

(** Every document that was in an index still is, in that one or in [new]. *)
Definition kept (new : string) (w w' : W) : Prop :=
  forall i D d, ix_view w !! i = Some D -> d ∈ D ->
    exists j D', ix_view w' !! j = Some D' /\ d ∈ D' /\ (j = i \/ j = new).

(** Nothing is taken out of any index. *)
Definition grows (w w' : W) : Prop :=
  forall i D, ix_view w !! i = Some D -> exists D', ix_view w' !! i = Some D' /\ D ⊆ D'.

#[local] Instance grows_preorder : PreOrder grows.
Proof.
  split; [intros w i D Hi; by exists D|]. intros w1 w2 w3 H1 H2 i D Hi.
  destruct (H1 _ _ Hi) as (D2 & Hi2 & ?). destruct (H2 _ _ Hi2) as (D3 & Hi3 & ?). exists D3. split; [done|]. set_solver.
Qed.

Lemma grows_kept new w1 w2 w3 : grows w1 w2 -> kept new w2 w3 -> kept new w1 w3.
Proof.
  intros Hg Hk i D d Hi Hd. destruct (Hg _ _ Hi) as (D2 & Hi2 & Hs). apply (Hk i D2 d Hi2). set_solver.
Qed.
Lemma kept_refl new w : kept new w w.
Proof. intros i D d Hi Hd. exists i, D. auto. Qed.
Lemma grows_is_kept new w w' : grows w w' -> kept new w w'.
Proof. intros Hg. eapply grows_kept; [exact Hg|apply kept_refl]. Qed.

Lemma same_grows w w' : ix_view w' = ix_view w -> grows w w'.
Proof. intros Hv i D Hi. rewrite Hv. by exists D. Qed.

(** The operations that take nothing away. *)
Definition gentle {A} (m : M W A) : Prop := forall w w' o, m w = (w', o) -> grows w w'.

Lemma gentle_bind {A B} (m : M W A) (k : A -> M W B) : gentle m -> (forall a, gentle (k a)) -> gentle (wbind m k).
Proof.
  intros Hm Hk w w' o [(a & w1 & E1 & E2)|[(e & E & ->)|(p & E & ->)]]%wbind_inv; [|by eapply Hm..].
  etransitivity; [by eapply Hm|by eapply Hk].
Qed.
Lemma gentle_ret {A} (a : A) : gentle (wret a).
Proof. by intros w w' o [= <- <-]. Qed.
Lemma gentle_lift {A} (a : outcome A) : gentle (wlift a).
Proof. by intros w w' o [= <- <-]. Qed.
Lemma gentle_fail {A} e : gentle (wfail (A := A) e).
Proof. by intros w w' o [= <- <-]. Qed.
Lemma gentle_catch {A} (m : M W A) (k : error -> M W A) : gentle m -> (forall e, gentle (k e)) -> gentle (wcatch m k).
Proof.
  intros Hm Hk w w' o. unfold wcatch. destruct (m w) as [w1 [a|e|p]] eqn:E; [by intros [= <- <-]; eapply Hm| |by intros [= <- <-]; eapply Hm].
  intros E2. etransitivity; [by eapply Hm|by eapply Hk].
Qed.
Lemma gentle_request text op : gentle op -> gentle (request text op).
Proof. intros Hop. apply gentle_bind; [done|]. intros resp. destruct (ap_IsError resp); [apply gentle_fail|apply gentle_ret]. Qed.
Lemma gentle_cat names : gentle (CatIndices names).
Proof. intros w w' o E. by eapply same_grows, CatIndices_law. Qed.
Lemma gentle_create name settings : gentle (CreateIndex name settings).
Proof.
  intros w w' o [E|[Hn E]]%CreateIndex_law; [by apply same_grows|]. intros i D Hi. exists D. split; [|done].
  rewrite E, lookup_insert_ne by congruence. done.
Qed.
Lemma gentle_alias actions : (forall i, AliasRemoveIndex i ∉ actions) -> gentle (UpdateAlias actions).
Proof. intros Ha w w' o E i D Hi. destruct (UpdateAlias_law _ _ _ _ E _ _ Hi) as [?|?]; [by exists D|by destruct (Ha i)]. Qed.

Ltac gentle :=
  repeat first [apply gentle_bind; [|intros ?] | apply gentle_ret | apply gentle_fail | apply gentle_lift
    | apply gentle_cat | apply gentle_create | case_match | apply gentle_request | apply gentle_catch; [|intros ?]].

Lemma gentle_oldIndicesExist l : gentle (oldIndicesExist l).
Proof. unfold oldIndicesExist. gentle. Qed.
Lemma gentle_indexExists name : gentle (indexExists name).
Proof. unfold indexExists, present. gentle. Qed.
Lemma gentle_prefixIndicesAbsent prefix : gentle (prefixIndicesAbsent prefix).
Proof. unfold prefixIndicesAbsent. gentle. Qed.
Lemma gentle_remove_actions alias l : gentle (remove_actions alias l).
Proof.
  induction l as [|p l IH]; cbn [remove_actions]; [apply gentle_ret|].
  apply gentle_bind; [apply gentle_catch; [apply gentle_oldIndicesExist|intros e; apply gentle_ret]|intros b].
  apply gentle_bind; [exact IH|intros actions; apply gentle_ret].
Qed.

Lemma remove_actions_remove alias l w w' actions :
  remove_actions alias l w = (w', Ok actions) -> forall i, AliasRemoveIndex i ∉ actions.
Proof.
  revert w w' actions. induction l as [|p l IH]; intros w w' actions; cbn [remove_actions]; [intros [= _ <-]; set_solver|].
  intros (b & w1 & _ & (rest & w2 & E & [= _ <-])%wbind_Ok)%wbind_Ok i. pose proof (IH _ _ _ E i). destruct b; set_solver.
Qed.

Lemma gentle_bootstrap_alias prefix alias l old aliasIsIndex : gentle (bootstrap_alias prefix alias l old aliasIsIndex).
Proof.
  unfold bootstrap_alias. destruct (old || negb aliasIsIndex); [|apply gentle_ret].
  intros w w' o [(removes & w1 & E1 & E2)|[(e & E & ->)|(p & E & ->)]]%wbind_inv.
  2,3: destruct old; [by eapply gentle_remove_actions|done].
  assert ((forall i, AliasRemoveIndex i ∉ removes) /\ grows w w1) as [Hr Hg].
  { destruct old; [split; [by eapply remove_actions_remove|by eapply gentle_remove_actions]|]. injection E1 as <- <-. split; [set_solver|done]. }
  etransitivity; [exact Hg|]. revert E2. apply gentle_bind; [|intros; apply gentle_ret].
  apply gentle_request, gentle_alias. intros i. specialize (Hr i). set_solver.
Qed.

Lemma bootstrap_alias_actions prefix alias l old aliasIsIndex w w' actions :
  bootstrap_alias prefix alias l old aliasIsIndex w = (w', Ok actions) -> forall i, AliasRemoveIndex i ∉ actions.
Proof.
  unfold bootstrap_alias. destruct (old || negb aliasIsIndex).
  - intros (removes & w1 & E1 & ([] & w2 & _ & [= _ <-])%wbind_Ok)%wbind_Ok i.
    assert (AliasRemoveIndex i ∉ removes); [|set_solver].
    destruct old; [by eapply remove_actions_remove|]. injection E1 as _ <-. set_solver.
  - intros [= _ <-] i. set_solver.
Qed.

(** A gentle operation before one that keeps the documents. *)
Lemma docs_kept_bind {A B} new (m : M W A) (k : A -> M W B) :
  gentle m ->
  (forall a w1 w2, m w1 = (w2, Ok a) -> forall w w' o, k a w = (w', o) -> kept new w w') ->
  forall w w' o, wbind m k w = (w', o) -> kept new w w'.
Proof.
  intros Hm Hk w w' o [(a & w1 & E1 & E2)|[(e & E & ->)|(p & E & ->)]]%wbind_inv; [|by eapply grows_is_kept, Hm..].
  eapply grows_kept; [by eapply Hm|by eapply Hk].
Qed.

(** After a reindex that was reported complete, taking the sources away loses nothing. *)
Lemma taken_after_reindex (gone : string -> bool) sources new w w1 w2 resp :
  SynchronousReindex sources new w = (w1, Ok resp) -> ap_IsError resp = false ->
  (forall i, gone i = true -> existsb (fun s => ix_selects s i) sources = true) -> gone new = false ->
  (forall i D, ix_view w1 !! i = Some D -> ix_view w2 !! i = Some D \/ gone i = true) ->
  kept new w w2.
Proof.
  intros [Hg Hc]%SynchronousReindex_law Hr Hgone Hnew Hkeep i D d Hi Hd.
  destruct (Hc _ eq_refl Hr) as (Dn & Hn & Hall). destruct (Hg _ _ Hi) as (D1 & Hi1 & Hs1).
  destruct (Hkeep _ _ Hi1) as [Hi2|Hgi].
  - exists i, D1. split; [done|]. split; [set_solver|by left].
  - exists new, Dn. split; [|split; [|by right]].
    + destruct (Hkeep _ _ Hn) as [?|?]; [done|congruence].
    + pose proof (Hall _ _ Hi (Hgone _ Hgi)). set_solver.
Qed.

Lemma bootstrap_data_kept prefix alias l old aliasIsIndex actions w w' o :
  existsb (fun s => ix_selects s (first_index prefix)) l = false ->
  ix_selects alias alias = true -> first_index prefix <> alias ->
  (forall i, AliasRemoveIndex i ∉ actions) ->
  bootstrap_data prefix alias l old aliasIsIndex actions w = (w', o) -> kept (first_index prefix) w w'.
Proof.
  intros Hold Hself Hne Ha. unfold bootstrap_data.
  assert (forall text s w w' o, request text (SynchronousReindex s (first_index prefix)) w = (w', o) ->
    grows w w' /\ (o = Ok tt -> exists resp, SynchronousReindex s (first_index prefix) w = (w', Ok resp) /\ ap_IsError resp = false)) as Hreq.
  { intros text s w1 w2 o1 E. split; [|intros ->; by apply request_inv in E]. apply request_call in E as (o2 & E). by apply SynchronousReindex_law in E as [? _]. }
  destruct old; cbn [orb].
  - intros [([] & w1 & E1 & E2)|[(e & E & ->)|(p & E & ->)]]%wbind_inv; [|by apply grows_is_kept; eapply Hreq..].
    apply Hreq in E1 as [_ E1]. destruct (E1 eq_refl) as (resp & Er & Hr). apply request_call in E2 as (o2 & E2).
    eapply (taken_after_reindex (fun i => existsb (fun s => ix_selects s i) l)); [exact Er|exact Hr|done|exact Hold|].
    intros i D. by eapply DeleteIndices_law.
  - destruct aliasIsIndex; [|intros [= <- <-]; apply kept_refl].
    intros [([] & w1 & E1 & E2)|[(e & E & ->)|(p & E & ->)]]%wbind_inv; [|by apply grows_is_kept; eapply Hreq..].
    apply Hreq in E1 as [_ E1]. destruct (E1 eq_refl) as (resp & Er & Hr). apply request_call in E2 as (o2 & E2).
    eapply (taken_after_reindex (fun i => bool_decide (i = alias))); [exact Er|exact Hr| |by apply bool_decide_eq_false|].
    + intros i ->%bool_decide_eq_true. cbn. by rewrite Hself.
    + intros i D Hi. destruct (UpdateAlias_law _ _ _ _ E2 _ _ Hi) as [?|Hin]; [by left|right].
      apply elem_of_app in Hin as [Hin|Hin]; [by destruct (Ha i)|]. apply list_elem_of_singleton in Hin. injection Hin as ->. by apply bool_decide_eq_true.
Qed.

(** C19: bootstrapping an index loses no document, whatever fails on the way: every
    document is afterwards still in its index or in the first index of the new prefix.
    The new index may not be among the old ones, and nobody else may write to those
    meanwhile. *)
Theorem bootstrap_loses_no_document prefix alias oldPrefixes w w' o :
  existsb (fun s => ix_selects s (first_index prefix)) oldPrefixes = false ->
  ix_selects alias alias = true -> first_index prefix <> alias ->
  MaybeBootstrapIndex prefix alias oldPrefixes w = (w', o) ->
  kept (first_index prefix) w w'.
Proof.
  intros Hold Hself Hne. revert w w' o.
  assert (gentle (match oldPrefixes with [] => wret false | _ => oldIndicesExist oldPrefixes end)) as Hg
    by (destruct oldPrefixes; [apply gentle_ret|apply gentle_oldIndicesExist]).
  apply docs_kept_bind; [apply gentle_prefixIndicesAbsent|]. intros b _ _ _.
  destruct b; [cbn [negb]|intros w w' o [= <- <-]; apply kept_refl].
  apply docs_kept_bind; [apply gentle_request, gentle_create|]. intros [] _ _ _.
  apply docs_kept_bind; [apply gentle_indexExists|]. intros aliasIsIndex _ _ _.
  apply docs_kept_bind; [exact Hg|]. intros old _ _ _.
  apply docs_kept_bind; [apply gentle_bootstrap_alias|]. intros actions w1 w2 E w w' o.
  apply bootstrap_data_kept; [exact Hold|exact Hself|exact Hne|]. by eapply bootstrap_alias_actions.
Qed.

(** An index of the prefix that is there already ends the bootstrap, whatever is left to
    do. *)
Lemma bootstrap_is_not_resumed prefix alias oldPrefixes w w1 :
  prefixIndicesAbsent prefix w = (w1, Ok false) -> MaybeBootstrapIndex prefix alias oldPrefixes w = (w1, Ok tt).
Proof. intros E. unfold MaybeBootstrapIndex. by rewrite (wbind_eq_Ok _ _ _ _ _ E). Qed.
End Documents.
End Requests.

(** ** A server in memory *)

Record OsWorld := mkOsWorld {
  ow_mappings : gmap string RoleMappingSpec;
  ow_roles : gmap string RoleSpec;
  ow_users : gmap string UserSpec;
  ow_docs : gmap string (gset string);
  ow_aliases : list (string * string);
  ow_objects : gmap (string * string) string;
  ow_fail : list bool }.           (* which of the next calls fail *)

Definition ow_set_mappings x w := mkOsWorld x (ow_roles w) (ow_users w) (ow_docs w) (ow_aliases w) (ow_objects w) (ow_fail w).
Definition ow_set_roles x w := mkOsWorld (ow_mappings w) x (ow_users w) (ow_docs w) (ow_aliases w) (ow_objects w) (ow_fail w).
Definition ow_set_users x w := mkOsWorld (ow_mappings w) (ow_roles w) x (ow_docs w) (ow_aliases w) (ow_objects w) (ow_fail w).
Definition ow_set_docs x w := mkOsWorld (ow_mappings w) (ow_roles w) (ow_users w) x (ow_aliases w) (ow_objects w) (ow_fail w).
Definition ow_set_aliases x w := mkOsWorld (ow_mappings w) (ow_roles w) (ow_users w) (ow_docs w) x (ow_objects w) (ow_fail w).
Definition ow_set_objects x w := mkOsWorld (ow_mappings w) (ow_roles w) (ow_users w) (ow_docs w) (ow_aliases w) x (ow_fail w).
Definition ow_set_fail x w := mkOsWorld (ow_mappings w) (ow_roles w) (ow_users w) (ow_docs w) (ow_aliases w) (ow_objects w) x.

Definition resp_ok {A} (a : A) : ApiResponse A := mkApiResponse 200 "200 OK" (Ok a).
Definition resp_error {A} (status : Z) : ApiResponse A := mkApiResponse status "error" (Err (ErrorString "no body")).

(** A call: an answer of the server, or an error when the schedule says so. *)
Definition os_call {A} (f : OsWorld -> OsWorld * ApiResponse A) : M OsWorld (ApiResponse A) := fun w =>
  match ow_fail w with
  | true :: l => (ow_set_fail l w, Ok (resp_error 500))
  | false :: l => let (w', r) := f (ow_set_fail l w) in (w', Ok r)
  | [] => let (w', r) := f w in (w', Ok r)
  end.
Definition os_read {A} (f : OsWorld -> option A) : M OsWorld (ApiResponse A) :=
  os_call (fun w => (w, match f w with Some a => resp_ok a | None => resp_error 404 end)).
Definition os_write (f : OsWorld -> OsWorld) : M OsWorld (ApiResponse unit) := os_call (fun w => (f w, resp_ok tt)).

(** A name, or a prefix followed by a star. *)
Definition selects (pattern name : string) : bool :=
  if HasSuffix pattern "*" then HasPrefix name (String.substring 0 (String.length pattern - 1) pattern)
  else bool_decide (pattern = name).

Definition selected (names : list string) (w : OsWorld) : list string :=
  filter (fun i => existsb (fun s => selects s i) names = true) (map_to_list (ow_docs w)).*1.

(** A missing index is not found by its name; a pattern may find nothing. *)
Definition cat (names : list string) (w : OsWorld) : option (list string) :=
  match selected names w with
  | [] => if existsb (fun s => negb (HasSuffix s "*")) names then None else Some []
  | l => Some l
  end.

Definition apply_action (a : AliasAction) (w : OsWorld) : OsWorld :=
  match a with
  | AliasAdd index alias _ => ow_set_aliases ((alias, index) :: ow_aliases w) w
  | AliasRemove index alias =>
      ow_set_aliases (filter (fun p => ~ (p.1 = alias /\ selects index p.2 = true)) (ow_aliases w)) w
  | AliasRemoveIndex index => ow_set_docs (delete index (ow_docs w)) w
  end.

Definition docs_in (l : list string) (w : OsWorld) : gset string := ⋃ ((fun i => default ∅ (ow_docs w !! i)) <$> l).

#[export] Instance os_world : OsAdmin OsWorld string string string := {|
  CatIndices names := os_read (cat names);
  GetIndexTemplates names := os_read (fun w => match names with
    | n :: _ => (fun t => [(n, mkIndexTemplateSpec n [] t 0%Z)]) <$> ow_objects w !! ("template", n) | [] => None end);
  PutIndexTemplate n t := os_write (fun w => ow_set_objects (<[("template", n) := its_Template t]> (ow_objects w)) w);
  DeleteIndexTemplate n := os_write (fun w => ow_set_objects (delete ("template", n) (ow_objects w)) w);
  CreateIndex n _ := os_call (fun w => match ow_docs w !! n with
    | None => (ow_set_docs (<[n := ∅]> (ow_docs w)) w, resp_ok tt) | Some _ => (w, resp_error 400) end);
  UpdateAlias actions := os_write (fun w => foldl (fun w a => apply_action a w) w actions);
  SynchronousReindex sources dest := os_write (fun w =>
    ow_set_docs (<[dest := default ∅ (ow_docs w !! dest) ∪ docs_in (selected sources w) w]> (ow_docs w)) w);
  DeleteIndices names := os_write (fun w =>
    ow_set_docs (filter (fun p => existsb (fun s => selects s p.1) names = false) (ow_docs w)) w);
  GetDocument i d := os_read (fun w => ow_objects w !! (i, d));
  UpdateDocument i d v := os_write (fun w => ow_set_objects (<[(i, d) := v]> (ow_objects w)) w);
  UpdateIndicesSettings _ p := os_write (fun w => ow_set_objects (<[("settings", "pipeline") := p]> (ow_objects w)) w);
  GetISM id := os_read (fun w => (fun p => mkISMGetResponse 1 1 (mkISMPolicySpec (Some (id, false)) p)) <$> ow_objects w !! ("ism", id));
  CreateISM id p := os_write (fun w => ow_set_objects (<[("ism", id) := isp_Policy p]> (ow_objects w)) w);
  UpdateISM id p _ _ := os_write (fun w => ow_set_objects (<[("ism", id) := isp_Policy p]> (ow_objects w)) w);
  GetRole n := os_read (fun w => (fun _ => tt) <$> ow_roles w !! n);
  CreateRole n r := os_write (fun w => ow_set_roles (<[n := r]> (ow_roles w)) w);
  DeleteRole n := os_write (fun w => ow_set_roles (delete n (ow_roles w)) w);
  GetUser n := os_read (fun w => (fun _ => tt) <$> ow_users w !! n);
  CreateUser n u := os_write (fun w => ow_set_users (<[n := u]> (ow_users w)) w);
  DeleteUser n := os_write (fun w => ow_set_users (delete n (ow_users w)) w);
  GetRolesMapping r := os_read (fun w => (fun m => {[ r := m ]}) <$> ow_mappings w !! r);
  CreateRolesMapping r m := os_write (fun w => ow_set_mappings (<[r := m]> (ow_mappings w)) w);
  DeleteRolesMapping r := os_write (fun w => ow_set_mappings (delete r (ow_mappings w)) w);
  GetIngestPipeline n := os_read (fun w => (fun d => mkIngestPipeline d []) <$> ow_objects w !! ("pipeline", n));
  PutIngestTemplate n p := os_write (fun w => ow_set_objects (<[("pipeline", n) := ipl_Description p]> (ow_objects w)) w);
  DeleteIngestPipeline n := os_write (fun w => ow_set_objects (delete ("pipeline", n) (ow_objects w)) w);
  ImportObjects o := os_write (fun w => ow_set_objects (<[("dashboards", "objects") := o]> (ow_objects w)) w);
  semver_Compare a b := if decide (a = b) then 0%Z else (-1)%Z |}.

Lemma os_call_inv {A} (f : OsWorld -> OsWorld * ApiResponse A) w w' o :
  os_call f w = (w', o) ->
  exists l, (w' = ow_set_fail l w /\ o = Ok (resp_error 500)) \/
            (w' = (f (ow_set_fail l w)).1 /\ o = Ok (f (ow_set_fail l w)).2).
Proof.
  unfold os_call. destruct w as [a b c d e g [|[] l]]; cbn.
  - destruct (f _) eqn:E; intros [= <- <-]. exists []. right. unfold ow_set_fail. cbn. by rewrite E.
  - intros [= <- <-]. exists l. by left.
  - destruct (f _) eqn:E; intros [= <- <-]. exists l. right. unfold ow_set_fail in *. cbn in *. by rewrite E.
Qed.

#[export] Instance os_world_mappings : MappingLaws (W := OsWorld) (T := string) (P := string) (S := string).
Proof.
  refine {| mp_view := ow_mappings |}.
  - intros r w w' o (l & [[-> ->]|[-> ->]])%os_call_inv; cbn; (split; [done|]); [done|].
    destruct (ow_mappings w !! r) as [m|] eqn:E; cbn; (split; [done|]); [|done]. intros _. by exists m.
  - intros r m w w' o (l & [[-> ->]|[-> ->]])%os_call_inv; cbn; (split; [by auto|done]).
  - intros r w w' o (l & [[-> ->]|[-> ->]])%os_call_inv; cbn; (split; [by auto|done]).
Defined.

(** Removing an index is the only action that touches the documents. *)
Lemma actions_docs actions : forall w i D,
  ow_docs w !! i = Some D ->
  ow_docs (foldl (fun w a => apply_action a w) w actions) !! i = Some D \/ AliasRemoveIndex i ∈ actions.
Proof.
  induction actions as [|a actions IH]; intros w i D Hi; [by left|]. cbn [foldl].
  destruct (decide (a = AliasRemoveIndex i)) as [->|Hne]; [right; set_solver|].
  assert (ow_docs (apply_action a w) !! i = Some D) as Ha.
  { destruct a as [| |j]; cbn; [done|done|]. rewrite lookup_delete_ne by congruence. done. }
  destruct (IH _ _ _ Ha); [by left|right; set_solver].
Qed.

#[export] Instance os_world_indices : IndexLaws (W := OsWorld) (T := string) (P := string) (S := string).
Proof.
  refine {| ix_view := ow_docs; ix_selects := selects |}.
  - by intros names w w' o (l & [[-> ->]|[-> ->]])%os_call_inv.
  - intros name settings w w' o (l & [[-> ->]|[-> ->]])%os_call_inv; cbn; [by left|].
    destruct (ow_docs w !! name) eqn:E; cbn; [by left|by right].
  - intros actions w w' o (l & [[-> ->]|[-> ->]])%os_call_inv i D Hi; [by left|]. cbn. by apply actions_docs.
  - intros sources dest w w' o (l & [[-> ->]|[-> ->]])%os_call_inv; cbn.
    + split; [intros i D Hi; by exists D|]. by intros resp [= <-].
    + split.
      * intros i D Hi. destruct (decide (i = dest)) as [->|Hne]; [|exists D; by rewrite lookup_insert_ne].
        rewrite lookup_insert_eq, Hi. eexists. split; [done|]. cbn. set_solver.
      * intros resp _ _. rewrite lookup_insert_eq. eexists. split; [done|]. intros i D Hi Hs.
        apply union_subseteq_r', elem_of_subseteq. intros d Hd. unfold docs_in. apply elem_of_union_list. exists D. split; [|done].
        apply list_elem_of_fmap. exists i. split; [cbn; by rewrite Hi|]. apply list_elem_of_filter. split; [done|].
        apply list_elem_of_fmap. exists (i, D). split; [done|]. by apply elem_of_map_to_list.
  - intros names w w' o (l & [[-> ->]|[-> ->]])%os_call_inv i D Hi; [by left|]. cbn.
    destruct (existsb _ names) eqn:E; [by right|left]. by apply map_lookup_filter_Some.
Defined.

(** *** Runs *)

Definition os_start : OsWorld :=
  mkOsWorld {[ "reader" := mkRoleMappingSpec ["kibanauser"] [] ["alice"; "bob"] ]} ∅ ∅
    {[ "logs-v0.5.1-000001" := {[ "d1"; "d2" ]}; "other" := {[ "d3" ]} ]} [("logs", "logs-v0.5.1-000001")] ∅ [].
Definition old_log_prefixes : list string := ["logs-v0.1.3*"; "logs-v0.5.1*"].
Definition bootstrap_logs (fail : list bool) : OsWorld * outcome unit :=
  MaybeBootstrapIndex "logs-v0.5.4" "logs" old_log_prefixes (ow_set_fail fail os_start).

(** The documents move to the new index, which takes over the alias. *)
Example logs_are_moved :
  (bootstrap_logs []).2 = Ok tt /\
  ow_docs (bootstrap_logs []).1 !! "logs-v0.5.4-000001" = Some {[ "d1"; "d2" ]} /\
  ow_docs (bootstrap_logs []).1 !! "logs-v0.5.1-000001" = None /\
  ow_aliases (bootstrap_logs []).1 = [("logs", "logs-v0.5.4-000001")].
Proof. split; [|split; [|split]]; vm_compute; reflexivity. Qed.

Definition reindex_fails : list bool := [false; false; false; false; false; false; false; true].

(** The reindex fails once: the alias points to an empty index, and the next run, which
    finds the new index, does nothing about it. *)
Example failed_bootstrap_is_final :
  let w := (bootstrap_logs reindex_fails).1 in
  (bootstrap_logs reindex_fails).2 = Err (ErrorString "failed to reindex logs: error") /\
  MaybeBootstrapIndex "logs-v0.5.4" "logs" old_log_prefixes w = (w, Ok tt) /\
  ow_docs w !! "logs-v0.5.4-000001" = Some ∅ /\ ow_docs w !! "logs-v0.5.1-000001" = Some {[ "d1"; "d2" ]} /\
  ow_aliases w = [("logs", "logs-v0.5.4-000001")].
Proof. cbv zeta. split; [|split; [|split; [|split]]]; vm_compute; reflexivity. Qed.

(** The theorem on the documents, when the reindex fails. *)
Lemma bootstrap_loses_no_document_witness :
  kept (first_index "logs-v0.5.4") (ow_set_fail reindex_fails os_start) (bootstrap_logs reindex_fails).1.
Proof.
  refine (bootstrap_loses_no_document "logs-v0.5.4" "logs" old_log_prefixes (ow_set_fail reindex_fails os_start)
    (bootstrap_logs reindex_fails).1 (bootstrap_logs reindex_fails).2 _ _ _ _).
  - vm_compute. reflexivity.
  - vm_compute. reflexivity.
  - discriminate.
  - vm_compute. reflexivity.
Defined.

(** Granting a role to a third user. *)
Lemma granting_a_role_adds_one_user_witness :
  users_of "reader" (MaybeUpdateRolesMapping "reader" "carol" os_start).1 = ["alice"; "bob"; "carol"].
Proof.
  destruct (granting_a_role_adds_one_user "reader" "carol" os_start (MaybeUpdateRolesMapping "reader" "carol" os_start).1)
    as [Hu _]; [|vm_compute; reflexivity|exact (eq_trans Hu eq_refl)].
  exists os_start, (resp_ok {[ "reader" := mkRoleMappingSpec ["kibanauser"] [] ["alice"; "bob"] ]}).
  split; [reflexivity|by right].
Defined.

(** Taking the role from bob leaves it to bob and takes it from alice. *)
Example revoking_a_role :
  let '(w, r) := MaybeRemoveRolesMapping "reader" "bob" os_start in r = Ok tt /\ users_of "reader" w = ["bob"].
Proof. vm_compute. auto. Qed.

(** A server that cannot answer the read loses the mapping. *)
Example failed_read_erases :
  let '(w, r) := MaybeUpdateRolesMapping "reader" "carol" (ow_set_fail [true] os_start) in
  r = Ok tt /\ ow_mappings w !! "reader" = Some (mkRoleMappingSpec [] [] ["carol"]).
Proof. vm_compute. auto. Qed.
