(* ===== verification/Logging.v ===== *)
(** plugins/logging: the capability backend on the gateway (pkg/backend), its
    Kubernetes driver (pkg/gateway/drivers), the deletion of log data and the
    initial administrator (pkg/opensearchdata), the uninstall task
    (pkg/gateway/uninstall.go) and the node of the agent (pkg/agent).  Handlers run
    one at a time. *)

From S2P Require Import Prelude GoStd Util CoreV1 Storage Rbac Bootstrap Task Management Health MetricsBackend Http K8s LogAdmin.

Local Open Scope string_scope.

Definition CapabilityLogs : string := "logs".

(** ** errors.go *)

Definition ErrClusterAlreadyExists : error := ErrorString "cluster already exists".
Definition ErrInvalidList : error := ErrorString "list did not return exactly 1 result".
Definition ErrOpensearchResponse : error := ErrorString "opensearch request unsuccessful".

Definition ErrListingClustersFaled (clienterr : error) : error := Wrapped "failed to list clusters" clienterr.
Definition ErrCreateFailedAlreadyExists (id : string) : error :=
  Wrapped ("creating cluster " +:+ id +:+ " failed") ErrClusterAlreadyExists.
Definition ErrDeleteClusterInvalidList (id : string) : error :=
  Wrapped ("listing cluster " +:+ id +:+ " failed") ErrInvalidList.
Definition ErrOpensearchRequestFailed (status : string) : error := Wrapped status ErrOpensearchResponse.

(** ** Messages *)

Record OpensearchConfig := mkOpensearchConfig {
  osc_Username : string; osc_Password : string; osc_Url : string; osc_TracingEnabled : bool }.

Record LoggingCapabilityConfig := mkLoggingCapabilityConfig {
  lcc_Enabled : bool; lcc_Conditions : list string; lcc_OpensearchConfig : option OpensearchConfig }.

#[export] Instance OpensearchConfig_eq_dec : EqDecision OpensearchConfig.
Proof. solve_decision. Defined.
#[export] Instance LoggingCapabilityConfig_eq_dec : EqDecision LoggingCapabilityConfig.
Proof. solve_decision. Defined.

Record LoggingSyncResponse := mkLoggingSyncResponse {
  lsr_ConfigStatus : ConfigStatus; lsr_UpdatedConfig : option LoggingCapabilityConfig }.

(** ** The cluster driver *)

Inductive OsInstallState := OsPending | OsInstalled | OsAbsent | OsError.

(** The interface [drivers.ClusterDriver]. *)
Class LogDriver (W : Type) := {
  CreateCredentials : Reference -> M W unit;
  GetCredentials : string -> M W (string * string);
  GetExternalURL : M W string;
  GetInstallStatus : M W OsInstallState;
  SetClusterStatus : string -> bool -> M W unit;
  GetClusterStatus : string -> M W NodeCapabilityStatus;
  SetSyncTime : M W unit }.

(** The other clients of the backend. *)
Class LoggingClients (W : Type) := {
  log_GetCluster : Reference -> M W Cluster;
  log_RequestSync : Reference -> list string -> M W unit;
  log_LoadFromStruct : string -> outcome DefaultUninstallOptions;
  log_Now : M W Time }.

Section Backend.
Context {W : Type} `{ManagementStorage W} `{!TaskController W TimestampedMetadata}
  `{LogDriver W} `{LoggingClients W} `{ErrorText}.

(** *** install.go *)

Definition log_canInstall : M W unit :=
  let! installState := GetInstallStatus in
  match installState with
  | OsAbsent => wfail (StatusError codes_Unavailable "opensearch cluster is not installed")
  | OsPending | OsInstalled => wret tt
  | OsError => wfail (StatusError codes_Internal "unknown opensearch cluster state")
  end.

(** A failed request is only logged. *)
Definition log_requestNodeSync (cluster : Reference) : M W unit :=
  wcatch (log_RequestSync cluster [CapabilityLogs]) (fun _ => wret tt).

(** One of the two checks: the error ends the installation, or becomes the warning. *)
Definition install_step (ignoreWarnings : bool) (op : M W unit) (warningErr : option error)
    (k : option error -> M W InstallResponse) : M W InstallResponse := fun w =>
  match op w with
  | (w, Ok _) => k warningErr w
  | (w, Err err) =>
      if negb ignoreWarnings then (w, Ok (mkInstallResponse Install_Error (err_Error err)))
      else k (Some err) w
  | (w, Panic p) => (w, Panic p)
  end.

Definition log_Install (req : InstallRequest) : M W InstallResponse :=
  install_step (ireq_IgnoreWarnings req) log_canInstall None (fun warningErr =>
  install_step (ireq_IgnoreWarnings req) (CreateCredentials (ireq_Cluster req)) warningErr (fun warningErr =>
    ms_UpdateCluster (ireq_Cluster req) (NewAddCapabilityMutator (capabilities_Cluster CapabilityLogs)) ;!
    log_requestNodeSync (ireq_Cluster req) ;!
    wret (match warningErr with
          | Some err => mkInstallResponse Install_Warning (err_Error err)
          | None => mkInstallResponse Install_Success ""
          end))).

(** *** sync.go *)

Definition log_Status (cluster : Reference) : M W NodeCapabilityStatus :=
  wcatch (GetClusterStatus (ref_Id cluster)) (fun err =>
    if errors_Is err ErrInvalidList then wfail (StatusError codes_NotFound "unable to list cluster status")
    else wfail err).

Definition shouldDisableNode : M W bool :=
  let! installState := GetInstallStatus in
  wret (match installState with OsAbsent => true | _ => false end).

Definition getOpensearchConfig (id : string) : M W OpensearchConfig :=
  let! (username, password) := GetCredentials id in
  let! url := GetExternalURL in
  wret (mkOpensearchConfig username password url true).

Definition log_buildResponse (old : option LoggingCapabilityConfig) (new : LoggingCapabilityConfig)
  : LoggingSyncResponse :=
  if decide (old = Some new) then mkLoggingSyncResponse ConfigStatus_UpToDate None
  else mkLoggingSyncResponse ConfigStatus_NeedsUpdate (Some new).

(** The last logging capability decides. *)
Definition logs_enabled (caps : list ClusterCapability) : bool :=
  fold_left (fun enabled cap =>
    if bool_decide (cc_Name cap = CapabilityLogs) then negb (bool_decide (is_Some (cc_DeletionTimestamp cap)))
    else enabled) caps false.

(** [id] is the authorized id of the call. *)
Definition log_Sync (id : option string) (currentConfig : option LoggingCapabilityConfig)
  : M W LoggingSyncResponse :=
  match id with
  | None => wfail (util_StatusError codes_Unauthenticated)
  | Some id =>
      let! cluster := ms_GetCluster (mkReference id) in
      let! (enabled, conditions) :=
        if logs_enabled (Clus.GetCapabilities cluster) then
          let! disable := shouldDisableNode in
          wret (if disable : bool then (false, ["opensearch is not installed"]) else (true, []))
        else wret (false, []) in
      (if enabled : bool then SetClusterStatus id enabled else SetSyncTime) ;!
      let! disable := shouldDisableNode in
      let! osConf := if disable : bool then wret None
                     else let! c := getOpensearchConfig id in wret (Some c) in
      wret (log_buildResponse currentConfig (mkLoggingCapabilityConfig enabled conditions osConf))
  end.

(** *** uninstall.go *)

(** A previous uninstall that still shows in the capability: [GetState] of a nil
    status is Unknown. *)
Definition log_check_stale_task (id : string) : M W unit :=
  let! stat := (fun w => match tc_TaskStatus id w with
                | (w, Ok stat) => (w, Ok (Some stat))
                | (w, Err err) =>
                    if negb (bool_decide (StatusCode err = codes_NotFound))
                    then (w, Err (StatusError codes_Internal ("failed to get task status: " +:+ err_Error err)))
                    else (w, Ok None)
                | (w, Panic p) => (w, Panic p)
                end) in
  match default TaskState_Unknown (ts_State <$> stat) with
  | TaskState_Canceled | TaskState_Failed => wret tt
  | TaskState_Completed => wfail (StatusError codes_FailedPrecondition "uninstall already completed")
  | _ => wfail (StatusError codes_FailedPrecondition "uninstall is already in progress")
  end.

(** The first logging capability of the cluster, when there is one. *)
Fixpoint log_check_capability (id : string) (caps : list ClusterCapability) : M W bool :=
  match caps with
  | [] => wret false
  | cap :: caps =>
      if negb (bool_decide (cc_Name cap = CapabilityLogs)) then log_check_capability id caps
      else (match cc_DeletionTimestamp cap with Some _ => log_check_stale_task id | None => wret tt end) ;! wret true
  end.

Fixpoint log_set_deletion (now : Time) (caps : list ClusterCapability) : list ClusterCapability :=
  match caps with
  | [] => []
  | cap :: caps =>
      if bool_decide (cc_Name cap = CapabilityLogs)
      then mkClusterCapability (cc_Name cap) (Some now) :: caps
      else cap :: log_set_deletion now caps
  end.

(** [c.Metadata.Capabilities] is read without a check of the metadata. *)
Definition log_deletion_mutator (now : Time) : MutatorFunc Cluster := fun c =>
  match cl_Metadata c with
  | None => Panic "nil pointer dereference"
  | Some _ => Ok (Clus.SetCapabilities (log_set_deletion now (Clus.GetCapabilities c)) c)
  end.

Definition log_Uninstall (ref : Reference) (options : option string) : M W unit :=
  let! cluster := log_GetCluster ref in
  let! defaultOpts :=
    match options with
    | None => wret (mkDefaultUninstallOptions false 0)
    | Some s => wcatch (wlift (log_LoadFromStruct s))
                  (fun err => wfail (ErrorString ("failed to unmarshal options: " +:+ err_Error err)))
    end in
  let! exists_ := log_check_capability (cl_Id cluster) (Clus.GetCapabilities cluster) in
  if negb exists_
  then wfail (StatusError codes_FailedPrecondition "cluster does not have the reuqested capability")
  else
    let! now := log_Now in
    wcatch (ms_UpdateCluster (Clus.GetReference cluster) (log_deletion_mutator now) ;! wret tt)
      (fun err => wfail (ErrorString ("failed to update cluster metadata: " +:+ err_Error err))) ;!
    log_requestNodeSync ref ;!
    tc_LaunchTask (ref_Id ref) (mkTimestampedMetadata defaultOpts now).

Definition log_UninstallStatus (cluster : Reference) : M W TaskStatus := tc_TaskStatus (ref_Id cluster).
(** Unlike the metrics backend, the node is not asked to synchronise. *)
Definition log_CancelUninstall (cluster : Reference) : M W unit := tc_CancelTask (ref_Id cluster).
End Backend.

(** ** opensearchdata *)

Inductive DeleteStatus := DeletePending | DeleteRunning | DeleteFinished | DeleteFinishedWithErrors | DeleteError.
Inductive OsClusterStatus := ClusterStatusGreen | ClusterStatusYellow | ClusterStatusRed | ClusterStatusError.

#[export] Instance DeleteStatus_eq_dec : EqDecision DeleteStatus.
Proof. solve_decision. Defined.

Definition pendingValue : string := "job pending".
Definition initialAdminKey : string := "initial-admin".
Definition initialAdminPending : string := "pending".
Definition initialAdminCreated : string := "created".

Definition nats_ErrNoKeysFound : error := External "nats: no keys found".

(** The bucket of the manager. *)
Class OsBucket (W : Type) := {
  bkt_Keys : M W (list string);
  bkt_Get : string -> M W string;
  bkt_PutString : string -> string -> M W unit;
  bkt_Create : string -> string -> M W unit;
  bkt_Delete : string -> M W unit }.

(** The OpenSearch API; the query names the cluster whose documents go. *)
Class OsApi (W : Type) := {
  AsyncDeleteByQuery : string -> M W Response;
  GetTask : string -> M W Response;
  GetUser : string -> M W Response;
  CreateUser : string -> string -> M W Response;
  GetClusterHealth : M W Response;
  (** gjson lookups of [task], [completed], the length of [response.failures], [status] *)
  gjson_task : string -> string;
  gjson_completed : string -> bool;
  gjson_failures : string -> nat;
  gjson_status : string -> string }.

(** [resp.IsError()]; the status stands for the text of [resp.String()] in messages. *)
Definition IsError (r : Response) : bool := (299 <? rs_StatusCode r)%Z.

Section Manager.
Context {W : Type} `{OsBucket W} `{OsApi W}.

(** The ready functions, each of which may end the attempt. *)
Fixpoint run_ready (fs : list (M W bool)) : M W bool :=
  match fs with
  | [] => wret false
  | r :: fs => let! exitEarly := r in if exitEarly : bool then wret true else run_ready fs
  end.

Definition keyExists (keyToCheck : string) : M W bool := fun w =>
  match bkt_Keys w with
  | (w, Ok keys) => (w, Ok (bool_decide (keyToCheck ∈ keys)))
  | (w, Err err) => if errors_Is err nats_ErrNoKeysFound then (w, Ok false) else (w, Err err)
  | (w, Panic p) => (w, Panic p)
  end.

(** An error that the caller turns into success. *)
Definition swallow (op : M W unit) : M W unit := wcatch op (fun _ => wret tt).

(** Starting the job and recording its id. *)
Definition start_job (id : string) (idExists : bool) : M W unit :=
  (if idExists then bkt_PutString id pendingValue else bkt_Create id pendingValue) ;!
  let! resp := AsyncDeleteByQuery id in
  if IsError resp then wfail (ErrOpensearchRequestFailed (rs_Status resp))
  else bkt_PutString id (gjson_task (rs_Body resp)).

(** The errors of the two reads are returned as nil. *)
Definition do_delete (id : string) : M W unit := fun w =>
  match keyExists id w with
  | (w, Err _) => (w, Ok tt)
  | (w, Panic p) => (w, Panic p)
  | (w, Ok false) => start_job id false w
  | (w, Ok true) =>
      match bkt_Get id w with
      | (w, Err _) => (w, Ok tt)
      | (w, Panic p) => (w, Panic p)
      | (w, Ok value) => if decide (value = pendingValue) then start_job id true w else (w, Ok tt)
      end
  end.

Definition DoClusterDataDelete (id : string) (readyFunc : list (M W bool)) : M W unit :=
  let! exitEarly := run_ready readyFunc in
  if exitEarly : bool then wret tt else do_delete id.

Definition delete_status (id : string) : M W DeleteStatus :=
  let! idExists := keyExists id in
  if negb idExists then wret DeleteFinishedWithErrors
  else
    let! taskID := bkt_Get id in
    if decide (taskID = pendingValue) then wret DeletePending
    else
      let! resp := GetTask taskID in
      if IsError resp then wfail (ErrOpensearchRequestFailed (rs_Status resp))
      else if negb (gjson_completed (rs_Body resp)) then wret DeleteRunning
      else if (0 <? gjson_failures (rs_Body resp))%nat then wret DeleteFinishedWithErrors
      else bkt_Delete id ;! wret DeleteFinished.

Definition DeleteTaskStatus (id : string) (readyFunc : list (M W bool)) : M W DeleteStatus :=
  let! exitEarly := run_ready readyFunc in
  if exitEarly : bool then wret DeleteFinishedWithErrors else delete_status id.

(** *** status.go *)

Definition os_GetClusterStatus : M W OsClusterStatus := fun w =>
  match GetClusterHealth w with
  | (w, Ok resp) =>
      if IsError resp then (w, Ok ClusterStatusError)
      else
        let status := gjson_status (rs_Body resp) in
        (w, Ok (if decide (status = "green") then ClusterStatusGreen
                else if decide (status = "yellow") then ClusterStatusYellow
                else if decide (status = "red") then ClusterStatusRed else ClusterStatusError))
  | (w, Err _) => (w, Ok ClusterStatusError)
  | (w, Panic p) => (w, Panic p)
  end.

(** *** admin.go *)

Definition userExists (name : string) : M W bool :=
  let! resp := GetUser name in
  if (rs_StatusCode resp =? 404)%Z then wret false
  else if IsError resp then wfail (ErrorString ("response from API is " +:+ rs_Status resp))
  else wret true.

Definition maybeCreateUser (name password : string) : M W unit :=
  let! exists_ := userExists name in
  if exists_ : bool then wret tt
  else
    let! resp := CreateUser name password in
    if IsError resp then wfail (ErrorString ("failed to create user: " +:+ rs_Status resp)) else wret tt.

(** The loop runs until the user is there; [tries] bounds the attempts made. *)
Fixpoint create_loop (tries : nat) (name password : string) : M W bool :=
  match tries with
  | O => wret false
  | S tries => fun w =>
      match maybeCreateUser name password w with
      | (w, Ok _) => (w, Ok true)
      | (w, Err _) => create_loop tries name password w
      | (w, Panic p) => (w, Panic p)
      end
  end.

Definition CreateInitialAdmin (tries : nat) (password : string) (readyFunc : list (M W bool)) : M W unit :=
  swallow (bkt_PutString initialAdminKey initialAdminPending) ;!
  let! exitEarly := run_ready readyFunc in
  if exitEarly : bool then wret tt
  else
    let! created := create_loop tries "opni" password in
    if negb created then wret tt
    else swallow (bkt_PutString initialAdminKey initialAdminCreated).

Definition ShouldCreateInitialAdmin : M W bool := fun w =>
  match keyExists initialAdminKey w with
  | (w, Ok true) =>
      match bkt_Get initialAdminKey w with
      | (w, Ok adminState) => (w, Ok (bool_decide (adminState = initialAdminPending)))
      | (w, Err _) => (w, Ok false)
      | (w, Panic p) => (w, Panic p)
      end
  | (w, Ok false) | (w, Err _) => (w, Ok false)
  | (w, Panic p) => (w, Panic p)
  end.

Definition DeleteInitialAdminState : M W unit := bkt_Delete initialAdminKey.
End Manager.

(** ** Kubernetes objects *)

Record LoggingClusterSpec := mkLoggingClusterSpec {
  lcs_IndexUserSecret : string; lcs_OpensearchClusterRef : ObjectKey; lcs_LastSync : Time; lcs_Enabled : bool }.
Record SecretData := mkSecretData { sd_password : string }.

Definition OpniClusterID : string := "opni.io/cluster-id".

(** [client.MatchingLabels] with the cluster's id. *)
Definition of_cluster {T} (id : string) (l : list (Object T)) : list (Object T) :=
  filter (fun o => om_Labels (ob_Meta o) !! OpniClusterID = Some id) l.

Section Objects.
Context {W Q : Type} `{!KubeClient W LoggingClusterSpec} `{!KubeClient W SecretData} `{!KubeClient W (OpniOpensearch Q)}.
Variable namespace : string.

Definition list_clusters (id : string) : M W (list (Object LoggingClusterSpec)) :=
  let! l := kube_List namespace in wret (of_cluster id l).
Definition list_secrets (id : string) : M W (list (Object SecretData)) :=
  let! l := kube_List namespace in wret (of_cluster id l).

(** *** kubernetes_manager.go *)

(** The driver: its world and the time of the last synchronisation that was not
    stored in an object. *)
Record KDriver := mkKDriver { kd_world : W; kd_ephemeralSyncTime : Time }.

Definition on_kube {A} (op : M W A) : M KDriver A := fun d =>
  let '(w, o) := op (kd_world d) in (mkKDriver w (kd_ephemeralSyncTime d), o).

Variable opensearchCluster : ObjectKey.
(** The clock, the random strings and the names the server generates. *)
Variable time_Now : M W Time.
Variable random_string : nat -> M W string.
Variable generate_name : string -> M W string.
Variable ToLower : string -> string.

(** The errors of the two Create calls are built and dropped. *)
Definition k_CreateCredentials (req : Reference) : M W unit :=
  let! items := wcatch (list_clusters (ref_Id req)) (fun err => wfail (ErrListingClustersFaled err)) in
  if (0 <? length items)%nat then wfail (ErrCreateFailedAlreadyExists (ref_Id req))
  else
    let! userSuffix := random_string 6 in
    let! password := random_string 20 in
    let labels := {[ OpniClusterID := ref_Id req ]} in
    let secretName := "index-" +:+ ToLower userSuffix in
    wcatch (kube_Create (mkObject (mkObjectMeta secretName namespace labels 0%Z 0%Z) (mkSecretData password)))
      (fun _ => wret tt) ;!
    let! name := generate_name "logging-" in
    wcatch (kube_Create (mkObject (mkObjectMeta name namespace labels 0%Z 0%Z)
              (mkLoggingClusterSpec secretName opensearchCluster 0%Z false)))
      (fun _ => wret tt).

Definition k_GetCredentials (id : string) : M W (string * string) := fun w =>
  match list_secrets id w with
  | (w, Ok [secret]) => (w, Ok (om_Name (ob_Meta secret), sd_password (ob_Spec secret)))
  | (w, Ok _) => (w, Ok ("", ""))
  | (w, Err _) => (w, Ok ("", ""))
  | (w, Panic p) => (w, Panic p)
  end.

Definition k_GetExternalURL : M W string := fun w =>
  match kube_Get (T := OpniOpensearch Q) (namespace, opensearchCluster.2) w with
  | (w, Ok o) => (w, Ok (oo_ExternalURL (ob_Spec o)))
  | (w, Err _) => (w, Ok "")
  | (w, Panic p) => (w, Panic p)
  end.

Definition k_GetInstallStatus : M W OsInstallState := fun w =>
  match kube_Get (T := OpniOpensearch Q) opensearchCluster w with
  | (w, Ok _) => (w, Ok OsInstalled)
  | (w, Err err) => (w, Ok (if IsNotFound err then OsAbsent else OsError))
  | (w, Panic p) => (w, Panic p)
  end.

(** [retry.RetryOnConflict] with the five steps of [retry.DefaultRetry]. *)
Fixpoint RetryOnConflict (steps : nat) (op : M W unit) : M W unit := fun w =>
  match op w with
  | (w, Err err) =>
      if IsConflict err then match steps with O | S O => (w, Err err) | S steps => RetryOnConflict steps op w end
      else (w, Err err)
  | r => r
  end.

Definition k_SetClusterStatus (id : string) (enabled : bool) : M W unit :=
  let! syncTime := time_Now in
  let! items := wcatch (list_clusters id) (fun err => wfail (ErrListingClustersFaled err)) in
  match items with
  | [cluster] =>
      RetryOnConflict 5
        (let! c := kube_Get (key_of cluster) in
         kube_Update (mkObject (ob_Meta c)
           (mkLoggingClusterSpec (lcs_IndexUserSecret (ob_Spec c)) (lcs_OpensearchClusterRef (ob_Spec c)) syncTime enabled)))
  | _ => wfail ErrInvalidList
  end.

Definition k_GetClusterStatus (id : string) : M KDriver NodeCapabilityStatus := fun d =>
  (let! items := wcatch (on_kube (list_clusters id)) (fun err => wfail (ErrListingClustersFaled err)) in
   match items with
   | [] => wret (mkNodeCapabilityStatus false (Some (kd_ephemeralSyncTime d)) [])
   | [c] => wret (mkNodeCapabilityStatus (lcs_Enabled (ob_Spec c)) (Some (lcs_LastSync (ob_Spec c))) [])
   | _ => wfail ErrInvalidList
   end) d.

Definition k_SetSyncTime : M KDriver unit :=
  let! now := on_kube time_Now in fun d => (mkKDriver (kd_world d) now, Ok tt).

#[local] Instance KubernetesManagerDriver : LogDriver KDriver := {|
  CreateCredentials r := on_kube (k_CreateCredentials r);
  GetCredentials id := on_kube (k_GetCredentials id);
  GetExternalURL := on_kube k_GetExternalURL;
  GetInstallStatus := on_kube k_GetInstallStatus;
  SetClusterStatus id enabled := on_kube (k_SetClusterStatus id enabled);
  GetClusterStatus := k_GetClusterStatus;
  SetSyncTime := k_SetSyncTime |}.

(** *** gateway/uninstall.go *)

(** What deleting a nil object gives: an error or a panic of the client library. *)
Variable delete_nil : outcome unit.

(** A failed list leaves an empty one. *)
Definition list_or_empty {A} (op : M W (list A)) : M W (list A) := wcatch op (fun _ => wret []).

Definition deleteKubernetesObjects (id : string) : M W unit :=
  let! loggingClusters := list_or_empty (list_clusters id) in
  if (1 <? length loggingClusters)%nat then wfail (ErrDeleteClusterInvalidList id)
  else
    let! secrets := list_or_empty (list_secrets id) in
    if (1 <? length secrets)%nat then wfail (ErrDeleteClusterInvalidList id)
    else
      (match loggingClusters with
       | c :: _ => kube_Delete (T := LoggingClusterSpec) (key_of c)
       | [] => wret tt
       end) ;!
      match secrets with
      | s :: _ => kube_Delete (T := SecretData) (key_of s)
      | [] => wlift delete_nil
      end.

Context `{OsBucket W} `{OsApi W} `{ManagementStorage W} `{!ActiveTask W TimestampedMetadata} `{ErrorText}.
Variable ctx_Err : error.

(** The polls the backoff controller, which has no limit of its own, allows before
    the context is done. *)
Fixpoint log_poll (id : string) (polls : nat) : M W unit :=
  match polls with
  | O => at_AddLogEntry WarnLevel "Uninstall canceled, logging data is still being deleted" ;! wfail ctx_Err
  | S polls => fun w =>
      match DeleteTaskStatus id [] w with
      | (w, Err err) => (at_AddLogEntry ErrorLevel (err_Error err) ;! log_poll id polls) w
      | (w, Panic p) => (w, Panic p)
      | (w, Ok DeletePending) =>
          match DoClusterDataDelete id [] w with
          | (w, Err err) => (at_AddLogEntry ErrorLevel (err_Error err) ;! log_poll id polls) w
          | (w, Panic p) => (w, Panic p)
          | (w, Ok _) => log_poll id polls w
          end
      | (w, Ok DeleteFinishedWithErrors) => at_AddLogEntry WarnLevel "some log entries not deleted" w
      | (w, Ok DeleteFinished) => at_AddLogEntry InfoLevel "Logging data deleted successfully" w
      | (w, Ok _) => log_poll id polls w
      end
  end.

(** A failed step is logged and ends the task. *)
Definition logged {A} (op : M W A) : M W A :=
  wcatch op (fun err => at_AddLogEntry ErrorLevel (err_Error err) ;! wfail err).

Definition Logs_OnTaskRunning (id : string) (polls : nat) : M W unit :=
  let! md := at_LoadTaskMetadata in
  at_AddLogEntry InfoLevel "Uninstalling logging capability for this cluster" ;!
  (if duo_DeleteStoredData (tmd_Options md) then
     at_AddLogEntry WarnLevel "Will delete opensearch data" ;!
     logged (DoClusterDataDelete id []) ;!
     at_AddLogEntry InfoLevel "Delete request accepted; polling status" ;!
     log_poll id polls
   else at_AddLogEntry InfoLevel "Log data will not be deleted") ;!
  at_AddLogEntry InfoLevel "Deleting Kubernetes data" ;!
  logged (deleteKubernetesObjects id) ;!
  at_AddLogEntry InfoLevel "Removing capability from cluster metadata" ;!
  ms_UpdateCluster (mkReference id) (NewRemoveCapabilityMutator (capabilities_Cluster CapabilityLogs)) ;!
  wret tt.

Definition logs_reset_deletion (caps : list ClusterCapability) : list ClusterCapability :=
  map (fun cap => if bool_decide (cc_Name cap = CapabilityLogs)
                  then mkClusterCapability (cc_Name cap) None else cap) caps.

Definition logs_reset_mutator : MutatorFunc Cluster := fun c =>
  match cl_Metadata c with
  | None => Ok c
  | Some _ => Ok (Clus.SetCapabilities (logs_reset_deletion (Clus.GetCapabilities c)) c)
  end.

Definition Logs_OnTaskCompleted (id : string) (state : TaskState) (args : list error) : M W unit :=
  let reset : M W unit :=
    wcatch (ms_UpdateCluster (mkReference id) logs_reset_mutator ;! wret tt)
      (fun err => at_AddLogEntry WarnLevel ("Failed to reset deletion timestamp: " +:+ err_Error err)) in
  match state with
  | TaskState_Completed => at_AddLogEntry InfoLevel "Capability uninstalled successfully"
  | TaskState_Failed =>
      match args with
      | [] => wlift (Panic "index out of range")
      | err :: _ => at_AddLogEntry ErrorLevel ("Capability uninstall failed: " +:+ err_Error err) ;! reset
      end
  | TaskState_Canceled => at_AddLogEntry InfoLevel "Capability uninstall canceled" ;! reset
  | _ => reset
  end.
End Objects.
Arguments KDriver : clear implicits.
Arguments mkKDriver {_} _ _.
Arguments kd_world {_} _.
Arguments kd_ephemeralSyncTime {_} _.

(** ** The agent's node *)

(** A listener is the list of configurations that were put into its channel. *)
Record LoggingNode := mkLoggingNode {
  ln_hasClient : bool;
  ln_config : option LoggingCapabilityConfig;
  ln_listeners : list (list LoggingCapabilityConfig);
  ln_conditions : ConditionTracker }.

Definition NewLoggingNode (ct : ConditionTracker) : LoggingNode := mkLoggingNode false None [] ct.

Definition ln_AddConfigListener (l : LoggingNode) : LoggingNode :=
  mkLoggingNode (ln_hasClient l) (ln_config l) (ln_listeners l ++ [[]])%list (ln_conditions l).

Definition ln_set_conditions (ct : ConditionTracker) (l : LoggingNode) : LoggingNode :=
  mkLoggingNode (ln_hasClient l) (ln_config l) (ln_listeners l) ct.

(** The client is set and a sync is started. *)
Definition ln_SetClient (l : LoggingNode) : LoggingNode :=
  mkLoggingNode true (ln_config l) (ln_listeners l) (ln_conditions l).

(** A slow listener is waited for. *)
Definition ln_updateConfig (now : Time) (config : option LoggingCapabilityConfig) (l : LoggingNode)
  : outcome LoggingNode :=
  let? c := deref config in
  let conditions :=
    if negb (lcc_Enabled c) && (0 <? length (lcc_Conditions c))%nat
    then ct_Set CondBackend StatusDisabled now (ln_conditions l)
    else ct_Clear CondBackend now (ln_conditions l) in
  Ok (mkLoggingNode (ln_hasClient l) config (map (fun q => q ++ [c])%list (ln_listeners l)) conditions).

Section LogNode.
Context {W : Type}.
(** The client of the gateway's Sync, for this node. *)
Context (client_Sync : option LoggingCapabilityConfig -> M W LoggingSyncResponse).

Definition ln_doSync (now : Time) (l : LoggingNode) : M W LoggingNode :=
  if negb (ln_hasClient l)
  then wret (ln_set_conditions (ct_Set CondConfigSync StatusPending now (ln_conditions l)) l)
  else fun w =>
    match client_Sync (ln_config l) w with
    | (w, Err _) => (w, Ok (ln_set_conditions (ct_Set CondConfigSync StatusFailure now (ln_conditions l)) l))
    | (w, Panic p) => (w, Panic p)
    | (w, Ok syncResp) =>
        (w, let? l := match lsr_ConfigStatus syncResp with
                      | ConfigStatus_NeedsUpdate => ln_updateConfig now (lsr_UpdatedConfig syncResp) l
                      | _ => Ok l
                      end in
            Ok (ln_set_conditions (ct_Clear CondConfigSync now (ln_conditions l)) l))
    end.

(** Whether a sync is started. *)
Definition ln_SyncNow (capabilityNames : list string) (l : LoggingNode) : outcome bool :=
  if (0 <? length capabilityNames)%nat && negb (bool_decide (CapabilityLogs ∈ capabilityNames))
  then Ok false
  else if negb (ln_hasClient l)
  then Err (StatusError codes_Unavailable "not connected to node server")
  else Ok true.
End LogNode.

(** stream.go: a lost stream disables the node. *)
Definition ln_StreamDisconnected (now : Time) (l : LoggingNode) : outcome LoggingNode :=
  ln_updateConfig now (Some (mkLoggingCapabilityConfig false [] None)) l.

Definition ln_GetHealth (now : Time) (l : LoggingNode) : Health :=
  let conditions := ct_List (ln_conditions l) in
  let conditions :=
    match ln_config l with
    | Some c =>
        if negb (lcc_Enabled c) && (0 <? length (lcc_Conditions c))%nat
        then (conditions ++ ["Disabled: " +:+ GoStd.Join ", " (lcc_Conditions c)])%list else conditions
    | None => conditions
    end in
  let conditions := merge_sort String.le conditions in
  mkHealth (Some now) (length conditions =? 0)%nat conditions ∅.
