(* ===== verification/LogAdminApi.v ===== *)
(** plugins/logging/pkg/gateway: the handlers of the administration of OpenSearch
    (admin_v2.go), the creation of the first administrator, and the details of the
    cluster for an agent (opensearch.go).  The work the handlers start in the
    background is recorded by [go_] and is given by [run_background]. *)

From S2P Require Import Prelude GoStd Util CoreV1 Http K8s LogAdmin LogAdminProps Logging.
From stdpp Require Import relations.

Local Open Scope string_scope.

Definition ErrLoggingCapabilityExists : error := ErrorString "at least one cluster has logging capability installed".
Definition ErrGetDetailsInvalidList (id : string) : error :=
  Wrapped ("fetching credentials for cluster " +:+ id +:+ " failed") ErrInvalidList.

(** ** Data *)

Inductive ClusterStatus := StatusUnset | ClusterPending | ClusterGreen | ClusterYellow | ClusterRed | ClusterErrored.

(** [iota + 1] from pending; the variable of the handler starts at -1. *)
Definition status_number (s : ClusterStatus) : Z :=
  match s with
  | StatusUnset => -1 | ClusterPending => 1 | ClusterGreen => 2
  | ClusterYellow => 3 | ClusterRed => 4 | ClusterErrored => 5
  end.

Definition ClusterStatusDescription (s : ClusterStatus) : string :=
  match s with
  | ClusterPending => "Opensearch cluster is initializing"
  | ClusterGreen => "Opensearch cluster is green"
  | ClusterYellow => "Opensearch cluster is yellow"
  | ClusterRed => "Opensearch cluster is red"
  | ClusterErrored => "Error fetching status from Opensearch cluster"
  | StatusUnset => "unknown status"
  end.

Record StatusResponse := mkStatusResponse { st_Status : Z; st_Details : string }.
Definition status_response (s : ClusterStatus) : StatusResponse :=
  mkStatusResponse (status_number s) (ClusterStatusDescription s).

(** The OpenSearch operator's object and the storage class, as far as they are read. *)
Record OpenSearchCluster := mkOpenSearchCluster { osc_Initialized : bool }.
Record StorageClass := mkStorageClass {}.

Record OpensearchDetails := mkOpensearchDetails {
  od_Username : string; od_Password : string; od_ExternalURL : string; od_TracingEnabled : bool }.

Definition empty_cluster : OpensearchClusterV2 := mkOpensearchClusterV2 "" None None None None None.

(** What a handler starts in the background. *)
Inductive Background := BgSetClient | BgInitForwarder | BgCreateInitialAdmin (password : string).

Class LogRuntime (W : Type) := {
  (** the client of [opensearchdata.Manager] is dropped *)
  os_UnsetClient : M W unit;
  go_ : Background -> M W unit;
  (** [util.GenerateRandomString] *)
  rnd_string : nat -> M W string }.

Section Api.
Context {W Q : Type} `{QuantityLib Q}
  `{!KubeClient W (OpniOpensearch Q)} `{!KubeClient W LoggingClusterSpec} `{!KubeClient W SecretData}
  `{!KubeClient W OpenSearchCluster} `{!KubeClient W StorageClass}
  `{!OsBucket W} `{!OsApi W} `{!LogRuntime W}.

(** The fields of [LoggingManagerV2], and the version of the build. *)
Variables (clusterName clusterNamespace storageNamespace : string) (natsRef : option string).
Variables (versionsVersion versionOverride : string) (branding : gmap string string).

Definition spec_key : ObjectKey := (storageNamespace, clusterName).
Definition ref_key : ObjectKey := (clusterNamespace, clusterName).

(** The version that is installed: the override, or that of the build. *)
Definition install_version : string :=
  if decide (versionOverride = "") then TrimPrefix versionsVersion "v" else versionOverride.

(** ** The description of the cluster *)

(** The retention is read through the embedded pointer, which may be nil. *)
Definition describe (o : OpniOpensearch Q) : outcome OpensearchClusterV2 :=
  let? data := generateDataDetails (oo_NodePools o) in
  let? controlplane := generateControlplaneDetails (oo_NodePools o) in
  match oo_IndexRetention o with
  | None => Panic "nil pointer dereference"
  | Some retention =>
      Ok (mkOpensearchClusterV2 (oo_ExternalURL o) (Some data) (generateIngestDetails (oo_NodePools o)) controlplane
            (Some (convertDashboardsToProtobuf (oo_Dashboards o))) (Some retention))
  end.

Definition GetOpensearchCluster : M W OpensearchClusterV2 := fun w =>
  match kube_Get (T := OpniOpensearch Q) ref_key w with
  | (w, Err err) => if IsNotFound err then (w, Ok empty_cluster) else (w, Err err)
  | (w, Panic p) => (w, Panic p)
  | (w, Ok o) => (w, describe (ob_Spec o))
  end.

(** ** Deletion: the client and the state of the administrator go first. *)

Definition user_secret : ObjectKey := (storageNamespace, "opni-user-password").

Definition DeleteOpensearchCluster : M W unit :=
  os_UnsetClient ;!
  DeleteInitialAdminState ;!
  let! loggingClusters := kube_List (T := LoggingClusterSpec) storageNamespace in
  if (0 <? length loggingClusters)%nat then wfail ErrLoggingCapabilityExists
  else
    kube_Delete (T := OpniOpensearch Q) spec_key ;!
    swallow (kube_Delete (T := SecretData) user_secret).

(** ** The first administrator *)

Definition generateAdminPassword : M W string :=
  let! password := rnd_string 8 in
  fun w =>
    match kube_Create (mkObject (mkObjectMeta user_secret.2 storageNamespace ∅ 0%Z 0%Z) (mkSecretData password)) w with
    | (w, Ok _) => (w, Ok password)
    | (w, Err err) =>
        if negb (IsAlreadyExists err) then (w, Err err)
        else (let! secret := kube_Get user_secret in wret (sd_password (ob_Spec secret))) w
    | (w, Panic p) => (w, Panic p)
    end.

Definition createInitialAdmin : M W unit :=
  let! _ := kube_Get (T := OpniOpensearch Q) spec_key in
  let! password := generateAdminPassword in
  go_ (BgCreateInitialAdmin password).

(** The polls of the backoff controller, which has no limit of its own; [true] says
    that the cluster will never be ready. *)
Fixpoint opensearchClusterReady (polls : nat) : M W bool :=
  match polls with
  | O => wret true
  | S polls => fun w =>
      match kube_Get (T := OpenSearchCluster) spec_key w with
      | (w, Err _) => (w, Ok true)
      | (w, Panic p) => (w, Panic p)
      | (w, Ok o) => if osc_Initialized (ob_Spec o) then (w, Ok false) else opensearchClusterReady polls w
      end
  end.

(** The goroutine of the administrator. *)
Definition run_background (polls tries : nat) (b : Background) : M W unit :=
  match b with
  | BgCreateInitialAdmin password => CreateInitialAdmin tries password [opensearchClusterReady polls]
  | BgSetClient | BgInitForwarder => wret tt
  end.

(** ** Creation and update *)

Definition status_versions (o : OpniOpensearch Q) : option string * option string :=
  (oo_StatusVersion o, oo_StatusOpensearchVersion o).

Definition new_opensearch (cluster : OpensearchClusterV2) (pools : list (NodePool Q)) (dashboards : DashboardsConfig Q)
  : OpniOpensearch Q :=
  mkOpniOpensearch (Some (default "7d" (oc2_DataRetention cluster))) pools dashboards true
    (oc2_ExternalURL cluster) "docker.io/rancher" opensearchVersion install_version natsRef None None.

Definition update_opensearch (cluster : OpensearchClusterV2) (pools : list (NodePool Q)) (dashboards : DashboardsConfig Q)
    (o : OpniOpensearch Q) : OpniOpensearch Q :=
  mkOpniOpensearch (oc2_DataRetention cluster) pools dashboards (oo_Security o)
    (oc2_ExternalURL cluster) (oo_ImageRepo o) (oo_OpensearchVersion o) (oo_Version o) (oo_NatsRef o)
    (oo_StatusVersion o) (oo_StatusOpensearchVersion o).

Definition to_dashboards := convertProtobufToDashboards (Q := Q) versionsVersion versionOverride branding.

Definition update_once (cluster : OpensearchClusterV2) (pools : list (NodePool Q)) : M W unit :=
  let! o := kube_Get (T := OpniOpensearch Q) spec_key in
  let! dashboards := wlift (to_dashboards (oc2_Dashboards cluster) (Some (status_versions (ob_Spec o)))) in
  kube_Update (mkObject (ob_Meta o) (update_opensearch cluster pools dashboards (ob_Spec o))).

Definition CreateOrUpdateOpensearchCluster (cluster : OpensearchClusterV2) : M W unit :=
  if negb (validDurationString (default "7d" (oc2_DataRetention cluster))) then wfail ErrInvalidRetention
  else match oc2_DataNodes cluster with
  | None => wfail ErrMissingDataNode
  | Some _ =>
      go_ BgSetClient ;!
      go_ BgInitForwarder ;!
      let! exists_ := (fun w => match kube_Get (T := OpniOpensearch Q) spec_key w with
                       | (w, Ok _) => (w, Ok true)
                       | (w, Err err) => if IsNotFound err then (w, Ok false) else (w, Err err)
                       | (w, Panic p) => (w, Panic p)
                       end) in
      let! pools := wlift (generateNodePools clusterName cluster) in
      if exists_ : bool then RetryOnConflict 5 (update_once cluster pools)
      else
        let! dashboards := wlift (to_dashboards (oc2_Dashboards cluster) None) in
        kube_Create (mkObject (mkObjectMeta clusterName storageNamespace ∅ 0%Z 0%Z) (new_opensearch cluster pools dashboards)) ;!
        createInitialAdmin
  end.

(** ** Upgrades *)

Definition upgrade_pending (o : OpniOpensearch Q) : bool :=
  match oo_StatusVersion o, oo_StatusOpensearchVersion o with
  | Some v, Some osv =>
      negb (bool_decide (v = TrimPrefix versionsVersion "v")) || negb (bool_decide (osv = opensearchVersion))
  | _, _ => false
  end.

Definition UpgradeAvailable : M W bool :=
  let! o := kube_Get (T := OpniOpensearch Q) spec_key in wret (upgrade_pending (ob_Spec o)).

Definition upgraded (o : OpniOpensearch Q) : OpniOpensearch Q :=
  let d := oo_Dashboards o in
  mkOpniOpensearch (oo_IndexRetention o) (oo_NodePools o)
    (mkDashboardsConfig (Some (dashboards_image opensearchVersion install_version)) (dbc_Replicas d) (dbc_Enable d)
       (dbc_Resources d) opensearchVersion (dbc_Tls d) (dbc_AdditionalConfig d))
    (oo_Security o) (oo_ExternalURL o) (oo_ImageRepo o) opensearchVersion install_version (oo_NatsRef o)
    (oo_StatusVersion o) (oo_StatusOpensearchVersion o).

Definition DoUpgrade : M W unit :=
  RetryOnConflict 5
    (let! o := kube_Get (T := OpniOpensearch Q) spec_key in kube_Update (mkObject (ob_Meta o) (upgraded (ob_Spec o)))).

(** ** Status *)

(** Storage classes have no namespace. *)
Definition GetStorageClasses : M W (list string) :=
  let! storageClasses := kube_List (T := StorageClass) "" in
  wret ((fun o => om_Name (ob_Meta o)) <$> storageClasses).

Definition of_os_status (s : OsClusterStatus) : ClusterStatus :=
  match s with
  | ClusterStatusGreen => ClusterGreen | ClusterStatusYellow => ClusterYellow
  | ClusterStatusRed => ClusterRed | ClusterStatusError => ClusterErrored
  end.

Definition GetOpensearchStatus : M W StatusResponse := fun w =>
  match kube_Get (T := OpniOpensearch Q) ref_key w with
  | (w, Err err) =>
      (w, Err (if IsNotFound err then StatusError codes_NotFound "unable to list cluster status" else err))
  | (w, Panic p) => (w, Panic p)
  | (w, Ok _) =>
      match kube_Get (T := OpenSearchCluster) ref_key w with
      | (w, Err err) => (w, if IsNotFound err then Ok (status_response ClusterPending) else Err err)
      | (w, Panic p) => (w, Panic p)
      | (w, Ok cluster) =>
          if negb (osc_Initialized (ob_Spec cluster)) then (w, Ok (status_response ClusterPending))
          else (let! s := os_GetClusterStatus in wret (status_response (of_os_status s))) w
      end
  end.

(** ** The first version of the API (admin.go), as far as it differs *)

Fixpoint convert_pools {A B} (f : A -> outcome B) (l : list A) : outcome (list B) :=
  match l with
  | [] => Ok []
  | a :: l => let? b := f a in let? bs := convert_pools f l in Ok (b :: bs)
  end.

Definition v1_describe (o : OpniOpensearch Q) : outcome OpensearchClusterV1 :=
  let? pools := convert_pools convertNodePoolToProtobuf (oo_NodePools o) in
  Ok (mkOpensearchClusterV1 (oo_ExternalURL o) pools (Some (convertDashboardsToProtobuf (oo_Dashboards o)))
        (match oo_IndexRetention o with Some "" | None => None | r => r end)).

Definition v1_GetOpensearchCluster : M W OpensearchClusterV1 := fun w =>
  match kube_Get (T := OpniOpensearch Q) ref_key w with
  | (w, Err err) => if IsNotFound err then (w, Ok (mkOpensearchClusterV1 "" [] None None)) else (w, Err err)
  | (w, Panic p) => (w, Panic p)
  | (w, Ok o) => (w, v1_describe (ob_Spec o))
  end.

Definition v1_DeleteOpensearchCluster : M W unit :=
  os_UnsetClient ;!
  let! loggingClusters := kube_List (T := LoggingClusterSpec) storageNamespace in
  if (0 <? length loggingClusters)%nat then wfail ErrLoggingCapabilityExists
  else kube_Delete (T := OpniOpensearch Q) spec_key.

(** A secret that is there already is an error. *)
Definition v1_generateAdminPassword : M W string :=
  let! password := rnd_string 8 in
  kube_Create (mkObject (mkObjectMeta user_secret.2 storageNamespace ∅ 0%Z 0%Z) (mkSecretData password)) ;!
  wret password.

Definition v1_to_dashboards := v1_convertProtobufToDashboards (Q := Q) versionsVersion versionOverride branding.

(** The request as far as the object takes it over. *)
Definition as_v2 (cluster : OpensearchClusterV1) : OpensearchClusterV2 :=
  mkOpensearchClusterV2 (oc1_ExternalURL cluster) None None None (oc1_Dashboards cluster) (oc1_DataRetention cluster).

Definition v1_update_once (cluster : OpensearchClusterV1) (pools : list (NodePool Q)) : M W unit :=
  let! o := kube_Get (T := OpniOpensearch Q) spec_key in
  let! dashboards := wlift (v1_to_dashboards (oc1_Dashboards cluster) (Some (status_versions (ob_Spec o)))) in
  kube_Update (mkObject (ob_Meta o) (update_opensearch (as_v2 cluster) pools dashboards (ob_Spec o))).

Definition v1_CreateOrUpdateOpensearchCluster (cluster : OpensearchClusterV1) : M W unit :=
  if negb (validDurationString (default "7d" (oc1_DataRetention cluster))) then wfail ErrInvalidRetention
  else
    go_ BgSetClient ;!
    let! exists_ := (fun w => match kube_Get (T := OpniOpensearch Q) spec_key w with
                     | (w, Ok _) => (w, Ok true)
                     | (w, Err err) => if IsNotFound err then (w, Ok false) else (w, Err err)
                     | (w, Panic p) => (w, Panic p)
                     end) in
    let! pools := wlift (convert_pools (convertProtobufToNodePool clusterName) (oc1_NodePools cluster)) in
    if exists_ : bool then RetryOnConflict 5 (v1_update_once cluster pools)
    else
      let! dashboards := wlift (v1_to_dashboards (oc1_Dashboards cluster) None) in
      kube_Create (mkObject (mkObjectMeta clusterName storageNamespace ∅ 0%Z 0%Z)
                     (new_opensearch (as_v2 cluster) pools dashboards)) ;!
      let! password := v1_generateAdminPassword in
      go_ (BgCreateInitialAdmin password).

(** Unlike its successor it compares with the version that is installed. *)
Definition v1_upgrade_pending (o : OpniOpensearch Q) : bool :=
  match oo_StatusVersion o, oo_StatusOpensearchVersion o with
  | Some v, Some osv => negb (bool_decide (v = install_version)) || negb (bool_decide (osv = opensearchVersion))
  | _, _ => false
  end.

Definition v1_UpgradeAvailable : M W bool :=
  let! o := kube_Get (T := OpniOpensearch Q) spec_key in wret (v1_upgrade_pending (ob_Spec o)).

(** ** opensearch.go *)

Definition GetDetails (authorizedClusterID : string) : M W OpensearchDetails :=
  let! opnimgmt := kube_Get (T := OpniOpensearch Q) spec_key in
  let! secrets := list_secrets storageNamespace authorizedClusterID in
  match secrets with
  | [secret] => wret (mkOpensearchDetails (om_Name (ob_Meta secret)) (sd_password (ob_Spec secret))
                        (oo_ExternalURL (ob_Spec opnimgmt)) true)
  | _ => wfail (ErrGetDetailsInvalidList authorizedClusterID)
  end.
End Api.

(** ** What the administration of OpenSearch stores, and what it then reports. *)

Section Api.
Context {W Q : Type} `{QuantityLib Q}
  `{!KubeClient W (OpniOpensearch Q)} `{!KubeClient W LoggingClusterSpec} `{!KubeClient W SecretData}
  `{!KubeClient W OpenSearchCluster} `{!KubeClient W StorageClass}
  `{!OsBucket W} `{!OsApi W} `{!LogRuntime W}.
Variables (clusterName clusterNamespace storageNamespace : string) (natsRef : option string).
Variables (versionsVersion versionOverride : string) (branding : gmap string string).

(** The OpenSearch objects of a world. *)
Abbreviation os_objs := (objs (W := W) (T := OpniOpensearch Q)).

(** What others may do to the OpenSearch objects while a handler runs is any relation
    [others] that composes.  Reading, and the operations on other things, leave the
    objects to them; a write takes effect once, at a moment that others have prepared, and
    one that is refused for a conflict has no effect. *)
Variable others : ApiDb (OpniOpensearch Q) -> ApiDb (OpniOpensearch Q) -> Prop.
Class ApiFrame : Prop := {
  others_preorder :: PreOrder others;
  others_steps d d' : others d d' -> api_steps d d';
  go_frame b w w' o : go_ b w = (w', o) -> others (os_objs w) (os_objs w');
  rnd_frame n w w' o : rnd_string n w = (w', o) -> others (os_objs w) (os_objs w');
  secret_create_frame (s : Object SecretData) w w' o : kube_Create s w = (w', o) -> others (os_objs w) (os_objs w');
  secret_get_frame k w w' o : kube_Get (T := SecretData) k w = (w', o) -> others (os_objs w) (os_objs w');
  os_get_frame k w w' o : kube_Get (T := OpniOpensearch Q) k w = (w', o) -> others (os_objs w) (os_objs w');
  os_create_frame (ob : Object (OpniOpensearch Q)) w w' : kube_Create ob w = (w', Ok tt) ->
    exists d created, others (os_objs w) d /\ ad_objs d !! key_of ob = None /\ os_objs w' = api_write d created ob;
  os_update_frame (ob : Object (OpniOpensearch Q)) w w' o : kube_Update ob w = (w', o) ->
    match o with
    | Ok _ => exists d old, others (os_objs w) d /\ ad_objs d !! key_of ob = Some old /\
        version_of ob = version_of old /\ os_objs w' = api_write d (om_CreationTimestamp (ob_Meta old)) ob
    | Err e => IsConflict e = true -> others (os_objs w) (os_objs w')
    | Panic _ => True
    end }.
Context `{!ApiFrame}.

(** A retried operation succeeds in one attempt, after attempts that met a conflict. *)
Lemma RetryOnConflict_Ok (R : W -> W -> Prop) `{!PreOrder R} steps (op : M W unit) w w' :
  (forall w w' e, op w = (w', Err e) -> IsConflict e = true -> R w w') ->
  RetryOnConflict steps op w = (w', Ok tt) -> exists w1, R w w1 /\ op w1 = (w', Ok tt).
Proof.
  intros Hop. revert w. induction steps as [|steps IH]; intros w; cbn.
  - destruct (op w) as [w1 [[]|e|p]] eqn:E; [|by destruct (IsConflict e)|done]. intros [= <-]. by exists w.
  - destruct (op w) as [w1 [[]|e|p]] eqn:E; [|destruct (IsConflict e) eqn:Hc|done]; [|destruct steps as [|steps]; [done|]|done].
    + intros [= <-]. by exists w.
    + intros (w2 & HR & E2)%IH. exists w2. split; [|done]. by transitivity w1; [eapply Hop|].
Qed.

#[local] Instance os_steps_preorder : PreOrder (fun w w' => others (os_objs w) (os_objs w')).
Proof. split; [by intros w|]. intros w1 w2 w3 H1 H2. by etransitivity. Qed.

(** An operation that writes no OpenSearch object of its own. *)
Definition frames {A} (m : M W A) : Prop := forall w w' o, m w = (w', o) -> others (os_objs w) (os_objs w').

Lemma frames_bind {A B} (m : M W A) (k : A -> M W B) : frames m -> (forall a, frames (k a)) -> frames (wbind m k).
Proof.
  intros Hm Hk w w' o [(a & w1 & E1 & E2)|[(e & E & ->)|(p & E & ->)]]%wbind_inv; [|by eapply Hm..].
  etransitivity; [by eapply Hm|by eapply Hk].
Qed.
Lemma frames_ret {A} (a : A) : frames (wret a).
Proof. by intros w w' o [= <- <-]. Qed.
Lemma frames_Get k : frames (kube_Get (T := OpniOpensearch Q) k).
Proof. intros w w' o. apply os_get_frame. Qed.

Lemma createInitialAdmin_frame : frames (createInitialAdmin (Q := Q) clusterName storageNamespace).
Proof.
  apply frames_bind; [apply frames_Get|intros _]. apply frames_bind; [|intros pw w w' o; apply go_frame].
  apply frames_bind; [intros w w' o; apply rnd_frame|]. intros pw w w' o.
  destruct (kube_Create _ w) as [w2 [[]|e|p]] eqn:Ec; apply secret_create_frame in Ec; [by intros [= <- <-]| |by intros [= <- <-]].
  destruct (negb (IsAlreadyExists e)); [by intros [= <- <-]|]. intros E. etransitivity; [exact Ec|].
  eapply frames_bind; [intros ???; apply secret_get_frame|intros; apply frames_ret|exact E].
Qed.

(** The object a request is stored as: the pools of the request, its address, and its
    retention, the default for a new object. *)
Record stores (cluster : OpensearchClusterV2) (new : bool) (o : OpniOpensearch Q) : Prop := {
  st_pools : generateNodePools clusterName cluster = Ok (oo_NodePools o);
  st_url : oo_ExternalURL o = oc2_ExternalURL cluster;
  st_retention : oo_IndexRetention o = if new then Some (default "7d" (oc2_DataRetention cluster)) else oc2_DataRetention cluster }.

(** One attempt to update: the object that was read is written back changed. *)
Lemma update_once_spec cluster pools w w' o :
  generateNodePools clusterName cluster = Ok pools ->
  update_once clusterName storageNamespace versionsVersion versionOverride branding cluster pools w = (w', o) ->
  match o with
  | Ok _ => api_wf (os_objs w) -> exists d old new, others (os_objs w) d /\ ad_objs d !! spec_key clusterName storageNamespace = Some old /\
      key_of new = spec_key clusterName storageNamespace /\ version_of new = version_of old /\
      os_objs w' = api_write d (om_CreationTimestamp (ob_Meta old)) new /\ stores cluster false (ob_Spec new)
  | Err e => IsConflict e = true -> others (os_objs w) (os_objs w')
  | Panic _ => True
  end.
Proof.
  intros Hp [(ob & w1 & E1 & E2)|[(e & E & ->)|(p & E & ->)]]%wbind_inv; [|by apply os_get_frame in E|done].
  pose proof (os_get_frame _ _ _ _ E1) as F1. apply kube_Get_law in E1 as [_ Hk].
  apply wbind_inv in E2 as [(dash & w2 & [= <- _] & E3)|[(e & [= <- _] & ->)|(p & [= <- _] & ->)]]; [|done..].
  apply os_update_frame in E3. destruct o as [[]|e|p]; [|intros Hc; etransitivity; [exact F1|by apply E3]|done].
  intros Hwf. destruct E3 as (d & old & Hs & Hold & Hv & Hw). exists d, old, (mkObject (ob_Meta ob) (update_opensearch cluster pools dash (ob_Spec ob))).
  destruct (api_steps_wf _ _ (others_steps _ _ F1) Hwf _ _ Hk) as [_ Hkey]. rewrite <- Hkey.
  split; [by etransitivity|]. split; [exact Hold|]. split; [done|]. split; [exact Hv|]. split; [exact Hw|by split].
Qed.

(** A request is stored by exactly one write, at which the object is as it should be; only
    others act before and after. *)
Lemma CreateOrUpdate_stores cluster w w' :
  api_wf (os_objs w) ->
  CreateOrUpdateOpensearchCluster (Q := Q) clusterName storageNamespace natsRef versionsVersion versionOverride branding cluster w = (w', Ok tt) ->
  exists d created o, others (os_objs w) d /\ others (api_write d created o) (os_objs w') /\
    key_of o = spec_key clusterName storageNamespace /\
    stores cluster (bool_decide (ad_objs d !! key_of o = None)) (ob_Spec o).
Proof.
  intros Hwf. unfold CreateOrUpdateOpensearchCluster. destruct (validDurationString _); [|done]. cbn [negb].
  destruct (oc2_DataNodes cluster) as [dn|]; [|done].
  intros ([] & w1 & G1%go_frame & ([] & w2 & G2%go_frame & (ex & w3 & E3 & (pools & w4 & [= <- Hp] & E)%wbind_Ok)%wbind_Ok)%wbind_Ok)%wbind_Ok.
  assert (others (os_objs w) (os_objs w2)) as S2 by (by etransitivity).
  assert (others (os_objs w2) (os_objs w3)) as S3.
  { destruct (kube_Get _ w2) as [w5 [ob|e|p]] eqn:Eg; apply os_get_frame in Eg; [|destruct (IsNotFound e); [|done]|done]; by injection E3 as <- <-. }
  assert (others (os_objs w) (os_objs w3)) as S by (by etransitivity). clear S2 S3 E3 G1 G2.
  destruct ex.
  - apply (RetryOnConflict_Ok _ _ _ _ _ (fun w w' e E => update_once_spec cluster pools w w' (Err e) Hp E)) in E as (w4 & S4 & E).
    assert (others (os_objs w) (os_objs w4)) as S5 by (by etransitivity).
    destruct (update_once_spec _ _ _ _ _ Hp E (api_steps_wf _ _ (others_steps _ _ S5) Hwf)) as (d & old & new & Hd & Hold & Hk & _ & Hw & Hs).
    eexists d, _, new. split; [by etransitivity|]. split; [by rewrite <- Hw|]. split; [done|]. rewrite Hk, Hold. exact Hs.
  - apply wbind_Ok in E as (dash & w4 & [= <- Hdash] & ([] & w5 & Ec & Ea)%wbind_Ok).
    apply os_create_frame in Ec as (d & created & Hd & Hnone & Hw). apply createInitialAdmin_frame in Ea.
    eexists d, created, _. split; [by etransitivity|]. split; [by rewrite <- Hw|]. split; [done|].
    rewrite Hnone. by split.
Qed.

(** The replicas of a message are 32-bit integers. *)
Definition int32_request (cluster : OpensearchClusterV2) : Prop :=
  (forall d, oc2_DataNodes cluster = Some d -> default 1 (dd_Replicas d) <= int32_max)%Z /\
  (forall i, oc2_IngestNodes cluster = Some i -> default 1 (id_Replicas i) <= int32_max)%Z.

(** The data nodes of a description and of the request.  The tolerations are not those of
    the request but as many copies of the last of them, and processors that were left out
    are reported as zero. *)
Definition describes_data (d r : DataDetails) : Prop :=
  (exists q, ParseQuantity (dd_MemoryLimit d) = Ok q /\ dd_MemoryLimit r = q_String q) /\
  dd_Replicas r = Some (default 1%Z (dd_Replicas d)) /\ dd_DiskSize r = dd_DiskSize d /\
  dd_NodeSelector r = dd_NodeSelector d /\
  dd_EnableAntiAffinity r = Some (default false (dd_EnableAntiAffinity d)) /\
  dd_Persistence r = Some (reported_persistence (dd_Persistence d)) /\
  dd_Tolerations r = last_repeated (convertTolerations (dd_Tolerations d)) /\
  dd_CpuResources r = reported_cpu (dd_CpuResources d).

Definition describes_ingest (i r : IngestDetails) : Prop :=
  (exists q, ParseQuantity (id_MemoryLimit i) = Ok q /\ id_MemoryLimit r = q_String q) /\
  id_Replicas r = Some (default 1%Z (id_Replicas i)) /\ id_NodeSelector r = id_NodeSelector i /\
  id_EnableAntiAffinity r = Some (default false (id_EnableAntiAffinity i)) /\
  id_Tolerations r = last_repeated (convertTolerations (id_Tolerations i)) /\
  id_CpuResources r = reported_cpu (id_CpuResources i).

Definition describes_controlplane (c r : ControlplaneDetails) : Prop :=
  cd_Replicas r = Some (default 3%Z (cd_Replicas c)) /\ cd_NodeSelector r = cd_NodeSelector c /\
  cd_Persistence r = Some (reported_persistence (cd_Persistence c)) /\
  cd_Tolerations r = last_repeated (convertTolerations (cd_Tolerations c)).

(** A description of what was asked for. *)
Definition describes (cluster desc : OpensearchClusterV2) : Prop :=
  oc2_ExternalURL desc = oc2_ExternalURL cluster /\ oc2_DataRetention desc = oc2_DataRetention cluster /\
  option_Forall2 describes_data (oc2_DataNodes cluster) (oc2_DataNodes desc) /\
  option_Forall2 describes_ingest (oc2_IngestNodes cluster) (oc2_IngestNodes desc) /\
  option_Forall2 describes_controlplane (oc2_ControlplaneNodes cluster) (oc2_ControlplaneNodes desc).

Lemma stores_described cluster new o :
  int32_request cluster -> is_Some (oc2_DataRetention cluster) -> is_Some (oc2_DataNodes cluster) ->
  stores cluster new o -> exists desc, describe o = Ok desc /\ describes cluster desc.
Proof.
  intros [Hd Hi] [ret Hret] [d Hdn] [Hp Hu Hr].
  destruct (cluster_description_round_trip clusterName _ _ _ Hp Hdn (Hd _ Hdn) Hi)
    as ((r & q & Er & Hq & Hm & Hrd) & Hin & Hcp).
  unfold describe. rewrite Er. cbn [obind].
  assert (exists rc, generateControlplaneDetails (oo_NodePools o) = Ok rc /\
    option_Forall2 describes_controlplane (oc2_ControlplaneNodes cluster) rc) as (rc & -> & Hrc).
  { destruct (oc2_ControlplaneNodes cluster) as [c|]; [|by eexists; split; [done|constructor]].
    destruct Hcp as (rc & E & Hrc). exists (Some rc). split; [done|]. by constructor. }
  assert (oo_IndexRetention o = Some ret) as -> by (rewrite Hr, Hret; by destruct new).
  cbn [obind]. eexists. split; [done|]. split; [done|]. split; [done|]. split; [|split; [|done]]; cbn.
  - rewrite Hdn. constructor. split; [by exists q|done].
  - destruct (oc2_IngestNodes cluster) as [i|]; [|by rewrite Hin; constructor].
    destruct Hin as (ri & qi & -> & Hqi & Hmi & Hri). constructor. split; [by exists qi|done].
Qed.

(** C21: a request that is accepted with a retention is stored by exactly one write: before
    and after it only others act on the objects, whatever they may do.  Reading the stored
    object back describes what was asked for: its address and retention, its data nodes
    however they were split in pools, and its ingest and control plane nodes, reported
    when and only when they were asked for; except that of the tolerations the last is
    reported as often as there are tolerations, and that processors are reported with zero
    for a request or limit that was left out. *)
Theorem stored_cluster_is_described cluster w w' :
  api_wf (os_objs w) -> int32_request cluster -> is_Some (oc2_DataRetention cluster) ->
  CreateOrUpdateOpensearchCluster (Q := Q) clusterName storageNamespace natsRef versionsVersion versionOverride branding cluster w = (w', Ok tt) ->
  exists d created o desc,
    others (os_objs w) d /\ others (api_write d created o) (os_objs w') /\
    key_of o = spec_key clusterName storageNamespace /\
    describe (ob_Spec o) = Ok desc /\ describes cluster desc.
Proof.
  intros Hwf Hi Hr E. assert (is_Some (oc2_DataNodes cluster)) as Hd.
  { unfold CreateOrUpdateOpensearchCluster in E. destruct (negb _); [done|]. by destruct (oc2_DataNodes cluster). }
  destruct (CreateOrUpdate_stores _ _ _ Hwf E) as (d & created & o & H1 & H2 & H3 & H4).
  destruct (stores_described _ _ _ Hi Hr Hd H4) as (desc & H5 & H6). by exists d, created, o, desc.
Qed.

(** Without a retention an update stores an object whose description panics. *)
Lemma update_without_retention cluster o :
  int32_request cluster -> oc2_DataRetention cluster = None -> is_Some (oc2_DataNodes cluster) ->
  stores cluster false o -> exists p, describe o = Panic p.
Proof.
  intros [Hd Hi] Hret [d Hdn] [Hp Hu Hr].
  destruct (cluster_description_round_trip clusterName _ _ _ Hp Hdn (Hd _ Hdn) Hi) as ((r & q & Er & _) & _ & Hcp).
  unfold describe. rewrite Er. cbn [obind].
  assert (exists rc, generateControlplaneDetails (oo_NodePools o) = Ok rc) as (rc & ->).
  { destruct (oc2_ControlplaneNodes cluster); [|by eexists]. destruct Hcp as (rc & E & _). by eexists. }
  rewrite Hr, Hret. by eexists.
Qed.

(** An installation is reported as up to date after its upgrade, unless the version is
    overridden, when it is never. *)
Definition status_reconciled (o : OpniOpensearch Q) : OpniOpensearch Q :=
  mkOpniOpensearch (oo_IndexRetention o) (oo_NodePools o) (oo_Dashboards o) (oo_Security o) (oo_ExternalURL o)
    (oo_ImageRepo o) (oo_OpensearchVersion o) (oo_Version o) (oo_NatsRef o) (Some (oo_Version o)) (Some (oo_OpensearchVersion o)).

Lemma upgrade_settles o :
  upgrade_pending versionsVersion (status_reconciled (upgraded versionsVersion versionOverride o)) =
  negb (bool_decide (versionOverride = "" \/ versionOverride = TrimPrefix versionsVersion "v")).
Proof.
  unfold upgrade_pending. cbn. unfold install_version. rewrite (bool_decide_eq_true_2 (opensearchVersion = _)) by done.
  rewrite orb_false_r. f_equal. case_decide; apply bool_decide_ext; naive_solver.
Qed.

(** An upgrade by the first version always settles. *)
Lemma v1_upgrade_settles o :
  v1_upgrade_pending versionsVersion versionOverride (status_reconciled (upgraded versionsVersion versionOverride o)) = false.
Proof. unfold v1_upgrade_pending. cbn. by rewrite !bool_decide_eq_true_2. Qed.

(** A role that is replaced and replaced back. *)
Lemma replace_at (pre post : list string) x y :
  x ∉ pre -> ReplaceFirstOccurrence (pre ++ x :: post) x y = (pre ++ y :: post)%list.
Proof.
  intros Hx. unfold ReplaceFirstOccurrence.
  assert (slices_Index (pre ++ x :: post) x = Some (length pre)) as ->.
  { induction pre as [|z pre IH]; cbn; [by rewrite decide_True|].
    rewrite decide_False by set_solver. rewrite IH by set_solver. done. }
  by rewrite take_app_length, <- drop_drop, drop_app_length.
Qed.

Lemma roles_round_trip roles :
  "master" ∉ roles -> ReplaceFirstOccurrence (ReplaceFirstOccurrence roles "controlplane" "master") "master" "controlplane" = roles.
Proof.
  intros Hm. destruct (first_occurrence roles "controlplane" "master") as [Hn Hy].
  destruct (decide ("controlplane" ∈ roles)) as [Hc|Hc].
  - destruct (Hy Hc) as (pre & post & -> & Hpre & -> & _). apply replace_at. set_solver.
  - destruct (Hn Hc) as [-> _]. by destruct (first_occurrence roles "master" "controlplane") as [Hn' _]; destruct (Hn' Hm).
Qed.

(** A node pool of the first version is read back as it was given, with the defaults
    filled in. *)
Lemma node_details_round_trip pool np :
  "master" ∉ nd_Roles pool -> convertProtobufToNodePool (Q := Q) clusterName pool = Ok np ->
  exists r q, convertNodePoolToProtobuf np = Ok r /\ ParseQuantity (nd_MemoryLimit pool) = Ok q /\
    nd_MemoryLimit r = q_String q /\ nd_Name r = nd_Name pool /\ nd_Replicas r = Some (default 1%Z (nd_Replicas pool)) /\
    nd_DiskSize r = nd_DiskSize pool /\ nd_NodeSelector r = nd_NodeSelector pool /\ nd_Roles r = nd_Roles pool /\
    nd_EnableAntiAffinity r = Some (default true (nd_EnableAntiAffinity pool)) /\
    nd_Persistence r = Some (reported_persistence (nd_Persistence pool)).
Proof.
  intros Hm. unfold convertProtobufToNodePool, convertNodePoolToProtobuf.
  destruct (v1_resources _ _) as [[res mem]|e|p] eqn:Er; [|done|done]. cbn [obind]. intros [= <-].
  erewrite generatePersistence_convert by done. cbn [obind].
  assert (ParseQuantity (nd_MemoryLimit pool) = Ok mem /\ quantity (rr_Limits res) "memory" = mem) as [Hq Hl].
  { unfold v1_resources in Er. case_decide; [done|]. destruct (ParseQuantity (nd_MemoryLimit pool)) as [q|e|p]; [|done|done]. cbn in Er.
    destruct (match nd_CPUResources pool with None => _ | Some c => _ end) as [rq|e|p] in Er; [|done|done]. cbn in Er.
    destruct (nd_CPUResources pool) as [c|]; cbn in Er.
    - case_decide; [injection Er as <- <-; unfold quantity; cbn; by rewrite lookup_singleton_eq|].
      destruct (ParseQuantity (cpu_Limit c)) as [l|e|p]; [|done|done]. injection Er as <- <-. unfold quantity. cbn.
      by rewrite lookup_insert_ne, lookup_singleton_eq.
    - injection Er as <- <-. unfold quantity. cbn. by rewrite lookup_singleton_eq. }
  eexists _, mem. split; [done|]. cbn. rewrite Hl, (roles_round_trip _ Hm). repeat (split; [done|]). split; [|done].
  unfold antiAffinityEnabled. cbn. by destruct (default true (nd_EnableAntiAffinity pool)).
Qed.
End Api.
