(* ===== verification/LoggingProps.v ===== *)
(** What the logging plugin guarantees: the protocol by which the log data of a
    cluster are deleted, the order of the steps of an uninstall, and the
    synchronisation of a node. *)

From S2P Require Import Prelude GoStd Util CoreV1 Storage Rbac Bootstrap Task Management Health MetricsBackend Http K8s Logging.

Local Open Scope string_scope.

(** ** The bucket *)

(** What the bucket holds, which deletions were requested, and whether the bucket can
    be read from now on.  A write that fails may have been carried out. *)
Class OsLaws (W : Type) `{OsBucket W} `{OsApi W} := {
  bkt_view : W -> gmap string string;
  os_jobs : W -> list string;
  bkt_up : W -> Prop;
  Keys_law w w' o : bkt_Keys w = (w', o) -> bkt_view w' = bkt_view w /\ os_jobs w' = os_jobs w /\
    match o with
    | Ok ks => forall k, k ∈ ks <-> is_Some (bkt_view w !! k)
    | Err e => errors_Is e nats_ErrNoKeysFound = true -> bkt_view w = ∅
    | Panic _ => False end;
  Get_law k w w' o : bkt_Get k w = (w', o) -> bkt_view w' = bkt_view w /\ os_jobs w' = os_jobs w /\
    match o with Ok v => bkt_view w !! k = Some v | Err _ => True | Panic _ => False end;
  Put_law k v w w' o : bkt_PutString k v w = (w', o) -> os_jobs w' = os_jobs w /\
    match o with
    | Ok _ => bkt_view w' = <[k := v]> (bkt_view w)
    | Err _ => bkt_view w' = bkt_view w \/ bkt_view w' = <[k := v]> (bkt_view w)
    | Panic _ => False end;
  Create_law k v w w' o : bkt_Create k v w = (w', o) -> os_jobs w' = os_jobs w /\
    match o with
    | Ok _ => bkt_view w' = <[k := v]> (bkt_view w)
    | Err _ => bkt_view w' = bkt_view w \/ bkt_view w' = <[k := v]> (bkt_view w)
    | Panic _ => False end;
  Delete_law k w w' o : bkt_Delete k w = (w', o) -> os_jobs w' = os_jobs w /\
    match o with
    | Ok _ => bkt_view w' = delete k (bkt_view w)
    | Err _ => bkt_view w' = bkt_view w \/ bkt_view w' = delete k (bkt_view w)
    | Panic _ => False end;
  Async_law id w w' o : AsyncDeleteByQuery id w = (w', o) -> bkt_view w' = bkt_view w /\
    match o with
    | Ok r => os_jobs w' = (os_jobs w ++ [id])%list
    | Err _ => os_jobs w' = os_jobs w \/ os_jobs w' = (os_jobs w ++ [id])%list
    | Panic _ => False end;
  GetTask_law t w w' o : GetTask t w = (w', o) -> bkt_view w' = bkt_view w /\ os_jobs w' = os_jobs w /\
    match o with Panic _ => False | _ => True end;
  Keys_up w w' o : bkt_Keys w = (w', o) -> bkt_up w ->
    bkt_up w' /\ match o with Err e => errors_Is e nats_ErrNoKeysFound = true | _ => True end;
  Get_up k w w' o : bkt_Get k w = (w', o) -> bkt_up w ->
    bkt_up w' /\ match o with Err e => bkt_view w !! k = None | _ => True end;
  Put_up k v w w' o : bkt_PutString k v w = (w', o) -> bkt_up w -> bkt_up w';
  Create_up k v w w' o : bkt_Create k v w = (w', o) -> bkt_up w -> bkt_up w';
  Delete_up k w w' o : bkt_Delete k w = (w', o) -> bkt_up w -> bkt_up w';
  Async_up id w w' o : AsyncDeleteByQuery id w = (w', o) -> bkt_up w -> bkt_up w';
  GetTask_up t w w' o : GetTask t w = (w', o) -> bkt_up w -> bkt_up w' }.

(** The calls after which the bucket can still be read. *)
Definition keeps_up {W A} `{OsLaws W} (op : M W A) : Prop :=
  forall w w' o, op w = (w', o) -> bkt_up w -> bkt_up w'.

Create HintDb keeps_up.

Section KeepsUp.
Context {W : Type} `{OsLaws W}.

Lemma keeps_bind {A B} (m : M W A) (k : A -> M W B) :
  keeps_up m -> (forall a, keeps_up (k a)) -> keeps_up (wbind m k).
Proof.
  intros Hm Hk w w' o [(a & w1 & E1 & E)|[(e & E & _)|(p & E & _)]]%wbind_inv Hu; eauto.
  eapply Hk; eauto.
Qed.

Lemma keeps_ret {A} (o : outcome A) : keeps_up (fun w : W => (w, o)).
Proof. by intros w w' o' [= <- <-]. Qed.
Lemma keeps_wret {A} (a : A) : keeps_up (wret (W := W) a).
Proof. apply keeps_ret. Qed.
Lemma keeps_wfail {A} e : keeps_up (wfail (W := W) (A := A) e).
Proof. apply keeps_ret. Qed.
Lemma keeps_if {A} (b : bool) (m n : M W A) : keeps_up m -> keeps_up n -> keeps_up (if b then m else n).
Proof. by destruct b. Qed.
Lemma keeps_decide {A} (P : Prop) (d : Decision P) (m n : M W A) :
  keeps_up m -> keeps_up n -> keeps_up (if decide P then m else n).
Proof. by destruct (decide P). Qed.
Lemma keeps_Keys : keeps_up bkt_Keys.
Proof. intros w w' o E Hu. by destruct (Keys_up _ _ _ E Hu). Qed.
Lemma keeps_Get k : keeps_up (bkt_Get k).
Proof. intros w w' o E Hu. by destruct (Get_up _ _ _ _ E Hu). Qed.
Lemma keeps_Put k v : keeps_up (bkt_PutString k v).
Proof. intros w w' o. apply Put_up. Qed.
Lemma keeps_Create k v : keeps_up (bkt_Create k v).
Proof. intros w w' o. apply Create_up. Qed.
Lemma keeps_Delete k : keeps_up (bkt_Delete k).
Proof. intros w w' o. apply Delete_up. Qed.
Lemma keeps_Async id : keeps_up (AsyncDeleteByQuery id).
Proof. intros w w' o. apply Async_up. Qed.
Lemma keeps_GetTask t : keeps_up (GetTask t).
Proof. intros w w' o. apply GetTask_up. Qed.
End KeepsUp.

#[export] Hint Resolve keeps_bind keeps_ret keeps_wret keeps_wfail keeps_if keeps_decide keeps_Keys keeps_Get
  keeps_Put keeps_Create keeps_Delete keeps_Async keeps_GetTask : keeps_up.

Section Deletion.
Context {W : Type} `{OsLaws W}.

Lemma keyExists_up id : keeps_up (keyExists id).
Proof.
  intros w w' o. unfold keyExists. destruct (bkt_Keys w) as [w1 [ks|e|p]] eqn:E; apply keeps_Keys in E.
  - by intros [= <- <-].
  - destruct (errors_Is _ _); by intros [= <- <-].
  - by intros [= <- <-].
Qed.
#[local] Hint Resolve keyExists_up : keeps_up.

Lemma start_job_up id ex : keeps_up (start_job id ex).
Proof. unfold start_job. auto 8 with keeps_up. Qed.
#[local] Hint Resolve start_job_up : keeps_up.

Lemma do_delete_up id : keeps_up (do_delete id).
Proof.
  intros w w' o. unfold do_delete. destruct (keyExists id w) as [w1 [b|e|p]] eqn:Ek; apply keyExists_up in Ek.
  - destruct b; [|intros E Hu; eapply start_job_up; eauto].
    destruct (bkt_Get id w1) as [w2 [v|e|p]] eqn:Eg; apply keeps_Get in Eg.
    + case_decide; [intros E Hu; eapply start_job_up; eauto|intros [= <- <-]; auto].
    + intros [= <- <-]; auto.
    + intros [= <- <-]; auto.
  - intros [= <- <-]; auto.
  - intros [= <- <-]; auto.
Qed.

Lemma delete_status_up id : keeps_up (delete_status id).
Proof. unfold delete_status. auto 12 with keeps_up. Qed.

Lemma keyExists_inv id (w w' : W) o :
  keyExists id w = (w', o) -> bkt_view w' = bkt_view w /\ os_jobs w' = os_jobs w /\
  match o with
  | Ok b => b = bool_decide (is_Some (bkt_view w !! id))
  | Err e => exists w1, bkt_Keys w = (w1, Err e) /\ errors_Is e nats_ErrNoKeysFound = false
  | Panic _ => False end.
Proof.
  unfold keyExists. destruct (bkt_Keys w) as [w1 [ks|e|p]] eqn:E; destruct (Keys_law _ _ _ E) as (Hv & Hj & Ho).
  - intros [= <- <-]. split; [done|]. split; [done|]. by apply bool_decide_ext.
  - destruct (errors_Is e nats_ErrNoKeysFound) eqn:He; intros [= <- <-]; (split; [done|]); (split; [done|]).
    + rewrite (Ho eq_refl), lookup_empty. symmetry. apply bool_decide_eq_false. by intros [].
    + by exists w1.
  - done.
Qed.

(** Starting a job requests exactly one deletion, for this cluster, when it
    succeeds, and at most one otherwise; then the entry is the job's id. *)
Lemma start_job_inv id ex (w w' : W) o :
  start_job id ex w = (w', o) ->
  (os_jobs w' = os_jobs w \/ os_jobs w' = (os_jobs w ++ [id])%list) /\
  match o with
  | Ok _ => exists w1 w2 resp, bkt_view w1 = <[id := pendingValue]> (bkt_view w) /\
      AsyncDeleteByQuery id w1 = (w2, Ok resp) /\ IsError resp = false /\
      os_jobs w' = (os_jobs w ++ [id])%list /\
      bkt_view w' = <[id := gjson_task (rs_Body resp)]> (bkt_view w)
  | Err _ => True
  | Panic _ => False end.
Proof.
  unfold start_job. intros [(u & w1 & E1 & E)|[(e & E1 & ->)|(p & E1 & ->)]]%wbind_inv.
  - assert (os_jobs w1 = os_jobs w /\ bkt_view w1 = <[id := pendingValue]> (bkt_view w)) as [Hj1 Hv1].
    { destruct ex; [by apply Put_law in E1 as [? ?]|by apply Create_law in E1 as [? ?]]. }
    apply wbind_inv in E as [(r & w2 & E2 & E)|[(e & E2 & ->)|(p & E2 & ->)]]; apply Async_law in E2 as E2'; destruct E2' as [Hv2 Ho2].
    + destruct (IsError r) eqn:Hr.
      * injection E as <- <-. rewrite Ho2, Hj1. auto.
      * apply Put_law in E as [Hj3 Ho3]. rewrite Hj3, Ho2, Hj1. split; [by right|].
        destruct o as [u'|e|p]; [|done|done].
        exists w1, w2, r. split; [done|]. split; [done|]. split; [done|]. split; [done|].
        rewrite Ho3, Hv2, Hv1. by rewrite insert_insert_eq.
    + rewrite <- Hj1. split; [by destruct Ho2; [left|right]|done].
    + done.
  - split; [|done]. left. destruct ex; [by apply Put_law in E1 as [? ?]|by apply Create_law in E1 as [? ?]].
  - destruct ex; [by apply Put_law in E1 as [? ?]|by apply Create_law in E1 as [? ?]].
Qed.

(** A deletion is requested only when no job is recorded for the cluster. *)
Lemma do_delete_jobs id tid (w w' : W) o :
  bkt_view w !! id = Some tid -> tid <> pendingValue -> do_delete id w = (w', o) ->
  o = Ok tt /\ os_jobs w' = os_jobs w /\ bkt_view w' = bkt_view w.
Proof.
  intros Hv Ht. unfold do_delete. destruct (keyExists id w) as [w1 [b|e|p]] eqn:Ek;
    apply keyExists_inv in Ek as (Hv1 & Hj1 & Hk); [|intros [= <- <-]; done|done].
  rewrite Hv in Hk. subst b. rewrite bool_decide_eq_true_2 by done.
  destruct (bkt_Get id w1) as [w2 [v|e|p]] eqn:Eg; apply Get_law in Eg as (Hv2 & Hj2 & Hg); [| |done].
  - rewrite Hv1, Hv in Hg. injection Hg as <-. rewrite decide_False by done. intros [= <- <-].
    by rewrite Hj2, Hj1, Hv2, Hv1.
  - intros [= <- <-]. by rewrite Hj2, Hj1, Hv2, Hv1.
Qed.

(** With a readable bucket, a call that reports success leaves an entry, and a new
    entry is the id of a job that was requested by the call. *)
Lemma do_delete_inv id (w w' : W) :
  bkt_up w -> do_delete id w = (w', Ok tt) ->
  exists tid, bkt_view w' !! id = Some tid /\
    ((bkt_view w !! id = Some tid /\ tid <> pendingValue /\ os_jobs w' = os_jobs w) \/
     ((bkt_view w !! id = None \/ bkt_view w !! id = Some pendingValue) /\
      os_jobs w' = (os_jobs w ++ [id])%list /\
      exists w1 w2 resp, AsyncDeleteByQuery id w1 = (w2, Ok resp) /\ tid = gjson_task (rs_Body resp))).
Proof.
  intros Hup. unfold do_delete. destruct (keyExists id w) as [w1 [b|e|p]] eqn:Ek;
    pose proof (keyExists_up _ _ _ _ Ek Hup) as Hup1; apply keyExists_inv in Ek as (Hv1 & Hj1 & Hk); [| |done].
  2: { destruct Hk as (w2 & Ek & He). apply Keys_up in Ek as [_ ?]; [congruence|done]. }
  destruct b.
  - symmetry in Hk. apply bool_decide_eq_true in Hk as [tid Htid].
    destruct (bkt_Get id w1) as [w2 [v|e|p]] eqn:Eg; [|by apply Get_up in Eg as [_ Hn]; [rewrite Hv1, Htid in Hn|]|by apply Get_law in Eg as (_ & _ & [])].
    apply Get_law in Eg as (Hv2 & Hj2 & Hg). rewrite Hv1, Htid in Hg. injection Hg as <-.
    case_decide as Hp.
    + intros (_ & w3 & w4 & resp & _ & Ea & _ & Hj & Hv)%start_job_inv. exists (gjson_task (rs_Body resp)).
      rewrite Hv. split; [by rewrite lookup_insert_eq|]. right. split; [right; congruence|].
      split; [congruence|]. by exists w3, w4, resp.
    + intros [= <-]. exists tid. rewrite Hv2, Hv1, Htid. split; [done|]. left. split; [done|]. split; [done|]. congruence.
  - symmetry in Hk. apply bool_decide_eq_false in Hk.
    intros (_ & w3 & w4 & resp & _ & Ea & _ & Hj & Hv)%start_job_inv. exists (gjson_task (rs_Body resp)).
    rewrite Hv. split; [by rewrite lookup_insert_eq|]. right.
    split; [left; by apply eq_None_not_Some|]. split; [congruence|]. by exists w3, w4, resp.
Qed.

(** A status call that starts in [w] is told by OpenSearch that the job recorded under
    the id has completed. *)
Definition job_completed (id : string) (w : W) : Prop :=
  exists w1 w2 w3 tid resp, bkt_view w !! id = Some tid /\ tid <> pendingValue /\
    keyExists id w = (w1, Ok true) /\ bkt_Get id w1 = (w2, Ok tid) /\
    GetTask tid w2 = (w3, Ok resp) /\ IsError resp = false /\ gjson_completed (rs_Body resp) = true.

Lemma delete_status_inv id (w w' : W) st :
  delete_status id w = (w', Ok st) ->
  match st with
  | DeletePending => bkt_view w !! id = Some pendingValue /\ bkt_view w' = bkt_view w
  | DeleteRunning => bkt_view w' = bkt_view w
  | DeleteFinished => job_completed id w /\ bkt_view w' = delete id (bkt_view w)
  | DeleteFinishedWithErrors => bkt_view w' = bkt_view w /\ (bkt_view w !! id = None \/ job_completed id w)
  | DeleteError => False
  end /\ os_jobs w' = os_jobs w.
Proof.
  unfold delete_status. intros (b & w1 & Ek & E)%wbind_Ok. pose proof Ek as Ek0. apply keyExists_inv in Ek as (Hv1 & Hj1 & ->).
  destruct (bkt_view w !! id) as [tid|] eqn:Ht.
  2: { cbn in E. injection E as <- <-. split; [|done]. by split; [|left]. }
  rewrite bool_decide_eq_true_2 in E, Ek0 by done. cbn in E.
  apply wbind_Ok in E as (tid' & w2 & Eg & E). pose proof Eg as Eg0. apply Get_law in Eg as (Hv2 & Hj2 & Hg).
  rewrite Hv1, Ht in Hg. injection Hg as <-. case_decide as Hp.
  { injection E as <- <-. rewrite Hp, Hv2, Hv1, Hj2. by repeat split. }
  apply wbind_Ok in E as (resp & w3 & Et & E). pose proof (GetTask_law _ _ _ _ Et) as (Hv3 & Hj3 & _).
  destruct (IsError resp) eqn:Hr; [done|].
  destruct (gjson_completed (rs_Body resp)) eqn:Hc; cbn [negb] in E.
  2: { injection E as <- <-. split; congruence. }
  assert (job_completed id w) as Hjc by by exists w1, w2, w3, tid, resp.
  destruct (gjson_failures (rs_Body resp)); cbn in E; [|injection E as <- <-; split; [|congruence]; split; [congruence|by right]].
  apply wbind_Ok in E as ([] & w4 & Ed & [= <- <-]). apply Delete_law in Ed as [Hj4 Hv4].
  split; [|congruence]. split; [done|]. congruence.
Qed.

(** An entry is not lost by a call that fails, unless its job has completed. *)
Lemma start_job_entry id ex (w w' : W) o :
  is_Some (bkt_view w !! id) -> start_job id ex w = (w', o) -> is_Some (bkt_view w' !! id).
Proof.
  assert (forall v (w1 w2 : W), (bkt_view w2 = bkt_view w1 \/ bkt_view w2 = <[id := v]> (bkt_view w1)) ->
    is_Some (bkt_view w1 !! id) -> is_Some (bkt_view w2 !! id)) as Hw.
  { intros v w1 w2 [->| ->] Hs; [done|]. rewrite lookup_insert_eq. by eexists. }
  assert (forall (w1 w2 : W) o, (if ex then bkt_PutString id pendingValue else bkt_Create id pendingValue) w1 = (w2, o) ->
    is_Some (bkt_view w1 !! id) -> is_Some (bkt_view w2 !! id)) as Hfirst.
  { intros w1 w2 o1 E. apply (Hw pendingValue).
    destruct ex; [apply Put_law in E as [_ E]|apply Create_law in E as [_ E]]; destruct o1; done || by right. }
  intros Hs. unfold start_job. intros [(u & w1 & E1 & E)|[(e & E1 & ->)|(p & E1 & ->)]]%wbind_inv; [|by eapply Hfirst..].
  apply Hfirst in E1; [|done].
  apply wbind_inv in E as [(r & w2 & E2 & E)|[(e & E2 & ->)|(p & E2 & ->)]]; apply Async_law in E2 as [Hv2 _]; [|by rewrite Hv2..].
  rewrite <- Hv2 in E1. destruct (IsError r); [by injection E as <- <-|].
  apply Put_law in E as [_ E]. apply (Hw (gjson_task (rs_Body r)) w2); [|done].
  destruct o; [by right|done|done].
Qed.

Lemma do_delete_entry id (w w' : W) o :
  is_Some (bkt_view w !! id) -> do_delete id w = (w', o) -> is_Some (bkt_view w' !! id).
Proof.
  intros Hs. unfold do_delete. destruct (keyExists id w) as [w1 [b|e|p]] eqn:Ek;
    apply keyExists_inv in Ek as (Hv1 & _ & Hk); [|intros [= <- <-]; by rewrite Hv1|done].
  rewrite <- Hv1 in Hs. destruct b; [|by apply start_job_entry].
  destruct (bkt_Get id w1) as [w2 [v|e|p]] eqn:Eg; apply Get_law in Eg as (Hv2 & _ & _); rewrite <- Hv2 in Hs.
  - case_decide; [by apply start_job_entry|by intros [= <- <-]].
  - by intros [= <- <-].
  - by intros [= <- <-].
Qed.

Lemma delete_status_entry id (w w' : W) e :
  is_Some (bkt_view w !! id) -> delete_status id w = (w', Err e) ->
  is_Some (bkt_view w' !! id) \/ job_completed id w.
Proof.
  intros Hs. unfold delete_status. intros [(b & w1 & Ek & E)|[(e' & Ek & _)|(p & _ & [=])]]%wbind_inv.
  2: { apply keyExists_inv in Ek as (Hv1 & _). rewrite Hv1. by left. }
  pose proof Ek as Ek0. apply keyExists_inv in Ek as (Hv1 & _ & ->). rewrite bool_decide_eq_true_2 in E, Ek0 by done. cbn [negb] in E.
  apply wbind_inv in E as [(tid & w2 & Eg & E)|[(e' & Eg & _)|(p & _ & [=])]].
  2: { apply Get_law in Eg as (Hv2 & _). rewrite Hv2, Hv1. by left. }
  pose proof Eg as Eg0. apply Get_law in Eg as (Hv2 & _ & Hg). case_decide as Hp; [done|].
  apply wbind_inv in E as [(resp & w3 & Et & E)|[(e' & Et & _)|(p & _ & [=])]];
    pose proof (GetTask_law _ _ _ _ Et) as (Hv3 & _).
  2: { rewrite Hv3, Hv2, Hv1. by left. }
  destruct (IsError resp) eqn:Hr; [injection E as <- _; rewrite Hv3, Hv2, Hv1; by left|].
  destruct (gjson_completed (rs_Body resp)) eqn:Hc; [|done].
  right. exists w1, w2, w3, tid, resp. by rewrite <- Hv1.
Qed.

(** A deletion that finished with failures stays recorded, and no later call starts
    another one for the cluster. *)
Lemma failed_deletion_is_never_retried id tid resp (w w1 w2 w' : W) o :
  bkt_view w !! id = Some tid -> tid <> pendingValue ->
  GetTask tid w1 = (w2, Ok resp) ->
  do_delete id w = (w', o) ->
  o = Ok tt /\ os_jobs w' = os_jobs w /\ bkt_view w' !! id = Some tid.
Proof.
  intros Hv Ht _ E. destruct (do_delete_jobs id tid w w' o Hv Ht E) as (-> & Hj & Hv').
  split; [done|]. split; [done|]. by rewrite Hv'.
Qed.
End Deletion.

(** ** The uninstall task *)

(** The calls of the runner that do not concern the bucket. *)
Class TaskFrame (W : Type) `{OsLaws W} `{!ActiveTask W TimestampedMetadata} := {
  tf_md w w' o : at_LoadTaskMetadata w = (w', o) -> bkt_view w' = bkt_view w /\ os_jobs w' = os_jobs w;
  tf_log l s w w' o : at_AddLogEntry l s w = (w', o) -> bkt_view w' = bkt_view w /\ os_jobs w' = os_jobs w;
  tf_md_up : keeps_up at_LoadTaskMetadata;
  tf_log_up l s : keeps_up (at_AddLogEntry l s) }.

Section Uninstalling.
Context {W : Type} `{OsLaws W} `{!ActiveTask W TimestampedMetadata} `{!TaskFrame W} `{ErrorText}.
Variable ctx_Err : error.

Lemma DoClusterDataDelete_nil id : DoClusterDataDelete (W := W) id [] = do_delete id.
Proof. done. Qed.
Lemma DeleteTaskStatus_nil id : DeleteTaskStatus (W := W) id [] = delete_status id.
Proof. done. Qed.

(** An entry of the task's log, and any number of them. *)
Definition log_entry_step (w w' : W) : Prop := exists l text, at_AddLogEntry l text w = (w', Ok tt).
Definition log_entries : W -> W -> Prop := rtc log_entry_step.

(** One round of the polling that does not end it. *)
Definition poll_round (id : string) (w w' : W) : Prop :=
  exists w1 o, delete_status id w = (w1, o) /\
    match o with
    | Ok DeletePending =>
        exists w2 r, do_delete id w1 = (w2, r) /\ (w' = w2 \/ log_entry_step w2 w')
    | Ok DeleteRunning => w' = w1
    | Err _ => log_entry_step w1 w'
    | _ => False
    end.
Definition finished (st : DeleteStatus) : Prop := st = DeleteFinished \/ st = DeleteFinishedWithErrors.

Lemma log_poll_rounds id polls : forall (w w' : W),
  log_poll ctx_Err id polls w = (w', Ok tt) ->
  exists w1 w2 st, rtc (poll_round id) w w1 /\ delete_status id w1 = (w2, Ok st) /\ finished st /\ log_entry_step w2 w'.
Proof.
  induction polls as [|polls IH]; intros w w'.
  { intros (? & ? & _ & E)%wbind_Ok. done. }
  cbn [log_poll]. rewrite DeleteTaskStatus_nil, DoClusterDataDelete_nil.
  assert (forall w1, poll_round id w w1 -> log_poll ctx_Err id polls w1 = (w', Ok tt) ->
    exists w1 w2 st, rtc (poll_round id) w w1 /\ delete_status id w1 = (w2, Ok st) /\ finished st /\ log_entry_step w2 w') as Hmore.
  { intros w1 Hr (w2 & w3 & st & Hrt & Hx)%IH. exists w2, w3, st. split; [|done]. by eapply rtc_l. }
  destruct (delete_status id w) as [w1 [st|e|p]] eqn:Es; [| |done].
  - destruct st.
    + destruct (do_delete id w1) as [w2 [[]|e|p]] eqn:Ed; [| |done].
      * apply Hmore. exists w1, (Ok DeletePending). split; [done|]. exists w2, (Ok tt). auto.
      * intros ([] & w3 & El & E)%wbind_Ok. apply (Hmore w3); [|done]. exists w1, (Ok DeletePending). split; [done|].
        exists w2, (Err e). split; [done|]. right. by eexists _, _.
    + apply Hmore. by exists w1, (Ok DeleteRunning).
    + intros E. exists w, w1, DeleteFinished. split; [constructor|]. split; [done|]. split; [by left|]. by eexists _, _.
    + intros E. exists w, w1, DeleteFinishedWithErrors. split; [constructor|]. split; [done|]. split; [by right|]. by eexists _, _.
    + by apply delete_status_inv in Es as [[] _].
  - intros ([] & w2 & El & E)%wbind_Ok. apply (Hmore w2); [|done]. exists w1, (Err e). split; [done|]. by eexists _, _.
Qed.

Lemma log_entry_view w w' : log_entry_step w w' -> bkt_view w' = bkt_view w.
Proof. intros (l & text & E). by apply tf_log in E as [? _]. Qed.

(** A round keeps the entry of the cluster, unless its job has completed. *)
Lemma poll_round_entry id (w w' : W) :
  is_Some (bkt_view w !! id) -> poll_round id w w' -> is_Some (bkt_view w' !! id) \/ job_completed id w.
Proof.
  intros Hin (w1 & o & Es & Ho). destruct o as [st|e|p]; [| |done].
  - apply delete_status_inv in Es as [Es _]. destruct st; try done.
    + left. destruct Es as [_ Hv], Ho as (w2 & r & Ed & Hw). rewrite <- Hv in Hin. apply do_delete_entry in Ed; [|done].
      destruct Hw as [-> | Hl]; [done|]. by rewrite (log_entry_view _ _ Hl).
    + left. by rewrite Ho, Es.
  - destruct (delete_status_entry id w w1 e Hin Es) as [Hs|Hc]; [left|by right]. by rewrite (log_entry_view _ _ Ho).
Qed.

(** Polling ends well only after a round in which the recorded job had completed. *)
Lemma poll_completed id (w w1 : W) w2 st :
  is_Some (bkt_view w !! id) -> rtc (poll_round id) w w1 -> delete_status id w1 = (w2, Ok st) -> finished st ->
  exists wp, rtc (poll_round id) w wp /\ job_completed id wp /\ rtc (poll_round id) wp w1.
Proof.
  intros Hin Hr Es Hf. induction Hr as [w1|w wx w1 Hx Hr IH].
  - exists w1. split; [constructor|]. split; [|constructor]. apply delete_status_inv in Es as [Es _].
    destruct Hf as [-> | ->]; [by destruct Es|]. destruct Es as [_ [Hn|Hc]]; [|done]. rewrite Hn in Hin. by destruct Hin.
  - destruct (poll_round_entry id w wx Hin Hx) as [Hin'|Hc].
    + destruct (IH Hin' Es) as (wp & Hp1 & Hp2 & Hp3). exists wp. split; [by eapply rtc_l|done].
    + exists w. split; [constructor|]. split; [done|]. by eapply rtc_l.
Qed.

Context `{!KubeClient W LoggingClusterSpec} `{!KubeClient W SecretData} `{ManagementStorage W}.
Variables (namespace : string) (delete_nil : outcome unit).

Lemma logged_Ok {A} (op : M W A) w w' a : logged op w = (w', Ok a) -> op w = (w', Ok a).
Proof.
  unfold logged, wcatch. destruct (op w) as [w1 [x|e|p]]; [done| |done].
  by intros (? & ? & _ & E)%wbind_Ok.
Qed.

(** The deletion is requested: one was on record before, or the call starts one job. *)
Definition deletion_requested (id : string) (w w' : W) : Prop :=
  do_delete id w = (w', Ok tt) /\
  exists tid, bkt_view w' !! id = Some tid /\
    ((bkt_view w !! id = Some tid /\ tid <> pendingValue /\ os_jobs w' = os_jobs w) \/ os_jobs w' = (os_jobs w ++ [id])%list).

(** Rounds of polling, in one of which OpenSearch reports the job as completed. *)
Definition deletion_awaited (id : string) (w w' : W) : Prop :=
  exists wp wq st, rtc (poll_round id) w wp /\ job_completed id wp /\ rtc (poll_round id) wp wq /\
    delete_status id wq = (w', Ok st) /\ finished st.

(** The objects of a cluster are those of the namespace with its label. *)
Definition objects_of {T} {K : KubeClient W T} (id : string) (w : W) (l : list (Object T)) : Prop :=
  forall o, o ∈ l <-> (exists k, ad_objs (objs w) !! k = Some o) /\
    om_Namespace (ob_Meta o) = namespace /\ om_Labels (ob_Meta o) !! OpniClusterID = Some id.

(** The objects of the cluster are listed and deleted: the logging object, unless there is
    none or it could not be listed, and the secret with the credentials. *)
Definition objects_deleted (id : string) (w w' : W) : Prop :=
  exists wa wb wc (lc : outcome (list (Object LoggingClusterSpec))) (s : Object SecretData),
    list_clusters namespace id w = (wa, lc) /\ list_secrets namespace id wa = (wb, Ok [s]) /\ objects_of id wb [s] /\
    match lc with
    | Ok [c] => objects_of id wa [c] /\ kube_Delete (T := LoggingClusterSpec) (key_of c) wb = (wc, Ok tt) /\
                ad_objs (objs (T := LoggingClusterSpec) wc) !! key_of c = None
    | Ok [] => objects_of (T := LoggingClusterSpec) id wa [] /\ wc = wb
    | Err _ => wc = wb
    | _ => False
    end /\
    kube_Delete (T := SecretData) (key_of s) wc = (w', Ok tt) /\ ad_objs (objs (T := SecretData) w') !! key_of s = None.

Lemma list_objects {T} {K : KubeClient W T} id (w w' : W) l :
  (let! l := kube_List (T := T) namespace in wret (of_cluster id l)) w = (w', Ok l) -> objects_of id w' l.
Proof.
  intros (all & w1 & E & [= <- <-])%wbind_Ok. apply kube_List_law in E as (_ & items & Hp & ->). intros o.
  unfold of_cluster. rewrite !list_elem_of_filter, Hp, list_elem_of_fmap. split.
  - intros (Hl & Hn & ([k o'] & -> & Hk%elem_of_map_to_list)). split; [by exists k|done].
  - intros ((k & Hk) & Hn & Hl). split; [done|]. split; [done|]. exists (k, o). by rewrite elem_of_map_to_list.
Qed.

Lemma kube_Delete_gone {T} {K : KubeClient W T} k (w w' : W) : kube_Delete k w = (w', Ok tt) -> ad_objs (objs w') !! k = None.
Proof. intros E%kube_Delete_law. destruct E as (d & _ & _ & ->). apply lookup_delete_eq. Qed.

Lemma deleteKubernetesObjects_Ok id (w w' : W) :
  is_Ok delete_nil = false -> deleteKubernetesObjects namespace delete_nil id w = (w', Ok tt) -> objects_deleted id w w'.
Proof.
  intros Hn. unfold deleteKubernetesObjects, list_or_empty. intros (lc & wa & Ea & E)%wbind_Ok.
  destruct (1 <? length lc)%nat eqn:Hc1; [done|]. apply wbind_Ok in E as (ls & wb & Eb & E).
  destruct (1 <? length ls)%nat eqn:Hc2; [done|]. apply wbind_Ok in E as ([] & wc & Ec & Es).
  destruct ls as [|s [|]]; [|clear Hc2|done].
  { unfold wlift in Es. injection Es as _ Es. by rewrite Es in Hn. }
  assert (list_secrets namespace id wa = (wb, Ok [s])) as Els.
  { unfold wcatch in Eb. destruct (list_secrets namespace id wa) as [w2 [l|e|p]]; [done|by injection Eb|done]. }
  unfold wcatch in Ea. destruct (list_clusters namespace id w) as [wl [l|e|p]] eqn:El; [| |done]; injection Ea as <- <-.
  - exists wl, wb, wc, (Ok l), s. split_and!; [done|done|exact (list_objects _ _ _ _ Els)| |done|by eapply kube_Delete_gone].
    pose proof (list_objects _ _ _ _ El) as Hl. destruct l as [|c [|]]; [by injection Ec as <-| |done].
    split; [exact Hl|]. split; [exact Ec|exact (kube_Delete_gone _ _ _ Ec)].
  - exists wl, wb, wc, (Err e), s. split_and!; [done|done|exact (list_objects _ _ _ _ Els)| |done|by eapply kube_Delete_gone]. by injection Ec as <-.
Qed.

(** C18: an uninstall of the logging capability that was asked to delete the stored data
    ends well only by going through these steps, one after the other, with nothing but
    entries of its log in between: a deletion is requested, unless one is on record from
    before; the status is polled, and in one of these rounds OpenSearch reports the
    recorded job as completed; the Kubernetes objects that have the label of the cluster
    are listed, which are at most one logging object and one secret, and deleted, and are
    gone then, except for a logging object whose list failed; and only then the capability is removed from the cluster.  The bucket must be readable,
    and the client library must not report success for the deletion of no object. *)
Theorem log_uninstall_deletes_first id polls (w w1 w' : W) md :
  is_Ok delete_nil = false ->
  bkt_up w -> at_LoadTaskMetadata w = (w1, Ok md) -> duo_DeleteStoredData (tmd_Options md) = true ->
  Logs_OnTaskRunning namespace delete_nil ctx_Err id polls w = (w', Ok tt) ->
  exists w2 w3 w4 w5 w6 w7 w8 c,
    log_entries w1 w2 /\ deletion_requested id w2 w3 /\
    log_entries w3 w4 /\ deletion_awaited id w4 w5 /\
    log_entries w5 w6 /\ objects_deleted id w6 w7 /\
    log_entries w7 w8 /\
    ms_UpdateCluster (mkReference id) (NewRemoveCapabilityMutator (capabilities_Cluster CapabilityLogs)) w8 = (w', Ok c).
Proof.
  intros Hnil Hup Hmd Hdel. unfold Logs_OnTaskRunning. intros (md' & wa & Em & E)%wbind_Ok.
  rewrite Hmd in Em. injection Em as <- <-. rewrite Hdel in E. pose proof (tf_md_up _ _ _ Hmd Hup) as Hup1.
  apply wbind_Ok in E as ([] & v1 & E1 & E). pose proof (tf_log_up _ _ _ _ _ E1 Hup1) as Hup2.
  apply wbind_Ok in E as ([] & v5 & Ed & E).
  apply wbind_Ok in Ed as ([] & v2 & E2 & Ed). pose proof (tf_log_up _ _ _ _ _ E2 Hup2) as Hup3.
  apply wbind_Ok in Ed as ([] & v3 & E3%logged_Ok & Ed). rewrite DoClusterDataDelete_nil in E3.
  apply wbind_Ok in Ed as ([] & v4 & E4 & Ed).
  destruct (do_delete_inv id v2 v3 Hup3 E3) as (tid & Hin & Hcase).
  destruct (log_poll_rounds id polls v4 v5 Ed) as (wq & wr & st & Hr & Es & Hf & Hlog).
  destruct (poll_completed id v4 wq wr st) as (wp & Hp1 & Hp2 & Hp3); [|done..|].
  { apply tf_log in E4 as [-> _]. by eexists. }
  apply wbind_Ok in E as ([] & v6 & E6 & E). apply wbind_Ok in E as ([] & v7 & E7%logged_Ok & E).
  apply wbind_Ok in E as ([] & v8 & E8 & E). apply wbind_Ok in E as (c & w9 & E9 & [= <-]).
  exists v2, v3, v4, wr, v6, v7, v8, c. split_and!.
  - eapply rtc_l; [by eexists _, _|]. apply rtc_once. by eexists _, _.
  - split; [done|]. exists tid. split; [done|]. destruct Hcase as [?|(_ & ? & _)]; auto.
  - apply rtc_once. by eexists _, _.
  - by exists wp, wq, st.
  - eapply rtc_l; [exact Hlog|]. apply rtc_once. by eexists _, _.
  - by apply deleteKubernetesObjects_Ok.
  - apply rtc_once. by eexists _, _.
  - done.
Qed.

(** Without a credential secret the task cannot end well: the object that is deleted
    last is nil. *)
Lemma uninstall_needs_a_secret id (w wa wb : W) :
  is_Ok delete_nil = false ->
  list_or_empty (list_clusters namespace id) w = (wa, Ok []) ->
  list_or_empty (list_secrets namespace id) wa = (wb, Ok []) ->
  deleteKubernetesObjects namespace delete_nil id w = (wb, delete_nil).
Proof.
  intros Hn E1 E2. unfold deleteKubernetesObjects.
  rewrite (wbind_eq_Ok _ _ _ _ _ E1). cbn [length Nat.ltb Nat.leb]. by rewrite (wbind_eq_Ok _ _ _ _ _ E2).
Qed.
End Uninstalling.

(** ** Synchronisation *)

Section Synchronising.
Context {W : Type} `{ManagementStorage W} `{LogDriver W}.

(** What a node is told about the capability: enabled only while the capability is
    there and not being deleted; when it is disabled although the capability is there,
    the reason is given. *)
Definition told (caps : list ClusterCapability) (cfg : LoggingCapabilityConfig) : Prop :=
  (lcc_Enabled cfg = true /\ logs_enabled caps = true /\ lcc_Conditions cfg = []) \/
  (lcc_Enabled cfg = false /\ logs_enabled caps = true /\ lcc_Conditions cfg = ["opensearch is not installed"]) \/
  (lcc_Enabled cfg = false /\ logs_enabled caps = false /\ lcc_Conditions cfg = []).

Lemma log_Sync_inv id cur (w w' : W) resp :
  log_Sync (Some id) cur w = (w', Ok resp) ->
  exists cluster w1 cfg, ms_GetCluster (mkReference id) w = (w1, Ok cluster) /\
    told (Clus.GetCapabilities cluster) cfg /\ resp = log_buildResponse cur cfg.
Proof.
  unfold log_Sync. intros (cluster & w1 & E1 & E)%wbind_Ok. exists cluster, w1.
  apply wbind_Ok in E as ([en conds] & w2 & E2 & E). apply wbind_Ok in E as (u & w3 & _ & E).
  apply wbind_Ok in E as (dis & w4 & _ & E). apply wbind_Ok in E as (conf & w5 & _ & [= _ <-]).
  eexists. split; [done|]. split; [|reflexivity]. unfold told. cbn.
  destruct (logs_enabled (Clus.GetCapabilities cluster)).
  - apply wbind_Ok in E2 as (dis' & w6 & _ & E2). destruct dis'; injection E2 as _ <- <-; auto.
  - injection E2 as _ <- <-. auto.
Qed.

(** A synchronisation that the gateway answers leaves the node with the configuration
    the gateway wants, and its listeners have received it if it was new. *)
Lemma logging_sync_converges id now (l : LoggingNode) (w w' : W) resp :
  ln_hasClient l = true -> log_Sync (Some id) (ln_config l) w = (w', Ok resp) ->
  exists l' cluster w1 cfg, ln_doSync (log_Sync (Some id)) now l w = (w', Ok l') /\
    ms_GetCluster (mkReference id) w = (w1, Ok cluster) /\ told (Clus.GetCapabilities cluster) cfg /\
    ln_config l' = Some cfg /\
    ln_listeners l' = (if decide (ln_config l = Some cfg) then ln_listeners l
                       else map (fun q => q ++ [cfg])%list (ln_listeners l)).
Proof.
  intros Hc E. destruct (log_Sync_inv _ _ _ _ _ E) as (cluster & w1 & cfg & Eg & Ht & ->).
  unfold ln_doSync. rewrite Hc. cbn [negb]. rewrite E. unfold log_buildResponse.
  destruct (decide (ln_config l = Some cfg)) as [Hs|Hs]; cbn.
  - eexists _, cluster, w1, cfg. split; [reflexivity|]. by rewrite decide_True.
  - eexists _, cluster, w1, cfg. split; [reflexivity|]. by rewrite decide_False.
Qed.

(** The credentials are sent to a node whose capability is disabled. *)
Lemma disabled_node_gets_credentials id cur (w w1 w2 w3 w4 w5 : W) cluster user password url :
  ms_GetCluster (mkReference id) w = (w1, Ok cluster) -> logs_enabled (Clus.GetCapabilities cluster) = false ->
  SetSyncTime w1 = (w2, Ok tt) -> GetInstallStatus w2 = (w3, Ok OsInstalled) ->
  GetCredentials id w3 = (w4, Ok (user, password)) -> GetExternalURL w4 = (w5, Ok url) ->
  log_Sync (Some id) cur w =
  (w5, Ok (log_buildResponse cur
             (mkLoggingCapabilityConfig false [] (Some (mkOpensearchConfig user password url true))))).
Proof.
  intros E1 Hen E2 E3 E4 E5. unfold log_Sync. rewrite (wbind_eq_Ok _ _ _ _ _ E1), Hen.
  unfold shouldDisableNode, getOpensearchConfig, wbind, wret. by rewrite E2, E3, E4, E5.
Qed.
End Synchronising.

(** ** The driver *)

(** The credentials of a cluster without a logging object are reported as created,
    whatever the two Create calls answer. *)
Lemma credentials_errors_are_dropped {W : Type} `{!KubeClient W LoggingClusterSpec} `{!KubeClient W SecretData}
    namespace osc (random_string : nat -> M W string) (generate_name : string -> M W string) ToLower req (w w1 : W) :
  list_clusters namespace (ref_Id req) w = (w1, Ok []) ->
  (forall n w, is_Ok (random_string n w).2 = true) -> (forall s w, is_Ok (generate_name s w).2 = true) ->
  (k_CreateCredentials namespace osc random_string generate_name ToLower req w).2 = Ok tt.
Proof.
  assert (forall T (K : KubeClient W T) (o : Object T) w, exists w', wcatch (kube_Create o) (fun _ => wret tt) w = (w', Ok tt)) as Hc.
  { intros T K o w2. unfold wcatch. destruct (kube_Create o w2) as [w3 [[]|e|p]] eqn:E; [by eexists|by eexists|].
    by apply kube_Create_law in E. }
  intros El Hr Hg. unfold k_CreateCredentials.
  rewrite (wbind_eq_Ok _ _ _ w1 []) by (unfold wcatch; by rewrite El). cbn [length Nat.ltb Nat.leb].
  pose proof (Hr 6 w1) as H6. unfold wbind at 1. destruct (random_string 6 w1) as [w2 [suffix|e|p]]; [|done|done].
  pose proof (Hr 20 w2) as H20. unfold wbind at 1. destruct (random_string 20 w2) as [w3 [password|e|p]]; [|done|done].
  cbv zeta. unfold wbind at 1.
  match goal with |- context [wcatch (kube_Create ?o) _ w3] => destruct (Hc _ _ o w3) as [w4 ->] end.
  unfold wbind. pose proof (Hg "logging-" w4) as Hn. destruct (generate_name "logging-" w4) as [w5 [name|e|p]]; [|done|done].
  match goal with |- context [wcatch (kube_Create ?o) _ w5] => by destruct (Hc _ _ o w5) as [w6 ->] end.
Qed.
