(* ===== verification/LoggingRef.v ===== *)
(** A gateway in memory for the logging plugin, built from the reference stores of
    the other components, and runs of the uninstall task on it. *)

From S2P Require Import Prelude GoStd Util CoreV1 Storage Http Rbac K8s Task Health Bootstrap Management ManagementProps MetricsBackend MetricsProps LogAdmin LogAdminProps Logging LogAdminApi LoggingProps.

Local Open Scope string_scope.

(** ** Components of a world *)

Section Lens.
Context {W V : Type} (get : W -> V) (put : V -> W -> W) (get_put : forall v w, get (put v w) = v).

Definition on_part {A} (op : M V A) : M W A := fun w => let '(v, o) := op (get w) in (put v w, o).

Ltac part E :=
  intros *; unfold on_part;
  match goal with |- context [let '(_, _) := ?op (get ?w) in _] =>
    destruct (op (get w)) eqn:E; intros [= <- <-]; rewrite !get_put end.

(** The storage in a part of the world. *)
Definition part_storage `{ManagementStorage V} : ManagementStorage W.
Proof.
  refine {|
    mview w := mview (get w);
    ms_GetCluster r := on_part (ms_GetCluster r);
    ms_ListClusters ls o := on_part (ms_ListClusters ls o);
    ms_UpdateCluster r m := on_part (ms_UpdateCluster r m);
    ms_DeleteCluster r := on_part (ms_DeleteCluster r);
    ms_DeleteKeyring p r := on_part (ms_DeleteKeyring p r);
    ms_WatchClusters l := on_part (ms_WatchClusters l);
    ms_CreateToken z l := on_part (ms_CreateToken z l);
    ms_DeleteToken r := on_part (ms_DeleteToken r);
    ms_ListTokens := on_part ms_ListTokens;
    ms_GetToken r := on_part (ms_GetToken r);
    ms_CreateRole r := on_part (ms_CreateRole r);
    ms_DeleteRole r := on_part (ms_DeleteRole r);
    ms_GetRole r := on_part (ms_GetRole r);
    ms_ListRoles := on_part ms_ListRoles;
    ms_CreateRoleBinding r := on_part (ms_CreateRoleBinding r);
    ms_DeleteRoleBinding r := on_part (ms_DeleteRoleBinding r);
    ms_GetRoleBinding r := on_part (ms_GetRoleBinding r);
    ms_ListRoleBindings := on_part ms_ListRoleBindings |}.
  - part E. by apply ms_GetCluster_law in E.
  - part E. by apply ms_ListClusters_law in E.
  - part E. by apply ms_UpdateCluster_law in E.
  - part E. by apply ms_DeleteCluster_law in E.
  - part E. by apply ms_DeleteKeyring_law in E.
Defined.

(** The Kubernetes objects of one type in a part of the world. *)
Definition part_kube {T} `{KubeClient V T} : KubeClient W T.
Proof.
  refine {|
    objs w := objs (get w);
    kube_Get k := on_part (kube_Get k);
    kube_Create o := on_part (kube_Create o);
    kube_Update o := on_part (kube_Update o);
    kube_Delete k := on_part (kube_Delete (T := T) k);
    kube_List ns := on_part (kube_List ns) |}.
  - part E. by apply kube_Get_law in E.
  - part E. by apply kube_Create_law in E.
  - part E. by apply kube_Update_law in E.
  - part E. by apply kube_Delete_law in E.
  - part E. by apply kube_List_law in E.
Defined.
End Lens.

(** ** The world *)

Record LogWorld := mkLogWorld {
  lw_store : StoreView;
  lw_clusters : KubeWorld LoggingClusterSpec;
  lw_secrets : KubeWorld SecretData;
  lw_bucket : gmap string string;
  lw_jobs : list string;
  lw_failures : nat;          (* the failures the jobs report *)
  lw_keysFail : nat }.        (* the calls of Keys that fail from now on *)

#[export] Instance lw_storage : ManagementStorage LogWorld :=
  part_storage lw_store (fun v w => mkLogWorld v (lw_clusters w) (lw_secrets w) (lw_bucket w) (lw_jobs w) (lw_failures w) (lw_keysFail w))
    (fun v w => eq_refl).
#[export] Instance lw_kube_clusters : KubeClient LogWorld LoggingClusterSpec :=
  part_kube lw_clusters (fun v w => mkLogWorld (lw_store w) v (lw_secrets w) (lw_bucket w) (lw_jobs w) (lw_failures w) (lw_keysFail w))
    (fun v w => eq_refl).
#[export] Instance lw_kube_secrets : KubeClient LogWorld SecretData :=
  part_kube lw_secrets (fun v w => mkLogWorld (lw_store w) (lw_clusters w) v (lw_bucket w) (lw_jobs w) (lw_failures w) (lw_keysFail w))
    (fun v w => eq_refl).

Definition set_bucket (b : gmap string string) (w : LogWorld) : LogWorld :=
  mkLogWorld (lw_store w) (lw_clusters w) (lw_secrets w) b (lw_jobs w) (lw_failures w) (lw_keysFail w).

#[export] Instance lw_bkt : OsBucket LogWorld := {|
  bkt_Keys w :=
    match lw_keysFail w with
    | S n => (mkLogWorld (lw_store w) (lw_clusters w) (lw_secrets w) (lw_bucket w) (lw_jobs w) (lw_failures w) n,
              Err (External "nats: timeout"))
    | O => (w, if decide (lw_bucket w = ∅) then Err nats_ErrNoKeysFound else Ok (map_to_list (lw_bucket w)).*1)
    end;
  bkt_Get k := fun w => (w, match lw_bucket w !! k with Some v => Ok v | None => Err ErrNotFound end);
  bkt_PutString k v := fun w => (set_bucket (<[k := v]> (lw_bucket w)) w, Ok tt);
  bkt_Create k v := fun w =>
    match lw_bucket w !! k with
    | Some _ => (w, Err ErrAlreadyExists)
    | None => (set_bucket (<[k := v]> (lw_bucket w)) w, Ok tt)
    end;
  bkt_Delete k := fun w => (set_bucket (delete k (lw_bucket w)) w, Ok tt) |}.

Definition os_ok (body : string) : Response := mkResponse 200 "200 OK" ∅ body None.

(** The answer to a deletion is the id of the job; a job is completed when it is
    looked at, with a comma in its text for a failure. *)
#[export] Instance lw_os : OsApi LogWorld := {|
  AsyncDeleteByQuery id := fun w =>
    (mkLogWorld (lw_store w) (lw_clusters w) (lw_secrets w) (lw_bucket w) (lw_jobs w ++ [id])%list (lw_failures w) (lw_keysFail w),
     Ok (os_ok ("job-" +:+ id)));
  GetTask t := fun w => (w, Ok (os_ok (if (0 <? lw_failures w)%nat then "failures" else "done")));
  GetUser _ := fun w => (w, Ok (os_ok ""));
  CreateUser _ _ := fun w => (w, Ok (os_ok ""));
  GetClusterHealth := fun w => (w, Ok (os_ok "green"));
  gjson_task body := body;
  gjson_completed _ := true;
  gjson_failures body := if decide (body = "failures") then 1 else 0;
  gjson_status body := body |}.

#[export] Instance lw_laws : OsLaws LogWorld.
Proof.
  refine {| bkt_view := lw_bucket; os_jobs := lw_jobs; bkt_up w := lw_keysFail w = 0 |}.
  - intros w w' o. cbn. destruct (lw_keysFail w); [|intros [= <- <-]; by repeat split].
    intros [= <- <-]. split; [done|]. split; [done|]. case_decide as He; [done|].
    intros k. rewrite list_elem_of_fmap. split.
    + intros ([k' v] & -> & Hin%elem_of_map_to_list). by eexists.
    + intros [v Hv]. exists (k, v). split; [done|]. by apply elem_of_map_to_list.
  - intros k w w' o. cbn. intros [= <- <-]. split; [done|]. split; [done|]. by destruct (lw_bucket w !! k).
  - intros k v w w' o. cbn. by intros [= <- <-].
  - intros k v w w' o. cbn. destruct (lw_bucket w !! k); intros [= <- <-]; split; auto.
  - intros k w w' o. cbn. by intros [= <- <-].
  - intros id w w' o. cbn. by intros [= <- <-].
  - intros t w w' o. cbn. by intros [= <- <-].
  - intros w w' o E Hu. cbn in E. rewrite Hu in E. injection E as <- <-. split; [done|]. by case_decide.
  - intros k w w' o. cbn. intros [= <- <-] Hu. split; [done|]. by destruct (lw_bucket w !! k).
  - intros k v w w' o. cbn. by intros [= <- <-].
  - intros k v w w' o. cbn. destruct (lw_bucket w !! k); by intros [= <- <-].
  - intros k w w' o. cbn. by intros [= <- <-].
  - intros id w w' o. cbn. by intros [= <- <-].
  - intros t w w' o. cbn. by intros [= <- <-].
Defined.

#[export] Instance lw_task : ActiveTask LogWorld TimestampedMetadata := {|
  at_LoadTaskMetadata := wret (mkTimestampedMetadata (mkDefaultUninstallOptions true 0) 7%Z);
  at_AddLogEntry _ _ := wret tt;
  at_SetProgress _ := wret tt |}.

#[export] Instance lw_frame : TaskFrame LogWorld.
Proof. split; try intros *; cbn; try (by intros [= <- <-]); intros w w' o; cbn; by intros [= <- <-]. Qed.

(** ** Runs *)

Definition logs_cluster : Cluster :=
  mkCluster "c1" (Some (mkClusterMetadata ∅ [mkClusterCapability "logs" (Some 7%Z)] "" None None)).

Definition labelled {T} (name : string) (x : T) : KubeWorld T :=
  let o := mkObject (mkObjectMeta name "opni" {[ OpniClusterID := "c1" ]} 1%Z 0%Z) x in
  mkKubeWorld (mkApiDb 1 {[ key_of o := o ]}) 0%Z [].

Definition log_world (bucket : gmap string string) (failures keysFail : nat) : LogWorld :=
  mkLogWorld (mkStoreView ∅ {[ "c1" := logs_cluster ]} ∅)
    (labelled "logging-x" (mkLoggingClusterSpec "index-x" ("opni", "opni") 0%Z true))
    (labelled "index-x" (mkSecretData "secret")) bucket [] failures keysFail.

Definition canceled : error := External "context canceled".
Definition run_uninstall (w : LogWorld) : LogWorld * outcome unit :=
  Logs_OnTaskRunning "opni" (Err (External "nil object")) canceled "c1" 3 w.
Definition caps_of (w : LogWorld) : option (list ClusterCapability) :=
  Clus.GetCapabilities <$> sv_clusters (lw_store w) !! "c1".

(** The data are deleted by one job and the capability is gone. *)
Example uninstall_logs :
  let r := run_uninstall (log_world ∅ 0 0) in
  r.2 = Ok tt /\ lw_jobs r.1 = ["c1"] /\ caps_of r.1 = Some [] /\ lw_bucket r.1 = ∅.
Proof. vm_compute. auto. Qed.

(** One error of the bucket: the uninstall ends well, the capability is gone, and no
    deletion was ever requested. *)
Example bucket_error_skips_deletion :
  let r := run_uninstall (log_world ∅ 0 1) in
  r.2 = Ok tt /\ lw_jobs r.1 = [] /\ caps_of r.1 = Some [].
Proof. vm_compute. auto. Qed.

(** After a job that reported failures, a later uninstall starts no other. *)
Example failed_job_is_final :
  let r := run_uninstall (log_world {[ "c1" := "job-c1" ]} 1 0) in
  r.2 = Ok tt /\ lw_jobs r.1 = [] /\ lw_bucket r.1 = {[ "c1" := "job-c1" ]}.
Proof. vm_compute. auto. Qed.

(** Without the secret the uninstall fails each time it is tried. *)
Example missing_secret_blocks_uninstall :
  let w := log_world ∅ 0 0 in
  (run_uninstall (mkLogWorld (lw_store w) (lw_clusters w) (mkKubeWorld (mkApiDb 1 ∅) 0%Z []) ∅ [] 0 0)).2
  = Err (External "nil object").
Proof. vm_compute. reflexivity. Qed.

Lemma log_uninstall_deletes_first_witness :
  exists w2 w3 w4 w5 w6 w7 w8 c,
    log_entries (log_world ∅ 0 0) w2 /\ deletion_requested "c1" w2 w3 /\
    log_entries w3 w4 /\ deletion_awaited "c1" w4 w5 /\
    log_entries w5 w6 /\ objects_deleted "opni" "c1" w6 w7 /\
    log_entries w7 w8 /\
    ms_UpdateCluster (mkReference "c1") (NewRemoveCapabilityMutator (capabilities_Cluster CapabilityLogs)) w8 =
      ((run_uninstall (log_world ∅ 0 0)).1, Ok c).
Proof.
  apply (log_uninstall_deletes_first canceled "opni" (Err (External "nil object")) "c1" 3 (log_world ∅ 0 0)
    (log_world ∅ 0 0) (run_uninstall (log_world ∅ 0 0)).1
    (mkTimestampedMetadata (mkDefaultUninstallOptions true 0) 7%Z)).
  - reflexivity.
  - reflexivity.
  - reflexivity.
  - reflexivity.
  - vm_compute. reflexivity.
Defined.

(** ** Quantities in thousandths and a gateway in memory for the administration of
    OpenSearch, and runs on it. *)

(** ** Quantities *)

(** An integer, in units, thousandths (m), or binary millions and milliards. *)
Definition suffixes : list (string * Z) := [("Gi", 1073741824000); ("Mi", 1048576000); ("m", 1); ("", 1000)]%Z.

Fixpoint parse_suffixes (l : list (string * Z)) (s : string) : outcome Z :=
  match l with
  | [] => Err (ErrorString "quantities must match the regular expression")
  | (suffix, factor) :: l =>
      if HasSuffix s suffix
      then let? n := ParseInt (String.substring 0 (String.length s - String.length suffix) s) in Ok (n * factor)%Z
      else parse_suffixes l s
  end.

Definition print_quantity (q : Z) : string :=
  match find (fun '(_, factor) => (q mod factor =? 0)%Z && negb (q =? 0)%Z) suffixes with
  | Some (suffix, factor) => Sprint (q / factor) +:+ suffix
  | None => Sprint q
  end.

#[export] Instance milli : QuantityLib Z := {|
  ParseQuantity := parse_suffixes suffixes;
  q_String := print_quantity;
  q_Value q := (q / 1000)%Z;
  q_Cmp := Z.compare;
  q_IsZero q := (q =? 0)%Z;
  q_zero := 0%Z |}.

(** ** Requests *)

Definition os_data (n : Z) : DataDetails :=
  mkDataDetails (Some n) "50Gi" "4Gi" (Some (mkCPUResource "500m" "1")) (Some true) {[ "disk" := "ssd" ]}
    [Some (mkToleration "a" "Exists" "" "NoSchedule"); Some (mkToleration "b" "Exists" "" "NoSchedule")] None.

Definition os_request (n : Z) (ingest : option IngestDetails) (cp : option ControlplaneDetails) (retention : option string)
  : OpensearchClusterV2 :=
  mkOpensearchClusterV2 "https://opensearch" (Some (os_data n)) ingest cp
    (Some (mkDashboardsDetails (Some true) None None)) retention.

Definition os_ingest : IngestDetails := mkIngestDetails (Some 2%Z) "2Gi" None None ∅ [].
Definition os_controlplane : ControlplaneDetails := mkControlplaneDetails None ∅ [] None.

Definition roles_of (o : outcome (list (NodePool Z))) : list (string * Z * list string) :=
  match o with Ok l => (fun p => (np_Component p, np_Replicas p, np_Roles p)) <$> l | _ => [] end.

(** Four data nodes are completed by a fifth that only votes; of eight, five may become
    master. *)
Example four_data_nodes :
  roles_of (generateNodePools "opni" (os_request 4 None None None)) =
  [("data", 4%Z, ["data"; "ingest"; "master"]); ("quorum", 1%Z, ["master"])].
Proof. vm_compute. reflexivity. Qed.
Example eight_data_nodes :
  roles_of (generateNodePools "opni" (os_request 8 None None None)) =
  [("data", 5%Z, ["data"; "ingest"; "master"]); ("datax", 3%Z, ["data"; "ingest"])].
Proof. vm_compute. reflexivity. Qed.

Definition pools_of (cluster : OpensearchClusterV2) : list (NodePool Z) :=
  match generateNodePools "opni" cluster with Ok l => l | _ => [] end.

(** node_pools_quorum holds of eight data nodes without a control plane. *)
Lemma node_pools_quorum_witness :
  total "data" (pools_of (os_request 8 None None None)) = 8%Z /\
  Z.odd (total "master" (pools_of (os_request 8 None None None))) = true /\
  total "ingest" (pools_of (os_request 8 None None None)) = 8%Z.
Proof.
  destruct (node_pools_quorum "opni" (os_request 8 None None None) (pools_of (os_request 8 None None None)) (os_data 8))
    as (_ & Hd & [Hm _] & Hi & _); [vm_compute; reflexivity|reflexivity|]. exact (conj Hd (conj Hm Hi)).
Defined.

(** ** What is not given back *)

Definition data_details (n : Z) : option DataDetails :=
  match generateDataDetails (pools_of (os_request n None None None)) with Ok d => Some d | _ => None end.

(** Of two tolerations the second is reported twice. *)
Example tolerations_read_back :
  map (fmap tol_Key) (dd_Tolerations (os_data 3)) = [Some "a"; Some "b"] /\
  map (fmap tol_Key) <$> (dd_Tolerations <$> data_details 3) = Some [Some "b"; Some "b"].
Proof. vm_compute. auto. Qed.

(** A CPU request without a limit is reported with the limit zero, and a request with
    what was reported is refused. *)
Definition cpu_only : option CPUResource := Some (mkCPUResource "500m" "").
Example cpu_request_read_back :
  match generateK8sResources "4Gi" cpu_only with
  | Ok (resources, _) =>
      let cpu := generateCPU (mkNodePool "data" 1%Z "" resources "" [] [] ∅ None None ∅ []) in
      cpu = Some (mkCPUResource "500m" "0") /\
      generateK8sResources (Q := Z) "4Gi" cpu = Err ErrRequestGtLimits
  | _ => False
  end.
Proof. vm_compute. auto. Qed.

(** The limits of the dashboards are reported as their requests. *)
Lemma dashboard_limits_overwrite_requests {Q} `{QuantityLib Q} (d : DashboardsConfig Q) limits :
  rr_Limits (dbc_Resources d) = Some limits ->
  dbd_Resources (convertDashboardsToProtobuf d) =
    Some (mkDashboardResources (Some (mkComputeQuantities (show_quantity limits "cpu") (show_quantity limits "memory"))) None).
Proof. unfold convertDashboardsToProtobuf. intros ->. done. Qed.

(** The optional dashboards are not optional, and a quantity that does not parse is not
    an error. *)
Example dashboards_panic :
  let convert d := convertProtobufToDashboards (Q := Z) "v0.9.0" "" ∅ d None in
  convert None = Panic "nil pointer dereference" /\
  convert (Some (mkDashboardsDetails None None
    (Some (mkDashboardResources (Some (mkComputeQuantities "a lot" "")) None)))) = Panic "cannot parse quantity".
Proof. vm_compute. auto. Qed.

(** The dashboards of a new cluster: the first version of the API installs those of the
    build, the second always the same ones. *)
Example new_dashboards_version :
  let d := Some (mkDashboardsDetails None None None) in
  (match v1_convertProtobufToDashboards (Q := Z) "v0.9.0" "" ∅ d None with Ok c => dbc_Image c | _ => None end)
    = Some "docker.io/rancher/opensearch-dashboards:2.4.0-0.9.0" /\
  (match convertProtobufToDashboards (Q := Z) "v0.9.0" "" ∅ d None with Ok c => dbc_Image c | _ => None end)
    = Some "docker.io/rancher/opensearch-dashboards:2.4.0-0.8.3-rc2".
Proof. vm_compute. auto. Qed.

(** What follows the unit of a retention is not looked at. *)
Example retention_not_anchored : validDurationString "7d" = true /\ validDurationString "7days and more" = true.
Proof. vm_compute. auto. Qed.

(** ** A world *)

Record AdminWorld := mkAdminWorld {
  aw_opensearch : KubeWorld (OpniOpensearch Z);
  aw_logging : KubeWorld LoggingClusterSpec;
  aw_secrets : KubeWorld SecretData;
  aw_operator : KubeWorld OpenSearchCluster;
  aw_classes : KubeWorld StorageClass;
  aw_bucket : gmap string string;
  aw_client : bool;
  aw_background : list Background;
  aw_users : gmap string string }.

#[export] Instance aw_kube_opensearch : KubeClient AdminWorld (OpniOpensearch Z) :=
  part_kube aw_opensearch (fun v w => mkAdminWorld v (aw_logging w) (aw_secrets w) (aw_operator w) (aw_classes w)
    (aw_bucket w) (aw_client w) (aw_background w) (aw_users w)) (fun v w => eq_refl).
#[export] Instance aw_kube_logging : KubeClient AdminWorld LoggingClusterSpec :=
  part_kube aw_logging (fun v w => mkAdminWorld (aw_opensearch w) v (aw_secrets w) (aw_operator w) (aw_classes w)
    (aw_bucket w) (aw_client w) (aw_background w) (aw_users w)) (fun v w => eq_refl).
#[export] Instance aw_kube_secrets : KubeClient AdminWorld SecretData :=
  part_kube aw_secrets (fun v w => mkAdminWorld (aw_opensearch w) (aw_logging w) v (aw_operator w) (aw_classes w)
    (aw_bucket w) (aw_client w) (aw_background w) (aw_users w)) (fun v w => eq_refl).
#[export] Instance aw_kube_operator : KubeClient AdminWorld OpenSearchCluster :=
  part_kube aw_operator (fun v w => mkAdminWorld (aw_opensearch w) (aw_logging w) (aw_secrets w) v (aw_classes w)
    (aw_bucket w) (aw_client w) (aw_background w) (aw_users w)) (fun v w => eq_refl).
#[export] Instance aw_kube_classes : KubeClient AdminWorld StorageClass :=
  part_kube aw_classes (fun v w => mkAdminWorld (aw_opensearch w) (aw_logging w) (aw_secrets w) (aw_operator w) v
    (aw_bucket w) (aw_client w) (aw_background w) (aw_users w)) (fun v w => eq_refl).

Definition aw_set_bucket (b : gmap string string) (w : AdminWorld) : AdminWorld :=
  mkAdminWorld (aw_opensearch w) (aw_logging w) (aw_secrets w) (aw_operator w) (aw_classes w) b (aw_client w) (aw_background w) (aw_users w).

#[export] Instance aw_bkt : OsBucket AdminWorld := {|
  bkt_Keys w := (w, if decide (aw_bucket w = ∅) then Err nats_ErrNoKeysFound else Ok (map_to_list (aw_bucket w)).*1);
  bkt_Get k w := (w, match aw_bucket w !! k with Some v => Ok v | None => Err ErrNotFound end);
  bkt_PutString k v w := (aw_set_bucket (<[k := v]> (aw_bucket w)) w, Ok tt);
  bkt_Create k v w := match aw_bucket w !! k with
                      | Some _ => (w, Err ErrAlreadyExists)
                      | None => (aw_set_bucket (<[k := v]> (aw_bucket w)) w, Ok tt) end;
  bkt_Delete k w := (aw_set_bucket (delete k (aw_bucket w)) w, Ok tt) |}.

#[export] Instance aw_os : OsApi AdminWorld := {|
  AsyncDeleteByQuery _ w := (w, Ok (os_ok "job"));
  GetTask _ w := (w, Ok (os_ok "done"));
  GetUser name w := (w, Ok (match aw_users w !! name with
                            | Some _ => os_ok "" | None => mkResponse 404 "404 Not Found" ∅ "" None end));
  CreateUser name password w :=
    (mkAdminWorld (aw_opensearch w) (aw_logging w) (aw_secrets w) (aw_operator w) (aw_classes w)
       (aw_bucket w) (aw_client w) (aw_background w) (<[name := password]> (aw_users w)), Ok (os_ok ""));
  GetClusterHealth w := (w, Ok (os_ok "yellow"));
  gjson_task body := body;
  gjson_completed _ := true;
  gjson_failures _ := 0;
  gjson_status body := body |}.

#[export] Instance aw_runtime : LogRuntime AdminWorld := {|
  os_UnsetClient w := (mkAdminWorld (aw_opensearch w) (aw_logging w) (aw_secrets w) (aw_operator w) (aw_classes w)
    (aw_bucket w) false (aw_background w) (aw_users w), Ok tt);
  go_ b w := (mkAdminWorld (aw_opensearch w) (aw_logging w) (aw_secrets w) (aw_operator w) (aw_classes w)
    (aw_bucket w) (aw_client w) (aw_background w ++ [b])%list (aw_users w), Ok tt);
  rnd_string n := wret "s3cret"|}.

(** A part of the world does not see what happens in another. *)
Lemma on_part_frame {W V A X} (get : W -> V) put (f : W -> X) (op : M V A) w w' o :
  (forall v w, f (put v w) = f w) -> on_part get put op w = (w', o) -> f w' = f w.
Proof. intros Hf. unfold on_part. destruct (op (get w)). by intros [= <- <-]. Qed.

(** In this world others write the objects that are scheduled, and delete none. *)
Definition env_step {T} (d d' : ApiDb T) : Prop := exists now o, d' = env_write now d o.
Definition env_steps {T} : ApiDb T -> ApiDb T -> Prop := rtc env_step.

Lemma env_steps_api {T} (d d' : ApiDb T) : env_steps d d' -> api_steps d d'.
Proof.
  induction 1 as [d|d d1 d2 (now & o & ->) _ IH]; [constructor|]. eapply rtc_l; [|exact IH]. unfold env_write.
  destruct (ad_objs d !! key_of o) eqn:E; [by econstructor|by constructor].
Qed.
Lemma kube_interfere_env {T} (w : KubeWorld T) : env_steps (kw_db w) (kw_db (kube_interfere w)).
Proof. unfold kube_interfere. destruct (kw_sched w) as [|[o|] l]; [constructor| |constructor]. apply rtc_once. by eexists _, _. Qed.

#[export] Instance aw_frame : ApiFrame (W := AdminWorld) (Q := Z) env_steps.
Proof.
  split.
  - unfold env_steps. apply _.
  - apply env_steps_api.
  - intros b w w' o [= <- <-]. constructor.
  - intros n w w' o [= <- <-]. constructor.
  - intros s w w' o E. apply (on_part_frame _ _ (objs (T := OpniOpensearch Z))) in E; [rewrite E; constructor|done].
  - intros k w w' o E. apply (on_part_frame _ _ (objs (T := OpniOpensearch Z))) in E; [rewrite E; constructor|done].
  - intros k w w' o [= <- _]. apply (kube_interfere_env (aw_opensearch w)).
  - intros ob w w'. pose proof (kube_interfere_env (aw_opensearch w)) as Hs. cbn. unfold on_part, on_api.
    destruct (ad_objs (kw_db (kube_interfere (aw_opensearch w))) !! key_of ob) eqn:E; [done|]. intros [= <-].
    eexists _, _. split; [exact Hs|]. split; [exact E|reflexivity].
  - intros ob w w' o. pose proof (kube_interfere_env (aw_opensearch w)) as Hs. cbn. unfold on_part, on_api.
    destruct (ad_objs (kw_db (kube_interfere (aw_opensearch w))) !! key_of ob) as [old|] eqn:E; [|by intros [= <- <-]].
    destruct (version_of ob =? version_of old)%Z eqn:Ev; intros [= <- <-]; [|done].
    apply Z.eqb_eq in Ev. by exists (kw_db (kube_interfere (aw_opensearch w))), old.
Qed.

Definition kube_empty {T} : KubeWorld T := mkKubeWorld (mkApiDb 0 ∅) 0%Z [].
Definition kube_one {T} (name : string) (x : T) : KubeWorld T :=
  let o := mkObject (mkObjectMeta name "opni" ∅ 1%Z 0%Z) x in mkKubeWorld (mkApiDb 1 {[ key_of o := o ]}) 0%Z [].

Definition fresh_admin : AdminWorld :=
  mkAdminWorld kube_empty kube_empty kube_empty (kube_one "opensearch" (mkOpenSearchCluster true)) kube_empty ∅ true [] ∅.

Definition admin_apply : OpensearchClusterV2 -> M AdminWorld unit :=
  CreateOrUpdateOpensearchCluster (Q := Z) "opensearch" "opni" None "v0.9.0" "" ∅.
Definition admin_get : M AdminWorld OpensearchClusterV2 := GetOpensearchCluster (Q := Z) "opensearch" "opni".
Definition admin_delete : M AdminWorld unit := DeleteOpensearchCluster (Q := Z) "opensearch" "opni".

(** A cluster is created, the password of the administrator is stored, the user is
    created in the background, and the cluster is then described as it was asked for. *)
Example create_opensearch :
  let '(w, r) := admin_apply (os_request 8 (Some os_ingest) (Some os_controlplane) (Some "30d")) fresh_admin in
  r = Ok tt /\ aw_background w = [BgSetClient; BgInitForwarder; BgCreateInitialAdmin "s3cret"] /\
  aw_users (run_background "opensearch" "opni" 3 3 (BgCreateInitialAdmin "s3cret") w).1 = {["opni" := "s3cret"]} /\
  match (admin_get w).2 with
  | Ok desc => (oc2_DataNodes desc ≫= dd_Replicas) = Some 8%Z /\ (oc2_IngestNodes desc ≫= id_Replicas) = Some 2%Z /\
      (oc2_ControlplaneNodes desc ≫= cd_Replicas) = Some 3%Z /\ oc2_DataRetention desc = Some "30d"
  | _ => False
  end.
Proof. vm_compute. auto 10. Qed.

(** An update without a retention is accepted, and the cluster can no longer be shown. *)
Example update_without_retention_panics :
  let w := (admin_apply (os_request 3 None None (Some "30d")) fresh_admin).1 in
  let '(w, r) := admin_apply (os_request 5 None None None) w in
  r = Ok tt /\ (admin_get w).2 = Panic "nil pointer dereference".
Proof. vm_compute. auto. Qed.

(** A deletion that is refused has dropped the client and the state of the first
    administrator. *)
Definition used_admin : AdminWorld :=
  mkAdminWorld kube_empty (kube_one "logging-x" (mkLoggingClusterSpec "index-x" ("opni", "opensearch") 0%Z true))
    kube_empty kube_empty kube_empty {[ initialAdminKey := initialAdminPending ]} true [] ∅.
Example refused_deletion_acts :
  let '(w, r) := admin_delete used_admin in
  r = Err ErrLoggingCapabilityExists /\ aw_client w = false /\ aw_bucket w = ∅.
Proof. vm_compute. auto. Qed.

Definition big_request : OpensearchClusterV2 := os_request 8 (Some os_ingest) (Some os_controlplane) (Some "30d").

(** stored_cluster_is_described holds of a cluster that is created. *)
Lemma stored_cluster_is_described_witness :
  exists d created o desc,
    env_steps (objs fresh_admin) d /\ env_steps (api_write d created o) (objs (admin_apply big_request fresh_admin).1) /\
    key_of o = spec_key "opensearch" "opni" /\ describe (Q := Z) (ob_Spec o) = Ok desc /\ describes (Q := Z) big_request desc.
Proof.
  apply (stored_cluster_is_described "opensearch" "opni" None "v0.9.0" "" ∅ env_steps big_request).
  - intros k o. vm_compute. discriminate.
  - split; intros x [= <-]; vm_compute; discriminate.
  - by eexists.
  - vm_compute. reflexivity.
Defined.
