(* ===== verification/OsOperator.v ===== *)
(** The part of the Kubernetes operator that keeps the objects of the logging clusters in
    OpenSearch: the controllers of LoggingCluster, MulticlusterUser and
    LoggingClusterBinding (controllers/, pkg/resources/loggingcluster, multiclusteruser,
    loggingclusterbinding) and the objects of a MulticlusterRoleBinding
    (pkg/resources/multiclusterrolebinding). *)

From S2P Require Import Prelude GoStd Util CoreV1 Etcd K8s LoggingRef OsReconciler OsReconcilerProps.
From Stdlib Require Import Ascii.

Local Open Scope string_scope.

(** ** Custom resources *)

(** What is read and written of an object beside its metadata. *)
Record CR (Sp St : Type) := mkCR {
  cr_Finalizers : list string; cr_Deleted : bool; cr_Spec : Sp; cr_Status : St }.
Arguments mkCR {_ _} _ _ _ _.
Arguments cr_Finalizers {_ _} _.
Arguments cr_Deleted {_ _} _.
Arguments cr_Spec {_ _} _.
Arguments cr_Status {_ _} _.

Record LoggingClusterSpec := mkLoggingClusterSpec {
  lcs_OpensearchClusterRef : option ObjectKey; lcs_IndexUserSecret : option string }.
Record LoggingClusterStatus := mkLoggingClusterStatus {
  lst_Conditions : list string; lst_State : string; lst_IndexUserState : string }.
Abbreviation LoggingCluster := (CR LoggingClusterSpec LoggingClusterStatus).

Record MulticlusterUserSpec := mkMulticlusterUserSpec {
  mus_Password : string; mus_OpensearchClusterRef : option ObjectKey }.
(** The status of a user and of a binding, whose names are recorded for the cleanup. *)
Record BindingStatus := mkBindingStatus {
  bst_Conditions : list string; bst_State : string; bst_Username : string; bst_Rolename : string }.
Abbreviation MulticlusterUser := (CR MulticlusterUserSpec BindingStatus).

Record LoggingClusterRef := mkLoggingClusterRef { lcr_ID : string; lcr_Object : option ObjectKey }.
Record LoggingClusterBindingSpec := mkLoggingClusterBindingSpec {
  lbs_MulticlusterUser : option ObjectKey; lbs_LoggingCluster : option LoggingClusterRef;
  lbs_OpensearchClusterRef : option ObjectKey }.
Abbreviation LoggingClusterBinding := (CR LoggingClusterBindingSpec BindingStatus).

(** The object of the OpenSearch operator. *)
Record OsCluster := mkOsCluster { osc_Running : bool; osc_ServiceName : string; osc_Dashboards : bool }.
Record UserSecret := mkUserSecret { uss_password : string }.

Definition OpensearchFinalizer : string := "opni.io/opensearch".
Definition IDLabel : string := "opni.io/multiclusterID".
Definition OpniClusterIDLabel : string := "opni.io/cluster-id".

Definition with_finalizers {Sp St} (l : list string) (c : CR Sp St) : CR Sp St :=
  mkCR l (cr_Deleted c) (cr_Spec c) (cr_Status c).
Definition with_status {Sp St} (s : St) (c : CR Sp St) : CR Sp St :=
  mkCR (cr_Finalizers c) (cr_Deleted c) (cr_Spec c) s.

(** ** pkg/util/k8sutil/requeue.go *)

Record Result := mkResult { res_Requeue : bool; res_RequeueAfter : Z }.
Definition no_requeue : Result := mkResult false 0.
Definition LoadResult (result : option Result) (err : option error) : Result * option error :=
  match err with
  | Some e => (no_requeue, Some e)
  | None => (default no_requeue result, None)
  end.
Definition ShouldRequeue (r : Result * option error) : bool :=
  res_Requeue r.1 || (0 <? res_RequeueAfter r.1)%Z || bool_decide (is_Some r.2).

(** What a reconciliation returns. *)
Abbreviation Reconciled := (option Result * option error)%type.

Section Operator.
Context {W T P S : Type} `{!OsAdmin W T P S} `{!EqDecision T} `{!EqDecision P}
  `{!KubeClient W LoggingCluster} `{!KubeClient W MulticlusterUser} `{!KubeClient W LoggingClusterBinding}
  `{!KubeClient W OsCluster} `{!KubeClient W UserSecret} `{!RetryLib}.

(** [opensearch.NewReconciler]: the clients for a service. *)
Variable NewReconciler : string -> M W unit.

(** [retry.RetryOnConflict] with the five steps of [retry.DefaultRetry]. *)
Definition retry_on_conflict (op : M W unit) : M W unit := OnError 5 IsConflict op.

(** The object is read again, changed and written back.  The writes of the status
    subresource change nothing but the status of what was just read. *)
Definition modify {X} `{!KubeClient W X} (k : ObjectKey) (f : X -> X) : M W unit :=
  retry_on_conflict (let! o := kube_Get k in kube_Update (mkObject (ob_Meta o) (f (ob_Spec o)))).

Definition remove_finalizer {Sp St} (c : CR Sp St) : CR Sp St :=
  with_finalizers (filter (fun f => f <> OpensearchFinalizer) (cr_Finalizers c)) c.
Definition add_finalizer {Sp St} (c : CR Sp St) : CR Sp St :=
  if bool_decide (OpensearchFinalizer ∈ cr_Finalizers c) then c
  else with_finalizers (cr_Finalizers c ++ [OpensearchFinalizer])%list c.
Definition finalizing {Sp St} (c : CR Sp St) : bool :=
  cr_Deleted c && bool_decide (OpensearchFinalizer ∈ cr_Finalizers c).

(** A reconciliation and its deferred update of the status, whose error is logged. *)
Definition reconcile_then {R} (body : M W R) (finish : outcome R -> M W unit) : M W R := fun w =>
  match body w with
  | (w, Panic p) => (w, Panic p)
  | (w, o) => match finish o w with
              | (w, Panic p) => (w, Panic p)
              | (w, _) => (w, o)
              end
  end.

(** The error a body ends with. *)
Definition ret_err {R} (o : outcome R) : option error := match o with Err e => Some e | _ => None end.

(** ** LoggingCluster *)

(** A double quote. *)
Definition dquote : string := String (ascii_of_nat 34) "".

(** The role reads the logs of one cluster; [id] goes into the query as it is. *)
Definition clusterReadRole (name id : string) : RoleSpec :=
  mkRoleSpec name ["cluster_composite_ops_ro"]
    [mkIndexPermissionSpec ["logs*"]
       ("{" +:+ dquote +:+ "term" +:+ dquote +:+ ":{" +:+ dquote +:+ "cluster_id" +:+ dquote +:+ ": " +:+
        dquote +:+ id +:+ dquote +:+ "}}") [] ["read"; "search"]] [].

Definition label (o : ObjectMeta) (k : string) : string := default "" (om_Labels o !! k).

Definition indexUser (name password multiclusterID : string) : UserSpec :=
  mkUserSpec name password "" [] [] {[ "cluster" := multiclusterID ]}.

(** The secret is read under the name in the spec; the role, the user and the mapping
    follow. *)
Definition ReconcileOpensearchUsers (lc : Object LoggingCluster) (os : OsCluster) : M W unit :=
  let meta := ob_Meta lc in
  match lcs_IndexUserSecret (cr_Spec (ob_Spec lc)) with
  | None => wlift (Panic "nil pointer dereference")
  | Some secretName =>
      let! secret := kube_Get (T := UserSecret) (om_Namespace meta, secretName) in
      NewReconciler (osc_ServiceName os) ;!
      MaybeCreateRole (clusterReadRole (om_Name meta) (label meta OpniClusterIDLabel)) ;!
      MaybeCreateUser (indexUser secretName (uss_password (ob_Spec secret)) (label meta IDLabel)) ;!
      MaybeUpdateRolesMapping "cluster_index" secretName
  end.

(** [os] is the OpenSearch object with its name, when it is there. *)
Definition lc_deleteOpensearchObjects (lc : Object LoggingCluster) (os : option (Object OsCluster)) : M W unit :=
  (match os, lcs_IndexUserSecret (cr_Spec (ob_Spec lc)) with
   | None, _ => wret tt
   | Some _, None => wlift (Panic "nil pointer dereference")
   | Some os, Some secretName =>
       NewReconciler (osc_ServiceName (ob_Spec os)) ;!
       MaybeDeleteRole (om_Name (ob_Meta os)) ;!
       MaybeDeleteUser secretName
   end) ;!
  modify (X := LoggingCluster) (key_of lc) remove_finalizer.

Definition set_lc_state (state userState : string) (c : LoggingCluster) : LoggingCluster :=
  with_status (mkLoggingClusterStatus (lst_Conditions (cr_Status c)) state userState) c.

(** An object that is not found is [None], with the error to return later. *)
Definition get_opensearch (k : ObjectKey) : M W (option (Object OsCluster) * option error) := fun w =>
  match kube_Get (T := OsCluster) k w with
  | (w, Ok o) => (w, Ok (Some o, None))
  | (w, Err err) => if IsNotFound err then (w, Ok (None, Some err)) else (w, Err err)
  | (w, Panic p) => (w, Panic p)
  end.

Definition fail_with (err : option error) : M W unit :=
  match err with Some e => wfail e | None => wret tt end.

Definition lc_reconcile (lc : Object LoggingCluster) : M W unit :=
  let c := ob_Spec lc in
  match lcs_OpensearchClusterRef (cr_Spec c), lcs_IndexUserSecret (cr_Spec c) with
  | None, _ => wfail (ErrorString "logging cluster not provided")
  | _, None => wfail (ErrorString "index user secret not provided")
  | Some ref, Some _ =>
      let! (os, notFound) := get_opensearch ref in
      if finalizing c then lc_deleteOpensearchObjects lc os
      else match os with
      | None => fail_with notFound
      | Some os =>
          if decide (lst_State (cr_Status c) = "")
          then modify (X := LoggingCluster) (key_of lc) (set_lc_state "created" "pending")
          else match om_Labels (ob_Meta lc) !! OpniClusterIDLabel with
          | None => wret tt
          | Some _ =>
              ReconcileOpensearchUsers lc (ob_Spec os) ;!
              modify (X := LoggingCluster) (key_of lc) (set_lc_state "registered" "created")
          end
      end
  end.

Definition lc_status (err : option error) (c : LoggingCluster) : LoggingCluster :=
  let s := cr_Status c in
  with_status (mkLoggingClusterStatus []
    (if ShouldRequeue (LoadResult None err) && bool_decide (is_Some err) then "error" else lst_State s)
    (lst_IndexUserState s)) c.

Definition lc_Reconcile (lc : Object LoggingCluster) : M W unit :=
  reconcile_then (lc_reconcile lc) (fun o => modify (X := LoggingCluster) (key_of lc) (lc_status (ret_err o))).

(** ** MulticlusterUser *)

(** The state after a run: an error, waiting, or done; without a requeue but with
    conditions it stays. *)
Definition next_state (error working ready old : string) (conditions : list string) (res : Reconciled) : string :=
  if ShouldRequeue (LoadResult res.1 res.2)
  then (if bool_decide (is_Some res.2) then error else working)
  else if (length conditions =? 0)%nat then ready else old.

(** What a run leaves for the status: its conditions, its result and its error. *)
Definition run_result (o : outcome (list string * option Result)) : list string * Reconciled :=
  match o with
  | Ok (conditions, result) => (conditions, (result, None))
  | Err e => ([], (None, Some e))
  | Panic _ => ([], (None, None))
  end.

Definition binding_status (error working ready : string) (o : outcome (list string * option Result)) {Sp} (c : CR Sp BindingStatus)
  : CR Sp BindingStatus :=
  let '(conditions, res) := run_result o in
  let s := cr_Status c in
  with_status (mkBindingStatus conditions (next_state error working ready (bst_State s) conditions res)
                 (bst_Username s) (bst_Rolename s)) c.

Definition requeue_5s : Result := mkResult false (5 * 1000000000).
Definition waiting : M W (list string * option Result) := wret (["waiting for opensearch"], Some requeue_5s).
Definition done_ (op : M W unit) : M W (list string * option Result) := op ;! wret ([], None).

Definition mu_reconcileOpensearchObjects (u : Object MulticlusterUser) (os : OsCluster) : M W unit :=
  NewReconciler (osc_ServiceName os) ;!
  MaybeCreateUser (mkUserSpec (om_Name (ob_Meta u)) (mus_Password (cr_Spec (ob_Spec u))) "" [] ["kibanauser"] ∅).

Definition mu_deleteOpensearchObjects (u : Object MulticlusterUser) (os : option (Object OsCluster)) : M W unit :=
  (match os with
   | None => wret tt
   | Some os => NewReconciler (osc_ServiceName (ob_Spec os)) ;! MaybeDeleteUser (om_Name (ob_Meta u))
   end) ;!
  modify (X := MulticlusterUser) (key_of u) remove_finalizer.

(** A missing reference is dereferenced. *)
Definition mu_reconcile (u : Object MulticlusterUser) : M W (list string * option Result) :=
  let c := ob_Spec u in
  if decide (mus_Password (cr_Spec c) = "") then wfail (ErrorString "must set password")
  else match mus_OpensearchClusterRef (cr_Spec c) with
  | None => wlift (Panic "nil pointer dereference")
  | Some ref =>
      let! (os, notFound) := get_opensearch ref in
      if finalizing c then done_ (mu_deleteOpensearchObjects u os)
      else match os with
      | None => done_ (fail_with notFound)
      | Some os => if negb (osc_Running (ob_Spec os)) then waiting
                   else done_ (mu_reconcileOpensearchObjects u (ob_Spec os))
      end
  end.

Definition mu_Reconcile (u : Object MulticlusterUser) : M W (list string * option Result) :=
  reconcile_then (mu_reconcile u)
    (fun o => modify (X := MulticlusterUser) (key_of u) (binding_status "Error" "Pending" "Created" o)).

(** ** LoggingClusterBinding *)

(** The logging cluster of a binding, by its id or by its name. *)
Definition bound_cluster (b : Object LoggingClusterBinding) (ref : LoggingClusterRef) : M W (Object LoggingCluster) :=
  if negb (bool_decide (lcr_ID ref = "")) then
    let! l := kube_List (T := LoggingCluster) (om_Namespace (ob_Meta b)) in
    match filter (fun o => om_Labels (ob_Meta o) !! OpniClusterIDLabel = Some (lcr_ID ref)) l with
    | [o] => wret o
    | _ => wfail (ErrorString "invalid number of logging clusters returned")
    end
  else match lcr_Object ref with
  | None => wfail (ErrorString "either id or logging cluster object must be specified")
  | Some k => kube_Get k
  end.

Definition record_names (user role : string) (c : LoggingClusterBinding) : LoggingClusterBinding :=
  with_status (mkBindingStatus (bst_Conditions (cr_Status c)) (bst_State (cr_Status c)) user role) c.

(** The names are recorded in the status before the user is added to the role. *)
Definition lb_reconcileOpensearchObjects (b : Object LoggingClusterBinding) (userRef : ObjectKey) (ref : LoggingClusterRef)
    (os : Object OsCluster) : M W unit :=
  let! user := kube_Get (T := MulticlusterUser) userRef in
  let! lc := bound_cluster b ref in
  if negb (bool_decide (mus_OpensearchClusterRef (cr_Spec (ob_Spec user)) = Some (key_of os))) ||
     negb (bool_decide (lcs_OpensearchClusterRef (cr_Spec (ob_Spec lc)) = Some (key_of os)))
  then wfail (ErrorString "opensearch cluster refs must match")
  else
    modify (X := LoggingClusterBinding) (key_of b) (record_names (om_Name (ob_Meta user)) (om_Name (ob_Meta lc))) ;!
    NewReconciler (osc_ServiceName (ob_Spec os)) ;!
    MaybeUpdateRolesMapping (om_Name (ob_Meta lc)) (om_Name (ob_Meta user)).

Definition lb_deleteOpensearchObjects (b : Object LoggingClusterBinding) (os : OsCluster) : M W unit :=
  NewReconciler (osc_ServiceName os) ;!
  MaybeRemoveRolesMapping (bst_Rolename (cr_Status (ob_Spec b))) (bst_Username (cr_Status (ob_Spec b))) ;!
  modify (X := LoggingClusterBinding) (key_of b) remove_finalizer.

Definition lb_reconcile (b : Object LoggingClusterBinding) : M W (list string * option Result) :=
  let c := ob_Spec b in
  match lbs_OpensearchClusterRef (cr_Spec c) with
  | None => wfail (ErrorString "opensearch cluster not provided")
  | Some ref =>
      let! os := kube_Get (T := OsCluster) ref in
      match lbs_MulticlusterUser (cr_Spec c), lbs_LoggingCluster (cr_Spec c) with
      | None, _ => wfail (ErrorString "multicluster user must be provided")
      | _, None => wfail (ErrorString "logging cluster must be provided")
      | Some userRef, Some clusterRef =>
          if negb (osc_Running (ob_Spec os)) then waiting
          else if finalizing c then done_ (lb_deleteOpensearchObjects b (ob_Spec os))
          else done_ (lb_reconcileOpensearchObjects b userRef clusterRef os)
      end
  end.

Definition lb_Reconcile (b : Object LoggingClusterBinding) : M W (list string * option Result) :=
  reconcile_then (lb_reconcile b)
    (fun o => modify (X := LoggingClusterBinding) (key_of b) (binding_status "Error" "Working" "Ready" o)).

(** ** MulticlusterRoleBinding: the objects of a server *)

(** The constants of settings.go. *)
Record RoleBindingObjects := mkRoleBindingObjects {
  rbo_clusterIndexRole : RoleSpec; rbo_isms : list (ISMPolicySpec P);
  rbo_pipelineName : string; rbo_pipeline : IngestPipeline; rbo_templates : list (IndexTemplateSpec T);
  rbo_LogIndexPrefix : string; rbo_LogIndexAlias : string; rbo_OldIndexPrefixes : list string;
  rbo_spanIndexPrefix : string; rbo_spanIndexAlias : string; rbo_oldTracingIndexPrefixes : list string;
  rbo_serviceMapIndexName : string; rbo_serviceMapMappings : S;
  rbo_versionIndex : string; rbo_versionDocID : string; rbo_version : string; rbo_kibanaObjects : string }.

Fixpoint each {A} (f : A -> M W unit) (l : list A) : M W unit :=
  match l with [] => wret tt | a :: l => f a ;! each f l end.

(** Each template is put and looked for; one that is not there yet asks for another
    run. *)
Fixpoint put_templates (l : list (IndexTemplateSpec T)) (res : option Result) : M W (option Result) :=
  match l with
  | [] => wret res
  | t :: l =>
      MaybeCreateIndexTemplate t ;!
      let! exists_ := TemplateExists (its_TemplateName t) in
      put_templates l (if exists_ : bool then res else Some (mkResult true (5 * 1000000000)))
  end.

(** [credentials] are those of the admin user with its client certificate; with an
    error the result is not looked at. *)
Definition ReconcileOpensearchObjects (credentials : M W string) (o : RoleBindingObjects) (os : OsCluster)
  : M W (option Result) :=
  let! username := credentials in
  NewReconciler (osc_ServiceName os) ;!
  MaybeUpdateRolesMapping "all_access" username ;!
  MaybeCreateRole (rbo_clusterIndexRole o) ;!
  each ReconcileISM (rbo_isms o) ;!
  MaybeCreateIngestPipeline (rbo_pipelineName o) (rbo_pipeline o) ;!
  let! res := put_templates (rbo_templates o) None in
  UpdateDefaultIngestPipelineForIndex (rbo_LogIndexPrefix o +:+ "*") (rbo_pipelineName o) ;!
  MaybeBootstrapIndex (rbo_LogIndexPrefix o) (rbo_LogIndexAlias o) (rbo_OldIndexPrefixes o) ;!
  MaybeBootstrapIndex (rbo_spanIndexPrefix o) (rbo_spanIndexAlias o) (rbo_oldTracingIndexPrefixes o) ;!
  MaybeCreateIndex (rbo_serviceMapIndexName o) (rbo_serviceMapMappings o) ;!
  (if osc_Dashboards os
   then ImportKibanaObjects (rbo_versionIndex o) (rbo_versionDocID o) (rbo_version o) (rbo_kibanaObjects o)
   else wret tt) ;!
  wret res.

(** ** The controllers *)

(** The finalizer is added to an object that is not deleted, which is then reconciled;
    an object that is gone is left alone. *)
Definition controller {Sp St R} `{!KubeClient W (CR Sp St)} (k : ObjectKey) (none : R)
    (rec : Object (CR Sp St) -> M W R) : M W R := fun w =>
  match kube_Get (T := CR Sp St) k w with
  | (w, Err err) => (w, if IsNotFound err then Ok none else Err err)
  | (w, Panic p) => (w, Panic p)
  | (w, Ok o) =>
      (let! o := if cr_Deleted (ob_Spec o) then wret o
                 else let o' := mkObject (ob_Meta o) (add_finalizer (ob_Spec o)) in kube_Update o' ;! wret o' in
       rec o) w
  end.

Definition CoreLoggingClusterReconcile (k : ObjectKey) : M W unit := controller k tt lc_Reconcile.
Definition LoggingMulticlusterUserReconcile (k : ObjectKey) : M W (list string * option Result) :=
  controller k ([], None) mu_Reconcile.
Definition LoggingClusterBindingReconcile (k : ObjectKey) : M W (list string * option Result) :=
  controller k ([], None) lb_Reconcile.

(** ** What keeps an object from being deleted *)

(** A user without a password is refused before its deletion is looked at. *)
Lemma user_without_password_is_kept (u : Object MulticlusterUser) w :
  mus_Password (cr_Spec (ob_Spec u)) = "" -> mu_reconcile u w = (w, Err (ErrorString "must set password")).
Proof. intros Hp. unfold mu_reconcile. by rewrite decide_True. Qed.

(** A binding whose OpenSearch object is gone fails each time, unlike a logging cluster
    and a user, which are released. *)
Lemma binding_without_opensearch_is_kept (b : Object LoggingClusterBinding) ref w w' e :
  lbs_OpensearchClusterRef (cr_Spec (ob_Spec b)) = Some ref -> kube_Get (T := OsCluster) ref w = (w', Err e) ->
  lb_reconcile b w = (w', Err e).
Proof. intros Hr E. unfold lb_reconcile. rewrite Hr. unfold wbind. by rewrite E. Qed.

Lemma user_without_opensearch_is_released (u : Object MulticlusterUser) ref w w' e :
  mus_Password (cr_Spec (ob_Spec u)) <> "" -> mus_OpensearchClusterRef (cr_Spec (ob_Spec u)) = Some ref ->
  finalizing (ob_Spec u) = true -> kube_Get (T := OsCluster) ref w = (w', Err e) -> IsNotFound e = true ->
  mu_reconcile u w = done_ (modify (X := MulticlusterUser) (key_of u) remove_finalizer) w'.
Proof.
  intros Hp Hr Hf E Hn. unfold mu_reconcile. rewrite decide_False, Hr by done. unfold wbind at 1, get_opensearch.
  rewrite E, Hn, Hf. done.
Qed.
End Operator.

(** ** An operator in memory *)

Record OpWorld := mkOpWorld {
  op_server : OsWorld;
  op_clusters : KubeWorld LoggingCluster;
  op_users : KubeWorld MulticlusterUser;
  op_bindings : KubeWorld LoggingClusterBinding;
  op_opensearch : KubeWorld OsCluster;
  op_secrets : KubeWorld UserSecret }.

#[export] Instance op_kube_clusters : KubeClient OpWorld LoggingCluster :=
  part_kube op_clusters (fun v w => mkOpWorld (op_server w) v (op_users w) (op_bindings w) (op_opensearch w) (op_secrets w)) (fun v w => eq_refl).
#[export] Instance op_kube_users : KubeClient OpWorld MulticlusterUser :=
  part_kube op_users (fun v w => mkOpWorld (op_server w) (op_clusters w) v (op_bindings w) (op_opensearch w) (op_secrets w)) (fun v w => eq_refl).
#[export] Instance op_kube_bindings : KubeClient OpWorld LoggingClusterBinding :=
  part_kube op_bindings (fun v w => mkOpWorld (op_server w) (op_clusters w) (op_users w) v (op_opensearch w) (op_secrets w)) (fun v w => eq_refl).
#[export] Instance op_kube_opensearch : KubeClient OpWorld OsCluster :=
  part_kube op_opensearch (fun v w => mkOpWorld (op_server w) (op_clusters w) (op_users w) (op_bindings w) v (op_secrets w)) (fun v w => eq_refl).
#[export] Instance op_kube_secrets : KubeClient OpWorld UserSecret :=
  part_kube op_secrets (fun v w => mkOpWorld (op_server w) (op_clusters w) (op_users w) (op_bindings w) (op_opensearch w) v) (fun v w => eq_refl).

Definition on_server {A} (op : M OsWorld A) : M OpWorld A :=
  on_part op_server (fun v w => mkOpWorld v (op_clusters w) (op_users w) (op_bindings w) (op_opensearch w) (op_secrets w)) op.

#[export] Instance op_admin : OsAdmin OpWorld string string string := {|
  CatIndices a := on_server (CatIndices a);
  GetIndexTemplates a := on_server (GetIndexTemplates a);
  PutIndexTemplate a b := on_server (PutIndexTemplate a b);
  DeleteIndexTemplate a := on_server (DeleteIndexTemplate a);
  CreateIndex a b := on_server (CreateIndex a b);
  UpdateAlias a := on_server (UpdateAlias a);
  SynchronousReindex a b := on_server (SynchronousReindex a b);
  DeleteIndices a := on_server (DeleteIndices a);
  GetDocument a b := on_server (GetDocument a b);
  UpdateDocument a b c := on_server (UpdateDocument a b c);
  UpdateIndicesSettings a b := on_server (UpdateIndicesSettings a b);
  GetISM a := on_server (GetISM a);
  CreateISM a b := on_server (CreateISM a b);
  UpdateISM a b c d := on_server (UpdateISM a b c d);
  GetRole a := on_server (GetRole a);
  CreateRole a b := on_server (CreateRole a b);
  DeleteRole a := on_server (DeleteRole a);
  GetUser a := on_server (GetUser a);
  CreateUser a b := on_server (CreateUser a b);
  DeleteUser a := on_server (DeleteUser a);
  GetRolesMapping a := on_server (GetRolesMapping a);
  CreateRolesMapping a b := on_server (CreateRolesMapping a b);
  DeleteRolesMapping a := on_server (DeleteRolesMapping a);
  GetIngestPipeline a := on_server (GetIngestPipeline a);
  PutIngestTemplate a b := on_server (PutIngestTemplate a b);
  DeleteIngestPipeline a := on_server (DeleteIngestPipeline a);
  ImportObjects a := on_server (ImportObjects a);
  semver_Compare a b := semver_Compare a b |}.

Definition op_object {X} (name : string) (labels : gmap string string) (x : X) : KubeWorld X :=
  let o := mkObject (mkObjectMeta name "opni" labels 1%Z 0%Z) x in mkKubeWorld (mkApiDb 1 {[ key_of o := o ]}) 0%Z [].

Definition lc_object (deleted : bool) : LoggingCluster :=
  mkCR [OpensearchFinalizer] deleted (mkLoggingClusterSpec (Some ("opni", "opensearch")) (Some "index-x"))
    (mkLoggingClusterStatus [] (if deleted then "registered" else "created") "").

Definition op_world (deleted : bool) (server : OsWorld) : OpWorld :=
  mkOpWorld server (op_object "logging-x" {[ OpniClusterIDLabel := "c1" ]} (lc_object deleted))
    (mkKubeWorld (mkApiDb 0 ∅) 0%Z []) (mkKubeWorld (mkApiDb 0 ∅) 0%Z [])
    (op_object "opensearch" ∅ (mkOsCluster true "opensearch" true)) (op_object "index-x" ∅ (mkUserSecret "pw")).

Definition empty_server : OsWorld := mkOsWorld ∅ ∅ ∅ ∅ [] ∅ [].
Definition run_lc (w : OpWorld) : OpWorld * outcome unit :=
  CoreLoggingClusterReconcile (T := string) (P := string) (S := string) (fun _ => wret tt) ("opni", "logging-x") w.

(** A logging cluster is registered: its role, its user and the user's place in
    cluster_index are there. *)
Definition registered : OpWorld := (run_lc (op_world false empty_server)).1.
Example logging_cluster_registered :
  (run_lc (op_world false empty_server)).2 = Ok tt /\
  is_Some (ow_roles (op_server registered) !! "logging-x") /\
  usp_Password <$> ow_users (op_server registered) !! "index-x" = Some "pw" /\
  rms_Users <$> ow_mappings (op_server registered) !! "cluster_index" = Some ["index-x"].
Proof. split; [vm_compute; reflexivity|]. split; [by eexists|]. split; vm_compute; reflexivity. Qed.

(** When it is deleted the user goes; its role, which was looked for under the name of the
    OpenSearch object, and its place in cluster_index stay. *)
Definition after_deletion : OpWorld * outcome unit := run_lc (op_world true (op_server registered)).
Example deleted_logging_cluster_leaves_its_role :
  after_deletion.2 = Ok tt /\ ow_users (op_server after_deletion.1) !! "index-x" = None /\
  is_Some (ow_roles (op_server after_deletion.1) !! "logging-x") /\
  rms_Users <$> ow_mappings (op_server after_deletion.1) !! "cluster_index" = Some ["index-x"].
Proof. split; [vm_compute; reflexivity|]. split; [vm_compute; reflexivity|]. split; [by eexists|]. vm_compute; reflexivity. Qed.
