(* ===== verification/AlertClient.v ===== *)
(** pkg/alerting/storage/stores.go and broker_init: the client set through which the
    alerting plugin reaches its stores, what it promises, the JetStream stores that
    implement it, and a set of stores in memory. *)

From S2P Require Import Prelude GoStd Util CoreV1 Etcd Tokens AlertingV1 AlertRouting AlertRouter AlertStorage.

Local Open Scope string_scope.

(** ** stores.go *)

(** [AlertingStorage]; the flag of the reads is [opts.WithUnredacted]. *)
Record AlertingStorage (W T : Type) := mkAlertingStorage {
  as_Put : string -> T -> M W unit;
  as_Get : string -> bool -> M W T;
  as_Delete : string -> M W unit;
  as_ListKeys : M W (list string);
  as_List : bool -> M W (list T) }.
Arguments mkAlertingStorage {_ _} _ _ _ _ _.
Arguments as_Put {_ _} _ _ _.
Arguments as_Get {_ _} _ _ _.
Arguments as_Delete {_ _} _ _.
Arguments as_ListKeys {_ _} _.
Arguments as_List {_ _} _ _.

(** The tracker prunes by the clock: the present is an argument. *)
Class AlertingClientSet (W : Type) := {
  Conditions : AlertingStorage W AlertCondition;
  Endpoints : AlertingStorage W AlertEndpoint;
  States : AlertingStorage W CachedState;
  States_IsDiff : string -> CachedState -> M W bool;
  Incidents : AlertingStorage W (list Interval);
  Incidents_OpenInterval : Time -> string -> option Time -> M W unit;
  Incidents_CloseInterval : Time -> string -> option Time -> M W unit;
  Incidents_GetActiveWindows : string -> option Time -> option Time -> M W (list ActiveWindow) }.

(** ** Purge

    The stores are emptied in parallel and each on its own; the first error is
    returned. *)

Definition purge_store {W T} (s : AlertingStorage W T) : M W unit :=
  let! keys := as_ListKeys s in wmap (as_Delete s) keys ;! wret tt.

(** [errgroup]: a failure cancels the context, which the stores do not look at, so it
    does not stop the others. *)
Fixpoint wait_all {W} (l : list (M W unit)) : M W unit :=
  match l with
  | [] => wret tt
  | m :: l => fun w =>
      match m w with
      | (w1, Panic p) => (w1, Panic p)
      | (w1, Ok _) => wait_all l w1
      | (w1, Err e) => match wait_all l w1 with
                       | (w2, Panic p) => (w2, Panic p)
                       | (w2, _) => (w2, Err e)
                       end
      end
  end.

(** The routers are in memory and cannot fail. *)
Definition Purge {W} {CS : AlertingClientSet W} (purge_routers : W -> W) : M W unit :=
  wait_all [purge_store Conditions; purge_store Endpoints; (fun w => (purge_routers w, Ok tt));
            purge_store States; purge_store Incidents].

(** ** broker_init *)

Definition conditionPrefixV1 : string := "/alerting/conditions".
Definition endpointPrefixV1 : string := "/alerting/endpoints".
Definition statePrefixV1 : string := "/alerting/state".
Definition incidentPrefixV1 : string := "/alerting/incidents".

Definition js_storage {W T} (KV : NatsKV W) {PJ : ProtoJSON T} {AS : AlertingSecret T} (basePath : string)
  : AlertingStorage W T :=
  mkAlertingStorage (js_Put basePath) (js_Get basePath) (js_Delete basePath)
    (js_ListKeys basePath) (js_List basePath).

(** The state cache has its own [Put]. *)
Definition js_states {W} (KV : NatsKV W) {PJ : ProtoJSON CachedState} (basePath : string)
  : AlertingStorage W CachedState :=
  let s := js_storage KV basePath in
  mkAlertingStorage (state_Put basePath) (as_Get s) (as_Delete s) (as_ListKeys s) (as_List s).

(** Every store has a bucket of its own. *)
Definition NewDefaultAlertingBroker {W} (KC KE KS KI : NatsKV W)
    {PC : ProtoJSON AlertCondition} {PE : ProtoJSON AlertEndpoint} {PS : ProtoJSON CachedState}
    {PI : ProtoJSON (list Interval)} (ttl : Z) : AlertingClientSet W := {|
  Conditions := js_storage KC conditionPrefixV1;
  Endpoints := js_storage KE endpointPrefixV1;
  States := js_states KS statePrefixV1;
  States_IsDiff := IsDiff (KV := KS) statePrefixV1;
  Incidents := js_storage KI incidentPrefixV1;
  Incidents_OpenInterval now := OpenInterval (KV := KI) incidentPrefixV1 ttl now;
  Incidents_CloseInterval now := CloseInterval (KV := KI) incidentPrefixV1 ttl now;
  Incidents_GetActiveWindows := GetActiveWindowsFromIncidentTracker (KV := KI) incidentPrefixV1 |}.

(** ** What the client set promises

    A store that answers behaves as a map from ids to values, and an operation on one
    store leaves the others and the rest of the world alone. *)

Definition id_ok (k : string) : Prop := plain_component k = true.

Record StorageLaws {W T : Type} (s : AlertingStorage W T) (redact : T -> T)
    (get : W -> gmap string T) (ok : W -> Prop) (frame : W -> W -> Prop) : Prop := {
  law_Put k v w : ok w -> id_ok k ->
    exists w', as_Put s k v w = (w', Ok tt) /\ get w' = <[k := v]> (get w) /\ ok w' /\ frame w w';
  law_Get k u w : ok w -> id_ok k ->
    as_Get s k u w = (w, match get w !! k with
                         | Some v => Ok (if u then v else redact v)
                         | None => Err ErrKeyNotFound
                         end);
  law_Delete k w : ok w -> id_ok k ->
    exists w', as_Delete s k w = (w', Ok tt) /\ get w' = delete k (get w) /\ ok w' /\ frame w w';
  law_ListKeys w : ok w -> exists l, as_ListKeys s w = (w, Ok l) /\ l ≡ₚ (map_to_list (get w)).*1;
  law_List u w : ok w -> exists l, as_List s u w = (w, Ok l) /\
    l ≡ₚ (fun kv => if u then kv.2 else redact kv.2) <$> map_to_list (get w);
  law_ids w k : ok w -> is_Some (get w !! k) -> id_ok k }.

(** The contents of the four stores, the rest of the world, and when it is sound. *)
Class AlertingView (W : Type) := {
  conds : W -> gmap string AlertCondition;
  endps : W -> gmap string AlertEndpoint;
  states : W -> gmap string CachedState;
  incidents : W -> gmap string (list Interval);
  av_Rest : Type;
  rest : W -> av_Rest;
  av_ok : W -> Prop }.

(** [state_Put]: a state that differs, or that is older, is stored. *)
Definition put_state (k : string) (s : CachedState) (m : gmap string CachedState) : gmap string CachedState :=
  match m !! k with
  | Some p => if negb (CachedState_IsEquivalent p s) then <[k := s]> m
              else if (AsTime (cs_Timestamp s) <? AsTime (cs_Timestamp p))%Z then <[k := s]> m else m
  | None => <[k := s]> m
  end.

Class AlertingLaws (W : Type) {CS : AlertingClientSet W} (V : AlertingView W) (ttl : Z) : Prop := {
  conds_laws : StorageLaws Conditions (fun c => c) conds av_ok (fun w w' =>
    endps w' = endps w /\ states w' = states w /\ incidents w' = incidents w /\ rest w' = rest w);
  endps_laws : StorageLaws Endpoints AlertEndpoint_RedactSecrets endps av_ok (fun w w' =>
    conds w' = conds w /\ states w' = states w /\ incidents w' = incidents w /\ rest w' = rest w);
  states_Get k u w : av_ok w -> id_ok k ->
    as_Get States k u w = (w, match states w !! k with Some s => Ok s | None => Err ErrKeyNotFound end);
  states_IsDiff k s w : av_ok w -> id_ok k ->
    States_IsDiff k s w = (w, Ok (match states w !! k with
                                  | Some p => negb (CachedState_IsEquivalent p s)
                                  | None => true
                                  end));
  states_Put k s w : av_ok w -> id_ok k ->
    exists w', as_Put States k s w = (w', Ok tt) /\ states w' = put_state k s (states w) /\ av_ok w' /\
    conds w' = conds w /\ endps w' = endps w /\ incidents w' = incidents w /\ rest w' = rest w;
  states_Delete k w : av_ok w -> id_ok k ->
    exists w', as_Delete States k w = (w', Ok tt) /\ states w' = delete k (states w) /\ av_ok w' /\
    conds w' = conds w /\ endps w' = endps w /\ incidents w' = incidents w /\ rest w' = rest w;
  incidents_laws : StorageLaws Incidents (fun i => i) incidents av_ok (fun w w' =>
    conds w' = conds w /\ endps w' = endps w /\ states w' = states w /\ rest w' = rest w);
  incidents_Open now k t w : av_ok w -> id_ok k -> exists w', Incidents_OpenInterval now k t w = (w', Ok tt) /\
    incidents w' = <[k := Prune now ttl (open_items t (default [] (incidents w !! k)))]> (incidents w) /\ av_ok w' /\
    conds w' = conds w /\ endps w' = endps w /\ states w' = states w /\ rest w' = rest w;
  incidents_Close now k t w : av_ok w -> id_ok k -> exists w', Incidents_CloseInterval now k t w = (w', Ok tt) /\
    incidents w' = <[k := Prune now ttl (close_items t (default [] (incidents w !! k)))]> (incidents w) /\ av_ok w' /\
    conds w' = conds w /\ endps w' = endps w /\ states w' = states w /\ rest w' = rest w }.

(** ** The JetStream stores keep the promise *)

(** A bucket that answers. *)
Record BucketLaws {W : Type} (KV : NatsKV W) (bucket : W -> gmap string string) (frame : W -> W -> Prop) : Prop := {
  bl_Get k w : nkv_Get k w = (w, match bucket w !! k with Some d => Ok d | None => Err ErrKeyNotFound end);
  bl_Put k d w : exists w', nkv_Put k d w = (w', Ok tt) /\ bucket w' = <[k := d]> (bucket w) /\ frame w w';
  bl_Delete k w : exists w', nkv_Delete k w = (w', Ok tt) /\ bucket w' = delete k (bucket w) /\ frame w w';
  bl_Keys w : (bucket w = ∅ /\ nkv_Keys w = (w, Err ErrNoKeysFound)) \/
              exists l, nkv_Keys w = (w, Ok l) /\ l ≡ₚ (map_to_list (bucket w)).*1 }.

(** A directory in its clean form. *)
Definition clean_dir (b : string) : Prop :=
  b <> "" /\ path_Clean b = b /\ exists d st, clean_stack b = d :: st /\ d <> "".

Section Refinement.
Context {W T : Type} (KV : NatsKV W) (bucket : W -> gmap string string) (frame : W -> W -> Prop).
Context {PJ : ProtoJSON T} {AS : AlertingSecret T} (base : string).

(** The entries of the store in its bucket. *)
Definition entry (kd : string * string) : option (string * T) :=
  let k := path_Base kd.1 in
  if decide (plain_component k = true /\ kd.1 = base +:+ "/" +:+ k)
  then match Unmarshal kd.2 with Ok v => Some (k, v) | _ => None end else None.
Definition decoded (b : gmap string string) : gmap string T := list_to_map (omap entry (map_to_list b)).

(** Nothing else is in the bucket. *)
Definition bucket_ok (w : W) : Prop :=
  forall k d, bucket w !! k = Some d -> exists e, entry (k, d) = Some e.

Lemma filter_all {A} (P : A -> Prop) `{!forall x, Decision (P x)} (l : list A) : Forall P l -> filter P l = l.
Proof. induction 1; [done|]. rewrite filter_cons_True by done. by f_equal. Qed.

Lemma path_Base_child k : id_ok k -> path_Base (base +:+ "/" +:+ k) = k.
Proof.
  intros (Hs & Hne & _)%plain_component_spec. unfold path_Base.
  rewrite decide_False by (by intros [? ?]%str_app_eq_nil).
  rewrite str_slash_app, Split_app, (Split_no_char _ _ Hs), list.filter_app, filter_cons_True, filter_nil by done.
  by rewrite rev_app_distr.
Qed.

Lemma entry_Some k d id v :
  entry (k, d) = Some (id, v) <-> id_ok id /\ k = base +:+ "/" +:+ id /\ Unmarshal d = Ok v.
Proof.
  unfold entry. cbn [fst snd]. split.
  - case_decide as Hk; [|done]. destruct (Unmarshal d); [|done..]. intros [= <- <-]. by destruct Hk.
  - intros (Hid & -> & Hd). rewrite path_Base_child by done. rewrite decide_True by done. by rewrite Hd.
Qed.

Lemma decoded_lookup b id v :
  decoded b !! id = Some v <-> id_ok id /\ exists d, b !! (base +:+ "/" +:+ id) = Some d /\ Unmarshal d = Ok v.
Proof.
  unfold decoded. rewrite <- elem_of_list_to_map.
  - rewrite list_elem_of_omap. split.
    + intros ([k d] & Hin%elem_of_map_to_list & (Hid & -> & Hd)%entry_Some). eauto.
    + intros (Hid & d & Hin & Hd). exists (base +:+ "/" +:+ id, d).
      by rewrite elem_of_map_to_list, entry_Some.
  - pose proof (NoDup_fst_map_to_list b) as Hnd. revert Hnd. generalize (map_to_list b) as l.
    induction l as [|[k d] l IH]; [intros; constructor|]. cbn [fmap list_fmap fst]. intros [Hk Hl]%list.NoDup_cons.
    cbn [omap list_omap]. destruct (entry (k, d)) as [[id' v']|] eqn:E; [|by apply IH].
    apply entry_Some in E as (Hid & -> & _). cbn [fmap list_fmap fst]. apply list.NoDup_cons. split; [|by apply IH].
    intros ([id2 v2] & Heq & ([k2 d2] & Hin & (_ & -> & _)%entry_Some)%list_elem_of_omap)%list_elem_of_fmap.
    cbn in Heq. subst id2. apply Hk, list_elem_of_fmap. eexists (_, _). split; [|exact Hin]. done.
Qed.

Context (HB : BucketLaws KV bucket frame) (Hbase : clean_dir base).
Context (Marshal_total : forall v : T, is_Ok (Marshal v) = true).

Lemma js_Key_child k : id_ok k -> js_Key base k = base +:+ "/" +:+ k.
Proof.
  destruct Hbase as (Hne & Hc & d & st & Hst & Hd). intros Hk.
  pose proof Hk as (_ & Hkn & _)%plain_component_spec. unfold js_Key. rewrite path_Join_clean by auto. cbn [Join].
  by rewrite (path_Clean_snoc _ _ d st), Hc.
Qed.

Lemma bucket_child w id : bucket_ok w -> id_ok id ->
  match bucket w !! (base +:+ "/" +:+ id) with
  | Some d => exists v, Unmarshal d = Ok v /\ decoded (bucket w) !! id = Some v
  | None => decoded (bucket w) !! id = None
  end.
Proof.
  intros Hok Hid. destruct (bucket w !! _) as [d|] eqn:E.
  - destruct (Hok _ _ E) as [[id' v] (_ & Heq%str_app_inj_l & Hd)%entry_Some].
    exists v. split; [done|]. apply decoded_lookup. eauto.
  - apply eq_None_not_Some. intros [v (_ & d & ? & _)%decoded_lookup]. congruence.
Qed.

Lemma decoded_ext b1 b2 (m : gmap string T) :
  (forall id, id_ok id -> (exists d v, b2 !! (base +:+ "/" +:+ id) = Some d /\ Unmarshal d = Ok v /\ m !! id = Some v) \/
                          (b2 !! (base +:+ "/" +:+ id) = b1 !! (base +:+ "/" +:+ id) /\ m !! id = decoded b1 !! id) \/
                          (b2 !! (base +:+ "/" +:+ id) = None /\ m !! id = None)) ->
  (forall id, is_Some (m !! id) -> id_ok id) -> decoded b2 = m.
Proof.
  intros H Hm. apply map_eq. intros id. apply option_eq. intros v. rewrite decoded_lookup. split.
  - intros (Hid & d & Hd & Hu). destruct (H id Hid) as [(d' & v' & ? & ? & ?)|[[E ->]|[E ?]]]; [congruence| |congruence].
    apply decoded_lookup. split; [done|]. exists d. by rewrite <- E.
  - intros Hv. assert (Hid : id_ok id) by eauto. split; [done|].
    destruct (H id Hid) as [(d' & v' & ? & ? & ?)|[[-> E]|[E ?]]]; [exists d'; naive_solver congruence| |congruence].
    rewrite E in Hv. by apply decoded_lookup in Hv as [_ ?].
Qed.

(** The listed keys are those of the bucket, by their last component. *)
Lemma js_keys w : bucket_ok w ->
  exists l, js_ListKeys base w = (w, Ok l) /\ l ≡ₚ (map_to_list (decoded (bucket w))).*1.
Proof.
  intros Hok. unfold js_ListKeys, wcatch.
  assert (forall l : list string, (forall k, k ∈ l -> is_Some (bucket w !! k)) -> NoDup l ->
    (forall k, is_Some (bucket w !! k) -> k ∈ l) ->
    path_Base <$> filter (fun p => HasPrefix p base = true) l ≡ₚ (map_to_list (decoded (bucket w))).*1) as Hperm.
  { intros l Hl Hnd Hall. rewrite (filter_all _ l).
    2:{ apply list.Forall_forall. intros k [d Hd]%Hl. destruct (Hok _ _ Hd) as [[id v] (_ & -> & _)%entry_Some].
        apply HasPrefix_app. }
    apply NoDup_Permutation; [|apply NoDup_fst_map_to_list|].
    - apply NoDup_fmap_2_strong; [|done]. intros k1 k2 [a1 H1]%Hl [a2 H2]%Hl He.
      destruct (Hok _ _ H1) as [[i1 v1] (? & -> & _)%entry_Some], (Hok _ _ H2) as [[i2 v2] (? & -> & _)%entry_Some].
      rewrite !path_Base_child in He by done. by subst.
    - intros id. rewrite !list_elem_of_fmap. split.
      + intros (k & -> & [d Hd]%Hl). destruct (Hok _ _ Hd) as [[i v] (Hi & -> & Hu)%entry_Some].
        rewrite path_Base_child by done. exists (i, v). split; [done|]. apply elem_of_map_to_list, decoded_lookup. eauto.
      + intros ([i v] & -> & (Hi & d & Hd & _)%elem_of_map_to_list%decoded_lookup). cbn.
        exists (base +:+ "/" +:+ i). rewrite path_Base_child by done. split; [done|]. apply Hall. by eexists. }
  destruct (bl_Keys _ _ _ HB w) as [[Hemp E]|(l & E & Hl)].
  - rewrite (wbind_eq_Err _ _ _ _ _ E). rewrite errors_Is_refl. exists []. split; [done|].
    rewrite <- (Hperm []); [done|by intros k ?%not_elem_of_nil|constructor|]. rewrite Hemp. intros k [? ?%lookup_empty_Some]. done.
  - rewrite (wbind_eq_Ok _ _ _ _ _ E). eexists. split; [done|]. apply Hperm.
    + intros k. rewrite Hl, list_elem_of_fmap. intros ([k' d] & -> & ?%elem_of_map_to_list). by eexists.
    + rewrite Hl. apply NoDup_fst_map_to_list.
    + intros k [d Hd]. rewrite Hl, list_elem_of_fmap. exists (k, d). by rewrite elem_of_map_to_list.
Qed.

Lemma js_Get_ok w k u : bucket_ok w -> id_ok k ->
  js_Get base k u w = (w, match decoded (bucket w) !! k with
                          | Some v => Ok (if u then v else RedactSecrets v)
                          | None => Err ErrKeyNotFound
                          end).
Proof.
  intros Hok Hk. unfold js_Get, wbind, wlift. rewrite js_Key_child, (bl_Get _ _ _ HB) by done.
  pose proof (bucket_child w k Hok Hk) as H. destruct (bucket w !! _) as [d|].
  - destruct H as (v & Hd & ->). by rewrite Hd.
  - by rewrite H.
Qed.

Lemma wmap_reads (f : string -> M W T) (g : string -> T) (l : list string) w :
  (forall k, k ∈ l -> f k w = (w, Ok (g k))) -> wmap f l w = (w, Ok (g <$> l)).
Proof.
  induction l as [|k l IH]; intros H; [done|]. cbn [wmap].
  rewrite (wbind_eq_Ok _ _ _ w (g k)) by (apply H; left).
  rewrite (wbind_eq_Ok _ _ _ w (g <$> l)) by (apply IH; intros; apply H; by right). done.
Qed.

Lemma js_Put_ok k v w : bucket_ok w -> id_ok k ->
  exists w', js_Put base k v w = (w', Ok tt) /\ decoded (bucket w') = <[k := v]> (decoded (bucket w)) /\
    bucket_ok w' /\ frame w w'.
Proof.
  intros Hok Hk. unfold js_Put, wlift. destruct (Marshal v) as [d| |] eqn:Em; [|by specialize (Marshal_total v); rewrite Em in Marshal_total..].
  rewrite (wbind_eq_Ok _ _ _ w d) by done. rewrite js_Key_child by done.
  destruct (bl_Put _ _ _ HB (base +:+ "/" +:+ k) d w) as (w' & E & Hw & Hf).
  exists w'. split; [done|]. pose proof (Unmarshal_Marshal _ _ Em) as Hu. rewrite Hw. repeat split; [| |done].
  - apply (decoded_ext (bucket w)).
    + intros id Hid. destruct (decide (id = k)) as [->|Hne].
      * left. exists d, v. by rewrite !lookup_insert_eq.
      * right. left. rewrite !lookup_insert_ne; [done|done|]. by intros ?%str_app_inj_l%str_app_inj_l.
    + intros id. rewrite lookup_insert_is_Some. intros [->|[_ [? [? _]%decoded_lookup]]]; done.
  - intros k' d'. rewrite Hw, lookup_insert_Some. intros [[<- <-]|[_ ?]]; [|by apply (Hok k')].
    exists (k, v). by apply entry_Some.
Qed.

Lemma js_Delete_ok k w : bucket_ok w -> id_ok k ->
  exists w', js_Delete base k w = (w', Ok tt) /\ decoded (bucket w') = delete k (decoded (bucket w)) /\
    bucket_ok w' /\ frame w w'.
Proof.
  intros Hok Hk. unfold js_Delete, wcatch. rewrite js_Key_child by done.
  destruct (bl_Delete _ _ _ HB (base +:+ "/" +:+ k) w) as (w' & E & Hw & Hf). rewrite E.
  exists w'. split; [done|]. rewrite Hw. repeat split; [| |done].
  - apply (decoded_ext (bucket w)).
    + intros id Hid. destruct (decide (id = k)) as [->|Hne].
      * right. right. by rewrite !lookup_delete_eq.
      * right. left. rewrite !lookup_delete_ne; [done|done|]. by intros ?%str_app_inj_l%str_app_inj_l.
    + intros id. rewrite lookup_delete_is_Some. intros [_ [? [? _]%decoded_lookup]]. done.
  - intros k' d'. rewrite Hw, lookup_delete_Some. intros [_ ?]. by apply (Hok k').
Qed.

(** The JetStream store keeps the contract of the alerting storage on every bucket
    that answers: through its keys, its JSON and its listing it behaves as a map from
    ids to values, where a plain read hides the secrets, and it touches nothing else. *)
Theorem js_storage_laws : StorageLaws (js_storage KV base) RedactSecrets (fun w => decoded (bucket w)) bucket_ok frame.
Proof.
  split; cbn [as_Put as_Get as_Delete as_ListKeys as_List js_storage].
  - intros k v w. apply js_Put_ok.
  - intros k u w. apply js_Get_ok.
  - intros k w. apply js_Delete_ok.
  - apply js_keys.
  - intros u w Hok. destruct (js_keys w Hok) as (l & E & Hl). unfold js_List. rewrite (wbind_eq_Ok _ _ _ _ _ E).
    destruct (map_to_list (decoded (bucket w))) as [|kv0 l0] eqn:El.
    { apply Permutation_nil_r in Hl as ->. by exists []. }
    set (g := fun k => let v := default kv0.2 (decoded (bucket w) !! k) in if u then v else RedactSecrets v).
    exists (g <$> l). split.
    + apply wmap_reads. intros k. rewrite Hl, list_elem_of_fmap. intros ([k' v] & -> & Hin).
      rewrite <- El, elem_of_map_to_list in Hin. unfold g. cbn. pose proof Hin as [Hk _]%decoded_lookup.
      by rewrite js_Get_ok, Hin.
    + rewrite Hl, <- El, <- list_fmap_compose. apply reflexive_eq, list_fmap_ext. intros i [k v] Hi. cbn. unfold g.
      apply list_elem_of_lookup_2, elem_of_map_to_list in Hi. by rewrite Hi.
  - by intros w k Hok [v [? _]%decoded_lookup].
Qed.
End Refinement.

(** ** A broker over four buckets *)

(** The laws of a store, seen from a larger world. *)
Lemma StorageLaws_mono {W T} (s : AlertingStorage W T) redact (get : W -> gmap string T) (ok1 ok : W -> Prop)
    (frame1 frame : W -> W -> Prop) :
  StorageLaws s redact get ok1 frame1 ->
  (forall w, ok w -> ok1 w) ->
  (forall w w', ok w -> ok1 w' -> frame1 w w' -> ok w' /\ frame w w') ->
  StorageLaws s redact get ok frame.
Proof.
  intros [HP HG HD HK HL HI] Hok Hfr. split; eauto.
  - intros k v w Hw Hk. destruct (HP k v w (Hok _ Hw) Hk) as (w' & ? & ? & Hw' & Hf). exists w'.
    destruct (Hfr _ _ Hw Hw' Hf). auto.
  - intros k w Hw Hk. destruct (HD k w (Hok _ Hw) Hk) as (w' & ? & ? & Hw' & Hf). exists w'.
    destruct (Hfr _ _ Hw Hw' Hf). auto.
Qed.

Section Broker.
Context {W R : Type} {KC KE KS KI : NatsKV W} (bc be bs bi : W -> gmap string string) (rst : W -> R).
Context {PC : ProtoJSON AlertCondition} {PE : ProtoJSON AlertEndpoint} {PS : ProtoJSON CachedState}.
Context {PI : ProtoJSON (list Interval)} (ttl : Z).

#[local] Instance js_client : AlertingClientSet W := NewDefaultAlertingBroker KC KE KS KI ttl.
#[local] Instance js_view : AlertingView W := {|
  conds w := decoded conditionPrefixV1 (bc w);
  endps w := decoded endpointPrefixV1 (be w);
  states w := decoded statePrefixV1 (bs w);
  incidents w := decoded incidentPrefixV1 (bi w);
  rest := rst;
  av_ok w := bucket_ok (T := AlertCondition) bc conditionPrefixV1 w /\ bucket_ok (T := AlertEndpoint) be endpointPrefixV1 w /\
             bucket_ok (T := CachedState) bs statePrefixV1 w /\ bucket_ok (T := list Interval) bi incidentPrefixV1 w |}.

Context (HC : BucketLaws KC bc (fun w w' => be w' = be w /\ bs w' = bs w /\ bi w' = bi w /\ rst w' = rst w)).
Context (HE : BucketLaws KE be (fun w w' => bc w' = bc w /\ bs w' = bs w /\ bi w' = bi w /\ rst w' = rst w)).
Context (HS : BucketLaws KS bs (fun w w' => bc w' = bc w /\ be w' = be w /\ bi w' = bi w /\ rst w' = rst w)).
Context (HI : BucketLaws KI bi (fun w w' => bc w' = bc w /\ be w' = be w /\ bs w' = bs w /\ rst w' = rst w)).
Context (MC : forall v : AlertCondition, is_Ok (Marshal v) = true) (ME : forall v : AlertEndpoint, is_Ok (Marshal v) = true).
Context (MS : forall v : CachedState, is_Ok (Marshal v) = true) (MI : forall v : list Interval, is_Ok (Marshal v) = true).

Lemma prefix_clean b d st : b <> "" -> path_Clean b = b -> clean_stack b = d :: st -> d <> "" -> clean_dir b.
Proof. unfold clean_dir. naive_solver. Qed.
Lemma bucket_ok_same {T} {PJ : ProtoJSON T} (b : W -> gmap string string) base w w' :
  b w' = b w -> bucket_ok b base w -> bucket_ok b base w'.
Proof. unfold bucket_ok. by intros ->. Qed.
Lemma clean_condition : clean_dir conditionPrefixV1.
Proof. by eapply prefix_clean. Qed.
Lemma clean_endpoint : clean_dir endpointPrefixV1.
Proof. by eapply prefix_clean. Qed.
Lemma clean_state : clean_dir statePrefixV1.
Proof. by eapply prefix_clean. Qed.
Lemma clean_incident : clean_dir incidentPrefixV1.
Proof. by eapply prefix_clean. Qed.

Lemma get_intervals_ok k w : bucket_ok (T := list Interval) bi incidentPrefixV1 w -> id_ok k ->
  exists w', get_intervals (KV := KI) incidentPrefixV1 k w = (w', Ok (default [] (decoded incidentPrefixV1 (bi w) !! k))) /\
    (decoded incidentPrefixV1 (bi w') = decoded incidentPrefixV1 (bi w) \/
     decoded incidentPrefixV1 (bi w') = <[k := []]> (decoded incidentPrefixV1 (bi w) : gmap string (list Interval))) /\
    bucket_ok (T := list Interval) bi incidentPrefixV1 w' /\
    bc w' = bc w /\ be w' = be w /\ bs w' = bs w /\ rst w' = rst w.
Proof.
  intros Hok Hk. unfold get_intervals, wcatch.
  rewrite (js_Get_ok KI bi _ incidentPrefixV1 HI clean_incident _ _ _ Hok Hk).
  destruct (decoded incidentPrefixV1 (bi w) !! k) as [l|] eqn:E; [exists w; cbn; by auto 10|].
  rewrite errors_Is_refl.
  destruct (js_Put_ok KI bi _ incidentPrefixV1 HI clean_incident MI k [] w Hok Hk) as (w' & Hp & Hd & Hok' & Hf).
  rewrite (wbind_eq_Ok _ _ _ _ _ Hp). exists w'. auto.
Qed.

Lemma intervals_update k (f : list Interval -> list Interval) w : bucket_ok (T := list Interval) bi incidentPrefixV1 w -> id_ok k ->
  exists w', (let! items := get_intervals (KV := KI) incidentPrefixV1 k in js_Put (KV := KI) incidentPrefixV1 k (f items)) w = (w', Ok tt) /\
    decoded incidentPrefixV1 (bi w') = <[k := f (default [] (decoded incidentPrefixV1 (bi w) !! k))]> (decoded incidentPrefixV1 (bi w)) /\
    bucket_ok (T := list Interval) bi incidentPrefixV1 w' /\
    bc w' = bc w /\ be w' = be w /\ bs w' = bs w /\ rst w' = rst w.
Proof.
  intros Hok Hk. destruct (get_intervals_ok k w Hok Hk) as (w1 & E1 & Hd1 & Hok1 & Ha & Hb & Hc & Hr).
  rewrite (wbind_eq_Ok _ _ _ _ _ E1).
  destruct (js_Put_ok KI bi _ incidentPrefixV1 HI clean_incident MI k (f (default [] (decoded incidentPrefixV1 (bi w) !! k))) w1 Hok1 Hk)
    as (w' & Hp & Hd & Hok' & Hf). exists w'. split; [exact Hp|].
  destruct Hf as (-> & -> & -> & ->). split; [|done]. rewrite Hd. destruct Hd1 as [->| ->]; [done|]. apply insert_insert_eq.
Qed.

Lemma state_Put_ok k s w : bucket_ok (T := CachedState) bs statePrefixV1 w -> id_ok k ->
  exists w', state_Put (KV := KS) statePrefixV1 k s w = (w', Ok tt) /\
    decoded statePrefixV1 (bs w') = put_state k s (decoded statePrefixV1 (bs w)) /\
    bucket_ok (T := CachedState) bs statePrefixV1 w' /\ bc w' = bc w /\ be w' = be w /\ bi w' = bi w /\ rst w' = rst w.
Proof.
  intros Hok Hk. unfold state_Put, put_state, IsDiff, LastKnownChange.
  pose proof (js_Get_ok KS bs _ statePrefixV1 HS clean_state w k true Hok Hk) as HG.
  destruct (js_Put_ok KS bs _ statePrefixV1 HS clean_state MS k s w Hok Hk) as (w' & Hp & Hd & Hok' & Hf).
  unfold wbind. rewrite HG. destruct (decoded statePrefixV1 (bs w) !! k) as [p|] eqn:E; [|rewrite errors_Is_refl; exists w'; by auto 10].
  destruct (negb _) eqn:En; [exists w'; by auto 10|]. rewrite HG. cbn [wret].
  destruct (_ <? _)%Z; [exists w'; by auto 10|]. exists w. by auto 10.
Qed.

(** What the laws say of the other buckets. *)
Lemma other_buckets w w' :
  bc w' = bc w -> be w' = be w -> bs w' = bs w -> bi w' = bi w ->
  conds w' = conds w /\ endps w' = endps w /\ states w' = states w /\ incidents w' = incidents w.
Proof. cbn. by intros -> -> -> ->. Qed.

Ltac others := split_and!; first [done | by eapply bucket_ok_same].

(** The default broker keeps the promise of the client set. *)
Lemma broker_laws : AlertingLaws W js_view ttl.
Proof.
  split.
  - eapply StorageLaws_mono; [apply (js_storage_laws KC bc _ _ HC clean_condition MC)|by intros w (? & _)|].
    cbn. intros w w' (? & ? & ? & ?) ? (He & Hs & Hi & ->). rewrite He, Hs, Hi. others.
  - eapply StorageLaws_mono; [apply (js_storage_laws KE be _ _ HE clean_endpoint ME)|by intros w (_ & ? & _)|].
    cbn. intros w w' (? & ? & ? & ?) ? (Hc & Hs & Hi & ->). rewrite Hc, Hs, Hi. others.
  - intros k u w (_ & _ & Hok & _) Hk. cbn. rewrite (js_Get_ok KS bs _ statePrefixV1 HS clean_state w k u Hok Hk).
    destruct (decoded _ _ !! k); [by destruct u|done].
  - intros k s w (_ & _ & Hok & _) Hk. cbn. unfold IsDiff.
    rewrite (js_Get_ok KS bs _ statePrefixV1 HS clean_state w k true Hok Hk).
    destruct (decoded _ _ !! k); [done|by rewrite errors_Is_refl].
  - intros k s w (Hc & He & Hs & Hi) Hk. destruct (state_Put_ok k s w Hs Hk) as (w' & E & Hd & Hok & Ec & Ee & Ei & Er).
    exists w'. cbn. rewrite Ec, Ee, Ei. others.
  - intros k w (Hc & He & Hs & Hi) Hk.
    destruct (js_Delete_ok KS bs _ statePrefixV1 HS clean_state k w Hs Hk) as (w' & E & Hd & Hok & Ec & Ee & Ei & Er).
    exists w'. cbn. rewrite Ec, Ee, Ei. others.
  - eapply StorageLaws_mono; [apply (js_storage_laws KI bi _ _ HI clean_incident MI)|by intros w (_ & _ & _ & ?)|].
    cbn. intros w w' (? & ? & ? & ?) ? (Hc & He & Hs & ->). rewrite Hc, He, Hs. others.
  - intros now k t w (Hc & He & Hs & Hi) Hk.
    destruct (intervals_update k (fun l => Prune now ttl (open_items t l)) w Hi Hk) as (w' & E & Hd & Hok & Ec & Ee & Es & Er).
    exists w'. cbn. rewrite Ec, Ee, Es. others.
  - intros now k t w (Hc & He & Hs & Hi) Hk.
    destruct (intervals_update k (fun l => Prune now ttl (close_items t l)) w Hi Hk) as (w' & E & Hd & Hok & Ec & Ee & Es & Er).
    exists w'. cbn. rewrite Ec, Ee, Es. others.
Qed.
End Broker.

(** ** Stores in memory

    What the buckets hold, without their encoding. *)

Record MemStores (R : Type) := mkMemStores {
  ms_conds : gmap string AlertCondition;
  ms_endps : gmap string AlertEndpoint;
  ms_states : gmap string CachedState;
  ms_incidents : gmap string (list Interval);
  ms_rest : R }.
Arguments mkMemStores {_} _ _ _ _ _.
Arguments ms_conds {_} _.
Arguments ms_endps {_} _.
Arguments ms_states {_} _.
Arguments ms_incidents {_} _.
Arguments ms_rest {_} _.

Definition mem_storage {W T} (redact : T -> T) (get : W -> gmap string T) (set : gmap string T -> W -> W)
  : AlertingStorage W T := {|
  as_Put k v w := (set (<[k := v]> (get w)) w, Ok tt);
  as_Get k u w := (w, match get w !! k with
                      | Some v => Ok (if u : bool then v else redact v)
                      | None => Err ErrKeyNotFound
                      end);
  as_Delete k w := (set (delete k (get w)) w, Ok tt);
  as_ListKeys w := (w, Ok (map_to_list (get w)).*1);
  as_List u w := (w, Ok ((fun kv => if u : bool then kv.2 else redact kv.2) <$> map_to_list (get w))) |}.

Definition ids_ok {A} (m : gmap string A) : Prop := map_Forall (fun k _ => id_ok k) m.

Lemma mem_storage_laws {W T} (redact : T -> T) (get : W -> gmap string T) set (ok : W -> Prop) frame :
  (forall m w, get (set m w) = m) -> (forall w, ok w -> ids_ok (get w)) ->
  (forall m w, ok w -> ids_ok m -> ok (set m w) /\ frame w (set m w)) ->
  StorageLaws (mem_storage redact get set) redact get ok frame.
Proof.
  intros Hgs Hids Hset. split; cbn.
  - intros k v w Hw Hk. eexists. split; [done|]. rewrite Hgs. split; [done|]. apply Hset; [done|].
    apply map_Forall_insert_2; [done|]. by apply Hids.
  - done.
  - intros k w Hw Hk. eexists. split; [done|]. rewrite Hgs. split; [done|]. apply Hset; [done|].
    apply map_Forall_delete. by apply Hids.
  - intros w Hw. by eexists.
  - intros u w Hw. by eexists.
  - intros w k Hw [v Hv]. by eapply (Hids w Hw).
Qed.

Section Mem.
Context {R : Type} (ttl : Z).

Definition set_conds (m : gmap string AlertCondition) (w : MemStores R) : MemStores R :=
  mkMemStores m (ms_endps w) (ms_states w) (ms_incidents w) (ms_rest w).
Definition set_endps (m : gmap string AlertEndpoint) (w : MemStores R) : MemStores R :=
  mkMemStores (ms_conds w) m (ms_states w) (ms_incidents w) (ms_rest w).
Definition set_states (m : gmap string CachedState) (w : MemStores R) : MemStores R :=
  mkMemStores (ms_conds w) (ms_endps w) m (ms_incidents w) (ms_rest w).
Definition set_incidents (m : gmap string (list Interval)) (w : MemStores R) : MemStores R :=
  mkMemStores (ms_conds w) (ms_endps w) (ms_states w) m (ms_rest w).

Definition mem_states : AlertingStorage (MemStores R) CachedState :=
  let s := mem_storage (fun c => c) ms_states set_states in
  mkAlertingStorage (fun k v w => (set_states (put_state k v (ms_states w)) w, Ok tt))
    (as_Get s) (as_Delete s) (as_ListKeys s) (as_List s).

#[export] Instance mem_client : AlertingClientSet (MemStores R) := {|
  Conditions := mem_storage (fun c => c) ms_conds set_conds;
  Endpoints := mem_storage AlertEndpoint_RedactSecrets ms_endps set_endps;
  States := mem_states;
  States_IsDiff k s w := (w, Ok (match ms_states w !! k with
                                 | Some p => negb (CachedState_IsEquivalent p s)
                                 | None => true
                                 end));
  Incidents := mem_storage (fun i => i) ms_incidents set_incidents;
  Incidents_OpenInterval now k t w :=
    (set_incidents (<[k := Prune now ttl (open_items t (default [] (ms_incidents w !! k)))]> (ms_incidents w)) w, Ok tt);
  Incidents_CloseInterval now k t w :=
    (set_incidents (<[k := Prune now ttl (close_items t (default [] (ms_incidents w !! k)))]> (ms_incidents w)) w, Ok tt);
  Incidents_GetActiveWindows k s e w :=
    (w, match ms_incidents w !! k with Some l => Ok (active_windows s e l) | None => Err ErrKeyNotFound end) |}.

#[export] Instance mem_view : AlertingView (MemStores R) := {|
  conds := ms_conds; endps := ms_endps; states := ms_states; incidents := ms_incidents; rest := ms_rest;
  av_ok w := ids_ok (ms_conds w) /\ ids_ok (ms_endps w) /\ ids_ok (ms_states w) /\ ids_ok (ms_incidents w) |}.

Lemma put_state_ids k s m : id_ok k -> ids_ok m -> ids_ok (put_state k s m).
Proof.
  intros Hk Hm. assert (ids_ok (<[k := s]> m)) by by apply map_Forall_insert_2.
  unfold put_state. by destruct (m !! k); repeat case_match.
Qed.

#[export] Instance mem_laws : AlertingLaws (MemStores R) mem_view ttl.
Proof.
  split.
  - apply mem_storage_laws; [done|by intros ? [? _]|]. cbn. tauto.
  - apply mem_storage_laws; [done|by intros ? (_ & ? & _)|]. cbn. tauto.
  - intros k [] w _ _; cbn; by destruct (ms_states w !! k).
  - done.
  - intros k s w (? & ? & ? & ?) Hk. eexists. split; [done|]. cbn. split_and!; try done. by apply put_state_ids.
  - intros k w (? & ? & ? & ?) Hk. eexists. split; [done|]. cbn. split_and!; try done. by apply map_Forall_delete.
  - apply mem_storage_laws; [done|by intros ? (_ & _ & _ & ?)|]. cbn. tauto.
  - intros now k t w (? & ? & ? & ?) Hk. eexists. split; [done|]. cbn. split_and!; try done. by apply map_Forall_insert_2.
  - intros now k t w (? & ? & ? & ?) Hk. eexists. split; [done|]. cbn. split_and!; try done. by apply map_Forall_insert_2.
Qed.
End Mem.
