(* ===== verification/AlertEval.v ===== *)
(** plugins/alerting/pkg/alerting/impl.go and messaging: the evaluator of an internal
    condition.  Two goroutines share the stored state of the condition and a flag: one
    stores the health that messages report, the other looks at the stored state every
    few seconds, triggers and resolves the alert and keeps the incidents.  A turn of a
    loop is a sequence of accesses to what they share, and turns interleave between any
    two accesses.  The messaging node keeps the contexts of the running evaluators. *)

From S2P Require Import Prelude GoStd Util CoreV1 Health Monitor Etcd Tokens AlertingV1 AlertStorage AlertClient.

Local Open Scope string_scope.

(** ** Turns *)

(** A hook is the trigger ([true]) or the resolution ([false]) of the alert. *)
Inductive Turn (S : Type) : Type :=
| Done
| Crash (msg : string)
| Act {A : Type} (m : S -> S * A) (k : A -> Turn S)
| Hook (trigger : bool) (k : Turn S).
Arguments Done {_}.
Arguments Crash {_} _.
Arguments Act {_ _} _ _.
Arguments Hook {_} _ _.

(** ** impl.go *)

(** [inMemoryFiring], whether the context of the evaluation is done, the clock and the
    stores. *)
Record EvalState (W : Type) := mkEvalState {
  es_world : W;
  es_firing : bool;
  es_cancelled : bool;
  es_now : Time }.
Arguments mkEvalState {_} _ _ _ _.
Arguments es_world {_} _.
Arguments es_firing {_} _.
Arguments es_cancelled {_} _.
Arguments es_now {_} _.

(** [time.Time.Sub] saturates. *)
Definition time_Sub (t u : Time) : Z := Z.max int64_min (Z.min int64_max (t - u)).

Section Evaluator.
Context {W : Type} {CS : AlertingClientSet W}.
(** What a condition supplies: the health a message reports, which may look at the
    clock, and the hooks. *)
Context (conditionId : string) (evaluateDuration : Z).
Context (healthOnMessage : Time -> string -> outcome (bool * option Time)).
Context (triggerHook resolveHook : W -> W).

Abbreviation ES := (EvalState W).

Definition set_world (w : W) (s : ES) : ES := mkEvalState w (es_firing s) (es_cancelled s) (es_now s).
Definition SetFiring (firing : bool) : ES -> ES * unit := fun s =>
  (mkEvalState (es_world s) firing (es_cancelled s) (es_now s), tt).
Definition IsFiring : ES -> ES * bool := fun s => (s, es_firing s).
Definition Now : ES -> ES * Time := fun s => (s, es_now s).
Definition cancelEvaluation (s : ES) : ES := mkEvalState (es_world s) (es_firing s) true (es_now s).

Definition on_store {A} (m : M W A) : ES -> ES * outcome A := fun s =>
  let '(w, r) := m (es_world s) in (set_world w s, r).

(** A call of the stores; a panic ends the process. *)
Definition Call {A} (m : M W A) (k : outcome A -> Turn ES) : Turn ES :=
  Act (on_store m) (fun r => match r with Panic p => Crash p | _ => k r end).

(** Both loops update the state under a lock. *)
Definition UpdateState (s : CachedState) : M W unit :=
  let! diff := States_IsDiff conditionId s in
  if diff : bool then as_Put States conditionId s else wret tt.

(** A turn of [SubscriberLoop]: the status of a message that cannot be decoded is nil,
    which is for [healthOnMessage] to handle. *)
Definition subscriber_turn (data : string) : Turn ES :=
  Act Now (fun now =>
  match healthOnMessage now data with
  | Panic p => Crash p
  | Err _ => Done
  | Ok (healthy, ts) =>
      Act IsFiring (fun firing =>
      Call (UpdateState (mkCachedState healthy firing ts)) (fun _ => Done))
  end).

(** A turn of [EvaluateLoop]. *)
Definition evaluate_turn : Turn ES :=
  Call (as_Get States conditionId false) (fun r =>
  match r with
  | Ok lastKnownState =>
      if negb (cs_Healthy lastKnownState) then
        Act Now (fun now =>
        if (evaluateDuration <? time_Sub now (AsTime (cs_Timestamp lastKnownState)))%Z then
          Hook true (
          Act IsFiring (fun firing =>
          if firing then Done
          else
            Act (SetFiring true) (fun _ =>
            Act IsFiring (fun firing =>
            Act Now (fun now =>
            Call (UpdateState (mkCachedState (cs_Healthy lastKnownState) firing (Some now))) (fun _ =>
            Act Now (fun now =>
            Call (Incidents_OpenInterval now conditionId (Some now)) (fun _ => Done))))))))
        else Act (SetFiring false) (fun _ => Done))
      else
        Act IsFiring (fun firing =>
        if firing then
          Act (SetFiring false) (fun _ =>
          Act Now (fun now =>
          Call (Incidents_CloseInterval now conditionId (Some now)) (fun _ => Hook false Done)))
        else Done)
  | _ => Done
  end).

(** [CalculateInitialState], before the loops start.  The arguments of [errors.Is] are
    the other way round in the source. *)
Definition initial_incidents : ES -> ES * outcome bool := fun s =>
  match on_store (as_Get Incidents conditionId false) s with
  | (s, Err e) =>
      if errors_Is ErrKeyNotFound e
      then match on_store (as_Put Incidents conditionId []) s with
           | (s, Ok _) => (s, Ok true)
           | (s, Err _) => (cancelEvaluation s, Ok false)
           | (s, Panic p) => (s, Panic p)
           end
      else (s, Ok true)
  | (s, Ok _) => (s, Ok true)
  | (s, Panic p) => (s, Panic p)
  end.

Definition initial_state : ES -> ES * outcome (option CachedState) := fun s =>
  let incomingState := DefaultCachedState (es_now s) in
  match on_store (as_Get States conditionId false) s with
  | (s, Err e) =>
      if errors_Is ErrKeyNotFound e
      then match on_store (as_Put States conditionId incomingState) s with
           | (s, Ok _) => (s, Ok (Some incomingState))
           | (s, Err _) => (cancelEvaluation s, Ok None)
           | (s, Panic p) => (s, Panic p)
           end
      else (s, Ok (Some incomingState))
  | (s, Ok st) => (s, Ok (Some st))
  | (s, Panic p) => (s, Panic p)
  end.

Definition CalculateInitialState : M ES unit :=
  let! go := initial_incidents in
  if negb go then wret tt
  else
    let! st := initial_state in
    match st with
    | None => wret tt
    | Some incomingState => fun s =>
        let s := if cs_Firing incomingState then (SetFiring true s).1 else s in
        match on_store (UpdateState incomingState) s with
        | (s, Panic p) => (s, Panic p)
        | (s, _) => (s, Ok tt)
        end
    end.

(** ** The two loops *)

Inductive sub_phase := SubWaiting | SubReading | SubReturned.

Record Sys := mkSys {
  sy_state : ES;
  sy_phase : sub_phase;
  sy_sub : Turn ES;
  sy_evaluating : bool;
  sy_eval : Turn ES }.

(** The evaluator as [onSystemConditionCreate] starts it. *)
Definition started (s : ES) : Sys := mkSys s SubWaiting Done true Done.

(** What may happen next.  A loop whose context is done returns when it chooses that
    case of its select, and it may choose another one first. *)
Inductive sched :=
| Subscribed
| Message (data : string)
| Tick
| StepSub
| StepEval
| SubReturns
| EvalReturns
| Cancelled
| Pass (d : Z).

Definition idle (t : Turn ES) : bool := match t with Done => true | _ => false end.
Definition crashed (t : Turn ES) : bool := match t with Crash _ => true | _ => false end.

(** One access of a turn. *)
Definition advance (t : Turn ES) (s : ES) : option (Turn ES * ES * list (bool * Time)) :=
  match t with
  | Done | Crash _ => None
  | Act m k => let '(s', a) := m s in Some (k a, s', [])
  | Hook b k => Some (k, set_world ((if b then triggerHook else resolveHook) (es_world s)) s, [(b, es_now s)])
  end.

Definition step (e : sched) (y : Sys) : option (Sys * list (bool * Time)) :=
  let '(mkSys s ph sub ev eval) := y in
  if crashed sub || crashed eval then None
  else match e, ph with
  | Subscribed, SubWaiting => Some (mkSys s SubReading sub ev eval, [])
  | Message data, SubReading => if idle sub then Some (mkSys s ph (subscriber_turn data) ev eval, []) else None
  | Tick, _ => if ev && idle eval then Some (mkSys s ph sub ev evaluate_turn, []) else None
  | StepSub, _ => '(sub', s', h) ← advance sub s; Some (mkSys s' ph sub' ev eval, h)
  | StepEval, _ => '(eval', s', h) ← advance eval s; Some (mkSys s' ph sub ev eval', h)
  | SubReturns, (SubWaiting | SubReading) =>
      if es_cancelled s && idle sub then Some (mkSys s SubReturned sub ev eval, []) else None
  | EvalReturns, _ => if ev && es_cancelled s && idle eval then Some (mkSys s ph sub false eval, []) else None
  | Cancelled, _ => Some (mkSys (cancelEvaluation s) ph sub ev eval, [])
  | Pass d, _ =>
      if (0 <=? d)%Z
      then Some (mkSys (mkEvalState (es_world s) (es_firing s) (es_cancelled s) (es_now s + d)%Z) ph sub ev eval, [])
      else None
  | _, _ => None
  end.

(** A schedule, with the hooks it runs and when. *)
Fixpoint exec (l : list sched) (y : Sys) : option (Sys * list (bool * Time)) :=
  match l with
  | [] => Some (y, [])
  | e :: l =>
      '(y1, h1) ← step e y;
      '(y2, h2) ← exec l y1;
      Some (y2, h1 ++ h2)%list
  end.
End Evaluator.

(** ** messaging: the contexts of the evaluators

    A context is named by a number.  [EvaluatorContext] is stored in the map by value:
    the goroutine that waits for the context writes the [running] of its own copy. *)

Record EvaluatorContext := mkEvaluatorContext { ec_Ctx : nat; ec_running : bool }.

Record MessagingNode := mkMessagingNode {
  mn_updateListeners : gmap string EvaluatorContext;
  mn_done : gset nat;
  mn_waiting : list EvaluatorContext }.

Definition NewMessagingNode : MessagingNode := mkMessagingNode ∅ ∅ [].

(** The listener that is replaced is cancelled. *)
Definition cancel_listener (conditionId : string) (n : MessagingNode) : gset nat :=
  match mn_updateListeners n !! conditionId with
  | Some oldContext => {[ec_Ctx oldContext]} ∪ mn_done n
  | None => mn_done n
  end.

Definition AddSystemConfigListener (conditionId : string) (ctx : nat) (n : MessagingNode) : MessagingNode :=
  let eCtx := mkEvaluatorContext ctx true in
  mkMessagingNode (<[conditionId := eCtx]> (mn_updateListeners n)) (cancel_listener conditionId n)
    (eCtx :: mn_waiting n).

Definition RemoveConfigListener (conditionId : string) (n : MessagingNode) : MessagingNode :=
  mkMessagingNode (delete conditionId (mn_updateListeners n)) (cancel_listener conditionId n) (mn_waiting n).

Definition IsRunning (conditionId : string) (n : MessagingNode) : bool :=
  match mn_updateListeners n !! conditionId with
  | Some eCtx => ec_running eCtx
  | None => false
  end.

(** A context ends by itself, and the goroutine that waits for it writes its copy. *)
Definition context_ends (ctx : nat) (n : MessagingNode) : MessagingNode :=
  mkMessagingNode (mn_updateListeners n) ({[ctx]} ∪ mn_done n) (mn_waiting n).
Definition waiters_return (n : MessagingNode) : MessagingNode :=
  mkMessagingNode (mn_updateListeners n) (mn_done n)
    (map (fun e => if decide (ec_Ctx e ∈ mn_done n) then mkEvaluatorContext (ec_Ctx e) false else e) (mn_waiting n)).
