(* ===== verification/AlertEvalProps.v ===== *)
(** What the evaluator of an internal condition does, in every interleaving of its two
    loops, over stores that answer. *)

From S2P Require Import Prelude GoStd Util CoreV1 Etcd Tokens AlertingV1 AlertStorage AlertClient AlertEval.

Local Open Scope string_scope.

Section Props.
Context {W : Type} {CS : AlertingClientSet W} {V : AlertingView W} {ttl : Z} {LA : AlertingLaws W V ttl}.
Context (id : string) (dur : Z) (health : Time -> string -> outcome (bool * option Time)).
Context (trig res : W -> W).
Context (Hid : id_ok id) (Hdur : (0 <= dur)%Z).
(** The hooks post to Alertmanager: they leave the stores alone. *)
Context (Htrig : forall w, av_ok w -> av_ok (trig w) /\ states (trig w) = states w /\ incidents (trig w) = incidents w).
Context (Hres : forall w, av_ok w -> av_ok (res w) /\ states (res w) = states w /\ incidents (res w) = incidents w).

Abbreviation St := (EvalState W).
Abbreviation exec := (exec id dur health trig res).
Abbreviation step := (step id dur health trig res).

(** ** The stores *)

Lemma UpdateState_ok st w : av_ok w ->
  exists w', UpdateState id st w = (w', Ok tt) /\ av_ok w' /\ incidents w' = incidents w /\
    states w' = match states w !! id with
                | Some p => if CachedState_IsEquivalent p st then states w else <[id := st]> (states w)
                | None => <[id := st]> (states w)
                end.
Proof.
  intros Hok. unfold UpdateState. rewrite (wbind_eq_Ok _ _ _ _ _ (states_IsDiff id st w Hok Hid)).
  destruct (states_Put id st w Hok Hid) as (w' & Hp & Hs & Hok' & _ & _ & Hi & _). unfold put_state in Hs.
  destruct (states w !! id) as [p|] eqn:E.
  - destruct (CachedState_IsEquivalent p st); cbn [negb] in *.
    + exists w. by auto.
    + exists w'. by auto.
  - exists w'. by auto.
Qed.

(** ** Every alert has a cause *)

Section Cause.
Context (P : Time -> Prop).

(** An unhealthy state that is stored goes back to an unhealthy report. *)
Definition caused (s : St) : Prop :=
  av_ok (es_world s) /\
  forall st, states (es_world s) !! id = Some st -> cs_Healthy st = false ->
    exists c, P c /\ (c <= AsTime (cs_Timestamp st))%Z.

(** A turn that is left to run, from the time [n] on, keeps this and triggers only
    when an unhealthy report is older than the duration. *)
Fixpoint safe (n : Time) (t : Turn St) : Prop :=
  match t with
  | Done | Crash _ => True
  | Act m k => forall s, caused s -> (n <= es_now s)%Z ->
      caused (m s).1 /\ es_now (m s).1 = es_now s /\ safe (es_now s) (k (m s).2)
  | Hook b k => (b = true -> exists c, P c /\ (c + dur < n)%Z) /\ safe n k
  end.

Lemma safe_later n n' t : (n <= n')%Z -> safe n t -> safe n' t.
Proof.
  revert n n'. induction t as [| |A m k IH|b k IH]; intros n n' Hn; cbn; [done..| |].
  - intros H s Hs Hns. apply H; [done|lia].
  - intros [Hb Hk]. split; [|eauto]. intros E. destruct (Hb E) as (c & ? & ?). exists c. split; [done|lia].
Qed.

Lemma safe_call {A} n (m : M W A) (k : outcome A -> Turn St) :
  (forall s, caused s -> (n <= es_now s)%Z -> exists w r, m (es_world s) = (w, r) /\ caused (set_world w s) /\
     match r with Panic _ => True | _ => safe (es_now s) (k r) end) ->
  safe n (Call m k).
Proof.
  intros H. unfold Call. cbn. intros s Hs Hn. destruct (H s Hs Hn) as (w & r & E & Hc & Hk).
  unfold on_store. rewrite E. cbn. repeat split; try done; [apply Hc..|by destruct r].
Qed.

Lemma safe_update n st k :
  (cs_Healthy st = false -> exists c, P c /\ (c <= AsTime (cs_Timestamp st))%Z) ->
  (forall n', (n <= n')%Z -> safe n' (k (Ok tt))) -> safe n (Call (UpdateState id st) k).
Proof.
  intros Hst Hk. apply safe_call. intros s [Hok Hs] Hn.
  destruct (UpdateState_ok st (es_world s) Hok) as (w' & E & Hok' & _ & Hs'). exists w', (Ok tt). split; [done|].
  split; [|by apply Hk]. split; [done|]. cbn. rewrite Hs'. intros st'.
  destruct (states (es_world s) !! id) as [p|] eqn:Ep.
  - case_match; [rewrite Ep; by apply Hs|]. rewrite lookup_insert_eq. by intros [= <-].
  - rewrite lookup_insert_eq. by intros [= <-].
Qed.

Lemma safe_subscriber n data :
  (forall now ts, health now data = Ok (false, ts) -> P (AsTime ts)) -> safe n (subscriber_turn id health data).
Proof.
  intros HP. unfold subscriber_turn. cbn [safe]. intros s Hs Hn. split_and!; [done..|].
  destruct (health _ data) as [[h ts]| |] eqn:E; [|done..]. cbn [safe]. intros s2 Hs2 Hn2. split_and!; [done..|].
  apply safe_update; [|done]. cbn. intros ->. exists (AsTime ts). split; [by eapply HP|apply Z.le_refl].
Qed.

(** An access that leaves the stores alone. *)
Lemma caused_same (s s' : St) : es_world s' = es_world s -> caused s -> caused s'.
Proof. unfold caused. by intros ->. Qed.

Lemma safe_incidents n (m : M W unit) :
  (forall w, av_ok w -> exists w', m w = (w', Ok tt) /\ av_ok w' /\ states w' = states w) ->
  forall k, safe n (k (Ok tt)) -> (forall n' t, (n <= n')%Z -> safe n t -> safe n' t) -> safe n (Call m k).
Proof.
  intros Hm k Hk Hl. apply safe_call. intros s [Hok Hs] Hn. destruct (Hm _ Hok) as (w' & E & Hok' & Hst).
  exists w', (Ok tt). split; [done|]. split; [|eauto]. split; [done|]. cbn. by rewrite Hst.
Qed.

Lemma safe_fire n st :
  cs_Healthy st = false -> (exists c, P c /\ (c <= AsTime (cs_Timestamp st))%Z) ->
  (AsTime (cs_Timestamp st) < n)%Z ->
  safe n (Act IsFiring (fun firing => if firing then Done else
            Act (SetFiring true) (fun _ => Act IsFiring (fun firing => Act Now (fun now =>
            Call (UpdateState id (mkCachedState (cs_Healthy st) firing (Some now))) (fun _ => Act Now (fun now =>
            Call (Incidents_OpenInterval now id (Some now)) (fun _ => Done)))))))).
Proof.
  intros Hh (c & Hc & Hle) Hn. cbn [safe]. intros s Hs Hns. split_and!; [done..|].
  destruct (IsFiring s).2; [done|]. cbn [safe]. intros s1 Hs1 Hn1. split_and!; [by eapply caused_same|done|].
  intros s2 Hs2 Hn2. split_and!; [done..|]. intros s3 Hs3 Hn3. split_and!; [done..|].
  apply safe_update.
  - cbn. intros _. exists c. split; [done|lia].
  - intros n4 Hn4. cbn [safe]. intros s5 Hs5 Hn5. split_and!; [done..|]. apply safe_incidents; [|done|apply safe_later].
    intros w Hw. destruct (incidents_Open (Now s5).2 id (Some (Now s5).2) w Hw Hid) as (w' & ? & _ & ? & _ & _ & ? & _). eauto.
Qed.

Lemma time_Sub_lt d t u : (0 <= d)%Z -> (d < time_Sub t u)%Z -> (u + d < t)%Z.
Proof. unfold time_Sub, int64_min, int64_max. lia. Qed.

Lemma safe_evaluate n : safe n (evaluate_turn id dur).
Proof.
  unfold evaluate_turn. apply safe_call. intros s [Hok Hs] Hn. rewrite (states_Get id false _ Hok Hid).
  eexists _, _. split; [done|]. split; [by apply caused_same with s|].
  destruct (states (es_world s) !! id) as [st|] eqn:E; [|done]. destruct (cs_Healthy st) eqn:Eh; cbn [negb].
  - cbn [safe]. intros s1 Hs1 Hn1. split_and!; [done..|]. destruct (IsFiring s1).2; [|done]. cbn [safe].
    intros s2 Hs2 Hn2. split_and!; [by eapply caused_same|done|]. intros s3 Hs3 Hn3. split_and!; [done..|].
    apply safe_incidents; [|done|apply safe_later]. intros w Hw.
    destruct (incidents_Close (Now s3).2 id (Some (Now s3).2) w Hw Hid) as (w' & ? & _ & ? & _ & _ & ? & _). eauto.
  - destruct (Hs st eq_refl Eh) as (c & Hc & Hle). cbn [safe]. intros s1 Hs1 Hn1. split_and!; [done..|]. cbn.
    case_match eqn:El.
    + apply Z.ltb_lt, time_Sub_lt in El; [|done]. split; [intros _; exists c; split; [done|lia]|].
      rewrite <- Eh. apply safe_fire; [done|eauto|lia].
    + cbn [safe]. intros s2 Hs2 Hn2. split_and!; [by eapply caused_same|done..].
Qed.
End Cause.

(** What a schedule starts from: the unhealthy report that is stored, or one that comes. *)
Definition cause (l : list sched) (s0 : St) (c : Time) : Prop :=
  (exists data now ts, Message data ∈ l /\ health now data = Ok (false, ts) /\ AsTime ts = c) \/
  (exists st, states (es_world s0) !! id = Some st /\ cs_Healthy st = false /\ AsTime (cs_Timestamp st) = c).

Definition sys_safe (P : Time -> Prop) (y : Sys) : Prop :=
  caused P (sy_state y) /\ safe P (es_now (sy_state y)) (sy_sub y) /\ safe P (es_now (sy_state y)) (sy_eval y).

Lemma advance_safe P n t s t' s' h :
  caused P s -> (n <= es_now s)%Z -> safe P n t -> advance trig res t s = Some (t', s', h) ->
  caused P s' /\ es_now s' = es_now s /\ safe P (es_now s) t' /\
  forall b n, (b, n) ∈ h -> b = true -> exists c, P c /\ (c + dur < n)%Z.
Proof.
  intros Hs Hn Ht. destruct t as [| |A m k|b k]; cbn in *; [done..| |].
  - destruct (Ht s Hs Hn) as (Hc & He & Hk). destruct (m s) as [s1 a] eqn:E. intros [= <- <- <-]. cbn in *.
    split_and!; try done. by intros ?? ?%not_elem_of_nil.
  - intros [= <- <- <-]. destruct Ht as [Hb Hk]. split_and!; [|done|by eapply safe_later|].
    + destruct Hs as [Hok Hs]. destruct b; [destruct (Htrig _ Hok) as (? & E & _) | destruct (Hres _ Hok) as (? & E & _)];
        split; cbn; rewrite ?E; done.
    + intros b' n' [= -> ->]%list_elem_of_singleton Hb'. destruct (Hb Hb') as (c & ? & ?). exists c. split; [done|lia].
Qed.

Lemma step_safe P e y y' h :
  (forall data, e = Message data -> forall now ts, health now data = Ok (false, ts) -> P (AsTime ts)) ->
  sys_safe P y -> step e y = Some (y', h) ->
  sys_safe P y' /\ forall b n, (b, n) ∈ h -> b = true -> exists c, P c /\ (c + dur < n)%Z.
Proof.
  intros HP. destruct y as [s ph sub ev eval]. intros (Hs & Hsub & Hev). unfold AlertEval.step. cbn in Hs, Hsub, Hev.
  destruct (_ || _); [done|].
  assert (forall b (n : Time), (b, n) ∈ ([] : list (bool * Time)) -> b = true -> exists c, P c /\ (c + dur < n)%Z) as Hnil
    by by intros ?? ?%not_elem_of_nil.
  destruct e.
  - destruct ph; [|done..]. intros [= <- <-]. by split.
  - destruct ph; [done| |done]. destruct (idle sub); [|done]. intros [= <- <-]. split; [|done]. split_and!; [done| |done].
    cbn. apply safe_subscriber. by apply HP.
  - destruct (ev && idle eval); [|done]. intros [= <- <-]. split; [|done]. split_and!; [done..|]. apply safe_evaluate.
  - destruct (advance trig res sub s) as [[[sub' s'] h']|] eqn:E; [|done]. cbn. intros [= <- <-].
    destruct (advance_safe P _ _ _ _ _ _ Hs (Z.le_refl _) Hsub E) as (? & En & ? & ?).
    split; [|done]. unfold sys_safe. cbn. by rewrite En.
  - destruct (advance trig res eval s) as [[[eval' s'] h']|] eqn:E; [|done]. cbn. intros [= <- <-].
    destruct (advance_safe P _ _ _ _ _ _ Hs (Z.le_refl _) Hev E) as (? & En & ? & ?).
    split; [|done]. unfold sys_safe. cbn. by rewrite En.
  - destruct ph; [| |done]; (destruct (es_cancelled s && idle sub); [|done]); intros [= <- <-]; by split.
  - destruct (ev && es_cancelled s && idle eval); [|done]. intros [= <- <-]. by split.
  - intros [= <- <-]. split; [|done]. split_and!; [by eapply caused_same|done..].
  - destruct (0 <=? d)%Z eqn:Ed; [|done]. intros [= <- <-]. split; [|done]. apply Z.leb_le in Ed.
    split_and!; [by eapply caused_same|eapply safe_later; [|done]; cbn; lia..].
Qed.

Lemma exec_safe P l y y' h :
  (forall data, Message data ∈ l -> forall now ts, health now data = Ok (false, ts) -> P (AsTime ts)) ->
  sys_safe P y -> exec l y = Some (y', h) ->
  forall b n, (b, n) ∈ h -> b = true -> exists c, P c /\ (c + dur < n)%Z.
Proof.
  revert y h. induction l as [|e l IH]; intros y h HP Hy; cbn [AlertEval.exec].
  - intros [= <- <-] ?? ?%not_elem_of_nil. done.
  - destruct (step e y) as [[y1 h1]|] eqn:E1; [|done]. cbn.
    destruct (exec l y1) as [[y2 h2]|] eqn:E2; [|done]. cbn. intros [= <- <-].
    destruct (step_safe P e y y1 h1) as [Hy1 Hh1]; [intros data ->; apply HP; left|done..|].
    intros b n [Hin|Hin]%elem_of_app; [by eapply Hh1|]. eapply (IH y1 h2); [|done..]. intros data Hd. apply HP. by right.
Qed.

(** C7: An alert is never raised without a cause: in every interleaving of the two
    loops, of messages and of the clock, an alert is triggered only when an unhealthy
    report, one that came as a message or the one that was stored, is older than the
    duration of the condition. *)
Theorem alerts_have_a_cause (l : list sched) (s0 : St) (y' : Sys) (h : list (bool * Time)) (t : Time) :
  av_ok (es_world s0) -> exec l (started s0) = Some (y', h) -> (true, t) ∈ h ->
  exists c, cause l s0 c /\ (c + dur < t)%Z.
Proof.
  intros Hok E Hin. eapply (exec_safe (cause l s0) l (started s0)); [..|exact Hin|done]; [| |exact E].
  - intros data Hd now ts Hh. left. by exists data, now, ts.
  - split_and!; [|done..]. split; [done|]. intros st Hst Hh. exists (AsTime (cs_Timestamp st)). split; [|cbn; lia].
    right. by exists st.
Qed.

(** ** Resolutions answer triggers *)

(** A list of hooks in which every resolution follows a trigger, with no other
    resolution in between; [armed] says whether there is one to answer. *)
Fixpoint answered (armed : bool) (h : list (bool * Time)) : bool :=
  match h with
  | [] => true
  | (true, _) :: h => answered true h
  | (false, _) :: h => armed && answered false h
  end.
Fixpoint armed_after (armed : bool) (h : list (bool * Time)) : bool :=
  match h with [] => armed | (b, _) :: h => armed_after b h end.

Lemma answered_app armed h1 h2 : answered armed (h1 ++ h2) = answered armed h1 && answered (armed_after armed h1) h2.
Proof.
  revert armed. induction h1 as [|[[] n] h1 IH]; intros armed; [done| |]; cbn; rewrite IH; [done|]. by rewrite andb_assoc.
Qed.
Lemma armed_after_app armed h1 h2 : armed_after armed (h1 ++ h2) = armed_after (armed_after armed h1) h2.
Proof. revert armed. induction h1 as [|[b n] h1 IH]; intros armed; cbn; [done|apply IH]. Qed.

(** Only the evaluating loop writes the flag. *)
Fixpoint keeps_flag (t : Turn St) : Prop :=
  match t with
  | Done | Crash _ => True
  | Act m k => forall s, es_firing (m s).1 = es_firing s /\ keeps_flag (k (m s).2)
  | Hook _ _ => False
  end.
Fixpoint brackets (f armed : bool) (t : Turn St) : Prop :=
  match t with
  | Done => f = true -> armed = true
  | Crash _ => True
  | Act m k => forall s, es_firing s = f -> brackets (es_firing (m s).1) armed (k (m s).2)
  | Hook true k => brackets f true k
  | Hook false k => armed = true /\ brackets f false k
  end.

Lemma keeps_subscriber data : keeps_flag (subscriber_turn id health data).
Proof.
  unfold subscriber_turn. cbn. intros s. split; [done|]. destruct (health _ data) as [[h ts]| |]; [|done..]. cbn.
  intros s1. split; [done|]. intros s2. unfold on_store. destruct (UpdateState _ _ _) as [w []]; done.
Qed.

Lemma brackets_call {A} f armed (m : M W A) k :
  (forall r, brackets f armed (k r)) -> brackets f armed (Call m k).
Proof.
  intros Hk. unfold Call. cbn. intros s Hs. unfold on_store. destruct (m (es_world s)) as [w r]. cbn. rewrite Hs.
  destruct r; [apply Hk..|done].
Qed.

Lemma brackets_evaluate f armed : (f = true -> armed = true) -> brackets f armed (evaluate_turn id dur).
Proof.
  intros Hf. unfold evaluate_turn. apply brackets_call. intros [st| |]; [|done..].
  destruct (cs_Healthy st); cbn [negb brackets]; intros s Hs; cbn [IsFiring Now fst snd]; rewrite Hs.
  - destruct f; [|done]. cbn [brackets]. intros s1 Hs1 s2 Hs2. cbn [Now SetFiring es_firing fst snd] in *. rewrite Hs2.
    apply brackets_call. intros r. cbn. auto.
  - case_match; cbn [brackets]; intros s1 Hs1; [|done]. cbn [IsFiring fst snd]. rewrite Hs1. destruct f; [done|].
    cbn [brackets]. intros s2 Hs2 s3 Hs3 s4 Hs4. cbn [IsFiring Now SetFiring es_firing fst snd] in *. rewrite Hs4, Hs3.
    apply brackets_call. intros r. cbn [brackets]. intros s5 Hs5. cbn [Now fst snd]. rewrite Hs5. by apply brackets_call.
Qed.

Definition sys_brackets (armed : bool) (y : Sys) : Prop :=
  keeps_flag (sy_sub y) /\ brackets (es_firing (sy_state y)) armed (sy_eval y).

Lemma idle_Done (t : Turn St) : idle t = true -> t = Done.
Proof. by destruct t. Qed.

Lemma step_brackets armed e y y' h :
  sys_brackets armed y -> step e y = Some (y', h) ->
  answered armed h = true /\ sys_brackets (armed_after armed h) y'.
Proof.
  destruct y as [s ph sub ev eval]. intros (Hsub & Hev). unfold AlertEval.step. cbn in Hsub, Hev.
  destruct (_ || _); [done|]. destruct e.
  - destruct ph; [|done..]. intros [= <- <-]. by split.
  - destruct ph; [done| |done]. destruct (idle sub); [|done]. intros [= <- <-]. split; [done|]. split; [|done]. apply keeps_subscriber.
  - destruct (ev && idle eval) eqn:E; [|done]. intros [= <- <-]. split; [done|]. split; [done|].
    apply andb_true_iff in E as [_ ->%idle_Done]. cbn in *. by apply brackets_evaluate.
  - destruct sub as [| |A m k|b k]; cbn; [done..| |done]. destruct (Hsub s) as [Hk Hn]. destruct (m s) as [s1 a].
    intros [= <- <-]. split; [done|]. split; [done|]. cbn in *. by rewrite Hk.
  - destruct eval as [| |A m k|[] k]; cbn; [done..| | |].
    + specialize (Hev s eq_refl). destruct (m s) as [s1 a]. intros [= <- <-]. by split.
    + intros [= <- <-]. by split.
    + intros [= <- <-]. destruct Hev as [-> Hk]. by split.
  - destruct ph; [| |done]; (destruct (es_cancelled s && idle sub); [|done]); intros [= <- <-]; by split.
  - destruct (ev && es_cancelled s && idle eval); [|done]. intros [= <- <-]. by split.
  - intros [= <- <-]. by split.
  - destruct (0 <=? d)%Z; [|done]. intros [= <- <-]. by split.
Qed.

(** In every interleaving a resolution answers a trigger, or the alert that the stored
    state says was firing when the evaluator started. *)
Lemma resolutions_answer_triggers (l : list sched) (s0 : St) (y' : Sys) (h : list (bool * Time)) :
  exec l (started s0) = Some (y', h) -> answered (es_firing s0) h = true.
Proof.
  assert (forall y armed, sys_brackets armed y -> forall h, exec l y = Some (y', h) -> answered armed h = true) as H.
  { induction l as [|e l IH]; intros y armed Hy h'; cbn [AlertEval.exec]; [by intros [= <- <-]|].
    destruct (step e y) as [[y1 h1]|] eqn:E1; [|done]. cbn. destruct (exec l y1) as [[y2 h2]|] eqn:E2; [|done]. cbn.
    intros [= <- <-]. destruct (step_brackets _ _ _ _ _ Hy E1) as [Ha Hy1]. rewrite answered_app, Ha. cbn. by apply (IH y1). }
  intros E. eapply H; [|exact E]. split; [done|]. cbn. auto.
Qed.

(** ** What single turns do *)

(** A turn of the evaluating loop on its own, [n] accesses of it. *)
Definition eval_steps (n : nat) : list sched := repeat StepEval n.
Definition sub_steps (n : nat) : list sched := repeat StepSub n.

Lemma exec_app l1 l2 y y1 h1 :
  exec l1 y = Some (y1, h1) -> exec (l1 ++ l2) y = '(y2, h2) ← exec l2 y1; Some (y2, h1 ++ h2)%list.
Proof.
  revert y h1. induction l1 as [|e l1 IH]; intros y h1; cbn [AlertEval.exec app].
  - intros [= <- <-]. by destruct (exec l2 y) as [[]|].
  - destruct (step e y) as [[y' h']|]; [|done]. cbn. destruct (exec l1 y') as [[y2 h2]|] eqn:E; [|done]. cbn.
    intros [= <- <-]. rewrite (IH _ _ E). destruct (exec l2 y2) as [[]|]; [|done]. cbn. by rewrite app_assoc.
Qed.

(** An unhealthy state that is old enough fires: the alert is triggered, the flag and
    the stored state say so, and an incident is opened. *)
Lemma unhealthy_fires s ph (st : CachedState) :
  av_ok (es_world s) -> states (es_world s) !! id = Some st -> cs_Healthy st = false ->
  (dur < time_Sub (es_now s) (AsTime (cs_Timestamp st)))%Z -> es_firing s = false ->
  exists y', exec (Tick :: eval_steps 10) (mkSys s ph Done true Done) = Some (y', [(true, es_now s)]) /\
    sy_eval y' = Done /\ sy_sub y' = Done /\ sy_phase y' = ph /\ sy_evaluating y' = true /\
    es_firing (sy_state y') = true /\ es_now (sy_state y') = es_now s /\ av_ok (es_world (sy_state y')) /\
    states (es_world (sy_state y')) !! id =
      Some (if cs_Firing st then st else mkCachedState false true (Some (es_now s))) /\
    incidents (es_world (sy_state y')) !! id =
      Some (Prune (es_now s) ttl (open_items (Some (es_now s)) (default [] (incidents (es_world s) !! id)))).
Proof.
  intros Hok Hst Hh Hd Hf.
  destruct (Htrig _ Hok) as (Hok1 & Hs1 & Hi1).
  destruct (UpdateState_ok (mkCachedState false true (Some (es_now s))) _ Hok1) as (w2 & E2 & Hok2 & Hi2 & Hs2).
  destruct (incidents_Open (es_now s) id (Some (es_now s)) w2 Hok2 Hid) as (w3 & E3 & Hi3 & Hok3 & _ & _ & Hs3 & _).
  apply Z.ltb_lt in Hd. cbn. unfold on_store. rewrite (states_Get id false _ Hok Hid), Hst. cbn. rewrite Hh. cbn.
  rewrite Hd. cbn. rewrite Hf. cbn. unfold on_store. cbn. rewrite E2. cbn. unfold on_store. cbn. rewrite E3. cbn.
  eexists. split; [done|]. cbn. split_and!; try done.
  - rewrite Hs3, Hs2, Hs1, Hst. unfold CachedState_IsEquivalent. cbn. rewrite Hh, bool_decide_eq_true_2 by done. cbn.
    destruct (cs_Firing st); [rewrite bool_decide_eq_true_2 by done; by rewrite Hst|].
    rewrite bool_decide_eq_false_2 by done. by rewrite lookup_insert_eq.
  - by rewrite Hi3, lookup_insert_eq, Hi2, Hi1.
Qed.

(** ** A recovery can be missed *)

(** Nothing to report: the stored state is healthy and the flag is down. *)
Definition quiet (inc : gmap string (list Interval)) (s : St) : Prop :=
  av_ok (es_world s) /\ es_firing s = false /\ incidents (es_world s) = inc /\
  exists st, states (es_world s) !! id = Some st /\ cs_Healthy st = true.
Fixpoint quiet_turn (inc : gmap string (list Interval)) (t : Turn St) : Prop :=
  match t with
  | Done | Crash _ => True
  | Act m k => forall s, quiet inc s -> quiet inc (m s).1 /\ quiet_turn inc (k (m s).2)
  | Hook _ _ => False
  end.

Definition reports_healthy (data : string) : Prop := forall now, exists ts, health now data = Ok (true, ts).

Lemma quiet_update inc st s : cs_Healthy st = true -> quiet inc s -> exists w', UpdateState id st (es_world s) = (w', Ok tt) /\ quiet inc (set_world w' s).
Proof.
  intros Hh (Hok & Hf & Hi & p & Hp & Hph). destruct (UpdateState_ok st _ Hok) as (w' & E & Hok' & Hi' & Hs').
  exists w'. split; [done|]. split_and!; cbn; [done..|by rewrite Hi'|]. rewrite Hs', Hp.
  destruct (CachedState_IsEquivalent p st); [|rewrite lookup_insert_eq]; eauto.
Qed.

Lemma quiet_subscriber inc data : reports_healthy data -> quiet_turn inc (subscriber_turn id health data).
Proof.
  intros Hd. unfold subscriber_turn. cbn [quiet_turn]. intros s Hs. split; [done|]. destruct (Hd (Now s).2) as [ts ->].
  cbn [quiet_turn]. intros s1 Hs1. split; [done|]. cbn. intros s2 Hs2.
  destruct (quiet_update inc (mkCachedState true (es_firing s1) ts) s2 eq_refl Hs2) as (w' & E & Hq).
  unfold on_store. rewrite E. by split.
Qed.

Lemma quiet_evaluate inc : quiet_turn inc (evaluate_turn id dur).
Proof.
  cbn. intros s Hs. destruct Hs as (Hok & Hf & Hi & st & Hst & Hh). unfold on_store.
  rewrite (states_Get id false _ Hok Hid), Hst. cbn. rewrite Hh. cbn. split; [by split_and!; eauto|].
  intros s1 Hs1. split; [done|]. destruct Hs1 as (_ & -> & _). done.
Qed.

Lemma quiet_forever inc l y y' h :
  (forall data, Message data ∈ l -> reports_healthy data) ->
  quiet inc (sy_state y) -> quiet_turn inc (sy_sub y) -> quiet_turn inc (sy_eval y) ->
  exec l y = Some (y', h) -> h = [] /\ quiet inc (sy_state y').
Proof.
  revert y h. induction l as [|e l IH]; intros [s ph sub ev eval] h Hm Hq Hsub Hev; cbn [AlertEval.exec]; [by intros [= <- <-]|].
  destruct (step e _) as [[y1 h1]|] eqn:E1; [|done]. cbn. destruct (exec l y1) as [[y2 h2]|] eqn:E2; [|done]. cbn.
  intros [= <- <-]. cbn [sy_state sy_sub sy_eval] in *.
  assert (h1 = [] /\ quiet inc (sy_state y1) /\ quiet_turn inc (sy_sub y1) /\ quiet_turn inc (sy_eval y1)) as (-> & ? & ? & ?).
  { clear IH E2. unfold AlertEval.step in E1. destruct (_ || _); [done|]. destruct e.
    - destruct ph; [|done..]. by simplify_eq.
    - destruct ph; [done| |done]. destruct (idle sub); [|done]. simplify_eq. split_and!; [done..| |done].
      apply quiet_subscriber, Hm. left.
    - destruct (ev && idle eval); [|done]. simplify_eq. split_and!; [done..|]. apply quiet_evaluate.
    - destruct sub as [| |A m k|b k]; cbn in *; [done..| |done]. pose proof (Hsub _ Hq) as [? ?]. destruct (m s) as [s' a]. by simplify_eq/=.
    - destruct eval as [| |A m k|b k]; cbn in *; [done..| |done]. pose proof (Hev _ Hq) as [? ?]. destruct (m s) as [s' a]. by simplify_eq/=.
    - destruct ph; [| |done]; (destruct (es_cancelled s && idle sub); [|done]); by simplify_eq.
    - destruct (ev && es_cancelled s && idle eval); [|done]. by simplify_eq.
    - by simplify_eq.
    - destruct (0 <=? d)%Z; [|done]. by simplify_eq. }
  destruct (IH y1 h2) as [-> ?]; [intros data Hd; apply Hm; by right|done..].
Qed.

Lemma time_Sub_near (a d : Z) : (0 <= d)%Z -> (d <= int64_max)%Z -> time_Sub (a + d)%Z a = d.
Proof. unfold time_Sub, int64_min, int64_max. lia. Qed.


(** A recovery that is stored while the evaluating loop is between its look at the state
    and its update is overwritten: the stored state stays unhealthy though the last
    report was healthy. *)
Lemma evaluator_overwrites_recovery (s : St) (st : CachedState) (data : string) :
  av_ok (es_world s) -> states (es_world s) !! id = Some st ->
  cs_Healthy st = false -> cs_Firing st = false -> es_firing s = false ->
  (dur < time_Sub (es_now s) (AsTime (cs_Timestamp st)))%Z -> reports_healthy data ->
  exists y', exec ((Tick :: eval_steps 7) ++ (Message data :: sub_steps 3) ++ eval_steps 3) (mkSys s SubReading Done true Done)
             = Some (y', [(true, es_now s)]) /\
    sy_eval y' = Done /\ sy_sub y' = Done /\
    states (es_world (sy_state y')) !! id = Some (mkCachedState false true (Some (es_now s))).
Proof.
  intros Hok Hst Hh Hnf Hf Hd Hdata. destruct (Hdata (es_now s)) as [ts Hts].
  destruct (Htrig _ Hok) as (Hok1 & Hs1 & Hi1).
  destruct (UpdateState_ok (mkCachedState true true ts) _ Hok1) as (w2 & E2 & Hok2 & Hi2 & Hs2).
  destruct (UpdateState_ok (mkCachedState false true (Some (es_now s))) _ Hok2) as (w3 & E3 & Hok3 & Hi3 & Hs3).
  destruct (incidents_Open (es_now s) id (Some (es_now s)) w3 Hok3 Hid) as (w4 & E4 & Hi4 & Hok4 & _ & _ & Hs4 & _).
  apply Z.ltb_lt in Hd. cbn. unfold on_store. rewrite (states_Get id false _ Hok Hid), Hst. cbn. rewrite Hh. cbn.
  rewrite Hd. cbn. rewrite Hf. cbn. rewrite Hts. cbn. unfold on_store. cbn. rewrite E2. cbn.
  unfold on_store. cbn. rewrite E3. cbn. unfold on_store. cbn. rewrite E4. cbn.
  eexists. split; [done|]. cbn. split_and!; try done. rewrite Hs4, Hs3, Hs2, Hs1, Hst.
  assert (CachedState_IsEquivalent st (mkCachedState true true ts) = false) as ->
    by (unfold CachedState_IsEquivalent; cbn; by rewrite Hh).
  rewrite lookup_insert_eq. change (CachedState_IsEquivalent _ _) with false. cbn. by rewrite lookup_insert_eq.
Qed.

(** A restart resumes the stored state: it is kept, the flag is what it says, and the
    tracker of incidents is there. *)
Lemma restart_resumes (s : St) (st : CachedState) :
  av_ok (es_world s) -> states (es_world s) !! id = Some st -> es_firing s = false ->
  exists s', CalculateInitialState id s = (s', Ok tt) /\ es_firing s' = cs_Firing st /\
    states (es_world s') = states (es_world s) /\ is_Some (incidents (es_world s') !! id) /\
    es_cancelled s' = es_cancelled s.
Proof.
  intros Hok Hst Hf. unfold CalculateInitialState.
  assert (exists w1, initial_incidents id s = (set_world w1 s, Ok true) /\ av_ok w1 /\ states w1 = states (es_world s) /\
    is_Some (incidents w1 !! id)) as (w1 & E1 & Hok1 & Hs1 & Hi1).
  { unfold initial_incidents, on_store. rewrite (law_Get _ _ _ _ _ incidents_laws id false _ Hok Hid).
    destruct (incidents (es_world s) !! id) as [l|] eqn:E.
    - exists (es_world s). split; [by destruct s|]. rewrite E. eauto.
    - rewrite errors_Is_refl. cbn.
      destruct (law_Put _ _ _ _ _ incidents_laws id [] _ Hok Hid) as (w' & -> & Hg & Hok' & _ & _ & Hs & _).
      exists w'. split; [done|]. rewrite Hg, lookup_insert_eq. eauto. }
  rewrite (wbind_eq_Ok _ _ _ _ _ E1). cbn [negb].
  assert (initial_state id (set_world w1 s) = (set_world w1 s, Ok (Some st))) as E2.
  { unfold initial_state, on_store. cbn. by rewrite (states_Get id false w1 Hok1 Hid), Hs1, Hst. }
  rewrite (wbind_eq_Ok _ _ _ _ _ E2). unfold on_store.
  destruct (UpdateState_ok st w1 Hok1) as (w2 & E3 & Hok2 & Hi2 & Hs2). rewrite Hs1, Hst in Hs2.
  assert (CachedState_IsEquivalent st st = true) as Heq
    by (unfold CachedState_IsEquivalent; by rewrite !bool_decide_eq_true_2).
  rewrite Heq in Hs2. destruct (cs_Firing st) eqn:Efi; cbn; rewrite E3; eexists; (split; [done|]); cbn; rewrite Hs2, Hi2; done.
Qed.
End Props.

(** ** The messaging node *)

(** A listener that is replaced or removed has its context cancelled. *)
Lemma listener_replaced_is_cancelled conditionId ctx n e :
  mn_updateListeners n !! conditionId = Some e ->
  ec_Ctx e ∈ mn_done (AddSystemConfigListener conditionId ctx n) /\
  ec_Ctx e ∈ mn_done (RemoveConfigListener conditionId n).
Proof. intros H. unfold AddSystemConfigListener, RemoveConfigListener, cancel_listener. cbn. rewrite H. set_solver. Qed.

(** Operations on the node and its goroutines. *)
Inductive node_op :=
| NAdd (conditionId : string) (ctx : nat)
| NRemove (conditionId : string)
| NEnds (ctx : nat)
| NWaitersReturn.
Definition node_apply (o : node_op) (n : MessagingNode) : MessagingNode :=
  match o with
  | NAdd c x => AddSystemConfigListener c x n
  | NRemove c => RemoveConfigListener c n
  | NEnds x => context_ends x n
  | NWaitersReturn => waiters_return n
  end.

(** [IsRunning] cannot see that an evaluator has stopped: the map holds a copy whose
    flag nobody lowers, so a condition counts as running from its first listener until
    it is removed, whatever happens to the contexts. *)
Lemma IsRunning_only_registered (ops : list node_op) (conditionId : string) :
  IsRunning conditionId (fold_left (fun n o => node_apply o n) ops NewMessagingNode) =
  bool_decide (is_Some (mn_updateListeners (fold_left (fun n o => node_apply o n) ops NewMessagingNode) !! conditionId)).
Proof.
  set (n := fold_left _ _ _).
  assert (map_Forall (fun _ e => ec_running e = true) (mn_updateListeners n)) as H.
  { unfold n. clear n. induction ops as [|o l IH] using rev_ind; [by apply map_Forall_empty|].
    rewrite fold_left_app. cbn. destruct o; cbn; try done.
    - by apply map_Forall_insert_2.
    - by apply map_Forall_delete. }
  unfold IsRunning. destruct (mn_updateListeners n !! conditionId) as [e|] eqn:E.
  - rewrite (H _ _ E). by rewrite bool_decide_eq_true_2.
  - by rewrite bool_decide_eq_false_2 by (by intros [? ?]).
Qed.
