(* ===== verification/AlertRules.v ===== *)
(** pkg/alerting/metrics, pkg/alerting/drivers/cortex and pkg/alerting/drivers/backend:
    the rules that metrics conditions turn into, their rule groups for Cortex, and the
    requests to Alertmanager.  The templates hold the line breaks and tabs of the
    source, which are taken out at the end. *)

From Stdlib Require Import Ascii QArith Qround.
From S2P Require Import Prelude GoStd Util CoreV1 Etcd Tokens Management AlertingV1 SloV1 SloRules.

Local Open Scope string_scope.

(** ** construct.go: filters *)

Definition Filter := string.
Definition NewFilter : Filter := "".
Definition Filter_IsEmpty (f : Filter) : bool := is_empty f.
Definition Filter_Or (f : Filter) (value : string) : Filter :=
  if Filter_IsEmpty f then value else f +:+ "|" +:+ value.
(** The value is dropped when there is one already. *)
Definition Filter_And (f : Filter) (value : string) : Filter := if Filter_IsEmpty f then value else f +:+ "".
Definition Filter_Match (f : Filter) (key : string) : Filter :=
  if Filter_IsEmpty f then "" else key +:+ "=~" +:+ quoted f.
Definition Filter_Equals (f : Filter) (key : string) : Filter :=
  if Filter_IsEmpty f then "" else key +:+ "=" +:+ quoted f.
Definition Filter_NotEquals (f : Filter) (key : string) : Filter :=
  if Filter_IsEmpty f then "" else key +:+ "!=~" +:+ quoted f.

Definition PrometheusFilters := gmap string Filter.
Definition AddFilter (key : string) (p : PrometheusFilters) : PrometheusFilters :=
  match p !! key with Some _ => p | None => <[key := NewFilter]> p end.
Definition filter_at (key : string) (p : PrometheusFilters) : Filter := default "" (p !! key).
Definition filters_update (f : Filter -> Filter) (key : string) (p : PrometheusFilters) : PrometheusFilters :=
  let p := AddFilter key p in <[key := f (filter_at key p)]> p.
Definition filters_Or (key value : string) : PrometheusFilters -> PrometheusFilters :=
  filters_update (fun f => Filter_Or f value) key.
Definition filters_And (key value : string) : PrometheusFilters -> PrometheusFilters :=
  filters_update (fun f => Filter_And f value) key.
Definition filters_Match (key : string) : PrometheusFilters -> PrometheusFilters :=
  filters_update (fun f => Filter_Match f key) key.
Definition filters_Equals (key : string) : PrometheusFilters -> PrometheusFilters :=
  filters_update (fun f => Filter_Equals f key) key.
Definition filters_NotEquals (key : string) : PrometheusFilters -> PrometheusFilters :=
  filters_update (fun f => Filter_NotEquals f key) key.

(** [order] is the order in which the map is ranged over. *)
Definition filters_Build (order : list string) (p : PrometheusFilters) : string :=
  "{" +:+ Join "," (filter (fun f => Filter_IsEmpty f = false) ((fun k => filter_at k p) <$> order)) +:+ "}".

Fixpoint remove_char (c : ascii) (s : string) : string :=
  match s with
  | EmptyString => ""
  | String a s => if Ascii.eqb a c then remove_char c s else String a (remove_char c s)
  end.
Definition PostProcessRuleString (s : string) : string :=
  remove_char (ascii_of_nat 10) (remove_char (ascii_of_nat 9) s).

(** [AlertingRule.Validate]. *)
Definition AlertingRule_Validate {PL : PromLib} (a : AlertingRule) : outcome unit :=
  if is_empty (al_Alert a) then Err (ErrorString "alert name is required") else prom_ParseExpr (al_Expr a).

(** ** fmt.Sprintf of %.7f

    The value times 10^7, rounded to the nearest integer and to the even one of two. *)
Definition round_half_even (q : Q) : Z :=
  let f := Qfloor q in
  match Qcompare (q - inject_Z f) (1 # 2) with
  | Lt => f
  | Gt => (f + 1)%Z
  | Eq => if Z.even f then f else (f + 1)%Z
  end.
Fixpoint zeros (n : nat) : string := match n with O => "" | S n => "0" +:+ zeros n end.
Definition Sprintf_7f (f : float) : string :=
  match f with
  | NaN => "NaN"
  | Inf true => "-Inf"
  | Inf false => "+Inf"
  | Finite q =>
      let neg := negb (Qle_bool 0 q) in
      let n := round_half_even ((if neg then - q else q) * inject_Z 10000000) in
      let frac := Sprint (n mod 10000000) in
      (if neg then "-" else "") +:+ Sprint (n / 10000000) +:+ "." +:+ zeros (7 - String.length frac) +:+ frac
  end.

(** ** cpu.go, mem.go, fs.go, kube_state.go *)

Definition NodeFilter : string := "instance".
Definition ModeFilter : string := "mode".
Definition CpuFilter : string := "cpu".
Definition MemoryDeviceFilter : string := "device".
Definition NodeExporterMountpointLabel : string := "mountpoint".
Definition NodeExportFilesystemDeviceLabel : string := "device".
Definition MemoryMatcherRegexFilter : list string := ["Buffers"; "Cached"; "MemFree"; "Slab"].

Definition cpu_template (filters operation expectedValue : string) : string :=
"
	sum(
		rate(
			node_cpu_seconds_total" +:+ filters +:+ "[1m]
		)
	)
	/
	sum(
		rate(
			node_cpu_seconds_total[1m]
		)
	) " +:+ operation +:+ " bool " +:+ expectedValue +:+ "
".

Definition cpu_spike_template (filters operation expectedValue spikeWindow numSpikes : string) : string :=
"
	count_over_time(
		(
			(
				sum(
					rate(
						node_cpu_seconds_total" +:+ filters +:+ "[1m]
					)
				)
				/
				sum(
					rate(
						node_cpu_seconds_total[1m]
					)
				)
			) " +:+ operation +:+ " " +:+ expectedValue +:+ "
		)
		[" +:+ spikeWindow +:+ ":5s] 
	) > bool " +:+ numSpikes +:+ "
".

Definition mem_template (filters aggrMetrics operation expectedValue : string) : string :=
"
	(1 -  (
		  " +:+ aggrMetrics +:+ "
		)
	/
	  node_memory_MemTotal_bytes" +:+ filters +:+ "
	) " +:+ operation +:+ " bool " +:+ expectedValue +:+ "
".

Definition mem_spike_template (filters aggrMetrics operation expectedValue spikeWindow numSpikes : string) : string :=
"
	count_over_time(
		((
			1 -  
			(
				" +:+ aggrMetrics +:+ "
			)
			/
			node_memory_MemTotal_bytes" +:+ filters +:+ "
	) " +:+ operation +:+ " bool " +:+ expectedValue +:+ ")[" +:+ spikeWindow +:+ ":5s]) > " +:+ numSpikes +:+ "
".

Definition fs_template (filters operation expectedValue : string) : string :=
"
		sum(
			1- (
				node_filesystem_free_bytes" +:+ filters +:+ "
				) 
				/ 
				node_filesystem_size_bytes
			)  " +:+ operation +:+ " bool " +:+ expectedValue +:+ " 
	".

Definition fs_spike_template (filters operation expectedValue spikeWindow numSpikes : string) : string :=
"
		count_over_time((
			sum(
			1- (
				node_filesystem_free_bytes" +:+ filters +:+ "
				) 
				/ 
				node_filesystem_size_bytes
			)  " +:+ operation +:+ " bool " +:+ expectedValue +:+ "
		)[" +:+ spikeWindow +:+ ":5s]) > " +:+ numSpikes +:+ "
	".

Definition or_all (key : string) (values : list string) (p : PrometheusFilters) : PrometheusFilters :=
  fold_left (fun p v => filters_Or key v p) values p.

Section Rules.
Context {DL : DurationLib}.

(** A rule whose labels and annotations are the given ones. *)
Definition base_rule (expr : string) (duration : option Duration) (annotations : gmap string string) : AlertingRule :=
  mkAlertingRule "" (PostProcessRuleString expr) (AsDuration duration) annotations annotations.

(** [nodes] are the node filters in the order they are ranged over. *)
Definition cpu_filters (nodes : list (string * list Z)) (cpuStates : list string) : PrometheusFilters :=
  let p := fold_left (fun p '(node, items) => or_all CpuFilter (Sprint <$> items) (filters_Or NodeFilter node p)) nodes ∅ in
  filters_Match CpuFilter (filters_Match NodeFilter (filters_Match ModeFilter (or_all ModeFilter cpuStates p))).

Definition NewCpuRule (order : list string) (nodes : list (string * list Z)) (cpuStates : list string) (operation : string)
    (expectedRatio : float) (duration : option Duration) (annotations : gmap string string) : AlertingRule :=
  base_rule (cpu_template (filters_Build order (cpu_filters nodes cpuStates)) operation (Sprintf_7f expectedRatio))
    duration annotations.

Definition NewCpuSpikeRule {PL : PromLib} (order : list string) (nodes : list (string * list Z)) (cpuStates : list string)
    (operation : string) (expectedRatio : float) (numSpikes : Z) (duration spikeWindow : option Duration)
    (annotations : gmap string string) : AlertingRule :=
  base_rule (cpu_spike_template (filters_Build order (cpu_filters nodes cpuStates)) operation (Sprintf_7f expectedRatio)
               (prom_String (AsDuration spikeWindow)) (Sprint numSpikes)) duration annotations.

(** The filter of the devices is not turned into a matcher. *)
Definition mem_filters (nodes : list (string * list string)) : PrometheusFilters :=
  filters_Match NodeFilter
    (fold_left (fun p '(node, devices) => or_all MemoryDeviceFilter devices (filters_Or NodeFilter node p)) nodes
       (AddFilter NodeFilter ∅)).
Definition aggr_metrics (outputFilters : string) (usageTypes : list string) : string :=
  Join " + " ((fun utype => "node_memory_" +:+ utype +:+ "_bytes" +:+ outputFilters) <$>
              filter (fun u => u ∈ MemoryMatcherRegexFilter) usageTypes).

(** The two calls of [Build] range over the map on their own. *)
Definition NewMemRule (order order2 : list string) (nodes : list (string * list string)) (usageTypes : list string)
    (operation : string) (expectedRatio : float) (duration : option Duration) (annotations : gmap string string)
  : AlertingRule :=
  base_rule (mem_template (filters_Build order2 (mem_filters nodes))
               (aggr_metrics (filters_Build order (mem_filters nodes)) usageTypes) operation (Sprintf_7f expectedRatio))
    duration annotations.

Definition NewMemSpikeRule {PL : PromLib} (order order2 : list string) (nodes : list (string * list string))
    (usageTypes : list string) (operation : string) (expectedRatio : float) (numSpikes : Z)
    (duration spikeWindow : option Duration) (annotations : gmap string string) : AlertingRule :=
  base_rule (mem_spike_template (filters_Build order2 (mem_filters nodes))
               (aggr_metrics (filters_Build order (mem_filters nodes)) usageTypes) operation (Sprintf_7f expectedRatio)
               (prom_String (AsDuration spikeWindow)) (Sprint numSpikes)) duration annotations.

(** The mount points go to the filter of the nodes. *)
Definition fs_filters (nodes : list (string * (list string * list string))) : PrometheusFilters :=
  let p := AddFilter NodeExportFilesystemDeviceLabel (AddFilter NodeExporterMountpointLabel (AddFilter NodeFilter ∅)) in
  let p := fold_left (fun p '(node, (mountpoints, devices)) =>
             or_all NodeFilter mountpoints
               (or_all NodeExportFilesystemDeviceLabel devices (filters_Or NodeFilter node p))) nodes p in
  filters_Match NodeExportFilesystemDeviceLabel (filters_Match NodeExporterMountpointLabel (filters_Match NodeFilter p)).

Definition NewFsRule (order : list string) (nodes : list (string * (list string * list string))) (operation : string)
    (expectedValue : float) (duration : option Duration) (annotations : gmap string string) : AlertingRule :=
  base_rule (fs_template (filters_Build order (fs_filters nodes)) operation (Sprintf_7f expectedValue))
    duration annotations.

Definition NewFsSpikeRule {PL : PromLib} (order : list string) (nodes : list (string * (list string * list string)))
    (operation : string) (expectedValue : float) (numSpikes : Z) (duration spikeWindow : option Duration)
    (annotations : gmap string string) : AlertingRule :=
  base_rule (fs_spike_template (filters_Build order (fs_filters nodes)) operation (Sprintf_7f expectedValue)
               (prom_String (AsDuration spikeWindow)) (Sprint numSpikes)) duration annotations.

Definition NewKubeStateRule {PL : PromLib} (objType objName namespace podState forDuration : string)
    (annotations : gmap string string) : outcome AlertingRule :=
  if is_empty objType then Err (ErrorString "kubernetes object type should not be empty")
  else if is_empty objName then Err (ErrorString "kubernetes objects cannot have an empty name")
  else
    let kubeMetricName := "kube_" +:+ objType +:+ "_status_phase" in
    let objectFilter := objType +:+ "= " +:+ quoted objName in
    if negb (bool_decide (podState ∈ KubeStates)) then Err (ErrorString "invalid pod state provided")
    else
      let? dur := prom_ParseDuration forDuration in
      let namespaceFilter := if is_empty namespace then "" else "namespace=" +:+ quoted namespace in
      Ok (mkAlertingRule "" ("(" +:+ kubeMetricName +:+ "{" +:+ namespaceFilter +:+ ", " +:+ objectFilter +:+
                             ", state=" +:+ quoted podState +:+ "} > bool 0)") dur annotations annotations).
End Rules.

(** ** golden_signal.go: what a metrics condition measures *)

Record IndexableMetric := mkIndexableMetric { im_GoldenSignal : string; im_AlertType : string }.
Definition metric_of (t : AlertTypeDetails) : option IndexableMetric :=
  match t with
  | AT_KubeState _ => Some (mkIndexableMetric "error" "kube_state")
  | AT_Cpu _ => Some (mkIndexableMetric "saturation" "cpu_saturation")
  | AT_Memory _ => Some (mkIndexableMetric "saturation" "memory_saturation")
  | AT_Fs _ => Some (mkIndexableMetric "saturation" "fs_saturation")
  | AT_PrometheusQuery _ => Some (mkIndexableMetric "custom" "prometheus_query")
  | _ => None
  end.

(** ** cortex.go *)

Definition alertingSuffix : string := "-opni-alerting".
Definition defaultAlertingInterval : Z := minute.

Definition CortexRuleIdFromUuid (id : string) : string := id +:+ alertingSuffix.
Definition TimeDurationToPromStr {PL : PromLib} (t : Z) : string := prom_String t.
Definition ConstructRecordingRuleName (prefix typeName : string) : string := "opni:" +:+ prefix +:+ ":" +:+ typeName.
Definition ConstructIdLabelsForRecordingRule (alertName alertId : string) : gmap string string :=
  <["alert_name" := alertName]> {["alert_id" := alertId]}.
(** [order] is the map in the order it is ranged over. *)
Definition ConstructFiltersFromMap (order : list (string * string)) : string :=
  Join "," ((fun '(k, v) => k +:+ "=" +:+ quoted v) <$> order).

(** [lo.Assign]: the later map wins. *)
Definition lo_Assign (m1 m2 : gmap string string) : gmap string string := m2 ∪ m1.

(** The alerting rule is made to read the recording rule. *)
Definition NewCortexAlertingRule {PL : PromLib} (order : list (string * string)) (alertId alertName : string)
    (opniLabels opniAnnotations : gmap string string) (info : IndexableMetric) (interval : option Z)
    (rule : AlertingRule) : outcome RuleGroupYAMLv2 :=
  let idLabels := ConstructIdLabelsForRecordingRule alertName alertId in
  let? alertingRule := AlertingRule_Build rule alertId in
  let record := ConstructRecordingRuleName (im_GoldenSignal info) (im_AlertType info) in
  Ok (mkRuleGroup (CortexRuleIdFromUuid alertId) (default defaultAlertingInterval interval)
        [mkRule (ru_Record alertingRule) (ru_Alert alertingRule)
           (record +:+ "{" +:+ ConstructFiltersFromMap order +:+ "}") (ru_For alertingRule)
           (lo_Assign (ru_Labels alertingRule) opniLabels) (lo_Assign (ru_Annotations alertingRule) opniAnnotations);
         mkRule record "" (ru_Expr alertingRule) 0 idLabels ∅]).

(** ** payload.go: the webhook payload of Alertmanager

    [gjson] parses the body: the annotations of the alerts, each a map of values that
    have a text; one that is not an object is empty. *)

Definition RequiredCortexWebhookAnnotationIdentifiers : list string := ["conditionId"].

Class GJson := {
  gjson_Valid : string -> bool;
  gjson_annotations : string -> option (list (gmap string string)) }.

Definition ParseCortexPayloadBytes {GJ : GJson} (inputPayload : string) : outcome (list (gmap string string)) :=
  if negb (gjson_Valid inputPayload) then Err (ErrorString "failed to parse request body to json")
  else match gjson_annotations inputPayload with
       | None => Err (ErrorString "no alerts or alert annotations found in payload")
       | Some l => Ok l
       end.

(** One request and one error per annotation. *)
Definition parse_annotation (annotation : gmap string string) : option AlertsRequest * option error :=
  if bool_decide (annotation = ∅) then (None, Some (ErrorString "could not parse annotation"))
  else match annotation !! "conditionId" with
       | None => (None, Some (ErrorString "cortex Annotation missing required opni identifier to pass on alert"))
       | Some id => (Some (mkAlertsRequest (Some (mkReference id)) "" "" (Some (delete "conditionId" annotation)) None), None)
       end.
Definition ParseAlertManagerWebhookPayload (annotations : list (gmap string string))
  : list (option AlertsRequest) * list (option error) :=
  ((parse_annotation <$> annotations).*1, (parse_annotation <$> annotations).*2).

(** ** api_types.go *)

Record PostableAlert := mkPostableAlert {
  pa_StartsAt : option Time;
  pa_EndsAt : option Time;
  pa_Annotations : option (gmap string string);
  pa_Labels : gmap string string }.

(** [conditionId[:4]]: a shorter id is out of range. *)
Definition alertname (conditionId : string) : outcome string :=
  if (String.length conditionId <? 4)%nat then Panic "slice bounds out of range" else Ok (take_str 4 conditionId).

Definition PostableAlert_Must (p : PostableAlert) : outcome unit :=
  match pa_Labels p !! "alertname" with
  | Some v => fail_if (is_empty v) (ErrorString "missing alertname")
  | None => Err (ErrorString "missing alertname")
  end.

(** An alert with its labels and annotations, each set on its own; the annotations stay
    nil when there are none. *)
Definition postable_alert (startsAt endsAt : option Time) (conditionId : string) (labels annotations : gmap string string)
  : outcome PostableAlert :=
  let? name := alertname conditionId in
  let alert := mkPostableAlert startsAt endsAt (if decide (annotations = ∅) then None else Some annotations)
                 (labels ∪ {["alertname" := name]}) in
  match PostableAlert_Must alert with
  | Ok _ => Ok alert
  | _ => Panic "invalid alert req in post alert body"
  end.
Definition WithPostAlertBody := postable_alert None None.
Definition WithPostResolveAlertBody (now : Time) :=
  postable_alert (Some (now - 5 * minute)%Z) (Some (now - minute)%Z).

Record PostableSilence := mkPostableSilence {
  ps_Id : option string;
  ps_Matchers : list (string * string);
  ps_StartsAt : Time;
  ps_EndsAt : Time;
  ps_CreatedBy : string;
  ps_Comment : string }.

(** The checks of [Must] cannot fail: there is a matcher and the clock is set. *)
Definition WithPostSilenceBody (now : Time) (conditionId : string) (duration : Z) (silenceId : option string)
  : PostableSilence :=
  mkPostableSilence silenceId [("conditionId", conditionId)] now (now + duration)%Z "opni admin" "silence created by opni admin".

(** ** api.go: requests *)

Inductive Verb := GET | POST | DELETE.

(** The body is a value whose JSON is posted. *)
Inductive Body :=
| NoBody
| AlertsBody (alerts : list PostableAlert)
| SilenceBody (s : PostableSilence).

Record AlertManagerAPI := mkAlertManagerAPI {
  am_Endpoint : string;
  am_Api : string;
  am_Route : string;
  am_Verb : Verb;
  am_Body : Body;
  am_Retries : option nat }.

Definition api_v2 : string := "/api/v2".
Definition NewAlertManagerReloadClient (endpoint : string) : AlertManagerAPI :=
  mkAlertManagerAPI endpoint "" "/-/reload" POST NoBody None.
Definition NewAlertManagerReadyClient (endpoint : string) : AlertManagerAPI :=
  mkAlertManagerAPI endpoint "" "/-/ready" GET NoBody None.
Definition NewAlertManagerReceiversClient (endpoint : string) : AlertManagerAPI :=
  mkAlertManagerAPI endpoint api_v2 "/receivers" GET NoBody None.
Definition NewAlertManagerStatusClient (endpoint : string) : AlertManagerAPI :=
  mkAlertManagerAPI endpoint api_v2 "/status" GET NoBody None.
Definition NewAlertManagerOpniConfigClient (endpoint : string) : AlertManagerAPI :=
  mkAlertManagerAPI endpoint "" "/config" GET NoBody None.
Definition NewAlertManagerGetAlertsClient (endpoint : string) : AlertManagerAPI :=
  mkAlertManagerAPI endpoint api_v2 "/alerts" GET NoBody None.
Definition NewAlertManagerPostAlertClient (endpoint : string) (body : Body) (retries : option nat) : AlertManagerAPI :=
  mkAlertManagerAPI endpoint api_v2 "/alerts" POST body retries.
Definition NewAlertManagerPostSilenceClient (endpoint : string) (body : Body) : AlertManagerAPI :=
  mkAlertManagerAPI endpoint api_v2 "/silences" POST body None.
Definition NewAlertManagerGetSilenceClient (endpoint : string) : AlertManagerAPI :=
  mkAlertManagerAPI endpoint api_v2 "/silences" GET NoBody None.
Definition NewAlertManagerDeleteSilenceClient (endpoint silenceId : string) : outcome AlertManagerAPI :=
  if is_empty silenceId then Panic "silenceId cannot be empty"
  else Ok (mkAlertManagerAPI endpoint api_v2 ("/silence/" +:+ silenceId) DELETE NoBody None).

Definition Construct (a : AlertManagerAPI) : string := am_Endpoint a +:+ path_Join [am_Api a; am_Route a].
Definition ConstructHTTP (a : AlertManagerAPI) : string :=
  if negb (HasPrefix (Construct a) "http://") then "http://" +:+ Construct a else Construct a.
(** The arguments of [strings.HasPrefix] are the other way round: the first case is
    taken unless the text is a beginning of http://. *)
Definition ConstructHTTPS (a : AlertManagerAPI) : string :=
  let tempRes := Construct a in
  if negb (HasPrefix "http://" tempRes) then "https://" +:+ tempRes
  else match tempRes with
       | "http://" => "https://"
       | _ => tempRes
       end.

(** The HTTP client: the reply to a request, its status and its text. *)
Class HttpClient (W : Type) := {
  http_Do : Verb -> string -> Body -> M W (Z * string) }.

Section Requests.
Context {W : Type} {HC : HttpClient W}.

(** [expect] is the closure that looks at the reply. *)
Definition doRequest {A} (expect : Z * string -> outcome A) (a : AlertManagerAPI) : M W A :=
  let! resp := http_Do (am_Verb a) (ConstructHTTP a) (am_Body a) in wlift (expect resp).

(** The retrier runs its attempts until one succeeds. *)
Fixpoint retry_request {A} (expect : Z * string -> outcome A) (a : AlertManagerAPI) (attempts : nat) : M W A :=
  match attempts with
  | O => wfail (ErrorString "failed to complete request after retrier timeout")
  | S n => wcatch (doRequest expect a) (fun _ => retry_request expect a n)
  end.
Definition DoRequest {A} (expect : Z * string -> outcome A) (a : AlertManagerAPI) : M W A :=
  match am_Retries a with
  | Some n => retry_request expect a n
  | None => doRequest expect a
  end.

Definition NewExpectStatusOk (resp : Z * string) : outcome unit :=
  fail_if (negb (resp.1 =? 200)%Z) (ErrorString "unexpected status code").
Definition NewExpectStatusCodes (codes : list Z) (resp : Z * string) : outcome unit :=
  fail_if (negb (bool_decide (resp.1 ∈ codes))) (ErrorString "unexpected status code").
(** The closures that decode a reply: [decode] is encoding/json. *)
Definition expect_json {A} (decode : string -> outcome A) (resp : Z * string) : outcome A :=
  if negb (resp.1 =? 200)%Z then Err (ErrorString "unexpected status code") else decode resp.2.

(** Requests in succession; on a failure the whole pipeline is tried again. *)
Definition newApiPipeline (apis : list (M W unit)) : M W unit := wmap (fun m => m) apis ;! wret tt.
Fixpoint NewApiPipline (apis : list (M W unit)) (attempts : nat) : M W unit :=
  match attempts with
  | O => wfail (ErrorString "api pipeline failed with backoff retrier timeout")
  | S n => wcatch (newApiPipeline apis) (fun _ => NewApiPipline apis n)
  end.
End Requests.
