(* ===== verification/AlertPlugin.v ===== *)
(** plugins/alerting/pkg/alerting: the handlers of conditions, endpoints, silences and
    notifications, what they set up for a condition (an evaluator for an internal one,
    a rule group in Cortex for one on metrics), and the hooks that follow the clusters.
    Goroutines that a handler starts for independent items run one after another here. *)

From stdpp Require Import sorting.
From S2P Require Import Prelude MetricsBackend GoStd Util Validation CoreV1 Health Monitor Etcd Tokens Management.
From S2P Require Import AlertingV1 AmConfig AlertRouting AlertRouter AlertStorage AlertClient AlertEval SloV1 SloRules AlertRules.

Local Open Scope string_scope.

(** ** Constants of shared.go *)

Definition OpniAlertingCortexNamespace : string := "opni-alerting".
Definition BackendConditionNameLabel : string := "opniname".
Definition AlertingErrNotImplemented : error := WithUnimplementedError "Not implemented".
Definition AgentClusterHealthStatusStream : string := "agent-cluster-health-status".
Definition CortexDistributor : string := "distributor".
Definition CortexIngester : string := "ingester".
Definition CortexRuler : string := "ruler".
Definition CortexPurger : string := "purger".
Definition CortexCompactor : string := "compactor".
Definition CortexStoreGateway : string := "store-gateway".
Definition CortexQueryFrontend : string := "query-frontend".
Definition CortexQuerier : string := "querier".

(** ** The health a message reports *)

(** The status of Cortex: a component has services, with their status, and members
    where the code reads them; [None] where a message on the way is nil. *)
Record CortexComponent := mkCortexComponent {
  cc_Services : list (string * string);
  cc_Members : option (list string) }.
Record CortexStatus := mkCortexStatus {
  cx_Timestamp : option Time;
  cx_Distributor : option CortexComponent;
  cx_Ingester : option CortexComponent;
  cx_Ruler : option CortexComponent;
  cx_Purger : option CortexComponent;
  cx_Compactor : option CortexComponent;
  cx_StoreGateway : option CortexComponent;
  cx_QueryFrontend : option CortexComponent;
  cx_Querier : option CortexComponent }.

(** Every report that is made says true. *)
Definition report (name : string) (memberReports : gmap string bool) : gmap string bool := <[name := true]> memberReports.
Definition report_member (name : string) (memberReports : gmap string bool) : gmap string bool :=
  match memberReports !! name with Some _ => memberReports | None => report name memberReports end.

(** The services of a component until one that is not running. *)
Fixpoint services_running (services : list (string * string)) (memberReports : gmap string bool)
  : bool * gmap string bool :=
  match services with
  | [] => (true, memberReports)
  | (name, status) :: services =>
      if negb (bool_decide (status = "Running")) then (false, report name memberReports)
      else services_running services (report name memberReports)
  end.

Definition track_component (members : bool) (c : option CortexComponent) (memberReports : gmap string bool)
  : outcome (bool * gmap string bool) :=
  match c with
  | None => Ok (false, memberReports)
  | Some c =>
      let? memberReports :=
        if members
        then match cc_Members c with
             | Some l => Ok (fold_left (fun r m => report_member m r) l memberReports)
             | None => Panic "nil pointer dereference"
             end
        else Ok memberReports in
      Ok (services_running (cc_Services c) memberReports)
  end.

Definition component_of (cmp : string) (s : CortexStatus) : option (bool * option CortexComponent) :=
  if decide (cmp = CortexDistributor) then Some (false, cx_Distributor s)
  else if decide (cmp = CortexIngester) then Some (true, cx_Ingester s)
  else if decide (cmp = CortexRuler) then Some (true, cx_Ruler s)
  else if decide (cmp = CortexPurger) then Some (false, cx_Purger s)
  else if decide (cmp = CortexCompactor) then Some (true, cx_Compactor s)
  else if decide (cmp = CortexStoreGateway) then Some (false, cx_StoreGateway s)
  else if decide (cmp = CortexQueryFrontend) then Some (false, cx_QueryFrontend s)
  else if decide (cmp = CortexQuerier) then Some (false, cx_Querier s)
  else None.

Fixpoint track_components (cmps : list string) (s : CortexStatus) (memberReports : gmap string bool)
  : outcome (bool * gmap string bool) :=
  match cmps with
  | [] => Ok (true, memberReports)
  | cmp :: cmps =>
      match component_of cmp s with
      | None => track_components cmps s memberReports
      | Some (members, c) =>
          let? (healthy, memberReports) := track_component members c memberReports in
          if healthy : bool then track_components cmps s memberReports else Ok (false, memberReports)
      end
  end.

Definition reduceCortexAdminStates (componentsToTrack : list string) (now : Time) (cStatus : option CortexStatus)
  : outcome (bool * option Time) :=
  match cStatus with
  | None => Ok (false, Some now)
  | Some s =>
      let? (healthy, memberReports) := track_components componentsToTrack s ∅ in
      if negb healthy then Ok (false, cx_Timestamp s)
      else Ok (forallb (fun component =>
                 forallb (fun '(member, reportedOn) => negb (Contains member component && negb reportedOn))
                   (map_to_list memberReports)) componentsToTrack, cx_Timestamp s)
  end.

(** encoding/json on the messages of the streams; a message that cannot be decoded is
    nil, or lacks what could not be read. *)
Class StreamCodec := {
  json_HealthStatus : string -> option (option HealthStatus);
  json_CortexStatus : string -> option CortexStatus }.

Definition deref_ptr {A} (p : option A) : outcome A :=
  match p with Some a => Ok a | None => Panic "nil pointer dereference" end.

Section Health.
Context {SC : StreamCodec}.

(** [h.HealthStatus.Status]. *)
Definition status_of (data : string) : outcome (HealthStatus * option Status) :=
  let? h := deref_ptr (json_HealthStatus data) in
  let? hs := deref_ptr h in Ok (hs, hs_Status hs).

Definition system_health (_ : Time) (data : string) : outcome (bool * option Time) :=
  let? (_, st) := status_of data in
  let? st := deref_ptr st in
  Ok (st_Connected st, st_Timestamp st).

Definition capability_health (badStates : list string) (_ : Time) (data : string) : outcome (bool * option Time) :=
  let? (hs, st) := status_of data in
  let healthy :=
    match hs_Health hs with
    | None => false
    | Some h => forallb (fun s => negb (existsb (fun badState => Contains s badState) badStates)) (h_Conditions h)
    end in
  let? st := deref_ptr st in
  Ok (healthy, st_Timestamp st).

Definition cortex_health (components : list string) (now : Time) (data : string) : outcome (bool * option Time) :=
  reduceCortexAdminStates components now (json_CortexStatus data).
End Health.

(** ** The plugin *)

(** alertops.InstallState and cortexops.InstallState. *)
Inductive InstallState := InstallUnknown | NotInstalled | InstallUpdating | Installed | Uninstalling.
#[export] Instance InstallState_eq_dec : EqDecision InstallState.
Proof. solve_decision. Defined.

Record GettableAlert := mkGettableAlert { ga_Labels : gmap string string; ga_State : option string }.

(** The services the plugin calls: the clock, the ids, the operations node, the
    management API, Cortex, and the decoding of what Alertmanager answers. *)
Class AlertServices (W : Type) := {
  wall_Now : W -> W * Time;
  NewAlertingRefId : W -> W * string;
  ops_GetClusterStatus : M W InstallState;
  ops_GetRuntimeOptions : M W unit;
  ops_GetAvailableEndpoint : M W string;
  ops_SendManualSyncRequest : list string -> M W unit;
  mgmt_ListClusters : M W (list Cluster);
  cortexOps_GetClusterStatus : M W InstallState;
  cortex_LoadRules : string -> string -> string -> M W unit;
  cortex_DeleteRule : string -> string -> string -> M W unit;
  yaml_Marshal : RuleGroupYAMLv2 -> outcome string;
  json_PostSilencesResponse : string -> outcome (option string);
  json_Alerts : string -> outcome (option (list GettableAlert));
  json_Receivers : string -> outcome (option (list (option string)));
  regexp_MatchString : string -> string -> bool;
  xxh3_HashString : string -> Z }.

(** What a started evaluator was given. *)
Record Evaluator := mkEvaluator {
  ev_conditionId : string;
  ev_ctx : nat;
  ev_clusterId : string;
  ev_evaluateDuration : Z;
  ev_evaluateInterval : Z;
  ev_streamSubject : string;
  ev_firing : bool;
  ev_cancelled : bool }.

Record Plugin {DL : DurationLib} {AP : AlertParsers} (W : Type) := mkPlugin {
  pl_world : W;
  pl_msgNode : MessagingNode;
  pl_evaluators : list Evaluator;
  pl_nextCtx : nat;
  pl_routers : gmap string OpniRouterV1 }.
Arguments mkPlugin {_ _ _} _ _ _ _ _.
Arguments pl_world {_ _ _} _.
Arguments pl_msgNode {_ _ _} _.
Arguments pl_evaluators {_ _ _} _.
Arguments pl_nextCtx {_ _ _} _.
Arguments pl_routers {_ _ _} _.

(** ** streams.go *)

Definition NewAgentStreamSubject (clusterId : string) : string := AgentClusterHealthStatusStream +:+ "." +:+ clusterId.
Definition NewDurableAgentReplaySubject (clusterId : string) : string :=
  "agent-cluster-health-status-consumer" +:+ "-" +:+ clusterId.
Definition NewCortexStatusSubject : string := "opni_alerting_cortex_status" +:+ "." +:+ "cortex".

(** ** Setters *)

Definition stamp_condition (id : string) (t : option Time) (a : AlertCondition) : AlertCondition :=
  mkAlertCondition (ac_Name a) (ac_Description a) (ac_Labels a) (ac_Severity a) (ac_AlertType a) (ac_AttachedEndpoints a)
    (ac_Silence a) t id (ac_GoldenSignal a) (ac_OverrideType a).
Definition set_silence (s : option SilenceInfo) (a : AlertCondition) : AlertCondition :=
  mkAlertCondition (ac_Name a) (ac_Description a) (ac_Labels a) (ac_Severity a) (ac_AlertType a) (ac_AttachedEndpoints a)
    s (ac_LastUpdated a) (ac_Id a) (ac_GoldenSignal a) (ac_OverrideType a).
Definition set_attached (ae : option AttachedEndpoints) (a : AlertCondition) : AlertCondition :=
  mkAlertCondition (ac_Name a) (ac_Description a) (ac_Labels a) (ac_Severity a) (ac_AlertType a) ae
    (ac_Silence a) (ac_LastUpdated a) (ac_Id a) (ac_GoldenSignal a) (ac_OverrideType a).
Definition stamp_endpoint (id : string) (t : option Time) (e : AlertEndpoint) : AlertEndpoint :=
  mkAlertEndpoint (ep_Name e) (ep_Description e) (ep_Endpoint e) (ep_Properties e) t id.

Section Plugin.
Context {DL : DurationLib} {AP : AlertParsers} {PL : PromLib} {ET : ErrorText} {SC : StreamCodec}.
Context {W : Type} {CS : AlertingClientSet W} {SV : AlertServices W} {HC : HttpClient W}.

Abbreviation P := (Plugin W).

Definition on_plugin {A} (m : M W A) : M P A := fun p =>
  let '(w, r) := m (pl_world p) in
  (mkPlugin w (pl_msgNode p) (pl_evaluators p) (pl_nextCtx p) (pl_routers p), r).
Definition read_world {A} (m : W -> W * A) : M P A := on_plugin (fun w => let '(w, a) := m w in (w, Ok a)).
Definition Now_ : M P Time := read_world wall_Now.
(** A call whose error is ignored. *)
Definition ignore {A} (m : M P A) : M P unit := wcatch (m ;! wret tt) (fun _ => wret tt).

(** ** condition_handlers.go: internal conditions *)

(** The evaluator is built with a context of its own, computes its first state, and its
    two loops are started; the previous evaluator of the condition is cancelled. *)
Definition start_evaluator (conditionId clusterId : string) (duration interval : Z) (subject : string) : M P unit := fun p =>
  let ctx := pl_nextCtx p in
  let '(w, now) := wall_Now (pl_world p) in
  match CalculateInitialState conditionId (mkEvalState w false false now) with
  | (s, Panic msg) => (mkPlugin (es_world s) (pl_msgNode p) (pl_evaluators p) (S ctx) (pl_routers p), Panic msg)
  | (s, _) =>
      let node := AddSystemConfigListener conditionId ctx (pl_msgNode p) in
      (mkPlugin (es_world s) (if es_cancelled s then context_ends ctx node else node)
         (mkEvaluator conditionId ctx clusterId duration interval subject (es_firing s) (es_cancelled s) :: pl_evaluators p)
         (S ctx) (pl_routers p), Ok tt)
  end.

Definition onSystemConditionCreate (conditionId : string) (condition : AlertCondition) (s : AlertConditionSystem) : M P unit :=
  let! agentId := wlift (deref_id (AlertCondition_GetClusterId condition)) in
  start_evaluator conditionId agentId (AsDuration (sy_Timeout s)) (10 * second)%Z (NewAgentStreamSubject agentId).
Definition onDownstreamCapabilityConditionCreate (conditionId : string) (condition : AlertCondition)
    (c : AlertConditionDownstreamCapability) : M P unit :=
  let! agentId := wlift (deref_id (AlertCondition_GetClusterId condition)) in
  start_evaluator conditionId agentId (AsDuration (dc_For c)) (10 * second)%Z (NewAgentStreamSubject agentId).
Definition onCortexClusterStatusCreate (conditionId : string) (m : AlertConditionMonitoringBackend) : M P unit :=
  start_evaluator conditionId "" (AsDuration (mb_For m)) minute NewCortexStatusSubject.

(** ** Conditions on metrics

    The maps of the filters and labels are ranged over in some order: [map_to_list]. *)

Definition load_rule (clusterId : string) (rule : outcome RuleGroupYAMLv2) : M P unit :=
  let! content := wlift rule in
  let! out := wlift (yaml_Marshal content) in
  on_plugin (cortex_LoadRules clusterId OpniAlertingCortexNamespace out).

Definition cortex_rule (cond : AlertCondition) (info : IndexableMetric) (id alertName : string) (rule : AlertingRule)
  : outcome RuleGroupYAMLv2 :=
  NewCortexAlertingRule (map_to_list (ConstructIdLabelsForRecordingRule alertName id)) id alertName
    (AlertCondition_GetRoutingLabels cond) (AlertCondition_GetRoutingAnnotations cond) info None rule.

Definition handleKubeAlertCreation (cond : AlertCondition) (k : AlertConditionKubeState) (newId alertName : string) : M P unit :=
  let! baseKubeRule := wlift (NewKubeStateRule (ks_ObjectType k) (ks_ObjectName k) (ks_Namespace k) (ks_State k)
                                (TimeDurationToPromStr (AsDuration (ks_For k))) ∅) in
  load_rule (ks_ClusterId k) (cortex_rule cond (mkIndexableMetric "error" "kube_state") newId alertName baseKubeRule).

Definition keys {A} (m : gmap string A) : list string := (map_to_list m).*1.

Definition handleCpuSaturationAlertCreation (cond : AlertCondition) (c : AlertConditionCPUSaturation)
    (conditionId alertName : string) : M P unit :=
  let nodes := map_to_list (cpu_NodeCoreFilters c) in
  let baseCpuRule := NewCpuRule (keys (cpu_filters nodes (cpu_CpuStates c))) nodes (cpu_CpuStates c) (cpu_Operation c)
                       (cpu_ExpectedRatio c) (cpu_For c) ∅ in
  load_rule (ref_GetId (cpu_ClusterId c))
    (cortex_rule cond (mkIndexableMetric "saturation" "cpu_saturation") conditionId alertName baseCpuRule).

Definition handleMemorySaturationAlertCreation (cond : AlertCondition) (m : AlertConditionMemorySaturation)
    (conditionId alertName : string) : M P unit :=
  let nodes := map_to_list (mem_NodeMemoryFilters m) in
  let order := keys (mem_filters nodes) in
  let baseMemRule := NewMemRule order order nodes (mem_UsageTypes m) (mem_Operation m) (mem_ExpectedRatio m) (mem_For m) ∅ in
  load_rule (ref_GetId (mem_ClusterId m))
    (cortex_rule cond (mkIndexableMetric "saturation" "memory_saturation") conditionId alertName baseMemRule).

Definition handleFsSaturationAlertCreation (cond : AlertCondition) (f : AlertConditionFilesystemSaturation)
    (conditionId alertName : string) : M P unit :=
  let nodes := map_to_list (fs_NodeFilters f) in
  let baseFsRule := NewFsRule (keys (fs_filters nodes)) nodes (fs_Operation f) (fs_ExpectedRatio f) (fs_For f) ∅ in
  load_rule (ref_GetId (fs_ClusterId f))
    (cortex_rule cond (mkIndexableMetric "saturation" "fs_saturation") conditionId alertName baseFsRule).

Definition handlePrometheusQueryAlertCreation (cond : AlertCondition) (q : AlertConditionPrometheusQuery)
    (conditionId alertName : string) : M P unit :=
  let baseRule := mkAlertingRule "" (PostProcessRuleString (pq_Query q)) (AsDuration (pq_For q)) ∅ ∅ in
  load_rule (ref_GetId (pq_ClusterId q))
    (cortex_rule cond (mkIndexableMetric "custom" "prometheus_query") conditionId alertName baseRule).

(** ** setupCondition and deleteCondition *)

Definition setupCondition (req : AlertCondition) (newConditionId : string) : M P unit :=
  match ac_AlertType req with
  | Some (AT_System s) => onSystemConditionCreate newConditionId req s
  | Some (AT_DownstreamCapability c) => onDownstreamCapabilityConditionCreate newConditionId req c
  | Some (AT_MonitoringBackend m) => onCortexClusterStatusCreate newConditionId m
  | Some (AT_KubeState k) => handleKubeAlertCreation req k newConditionId (ac_Name req)
  | Some (AT_Cpu c) => handleCpuSaturationAlertCreation req c newConditionId (ac_Name req)
  | Some (AT_Memory m) => handleMemorySaturationAlertCreation req m newConditionId (ac_Name req)
  | Some (AT_Fs f) => handleFsSaturationAlertCreation req f newConditionId (ac_Name req)
  | Some (AT_PrometheusQuery q) => handlePrometheusQueryAlertCreation req q newConditionId (ac_Name req)
  | _ => wfail AlertingErrNotImplemented
  end.

(** The cluster of a condition on metrics. *)
Definition handleSwitchCortexRules (t : option AlertTypeDetails) : option Reference :=
  match t with
  | Some (AT_KubeState k) => Some (mkReference (ks_ClusterId k))
  | Some (AT_Cpu c) => cpu_ClusterId c
  | Some (AT_Memory m) => mem_ClusterId m
  | Some (AT_Fs f) => fs_ClusterId f
  | Some (AT_PrometheusQuery q) => pq_ClusterId q
  | _ => None
  end.

Definition remove_listener (id : string) : M P unit := fun p =>
  (mkPlugin (pl_world p) (RemoveConfigListener id (pl_msgNode p)) (pl_evaluators p) (pl_nextCtx p) (pl_routers p), Ok tt).

Definition deleteCondition (req : AlertCondition) (id : string) : M P unit :=
  match ac_AlertType req with
  | Some (AT_System _) | Some (AT_DownstreamCapability _) | Some (AT_MonitoringBackend _) =>
      remove_listener id ;!
      ignore (on_plugin (as_Delete Incidents id)) ;!
      ignore (on_plugin (as_Delete States id))
  | t =>
      match handleSwitchCortexRules t with
      | Some r => on_plugin (cortex_DeleteRule (ref_Id r) OpniAlertingCortexNamespace (CortexRuleIdFromUuid id))
      | None => wfail AlertingErrNotImplemented
      end
  end.

(** ** api_conditions.go *)

(** The id is always a new one. *)
Definition CreateAlertCondition (req : AlertCondition) : M P Reference :=
  let '(req, r) := AlertCondition_Validate req in
  wlift r ;!
  let! newId := read_world NewAlertingRefId in
  let! now := Now_ in
  let req := stamp_condition newId (Some now) req in
  on_plugin (as_Put Conditions newId req) ;!
  let! state := on_plugin ops_GetClusterStatus in
  if negb (bool_decide (state = Installed)) then wret (mkReference newId)
  else setupCondition req newId ;! wret (mkReference newId).

Definition GetAlertCondition (ref : Reference) : M P AlertCondition := on_plugin (as_Get Conditions (ref_Id ref) false).

Record ListAlertConditionRequest := mkListAlertConditionRequest {
  lr_Clusters : list string;
  lr_Severities : list OpniSeverity;
  lr_Labels : list string;
  lr_AlertTypes : list AlertType }.
Definition all_conditions : ListAlertConditionRequest := mkListAlertConditionRequest [] [] [] [].

(** [lo.Intersect]: the elements of the second list that are in the first. *)
Definition lo_Intersect (l1 l2 : list string) : list string := filter (fun x => x ∈ l1) l2.

(** The types are looked at only when severities are given. *)
Definition condition_selected (req : ListAlertConditionRequest) (item : AlertCondition) : outcome bool :=
  let? cluster_ok :=
    if (length (lr_Clusters req) =? 0)%nat then Ok true
    else let? id := deref_id (AlertCondition_GetClusterId item) in Ok (bool_decide (id ∈ lr_Clusters req)) in
  Ok (cluster_ok &&
      ((length (lr_Labels req) =? 0)%nat ||
       (length (lo_Intersect (lr_Labels req) (ac_Labels item)) =? length (lr_Labels req))%nat) &&
      ((length (lr_Severities req) =? 0)%nat || bool_decide (ac_Severity item ∈ lr_Severities req)) &&
      ((length (lr_Severities req) =? 0)%nat || existsb (IsType item) (lr_AlertTypes req))).

Fixpoint filter_outcome {A} (f : A -> outcome bool) (l : list A) : outcome (list A) :=
  match l with
  | [] => Ok []
  | x :: l => let? b := f x in let? r := filter_outcome f l in Ok (if b : bool then x :: r else r)
  end.

(** The sort of the source is not stable. *)
Definition by_name (a b : AlertCondition) : Prop := String.le (ac_Name a) (ac_Name b).
#[local] Instance by_name_dec a b : Decision (by_name a b) := _.
Definition ListAlertConditions (req : ListAlertConditionRequest) : M P (list (Reference * AlertCondition)) :=
  let! allConds := on_plugin (as_List Conditions false) in
  let! conds := wlift (filter_outcome (condition_selected req) allConds) in
  wret ((fun c => (mkReference (ac_Id c), c)) <$> merge_sort by_name conds).

(** The condition is stored under the id of the request, with the id it came with. *)
Definition UpdateAlertCondition (id : option Reference) (updateAlert : option AlertCondition) : M P unit :=
  let '(updateAlert, r) := UpdateAlertConditionRequest_Validate id updateAlert in
  wlift r ;!
  let! conditionId := wlift (deref_id id) in
  let! now := Now_ in
  let! cond := wlift (deref_ptr updateAlert) in
  let cond := stamp_condition (ac_Id cond) (Some now) cond in
  on_plugin (as_Put Conditions conditionId cond) ;!
  let! state := on_plugin ops_GetClusterStatus in
  if negb (bool_decide (state = Installed)) then wret tt
  else setupCondition cond conditionId.

Definition DeleteAlertCondition (ref : Reference) : M P unit :=
  let! existing := on_plugin (as_Get Conditions (ref_Id ref) false) in
  on_plugin (as_Delete Conditions (ref_Id ref)) ;!
  let! state := on_plugin ops_GetClusterStatus in
  if negb (bool_decide (state = Installed)) then wret tt
  else deleteCondition existing (ref_Id ref).

(** *** Status *)

(** The numbers of [AlertConditionState]. *)
Definition State_Unkown : Z := 0.
Definition State_Ok : Z := 1.
Definition State_Pending : Z := 2.
Definition State_Firing : Z := 3.
Definition State_Silenced : Z := 4.
Definition State_Invalidated : Z := 5.
Record AlertStatusResponse := mkAlertStatusResponse { as_State : Z; as_Reason : string }.

Record StatusInfo := mkStatusInfo {
  si_clusterMap : gmap string Cluster;
  si_router : OpniRouterV1;
  si_alertGroup : list GettableAlert;
  si_loadedReceivers : list string;
  si_metricsBackendStatus : InstallState }.

(** The first capability that is not the metrics one invalidates the condition. *)
Definition checkMetricsClusterStatus (now : Time) (cond : AlertCondition) (metricsBackendStatus : InstallState)
    (clMap : gmap string Cluster) (clusterId : string) : outcome AlertStatusResponse :=
  if bool_decide (metricsBackendStatus = NotInstalled)
  then Ok (mkAlertStatusResponse State_Invalidated "metrics backend not installed")
  else match clMap !! clusterId with
  | None => Ok (mkAlertStatusResponse State_Invalidated "cluster not found")
  | Some cluster =>
      let? md := deref_ptr (cl_Metadata cluster) in
      if existsb (fun cap => negb (bool_decide (cc_Name cap = CapabilityMetrics))) (cm_Capabilities md)
      then Ok (mkAlertStatusResponse State_Invalidated "cluster does not have metrics capabilities installed")
      else if negb (AsTime (ac_LastUpdated cond) <? now - 90 * second)%Z
      then Ok (mkAlertStatusResponse State_Pending "alarm metric dependencies are updating")
      else Ok (mkAlertStatusResponse State_Ok "")
  end.

Definition checkInternalClusterStatus (node : MessagingNode) (clMap : gmap string Cluster) (clusterId conditionId : string)
  : AlertStatusResponse :=
  if negb (bool_decide (clusterId = UpstreamClusterId)) && bool_decide (clMap !! clusterId = None)
  then mkAlertStatusResponse State_Invalidated "cluster not found"
  else if negb (IsRunning conditionId node)
  then mkAlertStatusResponse State_Invalidated "internal server error -- restart gateway"
  else mkAlertStatusResponse State_Ok "".

Definition checkClusterStatus (node : MessagingNode) (now : Time) (cond : AlertCondition) (info : StatusInfo)
  : outcome AlertStatusResponse :=
  match AlertCondition_GetClusterId cond with
  | None => Ok (mkAlertStatusResponse State_Unkown "cluster id is not known at this time")
  | Some clusterId =>
      if IsInternalCondition cond
      then Ok (checkInternalClusterStatus node (si_clusterMap info) (ref_Id clusterId) (ac_Id cond))
      else if IsMetricsCondition cond
      then checkMetricsClusterStatus now cond (si_metricsBackendStatus info) (si_clusterMap info) (ref_Id clusterId)
      else Ok (mkAlertStatusResponse State_Unkown "unknown condition type")
  end.

(** util.go *)
Definition statusFromLoadedReceivers (cond : AlertCondition) (matchers : list Matcher)
    (requiredReceivers loadedReceivers : list string) : AlertStatusResponse :=
  if (length requiredReceivers =? 0)%nat ||
     match ac_AttachedEndpoints cond with Some ae => (length (ats_Items ae) =? 0)%nat | None => true end
  then mkAlertStatusResponse State_Ok ""
  else if negb (length matchers =? 0)%nat &&
          negb (length (lo_Intersect requiredReceivers loadedReceivers) =? length requiredReceivers)%nat
  then mkAlertStatusResponse State_Pending "alarm dependencies are updating"
  else mkAlertStatusResponse State_Ok "".

Definition Matcher_Matches (m : Matcher) (s : string) : bool :=
  match m_Type m with
  | MatchEqual => bool_decide (s = m_Value m)
  | MatchNotEqual => negb (bool_decide (s = m_Value m))
  | MatchRegexp => regexp_MatchString (m_Value m) s
  | MatchNotRegexp => negb (regexp_MatchString (m_Value m) s)
  end.
Definition alert_matches (matchers : list Matcher) (alert : GettableAlert) : bool :=
  forallb (fun m => match ga_Labels alert !! m_Name m with Some l => Matcher_Matches m l | None => false end) matchers.

(** The first alert that matches decides. *)
Fixpoint status_of_alerts (matchers : list Matcher) (alertGroup : list GettableAlert) : outcome AlertStatusResponse :=
  match alertGroup with
  | [] => Ok (mkAlertStatusResponse State_Ok "")
  | alert :: alertGroup =>
      if negb (alert_matches matchers alert) then status_of_alerts matchers alertGroup
      else let? state := deref_ptr (ga_State alert) in
           Ok (mkAlertStatusResponse
                 (if bool_decide (state = "suppressed") then State_Silenced
                  else if bool_decide (state = "active") then State_Firing
                  else if bool_decide (state = "unprocessed") then State_Firing
                  else State_Ok) "")
  end.
Definition statusFromAlertGroup (matchers : list Matcher) (alertGroup : list GettableAlert) : outcome AlertStatusResponse :=
  if (length matchers =? 0)%nat then Ok (mkAlertStatusResponse State_Pending "alarm dependencies are updating")
  else status_of_alerts matchers alertGroup.

(** [compareStatus]: the worse of two states, where unknown is worse than ok. *)
Definition compareStatus (resultStatus status : AlertStatusResponse) : AlertStatusResponse :=
  if (as_State resultStatus <? as_State status)%Z then status
  else if (as_State resultStatus =? State_Ok)%Z && (as_State status =? State_Unkown)%Z then status
  else resultStatus.

(** What both status handlers compute for one condition. *)
Definition condition_status (node : MessagingNode) (now : Time) (info : StatusInfo) (cond : AlertCondition)
  : outcome AlertStatusResponse :=
  let range := keys (ro_NamespacedSpecs (si_router info)) in
  let matchers := HasLabels range (si_router info) (ac_Id cond) in
  let? s1 := checkClusterStatus node now cond info in
  let s2 := statusFromLoadedReceivers cond matchers (HasReceivers range (si_router info) (ac_Id cond)) (si_loadedReceivers info) in
  let? s3 := statusFromAlertGroup matchers (si_alertGroup info) in
  Ok (compareStatus (compareStatus (compareStatus (mkAlertStatusResponse State_Ok "") s1) s2) s3).

Definition router_of (key : string) : M P OpniRouterV1 := fun p => (p, mem_Get (pl_routers p) key).

Definition loadStatusInfo : M P StatusInfo :=
  let! clusters := on_plugin mgmt_ListClusters in
  let! metricsBackendStatus :=
    wcatch (on_plugin cortexOps_GetClusterStatus)
      (fun e => if bool_decide (StatusCode e = codes_Unavailable) || bool_decide (StatusCode e = codes_Unimplemented)
                then wret NotInstalled else wfail e) in
  let! router := router_of SingleConfigId in
  on_plugin ops_GetRuntimeOptions ;!
  let! endpoint := on_plugin ops_GetAvailableEndpoint in
  let! alerts := on_plugin (DoRequest (expect_json json_Alerts) (NewAlertManagerGetAlertsClient endpoint)) in
  match alerts with
  | None => wfail (WithInternalServerError "cannot parse response body into expected api struct")
  | Some alerts =>
      let! receivers := on_plugin (DoRequest (expect_json json_Receivers) (NewAlertManagerReceiversClient endpoint)) in
      match receivers with
      | None => wfail (WithInternalServerError "cannot parse response body into expected api struct")
      | Some receivers =>
          wret (mkStatusInfo (list_to_map (rev ((fun c => (cl_Id c, c)) <$> clusters))) router alerts
                  (default "" <$> receivers) metricsBackendStatus)
      end
  end.

Definition AlertConditionStatus (ref : Reference) : M P AlertStatusResponse :=
  let! cond := wcatch (on_plugin (as_Get Conditions (ref_Id ref) false)) (fun _ => wfail (WithNotFoundError "condition")) in
  let! statusInfo := loadStatusInfo in
  let! now := Now_ in
  fun p => (p, condition_status (pl_msgNode p) now statusInfo cond).

(** A condition with its status, when the request wants its state. *)
Definition ListAlertConditionsWithStatus (itemFilter : option ListAlertConditionRequest) (wanted : list Z)
  : M P (gmap string (AlertCondition * AlertStatusResponse)) :=
  let! allConds := on_plugin (as_List Conditions false) in
  let! statusInfo := loadStatusInfo in
  let! conds := wlift (match itemFilter with
                       | None => Ok allConds
                       | Some req => filter_outcome (condition_selected req) allConds
                       end) in
  let! now := Now_ in
  fun p =>
    (p, let? l := omapM (fun cond => let? st := condition_status (pl_msgNode p) now statusInfo cond in Ok (ac_Id cond, (cond, st))) conds in
        Ok (list_to_map (rev (filter (fun e => (length wanted = 0)%nat \/ as_State e.2.2 ∈ wanted) l)))).

(** *** Silences *)

(** The delete client panics on an empty id. *)
Definition DeactivateSilence (req : Reference) : M P unit :=
  wlift (Reference_Validate req) ;!
  on_plugin ops_GetRuntimeOptions ;!
  let! existing := on_plugin (as_Get Conditions (ref_Id req) false) in
  match ac_Silence existing with
  | None => wfail (ValidationError "could not find existing silence for condition")
  | Some silence =>
      let! endpoint := on_plugin ops_GetAvailableEndpoint in
      let! api := wlift (NewAlertManagerDeleteSilenceClient endpoint (si_SilenceId silence)) in
      on_plugin (DoRequest NewExpectStatusOk api) ;!
      on_plugin (as_Put Conditions (ref_Id req) (set_silence None existing))
  end.

Definition ActivateSilence (conditionId : option Reference) (duration : option Duration) : M P unit :=
  wlift (SilenceRequest_Validate conditionId duration) ;!
  on_plugin ops_GetRuntimeOptions ;!
  let! id := wlift (deref_id conditionId) in
  let! existing := on_plugin (as_Get Conditions id false) in
  let! endpoint := on_plugin ops_GetAvailableEndpoint in
  let silenceID := si_SilenceId <$> ac_Silence existing in
  (if match silenceID with Some s => negb (is_empty s) | None => false end
   then wcatch (DeactivateSilence (mkReference id))
          (fun _ => wfail (WithInternalServerError "failed to deactivate existing silence"))
   else wret tt) ;!
  let! now := Now_ in
  let! resp := on_plugin (DoRequest (expect_json json_PostSilencesResponse)
                 (NewAlertManagerPostSilenceClient endpoint
                    (SilenceBody (WithPostSilenceBody now id (AsDuration duration) silenceID)))) in
  let! starts := Now_ in
  let! ends := Now_ in
  on_plugin (as_Put Conditions id
    (set_silence (Some (mkSilenceInfo (default "" resp) (Some starts) (Some (ends + AsDuration duration)%Z))) existing)).

(** *** Cloning and timelines *)

(** [independentErrGroup.Error]: the texts of the errors, each once and in order. *)
Definition group_error (errs : list error) : outcome unit :=
  match errs with
  | [] => Ok tt
  | _ => Err (ErrorString (Join "," (merge_sort String.le (remove_dups (err_Error <$> errs)))))
  end.

(** Every cluster gets a copy; the error of [SetClusterId] is ignored. *)
Fixpoint clone_all (cond : AlertCondition) (toClusters : list string) : M P (list error) :=
  match toClusters with
  | [] => wret []
  | ref :: toClusters => fun p =>
      match SetClusterId (Some (mkReference ref)) cond with
      | (_, Panic msg) => (p, Panic msg)
      | (clone, _) =>
          match CreateAlertCondition clone p with
          | (p, Panic msg) => (p, Panic msg)
          | (p, r) =>
              (let! errs := clone_all cond toClusters in
               wret (match r with Err e => e :: errs | _ => errs end)) p
          end
      end
  end.

Definition CloneTo (toClusters : list string) (alertCondition : option AlertCondition) : M P unit :=
  let '(alertCondition, r) := CloneToRequest_Validate toClusters alertCondition in
  wlift r ;!
  let! cl := on_plugin mgmt_ListClusters in
  wlift (foreach (fun ref => reject (negb (bool_decide (ref ∈ cl_Id <$> cl))) "cluster could not be found") toClusters) ;!
  let! cond := wlift (deref_ptr alertCondition) in
  let! errs := clone_all cond toClusters in
  wlift (group_error errs).

(** The windows of the internal conditions; a condition whose incidents cannot be read
    is left out. *)
Definition timeline_of (start end_ : option Time) (cond : AlertCondition) : M P (option (string * list ActiveWindow)) :=
  match handleSwitchCortexRules (ac_AlertType cond) with
  | Some _ => wret None
  | None =>
      wcatch (let! windows := on_plugin (Incidents_GetActiveWindows (ac_Id cond) start end_) in
              wret (Some (ac_Id cond, windows)))
        (fun _ => wret None)
  end.
Definition Timeline (lookbackWindow : option Duration) : M P (gmap string (list ActiveWindow)) :=
  wlift (TimelineRequest_Validate lookbackWindow) ;!
  let! conditions := on_plugin (as_List Conditions false) in
  let! start := Now_ in
  let! end_ := Now_ in
  let! l := wmap (timeline_of (Some (start - AsDuration lookbackWindow)%Z) (Some end_)) conditions in
  wret (list_to_map (omap (fun x => x) l)).

(** ** api.go *)

(** A label or annotation that is not set yet. *)
Definition set_missing (k v : string) (m : gmap string string) : gmap string string :=
  match m !! k with Some _ => m | None => <[k := v]> m end.

Definition alert_labels (req : AlertsRequest) (id : string) : gmap string string :=
  set_missing BackendConditionIdLabel id (set_missing (ar_Namespace req) id (default ∅ (ar_Labels req))).
Definition alert_annotations (req : AlertsRequest) : gmap string string :=
  set_missing BackendConditionNameLabel (ar_ConditionName req) (default ∅ (ar_Annotations req)).

Definition TriggerAlerts (req : AlertsRequest) : M P unit :=
  let '(req, r) := TriggerAlertsRequest_Validate req in
  wlift r ;!
  on_plugin ops_GetRuntimeOptions ;!
  let! endpoint := on_plugin ops_GetAvailableEndpoint in
  let! id := wlift (deref_id (ar_ConditionId req)) in
  let! alert := wlift (WithPostAlertBody id (alert_labels req id) (alert_annotations req)) in
  on_plugin (DoRequest NewExpectStatusOk (NewAlertManagerPostAlertClient endpoint (AlertsBody [alert]) None)).

Definition ResolveAlerts (req : AlertsRequest) : M P unit :=
  let '(req, r) := ResolveAlertsRequest_Validate req in
  wlift r ;!
  on_plugin ops_GetRuntimeOptions ;!
  let! endpoint := on_plugin ops_GetAvailableEndpoint in
  let! id := wlift (deref_id (ar_ConditionId req)) in
  let! now := Now_ in
  let! alert := wlift (WithPostResolveAlertBody now id (alert_labels req id) (alert_annotations req)) in
  on_plugin (DoRequest NewExpectStatusOk (NewAlertManagerPostAlertClient endpoint (AlertsBody [alert]) None)).

(** The requests that the hooks of an evaluator make. *)
Definition evaluator_request (conditionId namespace : string) (condition : AlertCondition) : AlertsRequest :=
  mkAlertsRequest (Some (mkReference conditionId)) namespace (ac_Name condition)
    (Some (AlertCondition_GetRoutingAnnotations condition)) (Some (AlertCondition_GetRoutingLabels condition)).

Definition HashStrings (l : list string) : string := Sprint (xxh3_HashString (String.concat "" ((fun s => s +:+ "-") <$> l))).

(** [retries] is the number of attempts of the default retrier. *)
Definition PushNotification (retries : nat) (req : Notification) : M P unit :=
  let '(req, r) := Notification_Validate req in
  wlift r ;!
  let req := mkNotification (no_Title req) (no_Body req)
               (set_missing NotificationPropertyDedupeKey (HashStrings [no_Title req; no_Body req]) (no_Properties req)) in
  on_plugin ops_GetRuntimeOptions ;!
  let! endpoint := on_plugin ops_GetAvailableEndpoint in
  let! alert := wlift (WithPostAlertBody ("notification-" +:+ map_get (no_Properties req) NotificationPropertyDedupeKey)
                         (Notification_GetRoutingLabels req) (Notification_GetRoutingAnnotations req)) in
  on_plugin (DoRequest NewExpectStatusOk (NewAlertManagerPostAlertClient endpoint (AlertsBody [alert]) (Some retries))).

Definition attached_ids (c : AlertCondition) : list string :=
  match ac_AttachedEndpoints c with Some ae => at_EndpointId <$> ats_Items ae | None => [] end.

(** The endpoints of a condition, when it has some. *)
Definition relationship (ic : Reference * AlertCondition) : option (string * list Reference) :=
  match attached_ids ic.2 with [] => None | ids => Some (ref_Id ic.1, mkReference <$> ids) end.
(** Later conditions of the same id win. *)
Definition ListRoutingRelationships : M P (gmap string (list Reference)) :=
  let! items := ListAlertConditions all_conditions in
  wret (list_to_map (rev (omap relationship items))).

(** ** api_endpoints.go *)

Definition unredactSecrets (endpointId : string) (endp : AlertEndpoint) : M P AlertEndpoint :=
  let! unredacted := on_plugin (as_Get Endpoints endpointId true) in
  wlift (UnredactSecrets endp unredacted).

Definition CreateAlertEndpoint (req : AlertEndpoint) : M P Reference :=
  wlift (AlertEndpoint_Validate req) ;!
  let! newId := read_world NewAlertingRefId in
  let! now := Now_ in
  on_plugin (as_Put Endpoints newId (stamp_endpoint newId (Some now) req)) ;!
  wret (mkReference newId).

Definition GetAlertEndpoint (ref : Reference) : M P AlertEndpoint := on_plugin (as_Get Endpoints (ref_Id ref) false).

(** The conditions that an endpoint is attached to. *)
Definition involved_conditions (endpointId : string) : M P (list Reference) :=
  let! resp := ListRoutingRelationships in
  wret (GetInvolvedConditions (map_to_list resp) endpointId).

Definition UpdateAlertEndpoint (id : option Reference) (updateAlert : AlertEndpoint) (forceUpdate : bool) : M P (list Reference) :=
  let! id := wlift (deref_id id) in
  let! updateAlert := unredactSecrets id updateAlert in
  wlift (AlertEndpoint_Validate updateAlert) ;!
  let! refList := involved_conditions id in
  if (0 <? length refList)%nat && negb forceUpdate then wret refList
  else
    let! now := Now_ in
    on_plugin (as_Put Endpoints id (stamp_endpoint id (Some now) updateAlert)) ;!
    wret refList.

Definition endpoint_by_name (a b : AlertEndpoint) : Prop := String.le (ep_Name a) (ep_Name b).
#[local] Instance endpoint_by_name_dec a b : Decision (endpoint_by_name a b) := _.
Definition ListAlertEndpoints : M P (list (Reference * AlertEndpoint)) :=
  let! endpoints := on_plugin (as_List Endpoints false) in
  wret ((fun e => (mkReference (ep_Id e), e)) <$> merge_sort endpoint_by_name endpoints).

(** The endpoint is taken off a condition. *)
Definition detach (endpointId : string) (cond : AlertCondition) : AlertCondition :=
  match ac_AttachedEndpoints cond with
  | Some ae =>
      if (0 <? length (ats_Items ae))%nat
      then set_attached (Some (mkAttachedEndpoints
             (filter (fun i => at_EndpointId i <> endpointId) (ats_Items ae))
             (ats_InitialDelay ae) (ats_RepeatInterval ae) (ats_ThrottlingDuration ae) (ats_Details ae))) cond
      else cond
  | None => cond
  end.
Definition detach_from (endpointId : string) (condRef : Reference) : M P unit :=
  ignore (let! cond := on_plugin (as_Get Conditions (ref_Id condRef) false) in
          on_plugin (as_Put Conditions (ref_Id condRef) (detach endpointId cond))).

Definition DeleteAlertEndpoint (id : option Reference) (forceDelete : bool) : M P (list Reference) :=
  let! id := wlift (deref_id id) in
  GetAlertEndpoint (mkReference id) ;!
  let! refList := involved_conditions id in
  if (0 <? length refList)%nat && negb forceDelete then wret refList
  else
    on_plugin (as_Delete Endpoints id) ;!
    wmap (detach_from id) refList ;!
    wret refList.

(** Only an endpoint without an id is unredacted, and a failure of that is ignored. *)
Definition TestAlertEndpoint (endpoint : option AlertEndpoint) : M P string :=
  match endpoint with
  | None => wfail (ValidationError "Endpoint must be set")
  | Some endpoint =>
      let! endpoint := (if is_empty (ep_Id endpoint)
                        then wcatch (unredactSecrets (ep_Id endpoint) endpoint) (fun _ => wret endpoint)
                        else wret endpoint) in
      wlift (AlertEndpoint_Validate endpoint) ;!
      let details := mkEndpointImplementation "Test Alert Endpoint"
        "Opni Alerting is sending you a test alert to verify your alert endpoint configuration." None in
      let! ephemeralId := read_world NewAlertingRefId in
      let createImpl := mkFullAttachedEndpoints [mkFullAttachedEndpoint ephemeralId (Some endpoint) (Some details)]
                          (Some (mkDuration 0 0)) None (Some (mkDuration 1 0)) (Some details) in
      let! router := router_of SingleConfigId in
      fun p =>
        let '(router, r) := SetNamespaceSpec "test" ephemeralId createImpl router in
        (mkPlugin (pl_world p) (pl_msgNode p) (pl_evaluators p) (pl_nextCtx p) (<[SingleConfigId := router]> (pl_routers p)),
         let? _ := r in Ok ephemeralId)
  end.

(** The goroutine of the test: the configuration is pushed, the alert triggered, and
    the route removed again. *)
Definition test_endpoint_run (ephemeralId : string) : M P unit :=
  ignore (on_plugin (ops_SendManualSyncRequest [SingleConfigId])) ;!
  ignore (TriggerAlerts (mkAlertsRequest (Some (mkReference ephemeralId)) "test" "" None (Some {["test" := ephemeralId]}))) ;!
  let! router := router_of SingleConfigId in
  fun p =>
    let '(router, r) := SetNamespaceSpec "test" ephemeralId no_endpoints router in
    (mkPlugin (pl_world p) (pl_msgNode p) (pl_evaluators p) (pl_nextCtx p) (<[SingleConfigId := router]> (pl_routers p)), Ok tt).

Definition toggle_property (props : gmap string string) : gmap string string :=
  match props !! EndpointTagNotifications with
  | None => <[EndpointTagNotifications := "true"]> props
  | Some _ => delete EndpointTagNotifications props
  end.
Definition ToggleNotifications (id : option Reference) : M P unit :=
  wlift (ToggleRequest_Validate id) ;!
  let! id := wlift (deref_id id) in
  let! endp := on_plugin (as_Get Endpoints id true) in
  let! now := Now_ in
  on_plugin (as_Put Endpoints id
    (mkAlertEndpoint (ep_Name endp) (ep_Description endp) (ep_Endpoint endp) (toggle_property (ep_Properties endp))
       (Some now) (ep_Id endp))).

(** ** sync.go *)

(** One goroutine per condition, whose error is logged. *)
Definition reindex : M P unit :=
  let! conditions := on_plugin (as_List Conditions true) in
  wmap (fun cond => ignore (setupCondition cond (ac_Id cond))) conditions ;! wret tt.
Definition teardown : M P unit :=
  let! conditions := on_plugin (as_List Conditions true) in
  wmap (fun cond => ignore (deleteCondition cond (ac_Id cond))) conditions ;! wret tt.

Definition default_condition (name description : string) (label : string) (t : AlertTypeDetails) : AlertCondition :=
  mkAlertCondition name description [label; "opni"; "automatic"] Severity_Critical (Some t) None None None "" Golden_Custom "".
Definition default_disconnect (clusterId : string) : AlertCondition :=
  default_condition "agent-disconnect" "Alert when the downstream agent disconnects from the opni upstream" "agent-disconnect"
    (AT_System (mkAlertConditionSystem (Some (mkReference clusterId)) (Some (mkDuration 600 0)))).
Definition ListBadDefaultStatuses : list string := [ConditionStatus_String StatusFailure; ConditionStatus_String StatusPending].
Definition default_capability (clusterId : string) : AlertCondition :=
  default_condition "agent-capability-unhealthy" "Alert when some downstream agent capability becomes unhealthy"
    "agent-capability-health"
    (AT_DownstreamCapability (mkAlertConditionDownstreamCapability (Some (mkReference clusterId)) ListBadDefaultStatuses
       (Some (mkDuration 600 0)))).

(** The cluster of a condition of the kind; the getter may give a nil reference. *)
Definition system_cluster (c : AlertCondition) : option (option Reference) :=
  match ac_AlertType c with Some (AT_System s) => Some (sy_ClusterId s) | _ => None end.
Definition capability_cluster (c : AlertCondition) : option (option Reference) :=
  match ac_AlertType c with Some (AT_DownstreamCapability d) => Some (dc_ClusterId d) | _ => None end.
Definition is_of (kind : AlertCondition -> option (option Reference)) (clusterId : string) (c : AlertCondition) : outcome bool :=
  match kind c with
  | None => Ok false
  | Some r => let? id := deref_id r in Ok (bool_decide (id = clusterId))
  end.
Fixpoint exists_of (kind : AlertCondition -> option (option Reference)) (clusterId : string) (l : list AlertCondition) : outcome bool :=
  match l with
  | [] => Ok false
  | c :: l => let? b := is_of kind clusterId c in if b : bool then Ok true else exists_of kind clusterId l
  end.

Definition create_default (kind : AlertCondition -> option (option Reference)) (dflt : AlertCondition) (clusterId : string)
    (conditions : list AlertCondition) : M P unit :=
  let! found := wlift (exists_of kind clusterId conditions) in
  if found : bool then wret tt else ignore (CreateAlertCondition dflt).
Definition createDefaultDisconnect (clusterId : string) : M P unit :=
  let! conditions := on_plugin (as_List Conditions true) in
  create_default system_cluster (default_disconnect clusterId) clusterId conditions.
Definition createDefaultCapabilityHealth (clusterId : string) : M P unit :=
  let! items := ListAlertConditions all_conditions in
  create_default capability_cluster (default_capability clusterId) clusterId items.*2.

(** A list that cannot be read is empty. *)
Fixpoint delete_of (kind : AlertCondition -> option (option Reference)) (clusterId : string) (l : list AlertCondition) : M P unit :=
  match l with
  | [] => wret tt
  | c :: l =>
      let! b := wlift (is_of kind clusterId c) in
      (if b : bool then ignore (DeleteAlertCondition (mkReference (ac_Id c))) else wret tt) ;!
      delete_of kind clusterId l
  end.
Definition on_delete_cluster (kind : AlertCondition -> option (option Reference)) (clusterId : string) : M P unit :=
  let! conditions := wcatch (on_plugin (as_List Conditions true)) (fun _ => wret []) in
  delete_of kind clusterId conditions.
Definition onDeleteClusterAgentDisconnectHook : string -> M P unit := on_delete_cluster system_cluster.
Definition onDeleteClusterCapabilityHook : string -> M P unit := on_delete_cluster capability_cluster.

(** ** impl.go: the hooks of the cluster watch *)

Definition HandleEvent {T} (cases : list ((T -> bool) * list (T -> M P unit))) (event : T) : M P unit :=
  wmap (fun '(filter, hooks) =>
          if filter event : bool then wmap (fun hook => ignore (hook event)) hooks ;! wret tt else wret tt) cases ;! wret tt.

Inductive WatchEventType := WatchEventType_Created | WatchEventType_Updated | WatchEventType_Deleted.
Record ClusterEvent := mkClusterEvent { ce_Type : WatchEventType; ce_ClusterId : string }.
Definition createClusterEvent (e : ClusterEvent) : bool := match ce_Type e with WatchEventType_Created => true | _ => false end.
Definition deleteClusterEvent (e : ClusterEvent) : bool := match ce_Type e with WatchEventType_Deleted => true | _ => false end.

(** [consumer] creates the durable consumer of a cluster and panics when it cannot. *)
Definition newClusterWatcherHooks (consumer : string -> M P unit) : list ((ClusterEvent -> bool) * list (ClusterEvent -> M P unit)) :=
  [(createClusterEvent,
    [(fun e => consumer (NewDurableAgentReplaySubject (ce_ClusterId e)));
     (fun e => createDefaultDisconnect (ce_ClusterId e));
     (fun e => createDefaultCapabilityHealth (ce_ClusterId e))]);
   (deleteClusterEvent,
    [(fun e => onDeleteClusterAgentDisconnectHook (ce_ClusterId e));
     (fun e => onDeleteClusterCapabilityHook (ce_ClusterId e))])].
End Plugin.
