(* ===== verification/AlertPluginProps.v ===== *)
(** What the handlers of the alerting plugin do, over stores that answer and services
    that leave the stores alone. *)

From stdpp Require Import sorting.
From S2P Require Import Prelude MetricsBackend GoStd Util Validation CoreV1 Health Monitor Etcd Tokens Management.
From S2P Require Import AlertIncidents SloProps MetricsProps AlertingV1 AmConfig AlertRouting AlertRouter AlertRouterProps AlertBuild AlertDelivery AlertValid AlertStorage AlertSync AlertClient AlertEval AlertEvalProps SloV1 SloRules AlertRules AlertPlugin.

Local Open Scope string_scope.

(** ** Status *)

Section Status.
Context {DL : DurationLib} {AP : AlertParsers} {W : Type} {SV : AlertServices W}.

Lemma compareStatus_known r s : (as_State s > State_Unkown)%Z -> (as_State (compareStatus r s) > State_Unkown)%Z.
Proof.
  unfold compareStatus, State_Unkown, State_Ok. intros H. destruct (_ <? _)%Z eqn:E; [done|]. apply Z.ltb_ge in E.
  destruct (as_State s =? 0)%Z eqn:E2; [apply Z.eqb_eq in E2; lia|]. rewrite andb_false_r. lia.
Qed.

Lemma status_of_alerts_known matchers l s : status_of_alerts matchers l = Ok s -> (as_State s > State_Unkown)%Z.
Proof.
  unfold State_Unkown. induction l as [|a l IH]; cbn; [by intros [= <-]|]. destruct (negb _); [done|].
  destruct (ga_State a); cbn; [|done]. intros [= <-]. cbn. by repeat case_bool_decide.
Qed.

(** The state that says unknown is never reported: the checks that come after the one of
    the cluster say at least ok, and ok counts as more than unknown. *)
Lemma unknown_is_never_reported node now info cond s :
  condition_status node now info cond = Ok s -> as_State s <> State_Unkown.
Proof.
  unfold condition_status. intros (s1 & H1 & H)%obind_Ok. apply obind_Ok in H as (s3 & H3 & [= <-]).
  assert (as_State s3 > State_Unkown)%Z as Hs3.
  { unfold statusFromAlertGroup in H3. destruct (_ =? 0)%nat; [by injection H3 as <-|by eapply status_of_alerts_known]. }
  pose proof (compareStatus_known (compareStatus (compareStatus (mkAlertStatusResponse State_Ok "") s1)
    (statusFromLoadedReceivers cond (HasLabels (keys (ro_NamespacedSpecs (si_router info))) (si_router info) (ac_Id cond))
       (HasReceivers (keys (ro_NamespacedSpecs (si_router info))) (si_router info) (ac_Id cond)) (si_loadedReceivers info))) s3 Hs3).
  unfold State_Unkown in *. lia.
Qed.

(** A condition on metrics of a cluster that has a second capability is invalidated for
    want of metrics, and one of a cluster that has none is not. *)
Lemma second_capability_invalidates now cond st clMap id cl md c1 c2 :
  st <> NotInstalled -> clMap !! id = Some cl -> cl_Metadata cl = Some md ->
  cm_Capabilities md = [c1; c2] -> cc_Name c1 = CapabilityMetrics -> cc_Name c2 <> CapabilityMetrics ->
  checkMetricsClusterStatus now cond st clMap id =
    Ok (mkAlertStatusResponse State_Invalidated "cluster does not have metrics capabilities installed").
Proof.
  intros Hst Hc Hm Hcap H1 H2. unfold checkMetricsClusterStatus. rewrite bool_decide_eq_false_2, Hc, Hm by done. cbn.
  rewrite Hcap. cbn. by rewrite (bool_decide_eq_true_2 _ H1), (bool_decide_eq_false_2 _ H2).
Qed.
Lemma no_capability_passes now cond st clMap id cl md :
  st <> NotInstalled -> clMap !! id = Some cl -> cl_Metadata cl = Some md -> cm_Capabilities md = [] ->
  (AsTime (ac_LastUpdated cond) < now - 90 * second)%Z ->
  checkMetricsClusterStatus now cond st clMap id = Ok (mkAlertStatusResponse State_Ok "").
Proof.
  intros Hst Hc Hm Hcap Ht. unfold checkMetricsClusterStatus. rewrite bool_decide_eq_false_2, Hc, Hm by done. cbn.
  rewrite Hcap. cbn [existsb]. by rewrite (proj2 (Z.ltb_lt _ _) Ht).
Qed.

(** Types alone select everything, and severities alone nothing. *)
Lemma types_need_severities types item :
  condition_selected (mkListAlertConditionRequest [] [] [] types) item = Ok true.
Proof. done. Qed.
Lemma severities_need_types severities item :
  severities <> [] -> condition_selected (mkListAlertConditionRequest [] severities [] []) item = Ok false.
Proof. destruct severities; [done|]. intros _. unfold condition_selected. cbn. by rewrite andb_false_r. Qed.

(** The clone of a condition on a capability stays with its cluster. *)
Lemma capability_clone_keeps_cluster ref cond d :
  ac_AlertType cond = Some (AT_DownstreamCapability d) ->
  (SetClusterId (Some ref) cond).1 = cond /\ is_Ok (SetClusterId (Some ref) cond).2 = false.
Proof. unfold SetClusterId. by intros ->. Qed.
End Status.

(** ** Detaching *)

Lemma detach_attached eid c : attached_ids (detach eid c) = filter (fun i => i <> eid) (attached_ids c).
Proof.
  unfold detach, attached_ids. destruct (ac_AttachedEndpoints c) as [ae|] eqn:E; [|by rewrite E].
  destruct (ats_Items ae) as [|i l] eqn:Ei; cbn [length Nat.ltb Nat.leb]; [by rewrite E, Ei|].
  cbn [set_attached ac_AttachedEndpoints ats_Items]. generalize (i :: l) as l'. clear. induction l' as [|i l IH]; [done|].
  rewrite fmap_cons, !filter_cons. destruct (decide (at_EndpointId i <> eid)); [by rewrite fmap_cons, IH|done].
Qed.

Lemma detach_other eid c : eid ∉ attached_ids c -> detach eid c = c.
Proof.
  unfold detach, attached_ids. destruct (ac_AttachedEndpoints c) as [ae|] eqn:E; [|done]. intros Hn.
  destruct (ats_Items ae) as [|i l] eqn:Ei; [done|]. cbn [length Nat.ltb Nat.leb].
  rewrite filter_all; [|apply list.Forall_forall; intros x Hx Hxe; apply Hn, list_elem_of_fmap; by exists x].
  rewrite <- Ei. unfold set_attached. destruct c, ae; cbn in *. by rewrite E.
Qed.

Lemma detach_id eid c : ac_Id (detach eid c) = ac_Id c.
Proof. unfold detach. repeat case_match; done. Qed.

(** ** The plugin over stores that answer *)

(** The services leave the stores alone. *)
Definition keeps {W A} {V : AlertingView W} (m : W -> W * A) : Prop := forall w,
  let w' := (m w).1 in
  conds w' = conds w /\ endps w' = endps w /\ states w' = states w /\ incidents w' = incidents w /\ (av_ok w -> av_ok w').

Class ServiceLaws (W : Type) (V : AlertingView W) {SV : AlertServices W} {HC : HttpClient W} : Prop := {
  keeps_Now : keeps wall_Now;
  keeps_NewId : keeps NewAlertingRefId;
  keeps_ClusterStatus : keeps ops_GetClusterStatus;
  keeps_RuntimeOptions : keeps ops_GetRuntimeOptions;
  keeps_AvailableEndpoint : keeps ops_GetAvailableEndpoint;
  keeps_LoadRules c n y : keeps (cortex_LoadRules c n y);
  keeps_DeleteRule c n g : keeps (cortex_DeleteRule c n g);
  keeps_Do v u b : keeps (http_Do v u b) }.

Section Plugin.
Context {DL : DurationLib} {AP : AlertParsers} {PL : PromLib} {ET : ErrorText} {SC : StreamCodec}.
Context {W : Type} {CS : AlertingClientSet W} {V : AlertingView W} {ttl : Z} {LA : AlertingLaws W V ttl}.
Context {SV : AlertServices W} {HC : HttpClient W} {SL : ServiceLaws W V}.

Abbreviation P := (Plugin W).
Definition with_world (w : W) (p : P) : P := mkPlugin w (pl_msgNode p) (pl_evaluators p) (pl_nextCtx p) (pl_routers p).

Lemma on_plugin_eq {A} (m : M W A) p w r : m (pl_world p) = (w, r) -> on_plugin m p = (with_world w p, r).
Proof. unfold on_plugin. by intros ->. Qed.
Lemma with_world_same (p : P) : with_world (pl_world p) p = p.
Proof. by destruct p. Qed.
Lemma on_plugin_read {A} (m : M W A) p r : m (pl_world p) = (pl_world p, r) -> on_plugin m p = (p, r).
Proof. intros H. by rewrite (on_plugin_eq _ _ _ _ H), with_world_same. Qed.

(** Every condition is stored under its own id. *)
Definition conds_keyed (w : W) : Prop := forall k c, conds w !! k = Some c -> ac_Id c = k.

Lemma filter_outcome_all {A} (f : A -> outcome bool) l : (forall x, f x = Ok true) -> filter_outcome f l = Ok l.
Proof. intros Hf. induction l as [|x l IH]; [done|]. cbn. by rewrite Hf, IH. Qed.

(** The listing of all conditions. *)
Lemma list_all_conditions p : av_ok (pl_world p) ->
  exists l, ListAlertConditions all_conditions p = (p, Ok ((fun c => (mkReference (ac_Id c), c)) <$> l)) /\
    l ≡ₚ (map_to_list (conds (pl_world p))).*2.
Proof.
  intros Hok. destruct (law_List _ _ _ _ _ conds_laws false _ Hok) as (l & E & Hl). unfold ListAlertConditions.
  rewrite (wbind_eq_Ok _ _ _ _ _ (on_plugin_read _ _ _ E)).
  unfold wlift. rewrite filter_outcome_all by done. unfold wbind at 1. eexists. split; [done|].
  rewrite merge_sort_Permutation, Hl. by apply reflexive_eq, list_fmap_ext.
Qed.

Lemma relationship_Some r c id refs : relationship (r, c) = Some (id, refs) ->
  id = ref_Id r /\ refs = mkReference <$> attached_ids c /\ attached_ids c <> [].
Proof. unfold relationship. cbn. destruct (attached_ids c); [done|]. by intros [= <- <-]. Qed.

Lemma relationships p : av_ok (pl_world p) -> conds_keyed (pl_world p) ->
  exists rel, ListRoutingRelationships p = (p, Ok rel) /\
    forall id refs, rel !! id = Some refs <->
      exists c, conds (pl_world p) !! id = Some c /\ refs = mkReference <$> attached_ids c /\ attached_ids c <> [].
Proof.
  intros Hok Hkey. destruct (list_all_conditions p Hok) as (l & E & Hl).
  unfold ListRoutingRelationships. rewrite (wbind_eq_Ok _ _ _ _ _ E). eexists. split; [done|].
  assert (forall c, c ∈ l <-> conds (pl_world p) !! ac_Id c = Some c) as Hin.
  { intros c. rewrite Hl, list_elem_of_fmap. split.
    - intros ([k c'] & -> & Hk%elem_of_map_to_list). cbn. by rewrite (Hkey _ _ Hk).
    - intros Hc. exists (ac_Id c, c). by rewrite elem_of_map_to_list. }
  assert (NoDup (ac_Id <$> l)) as Hnd.
  { rewrite Hl, <- list_fmap_compose. rewrite (list_fmap_ext _ fst); [apply NoDup_fst_map_to_list|].
    intros i [k c] Hk%list_elem_of_lookup_2%elem_of_map_to_list. cbn. by apply Hkey. }
  set (items := omap relationship _).
  assert (forall id refs, (id, refs) ∈ items <-> exists c, c ∈ l /\ id = ac_Id c /\ refs = mkReference <$> attached_ids c /\ attached_ids c <> []) as Hit.
  { intros id refs. unfold items. rewrite list_elem_of_omap. split.
    - intros ([r c] & (c' & [= -> ->] & Hc)%list_elem_of_fmap & (-> & -> & Hne)%relationship_Some). cbn. eauto.
    - intros (c & Hc & -> & -> & Hne). exists (mkReference (ac_Id c), c). split; [by apply list_elem_of_fmap; exists c|].
      unfold relationship. cbn. by destruct (attached_ids c). }
  assert (NoDup (items.*1)) as Hndi.
  { unfold items. clear -Hnd. induction l as [|c l IH]; [constructor|]. cbn in Hnd. apply list.NoDup_cons in Hnd as [Hc Hnd].
    cbn [fmap list_fmap omap list_omap]. destruct (relationship _) as [[id refs]|] eqn:Er; [|by apply IH].
    apply relationship_Some in Er as (-> & _). cbn. apply list.NoDup_cons. split; [|by apply IH].
    intros ([id2 refs2] & Heq & ([r c2] & (c3 & [= -> ->] & Hc3)%list_elem_of_fmap & (-> & _)%relationship_Some)%list_elem_of_omap)%list_elem_of_fmap.
    cbn in Heq. apply Hc. rewrite Heq. by apply list_elem_of_fmap_2. }
  intros id refs. rewrite <- elem_of_list_to_map by (by rewrite <- Permutation_rev).
  rewrite <- Permutation_rev, Hit. split.
  - intros (c & Hc & -> & Hr). exists c. by rewrite <- Hin.
  - intros (c & Hc & Hr). exists c. pose proof (Hkey _ _ Hc) as <-. by rewrite Hin.
Qed.

(** The conditions an endpoint is attached to. *)
Lemma involved p eid : av_ok (pl_world p) -> conds_keyed (pl_world p) ->
  exists refs, involved_conditions eid p = (p, Ok refs) /\ NoDup refs /\
    forall r, r ∈ refs <-> exists c, conds (pl_world p) !! ref_Id r = Some c /\ eid ∈ attached_ids c.
Proof.
  intros Hok Hkey. destruct (relationships p Hok Hkey) as (rel & E & Hrel).
  unfold involved_conditions. rewrite (wbind_eq_Ok _ _ _ _ _ E). eexists. split; [done|]. unfold GetInvolvedConditions.
  assert (forall ids : list string, ref_Id <$> (mkReference <$> ids) = ids) as Hrt
    by (intros ids; rewrite <- list_fmap_compose; by apply list_fmap_id).
  split.
  - pose proof (NoDup_fst_map_to_list rel) as Hnd. revert Hnd. generalize (map_to_list rel) as l.
    induction l as [|[k rs] l IH]; [intros; constructor|]. cbn [fmap list_fmap fst]. intros [Hk Hl]%list.NoDup_cons.
    cbn [omap list_omap]. case_bool_decide; [|by apply IH]. apply list.NoDup_cons. split; [|by apply IH].
    intros ([k2 rs2] & Hin & H2)%list_elem_of_omap. case_bool_decide; [|done]. injection H2 as ->.
    apply Hk, list_elem_of_fmap. by exists (k, rs2).
  - intros [id]. rewrite list_elem_of_omap. cbn. split.
    + intros ([k rs] & (c & Hc & -> & Hne)%elem_of_map_to_list%Hrel & H2). case_bool_decide as Hb; [|done].
      injection H2 as ->. rewrite Hrt in Hb. eauto.
    + intros (c & Hc & Hin). exists (id, mkReference <$> attached_ids c). split.
      * apply elem_of_map_to_list, Hrel. exists c. split_and!; [done..|]. by intros E0; rewrite E0 in Hin; apply not_elem_of_nil in Hin.
      * by rewrite bool_decide_eq_true_2 by by rewrite Hrt.
Qed.

(** The stores the handlers on endpoints do not write, and the rest of the world. *)
Definition others_kept (w w' : W) : Prop := states w' = states w /\ incidents w' = incidents w /\ rest w' = rest w.

Lemma others_kept_trans w1 w2 w3 : others_kept w1 w2 -> others_kept w2 w3 -> others_kept w1 w3.
Proof. unfold others_kept. intros (-> & -> & ->) (-> & -> & ->). done. Qed.

Lemma detach_from_ok p eid id c : av_ok (pl_world p) -> conds (pl_world p) !! id = Some c ->
  exists w', detach_from eid (mkReference id) p = (with_world w' p, Ok tt) /\ av_ok w' /\
    conds w' = <[id := detach eid c]> (conds (pl_world p)) /\ endps w' = endps (pl_world p) /\ others_kept (pl_world p) w'.
Proof.
  intros Hok Hc. assert (id_ok id) as Hid by by eapply (law_ids _ _ _ _ _ conds_laws _ _ Hok).
  pose proof (law_Get _ _ _ _ _ conds_laws id false _ Hok Hid) as HG. rewrite Hc in HG.
  destruct (law_Put _ _ _ _ _ conds_laws id (detach eid c) _ Hok Hid) as (w' & HP & Hcs & Hok' & He & Ho).
  exists w'. split_and!; [|done..]. unfold detach_from, ignore, wcatch.
  cbn [ref_Id]. rewrite (wbind_eq_Ok _ _ _ (with_world w' p) tt); [done|].
  rewrite (wbind_eq_Ok _ _ _ _ _ (on_plugin_read _ _ _ HG)). by apply on_plugin_eq.
Qed.

(** The loop over the conditions: those that are named are detached. *)
Lemma detach_all p eid refs : av_ok (pl_world p) -> NoDup refs ->
  (forall r, r ∈ refs -> is_Some (conds (pl_world p) !! ref_Id r)) ->
  exists w' us, wmap (detach_from eid) refs p = (with_world w' p, Ok us) /\ av_ok w' /\ endps w' = endps (pl_world p) /\
    others_kept (pl_world p) w' /\
    forall k, conds w' !! k = if decide (mkReference k ∈ refs) then detach eid <$> conds (pl_world p) !! k else conds (pl_world p) !! k.
Proof.
  revert p. induction refs as [|[id] refs IH]; intros p Hok Hnd Hin; cbn [wmap].
  { exists (pl_world p), []. rewrite with_world_same. by split_and!. }
  apply list.NoDup_cons in Hnd as [Hn Hnd]. destruct (Hin (mkReference id)) as [c Hc]; [left|]. cbn in Hc.
  destruct (detach_from_ok p eid id c Hok Hc) as (w1 & E1 & Hok1 & Hc1 & He1 & Ho1). rewrite (wbind_eq_Ok _ _ _ _ _ E1).
  destruct (IH (with_world w1 p)) as (w2 & us & E2 & Hok2 & He2 & Ho2 & Hc2); [done..| |].
  { intros [k] Hk. cbn. rewrite Hc1. destruct (decide (k = id)) as [->|]; [by rewrite lookup_insert_eq; eexists|].
    rewrite lookup_insert_ne by done. apply (Hin (mkReference k)). by right. }
  rewrite (wbind_eq_Ok _ _ _ _ _ E2). exists w2, (tt :: us). split_and!; [done..|by rewrite He2|by eapply others_kept_trans|].
  intros k. rewrite Hc2. cbn [with_world pl_world]. rewrite Hc1. destruct (decide (k = id)) as [->|Hne].
  - rewrite (decide_False (P := mkReference id ∈ refs)), decide_True, lookup_insert_eq, Hc; [done|left|done].
  - rewrite lookup_insert_ne by done. destruct (decide (mkReference k ∈ refs)) as [H|H].
    + by rewrite decide_True by by right.
    + rewrite decide_False; [done|]. intros [[= ->]|?]%elem_of_cons; done.
Qed.

(** C28: Deleting an endpoint by force, over stores that answer, removes it and takes it off
    every condition it was attached to, and changes nothing else: the other endpoints, the
    rest of each condition, the states, the incidents and what lies outside the stores are
    kept; the conditions are named in the answer.  Without force an endpoint that is in
    use is kept, with all conditions.  This holds as long as every condition is stored
    under its own id, which creating a condition ensures and updating one does not. *)
Theorem deleted_endpoint_is_detached (p : P) (eid : string) (e : AlertEndpoint) :
  av_ok (pl_world p) -> conds_keyed (pl_world p) -> id_ok eid -> endps (pl_world p) !! eid = Some e ->
  (exists w' refs, DeleteAlertEndpoint (Some (mkReference eid)) true p = (with_world w' p, Ok refs) /\ av_ok w' /\
     endps w' = delete eid (endps (pl_world p)) /\ conds w' = detach eid <$> conds (pl_world p) /\ others_kept (pl_world p) w' /\
     conds_keyed w' /\ (forall k c, conds w' !! k = Some c -> eid ∉ attached_ids c) /\
     forall r, r ∈ refs <-> exists c, conds (pl_world p) !! ref_Id r = Some c /\ eid ∈ attached_ids c) /\
  ((exists k c, conds (pl_world p) !! k = Some c /\ eid ∈ attached_ids c) ->
   exists refs, refs <> [] /\ DeleteAlertEndpoint (Some (mkReference eid)) false p = (p, Ok refs)).
Proof.
  intros Hok Hkey Hid He. destruct (involved p eid Hok Hkey) as (refs & E & Hnd & Hrefs).
  pose proof (law_Get _ _ _ _ _ endps_laws eid false _ Hok Hid) as HG. rewrite He in HG.
  assert (forall b, DeleteAlertEndpoint (Some (mkReference eid)) b p =
    (if (0 <? length refs)%nat && negb b then wret refs
     else on_plugin (as_Delete Endpoints eid) ;! wmap (detach_from eid) refs ;! wret refs) p) as Hrun.
  { intros b. unfold DeleteAlertEndpoint. rewrite (wbind_eq_Ok _ _ _ p eid) by done.
    unfold GetAlertEndpoint. cbn [ref_Id]. rewrite (wbind_eq_Ok _ _ _ _ _ (on_plugin_read _ _ _ HG)).
    by rewrite (wbind_eq_Ok _ _ _ _ _ E). }
  split.
  - rewrite Hrun, andb_false_r.
    destruct (law_Delete _ _ _ _ _ endps_laws eid _ Hok Hid) as (w1 & HD & He1 & Hok1 & Hc1 & Ho1).
    rewrite (wbind_eq_Ok _ _ _ _ _ (on_plugin_eq _ _ _ _ HD)).
    destruct (detach_all (with_world w1 p) eid refs) as (w2 & us & E2 & Hok2 & He2 & Ho2 & Hc2); [done..| |].
    { intros r (c & Hc & _)%Hrefs. cbn. rewrite Hc1. by exists c. }
    rewrite (wbind_eq_Ok _ _ _ _ _ E2). cbn in Hc2, He2.
    assert (conds w2 = detach eid <$> conds (pl_world p)) as Hall.
    { apply map_eq. intros k. rewrite Hc2, Hc1, lookup_fmap. destruct (decide _) as [_|Hn]; [done|].
      destruct (conds (pl_world p) !! k) as [c|] eqn:Ek; [|done]. cbn. rewrite detach_other; [done|].
      intros Hin. apply Hn, Hrefs. eauto. }
    exists w2, refs. split_and!; try done; [by rewrite He2|by eapply others_kept_trans| |].
    + intros k c. rewrite Hall, lookup_fmap. intros (c' & Hc' & ->)%fmap_Some. rewrite detach_id. by apply Hkey.
    + intros k c. rewrite Hall, lookup_fmap. intros (c' & Hc' & ->)%fmap_Some.
      rewrite detach_attached, list_elem_of_filter. tauto.
  - intros (k & c & Hc & Hin). assert (mkReference k ∈ refs) as Hr by (apply Hrefs; eauto).
    exists refs. destruct refs as [|r refs]; [by apply not_elem_of_nil in Hr|]. split; [done|]. by rewrite Hrun.
Qed.

(** ** Alerts and their routes *)

Context {AM : Alertmanager}.

Lemma set_missing_present k v m : is_Some (m !! k) -> set_missing k v m = m.
Proof. unfold set_missing. by intros [? ->]. Qed.

Lemma routing_label_ids cond :
  AlertCondition_GetRoutingLabels cond !! AlertCondition_Namespace cond = Some (ac_Id cond) /\
  AlertCondition_GetRoutingLabels cond !! BackendConditionIdLabel = Some (ac_Id cond) /\
  AlertCondition_GetRoutingLabels cond !! "alertname" = None.
Proof.
  pose proof (Namespace_constant cond) as Hk. destruct (constant_not_label _ Hk) as (L1 & L2 & L3).
  pose proof (constant_not_alertname _ Hk) as L4. unfold AlertCondition_GetRoutingLabels.
  split; [by rewrite lookup_insert_eq|]. split; [by rewrite lookup_insert_ne, lookup_insert_eq|].
  by rewrite !lookup_insert_ne, lookup_singleton_ne.
Qed.

Lemma evaluator_labels cond :
  alert_labels (make_maps (evaluator_request (ac_Id cond) (AlertCondition_Namespace cond) cond)) (ac_Id cond)
  = AlertCondition_GetRoutingLabels cond.
Proof.
  destruct (routing_label_ids cond) as (H1 & H2 & _).
  unfold alert_labels. cbn [make_maps evaluator_request ar_Labels ar_Namespace default].
  rewrite (set_missing_present (AlertCondition_Namespace cond)) by by eexists.
  by rewrite set_missing_present by by eexists.
Qed.

Lemma take_str_4 id : (4 <= String.length id)%nat -> take_str 4 id <> "".
Proof. destruct id; cbn; [lia|done]. Qed.

(** The alert that an evaluator posts, and its labels. *)
Lemma posted_alert cond annotations : (4 <= String.length (ac_Id cond))%nat ->
  exists alert, WithPostAlertBody (ac_Id cond) (AlertCondition_GetRoutingLabels cond) annotations = Ok alert /\
    alarm_labels cond (pa_Labels alert) /\ map_get (pa_Labels alert) BackendConditionIdLabel = ac_Id cond.
Proof.
  intros Hlen. destruct (routing_label_ids cond) as (H1 & H2 & H3).
  unfold WithPostAlertBody, postable_alert, alertname. rewrite (proj2 (Nat.ltb_ge _ _) Hlen). cbn [obind].
  unfold PostableAlert_Must. cbn [pa_Labels]. rewrite lookup_union, H3, lookup_singleton_eq. cbn [union_with option_union_with union option_union].
  unfold is_empty. rewrite bool_decide_eq_false_2 by by apply take_str_4.
  eexists. split; [done|]. cbn [pa_Labels]. split.
  - intros ns N1 N2 N3. rewrite <- (routing_label cond ns N1 N2). unfold map_get.
    rewrite lookup_union, (lookup_singleton_ne "alertname" ns) by done. by destruct (_ !! ns).
  - unfold map_get. rewrite lookup_union, H2. by destruct (_ !! _).
Qed.

(** One alert posted to Alertmanager by one request, and its answer. *)
Definition alerts_url (endpoint : string) : string :=
  let url := endpoint +:+ "/api/v2/alerts" in if HasPrefix url "http://" then url else "http://" +:+ url.
Definition post_once (endpoint : string) (alert : PostableAlert) (w : W) : W * outcome unit :=
  let '(w', r) := http_Do POST (alerts_url endpoint) (AlertsBody [alert]) w in
  (w', match r with
       | Ok (code, _) => if (code =? 200)%Z then Ok tt else Err (ErrorString "unexpected status code")
       | Err e => Err e
       | Panic s => Panic s
       end).

Lemma DoRequest_post endpoint alert w :
  DoRequest NewExpectStatusOk (NewAlertManagerPostAlertClient endpoint (AlertsBody [alert]) None) w = post_once endpoint alert w.
Proof.
  unfold DoRequest, doRequest, post_once, wbind, wlift, NewExpectStatusOk, fail_if. cbn [am_Retries am_Verb am_Body NewAlertManagerPostAlertClient].
  replace (ConstructHTTP (NewAlertManagerPostAlertClient endpoint (AlertsBody [alert]) None)) with (alerts_url endpoint).
  - destruct (http_Do POST (alerts_url endpoint) (AlertsBody [alert]) w) as [w' [[code body]| |]]; [|done..]. cbn. by destruct (code =? 200)%Z.
  - unfold alerts_url, ConstructHTTP, Construct. cbn [am_Endpoint am_Api am_Route NewAlertManagerPostAlertClient].
    replace (path_Join [api_v2; "/alerts"]) with "/api/v2/alerts" by by vm_compute. by destruct (HasPrefix _ _).
Qed.


(** ** Conditions on metrics *)

(** The ruler of Cortex: a rule group that it accepts is stored under its tenant, its
    namespace and its name, and a deletion that it accepts removes the group stored under
    them.  It may refuse both (a tenant that is missing, a group it finds invalid, an
    answer that is not an acceptance): then the group is as it was, or the request was
    carried out and only its answer was lost. *)
Definition ruler_change {A : Type} (groups : W -> gmap (string * string * string) RuleGroupYAMLv2) (w w' : W) (o : outcome A)
    (changed : gmap (string * string * string) RuleGroupYAMLv2) : Prop :=
  groups w' = changed \/ (is_Ok o = false /\ groups w' = groups w).

Class RulerLaws (groups : W -> gmap (string * string * string) RuleGroupYAMLv2) : Prop := {
  ruler_Load c n g y w w' o : yaml_Marshal g = Ok y -> cortex_LoadRules c n y w = (w', o) ->
    ruler_change groups w w' o (<[(c, n, rg_Name g) := g]> (groups w));
  ruler_Delete c n name w w' o : cortex_DeleteRule c n name w = (w', o) ->
    ruler_change groups w w' o (delete (c, n, name) (groups w)) }.

(** The alerting rule of a group: it carries the routing labels of the condition and
    reads the series that the other rule of the group records. *)
Definition rule_of_condition (cond : AlertCondition) (id : string) (g : RuleGroupYAMLv2) : Prop :=
  rg_Name g = CortexRuleIdFromUuid id /\
  exists alert recorded, rg_Rules g = [alert; recorded] /\ ru_Alert alert = id /\
    (forall k v, AlertCondition_GetRoutingLabels cond !! k = Some v -> ru_Labels alert !! k = Some v) /\
    HasPrefix (ru_Expr alert) (ru_Record recorded +:+ "{") = true /\ is_Ok (prom_ParseExpr (ru_Expr recorded)) = true.

Lemma AlertingRule_Build_Ok a id r :
  AlertingRule_Build a id = Ok r -> ru_Alert r = id /\ is_Ok (prom_ParseExpr (ru_Expr r)) = true.
Proof. unfold AlertingRule_Build. destruct (prom_ParseExpr _) eqn:E; [|done..]. intros [= <-]. cbn in *. by rewrite E. Qed.

Lemma cortex_rule_ok cond info id name rule g : cortex_rule cond info id name rule = Ok g -> rule_of_condition cond id g.
Proof.
  unfold cortex_rule, NewCortexAlertingRule. intros (r & [Ha Hp]%AlertingRule_Build_Ok & [= <-])%obind_Ok.
  split; [done|]. eexists _, _. split; [done|]. cbn [ru_Alert ru_Labels ru_Expr ru_Record]. split_and!; try done.
  - intros k v Hk. unfold lo_Assign. by apply lookup_union_Some_l.
  - rewrite <- str_app_assoc. apply HasPrefix_app.
Qed.

Section Ruler.
Context (groups : W -> gmap (string * string * string) RuleGroupYAMLv2) {RL : RulerLaws groups}.

(** The key of the rule group of a condition. *)
Abbreviation group_key r id := (ref_Id r, OpniAlertingCortexNamespace, CortexRuleIdFromUuid id).

(** What becomes of the ruler when a condition is set up. *)
Definition set_up (cond : AlertCondition) (id c : string) (p p' : P) (o : outcome unit) : Prop :=
  (is_Ok o = false /\ groups (pl_world p') = groups (pl_world p)) \/
  exists g, rule_of_condition cond id g /\
    groups (pl_world p') = <[group_key (mkReference c) id := g]> (groups (pl_world p)).

Lemma load_rule_set_up cond info id name rule c p p' o :
  load_rule c (cortex_rule cond info id name rule) p = (p', o) -> set_up cond id c p p' o.
Proof.
  unfold load_rule, wbind, wlift, set_up. destruct (cortex_rule _ _ _ _ _) as [g| |] eqn:Eg; [|by intros [= <- <-]; left..].
  destruct (yaml_Marshal g) as [y| |] eqn:Ey; [|by intros [= <- <-]; left..]. intros Hl.
  destruct (cortex_LoadRules c OpniAlertingCortexNamespace y (pl_world p)) as [w r] eqn:Ew.
  rewrite (on_plugin_eq _ _ _ _ Ew) in Hl. injection Hl as <- <-. cbn [with_world pl_world].
  pose proof (cortex_rule_ok _ _ _ _ _ _ Eg) as Hr. destruct (ruler_Load _ _ _ _ _ _ _ Ey Ew) as [Hw|Hw]; [right|by left].
  exists g. split; [done|]. rewrite Hw. by rewrite (proj1 Hr).
Qed.

Lemma setup_metrics req id r p p' o :
  handleSwitchCortexRules (ac_AlertType req) = Some r -> setupCondition req id p = (p', o) ->
  set_up req id (ref_Id r) p p' o.
Proof.
  unfold handleSwitchCortexRules, setupCondition. intros Hs H.
  destruct (ac_AlertType req) as [[]|]; try discriminate Hs; revert H.
  1: { injection Hs as <-. unfold handleKubeAlertCreation, wbind at 1, wlift at 1.
       match goal with |- context [match ?x with Ok _ => _ | Err _ => _ | Panic _ => _ end] => destruct x end;
         [|intros [= <- <-]; by left..]. apply load_rule_set_up. }
  all: intros E%load_rule_set_up; rewrite Hs in E; by destruct r.
Qed.

(** C27: Conditions on metrics.  When a condition on the metrics of a cluster is set up and
    the ruler accepts it, one rule group is loaded into the ruler of that cluster: it is
    named after the condition, its alert carries the labels by which Alertmanager routes
    the condition, and reads the series that the group records from a valid expression.
    When setting up fails, no other group is touched.  Deleting the condition asks the
    ruler for that group and no other: it is gone when the ruler accepts the deletion. *)
Theorem metrics_condition_lifecycle req id r p p' o :
  handleSwitchCortexRules (ac_AlertType req) = Some r -> setupCondition req id p = (p', o) ->
  (o = Ok tt -> exists g, rule_of_condition req id g /\
     groups (pl_world p') = <[group_key r id := g]> (groups (pl_world p))) /\
  (is_Ok o = false -> delete (group_key r id) (groups (pl_world p')) = delete (group_key r id) (groups (pl_world p))) /\
  (forall q q' d, deleteCondition req id q = (q', d) ->
     q' = with_world (pl_world q') q /\
     (d = Ok tt -> groups (pl_world q') = delete (group_key r id) (groups (pl_world q))) /\
     (is_Ok d = false -> groups (pl_world q') = groups (pl_world q) \/
                         groups (pl_world q') = delete (group_key r id) (groups (pl_world q)))).
Proof.
  intros Hs H. pose proof (setup_metrics _ _ _ _ _ _ Hs H) as Hset. destruct r as [r]. split_and!.
  - intros ->. by destruct Hset as [[? _]|Hset].
  - intros _. destruct Hset as [[_ ->]|(g & _ & ->)]; [done|]. by rewrite delete_insert_eq.
  - intros q q' d Hd. assert (on_plugin (cortex_DeleteRule r OpniAlertingCortexNamespace (CortexRuleIdFromUuid id)) q = (q', d)) as Hq.
    { revert Hd. unfold deleteCondition. destruct (ac_AlertType req) as [[]|]; try discriminate Hs; cbv beta iota; by rewrite Hs. }
    destruct (cortex_DeleteRule r OpniAlertingCortexNamespace (CortexRuleIdFromUuid id) (pl_world q)) as [w e] eqn:Ew.
    rewrite (on_plugin_eq _ _ _ _ Ew) in Hq. injection Hq as <- <-. cbn [with_world pl_world]. split; [done|].
    destruct (ruler_Delete _ _ _ _ _ _ Ew) as [Hw|[He Hw]]; cbn [ref_Id]; rewrite Hw; [auto|].
    split; [by intros ->|auto].
Qed.
End Ruler.
End Plugin.

(** ** A reference instance of the services of the alerting plugin over stores in memory,
    and the theorems about the evaluator and the handlers applied to it. *)

(** ** The conditions *)

Definition system_cond : AlertCondition :=
  ref_condition "cond1" (AT_System (mkAlertConditionSystem (Some (mkReference "agent")) None)) ["e1"; "e2"].
Definition query_cond : AlertCondition :=
  ref_condition "cond2" (AT_PrometheusQuery (mkAlertConditionPrometheusQuery (Some (mkReference "agent")) "up < 1"
     (Some (mkDuration 60 0)))) ["e1"].
Definition plugin_conds : list AlertCondition := [system_cond; query_cond].

(** ** The services *)

#[export] Instance Rule_eq_dec : EqDecision Rule.
Proof. solve_decision. Defined.
#[export] Instance RuleGroup_eq_dec : EqDecision RuleGroupYAMLv2.
Proof. solve_decision. Defined.

(** The rule group of the condition on metrics; it is the only one that has a text. *)
Definition query_group : RuleGroupYAMLv2 :=
  match cortex_rule query_cond (mkIndexableMetric "custom" "prometheus_query") "cond2" "cond2"
          (mkAlertingRule "" (PostProcessRuleString "up < 1") minute ∅ ∅) with
  | Ok g => g
  | _ => mkRuleGroup "" 0 []
  end.

Definition RuleGroups : Type := gmap (string * string * string) RuleGroupYAMLv2.
Abbreviation PW := (MemStores RuleGroups).
Definition set_rest (r : RuleGroups) (w : PW) : PW :=
  mkMemStores (ms_conds w) (ms_endps w) (ms_states w) (ms_incidents w) r.

#[export] Instance ref_alert_services : AlertServices PW := {|
  wall_Now w := (w, hour);
  NewAlertingRefId w := (w, "cond2");
  ops_GetClusterStatus w := (w, Ok Installed);
  ops_GetRuntimeOptions w := (w, Ok tt);
  ops_GetAvailableEndpoint w := (w, Ok "alertmanager:9093");
  ops_SendManualSyncRequest _ w := (w, Ok tt);
  mgmt_ListClusters w := (w, Ok []);
  cortexOps_GetClusterStatus w := (w, Ok Installed);
  cortex_LoadRules c n y w :=
    if decide (y = "group") then (set_rest (<[(c, n, rg_Name query_group) := query_group]> (ms_rest w)) w, Ok tt)
    else (w, Err (ErrorString "bad request"));
  cortex_DeleteRule c n g w := (set_rest (delete (c, n, g) (ms_rest w)) w, Ok tt);
  yaml_Marshal g := if decide (g = query_group) then Ok "group" else Err (ErrorString "yaml");
  json_PostSilencesResponse _ := Ok (Some "silence");
  json_Alerts _ := Ok None;
  json_Receivers _ := Ok None;
  regexp_MatchString _ _ := false;
  xxh3_HashString _ := 0%Z |}.

#[export] Instance ref_http_client : HttpClient PW := {| http_Do _ _ _ w := (w, Ok (200, "")%Z) |}.

#[export] Instance ref_service_laws : ServiceLaws PW mem_view.
Proof. split; intros; try done. intros w. cbn. by destruct (decide (y = "group")). Qed.

#[export] Instance ref_ruler_laws : RulerLaws (W := PW) ms_rest.
Proof.
  split; unfold ruler_change; cbn -[query_group].
  - intros c n g y w w' o. destruct (decide (g = query_group)) as [->|]; [|done]. intros [= <-] [= <- <-]. by left.
  - intros c n name w w' o [= <- <-]. by left.
Qed.

#[export] Instance ref_stream_codec : StreamCodec := {|
  json_HealthStatus _ := None;
  json_CortexStatus _ := None |}.

(** ** The plugin *)

Definition plugin_world : PW :=
  mkMemStores {[ "cond1" := system_cond; "cond2" := query_cond ]}
    {[ "e1" := slack_endpoint; "e2" := email_endpoint complete_host ]} ∅ ∅ ∅.
Definition ref_plugin : Plugin PW := mkPlugin plugin_world NewMessagingNode [] 0 ∅.

Definition ids_okb {A} (m : gmap string A) : bool := forallb (fun kv => plain_component kv.1) (map_to_list m).
Lemma ids_okb_ok {A} (m : gmap string A) : ids_okb m = true -> ids_ok m.
Proof.
  unfold ids_okb. rewrite forallb_forall. intros H k v Hk%elem_of_map_to_list. apply (H (k, v)). by apply list_elem_of_In.
Qed.

Lemma plugin_world_ok : av_ok plugin_world.
Proof. split_and!; apply ids_okb_ok; vm_compute; reflexivity. Qed.

Lemma plugin_world_keyed : conds_keyed plugin_world.
Proof.
  intros k c. cbn. intros [[<- <-]|[_ [<- <-]%lookup_singleton_Some]]%lookup_insert_Some; done.
Qed.

(** ** The evaluator *)

Definition ref_health (healthy : bool) (now : Time) (_ : string) : outcome (bool * option Time) := Ok (healthy, Some now).
Definition id_hook (w : PW) : PW := w.
Abbreviation ref_exec healthy := (exec (CS := mem_client hour) "cond1" minute (ref_health healthy) id_hook id_hook).

Lemma id_hook_keeps (w : PW) : av_ok w -> av_ok (id_hook w) /\ states (id_hook w) = states w /\ incidents (id_hook w) = incidents w.
Proof. done. Qed.

Lemma minute_nonneg : (0 <= minute)%Z.
Proof. by vm_compute. Qed.
Lemma second_within_minute : (0 <= second <= minute)%Z.
Proof. split; by vm_compute. Qed.

Lemma exec_hooks {A B} (o : option (A * B)) b : snd <$> o = Some b -> exists a, o = Some (a, b).
Proof. destruct o as [[a b']|]; [|done]. intros [= <-]. by exists a. Qed.

(** An agent that reports that it is unhealthy, and an hour that passes. *)
Definition idle_eval (w : PW) : EvalState PW := mkEvalState w false false hour.
Definition unhealthy_run : list sched := [Subscribed; Message "report"; StepSub; StepSub; StepSub; Pass hour; Tick] ++ eval_steps 10.

Lemma unhealthy_run_hooks : snd <$> ref_exec false unhealthy_run (started (idle_eval plugin_world)) = Some [(true, 2 * hour)%Z].
Proof. vm_compute. reflexivity. Qed.

Lemma alerts_have_a_cause_witness :
  exists c, cause "cond1" (ref_health false) unhealthy_run (idle_eval plugin_world) c /\ (c + minute < 2 * hour)%Z.
Proof.
  destruct (exec_hooks _ _ unhealthy_run_hooks) as [y E].
  apply (alerts_have_a_cause (ttl := hour) "cond1" minute (ref_health false) id_hook id_hook eq_refl
    minute_nonneg id_hook_keeps id_hook_keeps unhealthy_run (idle_eval plugin_world) y _ (2 * hour)%Z plugin_world_ok E).
  by apply list_elem_of_singleton.
Defined.

(** A condition that has been unhealthy for an hour. *)
Definition stale_state : CachedState := mkCachedState false false (Some 0%Z).
Definition stale_world : PW := set_states {[ "cond1" := stale_state ]} plugin_world.
Definition recovery_run : list sched :=
  (Tick :: eval_steps 10) ++ (Pass second :: Tick :: eval_steps 3) ++ (Message "report" :: sub_steps 3) ++ (Pass hour :: Tick :: eval_steps 2).

Lemma stale_world_ok : av_ok stale_world.
Proof. split_and!; apply ids_okb_ok; vm_compute; reflexivity. Qed.

Lemma recovery_run_hooks :
  snd <$> ref_exec true recovery_run (mkSys (idle_eval stale_world) SubReading Done true Done) = Some [(true, hour)].
Proof. vm_compute. reflexivity. Qed.

Lemma ref_reports_healthy data : reports_healthy (ref_health true) data.
Proof. intros now. by eexists. Qed.


(** ** The handlers *)

Lemma deleted_endpoint_is_detached_witness :
  exists w' refs, DeleteAlertEndpoint (CS := mem_client hour) (Some (mkReference "e1")) true ref_plugin =
      (with_world w' ref_plugin, Ok refs) /\
    endps w' = delete "e1" (endps plugin_world) /\ conds w' = detach "e1" <$> conds plugin_world.
Proof.
  destruct (deleted_endpoint_is_detached (CS := mem_client hour) (ttl := hour) ref_plugin "e1" slack_endpoint plugin_world_ok plugin_world_keyed
    eq_refl eq_refl) as [(w' & refs & E & _ & He & Hc & _) _].
  exists w', refs. split_and!; assumption.
Defined.

Definition plugin_endps : list AlertEndpoint := ref_endps complete_host.
Definition plugin_router : OpniRouterV1 := (route_all plugin_conds plugin_endps (NewOpniRouterV1 ref_hook)).1.
Definition plugin_config : Config :=
  match BuildConfig ref_http (ref_ranges plugin_router) plugin_router with
  | Ok c => c | _ => mkConfig None None [] [] [] [] []
  end.
Lemma plugin_routed : route_all plugin_conds plugin_endps (NewOpniRouterV1 ref_hook) = (plugin_router, Ok tt).
Proof. refine (run_eq (route_all plugin_conds plugin_endps (NewOpniRouterV1 ref_hook)) _). vm_compute. reflexivity. Qed.
Lemma plugin_built : BuildConfig ref_http (ref_ranges plugin_router) plugin_router = Ok plugin_config.
Proof. apply ok_eq. vm_compute. reflexivity. Qed.
Lemma plugin_ids : NoDup (condition_id <$> plugin_conds).
Proof. apply (bool_decide_eq_true_1 _). vm_compute. reflexivity. Qed.

Definition plugin_loaded : Config := match load_Config ref_http plugin_config with Ok c => c | _ => zero_Config end.
Lemma plugin_loads : load_Config ref_http plugin_config = Ok plugin_loaded.
Proof. apply ok_eq. vm_compute. reflexivity. Qed.
Lemma plugin_ids_ascii : forall x, x ∈ plugin_conds -> ascii_text (condition_id x) = true.
Proof. intros x. unfold plugin_conds. rewrite elem_of_cons, list_elem_of_singleton. by intros [-> | ->]. Qed.


Definition after_setup : Plugin PW := (setupCondition (CS := mem_client hour) query_cond "cond2" ref_plugin).1.
Lemma query_setup : setupCondition (CS := mem_client hour) query_cond "cond2" ref_plugin = (after_setup, Ok tt).
Proof. refine (run_eq (setupCondition (CS := mem_client hour) query_cond "cond2" ref_plugin) _). vm_compute. reflexivity. Qed.

Definition after_delete : Plugin PW := (deleteCondition (CS := mem_client hour) query_cond "cond2" after_setup).1.
Lemma query_deletion : deleteCondition (CS := mem_client hour) query_cond "cond2" after_setup = (after_delete, Ok tt).
Proof. refine (run_eq (deleteCondition (CS := mem_client hour) query_cond "cond2" after_setup) _). vm_compute. reflexivity. Qed.

Lemma metrics_condition_lifecycle_witness :
  (exists g, rule_of_condition query_cond "cond2" g /\
     ms_rest (pl_world after_setup) = <[("agent", "opni-alerting", "cond2-opni-alerting") := g]> ∅) /\
  ms_rest (pl_world after_delete) = delete ("agent", "opni-alerting", "cond2-opni-alerting") (ms_rest (pl_world after_setup)).
Proof.
  destruct (metrics_condition_lifecycle (CS := mem_client hour) (W := PW) ms_rest query_cond "cond2" (mkReference "agent")
    ref_plugin after_setup (Ok tt) eq_refl query_setup) as (Hg & _ & Hd).
  split; [exact (Hg eq_refl)|]. exact (proj1 (proj2 (Hd _ _ _ query_deletion)) eq_refl).
Defined.
